(* ===== verification/_CoqProject ===== *)
-Q . S2P
Prelude.v
CMem.v
TypeDefs.v
Pes.v
TsMux.v
TsMuxSpec.v
TsDemux.v
TsRoundTrip.v
PsMux.v
PsMuxSpec.v
PsDemux.v
PsRoundTrip.v
G711.v
Amf.v
AmfSpec.v
AmfRoundTrip.v
AmfSafety.v
AmfTyped.v
Amf3Spec.v
RtmpTypes.v
Rtmp.v
RtmpInvoke.v
RtmpSpec.v
RtmpRead.v
RtmpRoundTrip.v
RtmpSafety.v
RtmpErrors.v
Tea.v
TeaSpec.v
RtmpSession.v
RtmpMessages.v
SipTypes.v
SipMessage.v
SipUri.v
SipFsm.v
SipStack.v
SipOwnership.v
SipUriSpec.v
SipUriParse.v
SipUriRoundTrip.v
SipUriTheorems.v
RtmpUrl.v
RtmpUrlSpec.v
SipHeaders.v
SipHeadersParse.v
SipHeadersRoundTrip.v
SipViaRoundTrip.v
Md5.v
Md5Spec.v
AesTables.v
Rijndael.v
AesSpec.v
AesRefines.v
Digest.v
Base64Spec.v
DigestSpec.v
SipSpec.v
SipRefine.v
SipSafety.v
SipStackSafety.v
SipDialog.v
SipDialogSafety.v
SipReachable.v
SipTimers.v
SipTimeout.v
SipTheorems.v
SipDialogTheorems.v
SipExamples.v
SipDialogExamples.v
