(* ===== verification/Prelude.v ===== *)
(** * Media containers, codecs, RTMP and SIP: a verification library

    This library models C code of the repository and proves what it does.  It covers four
    parts that do not call each other but share one way of modelling C:

    - MPEG transport and program streams (src/file/libmpeg): multiplexers, demultiplexers,
      PES packets;
    - G.711 companding (src/codec/g711);
    - RTMP (src/protocol/rtmp/rtmpdump-master/librtmp): the AMF codec and the sessions of
      rtmp.c on top of it;
    - SIP (src/protocol/osip): of libosip2-5.0.0 the four state machines, the stack that runs
      them, URIs, the headers that transactions are made of, and MD5; of libexosip2-5.0.0 the
      digest authentication, with AES and the functions of 3GPP.

    ** How the code is modelled

    Every C function is a Rocq function of the same name (a leading double underscore is
    dropped, a loop is a function named after what it does); the manifest gives the lines.
    State is passed explicitly.  An access out of bounds, a read of released memory or a
    dereferenced [NULL] is not an error value but undefined behaviour: [None] for functions
    that cannot run out of anything else, [Undef] of the type [outcome] for those that may
    also not return ([Unfinished]: a socket that never gives what is waited for, or a loop
    whose fuel is used up).  A theorem of the form [returns x Q], or one that gives the
    result by an equation, therefore says that the code neither does anything undefined nor
    runs on.  Machine integers are [Z] with the conversions of C written out ([u8] to [u64],
    [s8] to [s32]); where a sum may leave its type, the model either wraps it as C does or is
    [Undef] as in C.  Three values are simpler than in C: the continuity counters of the
    multiplexers are unbounded and only masked when they are written (the [int] of the code
    overflows after 2^31 packets of one stream); the type of an AMF property that nobody has
    initialised is AMF_INVALID, where C has any value; and the left shift of a negative byte
    in [BUF2S16] gives the product, which C leaves undefined.

    Assumptions that hold for all parts: LP64, little-endian, signed [char]; [malloc]
    succeeds; a [size_t] or [int] length that comes from the caller fits; log and trace calls
    have no effect.

    ** The files

    Shared: Prelude (notations, [outcome], machine integers, lists, tactics, hints) and CMem
    (byte buffers with checked accesses, windows, packed structures of bit-fields).

    MPEG (all of typedefs.h, pes.h, pes.c, tsmux.c, tsdemux.c, psmux.c, psdemux.c):
    - TypeDefs: the structures; Pes: the headers of PES packets, with their round trip;
    - TsMux, TsDemux: the models of the transport stream; TsMuxSpec: the CRC and the packets
      that are written, byte by byte; TsRoundTrip: the demultiplexer on these packets;
    - PsMux, PsDemux, PsMuxSpec, PsRoundTrip: the same for the program stream.

    G711: both laws, their tables and their conversions, with the error of quantisation,
    monotony, and the equivalence of the tables with the functions (all of g711.c and
    g711_table.c).

    AMF (amf.c but for the functions that print):
    - Amf: the readers and writers; AmfSpec: the reference encoding; AmfRoundTrip: decoding
      gives back what was encoded; AmfSafety: bounds and termination, on any input that has five
      zero bytes behind it and an AMF3 decoder that returns; AmfTyped: decoded objects are
      well typed; Amf3Spec: AMF3 integers and classes.

    RTMP sessions (rtmp.c on a plain TCP connection):
    - RtmpTypes: the session, with a heap of packet bodies and the socket as two scripts (what
      [recv] gives, what [send] takes); Rtmp: sending and closing; RtmpInvoke: the messages a
      client sends; RtmpRead: reading chunks; RtmpSession: what a client does with messages;
      Tea: the token;
    - RtmpSpec: the chunk stream, and that it is what is sent; RtmpRoundTrip: the receiver
      reads it back; RtmpSafety: ownership of the bodies, and that reading is safe; RtmpErrors:
      where it is not; RtmpMessages: messages of a client and the answers to a server;
      TeaSpec: XXTEA on words, with published vectors, the encryption that
      [DecodeTEA] undoes.

    SIP URIs (src/osipparser2/osip_uri.c and what it uses of osip_port.c):
    - SipUri: the parser and the printers, on strings with checked positions and buffers of a
      size; SipUriSpec: the text that is printed; SipUriParse: the parser returns on every
      text; SipUriRoundTrip: it reads back what was printed; SipUriTheorems: the printer on
      every URI, what the parser loses, examples.

    SIP headers (osip_from.c, osip_via.c, osip_call_id.c, osip_cseq.c, osip_contact.c and the
    quoted strings of osip_port.c and osip_authorization.c):
    - SipHeaders: parsers and printers; SipHeadersParse: quoted strings, and that the parsers
      return on every text; SipHeadersRoundTrip: From and To; SipViaRoundTrip: Via.

    RTMP addresses (parseurl.c): RtmpUrl, the parser and that it returns; RtmpUrlSpec, that it
    finds the parts of an address.  They use the strings of SipUri.

    SIP authentication (osip_md5c.c; of libexosip2-5.0.0 jauth.c, rijndael.c, milenage.c):
    - Md5: the code; Md5Spec: RFC 1321 on whole messages, and that the code computes it;
    - AesTables, Rijndael: the code and its tables; AesSpec: FIPS 197 and TS 35.206;
      AesRefines: the code computes what they define;
    - Digest: digests, base 64, AKA and the header of credentials; Base64Spec: RFC 4648;
      DigestSpec: the responses of RFC 2617 and RFC 3310, and where the code leaves them.

    SIP (src/osip2 but for threads and locks; of src/osipparser2 what these call):
    - SipTypes: messages, transactions, the stack; SipMessage: look-ups, copies and
      comparisons of headers; SipFsm: the handlers and the tables of the state machines, and
      the execution of one event; SipStack: creation, matching, execution, timers,
      retransmissions and the end of transactions;
    - SipSpec: the machines of RFC 3261 as a relation, and the invariant of a transaction;
      SipOwnership: the accounting of messages; SipRefine: each handler is a step of the
      machine; SipSafety: so is the execution of an event, and a transaction ends once;
      SipStackSafety: the invariant of the stack and each operation; SipReachable: all runs of
      an application; SipTimers: the retransmissions of an INVITE and its end; SipTimeout: the
      time the stack may sleep; SipTheorems: the theorems on one transaction, the ACK and the
      dispatch of messages; SipExamples: the theorems at concrete runs;
    - SipDialog: the dialogs of osip_dialog.c, and the end of the retransmissions of a 2xx;
      SipDialogSafety: looking for the dialog of a request goes well, and keeps the invariant of
      the stack; SipDialogTheorems: the two ends of a dialog, its development, the ACK of a
      2xx; SipDialogExamples: these at concrete states.

    ** What the theorems show

    - Round trips: the two MPEG multiplexers against their demultiplexers, PES headers, AMF
      objects, SIP URIs and headers, base 64, RTMP addresses and chunk streams (across pieces
      of any size), G.711 codes, the token.
    - Refinement: the CRC against polynomial division; SIP transactions against the machines of
      RFC 3261, with the deviations of the code as steps of their own; MD5
      in pieces against RFC 1321 on the whole; the dialogs of both ends against each other; AES with its tables against FIPS 197; the
      functions of 3GPP against TS 35.206; the response of a client against RFC 2617.
    - Safety on any input, with the exact slack where the code reads past what it was given:
      demultiplexers, AMF decoders, reading RTMP chunks, the parsers of RTMP addresses, SIP URIs
      and headers, every run of the SIP stack.
    - Functional behaviour: what is written, byte by byte; what a ping or the end of a session
      leads to; the ACK; which transaction or dialog a message goes to; when the stack wakes
      up; what an ACK ends.
    - Bounds, termination and liveness: quantisation error, AMF decoding, seven sendings of an
      INVITE and its end after 32 seconds.
    - Errors: the inputs on which the code loses data or goes wrong, as theorems, where
      modelling showed them; the manifest lists them.

    ** Fuel and bounds

    The loops of the MPEG code run as often as their counters say (entries, packets, bytes).
    The AMF decoders take fuel, one unit for each level and each member; the theorems say how
    much is enough (one more than the length of the input) and give results, never "if it returns".
    The loops of the parsers of URIs and headers have the length of the text as fuel, or one
    more; MD5 takes a block of 64 bytes per round and base 64 a group of four characters.
    [ReadN] and [WriteN] consume one entry of their script in each round, and end with
    [Unfinished] when it is used up, which stands for a call that does not return.  The events
    of a SIP transaction are drained with their
    number as fuel; handlers add none.  Transaction numbers are below 2^31 - 1 and AMF objects within their
    buffers as the hypotheses say.

    ** Where the environment enters

    RTMP: the socket is the two scripts; strings ([AVal]) are snapshots of what they point
    to.  SIP: the transport is the list of results
    that [cb_send_message] will give, time stands still within one call and advances between
    calls; callbacks only observe; every callback is set; messages come with what the parser
    guarantees ([msg_ok]: names of parameters, method and URI of a request, method of a CSeq).
    Authentication: bytes of the stack that nobody has written are an argument, and the
    theorems say where they reach the result.  Dialogs lie in the memory of the application,
    a map of addresses; the stack keeps addresses only.
    The build is the one for sockets that do not block (USE_BLOCKINGSOCKET, MINISIZE,
    HAVE_DICT_DICT_H, FWDSUPPORT and AC_BUG are not defined).  The locks of the stack are left
    out: an operation is atomic, as each is under its lock.  Timer lengths are unbounded
    integers; the theorems show the values that occur.

    ** Not modelled

    C++ code (players, RTP, RTSP, the RTMP server, file formats); libeXosip2 but for the
    files above (sockets, TLS, threads, its own calls and registrations; of jauth.c the list
    of nonces) and State Threads (context switches); of librtmp the handshake, RTMPT,
    SendConnectPacket, the options of an address and the FLV layer of [RTMP_Read] and
    [RTMP_Write]; of libosip2 the parsers and printers of whole messages, of the other headers
    and of SDP, and the primitives of the system; the command line programs. *)

From Stdlib Require Import Btauto ZArith Lia.
From stdpp Require Import base list option numbers.

Local Open Scope Z_scope.

(** ** Notations *)

Declare Scope c_scope.
Delimit Scope c_scope with c.

(** Sequencing of computations that may hit undefined behaviour ([None]). *)
Notation "'let*' p := e 'in' k" :=
  (match e with Some x => (match x with p => k end) | None => None end)
    (at level 10, p pattern, e at level 200, k at level 200,
     format "'[v' 'let*'  p  :=  e  'in' '/' k ']'") : c_scope.

Open Scope c_scope.

(** ** Outcomes

    [Undef] is undefined behaviour (an access outside a buffer, a value never initialised,
    memory that was released), [Unfinished] that the fuel of the model did not suffice or
    that a call of the outside does not return. *)

Inductive outcome (A : Type) : Type := Done (a : A) | Undef | Unfinished.
Arguments Done {A} _.
Arguments Undef {A}.
Arguments Unfinished {A}.

Notation "'let!' p := e 'in' k" :=
  (match e with Done x => (match x with p => k end) | Undef => Undef | Unfinished => Unfinished end)
    (at level 10, p pattern, e at level 200, k at level 200,
     format "'[v' 'let!'  p  :=  e  'in' '/' k ']'") : c_scope.

Definition lift {A} (o : option A) : outcome A :=
  match o with Some a => Done a | None => Undef end.

(** ** Machine integers *)

(** Conversion to an unsigned, respectively signed, integer of [w] bits. *)
Definition uwrap (w z : Z) : Z := z mod 2 ^ w.
Definition swrap (w z : Z) : Z :=
  let u := uwrap w z in if u <? 2 ^ (w - 1) then u else u - 2 ^ w.

Abbreviation u8 := (uwrap 8).
Abbreviation u16 := (uwrap 16).
Abbreviation u32 := (uwrap 32).
Abbreviation u64 := (uwrap 64).
Abbreviation s8 := (swrap 8).
Abbreviation s16 := (swrap 16).
Abbreviation s32 := (swrap 32).

(** [z] is representable as an unsigned integer of [w] bits. *)
Definition is_u (w z : Z) : Prop := 0 <= z < 2 ^ w.

Abbreviation byte := (is_u 8).
Abbreviation bytes := (Forall (is_u 8)).

(** Length of a buffer as an integer. *)
Definition zlen {A} (l : list A) : Z := Z.of_nat (length l).

(** C truth values. *)
Definition truthy (z : Z) : bool := negb (z =? 0).

Create HintDb cint.

Lemma is_u_uwrap w z : 0 <= w -> is_u w (uwrap w z).
Proof. intros. unfold is_u, uwrap. apply Z.mod_pos_bound. lia. Qed.

Lemma uwrap_id w z : is_u w z -> uwrap w z = z.
Proof. unfold is_u, uwrap. intros. apply Z.mod_small. lia. Qed.

Lemma uwrap_uwrap w z : 0 <= w -> uwrap w (uwrap w z) = uwrap w z.
Proof. intros. apply uwrap_id, is_u_uwrap. lia. Qed.

Lemma uwrap_land w z : 0 <= w -> uwrap w z = Z.land z (Z.ones w).
Proof. intros. unfold uwrap. rewrite Z.land_ones by lia. done. Qed.

Lemma swrap_small w z : 0 < w -> is_u (w - 1) z -> swrap w z = z.
Proof.
  intros Hw [H0 H1]. unfold swrap, uwrap.
  assert (2 ^ w = 2 * 2 ^ (w - 1)) as E.
  { rewrite <- Z.pow_succ_r by lia. f_equal. lia. }
  rewrite Z.mod_small by lia.
  destruct (Z.ltb_spec z (2 ^ (w - 1))); lia.
Qed.

Lemma uwrap_swrap w z : 0 < w -> uwrap w (swrap w z) = uwrap w z.
Proof.
  intros. unfold swrap. case_match; [apply uwrap_uwrap; lia|].
  unfold uwrap at 1 3. rewrite Zminus_mod, Z_mod_same_full, Z.sub_0_r.
  unfold uwrap. rewrite !Z.mod_mod; [done|lia..].
Qed.

Lemma swrap_range w z : 0 < w -> - 2 ^ (w - 1) <= swrap w z < 2 ^ (w - 1).
Proof.
  intros. unfold swrap.
  pose proof (is_u_uwrap w z ltac:(lia)) as [? ?].
  assert (2 ^ w = 2 * 2 ^ (w - 1)) as E.
  { rewrite <- Z.pow_succ_r by lia. f_equal. lia. }
  destruct (Z.ltb_spec (uwrap w z) (2 ^ (w - 1))); lia.
Qed.

#[export] Hint Resolve is_u_uwrap : cint.

(** ** Bit-level reasoning *)

Lemma testbit_uwrap w z i :
  0 <= w -> 0 <= i -> Z.testbit (uwrap w z) i = (i <? w) && Z.testbit z i.
Proof.
  intros. unfold uwrap. destruct (Z.ltb_spec i w).
  - by rewrite Z.mod_pow2_bits_low by lia.
  - by rewrite Z.mod_pow2_bits_high by lia.
Qed.

Lemma testbit_high w z i : is_u w z -> 0 <= w <= i -> Z.testbit z i = false.
Proof.
  intros Hz Hw. rewrite <- (uwrap_id w z) by done.
  rewrite testbit_uwrap by lia. destruct (Z.ltb_spec i w); [lia|done].
Qed.

Lemma is_u_bits w z :
  0 <= w -> 0 <= z -> (forall i, w <= i -> Z.testbit z i = false) -> is_u w z.
Proof.
  intros Hw Hz H. split; [done|].
  destruct (Z.eq_dec z 0) as [->|]; [lia|].
  destruct (Z.lt_ge_cases z (2 ^ w)) as [|Hge]; [done|].
  pose proof (Z.log2_le_mono _ _ Hge) as Hl. rewrite Z.log2_pow2 in Hl by lia.
  specialize (H (Z.log2 z) Hl). rewrite Z.bit_log2 in H by lia. done.
Qed.

Lemma is_u_lor w a b : 0 <= w -> is_u w a -> is_u w b -> is_u w (Z.lor a b).
Proof.
  intros Hw [? ?] [? ?]. apply is_u_bits; [done|by apply Z.lor_nonneg|].
  intros i Hi. rewrite Z.lor_spec.
  by rewrite (testbit_high w a), (testbit_high w b).
Qed.

Lemma is_u_land_r w a b : 0 <= w -> is_u w b -> is_u w (Z.land a b).
Proof.
  intros Hw [? ?]. apply is_u_bits; [done|apply Z.land_nonneg; auto|].
  intros i Hi. rewrite Z.land_spec. by rewrite (testbit_high w b), andb_false_r.
Qed.

Lemma is_u_land_l w a b : 0 <= w -> is_u w a -> is_u w (Z.land a b).
Proof. intros. rewrite Z.land_comm. by apply is_u_land_r. Qed.

Lemma is_u_shiftr w a k : 0 <= w -> 0 <= k -> is_u w a -> is_u w (Z.shiftr a k).
Proof.
  intros Hw Hk [? ?]. apply is_u_bits; [done|by apply Z.shiftr_nonneg|].
  intros i Hi. rewrite Z.shiftr_spec by lia. apply (testbit_high w); [done|lia].
Qed.

Lemma is_u_shiftl w v a k :
  0 <= v -> 0 <= k -> v + k <= w -> is_u v a -> is_u w (Z.shiftl a k).
Proof.
  intros Hv Hk Hw [? ?]. apply is_u_bits; [lia|by apply Z.shiftl_nonneg|].
  intros i Hi. rewrite Z.shiftl_spec by lia. apply (testbit_high v); [done|lia].
Qed.

Lemma is_u_weaken v w a : v <= w -> is_u v a -> is_u w a.
Proof.
  intros Hv [? ?]. split; [done|].
  pose proof (Z.pow_le_mono_r 2 v w ltac:(lia) Hv). lia.
Qed.

(** Two [w]-bit integers that agree on their first [w] bits are equal. *)
Lemma eq_bits w a b :
  0 <= w -> is_u w a -> is_u w b ->
  Forall (fun i => Z.testbit a i = Z.testbit b i) (seqZ 0 w) -> a = b.
Proof.
  intros Hw Ha Hb H. apply Z.bits_inj'. intros i Hi.
  destruct (Z.lt_ge_cases i w).
  - apply (proj1 (Forall_forall _ _) H), list_elem_of_In, elem_of_seqZ. lia.
  - by rewrite (testbit_high w a), (testbit_high w b) by (done || lia).
Qed.

Lemma is_u_0 w : 0 <= w -> is_u w 0.
Proof. intros. split; [lia|]. apply Z.pow_pos_nonneg; lia. Qed.

(** Closed range goals are decided by computation. *)
Ltac is_u_const := split; [vm_compute; discriminate|vm_compute; reflexivity].
Ltac le_const := vm_compute; discriminate.

#[export] Hint Resolve is_u_lor is_u_shiftr : cint.
#[export] Hint Extern 1 (0 <= _) => le_const : cint.
#[export] Hint Extern 1 (_ <= _) => le_const : cint.
#[export] Hint Extern 1 (is_u _ 0) => apply is_u_0 : cint.
#[export] Hint Extern 1 (is_u _ (Zpos _)) => is_u_const : cint.
#[export] Hint Extern 1 (is_u _ (Z.ones _)) => is_u_const : cint.
#[export] Hint Extern 3 (is_u _ (Z.land _ _)) =>
  first [apply is_u_land_r; [le_const|solve [eauto 20 with cint]]
        |apply is_u_land_l; [le_const|solve [eauto 20 with cint]]] : cint.
#[export] Hint Extern 3 (is_u ?w (Z.shiftl ?a ?k)) =>
  let v := eval vm_compute in (w - k) in
  apply (is_u_shiftl w v a k); [le_const|le_const|le_const|] : cint.
#[export] Hint Extern 4 (is_u ?w (uwrap ?v _)) =>
  apply (is_u_weaken v w); [le_const|apply is_u_uwrap; le_const] : cint.

(** [bits n] proves an equality of two integers of at most [n] bits built from
    the C bit operators: the range goals go to [cint], and each bit is computed. *)
Ltac bit_norm :=
  repeat first
    [ rewrite Z.lor_spec | rewrite Z.land_spec | rewrite Z.lxor_spec
    | rewrite Z.ldiff_spec
    | rewrite Z.shiftr_spec by le_const | rewrite Z.shiftl_spec by le_const
    | rewrite testbit_uwrap by le_const ];
  repeat match goal with
  | |- context [Z.testbit ?a (?i + ?k)] =>
      let j := eval vm_compute in (i + k) in change (Z.testbit a (i + k)) with (Z.testbit a j)
  | |- context [Z.testbit ?a (?i - ?k)] =>
      let j := eval vm_compute in (i - k) in change (Z.testbit a (i - k)) with (Z.testbit a j)
  end.

Ltac bit_consts :=
  repeat match goal with
  | |- context [Z.testbit ?a (Zneg ?i)] => rewrite (Z.testbit_neg_r a (Zneg i)) by (vm_compute; reflexivity)
  | |- context [Z.testbit (Zpos ?p) ?i] =>
      let b := eval vm_compute in (Z.testbit (Zpos p) i) in
      change (Z.testbit (Zpos p) i) with b
  | |- context [Z.testbit 0 ?i] => rewrite (Z.testbit_0_l i)
  | |- context [Z.testbit (Z.ones ?w) ?i] =>
      let b := eval vm_compute in (Z.testbit (Z.ones w) i) in
      change (Z.testbit (Z.ones w) i) with b
  | |- context [?i <? ?k] =>
      let b := eval vm_compute in (i <? k) in change (i <? k) with b
  end.

Ltac bit_solve :=
  repeat (progress (bit_norm; bit_consts));
  rewrite ?andb_false_r, ?andb_true_r, ?orb_false_r, ?orb_true_r, ?andb_false_l,
    ?andb_true_l, ?orb_false_l, ?orb_true_l, ?xorb_false_r, ?xorb_false_l;
  try reflexivity; try btauto.

Ltac bits w :=
  apply (eq_bits w);
  [ vm_compute; discriminate | eauto 20 with cint | eauto 20 with cint
  | let l := eval vm_compute in (seqZ 0 w) in change (seqZ 0 w) with l;
    repeat (apply List.Forall_cons; [bit_solve|]); apply List.Forall_nil ].

(** A decidable property of a bounded integer is checked by enumeration. *)
Lemma forall_range (f : Z -> bool) lo n z :
  forallb f (seqZ lo n) = true -> lo <= z < lo + n -> f z = true.
Proof.
  intros H Hz. rewrite forallb_forall in H. apply H, list_elem_of_In, elem_of_seqZ. done.
Qed.

Lemma forallb_Forall {A} (f : A -> bool) l : forallb f l = true -> Forall (fun x => f x = true) l.
Proof. intros H. apply Forall_forall. intros x Hx. apply (proj1 (forallb_forall f l) H), Hx. Qed.

Lemma bytes_check l : forallb (fun x => (0 <=? x) && (x <? 256)) l = true -> bytes l.
Proof.
  induction l as [|x l IH]; simpl; [constructor|]. intros H.
  apply andb_prop in H as [H Hl]. apply andb_prop in H as [H0 H1].
  constructor; [|auto]. apply Z.leb_le in H0. apply Z.ltb_lt in H1. by split.
Qed.

(** Combining the bytes of a big-endian integer. *)
Lemma lor_shiftl_add a y k :
  0 <= k -> is_u k y -> Z.lor (Z.shiftl a k) y = Z.shiftl a k + y.
Proof.
  intros Hk Hy. assert (Z.land (Z.shiftl a k) y = 0) as L.
  { apply Z.bits_inj'. intros i Hi. rewrite Z.land_spec, Z.shiftl_spec, Z.testbit_0_l by lia.
    destruct (Z.lt_ge_cases i k).
    - by rewrite (Z.testbit_neg_r _ (i - k)) by lia.
    - by rewrite (testbit_high k y), andb_false_r by (done || lia). }
  by rewrite <- (Z.lxor_lor _ _ L), <- (Z.add_nocarry_lxor _ _ L).
Qed.

(** Enumeration of long ranges: [f] holds on [z], [z + 1], ..., [z + n - 1]. *)
Fixpoint check_from (f : Z -> bool) (n : nat) (z : Z) : bool :=
  match n with
  | O => true
  | S n => if f z then check_from f n (z + 1) else false
  end.

Lemma check_from_spec f n : forall lo z,
  check_from f n lo = true -> lo <= z < lo + Z.of_nat n -> f z = true.
Proof.
  induction n as [|n IH]; intros lo z H Hz; [lia|]. simpl in H.
  destruct (f lo) eqn:E; [|done]. destruct (Z.eq_dec z lo) as [->|]; [done|].
  apply (IH (lo + 1)); [done|lia].
Qed.

(** A relation checked between neighbours and transitive holds along the range. *)
Lemma monotone_range (g : Z -> Z) lo n :
  check_from (fun x => g x <=? g (x + 1)) n lo = true ->
  forall x y, lo <= x -> x <= y -> y <= lo + Z.of_nat n -> g x <= g y.
Proof.
  intros H x y Hx Hxy Hy. remember (Z.to_nat (y - x)) as k eqn:Ek.
  revert y Hxy Hy Ek. induction k as [|k IH]; intros y Hxy Hy Ek.
  - assert (x = y) as -> by lia. lia.
  - assert (g x <= g (y - 1)) by (apply IH; lia).
    pose proof (check_from_spec _ _ _ (y - 1) H ltac:(lia)) as Hs. simpl in Hs.
    apply Z.leb_le in Hs. replace (y - 1 + 1) with y in Hs by lia. lia.
Qed.
