(* ===== verification/CMem.v ===== *)
(** C memory, as far as the modelled code uses it: byte buffers with checked
    accesses, windows of a buffer (what a pointer into it can reach), and packed
    structures made of bit-fields. *)

From stdpp Require Import base list option strings.
From S2P Require Import Prelude.

Local Open Scope Z_scope.
Open Scope c_scope.

(** ** Buffers

    A buffer is a list of bytes.  An access outside it is undefined behaviour,
    modelled by [None]. *)

Abbreviation buf := (list Z).

(** [b\[i\]] *)
Definition rd (b : buf) (i : Z) : option Z :=
  if 0 <=? i then b !! Z.to_nat i else None.

(** [b\[i\] = v], where [v] is converted to a byte. *)
Definition wr (b : buf) (i v : Z) : option buf :=
  if 0 <=? i then
    match b !! Z.to_nat i with
    | Some _ => Some (<[Z.to_nat i := u8 v]> b)
    | None => None
    end
  else None.

(** The [n] bytes at [b + i], as [memcpy] reads them; a negative [n] converts to
    a [size_t] no buffer can hold. *)
Definition rdn (b : buf) (i n : Z) : option buf :=
  if (0 <=? i) && (0 <=? n) then
    let r := take (Z.to_nat n) (drop (Z.to_nat i) b) in
    if Nat.eqb (length r) (Z.to_nat n) then Some r else None
  else None.

(** [memcpy(b + i, vs, length vs)] *)
Definition wrn (b : buf) (i : Z) (vs : buf) : option buf :=
  if 0 <=? i then
    if Nat.eqb (length (take (length vs) (drop (Z.to_nat i) b))) (length vs)
    then Some (take (Z.to_nat i) b ++ vs ++ drop (length vs) (drop (Z.to_nat i) b)) else None
  else None.

(** [memset(b + i, v, n)] *)
Definition memset (b : buf) (i v n : Z) : option buf :=
  if 0 <=? n then wrn b i (replicate (Z.to_nat n) (u8 v)) else None.

(** Running [f] on the pointer [b + off]: [f] sees the bytes from there on. *)
Definition at_off {A} (b : buf) (off : Z) (f : buf -> option (A * buf))
  : option (A * buf) :=
  if (0 <=? off) && (off <=? zlen b) then
    let* (r, w) := f (drop (Z.to_nat off) b) in
    Some (r, take (Z.to_nat off) b ++ w)
  else None.

(** ** Bit-fields *)

(** Bits [off .. off + w) of a byte, and the byte with these bits replaced. *)
Definition bf_get (off w x : Z) : Z := uwrap w (Z.shiftr x off).
Definition bf_put (off w x v : Z) : Z :=
  Z.lor (Z.ldiff x (Z.shiftl (Z.ones w) off)) (Z.shiftl (uwrap w v) off).

(** A member of a packed structure: its name, its signedness and its width in
    bits.  Members are laid out in order, the first one in the least significant
    bits, and no bit-field of the modelled structures straddles a byte. *)
Record member := Member { m_name : string; m_signed : bool; m_width : Z }.

Abbreviation struct := (list member).

(** A plain [char] is signed, so is a bit-field of that type. *)
Definition char_ (n : string) : member := Member n true 8.
Definition uchar_ (n : string) : member := Member n false 8.
Definition bits_ (n : string) (w : Z) : member := Member n true w.
(** [char n\[k\]]: reached by its offset only. *)
Definition chars_ (n : string) (k : Z) : member := Member n true (8 * k).

Fixpoint member_at (s : struct) (n : string) (pos : Z) : option (Z * member) :=
  match s with
  | [] => None
  | m :: s => if String.eqb (m_name m) n then Some (pos, m)
              else member_at s n (pos + m_width m)
  end.

Definition sizeof (s : struct) : Z := foldr (fun m n => m_width m + n) 0 s / 8.

(** Byte offset of a member. *)
Definition offsetof (s : struct) (n : string) : Z :=
  match member_at s n 0 with Some (pos, _) => pos / 8 | None => 0 end.

(** [((s * )(b + p))->n], and [((s * )(b + p))->n = v]. *)
Definition load (b : buf) (p : Z) (s : struct) (n : string) : option Z :=
  let* (pos, m) := member_at s n 0 in
  let* x := rd b (p + pos / 8) in
  let v := bf_get (pos mod 8) (m_width m) x in
  Some (if m_signed m then swrap (m_width m) v else v).

Definition store (b : buf) (p : Z) (s : struct) (n : string) (v : Z) : option buf :=
  let* (pos, m) := member_at s n 0 in
  let* x := rd b (p + pos / 8) in
  wr b (p + pos / 8) (bf_put (pos mod 8) (m_width m) x v).

(** ** Evaluating accesses at constant offsets

    [buf_eval] computes the accesses to the first, explicitly listed, bytes of a
    buffer; it unfolds nothing of the stored values. *)

Ltac zconst :=
  repeat match goal with
  | |- context [Zpos ?a + Zpos ?b] =>
      let c := eval vm_compute in (Zpos a + Zpos b) in
      change (Zpos a + Zpos b) with c
  | |- context [0 + Zpos ?b] => change (0 + Zpos b) with (Zpos b)
  | |- context [Zpos ?b + 0] => change (Zpos b + 0) with (Zpos b)
  | |- context [0 + 0] => change (0 + 0) with 0
  | |- context [Zpos ?a * Zpos ?b] =>
      let c := eval vm_compute in (Zpos a * Zpos b) in
      change (Zpos a * Zpos b) with c
  | |- context [0 * Zpos ?b] => change (0 * Zpos b) with 0
  | |- context [Zpos ?b * 0] => change (Zpos b * 0) with 0
  end.

Ltac layout_eval :=
  repeat match goal with
  | |- context [member_at ?s ?n 0] =>
      let r := eval vm_compute in (member_at s n 0) in
      change (member_at s n 0) with r
  end;
  cbv beta iota delta [m_name m_width m_signed];
  repeat match goal with
  | |- context [Zpos ?a / 8] =>
      let c := eval vm_compute in (Zpos a / 8) in change (Zpos a / 8) with c
  | |- context [Zpos ?a mod 8] =>
      let c := eval vm_compute in (Zpos a mod 8) in change (Zpos a mod 8) with c
  | |- context [0 / 8] => change (0 / 8) with 0
  | |- context [0 mod 8] => change (0 mod 8) with 0
  end.

Ltac buf_eval :=
  unfold load, store; layout_eval; zconst;
  cbv beta iota zeta delta
    [rd wr rdn wrn Z.leb Z.compare Pos.compare Pos.compare_cont Z.to_nat Pos.to_nat
     Pos.iter_op Nat.add lookup list_lookup insert list_insert andb
     length take drop Nat.eqb app].

(** The same for the left-hand side of an equation only. *)
Ltac lhs_eval :=
  match goal with
  | |- _ = ?r => let R := fresh "R" in set (R := r); buf_eval; unfold R; clear R
  end.

(** Names the first [n] bytes of [b], given a lower bound of its length. *)
Tactic Notation "split_buf" ident(b) integer(n) :=
  do n (destruct b as [|? b]; [exfalso; unfold zlen in *; simpl in *; lia|]).

Lemma zlen_app {A} (l k : list A) : zlen (l ++ k) = zlen l + zlen k.
Proof. unfold zlen. rewrite length_app. lia. Qed.
Lemma zlen_cons {A} (x : A) l : zlen (x :: l) = 1 + zlen l.
Proof. unfold zlen. simpl. lia. Qed.
Lemma zlen_nonneg {A} (l : list A) : 0 <= zlen l.
Proof. unfold zlen. lia. Qed.
Lemma zlen_nil {A} : zlen (@nil A) = 0.
Proof. done. Qed.
Lemma zlen_replicate {A} n (x : A) : zlen (replicate n x) = Z.of_nat n.
Proof. unfold zlen. by rewrite length_replicate. Qed.
Lemma zlen_take {A} n (l : list A) : 0 <= n <= zlen l -> zlen (take (Z.to_nat n) l) = n.
Proof. unfold zlen. intros. rewrite length_take. lia. Qed.
Lemma zlen_drop {A} n (l : list A) : 0 <= n <= zlen l -> zlen (drop (Z.to_nat n) l) = zlen l - n.
Proof. unfold zlen. intros. rewrite length_drop. lia. Qed.

Lemma rdn_app pre mid post :
  rdn (pre ++ mid ++ post) (zlen pre) (zlen mid) = Some mid.
Proof.
  unfold rdn. pose proof (zlen_nonneg pre). pose proof (zlen_nonneg mid).
  repeat (rewrite (proj2 (Z.leb_le _ _)) by lia). simpl.
  unfold zlen. rewrite !Nat2Z.id, drop_app_length, take_app_length.
  by rewrite Nat.eqb_refl.
Qed.

Lemma wrn_app pre old post vs :
  zlen vs = zlen old -> wrn (pre ++ old ++ post) (zlen pre) vs = Some (pre ++ vs ++ post).
Proof.
  intros E. unfold wrn. pose proof (zlen_nonneg pre).
  repeat (rewrite (proj2 (Z.leb_le _ _)) by lia).
  unfold zlen in *. rewrite !Nat2Z.id, take_app_length, drop_app_length.
  assert (length vs = length old) as -> by lia.
  by rewrite take_app_length, drop_app_length, Nat.eqb_refl.
Qed.

Lemma at_off_app {A} pre w (f : buf -> option (A * buf)) :
  at_off (pre ++ w) (zlen pre) f = (let* (r, w') := f w in Some (r, pre ++ w')).
Proof.
  unfold at_off. rewrite zlen_app. pose proof (zlen_nonneg pre).
  pose proof (zlen_nonneg w).
  repeat (rewrite (proj2 (Z.leb_le _ _)) by lia). simpl.
  unfold zlen. rewrite !Nat2Z.id, drop_app_length, take_app_length. done.
Qed.

(** A member of eight bits is the byte. *)
Lemma bf_put_all old v : u8 (bf_put 0 8 old v) = u8 v.
Proof. unfold bf_put. bits 8. Qed.

Lemma bf_get_all v : bf_get 0 8 v = u8 v.
Proof. unfold bf_get. by rewrite Z.shiftr_0_r. Qed.

Ltac whole_bytes :=
  repeat match goal with
  | |- context [uwrap 8 (bf_put 0 8 ?o ?v)] => rewrite (bf_put_all o v)
  | |- context [bf_get 0 8 ?v] => rewrite (bf_get_all v)
  | |- context [uwrap 8 (uwrap 8 ?v)] => rewrite (uwrap_uwrap 8 v) by le_const
  end.

Lemma memset_app h rest p v k :
  zlen h = p -> 0 <= k <= zlen rest ->
  memset (h ++ rest) p v k = Some (h ++ replicate (Z.to_nat k) (u8 v) ++ drop (Z.to_nat k) rest).
Proof.
  intros <- Hk. unfold memset. rewrite (proj2 (Z.leb_le _ _)) by lia.
  rewrite <- (take_drop (Z.to_nat k) rest) at 1. apply wrn_app.
  rewrite zlen_replicate, zlen_take; lia.
Qed.

(** ** Accesses at symbolic offsets *)

Lemma rd_in b i : 0 <= i < zlen b -> exists v, rd b i = Some v.
Proof.
  intros H. unfold rd, zlen in *. rewrite (proj2 (Z.leb_le _ _)) by lia.
  apply lookup_lt_is_Some_2. lia.
Qed.

Lemma rd_out b i : i < 0 \/ zlen b <= i -> rd b i = None.
Proof.
  intros H. unfold rd, zlen in *. destruct (Z.leb_spec 0 i); [|done].
  apply lookup_ge_None_2. lia.
Qed.

Lemma rd_byte b i v : bytes b -> rd b i = Some v -> byte v.
Proof.
  intros Hb. unfold rd. destruct (0 <=? i); [|done].
  apply (Forall_lookup_1 _ _ _ _ Hb).
Qed.

(** Replaces a read known to be in bounds by its value. *)
Ltac rd_step :=
  match goal with
  | |- context [rd ?b ?i] =>
      let v := fresh "v" in let E := fresh "Erd" in
      destruct (rd_in b i ltac:(lia)) as [v E]; rewrite E
  end.

Lemma rdn_in b i n : 0 <= i -> 0 <= n -> i + n <= zlen b -> exists v, rdn b i n = Some v /\ zlen v = n.
Proof.
  intros Hi Hn H. exists (take (Z.to_nat n) (drop (Z.to_nat i) b)). unfold rdn.
  rewrite !(proj2 (Z.leb_le _ _)) by lia. cbn [andb].
  assert (length (take (Z.to_nat n) (drop (Z.to_nat i) b)) = Z.to_nat n) as E
    by (unfold zlen in H; rewrite length_take, length_drop; lia).
  rewrite E, Nat.eqb_refl. split; [done|]. unfold zlen. lia.
Qed.


Lemma rdn_prefix fd n : 0 <= n <= zlen fd -> rdn fd 0 n = Some (take (Z.to_nat n) fd).
Proof.
  intros. pose proof (rdn_app [] (take (Z.to_nat n) fd) (drop (Z.to_nat n) fd)) as E.
  by rewrite zlen_nil, zlen_take, app_nil_l, take_drop in E by lia.
Qed.

Lemma wrn_tail h w p vs :
  zlen h = p -> zlen vs <= zlen w ->
  wrn (h ++ w) p vs = Some (h ++ vs ++ drop (Z.to_nat (zlen vs)) w).
Proof.
  intros <- Hl. pose proof (zlen_nonneg vs).
  rewrite <- (take_drop (Z.to_nat (zlen vs)) w) at 1. apply wrn_app.
  rewrite zlen_take; lia.
Qed.

Lemma at_off_prefix {A} pre w ptr (f : buf -> option (A * buf)) :
  zlen pre = ptr ->
  at_off (pre ++ w) ptr f = (let* (r, w') := f w in Some (r, pre ++ w')).
Proof. intros <-. apply at_off_app. Qed.

Lemma rd_drop b i k : 0 <= i -> 0 <= k -> rd b (i + k) = rd (drop (Z.to_nat i) b) k.
Proof.
  intros. unfold rd. rewrite !(proj2 (Z.leb_le _ _)) by lia.
  rewrite lookup_drop. f_equal. lia.
Qed.

Lemma rd_app_r pre w n i : zlen pre = n -> 0 <= i -> rd (pre ++ w) (n + i) = rd w i.
Proof.
  intros <- Hi. pose proof (zlen_nonneg pre). rewrite rd_drop by lia. unfold zlen.
  by rewrite Nat2Z.id, drop_app_length.
Qed.

Lemma rd_app_l b1 b2 i : i < zlen b1 -> rd (b1 ++ b2) i = rd b1 i.
Proof.
  intros H. unfold rd, zlen in *. destruct (Z.leb_spec 0 i); [|done].
  apply lookup_app_l. lia.
Qed.

Lemma drop_at {A} (pre w : list A) n : zlen pre = n -> drop (Z.to_nat n) (pre ++ w) = w.
Proof. intros <-. unfold zlen. by rewrite Nat2Z.id, drop_app_length. Qed.

Lemma load_app_r pre w n p s nm :
  zlen pre = n ->
  match member_at s nm 0 with Some (pos, _) => 0 <= p + pos / 8 | None => True end ->
  load (pre ++ w) (n + p) s nm = load w p s nm.
Proof.
  intros Hn H. unfold load. destruct (member_at s nm 0) as [[pos m]|]; [|done].
  by rewrite <- Z.add_assoc, (rd_app_r _ _ n) by done.
Qed.

Lemma load_in b p s n :
  match member_at s n 0 with Some (pos, _) => 0 <= p + pos / 8 < zlen b | None => False end ->
  exists v, load b p s n = Some v.
Proof.
  unfold load. intros H. destruct (member_at s n 0) as [[pos m]|]; [|done].
  destruct (rd_in b _ H) as [v ->]. eauto.
Qed.

Lemma byte_case (P : Z -> bool) :
  forallb P (seqZ 0 256) = true -> forall x, byte x -> P x = true.
Proof. intros H x [H0 H1]. apply (forall_range P 0 256); [done|lia]. Qed.

Lemma u8_signed_byte y : byte y -> u8 (swrap 8 (bf_get 0 8 y)) = y.
Proof.
  intros. rewrite uwrap_swrap by lia. change (bf_get 0 8 y) with (u8 y). by rewrite !(uwrap_id 8 y).
Qed.

(** Writes at symbolic offsets. *)
Lemma wr_in b i v : 0 <= i < zlen b -> exists b', wr b i v = Some b' /\ zlen b' = zlen b.
Proof.
  intros H. unfold wr, zlen in *. rewrite (proj2 (Z.leb_le _ _)) by lia.
  destruct (lookup_lt_is_Some_2 b (Z.to_nat i)) as [x ->]; [lia|].
  eexists; split; [done|]. by rewrite length_insert.
Qed.

Lemma rd_wr b b' i v j :
  wr b i v = Some b' -> rd b' j = if j =? i then Some (u8 v) else rd b j.
Proof.
  unfold wr, rd. destruct (Z.leb_spec 0 i); [|done]. destruct (b !! _) eqn:E; [|done].
  intros [= <-]. pose proof (lookup_lt_Some _ _ _ E). destruct (Z.eqb_spec j i) as [->|].
  - rewrite (proj2 (Z.leb_le _ _)) by lia. by apply list_lookup_insert_eq.
  - destruct (Z.leb_spec 0 j); [|done]. apply list_lookup_insert_ne. lia.
Qed.
