(* ===== verification/TypeDefs.v ===== *)
(** The data of the MPEG library: the stream and program descriptions, the
    demultiplexer handle, the frame handed to the multiplexers, and the packed
    structures of the transport and program streams
    (src/file/libmpeg/typedefs.h and src/file/libmpeg/pes.h). *)

From stdpp Require Import base list option strings.
From S2P Require Import Prelude CMem.

Local Open Scope Z_scope.

Definition MAX_STREAM_NUM : Z := 4.
Definition MAX_PROGRAM_NUM : Z := 1.

(** ** Program information *)

Record TsStreamSpec := mkStreamSpec {
  ss_type : Z;
  ss_stream_id : Z;
  ss_es_pid : Z;
  ss_continuity_counter : Z
}.

Record TsProgramSpec := mkProgramSpec {
  ps_stream_num : Z;
  ps_key_stream_id : Z;
  ps_pmt_pid : Z;
  ps_mux_rate : Z;
  ps_stream : list TsStreamSpec
}.

Record TsProgramInfo := mkProgramInfo {
  pi_program_num : Z;
  pi_pat_pmt_counter : Z;
  pi_prog : list TsProgramSpec
}.

(** Pointers into the buffer of the last call are offsets, [None] is [NULL]. *)
Record TDemux := mkDemux {
  d_info : TsProgramInfo;
  d_is_pes : Z;
  d_pid : Z;
  d_program_no : Z;
  d_stream_no : Z;
  d_pts : Z;
  d_pes_pts : Z;
  d_pack_ptr : option Z;
  d_pack_len : Z;
  d_es_ptr : option Z;
  d_es_len : Z;
  d_pes_head_len : Z;
  d_sync_only : Z;
  d_ps_started : Z
}.

(** [f_frame] is the data [frame->frame] points to ([None] for [NULL]), [f_segcb]
    whether the segment callback is set; its calls are recorded by the model of
    the multiplexer. *)
Record TEsFrame := mkFrame {
  f_program_number : Z;
  f_stream_number : Z;
  f_frame : option buf;
  f_length : Z;
  f_is_key : Z;
  f_pts : Z;
  f_ps_pes_length : Z;
  f_segcb : bool
}.

(** The arrays have their declared sizes and the byte-wide fields hold bytes. *)
Definition wf_stream (s : TsStreamSpec) : Prop :=
  byte (ss_type s) /\ byte (ss_stream_id s).
Definition wf_program (p : TsProgramSpec) : Prop :=
  zlen (ps_stream p) = MAX_STREAM_NUM /\ Forall wf_stream (ps_stream p).
Definition wf_info (i : TsProgramInfo) : Prop :=
  zlen (pi_prog i) = MAX_PROGRAM_NUM /\ Forall wf_program (pi_prog i).

(** Field updates. *)
Definition set_ss_type v s :=
  mkStreamSpec v (ss_stream_id s) (ss_es_pid s) (ss_continuity_counter s).
Definition set_ss_stream_id v s :=
  mkStreamSpec (ss_type s) v (ss_es_pid s) (ss_continuity_counter s).
Definition set_ss_es_pid v s :=
  mkStreamSpec (ss_type s) (ss_stream_id s) v (ss_continuity_counter s).
Definition set_ss_counter v s :=
  mkStreamSpec (ss_type s) (ss_stream_id s) (ss_es_pid s) v.

Definition set_ps_stream_num v p :=
  mkProgramSpec v (ps_key_stream_id p) (ps_pmt_pid p) (ps_mux_rate p) (ps_stream p).
Definition set_ps_pmt_pid v p :=
  mkProgramSpec (ps_stream_num p) (ps_key_stream_id p) v (ps_mux_rate p) (ps_stream p).
Definition set_ps_stream v p :=
  mkProgramSpec (ps_stream_num p) (ps_key_stream_id p) (ps_pmt_pid p) (ps_mux_rate p) v.

Definition set_pi_program_num v i := mkProgramInfo v (pi_pat_pmt_counter i) (pi_prog i).
Definition set_pi_counter v i := mkProgramInfo (pi_program_num i) v (pi_prog i).
Definition set_pi_prog v i := mkProgramInfo (pi_program_num i) (pi_pat_pmt_counter i) v.

(** [a\[i\]] and [a\[i\] = v] for the arrays of structures. *)
Definition aget {A} (a : list A) (i : Z) : option A :=
  if 0 <=? i then a !! Z.to_nat i else None.
Definition aput {A} (a : list A) (i : Z) (v : A) : option (list A) :=
  match aget a i with Some _ => Some (<[Z.to_nat i := v]> a) | None => None end.

(** [pi->prog\[i\].stream\[j\] = v] *)
Definition put_stream (pi : TsProgramInfo) (i j : Z) (v : TsStreamSpec)
  : option TsProgramInfo :=
  let* p := aget (pi_prog pi) i in
  let* ss := aput (ps_stream p) j v in
  let* ps := aput (pi_prog pi) i (set_ps_stream ss p) in
  Some (set_pi_prog ps pi).

Definition get_stream (pi : TsProgramInfo) (i j : Z) : option TsStreamSpec :=
  let* p := aget (pi_prog pi) i in aget (ps_stream p) j.

(** ** Packed structures of the transport stream *)

Definition pes_head_flags : struct :=
  [bits_ "orignal_or_copy" 1; bits_ "copyright" 1; bits_ "data_alignment_indicator" 1;
   bits_ "PES_priority" 1; bits_ "PES_scrambling_control" 2; bits_ "reserved" 2;
   bits_ "PES_extension_flag" 1; bits_ "PES_CRC_flag" 1;
   bits_ "additional_copy_info_flag" 1; bits_ "DSM_trick_mode_flag" 1;
   bits_ "ES_rate_flag" 1; bits_ "ESCR_flag" 1; bits_ "PTS_DTS_flags" 2].

Definition ts_pure_header : struct :=
  [char_ "sync_byte";
   bits_ "PID_high5" 5; bits_ "transport_priority" 1;
   bits_ "payload_unit_start_indicator" 1; bits_ "transport_error_indicator" 1;
   char_ "PID_low8";
   bits_ "continuity_counter" 4; bits_ "adaptation_field_control" 2;
   bits_ "transport_scrambling_control" 2].

Definition ts_adaptation_flags : struct :=
  [bits_ "adaptation_field_extension_flag" 1; bits_ "transport_private_data_flag" 1;
   bits_ "splicing_point_flag" 1; bits_ "OPCR_flag" 1; bits_ "PCR_flag" 1;
   bits_ "elementary_stream_priority_indicator" 1; bits_ "random_access_indicator" 1;
   bits_ "discontinuity_indicator" 1].

(** [head] and [flags] are nested structures; their members are named directly. *)
Definition ts_header : struct :=
  ts_pure_header ++ [uchar_ "adaptation_field_length"] ++ ts_adaptation_flags.

Definition pat_section : struct :=
  [char_ "table_id";
   bits_ "section_length_high4" 4; bits_ "reserved1" 2; bits_ "zero" 1;
   bits_ "section_syntax_indicator" 1;
   char_ "section_length_low8";
   char_ "transport_stream_id_high8"; char_ "transport_stream_id_low8";
   bits_ "current_next_indicator" 1; bits_ "version_number" 5; bits_ "reserved2" 2;
   char_ "section_number"; char_ "last_section_number"].

Definition pat_map_array : struct :=
  [char_ "program_number_high8"; char_ "program_number_low8";
   bits_ "program_map_PID_high5" 5; bits_ "reserved" 3;
   char_ "program_map_PID_low8"].

Definition pmt_section : struct :=
  [char_ "table_id";
   bits_ "section_length_high4" 4; bits_ "reserved1" 2; bits_ "zero" 1;
   bits_ "section_syntax_indicator" 1;
   char_ "section_length_low8";
   char_ "program_number_high8"; char_ "program_number_low8";
   bits_ "current_next_indicator" 1; bits_ "version_number" 5; bits_ "reserved2" 2;
   char_ "section_number"; char_ "last_section_number";
   bits_ "PCR_PID_high5" 5; bits_ "reserved3" 3;
   char_ "PCR_PID_low8";
   bits_ "program_info_length_high4" 4; bits_ "reserved4" 4;
   char_ "program_info_length_low8"].

Definition pmt_stream_array : struct :=
  [char_ "stream_type";
   bits_ "elementary_PID_high5" 5; bits_ "reserved1" 3;
   char_ "elementary_PID_low8";
   bits_ "ES_info_length_high4" 4; bits_ "reserved2" 4;
   char_ "ES_info_length_low8"].

(** ** Packed structures of the program stream *)

Definition ps_pack_header : struct :=
  [chars_ "start_code" 4; chars_ "scr" 6; chars_ "program_mux_rate" 3;
   char_ "pack_stuffing_length"].

Definition ps_system_header : struct :=
  [chars_ "start_code" 4; chars_ "header_length" 2; chars_ "rate_bound" 3;
   bits_ "CSPS_flag" 1; bits_ "fixed_flag" 1; bits_ "audio_bound" 6;
   bits_ "video_bound" 5; bits_ "marker_bit" 1; bits_ "system_video_lock_flag" 1;
   bits_ "system_audio_lock_flag" 1;
   char_ "reserved_byte"].

Definition ps_system_header_stream_table : struct :=
  [char_ "stream_id";
   bits_ "P_STD_buffer_size_bound_high5" 5; bits_ "P_STD_buffer_bound_scale" 1;
   bits_ "reserved" 2;
   char_ "P_STD_buffer_size_bound_low8"].

Definition ps_map : struct :=
  [chars_ "start_code" 4; chars_ "header_length" 2;
   bits_ "ps_map_version" 5; bits_ "reserved1" 2; bits_ "current_next_indicator" 1;
   bits_ "marker_bit" 1; bits_ "reserved2" 7;
   chars_ "ps_info_length" 2; chars_ "es_map_length" 2].

Definition ps_map_es : struct :=
  [char_ "stream_type"; char_ "es_id"; chars_ "es_info_length" 2].

Lemma aget_in {A} (l : list A) i : 0 <= i < zlen l -> exists x, aget l i = Some x.
Proof.
  intros. unfold aget, zlen in *. rewrite (proj2 (Z.leb_le _ _)) by lia.
  apply lookup_lt_is_Some_2. lia.
Qed.

Lemma aput_in {A} (l : list A) i v :
  0 <= i < zlen l -> exists l', aput l i v = Some l' /\ zlen l' = zlen l.
Proof.
  intros H. unfold aput. destruct (aget_in l i H) as [x ->].
  eexists; split; [done|]. unfold zlen. by rewrite length_insert.
Qed.

Lemma aget_aput {A} (l l' : list A) i v k :
  aput l i v = Some l' -> aget l' k = if k =? i then Some v else aget l k.
Proof.
  unfold aput, aget. destruct (Z.leb_spec 0 i); [|done]. destruct (l !! _) eqn:E; [|done].
  intros [= <-]. pose proof (lookup_lt_Some _ _ _ E). destruct (Z.eqb_spec k i) as [->|].
  - rewrite (proj2 (Z.leb_le _ _)) by lia. by apply list_lookup_insert_eq.
  - destruct (Z.leb_spec 0 k); [|done]. apply list_lookup_insert_ne. lia.
Qed.

(** The elementary stream data a demultiplexer's handle points to in the buffer [b]
    of the call. *)
Definition es_data (h : TDemux) (b : buf) : buf :=
  if truthy (d_is_pes h) then
    match d_es_ptr h with
    | Some p => take (Z.to_nat (d_es_len h)) (drop (Z.to_nat p) b)
    | None => []
    end
  else [].
