(* ===== verification/Pes.v ===== *)
(** PES headers: the model of src/file/libmpeg/pes.c, with the reference layout
    of the header the multiplexers write and the theorems that relate writer and
    parser. *)

From stdpp Require Import base list option strings.
From S2P Require Import Prelude CMem TypeDefs.

Local Open Scope Z_scope.
Open Scope c_scope.

(** ** Stream types and identifiers *)

Definition STREAM_TYPE_VIDEO_MPEG1 : Z := 0x01.
Definition STREAM_TYPE_VIDEO_MPEG2 : Z := 0x02.
Definition STREAM_TYPE_AUDIO_MPEG1 : Z := 0x03.
Definition STREAM_TYPE_AUDIO_MPEG2 : Z := 0x04.
Definition STREAM_TYPE_AUDIO_AAC : Z := 0x0f.
Definition STREAM_TYPE_AUDIO_AAC_LATM : Z := 0x11.
Definition STREAM_TYPE_VIDEO_MPEG4 : Z := 0x10.
Definition STREAM_TYPE_VIDEO_H264 : Z := 0x1b.
Definition STREAM_TYPE_VIDEO_HEVC : Z := 0x24.
Definition STREAM_TYPE_VIDEO_CAVS : Z := 0x42.
Definition STREAM_TYPE_VIDEO_VC1 : Z := 0xea.
Definition STREAM_TYPE_VIDEO_DIRAC : Z := 0xd1.
Definition STREAM_TYPE_AUDIO_AC3 : Z := 0x81.
Definition STREAM_TYPE_AUDIO_DTS : Z := 0x82.
Definition STREAM_TYPE_AUDIO_TRUEHD : Z := 0x83.

Definition MIN_PES_LENGTH : Z := 1000.
Definition MAX_PES_LENGTH : Z := 65000.

Definition lts_is_video (type : Z) : bool :=
  existsb (Z.eqb type)
    [STREAM_TYPE_VIDEO_MPEG1; STREAM_TYPE_VIDEO_MPEG2; STREAM_TYPE_VIDEO_MPEG4;
     STREAM_TYPE_VIDEO_H264; STREAM_TYPE_VIDEO_HEVC; STREAM_TYPE_VIDEO_CAVS;
     STREAM_TYPE_VIDEO_VC1; STREAM_TYPE_VIDEO_DIRAC].

Definition lts_is_audio (type : Z) : bool :=
  existsb (Z.eqb type)
    [STREAM_TYPE_AUDIO_MPEG1; STREAM_TYPE_AUDIO_MPEG2; STREAM_TYPE_AUDIO_AAC;
     STREAM_TYPE_AUDIO_AAC_LATM; STREAM_TYPE_AUDIO_AC3; STREAM_TYPE_AUDIO_DTS;
     STREAM_TYPE_AUDIO_TRUEHD].

(** The identifier is computed in an [int] and stored in a byte. *)
Definition lts_pes_stream_id (type program_number stream_number : Z) : Z :=
  if lts_is_video type then u8 (0xE0 + program_number * MAX_STREAM_NUM + stream_number)
  else if lts_is_audio type then u8 (0xC0 + program_number * MAX_STREAM_NUM + stream_number)
  else 0.

(** ** Writing a header *)

(** The ten bytes of PTS and DTS at [buff + p]; the value stored last wins, and
    each store converts to a byte. *)
Definition make_pes_pts_dts (b : buf) (p ts : Z) : option buf :=
  let* b := wr b p (Z.lor (Z.lor (u8 (Z.shiftl (Z.land (Z.shiftr ts 30) 7) 1)) 0x30) 1) in
  let* b := wr b (p + 1) (u8 (Z.land (Z.shiftr ts 22) 255)) in
  let* b := wr b (p + 2) (Z.lor (u8 (Z.shiftl (Z.land (Z.shiftr ts 15) 255) 1)) 1) in
  let* b := wr b (p + 3) (u8 (Z.land (Z.shiftr ts 7) 255)) in
  let* b := wr b (p + 4) (Z.lor (u8 (Z.shiftl (Z.land ts 255) 1)) 1) in
  let* b := wr b (p + 5) (Z.lor (Z.lor (u8 (Z.shiftl (Z.land (Z.shiftr ts 30) 7) 1)) 0x10) 1) in
  let* b := wr b (p + 6) (u8 (Z.land (Z.shiftr ts 22) 255)) in
  let* b := wr b (p + 7) (Z.lor (u8 (Z.shiftl (Z.land (Z.shiftr ts 15) 255) 1)) 1) in
  let* b := wr b (p + 8) (u8 (Z.land (Z.shiftr ts 7) 255)) in
  wr b (p + 9) (Z.lor (u8 (Z.shiftl (Z.land ts 255) 1)) 1).

(** Header at the start of [dest]; the result is the returned length (19, or -1
    when [maxlen] is positive and too small) and the buffer. *)
Definition lts_pes_make_header (stream_id pts es_len : Z) (dest : buf) (maxlen : Z)
  : option (Z * buf) :=
  let flags := [0; 0] in
  let pes_packet_length := es_len + 13 in
  let pes_packet_length := if 65535 <? pes_packet_length then 0 else pes_packet_length in
  if (0 <? maxlen) && (maxlen <? 19 + es_len) then Some (-1, dest) else
  let* b := wr dest 0 0 in
  let* b := wr b 1 0 in
  let* b := wr b 2 1 in
  let* b := wr b 3 stream_id in
  let* b := wr b 4 (Z.shiftr pes_packet_length 8) in
  let* b := wr b 5 pes_packet_length in
  let* flags := store flags 0 pes_head_flags "reserved" 2 in
  let* flags := store flags 0 pes_head_flags "PTS_DTS_flags" 3 in
  let* b := wrn b 6 flags in
  let* b := wr b 8 10 in
  let* b := make_pes_pts_dts b 9 pts in
  Some (19, b).

(** ** Parsing a header *)

(** [(((buf)\[0\] << 8) | (buf)\[1\])] on unsigned bytes. *)
Definition BUF2U16 (b : buf) (p : Z) : option Z :=
  let* h := rd b p in
  let* l := rd b (p + 1) in
  Some (Z.lor (Z.shiftl h 8) l).

(** The conditions are evaluated left to right and stop at the first that fails,
    so a byte is only read when the ones before it matched. *)
Definition get_pes_head_len (pes : buf) (len : Z) : option Z :=
  if len <? 9 then Some 0 else
  let* b0 := rd pes 0 in
  if negb (b0 =? 0) then Some 0 else
  let* b1 := rd pes 1 in
  if negb (b1 =? 0) then Some 0 else
  let* b2 := rd pes 2 in
  if negb (b2 =? 1) then Some 0 else
  let* b3 := rd pes 3 in
  if truthy (Z.land b3 0xC0) || truthy (Z.land b3 0xE0) then
    let* b8 := rd pes 8 in Some (9 + b8)
  else Some 0.

(** What a call stores through its pointer arguments: [None] for a location it
    leaves alone. *)
Record pes_out := mkPesOut {
  o_stream_id : option Z;
  o_pts : option Z;
  o_es_len : option Z
}.

Definition no_out : pes_out := mkPesOut None None None.

(** The 33-bit time stamp at [b + p], in milliseconds. *)
Definition read_pts (b : buf) (p : Z) : option Z :=
  let* b0 := rd b p in
  let* b1 := rd b (p + 1) in
  let* b2 := rd b (p + 2) in
  let* b3 := rd b (p + 3) in
  let* b4 := rd b (p + 4) in
  let v := Z.shiftl (Z.land b0 0x0E) 29 in
  let v := Z.lor v (Z.shiftl b1 22) in
  let v := Z.lor v (Z.shiftl (Z.land b2 0xFE) 14) in
  let v := Z.lor v (Z.shiftl b3 7) in
  let v := Z.lor v (Z.shiftr (Z.land b4 0xFE) 1) in
  Some (v / 90).

(** [stream_id], [pts] and [es_len] say which pointer arguments are not [NULL]. *)
Definition lts_pes_parse_header (pes : buf) (len : Z) (stream_id pts es_len : bool)
  : option (Z * pes_out) :=
  let* pes_head_len := get_pes_head_len pes len in
  if pes_head_len <=? 0 then Some (0, no_out) else
  let* sid := (if stream_id then let* v := rd pes 3 in Some (Some v) else Some None) in
  let* ts := (if pts then
                let* flags_2 := rd pes 7 in
                if truthy (Z.land flags_2 0x80)
                then let* v := read_pts pes 9 in Some (Some v)
                else Some None
              else Some None) in
  let* el := (if es_len then
                let* pes_len := BUF2U16 pes 4 in
                let* hl := rd pes 8 in
                Some (Some (pes_len - 3 - hl))
              else Some None) in
  Some (pes_head_len, mkPesOut sid ts el).

(** ** Reference layout

    The nineteen bytes of a header, independent of what the buffer held. *)

Definition pts_byte0 (tag ts : Z) : Z :=
  Z.lor (Z.lor (u8 (Z.shiftl (Z.land (Z.shiftr ts 30) 7) 1)) tag) 1.
Definition pts_bytes (tag ts : Z) : buf :=
  [u8 (pts_byte0 tag ts); u8 (u8 (Z.land (Z.shiftr ts 22) 255));
   u8 (Z.lor (u8 (Z.shiftl (Z.land (Z.shiftr ts 15) 255) 1)) 1);
   u8 (u8 (Z.land (Z.shiftr ts 7) 255));
   u8 (Z.lor (u8 (Z.shiftl (Z.land ts 255) 1)) 1)].

Definition pes_length_field (es_len : Z) : Z :=
  if 65535 <? es_len + 13 then 0 else es_len + 13.

Definition pes_header (stream_id pts es_len : Z) : buf :=
  [0; 0; 1; u8 stream_id; u8 (Z.shiftr (pes_length_field es_len) 8);
   u8 (pes_length_field es_len); 0x80; 0xC0; 10]
  ++ pts_bytes 0x30 pts ++ pts_bytes 0x10 pts.

Lemma zlen_pes_header sid pts n : zlen (pes_header sid pts n) = 19.
Proof. done. Qed.

Lemma make_header_layout sid pts n dest maxlen :
  19 <= zlen dest -> (0 < maxlen -> 19 + n <= maxlen) ->
  lts_pes_make_header sid pts n dest maxlen
  = Some (19, pes_header sid pts n ++ drop 19 dest).
Proof.
  intros Hd Hm. unfold lts_pes_make_header.
  destruct ((0 <? maxlen) && (maxlen <? 19 + n)) eqn:E; [exfalso; lia|].
  split_buf dest 19. unfold make_pes_pts_dts. buf_eval.
  reflexivity.
Qed.

Lemma make_header_short sid pts n dest maxlen :
  0 < maxlen -> maxlen < 19 + n ->
  lts_pes_make_header sid pts n dest maxlen = Some (-1, dest).
Proof.
  intros. unfold lts_pes_make_header.
  destruct ((0 <? maxlen) && (maxlen <? 19 + n)) eqn:E; [done|exfalso; lia].
Qed.

Lemma elementary_id sid :
  0x20 <= sid < 256 -> truthy (Z.land sid 0xC0) || truthy (Z.land sid 0xE0) = true.
Proof.
  intros. apply (forall_range (fun z => truthy (Z.land z 0xC0) || truthy (Z.land z 0xE0)) 0x20 224);
    [by vm_compute|lia].
Qed.

Lemma pes_header_length_field n :
  -13 <= n ->
  Z.lor (Z.shiftl (u8 (Z.shiftr (pes_length_field n) 8)) 8) (u8 (pes_length_field n))
  = pes_length_field n.
Proof.
  intros H.
  assert (is_u 16 (pes_length_field n)) as Hu.
  { unfold pes_length_field, is_u. destruct (Z.ltb_spec 65535 (n + 13)); lia. }
  revert Hu. generalize (pes_length_field n) as v. intros v Hv.
  rewrite <- (uwrap_id 16 v Hv) at 3. bits 16.
Qed.

Lemma pts_round ts :
  let b := pts_bytes 0x30 ts in
  Z.lor (Z.lor (Z.lor (Z.lor (Z.shiftl (Z.land (nth 0 b 0) 0x0E) 29)
     (Z.shiftl (nth 1 b 0) 22)) (Z.shiftl (Z.land (nth 2 b 0) 0xFE) 14))
     (Z.shiftl (nth 3 b 0) 7)) (Z.shiftr (Z.land (nth 4 b 0) 0xFE) 1) = uwrap 33 ts.
Proof.
  unfold pts_bytes, pts_byte0. cbv beta iota zeta delta [nth]. bits 33.
Qed.

(** Parsing what [lts_pes_make_header] wrote. *)
Lemma parse_header_layout sid ts n rest len (p1 p2 p3 : bool) :
  9 <= len -> 0x20 <= sid < 256 -> -13 <= n ->
  lts_pes_parse_header (pes_header sid ts n ++ rest) len p1 p2 p3
  = Some (19, mkPesOut (if p1 then Some sid else None)
                (if p2 then Some (uwrap 33 ts / 90) else None)
                (if p3 then Some (pes_length_field n - 13) else None)).
Proof.
  intros Hl Hs Hn. unfold lts_pes_parse_header, get_pes_head_len.
  rewrite (proj2 (Z.ltb_ge _ _)) by lia.
  unfold pes_header, pts_bytes, BUF2U16, read_pts. buf_eval.
  rewrite !(uwrap_id 8 sid) by (unfold is_u; lia). rewrite elementary_id by lia.
  rewrite pes_header_length_field by lia.
  pose proof (pts_round ts) as E. unfold pts_bytes in E.
  cbv beta iota zeta delta [nth] in E. simpl negb. cbv iota. rewrite E.
  change (9 + 10 <=? 0) with false. change (truthy (Z.land 192 128)) with true.
  replace (pes_length_field n - 3 - 10) with (pes_length_field n - 13) by lia.
  by destruct p1, p2, p3.
Qed.

Lemma get_pes_head_len_safe pes len :
  bytes pes -> len <= zlen pes ->
  exists r, get_pes_head_len pes len = Some r /\ (r = 0 \/ 9 <= r <= 264 /\ 9 <= len).
Proof.
  intros Hb Hl. unfold get_pes_head_len.
  destruct (Z.ltb_spec len 9); [eauto|].
  do 3 (rd_step; case_match; [eauto|]). rd_step.
  case_match; [|eauto]. rd_step. eexists; split; [done|]. right.
  destruct (rd_byte _ _ _ Hb Erd3). simpl in *. lia.
Qed.

Lemma read_pts_safe b p : 0 <= p -> p + 5 <= zlen b -> exists v, read_pts b p = Some v.
Proof. intros. unfold read_pts. do 5 rd_step. eauto. Qed.

Lemma parse_header_short pes len p1 p2 p3 :
  len < 9 -> lts_pes_parse_header pes len p1 p2 p3 = Some (0, no_out).
Proof.
  intros. unfold lts_pes_parse_header, get_pes_head_len.
  by rewrite (proj2 (Z.ltb_lt _ _)) by done.
Qed.

Lemma parse_header_in_bounds pes len p1 p2 p3 :
  bytes pes -> len <= zlen pes -> 14 <= zlen pes ->
  exists r o, lts_pes_parse_header pes len p1 p2 p3 = Some (r, o) /\
              (r = 0 /\ o = no_out \/ 9 <= r <= 264).
Proof.
  intros Hb Hl H14. unfold lts_pes_parse_header.
  destruct (get_pes_head_len_safe pes len Hb Hl) as (r & -> & Hr).
  destruct (Z.leb_spec r 0); [by exists 0, no_out; auto|].
  destruct (read_pts_safe pes 9 ltac:(lia) ltac:(lia)) as [v Ev].
  unfold BUF2U16. repeat rd_step. rewrite Ev.
  destruct p1, p2, p3; repeat case_match; simplify_eq; eauto 10 with lia.
Qed.

(** ** Properties *)

(** C30: A header written by [lts_pes_make_header] for a stream identifier from 0x20 to
    255 is read back by [lts_pes_parse_header], whatever the destination held and whatever
    follows; the destination has room for it, and the room announced, if any, for the
    payload as well:
    it is 19 bytes long, the stream identifier is recovered, the time stamp comes
    back modulo 2^33 in milliseconds, and the payload length is recovered up to
    65522 (a longer payload is written as length 0, which reads as -13). *)
Theorem pes_header_roundtrip sid ts n dest maxlen :
  19 <= zlen dest -> 0x20 <= sid < 256 -> 0 <= n ->
  (0 < maxlen -> 19 + n <= maxlen) ->
  exists b,
    lts_pes_make_header sid ts n dest maxlen = Some (19, b) /\
    zlen b = zlen dest /\ drop 19 b = drop 19 dest /\
    lts_pes_parse_header b (zlen b) true true true
    = Some (19, mkPesOut (Some sid) (Some (uwrap 33 ts / 90))
                  (Some (if 65522 <? n then -13 else n))).
Proof.
  intros Hd Hs Hn Hm. eexists; split; [by apply make_header_layout|].
  assert (zlen (pes_header sid ts n ++ drop 19 dest) = zlen dest) as El.
  { rewrite zlen_app, zlen_pes_header, (zlen_drop 19); lia. }
  split; [done|]. split; [done|].
  rewrite parse_header_layout by lia. do 4 f_equal. unfold pes_length_field.
  destruct (Z.ltb_spec 65535 (n + 13)), (Z.ltb_spec 65522 n); lia.
Qed.

Lemma pes_header_roundtrip_witness :
  exists b,
    lts_pes_make_header 0xE0 90000 70 (replicate 32 7) 200 = Some (19, b) /\
    zlen b = zlen (replicate 32 7) /\ drop 19 b = drop 19 (replicate 32 7) /\
    lts_pes_parse_header b (zlen b) true true true
    = Some (19, mkPesOut (Some 0xE0) (Some (uwrap 33 90000 / 90)) (Some 70)).
Proof.
  apply (pes_header_roundtrip 0xE0 90000 70 (replicate 32 7) 200);
    [vm_compute; discriminate|lia|lia|lia].
Defined.

(** [lts_pes_make_header] on every input with room for the header: it refuses
    exactly when a positive [maxlen] cannot hold header and payload, and then
    leaves the buffer alone; otherwise it writes 19 bytes and nothing else. *)
Theorem pes_make_header_spec sid ts n dest maxlen :
  19 <= zlen dest ->
  lts_pes_make_header sid ts n dest maxlen
  = if (0 <? maxlen) && (maxlen <? 19 + n) then Some (-1, dest)
    else Some (19, pes_header sid ts n ++ drop 19 dest).
Proof.
  intros Hd. case_match eqn:E.
  - apply make_header_short; lia.
  - apply make_header_layout; lia.
Qed.

Lemma pes_make_header_spec_witness :
  lts_pes_make_header 0xC0 1 100 (replicate 19 0) 118
  = if (0 <? 118) && (118 <? 19 + 100) then Some (-1, replicate 19 0)
    else Some (19, pes_header 0xC0 1 100 ++ drop 19 (replicate 19 0)).
Proof. apply (pes_make_header_spec 0xC0 1 100 (replicate 19 0) 118). vm_compute. discriminate. Defined.

(** Parsing a header stays inside the packet when 14 bytes can be read (the
    nine of the fixed part and the five of the time stamp), and returns 0 or a
    length between 9 and 264. *)
Theorem pes_parse_header_safe pes len p1 p2 p3 :
  bytes pes -> len <= zlen pes -> 14 <= zlen pes ->
  exists r o, lts_pes_parse_header pes len p1 p2 p3 = Some (r, o) /\
              (r = 0 /\ o = no_out \/ 9 <= r <= 264).
Proof. apply parse_header_in_bounds. Qed.

Lemma pes_parse_header_safe_witness :
  exists r o, lts_pes_parse_header ([0; 0; 1; 0xE0; 0; 0; 0x80; 0x80; 5; 0x21; 0; 1; 0; 1])
                14 true true true = Some (r, o) /\ (r = 0 /\ o = no_out \/ 9 <= r <= 264).
Proof.
  apply pes_parse_header_safe; [repeat constructor; done|vm_compute; discriminate..].
Defined.

(** The length check of the parser admits packets of 9 to 13 bytes whose
    flags announce a time stamp, and on those the parser reads past their end. *)
Theorem pes_parse_header_overread pes p1 p3 :
  9 <= zlen pes <= 13 -> take 3 pes = [0; 0; 1] ->
  (exists sid, rd pes 3 = Some sid /\ 0x20 <= sid < 256) ->
  (exists hl, rd pes 8 = Some hl /\ 0 <= hl) ->
  (exists fl, rd pes 7 = Some fl /\ Z.testbit fl 7 = true) ->
  lts_pes_parse_header pes (zlen pes) p1 true p3 = None.
Proof.
  intros Hl Ht (sid & Es & Hs) (hl & Eh & Hh) (fl & Ef & Hf).
  unfold lts_pes_parse_header, get_pes_head_len.
  rewrite (proj2 (Z.ltb_ge _ _)) by lia.
  assert (exists t, pes = 0 :: 0 :: 1 :: t) as [t ->].
  { exists (drop 3 pes). rewrite <- (take_drop 3 pes) at 1. by rewrite Ht. }
  change (rd (0 :: 0 :: 1 :: t) 0) with (Some 0).
  change (rd (0 :: 0 :: 1 :: t) 1) with (Some 0).
  change (rd (0 :: 0 :: 1 :: t) 2) with (Some 1). cbv iota beta. simpl negb. cbv iota.
  rewrite Es, Eh, Ef, elementary_id by done.
  rewrite (proj2 (Z.leb_gt _ _)) by lia.
  assert (truthy (Z.land fl 0x80) = true) as ->.
  { unfold truthy. destruct (Z.eqb_spec (Z.land fl 128) 0) as [E|]; [|done].
    apply (f_equal (fun z => Z.testbit z 7)) in E. rewrite Z.land_spec, Hf in E. done. }
  unfold read_pts. rewrite (rd_out _ (9 + 4)) by lia.
  repeat case_match; simplify_eq; done.
Qed.

Lemma pes_parse_header_overread_witness :
  lts_pes_parse_header [0; 0; 1; 0xE0; 0; 0; 0x80; 0x80; 0] 9 true true true = None.
Proof.
  apply (pes_parse_header_overread [0; 0; 1; 0xE0; 0; 0; 0x80; 0x80; 0] true true);
    [vm_compute; split; discriminate|reflexivity|..];
    eexists; (split; [reflexivity|]); (reflexivity || lia).
Defined.
