(* ===== verification/TsMux.v ===== *)
(** The transport stream multiplexer: the model of src/file/libmpeg/tsmux.c. *)

From stdpp Require Import base list option strings.
From S2P Require Import Prelude CMem TypeDefs Pes.

Local Open Scope Z_scope.
Open Scope c_scope.

Definition TS_STREAM_ID : Z := 0x0010.
Definition TS_PMT_ID_BASE : Z := 0x1000.

Definition get_ts_pmt_id (program_number : Z) : Z :=
  u16 (TS_PMT_ID_BASE + u16 program_number).

Definition get_ts_stream_id (program_number stream_number : Z) : Z :=
  u16 (0x0100 + program_number * MAX_STREAM_NUM + stream_number).

(** ** CRC32 *)

Definition CRC_poly_32 : Z := 0x04c11db7.

(** The loop state: the counters and the register.  One iteration handles one
    bit; [byte_count] also stands for the position of [data]. *)
Record crc_state := mkCrc { byte_count : Z; bit_count : Z; CRC : Z }.

(** [(uint8_t)(CRC>>31)^( *data>>(7-bit_count++)&1)] selects the branch. *)
Definition crc_iter (data : buf) (s : crc_state) : option crc_state :=
  let* d := rd data (byte_count s) in
  let t := Z.lxor (u8 (Z.shiftr (CRC s) 31))
                  (Z.land (Z.shiftr d (7 - bit_count s)) 1) in
  let bit_count' := bit_count s + 1 in
  let CRC' := if truthy t then Z.lxor (u32 (Z.shiftl (CRC s) 1)) CRC_poly_32
              else u32 (Z.shiftl (CRC s) 1) in
  if 7 <? bit_count' then Some (mkCrc (byte_count s + 1) 0 CRC')
  else Some (mkCrc (byte_count s) bit_count' CRC').

Fixpoint crc_loop (fuel : nat) (data : buf) (len : Z) (s : crc_state) : option Z :=
  if byte_count s <? len then
    match fuel with
    | O => None
    | S fuel => let* s := crc_iter data s in crc_loop fuel data len s
    end
  else Some (CRC s).

(** Eight iterations per byte. *)
Definition CRC_encode (data : buf) (len : Z) : option Z :=
  crc_loop (Z.to_nat (8 * len)) data len (mkCrc 0 0 0xffffffff).

(** ** Packet headers *)

Definition make_ts_pcr (b : buf) (p ts : Z) : option buf :=
  let* b := wr b p (u8 (Z.shiftr ts 25)) in
  let* b := wr b (p + 1) (u8 (Z.shiftr ts 17)) in
  let* b := wr b (p + 2) (u8 (Z.shiftr ts 9)) in
  let* b := wr b (p + 3) (u8 (Z.shiftr ts 1)) in
  let* b := wr b (p + 4) (u8 (Z.lor (Z.shiftl (Z.land ts 1) 7) 0x7e)) in
  wr b (p + 5) 0x00.

Definition gen_ts_packet_header (PID payload_len : Z) (pkt : buf) : option (Z * buf) :=
  let* pkt := store pkt 0 ts_header "sync_byte" 0x47 in
  let* pkt := store pkt 0 ts_header "transport_error_indicator" 0 in
  let* pkt := store pkt 0 ts_header "payload_unit_start_indicator" 1 in
  let* pkt := store pkt 0 ts_header "transport_priority" 0 in
  let* pkt := store pkt 0 ts_header "PID_high5" (Z.land (u8 (Z.shiftr PID 8)) 0x1f) in
  let* pkt := store pkt 0 ts_header "PID_low8" (u8 PID) in
  let* pkt := store pkt 0 ts_header "transport_scrambling_control" 0 in
  let* pkt := store pkt 0 ts_header "adaptation_field_control" 3 in
  let* pkt := store pkt 0 ts_header "continuity_counter" 0 in
  let* pkt := store pkt 0 ts_header "adaptation_field_length" (188 - 4 - 1 - payload_len) in
  let* pkt := store pkt 0 ts_header "discontinuity_indicator" 0 in
  let* pkt := store pkt 0 ts_header "random_access_indicator" 0 in
  let* pkt := store pkt 0 ts_header "elementary_stream_priority_indicator" 0 in
  let* pkt := store pkt 0 ts_header "PCR_flag" 0 in
  let* pkt := store pkt 0 ts_header "OPCR_flag" 0 in
  let* pkt := store pkt 0 ts_header "splicing_point_flag" 0 in
  let* pkt := store pkt 0 ts_header "transport_private_data_flag" 0 in
  let* pkt := store pkt 0 ts_header "adaptation_field_extension_flag" 0 in
  let* afl := load pkt 0 ts_header "adaptation_field_length" in
  let* pkt := memset pkt 6 0xff (afl - 1) in
  Some (188 - payload_len, pkt).

Definition set_ts_header_counter (counter : Z) (pkt : buf) : option buf :=
  store pkt 0 ts_header "continuity_counter" (Z.land counter 0x0f).

Definition set_ts_header_with_pcr (ts : Z) (pkt : buf) : option buf :=
  let* pkt := store pkt 0 ts_header "payload_unit_start_indicator" 1 in
  let* pkt := store pkt 0 ts_header "PCR_flag" 1 in
  make_ts_pcr pkt 6 ts.

Definition set_ts_header_without_pcr (pkt : buf) : option buf :=
  store pkt 0 ts_header "payload_unit_start_indicator" 0.

(** Four bytes of a CRC at [b + p], most significant first. *)
Definition put_crc32 (b : buf) (p crc32 : Z) : option buf :=
  let* b := wr b p (u8 (Z.shiftr crc32 24)) in
  let* b := wr b (p + 1) (u8 (Z.shiftr crc32 16)) in
  let* b := wr b (p + 2) (u8 (Z.shiftr crc32 8)) in
  wr b (p + 3) (u8 crc32).

(** ** PAT

    In this function and the next, [w] is what [&pkt\[start_pos\]] points to: the
    pointer field, the section, its entries and its CRC are all reached from
    there. *)

Fixpoint pat_map_loop (n : nat) (i : Z) (b : buf) (map : Z) : option buf :=
  match n with
  | O => Some b
  | S n =>
      let program_number := i + 1 in
      let pmt_id := get_ts_pmt_id program_number in
      let p := map + i * sizeof pat_map_array in
      let* b := store b p pat_map_array "program_number_high8" (u8 (Z.shiftr program_number 8)) in
      let* b := store b p pat_map_array "program_number_low8" (u8 program_number) in
      let* b := store b p pat_map_array "reserved" 7 in
      let* b := store b p pat_map_array "program_map_PID_high5"
                  (Z.land (u8 (Z.shiftr pmt_id 8)) 0x1f) in
      let* b := store b p pat_map_array "program_map_PID_low8" (u8 pmt_id) in
      pat_map_loop n (i + 1) b map
  end.

Definition gen_pat_ts_packet (pi : TsProgramInfo) (pkt : buf) : option (unit * buf) :=
  let PID := TS_STREAM_ID in
  let pat_len := sizeof pat_section + pi_program_num pi * sizeof pat_map_array + 4 in
  let pat_section_len := 5 + pi_program_num pi * sizeof pat_map_array + 4 in
  let* (start_pos, pkt) := gen_ts_packet_header 0 (pat_len + 1) pkt in
  let* pkt := set_ts_header_counter (pi_pat_pmt_counter pi) pkt in
  at_off pkt start_pos (fun w =>
    let* w := wr w 0 0 in
    let pat := 1 in
    let* w := store w pat pat_section "table_id" 0x00 in
    let* w := store w pat pat_section "section_syntax_indicator" 1 in
    let* w := store w pat pat_section "zero" 0 in
    let* w := store w pat pat_section "reserved1" 3 in
    let* w := store w pat pat_section "section_length_high4"
                  (Z.land (u8 (Z.shiftr pat_section_len 8)) 0x0f) in
    let* w := store w pat pat_section "section_length_low8" (u8 pat_section_len) in
    let* w := store w pat pat_section "transport_stream_id_high8" (u8 (Z.shiftr PID 8)) in
    let* w := store w pat pat_section "transport_stream_id_low8" (u8 PID) in
    let* w := store w pat pat_section "reserved2" 3 in
    let* w := store w pat pat_section "version_number" 0 in
    let* w := store w pat pat_section "current_next_indicator" 1 in
    let* w := store w pat pat_section "section_number" 0x00 in
    let* w := store w pat pat_section "last_section_number" 0x00 in
    let map := pat + sizeof pat_section in
    let* w := pat_map_loop (Z.to_nat (pi_program_num pi)) 0 w map in
    let crc32ch := map + pi_program_num pi * sizeof pat_map_array in
    let* crc32 := CRC_encode (drop (Z.to_nat pat) w) (pat_len - 4) in
    let* w := put_crc32 w crc32ch crc32 in
    Some (tt, w)).

(** ** PMT *)

Fixpoint pmt_stream_loop (n : nat) (i pno : Z) (ps : TsProgramSpec) (b : buf) (strm : Z)
  : option buf :=
  match n with
  | O => Some b
  | S n =>
      let elementary_PID := get_ts_stream_id pno i in
      let p := strm + i * sizeof pmt_stream_array in
      let* ss := aget (ps_stream ps) i in
      let* b := store b p pmt_stream_array "stream_type" (ss_type ss) in
      let* b := store b p pmt_stream_array "reserved1" 7 in
      let* b := store b p pmt_stream_array "elementary_PID_high5"
                  (Z.land (u8 (Z.shiftr elementary_PID 8)) 0x1f) in
      let* b := store b p pmt_stream_array "elementary_PID_low8" (u8 elementary_PID) in
      let* b := store b p pmt_stream_array "reserved2" 15 in
      let* b := store b p pmt_stream_array "ES_info_length_high4" 0 in
      let* b := store b p pmt_stream_array "ES_info_length_low8" 0 in
      pmt_stream_loop n (i + 1) pno ps b strm
  end.

Definition gen_pmt_ts_packet (pno : Z) (ps : TsProgramSpec) (pkt : buf)
  : option (unit * buf) :=
  let program_number := pno + 1 in
  let PID := get_ts_pmt_id program_number in
  let pmt_len := sizeof pmt_section + ps_stream_num ps * sizeof pmt_stream_array + 4 in
  let pmt_section_len := 9 + ps_stream_num ps * sizeof pmt_stream_array + 4 in
  let* (start_pos, pkt) := gen_ts_packet_header PID (pmt_len + 1) pkt in
  let PCR_PID :=
    if (0 <=? ps_key_stream_id ps) && (ps_key_stream_id ps <? ps_stream_num ps)
    then get_ts_stream_id pno (ps_key_stream_id ps) else get_ts_stream_id pno 0 in
  at_off pkt start_pos (fun w =>
    let* w := wr w 0 0 in
    let pmt := 1 in
    let* w := store w pmt pmt_section "table_id" 0x02 in
    let* w := store w pmt pmt_section "section_syntax_indicator" 1 in
    let* w := store w pmt pmt_section "zero" 0 in
    let* w := store w pmt pmt_section "reserved1" 3 in
    let* w := store w pmt pmt_section "section_length_high4"
                  (Z.land (u8 (Z.shiftr pmt_section_len 8)) 0x0f) in
    let* w := store w pmt pmt_section "section_length_low8" (u8 pmt_section_len) in
    let* w := store w pmt pmt_section "program_number_high8" (u8 (Z.shiftr program_number 8)) in
    let* w := store w pmt pmt_section "program_number_low8" (u8 program_number) in
    let* w := store w pmt pmt_section "reserved2" 3 in
    let* w := store w pmt pmt_section "version_number" 0 in
    let* w := store w pmt pmt_section "current_next_indicator" 1 in
    let* w := store w pmt pmt_section "section_number" 0x00 in
    let* w := store w pmt pmt_section "last_section_number" 0x00 in
    let* w := store w pmt pmt_section "reserved3" 7 in
    let* w := store w pmt pmt_section "PCR_PID_high5" (Z.land (u8 (Z.shiftr PCR_PID 8)) 0x1f) in
    let* w := store w pmt pmt_section "PCR_PID_low8" (u8 PCR_PID) in
    let* w := store w pmt pmt_section "reserved4" 15 in
    let* w := store w pmt pmt_section "program_info_length_high4" 0 in
    let* w := store w pmt pmt_section "program_info_length_low8" 0 in
    let strm := pmt + sizeof pmt_section in
    let* w := pmt_stream_loop (Z.to_nat (ps_stream_num ps)) 0 pno ps w strm in
    let crc32ch := strm + ps_stream_num ps * sizeof pmt_stream_array in
    let* crc32 := CRC_encode (drop (Z.to_nat pmt) w) (pmt_len - 4) in
    let* w := put_crc32 w crc32ch crc32 in
    Some (tt, w)).

(** ** Packets of a frame *)

(** Packet [i] and those after it: [n] packets remain, [fp] and [ptr] are the
    positions in the frame and in [dest], [counter] the continuity counter. *)
Fixpoint pes_rest_loop (n : nat) (i pack_num pes_tail_len PID : Z) (fdata : buf)
    (fp ptr counter : Z) (dest : buf) : option (Z * buf) :=
  match n with
  | O => Some (counter, dest)
  | S n =>
      let payload_len := if i =? pack_num - 1 then pes_tail_len - i * 182 else 182 in
      let* (_, dest) := at_off dest ptr (fun pkt =>
        let* (start_pos, pkt) := gen_ts_packet_header PID payload_len pkt in
        let* pkt := set_ts_header_without_pcr pkt in
        let* pkt := set_ts_header_counter counter pkt in
        let* data := rdn fdata fp payload_len in
        let* pkt := wrn pkt start_pos data in
        Some (tt, pkt)) in
      pes_rest_loop n (i + 1) pack_num pes_tail_len PID fdata
        (fp + payload_len) (ptr + 188) (counter + 1) dest
  end.

(** The first (or only) packet: header with PCR, PES header, then the first
    [len] bytes of the frame; [payload_len] is the length of the payload. *)
Definition pes_first_packet (PID payload_len ts counter : Z) (pes_header fdata : buf)
    (len : Z) (pkt : buf) : option (unit * buf) :=
  let* (start_pos, pkt) := gen_ts_packet_header PID payload_len pkt in
  let* pkt := set_ts_header_with_pcr ts pkt in
  let* pkt := set_ts_header_counter counter pkt in
  let* pkt := wrn pkt start_pos pes_header in
  let* data := rdn fdata 0 len in
  let* pkt := wrn pkt (start_pos + 19) data in
  Some (tt, pkt).

(** The packets of one frame at the start of [dest].  The result is the returned
    length, the buffer and the program information; [fdata] is [frame->frame]. *)
Definition gen_pes_ts_packets (f : TEsFrame) (fdata : buf) (maxlen : Z)
    (pi : TsProgramInfo) (dest : buf) : option (Z * TsProgramInfo * buf) :=
  let PID := get_ts_stream_id (f_program_number f) (f_stream_number f) in
  let* ss := get_stream pi (f_program_number f) (f_stream_number f) in
  let ss := set_ss_stream_id
              (lts_pes_stream_id (ss_type ss) (f_program_number f) (f_stream_number f)) ss in
  let* pi := put_stream pi (f_program_number f) (f_stream_number f) ss in
  let* (pes_len, pes_header) :=
    lts_pes_make_header (ss_stream_id ss) (f_pts f) (f_length f) (replicate 19 0) (-1) in
  if pes_len <? 0 then Some (-1, pi, dest) else
  let pes_len := pes_len + f_length f in
  if pes_len <=? 176 then
    let total_length := 188 in
    if maxlen <? total_length then Some (-1, pi, dest) else
    let* (_, dest) := pes_first_packet PID pes_len (f_pts f) (ss_continuity_counter ss)
                        pes_header fdata (f_length f) dest in
    let* pi := put_stream pi (f_program_number f) (f_stream_number f)
                 (set_ss_counter (ss_continuity_counter ss + 1) ss) in
    Some (total_length, pi, dest)
  else
    let pes_tail_len := pes_len - 176 in
    let pack_num := (pes_tail_len + 181) ÷ 182 in
    let total_length := 188 * (pack_num + 1) in
    if maxlen <? total_length then Some (-1, pi, dest) else
    let* (_, dest) := pes_first_packet PID 176 (f_pts f) (ss_continuity_counter ss)
                        pes_header fdata (176 - 19) dest in
    let* (counter, dest) := pes_rest_loop (Z.to_nat pack_num) 0 pack_num pes_tail_len PID
                              fdata (176 - 19) 188 (ss_continuity_counter ss + 1) dest in
    let* pi := put_stream pi (f_program_number f) (f_stream_number f)
                 (set_ss_counter counter ss) in
    Some (total_length, pi, dest).

(** ** The entry point *)

Fixpoint pmt_loop (n : nat) (i : Z) (pi : TsProgramInfo) (ptr : Z) (dest : buf)
  : option buf :=
  match n with
  | O => Some dest
  | S n =>
      let* ps := aget (pi_prog pi) i in
      let* (_, dest) := at_off dest ptr (fun pkt =>
        let* (_, pkt) := gen_pmt_ts_packet i ps pkt in
        let* pkt := set_ts_header_counter (pi_pat_pmt_counter pi) pkt in
        Some (tt, pkt)) in
      pmt_loop n (i + 1) pi (ptr + 188) dest
  end.

(** [None] arguments are null pointers. *)
Definition lts_ts_stream (frame : option TEsFrame) (dest : option buf) (maxlen : Z)
    (pi : option TsProgramInfo) : option (Z * option TsProgramInfo * option buf) :=
  match frame, dest, pi with
  | Some f, Some d, Some i =>
      if maxlen =? 0 then Some (-1, pi, dest) else
      match f_frame f with
      | None => Some (-1, pi, dest)
      | Some fdata =>
          if f_length f =? 0 then Some (-1, pi, dest) else
          (* [None] is the early return, otherwise [patpmt_len] and [ptr - dest] *)
          let* tables :=
            (if truthy (f_is_key f) then
               let patpmt_len := 188 + 188 * pi_program_num i in
               if maxlen <? patpmt_len then Some None else
               let* (_, d) := gen_pat_ts_packet i d in
               let* d := pmt_loop (Z.to_nat (pi_program_num i)) 0 i 188 d in
               Some (Some (patpmt_len, 188 + 188 * Z.max 0 (pi_program_num i),
                           set_pi_counter (pi_pat_pmt_counter i + 1) i, d))
             else Some (Some (0, 0, i, d))) in
          match tables with
          | None => Some (-1, pi, dest)
          | Some (patpmt_len, ptr, i, d) =>
              let* (ret, i, d) := at_off d ptr
                (fun w => let* (r, i, w) := gen_pes_ts_packets f fdata (maxlen - patpmt_len) i w in
                          Some ((r, i), w)) in
              if ret <=? 0 then Some (ret, Some i, Some d)
              else Some (patpmt_len + ret, Some i, Some d)
          end
      end
  | _, _, _ => Some (-1, pi, dest)
  end.
