(* ===== verification/TsMuxSpec.v ===== *)
(** What the transport stream multiplexer produces: the reference CRC, the bytes
    of each kind of packet, and the proofs that src/file/libmpeg/tsmux.c (modelled
    in TsMux) computes them whatever the destination held. *)

From stdpp Require Import base list option strings.
From S2P Require Import Prelude CMem TypeDefs Pes TsMux.

Local Open Scope Z_scope.
Open Scope c_scope.

(** ** The CRC as a fold *)

Definition crc_bit (c : Z) (b : bool) : Z :=
  if xorb (Z.testbit c 31) b then Z.lxor (u32 (Z.shiftl c 1)) CRC_poly_32
  else u32 (Z.shiftl c 1).

Definition crc_bits (c d : Z) (ks : list Z) : Z :=
  fold_left (fun c k => crc_bit c (Z.testbit d k)) ks c.

Definition crc_byte (c d : Z) : Z := crc_bits c d [7; 6; 5; 4; 3; 2; 1; 0].

Definition crc32_from (c : Z) (data : buf) : Z := fold_left crc_byte data c.
Definition crc32 (data : buf) : Z := crc32_from 0xffffffff data.

Lemma is_u_crc_bit c b : is_u 32 (crc_bit c b).
Proof.
  unfold crc_bit. case_match; [|auto with cint].
  apply is_u_bits; [lia| |].
  - apply Z.lxor_nonneg. pose proof (is_u_uwrap 32 (Z.shiftl c 1) ltac:(lia)) as [? ?].
    split; [intros _; vm_compute; discriminate|intros _; done].
  - intros i Hi. rewrite Z.lxor_spec, testbit_uwrap by lia.
    rewrite (testbit_high 32 CRC_poly_32) by (lia || is_u_const).
    destruct (Z.ltb_spec i 32); [lia|done].
Qed.

Lemma truthy_bit b : truthy (Z.b2z b) = b.
Proof. by destruct b. Qed.

Lemma land_1 z : Z.land z 1 = Z.b2z (Z.testbit z 0).
Proof. change 1 with (Z.ones 1) at 1. rewrite Z.land_ones, Z.bit0_mod by lia. done. Qed.

Lemma shiftr_top c : is_u 32 c -> u8 (Z.shiftr c 31) = Z.b2z (Z.testbit c 31).
Proof.
  intros [? ?]. assert (Z.shiftr c 31 = c / 2 ^ 31) as E by (rewrite Z.shiftr_div_pow2; lia).
  assert (0 <= c / 2 ^ 31 < 2).
  { split; [apply Z.div_pos; lia|apply Z.div_lt_upper_bound; lia]. }
  rewrite Z.testbit_spec' by lia. rewrite E, uwrap_id by (unfold is_u; lia).
  rewrite Z.mod_small; lia.
Qed.

Lemma crc_iter_spec data s d :
  rd data (byte_count s) = Some d -> is_u 32 (CRC s) -> 0 <= bit_count s <= 7 ->
  crc_iter data s
  = Some (mkCrc (if 7 <=? bit_count s then byte_count s + 1 else byte_count s)
                (if 7 <=? bit_count s then 0 else bit_count s + 1)
                (crc_bit (CRC s) (Z.testbit d (7 - bit_count s)))).
Proof.
  intros Hd Hc Hb. unfold crc_iter. rewrite Hd. cbv zeta.
  rewrite shiftr_top, land_1, Z.shiftr_spec by (done || lia).
  change (0 + (7 - bit_count s)) with (7 - bit_count s).
  assert (forall a b, truthy (Z.lxor (Z.b2z a) (Z.b2z b)) = xorb a b) as ->
    by by intros [] [].
  fold (crc_bit (CRC s) (Z.testbit d (7 - bit_count s))).
  destruct (Z.ltb_spec 7 (bit_count s + 1)), (Z.leb_spec 7 (bit_count s)); (lia || done).
Qed.

Lemma crc_loop_S fuel data len s :
  byte_count s < len ->
  crc_loop (S fuel) data len s = (let* s := crc_iter data s in crc_loop fuel data len s).
Proof. intros. simpl. by rewrite (proj2 (Z.ltb_lt _ _)). Qed.

(** Eight iterations consume one byte. *)
Lemma crc_loop_byte fuel data len i c d :
  rd data i = Some d -> i < len -> is_u 32 c ->
  crc_loop (8 + fuel) data len (mkCrc i 0 c) = crc_loop fuel data len (mkCrc (i + 1) 0 (crc_byte c d)).
Proof.
  intros Hd Hi Hc. unfold crc_byte, crc_bits. cbn [fold_left].
  do 8 (rewrite Nat.add_succ_l, crc_loop_S, (crc_iter_spec _ _ d)
          by (simpl; (done || lia || apply is_u_crc_bit)); simpl byte_count; simpl bit_count;
        simpl CRC; cbv iota).
  done.
Qed.

Lemma is_u_crc_byte c d : is_u 32 (crc_byte c d).
Proof. apply is_u_crc_bit. Qed.

Lemma crc_loop_spec pre rest post c :
  is_u 32 c ->
  crc_loop (8 * length rest) (pre ++ rest ++ post) (zlen pre + zlen rest) (mkCrc (zlen pre) 0 c)
  = Some (crc32_from c rest).
Proof.
  revert pre c. induction rest as [|d rest IH]; intros pre c Hc.
  - simpl. rewrite zlen_nil, (proj2 (Z.ltb_ge _ _)) by lia. done.
  - change (8 * length (d :: rest))%nat with (8 * S (length rest))%nat.
    replace (8 * S (length rest))%nat with (8 + 8 * length rest)%nat by lia.
    rewrite (crc_loop_byte _ _ _ _ _ d); [|  |rewrite zlen_cons; pose proof (zlen_nonneg rest); lia|done].
    + specialize (IH (pre ++ [d]) (crc_byte c d) (is_u_crc_byte c d)).
      rewrite <- app_assoc in IH. simpl in IH. rewrite zlen_app in IH.
      rewrite zlen_cons. rewrite zlen_cons in IH. rewrite zlen_nil in IH.
      replace (zlen pre + (1 + zlen rest)) with (zlen pre + (1 + 0) + zlen rest) by lia.
      replace (zlen pre + 1) with (zlen pre + (1 + 0)) by lia. exact IH.
    + unfold rd. pose proof (zlen_nonneg pre). rewrite (proj2 (Z.leb_le _ _)) by lia.
      unfold zlen. rewrite Nat2Z.id. simpl. rewrite lookup_app_r, Nat.sub_diag by lia. done.
Qed.

Lemma CRC_encode_spec data post :
  CRC_encode (data ++ post) (zlen data) = Some (crc32 data).
Proof.
  unfold CRC_encode. pose proof (crc_loop_spec [] data post 0xffffffff ltac:(is_u_const)) as H.
  simpl in H. rewrite zlen_nil, Z.add_0_l in H.
  replace (Z.to_nat (8 * zlen data)) with (8 * length data)%nat by (unfold zlen; lia).
  exact H.
Qed.

(** Feeding the register its own top byte shifts it. *)
Lemma crc_bit_self c b : b = Z.testbit c 31 -> crc_bit c b = u32 (Z.shiftl c 1).
Proof. intros ->. unfold crc_bit. by rewrite xorb_nilpotent. Qed.

Lemma u32_shift_shift c j :
  0 <= j -> u32 (Z.shiftl (u32 (Z.shiftl c j)) 1) = u32 (Z.shiftl c (j + 1)).
Proof.
  intros. apply Z.bits_inj'. intros i Hi. rewrite !testbit_uwrap by lia.
  destruct (Z.ltb_spec i 32); [simpl|done].
  rewrite !Z.shiftl_spec by lia. destruct (Z.lt_ge_cases (i - 1) 0).
  - rewrite !Z.testbit_neg_r by lia. done.
  - rewrite testbit_uwrap, Z.shiftl_spec by lia.
    destruct (Z.ltb_spec (i - 1) 32); [|lia]. simpl. f_equal. lia.
Qed.

Lemma crc_byte_self c d :
  (forall k, 0 <= k < 8 -> Z.testbit d k = Z.testbit c (24 + k)) ->
  crc_byte c d = u32 (Z.shiftl c 8).
Proof.
  intros H. unfold crc_byte, crc_bits. cbn [fold_left].
  assert (forall j i m e, 0 <= j <= 7 -> i = 7 - j -> m = j + 1 ->
    e = u32 (Z.shiftl c j) \/ (j = 0 /\ e = c) ->
    crc_bit e (Z.testbit d i) = u32 (Z.shiftl c m)) as Step.
  { intros j i m e Hj -> -> [-> | [-> ->]].
    - rewrite crc_bit_self; [apply u32_shift_shift; lia|].
      rewrite testbit_uwrap, Z.shiftl_spec, H by lia. simpl. f_equal. lia.
    - rewrite crc_bit_self; [done|]. by rewrite H by lia. }
  rewrite (Step 0 7 1 c) by (auto || lia). rewrite (Step 1 6 2) by (auto || lia).
  rewrite (Step 2 5 3) by (auto || lia). rewrite (Step 3 4 4) by (auto || lia).
  rewrite (Step 4 3 5) by (auto || lia). rewrite (Step 5 2 6) by (auto || lia).
  rewrite (Step 6 1 7) by (auto || lia). by rewrite (Step 7 0 8) by (auto || lia).
Qed.

(** The four bytes of a CRC as they are written. *)
Definition crc_field (c : Z) : buf :=
  [u8 (u8 (Z.shiftr c 24)); u8 (u8 (Z.shiftr c 16)); u8 (u8 (Z.shiftr c 8)); u8 (u8 c)].

Lemma crc_bytes_self c : crc32_from c (crc_field c) = 0.
Proof.
  unfold crc32_from, crc_field. cbn [fold_left].
  assert (forall s m e d, 0 <= s <= 24 -> m = 32 - s ->
            e = u32 (Z.shiftl c (24 - s)) \/ (s = 24 /\ e = c) ->
            d = u8 (u8 (Z.shiftr c s)) -> crc_byte e d = u32 (Z.shiftl c m)) as Step.
  { intros s m e d Hs -> He ->. rewrite crc_byte_self.
    - destruct He as [-> | [-> ->]]; [|done]. apply Z.bits_inj'. intros i Hi.
      rewrite !testbit_uwrap by lia. destruct (Z.ltb_spec i 32); [simpl|done].
      rewrite !Z.shiftl_spec by lia. destruct (Z.lt_ge_cases (i - 8) 0).
      + rewrite !Z.testbit_neg_r by lia. done.
      + rewrite testbit_uwrap, Z.shiftl_spec by lia.
        destruct (Z.ltb_spec (i - 8) 32); [|lia]. simpl. f_equal. lia.
    - intros k Hk. rewrite !testbit_uwrap, Z.shiftr_spec by lia.
      rewrite (proj2 (Z.ltb_lt k 8)) by lia. simpl.
      destruct He as [-> | [-> ->]]; [|f_equal; lia].
      rewrite testbit_uwrap, Z.shiftl_spec by lia.
      rewrite (proj2 (Z.ltb_lt _ _)) by lia. simpl. f_equal. lia. }
  rewrite (Step 24 8 c) by (auto || lia). rewrite (Step 16 16 _ (u8 (u8 (Z.shiftr c 16)))) by (auto || lia).
  rewrite (Step 8 24 _ (u8 (u8 (Z.shiftr c 8)))) by (auto || lia).
  rewrite (Step 0 32 _ (u8 (u8 c))) by (rewrite ?Z.shiftr_0_r; auto || lia).
  apply Z.bits_inj'. intros i Hi. rewrite testbit_uwrap, Z.testbit_0_l by lia.
  destruct (Z.ltb_spec i 32); [|done]. rewrite Z.shiftl_spec, Z.testbit_neg_r by lia. done.
Qed.

Lemma crc32_from_app c d e : crc32_from c (d ++ e) = crc32_from (crc32_from c d) e.
Proof. apply fold_left_app. Qed.

(** C29: [CRC_encode] terminates on every buffer that holds the [len] bytes and
    computes the CRC of MPEG-2 (polynomial 0x04c11db7, initial value 0xffffffff,
    no reflection), given as a fold over bytes and bits. *)
Theorem crc_encode_refines data len :
  0 <= len <= zlen data ->
  CRC_encode data len = Some (crc32 (take (Z.to_nat len) data)).
Proof.
  intros H. pose proof (CRC_encode_spec (take (Z.to_nat len) data) (drop (Z.to_nat len) data)) as E.
  by rewrite take_drop, zlen_take in E by lia.
Qed.

Lemma crc_encode_refines_witness :
  CRC_encode [0x31; 0x32; 0x33; 0x34; 0x35; 0x36; 0x37; 0x38; 0x39] 9
  = Some (crc32 [0x31; 0x32; 0x33; 0x34; 0x35; 0x36; 0x37; 0x38; 0x39]) /\
  crc32 [0x31; 0x32; 0x33; 0x34; 0x35; 0x36; 0x37; 0x38; 0x39] = 0x0376e6e7.
Proof.
  split; [|reflexivity].
  apply (crc_encode_refines [0x31; 0x32; 0x33; 0x34; 0x35; 0x36; 0x37; 0x38; 0x39] 9).
  split; vm_compute; discriminate.
Defined.

(** A section followed by its CRC, as the PAT and PMT writers lay it out, has
    CRC zero: the check a receiver makes succeeds for every section. *)
Theorem crc_residue_zero data :
  CRC_encode (data ++ crc_field (crc32 data)) (zlen (data ++ crc_field (crc32 data))) = Some 0.
Proof.
  rewrite <- (app_nil_r (data ++ _)) at 1. rewrite CRC_encode_spec. f_equal.
  unfold crc32 at 1. rewrite crc32_from_app. exact (crc_bytes_self (crc32 data)).
Qed.

(** ** The bytes of a packet *)

(** The first six bytes: [pusi] is the payload unit start indicator, [cc] the
    continuity counter, [afl] the adaptation field length. *)
Definition ts_head (pusi : bool) (PID cc afl flags : Z) : buf :=
  [0x47; Z.lor (if pusi then 0x40 else 0) (Z.land (Z.shiftr PID 8) 0x1f); u8 PID;
   Z.lor 0x30 (Z.land cc 0x0f); afl; flags].

Definition pcr_bytes (ts : Z) : buf :=
  [u8 (u8 (Z.shiftr ts 25)); u8 (u8 (Z.shiftr ts 17)); u8 (u8 (Z.shiftr ts 9));
   u8 (u8 (Z.shiftr ts 1)); u8 (u8 (Z.lor (Z.shiftl (Z.land ts 1) 7) 0x7e)); 0].

(** A packet without PCR carrying [payload]. *)
Definition plain_packet (pusi : bool) (PID cc : Z) (payload : buf) : buf :=
  ts_head pusi PID cc (183 - zlen payload) 0
  ++ replicate (Z.to_nat (182 - zlen payload)) 0xff ++ payload.

(** The packet that starts a frame. *)
Definition first_packet (PID ts cc : Z) (payload : buf) : buf :=
  ts_head true PID cc (183 - zlen payload) 0x10 ++ pcr_bytes ts
  ++ replicate (Z.to_nat (176 - zlen payload)) 0xff ++ payload.

Fixpoint rest_packets (n : nat) (PID cc : Z) (data : buf) : buf :=
  match n with
  | O => []
  | S n => plain_packet false PID cc (take 182 data) ++ rest_packets n PID (cc + 1) (drop 182 data)
  end.

Definition rest_count (len : Z) : Z := (len - 157 + 181) / 182.

(** All packets of a frame [data] with stream identifier [sid]. *)
Definition frame_packets (PID sid ts cc : Z) (data : buf) : buf :=
  first_packet PID ts cc (pes_header sid ts (zlen data) ++ take 157 data)
  ++ rest_packets (Z.to_nat (rest_count (zlen data))) PID (cc + 1) (drop 157 data).

(** Number of packets, that is how far the continuity counter advances. *)
Definition frame_count (len : Z) : Z := 1 + rest_count len.

Lemma zlen_plain_packet pusi PID cc p :
  zlen p <= 182 -> zlen (plain_packet pusi PID cc p) = 188.
Proof.
  intros. pose proof (zlen_nonneg p). unfold plain_packet, ts_head.
  rewrite !zlen_app, zlen_replicate, !zlen_cons, zlen_nil. lia.
Qed.

Lemma zlen_first_packet PID ts cc p : zlen p <= 176 -> zlen (first_packet PID ts cc p) = 188.
Proof.
  intros. pose proof (zlen_nonneg p). unfold first_packet, ts_head, pcr_bytes.
  rewrite !zlen_app, zlen_replicate, !zlen_cons, zlen_nil. lia.
Qed.

(** ** Header fields *)

(** Stores through the bit-fields leave nothing of the old byte behind. *)
Lemma head_byte1 old v :
  u8 (bf_put 0 5 (u8 (bf_put 5 1 (u8 (bf_put 6 1 (u8 (bf_put 7 1 old 0)) 1)) 0))
        (Z.land (u8 v) 0x1f)) = Z.lor 0x40 (Z.land v 0x1f).
Proof. unfold bf_put. bits 8. Qed.

Lemma head_byte3 old :
  u8 (bf_put 0 4 (u8 (bf_put 4 2 (u8 (bf_put 6 2 old 0)) 3)) 0) = 0x30.
Proof. unfold bf_put. bits 8. Qed.

Lemma flags_byte old :
  u8 (bf_put 0 1 (u8 (bf_put 1 1 (u8 (bf_put 2 1 (u8 (bf_put 3 1 (u8 (bf_put 4 1
    (u8 (bf_put 5 1 (u8 (bf_put 6 1 (u8 (bf_put 7 1 old 0)) 0)) 0)) 0)) 0)) 0)) 0)) 0) = 0.
Proof. unfold bf_put. bits 8. Qed.

(** [gen_ts_packet_header] overwrites all it should, whatever was there. *)
Lemma gen_header_layout PID n pkt :
  is_u 16 PID -> 188 <= zlen pkt -> 0 <= n <= 182 ->
  gen_ts_packet_header PID n pkt
  = Some (188 - n, ts_head true PID 0 (183 - n) 0 ++ replicate (Z.to_nat (182 - n)) 0xff
                   ++ drop (Z.to_nat (188 - n)) pkt).
Proof.
  intros HP Hk Hn. split_buf pkt 6. unfold gen_ts_packet_header. lhs_eval.
  rewrite head_byte1, head_byte3, flags_byte. whole_bytes.
  rewrite !(uwrap_id 8 (188 - 4 - 1 - n)) by (unfold is_u; lia).
  repeat rewrite zlen_cons in Hk.
  match goal with |- context [memset (?a :: ?b :: ?c :: ?d :: ?e :: ?f :: pkt) _ _ _] =>
    change (a :: b :: c :: d :: e :: f :: pkt) with ([a; b; c; d; e; f] ++ pkt) end.
  rewrite memset_app by (done || lia).
  replace (Z.to_nat (188 - n)) with (6 + Z.to_nat (182 - n))%nat by lia.
  replace (188 - 4 - 1 - n - 1) with (182 - n) by lia.
  replace (188 - 4 - 1 - n) with (183 - n) by lia. done.
Qed.

Lemma set_counter_layout counter pusi PID cc afl fl rest :
  set_ts_header_counter counter (ts_head pusi PID cc afl fl ++ rest)
  = Some (ts_head pusi PID counter afl fl ++ rest).
Proof.
  unfold set_ts_header_counter, ts_head. lhs_eval.
  assert (u8 (bf_put 0 4 (Z.lor 48 (Z.land cc 15)) (Z.land counter 15))
          = Z.lor 48 (Z.land counter 15)) as -> by (unfold bf_put; bits 8).
  done.
Qed.

Lemma without_pcr_layout PID cc afl fl rest :
  set_ts_header_without_pcr (ts_head true PID cc afl fl ++ rest)
  = Some (ts_head false PID cc afl fl ++ rest).
Proof.
  unfold set_ts_header_without_pcr, ts_head. lhs_eval.
  assert (u8 (bf_put 6 1 (Z.lor 64 (Z.land (Z.shiftr PID 8) 31)) 0)
          = Z.lor 0 (Z.land (Z.shiftr PID 8) 31)) as -> by (unfold bf_put; bits 8).
  done.
Qed.

Lemma with_pcr_layout PID cc afl ts r0 r1 r2 r3 r4 r5 rest :
  set_ts_header_with_pcr ts (ts_head true PID cc afl 0 ++ [r0; r1; r2; r3; r4; r5] ++ rest)
  = Some (ts_head true PID cc afl 0x10 ++ pcr_bytes ts ++ rest).
Proof.
  unfold set_ts_header_with_pcr, make_ts_pcr, ts_head, pcr_bytes. lhs_eval.
  assert (u8 (bf_put 6 1 (Z.lor 64 (Z.land (Z.shiftr PID 8) 31)) 1)
          = Z.lor 64 (Z.land (Z.shiftr PID 8) 31)) as -> by (unfold bf_put; bits 8).
  done.
Qed.

(** ** One packet *)

Lemma replicate_app_head {A} (k : nat) n (x : A) :
  (k <= n)%nat -> replicate n x = replicate k x ++ replicate (n - k) x.
Proof. intros. rewrite <- replicate_add. f_equal. lia. Qed.

Lemma zlen_head pusi PID cc afl fl : zlen (ts_head pusi PID cc afl fl) = 6.
Proof. done. Qed.

Lemma first_packet_layout PID n ts cc hdr fd len pkt :
  is_u 16 PID -> 188 <= zlen pkt -> zlen hdr = 19 -> n = 19 + len ->
  0 <= len <= zlen fd -> n <= 176 ->
  pes_first_packet PID n ts cc hdr fd len pkt
  = Some (tt, first_packet PID ts cc (hdr ++ take (Z.to_nat len) fd) ++ drop 188 pkt).
Proof.
  intros HP Hk Hh -> Hl Hn. unfold pes_first_packet.
  rewrite gen_header_layout by (done || lia).
  rewrite (replicate_app_head 6) by lia. rewrite <- app_assoc.
  change (replicate 6 255) with [255; 255; 255; 255; 255; 255].
  rewrite with_pcr_layout, set_counter_layout.
  set (pad := replicate (Z.to_nat (182 - (19 + len)) - 6) 255).
  assert (zlen pad = 176 - (19 + len)) as Hpad.
  { unfold pad. rewrite zlen_replicate. lia. }
  assert (zlen (ts_head true PID cc (183 - (19 + len)) 16 ++ pcr_bytes ts ++ pad)
          = 188 - (19 + len)) as H1.
  { rewrite !zlen_app, zlen_head, Hpad. change (zlen (pcr_bytes ts)) with 6. lia. }
  set (w := drop (Z.to_nat (188 - (19 + len))) pkt).
  assert (zlen w = zlen pkt - (188 - (19 + len))) as Hw.
  { unfold w. rewrite zlen_drop by lia. done. }
  rewrite !app_assoc. rewrite <- (app_assoc (ts_head _ _ _ _ _)).
  rewrite wrn_tail by (rewrite ?Hh; lia || done).
  rewrite rdn_prefix by lia. rewrite !app_assoc. rewrite wrn_tail; cycle 1.
  { rewrite zlen_app. rewrite <- (app_assoc (ts_head _ _ _ _ _)). lia. }
  { rewrite zlen_take by lia. rewrite Hh, (zlen_drop 19) by lia. lia. }
  unfold first_packet. rewrite zlen_app, zlen_take, Hh by lia.
  do 2 f_equal. rewrite <- !app_assoc. do 2 f_equal.
  replace (Z.to_nat (176 - (19 + len))) with (Z.to_nat (182 - (19 + len)) - 6)%nat by lia.
  do 3 f_equal. unfold w. rewrite !drop_drop. f_equal. lia.
Qed.

Lemma plain_packet_layout PID n cc fd fp data pkt :
  is_u 16 PID -> 188 <= zlen pkt -> rdn fd fp n = Some data -> zlen data = n -> n <= 182 ->
  (let* (start_pos, pkt) := gen_ts_packet_header PID n pkt in
   let* pkt := set_ts_header_without_pcr pkt in
   let* pkt := set_ts_header_counter cc pkt in
   let* data := rdn fd fp n in
   let* pkt := wrn pkt start_pos data in
   Some (tt, pkt))
  = Some (tt, plain_packet false PID cc data ++ drop 188 pkt).
Proof.
  intros HP Hk Hd <- Hn. pose proof (zlen_nonneg data).
  rewrite gen_header_layout by (done || lia).
  rewrite without_pcr_layout, set_counter_layout, Hd, app_assoc.
  rewrite wrn_tail; cycle 1.
  { rewrite zlen_app, zlen_head, zlen_replicate. lia. }
  { rewrite zlen_drop; lia. }
  unfold plain_packet. rewrite drop_drop.
  rewrite <- !app_assoc. do 6 f_equal. lia.
Qed.

(** ** All packets of a frame *)

Lemma pes_rest_loop_layout n : forall i pack_num tail PID a d b fp ptr cc pre w,
  is_u 16 PID -> i + Z.of_nat n = pack_num ->
  zlen d = tail - i * 182 /\ 182 * (Z.of_nat n - 1) < zlen d <= 182 * Z.of_nat n
    \/ n = O /\ d = [] ->
  zlen a = fp -> zlen pre = ptr -> 188 * Z.of_nat n <= zlen w ->
  pes_rest_loop n i pack_num tail PID (a ++ d ++ b) fp ptr cc (pre ++ w)
  = Some (cc + Z.of_nat n, pre ++ rest_packets n PID cc d ++ drop (Z.to_nat (188 * Z.of_nat n)) w).
Proof.
  induction n as [|n IH]; intros i pack_num tail PID a d b fp ptr cc pre w HP Hi Hb <- <- Hw.
  { simpl. by rewrite Z.add_0_r. }
  destruct Hb as [[Hd Hb]|[? _]]; [|done]. cbn [pes_rest_loop rest_packets].
  set (d1 := take 182 d). set (d2 := drop 182 d).
  assert (d = d1 ++ d2) as Ed by (symmetry; apply take_drop).
  assert (zlen d1 = Z.min 182 (zlen d)) as H1 by (unfold d1, zlen; rewrite length_take; lia).
  assert ((if i =? pack_num - 1 then tail - i * 182 else 182) = zlen d1) as ->.
  { rewrite H1. destruct (Z.eqb_spec i (pack_num - 1)); lia. }
  rewrite at_off_app.
  replace (a ++ d ++ b) with (a ++ d1 ++ d2 ++ b) by (rewrite Ed, <- app_assoc; done).
  rewrite (plain_packet_layout _ _ _ _ _ d1) by (apply rdn_app || done || lia).
  set (pk := plain_packet false PID cc d1).
  assert (zlen pk = 188) as Hpk by (apply zlen_plain_packet; lia).
  rewrite (app_assoc a d1), (app_assoc pre pk).
  assert (zlen d = zlen d1 + zlen d2) as H2 by (rewrite Ed, zlen_app; done).
  rewrite (IH (i + 1) pack_num tail);
    [ | done | lia | | rewrite zlen_app; done | rewrite zlen_app; lia
    | change 188%nat with (Z.to_nat 188); rewrite zlen_drop; lia ]; cycle 1.
  { destruct n; [right|left; lia]. split; [done|].
    destruct d2; [done|]. rewrite zlen_cons in H2. pose proof (zlen_nonneg d2). lia. }
  do 2 f_equal; [lia|]. rewrite drop_drop, <- !app_assoc. do 4 f_equal. lia.
Qed.

(** [pi] with the entry of the frame's stream updated. *)
Lemma put_stream_get pi i j ss :
  get_stream pi i j = Some ss -> forall v, exists pi', put_stream pi i j v = Some pi' /\
    get_stream pi' i j = Some v /\
    pi_program_num pi' = pi_program_num pi /\ pi_pat_pmt_counter pi' = pi_pat_pmt_counter pi /\
    (forall i' j', 0 <= i' -> 0 <= j' -> (i', j') <> (i, j) ->
       get_stream pi' i' j' = get_stream pi i' j') /\
    (forall u, put_stream pi' i j u = put_stream pi i j u).
Proof.
  unfold get_stream, put_stream, aput, aget. intros H v.
  destruct (Z.leb_spec 0 i); [|done].
  destruct (pi_prog pi !! Z.to_nat i) as [p|] eqn:Ep; [|done].
  destruct (Z.leb_spec 0 j); [|done]. rewrite H. eexists; split; [done|]. simpl.
  assert (Z.to_nat i < length (pi_prog pi))%nat by (by eapply lookup_lt_Some).
  assert (Z.to_nat j < length (ps_stream p))%nat by (by eapply lookup_lt_Some).
  rewrite list_lookup_insert_eq by done. simpl. rewrite list_lookup_insert_eq by done.
  split; [done|]. split; [done|]. split; [done|]. split.
  - intros i' j' ?? Hne. repeat rewrite (proj2 (Z.leb_le _ _)) by done.
    destruct (decide (i' = i)) as [->|].
    + rewrite list_lookup_insert_eq, Ep by done. simpl.
      rewrite list_lookup_insert_ne; [done|]. intros E. apply Hne. f_equal. lia.
    + rewrite list_lookup_insert_ne by lia. done.
  - intros u. unfold set_pi_prog, set_ps_stream; simpl.
    by rewrite !list_insert_insert_eq.
Qed.

Lemma rest_count_spec len :
  0 < len -> 0 <= rest_count len /\
  (len <= 157 /\ rest_count len = 0 \/
   157 < len /\ 182 * (rest_count len - 1) < len - 157 <= 182 * rest_count len).
Proof.
  intros. unfold rest_count. pose proof (Z.div_mod (len - 157 + 181) 182 ltac:(lia)).
  pose proof (Z.mod_pos_bound (len - 157 + 181) 182 ltac:(lia)). lia.
Qed.

Lemma zlen_rest_packets n : forall PID cc data,
  zlen (rest_packets n PID cc data) = 188 * Z.of_nat n.
Proof.
  induction n as [|n IH]; intros; [done|]. cbn [rest_packets].
  rewrite zlen_app, IH, zlen_plain_packet; [lia|].
  unfold zlen. rewrite length_take. lia.
Qed.

Lemma zlen_frame_packets PID sid ts cc data :
  0 < zlen data -> zlen (frame_packets PID sid ts cc data) = 188 * frame_count (zlen data).
Proof.
  intros H. destruct (rest_count_spec _ H) as [? _]. unfold frame_packets, frame_count.
  rewrite zlen_app, zlen_rest_packets, zlen_first_packet; [lia|].
  rewrite zlen_app, zlen_pes_header. unfold zlen. rewrite length_take. lia.
Qed.

(** The identifier stored in the stream's entry and in the PES header. *)
Definition frame_stream_id (f : TEsFrame) (ss : TsStreamSpec) : Z :=
  lts_pes_stream_id (ss_type ss) (f_program_number f) (f_stream_number f).

Definition frame_PID (f : TEsFrame) : Z :=
  get_ts_stream_id (f_program_number f) (f_stream_number f).

Lemma is_u16_PID f : is_u 16 (frame_PID f).
Proof. apply is_u_uwrap. lia. Qed.

Section FramePackets.
Context (f : TEsFrame) (fd : buf) (pi : TsProgramInfo) (ss : TsStreamSpec).
Hypothesis Hss : get_stream pi (f_program_number f) (f_stream_number f) = Some ss.
Hypothesis Hlen : 0 < f_length f <= zlen fd.

Let total := 188 * frame_count (f_length f).
Let sid := frame_stream_id f ss.
Let ss' := set_ss_counter (ss_continuity_counter ss + frame_count (f_length f))
             (set_ss_stream_id sid ss).

Lemma gen_pes_layout maxlen dest :
  total <= maxlen -> total <= zlen dest ->
  exists pi', put_stream pi (f_program_number f) (f_stream_number f) ss' = Some pi' /\
    gen_pes_ts_packets f fd maxlen pi dest
    = Some (total, pi',
            frame_packets (frame_PID f) sid (f_pts f) (ss_continuity_counter ss)
              (take (Z.to_nat (f_length f)) fd) ++ drop (Z.to_nat total) dest).
Proof.
  intros Hm Hd. unfold total, ss', sid in *.
  destruct (rest_count_spec (f_length f)) as [Hrc Hc]; [lia|].
  destruct (put_stream_get _ _ _ _ Hss (set_ss_stream_id (frame_stream_id f ss) ss))
    as (pi1 & Hp1 & Hg1 & _ & _ & _ & Hput).
  destruct (put_stream_get _ _ _ _ Hss
    (set_ss_counter (ss_continuity_counter ss + frame_count (f_length f))
       (set_ss_stream_id (frame_stream_id f ss) ss))) as (pi2 & Hp2 & _).
  exists pi2. split; [done|]. unfold gen_pes_ts_packets. rewrite Hss.
  fold (frame_stream_id f ss). fold (frame_PID f). rewrite Hp1.
  rewrite make_header_layout by (vm_compute; discriminate || lia).
  change (drop 19 (replicate 19 0)) with (@nil Z). rewrite app_nil_r.
  change (19 <? 0) with false. cbv iota.
  set (fdL := take (Z.to_nat (f_length f)) fd).
  assert (zlen fdL = f_length f) as HL by (apply zlen_take; lia).
  unfold frame_packets. rewrite HL.
  change (ss_stream_id (set_ss_stream_id (frame_stream_id f ss) ss))
    with (frame_stream_id f ss).
  destruct (Z.leb_spec (19 + f_length f) 176).
  - assert (rest_count (f_length f) = 0) as Hz by lia. unfold frame_count in *. rewrite Hz in *.
    rewrite (proj2 (Z.ltb_ge _ _)) by lia.
    rewrite (first_packet_layout _ (19 + f_length f))
      by (apply is_u16_PID || done || lia).
    change (ss_continuity_counter (set_ss_stream_id _ ss)) with (ss_continuity_counter ss).
    change (1 + 0) with 1 in *. rewrite Hput, Hp2.
    change (Z.to_nat 0) with 0%nat. cbn [rest_packets]. rewrite app_nil_r.
    rewrite (take_ge fdL 157); [done|]. unfold zlen in HL. lia.
  - assert ((19 + f_length f - 176 + 181) ÷ 182 = rest_count (f_length f)) as ->.
    { rewrite Z.quot_div_nonneg by lia. unfold rest_count. f_equal. lia. }
    unfold frame_count in *. rewrite (proj2 (Z.ltb_ge _ _)) by lia.
    rewrite (first_packet_layout _ 176) by (apply is_u16_PID || done || lia).
    set (fp := first_packet _ _ _ _).
    assert (zlen fp = 188) as Hfp.
    { apply zlen_first_packet. rewrite zlen_app, zlen_pes_header, zlen_take by lia. lia. }
    assert (fd = take 157 fd ++ drop 157 fdL ++ drop (Z.to_nat (f_length f)) fd) as Efd.
    { unfold fdL. rewrite <- (take_drop (Z.to_nat (f_length f)) fd) at 1.
      rewrite <- (take_drop 157 (take _ fd)) at 1. rewrite take_take, <- app_assoc.
      by rewrite Nat.min_l by lia. }
    rewrite Efd at 1.
    rewrite (pes_rest_loop_layout _ 0 (rest_count (f_length f)));
      [ | apply is_u16_PID | lia | left; change 157%nat with (Z.to_nat 157);
          rewrite zlen_drop; lia | change 157%nat with (Z.to_nat 157); rewrite zlen_take; lia
        | done | change 188%nat with (Z.to_nat 188); rewrite zlen_drop; lia ].
    rewrite Z2Nat.id by lia.
    change (ss_continuity_counter (set_ss_stream_id _ ss)) with (ss_continuity_counter ss).
    replace (ss_continuity_counter ss + 1 + rest_count (f_length f))
      with (ss_continuity_counter ss + (1 + rest_count (f_length f))) by lia.
    rewrite Hput, Hp2, (Z.add_comm (rest_count _) 1). do 2 f_equal. unfold fp.
    rewrite <- !app_assoc, drop_drop. f_equal; [|f_equal; f_equal; lia].
    do 2 f_equal. unfold fdL. rewrite take_take. f_equal. lia.
Qed.

Lemma gen_pes_refuses maxlen dest :
  maxlen < total ->
  exists pi', put_stream pi (f_program_number f) (f_stream_number f) (set_ss_stream_id sid ss)
              = Some pi' /\
    gen_pes_ts_packets f fd maxlen pi dest = Some (-1, pi', dest).
Proof.
  intros Hm. unfold total, sid in *.
  destruct (rest_count_spec (f_length f)) as [Hrc Hc]; [lia|].
  destruct (put_stream_get _ _ _ _ Hss (set_ss_stream_id (frame_stream_id f ss) ss))
    as (pi1 & Hp1 & _).
  exists pi1. split; [done|]. unfold gen_pes_ts_packets. rewrite Hss.
  fold (frame_stream_id f ss). rewrite Hp1.
  rewrite make_header_layout by (vm_compute; discriminate || lia).
  change (19 <? 0) with false. cbv iota. unfold frame_count in Hm.
  destruct (Z.leb_spec (19 + f_length f) 176).
  - by rewrite (proj2 (Z.ltb_lt _ _)) by lia.
  - assert ((19 + f_length f - 176 + 181) ÷ 182 = rest_count (f_length f)) as ->.
    { rewrite Z.quot_div_nonneg by lia. unfold rest_count. f_equal. lia. }
    by rewrite (proj2 (Z.ltb_lt _ _)) by lia.
Qed.
End FramePackets.

(** ** Tables *)

(** The section of a PAT with one program, without its CRC. *)
Definition pat_section1 : buf :=
  [0; 0xB0; 13; 0; 0x10; 0xC1; 0; 0; 0; 1; 0xF0; 0x01].

Definition psi_payload (section : buf) : buf := 0 :: section ++ crc_field (crc32 section).

Ltac sizeof_eval :=
  repeat match goal with |- context [sizeof ?s] =>
    let n := eval vm_compute in (sizeof s) in change (sizeof s) with n end.

(** Evaluates a table written in a window. *)
Ltac window_eval :=
  sizeof_eval; lhs_eval; cbn [pat_map_loop pmt_stream_loop]; sizeof_eval;
  cbv beta iota delta [aget ps_stream]; lhs_eval.

(** A table packet: the header leaves room for the pointer field, the section and
    its CRC, which [fill] writes. *)
Lemma psi_packet PID cc n h (fill : buf -> option (unit * buf)) section pkt :
  n = zlen section + 5 -> n <= 182 -> 188 <= zlen pkt ->
  h = ts_head true PID cc (183 - n) 0 ++ replicate (Z.to_nat (182 - n)) 255 ->
  (forall w, n <= zlen w ->
     fill w = Some (tt, psi_payload section ++ drop (Z.to_nat n) w)) ->
  at_off (h ++ drop (Z.to_nat (188 - n)) pkt) (188 - n) fill
  = Some (tt, plain_packet true PID cc (psi_payload section) ++ drop 188 pkt).
Proof.
  intros Hn Hle Hk -> Hfill. pose proof (zlen_nonneg section).
  rewrite at_off_prefix by (rewrite zlen_app, zlen_head, zlen_replicate; lia).
  rewrite Hfill by (rewrite zlen_drop; lia).
  unfold plain_packet. assert (zlen (psi_payload section) = n) as ->.
  { unfold psi_payload. rewrite zlen_cons, zlen_app. change (zlen (crc_field _)) with 4. lia. }
  rewrite drop_drop. replace (Z.to_nat (188 - n) + Z.to_nat n)%nat with 188%nat by lia.
  rewrite <- !app_assoc. done.
Qed.

Lemma section_byte1 old v :
  u8 (bf_put 0 4 (u8 (bf_put 4 2 (u8 (bf_put 6 1 (u8 (bf_put 7 1 old 1)) 0)) 3))
        (Z.land (u8 v) 15)) = Z.lor 0xB0 (Z.land v 15).
Proof. unfold bf_put. bits 8. Qed.

Lemma version_byte old :
  u8 (bf_put 0 1 (u8 (bf_put 1 5 (u8 (bf_put 6 2 old 3)) 0)) 1) = 0xC1.
Proof. unfold bf_put. bits 8. Qed.

Lemma pid_byte old v :
  u8 (bf_put 0 5 (u8 (bf_put 5 3 old 7)) (Z.land (u8 v) 31)) = Z.lor 0xE0 (Z.land v 31).
Proof. unfold bf_put. bits 8. Qed.

Lemma length_byte old : u8 (bf_put 0 4 (u8 (bf_put 4 4 old 15)) 0) = 0xF0.
Proof. unfold bf_put. bits 8. Qed.

(** The CRC and its four bytes end a table. *)
Ltac finish_table :=
  match goal with |- context [CRC_encode ?l ?n] =>
    match goal with |- context [psi_payload ?section] =>
      replace (CRC_encode l n) with (Some (crc32 section))
        by (symmetry; exact (CRC_encode_spec section _));
      unfold psi_payload, crc_field, put_crc32;
      let c := fresh "c" in generalize (crc32 section) as c; intros c
    end end;
  lhs_eval; done.

Lemma gen_pat_layout pi pkt :
  pi_program_num pi = 1 -> 188 <= zlen pkt ->
  gen_pat_ts_packet pi pkt
  = Some (tt, plain_packet true 0 (pi_pat_pmt_counter pi) (psi_payload pat_section1)
              ++ drop 188 pkt).
Proof.
  intros Hn Hk. unfold gen_pat_ts_packet. rewrite Hn.
  rewrite gen_header_layout by (lia || is_u_const || (vm_compute; split; discriminate)).
  rewrite set_counter_layout, app_assoc.
  apply psi_packet; [done|vm_compute; discriminate|done|done|]. clear Hk.
  change (sizeof pat_section + 1 * sizeof pat_map_array + 4 + 1) with 17.
  intros w Hw. split_buf w 17. window_eval.
  rewrite section_byte1, version_byte, pid_byte. whole_bytes.
  finish_table.
Qed.

(** The section of the PMT of program 1, without its CRC. *)
Definition pmt_entry (i : Z) (ss : TsStreamSpec) : buf :=
  [u8 (ss_type ss); Z.lor 0xE0 (Z.land (Z.shiftr (get_ts_stream_id 0 i) 8) 31);
   u8 (get_ts_stream_id 0 i); 0xF0; 0].

Definition pcr_pid (ps : TsProgramSpec) : Z :=
  get_ts_stream_id 0
    (if (0 <=? ps_key_stream_id ps) && (ps_key_stream_id ps <? ps_stream_num ps)
     then ps_key_stream_id ps else 0).

Definition pmt_section1 (ps : TsProgramSpec) : buf :=
  [2; 0xB0; 13 + 5 * ps_stream_num ps; 0; 1; 0xC1; 0; 0;
   Z.lor 0xE0 (Z.land (Z.shiftr (pcr_pid ps) 8) 31); u8 (pcr_pid ps); 0xF0; 0]
  ++ concat (imap (fun i ss => pmt_entry (Z.of_nat i) ss)
               (take (Z.to_nat (ps_stream_num ps)) (ps_stream ps))).

Ltac pmt_table :=
  simpl take; simpl imap; window_eval;
  rewrite section_byte1, version_byte, !pid_byte, !length_byte; whole_bytes; finish_table.

Lemma gen_pmt_layout ps pkt :
  zlen (ps_stream ps) = 4 -> 0 <= ps_stream_num ps <= 4 -> 188 <= zlen pkt ->
  gen_pmt_ts_packet 0 ps pkt
  = Some (tt, plain_packet true 0x1001 0 (psi_payload (pmt_section1 ps)) ++ drop 188 pkt).
Proof.
  intros Hs Hn Hk. unfold gen_pmt_ts_packet. change (0 + 1) with 1.
  change (get_ts_pmt_id 1) with 0x1001.
  destruct ps as [num key pmt rate strs]. simpl ps_stream_num in *. simpl ps_stream in *.
  simpl ps_key_stream_id.
  split_buf strs 4. destruct strs; [|exfalso; rewrite !zlen_cons in Hs; pose proof (zlen_nonneg strs); lia].
  change (sizeof pmt_section) with 12. change (sizeof pmt_stream_array) with 5.
  rewrite gen_header_layout by (lia || is_u_const).
  cbv beta iota. rewrite app_assoc.
  match goal with |- context [if ?c then get_ts_stream_id 0 ?x else get_ts_stream_id 0 ?y] =>
    replace (if c then get_ts_stream_id 0 x else get_ts_stream_id 0 y)
      with (pcr_pid (mkProgramSpec num key pmt rate [t; t0; t1; t2]))
      by (unfold pcr_pid; simpl; by destruct c) end.
  set (ps := mkProgramSpec num key pmt rate [t; t0; t1; t2]).
  apply psi_packet; [|lia|done|done|].
  - unfold pmt_section1. rewrite zlen_app.
    assert (num = 0 \/ num = 1 \/ num = 2 \/ num = 3 \/ num = 4) as C by lia.
    by destruct C as [-> | [-> | [-> | [-> | ->]]]].
  - intros w Hw. clear Hk.
    assert (num = 0 \/ num = 1 \/ num = 2 \/ num = 3 \/ num = 4) as C by lia.
    unfold pmt_section1. generalize (pcr_pid ps) as pcr. intros pcr. unfold ps. clear ps.
    destruct C as [E | [E | [E | [E | E]]]]; subst num.
    + split_buf w 17. pmt_table.
    + split_buf w 22. pmt_table.
    + split_buf w 27. pmt_table.
    + split_buf w 32. pmt_table.
    + split_buf w 37. pmt_table.
Qed.

(** ** A whole call of [lts_ts_stream] *)

(** The PAT and PMT packets that precede a key frame. *)
Definition ts_tables (key : bool) (cnt : Z) (ps : TsProgramSpec) : buf :=
  if key then plain_packet true 0 cnt (psi_payload pat_section1)
              ++ plain_packet true 0x1001 cnt (psi_payload (pmt_section1 ps))
  else [].

Definition tables_count (key : bool) : Z := if key then 2 else 0.

Definition ts_output (f : TEsFrame) (fd : buf) (pi : TsProgramInfo) (ps : TsProgramSpec)
    (ss : TsStreamSpec) : buf :=
  ts_tables (truthy (f_is_key f)) (pi_pat_pmt_counter pi) ps
  ++ frame_packets (frame_PID f) (frame_stream_id f ss) (f_pts f) (ss_continuity_counter ss)
       (take (Z.to_nat (f_length f)) fd).

Definition ts_output_count (f : TEsFrame) : Z :=
  tables_count (truthy (f_is_key f)) + frame_count (f_length f).

(** The description of a program a call accepts: one program of at most four
    streams, as the arrays of the structures allow. *)
Definition one_program (pi : TsProgramInfo) (ps : TsProgramSpec) : Prop :=
  pi_program_num pi = 1 /\ pi_prog pi = [ps] /\
  zlen (ps_stream ps) = MAX_STREAM_NUM /\ 0 <= ps_stream_num ps <= MAX_STREAM_NUM.

Lemma zlen_psi_pat : zlen (psi_payload pat_section1) = 17.
Proof. done. Qed.

Lemma zlen_psi_pmt ps :
  zlen (ps_stream ps) = 4 -> 0 <= ps_stream_num ps <= 4 ->
  zlen (psi_payload (pmt_section1 ps)) = 17 + 5 * ps_stream_num ps.
Proof.
  intros Hs Hn. unfold psi_payload, pmt_section1. rewrite zlen_cons, !zlen_app.
  change (zlen (crc_field _)) with 4. destruct ps as [num key pmt rate strs]. simpl in *.
  split_buf strs 4. destruct strs; [|exfalso; rewrite !zlen_cons in Hs; pose proof (zlen_nonneg strs); lia].
  assert (num = 0 \/ num = 1 \/ num = 2 \/ num = 3 \/ num = 4) as C by lia.
  by destruct C as [-> | [-> | [-> | [-> | ->]]]].
Qed.

Lemma zlen_ts_tables key cnt pi ps :
  one_program pi ps -> zlen (ts_tables key cnt ps) = 188 * tables_count key.
Proof.
  intros (_ & _ & Hs & Hn). unfold ts_tables. destruct key; [|done].
  unfold MAX_STREAM_NUM in *.
  rewrite zlen_app, !zlen_plain_packet; [done| |by rewrite zlen_psi_pat].
  rewrite zlen_psi_pmt by lia. lia.
Qed.

Lemma set_counter_plain cnt pusi PID cc payload rest :
  set_ts_header_counter cnt (plain_packet pusi PID cc payload ++ rest)
  = Some (plain_packet pusi PID cnt payload ++ rest).
Proof. unfold plain_packet. rewrite <- !app_assoc. by rewrite set_counter_layout. Qed.

Section Stream.
Context (f : TEsFrame) (fd : buf) (pi : TsProgramInfo) (ps : TsProgramSpec)
  (ss : TsStreamSpec).
Hypothesis Hfd : f_frame f = Some fd.
Hypothesis Hlen : 0 < f_length f <= zlen fd.
Hypothesis Hpi : one_program pi ps.
Hypothesis Hss : get_stream pi (f_program_number f) (f_stream_number f) = Some ss.

Let total := 188 * ts_output_count f.

(** [pi] after the tables, and after the frame. *)
Definition after_tables : TsProgramInfo :=
  if truthy (f_is_key f) then set_pi_counter (pi_pat_pmt_counter pi + 1) pi else pi.

Definition ss_after : TsStreamSpec :=
  set_ss_counter (ss_continuity_counter ss + frame_count (f_length f))
    (set_ss_stream_id (frame_stream_id f ss) ss).

Lemma pmt_loop_layout dest pre :
  zlen pre = 188 -> 188 <= zlen dest ->
  pmt_loop 1 0 pi 188 (pre ++ dest)
  = Some (pre ++ plain_packet true 0x1001 (pi_pat_pmt_counter pi)
                   (psi_payload (pmt_section1 ps)) ++ drop 188 dest).
Proof using Hpi.
  clear total. clear Hfd Hlen Hss. intros Hp Hd. destruct Hpi as (_ & E & Hs & Hn). cbn [pmt_loop]. rewrite E.
  change (aget [ps] 0) with (Some ps). cbv iota beta.
  rewrite at_off_prefix by done.
  rewrite gen_pmt_layout by (unfold MAX_STREAM_NUM in *; lia).
  by rewrite set_counter_plain.
Qed.

Lemma tables_layout maxlen dest :
  188 * tables_count (truthy (f_is_key f)) <= maxlen ->
  188 * tables_count (truthy (f_is_key f)) <= zlen dest ->
  (if truthy (f_is_key f)
   then
     if maxlen <? 188 + 188 * 1 then Some None
     else let* (_, d) := gen_pat_ts_packet pi dest in
          let* d := pmt_loop (Z.to_nat 1) 0 pi 188 d in
          Some (Some (188 + 188 * 1, 188 + 188 * Z.max 0 1,
                      set_pi_counter (pi_pat_pmt_counter pi + 1) pi, d))
   else Some (Some (0, 0, pi, dest)))
  = Some (Some (188 * tables_count (truthy (f_is_key f)),
                188 * tables_count (truthy (f_is_key f)), after_tables,
                ts_tables (truthy (f_is_key f)) (pi_pat_pmt_counter pi) ps
                ++ drop (Z.to_nat (188 * tables_count (truthy (f_is_key f)))) dest)).
Proof using Hpi.
  clear total. clear Hfd Hlen Hss. intros Hm Hd. pose proof Hpi as (En & _ & _ & _).
  unfold after_tables, ts_tables, tables_count in *.
  destruct (truthy (f_is_key f)); [|done].
  rewrite (proj2 (Z.ltb_ge _ _)) by lia. rewrite gen_pat_layout by (done || lia).
  change (Z.to_nat 1) with 1%nat. rewrite pmt_loop_layout; cycle 1.
  { apply zlen_plain_packet. by rewrite zlen_psi_pat. }
  { change 188%nat with (Z.to_nat 188). rewrite zlen_drop; lia. }
  by rewrite drop_drop, <- app_assoc.
Qed.

Lemma ts_stream_layout maxlen dest :
  total <= maxlen -> total <= zlen dest ->
  exists pi',
    put_stream after_tables (f_program_number f) (f_stream_number f) ss_after = Some pi' /\
    lts_ts_stream (Some f) (Some dest) maxlen (Some pi)
    = Some (total, Some pi',
            Some (ts_output f fd pi ps ss ++ drop (Z.to_nat total) dest)).
Proof.
  intros Hm Hd. unfold total, ts_output_count in *.
  destruct (rest_count_spec (f_length f)) as [Hrc _]; [lia|].
  assert (frame_count (f_length f) = 1 + rest_count (f_length f)) as Hfc by done.
  unfold lts_ts_stream. destruct (Z.eqb_spec maxlen 0); [destruct (truthy _); simpl in *; lia|].
  rewrite Hfd. destruct (Z.eqb_spec (f_length f) 0); [lia|].
  assert (get_stream after_tables (f_program_number f) (f_stream_number f) = Some ss) as Hss'.
  { unfold after_tables. by destruct (truthy _). }
  pose proof (zlen_ts_tables (truthy (f_is_key f)) (pi_pat_pmt_counter pi) pi ps Hpi) as HT.
  destruct Hpi as (En & Ep & Hs & Hn). rewrite En.
  set (k := tables_count (truthy (f_is_key f))) in *.
  assert (0 <= k) by (unfold k, tables_count; destruct (truthy _); lia).
  rewrite tables_layout by (fold k; lia). fold k.
  set (T := ts_tables (truthy (f_is_key f)) (pi_pat_pmt_counter pi) ps) in *.
  rewrite at_off_prefix by done.
  destruct (gen_pes_layout f fd after_tables ss Hss' Hlen (maxlen - 188 * k)
              (drop (Z.to_nat (188 * k)) dest)) as (pi' & Hput & ->);
    [lia | rewrite zlen_drop; lia | ].
  exists pi'. split; [done|]. rewrite (proj2 (Z.leb_gt _ 0)) by lia.
  replace (188 * k + 188 * frame_count (f_length f))
    with (188 * (k + frame_count (f_length f))) by lia.
  unfold ts_output. fold T. rewrite drop_drop, <- app_assoc. repeat f_equal. lia.
Qed.

(** A destination too small for the packets. *)
Lemma ts_stream_too_small maxlen dest :
  0 < maxlen < total -> maxlen <= zlen dest ->
  exists pi' dest',
    lts_ts_stream (Some f) (Some dest) maxlen (Some pi) = Some (-1, Some pi', Some dest') /\
    zlen dest' = zlen dest /\ drop (Z.to_nat maxlen) dest' = drop (Z.to_nat maxlen) dest.
Proof.
  intros Hm Hd. unfold total, ts_output_count in *.
  destruct (rest_count_spec (f_length f)) as [Hrc _]; [lia|].
  unfold lts_ts_stream. destruct (Z.eqb_spec maxlen 0); [lia|].
  rewrite Hfd. destruct (Z.eqb_spec (f_length f) 0); [lia|].
  pose proof (zlen_ts_tables (truthy (f_is_key f)) (pi_pat_pmt_counter pi) pi ps Hpi) as HT.
  assert (get_stream after_tables (f_program_number f) (f_stream_number f) = Some ss) as Hss'.
  { unfold after_tables. by destruct (truthy _). }
  pose proof Hpi as (En & _ & _ & _). rewrite En.
  set (k := tables_count (truthy (f_is_key f))) in *.
  destruct (Z.lt_ge_cases maxlen (188 * k)).
  { unfold k, tables_count in *. destruct (truthy _); [|lia].
    rewrite (proj2 (Z.ltb_lt _ _)) by lia. eauto. }
  assert (0 <= k) by (unfold k, tables_count; destruct (truthy _); lia).
  rewrite tables_layout by (fold k; lia). fold k.
  set (T := ts_tables (truthy (f_is_key f)) (pi_pat_pmt_counter pi) ps) in *.
  rewrite at_off_prefix by done.
  destruct (gen_pes_refuses f fd after_tables ss Hss' Hlen (maxlen - 188 * k)
              (drop (Z.to_nat (188 * k)) dest)) as (pi' & _ & ->); [lia|].
  change (-1 <=? 0) with true. cbv iota.
  exists pi', (T ++ drop (Z.to_nat (188 * k)) dest). split; [done|]. split.
  - rewrite zlen_app, zlen_drop by lia. lia.
  - rewrite drop_app_ge by (unfold zlen in HT; lia). rewrite drop_drop. f_equal.
    unfold zlen in HT. lia.
Qed.
End Stream.

(** ** Properties *)

Lemma drop_rest_packets n : forall k PID cc data,
  (k < n)%nat ->
  exists payload rest,
    drop (188 * k) (rest_packets n PID cc data)
    = plain_packet false PID (cc + Z.of_nat k) payload ++ rest.
Proof.
  induction n as [|n IH]; intros [|k] PID cc data Hk; [lia|lia|..].
  - rewrite Nat.mul_0_r, Z.add_0_r. cbn [rest_packets]. by eexists _, _.
  - cbn [rest_packets].
    assert (length (plain_packet false PID cc (take 182 data)) = 188%nat) as E.
    { assert (zlen (take 182 data) <= 182) by (unfold zlen; rewrite length_take; lia).
      pose proof (zlen_plain_packet false PID cc _ H). unfold zlen in *. lia. }
    replace (188 * S k)%nat with (188 + 188 * k)%nat by lia.
    rewrite <- drop_drop, drop_app_ge, E by lia. rewrite Nat.sub_diag.
    destruct (IH k PID (cc + 1) (drop 182 data)) as (p & r & H); [lia|].
    exists p, r. rewrite drop_0 in *. rewrite H. by replace (cc + 1 + Z.of_nat k) with (cc + Z.of_nat (S k)) by lia.
Qed.

(** Packet [k] of a frame starts with the synchronisation byte and carries the
    continuity counter [cc + k] modulo 16. *)
Lemma frame_packets_headers PID sid ts cc data k rest :
  0 < zlen data -> 0 <= k < frame_count (zlen data) ->
  rd (frame_packets PID sid ts cc data ++ rest) (188 * k) = Some 0x47 /\
  rd (frame_packets PID sid ts cc data ++ rest) (188 * k + 3)
  = Some (Z.lor 0x30 (Z.land (cc + k) 15)).
Proof.
  intros Hd Hk. rewrite <- (Z.add_0_r (188 * k)) at 1. rewrite !rd_drop by lia.
  destruct (Z.eq_dec k 0) as [->|]; [by rewrite Z.add_0_r|].
  unfold frame_packets, frame_count in *.
  set (fp := first_packet _ _ _ _).
  assert (length fp = 188%nat) as E.
  { assert (zlen fp = 188) as E; [|unfold zlen in E; lia].
    apply zlen_first_packet. rewrite zlen_app, zlen_pes_header.
    unfold zlen. rewrite length_take. lia. }
  destruct (drop_rest_packets (Z.to_nat (rest_count (zlen data))) (Z.to_nat (k - 1)) PID (cc + 1)
              (drop 157 data)) as (p & r & H); [lia|].
  replace (Z.to_nat (188 * k)) with (188 + 188 * Z.to_nat (k - 1))%nat by lia.
  rewrite <- app_assoc, <- drop_drop, drop_app_ge, E by lia. rewrite Nat.sub_diag, drop_0.
  rewrite drop_app_le, H; cycle 1.
  { pose proof (zlen_rest_packets (Z.to_nat (rest_count (zlen data))) PID (cc + 1) (drop 157 data)).
    unfold zlen in *. lia. }
  replace (cc + 1 + Z.of_nat (Z.to_nat (k - 1))) with (cc + k) by lia. done.
Qed.

(** C28: With a destination large enough, [lts_ts_stream] returns the number of
    bytes of the reference packets ([ts_output]: the PAT and PMT before a key
    frame, then the packets of the frame), has written exactly those bytes
    whatever the destination held, and has changed nothing else; in the program
    information it advances the table counter and the stream's continuity counter
    by the packets written and records the stream's identifier. *)
Theorem ts_stream_writes f fd pi ps ss maxlen dest :
  f_frame f = Some fd -> 0 < f_length f <= zlen fd -> one_program pi ps ->
  get_stream pi (f_program_number f) (f_stream_number f) = Some ss ->
  188 * ts_output_count f <= maxlen -> 188 * ts_output_count f <= zlen dest ->
  exists pi',
    put_stream (after_tables f pi) (f_program_number f) (f_stream_number f) (ss_after f ss)
    = Some pi' /\
    lts_ts_stream (Some f) (Some dest) maxlen (Some pi)
    = Some (188 * ts_output_count f, Some pi',
            Some (ts_output f fd pi ps ss ++ drop (Z.to_nat (188 * ts_output_count f)) dest)).
Proof. intros. by apply ts_stream_layout. Qed.

Definition demo_stream (type pid cc : Z) : TsStreamSpec := mkStreamSpec type 0 pid cc.
Definition demo_program : TsProgramSpec :=
  mkProgramSpec 2 0 0 0
    [demo_stream STREAM_TYPE_VIDEO_H264 0 14; demo_stream STREAM_TYPE_AUDIO_AAC 0 0;
     demo_stream 0 0 0; demo_stream 0 0 0].
Definition demo_info : TsProgramInfo := mkProgramInfo 1 3 [demo_program].
Definition demo_frame : TEsFrame :=
  mkFrame 0 0 (Some (replicate 400 0x11)) 400 1 8100000000 0 false.

Lemma ts_stream_writes_witness :
  exists pi',
    put_stream (after_tables demo_frame demo_info) 0 0
      (ss_after demo_frame (demo_stream STREAM_TYPE_VIDEO_H264 0 14)) = Some pi' /\
    lts_ts_stream (Some demo_frame) (Some (replicate 1000 0xAA)) 1000 (Some demo_info)
    = Some (940, Some pi',
            Some (ts_output demo_frame (replicate 400 0x11) demo_info demo_program
                    (demo_stream STREAM_TYPE_VIDEO_H264 0 14)
                  ++ drop 940 (replicate 1000 0xAA))).
Proof.
  apply (ts_stream_writes demo_frame (replicate 400 0x11) demo_info demo_program
           (demo_stream STREAM_TYPE_VIDEO_H264 0 14) 1000 (replicate 1000 0xAA));
    try reflexivity; try (vm_compute; discriminate);
    repeat split; try reflexivity; vm_compute; discriminate.
Defined.

Lemma plain_packet_header pusi PID cc p rest :
  rd (plain_packet pusi PID cc p ++ rest) 0 = Some 0x47 /\
  rd (plain_packet pusi PID cc p ++ rest) 3 = Some (Z.lor 0x30 (Z.land cc 15)).
Proof. done. Qed.

(** The output is a sequence of packets of 188 bytes, as many as the returned
    length says; each starts with the synchronisation byte 0x47, and the
    continuity counters are the table counter in the PAT and the PMT, and run on
    from the stream's counter, modulo 16, through the packets of the frame. *)
Theorem ts_stream_continuity f fd pi ps ss maxlen dest k :
  f_frame f = Some fd -> 0 < f_length f <= zlen fd -> one_program pi ps ->
  get_stream pi (f_program_number f) (f_stream_number f) = Some ss ->
  188 * ts_output_count f <= maxlen -> 188 * ts_output_count f <= zlen dest ->
  0 <= k < ts_output_count f ->
  let nt := tables_count (truthy (f_is_key f)) in
  let cc := if k <? nt then pi_pat_pmt_counter pi else ss_continuity_counter ss + (k - nt) in
  exists pi' out,
    lts_ts_stream (Some f) (Some dest) maxlen (Some pi)
    = Some (188 * ts_output_count f, Some pi', Some out) /\
    zlen out = zlen dest /\
    rd out (188 * k) = Some 0x47 /\
    rd out (188 * k + 3) = Some (Z.lor 0x30 (Z.land cc 15)).
Proof.
  intros Hfd Hl Hpi Hss Hm Hd Hk. cbv zeta.
  destruct (ts_stream_layout f fd pi ps ss Hfd Hl Hpi Hss maxlen dest Hm Hd) as (pi' & _ & ->).
  eexists _, _; split; [done|]. unfold ts_output, ts_output_count in *.
  set (data := take (Z.to_nat (f_length f)) fd).
  assert (zlen data = f_length f) as Hdl by (apply zlen_take; lia).
  pose proof (zlen_ts_tables (truthy (f_is_key f)) (pi_pat_pmt_counter pi) pi ps Hpi) as HT.
  set (T := ts_tables _ _ _) in *. set (nt := tables_count _) in *.
  assert (0 <= nt) by (unfold nt, tables_count; destruct (truthy _); lia).
  split.
  { rewrite !zlen_app, HT, zlen_frame_packets, zlen_drop, Hdl by lia. lia. }
  rewrite <- app_assoc. destruct (Z.ltb_spec k nt).
  - unfold T, ts_tables, nt, tables_count in *. clear T nt. destruct (truthy _); [|lia].
    rewrite <- app_assoc. destruct (Z.eq_dec k 0) as [->|]; [apply plain_packet_header|].
    assert (k = 1) as -> by lia. assert (zlen (plain_packet true 0 (pi_pat_pmt_counter pi)
      (psi_payload pat_section1)) = 188) as E by by apply zlen_plain_packet.
    change (188 * 1) with (188 + 0). change (188 + 0 + 3) with (188 + 3).
    rewrite !(rd_app_r _ _ 188) by (done || lia). apply plain_packet_header.
  - replace (188 * k) with (188 * nt + 188 * (k - nt)) by lia.
    rewrite <- Z.add_assoc, !(rd_app_r _ _ (188 * nt)) by (done || lia).
    apply frame_packets_headers; rewrite Hdl; lia.
Qed.

Lemma ts_stream_continuity_witness :
  exists pi' out,
    lts_ts_stream (Some demo_frame) (Some (replicate 1000 0xAA)) 1000 (Some demo_info)
    = Some (940, Some pi', Some out) /\
    zlen out = 1000 /\ rd out (188 * 4) = Some 0x47 /\ rd out (188 * 4 + 3) = Some 0x30.
Proof.
  apply (ts_stream_continuity demo_frame (replicate 400 0x11) demo_info demo_program
           (demo_stream STREAM_TYPE_VIDEO_H264 0 14) 1000 (replicate 1000 0xAA) 4);
    try reflexivity; try (vm_compute; discriminate);
    repeat split; try reflexivity; vm_compute; discriminate.
Defined.

(** [lts_ts_stream] never writes past [maxlen]: a destination too small for
    the packets makes it return -1, and no byte from [maxlen] on has changed (the
    PAT and PMT may have been written before the refusal). *)
Theorem ts_stream_refuses f fd pi ps ss maxlen dest :
  f_frame f = Some fd -> 0 < f_length f <= zlen fd -> one_program pi ps ->
  get_stream pi (f_program_number f) (f_stream_number f) = Some ss ->
  0 < maxlen < 188 * ts_output_count f -> maxlen <= zlen dest ->
  exists pi' dest',
    lts_ts_stream (Some f) (Some dest) maxlen (Some pi) = Some (-1, Some pi', Some dest') /\
    zlen dest' = zlen dest /\ drop (Z.to_nat maxlen) dest' = drop (Z.to_nat maxlen) dest.
Proof. intros. by eapply ts_stream_too_small. Qed.

Lemma ts_stream_refuses_witness :
  exists pi' dest',
    lts_ts_stream (Some demo_frame) (Some (replicate 1000 0xAA)) 939 (Some demo_info)
    = Some (-1, Some pi', Some dest') /\
    zlen dest' = 1000 /\ drop 939 dest' = drop 939 (replicate 1000 0xAA).
Proof.
  apply (ts_stream_refuses demo_frame (replicate 400 0x11) demo_info demo_program
           (demo_stream STREAM_TYPE_VIDEO_H264 0 14) 939 (replicate 1000 0xAA));
    try reflexivity; try (vm_compute; discriminate);
    repeat split; try reflexivity; vm_compute; discriminate.
Defined.
