(* ===== verification/TsDemux.v ===== *)
(** The transport stream demultiplexer: the model of src/file/libmpeg/tsdemux.c
    and the theorems on what one call reads and leaves in the handle. *)

From stdpp Require Import base list option strings.
From S2P Require Import Prelude CMem TypeDefs Pes.

Local Open Scope Z_scope.
Open Scope c_scope.

(** ** Updates of the handle *)

Definition set_d_info v h :=
  mkDemux v (d_is_pes h) (d_pid h) (d_program_no h) (d_stream_no h) (d_pts h) (d_pes_pts h)
    (d_pack_ptr h) (d_pack_len h) (d_es_ptr h) (d_es_len h) (d_pes_head_len h)
    (d_sync_only h) (d_ps_started h).
Definition set_d_pid v h :=
  mkDemux (d_info h) (d_is_pes h) v (d_program_no h) (d_stream_no h) (d_pts h) (d_pes_pts h)
    (d_pack_ptr h) (d_pack_len h) (d_es_ptr h) (d_es_len h) (d_pes_head_len h)
    (d_sync_only h) (d_ps_started h).
(** [is_pes], [program_no], [stream_no] *)
Definition set_d_stream is_pes p s h :=
  mkDemux (d_info h) is_pes (d_pid h) p s (d_pts h) (d_pes_pts h)
    (d_pack_ptr h) (d_pack_len h) (d_es_ptr h) (d_es_len h) (d_pes_head_len h)
    (d_sync_only h) (d_ps_started h).
Definition set_d_pts v h :=
  mkDemux (d_info h) (d_is_pes h) (d_pid h) (d_program_no h) (d_stream_no h) v (d_pes_pts h)
    (d_pack_ptr h) (d_pack_len h) (d_es_ptr h) (d_es_len h) (d_pes_head_len h)
    (d_sync_only h) (d_ps_started h).
Definition set_d_pes_pts v h :=
  mkDemux (d_info h) (d_is_pes h) (d_pid h) (d_program_no h) (d_stream_no h) (d_pts h) v
    (d_pack_ptr h) (d_pack_len h) (d_es_ptr h) (d_es_len h) (d_pes_head_len h)
    (d_sync_only h) (d_ps_started h).
(** [is_pes], [pack_ptr], [pack_len] *)
Definition set_d_pack is_pes p n h :=
  mkDemux (d_info h) is_pes (d_pid h) (d_program_no h) (d_stream_no h) (d_pts h) (d_pes_pts h)
    p n (d_es_ptr h) (d_es_len h) (d_pes_head_len h) (d_sync_only h) (d_ps_started h).
(** [es_ptr], [es_len], [pes_head_len] *)
Definition set_d_es p n hl h :=
  mkDemux (d_info h) (d_is_pes h) (d_pid h) (d_program_no h) (d_stream_no h) (d_pts h)
    (d_pes_pts h) (d_pack_ptr h) (d_pack_len h) p n hl (d_sync_only h) (d_ps_started h).

(** ** One packet

    [w] is what [ts_pack] points to: the bytes from the packet on, to the end of
    the caller's buffer.  [base] is the offset of the packet in that buffer. *)

(** [adaptation_field_control] is a two-bit field of type [char]: it reads as 0,
    1, -2 or -1. *)
Definition get_ts_payload_offset (w : buf) : option Z :=
  let* adaptation_field_control := load w 0 ts_header "adaptation_field_control" in
  if adaptation_field_control =? 0 then Some 188
  else if adaptation_field_control =? 1 then Some 4
  else if adaptation_field_control =? 2 then Some 188
  else
    let* afl := load w 0 ts_header "adaptation_field_length" in
    let payload_offset := 5 + afl in
    if 188 <? payload_offset then Some 188
    else if payload_offset <? 5 then Some 5
    else Some payload_offset.

(** The value stored in [*pcr], if any. *)
Definition get_ts_pcr (w : buf) : option (option Z) :=
  let* afc := load w 0 ts_header "adaptation_field_control" in
  if (afc =? 0) || (afc =? 1) then Some None else
  let* afl := load w 0 ts_header "adaptation_field_length" in
  if afl =? 0 then Some None else
  let* pcr_flag := load w 0 ts_header "PCR_flag" in
  if truthy pcr_flag then
    let* b0 := rd w 6 in
    let* b1 := rd w 7 in
    let* b2 := rd w 8 in
    let* b3 := rd w 9 in
    let* b4 := rd w 10 in
    let pcr := Z.lor (Z.lor (Z.lor (Z.lor (Z.shiftl b0 25) (Z.shiftl b1 17))
                 (Z.shiftl b2 9)) (Z.shiftl b3 1)) (Z.shiftr b4 7) in
    Some (Some (pcr / 90))
  else Some None.

Definition get_ts_es (h : TDemux) (base : Z) (w : buf) : option TDemux :=
  let* payload_offset := get_ts_payload_offset w in
  let payload_len := 188 - payload_offset in
  let* h :=
    (if d_pes_head_len h <=? 0 then
       let* (hl, o) := lts_pes_parse_header (drop (Z.to_nat payload_offset) w) payload_len
                         false true false in
       let h := match o_pts o with Some v => set_d_pes_pts v h | None => h end in
       Some (set_d_es (d_es_ptr h) (d_es_len h) hl h)
     else Some h) in
  if 0 <? d_pes_head_len h then
    if d_pes_head_len h <=? payload_len then
      Some (set_d_es (Some (base + payload_offset + d_pes_head_len h))
              (payload_len - d_pes_head_len h) 0 h)
    else Some (set_d_es None 0 (d_pes_head_len h - payload_len) h)
  else Some (set_d_es (Some (base + payload_offset)) payload_len (d_pes_head_len h) h).

Definition CHAR_TO_LENGTH (h l : Z) : Z := Z.lor (Z.shiftl (u8 h) 8) (u8 l).

(** Member pairs [<n>high<k>], [<n>low8] combined. *)
Definition load_length (w : buf) (p : Z) (s : struct) (hi lo : string) : option Z :=
  let* h := load w p s hi in
  let* l := load w p s lo in
  Some (CHAR_TO_LENGTH h l).

Fixpoint pat_read_loop (n : nat) (i : Z) (w : buf) (maps : Z) (info : TsProgramInfo)
  : option TsProgramInfo :=
  match n with
  | O => Some info
  | S n =>
      if MAX_PROGRAM_NUM <=? i then Some info else
      let* pid := load_length w (maps + i * sizeof pat_map_array) pat_map_array
                    "program_map_PID_high5" "program_map_PID_low8" in
      let* p := aget (pi_prog info) i in
      let* ps := aput (pi_prog info) i (set_ps_pmt_pid pid p) in
      pat_read_loop n (i + 1) w maps (set_pi_prog ps info)
  end.

(** [payload_len] is converted to [size_t] when compared with a [sizeof]; so is
    the number of entries before it is stored in an [int]. *)
Definition handle_pat (h : TDemux) (w : buf) : option TDemux :=
  let* off := get_ts_payload_offset w in
  let payload_offset := off + 1 in
  let payload_len := 188 - payload_offset in
  if sizeof pat_section <=? u64 payload_len then
    let* section_len := load_length w payload_offset pat_section
                          "section_length_high4" "section_length_low8" in
    if section_len + 3 <=? payload_len then
      let pnum := s32 (u64 (payload_len - 4 - sizeof pat_section) / sizeof pat_map_array) in
      let maps := payload_offset + sizeof pat_section in
      let pnum := if MAX_PROGRAM_NUM <? pnum then MAX_PROGRAM_NUM else pnum in
      let info := set_pi_program_num pnum (d_info h) in
      let* info := pat_read_loop (Z.to_nat pnum) 0 w maps info in
      Some (set_d_info info h)
    else Some h
  else Some h.

(** The entries of a PMT: [n] is the number of iterations left, [stm] the offset
    of the entry, [limit] that of [payload + 3 + section_len]. *)
Fixpoint pmt_read_loop (n : nat) (sn : Z) (w : buf) (stm limit : Z) (p : TsProgramSpec)
  : option (Z * TsProgramSpec) :=
  match n with
  | O => Some (sn, p)
  | S n =>
      if limit <=? stm + 4 then Some (sn, p) else
      let* pid := load_length w stm pmt_stream_array
                    "elementary_PID_high5" "elementary_PID_low8" in
      let* type := load w stm pmt_stream_array "stream_type" in
      let* ss := aget (ps_stream p) sn in
      let* sts := aput (ps_stream p) sn (set_ss_type (u8 type) (set_ss_es_pid pid ss)) in
      let* info_len := load_length w stm pmt_stream_array
                         "ES_info_length_high4" "ES_info_length_low8" in
      pmt_read_loop n (sn + 1) w (stm + sizeof pmt_stream_array + info_len) limit
        (set_ps_stream sts p)
  end.

Definition handle_pmt (h : TDemux) (i : Z) (w : buf) : option TDemux :=
  let* off := get_ts_payload_offset w in
  let payload_offset := off + 1 in
  let payload_len := 188 - payload_offset in
  if sizeof pmt_section <? u64 payload_len then
    let* section_len := load_length w payload_offset pmt_section
                          "section_length_high4" "section_length_low8" in
    if section_len + 3 <=? payload_len then
      let* program_info_length := load_length w payload_offset pmt_section
                                    "program_info_length_high4" "program_info_length_low8" in
      let stm := payload_offset + sizeof pmt_section + program_info_length in
      let* p := aget (pi_prog (d_info h)) i in
      let* (sn, p) := pmt_read_loop (Z.to_nat MAX_STREAM_NUM) 0 w stm
                        (payload_offset + 3 + section_len) p in
      let* ps := aput (pi_prog (d_info h)) i (set_ps_stream_num sn p) in
      Some (set_d_info (set_pi_prog ps (d_info h)) h)
    else Some h
  else Some h.

(** The first program, from [i] on, whose PMT has this PID. *)
Fixpoint find_pmt (n : nat) (i PID : Z) (progs : list TsProgramSpec) : option (option Z) :=
  match n with
  | O => Some None
  | S n =>
      let* p := aget progs i in
      if PID =? ps_pmt_pid p then Some (Some i) else find_pmt n (i + 1) PID progs
  end.

Fixpoint find_stream (n : nat) (sn PID : Z) (ss : list TsStreamSpec) : option (option Z) :=
  match n with
  | O => Some None
  | S n =>
      let* s := aget ss sn in
      if PID =? ss_es_pid s then Some (Some sn) else find_stream n (sn + 1) PID ss
  end.

(** The first stream of the first program that has one with this PID. *)
Fixpoint find_es (n : nat) (i PID : Z) (progs : list TsProgramSpec)
  : option (option (Z * Z)) :=
  match n with
  | O => Some None
  | S n =>
      let* p := aget progs i in
      let* r := find_stream (Z.to_nat (ps_stream_num p)) 0 PID (ps_stream p) in
      match r with
      | Some sn => Some (Some (i, sn))
      | None => find_es n (i + 1) PID progs
      end
  end.

Definition handle_ts_pack (h : TDemux) (base : Z) (w : buf) : option TDemux :=
  let* PID := load_length w 0 ts_header "PID_high5" "PID_low8" in
  let h := set_d_pid PID h in
  if PID =? 0 then handle_pat h w else
  let num := Z.to_nat (pi_program_num (d_info h)) in
  let* pmt := find_pmt num 0 PID (pi_prog (d_info h)) in
  match pmt with
  | Some i => handle_pmt h i w
  | None =>
      let* es := find_es num 0 PID (pi_prog (d_info h)) in
      match es with
      | Some (i, sn) =>
          let h := set_d_stream (d_is_pes h) i sn h in
          let* pcr := get_ts_pcr w in
          let h := match pcr with Some v => set_d_pts v h | None => h end in
          get_ts_es (set_d_stream 1 i sn h) base w
      | None => Some h
      end
  end.

(** ** The entry point *)

(** The search for the synchronisation byte from [i] on, [n] iterations left. *)
Fixpoint sync_loop (n : nat) (i : Z) (h : TDemux) (b : buf) (len : Z) : option (Z * TDemux) :=
  match n with
  | O => Some (0, h)
  | S n =>
      let* x := rd b i in
      if (x =? 0x47) && (188 <=? len) then
        let h := set_d_pack (d_is_pes h) (Some i) 188 h in
        let* h := (if truthy (d_sync_only h) then Some h
                   else handle_ts_pack h i (drop (Z.to_nat i) b)) in
        Some (i + 188, h)
      else sync_loop n (i + 1) h b len
  end.

Definition lts_ts_demux (handle : option TDemux) (ts_buf : option buf) (len : Z)
  : option (Z * option TDemux) :=
  match handle, ts_buf with
  | Some h, Some b =>
      if len <=? 0 then Some (-1, handle) else
      let* (ret, h) := sync_loop (Z.to_nat len) 0 (set_d_pack 0 None 0 h) b len in
      Some (ret, Some h)
  | _, _ => Some (-1, handle)
  end.

(** ** What one packet needs *)

(** Proves that a member at a bounded offset is read. *)
Ltac load_in_solve := apply load_in; layout_eval; cbv beta iota; lia.

Lemma load_length_in b p s hi lo :
  (exists v, load b p s hi = Some v) -> (exists v, load b p s lo = Some v) ->
  exists v, load_length b p s hi lo = Some v /\ is_u 16 v.
Proof.
  intros [h Eh] [l El]. unfold load_length. rewrite Eh, El. eexists; split; [done|].
  unfold CHAR_TO_LENGTH. apply is_u_lor; [lia|apply (is_u_shiftl _ 8); (lia || auto with cint)|].
  apply (is_u_weaken 8); auto with cint; lia.
Qed.

Ltac load_step :=
  match goal with
  | |- context [load_length ?b ?p ?s ?hi ?lo] =>
      let v := fresh "v" in let E := fresh "E" in let H := fresh "Hv" in
      destruct (load_length_in b p s hi lo) as (v & E & H);
      [load_in_solve|load_in_solve|]; rewrite E; unfold is_u in H
  | |- context [load ?b ?p ?s ?n] =>
      let v := fresh "v" in let E := fresh "E" in
      assert (exists x, load b p s n = Some x) as [v E] by load_in_solve; rewrite E
  end.

Lemma afl_byte w v :
  bytes w -> load w 0 ts_header "adaptation_field_length" = Some v -> byte v.
Proof.
  intros Hb. unfold load. layout_eval. cbv beta iota. destruct (rd w _) as [x|] eqn:E; [|done].
  intros [= <-]. unfold bf_get. auto with cint.
Qed.

Lemma payload_offset_safe w :
  bytes w -> 5 <= zlen w ->
  exists off, get_ts_payload_offset w = Some off /\ (off = 4 \/ 5 <= off <= 188).
Proof.
  intros Hb Hl. unfold get_ts_payload_offset. load_step.
  repeat (case_match; [eexists; split; [done|lia]|]).
  load_step. destruct (afl_byte _ _ Hb E0).
  repeat (case_match; [eexists; split; [done|lia]|]). eexists; split; [done|lia].
Qed.

Lemma get_ts_pcr_safe w : 11 <= zlen w -> exists r, get_ts_pcr w = Some r.
Proof.
  intros Hl. unfold get_ts_pcr. load_step. case_match; [eauto|].
  load_step. case_match; [eauto|]. load_step. case_match; [|eauto].
  do 5 rd_step. eauto.
Qed.

(** ** The handle's invariant *)

Definition wf_handle (h : TDemux) : Prop :=
  exists p, pi_prog (d_info h) = [p] /\ zlen (ps_stream p) = MAX_STREAM_NUM /\
    ps_stream_num p <= MAX_STREAM_NUM /\ pi_program_num (d_info h) <= MAX_PROGRAM_NUM.

(** The elementary stream data lies in the packet at [base]: it ends where the
    packet ends. *)
Definition es_in_packet (base : Z) (h : TDemux) : Prop :=
  (d_es_ptr h = None /\ d_es_len h = 0) \/
  exists p, d_es_ptr h = Some p /\ base + 4 <= p /\ 0 <= d_es_len h /\
            p + d_es_len h = base + 188.

Lemma get_ts_es_safe h base w :
  bytes w -> 193 <= zlen w ->
  exists h', get_ts_es h base w = Some h' /\ es_in_packet base h' /\
    d_info h' = d_info h /\ d_pack_ptr h' = d_pack_ptr h /\ d_pack_len h' = d_pack_len h /\
    d_is_pes h' = d_is_pes h.
Proof.
  intros Hb Hl. unfold get_ts_es.
  destruct (payload_offset_safe w) as (off & -> & Hoff); [done|lia|].
  assert (exists hl o, lts_pes_parse_header (drop (Z.to_nat off) w) (188 - off) false true false
                       = Some (hl, o) /\ (hl = 0 \/ 9 <= hl)) as (hl & o & -> & Hhl).
  { destruct (Z.lt_ge_cases (188 - off) 9).
    { rewrite parse_header_short by done. eauto. }
    destruct (parse_header_in_bounds (drop (Z.to_nat off) w) (188 - off) false true false)
      as (r & o & -> & Hr); [by apply Forall_drop|rewrite zlen_drop; lia..|].
    exists r, o. split; [done|]. lia. }
  unfold es_in_packet.
  destruct (Z.leb_spec (d_pes_head_len h) 0), (o_pts o);
    repeat (cbn [d_pes_head_len set_d_es set_d_pes_pts]; case_match);
    (eexists; split; [done|]);
    (split; [|done]); cbn [d_es_ptr d_es_len set_d_es set_d_pes_pts];
    try (left; done); right; eexists; (split; [done|]); simpl in *; lia.
Qed.

Lemma handle_pat_safe h w :
  wf_handle h -> bytes w -> 193 <= zlen w ->
  exists h', handle_pat h w = Some h' /\ wf_handle h' /\ d_pack_ptr h' = d_pack_ptr h /\
    d_pack_len h' = d_pack_len h /\ d_is_pes h' = d_is_pes h.
Proof.
  intros (p & Ep & Hs & Hn & Hm) Hb Hl. unfold handle_pat.
  destruct (payload_offset_safe w) as (off & -> & Hoff); [done|lia|].
  assert (wf_handle h) by (exists p; auto).
  case_match eqn:E8; [|eauto 10]. load_step. case_match; [|eauto 10].
  assert (8 <= 188 - (off + 1)).
  { change (sizeof pat_section) with 8 in E8.
    rewrite (uwrap_id 64) in E8 by (unfold is_u; lia). lia. }
  set (pnum := if MAX_PROGRAM_NUM <? _ then _ else _).
  assert (pnum <= 1) as Hp by (unfold pnum, MAX_PROGRAM_NUM in *; case_match; lia).
  clearbody pnum. destruct (Z_le_gt_dec pnum 0).
  - replace (Z.to_nat pnum) with O by lia. cbn [pat_read_loop]. eexists; split; [done|].
    split; [|done]. exists p. unfold MAX_PROGRAM_NUM. simpl. auto with lia.
  - assert (pnum = 1) as -> by lia. change (Z.to_nat 1) with 1%nat. cbn [pat_read_loop].
    change (MAX_PROGRAM_NUM <=? 0) with false. cbv iota.
    change (0 * sizeof pat_map_array) with 0. change (sizeof pat_section) with 8 in *.
    load_step. change (pi_prog (set_pi_program_num 1 (d_info h))) with (pi_prog (d_info h)).
    rewrite Ep. change (aget [p] 0) with (Some p). cbv iota beta.
    change (aput [p] 0 (set_ps_pmt_pid v0 p)) with (Some [set_ps_pmt_pid v0 p]). cbv iota beta.
    eexists; split; [done|]. split; [|done].
    eexists; split; [done|]. unfold MAX_PROGRAM_NUM. simpl. auto with lia.
Qed.

Lemma pmt_read_loop_safe n : forall sn w stm limit p,
  0 <= stm -> limit <= zlen w -> 0 <= sn -> sn + Z.of_nat n <= 4 -> zlen (ps_stream p) = 4 ->
  exists sn' p', pmt_read_loop n sn w stm limit p = Some (sn', p') /\
    sn' <= 4 /\ zlen (ps_stream p') = 4.
Proof.
  induction n as [|n IH]; intros sn w stm limit p Hs Hl Hsn Hn Hp; cbn [pmt_read_loop];
    [eexists _, _; split; [done|lia]|].
  case_match; [eexists _, _; split; [done|lia]|].
  do 3 load_step. destruct (aget_in (ps_stream p) sn) as [ss ->]; [lia|].
  destruct (aput_in (ps_stream p) sn (set_ss_type (u8 v1) (set_ss_es_pid v ss)))
    as (l' & -> & Hl'); [lia|].
  change (sizeof pmt_stream_array) with 5.
  apply IH; simpl; lia.
Qed.

Lemma handle_pmt_safe h i w :
  wf_handle h -> bytes w -> 193 <= zlen w -> i = 0 ->
  exists h', handle_pmt h i w = Some h' /\ wf_handle h' /\ d_pack_ptr h' = d_pack_ptr h /\
    d_pack_len h' = d_pack_len h /\ d_is_pes h' = d_is_pes h.
Proof.
  intros Hwf Hb Hl ->. unfold handle_pmt.
  destruct (payload_offset_safe w) as (off & -> & Hoff); [done|lia|].
  case_match eqn:E; [|eauto 10]. load_step. case_match; [|eauto 10].
  assert (12 < 188 - (off + 1)).
  { change (sizeof pmt_section) with 12 in E.
    rewrite (uwrap_id 64) in E by (unfold is_u; lia). lia. }
  load_step. destruct Hwf as (p & Ep & Hs & Hn & Hm). rewrite Ep.
  change (aget [p] 0) with (Some p). cbv iota beta. change (sizeof pmt_section) with 12.
  destruct (pmt_read_loop_safe (Z.to_nat MAX_STREAM_NUM) 0 w (off + 1 + 12 + v0)
              (off + 1 + 3 + v) p) as (sn & p' & -> & Hsn & Hp'); [lia..|done|done|].
  change (aput [p] 0 (set_ps_stream_num sn p')) with (Some [set_ps_stream_num sn p']).
  cbv iota beta. eexists; split; [done|]. split; [|done].
  eexists; split; [done|]. simpl. auto.
Qed.

Lemma find_stream_safe n : forall sn PID ss,
  0 <= sn -> sn + Z.of_nat n <= zlen ss -> exists r, find_stream n sn PID ss = Some r.
Proof.
  induction n as [|n IH]; intros sn PID ss H0 Hn; cbn [find_stream]; [eauto|].
  destruct (aget_in ss sn) as [s ->]; [lia|]. case_match; [eauto|]. apply IH; lia.
Qed.

(** With at most one program the searches find program 0, if any. *)
Lemma find_pmt_safe num PID p :
  num <= 1 -> find_pmt (Z.to_nat num) 0 PID [p] = Some None \/
              find_pmt (Z.to_nat num) 0 PID [p] = Some (Some 0).
Proof.
  intros. assert (Z.to_nat num = 0 \/ Z.to_nat num = 1)%nat as [-> | ->] by lia;
    cbn [find_pmt]; [auto|]. change (aget [p] 0) with (Some p). cbv iota beta.
  case_match; auto.
Qed.

Lemma find_es_safe num PID p :
  num <= 1 -> ps_stream_num p <= zlen (ps_stream p) ->
  find_es (Z.to_nat num) 0 PID [p] = Some None \/
  exists sn, find_es (Z.to_nat num) 0 PID [p] = Some (Some (0, sn)).
Proof.
  intros Hn Hp. assert (Z.to_nat num = 0 \/ Z.to_nat num = 1)%nat as [-> | ->] by lia;
    cbn [find_es]; [auto|]. change (aget [p] 0) with (Some p). cbv iota beta.
  destruct (find_stream_safe (Z.to_nat (ps_stream_num p)) 0 PID (ps_stream p)) as [r ->];
    [lia|pose proof (zlen_nonneg (ps_stream p)); lia|].
  destruct r; eauto.
Qed.

(** A packet whose 193 bytes can be read is handled without undefined behaviour. *)
Lemma handle_ts_pack_safe h base w :
  wf_handle h -> bytes w -> 193 <= zlen w -> d_is_pes h = 0 ->
  exists h', handle_ts_pack h base w = Some h' /\ wf_handle h' /\
    d_pack_ptr h' = d_pack_ptr h /\ d_pack_len h' = d_pack_len h /\
    (d_is_pes h' = 0 \/ d_is_pes h' = 1 /\ es_in_packet base h').
Proof.
  intros Hwf Hb Hl Hp. unfold handle_ts_pack. load_step.
  set (h1 := set_d_pid v h). assert (wf_handle h1) as Hwf1 by done.
  case_match.
  { destruct (handle_pat_safe h1 w) as (h' & -> & ? & ? & ? & Hi); [done..|].
    eexists; split; [done|]. rewrite Hi. auto. }
  destruct Hwf as (p & Ep & Hs & Hn & Hm). unfold MAX_STREAM_NUM, MAX_PROGRAM_NUM in *.
  change (d_info h1) with (d_info h). rewrite Ep.
  destruct (find_pmt_safe (pi_program_num (d_info h)) v p) as [-> | ->]; [done|..].
  - destruct (find_es_safe (pi_program_num (d_info h)) v p) as [-> | [sn ->]]; [done|lia|..].
    { eexists; split; [done|]. auto. }
    destruct (get_ts_pcr_safe w) as [r ->]; [lia|].
    set (h2 := set_d_stream 1 0 sn _).
    assert (d_info h2 = d_info h /\ d_pack_ptr h2 = d_pack_ptr h /\
            d_pack_len h2 = d_pack_len h /\ d_is_pes h2 = 1) as (E1 & E2 & E3 & E4)
      by (unfold h2; by destruct r).
    destruct (get_ts_es_safe h2 base w) as (h' & -> & He & Ei & Ep' & El & Eis); [done..|].
    eexists; split; [done|]. split.
    { exists p. rewrite Ei, E1. auto. }
    rewrite Ep', El, Eis, E2, E3, E4. auto.
  - destruct (handle_pmt_safe h1 0 w) as (h' & -> & ? & ? & ? & Hi); [done..|].
    eexists; split; [done|]. rewrite Hi. auto.
Qed.

(** The first occurrence of the synchronisation byte from [i] on. *)
Lemma sync_loop_spec n : forall i h b len,
  0 <= i -> i + Z.of_nat n <= zlen b ->
  (sync_loop n i h b len = Some (0, h) /\
   (188 <= len -> forall j, i <= j < i + Z.of_nat n -> rd b j <> Some 0x47)) \/
  (188 <= len /\
   exists k, i <= k < i + Z.of_nat n /\ rd b k = Some 0x47 /\
    (forall j, i <= j < k -> rd b j <> Some 0x47) /\
    sync_loop n i h b len
    = let h := set_d_pack (d_is_pes h) (Some k) 188 h in
      let* h := (if truthy (d_sync_only h) then Some h
                 else handle_ts_pack h k (drop (Z.to_nat k) b)) in Some (k + 188, h)).
Proof.
  induction n as [|n IH]; intros i h b len Hi Hn; cbn [sync_loop].
  { left. split; [done|]. intros; lia. }
  destruct (rd_in b i) as [x E]; [lia|]. rewrite E.
  destruct (Z.eqb_spec x 0x47) as [->|Hx], (Z.leb_spec 188 len) as [Hl|Hl]; simpl andb; cbv iota.
  - right. split; [done|]. exists i. repeat split; try done; intros; lia.
  - destruct (IH (i + 1) h b len) as [[-> H]|[? _]]; [lia|lia| |lia].
    left. split; [done|]. intros; lia.
  - destruct (IH (i + 1) h b len) as [[-> H]|(_ & k & Hk & Ek & Hj & ->)]; [lia|lia|left|right].
    + split; [done|]. intros _ j Hj. destruct (Z.eq_dec j i) as [->|]; [congruence|].
      apply H; lia.
    + split; [done|]. exists k. repeat split; try done; try lia.
      intros j Hj'. destruct (Z.eq_dec j i) as [->|]; [congruence|]. apply Hj; lia.
  - destruct (IH (i + 1) h b len) as [[-> H]|[? _]]; [lia|lia| |lia].
    left. split; [done|]. intros; lia.
Qed.

(** ** Properties *)

(** C38: One call on a buffer that holds [len] bytes, and 193 bytes from its first
    synchronisation byte on, reads nothing outside it.  Either it finds no packet,
    returns 0 and reports none; or it finds the first byte 0x47, at [i], returns
    [i + 188] and reports that packet, and what it reports as elementary stream
    data lies inside the packet and ends with it.  The arrays of the handle keep
    their sizes and the counts stay within them. *)
Theorem ts_demux_safe h b len :
  wf_handle h -> bytes b -> 0 < len <= zlen b ->
  (forall i, 0 <= i < len -> rd b i = Some 0x47 -> i + 193 <= zlen b) ->
  exists ret h', lts_ts_demux (Some h) (Some b) len = Some (ret, Some h') /\ wf_handle h' /\
    ((ret = 0 /\ d_pack_ptr h' = None /\ d_pack_len h' = 0 /\ d_is_pes h' = 0) \/
     exists i, 0 <= i < len /\ ret = i + 188 /\ rd b i = Some 0x47 /\
       (forall j, 0 <= j < i -> rd b j <> Some 0x47) /\
       d_pack_ptr h' = Some i /\ d_pack_len h' = 188 /\
       (d_is_pes h' = 0 \/ d_is_pes h' = 1 /\ es_in_packet i h')).
Proof.
  intros Hwf Hb Hl Hroom. unfold lts_ts_demux. rewrite (proj2 (Z.leb_gt _ _)) by lia.
  set (h0 := set_d_pack 0 None 0 h). assert (wf_handle h0) as Hwf0 by done.
  destruct (sync_loop_spec (Z.to_nat len) 0 h0 b len) as [[-> _]|(_ & k & Hk & Ek & Hj & ->)];
    [lia|lia|..].
  { eexists _, _; split; [done|]. split; [done|]. left. done. }
  set (h1 := set_d_pack (d_is_pes h0) (Some k) 188 h0). cbv zeta.
  assert (k + 193 <= zlen b) by (apply Hroom; [lia|done]).
  destruct (truthy (d_sync_only h1)).
  - eexists _, _; split; [done|]. split; [exact Hwf|]. right. exists k.
    repeat split; try done; try lia. by left.
  - destruct (handle_ts_pack_safe h1 k (drop (Z.to_nat k) b))
      as (h' & -> & Hwf' & Hp & Hn & He);
      [done|by apply Forall_drop|rewrite zlen_drop; lia|done|].
    eexists _, _; split; [done|]. split; [done|]. right. exists k.
    rewrite Hp, Hn. repeat split; try done; lia.
Qed.

Definition demux0 : TDemux :=
  mkDemux (mkProgramInfo 0 0 [mkProgramSpec 0 0 0 0 (replicate 4 (mkStreamSpec 0 0 0 0))])
    0 0 0 0 0 0 None 0 None 0 0 0 0.

Lemma ts_demux_safe_witness :
  let b := [1; 2; 0x47; 0x41; 0; 0x10] ++ replicate 400 9 in
  exists ret h', lts_ts_demux (Some demux0) (Some b) 190 = Some (ret, Some h') /\ wf_handle h' /\
    ((ret = 0 /\ d_pack_ptr h' = None /\ d_pack_len h' = 0 /\ d_is_pes h' = 0) \/
     exists i, 0 <= i < 190 /\ ret = i + 188 /\ rd b i = Some 0x47 /\
       (forall j, 0 <= j < i -> rd b j <> Some 0x47) /\
       d_pack_ptr h' = Some i /\ d_pack_len h' = 188 /\
       (d_is_pes h' = 0 \/ d_is_pes h' = 1 /\ es_in_packet i h')).
Proof.
  apply (ts_demux_safe demux0 ([1; 2; 0x47; 0x41; 0; 0x10] ++ replicate 400 9) 190).
  - exists (mkProgramSpec 0 0 0 0 (replicate 4 (mkStreamSpec 0 0 0 0))).
    split; [reflexivity|]. repeat split; vm_compute; discriminate.
  - apply bytes_check. vm_compute. reflexivity.
  - split; [reflexivity|vm_compute; discriminate].
  - intros i Hi _. change (zlen _) with 406. lia.
Defined.

(** The demultiplexer trusts the adaptation field length: on a complete packet
    of 188 bytes with PID 0 whose adaptation field fills the packet, the length of
    the section is read from the bytes after the packet, outside the buffer. *)
Theorem ts_demux_overread h rest :
  d_sync_only h = 0 -> zlen rest = 183 ->
  lts_ts_demux (Some h) (Some ([0x47; 0; 0; 0x30; 183] ++ rest)) 188 = None.
Proof.
  intros Hs Hr. unfold lts_ts_demux. change (188 <=? 0) with false. cbv iota.
  change (Z.to_nat 188) with (S 187). cbn [sync_loop].
  change (rd ([71; 0; 0; 48; 183] ++ rest) 0) with (Some 0x47).
  change ((0x47 =? 0x47) && (188 <=? 188)) with true. cbv iota beta zeta.
  change (d_sync_only (set_d_pack (d_is_pes (set_d_pack 0 None 0 h)) (Some 0) 188
            (set_d_pack 0 None 0 h))) with (d_sync_only h). rewrite Hs.
  change (truthy 0) with false. cbv iota. change (drop (Z.to_nat 0) ?l) with l.
  set (h1 := set_d_pack _ _ _ _). set (w := [71; 0; 0; 48; 183] ++ rest).
  assert (load_length w 0 ts_header "PID_high5" "PID_low8" = Some 0) as E1 by reflexivity.
  assert (get_ts_payload_offset w = Some 188) as E2 by reflexivity.
  unfold handle_ts_pack. rewrite E1. change (0 =? 0) with true. cbv iota.
  unfold handle_pat. rewrite E2. change (sizeof pat_section <=? u64 (188 - (188 + 1))) with true.
  cbv iota. unfold load_length, load. layout_eval. cbv beta iota. rewrite rd_out; [done|].
  right. unfold w. rewrite zlen_app, Hr. vm_compute. discriminate.
Qed.

Lemma ts_demux_overread_witness :
  lts_ts_demux (Some demux0) (Some ([0x47; 0; 0; 0x30; 183] ++ replicate 183 0xff)) 188 = None.
Proof. apply ts_demux_overread; reflexivity. Defined.

(** The length check does not look at where the packet starts: with a buffer
    of exactly 188 bytes in which the synchronisation byte comes late, the call
    reports a packet that ends after the buffer and consumes more bytes than it
    was given. *)
Theorem ts_demux_past_end h b i :
  d_sync_only h <> 0 -> zlen b = 188 -> 0 < i < 188 -> rd b i = Some 0x47 ->
  (forall j, 0 <= j < i -> rd b j <> Some 0x47) ->
  exists h', lts_ts_demux (Some h) (Some b) 188 = Some (i + 188, Some h') /\
    zlen b < i + 188 /\ d_pack_ptr h' = Some i /\ d_pack_len h' = 188.
Proof.
  intros Hs Hl Hi Ei Hj. unfold lts_ts_demux. change (188 <=? 0) with false. cbv iota.
  set (h0 := set_d_pack 0 None 0 h).
  destruct (sync_loop_spec (Z.to_nat 188) 0 h0 b 188) as [[_ H]|(_ & k & Hk & Ek & Hj' & ->)];
    [lia|lia| |].
  { exfalso. apply (H ltac:(lia) i); [lia|done]. }
  assert (k = i) as ->.
  { destruct (Z.lt_trichotomy k i) as [?|[?|?]]; [exfalso|done|exfalso].
    - apply (Hj k); [lia|done].
    - apply (Hj' i); [lia|done]. }
  cbv zeta. change (d_sync_only (set_d_pack (d_is_pes h0) (Some i) 188 h0)) with (d_sync_only h).
  unfold truthy. destruct (Z.eqb_spec (d_sync_only h) 0); [done|]. simpl negb. cbv iota.
  eexists; split; [done|]. split; [lia|done].
Qed.

Lemma ts_demux_past_end_witness :
  exists h', lts_ts_demux (Some (mkDemux (d_info demux0) 0 0 0 0 0 0 None 0 None 0 0 1 0))
               (Some ([0; 0x47] ++ replicate 186 1)) 188 = Some (189, Some h') /\
    zlen ([0; 0x47] ++ replicate 186 1) < 189 /\ d_pack_ptr h' = Some 1 /\ d_pack_len h' = 188.
Proof.
  apply (ts_demux_past_end _ ([0; 0x47] ++ replicate 186 1) 1);
    [discriminate|reflexivity|lia|reflexivity|].
  intros j Hj. assert (j = 0) as -> by lia. vm_compute. discriminate.
Defined.

(** The two bytes of a PID or length whose high part is a signed field of [w] bits. *)
Definition signed_length (w x y : Z) : Z :=
  Z.land x (Z.ones w) * 256 + y
  + (if Z.testbit x (w - 1) then 0x10000 - Z.shiftl 256 w else 0).

Lemma CHAR_TO_LENGTH_signed w x y :
  w = 4 \/ w = 5 -> byte x -> byte y ->
  CHAR_TO_LENGTH (swrap w (bf_get 0 w x)) (swrap 8 (bf_get 0 8 y)) = signed_length w x y.
Proof.
  intros Hw Hx H. unfold CHAR_TO_LENGTH, signed_length. rewrite u8_signed_byte by done.
  rewrite lor_shiftl_add by (done || lia).
  assert (Z.shiftl (u8 (swrap w (bf_get 0 w x))) 8
          = Z.land x (Z.ones w) * 256 + (if Z.testbit x (w - 1) then 0x10000 - Z.shiftl 256 w else 0))
    as ->; [|lia].
  apply Z.eqb_eq. clear y H. revert x Hx.
  destruct Hw as [-> | ->]; refine (byte_case (fun x => _) _); by vm_compute.
Qed.

(** The high bits of a PID are a signed bit-field: a PID up to 0x0fff is
    reported as it is, one from 0x1000 on is reported with 0xe000 added.  (The PMT
    PIDs this library writes are in that range; they are found again because the
    PAT is read with the same error.) *)
Theorem ts_pid_sign_extended w x y :
  bytes w -> rd w 1 = Some x -> rd w 2 = Some y ->
  let PID := Z.land x 0x1f * 256 + y in
  load_length w 0 ts_header "PID_high5" "PID_low8"
  = Some (if PID <? 0x1000 then PID else PID + 0xe000).
Proof.
  intros Hb Hx Hy PID. pose proof (rd_byte _ _ _ Hb Hx). pose proof (rd_byte _ _ _ Hb Hy).
  unfold load_length, load. layout_eval. cbv beta iota zeta. zconst. rewrite Hx, Hy.
  rewrite CHAR_TO_LENGTH_signed by (done || lia). f_equal. unfold signed_length, PID.
  change (Z.ones 5) with 0x1f. change (5 - 1) with 4. change (0x10000 - Z.shiftl 256 5) with 0xe000.
  assert (Z.testbit x 4 = (16 <=? Z.land x 0x1f)) as ->.
  { apply eqb_prop.
    exact (byte_case (fun x => Bool.eqb (Z.testbit x 4) (16 <=? Z.land x 0x1f))
             ltac:(vm_compute; reflexivity) x ltac:(assumption)). }
  unfold is_u in *. destruct (Z.leb_spec 16 (Z.land x 31)), (Z.ltb_spec (Z.land x 31 * 256 + y) 4096); lia.
Qed.

Lemma ts_pid_sign_extended_witness :
  load_length [0x47; 0x50; 0x01; 0x30] 0 ts_header "PID_high5" "PID_low8" = Some (0x1001 + 0xe000).
Proof.
  apply (ts_pid_sign_extended [0x47; 0x50; 0x01; 0x30] 0x50 0x01);
    [apply bytes_check; reflexivity|reflexivity..].
Defined.
