(* ===== verification/TsRoundTrip.v ===== *)
(** Multiplexing and demultiplexing a transport stream: a receiver that calls
    [lts_ts_demux] (TsDemux) packet by packet on what [lts_ts_stream] (TsMux)
    wrote gets the program description, the time stamps and the data back. *)

From stdpp Require Import base list option strings.
From S2P Require Import Prelude CMem TypeDefs Pes TsMux TsMuxSpec TsDemux.

Local Open Scope Z_scope.
Open Scope c_scope.

(** ** The receiver *)

(** [n] calls, each on what the one before left. *)
Fixpoint receive (n : nat) (h : TDemux) (b : buf) : option (TDemux * buf) :=
  match n with
  | O => Some (h, [])
  | S n =>
      let* (ret, oh) := lts_ts_demux (Some h) (Some b) (zlen b) in
      let* h' := oh in
      let* (h'', es) := receive n h' (drop (Z.to_nat ret) b) in
      Some (h'', es_data h' b ++ es)
  end.

(** The part of a frame that goes to packet [k] after the first. *)
Definition chunk (data : buf) (k : nat) : buf := take 182 (drop (157 + 182 * k) data).

(** No packet but the first starts with what the parser takes for a PES header:
    the demultiplexer does not look at the payload unit start indicator. *)
Definition no_false_header (data : buf) : Prop :=
  forall k, get_pes_head_len (chunk data k) (zlen (chunk data k)) = Some 0.

(** A handle that has read the tables of program description [p]. *)
Definition knows (p : TsProgramSpec) (h : TDemux) : Prop :=
  pi_program_num (d_info h) = 1 /\ pi_prog (d_info h) = [p] /\ ps_pmt_pid p = 0xF001 /\
  0 <= ps_stream_num p <= 4 /\
  forall k, 0 <= k < ps_stream_num p ->
    exists s, aget (ps_stream p) k = Some s /\ ss_es_pid s = 0x100 + k.

Definition idle (h : TDemux) : Prop := d_pes_head_len h = 0 /\ d_sync_only h = 0.

(** ** Reading the header of a packet *)

Lemma head_afc pusi PID cc afl fl rest :
  load (ts_head pusi PID cc afl fl ++ rest) 0 ts_header "adaptation_field_control" = Some (-1).
Proof.
  unfold ts_head. buf_eval.
  assert (bf_get 4 2 (Z.lor 48 (Z.land cc 15)) = 3) as -> by (unfold bf_get; bits 2). done.
Qed.

Lemma head_afl pusi PID cc afl fl rest :
  byte afl ->
  load (ts_head pusi PID cc afl fl ++ rest) 0 ts_header "adaptation_field_length" = Some afl.
Proof.
  intros. unfold ts_head. buf_eval. f_equal. by rewrite bf_get_all, uwrap_id.
Qed.

Lemma head_payload_offset pusi PID cc afl fl rest :
  0 <= afl <= 183 ->
  get_ts_payload_offset (ts_head pusi PID cc afl fl ++ rest) = Some (5 + afl).
Proof.
  intros H. unfold get_ts_payload_offset. rewrite head_afc. cbn [Z.eqb Pos.eqb].
  rewrite head_afl by (unfold is_u; lia).
  rewrite (proj2 (Z.ltb_ge _ _)), (proj2 (Z.ltb_ge _ _)) by lia. done.
Qed.

Lemma head_PID pusi PID cc afl fl rest :
  In PID [0; 0x100; 0x101; 0x102; 0x103; 0x1001] ->
  load_length (ts_head pusi PID cc afl fl ++ rest) 0 ts_header "PID_high5" "PID_low8"
  = Some (if PID =? 0x1001 then 0xF001 else PID).
Proof.
  intros H. unfold ts_head, load_length. buf_eval.
  repeat (destruct H as [<-|H]; [by destruct pusi|]). done.
Qed.

Lemma stream_PID_cases j :
  0 <= j < 4 -> In (0x100 + j) [0; 0x100; 0x101; 0x102; 0x103; 0x1001] /\ (0x100 + j =? 0x1001) = false.
Proof. intros. simpl. lia. Qed.

(** One call on a buffer that starts with a packet. *)
Lemma demux_at_packet h b :
  188 <= zlen b -> rd b 0 = Some 0x47 -> d_sync_only h = 0 ->
  lts_ts_demux (Some h) (Some b) (zlen b)
  = let* h' := handle_ts_pack (set_d_pack 0 (Some 0) 188 h) 0 b in Some (188, Some h').
Proof.
  intros Hl Hr Hs. unfold lts_ts_demux. rewrite (proj2 (Z.leb_gt _ _)) by lia.
  destruct (Z.to_nat (zlen b)) eqn:E; [lia|]. cbn [sync_loop]. rewrite Hr.
  rewrite (proj2 (Z.leb_le _ _)) by lia. cbn [Z.eqb andb Pos.eqb]. cbv iota zeta.
  match goal with |- context [truthy (d_sync_only ?x)] => change (d_sync_only x) with (d_sync_only h) end.
  rewrite Hs. change (truthy 0) with false. cbv iota.
  change (drop (Z.to_nat 0) b) with b.
  match goal with |- context [handle_ts_pack ?x 0 b] =>
    change x with (set_d_pack 0 (Some 0) 188 h) end.
  by destruct (handle_ts_pack _ _ _).
Qed.

(** ** Packets of a known stream *)

Lemma find_stream_known n : forall sn PID ss j,
  0 <= sn <= j -> j < sn + Z.of_nat n -> PID = 0x100 + j ->
  (forall k, sn <= k <= j -> exists s, aget ss k = Some s /\ ss_es_pid s = 0x100 + k) ->
  find_stream n sn PID ss = Some (Some j).
Proof.
  induction n as [|n IH]; intros sn PID ss j Hj Hn -> H; [lia|]. cbn [find_stream].
  destruct (H sn) as (s & -> & ->); [lia|].
  destruct (Z.eqb_spec (0x100 + j) (0x100 + sn)).
  - repeat f_equal. lia.
  - apply IH; [lia..|done|]. intros k Hk. apply H. lia.
Qed.

Lemma handle_known p h base pusi cc afl fl j rest :
  knows p h -> 0 <= j < ps_stream_num p ->
  let w := ts_head pusi (0x100 + j) cc afl fl ++ rest in
  handle_ts_pack h base w
  = let* pcr := get_ts_pcr w in
    let h := set_d_stream (d_is_pes h) 0 j (set_d_pid (0x100 + j) h) in
    let h := match pcr with Some v => set_d_pts v h | None => h end in
    get_ts_es (set_d_stream 1 0 j h) base w.
Proof.
  intros (Hn & Hp & Hpmt & Hs & Hk) Hj w. unfold handle_ts_pack, w.
  destruct (stream_PID_cases j ltac:(lia)) as [Hin Hne].
  rewrite head_PID, Hne by done. fold w.
  destruct (Z.eqb_spec (0x100 + j) 0); [lia|]. cbv zeta.
  change (d_info (set_d_pid (0x100 + j) h)) with (d_info h).
  rewrite Hn, Hp. change (Z.to_nat 1) with 1%nat. cbn [find_pmt find_es].
  change (aget [p] 0) with (Some p). cbv beta iota. rewrite Hpmt.
  destruct (Z.eqb_spec (0x100 + j) 0xF001); [lia|].
  rewrite (find_stream_known _ _ _ _ j); [done|lia..|done|]. intros. apply Hk. lia.
Qed.

(** Reading the head of a PES header depends on the first nine bytes only. *)
Lemma head_len_app c rest :
  get_pes_head_len (c ++ rest) (zlen c) = get_pes_head_len c (zlen c).
Proof.
  unfold get_pes_head_len. destruct (Z.ltb_spec (zlen c) 9); [done|].
  by rewrite !rd_app_l by lia.
Qed.

(** What a call leaves when it received [c] from the middle of a frame. *)
Definition received (p : TsProgramSpec) (j pts pes_pts : Z) (c : buf) (h' : TDemux) (b : buf) : Prop :=
  knows p h' /\ idle h' /\ d_pts h' = pts /\ d_pes_pts h' = pes_pts /\
  d_program_no h' = 0 /\ d_stream_no h' = j /\ es_data h' b = c.

Lemma rest_packet_parsed p h cc c j rest hl o :
  knows p h -> idle h -> 0 <= j < ps_stream_num p -> zlen c <= 182 ->
  lts_pes_parse_header (c ++ rest) (zlen c) false true false = Some (hl, o) ->
  0 <= hl <= zlen c ->
  let b := plain_packet false (0x100 + j) cc c ++ rest in
  exists h', lts_ts_demux (Some h) (Some b) (zlen b) = Some (188, Some h') /\
    received p j (d_pts h) (match o_pts o with Some v => v | None => d_pes_pts h end)
      (drop (Z.to_nat hl) c) h' b.
Proof.
  intros Hk [Hhl Hso] Hj Hc Hf Hr b. pose proof (zlen_nonneg c).
  assert (zlen (plain_packet false (0x100 + j) cc c) = 188) as E by by apply zlen_plain_packet.
  assert (188 <= zlen b) by (unfold b; rewrite zlen_app; pose proof (zlen_nonneg rest); lia).
  rewrite demux_at_packet by done.
  set (pre := ts_head false (0x100 + j) cc (183 - zlen c) 0
              ++ replicate (Z.to_nat (182 - zlen c)) 0xff).
  assert (zlen pre = 188 - zlen c) as Hpre.
  { unfold pre. rewrite zlen_app, zlen_head, zlen_replicate. lia. }
  assert (b = pre ++ c ++ rest) as Eb.
  { unfold b, pre, plain_packet. by rewrite <- !app_assoc. }
  assert (exists t, b = ts_head false (0x100 + j) cc (183 - zlen c) 0 ++ t) as [t Et].
  { rewrite Eb. unfold pre. rewrite <- app_assoc. eauto. }
  clearbody b.
  pose proof (handle_known p (set_d_pack 0 (Some 0) 188 h) 0 false cc (183 - zlen c) 0 j t
                Hk Hj) as HK.
  cbv zeta in HK. rewrite <- Et in HK. rewrite HK. clear HK.
  assert (get_ts_pcr b = Some None) as ->.
  { rewrite Et. unfold get_ts_pcr. rewrite head_afc, head_afl by (unfold is_u; lia). cbn [Z.eqb orb].
    destruct (Z.eqb_spec (183 - zlen c) 0); [lia|]. done. }
  assert (get_ts_payload_offset b = Some (188 - zlen c)) as Eo.
  { rewrite Et, head_payload_offset by lia. f_equal. lia. }
  assert (drop (Z.to_nat (188 - zlen c)) b = c ++ rest) as Ed by (rewrite Eb; by apply drop_at).
  unfold get_ts_es. rewrite Eo, Ed.
  set (h1 := set_d_stream 1 0 j _).
  change (d_pes_head_len h1) with (d_pes_head_len h). rewrite Hhl. change (0 <=? 0) with true.
  cbv iota. replace (188 - (188 - zlen c)) with (zlen c) by lia.
  rewrite Hf. clear Hf.
  assert (drop (Z.to_nat (188 - zlen c + hl)) b = drop (Z.to_nat hl) c ++ rest) as Ed'.
  { replace b with ((pre ++ take (Z.to_nat hl) c) ++ drop (Z.to_nat hl) c ++ rest)
      by (rewrite <- app_assoc, (app_assoc (take _ c)), take_drop; done).
    apply drop_at. rewrite zlen_app, zlen_take, Hpre; lia. }
  set (h2 := match o_pts o with Some v => set_d_pes_pts v h1 | None => h1 end).
  assert (d_pes_pts h2 = match o_pts o with Some v => v | None => d_pes_pts h end /\
          d_info h2 = d_info h /\ d_sync_only h2 = 0 /\ d_pts h2 = d_pts h /\
          d_program_no h2 = 0 /\ d_stream_no h2 = j /\ d_is_pes h2 = 1) as (P1 & P2 & P3 & P4 & P5 & P6 & P7)
    by (unfold h2; by destruct (o_pts o)).
  assert (forall x y n, n = zlen c - hl -> x = 188 - zlen c + hl -> y = 0 ->
    received p j (d_pts h) (match o_pts o with Some v => v | None => d_pes_pts h end)
      (drop (Z.to_nat hl) c) (set_d_es (Some x) n y h2) b) as R.
  { intros x y n -> -> ->. unfold received, knows, idle. cbn [set_d_es d_info d_pes_head_len
      d_sync_only d_pts d_pes_pts d_program_no d_stream_no]. rewrite P2. split_and!; try done; try apply Hk.
    unfold es_data. cbn [set_d_es d_is_pes d_es_ptr d_es_len]. rewrite P7, Ed'.
    change (truthy 1) with true. cbv iota. rewrite <- zlen_drop by lia.
    unfold zlen. by rewrite Nat2Z.id, take_app_length. }
  cbn [set_d_es d_pes_head_len]. destruct (Z.ltb_spec 0 hl).
  - rewrite (proj2 (Z.leb_le _ _)) by lia. eexists; split; [done|].
    apply R; lia.
  - assert (hl = 0) as -> by lia. eexists; split; [done|]. apply R; lia.
Qed.

Lemma rest_packet_received p h cc c j rest :
  knows p h -> idle h -> 0 <= j < ps_stream_num p -> zlen c <= 182 ->
  get_pes_head_len c (zlen c) = Some 0 ->
  let b := plain_packet false (0x100 + j) cc c ++ rest in
  exists h', lts_ts_demux (Some h) (Some b) (zlen b) = Some (188, Some h') /\
    received p j (d_pts h) (d_pes_pts h) c h' b.
Proof.
  intros Hk Hi Hj Hc Hf. pose proof (zlen_nonneg c).
  apply (rest_packet_parsed p h cc c j rest 0 no_out); try done; [].
  unfold lts_pes_parse_header. by rewrite head_len_app, Hf.
Qed.

(** The packet that starts a frame: time stamps are recovered. *)
Lemma first_packet_received p h sid ts n cc c j rest :
  knows p h -> idle h -> 0 <= j < ps_stream_num p -> zlen c <= 157 ->
  0x20 <= sid < 256 -> 0 <= n ->
  let b := first_packet (0x100 + j) ts cc (pes_header sid ts n ++ c) ++ rest in
  exists h', lts_ts_demux (Some h) (Some b) (zlen b) = Some (188, Some h') /\
    received p j (uwrap 33 ts / 90) (uwrap 33 ts / 90) c h' b.
Proof.
  intros Hk [Hhl Hso] Hj Hc Hsid Hn b. pose proof (zlen_nonneg c).
  assert (zlen (pes_header sid ts n ++ c) = 19 + zlen c) as Epl
    by by rewrite zlen_app, zlen_pes_header.
  assert (zlen (first_packet (0x100 + j) ts cc (pes_header sid ts n ++ c)) = 188) as E
    by (apply zlen_first_packet; lia).
  assert (188 <= zlen b) by (unfold b; rewrite zlen_app; pose proof (zlen_nonneg rest); lia).
  rewrite demux_at_packet by done.
  set (afl := 183 - (19 + zlen c)).
  set (pre := ts_head true (0x100 + j) cc afl 0x10 ++ pcr_bytes ts
              ++ replicate (Z.to_nat (176 - (19 + zlen c))) 0xff).
  assert (zlen pre = 169 - zlen c) as Hpre.
  { unfold pre. rewrite !zlen_app, zlen_head, zlen_replicate. change (zlen (pcr_bytes ts)) with 6. lia. }
  assert (b = pre ++ pes_header sid ts n ++ c ++ rest) as Eb.
  { unfold b, pre, first_packet. rewrite Epl. by rewrite <- !app_assoc. }
  assert (exists t, b = ts_head true (0x100 + j) cc afl 0x10 ++ pcr_bytes ts ++ t) as [t Et].
  { rewrite Eb. unfold pre. rewrite <- !app_assoc. eauto. }
  clearbody b.
  pose proof (handle_known p (set_d_pack 0 (Some 0) 188 h) 0 true cc afl 0x10 j (pcr_bytes ts ++ t)
                Hk Hj) as HK.
  cbv zeta in HK. rewrite <- Et in HK. rewrite HK. clear HK.
  assert (get_ts_pcr b = Some (Some (uwrap 33 ts / 90))) as ->.
  { rewrite Et. unfold get_ts_pcr. rewrite head_afc, head_afl by (unfold is_u, afl; lia).
    cbn [Z.eqb orb]. destruct (Z.eqb_spec afl 0); [unfold afl in *; lia|].
    unfold ts_head, pcr_bytes. buf_eval. change (truthy (swrap 1 (bf_get 4 1 16))) with true.
    cbv iota. do 3 f_equal. bits 33. }
  assert (get_ts_payload_offset b = Some (169 - zlen c)) as Eo.
  { rewrite Et, head_payload_offset by (unfold afl; lia). f_equal. unfold afl. lia. }
  assert (drop (Z.to_nat (169 - zlen c)) b = pes_header sid ts n ++ c ++ rest) as Ed
    by (rewrite Eb; by apply drop_at).
  unfold get_ts_es. rewrite Eo, Ed.
  set (h1 := set_d_stream 1 0 j _).
  change (d_pes_head_len h1) with (d_pes_head_len h). rewrite Hhl. change (0 <=? 0) with true.
  cbv iota. rewrite parse_header_layout by lia. cbn [o_pts].
  cbn [d_pes_head_len set_d_es]. change (0 <? 19) with true. cbv iota.
  rewrite (proj2 (Z.leb_le _ _)) by lia.
  eexists; split; [done|]. split; [done|]. repeat split; try done.
  unfold es_data, h1. cbn [d_is_pes d_es_ptr d_es_len set_d_es set_d_stream set_d_pes_pts set_d_pts].
  change (truthy 1) with true. cbv iota.
  replace (drop (Z.to_nat (0 + (169 - zlen c) + 19)) b) with (c ++ rest).
  - replace (188 - (169 - zlen c) - 19) with (zlen c) by lia.
    unfold zlen. by rewrite Nat2Z.id, take_app_length.
  - rewrite Eb, app_assoc. symmetry. apply drop_at. rewrite zlen_app, zlen_pes_header. lia.
Qed.

(** ** All packets of a frame *)

Lemma receive_S n h b h' : forall h'' es,
  lts_ts_demux (Some h) (Some b) (zlen b) = Some (188, Some h') ->
  receive n h' (drop 188 b) = Some (h'', es) ->
  receive (S n) h b = Some (h'', es_data h' b ++ es).
Proof. intros h'' es E1 E2. cbn [receive]. rewrite E1.
  change (Z.to_nat 188) with 188%nat. cbv beta iota. by rewrite E2. Qed.

Lemma receive_no_data n h b h' :
  lts_ts_demux (Some h) (Some b) (zlen b) = Some (188, Some h') -> d_is_pes h' = 0 ->
  receive (S n) h b = receive n h' (drop 188 b).
Proof.
  intros E Hp. cbn [receive]. rewrite E. change (Z.to_nat 188) with 188%nat. cbv beta iota.
  unfold es_data. rewrite Hp. by destruct (receive n h' (drop 188 b)) as [[? ?]|].
Qed.

Lemma drop_at188 {A} (pre w : list A) : zlen pre = 188 -> drop 188 (pre ++ w) = w.
Proof. apply (drop_at pre w 188). Qed.

Lemma rest_received n : forall p h cc d j rest,
  knows p h -> idle h -> 0 <= j < ps_stream_num p ->
  zlen d <= 182 * Z.of_nat n ->
  (forall k, get_pes_head_len (take 182 (drop (182 * k) d)) (zlen (take 182 (drop (182 * k) d)))
             = Some 0) ->
  (n = O \/ d_program_no h = 0 /\ d_stream_no h = j) ->
  exists h', receive n h (rest_packets n (0x100 + j) cc d ++ rest) = Some (h', d) /\
    knows p h' /\ idle h' /\ d_pts h' = d_pts h /\ d_pes_pts h' = d_pes_pts h /\
    d_program_no h' = d_program_no h /\ d_stream_no h' = d_stream_no h.
Proof.
  induction n as [|n IH]; intros p h cc d j rest Hk Hi Hj Hd Hf Hn.
  { destruct d; [|rewrite zlen_cons in Hd; pose proof (zlen_nonneg d); lia].
    exists h. by split_and!. }
  destruct Hn as [?|[Hp Hs]]; [done|]. cbn [rest_packets]. rewrite <- app_assoc.
  set (c := take 182 d). set (tail := rest_packets n _ _ _ ++ rest).
  assert (zlen c = Z.min 182 (zlen d)) as Hc by (unfold c, zlen; rewrite length_take; lia).
  destruct (rest_packet_received p h cc c j tail) as (h1 & E1 & R); [done..|lia| |].
  { apply (Hf 0%nat). }
  destruct R as (Hk1 & Hi1 & Hpts & Hpes & Hp1 & Hs1 & Hes).
  destruct (IH p h1 (cc + 1) (drop 182 d) j rest) as (h2 & E2 & Hk2 & Hi2 & Hpts2 & Hpes2 & Hp2 & Hs2);
    [done..| | |auto|].
  { change 182%nat with (Z.to_nat 182). destruct (Z.le_gt_cases (zlen d) 182).
    - rewrite drop_ge by (unfold zlen in *; lia). rewrite zlen_nil. lia.
    - rewrite zlen_drop; lia. }
  { intros k. specialize (Hf (S k)). rewrite drop_drop.
    by replace (182 + 182 * k)%nat with (182 * S k)%nat by lia. }
  exists h2. split; [|split_and!; (done || congruence)].
  rewrite (receive_S _ _ _ h1 h2 (drop 182 d)); [|done|].
  - rewrite Hes. unfold c. by rewrite take_drop.
  - change 188%nat with (Z.to_nat 188). rewrite drop_at by by apply zlen_plain_packet; lia. done.
Qed.

Lemma frame_received p h sid ts cc data j rest :
  knows p h -> idle h -> 0 <= j < ps_stream_num p -> 0x20 <= sid < 256 ->
  0 < zlen data -> no_false_header data ->
  exists h',
    receive (Z.to_nat (frame_count (zlen data))) h
      (frame_packets (0x100 + j) sid ts cc data ++ rest) = Some (h', data) /\
    knows p h' /\ idle h' /\ d_pts h' = uwrap 33 ts / 90 /\ d_pes_pts h' = uwrap 33 ts / 90 /\
    d_program_no h' = 0 /\ d_stream_no h' = j.
Proof.
  intros Hk Hi Hj Hsid Hd Hf. destruct (rest_count_spec (zlen data) Hd) as [Hrc Hc].
  unfold frame_count, frame_packets. rewrite <- app_assoc.
  set (tail := rest_packets _ _ _ _ ++ rest).
  assert (zlen (take 157 data) = Z.min 157 (zlen data)) as Ht
    by (unfold zlen; rewrite length_take; lia).
  destruct (first_packet_received p h sid ts (zlen data) cc (take 157 data) j tail)
    as (h1 & E1 & Hk1 & Hi1 & Hpts & Hpes & Hp1 & Hs1 & Hes); [done..|lia|lia|lia|].
  destruct (rest_received (Z.to_nat (rest_count (zlen data))) p h1 (cc + 1) (drop 157 data) j rest)
    as (h2 & E2 & Hk2 & Hi2 & Hpts2 & Hpes2 & Hp2 & Hs2); [done..| | |auto|].
  { change 157%nat with (Z.to_nat 157). destruct (Z.le_gt_cases (zlen data) 157).
    - rewrite drop_ge by (unfold zlen in *; lia). rewrite zlen_nil. lia.
    - rewrite zlen_drop; lia. }
  { intros k. rewrite drop_drop. apply Hf. }
  exists h2. split; [|split_and!; (done || congruence)].
  replace (Z.to_nat (1 + rest_count (zlen data))) with (S (Z.to_nat (rest_count (zlen data)))) by lia.
  rewrite (receive_S _ _ _ h1 h2 (drop 157 data)); [|done|].
  - by rewrite Hes, take_drop.
  - change 188%nat with (Z.to_nat 188). rewrite drop_at; [done|].
    apply zlen_first_packet. rewrite zlen_app, zlen_pes_header. lia.
Qed.

(** ** Tables *)

Lemma load_length_app_r pre w n p s hi lo :
  zlen pre = n ->
  match member_at s hi 0 with Some (pos, _) => 0 <= p + pos / 8 | None => True end ->
  match member_at s lo 0 with Some (pos, _) => 0 <= p + pos / 8 | None => True end ->
  load_length (pre ++ w) (n + p) s hi lo = load_length w p s hi lo.
Proof. intros. unfold load_length. by rewrite !load_app_r. Qed.

Ltac past_prefix :=
  layout_eval; cbv beta iota; lia.

(** Reading a table does not depend on where it lies. *)
Lemma pmt_read_loop_app n : forall sn pre w z stm limit p,
  zlen pre = z -> 0 <= stm ->
  pmt_read_loop n sn (pre ++ w) (z + stm) (z + limit) p = pmt_read_loop n sn w stm limit p.
Proof.
  induction n as [|n IH]; intros sn pre w z stm limit p Hz Hs; [done|]. cbn [pmt_read_loop].
  replace (z + limit <=? z + stm + 4) with (limit <=? stm + 4) by
    (destruct (Z.leb_spec limit (stm + 4)), (Z.leb_spec (z + limit) (z + stm + 4)); lia).
  destruct (limit <=? stm + 4); [done|].
  rewrite !load_length_app_r, load_app_r by (done || past_prefix).
  destruct (load_length w stm _ "elementary_PID_high5" _) as [pid|]; [|done].
  destruct (load w stm _ _) as [ty|]; [|done]. destruct (aget _ sn) as [ss|]; [|done].
  destruct (aput _ sn _) as [sts|]; [|done].
  destruct (load_length w stm _ "ES_info_length_high4" _) as [il|] eqn:E; [|done].
  assert (0 <= il).
  { unfold load_length in E. destruct (load _ _ _ _) as [a|]; [|done].
    destruct (load _ _ _ _) as [b|]; [|done]. injection E as <-. unfold CHAR_TO_LENGTH.
    apply Z.lor_nonneg. split; [apply Z.shiftl_nonneg|]; apply is_u_uwrap; lia. }
  rewrite <- !Z.add_assoc. apply IH; [done|]. change (sizeof pmt_stream_array) with 5. lia.
Qed.

(** A table packet, taken apart where its payload begins. *)
Lemma table_split PID cc payload rest :
  0 < zlen payload <= 182 ->
  exists pre, zlen pre = 188 - zlen payload /\
    plain_packet true PID cc payload ++ rest = pre ++ payload ++ rest /\
    get_ts_payload_offset (plain_packet true PID cc payload ++ rest) = Some (188 - zlen payload).
Proof.
  intros H. exists (ts_head true PID cc (183 - zlen payload) 0
                    ++ replicate (Z.to_nat (182 - zlen payload)) 0xff). split_and!.
  - rewrite zlen_app, zlen_head, zlen_replicate. lia.
  - unfold plain_packet. by rewrite <- !app_assoc.
  - unfold plain_packet. rewrite <- app_assoc, head_payload_offset by lia. f_equal. lia.
Qed.

Lemma handle_pat_received h cc p rest :
  pi_prog (d_info h) = [p] ->
  handle_pat h (plain_packet true 0 cc (psi_payload pat_section1) ++ rest)
  = Some (set_d_info (mkProgramInfo 1 (pi_pat_pmt_counter (d_info h)) [set_ps_pmt_pid 0xF001 p]) h).
Proof.
  intros Hp. destruct (table_split 0 cc (psi_payload pat_section1) rest) as (pre & Hpre & E & Eo).
  { rewrite zlen_psi_pat. lia. }
  unfold handle_pat. rewrite Eo, E. rewrite zlen_psi_pat in *. change (188 - 17) with 171 in *.
  change (sizeof pat_section <=? u64 (188 - (171 + 1))) with true. cbv iota.
  set (payload := psi_payload pat_section1) in *.
  rewrite (load_length_app_r _ _ 171 1) by (done || past_prefix).
  change (load_length (payload ++ rest) 1 pat_section "section_length_high4" "section_length_low8")
    with (Some 13). cbv beta iota.
  change (13 + 3 <=? 188 - (171 + 1)) with true. cbv iota.
  match goal with |- context [pat_read_loop (Z.to_nat ?n)] => change (Z.to_nat n) with 1%nat end.
  cbn [pat_read_loop]. change (MAX_PROGRAM_NUM <=? 0) with false. cbv iota.
  change (171 + 1 + sizeof pat_section + 0 * sizeof pat_map_array) with (171 + 9).
  rewrite (load_length_app_r _ _ 171 9) by (done || past_prefix).
  change (load_length (payload ++ rest) 9 _ "program_map_PID_high5" "program_map_PID_low8")
    with (Some 0xF001). cbv beta iota.
  match goal with |- context [aget (pi_prog (set_pi_program_num ?n _))] =>
    change n with 1 end.
  change (pi_prog (set_pi_program_num 1 (d_info h))) with (pi_prog (d_info h)). by rewrite Hp.
Qed.

(** What the PMT says of a stream. *)
Definition described (i : Z) (ss old : TsStreamSpec) : TsStreamSpec :=
  set_ss_type (u8 (ss_type ss)) (set_ss_es_pid (get_ts_stream_id 0 i) old).

Lemma u8_signed t : u8 (swrap 8 (bf_get 0 8 (u8 t))) = u8 t.
Proof. apply u8_signed_byte, is_u_uwrap. lia. Qed.

(** One entry of the table. *)
Lemma pmt_read_entry n i ss rest limit p old :
  0 <= i < 4 -> 4 < limit -> aget (ps_stream p) i = Some old ->
  pmt_read_loop (S n) i (pmt_entry i ss ++ rest) 0 limit p
  = let* sts := aput (ps_stream p) i (described i ss old) in
    pmt_read_loop n (i + 1) rest 0 (limit - 5) (set_ps_stream sts p).
Proof.
  intros Hi Hl Ho. cbn [pmt_read_loop]. rewrite (proj2 (Z.leb_gt _ _)) by lia.
  assert (load_length (pmt_entry i ss ++ rest) 0 pmt_stream_array
            "elementary_PID_high5" "elementary_PID_low8" = Some (get_ts_stream_id 0 i)) as ->.
  { assert (i = 0 \/ i = 1 \/ i = 2 \/ i = 3) as C by lia.
    by destruct C as [-> | [-> | [-> | ->]]]. }
  assert (load (pmt_entry i ss ++ rest) 0 pmt_stream_array "stream_type"
          = Some (swrap 8 (bf_get 0 8 (u8 (ss_type ss))))) as -> by done.
  assert (load_length (pmt_entry i ss ++ rest) 0 pmt_stream_array
            "ES_info_length_high4" "ES_info_length_low8" = Some 0) as -> by done.
  rewrite Ho, u8_signed. fold (described i ss old). destruct (aput _ _ _) as [sts|]; [|done].
  change (0 + sizeof pmt_stream_array + 0) with (5 + 0).
  replace limit with (5 + (limit - 5)) at 1 by lia. by apply pmt_read_loop_app.
Qed.

Definition pmt_entries (i : nat) (l : list TsStreamSpec) : buf :=
  concat (imap (fun k ss => pmt_entry (Z.of_nat (i + k)) ss) l).

Lemma pmt_read_entries l : forall n i p rest,
  (length l <= n)%nat -> (i + length l <= 4)%nat -> zlen (ps_stream p) = 4 ->
  exists p',
    pmt_read_loop n (Z.of_nat i) (pmt_entries i l ++ rest) 0 (4 + 5 * zlen l) p
    = Some (Z.of_nat i + zlen l, p') /\
    zlen (ps_stream p') = 4 /\ ps_pmt_pid p' = ps_pmt_pid p /\
    (forall k, k < Z.of_nat i -> aget (ps_stream p') k = aget (ps_stream p) k) /\
    (forall k s, l !! k = Some s ->
       exists o, aget (ps_stream p') (Z.of_nat (i + k)) = Some (described (Z.of_nat (i + k)) s o)).
Proof.
  induction l as [|s l IH]; intros n i p rest Hn Hi Hp.
  { exists p. change (zlen (@nil TsStreamSpec)) with 0. split_and!; try done.
    replace (Z.of_nat i + 0) with (Z.of_nat i) by lia. by destruct n. }
  simpl in Hn, Hi. destruct n as [|n]; [lia|]. unfold pmt_entries. rewrite imap_cons.
  cbn [concat]. rewrite Nat.add_0_r, <- app_assoc.
  destruct (aget_in (ps_stream p) (Z.of_nat i)) as [o Ho]; [lia|].
  rewrite (pmt_read_entry _ _ _ _ _ _ o); [|lia|rewrite zlen_cons; pose proof (zlen_nonneg l); lia|done].
  destruct (aput_in (ps_stream p) (Z.of_nat i) (described (Z.of_nat i) s o)) as (sts & Ep & Hl); [lia|].
  rewrite Ep. set (p1 := set_ps_stream sts p).
  destruct (IH n (S i) p1 rest) as (p' & E & Hp' & Hpid & Hlow & Hk); [lia|lia|simpl; lia|].
  exists p'. split_and!; try done.
  - replace (4 + 5 * zlen (s :: l) - 5) with (4 + 5 * zlen l) by (rewrite zlen_cons; lia).
    replace (Z.of_nat i + 1) with (Z.of_nat (S i)) by lia.
    replace (Z.of_nat i + zlen (s :: l)) with (Z.of_nat (S i) + zlen l) by (rewrite zlen_cons; lia).
    rewrite <- E. f_equal. unfold pmt_entries. do 2 f_equal. apply imap_ext. intros k x _. simpl.
    f_equal. lia.
  - intros k Hlt. rewrite Hlow by lia. simpl. rewrite (aget_aput _ _ _ _ _ Ep).
    destruct (Z.eqb_spec k (Z.of_nat i)); [lia|done].
  - intros [|k] x Hx; simpl in Hx.
    + injection Hx as <-. exists o. rewrite Nat.add_0_r, Hlow by lia. simpl.
      rewrite (aget_aput _ _ _ _ _ Ep). by rewrite Z.eqb_refl.
    + destruct (Hk k x Hx) as [o' Ho']. exists o'.
      by replace (Z.of_nat (i + S k)) with (Z.of_nat (S i + k)) by lia.
Qed.

(** The description read from the PMT of [ps]. *)
Definition reads_as (ps p' : TsProgramSpec) : Prop :=
  ps_stream_num p' = ps_stream_num ps /\ zlen (ps_stream p') = 4 /\
  forall k s, 0 <= k < ps_stream_num ps -> aget (ps_stream ps) k = Some s ->
    exists o, aget (ps_stream p') k = Some (described k s o).

Lemma handle_pmt_received h cc ps old rest :
  pi_prog (d_info h) = [old] -> zlen (ps_stream old) = 4 ->
  zlen (ps_stream ps) = 4 -> 0 <= ps_stream_num ps <= 4 ->
  exists p',
    handle_pmt h 0 (plain_packet true 0x1001 cc (psi_payload (pmt_section1 ps)) ++ rest)
    = Some (set_d_info (mkProgramInfo (pi_program_num (d_info h)) (pi_pat_pmt_counter (d_info h)) [p']) h) /\
    ps_pmt_pid p' = ps_pmt_pid old /\ reads_as ps p'.
Proof.
  intros Hp Hold Hs Hn. pose proof (zlen_psi_pmt ps Hs Hn) as Hz.
  destruct (table_split 0x1001 cc (psi_payload (pmt_section1 ps)) rest) as (pre & Hpre & E & Eo); [lia|].
  unfold handle_pmt. rewrite Eo, E.
  set (off := 188 - zlen (psi_payload (pmt_section1 ps))) in *.
  assert (off = 171 - 5 * ps_stream_num ps) as Hoff by lia.
  change (sizeof pmt_section) with 12. rewrite (uwrap_id 64) by (unfold is_u; lia).
  rewrite (proj2 (Z.ltb_lt _ _)) by lia.
  set (l := take (Z.to_nat (ps_stream_num ps)) (ps_stream ps)).
  assert (zlen l = ps_stream_num ps) as Hl by (apply zlen_take; lia).
  set (crc := crc_field (crc32 (pmt_section1 ps))).
  set (hd := [0; 2; 0xB0; 13 + 5 * ps_stream_num ps; 0; 1; 0xC1; 0; 0;
              Z.lor 0xE0 (Z.land (Z.shiftr (pcr_pid ps) 8) 31); u8 (pcr_pid ps); 0xF0; 0]).
  assert (psi_payload (pmt_section1 ps) ++ rest = hd ++ pmt_entries 0 l ++ crc ++ rest) as Ew.
  { unfold psi_payload, pmt_section1. fold l. rewrite <- !app_comm_cons, <- !app_assoc. done. }
  rewrite Ew. rewrite !(load_length_app_r _ _ off 1) by (done || past_prefix).
  assert (load_length (hd ++ pmt_entries 0 l ++ crc ++ rest) 1 pmt_section
            "section_length_high4" "section_length_low8" = Some (13 + 5 * ps_stream_num ps)) as ->.
  { unfold hd. assert (ps_stream_num ps = 0 \/ ps_stream_num ps = 1 \/ ps_stream_num ps = 2 \/
      ps_stream_num ps = 3 \/ ps_stream_num ps = 4) as C by lia.
    by destruct C as [-> | [-> | [-> | [-> | ->]]]]. }
  rewrite (proj2 (Z.leb_le _ _)) by lia.
  assert (load_length (hd ++ pmt_entries 0 l ++ crc ++ rest) 1 pmt_section
            "program_info_length_high4" "program_info_length_low8" = Some 0) as -> by done.
  rewrite Hp. change (aget [old] 0) with (Some old). cbv beta iota.
  replace (off + 1 + 12 + 0) with ((off + 13) + 0) by lia.
  replace (off + 1 + 3 + (13 + 5 * ps_stream_num ps)) with ((off + 13) + (4 + 5 * zlen l)) by lia.
  rewrite (app_assoc pre hd).
  rewrite pmt_read_loop_app by (rewrite ?zlen_app, ?Hpre; done || lia).
  destruct (pmt_read_entries l 4 0 old (crc ++ rest)) as (p' & Er & Hz' & Hpid & _ & Hk);
    [unfold zlen in *; lia..|].
  change (Z.of_nat 0) with 0 in Er. change (Z.to_nat MAX_STREAM_NUM) with 4%nat.
  rewrite Er. eexists; split; [done|]. split; [done|]. split; [simpl; lia|]. split; [done|].
  intros k s Hk' Hget. destruct (Hk (Z.to_nat k) s) as [o Ho].
  - unfold l. unfold aget in Hget. destruct (0 <=? k); [|done]. rewrite lookup_take_lt by lia. done.
  - exists o. rewrite Nat.add_0_l, Z2Nat.id in Ho by lia. done.
Qed.

Lemma reads_knows h ps p' :
  reads_as ps p' -> zlen (ps_stream ps) = 4 -> 0 <= ps_stream_num ps <= 4 ->
  ps_pmt_pid p' = 0xF001 -> pi_program_num (d_info h) = 1 -> pi_prog (d_info h) = [p'] ->
  knows p' h.
Proof.
  intros (E & Hz & Hk) Hs Hn Hpid Hnum Hprog. unfold knows. rewrite E. split_and!; try done; try lia.
  intros k Hlt. destruct (aget_in (ps_stream ps) k) as [s Hget]; [lia|].
  destruct (Hk k s Hlt Hget) as [o Ho]. eexists; split; [done|]. simpl.
  unfold get_ts_stream_id, MAX_STREAM_NUM. rewrite uwrap_id by (unfold is_u; lia). lia.
Qed.

(** A handle before any call: nothing is known of the stream. *)
Definition fresh (h : TDemux) : Prop :=
  idle h /\ exists p, pi_prog (d_info h) = [p] /\ zlen (ps_stream p) = 4.

(** The two table packets in front of a key frame. *)
Lemma tables_received h ps cnt pi rest n :
  fresh h -> one_program pi ps ->
  exists h' p',
    receive (2 + n) h (ts_tables true cnt ps ++ rest) = receive n h' rest /\
    reads_as ps p' /\ knows p' h' /\ idle h'.
Proof.
  intros (Hi & p & Hp & Hps) (_ & _ & Hs & Hn). unfold MAX_STREAM_NUM in *.
  unfold ts_tables. rewrite <- app_assoc.
  set (t2 := plain_packet true 0x1001 cnt _ ++ rest).
  set (b := plain_packet true 0 cnt (psi_payload pat_section1) ++ t2).
  assert (zlen (plain_packet true 0 cnt (psi_payload pat_section1)) = 188) as E1
    by (apply zlen_plain_packet; rewrite zlen_psi_pat; lia).
  assert (zlen (plain_packet true 0x1001 cnt (psi_payload (pmt_section1 ps))) = 188) as E2
    by (apply zlen_plain_packet; rewrite zlen_psi_pmt; lia).
  set (h0 := set_d_pid 0 (set_d_pack 0 (Some 0) 188 h)).
  set (i1 := mkProgramInfo 1 (pi_pat_pmt_counter (d_info h)) [set_ps_pmt_pid 0xF001 p]).
  assert (lts_ts_demux (Some h) (Some b) (zlen b) = Some (188, Some (set_d_info i1 h0))) as R1.
  { rewrite demux_at_packet; [|unfold b; rewrite zlen_app; pose proof (zlen_nonneg t2); lia|done|by apply Hi].
    unfold handle_ts_pack. unfold b at 1, plain_packet at 1. rewrite <- app_assoc.
    rewrite head_PID by (simpl; auto). change (if 0 =? 0x1001 then 0xF001 else 0) with 0.
    change (0 =? 0) with true. cbv iota zeta. unfold b.
    rewrite (handle_pat_received _ _ p) by done. done. }
  set (h1 := set_d_info i1 h0) in *.
  destruct (handle_pmt_received (set_d_pid 0xF001 (set_d_pack 0 (Some 0) 188 h1)) cnt ps
              (set_ps_pmt_pid 0xF001 p) rest) as (p' & R2 & Hpid & Hr); [done..|].
  set (h2 := set_d_info _ _) in R2.
  exists h2, p'. split_and!; [|done|by apply (reads_knows _ ps)|by destruct Hi].
  assert (lts_ts_demux (Some h1) (Some t2) (zlen t2) = Some (188, Some h2)) as R2'.
  { rewrite demux_at_packet; [|unfold t2; rewrite zlen_app; pose proof (zlen_nonneg rest); lia|done|by apply Hi].
    unfold handle_ts_pack. unfold t2 at 1, plain_packet at 1. rewrite <- app_assoc.
    rewrite head_PID by (simpl; tauto). change (if 0x1001 =? 0x1001 then 0xF001 else 0x1001) with 0xF001.
    change (0xF001 =? 0) with false. cbv iota zeta.
    change (d_info (set_d_pid 0xF001 (set_d_pack 0 (Some 0) 188 h1))) with i1.
    change (find_pmt (Z.to_nat (pi_program_num i1)) 0 0xF001 (pi_prog i1)) with (Some (Some 0)).
    cbv beta iota. unfold t2. by rewrite R2. }
  change (2 + n)%nat with (S (S n)).
  assert (drop 188 b = t2) as D1 by (unfold b; by apply drop_at188).
  assert (drop 188 t2 = rest) as D2 by (unfold t2; by apply drop_at188).
  rewrite (receive_no_data _ h b h1), D1 by done.
  by rewrite (receive_no_data _ h1 t2 h2), D2 by done.
Qed.

(** Data without zero bytes never reads as a header. *)
Lemma no_zero_no_header data : Forall (fun x => x <> 0) data -> no_false_header data.
Proof.
  intros H k. assert (Forall (fun x => x <> 0) (chunk data k)) as Hc
    by (apply Forall_take, Forall_drop, H).
  unfold get_pes_head_len. destruct (Z.ltb_spec (zlen (chunk data k)) 9); [done|].
  destruct (chunk data k) as [|x t]; [rewrite zlen_nil in *; lia|].
  change (rd (x :: t) 0) with (Some x). cbv iota beta. inversion Hc; subst.
  by destruct (Z.eqb_spec x 0).
Qed.

(** ** Properties *)

(** The identifier of an audio or video stream is one the PES parser accepts. *)
Lemma frame_stream_id_range f ss :
  f_program_number f = 0 -> 0 <= f_stream_number f < 4 ->
  lts_is_video (ss_type ss) || lts_is_audio (ss_type ss) = true ->
  0x20 <= frame_stream_id f ss < 256.
Proof.
  intros Hp Hs Ht. unfold frame_stream_id, lts_pes_stream_id, MAX_STREAM_NUM. rewrite Hp.
  destruct (lts_is_video _); [rewrite uwrap_id by (unfold is_u; lia); lia|].
  simpl in Ht. rewrite Ht. rewrite uwrap_id by (unfold is_u; lia). lia.
Qed.

Lemma frame_PID_value f :
  f_program_number f = 0 -> 0 <= f_stream_number f < 4 -> frame_PID f = 0x100 + f_stream_number f.
Proof.
  intros Hp Hs. unfold frame_PID, get_ts_stream_id, MAX_STREAM_NUM. rewrite Hp.
  rewrite uwrap_id by (unfold is_u; lia). lia.
Qed.

Section RoundTrip.
Context (f : TEsFrame) (fd : buf) (pi : TsProgramInfo) (ps : TsProgramSpec)
  (ss : TsStreamSpec) (dest : buf) (maxlen : Z).
Hypothesis Hfd : f_frame f = Some fd.
Hypothesis Hlen : 0 < f_length f <= zlen fd.
Hypothesis Hpi : one_program pi ps.
Hypothesis Hpn : f_program_number f = 0.
Hypothesis Hsn : 0 <= f_stream_number f < ps_stream_num ps.
Hypothesis Hss : aget (ps_stream ps) (f_stream_number f) = Some ss.
Hypothesis Htype : lts_is_video (ss_type ss) || lts_is_audio (ss_type ss) = true.
Hypothesis Hroom : 188 * ts_output_count f <= maxlen /\ 188 * ts_output_count f <= zlen dest.
Hypothesis Hchunks : no_false_header (take (Z.to_nat (f_length f)) fd).

Let data := take (Z.to_nat (f_length f)) fd.

Lemma get_stream_one : get_stream pi (f_program_number f) (f_stream_number f) = Some ss.
Proof using Hpi Hpn Hss.
  unfold get_stream. destruct Hpi as (_ & -> & _). by rewrite Hpn.
Qed.

(** Some ways to receive what was written: [h] knows the program. *)
Lemma frame_roundtrip h p rest :
  ps_stream_num p = ps_stream_num ps -> knows p h -> idle h ->
  exists h',
    receive (Z.to_nat (frame_count (f_length f))) h
      (frame_packets (frame_PID f) (frame_stream_id f ss) (f_pts f) (ss_continuity_counter ss) data
       ++ rest) = Some (h', data) /\
    knows p h' /\ idle h' /\ d_pts h' = uwrap 33 (f_pts f) / 90 /\
    d_pes_pts h' = uwrap 33 (f_pts f) / 90 /\ d_program_no h' = 0 /\
    d_stream_no h' = f_stream_number f.
Proof using Hlen Hpi Hpn Hsn Htype Hchunks.
  intros Hn Hk Hi. destruct Hpi as (_ & _ & _ & Hnum). unfold MAX_STREAM_NUM in *.
  rewrite frame_PID_value by lia.
  assert (zlen data = f_length f) as <- by (apply zlen_take; lia).
  apply frame_received; [done..|lia|apply frame_stream_id_range; (done || lia)| |done].
  assert (zlen data = f_length f) as -> by (apply zlen_take; lia). lia.
Qed.
End RoundTrip.

Definition demo_handle : TDemux :=
  mkDemux (mkProgramInfo 1 0 [mkProgramSpec 2 0 0xF001 0
    [mkStreamSpec 0x1b 0 0x100 0; mkStreamSpec 0x0f 0 0x101 0; mkStreamSpec 0 0 0 0;
     mkStreamSpec 0 0 0 0]])
    0 0 0 0 0 0 None 0 None 0 0 0 0.

Definition demo_spec : TsProgramSpec :=
  mkProgramSpec 2 0 0xF001 0
    [mkStreamSpec 0x1b 0 0x100 0; mkStreamSpec 0x0f 0 0x101 0; mkStreamSpec 0 0 0 0;
     mkStreamSpec 0 0 0 0].

Definition demo_chunk : buf := [0; 0; 1; 0xE0; 1; 2; 3; 4; 5] ++ replicate 40 6.

(** Case analysis on a stream number of the witnesses. *)
Ltac two_streams :=
  let k := fresh "k" in let Hk := fresh "Hk" in
  intros k Hk; simpl in Hk;
  let C := fresh "C" in
  assert (k = 0 \/ k = 1) as C by lia;
  destruct C as [-> | ->]; eexists; split; reflexivity.

(** C1: What [lts_ts_stream] writes for a key frame of an audio or video stream, for a
    description with one program, numbered 0, into a buffer large enough, a receiver that
    knows nothing of the stream and calls [lts_ts_demux] once per packet takes apart again:
    it learns the streams of the program with their types and PIDs, gets the frame's
    data whole and in order, its stream number, and its time stamp modulo 2^33 in
    milliseconds, and is ready for the next frame.  This holds for frames none of whose
    packets after the first begins with bytes that read as a PES header: the demultiplexer does
    not look at the payload unit start indicator, and loses the bytes of such a packet. *)
Theorem ts_roundtrip_key_frame f fd pi ps ss dest maxlen h :
  f_frame f = Some fd -> 0 < f_length f <= zlen fd -> one_program pi ps ->
  f_program_number f = 0 -> 0 <= f_stream_number f < ps_stream_num ps ->
  aget (ps_stream ps) (f_stream_number f) = Some ss ->
  lts_is_video (ss_type ss) || lts_is_audio (ss_type ss) = true ->
  188 * ts_output_count f <= maxlen /\ 188 * ts_output_count f <= zlen dest ->
  no_false_header (take (Z.to_nat (f_length f)) fd) ->
  truthy (f_is_key f) = true -> fresh h ->
  exists pi' out h' p',
    lts_ts_stream (Some f) (Some dest) maxlen (Some pi)
    = Some (188 * ts_output_count f, Some pi', Some out) /\
    receive (Z.to_nat (ts_output_count f)) h out = Some (h', take (Z.to_nat (f_length f)) fd) /\
    reads_as ps p' /\ knows p' h' /\ idle h' /\
    d_pts h' = uwrap 33 (f_pts f) / 90 /\ d_pes_pts h' = uwrap 33 (f_pts f) / 90 /\
    d_stream_no h' = f_stream_number f.
Proof.
  intros Hfd Hlen Hpi Hpn Hsn Hss Ht [Hr1 Hr2] Hch Hkey Hfresh.
  destruct (ts_stream_layout f fd pi ps ss Hfd Hlen Hpi (get_stream_one f pi ps ss Hpi Hpn Hss)
              maxlen dest Hr1 Hr2) as (pi' & _ & ->).
  unfold ts_output, ts_output_count. rewrite Hkey. rewrite <- app_assoc.
  set (F := frame_packets _ _ _ _ _).
  destruct (rest_count_spec (f_length f)) as [Hrc _]; [lia|].
  replace (Z.to_nat (tables_count true + frame_count (f_length f)))
    with (2 + Z.to_nat (frame_count (f_length f)))%nat by (unfold tables_count, frame_count; lia).
  destruct (tables_received h ps (pi_pat_pmt_counter pi) pi
              (F ++ drop (Z.to_nat (188 * (tables_count true + frame_count (f_length f)))) dest)
              (Z.to_nat (frame_count (f_length f))) Hfresh Hpi) as (h1 & p' & E & Hr & Hk & Hi).
  destruct (frame_roundtrip f fd pi ps ss Hlen Hpi Hpn Hsn Ht Hch h1 p'
              (drop (Z.to_nat (188 * (tables_count true + frame_count (f_length f)))) dest))
    as (h2 & E2 & Hk2 & Hi2 & Hpts & Hpes & _ & Hs2); [apply Hr|done..|].
  eexists _, _, h2, p'. split; [done|]. rewrite E. by split_and!.
Qed.

Lemma ts_roundtrip_key_frame_witness :
  exists pi' out h' p',
    lts_ts_stream (Some demo_frame) (Some (replicate 1000 0xAA)) 1000 (Some demo_info)
    = Some (940, Some pi', Some out) /\
    receive 5 demux0 out = Some (h', replicate 400 0x11) /\
    reads_as demo_program p' /\ knows p' h' /\ idle h' /\
    d_pts h' = uwrap 33 8100000000 / 90 /\ d_pes_pts h' = uwrap 33 8100000000 / 90 /\
    d_stream_no h' = 0.
Proof.
  apply (ts_roundtrip_key_frame demo_frame (replicate 400 0x11) demo_info demo_program
           (demo_stream STREAM_TYPE_VIDEO_H264 0 14) (replicate 1000 0xAA) 1000 demux0);
    try reflexivity; try (split; vm_compute; (discriminate || reflexivity)).
  - repeat split; try reflexivity; vm_compute; discriminate.
  - apply no_zero_no_header, Forall_take, Forall_replicate. discriminate.
  - split; [split; reflexivity|]. eexists. split; reflexivity.
Defined.

(** A frame that is not a key frame, multiplexed by [lts_ts_stream], is taken apart by
    a receiver that has seen the tables before: so a receiver follows a stream frame by
    frame. *)
Theorem ts_roundtrip_next_frame f fd pi ps ss dest maxlen h p :
  f_frame f = Some fd -> 0 < f_length f <= zlen fd -> one_program pi ps ->
  f_program_number f = 0 -> 0 <= f_stream_number f < ps_stream_num ps ->
  aget (ps_stream ps) (f_stream_number f) = Some ss ->
  lts_is_video (ss_type ss) || lts_is_audio (ss_type ss) = true ->
  188 * ts_output_count f <= maxlen /\ 188 * ts_output_count f <= zlen dest ->
  no_false_header (take (Z.to_nat (f_length f)) fd) ->
  truthy (f_is_key f) = false -> knows p h -> idle h -> ps_stream_num p = ps_stream_num ps ->
  exists pi' out h',
    lts_ts_stream (Some f) (Some dest) maxlen (Some pi)
    = Some (188 * ts_output_count f, Some pi', Some out) /\
    receive (Z.to_nat (ts_output_count f)) h out = Some (h', take (Z.to_nat (f_length f)) fd) /\
    knows p h' /\ idle h' /\ d_pts h' = uwrap 33 (f_pts f) / 90 /\
    d_pes_pts h' = uwrap 33 (f_pts f) / 90 /\ d_stream_no h' = f_stream_number f.
Proof.
  intros Hfd Hlen Hpi Hpn Hsn Hss Ht [Hr1 Hr2] Hch Hkey Hk Hi Hnum.
  destruct (ts_stream_layout f fd pi ps ss Hfd Hlen Hpi (get_stream_one f pi ps ss Hpi Hpn Hss)
              maxlen dest Hr1 Hr2) as (pi' & _ & ->).
  unfold ts_output, ts_output_count. rewrite Hkey.
  destruct (frame_roundtrip f fd pi ps ss Hlen Hpi Hpn Hsn Ht Hch h p
              (drop (Z.to_nat (188 * (tables_count false + frame_count (f_length f)))) dest))
    as (h2 & E2 & Hk2 & Hi2 & Hpts & Hpes & _ & Hs2); [done..|].
  eexists _, _, h2. split; [done|]. by split_and!.
Qed.

Definition demo_audio : TEsFrame :=
  mkFrame 0 1 (Some (replicate 100 0x22)) 100 0 90000 0 false.

Lemma ts_roundtrip_next_frame_witness :
  exists pi' out h',
    lts_ts_stream (Some demo_audio) (Some (replicate 188 0)) 188 (Some demo_info)
    = Some (188, Some pi', Some out) /\
    receive 1 demo_handle out = Some (h', replicate 100 0x22) /\
    knows demo_spec h' /\ idle h' /\ d_pts h' = uwrap 33 90000 / 90 /\
    d_pes_pts h' = uwrap 33 90000 / 90 /\ d_stream_no h' = 1.
Proof.
  apply (ts_roundtrip_next_frame demo_audio (replicate 100 0x22) demo_info demo_program
           (demo_stream STREAM_TYPE_AUDIO_AAC 0 0) (replicate 188 0) 188 demo_handle demo_spec);
    try reflexivity; try (split; vm_compute; (discriminate || reflexivity)).
  - repeat split; try reflexivity; vm_compute; discriminate.
  - split; [reflexivity|]. split; [reflexivity|]. split; [reflexivity|].
    split; [split; vm_compute; discriminate|]. two_streams.
Defined.

(** The payload unit start indicator is not consulted: a packet from the middle
    of a frame whose bytes happen to read as the head of a PES header loses as
    many bytes as that header claims to have. *)
Theorem ts_false_header_loses p h cc c j rest hl :
  knows p h -> idle h -> 0 <= j < ps_stream_num p -> bytes (c ++ rest) -> 14 <= zlen c <= 182 ->
  get_pes_head_len c (zlen c) = Some hl -> hl <= zlen c ->
  let b := plain_packet false (0x100 + j) cc c ++ rest in
  exists h', lts_ts_demux (Some h) (Some b) (zlen b) = Some (188, Some h') /\
    es_data h' b = drop (Z.to_nat hl) c.
Proof.
  intros Hk Hi Hj Hb Hc Hf Hl b. pose proof (zlen_nonneg rest).
  assert (zlen (c ++ rest) = zlen c + zlen rest) as El by apply zlen_app.
  destruct (get_pes_head_len_safe (c ++ rest) (zlen c) Hb ltac:(lia)) as (r & E & Hr).
  rewrite head_len_app, Hf in E. injection E as <-.
  destruct (parse_header_in_bounds (c ++ rest) (zlen c) false true false Hb ltac:(lia) ltac:(lia))
    as (r & o & E & _).
  assert (r = hl) as ->.
  { revert E. unfold lts_pes_parse_header. rewrite head_len_app, Hf.
    destruct (Z.leb_spec hl 0); [intros [= <- _]; lia|].
    repeat case_match; intros [= <- _] || intros; congruence. }
  destruct (rest_packet_parsed p h cc c j rest hl o Hk Hi Hj ltac:(lia) E ltac:(lia))
    as (h' & E' & R). exists h'. split; [done|]. apply R.
Qed.

Lemma ts_false_header_loses_witness :
  let b := plain_packet false (0x100 + 0) 5 demo_chunk ++ [] in
  exists h', lts_ts_demux (Some demo_handle) (Some b) (zlen b) = Some (188, Some h') /\
    es_data h' b = drop 14 demo_chunk.
Proof.
  apply (ts_false_header_loses demo_spec demo_handle 5 demo_chunk 0 [] 14).
  - split; [reflexivity|]. split; [reflexivity|]. split; [reflexivity|].
    split; [split; vm_compute; discriminate|]. two_streams.
  - split; reflexivity.
  - split; [vm_compute; discriminate|reflexivity].
  - apply bytes_check. vm_compute. reflexivity.
  - split; vm_compute; discriminate.
  - reflexivity.
  - vm_compute. discriminate.
Defined.
