(* ===== verification/PsMux.v ===== *)
(** The program stream multiplexer: the model of src/file/libmpeg/psmux.c. *)

From stdpp Require Import base list option strings.
From S2P Require Import Prelude CMem TypeDefs Pes.

Local Open Scope Z_scope.
Open Scope c_scope.

(** ** Default headers *)

Record default_headers := mkDefaults {
  g_pack_header : buf;
  g_sys_header : buf;
  g_sys_streams : buf;
  g_ps_map : buf
}.

(** Several assignments to the members of one structure, in order: single bytes
    of an array member, and bit-fields. *)
Inductive assign := Byte (n : string) (k v : Z) | Field (n : string) (v : Z).

Fixpoint assign_all (b : buf) (p : Z) (s : struct) (l : list assign) : option buf :=
  match l with
  | [] => Some b
  | Byte n k v :: l => let* b := wr b (p + offsetof s n + k) v in assign_all b p s l
  | Field n v :: l => let* b := store b p s n v in assign_all b p s l
  end.

Definition zeroed (n : Z) : buf := replicate (Z.to_nat n) 0.

(** The globals after the first call; nothing else writes to them, so that calling
    the initialisation once or at every call is the same. *)
Definition init_default_headers : option default_headers :=
  let* pack := assign_all (zeroed (sizeof ps_pack_header)) 0 ps_pack_header
    [Byte "start_code" 0 0; Byte "start_code" 1 0; Byte "start_code" 2 1;
     Byte "start_code" 3 0xBA; Byte "program_mux_rate" 0 0; Byte "program_mux_rate" 1 0;
     Byte "program_mux_rate" 2 0x03; Field "pack_stuffing_length" 0xF8] in
  let* sys := assign_all (zeroed (sizeof ps_system_header)) 0 ps_system_header
    [Byte "start_code" 0 0; Byte "start_code" 1 0; Byte "start_code" 2 1;
     Byte "start_code" 3 0xBB; Byte "header_length" 0 0; Byte "header_length" 1 12;
     Byte "rate_bound" 0 0x80; Byte "rate_bound" 1 0x00; Byte "rate_bound" 2 0x01;
     Field "audio_bound" 1; Field "system_audio_lock_flag" 1;
     Field "system_video_lock_flag" 1; Field "marker_bit" 1; Field "video_bound" 1;
     Field "reserved_byte" 0xFF] in
  let* streams := assign_all (zeroed (2 * sizeof ps_system_header_stream_table)) 0
    ps_system_header_stream_table
    [Field "stream_id" 0xB8; Field "reserved" 3; Field "P_STD_buffer_bound_scale" 0;
     Field "P_STD_buffer_size_bound_high5" 0x00; Field "P_STD_buffer_size_bound_low8" 0x40] in
  let* streams := assign_all streams (sizeof ps_system_header_stream_table)
    ps_system_header_stream_table
    [Field "stream_id" 0xB9; Field "reserved" 3; Field "P_STD_buffer_bound_scale" 1;
     Field "P_STD_buffer_size_bound_high5" 0x02; Field "P_STD_buffer_size_bound_low8" 0x00] in
  let* map := assign_all (zeroed (sizeof ps_map)) 0 ps_map
    [Byte "start_code" 0 0; Byte "start_code" 1 0; Byte "start_code" 2 1;
     Byte "start_code" 3 0xBC; Field "reserved1" 3; Field "current_next_indicator" 1;
     Field "marker_bit" 1; Field "reserved2" 127] in
  Some (mkDefaults pack sys streams map).

(** ** Headers

    [dest] is the window the function writes to; the result is the returned length
    and the window. *)

Definition set_pack_header (g : default_headers) (pts : Z) (dest : buf) (maxlen mux_rate : Z)
  : option (Z * buf) :=
  let hdrlen := sizeof ps_pack_header in
  if maxlen <? hdrlen then Some (-1, dest) else
  let* b := wrn dest 0 (g_pack_header g) in
  let scr := offsetof ps_pack_header "scr" in
  let* b := wr b scr (Z.lor (Z.lor (Z.lor 0x40
                (Z.shiftl (Z.land (u8 (Z.shiftr pts 30)) 0x07) 3)) 0x04)
                (Z.land (u8 (Z.shiftr pts 28)) 0x03)) in
  let* b := wr b (scr + 1) (u8 (Z.land (Z.shiftr pts 20) 0xff)) in
  let* b := wr b (scr + 2) (Z.lor (Z.lor
                (Z.shiftl (Z.land (u8 (Z.shiftr pts 15)) 0x1f) 3) 0x04)
                (Z.land (u8 (Z.shiftr pts 13)) 0x03)) in
  let* b := wr b (scr + 3) (u8 (Z.land (Z.shiftr pts 5) 0xff)) in
  let* b := wr b (scr + 4) (Z.lor (Z.shiftl (Z.land (u8 pts) 0x1f) 3) 0x04) in
  let* b := wr b (scr + 5) 1 in
  let rate := offsetof ps_pack_header "program_mux_rate" in
  let* b := wr b rate (Z.land (Z.shiftr mux_rate 14) 0xff) in
  let* b := wr b (rate + 1) (Z.land (Z.shiftr mux_rate 6) 0xff) in
  let* b := wr b (rate + 2) (Z.lor (Z.land (Z.shiftl mux_rate 2) 0xfc) 0x03) in
  Some (hdrlen, b).

(** The numbers of audio and of video streams. *)
Fixpoint count_loop (n : nat) (i : Z) (spec : TsProgramSpec) (anum vnum : Z)
  : option (Z * Z) :=
  match n with
  | O => Some (anum, vnum)
  | S n =>
      let* ss := aget (ps_stream spec) i in
      if lts_is_video (ss_type ss) then count_loop n (i + 1) spec anum (vnum + 1)
      else if lts_is_audio (ss_type ss) then count_loop n (i + 1) spec (anum + 1) vnum
      else count_loop n (i + 1) spec anum vnum
  end.

Definition set_sys_header (g : default_headers) (spec : TsProgramSpec) (dest : buf)
    (maxlen rate_bound : Z) : option (Z * buf) :=
  let hdrlen := sizeof ps_system_header + 2 * sizeof ps_system_header_stream_table in
  if maxlen <? hdrlen then Some (-1, dest) else
  let* b := wrn dest 0 (g_sys_header g) in
  let* b := wrn b (sizeof ps_system_header) (g_sys_streams g) in
  let* (anum, vnum) := count_loop (Z.to_nat (ps_stream_num spec)) 0 spec 0 0 in
  let* b := store b 0 ps_system_header "audio_bound" anum in
  let* b := store b 0 ps_system_header "video_bound" vnum in
  let rate := offsetof ps_system_header "rate_bound" in
  let* b := wr b rate (Z.lor (Z.land (Z.shiftr rate_bound 15) 0xff) 0x80) in
  let* b := wr b (rate + 1) (Z.land (Z.shiftr rate_bound 7) 0xff) in
  let* b := wr b (rate + 2) (Z.lor (Z.land (Z.shiftl rate_bound 1) 0xfe) 0x01) in
  Some (hdrlen, b).

(** The entries of the stream map; the two length bytes are those of the first
    entry at every iteration, as in the source. *)
Fixpoint psm_loop (n : nat) (i : Z) (spec : TsProgramSpec) (b : buf) (es : Z) : option buf :=
  match n with
  | O => Some b
  | S n =>
      let p := es + i * sizeof ps_map_es in
      let* ss := aget (ps_stream spec) i in
      let* b := store b p ps_map_es "stream_type" (ss_type ss) in
      let* b := store b p ps_map_es "es_id" (lts_pes_stream_id (ss_type ss) 0 i) in
      let* b := wr b (es + offsetof ps_map_es "es_info_length") 0 in
      let* b := wr b (es + offsetof ps_map_es "es_info_length" + 1) 0 in
      psm_loop n (i + 1) spec b es
  end.

Definition set_psm (g : default_headers) (spec : TsProgramSpec) (dest : buf) (maxlen : Z)
  : option (Z * buf) :=
  let es_num := ps_stream_num spec in
  let es_map_length := sizeof ps_map_es * es_num in
  let header_length := 6 + es_map_length + 4 in
  let hdrlen := sizeof ps_map + es_map_length + 4 in
  let es := sizeof ps_map in
  let crc := es + es_num * sizeof ps_map_es in
  if maxlen <? hdrlen then Some (-1, dest) else
  let* b := wrn dest 0 (g_ps_map g) in
  let* b := wr b (offsetof ps_map "es_map_length") (s8 (Z.shiftr es_map_length 8)) in
  let* b := wr b (offsetof ps_map "es_map_length" + 1) (s8 es_map_length) in
  let* b := wr b (offsetof ps_map "header_length") (s8 (Z.shiftr header_length 8)) in
  let* b := wr b (offsetof ps_map "header_length" + 1) (s8 header_length) in
  let* b := memset b es 0 es_map_length in
  let* b := psm_loop (Z.to_nat es_num) 0 spec b es in
  let* b := wr b crc 0 in
  let* b := wr b (crc + 1) 0 in
  let* b := wr b (crc + 2) 0 in
  let* b := wr b (crc + 3) 0 in
  Some (hdrlen, b).

(** ** The entry point *)

(** A call of [segcb], if it is set: the bytes it is given are recorded. *)
Definition segment (cb : bool) (b : buf) (off len : Z) (log : list buf) : option (list buf) :=
  if cb then let* s := rdn b off len in Some (log ++ [s]) else Some log.

(** One PES per iteration; [None] as first component of the result is the early
    return of -1. *)
Fixpoint ps_pes_loop (n : nat) (i pes_num PES_LEN flen stream_id pts : Z) (cb : bool)
    (fdata : buf) (maxlen ps_len : Z) (dest : buf) (log : list buf)
  : option (option Z * buf * list buf) :=
  match n with
  | O => Some (Some ps_len, dest, log)
  | S n =>
      let es_len := if i =? pes_num - 1 then flen - PES_LEN * i else PES_LEN in
      let* (ret, dest) := at_off dest ps_len
        (fun w => lts_pes_make_header stream_id pts es_len w (maxlen - ps_len)) in
      if ret <? 0 then Some (None, dest, log) else
      let* data := rdn fdata (PES_LEN * i) es_len in
      let* dest := wrn dest (ps_len + ret) data in
      let* log := segment cb dest ps_len (es_len + ret) log in
      ps_pes_loop n (i + 1) pes_num PES_LEN flen stream_id pts cb fdata maxlen
        (ps_len + (es_len + ret)) dest log
  end.

(** [frame->ps_pes_length] brought into its range. *)
Definition pes_len_of (l : Z) : Z :=
  if l <? MIN_PES_LENGTH then MIN_PES_LENGTH
  else if MAX_PES_LENGTH <? l then MAX_PES_LENGTH else l.

(** The system header and the stream map of a key frame. *)
Definition ps_key_headers (g : default_headers) (spec : TsProgramSpec) (cb : bool)
    (maxlen ps_len : Z) (dest : buf) (log : list buf) : option (option Z * buf * list buf) :=
  let* (ret, dest) := at_off dest ps_len
    (fun w => set_sys_header g spec w (maxlen - ps_len) (ps_mux_rate spec)) in
  if ret <? 0 then Some (None, dest, log) else
  let* log := segment cb dest ps_len ret log in
  let ps_len := ps_len + ret in
  let* (ret, dest) := at_off dest ps_len (fun w => set_psm g spec w (maxlen - ps_len)) in
  if ret <? 0 then Some (None, dest, log) else
  let* log := segment cb dest ps_len ret log in
  Some (Some (ps_len + ret), dest, log).

(** [pi] is dereferenced before it is checked; the other null arguments, and a
    frame without data, are refused.  The result is the returned length, the
    destination and the segments handed to the callback. *)
Definition lts_ps_stream (frame : option TEsFrame) (dest : option buf) (maxlen : Z)
    (pi : option TsProgramInfo) : option (Z * option buf * list buf) :=
  let* info := pi in
  let* spec := aget (pi_prog info) 0 in
  let mux_rate := ps_mux_rate spec in
  let* g := init_default_headers in
  match frame, dest with
  | Some f, Some d =>
      if maxlen =? 0 then Some (-1, dest, []) else
      match f_frame f with
      | None => Some (-1, dest, [])
      | Some fdata =>
          if f_length f =? 0 then Some (-1, dest, []) else
          if negb (pi_program_num info =? 1) then Some (-1, dest, []) else
          let* (ret, d) := set_pack_header g (f_pts f) d maxlen mux_rate in
          if ret <? 0 then Some (-1, Some d, []) else
          let* log := segment (f_segcb f) d 0 ret [] in
          let* (pl, d, log) :=
            (if truthy (f_is_key f) then ps_key_headers g spec (f_segcb f) maxlen ret d log
             else Some (Some ret, d, log)) in
          match pl with
          | None => Some (-1, Some d, log)
          | Some ps_len =>
              let flen := f_length f in
              let PES_LEN := pes_len_of (f_ps_pes_length f) in
              let* ss := aget (ps_stream spec) (f_stream_number f) in
              let stream_id := lts_pes_stream_id (ss_type ss) 0 (f_stream_number f) in
              let pes_num := (flen + PES_LEN - 1) ÷ PES_LEN in
              let* (r, d, log) :=
                ps_pes_loop (Z.to_nat pes_num) 0 pes_num PES_LEN flen stream_id (f_pts f)
                  (f_segcb f) fdata maxlen ps_len d log in
              match r with
              | None => Some (-1, Some d, log)
              | Some ps_len => Some (ps_len, Some d, log)
              end
          end
      end
  | _, _ => Some (-1, dest, [])
  end.
