(* ===== verification/PsMuxSpec.v ===== *)
(** What the program stream multiplexer produces: the bytes of each header, the
    PES packets a frame is cut into, and the proofs that src/file/libmpeg/psmux.c
    (modelled in PsMux) writes them. *)

From stdpp Require Import base list option strings.
From S2P Require Import Prelude CMem TypeDefs Pes PsMux.

Local Open Scope Z_scope.
Open Scope c_scope.

(** ** The bytes *)

Definition scr_bytes (pts : Z) : buf :=
  [u8 (Z.lor (Z.lor (Z.lor 0x40 (Z.shiftl (Z.land (u8 (Z.shiftr pts 30)) 7) 3)) 4)
         (Z.land (u8 (Z.shiftr pts 28)) 3));
   u8 (u8 (Z.land (Z.shiftr pts 20) 255));
   u8 (Z.lor (Z.lor (Z.shiftl (Z.land (u8 (Z.shiftr pts 15)) 31) 3) 4)
         (Z.land (u8 (Z.shiftr pts 13)) 3));
   u8 (u8 (Z.land (Z.shiftr pts 5) 255));
   u8 (Z.lor (Z.shiftl (Z.land (u8 pts) 31) 3) 4); 1].

Definition pack_bytes (pts rate : Z) : buf :=
  [0; 0; 1; 0xBA] ++ scr_bytes pts
  ++ [u8 (Z.land (Z.shiftr rate 14) 255); u8 (Z.land (Z.shiftr rate 6) 255);
      u8 (Z.lor (Z.land (Z.shiftl rate 2) 0xfc) 3); 0xF8].

Fixpoint count_of (f : Z -> bool) (l : list TsStreamSpec) : Z :=
  match l with
  | [] => 0
  | ss :: l => (if f (ss_type ss) then 1 else 0) + count_of f l
  end.

(** An audio stream is one that is not a video stream. *)
Definition audio_only (t : Z) : bool := negb (lts_is_video t) && lts_is_audio t.

Definition streams_of (spec : TsProgramSpec) : list TsStreamSpec :=
  take (Z.to_nat (ps_stream_num spec)) (ps_stream spec).

Definition sys_bytes (spec : TsProgramSpec) (rate : Z) : buf :=
  [0; 0; 1; 0xBB; 0; 12; u8 (Z.lor (Z.land (Z.shiftr rate 15) 255) 0x80);
   u8 (Z.land (Z.shiftr rate 7) 255); u8 (Z.lor (Z.land (Z.shiftl rate 1) 0xfe) 1);
   4 * count_of audio_only (streams_of spec); 0xE0 + count_of lts_is_video (streams_of spec); 0xFF;
   0xB8; 0xC0; 0x40; 0xB9; 0xE2; 0].

Definition psm_entry (i : Z) (ss : TsStreamSpec) : buf :=
  [u8 (ss_type ss); lts_pes_stream_id (ss_type ss) 0 i; 0; 0].

Definition psm_entries (i : nat) (l : list TsStreamSpec) : buf :=
  concat (imap (fun k ss => psm_entry (Z.of_nat (i + k)) ss) l).

Definition psm_bytes (spec : TsProgramSpec) : buf :=
  [0; 0; 1; 0xBC; 0; 10 + 4 * ps_stream_num spec; 0xE0; 0xFF; 0; 0; 0; 4 * ps_stream_num spec]
  ++ psm_entries 0 (streams_of spec) ++ [0; 0; 0; 0].

(** The segments of a call, one per header and per PES packet. *)
Definition pes_packet (sid pts : Z) (data : buf) : buf := pes_header sid pts (zlen data) ++ data.

Fixpoint pes_packets (n : nat) (L : nat) (sid pts : Z) (data : buf) : list buf :=
  match n with
  | O => []
  | S n => pes_packet sid pts (take L data) :: pes_packets n L sid pts (drop L data)
  end.

Definition pes_count (len L : Z) : Z := (len + L - 1) / L.

Definition ps_segments (f : TEsFrame) (spec : TsProgramSpec) (sid : Z) (data : buf) : list buf :=
  let L := pes_len_of (f_ps_pes_length f) in
  [pack_bytes (f_pts f) (ps_mux_rate spec)]
  ++ (if truthy (f_is_key f) then [sys_bytes spec (ps_mux_rate spec); psm_bytes spec] else [])
  ++ pes_packets (Z.to_nat (pes_count (zlen data) L)) (Z.to_nat L) sid (f_pts f) data.

(** The arrays of the specification have their declared sizes. *)
Definition wf_spec (spec : TsProgramSpec) : Prop :=
  zlen (ps_stream spec) = MAX_STREAM_NUM /\ 0 <= ps_stream_num spec <= MAX_STREAM_NUM.

(** ** Headers *)

Definition defaults : default_headers :=
  mkDefaults [0; 0; 1; 186; 0; 0; 0; 0; 0; 0; 0; 0; 3; 248]
    [0; 0; 1; 187; 0; 12; 128; 0; 1; 4; 225; 255]
    [184; 192; 64; 185; 226; 0] [0; 0; 1; 188; 0; 0; 224; 255; 0; 0; 0; 0].

Lemma init_defaults : init_default_headers = Some defaults.
Proof. vm_compute. reflexivity. Qed.

Ltac offsets_eval :=
  repeat match goal with
  | |- context [offsetof ?s ?n] =>
      let k := eval vm_compute in (offsetof s n) in change (offsetof s n) with k
  | |- context [sizeof ?s] =>
      let k := eval vm_compute in (sizeof s) in change (sizeof s) with k
  end.

Lemma pack_layout pts rate dest maxlen :
  14 <= maxlen -> 14 <= zlen dest ->
  set_pack_header defaults pts dest maxlen rate = Some (14, pack_bytes pts rate ++ drop 14 dest).
Proof.
  intros Hm Hd. unfold set_pack_header. offsets_eval. rewrite (proj2 (Z.ltb_ge _ _)) by lia.
  clear Hm. split_buf dest 14. clear Hd. unfold defaults. cbn [g_pack_header]. lhs_eval. reflexivity.
Qed.

Lemma pack_short g pts rate dest maxlen :
  maxlen < 14 -> set_pack_header g pts dest maxlen rate = Some (-1, dest).
Proof. intros. unfold set_pack_header. offsets_eval. by rewrite (proj2 (Z.ltb_lt _ _)). Qed.

Lemma aget_drop {A} (l : list A) i x rest :
  0 <= i -> drop (Z.to_nat i) l = x :: rest -> aget l i = Some x.
Proof.
  intros H E. unfold aget. rewrite (proj2 (Z.leb_le _ _)) by lia.
  assert (drop (Z.to_nat i) l !! 0%nat = Some x) as Hx by by rewrite E.
  rewrite lookup_drop in Hx. by rewrite Nat.add_0_r in Hx.
Qed.

Lemma drop_cons_next {A} (l : list A) i x rest :
  0 <= i -> drop (Z.to_nat i) l = x :: rest -> drop (Z.to_nat (i + 1)) l = rest.
Proof.
  intros H E. replace (Z.to_nat (i + 1)) with (Z.to_nat i + 1)%nat by lia.
  rewrite <- drop_drop, E. done.
Qed.

Lemma count_loop_spec l : forall i spec a v post,
  0 <= i -> drop (Z.to_nat i) (ps_stream spec) = l ++ post ->
  count_loop (length l) i spec a v
  = Some (a + count_of audio_only l, v + count_of lts_is_video l).
Proof.
  induction l as [|s l IH]; intros i spec a v post Hi E; cbn [count_loop length].
  { change (Some (a, v) = Some (a + 0, v + 0)). do 2 f_equal; lia. }
  rewrite (aget_drop _ _ s (l ++ post)) by done.
  pose proof (drop_cons_next _ _ _ _ Hi E) as E'. cbn [count_of]. unfold audio_only at 1.
  destruct (lts_is_video (ss_type s)), (lts_is_audio (ss_type s)); simpl negb; simpl andb;
    rewrite (IH _ _ _ _ post) by (done || lia); do 2 f_equal; lia.
Qed.

Lemma count_range f l : 0 <= count_of f l <= zlen l.
Proof.
  induction l as [|s l IH]; cbn [count_of]; [done|]. rewrite zlen_cons. case_match; lia.
Qed.

Lemma sys_layout spec rate dest maxlen :
  wf_spec spec -> 18 <= maxlen -> 18 <= zlen dest ->
  set_sys_header defaults spec dest maxlen rate
  = Some (18, sys_bytes spec rate ++ drop 18 dest).
Proof.
  intros [Hs Hn] Hm Hd. unfold MAX_STREAM_NUM in *. unfold set_sys_header, sys_bytes.
  offsets_eval. rewrite (proj2 (Z.ltb_ge _ _)) by lia.
  assert (length (streams_of spec) = Z.to_nat (ps_stream_num spec)) as El
    by (unfold streams_of, zlen in *; rewrite length_take; lia).
  pose proof (count_loop_spec (streams_of spec) 0 spec 0 0
                (drop (Z.to_nat (ps_stream_num spec)) (ps_stream spec)) ltac:(lia)) as Hc.
  rewrite El in Hc. rewrite Hc by (unfold streams_of; by rewrite take_drop).
  pose proof (count_range audio_only (streams_of spec)) as Ha.
  pose proof (count_range lts_is_video (streams_of spec)) as Hv.
  assert (zlen (streams_of spec) <= 4) by (unfold zlen; lia).
  rewrite !Z.add_0_l. set (a := count_of audio_only _) in *. set (v := count_of lts_is_video _) in *.
  assert (u8 (bf_put 2 6 4 a) = 4 * a) as Ea.
  { apply Z.eqb_eq. apply (forall_range (fun a => u8 (bf_put 2 6 4 a) =? 4 * a) 0 5);
      [reflexivity|lia]. }
  assert (u8 (bf_put 0 5 225 v) = 0xE0 + v) as Ev.
  { apply Z.eqb_eq. apply (forall_range (fun v => u8 (bf_put 0 5 225 v) =? 0xE0 + v) 0 5);
      [reflexivity|lia]. }
  clearbody a v. clear Hc El Hm. split_buf dest 18. clear Hd.
  unfold defaults. cbn [g_sys_header g_sys_streams]. lhs_eval. rewrite Ea, Ev. reflexivity.
Qed.

Lemma sys_short g spec rate dest maxlen :
  maxlen < 18 -> set_sys_header g spec dest maxlen rate = Some (-1, dest).
Proof. intros. unfold set_sys_header. offsets_eval. by rewrite (proj2 (Z.ltb_lt _ _)). Qed.

Lemma u8_pes_id t p i : u8 (lts_pes_stream_id t p i) = lts_pes_stream_id t p i.
Proof. unfold lts_pes_stream_id. repeat case_match; [apply uwrap_uwrap; lia..|done]. Qed.

Lemma psm_layout spec dest maxlen :
  wf_spec spec -> 16 + 4 * ps_stream_num spec <= maxlen -> 16 + 4 * ps_stream_num spec <= zlen dest ->
  set_psm defaults spec dest maxlen
  = Some (16 + 4 * ps_stream_num spec,
          psm_bytes spec ++ drop (Z.to_nat (16 + 4 * ps_stream_num spec)) dest).
Proof.
  intros [Hs Hn] Hm Hd. unfold MAX_STREAM_NUM in *. unfold set_psm, psm_bytes, streams_of.
  offsets_eval. rewrite (proj2 (Z.ltb_ge _ _)) by lia.
  destruct spec as [num key pmt rate strs]. cbn [ps_stream_num ps_stream] in *.
  split_buf strs 4. destruct strs; [|exfalso; rewrite !zlen_cons in Hs; pose proof (zlen_nonneg strs); lia].
  clear Hm Hs.
  assert (num = 0 \/ num = 1 \/ num = 2 \/ num = 3 \/ num = 4) as C by lia.
  destruct C as [-> | [-> | [-> | [-> | ->]]]];
    [split_buf dest 16 | split_buf dest 20 | split_buf dest 24 | split_buf dest 28 | split_buf dest 32];
    clear Hd; unfold defaults, memset; cbn [g_ps_map];
    (match goal with |- _ = ?r => let R := fresh "R" in set (R := r);
       zconst; unfold replicate; buf_eval; cbn [psm_loop]; offsets_eval; zconst;
       cbv beta iota delta [aget ps_stream]; buf_eval; whole_bytes; rewrite ?u8_pes_id; unfold R; clear R end);
    reflexivity.
Qed.

Lemma psm_short g spec dest maxlen :
  maxlen < 16 + 4 * ps_stream_num spec -> set_psm g spec dest maxlen = Some (-1, dest).
Proof.
  intros. unfold set_psm. offsets_eval. rewrite (proj2 (Z.ltb_lt _ _)) by lia. done.
Qed.

(** ** PES packets *)

Lemma zlen_pes_packet sid pts d : zlen (pes_packet sid pts d) = 19 + zlen d.
Proof. unfold pes_packet. by rewrite zlen_app, zlen_pes_header. Qed.

Lemma zlen_concat_pes_packets n L : forall sid pts d,
  zlen d <= Z.of_nat L * Z.of_nat n ->
  zlen (concat (pes_packets n L sid pts d)) = zlen d + 19 * Z.of_nat n.
Proof.
  induction n as [|n IH]; intros sid pts d Hd; cbn [pes_packets concat].
  { pose proof (zlen_nonneg d). rewrite zlen_nil. lia. }
  rewrite zlen_app, zlen_pes_packet, IH.
  - rewrite <- (take_drop L d) at 3. rewrite zlen_app. lia.
  - unfold zlen in *. rewrite length_drop. lia.
Qed.

Lemma segment_last cb pre p rest ps_len n log :
  zlen pre = ps_len -> zlen p = n ->
  segment cb (pre ++ p ++ rest) ps_len n log = Some (log ++ if cb then [p] else []).
Proof.
  intros <- <-. unfold segment. destruct cb; [by rewrite rdn_app|by rewrite app_nil_r].
Qed.

(** One PES packet is written at the end of what there is. *)
Lemma pes_packet_layout sid pts d a b off pre w maxlen ps_len :
  zlen a = off -> zlen pre = ps_len -> 0 <= maxlen - ps_len - (19 + zlen d) ->
  19 + zlen d <= zlen w ->
  (let* (ret, dest) := at_off (pre ++ w) ps_len
     (fun w => lts_pes_make_header sid pts (zlen d) w (maxlen - ps_len)) in
   let* data := rdn (a ++ d ++ b) off (zlen d) in
   let* dest := wrn dest (ps_len + ret) data in Some (ret, dest))
  = Some (19, pre ++ pes_packet sid pts d ++ drop (Z.to_nat (19 + zlen d)) w).
Proof.
  intros <- <- Hm Hw. pose proof (zlen_nonneg d). rewrite at_off_app.
  rewrite make_header_layout by lia. rewrite rdn_app. rewrite app_assoc.
  rewrite wrn_tail; cycle 1.
  { rewrite zlen_app, zlen_pes_header. done. }
  { change 19%nat with (Z.to_nat 19). rewrite zlen_drop; lia. }
  unfold pes_packet. rewrite drop_drop, <- !app_assoc. do 5 f_equal. f_equal. lia.
Qed.

Lemma ps_pes_loop_layout n : forall i num L flen sid pts cb a d b maxlen ps_len pre w log,
  i + Z.of_nat n = num -> 0 < L ->
  zlen d = flen - L * i /\ L * (Z.of_nat n - 1) < zlen d <= L * Z.of_nat n \/ n = O /\ d = [] ->
  n = O \/ zlen a = L * i -> zlen pre = ps_len ->
  ps_len + (zlen d + 19 * Z.of_nat n) <= maxlen -> zlen d + 19 * Z.of_nat n <= zlen w ->
  ps_pes_loop n i num L flen sid pts cb (a ++ d ++ b) maxlen ps_len (pre ++ w) log
  = Some (Some (ps_len + (zlen d + 19 * Z.of_nat n)),
          pre ++ concat (pes_packets n (Z.to_nat L) sid pts d)
          ++ drop (Z.to_nat (zlen d + 19 * Z.of_nat n)) w,
          log ++ if cb then pes_packets n (Z.to_nat L) sid pts d else []).
Proof.
  induction n as [|n IH]; intros i num L flen sid pts cb a d b maxlen ps_len pre w log
    Hi HL Hb Ha Hpre Hm Hw.
  { assert (d = []) as ->.
    { destruct Hb as [[_ Hb]|[_ ?]]; [|done]. destruct d; [done|].
      rewrite zlen_cons in Hb. pose proof (zlen_nonneg d). lia. }
    simpl. rewrite Z.add_0_r. destruct cb; by rewrite app_nil_r. }
  destruct Hb as [[Hd Hb]|[? _]]; [|done]. destruct Ha as [?|Ha]; [done|]. cbn [ps_pes_loop pes_packets concat].
  set (d1 := take (Z.to_nat L) d). set (d2 := drop (Z.to_nat L) d).
  assert (d = d1 ++ d2) as Ed by (symmetry; apply take_drop).
  assert (zlen d1 = Z.min L (zlen d)) as H1 by (unfold d1, zlen; rewrite length_take; lia).
  assert (zlen d = zlen d1 + zlen d2) as H2 by (rewrite Ed, zlen_app; done).
  assert ((if i =? num - 1 then flen - L * i else L) = zlen d1) as ->.
  { rewrite H1. destruct (Z.eqb_spec i (num - 1)); nia. }
  replace (a ++ d ++ b) with (a ++ d1 ++ d2 ++ b) by (rewrite Ed, <- app_assoc; done).
  pose proof (zlen_nonneg d2).
  pose proof (pes_packet_layout sid pts d1 a (d2 ++ b) (L * i) pre w maxlen ps_len Ha Hpre
                ltac:(lia) ltac:(lia)) as E.
  destruct (at_off (pre ++ w) ps_len _) as [[ret dest]|]; [|done].
  destruct (rdn _ (L * i) (zlen d1)) as [data|]; [|done].
  destruct (wrn dest (ps_len + ret) data) as [dest'|]; [|done].
  apply (inj Some), pair_equal_spec in E as [-> ->]. change (19 <? 0) with false. cbv iota.
  set (pk := pes_packet sid pts d1).
  assert (zlen pk = 19 + zlen d1) as Hpk by apply zlen_pes_packet.
  rewrite (segment_last cb pre pk) by (done || lia).
  rewrite (app_assoc a d1), (app_assoc pre pk).
  rewrite (IH (i + 1) num L flen).
  - rewrite drop_drop, <- !app_assoc. f_equal. f_equal; [f_equal; [f_equal; lia|]|].
    + do 3 f_equal. f_equal. lia.
    + f_equal. destruct cb; done.
  - lia.
  - done.
  - destruct n; [right|left].
    + split; [done|]. destruct d2; [done|]. rewrite zlen_cons in H2.
      pose proof (zlen_nonneg d2). nia.
    + split; [rewrite Z.mul_add_distr_l; lia|]. rewrite H1 in H2. nia.
  - destruct n; [by left|right]. rewrite zlen_app, Ha, H1. nia.
  - rewrite zlen_app. lia.
  - lia.
  - rewrite zlen_drop; lia.
Qed.

(** ** A whole call *)

Definition headers_len (f : TEsFrame) (spec : TsProgramSpec) : Z :=
  14 + if truthy (f_is_key f) then 34 + 4 * ps_stream_num spec else 0.

Definition frame_pes_count (f : TEsFrame) : Z :=
  pes_count (f_length f) (pes_len_of (f_ps_pes_length f)).

Definition ps_total (f : TEsFrame) (spec : TsProgramSpec) : Z :=
  headers_len f spec + (f_length f + 19 * frame_pes_count f).

Definition ps_sid (f : TEsFrame) (ss : TsStreamSpec) : Z :=
  lts_pes_stream_id (ss_type ss) 0 (f_stream_number f).

Lemma pes_len_of_range l : 1000 <= pes_len_of l <= 65000.
Proof. unfold pes_len_of, MIN_PES_LENGTH, MAX_PES_LENGTH. repeat case_match; lia. Qed.

Lemma pes_count_spec len L :
  0 < len -> 0 < L -> 0 < pes_count len L /\ L * (pes_count len L - 1) < len <= L * pes_count len L.
Proof.
  intros Hl HL. unfold pes_count. pose proof (Z.div_mod (len + L - 1) L ltac:(lia)).
  pose proof (Z.mod_pos_bound (len + L - 1) L HL). set (q := (len + L - 1) / L) in *.
  assert (0 < q) by nia. nia.
Qed.

Lemma psm_entries_cons i s l :
  psm_entries i (s :: l) = psm_entry (Z.of_nat i) s ++ psm_entries (S i) l.
Proof.
  unfold psm_entries. rewrite imap_cons. cbn [concat]. rewrite Nat.add_0_r. do 2 f_equal.
  apply imap_ext. intros k x _. simpl. do 2 f_equal. lia.
Qed.

Lemma zlen_psm_entries l : forall i, zlen (psm_entries i l) = 4 * zlen l.
Proof.
  induction l as [|s l IH]; intros i; [done|]. rewrite psm_entries_cons, zlen_app, zlen_cons, IH.
  change (zlen (psm_entry _ _)) with 4. lia.
Qed.

Lemma zlen_psm_bytes spec : wf_spec spec -> zlen (psm_bytes spec) = 16 + 4 * ps_stream_num spec.
Proof.
  intros [Hs Hn]. unfold psm_bytes, MAX_STREAM_NUM in *. rewrite !zlen_app, zlen_psm_entries.
  unfold streams_of. rewrite zlen_take by lia. rewrite !zlen_cons, zlen_nil. lia.
Qed.

Section Call.
Context (f : TEsFrame) (fd : buf) (spec : TsProgramSpec) (pi : TsProgramInfo) (ss : TsStreamSpec).
Hypothesis Hfd : f_frame f = Some fd.
Hypothesis Hlen : 0 < f_length f <= zlen fd.
Hypothesis Hpi : pi_program_num pi = 1 /\ aget (pi_prog pi) 0 = Some spec.
Hypothesis Hwf : wf_spec spec.
Hypothesis Hss : aget (ps_stream spec) (f_stream_number f) = Some ss.

Let cb := f_segcb f.
Let data := take (Z.to_nat (f_length f)) fd.
Let rate := ps_mux_rate spec.
Let key_segments := if truthy (f_is_key f) then [sys_bytes spec rate; psm_bytes spec] else [].
Let L := pes_len_of (f_ps_pes_length f).

Lemma key_headers_layout maxlen pre w log :
  zlen pre = 14 -> headers_len f spec <= maxlen -> headers_len f spec - 14 <= zlen w ->
  (if truthy (f_is_key f) then ps_key_headers defaults spec cb maxlen 14 (pre ++ w) log
   else Some (Some 14, pre ++ w, log))
  = Some (Some (headers_len f spec),
          (pre ++ concat key_segments) ++ drop (Z.to_nat (headers_len f spec - 14)) w,
          log ++ if cb then key_segments else []).
Proof using Hwf.
  intros Hp Hm Hw. unfold headers_len, key_segments in *.
  destruct (truthy (f_is_key f)); [|simpl; rewrite app_nil_r; destruct cb; by rewrite app_nil_r].
  destruct Hwf as [Hs Hn]. unfold MAX_STREAM_NUM in *. unfold ps_key_headers.
  pose proof (zlen_psm_bytes spec Hwf) as Hz.
  rewrite at_off_prefix by done. rewrite sys_layout by (done || lia).
  change (18 <? 0) with false. cbv iota.
  rewrite (segment_last cb pre (sys_bytes spec _)) by done.
  rewrite (app_assoc pre). rewrite at_off_prefix by (rewrite zlen_app, Hp; done).
  rewrite psm_layout by (done || (change 18%nat with (Z.to_nat 18); rewrite ?zlen_drop; lia)).
  rewrite (proj2 (Z.ltb_ge _ 0)) by lia.
  rewrite (segment_last cb (pre ++ _) (psm_bytes spec))
    by (rewrite ?zlen_app, ?Hp; done). cbn [concat]. rewrite app_nil_r.
  rewrite drop_drop, <- !app_assoc. f_equal. f_equal; [f_equal; [f_equal; lia|]|].
  - do 4 f_equal. lia.
  - by destruct cb.
Qed.

Let pre := pack_bytes (f_pts f) rate ++ concat key_segments.

Lemma zlen_pre : zlen pre = headers_len f spec.
Proof using Hwf.
  unfold pre, key_segments, headers_len, rate. rewrite zlen_app. change (zlen (pack_bytes _ _)) with 14.
  destruct (truthy (f_is_key f)); [|done]. cbn [concat].
  rewrite app_nil_r, zlen_app, zlen_psm_bytes by done. change (zlen (sys_bytes _ _)) with 18. lia.
Qed.

Lemma headers_len_pos : 14 <= headers_len f spec.
Proof using Hwf. destruct Hwf as [_ ?]. unfold headers_len. case_match; lia. Qed.

(** With room for the headers, a call comes down to the loop over the packets. *)
Lemma ps_stream_headers maxlen dest :
  headers_len f spec <= maxlen -> headers_len f spec <= zlen dest ->
  lts_ps_stream (Some f) (Some dest) maxlen (Some pi)
  = let* (r, d, log) :=
      ps_pes_loop (Z.to_nat (frame_pes_count f)) 0 (frame_pes_count f) L (f_length f)
        (ps_sid f ss) (f_pts f) cb fd maxlen (headers_len f spec)
        (pre ++ drop (Z.to_nat (headers_len f spec)) dest)
        ((if cb then [pack_bytes (f_pts f) rate] else []) ++ (if cb then key_segments else [])) in
    match r with
    | None => Some (-1, Some d, log)
    | Some ps_len => Some (ps_len, Some d, log)
    end.
Proof using Hfd Hlen Hpi Hwf Hss.
  intros Hm Hd. destruct (pes_len_of_range (f_ps_pes_length f)) as [HL0 HL1]. fold L in HL0, HL1.
  pose proof headers_len_pos as Hh.
  unfold lts_ps_stream. destruct Hpi as [-> ->]. rewrite init_defaults. cbv beta iota zeta.
  rewrite (proj2 (Z.eqb_neq maxlen 0)) by lia. rewrite Hfd.
  rewrite (proj2 (Z.eqb_neq (f_length f) 0)) by lia. change (negb (1 =? 1)) with false. cbv iota.
  rewrite pack_layout by lia. change (14 <? 0) with false. cbv iota.
  fold cb. set (pack := pack_bytes _ _).
  assert (segment cb (pack ++ drop 14 dest) 0 14 [] = Some (if cb then [pack] else [])) as ->
    by exact (segment_last cb [] pack (drop 14 dest) 0 14 [] eq_refl eq_refl).
  rewrite (key_headers_layout maxlen pack);
    [|done|lia|change 14%nat with (Z.to_nat 14); rewrite zlen_drop; lia].
  rewrite Hss. fold L. fold (ps_sid f ss). rewrite Z.quot_div_nonneg by lia.
  fold (pes_count (f_length f) L). fold (frame_pes_count f).
  rewrite drop_drop. replace (14 + Z.to_nat (headers_len f spec - 14))%nat
    with (Z.to_nat (headers_len f spec)) by lia. done.
Qed.

Lemma ps_stream_layout maxlen dest :
  ps_total f spec <= maxlen -> ps_total f spec <= zlen dest ->
  lts_ps_stream (Some f) (Some dest) maxlen (Some pi)
  = Some (ps_total f spec,
          Some (concat (ps_segments f spec (ps_sid f ss) data)
                ++ drop (Z.to_nat (ps_total f spec)) dest),
          if cb then ps_segments f spec (ps_sid f ss) data else []).
Proof using Hfd Hlen Hpi Hwf Hss.
  intros Hm Hd. destruct (pes_len_of_range (f_ps_pes_length f)) as [HL0 HL1]. fold L in HL0, HL1.
  destruct (pes_count_spec (f_length f) L) as [Hc0 Hc]; [lia..|]. pose proof headers_len_pos.
  change (pes_count (f_length f) L) with (frame_pes_count f) in *. unfold ps_total in *.
  rewrite ps_stream_headers by lia. set (num := frame_pes_count f) in *.
  assert (zlen data = f_length f) as Hdl by (apply zlen_take; lia).
  rewrite <- (take_drop (Z.to_nat (f_length f)) fd) at 1. fold data.
  rewrite <- (app_nil_l (data ++ drop _ fd)). pose proof zlen_pre as Hpre.
  rewrite ps_pes_loop_layout; cycle 1.
  { lia. } { lia. } { left. rewrite Hdl. nia. }
  { right. rewrite zlen_nil. lia. } { done. } { rewrite Hdl. lia. }
  { rewrite Hdl, zlen_drop; lia. }
  rewrite Hdl, !drop_drop. unfold ps_segments. fold L. rewrite Hdl.
  change (pes_count (f_length f) L) with num. cbn [concat app]. rewrite concat_app.
  f_equal. f_equal; [f_equal; [lia|]|].
  - unfold pre. rewrite <- !app_assoc. do 4 f_equal. f_equal. lia.
  - by destruct cb.
Qed.

(** No room is left after the headers: the check of the PES writer is off. *)
Lemma ps_stream_full dest :
  headers_len f spec = zlen dest ->
  lts_ps_stream (Some f) (Some dest) (zlen dest) (Some pi) = None.
Proof using Hfd Hlen Hpi Hwf Hss.
  intros Hd. destruct (pes_len_of_range (f_ps_pes_length f)) as [HL0 HL1]. fold L in HL0, HL1.
  destruct (pes_count_spec (f_length f) L) as [Hc0 Hc]; [lia..|]. pose proof headers_len_pos.
  change (pes_count (f_length f) L) with (frame_pes_count f) in *.
  rewrite ps_stream_headers by lia. destruct (Z.to_nat (frame_pes_count f)) eqn:En; [lia|].
  cbn [ps_pes_loop]. rewrite at_off_prefix by apply zlen_pre. rewrite drop_ge by (unfold zlen in *; lia).
  rewrite Hd, Z.sub_diag. unfold lts_pes_make_header. simpl andb. cbv iota. done.
Qed.

(** Packets that do not fit. *)
Lemma ps_pes_loop_refuses n : forall i num maxlen ps_len a d b dest pre' w log,
  i + Z.of_nat n = num ->
  zlen d = f_length f - L * i /\ L * (Z.of_nat n - 1) < zlen d <= L * Z.of_nat n ->
  zlen a = L * i -> zlen pre' = ps_len -> pre' ++ drop (Z.to_nat ps_len) dest = w ->
  zlen dest = zlen w -> maxlen <= zlen w -> ps_len < maxlen < ps_len + (zlen d + 19 * Z.of_nat n) ->
  (forall k, 0 <= k < Z.of_nat n -> ps_len + k * (L + 19) <> maxlen) ->
  exists w' log',
    ps_pes_loop n i num L (f_length f) (ps_sid f ss) (f_pts f) cb (a ++ d ++ b) maxlen ps_len w log
    = Some (None, w', log') /\
    zlen w' = zlen dest /\ drop (Z.to_nat maxlen) w' = drop (Z.to_nat maxlen) dest.
Proof using spec.
  clear Hfd Hlen Hpi Hwf Hss pre. destruct (pes_len_of_range (f_ps_pes_length f)) as [HL0 HL1].
  fold L in HL0, HL1.
  induction n as [|n IH]; intros i num maxlen ps_len a d b dest pre' w log Hi Hd Ha Hp Hw Hz Hm Hlt Hk.
  { exfalso. lia. }
  destruct Hd as [Hd1 Hd2]. cbn [ps_pes_loop].
  set (d1 := take (Z.to_nat L) d). set (d2 := drop (Z.to_nat L) d).
  assert (d = d1 ++ d2) as Ed by (symmetry; apply take_drop).
  assert (zlen d1 = Z.min L (zlen d)) as H1 by (unfold d1, zlen; rewrite length_take; lia).
  assert (zlen d = zlen d1 + zlen d2) as H2 by (rewrite Ed, zlen_app; done).
  assert ((if i =? num - 1 then f_length f - L * i else L) = zlen d1) as ->.
  { rewrite H1. destruct (Z.eqb_spec i (num - 1)); nia. }
  pose proof (zlen_nonneg d2). pose proof (zlen_nonneg pre').
  destruct (Z.lt_ge_cases (maxlen - ps_len) (19 + zlen d1)).
  { rewrite <- Hw, at_off_prefix, make_header_short by (done || lia).
    change (-1 <? 0) with true. cbv iota. eexists _, _; split; [done|].
    rewrite zlen_app, Hp. split; [rewrite zlen_drop; lia|].
    rewrite drop_app_ge by (unfold zlen in *; lia). rewrite drop_drop. f_equal. unfold zlen in *. lia. }
  replace (a ++ d ++ b) with (a ++ d1 ++ d2 ++ b) by (rewrite Ed, <- app_assoc; done).
  assert (zlen (drop (Z.to_nat ps_len) dest) = zlen dest - ps_len) as Hzd by (apply zlen_drop; lia).
  pose proof (pes_packet_layout (ps_sid f ss) (f_pts f) d1 a (d2 ++ b) (L * i) pre'
                (drop (Z.to_nat ps_len) dest) maxlen ps_len Ha Hp ltac:(lia) ltac:(lia)) as E.
  rewrite Hw in E.
  destruct (at_off w ps_len _) as [[ret dst]|]; [|done].
  destruct (rdn _ (L * i) (zlen d1)) as [data'|]; [|done].
  destruct (wrn dst (ps_len + ret) data') as [dst'|]; [|done].
  apply (inj Some), pair_equal_spec in E as [-> ->]. change (19 <? 0) with false. cbv iota.
  set (pk := pes_packet (ps_sid f ss) (f_pts f) d1).
  assert (zlen pk = 19 + zlen d1) as Hpk by apply zlen_pes_packet.
  rewrite (segment_last cb pre' pk) by (done || lia).
  rewrite (app_assoc a d1), (app_assoc pre' pk), drop_drop.
  replace (Z.to_nat ps_len + Z.to_nat (19 + zlen d1))%nat
    with (Z.to_nat (ps_len + (zlen d1 + 19))) by lia.
  assert (0 < zlen d2 \/ zlen d2 = 0) as [Hpos|Hzero] by lia.
  - assert (zlen d1 = L) as Hd1L by lia.
    apply (IH (i + 1) num _ _ _ d2 b dest (pre' ++ pk));
      rewrite ?zlen_app; try done; try lia; try nia.
    + rewrite zlen_drop; lia.
    + rewrite zlen_drop; lia.
    + assert (ps_len + 1 * (L + 19) <> maxlen) by (apply Hk; nia). nia.
    + intros k Hk'. specialize (Hk (k + 1) ltac:(lia)). rewrite Hd1L. lia.
  - exfalso. assert (Z.of_nat n = 0) by nia. lia.
Qed.

Lemma ps_stream_too_small maxlen dest :
  maxlen <= zlen dest -> headers_len f spec < maxlen < ps_total f spec ->
  (forall k, 0 <= k < frame_pes_count f -> headers_len f spec + k * (L + 19) <> maxlen) ->
  exists dest' log,
    lts_ps_stream (Some f) (Some dest) maxlen (Some pi) = Some (-1, Some dest', log) /\
    zlen dest' = zlen dest /\ drop (Z.to_nat maxlen) dest' = drop (Z.to_nat maxlen) dest.
Proof using Hfd Hlen Hpi Hwf Hss.
  intros Hd Hm Hk. destruct (pes_len_of_range (f_ps_pes_length f)) as [HL0 HL1]. fold L in HL0, HL1.
  destruct (pes_count_spec (f_length f) L) as [Hc0 Hc]; [lia..|]. pose proof headers_len_pos.
  change (pes_count (f_length f) L) with (frame_pes_count f) in *. unfold ps_total in *.
  rewrite ps_stream_headers by lia. pose proof zlen_pre as Hpre.
  assert (zlen data = f_length f) as Hdl by (apply zlen_take; lia).
  rewrite <- (take_drop (Z.to_nat (f_length f)) fd). fold data.
  rewrite <- (app_nil_l (data ++ drop _ fd)).
  assert (zlen (pre ++ drop (Z.to_nat (headers_len f spec)) dest) = zlen dest) as Hz
    by (rewrite zlen_app, zlen_drop, Hpre; lia).
  match goal with |- context [ps_pes_loop _ _ _ _ _ _ _ _ _ _ _ _ ?log] =>
    destruct (ps_pes_loop_refuses (Z.to_nat (frame_pes_count f)) 0 (frame_pes_count f) maxlen
      (headers_len f spec) [] data (drop (Z.to_nat (f_length f)) fd) dest pre
      (pre ++ drop (Z.to_nat (headers_len f spec)) dest) log) as (w' & log' & -> & H1 & H2) end;
    rewrite ?Hdl, ?zlen_nil; try done; try lia; try nia.
  - intros k Hk'. apply Hk. lia.
  - eauto 10.
Qed.
End Call.

(** ** Properties *)

(** With room for everything, [lts_ps_stream] writes the pack header, for a key
    frame the system header and the program stream map, and the frame cut into PES
    packets of the configured length; it returns the number of bytes, changes
    nothing after them, and hands each of these segments to the callback in order. *)
Theorem ps_stream_writes f fd spec pi ss maxlen dest :
  f_frame f = Some fd -> 0 < f_length f <= zlen fd ->
  pi_program_num pi = 1 /\ aget (pi_prog pi) 0 = Some spec -> wf_spec spec ->
  aget (ps_stream spec) (f_stream_number f) = Some ss ->
  ps_total f spec <= maxlen -> ps_total f spec <= zlen dest ->
  let segs := ps_segments f spec (ps_sid f ss) (take (Z.to_nat (f_length f)) fd) in
  lts_ps_stream (Some f) (Some dest) maxlen (Some pi)
  = Some (ps_total f spec, Some (concat segs ++ drop (Z.to_nat (ps_total f spec)) dest),
          if f_segcb f then segs else []).
Proof. intros. by apply (ps_stream_layout f fd spec pi ss). Qed.

Definition ps_demo_spec : TsProgramSpec :=
  mkProgramSpec 2 0 0 500
    [mkStreamSpec STREAM_TYPE_VIDEO_H264 0 0 0; mkStreamSpec STREAM_TYPE_AUDIO_AAC 0 0 0;
     mkStreamSpec 0 0 0 0; mkStreamSpec 0 0 0 0].
Definition ps_demo_info : TsProgramInfo := mkProgramInfo 1 0 [ps_demo_spec].
Definition ps_demo_frame (key : Z) : TEsFrame :=
  mkFrame 0 0 (Some (replicate 1500 0x11)) 1500 key 8100000000 800 true.

(** Proof of the common hypotheses at the example. *)
Ltac ps_demo :=
  try reflexivity; repeat split; try reflexivity; try (vm_compute; discriminate).

Lemma ps_stream_writes_witness :
  let segs := ps_segments (ps_demo_frame 1) ps_demo_spec 0xE0 (replicate 1500 0x11) in
  length segs = 5%nat /\
  lts_ps_stream (Some (ps_demo_frame 1)) (Some (replicate 1700 7)) 1700 (Some ps_demo_info)
  = Some (1594, Some (concat segs ++ drop 1594 (replicate 1700 7)), segs).
Proof.
  split; [reflexivity|].
  apply (ps_stream_writes (ps_demo_frame 1) (replicate 1500 0x11) ps_demo_spec ps_demo_info
           (mkStreamSpec STREAM_TYPE_VIDEO_H264 0 0 0) 1700 (replicate 1700 7)); ps_demo.
Defined.

(** A destination too small for all packets makes the call return -1 without
    touching a byte from [maxlen] on, unless the room ends exactly where a PES
    packet would start. *)
Theorem ps_stream_refuses f fd spec pi ss maxlen dest :
  f_frame f = Some fd -> 0 < f_length f <= zlen fd ->
  pi_program_num pi = 1 /\ aget (pi_prog pi) 0 = Some spec -> wf_spec spec ->
  aget (ps_stream spec) (f_stream_number f) = Some ss ->
  maxlen <= zlen dest -> headers_len f spec < maxlen < ps_total f spec ->
  (forall k, 0 <= k < frame_pes_count f ->
     headers_len f spec + k * (pes_len_of (f_ps_pes_length f) + 19) <> maxlen) ->
  exists dest' log,
    lts_ps_stream (Some f) (Some dest) maxlen (Some pi) = Some (-1, Some dest', log) /\
    zlen dest' = zlen dest /\ drop (Z.to_nat maxlen) dest' = drop (Z.to_nat maxlen) dest.
Proof. intros. by apply (ps_stream_too_small f fd spec pi ss). Qed.

Lemma ps_stream_refuses_witness :
  exists dest' log,
    lts_ps_stream (Some (ps_demo_frame 0)) (Some (replicate 1700 7)) 1200 (Some ps_demo_info)
    = Some (-1, Some dest', log) /\
    zlen dest' = 1700 /\ drop 1200 dest' = drop 1200 (replicate 1700 7).
Proof.
  apply (ps_stream_refuses (ps_demo_frame 0) (replicate 1500 0x11) ps_demo_spec ps_demo_info
           (mkStreamSpec STREAM_TYPE_VIDEO_H264 0 0 0) 1200 (replicate 1700 7)); ps_demo.
  intros k _. change (headers_len _ _) with 14. change (pes_len_of _) with 1000. lia.
Defined.

(** When the room ends exactly where the first PES packet would start, the
    length check of the PES writer is skipped (a remaining length of 0 means "no
    limit" there) and the call writes past the end of the destination. *)
Theorem ps_stream_overflow f fd spec pi ss dest :
  f_frame f = Some fd -> 0 < f_length f <= zlen fd ->
  pi_program_num pi = 1 /\ aget (pi_prog pi) 0 = Some spec -> wf_spec spec ->
  aget (ps_stream spec) (f_stream_number f) = Some ss ->
  headers_len f spec = zlen dest ->
  lts_ps_stream (Some f) (Some dest) (zlen dest) (Some pi) = None.
Proof. intros. by apply (ps_stream_full f fd spec pi ss). Qed.

Lemma ps_stream_overflow_witness :
  lts_ps_stream (Some (ps_demo_frame 0)) (Some (replicate 14 7)) 14 (Some ps_demo_info) = None.
Proof.
  apply (ps_stream_overflow (ps_demo_frame 0) (replicate 1500 0x11) ps_demo_spec ps_demo_info
           (mkStreamSpec STREAM_TYPE_VIDEO_H264 0 0 0) (replicate 14 7)); ps_demo.
Defined.
