(* ===== verification/PsDemux.v ===== *)
(** The program stream demultiplexer: the model of src/file/libmpeg/psdemux.c and
    the theorems on what one call reads. *)

From stdpp Require Import base list option strings.
From S2P Require Import Prelude CMem TypeDefs Pes.

Local Open Scope Z_scope.
Open Scope c_scope.

(** ** The handlers

    [b] is the caller's buffer, [at_] the offset of the pack in it and [len] the
    number of bytes from there on; the stream map may lead a handler to any offset
    of the buffer. *)

Definition handle_header (b : buf) (at_ len : Z) : option Z :=
  if len <? sizeof ps_pack_header then Some 0 else
  let* stuffing := load b at_ ps_pack_header "pack_stuffing_length" in
  let staffing_len := Z.land stuffing 0x07 in
  let psize := sizeof ps_pack_header + staffing_len in
  if len <? psize then Some 0 else Some psize.

Definition handle_common_pack (b : buf) (at_ len : Z) : option Z :=
  if len <? 6 then Some 0 else
  let* n := BUF2U16 b (at_ + 4) in
  let psize := 6 + n in
  if len <? psize then Some 0 else Some psize.

Definition handle_system_header (b : buf) (at_ len : Z) : option Z :=
  handle_common_pack b at_ len.

(** [BUF2U16] on an array of (signed) [char]. *)
Definition BUF2S16 (b : buf) (p : Z) : option Z :=
  let* h := rd b p in
  let* l := rd b (p + 1) in
  Some (Z.lor (Z.shiftl (s8 h) 8) (s8 l)).

(** The entries of the stream map from [pos] on; [i] is the next stream.  Each
    iteration advances [pos] by at least four. *)
Fixpoint map_loop (fuel : nat) (b : buf) (map_buf pos map_len i : Z)
    (ss : list TsStreamSpec) : option (Z * list TsStreamSpec) :=
  if pos <? map_len then
    match fuel with
    | O => None
    | S fuel =>
        let mes := map_buf + pos in
        let* es_info_len := BUF2S16 b (mes + offsetof ps_map_es "es_info_length") in
        if es_info_len <? 0 then Some (i, ss) else
        if MAX_STREAM_NUM <=? i then Some (i, ss) else
        let pos := pos + (sizeof ps_map_es + es_info_len) in
        let* es_id := load b mes ps_map_es "es_id" in
        if (Z.land es_id 0xC0 =? 0xC0) || (Z.land es_id 0xE0 =? 0xE0) then
          let* type := load b mes ps_map_es "stream_type" in
          let* s := aget ss i in
          let* ss := aput ss i (set_ss_stream_id (u8 es_id) (set_ss_type (u8 type) s)) in
          map_loop fuel b map_buf pos map_len (i + 1) ss
        else map_loop fuel b map_buf pos map_len i ss
    end
  else Some (i, ss).

Definition handle_map (info : TsProgramInfo) (b : buf) (at_ len : Z)
  : option (Z * TsProgramInfo) :=
  let* psize := handle_common_pack b at_ len in
  if 0 <? psize then
    let* info_len := BUF2S16 b (at_ + offsetof ps_map "ps_info_length") in
    let* map_len := BUF2S16 b (at_ + offsetof ps_map "es_map_length" + info_len) in
    let map_buf := at_ + sizeof ps_map + info_len in
    let info := set_pi_program_num 1 info in
    let* p := aget (pi_prog info) 0 in
    let* (n, ss) := map_loop (Z.to_nat map_len) b map_buf 0 map_len 0 (ps_stream p) in
    let* ps := aput (pi_prog info) 0 (set_ps_stream_num n (set_ps_stream ss p)) in
    Some (psize, set_pi_prog ps info)
  else Some (psize, info).

Definition handle_finish (b : buf) (at_ len : Z) : option Z := Some 4.

(** The first of the [n] streams from [i] on with this identifier. *)
Fixpoint find_stream_id (n : nat) (i sid : Z) (ss : list TsStreamSpec) : option (option Z) :=
  match n with
  | O => Some None
  | S n =>
      let* s := aget ss i in
      if sid =? ss_stream_id s then Some (Some i) else find_stream_id n (i + 1) sid ss
  end.

Definition found_pes (i pts hl p el : Z) (h : TDemux) : TDemux :=
  mkDemux (d_info h) 1 (d_pid h) 0 i pts (d_pes_pts h) (d_pack_ptr h) (d_pack_len h)
    (Some p) el hl (d_sync_only h) (d_ps_started h).

(** [uninit] is the value of the local variable [pts] when the parser does not set
    it: it is not initialised. *)
Definition handle_pes (uninit : Z) (h : TDemux) (b : buf) (at_ len : Z)
  : option (Z * TDemux) :=
  let* psize := handle_common_pack b at_ len in
  if 0 <? psize then
    let* (pes_head_len, o) := lts_pes_parse_header (drop (Z.to_nat at_) b) len true true true in
    if 0 <? pes_head_len then
      if pi_program_num (d_info h) =? 1 then
        let* p := aget (pi_prog (d_info h)) 0 in
        let* sid := o_stream_id o in
        let* es_len := o_es_len o in
        let pts := match o_pts o with Some v => v | None => uninit end in
        let* r := find_stream_id (Z.to_nat (ps_stream_num p)) 0 sid (ps_stream p) in
        match r with
        | Some i => Some (psize, found_pes i pts pes_head_len (at_ + pes_head_len) es_len h)
        | None => Some (psize, h)
        end
      else Some (psize, h)
    else Some (psize, h)
  else Some (psize, h).

(** ** The entry point *)

Definition set_d_started (h : TDemux) : TDemux :=
  mkDemux (d_info h) (d_is_pes h) (d_pid h) (d_program_no h) (d_stream_no h) (d_pts h)
    (d_pes_pts h) (d_pack_ptr h) (d_pack_len h) (d_es_ptr h) (d_es_len h) (d_pes_head_len h)
    (d_sync_only h) 1.

Definition set_info (v : TsProgramInfo) (h : TDemux) : TDemux :=
  mkDemux v (d_is_pes h) (d_pid h) (d_program_no h) (d_stream_no h) (d_pts h)
    (d_pes_pts h) (d_pack_ptr h) (d_pack_len h) (d_es_ptr h) (d_es_len h) (d_pes_head_len h)
    (d_sync_only h) (d_ps_started h).

(** The handle at the start of a call, and with the pack reported. *)
Definition reset_handle (h : TDemux) : TDemux :=
  mkDemux (d_info h) 0 (d_pid h) 0 0 0 (d_pes_pts h) None 0 None 0 0 (d_sync_only h)
    (d_ps_started h).

Definition report_pack (p n : Z) (h : TDemux) : TDemux :=
  mkDemux (d_info h) (d_is_pes h) (d_pid h) (d_program_no h) (d_stream_no h) (d_pts h)
    (d_pes_pts h) (Some p) n (d_es_ptr h) (d_es_len h) (d_pes_head_len h)
    (d_sync_only h) (d_ps_started h).

(** The pack at [i], of this type. *)
Definition handle_ps_pack (uninit : Z) (h : TDemux) (b : buf) (i len type : Z)
  : option (Z * TDemux) :=
  let keep (r : option Z) := let* n := r in Some (n, h) in
  if truthy (d_sync_only h) then
    if type =? 0xBA then keep (handle_header b i (len - i))
    else if type =? 0xB9 then keep (handle_finish b i (len - i))
    else keep (handle_common_pack b i (len - i))
  else
    if type =? 0xBA then keep (handle_header b i (len - i))
    else if type =? 0xBB then keep (handle_system_header b i (len - i))
    else if type =? 0xBC then
      let* (n, info) := handle_map (d_info h) b i (len - i) in Some (n, set_info info h)
    else if type =? 0xB9 then keep (handle_finish b i (len - i))
    else handle_pes uninit h b i (len - i).

(** The search for a pack, from [i] on with [n] iterations left; the result is [i],
    [ret_len] and the handle after the loop. *)
Fixpoint ps_loop (uninit : Z) (n : nat) (i ret_len : Z) (h : TDemux) (b : buf) (len : Z)
  : option (Z * Z * TDemux) :=
  match n with
  | O => Some (i, ret_len, h)
  | S n =>
      let ret_len := i in
      let* b0 := rd b i in
      let* start := (if negb (b0 =? 0) then Some false else
                     let* b1 := rd b (i + 1) in
                     if negb (b1 =? 0) then Some false else
                     let* b2 := rd b (i + 2) in Some (b2 =? 1)) in
      if start then
        let* type := rd b (i + 3) in
        if type <? 0xB9 then ps_loop uninit n (i + 1) ret_len h b len
        else if negb (truthy (d_ps_started h)) && negb (type =? 0xBA) then
          ps_loop uninit n (i + 1) ret_len h b len
        else
          let h := if truthy (d_ps_started h) then h else set_d_started h in
          let* (ret_len, h) := handle_ps_pack uninit h b i len type in
          Some (i, ret_len, h)
      else ps_loop uninit n (i + 1) ret_len h b len
  end.

Definition lts_ps_demux (uninit : Z) (handle : option TDemux) (ps_buf : option buf) (len : Z)
  : option (Z * option TDemux) :=
  match handle, ps_buf with
  | Some h, Some b =>
      if len <=? 0 then Some (-1, handle) else
      let* (i, ret_len, h) := ps_loop uninit (Z.to_nat (len - 4)) 0 0 (reset_handle h) b len in
      if negb (truthy (d_ps_started h)) then Some (-1, Some h) else
      if len <? i + ret_len then Some (0, Some h) else
      Some (i + ret_len, Some (report_pack i ret_len h))
  | _, _ => Some (-1, handle)
  end.

(** ** What a call reads *)

Lemma BUF2U16_in b p :
  bytes b -> 0 <= p -> p + 2 <= zlen b -> exists v, BUF2U16 b p = Some v /\ 0 <= v.
Proof.
  intros Hb H0 Hl. unfold BUF2U16. rd_step. rd_step. eexists; split; [done|].
  destruct (rd_byte _ _ _ Hb Erd), (rd_byte _ _ _ Hb Erd0).
  apply Z.lor_nonneg. split; [by apply Z.shiftl_nonneg|done].
Qed.

Lemma handle_header_safe b i len :
  0 <= i -> i + len <= zlen b -> exists r, handle_header b i len = Some r /\ 0 <= r <= Z.max 0 len.
Proof.
  intros Hi Hl. unfold handle_header. change (sizeof ps_pack_header) with 14.
  case_match; [eexists; split; [done|lia]|].
  assert (exists x, load b i ps_pack_header "pack_stuffing_length" = Some x) as [x ->]
    by (apply load_in; layout_eval; cbv beta iota; lia).
  pose proof (is_u_land_r 3 x 7 ltac:(lia) ltac:(is_u_const)) as [? ?].
  case_match; eexists; (split; [done|lia]).
Qed.

Lemma handle_common_pack_safe b i len :
  bytes b -> 0 <= i -> i + len <= zlen b ->
  exists r, handle_common_pack b i len = Some r /\ 0 <= r <= Z.max 0 len.
Proof.
  intros Hb Hi Hl. unfold handle_common_pack. case_match; [eexists; split; [done|lia]|].
  destruct (BUF2U16_in b (i + 4)) as (v & -> & Hv); [done|lia..|].
  case_match; eexists; (split; [done|lia]).
Qed.

Lemma find_stream_id_safe n : forall i sid ss,
  0 <= i -> i + Z.of_nat n <= zlen ss -> exists r, find_stream_id n i sid ss = Some r.
Proof.
  induction n as [|n IH]; intros i sid ss H0 Hn; cbn [find_stream_id]; [eauto|].
  destruct (aget_in ss i) as [s ->]; [lia|]. case_match; [eauto|]. apply IH; lia.
Qed.

(** The arrays of the handle have their sizes and the count stays within them. *)
Definition wf_ps_handle (h : TDemux) : Prop :=
  exists p, pi_prog (d_info h) = [p] /\ ps_stream_num p <= zlen (ps_stream p).

(** The parser reads up to five bytes past a header of nine. *)
Lemma handle_pes_safe u h b i len :
  bytes b -> wf_ps_handle h -> 0 <= i -> i + len + 5 <= zlen b ->
  exists r h', handle_pes u h b i len = Some (r, h') /\ 0 <= r <= Z.max 0 len /\
    d_info h' = d_info h /\ d_ps_started h' = d_ps_started h.
Proof.
  intros Hb (p & Hp & Hn) Hi Hl. unfold handle_pes.
  destruct (handle_common_pack_safe b i len) as (r & -> & Hr); [done|lia..|].
  destruct (Z.ltb_spec 0 r); [|eauto 10].
  assert (exists hl o, lts_pes_parse_header (drop (Z.to_nat i) b) len true true true = Some (hl, o) /\
            (hl = 0 \/ 0 < hl /\ o_stream_id o <> None /\ o_es_len o <> None)) as (hl & o & -> & Ho).
  { destruct (Z.lt_ge_cases len 9); [rewrite parse_header_short by done; eauto|].
    assert (zlen (drop (Z.to_nat i) b) = zlen b - i) as El by (apply zlen_drop; lia).
    destruct (parse_header_in_bounds (drop (Z.to_nat i) b) len true true true)
      as (hl & o & E & Hhl); [by apply Forall_drop|lia..|].
    exists hl, o. split; [done|]. destruct Hhl as [[? _]|?]; [by left|right]. split; [lia|].
    revert E. unfold lts_pes_parse_header.
    repeat case_match; intros; simplify_eq; try (exfalso; lia); done. }
  destruct (Z.ltb_spec 0 hl); [|eauto 10].
  case_match; [|eauto 10]. rewrite Hp. change (aget [p] 0) with (Some p). cbv beta iota.
  destruct Ho as [->|(_ & Hs & He)]; [lia|].
  destruct (o_stream_id o) as [sid|]; [|done]. destruct (o_es_len o) as [el|]; [|done].
  destruct (find_stream_id_safe (Z.to_nat (ps_stream_num p)) 0 sid (ps_stream p)) as [x ->];
    [lia|pose proof (zlen_nonneg (ps_stream p)); lia|].
  destruct x; eauto 10.
Qed.

(** A start code of the stream map at [i]. *)
Definition stream_map_at (b : buf) (i : Z) : Prop :=
  rd b i = Some 0 /\ rd b (i + 1) = Some 0 /\ rd b (i + 2) = Some 1 /\ rd b (i + 3) = Some 0xBC.

Lemma handle_ps_pack_safe u h b i len type :
  bytes b -> wf_ps_handle h -> 0 <= i <= len -> len <= zlen b ->
  d_sync_only h <> 0 \/ (len + 5 <= zlen b /\ type <> 0xBC) -> 4 <= len - i ->
  exists r h', handle_ps_pack u h b i len type = Some (r, h') /\ 0 <= r <= len - i /\
    d_info h' = d_info h /\ d_ps_started h' = d_ps_started h.
Proof.
  intros Hb Hwf Hi Hl Hm H4. unfold handle_ps_pack.
  destruct (handle_header_safe b i (len - i)) as (r1 & -> & ?); [lia..|].
  destruct (handle_common_pack_safe b i (len - i)) as (r2 & E2 & ?); [done|lia..|].
  unfold handle_system_header, handle_finish. rewrite E2.
  unfold truthy. destruct (Z.eqb_spec (d_sync_only h) 0) as [Hs|Hs]; simpl negb; cbv iota.
  - destruct Hm as [?|[Hm Ht]]; [done|].
    repeat (case_match; [eexists _, _; split; [done|split; [lia|done]]|]).
    rewrite (proj2 (Z.eqb_neq type 188)) by done.
    repeat (case_match; [eexists _, _; split; [done|split; [lia|done]]|]).
    destruct (handle_pes_safe u h b i (len - i)) as (r & h' & -> & ? & ? & ?); [done|done|lia..|].
    eexists _, _; split; [done|split; [lia|done]].
  - repeat (case_match; [eexists _, _; split; [done|split; [lia|done]]|]).
    eexists _, _; split; [done|split; [lia|done]].
Qed.

Lemma ps_loop_safe u n : forall i rl h b len,
  bytes b -> wf_ps_handle h -> 0 <= i -> i + Z.of_nat n = Z.max i (len - 4) -> len <= zlen b ->
  d_sync_only h <> 0 \/ (len + 5 <= zlen b /\ forall k, ~ stream_map_at b k) -> 0 <= rl ->
  exists i' rl' h', ps_loop u n i rl h b len = Some (i', rl', h') /\ 0 <= i' /\ 0 <= rl' /\
    d_info h' = d_info h.
Proof.
  induction n as [|n IH]; intros i rl h b len Hb Hwf Hi Hn Hl Hm Hrl; cbn [ps_loop]; [by eauto 10|].
  assert (forall rl, 0 <= rl -> exists i' rl' h',
    ps_loop u n (i + 1) rl h b len = Some (i', rl', h') /\ 0 <= i' /\ 0 <= rl' /\
    d_info h' = d_info h) as IH' by (intros; apply IH; (done || lia)).
  destruct (rd_in b i ltac:(lia)) as [b0 E0]. destruct (rd_in b (i + 1) ltac:(lia)) as [b1 E1].
  destruct (rd_in b (i + 2) ltac:(lia)) as [b2 E2]. destruct (rd_in b (i + 3) ltac:(lia)) as [b3 E3].
  rewrite E0, E1, E2, E3.
  destruct (Z.eqb_spec b0 0) as [->|]; simpl negb; cbv iota; [|by apply IH'].
  destruct (Z.eqb_spec b1 0) as [->|]; simpl negb; cbv iota; [|by apply IH'].
  destruct (Z.eqb_spec b2 1) as [->|]; cbv iota; [|by apply IH'].
  destruct (b3 <? 0xB9); [by apply IH'|].
  destruct (negb (truthy (d_ps_started h)) && negb (b3 =? 186)); [by apply IH'|].
  set (h1 := if truthy (d_ps_started h) then h else set_d_started h).
  assert (d_info h1 = d_info h /\ d_sync_only h1 = d_sync_only h) as [H1 H2]
    by (unfold h1; by destruct (truthy _)).
  destruct (handle_ps_pack_safe u h1 b i len b3) as (r & h' & -> & Hr & Hi' & _);
    [done|unfold wf_ps_handle; by rewrite H1|lia|lia| |lia|].
  { rewrite H2. destruct Hm as [?|[? Hm]]; [by left|right]. split; [done|].
    intros ->. by apply (Hm i). }
  eexists _, _, _; split; [done|]. rewrite Hi', H1. lia || (split; [lia|split; [lia|done]]).
Qed.

(** ** Properties *)

(** C39: A call reads nothing outside its buffer when it only synchronises, and
    also when it demultiplexes if five bytes follow the [len] it is given and there
    is no stream map among them; it then returns -1 (no pack header yet), 0
    (more bytes are needed), or the end of the pack it reports, which lies inside the
    [len] bytes. *)
Theorem ps_demux_safe u h b len :
  bytes b -> wf_ps_handle h -> 0 < len <= zlen b ->
  d_sync_only h <> 0 \/ (len + 5 <= zlen b /\ forall k, ~ stream_map_at b k) ->
  exists r h', lts_ps_demux u (Some h) (Some b) len = Some (r, Some h') /\
    wf_ps_handle h' /\
    (r = -1 \/ r = 0 \/
     exists p, d_pack_ptr h' = Some p /\ 0 <= p /\ 0 <= d_pack_len h' /\ p + d_pack_len h' = r /\
               r <= len).
Proof.
  intros Hb Hwf Hl Hm. unfold lts_ps_demux. rewrite (proj2 (Z.leb_gt _ _)) by lia.
  destruct (ps_loop_safe u (Z.to_nat (len - 4)) 0 0 (reset_handle h) b len)
    as (i & rl & h' & -> & Hi & Hrl & Hinfo); try done; try lia.
  assert (wf_ps_handle h') by (unfold wf_ps_handle; by rewrite Hinfo).
  case_match; [eexists _, _; split; [done|]; split; [done|by left]|].
  case_match; [eexists _, _; split; [done|]; split; [done|by right; left]|].
  eexists _, _; split; [done|]. split; [done|]. right. right.
  exists i. split; [done|]. simpl. lia.
Qed.

Lemma ps_demux_safe_witness :
  let h := mkDemux (mkProgramInfo 0 0 [mkProgramSpec 0 0 0 0 []]) 0 0 0 0 0 0 None 0 None 0 0 1 0 in
  let b := [7; 0; 0; 1; 0xBA] ++ replicate 20 0 in
  exists r h', lts_ps_demux 0 (Some h) (Some b) 25 = Some (r, Some h') /\ wf_ps_handle h' /\
    (r = -1 \/ r = 0 \/
     exists p, d_pack_ptr h' = Some p /\ 0 <= p /\ 0 <= d_pack_len h' /\ p + d_pack_len h' = r /\
               r <= 25).
Proof.
  apply ps_demux_safe.
  - apply bytes_check. vm_compute. reflexivity.
  - eexists. split; [reflexivity|vm_compute; discriminate].
  - split; [reflexivity|vm_compute; discriminate].
  - left. discriminate.
Defined.

(** The length of the stream map is not checked against the pack: a complete
    pack of twelve bytes that announces entries makes the demultiplexer read past
    the end of its buffer. *)
Theorem ps_map_overread u h v x y :
  d_sync_only h = 0 -> truthy (d_ps_started h) = true -> wf_ps_handle h -> 1 <= v <= 127 ->
  lts_ps_demux u (Some h) (Some [0; 0; 1; 0xBC; 0; 6; x; y; 0; 0; v; 0]) 12 = None.
Proof.
  intros Hs Hst (p & Hp & _) Hv. unfold lts_ps_demux. change (12 <=? 0) with false. cbv iota.
  change (Z.to_nat (12 - 4)) with 8%nat. cbn [ps_loop]. set (b := [_; _; _; _; _; _; _; _; _; _; _; _]).
  change (rd b 0) with (Some 0). change (rd b (0 + 1)) with (Some 0). change (rd b (0 + 2)) with (Some 1).
  change (rd b (0 + 3)) with (Some 0xBC). change (d_ps_started (reset_handle h)) with (d_ps_started h).
  rewrite Hst. cbn [negb Z.eqb Pos.eqb andb]. cbv iota beta. change (0xBC <? 0xB9) with false. cbv iota.
  unfold handle_ps_pack. change (d_sync_only (reset_handle h)) with (d_sync_only h). rewrite Hs.
  change (truthy 0) with false. cbv iota. cbn [Z.eqb Pos.eqb]. cbv iota.
  unfold handle_map. change (handle_common_pack b 0 (12 - 0)) with (Some 12). cbv beta iota.
  change (0 <? 12) with true. cbv iota.
  change (BUF2S16 b (0 + offsetof ps_map "ps_info_length")) with (Some 0). cbv beta iota.
  assert (BUF2S16 b (0 + offsetof ps_map "es_map_length" + 0) = Some (256 * v)) as ->.
  { change (BUF2S16 b (0 + offsetof ps_map "es_map_length" + 0))
      with (Some (Z.lor (Z.shiftl (s8 v) 8) 0)).
    rewrite Z.lor_0_r, swrap_small, Z.shiftl_mul_pow2 by (unfold is_u; lia). f_equal. lia. }
  cbv beta iota. change (pi_prog (set_pi_program_num 1 (d_info (reset_handle h)))) with (pi_prog (d_info h)).
  rewrite Hp. change (aget [p] 0) with (Some p). cbv beta iota.
  destruct (Z.to_nat (256 * v)) as [|n] eqn:En; [lia|]. cbn [map_loop].
  rewrite (proj2 (Z.ltb_lt _ _)) by lia. unfold BUF2S16 at 1. rewrite rd_out; [done|].
  right. vm_compute. discriminate.
Qed.

Lemma ps_map_overread_witness :
  let h := mkDemux (mkProgramInfo 0 0 [mkProgramSpec 0 0 0 0 []]) 0 0 0 0 0 0 None 0 None 0 0 0 1 in
  lts_ps_demux 5 (Some h) (Some [0; 0; 1; 0xBC; 0; 6; 0xE0; 0xFF; 0; 0; 1; 0]) 12 = None.
Proof.
  apply ps_map_overread; try reflexivity; [|split; discriminate].
  eexists. split; [reflexivity|vm_compute; discriminate].
Defined.

(** A buffer of five to nine bytes without a start code is reported as a pack:
    the index left over from the search is taken for a length. *)
Theorem ps_demux_phantom_pack u h b :
  truthy (d_ps_started h) = true -> Forall (fun x => x <> 0) b -> 5 <= zlen b <= 9 ->
  exists h', lts_ps_demux u (Some h) (Some b) (zlen b) = Some (2 * zlen b - 9, Some h') /\
    d_pack_ptr h' = Some (zlen b - 4) /\ d_pack_len h' = zlen b - 5.
Proof.
  intros Hst Hz Hl. unfold lts_ps_demux. rewrite (proj2 (Z.leb_gt _ _)) by lia.
  assert (forall n i rl, 0 <= i -> i + Z.of_nat n <= zlen b ->
    ps_loop u n i rl (reset_handle h) b (zlen b)
    = Some (i + Z.of_nat n, if (n =? 0)%nat then rl else i + Z.of_nat n - 1, reset_handle h)) as Hloop.
  { induction n as [|n IH]; intros i rl Hi Hn; cbn [ps_loop]; [by rewrite Z.add_0_r|].
    destruct (rd_in b i ltac:(lia)) as [x E]. rewrite E.
    assert (x <> 0) as Hx.
    { unfold rd in E. destruct (0 <=? i); [|done]. apply (Forall_lookup_1 _ _ _ _ Hz E). }
    rewrite (proj2 (Z.eqb_neq x 0)) by done. simpl negb. cbv iota.
    rewrite IH by lia. do 2 f_equal. destruct n; simpl; f_equal; lia. }
  rewrite Hloop by lia. change (d_ps_started (reset_handle h)) with (d_ps_started h). rewrite Hst.
  simpl negb. cbv iota. assert ((Z.to_nat (zlen b - 4) =? 0)%nat = false) as -> by (apply Nat.eqb_neq; lia).
  rewrite (proj2 (Z.ltb_ge _ _)) by lia. eexists; split; [|split].
  - do 2 f_equal. lia.
  - simpl. f_equal. lia.
  - simpl. lia.
Qed.

Lemma ps_demux_phantom_pack_witness :
  let h := mkDemux (mkProgramInfo 0 0 []) 0 0 0 0 0 0 None 0 None 0 0 0 1 in
  exists h', lts_ps_demux 0 (Some h) (Some [1; 2; 3; 4; 5; 6; 7]) 7 = Some (5, Some h') /\
    d_pack_ptr h' = Some 3 /\ d_pack_len h' = 2.
Proof.
  apply (ps_demux_phantom_pack 0 _ [1; 2; 3; 4; 5; 6; 7]);
    [reflexivity|repeat (apply List.Forall_cons; [discriminate|]); apply List.Forall_nil
    |split; vm_compute; discriminate].
Defined.

(** The time stamp of a PES packet that carries none is whatever the parser's
    local variable happens to hold. *)
Theorem ps_uninitialised_pts u h p i flags hl x y :
  d_sync_only h = 0 -> truthy (d_ps_started h) = true ->
  pi_program_num (d_info h) = 1 -> pi_prog (d_info h) = [p] ->
  find_stream_id (Z.to_nat (ps_stream_num p)) 0 0xE0 (ps_stream p) = Some (Some i) ->
  Z.testbit flags 7 = false -> 0 <= hl <= 255 ->
  exists h', lts_ps_demux u (Some h) (Some [0; 0; 1; 0xE0; 0; 4; x; flags; hl; y]) 10
             = Some (10, Some h') /\
    d_is_pes h' = 1 /\ d_pts h' = u.
Proof.
  intros Hs Hst Hn Hp Hf Hfl Hhl. unfold lts_ps_demux. change (10 <=? 0) with false. cbv iota.
  change (Z.to_nat (10 - 4)) with 6%nat. cbn [ps_loop]. set (b := [_; _; _; _; _; _; _; _; _; _]).
  change (rd b 0) with (Some 0). change (rd b (0 + 1)) with (Some 0). change (rd b (0 + 2)) with (Some 1).
  change (rd b (0 + 3)) with (Some 0xE0). change (d_ps_started (reset_handle h)) with (d_ps_started h).
  rewrite Hst. cbn [negb Z.eqb Pos.eqb andb]. cbv iota beta. change (0xE0 <? 0xB9) with false. cbv iota.
  unfold handle_ps_pack. change (d_sync_only (reset_handle h)) with (d_sync_only h). rewrite Hs.
  change (truthy 0) with false. cbv iota. cbn [Z.eqb Pos.eqb]. cbv iota.
  unfold handle_pes. change (handle_common_pack b 0 (10 - 0)) with (Some 10). cbv beta iota.
  change (0 <? 10) with true. cbv iota. change (drop (Z.to_nat 0) b) with b.
  unfold lts_pes_parse_header. change (get_pes_head_len b (10 - 0)) with (Some (9 + hl)). cbv beta iota.
  rewrite (proj2 (Z.leb_gt _ _)) by lia. change (rd b 3) with (Some 0xE0).
  change (rd b 7) with (Some flags). change (rd b 8) with (Some hl). change (BUF2U16 b 4) with (Some 4).
  cbv beta iota.
  assert (truthy (Z.land flags 0x80) = false) as ->.
  { assert (Z.land flags 0x80 = 0) as ->; [|done]. apply Z.bits_inj'. intros k Hk.
    rewrite Z.land_spec, Z.testbit_0_l. change 0x80 with (2 ^ 7). rewrite Z.pow2_bits_eqb by lia.
    destruct (Z.eqb_spec 7 k) as [<-|]; [by rewrite Hfl|by rewrite andb_false_r]. }
  cbv beta iota. rewrite (proj2 (Z.ltb_lt _ _)) by lia.
  change (d_info (reset_handle h)) with (d_info h). rewrite Hn, Hp. change (1 =? 1) with true.
  change (aget [p] 0) with (Some p). cbv beta iota. cbn [o_stream_id o_es_len o_pts]. rewrite Hf.
  change (d_ps_started (found_pes i u (9 + hl) (0 + (9 + hl)) (4 - 3 - hl) (reset_handle h)))
    with (d_ps_started h). rewrite Hst. simpl negb. cbv iota.
  change (10 <? 0 + 10) with false. cbv iota. eexists; split; [done|]. done.
Qed.

Lemma ps_uninitialised_pts_witness :
  let h := mkDemux (mkProgramInfo 1 0 [mkProgramSpec 1 0 0 0 [mkStreamSpec 0x1b 0xE0 0 0]])
             0 0 0 0 0 0 None 0 None 0 0 0 1 in
  exists h', lts_ps_demux 424242 (Some h) (Some [0; 0; 1; 0xE0; 0; 4; 0x80; 0; 0; 9]) 10
             = Some (10, Some h') /\ d_is_pes h' = 1 /\ d_pts h' = 424242.
Proof.
  apply (ps_uninitialised_pts 424242 _ (mkProgramSpec 1 0 0 0 [mkStreamSpec 0x1b 0xE0 0 0]) 0);
    try reflexivity. split; discriminate.
Defined.
