(* ===== verification/PsRoundTrip.v ===== *)
(** Multiplexing and demultiplexing a program stream: a receiver that calls
    [lts_ps_demux] (PsDemux) pack by pack on what [lts_ps_stream] (PsMux) wrote gets
    the streams, the time stamp and the data back. *)

From stdpp Require Import base list option strings.
From S2P Require Import Prelude CMem TypeDefs Pes PsMux PsMuxSpec PsDemux.

Local Open Scope Z_scope.
Open Scope c_scope.

(** ** The receiver *)

Fixpoint ps_receive (uninit : Z) (n : nat) (h : TDemux) (b : buf) : option (TDemux * buf) :=
  match n with
  | O => Some (h, [])
  | S n =>
      let* (ret, oh) := lts_ps_demux uninit (Some h) (Some b) (zlen b) in
      let* h' := oh in
      let* (h'', es) := ps_receive uninit n h' (drop (Z.to_nat ret) b) in
      Some (h'', es_data h' b ++ es)
  end.

(** Every stream of the program is audio or video: others get the identifier 0 in
    the stream map, which the demultiplexer skips, and the streams after them would
    be renumbered. *)
Definition all_av (spec : TsProgramSpec) : Prop :=
  Forall (fun ss => lts_is_video (ss_type ss) || lts_is_audio (ss_type ss) = true)
    (streams_of spec).

(** A handle that has read the stream map of [spec]. *)
Definition ps_knows (spec : TsProgramSpec) (h : TDemux) : Prop :=
  pi_program_num (d_info h) = 1 /\
  exists p, pi_prog (d_info h) = [p] /\ ps_stream_num p = ps_stream_num spec /\
    zlen (ps_stream p) = 4 /\
    forall k s, 0 <= k < ps_stream_num spec -> aget (ps_stream spec) k = Some s ->
      exists s', aget (ps_stream p) k = Some s' /\ ss_type s' = u8 (ss_type s) /\
                 ss_stream_id s' = lts_pes_stream_id (ss_type s) 0 k.

Definition ps_ready (h : TDemux) : Prop :=
  d_sync_only h = 0 /\ exists p, pi_prog (d_info h) = [p] /\ zlen (ps_stream p) = 4.

(** ** One call on a buffer that starts with a pack *)

Definition start (h : TDemux) : TDemux := set_d_started (reset_handle h).

Lemma demux_at_pack u h b type t r h' :
  b = [0; 0; 1; type] ++ t -> 5 <= zlen b -> 0xB9 <= type ->
  truthy (d_ps_started h) = true \/ type = 0xBA ->
  handle_ps_pack u (if truthy (d_ps_started h) then reset_handle h else start h) b 0 (zlen b) type
  = Some (r, h') ->
  truthy (d_ps_started h') = true -> 0 <= r <= zlen b ->
  lts_ps_demux u (Some h) (Some b) (zlen b) = Some (r, Some (report_pack 0 r h')).
Proof.
  intros Hb Hl Ht Hs Hh Hs' Hr. unfold lts_ps_demux. rewrite (proj2 (Z.leb_gt _ _)) by lia.
  destruct (Z.to_nat (zlen b - 4)) as [|n] eqn:E; [lia|]. cbn [ps_loop].
  assert (rd b 0 = Some 0) as -> by by rewrite Hb.
  assert (rd b (0 + 1) = Some 0) as -> by by rewrite Hb.
  assert (rd b (0 + 2) = Some 1) as -> by by rewrite Hb.
  assert (rd b (0 + 3) = Some type) as -> by by rewrite Hb.
  change (negb (0 =? 0)) with false. change (1 =? 1) with true. cbv iota beta.
  rewrite (proj2 (Z.ltb_ge _ _)) by lia.
  change (d_ps_started (reset_handle h)) with (d_ps_started h).
  assert (negb (truthy (d_ps_started h)) && negb (type =? 186) = false) as ->.
  { destruct Hs as [-> | ->]; [done|]. by rewrite andb_false_r. }
  fold (start h). rewrite Hh. rewrite Hs'. change (negb true) with false. cbv iota.
  rewrite Z.add_0_l, (proj2 (Z.ltb_ge _ _)) by lia. done.
Qed.

(** A pack of which [handle_common_pack] reads the length. *)
Lemma common_pack_at b n :
  BUF2U16 b 4 = Some n -> 0 <= n -> 6 + n <= zlen b ->
  handle_common_pack b 0 (zlen b) = Some (6 + n).
Proof.
  intros Hb Hn Hl. unfold handle_common_pack. rewrite (proj2 (Z.ltb_ge _ _)) by lia.
  change (0 + 4) with 4. rewrite Hb. rewrite (proj2 (Z.ltb_ge _ _)) by lia. done.
Qed.

(** ** The stream map *)

Lemma av_stream_id t k :
  lts_is_video t || lts_is_audio t = true -> 0 <= k < 4 ->
  lts_pes_stream_id t 0 k = (if lts_is_video t then 0xE0 else 0xC0) + k.
Proof.
  intros Ht Hk. unfold lts_pes_stream_id, MAX_STREAM_NUM.
  destruct (lts_is_video t); [|simpl in Ht; rewrite Ht]; rewrite uwrap_id by (unfold is_u; lia); lia.
Qed.

Lemma av_id_test id :
  0xC0 <= id < 256 -> (Z.land (swrap 8 (bf_get 0 8 id)) 0xC0 =? 0xC0) = true.
Proof.
  intros. apply (forall_range (fun id => Z.land (swrap 8 (bf_get 0 8 id)) 0xC0 =? 0xC0) 0xC0 64);
    [by vm_compute|lia].
Qed.

Lemma BUF2S16_app_r pre w n p :
  zlen pre = n -> 0 <= p -> BUF2S16 (pre ++ w) (n + p) = BUF2S16 w p.
Proof.
  intros Hn Hp. unfold BUF2S16. rewrite <- Z.add_assoc. by rewrite !(rd_app_r _ _ n) by (done || lia).
Qed.

Lemma map_entries l : forall fuel i pre rest map_buf pos map_len ss,
  (length l <= fuel)%nat -> (i + length l <= 4)%nat -> zlen ss = 4 ->
  map_buf + pos = zlen pre -> map_len = pos + 4 * zlen l ->
  Forall (fun s => lts_is_video (ss_type s) || lts_is_audio (ss_type s) = true) l ->
  exists ss',
    map_loop fuel (pre ++ psm_entries i l ++ rest) map_buf pos map_len (Z.of_nat i) ss
    = Some (Z.of_nat i + zlen l, ss') /\ zlen ss' = 4 /\
    (forall k, k < Z.of_nat i -> aget ss' k = aget ss k) /\
    (forall k s, l !! k = Some s ->
       exists s', aget ss' (Z.of_nat (i + k)) = Some s' /\ ss_type s' = u8 (ss_type s) /\
                  ss_stream_id s' = lts_pes_stream_id (ss_type s) 0 (Z.of_nat (i + k))).
Proof.
  induction l as [|s l IH]; intros fuel i pre rest map_buf pos map_len ss Hf Hi Hss Hp Hm Hav.
  { exists ss. change (zlen (@nil TsStreamSpec)) with 0 in *. split_and!; try done.
    replace (Z.of_nat i + 0) with (Z.of_nat i) by lia.
    destruct fuel; cbn [map_loop]; rewrite (proj2 (Z.ltb_ge _ _)) by lia; done. }
  simpl in Hf, Hi. destruct fuel as [|fuel]; [lia|]. rewrite zlen_cons in Hm.
  pose proof (zlen_nonneg l). inversion Hav as [|? ? Hs Hav']; subst x l0.
  rewrite psm_entries_cons, <- app_assoc.
  set (e := psm_entry (Z.of_nat i) s). set (b := pre ++ e ++ _).
  cbn [map_loop]. rewrite (proj2 (Z.ltb_lt _ _)) by lia. rewrite Hp.
  change (offsetof ps_map_es "es_info_length") with 2. change (sizeof ps_map_es) with 4.
  assert (BUF2S16 b (zlen pre + 2) = Some 0) as -> by (unfold b; by rewrite BUF2S16_app_r).
  change (0 <? 0) with false. cbv iota. unfold MAX_STREAM_NUM.
  rewrite (proj2 (Z.leb_gt _ _)) by lia.
  set (id := lts_pes_stream_id (ss_type s) 0 (Z.of_nat i)).
  assert (0xC0 <= id < 256) as Hid.
  { unfold id. rewrite av_stream_id by (done || lia). case_match; lia. }
  assert (load b (zlen pre) ps_map_es "es_id" = Some (swrap 8 (bf_get 0 8 id))) as ->.
  { unfold b. rewrite <- (Z.add_0_r (zlen pre)).
    rewrite load_app_r by (done || (layout_eval; cbv beta iota; lia)). done. }
  rewrite av_id_test by done. simpl orb. cbv iota.
  assert (load b (zlen pre) ps_map_es "stream_type"
          = Some (swrap 8 (bf_get 0 8 (u8 (ss_type s))))) as ->.
  { unfold b. rewrite <- (Z.add_0_r (zlen pre)).
    rewrite load_app_r by (done || (layout_eval; cbv beta iota; lia)). done. }
  assert (u8 (swrap 8 (bf_get 0 8 id)) = id) as ->.
  { apply u8_signed_byte. unfold is_u. lia. }
  assert (u8 (swrap 8 (bf_get 0 8 (u8 (ss_type s)))) = u8 (ss_type s)) as ->.
  { apply u8_signed_byte, is_u_uwrap. lia. }
  destruct (aget_in ss (Z.of_nat i)) as [o ->]; [lia|].
  set (new := set_ss_stream_id id (set_ss_type (u8 (ss_type s)) o)).
  destruct (aput_in ss (Z.of_nat i) new) as (ss1 & Ep & Hl1); [lia|]. rewrite Ep.
  destruct (IH fuel (S i) (pre ++ e) rest map_buf (pos + 4) map_len ss1)
    as (ss' & E & Hz & Hlow & Hk); try done; try lia.
  { rewrite zlen_app. change (zlen e) with 4. lia. }
  exists ss'. split_and!; try done.
  - unfold b. rewrite app_assoc. replace (pos + (4 + 0)) with (pos + 4) by lia.
    replace (Z.of_nat i + 1) with (Z.of_nat (S i)) by lia. rewrite zlen_cons.
    replace (Z.of_nat i + (1 + zlen l)) with (Z.of_nat (S i) + zlen l) by lia. done.
  - intros k Hlt. rewrite Hlow by lia. rewrite (aget_aput _ _ _ _ _ Ep).
    destruct (Z.eqb_spec k (Z.of_nat i)); [lia|done].
  - intros [|k] x Hx; simpl in Hx.
    + injection Hx as <-. exists new. rewrite Nat.add_0_r, Hlow by lia.
      rewrite (aget_aput _ _ _ _ _ Ep), Z.eqb_refl. done.
    + destruct (Hk k x Hx) as (s' & ? & ? & ?). exists s'.
      replace (Z.of_nat (i + S k)) with (Z.of_nat (S i + k)) by lia. done.
Qed.

(** ** Each kind of pack *)

(** A demultiplexer that has met a pack header and is not only synchronising. *)
Definition started (h : TDemux) : Prop := d_sync_only h = 0 /\ truthy (d_ps_started h) = true.

Definition call (u : Z) (h : TDemux) (b : buf) (r : Z) (h' : TDemux) : Prop :=
  lts_ps_demux u (Some h) (Some b) (zlen b) = Some (r, Some h').

Lemma zlen_app_le {A} (l k : list A) : zlen l <= zlen (l ++ k).
Proof. rewrite zlen_app. pose proof (zlen_nonneg k). lia. Qed.

Lemma pack_received u h pts rate rest :
  d_sync_only h = 0 ->
  exists h', call u h (pack_bytes pts rate ++ rest) 14 h' /\ started h' /\
    d_info h' = d_info h /\ d_is_pes h' = 0.
Proof.
  intros Hs. set (b := pack_bytes pts rate ++ rest).
  assert (14 <= zlen b) by apply (zlen_app_le (pack_bytes pts rate)).
  set (h0 := if truthy (d_ps_started h) then reset_handle h else start h).
  assert (truthy (d_ps_started h0) = true /\ d_info h0 = d_info h /\ d_is_pes h0 = 0 /\
          d_sync_only h0 = 0) as (E1 & E2 & E3 & E4)
    by (unfold h0; destruct (truthy (d_ps_started h)) eqn:E; done).
  exists (report_pack 0 14 h0). split; [|done].
  apply (demux_at_pack u h b 0xBA (drop 4 b)); try done; try lia; [].
  fold h0. unfold handle_ps_pack. rewrite Z.sub_0_r, E4. change (truthy 0) with false. cbv iota.
  change (0xBA =? 0xBA) with true. cbv iota. unfold handle_header.
  change (sizeof ps_pack_header) with 14. rewrite (proj2 (Z.ltb_ge _ _)) by lia.
  assert (load b 0 ps_pack_header "pack_stuffing_length" = Some (-8)) as -> by done.
  change (14 + Z.land (-8) 7) with 14. by rewrite (proj2 (Z.ltb_ge _ _)) by lia.
Qed.

Lemma started_step u h b type t r h' :
  started h -> b = [0; 0; 1; type] ++ t -> 5 <= zlen b -> 0xB9 <= type ->
  handle_ps_pack u (reset_handle h) b 0 (zlen b) type = Some (r, h') ->
  d_ps_started h' = d_ps_started h -> 0 <= r <= zlen b -> call u h b r (report_pack 0 r h').
Proof.
  intros [Hs Hst] Hb Hl Ht Hh Hk Hr. apply (demux_at_pack u h b type t); try done; [by left|..].
  - by rewrite Hst. - by rewrite Hk.
Qed.

Lemma sys_received u h spec rate rest :
  started h ->
  exists h', call u h (sys_bytes spec rate ++ rest) 18 h' /\ started h' /\
    d_info h' = d_info h /\ d_is_pes h' = 0.
Proof.
  intros Hst. set (b := sys_bytes spec rate ++ rest).
  assert (18 <= zlen b) by apply (zlen_app_le (sys_bytes spec rate)).
  exists (report_pack 0 18 (reset_handle h)). split; [|done].
  apply (started_step u h b 0xBB (drop 4 b)); try done; [lia|].
  unfold handle_ps_pack. rewrite Z.sub_0_r. change (d_sync_only (reset_handle h)) with (d_sync_only h).
  destruct Hst as [-> _]. change (truthy 0) with false. cbv iota.
  change (0xBB =? 0xBA) with false. change (0xBB =? 0xBB) with true. cbv iota.
  unfold handle_system_header. by rewrite (common_pack_at b 12) by (done || lia).
Qed.

Lemma psm_received u h spec rest old :
  started h -> wf_spec spec -> all_av spec -> pi_prog (d_info h) = [old] -> zlen (ps_stream old) = 4 ->
  exists h', call u h (psm_bytes spec ++ rest) (16 + 4 * ps_stream_num spec) h' /\ started h' /\
    ps_knows spec h' /\ d_is_pes h' = 0.
Proof.
  intros Hst Hwf Hav Ho Hz. pose proof (zlen_psm_bytes spec Hwf) as Hl.
  destruct Hwf as [Hs Hn]. unfold MAX_STREAM_NUM in *. set (b := psm_bytes spec ++ rest).
  pose proof (zlen_app_le (psm_bytes spec) rest) as Hle. fold b in Hle.
  set (n := ps_stream_num spec) in *.
  assert (zlen (streams_of spec) = n) as Hsn by (apply zlen_take; lia).
  set (hd := [0; 0; 1; 0xBC; 0; 10 + 4 * n; 0xE0; 0xFF; 0; 0; 0; 4 * n]).
  assert (b = hd ++ psm_entries 0 (streams_of spec) ++ ([0; 0; 0; 0] ++ rest)) as Eb.
  { unfold b, psm_bytes, hd. by rewrite <- !app_assoc. }
  destruct (map_entries (streams_of spec) (Z.to_nat (4 * n)) 0 hd ([0; 0; 0; 0] ++ rest) 12 0 (4 * n)
              (ps_stream old)) as (ss' & E & Hz' & _ & Hk); try done; try (unfold zlen in *; lia).
  change (Z.of_nat 0) with 0 in E. rewrite Z.add_0_l, Hsn in E.
  set (p' := set_ps_stream_num n (set_ps_stream ss' old)).
  set (i' := mkProgramInfo 1 (pi_pat_pmt_counter (d_info h)) [p']).
  exists (report_pack 0 (16 + 4 * n) (set_info i' (reset_handle h))). split; [|split; [done|split; [|done]]].
  - apply (started_step u h b 0xBC (drop 4 b)); try done; try lia.
    unfold handle_ps_pack. rewrite Z.sub_0_r. change (d_sync_only (reset_handle h)) with (d_sync_only h).
    destruct Hst as [-> _]. change (truthy 0) with false. cbv iota.
    change (0xBC =? 0xBA) with false. change (0xBC =? 0xBB) with false. change (0xBC =? 0xBC) with true.
    cbv iota. unfold handle_map.
    assert (BUF2U16 b 4 = Some (10 + 4 * n)) as Eu by (by rewrite Eb).
    rewrite (common_pack_at b (10 + 4 * n)) by (done || lia).
    rewrite (proj2 (Z.ltb_lt 0 _)) by lia. rewrite Eb.
    change (offsetof ps_map "ps_info_length") with 8. change (offsetof ps_map "es_map_length") with 10.
    change (sizeof ps_map) with 12.
    assert (forall t, BUF2S16 (hd ++ t) (0 + 8) = Some 0) as -> by done.
    change (0 + 10 + 0) with 10. change (0 + 12 + 0) with 12.
    assert (forall t, BUF2S16 (hd ++ t) 10 = Some (4 * n)) as ->.
    { intros t. unfold hd, BUF2S16. buf_eval. assert (n = 0 \/ n = 1 \/ n = 2 \/ n = 3 \/ n = 4) as C by lia.
      by destruct C as [-> | [-> | [-> | [-> | ->]]]]. }
    cbv beta iota. change (pi_prog (set_pi_program_num 1 (d_info (reset_handle h)))) with (pi_prog (d_info h)).
    rewrite Ho. change (aget [old] 0) with (Some old). cbv beta iota.
    rewrite E. change (aput [old] 0 p') with (Some [p']). cbv beta iota.
    replace (6 + (10 + 4 * n)) with (16 + 4 * n) by lia. done.
  - split; [done|]. exists p'. split_and!; try done. intros k s Hk' Hget.
    destruct (Hk (Z.to_nat k) s) as (s' & Hg & ? & ?).
    + unfold streams_of. fold n. unfold aget in Hget. destruct (0 <=? k); [|done].
      rewrite lookup_take_lt by lia. done.
    + exists s'. rewrite Nat.add_0_l, Z2Nat.id in * by lia. done.
Qed.

(** Identifiers of different streams differ. *)
Lemma av_ids_differ t t' k k' :
  lts_is_video t || lts_is_audio t = true -> lts_is_video t' || lts_is_audio t' = true ->
  0 <= k < 4 -> 0 <= k' < 4 -> k <> k' -> lts_pes_stream_id t 0 k <> lts_pes_stream_id t' 0 k'.
Proof. intros. rewrite !av_stream_id by done. repeat case_match; lia. Qed.

Lemma find_stream_id_known spec ss j sj n : forall i,
  all_av spec -> wf_spec spec -> 0 <= j < ps_stream_num spec -> aget (ps_stream spec) j = Some sj ->
  (forall k s, 0 <= k < ps_stream_num spec -> aget (ps_stream spec) k = Some s ->
     exists s', aget ss k = Some s' /\ ss_type s' = u8 (ss_type s) /\
                ss_stream_id s' = lts_pes_stream_id (ss_type s) 0 k) ->
  0 <= i <= j -> i + Z.of_nat n = ps_stream_num spec ->
  find_stream_id n i (lts_pes_stream_id (ss_type sj) 0 j) ss = Some (Some j).
Proof.
  induction n as [|n IH]; intros i Hav Hwf Hj Hget Hk Hi Hn; [lia|].
  pose proof Hwf as [Hs Hnum]. unfold MAX_STREAM_NUM in *. cbn [find_stream_id].
  destruct (aget_in (ps_stream spec) i) as [si Hgi]; [lia|].
  destruct (Hk i si ltac:(lia) Hgi) as (s' & -> & _ & ->).
  assert (forall k s, 0 <= k < ps_stream_num spec -> aget (ps_stream spec) k = Some s ->
            lts_is_video (ss_type s) || lts_is_audio (ss_type s) = true) as Htype.
  { intros k s Hk' Hg. apply (Forall_lookup_1 _ _ (Z.to_nat k) _ Hav). unfold streams_of, aget in *.
    destruct (0 <=? k); [|done]. rewrite lookup_take_lt by lia. done. }
  destruct (Z.eq_dec i j) as [->|Hne].
  - assert (si = sj) as -> by congruence. by rewrite Z.eqb_refl.
  - rewrite (proj2 (Z.eqb_neq _ _)); [apply IH; (done || lia)|].
    apply av_ids_differ; try lia; eauto. apply (Htype i si); (done || lia).
Qed.

(** A PES packet of stream [j] carrying [c]. *)
Lemma pes_received u h spec j sj pts c rest :
  started h -> ps_knows spec h -> all_av spec -> wf_spec spec ->
  0 <= j < ps_stream_num spec -> aget (ps_stream spec) j = Some sj -> zlen c <= 65000 ->
  let b := pes_packet (lts_pes_stream_id (ss_type sj) 0 j) pts c ++ rest in
  exists h', call u h b (19 + zlen c) h' /\ started h' /\ ps_knows spec h' /\
    es_data h' b = c /\ d_pts h' = uwrap 33 pts / 90 /\ d_stream_no h' = j.
Proof.
  intros Hst Hkn Hav Hwf Hj Hget Hc b. pose proof (zlen_nonneg c).
  set (sid := lts_pes_stream_id (ss_type sj) 0 j) in *.
  assert (lts_is_video (ss_type sj) || lts_is_audio (ss_type sj) = true) as Htype.
  { apply (Forall_lookup_1 _ _ (Z.to_nat j) _ Hav). unfold streams_of, aget in *.
    destruct (0 <=? j); [|done]. rewrite lookup_take_lt by lia. done. }
  pose proof Hwf as [_ Hnum]. unfold MAX_STREAM_NUM in *.
  assert (0xC0 <= sid < 0xE4) as Hsid.
  { unfold sid. rewrite av_stream_id by (done || lia). case_match; lia. }
  assert (u8 sid = sid) as Hu by (apply uwrap_id; unfold is_u; lia).
  pose proof (zlen_app_le (pes_packet sid pts c) rest) as Hl. fold b in Hl.
  rewrite zlen_pes_packet in Hl.
  assert (pes_length_field (zlen c) = zlen c + 13) as Hf.
  { unfold pes_length_field. by rewrite (proj2 (Z.ltb_ge _ _)) by lia. }
  assert (BUF2U16 b 4 = Some (13 + zlen c)) as Hb4.
  { change (Some (Z.lor (Z.shiftl (u8 (Z.shiftr (pes_length_field (zlen c)) 8)) 8)
                    (u8 (pes_length_field (zlen c)))) = Some (13 + zlen c)).
    rewrite pes_header_length_field, Hf by lia. f_equal. lia. }
  destruct Hkn as (Hpn & p & Hp & Hnp & Hzp & Hk).
  exists (report_pack 0 (19 + zlen c) (found_pes j (uwrap 33 pts / 90) 19 (0 + 19) (zlen c) (reset_handle h))).
  split_and!; try done.
  - apply (started_step u h b sid (drop 4 b)); try done; try lia.
    { unfold b, pes_packet, pes_header. rewrite Hu. done. }
    unfold handle_ps_pack. rewrite Z.sub_0_r. change (d_sync_only (reset_handle h)) with (d_sync_only h).
    destruct Hst as [-> _]. change (truthy 0) with false. cbv iota.
    repeat (rewrite (proj2 (Z.eqb_neq sid _)) by lia). unfold handle_pes.
    rewrite (common_pack_at b (13 + zlen c)) by (done || lia). rewrite (proj2 (Z.ltb_lt 0 _)) by lia.
    change (drop (Z.to_nat 0) b) with b. unfold b at 1, pes_packet. rewrite <- app_assoc.
    rewrite parse_header_layout by lia. change (0 <? 19) with true. cbv iota.
    change (d_info (reset_handle h)) with (d_info h). rewrite Hpn, Hp, Z.eqb_refl.
    change (aget [p] 0) with (Some p). cbv beta iota. cbn [o_stream_id o_es_len o_pts].
    rewrite Hnp. unfold sid. rewrite (find_stream_id_known spec _ j sj) by (done || lia).
    rewrite Hf. replace (zlen c + 13 - 13) with (zlen c) by lia.
    do 2 f_equal. lia.
  - split; [done|]. exists p. done.
  - unfold es_data. cbn [d_is_pes report_pack found_pes d_es_ptr d_es_len].
    change (truthy 1) with true. cbv iota. unfold b, pes_packet.
    change (Z.to_nat (0 + 19)) with 19%nat. rewrite <- app_assoc.
    change (drop 19 (pes_header sid pts (zlen c) ++ c ++ rest)) with (c ++ rest).
    unfold zlen. by rewrite Nat2Z.id, take_app_length.
Qed.

(** ** A whole frame *)

Lemma ps_receive_S u n h b r h' :
  call u h b r h' ->
  ps_receive u (S n) h b
  = let* (h'', es) := ps_receive u n h' (drop (Z.to_nat r) b) in Some (h'', es_data h' b ++ es).
Proof. intros E. cbn [ps_receive]. by rewrite E. Qed.

Lemma ps_receive_no_data u n h b r h' :
  call u h b r h' -> d_is_pes h' = 0 ->
  ps_receive u (S n) h b = ps_receive u n h' (drop (Z.to_nat r) b).
Proof.
  intros E Hp. rewrite (ps_receive_S _ _ _ _ _ _ E). unfold es_data. rewrite Hp.
  by destruct (ps_receive u n h' _) as [[? ?]|].
Qed.

Lemma pes_packets_received u n L spec j sj pts rest : forall h d,
  started h -> ps_knows spec h -> all_av spec -> wf_spec spec ->
  0 <= j < ps_stream_num spec -> aget (ps_stream spec) j = Some sj ->
  Z.of_nat L <= 65000 -> zlen d <= Z.of_nat L * Z.of_nat n ->
  exists h',
    ps_receive u n h (concat (pes_packets n L (lts_pes_stream_id (ss_type sj) 0 j) pts d) ++ rest)
    = Some (h', d) /\ started h' /\ ps_knows spec h' /\
    ((n = O /\ h' = h) \/ d_pts h' = uwrap 33 pts / 90 /\ d_stream_no h' = j).
Proof.
  induction n as [|n IH]; intros h d Hst Hkn Hav Hwf Hj Hget HL Hd.
  { assert (d = []) as ->.
    { destruct d; [done|]. rewrite zlen_cons in Hd. pose proof (zlen_nonneg d). lia. }
    exists h. split_and!; try done. by left. }
  cbn [pes_packets concat]. rewrite <- app_assoc. set (c := take L d).
  assert (zlen c <= Z.of_nat L) as Hc by (unfold c, zlen; rewrite length_take; lia).
  set (tail := concat _ ++ rest).
  destruct (pes_received u h spec j sj pts c tail) as (h1 & E1 & Hst1 & Hkn1 & Hes & Hpts & Hno);
    try done; try lia.
  destruct (IH h1 (drop L d)) as (h2 & E2 & Hst2 & Hkn2 & Hlast); try done.
  { unfold zlen in *. rewrite length_drop. lia. }
  exists h2. split_and!; try done.
  - rewrite (ps_receive_S _ _ _ _ _ _ E1). rewrite drop_at by apply zlen_pes_packet.
    fold tail in E2. rewrite E2, Hes. unfold c. by rewrite take_drop.
  - right. destruct Hlast as [[_ ->]|?]; done.
Qed.

Lemma length_pes_packets n L sid pts data : length (pes_packets n L sid pts data) = n.
Proof. revert data. induction n as [|n IH]; intros data; simpl; [done|by rewrite IH]. Qed.

Lemma length_key_segments f spec sid data : truthy (f_is_key f) = true -> 0 < zlen data ->
  length (ps_segments f spec sid data)
  = Z.to_nat (3 + pes_count (zlen data) (pes_len_of (f_ps_pes_length f))).
Proof.
  intros Hk Hd. unfold ps_segments. rewrite Hk, !length_app, length_pes_packets. cbn [length].
  destruct (pes_len_of_range (f_ps_pes_length f)) as [HL _].
  destruct (pes_count_spec (zlen data) (pes_len_of (f_ps_pes_length f))) as [Hc _]; lia.
Qed.

(** The segments of a frame, received by a demultiplexer that knows the program or
    is told by the headers of a key frame. *)
Lemma segments_received u h f spec ss data rest :
  ps_ready h -> (truthy (f_is_key f) = true \/ ps_knows spec h) ->
  wf_spec spec -> all_av spec ->
  0 <= f_stream_number f < ps_stream_num spec -> aget (ps_stream spec) (f_stream_number f) = Some ss ->
  0 < zlen data ->
  exists h',
    ps_receive u (length (ps_segments f spec (ps_sid f ss) data)) h
      (concat (ps_segments f spec (ps_sid f ss) data) ++ rest) = Some (h', data) /\
    started h' /\ ps_knows spec h' /\ d_pts h' = uwrap 33 (f_pts f) / 90 /\
    d_stream_no h' = f_stream_number f.
Proof.
  intros [Hs (old & Ho & Hz)] Hkey Hwf Hav Hj Hget Hd. unfold ps_segments.
  set (L := pes_len_of (f_ps_pes_length f)).
  destruct (pes_len_of_range (f_ps_pes_length f)) as [HL0 HL1]. fold L in HL0, HL1.
  destruct (pes_count_spec (zlen data) L) as [Hc0 Hc]; [lia..|].
  set (n := Z.to_nat (pes_count (zlen data) L)). set (rate := ps_mux_rate spec).
  assert (forall h1, started h1 -> ps_knows spec h1 ->
    exists h', ps_receive u n h1 (concat (pes_packets n (Z.to_nat L) (ps_sid f ss) (f_pts f) data) ++ rest)
      = Some (h', data) /\ started h' /\ ps_knows spec h' /\ d_pts h' = uwrap 33 (f_pts f) / 90 /\
      d_stream_no h' = f_stream_number f) as Hpes.
  { intros h1 Hst Hkn.
    destruct (pes_packets_received u n (Z.to_nat L) spec (f_stream_number f) ss (f_pts f) rest h1 data)
      as (h' & E & Hst' & Hkn' & Hlast); try done; [lia|unfold n; nia|].
    exists h'. split_and!; try done; destruct Hlast as [[En _]|[? ?]]; (done || unfold n in En; lia). }
  rewrite !length_app, length_pes_packets, !concat_app, <- !app_assoc. cbn [length concat Nat.add].
  rewrite app_nil_r.
  destruct (pack_received u h (f_pts f) rate
    (concat (if truthy (f_is_key f) then [sys_bytes spec rate; psm_bytes spec] else [])
     ++ concat (pes_packets n (Z.to_nat L) (ps_sid f ss) (f_pts f) data) ++ rest))
    as (h1 & E1 & Hst1 & Hi1 & Hp1); [done|].
  rewrite (ps_receive_no_data _ _ _ _ _ _ E1 Hp1), (drop_at (pack_bytes _ _)) by done.
  destruct (truthy (f_is_key f)) eqn:Ek.
  - cbn [length concat Nat.add]. rewrite app_nil_r, <- !app_assoc.
    destruct (sys_received u h1 spec rate
      (psm_bytes spec ++ concat (pes_packets n (Z.to_nat L) (ps_sid f ss) (f_pts f) data) ++ rest))
      as (h2 & E2 & Hst2 & Hi2 & Hp2); [done|].
    rewrite (ps_receive_no_data _ _ _ _ _ _ E2 Hp2), (drop_at (sys_bytes _ _)) by done.
    destruct (psm_received u h2 spec
      (concat (pes_packets n (Z.to_nat L) (ps_sid f ss) (f_pts f) data) ++ rest) old)
      as (h3 & E3 & Hst3 & Hkn3 & Hp3); try done; [by rewrite Hi2, Hi1|].
    rewrite (ps_receive_no_data _ _ _ _ _ _ E3 Hp3), drop_at by by apply zlen_psm_bytes.
    by apply Hpes.
  - destruct Hkey as [?|Hkn]; [done|]. cbn [length concat Nat.add app]. apply Hpes; [done|].
    unfold ps_knows. by rewrite Hi1.
Qed.

(** ** Properties *)

(** C27: What [lts_ps_stream] writes for a key frame of a program all of whose streams
    are audio or video (the streams of a program with another would be renumbered), in
    a buffer large enough, a receiver that knows nothing of the stream takes apart again
    with one call of [lts_ps_demux] per segment: the pack header, the system header, the
    stream map and each PES packet, of which there is one per [ps_pes_length] bytes of the
    frame or part of them.  It learns the program's streams with their types and identifiers,
    gets the data of the frame whole and in order across all PES packets (no hypothesis on the
    bytes of the frame), the stream number, and the time stamp modulo 2^33 in
    milliseconds.  The value of the parser's uninitialised variable is irrelevant. *)
Theorem ps_roundtrip_key_frame u f fd spec pi ss maxlen dest h :
  f_frame f = Some fd -> 0 < f_length f <= zlen fd ->
  pi_program_num pi = 1 /\ aget (pi_prog pi) 0 = Some spec -> wf_spec spec -> all_av spec ->
  0 <= f_stream_number f < ps_stream_num spec ->
  aget (ps_stream spec) (f_stream_number f) = Some ss ->
  ps_total f spec <= maxlen -> ps_total f spec <= zlen dest ->
  truthy (f_is_key f) = true -> ps_ready h ->
  exists out log h',
    lts_ps_stream (Some f) (Some dest) maxlen (Some pi) = Some (ps_total f spec, Some out, log) /\
    ps_receive u (Z.to_nat (3 + frame_pes_count f)) h out = Some (h', take (Z.to_nat (f_length f)) fd) /\
    ps_knows spec h' /\ d_pts h' = uwrap 33 (f_pts f) / 90 /\ d_stream_no h' = f_stream_number f.
Proof.
  intros Hfd Hlen Hpi Hwf Hav Hj Hget Hm Hd Hkey Hr.
  rewrite (ps_stream_layout f fd spec pi ss) by done.
  set (data := take _ fd).
  assert (zlen data = f_length f) as Hdl by (apply zlen_take; lia).
  destruct (segments_received u h f spec ss data (drop (Z.to_nat (ps_total f spec)) dest) Hr
              (or_introl Hkey)) as (h' & E & _ & ? & ? & ?); try done; [lia|].
  rewrite length_key_segments, Hdl in E by (done || lia).
  eexists _, _, h'. split; [done|]. split; [exact E|done].
Qed.

(** A frame that is not a key frame, multiplexed by [lts_ps_stream], is taken apart by a
    receiver that knows the program. *)
Theorem ps_roundtrip_next_frame u f fd spec pi ss maxlen dest h :
  f_frame f = Some fd -> 0 < f_length f <= zlen fd ->
  pi_program_num pi = 1 /\ aget (pi_prog pi) 0 = Some spec -> wf_spec spec -> all_av spec ->
  0 <= f_stream_number f < ps_stream_num spec ->
  aget (ps_stream spec) (f_stream_number f) = Some ss ->
  ps_total f spec <= maxlen -> ps_total f spec <= zlen dest ->
  ps_ready h -> ps_knows spec h ->
  exists out log n h',
    lts_ps_stream (Some f) (Some dest) maxlen (Some pi) = Some (ps_total f spec, Some out, log) /\
    ps_receive u n h out = Some (h', take (Z.to_nat (f_length f)) fd) /\
    ps_knows spec h' /\ d_pts h' = uwrap 33 (f_pts f) / 90 /\ d_stream_no h' = f_stream_number f.
Proof.
  intros Hfd Hlen Hpi Hwf Hav Hj Hget Hm Hd Hr Hkn.
  rewrite (ps_stream_layout f fd spec pi ss) by done.
  set (data := take _ fd).
  assert (zlen data = f_length f) as Hdl by (apply zlen_take; lia).
  destruct (segments_received u h f spec ss data (drop (Z.to_nat (ps_total f spec)) dest) Hr
              (or_intror Hkn)) as (h' & E & _ & ? & ? & ?); try done; [lia|].
  eexists _, _, _, h'. split; [done|]. split; [exact E|done].
Qed.

Definition ps_demo_handle : TDemux :=
  mkDemux (mkProgramInfo 0 0 [mkProgramSpec 0 0 0 0 (replicate 4 (mkStreamSpec 0 0 0 0))])
    0 0 0 0 0 0 None 0 None 0 0 0 0.

Lemma ps_roundtrip_key_frame_witness :
  exists out log h',
    lts_ps_stream (Some (ps_demo_frame 1)) (Some (replicate 1700 7)) 1700 (Some ps_demo_info)
    = Some (1594, Some out, log) /\
    ps_receive 0xdead 5 ps_demo_handle out = Some (h', replicate 1500 0x11) /\
    ps_knows ps_demo_spec h' /\ d_pts h' = uwrap 33 8100000000 / 90 /\ d_stream_no h' = 0.
Proof.
  apply (ps_roundtrip_key_frame 0xdead (ps_demo_frame 1) (replicate 1500 0x11) ps_demo_spec
           ps_demo_info (mkStreamSpec STREAM_TYPE_VIDEO_H264 0 0 0) 1700 (replicate 1700 7));
    ps_demo.
  - repeat constructor.
  - eexists; split; reflexivity.
Defined.

Definition ps_demo_known : TDemux :=
  mkDemux (mkProgramInfo 1 0 [mkProgramSpec 2 0 0 0
    [mkStreamSpec 0x1b 0xE0 0 0; mkStreamSpec 0x0f 0xC1 0 0; mkStreamSpec 0 0 0 0;
     mkStreamSpec 0 0 0 0]])
    0 0 0 0 0 0 None 0 None 0 0 0 1.

Lemma ps_roundtrip_next_frame_witness :
  exists out log n h',
    lts_ps_stream (Some (ps_demo_frame 0)) (Some (replicate 1700 7)) 1700 (Some ps_demo_info)
    = Some (1552, Some out, log) /\
    ps_receive 0 n ps_demo_known out = Some (h', replicate 1500 0x11) /\
    ps_knows ps_demo_spec h' /\ d_pts h' = uwrap 33 8100000000 / 90 /\ d_stream_no h' = 0.
Proof.
  apply (ps_roundtrip_next_frame 0 (ps_demo_frame 0) (replicate 1500 0x11) ps_demo_spec
           ps_demo_info (mkStreamSpec STREAM_TYPE_VIDEO_H264 0 0 0) 1700 (replicate 1700 7));
    ps_demo.
  - repeat constructor.
  - eexists; split; reflexivity.
  - eexists; split; [reflexivity|]. split; [reflexivity|]. split; [reflexivity|].
    intros k s Hk. simpl in Hk. assert (k = 0 \/ k = 1) as [-> | ->] by lia;
      intros [= <-]; eexists; repeat split; reflexivity.
Defined.
