(* ===== verification/G711.v ===== *)
(** G.711 companding: the model of src/codec/g711/g711.c and g711_table.c, and the
    theorems on the two laws, the conversions between them and the tables. *)

From stdpp Require Import base list option numbers.
From S2P Require Import Prelude CMem.

Local Open Scope Z_scope.
Open Scope c_scope.

(** ** The coders

    A [short] is an integer between -2^15 and 2^15 - 1; every value stored in one is
    converted with [s16], every value stored in an [unsigned char] with [u8]. *)

Definition SIGN_BIT : Z := 0x80.
Definition QUANT_MASK : Z := 0xf.
Definition SEG_SHIFT : Z := 4.
Definition SEG_MASK : Z := 0x70.

Definition seg_aend : list Z := [0x1F; 0x3F; 0x7F; 0xFF; 0x1FF; 0x3FF; 0x7FF; 0xFFF].
Definition seg_uend : list Z := [0x3F; 0x7F; 0xFF; 0x1FF; 0x3FF; 0x7FF; 0xFFF; 0x1FFF].

Definition _u2a : list Z :=
  [1; 1; 2; 2; 3; 3; 4; 4; 5; 5; 6; 6; 7; 7; 8; 8;
   9; 10; 11; 12; 13; 14; 15; 16; 17; 18; 19; 20; 21; 22; 23; 24;
   25; 27; 29; 31; 33; 34; 35; 36; 37; 38; 39; 40; 41; 42; 43; 44;
   46; 48; 49; 50; 51; 52; 53; 54; 55; 56; 57; 58; 59; 60; 61; 62;
   64; 65; 66; 67; 68; 69; 70; 71; 72; 73; 74; 75; 76; 77; 78; 79;
   80; 82; 83; 84; 85; 86; 87; 88; 89; 90; 91; 92; 93; 94; 95; 96;
   97; 98; 99; 100; 101; 102; 103; 104; 105; 106; 107; 108; 109; 110; 111; 112;
   113; 114; 115; 116; 117; 118; 119; 120; 121; 122; 123; 124; 125; 126; 127; 128].

Definition _a2u : list Z :=
  [1; 3; 5; 7; 9; 11; 13; 15; 16; 17; 18; 19; 20; 21; 22; 23;
   24; 25; 26; 27; 28; 29; 30; 31; 32; 32; 33; 33; 34; 34; 35; 35;
   36; 37; 38; 39; 40; 41; 42; 43; 44; 45; 46; 47; 48; 48; 49; 49;
   50; 51; 52; 53; 54; 55; 56; 57; 58; 59; 60; 61; 62; 63; 64; 64;
   65; 66; 67; 68; 69; 70; 71; 72; 73; 74; 75; 76; 77; 78; 79; 80;
   80; 81; 82; 83; 84; 85; 86; 87; 88; 89; 90; 91; 92; 93; 94; 95;
   96; 97; 98; 99; 100; 101; 102; 103; 104; 105; 106; 107; 108; 109; 110; 111;
   112; 113; 114; 115; 116; 117; 118; 119; 120; 121; 122; 123; 124; 125; 126; 127].

(** The loop over the entries from [i] on. *)
Fixpoint search_loop (val : Z) (table : list Z) (i : Z) (size : nat) : option Z :=
  match size with
  | O => Some i
  | S n =>
      match table with
      | [] => None
      | t :: table => if val <=? t then Some i else search_loop val table (i + 1) n
      end
  end.

Definition search (val : Z) (table : list Z) (size : Z) : option Z :=
  search_loop val table 0 (Z.to_nat size).

Definition linear2alaw (pcm_val : Z) : option Z :=
  let pcm_val := Z.shiftr pcm_val 3 in
  let '(mask, pcm_val) :=
    if 0 <=? pcm_val then (0xD5, pcm_val) else (0x55, s16 (- pcm_val - 1)) in
  let* seg := search pcm_val seg_aend 8 in
  if 8 <=? seg then Some (u8 (Z.lxor 0x7F mask))
  else
    let aval := u8 (Z.shiftl (u8 seg) SEG_SHIFT) in
    let aval := if seg <? 2 then u8 (Z.lor aval (Z.land (Z.shiftr pcm_val 1) QUANT_MASK))
                else u8 (Z.lor aval (Z.land (Z.shiftr pcm_val seg) QUANT_MASK)) in
    Some (u8 (Z.lxor aval mask)).

Definition alaw2linear (a_val : Z) : Z :=
  let a_val := u8 (Z.lxor a_val 0x55) in
  let t := s16 (Z.shiftl (Z.land a_val QUANT_MASK) 4) in
  let seg := s16 (Z.shiftr (Z.land a_val SEG_MASK) SEG_SHIFT) in
  let t :=
    if seg =? 0 then s16 (t + 8)
    else if seg =? 1 then s16 (t + 0x108)
    else s16 (Z.shiftl (s16 (t + 0x108)) (seg - 1)) in
  if truthy (Z.land a_val SIGN_BIT) then t else s16 (- t).

Definition BIAS : Z := 0x84.
Definition CLIP : Z := 8159.

Definition linear2ulaw (pcm_val : Z) : option Z :=
  let pcm_val := Z.shiftr pcm_val 2 in
  let '(mask, pcm_val) := if pcm_val <? 0 then (0x7F, s16 (- pcm_val)) else (0xFF, pcm_val) in
  let pcm_val := if CLIP <? pcm_val then CLIP else pcm_val in
  let pcm_val := s16 (pcm_val + Z.shiftr BIAS 2) in
  let* seg := search pcm_val seg_uend 8 in
  if 8 <=? seg then Some (u8 (Z.lxor 0x7F mask))
  else
    let uval := u8 (Z.lor (u8 (Z.shiftl seg 4)) (Z.land (Z.shiftr pcm_val (seg + 1)) 0xF)) in
    Some (u8 (Z.lxor uval mask)).

Definition ulaw2linear (u_val : Z) : Z :=
  let u_val := u8 (Z.lnot u_val) in
  let t := s16 (Z.shiftl (Z.land u_val QUANT_MASK) 3 + BIAS) in
  let t := s16 (Z.shiftl t (Z.shiftr (Z.land u_val SEG_MASK) SEG_SHIFT)) in
  if truthy (Z.land u_val SIGN_BIT) then s16 (BIAS - t) else s16 (t - BIAS).

(** A read of a table: the index must be in it. *)
Definition tab (t : list Z) (i : Z) : option Z := rd t i.

Definition alaw2ulaw (aval : Z) : option Z :=
  let aval := Z.land aval 0xff in
  if truthy (Z.land aval 0x80)
  then let* x := tab _a2u (Z.lxor aval 0xD5) in Some (u8 (Z.lxor 0xFF x))
  else let* x := tab _a2u (Z.lxor aval 0x55) in Some (u8 (Z.lxor 0x7F x)).

Definition ulaw2alaw (uval : Z) : option Z :=
  let uval := Z.land uval 0xff in
  if truthy (Z.land uval 0x80)
  then let* x := tab _u2a (Z.lxor 0xFF uval) in Some (u8 (Z.lxor 0xD5 (x - 1)))
  else let* x := tab _u2a (Z.lxor 0x7F uval) in Some (u8 (Z.lxor 0x55 (x - 1))).

(** ** Tables (g711_table.c) *)

(** [linear_to_xlaw\[i\] = linear2xlaw((short) i)] for [n] values of [i]. *)
Fixpoint build_linear_loop (n : nat) (i : Z) (table : buf) (linear2xlaw : Z -> option Z)
  : option buf :=
  match n with
  | O => Some table
  | S n =>
      let* v := linear2xlaw (s16 i) in
      let* table := wr table i v in
      build_linear_loop n (i + 1) table linear2xlaw
  end.

Definition build_linear_to_xlaw_table (table : buf) (linear2xlaw : Z -> option Z) : option buf :=
  build_linear_loop (Z.to_nat 65536) 0 table linear2xlaw.

(** Writes of an [unsigned short] array; the parameter is converted to
    [unsigned char]. *)
Fixpoint build_xlaw_loop (n : nat) (i : Z) (table : list Z) (xlaw2linear : Z -> Z)
  : option (list Z) :=
  match n with
  | O => Some table
  | S n =>
      match rd table i with
      | Some _ => build_xlaw_loop n (i + 1) (<[Z.to_nat i := u16 (xlaw2linear (u8 i))]> table)
                    xlaw2linear
      | None => None
      end
  end.

Definition build_xlaw_to_linear_table (table : list Z) (xlaw2linear : Z -> Z) : option (list Z) :=
  build_xlaw_loop 256 0 table xlaw2linear.

(** Samples are unsigned shorts in the byte order of a little-endian machine. *)
Definition sample_at (src : buf) (i : Z) : option Z :=
  let* lo := rd src (2 * i) in
  let* hi := rd src (2 * i + 1) in
  Some (lo + 256 * hi).

Fixpoint pcm16_to_xlaw_loop (n : nat) (i : Z) (linear_to_xlaw : buf) (src dst : buf) : option buf :=
  match n with
  | O => Some dst
  | S n =>
      let* s := sample_at src i in
      let* v := rd linear_to_xlaw s in
      let* dst := wr dst i v in
      pcm16_to_xlaw_loop n (i + 1) linear_to_xlaw src dst
  end.

Definition pcm16_to_xlaw (linear_to_xlaw : buf) (src_length : Z) (src dst : buf) : option buf :=
  pcm16_to_xlaw_loop (Z.to_nat (src_length ÷ 2)) 0 linear_to_xlaw src dst.

Fixpoint xlaw_to_pcm16_loop (n : nat) (i : Z) (xlaw_to_linear : list Z) (src dst : buf)
  : option buf :=
  match n with
  | O => Some dst
  | S n =>
      let* s := rd src i in
      let* v := rd xlaw_to_linear s in
      let* dst := wrn dst (2 * i) [u8 v; u8 (Z.shiftr v 8)] in
      xlaw_to_pcm16_loop n (i + 1) xlaw_to_linear src dst
  end.

Definition xlaw_to_pcm16 (xlaw_to_linear : list Z) (src_length : Z) (src dst : buf) : option buf :=
  xlaw_to_pcm16_loop (Z.to_nat src_length) 0 xlaw_to_linear src dst.

(** The global tables. *)
Record tables := mkTables {
  linear_to_alaw : buf;
  linear_to_ulaw : buf;
  alaw_to_linear : list Z;
  ulaw_to_linear : list Z
}.

Definition pcm16_to_alaw (t : tables) := pcm16_to_xlaw (linear_to_alaw t).
Definition pcm16_to_ulaw (t : tables) := pcm16_to_xlaw (linear_to_ulaw t).
Definition alaw_to_pcm16 (t : tables) := xlaw_to_pcm16 (alaw_to_linear t).
Definition ulaw_to_pcm16 (t : tables) := xlaw_to_pcm16 (ulaw_to_linear t).

Definition pcm16_alaw_tableinit (t : tables) : option tables :=
  let* l := build_linear_to_xlaw_table (linear_to_alaw t) linear2alaw in
  Some (mkTables l (linear_to_ulaw t) (alaw_to_linear t) (ulaw_to_linear t)).
Definition pcm16_ulaw_tableinit (t : tables) : option tables :=
  let* l := build_linear_to_xlaw_table (linear_to_ulaw t) linear2ulaw in
  Some (mkTables (linear_to_alaw t) l (alaw_to_linear t) (ulaw_to_linear t)).
Definition alaw_pcm16_tableinit (t : tables) : option tables :=
  let* l := build_xlaw_to_linear_table (alaw_to_linear t) alaw2linear in
  Some (mkTables (linear_to_alaw t) (linear_to_ulaw t) l (ulaw_to_linear t)).
Definition ulaw_pcm16_tableinit (t : tables) : option tables :=
  let* l := build_xlaw_to_linear_table (ulaw_to_linear t) ulaw2linear in
  Some (mkTables (linear_to_alaw t) (linear_to_ulaw t) (alaw_to_linear t) l).

(** All four, in the order of the source. *)
Definition tableinit (t : tables) : option tables :=
  let* t := pcm16_alaw_tableinit t in
  let* t := pcm16_ulaw_tableinit t in
  let* t := alaw_pcm16_tableinit t in
  ulaw_pcm16_tableinit t.

(** ** Lemmas *)

Abbreviation short x := (-32768 <= x < 32768).

(** What the decoder makes of the code of [x]. *)
Definition quantise (enc : Z -> option Z) (dec : Z -> Z) (x : Z) : Z :=
  match enc x with Some a => dec a | None => 0 end.

(** One pass over all inputs, [w] consecutive ones at a time (the coders drop the
    low bits of a sample): codes are bytes, the decoded value is near each input and
    does not decrease. *)
Section Scan.
Context (enc : Z -> option Z) (dec : Z -> Z) (w : Z) (offsets : list Z).
Hypothesis Hw : 0 < w.
Hypothesis Henc : forall x, enc x = enc (w * (x / w)).
Hypothesis Hoff : offsets = seqZ 0 w.

Definition near (v x : Z) : bool := 32 * Z.abs (x - v) <=? Z.abs x + 256.

Fixpoint scan (n : nat) (y prev : Z) : bool :=
  match n with
  | O => true
  | S n =>
      match enc (w * y) with
      | Some a =>
          let v := dec a in
          if (0 <=? a) && (a <? 256) && (prev <=? v)
             && forallb (fun o => near v (w * y + o)) offsets
          then scan n (y + 1) v else false
      | None => false
      end
  end.

Lemma scan_step n y prev :
  scan (S n) y prev = true ->
  exists a, enc (w * y) = Some a /\ byte a /\ prev <= dec a /\
    (forall x, x / w = y -> near (dec a) x = true) /\ scan n (y + 1) (dec a) = true.
Proof using Hw Hoff.
  cbn [scan]. destruct (enc (w * y)) as [a|]; [|done].
  destruct (_ && _) eqn:E; [|done]. intros H. exists a. rewrite !andb_true_iff in E.
  destruct E as [[[E0 E1] E2] E3]. split; [done|]. split; [unfold is_u; lia|]. split; [lia|].
  split; [|done]. intros x <-. rewrite forallb_forall in E3. rewrite Hoff in E3.
  pose proof (Z.div_mod x w ltac:(lia)) as Hx. pose proof (Z.mod_pos_bound x w Hw).
  rewrite Hx. apply E3, list_elem_of_In, elem_of_seqZ. lia.
Qed.

Lemma scan_spec n : forall y0 prev,
  scan n y0 prev = true ->
  (forall x, y0 <= x / w < y0 + Z.of_nat n ->
     exists a, enc x = Some a /\ byte a /\ near (dec a) x = true /\ prev <= dec a) /\
  (forall x x', y0 <= x / w -> x / w <= x' / w -> x' / w < y0 + Z.of_nat n ->
     quantise enc dec x <= quantise enc dec x').
Proof using Hw Henc Hoff.
  induction n as [|n IH]; intros y0 prev H; [split; intros; lia|].
  destruct (scan_step n y0 prev H) as (a & Ea & Ha & Hp & Hn & Hs).
  destruct (IH _ _ Hs) as [IH1 IH2]. clear IH. split.
  - intros x Hx. destruct (Z.eq_dec (x / w) y0) as [E|].
    + exists a. rewrite Henc, E, Ea. auto.
    + destruct (IH1 x ltac:(lia)) as (b & ? & ? & ? & ?). exists b. split_and!; (done || lia).
  - intros x x' Hx Hxx Hx'. destruct (Z.eq_dec (x / w) y0) as [E|]; [|apply IH2; lia].
    unfold quantise at 1. rewrite Henc, E, Ea. unfold quantise.
    destruct (Z.eq_dec (x' / w) y0) as [E'|].
    + rewrite Henc, E', Ea. lia.
    + destruct (IH1 x' ltac:(lia)) as (b & -> & _ & _ & ?). done.
Qed.
End Scan.

Lemma shiftr_trunc k x : 0 <= k -> Z.shiftr (2 ^ k * (x / 2 ^ k)) k = Z.shiftr x k.
Proof.
  intros Hk. rewrite !Z.shiftr_div_pow2 by done.
  rewrite Z.mul_comm, Z.div_mul; [done|]. apply Z.pow_nonzero; lia.
Qed.

Lemma alaw_scan :
  scan linear2alaw alaw2linear 8 [0; 1; 2; 3; 4; 5; 6; 7] (Z.to_nat 8192) (-4096) (-40000) = true.
Proof. vm_cast_no_check (eq_refl true). Qed.

Lemma ulaw_scan :
  scan linear2ulaw ulaw2linear 4 [0; 1; 2; 3] (Z.to_nat 16384) (-8192) (-40000) = true.
Proof. vm_cast_no_check (eq_refl true). Qed.

Lemma alaw_spec : 
  (forall x, short x -> exists a, linear2alaw x = Some a /\ byte a /\ near (alaw2linear a) x = true) /\
  (forall x y, short x -> short y -> x <= y ->
     quantise linear2alaw alaw2linear x <= quantise linear2alaw alaw2linear y).
Proof.
  assert (forall x, linear2alaw x = linear2alaw (8 * (x / 8))) as He
    by (intros x; change (8 * (x / 8)) with (2 ^ 3 * (x / 2 ^ 3)); unfold linear2alaw; by rewrite (shiftr_trunc 3)).
  destruct (scan_spec linear2alaw alaw2linear 8 _ ltac:(lia) He eq_refl _ _ _ alaw_scan) as [H1 H2].
  assert (forall x, short x -> -4096 <= x / 8 < 4096) as Hr
    by (intros x Hx; split; [apply Z.div_le_lower_bound|apply Z.div_lt_upper_bound]; lia).
  split.
  - intros x Hx. destruct (H1 x) as (a & ? & ? & ? & _); [specialize (Hr x Hx); lia|eauto].
  - intros x y Hx Hy Hxy. pose proof (Hr x Hx). pose proof (Hr y Hy).
    apply H2; [lia|by apply Z.div_le_mono|lia].
Qed.

Lemma ulaw_spec :
  (forall x, short x -> exists a, linear2ulaw x = Some a /\ byte a /\ near (ulaw2linear a) x = true) /\
  (forall x y, short x -> short y -> x <= y ->
     quantise linear2ulaw ulaw2linear x <= quantise linear2ulaw ulaw2linear y).
Proof.
  assert (forall x, linear2ulaw x = linear2ulaw (4 * (x / 4))) as He
    by (intros x; change (4 * (x / 4)) with (2 ^ 2 * (x / 2 ^ 2)); unfold linear2ulaw; by rewrite (shiftr_trunc 2)).
  destruct (scan_spec linear2ulaw ulaw2linear 4 _ ltac:(lia) He eq_refl _ _ _ ulaw_scan) as [H1 H2].
  assert (forall x, short x -> -8192 <= x / 4 < 8192) as Hr
    by (intros x Hx; split; [apply Z.div_le_lower_bound|apply Z.div_lt_upper_bound]; lia).
  split.
  - intros x Hx. destruct (H1 x) as (a & ? & ? & ? & _); [specialize (Hr x Hx); lia|eauto].
  - intros x y Hx Hy Hxy. pose proof (Hr x Hx). pose proof (Hr y Hy).
    apply H2; [lia|by apply Z.div_le_mono|lia].
Qed.

(** ** The tables *)

Lemma build_linear_spec f n : forall i table,
  (forall x, short x -> exists a, f x = Some a /\ byte a) ->
  0 <= i -> i + Z.of_nat n <= zlen table ->
  exists t', build_linear_loop n i table f = Some t' /\ zlen t' = zlen table /\
    forall j, rd t' j = if (i <=? j) && (j <? i + Z.of_nat n) then f (s16 j) else rd table j.
Proof.
  induction n as [|n IH]; intros i table Hf Hi Hn; cbn [build_linear_loop].
  { exists table. split_and!; try done. intros j.
    destruct (Z.leb_spec i j), (Z.ltb_spec j (i + Z.of_nat 0)); simpl; (done || lia). }
  destruct (Hf (s16 i)) as (a & Ea & Ha); [apply (swrap_range 16); lia|]. rewrite Ea.
  destruct (wr_in table i a) as (t1 & E1 & Hl1); [lia|]. rewrite E1.
  destruct (IH (i + 1) t1) as (t' & -> & Hl' & Hr); [done|lia|lia|].
  exists t'. split_and!; [done|lia|]. intros j. rewrite Hr, (rd_wr _ _ _ _ j E1).
  destruct (Z.eqb_spec j i) as [->|].
  - rewrite (proj2 (Z.leb_gt (i + 1) i)) by lia. simpl.
    rewrite (proj2 (Z.leb_le i i)), (proj2 (Z.ltb_lt i _)) by lia. simpl. rewrite Ea.
    by rewrite (uwrap_id 8 a).
  - destruct (Z.leb_spec (i + 1) j), (Z.leb_spec i j), (Z.ltb_spec j (i + 1 + Z.of_nat n)),
      (Z.ltb_spec j (i + Z.of_nat (S n))); simpl; (done || lia).
Qed.

Lemma build_xlaw_spec f n : forall i table,
  0 <= i -> i + Z.of_nat n <= zlen table -> i + Z.of_nat n <= 256 ->
  exists t', build_xlaw_loop n i table f = Some t' /\ zlen t' = zlen table /\
    forall j, rd t' j = if (i <=? j) && (j <? i + Z.of_nat n) then Some (u16 (f j)) else rd table j.
Proof.
  induction n as [|n IH]; intros i table Hi Hn H256; cbn [build_xlaw_loop].
  { exists table. split_and!; try done. intros j.
    destruct (Z.leb_spec i j), (Z.ltb_spec j (i + Z.of_nat 0)); simpl; (done || lia). }
  destruct (rd_in table i) as [x E]; [lia|]. rewrite E.
  set (t1 := <[Z.to_nat i := _]> table).
  assert (zlen t1 = zlen table) as Hl1 by (unfold t1, zlen; by rewrite length_insert).
  assert (forall j, rd t1 j = if j =? i then Some (u16 (f i)) else rd table j) as Hr1.
  { intros j. unfold t1, rd, zlen in *. rewrite (uwrap_id 8 i) by (unfold is_u; lia).
    destruct (Z.eqb_spec j i) as [->|].
    - rewrite (proj2 (Z.leb_le _ _)) by lia. apply list_lookup_insert_eq. lia.
    - destruct (Z.leb_spec 0 j); [|done]. apply list_lookup_insert_ne. lia. }
  destruct (IH (i + 1) t1) as (t' & -> & Hl' & Hr); [lia..|].
  exists t'. split_and!; [done|lia|]. intros j. rewrite Hr, Hr1.
  destruct (Z.eqb_spec j i) as [->|].
  - rewrite (proj2 (Z.leb_gt (i + 1) i)) by lia. simpl.
    by rewrite (proj2 (Z.leb_le i i)), (proj2 (Z.ltb_lt i _)) by lia.
  - destruct (Z.leb_spec (i + 1) j), (Z.leb_spec i j), (Z.ltb_spec j (i + 1 + Z.of_nat n)),
      (Z.ltb_spec j (i + Z.of_nat (S n))); simpl; (done || lia).
Qed.

(** Tables of the declared sizes, as the loader leaves them. *)
Definition wf_tables (t : tables) : Prop :=
  zlen (linear_to_alaw t) = 65536 /\ zlen (linear_to_ulaw t) = 65536 /\
  zlen (alaw_to_linear t) = 256 /\ zlen (ulaw_to_linear t) = 256.

(** The tables hold the values of the coders. *)
Definition built (t : tables) : Prop :=
  (forall i, 0 <= i < 65536 -> rd (linear_to_alaw t) i = linear2alaw (s16 i)) /\
  (forall i, 0 <= i < 65536 -> rd (linear_to_ulaw t) i = linear2ulaw (s16 i)) /\
  (forall i, 0 <= i < 256 -> rd (alaw_to_linear t) i = Some (u16 (alaw2linear i))) /\
  (forall i, 0 <= i < 256 -> rd (ulaw_to_linear t) i = Some (u16 (ulaw2linear i))).

Lemma tableinit_built t : wf_tables t -> exists t', tableinit t = Some t' /\ built t'.
Proof.
  intros (H1 & H2 & H3 & H4).
  unfold tableinit, pcm16_alaw_tableinit, pcm16_ulaw_tableinit, alaw_pcm16_tableinit,
    ulaw_pcm16_tableinit, build_linear_to_xlaw_table, build_xlaw_to_linear_table.
  destruct (build_linear_spec linear2alaw (Z.to_nat 65536) 0 (linear_to_alaw t)) as (t1 & -> & _ & E1);
    [intros x Hx; destruct (proj1 alaw_spec x Hx) as (a & ? & ? & _); eauto|lia|lia|].
  cbn [linear_to_alaw linear_to_ulaw alaw_to_linear ulaw_to_linear].
  destruct (build_linear_spec linear2ulaw (Z.to_nat 65536) 0 (linear_to_ulaw t)) as (t2 & -> & _ & E2);
    [intros x Hx; destruct (proj1 ulaw_spec x Hx) as (a & ? & ? & _); eauto|lia|lia|].
  cbn [linear_to_alaw linear_to_ulaw alaw_to_linear ulaw_to_linear].
  destruct (build_xlaw_spec alaw2linear 256 0 (alaw_to_linear t)) as (t3 & -> & _ & E3); [lia..|].
  cbn [linear_to_alaw linear_to_ulaw alaw_to_linear ulaw_to_linear].
  destruct (build_xlaw_spec ulaw2linear 256 0 (ulaw_to_linear t)) as (t4 & -> & _ & E4); [lia..|].
  eexists; split; [done|]. split_and!; intros i Hi;
    cbn [linear_to_alaw linear_to_ulaw alaw_to_linear ulaw_to_linear];
    rewrite ?E1, ?E2, ?E3, ?E4, (proj2 (Z.leb_le 0 i)), (proj2 (Z.ltb_lt i _)) by lia; done.
Qed.

(** A code's decoded value as the two bytes of a sample. *)
Definition sample_bytes (dec : Z -> Z) (a : Z) : buf :=
  [u8 (u16 (dec a)); u8 (Z.shiftr (u16 (dec a)) 8)].

Lemma xlaw_to_pcm16_spec dec tbl codes : forall i n pre w src,
  (forall a, 0 <= a < 256 -> rd tbl a = Some (u16 (dec a))) ->
  n = length codes -> 0 <= i -> drop (Z.to_nat i) src = codes -> bytes codes ->
  zlen pre = 2 * i -> 2 * zlen codes <= zlen w ->
  xlaw_to_pcm16_loop n i tbl src (pre ++ w)
  = Some (pre ++ concat (map (sample_bytes dec) codes) ++ drop (2 * length codes) w).
Proof.
  induction codes as [|a codes IH]; intros i n pre w src Ht -> Hi Hd Hb Hp Hw;
    cbn [length xlaw_to_pcm16_loop map concat]; [done|].
  assert (rd src i = Some a) as ->.
  { rewrite <- (Z.add_0_r i), rd_drop, Hd by lia. done. }
  inversion Hb as [|? ? [Ha0 Ha1] Hb']; subst. rewrite Ht by lia.
  rewrite wrn_tail by (done || (rewrite zlen_cons in Hw; pose proof (zlen_nonneg codes);
                               change (zlen [_; _]) with 2; lia)).
  rewrite app_assoc. fold (sample_bytes dec a). change (Z.to_nat (zlen [_; _])) with 2%nat.
  rewrite (IH (i + 1) _ _ _ src); try done.
  - rewrite <- !app_assoc, drop_drop. do 4 f_equal. change (Z.to_nat (zlen (sample_bytes dec a))) with 2%nat. f_equal. lia.
  - lia.
  - replace (Z.to_nat (i + 1)) with (Z.to_nat i + 1)%nat by lia. by rewrite <- drop_drop, Hd.
  - rewrite zlen_app. change (zlen (sample_bytes dec a)) with 2. lia.
  - rewrite zlen_cons in Hw. pose proof (zlen_nonneg codes).
    change (zlen (sample_bytes dec a)) with 2. rewrite zlen_drop; lia.
Qed.

Lemma sample_value v : is_u 16 v -> u8 v + 256 * u8 (Z.shiftr v 8) = v.
Proof.
  intros [H0 H1]. unfold uwrap. rewrite Z.shiftr_div_pow2 by lia. change (2 ^ 8) with 256.
  rewrite (Z.mod_small (v / 256)).
  - pose proof (Z.div_mod v 256 ltac:(lia)). lia.
  - split; [apply Z.div_pos; lia|apply Z.div_lt_upper_bound; lia].
Qed.

(** Encoding the samples that decoding produced. *)
Lemma pcm16_to_xlaw_spec enc dec tbl codes : forall i n src rest spre pre w,
  (forall s, 0 <= s < 65536 -> rd tbl s = enc (s16 s)) ->
  (forall a, byte a -> exists b, enc (dec a) = Some b /\ byte b) ->
  (forall a, byte a -> short (dec a)) ->
  n = length codes -> bytes codes -> zlen spre = 2 * i ->
  src = spre ++ concat (map (sample_bytes dec) codes) ++ rest ->
  zlen pre = i -> zlen codes <= zlen w ->
  pcm16_to_xlaw_loop n i tbl src (pre ++ w)
  = Some (pre ++ map (fun a => match enc (dec a) with Some b => b | None => 0 end) codes
          ++ drop (length codes) w).
Proof.
  induction codes as [|a codes IH]; intros i n src rest spre pre w Ht He Hd -> Hb Hs Hsrc Hp Hw;
    cbn [length pcm16_to_xlaw_loop map concat]; [done|].
  inversion Hb as [|? ? Ha Hb']; subst x l. cbn [map concat] in Hsrc.
  pose proof (zlen_nonneg spre). pose proof (zlen_nonneg codes). rewrite zlen_cons in Hw.
  assert (sample_at src i = Some (u16 (dec a))) as ->.
  { unfold sample_at. rewrite Hsrc. rewrite <- (Z.add_0_r (2 * i)) at 1.
    rewrite !(rd_app_r _ _ (2 * i)) by (done || lia).
    change (Some (u8 (u16 (dec a)) + 256 * u8 (Z.shiftr (u16 (dec a)) 8)) = Some (u16 (dec a))).
    f_equal. apply sample_value, is_u_uwrap. lia. }
  pose proof (is_u_uwrap 16 (dec a) ltac:(lia)) as [Hu0 Hu1]. rewrite Ht by lia.
  assert (s16 (u16 (dec a)) = dec a) as ->.
  { pose proof (Hd a Ha). unfold swrap. rewrite uwrap_uwrap by lia. unfold uwrap.
    change (2 ^ 16) with 65536. change (2 ^ (16 - 1)) with 32768.
    destruct (Z.lt_ge_cases (dec a) 0).
    - assert (dec a mod 65536 = dec a + 65536) as -> by
        (symmetry; apply (Z.mod_unique _ _ (-1)); lia).
      rewrite (proj2 (Z.ltb_ge _ _)); lia.
    - rewrite Z.mod_small by lia. rewrite (proj2 (Z.ltb_lt _ _)); lia. }
  destruct (He a Ha) as (b & Eb & Hbb). rewrite Eb.
  destruct w as [|w0 w]; [rewrite zlen_nil in Hw; lia|].
  assert (wr (pre ++ w0 :: w) i b = Some ((pre ++ [b]) ++ w)) as ->.
  { unfold wr. pose proof (zlen_nonneg pre). rewrite (proj2 (Z.leb_le 0 i)) by lia.
    assert (Z.to_nat i = length pre) as -> by (unfold zlen in *; lia).
    rewrite lookup_app_r, Nat.sub_diag by lia. simpl. rewrite insert_app_r_alt by lia.
    rewrite Nat.sub_diag. simpl. rewrite (uwrap_id 8 b) by done. by rewrite <- app_assoc. }
  rewrite (IH (i + 1) _ src rest (spre ++ sample_bytes dec a)); try done.
  - rewrite <- !app_assoc. done.
  - rewrite zlen_app, Hs. change (zlen (sample_bytes dec a)) with 2. lia.
  - by rewrite <- !app_assoc in Hsrc |- *.
  - rewrite zlen_app, Hp. done.
  - rewrite zlen_cons in Hw. lia.
Qed.

Lemma code_values a :
  byte a ->
  linear2alaw (alaw2linear a) = Some a /\
  linear2ulaw (ulaw2linear a) = Some (if a =? 0x7F then 0xFF else a) /\
  short (alaw2linear a) /\ short (ulaw2linear a).
Proof.
  intros Ha.
  set (f := fun a => bool_decide (linear2alaw (alaw2linear a) = Some a)
    && bool_decide (linear2ulaw (ulaw2linear a) = Some (if a =? 0x7F then 0xFF else a))
    && (-32768 <=? alaw2linear a) && (alaw2linear a <? 32768)
    && (-32768 <=? ulaw2linear a) && (ulaw2linear a <? 32768)).
  assert (f a = true) as H by (revert a Ha; apply byte_case; vm_compute; reflexivity).
  unfold f in H. rewrite !andb_true_iff, !bool_decide_eq_true in H.
  destruct H as [[[[[? ?] ?] ?] ?] ?]. cbv beta. split_and!; (done || lia).
Qed.

(** ** Properties *)

(** C31: Every 16-bit sample has an A-law and a mu-law code, and decoding it comes
    back within 1/32 of the sample's magnitude, up to 8. *)
Theorem g711_quantisation_error x :
  -32768 <= x < 32768 ->
  (exists a, linear2alaw x = Some a /\ byte a /\ 32 * Z.abs (x - alaw2linear a) <= Z.abs x + 256) /\
  (exists u, linear2ulaw x = Some u /\ byte u /\ 32 * Z.abs (x - ulaw2linear u) <= Z.abs x + 256).
Proof.
  intros Hx. destruct (proj1 alaw_spec x Hx) as (a & ? & ? & Ha).
  destruct (proj1 ulaw_spec x Hx) as (u & ? & ? & Hu).
  split; [exists a|exists u]; (split_and!; [done..|]); by apply Z.leb_le.
Qed.

Lemma g711_quantisation_error_witness :
  -32768 <= -12345 < 32768 /\
  (exists a, linear2alaw (-12345) = Some a /\ byte a /\
     32 * Z.abs (-12345 - alaw2linear a) <= Z.abs (-12345) + 256) /\
  (exists u, linear2ulaw (-12345) = Some u /\ byte u /\
     32 * Z.abs (-12345 - ulaw2linear u) <= Z.abs (-12345) + 256).
Proof. split; [lia|]. apply (g711_quantisation_error (-12345)). lia. Defined.

(** Companding keeps the order of samples: a larger sample never decodes to a
    smaller value. *)
Theorem g711_monotone x y :
  -32768 <= x -> x <= y -> y < 32768 ->
  (exists a b, linear2alaw x = Some a /\ linear2alaw y = Some b /\ alaw2linear a <= alaw2linear b) /\
  (exists a b, linear2ulaw x = Some a /\ linear2ulaw y = Some b /\ ulaw2linear a <= ulaw2linear b).
Proof.
  intros Hx Hxy Hy.
  pose proof (proj2 alaw_spec x y ltac:(lia) ltac:(lia) Hxy) as Ma.
  pose proof (proj2 ulaw_spec x y ltac:(lia) ltac:(lia) Hxy) as Mu.
  destruct (proj1 alaw_spec x ltac:(lia)) as (a & Ea & _), (proj1 alaw_spec y ltac:(lia)) as (b & Eb & _).
  destruct (proj1 ulaw_spec x ltac:(lia)) as (c & Ec & _), (proj1 ulaw_spec y ltac:(lia)) as (d & Ed & _).
  unfold quantise in *. rewrite Ea, Eb in Ma. rewrite Ec, Ed in Mu. split; eauto 10.
Qed.

Lemma g711_monotone_witness :
  (exists a b, linear2alaw (-5) = Some a /\ linear2alaw 900 = Some b /\ alaw2linear a <= alaw2linear b) /\
  (exists a b, linear2ulaw (-5) = Some a /\ linear2ulaw 900 = Some b /\ ulaw2linear a <= ulaw2linear b).
Proof. apply (g711_monotone (-5) 900); lia. Defined.

(** Decoding and encoding a code gives the code back: every A-law code, and
    every mu-law code but 0x7F, the negative zero, which becomes 0xFF. *)
Theorem g711_code_roundtrip a :
  byte a ->
  linear2alaw (alaw2linear a) = Some a /\
  linear2ulaw (ulaw2linear a) = Some (if a =? 0x7F then 0xFF else a).
Proof. intros Ha. destruct (code_values a Ha) as (? & ? & _). done. Qed.

Lemma g711_code_roundtrip_witness :
  linear2alaw (alaw2linear 0x2B) = Some 0x2B /\ linear2ulaw (ulaw2linear 0x2B) = Some 0x2B.
Proof. apply (g711_code_roundtrip 0x2B). split; [discriminate|reflexivity]. Defined.

(** The direct conversions between the laws read inside their tables for every
    code, yield a byte, keep the sign, and move the value by at most 1/32 of its
    magnitude, up to 8. *)
Theorem g711_direct_conversion a :
  byte a ->
  (exists u, alaw2ulaw a = Some u /\ byte u /\
     Z.testbit u 7 = Z.testbit a 7 /\
     32 * Z.abs (ulaw2linear u - alaw2linear a) <= Z.abs (alaw2linear a) + 256) /\
  (exists b, ulaw2alaw a = Some b /\ byte b /\
     Z.testbit b 7 = Z.testbit a 7 /\
     32 * Z.abs (alaw2linear b - ulaw2linear a) <= Z.abs (ulaw2linear a) + 256).
Proof.
  intros Ha.
  set (ok := fun (conv : Z -> option Z) (d1 d2 : Z -> Z) a =>
    match conv a with
    | Some u => (0 <=? u) && (u <? 256) && Bool.eqb (Z.testbit u 7) (Z.testbit a 7)
                && (32 * Z.abs (d2 u - d1 a) <=? Z.abs (d1 a) + 256)
    | None => false
    end).
  assert (forall conv d1 d2, ok conv d1 d2 a = true ->
    exists u, conv a = Some u /\ byte u /\ Z.testbit u 7 = Z.testbit a 7 /\
      32 * Z.abs (d2 u - d1 a) <= Z.abs (d1 a) + 256) as Hok.
  { intros conv d1 d2 H. unfold ok in H. destruct (conv a) as [u|]; [|done]. exists u.
    rewrite !andb_true_iff, Bool.eqb_true_iff in H. destruct H as [[[? ?] ?] ?].
    unfold is_u. split_and!; (done || lia). }
  split; apply Hok; revert a Ha Hok; intros a Ha _; revert a Ha; apply byte_case; vm_compute; reflexivity.
Qed.

Lemma g711_direct_conversion_witness :
  (exists u, alaw2ulaw 0x91 = Some u /\ byte u /\
     Z.testbit u 7 = Z.testbit 0x91 7 /\
     32 * Z.abs (ulaw2linear u - alaw2linear 0x91) <= Z.abs (alaw2linear 0x91) + 256) /\
  (exists b, ulaw2alaw 0x91 = Some b /\ byte b /\
     Z.testbit b 7 = Z.testbit 0x91 7 /\
     32 * Z.abs (alaw2linear b - ulaw2linear 0x91) <= Z.abs (ulaw2linear 0x91) + 256).
Proof. apply (g711_direct_conversion 0x91). split; [discriminate|reflexivity]. Defined.

(** The table-driven conversions: once the four tables are built, expanding any
    string of A-law codes to 16-bit samples and compressing the samples again gives
    the same string, and for mu-law the same string with 0x7F replaced by 0xFF;
    nothing beyond the samples and codes is written. *)
Theorem g711_table_transcoding t codes dst dst' :
  wf_tables t -> bytes codes -> 2 * zlen codes <= zlen dst -> zlen codes <= zlen dst' ->
  exists t', tableinit t = Some t' /\
    (exists pcm, alaw_to_pcm16 t' (zlen codes) codes dst = Some pcm /\ zlen pcm = zlen dst /\
       pcm16_to_alaw t' (2 * zlen codes) pcm dst' = Some (codes ++ drop (length codes) dst')) /\
    (exists pcm, ulaw_to_pcm16 t' (zlen codes) codes dst = Some pcm /\ zlen pcm = zlen dst /\
       pcm16_to_ulaw t' (2 * zlen codes) pcm dst'
       = Some (map (fun a => if a =? 0x7F then 0xFF else a) codes ++ drop (length codes) dst')).
Proof.
  intros Ht Hb Hd Hd'. destruct (tableinit_built t Ht) as (t' & -> & B1 & B2 & B3 & B4).
  exists t'. split; [done|]. pose proof (zlen_nonneg codes).
  assert (forall dec, zlen (concat (map (sample_bytes dec) codes) ++ drop (2 * length codes) dst) = zlen dst)
    as Hz.
  { intros dec. assert (zlen (concat (map (sample_bytes dec) codes)) = 2 * zlen codes) as E.
    { clear. induction codes as [|a l IH]; [done|]. cbn [map concat]. rewrite zlen_app, IH, zlen_cons.
      change (zlen (sample_bytes dec a)) with 2. lia. }
    rewrite zlen_app, E. unfold zlen in *. rewrite length_drop. lia. }
  unfold alaw_to_pcm16, pcm16_to_alaw, ulaw_to_pcm16, pcm16_to_ulaw, xlaw_to_pcm16, pcm16_to_xlaw.
  replace (2 * zlen codes ÷ 2) with (zlen codes)
    by (rewrite Z.mul_comm, Z.quot_mul by lia; done).
  replace (Z.to_nat (zlen codes)) with (length codes) by (unfold zlen; lia).
  split.
  - eexists. split; [|split; [apply (Hz alaw2linear)|]].
    + by apply (xlaw_to_pcm16_spec alaw2linear _ codes 0 _ [] dst).
    + rewrite <- (app_nil_l dst') at 1.
      rewrite (pcm16_to_xlaw_spec linear2alaw alaw2linear _ codes 0 _ _ (drop (2 * length codes) dst) []);
        try done.
      * rewrite app_nil_l. do 2 f_equal. rewrite <- (map_id codes) at 2.
        apply map_ext_in. intros a Hin. apply list_elem_of_In in Hin.
        pose proof (proj1 (List.Forall_forall _ _) Hb a (proj1 (list_elem_of_In _ _) Hin)) as Ha.
        by rewrite (proj1 (code_values a Ha)).
      * intros a Ha. exists a. split; [apply code_values, Ha|done].
      * intros a Ha. by apply code_values.
  - eexists. split; [|split; [apply (Hz ulaw2linear)|]].
    + by apply (xlaw_to_pcm16_spec ulaw2linear _ codes 0 _ [] dst).
    + rewrite <- (app_nil_l dst') at 1.
      rewrite (pcm16_to_xlaw_spec linear2ulaw ulaw2linear _ codes 0 _ _ (drop (2 * length codes) dst) []);
        try done.
      * rewrite app_nil_l. do 2 f_equal.
        apply map_ext_in. intros a Hin. apply list_elem_of_In in Hin.
        pose proof (proj1 (List.Forall_forall _ _) Hb a (proj1 (list_elem_of_In _ _) Hin)) as Ha.
        by rewrite (proj1 (proj2 (code_values a Ha))).
      * intros a Ha. eexists. split; [apply code_values, Ha|].
        case_match; [split; [discriminate|reflexivity]|done].
      * intros a Ha. by apply code_values.
Qed.

Lemma g711_table_transcoding_witness :
  let t := mkTables (replicate (Z.to_nat 65536) 0) (replicate (Z.to_nat 65536) 0)
             (replicate 256 0) (replicate 256 0) in
  exists t', tableinit t = Some t' /\
    (exists pcm, alaw_to_pcm16 t' 3 [0; 0x7F; 200] (replicate 8 1) = Some pcm /\ zlen pcm = 8 /\
       pcm16_to_alaw t' (2 * 3) pcm (replicate 4 1) = Some ([0; 0x7F; 200] ++ [1])) /\
    (exists pcm, ulaw_to_pcm16 t' 3 [0; 0x7F; 200] (replicate 8 1) = Some pcm /\ zlen pcm = 8 /\
       pcm16_to_ulaw t' (2 * 3) pcm (replicate 4 1) = Some ([0; 0xFF; 200] ++ [1])).
Proof.
  apply (g711_table_transcoding _ [0; 0x7F; 200] (replicate 8 1) (replicate 4 1)).
  - split; [|split; [|split; reflexivity]];
      cbn [linear_to_alaw linear_to_ulaw]; rewrite zlen_replicate; rewrite Z2Nat.id; (lia || reflexivity).
  - apply bytes_check. reflexivity.
  - vm_compute. discriminate.
  - vm_compute. discriminate.
Defined.
