(* ===== verification/Amf.v ===== *)
(** The AMF0 and AMF3 codec of librtmp: the model of
    src/protocol/rtmp/rtmpdump-master/librtmp/amf.c (types in amf.h). *)

From stdpp Require Import base list option numbers strings.
From S2P Require Import Prelude CMem TypeDefs.

Local Open Scope Z_scope.
Open Scope c_scope.

(** ** Types (amf.h) *)

Definition AMF_NUMBER : Z := 0.
Definition AMF_BOOLEAN : Z := 1.
Definition AMF_STRING : Z := 2.
Definition AMF_OBJECT : Z := 3.
Definition AMF_MOVIECLIP : Z := 4.
Definition AMF_NULL : Z := 5.
Definition AMF_UNDEFINED : Z := 6.
Definition AMF_REFERENCE : Z := 7.
Definition AMF_ECMA_ARRAY : Z := 8.
Definition AMF_OBJECT_END : Z := 9.
Definition AMF_STRICT_ARRAY : Z := 10.
Definition AMF_DATE : Z := 11.
Definition AMF_LONG_STRING : Z := 12.
Definition AMF_UNSUPPORTED : Z := 13.
Definition AMF_RECORDSET : Z := 14.
Definition AMF_XML_DOC : Z := 15.
Definition AMF_TYPED_OBJECT : Z := 16.
Definition AMF_AVMPLUS : Z := 17.
Definition AMF_INVALID : Z := 0xff.

Definition AMF3_UNDEFINED : Z := 0.
Definition AMF3_NULL : Z := 1.
Definition AMF3_FALSE : Z := 2.
Definition AMF3_TRUE : Z := 3.
Definition AMF3_INTEGER : Z := 4.
Definition AMF3_DOUBLE : Z := 5.
Definition AMF3_STRING : Z := 6.
Definition AMF3_XML_DOC : Z := 7.
Definition AMF3_DATE : Z := 8.
Definition AMF3_ARRAY : Z := 9.
Definition AMF3_OBJECT : Z := 10.
Definition AMF3_XML : Z := 11.
Definition AMF3_BYTE_ARRAY : Z := 12.

(** A string: the [av_len] bytes from the pointer on, as far as the buffer they lie
    in reaches ([None] is [NULL]). *)
Record AVal := mkAVal { av_val : option buf; av_len : Z }.

Definition AV_empty : AVal := mkAVal None 0.

(** A property; the union holds a number (the bits of the [double]), a string or an
    object, or nothing was stored in it yet, or it is static and all its bytes are 0.  An object is the array of its
    properties, which [AMF_AddProp] extends. *)
Inductive AMFObjectProperty :=
  AMFProp (p_name : AVal) (p_type : Z) (p_vu : AMFValue) (p_UTCoffset : option Z)
with AMFValue :=
  Uninit | Zeroed | Number (d : Z) | Str (v : AVal) | Obj (o : list AMFObjectProperty).

Abbreviation AMFObject := (list AMFObjectProperty).

Definition p_name (p : AMFObjectProperty) : AVal := let '(AMFProp n _ _ _) := p in n.
Definition p_type (p : AMFObjectProperty) : Z := let '(AMFProp _ t _ _) := p in t.
Definition p_vu (p : AMFObjectProperty) : AMFValue := let '(AMFProp _ _ v _) := p in v.
Definition p_UTCoffset (p : AMFObjectProperty) : option Z := let '(AMFProp _ _ _ u) := p in u.

Definition set_p_name n p := AMFProp n (p_type p) (p_vu p) (p_UTCoffset p).
Definition set_p_type t p := AMFProp (p_name p) t (p_vu p) (p_UTCoffset p).
Definition set_p_vu v p := AMFProp (p_name p) (p_type p) v (p_UTCoffset p).
Definition set_p_UTCoffset u p := AMFProp (p_name p) (p_type p) (p_vu p) (Some u).

Definition AMFProp_Invalid : AMFObjectProperty := AMFProp AV_empty AMF_INVALID Zeroed (Some 0).

(** A local variable before anything is stored in it; the name is set first. *)
Definition uninit_prop : AMFObjectProperty := AMFProp AV_empty AMF_INVALID Uninit None.

(** ** Doubles

    The IEEE 754 bits of an integer of at most 53 bits, and the test [d != 0]. *)
Definition double_of_int (n : Z) : Z :=
  if n =? 0 then 0
  else
    let a := Z.abs n in
    let e := Z.log2 a in
    (if n <? 0 then 2 ^ 63 else 0) + (1023 + e) * 2 ^ 52 + (a * 2 ^ (52 - e) - 2 ^ 52).

Definition double_nonzero (d : Z) : bool := negb (Z.land d (2 ^ 63 - 1) =? 0).

(** ** Reading: positions are offsets in the buffer [b] *)

Definition AMF_DecodeInt16 (b : buf) (p : Z) : outcome Z :=
  lift (let* c0 := rd b p in
        let* c1 := rd b (p + 1) in
        Some (Z.lor (Z.shiftl c0 8) c1)).

Definition AMF_DecodeInt24 (b : buf) (p : Z) : outcome Z :=
  lift (let* c0 := rd b p in
        let* c1 := rd b (p + 1) in
        let* c2 := rd b (p + 2) in
        Some (Z.lor (Z.lor (Z.shiftl c0 16) (Z.shiftl c1 8)) c2)).

Definition AMF_DecodeInt32 (b : buf) (p : Z) : outcome Z :=
  lift (let* c0 := rd b p in
        let* c1 := rd b (p + 1) in
        let* c2 := rd b (p + 2) in
        let* c3 := rd b (p + 3) in
        Some (Z.lor (Z.lor (Z.lor (Z.shiftl c0 24) (Z.shiftl c1 16)) (Z.shiftl c2 8)) c3)).

(** [n] bytes from [p] on, as far as the buffer reaches. *)
Definition bytes_at (b : buf) (p n : Z) : buf := take (Z.to_nat n) (drop (Z.to_nat p) b).

Definition AMF_DecodeString (b : buf) (p : Z) : outcome AVal :=
  let! n := AMF_DecodeInt16 b p in
  Done (mkAVal (if 0 <? n then Some (bytes_at b (p + 2) n) else None) n).

Definition AMF_DecodeLongString (b : buf) (p : Z) : outcome AVal :=
  let! n := AMF_DecodeInt32 b p in
  let n := s32 n in
  Done (mkAVal (if 0 <? n then Some (bytes_at b (p + 4) n) else None) n).

(** The eight bytes of a big-endian double, as its bits. *)
Definition AMF_DecodeNumber (b : buf) (p : Z) : outcome Z :=
  lift (let* ci := rdn b p 8 in
        Some (fold_left (fun acc c => acc * 256 + c) ci 0)).

Definition AMF_DecodeBoolean (b : buf) (p : Z) : outcome Z :=
  lift (let* c := rd b p in Some (if c =? 0 then 0 else 1)).

(** ** Writing

    [w] is what [output] points to and [room] is [outend - output].  The result is
    how far the pointer moved ([None] for [NULL]) and the bytes; [None] outside is
    undefined behaviour. *)

Definition enc_result : Type := option (option Z * buf).

Definition AMF_EncodeInt16 (w : buf) (room nVal : Z) : enc_result :=
  if room <? 2 then Some (None, w) else
  let* w := wr w 1 (Z.land nVal 0xff) in
  let* w := wr w 0 (Z.shiftr nVal 8) in
  Some (Some 2, w).

Definition AMF_EncodeInt24 (w : buf) (room nVal : Z) : enc_result :=
  if room <? 3 then Some (None, w) else
  let* w := wr w 2 (Z.land nVal 0xff) in
  let* w := wr w 1 (Z.shiftr nVal 8) in
  let* w := wr w 0 (Z.shiftr nVal 16) in
  Some (Some 3, w).

Definition AMF_EncodeInt32 (w : buf) (room nVal : Z) : enc_result :=
  if room <? 4 then Some (None, w) else
  let* w := wr w 3 (Z.land nVal 0xff) in
  let* w := wr w 2 (Z.shiftr nVal 8) in
  let* w := wr w 1 (Z.shiftr nVal 16) in
  let* w := wr w 0 (Z.shiftr nVal 24) in
  Some (Some 4, w).

(** [memcpy] of a string: nothing is read through [NULL] when the length is 0. *)
Definition copy_aval (w : buf) (off : Z) (v : AVal) : option buf :=
  if av_len v =? 0 then Some w else
  let* src := av_val v in
  let* data := rdn src 0 (av_len v) in
  wrn w off data.

(** Continuing at [output + off] with [room - off]; a [NULL] pointer must not be
    written through. *)
Definition enc_then (w : buf) (off room : Z) (f : buf -> Z -> enc_result) : enc_result :=
  let* (r, w) := at_off w off (fun w => f w (room - off)) in
  Some (match r with Some n => Some (off + n) | None => None end, w).

Definition AMF_EncodeString (w : buf) (room : Z) (bv : AVal) : enc_result :=
  if ((av_len bv <? 65536) && (room <? 1 + 2 + av_len bv)) || (room <? 1 + 4 + av_len bv)
  then Some (None, w) else
  let* (r, w) :=
    (if av_len bv <? 65536 then
       let* w := wr w 0 AMF_STRING in
       enc_then w 1 room (fun w r => AMF_EncodeInt16 w r (s16 (av_len bv)))
     else
       let* w := wr w 0 AMF_LONG_STRING in
       enc_then w 1 room (fun w r => AMF_EncodeInt32 w r (av_len bv))) in
  let* off := r in
  let* w := copy_aval w off bv in
  Some (Some (off + av_len bv), w).

(** The bytes of a double, the most significant first. *)
Definition double_bytes (d : Z) : buf :=
  [u8 (Z.shiftr d 56); u8 (Z.shiftr d 48); u8 (Z.shiftr d 40); u8 (Z.shiftr d 32);
   u8 (Z.shiftr d 24); u8 (Z.shiftr d 16); u8 (Z.shiftr d 8); u8 d].

Definition AMF_EncodeNumber (w : buf) (room dVal : Z) : enc_result :=
  if room <? 1 + 8 then Some (None, w) else
  let* w := wr w 0 AMF_NUMBER in
  let* w := wrn w 1 (double_bytes dVal) in
  Some (Some 9, w).

Definition AMF_EncodeBoolean (w : buf) (room : Z) (bVal : bool) : enc_result :=
  if room <? 2 then Some (None, w) else
  let* w := wr w 0 AMF_BOOLEAN in
  let* w := wr w 1 (if bVal then 0x01 else 0x00) in
  Some (Some 2, w).

(** The name in front of a value. *)
Definition encode_name (w : buf) (room : Z) (strName : AVal)
    (f : buf -> Z -> enc_result) : enc_result :=
  if room <? 2 + av_len strName then Some (None, w) else
  let* (r, w) := AMF_EncodeInt16 w room (s16 (av_len strName)) in
  let* off := r in
  let* w := copy_aval w off strName in
  enc_then w (off + av_len strName) room f.

Definition AMF_EncodeNamedString w room strName strValue :=
  encode_name w room strName (fun w r => AMF_EncodeString w r strValue).
Definition AMF_EncodeNamedNumber w room strName dVal :=
  encode_name w room strName (fun w r => AMF_EncodeNumber w r dVal).
Definition AMF_EncodeNamedBoolean w room strName bVal :=
  encode_name w room strName (fun w r => AMF_EncodeBoolean w r bVal).

(** ** Properties *)

Definition AMFProp_GetName (p : AMFObjectProperty) : AVal := p_name p.
Definition AMFProp_SetName (p : AMFObjectProperty) (name : AVal) : AMFObjectProperty :=
  set_p_name name p.
Definition AMFProp_GetType (p : AMFObjectProperty) : Z := p_type p.
(** Reading another member of the union than the one stored is not modelled. *)
Definition AMFProp_GetNumber (p : AMFObjectProperty) : option Z :=
  match p_vu p with Number d => Some d | Zeroed => Some 0 | _ => None end.
Definition AMFProp_GetBoolean (p : AMFObjectProperty) : option bool :=
  match p_vu p with Number d => Some (double_nonzero d) | Zeroed => Some false | _ => None end.
Definition AMFProp_GetString (p : AMFObjectProperty) : option AVal :=
  match p_vu p with Str v => Some v | Zeroed => Some AV_empty | _ => None end.
Definition AMFProp_GetObject (p : AMFObjectProperty) : option AMFObject :=
  match p_vu p with Obj o => Some o | Zeroed => Some [] | _ => None end.
Definition AMFProp_IsValid (p : AMFObjectProperty) : bool := negb (p_type p =? AMF_INVALID).

Definition AMF_AddProp (obj : AMFObject) (p : AMFObjectProperty) : AMFObject := obj ++ [p].
Definition AMF_CountProp (obj : AMFObject) : Z := zlen obj.

(** [AVMATCH], where a comparison reads [av_len] bytes of both strings. *)
Definition AVMATCH (a1 a2 : AVal) : option bool :=
  if negb (av_len a1 =? av_len a2) then Some false else
  if av_len a1 =? 0 then Some true else
  let* s1 := av_val a1 in
  let* s2 := av_val a2 in
  let* d1 := rdn s1 0 (av_len a1) in
  let* d2 := rdn s2 0 (av_len a1) in
  Some (bool_decide (d1 = d2)).

Fixpoint find_prop (obj : AMFObject) (name : AVal) : option AMFObjectProperty :=
  match obj with
  | [] => Some AMFProp_Invalid
  | p :: obj =>
      let* m := AVMATCH (p_name p) name in
      if m then Some p else find_prop obj name
  end.

Definition AMF_GetProp (obj : AMFObject) (name : AVal) (nIndex : Z) : option AMFObjectProperty :=
  if 0 <=? nIndex then
    match aget obj nIndex with Some p => Some p | None => Some AMFProp_Invalid end
  else find_prop obj name.

(** Resetting releases the properties of an object; the property is invalid then. *)
Definition AMFProp_Reset (p : AMFObjectProperty) : AMFObjectProperty :=
  if p_type p =? AMF_OBJECT then set_p_type AMF_INVALID (set_p_vu (Obj []) p)
  else set_p_type AMF_INVALID (set_p_vu (Str AV_empty) p).
Definition AMF_Reset (obj : AMFObject) : AMFObject := [].

(** ** Encoding properties and objects

    [encode_props] is the loop of the three object encoders: it stops at the first
    property that cannot be encoded.  [pe] encodes one property. *)

Fixpoint encode_props (pe : AMFObjectProperty -> buf -> Z -> enc_result)
    (obj : AMFObject) (off room : Z) (w : buf) : option (Z * buf) :=
  match obj with
  | [] => Some (off, w)
  | p :: obj =>
      let* (r, w) := at_off w off (fun w => pe p w (room - off)) in
      match r with
      | None => Some (off, w)
      | Some n => encode_props pe obj (off + n) room w
      end
  end.

(** No room for the end marker makes the call fail. *)
Definition end_marker (off room : Z) (w : buf) : enc_result :=
  if room - off <=? 3 then Some (None, w) else
  enc_then w off room (fun w r => AMF_EncodeInt24 w r AMF_OBJECT_END).

Definition AMF_Encode_with pe (obj : AMFObject) (w : buf) (room : Z) : enc_result :=
  if room <=? 4 then Some (None, w) else
  let* w := wr w 0 AMF_OBJECT in
  let* (off, w) := encode_props pe obj 1 room w in
  end_marker off room w.

(** The number of properties after the type byte. *)
Definition encode_count (type : Z) (obj : AMFObject) (w : buf) (room : Z) : enc_result :=
  let* w := wr w 0 type in
  enc_then w 1 room (fun w r => AMF_EncodeInt32 w r (zlen obj)).

Definition AMF_EncodeEcmaArray_with pe (obj : AMFObject) (w : buf) (room : Z) : enc_result :=
  if room <=? 4 then Some (None, w) else
  let* (r, w) := encode_count AMF_ECMA_ARRAY obj w room in
  let* off := r in
  let* (off, w) := encode_props pe obj off room w in
  end_marker off room w.

Definition AMF_EncodeArray_with pe (obj : AMFObject) (w : buf) (room : Z) : enc_result :=
  if room <=? 4 then Some (None, w) else
  let* (r, w) := encode_count AMF_STRICT_ARRAY obj w room in
  let* off := r in
  let* (off, w) := encode_props pe obj off room w in
  Some (Some off, w).

(** The value of a property, after its name. *)
Definition encode_value pe (p : AMFObjectProperty) (w : buf) (room : Z) : enc_result :=
  let t := p_type p in
  if t =? AMF_NUMBER then
    match p_vu p with Number d => AMF_EncodeNumber w room d | _ => None end
  else if t =? AMF_BOOLEAN then
    match p_vu p with Number d => AMF_EncodeBoolean w room (double_nonzero d) | _ => None end
  else if t =? AMF_STRING then
    match p_vu p with Str v => AMF_EncodeString w room v | _ => None end
  else if t =? AMF_NULL then
    if room <=? 1 then Some (None, w) else
    let* w := wr w 0 AMF_NULL in Some (Some 1, w)
  else if t =? AMF_OBJECT then
    match p_vu p with Obj o => AMF_Encode_with pe o w room | _ => None end
  else if t =? AMF_ECMA_ARRAY then
    match p_vu p with Obj o => AMF_EncodeEcmaArray_with pe o w room | _ => None end
  else if t =? AMF_STRICT_ARRAY then
    match p_vu p with Obj o => AMF_EncodeArray_with pe o w room | _ => None end
  else Some (None, w).

(** [depth] bounds the nesting of objects. *)
Fixpoint AMFProp_Encode (depth : nat) (p : AMFObjectProperty) (w : buf) (room : Z) : enc_result :=
  match depth with
  | O => None
  | S depth =>
      if p_type p =? AMF_INVALID then Some (None, w) else
      if negb (p_type p =? AMF_NULL) && (room <=? av_len (p_name p) + 2 + 1)
      then Some (None, w) else
      if negb (p_type p =? AMF_NULL) && negb (av_len (p_name p) =? 0) then
        let* w := wr w 0 (Z.shiftr (av_len (p_name p)) 8) in
        let* w := wr w 1 (Z.land (av_len (p_name p)) 0xff) in
        let* w := copy_aval w 2 (p_name p) in
        enc_then w (2 + av_len (p_name p)) room (encode_value (AMFProp_Encode depth) p)
      else encode_value (AMFProp_Encode depth) p w room
  end.

Definition AMF_Encode (depth : nat) := AMF_Encode_with (AMFProp_Encode depth).
Definition AMF_EncodeEcmaArray (depth : nat) := AMF_EncodeEcmaArray_with (AMFProp_Encode depth).
Definition AMF_EncodeArray (depth : nat) := AMF_EncodeArray_with (AMFProp_Encode depth).

(** ** AMF3 *)

Definition AMF3_INTEGER_MAX : Z := 268435455.

(** The first three bytes, while their top bit is set: [i] and [val] after the
    loop. *)
Fixpoint amf3_int_loop (n : nat) (b : buf) (p i val : Z) : outcome (Z * Z) :=
  match n with
  | O => Done (i, val)
  | S n =>
      let! c := lift (rd b (p + i)) in
      if truthy (Z.land c 0x80)
      then amf3_int_loop n b p (i + 1) (Z.lor (Z.shiftl val 7) (Z.land c 0x7f))
      else Done (i, val)
  end.

(** The length and the value; [data\[3\]] is a signed [char]. *)
Definition AMF3ReadInteger (b : buf) (p : Z) : outcome (Z * Z) :=
  let! (i, val) := amf3_int_loop 3 b p 0 0 in
  if 2 <? i then
    let! c := lift (rd b (p + 3)) in
    let val := Z.lor (Z.shiftl val 8) (s8 c) in
    Done (4, if AMF3_INTEGER_MAX <? val then val - Z.shiftl 1 29 else val)
  else
    let! c := lift (rd b (p + i)) in
    Done (i + 1, Z.lor (Z.shiftl val 7) (s8 c)).

(** The length, and the string unless it is a reference (then it is left alone). *)
Definition AMF3ReadString (b : buf) (p : Z) : outcome (Z * option AVal) :=
  let! (len, ref) := AMF3ReadInteger b p in
  if Z.land ref 1 =? 0 then Done (len, None)
  else
    let nSize := s32 (Z.shiftr ref 1) in
    Done (s32 (len + nSize), Some (mkAVal (Some (bytes_at b (p + len) nSize)) nSize)).

(** Class definitions: [cd_cap] entries are allocated. *)
Record AMF3ClassDef := mkClassDef {
  cd_name : AVal;
  cd_externalizable : bool;
  cd_dynamic : bool;
  cd_num : Z;
  cd_cap : Z;
  cd_props : list (Z * AVal)
}.

Definition AMF3CD_AddProp (cd : AMF3ClassDef) (prop : AVal) : outcome AMF3ClassDef :=
  let cap := if Z.land (cd_num cd) 0x0f =? 0 then cd_num cd + 16 else cd_cap cd in
  if (0 <=? cd_num cd) && (cd_num cd <? cap) then
    Done (mkClassDef (cd_name cd) (cd_externalizable cd) (cd_dynamic cd) (cd_num cd + 1) cap
            ((cd_num cd, prop) :: cd_props cd))
  else Undef.

Definition AMF3CD_GetProp (cd : AMF3ClassDef) (nIndex : Z) : outcome AVal :=
  if cd_num cd <=? nIndex then Done AV_empty
  else match find (fun '(i, _) => i =? nIndex) (cd_props cd) with
       | Some (_, v) => Done v
       | None => Undef
       end.

(** Decodes one property into [prop], which keeps what is not stored. *)
Definition prop_decoder : Type :=
  AMFObjectProperty -> buf -> Z -> Z -> bool -> outcome (Z * AMFObjectProperty).

(** The member names; [cd_num] grows with every name that is added. *)
Fixpoint amf3_members_loop (fuel : nat) (i : Z) (cd : AMF3ClassDef) (b : buf) (p nSize : Z)
  : outcome (AMF3ClassDef * Z * Z) :=
  if i <? cd_num cd then
    match fuel with
    | O => Unfinished
    | S fuel =>
        let! (len, name) := AMF3ReadString b p in
        let! memberName := lift name in
        let! cd := AMF3CD_AddProp cd memberName in
        amf3_members_loop fuel (i + 1) cd b (p + len) (nSize - len)
    end
  else Done (cd, p, nSize).

Fixpoint amf3_sealed_loop (pd : prop_decoder) (n : nat) (i : Z) (cd : AMF3ClassDef)
    (prop : AMFObjectProperty) (obj : AMFObject) (b : buf) (p nSize : Z)
  : outcome (AMFObjectProperty * AMFObject * Z * Z) :=
  match n with
  | O => Done (prop, obj, p, nSize)
  | S n =>
      let! (nRes, prop) := pd prop b p nSize false in
      let! name := AMF3CD_GetProp cd i in
      let prop := AMFProp_SetName prop name in
      amf3_sealed_loop pd n (i + 1) cd prop (AMF_AddProp obj prop) b (p + nRes) (nSize - nRes)
  end.

Fixpoint amf3_dynamic_loop (pd : prop_decoder) (fuel : nat) (prop : AMFObjectProperty)
    (obj : AMFObject) (b : buf) (p nSize : Z) : outcome (AMFObject * Z) :=
  match fuel with
  | O => Unfinished
  | S fuel =>
      let! (nRes, prop) := pd prop b p nSize true in
      let obj := AMF_AddProp obj prop in
      if 0 <? av_len (p_name prop)
      then amf3_dynamic_loop pd fuel prop obj b (p + nRes) (nSize - nRes)
      else Done (obj, nSize - nRes)
  end.

(** ["DEFAULT_ATTRIBUTE"] *)
Definition default_attribute : AVal :=
  mkAVal (Some [68; 69; 70; 65; 85; 76; 84; 95; 65; 84; 84; 82; 73; 66; 85; 84; 69]) 17.

(** Traits of a class that is not a reference. *)
Definition amf3_class (fuel : nat) (classRef : Z) (b : buf) (p nSize : Z)
  : outcome (AMF3ClassDef * Z * Z) :=
  let cd := mkClassDef AV_empty false false 0 0 [] in
  if Z.land classRef 1 =? 0 then Done (cd, p, nSize)
  else
    let classExtRef := Z.shiftr classRef 1 in
    let! (len, name) := AMF3ReadString b p in
    let cd := mkClassDef (match name with Some v => v | None => AV_empty end)
                (Z.land classExtRef 1 =? 1) (Z.land (Z.shiftr classExtRef 1) 1 =? 1)
                (Z.shiftr classExtRef 2) 0 [] in
    amf3_members_loop fuel 0 cd b (p + len) (nSize - len).

Definition AMF3_Decode_with (pd : prop_decoder) (fuel : nat) (b : buf) (p nSize : Z)
    (bAMFData : bool) : outcome (Z * AMFObject) :=
  let nOriginalSize := nSize in
  let! (p, nSize) := (if bAMFData then let! _ := lift (rd b p) in Done (p + 1, nSize - 1)
                      else Done (p, nSize)) in
  let! (len, ref) := AMF3ReadInteger b p in
  let p := p + len in
  let nSize := nSize - len in
  if Z.land ref 1 =? 0 then Done (nOriginalSize - nSize, [])
  else
    let! (cd, p, nSize) := amf3_class fuel (Z.shiftr ref 1) b p nSize in
    if cd_externalizable cd then
      let! (nRes, prop) := pd uninit_prop b p nSize false in
      let nSize := if nRes =? -1 then nSize else nSize - nRes in
      Done (nOriginalSize - nSize, [AMFProp_SetName prop default_attribute])
    else
      let! (prop, obj, p, nSize) :=
        amf3_sealed_loop pd (Z.to_nat (cd_num cd)) 0 cd uninit_prop [] b p nSize in
      if cd_dynamic cd then
        let! (obj, nSize) := amf3_dynamic_loop pd fuel prop obj b p nSize in
        Done (nOriginalSize - nSize, obj)
      else Done (nOriginalSize - nSize, obj).

(** The value of an AMF3 property: the type byte is at [p]. *)
Definition amf3_value (pd : prop_decoder) (fuel : nat) (nOriginalSize : Z)
    (prop : AMFObjectProperty) (b : buf) (p nSize : Z) : outcome (Z * AMFObjectProperty) :=
  let! c := lift (rd b p) in
  let type := u32 (s8 c) in
  let p := p + 1 in
  let nSize := nSize - 1 in
  let store t v n := Done (nOriginalSize - n, set_p_type t (set_p_vu v prop)) in
  if (type =? AMF3_UNDEFINED) || (type =? AMF3_NULL) then
    Done (nOriginalSize - nSize, set_p_type AMF_NULL prop)
  else if type =? AMF3_FALSE then store AMF_BOOLEAN (Number (double_of_int 0)) nSize
  else if type =? AMF3_TRUE then store AMF_BOOLEAN (Number (double_of_int 1)) nSize
  else if type =? AMF3_INTEGER then
    let! (len, res) := AMF3ReadInteger b p in
    store AMF_NUMBER (Number (double_of_int res)) (nSize - len)
  else if type =? AMF3_DOUBLE then
    if nSize <? 8 then Done (-1, prop) else
    let! d := AMF_DecodeNumber b p in store AMF_NUMBER (Number d) (nSize - 8)
  else if (type =? AMF3_STRING) || (type =? AMF3_XML_DOC) || (type =? AMF3_XML) then
    let! (len, s) := AMF3ReadString b p in
    let v := match s with Some v => Str v | None => p_vu prop end in
    store AMF_STRING v (nSize - len)
  else if type =? AMF3_DATE then
    let! (len, res) := AMF3ReadInteger b p in
    let nSize := nSize - len in
    let p := p + len in
    if Z.land res 1 =? 0 then Done (nOriginalSize - nSize, prop)
    else if nSize <? 8 then Done (-1, prop)
    else let! d := AMF_DecodeNumber b p in store AMF_NUMBER (Number d) (nSize - 8)
  else if type =? AMF3_OBJECT then
    let! (nRes, o) := AMF3_Decode_with pd fuel b p nSize true in
    if nRes =? -1 then Done (-1, set_p_vu (Obj o) prop)
    else store AMF_OBJECT (Obj o) (nSize - nRes)
  else Done (-1, prop).

Fixpoint AMF3Prop_Decode (fuel : nat) : prop_decoder := fun prop b p nSize bDecodeName =>
  match fuel with
  | O => Unfinished
  | S fuel =>
      let nOriginalSize := nSize in
      let prop := set_p_name AV_empty prop in
      if nSize =? 0 then Done (-1, prop) else
      if bDecodeName then
        let! (nRes, name) := AMF3ReadString b p in
        let! name := lift name in
        if av_len name <=? 0 then Done (nRes, prop)
        else amf3_value (AMF3Prop_Decode fuel) fuel nOriginalSize (set_p_name name prop)
               b (p + nRes) (nSize - nRes)
      else amf3_value (AMF3Prop_Decode fuel) fuel nOriginalSize prop b p nSize
  end.

Definition AMF3_Decode (fuel : nat) := AMF3_Decode_with (AMF3Prop_Decode fuel) fuel.

(** ** AMF0 *)

(** The loop of [AMF_Decode]; the result is [nSize], the error flag and the object. *)
Fixpoint amf_object_loop (pd : prop_decoder) (fuel : nat) (obj : AMFObject) (bError : bool)
    (b : buf) (p nSize : Z) (bDecodeName : bool) : outcome (Z * bool * AMFObject) :=
  if 0 <? nSize then
    match fuel with
    | O => Unfinished
    | S fuel =>
        let! at_end := (if 3 <=? nSize then
                          let! v := AMF_DecodeInt24 b p in Done (v =? AMF_OBJECT_END)
                        else Done false) in
        if at_end then Done (nSize - 3, false, obj)
        else if bError then amf_object_loop pd fuel obj bError b (p + 1) (nSize - 1) bDecodeName
        else
          let! (nRes, prop) := pd uninit_prop b p nSize bDecodeName in
          if nRes =? -1 then amf_object_loop pd fuel obj true b p nSize bDecodeName
          else amf_object_loop pd fuel (AMF_AddProp obj prop) bError b (p + nRes) (nSize - nRes)
                 bDecodeName
    end
  else Done (nSize, bError, obj).

Definition AMF_Decode_with pd (fuel : nat) (b : buf) (p nSize : Z) (bDecodeName : bool)
  : outcome (Z * AMFObject) :=
  let! (n, bError, obj) := amf_object_loop pd fuel [] false b p nSize bDecodeName in
  Done (if bError : bool then -1 else nSize - n, obj).

Fixpoint amf_array_loop (pd : prop_decoder) (nArrayLen : nat) (obj : AMFObject) (bError : bool)
    (b : buf) (p nSize : Z) (bDecodeName : bool) : outcome (Z * bool * AMFObject) :=
  match nArrayLen with
  | O => Done (nSize, bError, obj)
  | S n =>
      let! (nRes, prop) := pd uninit_prop b p nSize bDecodeName in
      if nRes =? -1 then amf_array_loop pd n obj true b p nSize bDecodeName
      else amf_array_loop pd n (AMF_AddProp obj prop) bError b (p + nRes) (nSize - nRes) bDecodeName
  end.

Definition AMF_DecodeArray_with pd (b : buf) (p nSize nArrayLen : Z) (bDecodeName : bool)
  : outcome (Z * AMFObject) :=
  let! (n, bError, obj) := amf_array_loop pd (Z.to_nat nArrayLen) [] false b p nSize bDecodeName in
  Done (if bError : bool then -1 else nSize - n, obj).

(** The value of a property: the type byte is at [p]. *)
Definition amf_value (pd : prop_decoder) (fuel : nat) (nOriginalSize : Z)
    (prop : AMFObjectProperty) (b : buf) (p nSize : Z) : outcome (Z * AMFObjectProperty) :=
  let nSize := nSize - 1 in
  let! c := lift (rd b p) in
  let type := u32 (s8 c) in
  let p := p + 1 in
  let prop := set_p_type type prop in
  let store t v n := Done (nOriginalSize - n, set_p_type t (set_p_vu v prop)) in
  let nested (r : outcome (Z * AMFObject)) (nSize : Z) :=
    let! (nRes, o) := r in
    if nRes =? -1 then Done (-1, set_p_vu (Obj o) prop) else store AMF_OBJECT (Obj o) (nSize - nRes) in
  if type =? AMF_NUMBER then
    if nSize <? 8 then Done (-1, prop) else
    let! d := AMF_DecodeNumber b p in store AMF_NUMBER (Number d) (nSize - 8)
  else if type =? AMF_BOOLEAN then
    if nSize <? 1 then Done (-1, prop) else
    let! v := AMF_DecodeBoolean b p in store AMF_BOOLEAN (Number (double_of_int v)) (nSize - 1)
  else if type =? AMF_STRING then
    let! nStringSize := AMF_DecodeInt16 b p in
    if nSize <? nStringSize + 2 then Done (-1, prop) else
    let! v := AMF_DecodeString b p in store AMF_STRING (Str v) (nSize - (2 + nStringSize))
  else if type =? AMF_OBJECT then
    nested (AMF_Decode_with pd fuel b p nSize true) nSize
  else if (type =? AMF_NULL) || (type =? AMF_UNDEFINED) || (type =? AMF_UNSUPPORTED) then
    Done (nOriginalSize - nSize, set_p_type AMF_NULL prop)
  else if type =? AMF_ECMA_ARRAY then
    nested (AMF_Decode_with pd fuel b (p + 4) (nSize - 4) true) (nSize - 4)
  else if type =? AMF_STRICT_ARRAY then
    let! nArrayLen := AMF_DecodeInt32 b p in
    nested (AMF_DecodeArray_with pd b (p + 4) (nSize - 4) (s32 nArrayLen) false) (nSize - 4)
  else if type =? AMF_DATE then
    if nSize <? 10 then Done (-1, prop) else
    let! d := AMF_DecodeNumber b p in
    let! utc := AMF_DecodeInt16 b (p + 8) in
    Done (nOriginalSize - (nSize - 10), set_p_UTCoffset (s16 utc) (set_p_vu (Number d) prop))
  else if (type =? AMF_LONG_STRING) || (type =? AMF_XML_DOC) then
    let! nStringSize := AMF_DecodeInt32 b p in
    if nSize <? nStringSize + 4 then Done (-1, prop) else
    let! v := AMF_DecodeLongString b p in
    store (if type =? AMF_LONG_STRING then AMF_STRING else type) (Str v) (nSize - (4 + nStringSize))
  else if type =? AMF_AVMPLUS then
    nested (AMF3_Decode fuel b p nSize true) nSize
  else Done (-1, prop).

Fixpoint AMFProp_Decode (fuel : nat) : prop_decoder := fun prop b p nSize bDecodeName =>
  match fuel with
  | O => Unfinished
  | S fuel =>
      let nOriginalSize := nSize in
      let prop := set_p_name AV_empty prop in
      if nSize =? 0 then Done (-1, prop) else
      if bDecodeName && (nSize <? 4) then Done (-1, prop) else
      if bDecodeName then
        let! nNameSize := AMF_DecodeInt16 b p in
        if nSize - 2 <? nNameSize then Done (-1, prop) else
        let! name := AMF_DecodeString b p in
        let prop := set_p_name name prop in
        let nSize := nSize - (2 + nNameSize) in
        if nSize =? 0 then Done (-1, prop)
        else amf_value (AMFProp_Decode fuel) fuel nOriginalSize prop b (p + (2 + nNameSize)) nSize
      else amf_value (AMFProp_Decode fuel) fuel nOriginalSize prop b p nSize
  end.

Definition AMF_Decode (fuel : nat) := AMF_Decode_with (AMFProp_Decode fuel) fuel.
Definition AMF_DecodeArray (fuel : nat) := AMF_DecodeArray_with (AMFProp_Decode fuel).
