(* ===== verification/AmfSpec.v ===== *)
(** What the AMF0 encoder writes: the reference encoding of a property, and that the
    encoders of [Amf] write it when there is room. *)

From stdpp Require Import base list option numbers strings.
From S2P Require Import Prelude CMem TypeDefs Amf.

Local Open Scope Z_scope.
Open Scope c_scope.

(** ** The reference encoding *)

Definition be16 (n : Z) : buf := [u8 (Z.shiftr n 8); u8 n].
Definition be24 (n : Z) : buf := [u8 (Z.shiftr n 16); u8 (Z.shiftr n 8); u8 n].
Definition be32 (n : Z) : buf := u8 (Z.shiftr n 24) :: be24 n.

(** The characters of a string. *)
Definition chars (v : AVal) : buf :=
  match av_val v with Some s => take (Z.to_nat (av_len v)) s | None => [] end.

Definition enc_string (v : AVal) : buf :=
  (if av_len v <? 65536 then AMF_STRING :: be16 (av_len v)
   else AMF_LONG_STRING :: be32 (av_len v)) ++ chars v.

Definition enc_name (v : AVal) : buf :=
  if av_len v =? 0 then [] else be16 (av_len v) ++ chars v.

(** The bytes of a property, the name in front of the value. *)
Fixpoint enc_prop (p : AMFObjectProperty) : buf :=
  let '(AMFProp n t v _) := p in
  enc_name n ++
  match v with
  | Number d =>
      if t =? AMF_BOOLEAN then [AMF_BOOLEAN; if double_nonzero d then 1 else 0]
      else AMF_NUMBER :: double_bytes d
  | Str s => enc_string s
  | Obj o =>
      let body := concat (map enc_prop o) in
      if t =? AMF_OBJECT then AMF_OBJECT :: body ++ be24 AMF_OBJECT_END
      else if t =? AMF_ECMA_ARRAY then
        AMF_ECMA_ARRAY :: be32 (zlen o) ++ body ++ be24 AMF_OBJECT_END
      else AMF_STRICT_ARRAY :: be32 (zlen o) ++ body
  | Uninit | Zeroed => [AMF_NULL]
  end.

Definition enc_props (o : AMFObject) : buf := concat (map enc_prop o).
Definition enc_object (o : AMFObject) : buf :=
  AMF_OBJECT :: enc_props o ++ be24 AMF_OBJECT_END.

(** ** Well-formed properties

    [named]: the property is a member of an object or of an ECMA array, whose members
    have a name; those of a strict array have none, and only there [null] can stand
    (see [amf_null_member]). *)

Definition byteb (x : Z) : bool := (0 <=? x) && (x <? 256).

Definition wf_str (v : AVal) : bool :=
  (0 <=? av_len v) && (av_len v <? 2 ^ 31) &&
  match av_val v with
  | Some s => (av_len v <=? zlen s) && forallb byteb s
  | None => av_len v =? 0
  end.

Definition wf_name (named : bool) (v : AVal) : bool :=
  wf_str v && (if named then (1 <=? av_len v) && (av_len v <? 65536) else av_len v =? 0).

Fixpoint wf_prop (named : bool) (p : AMFObjectProperty) : bool :=
  let '(AMFProp n t v _) := p in
  wf_name named n &&
  match v with
  | Number d => ((t =? AMF_NUMBER) || (t =? AMF_BOOLEAN)) && (0 <=? d) && (d <? 2 ^ 64)
  | Str s => (t =? AMF_STRING) && wf_str s
  | Obj o =>
      ((t =? AMF_OBJECT) || (t =? AMF_ECMA_ARRAY)) && forallb (wf_prop true) o
      || (t =? AMF_STRICT_ARRAY) && forallb (wf_prop false) o
  | Uninit => (t =? AMF_NULL) && negb named
  | Zeroed => false
  end.

Definition wf_object (o : AMFObject) : bool := forallb (wf_prop true) o.

Ltac andbs := repeat match goal with
  | H : _ && _ = true |- _ => apply andb_prop in H as [? ?]
  end.

(** How deep objects are nested. *)
Fixpoint amf_depth (p : AMFObjectProperty) : nat :=
  let '(AMFProp _ _ v _) := p in
  match v with
  | Obj o => S (max_list (map amf_depth o))
  | _ => 1%nat
  end.

Definition object_depth (o : AMFObject) : nat := max_list (map amf_depth o).

(** ** Encoders that write given bytes

    [emits k f bs]: with room for [bs] and [k] more bytes, [f] writes [bs] and
    advances past them, leaving the rest of the buffer alone. *)
Definition emits (k : Z) (f : buf -> Z -> enc_result) (bs : buf) : Prop :=
  forall w room, zlen bs + k <= room -> room <= zlen w ->
    f w room = Some (Some (zlen bs), bs ++ drop (Z.to_nat (zlen bs)) w).

Lemma chars_zlen v : wf_str v = true -> zlen (chars v) = av_len v.
Proof.
  unfold wf_str, chars. intros H. destruct (av_val v) as [s|].
  - rewrite zlen_take; lia.
  - rewrite zlen_nil. lia.
Qed.

Lemma zlen_be16 n : zlen (be16 n) = 2. Proof. done. Qed.
Lemma zlen_be24 n : zlen (be24 n) = 3. Proof. done. Qed.
Lemma zlen_be32 n : zlen (be32 n) = 4. Proof. done. Qed.

Create Rewrite HintDb zlen.
#[export] Hint Rewrite @zlen_app @zlen_cons @zlen_nil zlen_be16 zlen_be24 zlen_be32 : zlen.
Ltac zlens := autorewrite with zlen in *.

Ltac guard_false := rewrite (proj2 (Z.ltb_ge _ _)) by (zlens; lia).

Lemma enc_then_emits k f bs pre w room n :
  emits k f bs -> zlen pre = n ->
  n + zlen bs + k <= room -> room <= n + zlen w ->
  enc_then (pre ++ w) n room f =
    Some (Some (n + zlen bs), pre ++ bs ++ drop (Z.to_nat (zlen bs)) w).
Proof.
  intros Hf <- Hr Hw. unfold enc_then. rewrite at_off_app, Hf by lia. done.
Qed.

Lemma drop_drop_zlen (a b w : buf) :
  drop (Z.to_nat (zlen b)) (drop (Z.to_nat (zlen a)) w) = drop (Z.to_nat (zlen (a ++ b))) w.
Proof. rewrite drop_drop. f_equal. unfold zlen. rewrite length_app. lia. Qed.

Lemma u8_land_ff n : u8 (Z.land n 0xff) = u8 n.
Proof. bits 8. Qed.

(** The high byte of an integer that was converted to [short]. *)
Lemma be16_u16 n : be16 n = [u8 (Z.shiftr (u16 n) 8); u8 (u16 n)].
Proof. unfold be16. f_equal; [bits 8|f_equal; bits 8]. Qed.

Lemma be16_s16 n : be16 (s16 n) = be16 n.
Proof. rewrite !be16_u16. by rewrite uwrap_swrap by lia. Qed.

Lemma emits_int16 n : emits 0 (fun w r => AMF_EncodeInt16 w r n) (be16 n).
Proof.
  intros w room Hr Hw. unfold AMF_EncodeInt16. change (zlen (be16 n)) with 2 in *.
  guard_false. split_buf w 2. buf_eval. unfold be16.
  by rewrite u8_land_ff.
Qed.

Lemma emits_int24 n : emits 0 (fun w r => AMF_EncodeInt24 w r n) (be24 n).
Proof.
  intros w room Hr Hw. unfold AMF_EncodeInt24. change (zlen (be24 n)) with 3 in *.
  guard_false. split_buf w 3. buf_eval. unfold be24.
  by rewrite u8_land_ff.
Qed.

Lemma emits_int32 n : emits 0 (fun w r => AMF_EncodeInt32 w r n) (be32 n).
Proof.
  intros w room Hr Hw. unfold AMF_EncodeInt32. change (zlen (be32 n)) with 4 in *.
  guard_false. split_buf w 4. buf_eval. unfold be32, be24.
  by rewrite u8_land_ff.
Qed.

Lemma wr_head x w v : wr (x :: w) 0 v = Some (u8 v :: w).
Proof. done. Qed.

Lemma wr_at (h : buf) x w n v : zlen h = n -> wr (h ++ x :: w) n v = Some (h ++ u8 v :: w).
Proof.
  intros <-. unfold wr, zlen. rewrite (proj2 (Z.leb_le _ _)) by lia. rewrite Nat2Z.id.
  rewrite list_lookup_middle by done. by rewrite insert_app_r_alt, Nat.sub_diag.
Qed.

(** Copying a string behind [pre]. *)
Lemma copy_aval_at pre w n v :
  wf_str v = true -> zlen pre = n -> av_len v <= zlen w ->
  copy_aval (pre ++ w) n v = Some (pre ++ chars v ++ drop (Z.to_nat (av_len v)) w).
Proof.
  intros Hv Hn Hw. pose proof (chars_zlen v Hv) as Hc. unfold copy_aval.
  destruct (Z.eqb_spec (av_len v) 0) as [E|E].
  - unfold chars. rewrite E. destruct (av_val v); simpl; by rewrite ?drop_0, ?take_0.
  - unfold wf_str in Hv. unfold chars in *. destruct (av_val v) as [s|]; [|lia].
    rewrite rdn_prefix by lia. rewrite wrn_tail by (done || lia). by rewrite Hc.
Qed.

Lemma emits_number d : emits 0 (fun w r => AMF_EncodeNumber w r d) (AMF_NUMBER :: double_bytes d).
Proof.
  intros w room Hr Hw. unfold AMF_EncodeNumber. change (zlen (AMF_NUMBER :: double_bytes d)) with 9 in *.
  guard_false. split_buf w 9. buf_eval. done.
Qed.

Lemma emits_boolean v :
  emits 0 (fun w r => AMF_EncodeBoolean w r v) [AMF_BOOLEAN; if v then 1 else 0].
Proof.
  intros w room Hr Hw. unfold AMF_EncodeBoolean. change (zlen [_; _]) with 2 in *.
  guard_false. split_buf w 2. buf_eval. by destruct v.
Qed.

(** A string is only written with room for a long string's length. *)
Lemma emits_string v : wf_str v = true -> emits 2 (fun w r => AMF_EncodeString w r v) (enc_string v).
Proof.
  intros Hv w room Hr Hw. pose proof (chars_zlen v Hv) as Hc.
  assert (0 <= av_len v < 2 ^ 31) as Hlen by (unfold wf_str in Hv; lia).
  unfold AMF_EncodeString, enc_string in *.
  destruct (Z.ltb_spec (av_len v) 65536) as [Hs|Hs]; zlens; simpl orb.
  - rewrite !(proj2 (Z.ltb_ge _ _)) by lia. simpl.
    destruct w as [|x w]; [rewrite zlen_nil in *; lia|]. rewrite zlen_cons in Hw.
    rewrite wr_head. change (u8 AMF_STRING) with AMF_STRING. cbv beta iota.
    rewrite (enc_then_emits 0 _ (be16 (s16 (av_len v))) [AMF_STRING] w room 1);
      [|apply emits_int16|done|rewrite zlen_be16; lia|lia].
    cbv beta iota. rewrite app_assoc, copy_aval_at;
      [|done|by rewrite zlen_app|rewrite zlen_be16, zlen_drop; lia].
    cbv beta iota. rewrite zlen_be16, drop_drop. f_equal. f_equal; [f_equal; lia|].
    rewrite be16_s16, Hc. by replace (Z.to_nat (1 + 2 + av_len v)) with (S (S (S (Z.to_nat (av_len v))))) by lia.
  - rewrite !(proj2 (Z.ltb_ge _ _)) by lia. simpl.
    destruct w as [|x w]; [rewrite zlen_nil in *; lia|]. rewrite zlen_cons in Hw.
    rewrite wr_head. change (u8 AMF_LONG_STRING) with AMF_LONG_STRING. cbv beta iota.
    rewrite (enc_then_emits 0 _ (be32 (av_len v)) [AMF_LONG_STRING] w room 1);
      [|apply emits_int32|done|rewrite zlen_be32; lia|lia].
    cbv beta iota. rewrite app_assoc, copy_aval_at;
      [|done|by rewrite zlen_app|rewrite zlen_be32, zlen_drop; lia].
    cbv beta iota. rewrite zlen_be32, drop_drop. f_equal. f_equal; [f_equal; lia|].
    rewrite Hc.
    by replace (Z.to_nat (1 + 4 + av_len v)) with (S (S (S (S (S (Z.to_nat (av_len v))))))) by lia.
Qed.

(** ** Properties *)

Lemma wf_name_str named n : wf_name named n = true -> wf_str n = true.
Proof. unfold wf_name. intros H. by andbs. Qed.

Lemma zlen_enc_name n :
  wf_str n = true -> zlen (enc_name n) = if av_len n =? 0 then 0 else 2 + av_len n.
Proof.
  intros. unfold enc_name. destruct (_ =? 0); [done|]. by rewrite zlen_app, chars_zlen by done.
Qed.

Lemma enc_prop_eq n t v u : enc_prop (AMFProp n t v u) = enc_name n ++ enc_prop (AMFProp AV_empty t v u).
Proof. done. Qed.

(** The bytes of a value: the property without a name. *)
Definition enc_value (t : Z) (v : AMFValue) : buf := enc_prop (AMFProp AV_empty t v None).

Lemma enc_prop_value n t v u : enc_prop (AMFProp n t v u) = enc_name n ++ enc_value t v.
Proof. done. Qed.

Lemma enc_value_length t v : match v with Uninit | Zeroed => 1 | _ => 2 end <= zlen (enc_value t v).
Proof.
  unfold enc_value. simpl. unfold enc_string, be32, be24, be16, double_bytes.
  destruct v; repeat case_match; simpl;
    rewrite ?zlen_cons, ?zlen_app, ?zlen_cons;
    repeat match goal with
    | |- context [zlen ?l] => pose proof (zlen_nonneg l); generalize dependent (zlen l)
    end; lia.
Qed.

Lemma enc_prop_length p : 1 <= zlen (enc_prop p).
Proof.
  destruct p as [n t v u]. rewrite enc_prop_value, zlen_app.
  pose proof (zlen_nonneg (enc_name n)). pose proof (enc_value_length t v). destruct v; lia.
Qed.

Lemma encode_props_app pe o o' :
  Forall (fun p => emits 2 (pe p) (enc_prop p)) o ->
  forall pre w off room, zlen pre = off ->
    off + zlen (enc_props o) + 2 <= room -> room <= off + zlen w ->
    encode_props pe (o ++ o') off room (pre ++ w) =
      encode_props pe o' (off + zlen (enc_props o)) room
        (pre ++ enc_props o ++ drop (Z.to_nat (zlen (enc_props o))) w).
Proof.
  induction 1 as [|p o Hp Ho IH]; intros pre w off room Hpre Hr Hw.
  { simpl. by rewrite Z.add_0_r. }
  unfold enc_props in *. simpl in *. rewrite zlen_app in *.
  pose proof (zlen_nonneg (concat (map enc_prop o))). pose proof (enc_prop_length p).
  rewrite (at_off_prefix pre w off) by done. rewrite Hp by lia. cbv beta iota.
  rewrite app_assoc, IH; [|rewrite zlen_app; lia|lia|rewrite zlen_drop; lia].
  rewrite drop_drop_zlen, zlen_app, <- !app_assoc. f_equal. lia.
Qed.

Lemma encode_props_emits pe o :
  Forall (fun p => emits 2 (pe p) (enc_prop p)) o ->
  forall pre w off room, zlen pre = off ->
    off + zlen (enc_props o) + 2 <= room -> room <= off + zlen w ->
    encode_props pe o off room (pre ++ w) =
      Some (off + zlen (enc_props o),
            pre ++ enc_props o ++ drop (Z.to_nat (zlen (enc_props o))) w).
Proof. intros H pre w off room Hp Hr Hw. rewrite <- (app_nil_r o) at 1. by rewrite encode_props_app. Qed.

Lemma end_marker_emits pre w off room :
  zlen pre = off -> off + 4 <= room -> room <= off + zlen w ->
  end_marker off room (pre ++ w) =
    Some (Some (off + 3), pre ++ be24 AMF_OBJECT_END ++ drop 3 w).
Proof.
  intros Hpre Hr Hw. unfold end_marker. rewrite (proj2 (Z.leb_gt _ _)) by lia.
  apply (enc_then_emits 0 _ (be24 AMF_OBJECT_END)); [apply emits_int24|done|..];
    rewrite ?zlen_be24; lia.
Qed.

Section members.
Context (pe : AMFObjectProperty -> buf -> Z -> enc_result) (o : AMFObject).
Hypothesis Hpe : Forall (fun p => emits 2 (pe p) (enc_prop p)) o.

Definition body_end : buf := enc_props o ++ be24 AMF_OBJECT_END.

Lemma zlen_body_end : zlen body_end = zlen (enc_props o) + 3.
Proof. unfold body_end. by rewrite zlen_app. Qed.

Lemma body_end_emits pre w off room :
  zlen pre = off -> off + zlen body_end + 1 <= room -> room <= off + zlen w ->
  (let* (off, w) := encode_props pe o off room (pre ++ w) in end_marker off room w) =
    Some (Some (off + zlen body_end), pre ++ body_end ++ drop (Z.to_nat (zlen body_end)) w).
Proof.
  rewrite zlen_body_end. intros Hpre Hr Hw. pose proof (zlen_nonneg (enc_props o)).
  rewrite encode_props_emits by (done || lia). cbv beta iota.
  rewrite app_assoc, end_marker_emits;
    [|rewrite zlen_app; lia|lia|rewrite zlen_drop; lia].
  f_equal. f_equal; [f_equal; lia|]. unfold body_end. rewrite drop_drop, <- !app_assoc.
  repeat f_equal. lia.
Qed.

(** The type byte, and the type byte with the number of members. *)
Lemma emits_object : emits 1 (AMF_Encode_with pe o) (enc_object o).
Proof.
  intros w room. unfold AMF_Encode_with. change (enc_object o) with (AMF_OBJECT :: body_end).
  rewrite zlen_cons. intros Hr Hw. rewrite zlen_body_end in *.
  pose proof (zlen_nonneg (enc_props o)). rewrite (proj2 (Z.leb_gt _ _)) by lia.
  destruct w as [|x w]; [rewrite zlen_nil in *; lia|]. rewrite zlen_cons in Hw.
  rewrite wr_head. cbv beta iota.
  rewrite (body_end_emits [AMF_OBJECT] w 1); [|done|rewrite ?zlen_body_end; lia..].
  rewrite zlen_body_end. by replace (Z.to_nat (1 + (zlen (enc_props o) + 3)))
    with (S (Z.to_nat (zlen (enc_props o) + 3))) by lia.
Qed.

Lemma encode_count_emits type w room :
  is_u 8 type -> 5 <= room -> room <= zlen w ->
  encode_count type o w room = Some (Some 5, (type :: be32 (zlen o)) ++ drop 5 w).
Proof.
  intros Ht Hr Hw. destruct w as [|x w]; [rewrite zlen_nil in *; lia|]. rewrite zlen_cons in Hw.
  unfold encode_count. rewrite wr_head, (uwrap_id 8) by done. cbv beta iota.
  apply (enc_then_emits 0 _ (be32 (zlen o)) [type]); [apply emits_int32|done|..];
    rewrite ?zlen_be32; lia.
Qed.

Lemma emits_ecma : emits 1 (AMF_EncodeEcmaArray_with pe o)
                     (AMF_ECMA_ARRAY :: be32 (zlen o) ++ body_end).
Proof.
  intros w room. unfold AMF_EncodeEcmaArray_with. rewrite zlen_cons, zlen_app, zlen_be32.
  intros Hr Hw. rewrite zlen_body_end in *. pose proof (zlen_nonneg (enc_props o)).
  rewrite (proj2 (Z.leb_gt _ _)) by lia.
  rewrite encode_count_emits by (lia || by split). cbv beta iota.
  rewrite body_end_emits; [|done|rewrite ?zlen_body_end; lia|].
  2: { change 5%nat with (Z.to_nat 5). rewrite zlen_drop; lia. }
  rewrite zlen_body_end, drop_drop. f_equal. f_equal; [f_equal; lia|].
  rewrite app_assoc. simpl. repeat f_equal. lia.
Qed.

Lemma emits_strict : emits 2 (AMF_EncodeArray_with pe o)
                       (AMF_STRICT_ARRAY :: be32 (zlen o) ++ enc_props o).
Proof.
  intros w room. unfold AMF_EncodeArray_with. rewrite zlen_cons, zlen_app, zlen_be32.
  intros Hr Hw. pose proof (zlen_nonneg (enc_props o)).
  rewrite (proj2 (Z.leb_gt _ _)) by lia.
  rewrite encode_count_emits by (lia || by split). cbv beta iota.
  rewrite (encode_props_emits pe o Hpe); [|done|lia|].
  2: { change 5%nat with (Z.to_nat 5). rewrite zlen_drop; lia. }
  rewrite drop_drop. f_equal. f_equal; [f_equal; lia|].
  simpl. repeat f_equal. lia.
Qed.
End members.

(** The value of a well-formed property. *)
Lemma emits_value pe named n t v u :
  wf_prop named (AMFProp n t v u) = true ->
  (forall o, v = Obj o -> Forall (fun p => emits 2 (pe p) (enc_prop p)) o) ->
  emits 2 (encode_value pe (AMFProp n t v u)) (enc_value t v).
Proof.
  intros Hwf Ho w room Hr Hw. simpl in Hwf. apply andb_prop in Hwf as [_ Hwf].
  assert (forall k f bs, emits k f bs -> k <= 2 -> zlen bs + 2 <= room ->
    f w room = Some (Some (zlen bs), bs ++ drop (Z.to_nat (zlen bs)) w)) as Hf.
  { intros k f bs H Hk Hb. apply H; lia. }
  unfold encode_value, enc_value in *. simpl p_type. simpl p_vu. destruct v as [| |d|s|o].
  2: done.
  - apply andb_prop in Hwf as [Hwf _]. apply Z.eqb_eq in Hwf as ->. simpl.
    rewrite (proj2 (Z.leb_gt _ _)); [|change (zlen _) with 1 in Hr; lia].
    destruct w as [|x w]; [|done]. rewrite zlen_nil in *. change (zlen _) with 1 in Hr. lia.
  - apply andb_prop in Hwf as [Hwf _]. apply andb_prop in Hwf as [Hwf _].
    apply orb_prop in Hwf as [E|E]; apply Z.eqb_eq in E as ->; simpl.
    + apply (Hf 0 (fun w r => AMF_EncodeNumber w r d)); [apply emits_number|lia|exact Hr].
    + apply (Hf 0 (fun w r => AMF_EncodeBoolean w r (double_nonzero d)));
        [apply emits_boolean|lia|exact Hr].
  - andbs. apply Z.eqb_eq in H as ->. simpl.
    apply (Hf 2 (fun w r => AMF_EncodeString w r s)); [by apply emits_string|lia|exact Hr].
  - specialize (Ho o eq_refl). apply orb_prop in Hwf as [Hwf|Hwf]; andbs.
    + apply orb_prop in H as [E|E]; apply Z.eqb_eq in E as ->; simpl.
      * apply (Hf 1 _ _ (emits_object pe o Ho)); [lia|exact Hr].
      * apply (Hf 1 _ _ (emits_ecma pe o Ho)); [lia|exact Hr].
    + apply Z.eqb_eq in H as ->. apply (Hf 2 _ _ (emits_strict pe o Ho)); [lia|exact Hr].
Qed.

Lemma object_depth_members o d :
  (object_depth o <= d)%nat -> Forall (fun p => (amf_depth p <= d)%nat) o.
Proof.
  intros H. apply Forall_forall. intros p Hp. unfold object_depth in H.
  pose proof (max_list_elem_of_le (amf_depth p) (map amf_depth o)) as Hm.
  etrans; [apply Hm|exact H]. apply list_elem_of_In, in_map. by apply list_elem_of_In.
Qed.

(** Only [null] has no value. *)
Definition no_value (v : AMFValue) : bool := match v with Uninit => true | _ => false end.

Lemma wf_type named n t v u :
  wf_prop named (AMFProp n t v u) = true ->
  (t =? AMF_INVALID) = false /\ (t =? AMF_NULL) = no_value v.
Proof.
  simpl. intros H. apply andb_prop in H as [_ H].
  destruct v; [|done|..]; andbs; repeat match goal with
  | H : _ || _ = true |- _ => apply orb_prop in H as [?|?]; andbs
  end;
  match goal with H : (t =? _) = true |- _ => apply Z.eqb_eq in H as -> end; done.
Qed.

(** The name in front of a value. *)
Lemma emits_named n f bs w room :
  wf_str n = true -> av_len n <> 0 -> emits 2 f bs -> 2 <= zlen bs ->
  zlen (enc_name n) + zlen bs + 2 <= room -> room <= zlen w ->
  (if true && (room <=? av_len n + 2 + 1) then Some (None, w)
   else if true && true then
     let* w := wr w 0 (Z.shiftr (av_len n) 8) in
     let* w := wr w 1 (Z.land (av_len n) 0xff) in
     let* w := copy_aval w 2 n in
     enc_then w (2 + av_len n) room f
   else f w room) =
  Some (Some (zlen (enc_name n) + zlen bs),
        (enc_name n ++ bs) ++ drop (Z.to_nat (zlen (enc_name n) + zlen bs)) w).
Proof.
  intros Hn Hn0 Hf Hb Hr Hw. pose proof (zlen_enc_name n Hn) as Hl.
  pose proof (chars_zlen n Hn). pose proof (zlen_nonneg (chars n)).
  unfold enc_name in *. rewrite (proj2 (Z.eqb_neq _ _) Hn0) in *. rewrite Hl in *.
  rewrite (proj2 (Z.leb_gt _ _)) by lia. cbv beta iota delta [andb].
  destruct w as [|x0 [|x1 w]]; [rewrite ?zlen_cons, zlen_nil in *; lia..|].
  rewrite !zlen_cons in Hw. rewrite wr_head. cbv beta iota.
  rewrite (wr_at [u8 (Z.shiftr (av_len n) 8)] x1 w 1), u8_land_ff by done. cbv beta iota.
  change ([u8 (Z.shiftr (av_len n) 8)] ++ u8 (av_len n) :: w) with (be16 (av_len n) ++ w).
  rewrite (copy_aval_at (be16 (av_len n)) w 2 n) by (done || lia). cbv beta iota.
  rewrite app_assoc, (enc_then_emits 2 f bs);
    [|done|rewrite zlen_app, zlen_be16; lia|lia|rewrite zlen_drop; lia].
  f_equal. f_equal. rewrite drop_drop, <- !app_assoc. simpl.
  replace (Z.to_nat (2 + av_len n + zlen bs))
    with (S (S (Z.to_nat (av_len n) + Z.to_nat (zlen bs))))%nat by lia. done.
Qed.

(** [AMFProp_Encode] on every well-formed property. *)
Lemma AMFProp_Encode_emits d : forall named p,
  (amf_depth p <= d)%nat -> wf_prop named p = true -> emits 2 (AMFProp_Encode d p) (enc_prop p).
Proof.
  induction d as [|d IH]; intros named [n t v u] Hd Hwf.
  { simpl in Hd. destruct v; lia. }
  assert (emits 2 (encode_value (AMFProp_Encode d) (AMFProp n t v u)) (enc_value t v)) as Hv.
  { apply (emits_value _ named); [done|]. intros o ->.
    simpl in Hd. apply le_S_n, object_depth_members in Hd.
    simpl in Hwf. apply andb_prop in Hwf as [_ Hwf].
    assert (exists nm, forallb (wf_prop nm) o = true) as [nm Ho].
    { apply orb_prop in Hwf as [H|H]; andbs; eauto. }
    rewrite forallb_forall in Ho. apply Forall_forall. intros p Hp.
    apply (IH nm); [by apply (proj1 (Forall_forall _ _) Hd)|].
    by apply Ho, list_elem_of_In. }
  intros w room Hr Hw. pose proof (enc_value_length t v) as Hl.
  simpl in Hwf. apply andb_prop in Hwf as [Hn Hwf].
  pose proof (zlen_enc_name n (wf_name_str _ _ Hn)) as Hnl.
  rewrite enc_prop_value, zlen_app in *.
  cbn [AMFProp_Encode p_type p_name].
  destruct (wf_type named n t v u) as [-> ->]; [by simpl; rewrite Hn|].
  destruct (Z.eqb_spec (av_len n) 0) as [E|E].
  - rewrite andb_false_r. unfold enc_name in *. rewrite E in *. simpl in *.
    change (zlen (@nil Z)) with 0 in *. rewrite !Z.add_0_l in *.
    rewrite (proj2 (andb_false_iff _ _)); [by apply Hv|].
    destruct v; [by left|done|right; apply Z.leb_gt; cbv beta iota in Hl; lia..].
  - destruct v as [| |dv|s|o]; [|done|apply emits_named; cbv beta iota in Hl; solve [lia|done|by apply (wf_name_str named)]..].
    apply andb_prop in Hwf as [_ Hnm]. destruct named; [done|].
    unfold wf_name in Hn. apply andb_prop in Hn as [_ Hn]. lia.
Qed.
