(* ===== verification/AmfRoundTrip.v ===== *)
(** The AMF0 round trip: what [AMFProp_Decode] makes of what [AMF_Encode] wrote. *)

From stdpp Require Import base list option numbers strings.
From S2P Require Import Prelude CMem TypeDefs Amf AmfSpec.

Local Open Scope Z_scope.
Open Scope c_scope.

(** ** What is decoded

    A decoded string points into the buffer and an empty one is [NULL], a boolean is
    0 or 1, every kind of object is an object. *)

Definition decoded_str (v : AVal) : AVal :=
  if 0 <? av_len v then mkAVal (Some (chars v)) (av_len v) else mkAVal None (av_len v).

Fixpoint decoded (p : AMFObjectProperty) : AMFObjectProperty :=
  let '(AMFProp n t v _) := p in
  match v with
  | Number d =>
      if t =? AMF_BOOLEAN
      then AMFProp (decoded_str n) AMF_BOOLEAN
             (Number (double_of_int (if double_nonzero d then 1 else 0))) None
      else AMFProp (decoded_str n) AMF_NUMBER (Number d) None
  | Str s => AMFProp (decoded_str n) AMF_STRING (Str (decoded_str s)) None
  | Obj o => AMFProp (decoded_str n) AMF_OBJECT (Obj (map decoded o)) None
  | Uninit | Zeroed => AMFProp (decoded_str n) AMF_NULL Uninit None
  end.

(** ** Reading back integers, strings and numbers *)

Ltac rd_at := repeat first
  [ rewrite (rd_app_r _ _ _ _ eq_refl) by lia
  | match goal with |- context [rd (?a ++ ?w) (zlen ?a)] =>
      replace (rd (a ++ w) (zlen a)) with (rd (a ++ w) (zlen a + 0)) by (f_equal; lia) end ].

Lemma DecodeInt16_at pre post n :
  is_u 16 n -> AMF_DecodeInt16 (pre ++ be16 n ++ post) (zlen pre) = Done n.
Proof.
  intros Hn. unfold AMF_DecodeInt16. rd_at. unfold be16. buf_eval. simpl. f_equal. bits 16.
Qed.

Lemma DecodeInt32_at pre post n :
  is_u 32 n -> AMF_DecodeInt32 (pre ++ be32 n ++ post) (zlen pre) = Done n.
Proof.
  intros Hn. unfold AMF_DecodeInt32. rd_at. unfold be32, be24. buf_eval. simpl. f_equal. bits 32.
Qed.

Lemma bytes_at_app pre s post n m :
  zlen pre = n -> zlen s = m -> bytes_at (pre ++ s ++ post) n m = s.
Proof.
  intros <- <-. unfold bytes_at, zlen. rewrite !Nat2Z.id, drop_app_length. by rewrite take_app_length.
Qed.

Lemma wf_str_len v : wf_str v = true -> 0 <= av_len v < 2 ^ 31.
Proof. unfold wf_str. intros H. andbs. lia. Qed.

Lemma DecodeString_at pre post v :
  wf_str v = true -> av_len v < 65536 ->
  AMF_DecodeString (pre ++ be16 (av_len v) ++ chars v ++ post) (zlen pre) = Done (decoded_str v).
Proof.
  intros Hv Hl. pose proof (wf_str_len v Hv). pose proof (chars_zlen v Hv).
  unfold AMF_DecodeString. rewrite DecodeInt16_at by (split; lia).
  unfold decoded_str. rewrite app_assoc, bytes_at_app by (rewrite ?zlen_app, ?zlen_be16; lia).
  by destruct (0 <? av_len v).
Qed.

Lemma DecodeLongString_at pre post v :
  wf_str v = true ->
  AMF_DecodeLongString (pre ++ be32 (av_len v) ++ chars v ++ post) (zlen pre) = Done (decoded_str v).
Proof.
  intros Hv. pose proof (wf_str_len v Hv). pose proof (chars_zlen v Hv).
  unfold AMF_DecodeLongString. rewrite DecodeInt32_at by (split; lia).
  rewrite swrap_small by (lia || split; lia).
  unfold decoded_str. rewrite app_assoc, bytes_at_app by (rewrite ?zlen_app, ?zlen_be32; lia).
  by destruct (0 <? av_len v).
Qed.

Lemma double_bytes_value d :
  is_u 64 d -> fold_left (fun acc c => acc * 256 + c) (double_bytes d) 0 = d.
Proof.
  intros Hd. unfold double_bytes. cbn [fold_left].
  assert (forall k, 0 <= k -> Z.shiftr d (k + 8) * 256 + u8 (Z.shiftr d k) = Z.shiftr d k) as H.
  { intros k Hk. rewrite <- Z.shiftr_shiftr by lia. unfold uwrap.
    rewrite (Z.shiftr_div_pow2 (Z.shiftr d k) 8) by lia. change (2 ^ 8) with 256. 
    pose proof (Z.div_mod (Z.shiftr d k) 256). lia. }
  assert (u8 (Z.shiftr d 56) = Z.shiftr d 56) as E.
  { apply uwrap_id. rewrite Z.shiftr_div_pow2 by lia. unfold is_u in *. split; [|apply Z.div_lt_upper_bound; lia].
    apply Z.div_pos; lia. }
  rewrite Z.mul_0_l, Z.add_0_l, E.
  rewrite (H 48 ltac:(lia) : Z.shiftr d 56 * 256 + _ = _), (H 40 ltac:(lia) : Z.shiftr d 48 * 256 + _ = _),
    (H 32 ltac:(lia) : Z.shiftr d 40 * 256 + _ = _), (H 24 ltac:(lia) : Z.shiftr d 32 * 256 + _ = _),
    (H 16 ltac:(lia) : Z.shiftr d 24 * 256 + _ = _), (H 8 ltac:(lia) : Z.shiftr d 16 * 256 + _ = _).
  specialize (H 0 ltac:(lia)). by rewrite Z.shiftr_0_r in H.
Qed.

Lemma DecodeNumber_at pre post d :
  is_u 64 d -> AMF_DecodeNumber (pre ++ double_bytes d ++ post) (zlen pre) = Done d.
Proof.
  intros Hd. unfold AMF_DecodeNumber.
  pose proof (rdn_app pre (double_bytes d) post) as E. change (zlen (double_bytes d)) with 8 in E.
  rewrite E. simpl. f_equal. by apply double_bytes_value.
Qed.

(** ** Members *)

(** [pd] decodes the property [p] wherever it stands. *)
Definition decodes (pd : prop_decoder) (named : bool) (p : AMFObjectProperty) : Prop :=
  forall pre post nSize, zlen (enc_prop p) <= nSize -> nSize < 2 ^ 31 ->
    pd uninit_prop (pre ++ enc_prop p ++ post) (zlen pre) nSize named =
      Done (zlen (enc_prop p), decoded p).

Lemma bytes_chars v : wf_str v = true -> bytes (chars v).
Proof.
  unfold wf_str, chars. intros H. destruct (av_val v) as [s|]; [|constructor].
  apply Forall_take, bytes_check. by andbs.
Qed.

(** A named property does not look like the end of an object. *)
Lemma DecodeInt24_named p pre post :
  wf_prop true p = true ->
  exists v, AMF_DecodeInt24 (pre ++ enc_prop p ++ post) (zlen pre) = Done v /\ v <> AMF_OBJECT_END.
Proof.
  destruct p as [n t v u]. intros Hwf.
  assert (wf_name true n = true) as Hn by (simpl in Hwf; by andbs).
  assert (1 <= av_len n < 65536) as Hl by (unfold wf_name in Hn; andbs; lia).
  rewrite enc_prop_value. unfold enc_name. rewrite (proj2 (Z.eqb_neq _ _)) by lia.
  pose proof (chars_zlen n (wf_name_str _ _ Hn)) as Hc.
  destruct (chars n) as [|c cs] eqn:Ec; [rewrite zlen_nil in *; lia|].
  unfold AMF_DecodeInt24. rd_at. unfold be16. buf_eval. eexists. split; [simpl; done|].
  intros E. apply (f_equal (fun x => u16 (Z.shiftr x 8))) in E.
  change (u16 (Z.shiftr AMF_OBJECT_END 8)) with 0 in E.
  pose proof (bytes_chars n (wf_name_str _ _ Hn)) as Hb. rewrite Ec in Hb.
  apply Forall_cons in Hb as [Hb _]. rewrite <- (uwrap_id 8 c) in E by done.
  rewrite <- (uwrap_id 16 (av_len n)) in Hl by (split; lia).
  assert (u16 (av_len n) = 0); [|lia]. rewrite <- E. bits 16.
Qed.

Lemma object_loop_decodes pd o post :
  Forall (fun p => wf_prop true p = true /\ decodes pd true p) o ->
  forall fuel pre obj nSize,
    (length o < fuel)%nat -> zlen (body_end o) <= nSize -> nSize < 2 ^ 31 ->
    amf_object_loop pd fuel obj false (pre ++ body_end o ++ post) (zlen pre) nSize true =
      Done (nSize - zlen (body_end o), false, obj ++ map decoded o).
Proof.
  unfold body_end, enc_props.
  induction 1 as [|p o [Hwf Hp] Ho IH]; intros fuel pre obj nSize Hf Hn Hmax;
    (destruct fuel as [|fuel]; [simpl in Hf; lia|]); cbn [amf_object_loop].
  - change (concat (map enc_prop [])) with (@nil Z) in *. rewrite app_nil_l in *.
    change (zlen (be24 AMF_OBJECT_END)) with 3 in *.
    rewrite (proj2 (Z.ltb_lt _ _)), (proj2 (Z.leb_le _ _)) by lia.
    assert (AMF_DecodeInt24 (pre ++ be24 AMF_OBJECT_END ++ post) (zlen pre) = Done AMF_OBJECT_END) as ->.
    { unfold AMF_DecodeInt24. rd_at. done. }
    simpl. by rewrite app_nil_r.
  - simpl concat in *. rewrite <- !app_assoc in *. rewrite !zlen_app, zlen_be24 in *.
    pose proof (zlen_nonneg (concat (map enc_prop o))). pose proof (enc_prop_length p).
    rewrite (proj2 (Z.ltb_lt _ _)), (proj2 (Z.leb_le _ _)) by lia.
    destruct (DecodeInt24_named p pre (concat (map enc_prop o) ++ be24 AMF_OBJECT_END ++ post) Hwf)
      as (v & -> & Hv). cbv beta iota. rewrite (proj2 (Z.eqb_neq _ _)) by done.
    rewrite Hp by lia. cbv beta iota. rewrite (proj2 (Z.eqb_neq _ _)) by lia.
    rewrite app_assoc, <- zlen_app, IH;
      [|simpl in Hf; lia|lia|lia].
    unfold AMF_AddProp. rewrite <- app_assoc. simpl.
    do 3 f_equal. lia.
Qed.

Lemma array_loop_decodes pd o post :
  Forall (decodes pd false) o ->
  forall pre obj nSize, zlen (enc_props o) <= nSize -> nSize < 2 ^ 31 ->
    amf_array_loop pd (length o) obj false (pre ++ enc_props o ++ post) (zlen pre) nSize false =
      Done (nSize - zlen (enc_props o), false, obj ++ map decoded o).
Proof.
  unfold enc_props.
  induction 1 as [|p o Hp Ho IH]; intros pre obj nSize Hn Hmax; simpl.
  - by rewrite app_nil_r, Z.sub_0_r.
  - simpl in Hn. rewrite <- !app_assoc, !zlen_app in *.
    pose proof (zlen_nonneg (concat (map enc_prop o))). pose proof (enc_prop_length p).
    rewrite Hp by lia. cbv beta iota. rewrite (proj2 (Z.eqb_neq _ _)) by lia.
    rewrite app_assoc, <- zlen_app, IH by lia.
    unfold AMF_AddProp. rewrite <- app_assoc. simpl. do 3 f_equal. lia.
Qed.

Lemma Decode_with_decodes pd o fuel pre post nSize :
  Forall (fun p => wf_prop true p = true /\ decodes pd true p) o ->
  (length o < fuel)%nat -> zlen (body_end o) <= nSize -> nSize < 2 ^ 31 ->
  AMF_Decode_with pd fuel (pre ++ body_end o ++ post) (zlen pre) nSize true =
    Done (zlen (body_end o), map decoded o).
Proof.
  intros. unfold AMF_Decode_with. rewrite object_loop_decodes by done. cbv beta iota.
  simpl. do 2 f_equal. lia.
Qed.

Lemma length_enc_props o : Z.of_nat (length o) <= zlen (enc_props o).
Proof.
  induction o as [|p o IH]; [done|]. unfold enc_props in *. simpl.
  rewrite zlen_app. pose proof (enc_prop_length p). lia.
Qed.

Lemma rd_first pre x w : rd (pre ++ x :: w) (zlen pre) = Some x.
Proof. rd_at. done. Qed.

Lemma past_first (pre : buf) x w : pre ++ x :: w = (pre ++ [x]) ++ w.
Proof. by rewrite <- app_assoc. Qed.

Lemma zlen_past_first (pre : buf) x : zlen pre + 1 = zlen (pre ++ [x]).
Proof. by rewrite zlen_app. Qed.

(** Decides the tests of the type byte. *)
Ltac type_tests :=
  cbv beta iota zeta delta [lift];
  repeat match goal with
  | |- context [?a =? ?b] =>
      let c := eval vm_compute in (a =? b) in
      match c with true => idtac | false => idtac end; change (a =? b) with c
  end; cbv beta iota delta [orb].

Ltac at_value pre :=
  unfold amf_value; rewrite <- ?app_comm_cons; rewrite (rd_first pre); type_tests;
  try rewrite (past_first pre);
  try match goal with |- context [(pre ++ [?x]) ++ _] => rewrite ?(zlen_past_first pre x) end.

Section values.
Context (pd : prop_decoder) (fuel : nat) (pre post : buf) (prop : AMFObjectProperty).
Context (nOriginalSize nSize : Z) (HnSize : nSize < 2 ^ 31).

(** What [amf_value] is to return for the value [v] of type [t]. *)
Definition value_result (t : Z) (v : AMFValue) : outcome (Z * AMFObjectProperty) :=
  let d := decoded (AMFProp AV_empty t v None) in
  Done (nOriginalSize - (nSize - zlen (enc_value t v)),
        set_p_type (p_type d) (match v with Uninit => prop | _ => set_p_vu (p_vu d) prop end)).

Definition value_decodes (t : Z) (v : AMFValue) : Prop :=
  zlen (enc_value t v) <= nSize ->
  amf_value pd fuel nOriginalSize prop (pre ++ enc_value t v ++ post) (zlen pre) nSize =
    value_result t v.

Lemma number_decodes d : is_u 64 d -> value_decodes AMF_NUMBER (Number d).
Proof.
  unfold value_decodes, value_result. intros Hd Hn.
  change (zlen (enc_value AMF_NUMBER (Number d))) with 9 in *.
  change (enc_value AMF_NUMBER (Number d)) with (AMF_NUMBER :: double_bytes d).
  at_value pre. rewrite (proj2 (Z.ltb_ge _ _)) by lia. rewrite DecodeNumber_at by done.
  cbv beta iota. f_equal. f_equal. lia.
Qed.

Lemma boolean_decodes d : value_decodes AMF_BOOLEAN (Number d).
Proof.
  unfold value_decodes, value_result. intros Hn.
  change (zlen (enc_value AMF_BOOLEAN (Number d))) with 2 in *.
  change (enc_value AMF_BOOLEAN (Number d)) with [AMF_BOOLEAN; if double_nonzero d then 1 else 0].
  at_value pre. rewrite (proj2 (Z.ltb_ge _ _)) by lia. unfold AMF_DecodeBoolean. rewrite rd_first.
  simpl. destruct (double_nonzero d); do 2 f_equal; lia.
Qed.

Lemma null_decodes : value_decodes AMF_NULL Uninit.
Proof.
  unfold value_decodes, value_result. intros Hn. change (enc_value AMF_NULL Uninit) with [AMF_NULL].
  by at_value pre.
Qed.

Lemma string_decodes v : wf_str v = true -> value_decodes AMF_STRING (Str v).
Proof.
  unfold value_decodes, value_result. intros Hv.
  change (enc_value AMF_STRING (Str v)) with (enc_string v). unfold enc_string.
  pose proof (chars_zlen v Hv) as Hc. pose proof (wf_str_len v Hv).
  destruct (Z.ltb_spec (av_len v) 65536); rewrite zlen_app, zlen_cons, ?zlen_be16, ?zlen_be32, Hc;
    intros Hn.
  - at_value pre. rewrite <- (app_assoc (be16 _)), DecodeInt16_at by (split; lia). cbv beta iota.
    rewrite (proj2 (Z.ltb_ge _ _)) by lia. rewrite DecodeString_at by done.
    simpl. do 2 f_equal. lia.
  - at_value pre. rewrite <- (app_assoc (be32 _)), DecodeInt32_at by (split; lia). cbv beta iota.
    rewrite (proj2 (Z.ltb_ge _ _)) by lia. rewrite DecodeLongString_at by done.
    simpl. do 2 f_equal. lia.
Qed.

Lemma object_decodes o :
  Forall (fun p => wf_prop true p = true /\ decodes pd true p) o -> (length o < fuel)%nat ->
  value_decodes AMF_OBJECT (Obj o).
Proof.
  unfold value_decodes, value_result. intros Ho Hf.
  change (enc_value AMF_OBJECT (Obj o)) with (AMF_OBJECT :: body_end o).
  rewrite zlen_cons, zlen_body_end. intros Hn. pose proof (zlen_nonneg (enc_props o)).
  at_value pre. rewrite Decode_with_decodes by (done || rewrite ?zlen_body_end; lia).
  cbv beta iota. rewrite zlen_body_end, (proj2 (Z.eqb_neq _ _)) by lia.
  do 2 f_equal. lia.
Qed.

Lemma ecma_decodes o :
  Forall (fun p => wf_prop true p = true /\ decodes pd true p) o -> (length o < fuel)%nat ->
  value_decodes AMF_ECMA_ARRAY (Obj o).
Proof.
  unfold value_decodes, value_result. intros Ho Hf.
  change (enc_value AMF_ECMA_ARRAY (Obj o)) with (AMF_ECMA_ARRAY :: be32 (zlen o) ++ body_end o).
  rewrite zlen_cons, zlen_app, zlen_be32, zlen_body_end. intros Hn.
  pose proof (zlen_nonneg (enc_props o)).
  at_value pre. rewrite <- (app_assoc (be32 _)), (app_assoc _ (be32 _)).
  match goal with |- context [zlen ?a + 4] =>
    replace (zlen a + 4) with (zlen (a ++ be32 (zlen o))) by (rewrite zlen_app; done) end.
  rewrite Decode_with_decodes by (done || rewrite ?zlen_body_end; lia).
  cbv beta iota. rewrite zlen_body_end, (proj2 (Z.eqb_neq _ _)) by lia.
  do 2 f_equal. lia.
Qed.

Lemma strict_decodes o :
  Forall (decodes pd false) o -> value_decodes AMF_STRICT_ARRAY (Obj o).
Proof.
  unfold value_decodes, value_result. intros Ho.
  change (enc_value AMF_STRICT_ARRAY (Obj o)) with (AMF_STRICT_ARRAY :: be32 (zlen o) ++ enc_props o).
  rewrite zlen_cons, zlen_app, zlen_be32. intros Hn. pose proof (length_enc_props o).
  assert (0 <= zlen o < 2 ^ 31) by (unfold zlen in *; lia).
  at_value pre. rewrite <- (app_assoc (be32 _)), DecodeInt32_at by (split; lia).
  rewrite (app_assoc _ (be32 _)).
  match goal with |- context [zlen ?a + 4] =>
    replace (zlen a + 4) with (zlen (a ++ be32 (zlen o))) by (rewrite zlen_app; done) end.
  cbv beta iota. rewrite swrap_small by (lia || split; lia).
  unfold AMF_DecodeArray_with. assert (Z.to_nat (zlen o) = length o) as -> by (unfold zlen; lia).
  rewrite array_loop_decodes by (done || lia). cbv beta iota.
  rewrite (proj2 (Z.eqb_neq _ _)) by lia. do 2 f_equal. lia.
Qed.
End values.

(** A value of any type, when the members are decoded. *)
Lemma amf_value_decodes pd fuel named n t v u pre post prop nOriginalSize nSize :
  wf_prop named (AMFProp n t v u) = true ->
  (forall o nm, v = Obj o -> forallb (wf_prop nm) o = true -> Forall (decodes pd nm) o) ->
  zlen (enc_value t v) <= Z.of_nat fuel + 1 -> nSize < 2 ^ 31 ->
  value_decodes pd fuel pre post prop nOriginalSize nSize t v.
Proof.
  intros Hwf Ho Hf Hmax. simpl in Hwf. apply andb_prop in Hwf as [_ Hwf].
  destruct v as [| |d|s|o]; [|done|..].
  - andbs. apply Z.eqb_eq in H as ->. apply null_decodes.
  - andbs. apply orb_prop in H as [E|E]; apply Z.eqb_eq in E as ->.
    + apply number_decodes. split; lia.
    + apply boolean_decodes.
  - andbs. apply Z.eqb_eq in H as ->. by apply string_decodes.
  - specialize (fun nm => Ho o nm eq_refl). apply orb_prop in Hwf as [Hwf|Hwf]; andbs.
    + specialize (Ho _ H0). assert (Forall (fun p => wf_prop true p = true /\ decodes pd true p) o).
      { apply Forall_and. split; [|done]. by apply forallb_Forall. }
      pose proof (length_enc_props o).
      apply orb_prop in H as [E|E]; apply Z.eqb_eq in E as ->.
      * apply object_decodes; [done|done|].
        change (enc_value AMF_OBJECT (Obj o)) with (AMF_OBJECT :: body_end o) in Hf.
        rewrite zlen_cons, zlen_body_end in Hf. lia.
      * apply ecma_decodes; [done|done|].
        change (enc_value AMF_ECMA_ARRAY (Obj o))
          with (AMF_ECMA_ARRAY :: be32 (zlen o) ++ body_end o) in Hf.
        rewrite zlen_cons, zlen_app, zlen_be32, zlen_body_end in Hf. lia.
    + apply Z.eqb_eq in H as ->. apply strict_decodes; [done|]. by apply Ho.
Qed.

Lemma member_length p o : p ∈ o -> zlen (enc_prop p) <= zlen (enc_props o).
Proof.
  intros H. apply list_elem_of_split in H as (l1 & l2 & ->).
  unfold enc_props. rewrite map_app, concat_app, zlen_app. simpl. rewrite zlen_app.
  pose proof (zlen_nonneg (concat (map enc_prop l1))).
  pose proof (zlen_nonneg (concat (map enc_prop l2))). lia.
Qed.

Lemma enc_value_members t o : 1 + zlen (enc_props o) <= zlen (enc_value t (Obj o)).
Proof.
  unfold enc_value, enc_props. simpl.
  repeat case_match; rewrite !zlen_cons, ?zlen_app; 
    repeat match goal with
    | |- context [zlen ?l] => pose proof (zlen_nonneg l); generalize dependent (zlen l)
    end; lia.
Qed.

(** The property after its name [n] was stored. *)
Lemma value_result_named n t v u k nOriginalSize nSize :
  k = nOriginalSize - (nSize - zlen (enc_value t v)) ->
  value_result (set_p_name (decoded_str n) uninit_prop) nOriginalSize nSize t v =
    Done (k, decoded (AMFProp n t v u)).
Proof.
  intros ->. unfold value_result. destruct v as [| |d|s|o]; try done. simpl.
  by destruct (t =? AMF_BOOLEAN).
Qed.

(** [AMFProp_Decode] on the encoding of every well-formed property. *)
Lemma AMFProp_Decode_decodes fuel : forall named p,
  wf_prop named p = true -> zlen (enc_prop p) <= Z.of_nat fuel ->
  decodes (AMFProp_Decode fuel) named p.
Proof.
  induction fuel as [|fuel IH]; intros named [n t v u] Hwf Hf pre post nSize Hn Hmax.
  { pose proof (enc_prop_length (AMFProp n t v u)). lia. }
  rewrite enc_prop_value, zlen_app in *.
  pose proof (enc_value_length t v) as Hl. pose proof (zlen_nonneg (enc_name n)) as Hln.
  assert (forall pre prop nOriginalSize nSize, nSize < 2 ^ 31 ->
    value_decodes (AMFProp_Decode fuel) fuel pre post prop nOriginalSize nSize t v) as Hv.
  { intros. apply (amf_value_decodes _ _ named n _ _ u); [done| |lia|done].
    intros o nm -> Ho. apply Forall_forall. intros p Hp.
    pose proof (member_length p o Hp). pose proof (enc_value_members t o).
    apply IH; [|lia]. by apply (proj1 (Forall_forall _ _) (forallb_Forall _ _ Ho)). }
  assert (wf_name named n = true) as Hnm by (simpl in Hwf; by andbs).
  pose proof (zlen_enc_name n (wf_name_str _ _ Hnm)) as Hnl.
  cbn [AMFProp_Decode]. rewrite (proj2 (Z.eqb_neq nSize 0)) by (destruct v; lia).
  destruct named; cbv beta iota delta [andb].
  - assert (1 <= av_len n < 65536) as Hlen by (unfold wf_name in Hnm; andbs; lia).
    pose proof (wf_name_str _ _ Hnm) as Hstr. pose proof (chars_zlen n Hstr) as Hc.
    unfold enc_name in *. rewrite (proj2 (Z.eqb_neq (av_len n) 0)) in * by lia. rewrite Hnl in *.
    assert (2 <= zlen (enc_value t v)).
    { destruct v; [simpl in Hwf; andbs; done|simpl in Hwf; andbs; done|done..]. }
    rewrite (proj2 (Z.ltb_ge _ _)) by lia. rewrite <- !app_assoc, DecodeInt16_at by (split; lia).
    cbv beta iota. rewrite (proj2 (Z.ltb_ge _ _)) by lia. rewrite DecodeString_at by (done || lia).
    cbv beta iota. rewrite (proj2 (Z.eqb_neq _ _)) by lia.
    rewrite (app_assoc (be16 _)), (app_assoc pre).
    replace (zlen pre + (2 + av_len n)) with (zlen (pre ++ be16 (av_len n) ++ chars n))
      by (rewrite !zlen_app, zlen_be16; lia).
    rewrite Hv by lia. apply value_result_named. lia.
  - assert (av_len n = 0) as E by (unfold wf_name in Hnm; andbs; lia).
    assert (enc_name n = []) as En by (unfold enc_name; by rewrite E).
    rewrite En in *. change (zlen (@nil Z)) with 0 in *. rewrite !Z.add_0_l, app_nil_l in *.
    rewrite Hv by lia. rewrite <- (value_result_named n t v u _ nSize nSize) by lia.
    unfold decoded_str. by rewrite E.
Qed.

Lemma members_emit depth o :
  wf_object o = true -> (object_depth o <= depth)%nat ->
  Forall (fun p => emits 2 (AMFProp_Encode depth p) (enc_prop p)) o.
Proof.
  intros Hwf Hd. apply object_depth_members in Hd.
  apply forallb_Forall in Hwf. eapply Forall_impl; [apply Forall_and; split; [exact Hd|exact Hwf]|].
  intros p [Hp Hw]. by apply (AMFProp_Encode_emits _ true).
Qed.

Lemma AMF_Encode_emits depth o :
  wf_object o = true -> (object_depth o <= depth)%nat ->
  emits 1 (AMF_Encode depth o) (enc_object o).
Proof. intros Hwf Hd. by apply emits_object, members_emit. Qed.

(** ** Properties *)

(** [AMF_Encode] writes exactly the AMF0 encoding of the object - the type byte,
    every member as its length-prefixed name and its value, nested objects and arrays
    included, and the end marker 00 00 09 - as soon as the buffer has one byte more
    than that, returns the end of it and touches nothing behind it. *)
Theorem amf_encode_writes depth o w room :
  wf_object o = true -> (object_depth o <= depth)%nat ->
  zlen (enc_object o) + 1 <= room -> room <= zlen w ->
  AMF_Encode depth o w room =
    Some (Some (zlen (enc_object o)), enc_object o ++ drop (Z.to_nat (zlen (enc_object o))) w).
Proof. intros Hwf Hd. by apply AMF_Encode_emits. Qed.

(** C4: what [AMF_Encode] wrote for a well-formed object, [AMFProp_Decode] reads
    back: it consumes exactly the bytes written and yields the same members in the same
    order with the same names, numbers and strings; booleans come back as 0 or 1, ECMA
    and strict arrays as objects of their members. *)
Theorem amf_roundtrip depth fuel o w :
  wf_object o = true -> (object_depth o <= depth)%nat ->
  zlen (enc_object o) + 1 <= zlen w -> zlen w < 2 ^ 31 -> zlen w <= Z.of_nat fuel ->
  exists n w', AMF_Encode depth o w (zlen w) = Some (Some n, w') /\ zlen w' = zlen w /\
    AMFProp_Decode fuel uninit_prop w' 0 (zlen w') false =
      Done (n, AMFProp AV_empty AMF_OBJECT (Obj (map decoded o)) None).
Proof.
  intros Hwf Hd Hl Hmax Hf. pose proof (zlen_nonneg (enc_object o)).
  exists (zlen (enc_object o)), (enc_object o ++ drop (Z.to_nat (zlen (enc_object o))) w).
  assert (zlen (enc_object o ++ drop (Z.to_nat (zlen (enc_object o))) w) = zlen w) as E
    by (rewrite zlen_app, zlen_drop; lia).
  split; [apply AMF_Encode_emits; done || lia|]. split; [done|].
  rewrite E. apply (AMFProp_Decode_decodes fuel false (AMFProp AV_empty AMF_OBJECT (Obj o) None)) with (pre := []);
    [|change (enc_prop _) with (enc_object o); lia..|lia].
  unfold wf_object in Hwf. simpl. by rewrite Hwf.
Qed.

(** An object with a member of every kind. *)
Definition sample_str (s : buf) : AVal := mkAVal (Some s) (zlen s).
Definition sample_object : AMFObject :=
  [ AMFProp (sample_str [97]) AMF_NUMBER (Number (double_of_int 5)) None;
    AMFProp (sample_str [98; 99]) AMF_BOOLEAN (Number (double_of_int 1)) None;
    AMFProp (sample_str [100]) AMF_STRING (Str (sample_str [104; 105])) None;
    AMFProp (sample_str [101]) AMF_OBJECT (Obj
      [AMFProp (sample_str [102]) AMF_ECMA_ARRAY (Obj
         [AMFProp (sample_str [103]) AMF_STRING (Str AV_empty) None]) None]) None;
    AMFProp (sample_str [104]) AMF_STRICT_ARRAY (Obj
      [AMFProp AV_empty AMF_NULL Uninit None;
       AMFProp AV_empty AMF_NUMBER (Number 7) None]) None ].

Lemma amf_encode_writes_witness :
  wf_object sample_object = true /\
  AMF_Encode 3 sample_object (replicate 90 0) 90 =
    Some (Some 72, enc_object sample_object ++ replicate 18 0).
Proof.
  split; [reflexivity|]. apply (amf_encode_writes 3 sample_object (replicate 90 0) 90);
    [reflexivity|vm_compute; lia|vm_compute; discriminate|vm_compute; discriminate].
Defined.

Lemma amf_roundtrip_witness :
  wf_object sample_object = true /\
  exists n w', AMF_Encode 3 sample_object (replicate 90 0) 90 = Some (Some n, w') /\ zlen w' = 90 /\
    AMFProp_Decode 90 uninit_prop w' 0 (zlen w') false =
      Done (n, AMFProp AV_empty AMF_OBJECT (Obj (map decoded sample_object)) None).
Proof.
  split; [reflexivity|]. apply (amf_roundtrip 3 90 sample_object (replicate 90 0));
    [reflexivity|vm_compute; lia|vm_compute; discriminate|reflexivity|vm_compute; discriminate].
Defined.
