(* ===== verification/AmfSafety.v ===== *)
(** Bounds and termination of the AMF decoders, and the inputs on which they go
    wrong. *)

From stdpp Require Import base list option numbers strings.
From S2P Require Import Prelude CMem TypeDefs Amf AmfSpec AmfRoundTrip.

Local Open Scope Z_scope.
Open Scope c_scope.

(** A type byte is a [char] converted to an enumeration. *)
Lemma type_byte c k : byte c -> 0 <= k < 128 -> u32 (s8 c) = k -> c = k.
Proof.
  intros Hc Hk E.
  pose proof (byte_case (fun c => (u32 (s8 c) =? c) || (128 <=? u32 (s8 c))) eq_refl c Hc) as H.
  simpl in H. apply orb_prop in H as [H|H]; lia.
Qed.

(** Closes the branches that return a failure, or a number of bytes. *)
Ltac failed := do 2 eexists; split; [done|by left].
Ltac stored := do 2 eexists; split; [done|right; lia].
Ltac read_in L p := destruct (L p) as [? ->]; [lia..|]; cbv beta iota.

(** ** The AMF0 decoder *)

(** Five zero bytes lie behind the end [E] of the data.  The lengths of strings and arrays are
    read before they are compared with what is left, and an array goes on to its next member
    when a member took too much: a zero there is the marker of a number, which is refused. *)
Definition zeros_behind (b : buf) (E : Z) : Prop :=
  E + 5 <= zlen b /\ forall q, E <= q < E + 5 -> rd b q = Some 0.

(** Wherever a byte has the value of the AMF3 marker, [AMF3_Decode] returns on the bytes behind
    it and stays as near to the end as the rest of the decoder. *)
Definition amf3_returns (b : buf) (E : Z) : Prop :=
  forall fuel q, 0 <= q < E -> rd b q = Some AMF_AVMPLUS -> E - q <= Z.of_nat fuel ->
  exists n obj, AMF3_Decode fuel b (q + 1) (E - (q + 1)) true = Done (n, obj) /\ -1 <= n <= E - q + 3.

Lemma amf3_returns_without b E : Forall (fun x => x <> AMF_AVMPLUS) b -> amf3_returns b E.
Proof.
  intros Hb fuel q Hq Hr. unfold rd in Hr. destruct (0 <=? q); [|done].
  by apply (Forall_lookup_1 _ _ _ _ Hb) in Hr.
Qed.

Section amf0.
Context (b : buf) (E : Z) (Hz : zeros_behind b E) (H3 : amf3_returns b E) (Hbytes : bytes b).

Lemma DecodeInt16_in p : 0 <= p -> p + 2 <= zlen b -> exists n, AMF_DecodeInt16 b p = Done n /\ 0 <= n.
Proof.
  intros. unfold AMF_DecodeInt16. repeat rd_step. simpl. eexists. split; [done|].
  rewrite Z.lor_nonneg, Z.shiftl_nonneg. split;
    match goal with H : rd b _ = Some ?v |- 0 <= ?v => apply rd_byte in H; [apply H|done] end.
Qed.

Lemma DecodeInt24_in p : 0 <= p -> p + 3 <= zlen b -> exists n, AMF_DecodeInt24 b p = Done n.
Proof. intros. unfold AMF_DecodeInt24. repeat rd_step. simpl. eauto. Qed.

Lemma DecodeInt32_in p : 0 <= p -> p + 4 <= zlen b -> exists n, AMF_DecodeInt32 b p = Done n /\ 0 <= n.
Proof.
  intros. unfold AMF_DecodeInt32. repeat rd_step. simpl. eexists. split; [done|].
  rewrite !Z.lor_nonneg, !Z.shiftl_nonneg. repeat split;
    match goal with H : rd b _ = Some ?v |- 0 <= ?v => apply rd_byte in H; [apply H|done] end.
Qed.

Lemma DecodeNumber_in p : 0 <= p -> p + 8 <= zlen b -> exists n, AMF_DecodeNumber b p = Done n.
Proof.
  intros. unfold AMF_DecodeNumber. destruct (rdn_in b p 8) as (r & -> & _); [lia..|]. simpl. eauto.
Qed.

(** What a decoder promises on the [nSize] bytes up to [E]; after a member that took too much
    there are less than none. *)
Definition prop_ok (pd : prop_decoder) (nSize : Z) : Prop :=
  forall prop p named, 0 <= p -> p + nSize = E ->
    exists nRes prop', pd prop b p nSize named = Done (nRes, prop') /\
      (nRes = -1 \/ 1 <= nRes <= nSize + 4).

Section members.
Context (pd : prop_decoder) (n : Z) (Hpd : forall nSize, -4 <= nSize <= n -> prop_ok pd nSize).

Lemma object_loop_ok fuel : forall obj (bError : bool) p nSize named,
  0 <= p -> -4 <= nSize <= n -> p + nSize = E -> nSize + (if bError then 0 else 1) <= Z.of_nat fuel ->
  exists k e obj', amf_object_loop pd fuel obj bError b p nSize named = Done (k, e, obj') /\ -4 <= k <= nSize.
Proof.
  destruct Hz as [Hl _].
  induction fuel as [|fuel IH]; intros obj bError p nSize named Hp Hn HE Hf;
    simpl; (destruct (Z.ltb_spec 0 nSize); [|do 3 eexists; split; [done|lia]]).
  { destruct bError; lia. }
  assert (exists at_end, (if 3 <=? nSize then let! v := AMF_DecodeInt24 b p in Done (v =? AMF_OBJECT_END)
                          else Done false) = Done at_end /\ (at_end = true -> 3 <= nSize))
    as (at_end & -> & He).
  { destruct (Z.leb_spec 3 nSize); [|by exists false].
    destruct (DecodeInt24_in p) as [v ->]; [lia..|]. eauto. }
  destruct at_end. { do 3 eexists. split; [done|]. pose proof (He ltac:(done)). lia. }
  assert (forall obj' (bError' : bool) q, 0 <= q <= nSize + 4 -> q + (if bError' then 1 else 0) >= 1 ->
    (bError = true -> q >= 1 /\ bError' = true) ->
    exists k e obj'', amf_object_loop pd fuel obj' bError' b (p + q) (nSize - q) named =
      Done (k, e, obj'') /\ -4 <= k <= nSize) as Hgo.
  { intros obj' bError' q H0 H2 H1.
    destruct (IH obj' bError' (p + q) (nSize - q) named) as (k & e & o & -> & Hk); [lia..| |].
    - destruct bError, bError'; try lia; destruct (H1 eq_refl); try done; lia.
    - do 3 eexists. split; [done|lia]. }
  destruct bError.
  { apply (Hgo obj true 1); [lia..|]. intros _. split; [lia|done]. }
  destruct (Hpd nSize ltac:(lia) uninit_prop p named) as (nRes & prop & -> & Hres); [lia..|].
  destruct (Z.eqb_spec nRes (-1)).
  - specialize (Hgo obj true 0). rewrite Z.add_0_r, Z.sub_0_r in Hgo. apply Hgo; lia || done.
  - apply Hgo; lia || done.
Qed.

Lemma array_loop_ok len : forall obj bError p nSize named,
  0 <= p -> -4 <= nSize <= n -> p + nSize = E ->
  exists k e obj', amf_array_loop pd len obj bError b p nSize named = Done (k, e, obj') /\ -4 <= k <= nSize.
Proof.
  induction len as [|len IH]; intros obj bError p nSize named Hp Hn HE; cbn [amf_array_loop].
  { do 3 eexists. split; [done|lia]. }
  destruct (Hpd nSize ltac:(lia) uninit_prop p named) as (nRes & prop & -> & Hres); [lia..|].
  destruct (Z.eqb_spec nRes (-1)); [by apply IH|].
  destruct (IH (AMF_AddProp obj prop) bError (p + nRes) (nSize - nRes) named) as (k & e & o & -> & Hk);
    [lia..|]. do 3 eexists. split; [done|lia].
Qed.

(** What the decoders of objects and arrays promise. *)
Definition object_ok (r : outcome (Z * AMFObject)) (nSize : Z) : Prop :=
  exists nRes obj, r = Done (nRes, obj) /\ (nRes = -1 \/ 0 <= nRes <= nSize + 4).

Lemma Decode_with_ok fuel p nSize named :
  0 <= p -> -4 <= nSize <= n -> p + nSize = E -> nSize + 1 <= Z.of_nat fuel ->
  object_ok (AMF_Decode_with pd fuel b p nSize named) nSize.
Proof.
  intros Hp Hn HE Hf. unfold AMF_Decode_with.
  destruct (object_loop_ok fuel [] false p nSize named) as (k & e & o & -> & Hk); [lia..|].
  cbv beta iota. do 2 eexists. split; [done|]. destruct e; lia.
Qed.

Lemma DecodeArray_with_ok p nSize len named :
  0 <= p -> -4 <= nSize <= n -> p + nSize = E ->
  object_ok (AMF_DecodeArray_with pd b p nSize len named) nSize.
Proof.
  intros Hp Hn HE. unfold AMF_DecodeArray_with.
  destruct (array_loop_ok (Z.to_nat len) [] false p nSize named) as (k & e & o & -> & Hk); [lia..|].
  cbv beta iota. do 2 eexists. split; [done|]. destruct e; lia.
Qed.
End members.

(** The branches that decode an object. *)
Lemma nested_ok r nSize nOriginalSize (f g : AMFObject -> AMFObjectProperty) :
  object_ok r nSize -> nSize < nOriginalSize ->
  exists nRes prop',
    (let! (nRes, o) := r in
     if nRes =? -1 then Done (-1, f o) else Done (nOriginalSize - (nSize - nRes), g o)) =
    Done (nRes, prop') /\ (nRes = -1 \/ 1 <= nRes <= nOriginalSize + 4).
Proof.
  intros (nRes & o & -> & H) Ho. cbv beta iota. destruct (Z.eqb_spec nRes (-1)); [failed|stored].
Qed.

Lemma amf_value_ok pd fuel nOriginalSize prop p nSize :
  (forall n, -4 <= n <= nSize - 1 -> prop_ok pd n) ->
  0 <= p -> 0 < nSize <= nOriginalSize -> p + nSize = E -> nSize <= Z.of_nat fuel ->
  exists nRes prop', amf_value pd fuel nOriginalSize prop b p nSize = Done (nRes, prop') /\
    (nRes = -1 \/ 1 <= nRes <= nOriginalSize + 4).
Proof.
  intros Hpd Hp Hn HE Hf. destruct Hz as [Hl _]. unfold amf_value.
  destruct (rd_in b p) as [c Ec]; [lia|]. rewrite Ec. cbv beta iota zeta delta [lift].
  pose proof (rd_byte b p c Hbytes Ec) as Hc.
  repeat (case_match; [first [by failed
    |apply nested_ok; [first [apply (Decode_with_ok pd (nSize - 1)); [done|lia..]]|lia]|idtac]|]).
  - read_in DecodeNumber_in (p + 1). stored.
  - unfold AMF_DecodeBoolean. rd_step. stored.
  - destruct (DecodeInt16_in (p + 1)) as (n & En & Hn0); [lia..|]. rewrite En. cbv beta iota.
    case_match; [failed|]. unfold AMF_DecodeString. rewrite En. stored.
  - stored.
  - destruct (DecodeInt32_in (p + 1)) as (n & -> & _); [lia..|]. cbv beta iota. apply nested_ok; [|lia].
    apply (DecodeArray_with_ok pd (nSize - 1)); [done|lia..].
  - read_in DecodeNumber_in (p + 1). destruct (DecodeInt16_in (p + 1 + 8)) as (n & -> & _); [lia..|].
    stored.
  - destruct (DecodeInt32_in (p + 1)) as (n & En & Hn0); [lia..|]. rewrite En. cbv beta iota.
    case_match; [failed|]. unfold AMF_DecodeLongString. rewrite En. stored.
  - match goal with H : (_ =? AMF_AVMPLUS) = true |- _ => apply Z.eqb_eq, type_byte in H; [subst c|done..] end.
    apply nested_ok; [|lia]. destruct (H3 fuel p ltac:(lia) Ec ltac:(lia)) as (k & o & E3 & Hk).
    replace (nSize - 1) with (E - (p + 1)) by lia. rewrite E3. do 2 eexists. split; [done|lia].
  - failed.
Qed.

(** Where nothing is left, there is a zero. *)
Lemma amf_value_behind pd fuel nOriginalSize prop p nSize :
  -4 <= nSize <= 0 -> p + nSize = E ->
  exists prop', amf_value pd fuel nOriginalSize prop b p nSize = Done (-1, prop').
Proof.
  intros Hn HE. unfold amf_value. rewrite (proj2 Hz) by lia. cbn [lift].
  change (u32 (s8 0) =? AMF_NUMBER) with true. cbv beta iota zeta.
  rewrite (proj2 (Z.ltb_lt _ _)) by lia. eauto.
Qed.

Lemma AMFProp_Decode_ok fuel : forall nSize,
  -4 <= nSize -> Z.max 0 nSize + 1 <= Z.of_nat fuel -> prop_ok (AMFProp_Decode fuel) nSize.
Proof.
  destruct Hz as [Hl _].
  induction fuel as [|fuel IH]; intros nSize Hn Hf prop p named Hp HE; [lia|].
  cbn [AMFProp_Decode]. destruct (Z.eqb_spec nSize 0); [failed|].
  destruct named; cbv beta iota delta [andb].
  - destruct (Z.ltb_spec nSize 4); [failed|].
    destruct (DecodeInt16_in p) as (m & Em & Hm); [lia..|]. rewrite Em. cbv beta iota.
    destruct (Z.ltb_spec (nSize - 2) m); [failed|]. unfold AMF_DecodeString. rewrite Em. cbv beta iota.
    destruct (Z.eqb_spec (nSize - (2 + m)) 0); [failed|].
    apply amf_value_ok; [|lia..]. intros k Hk. apply IH; lia.
  - destruct (Z.ltb_spec 0 nSize).
    + apply amf_value_ok; [|lia..]. intros k Hk. apply IH; lia.
    + destruct (amf_value_behind (AMFProp_Decode fuel) fuel nSize (set_p_name AV_empty prop) p nSize)
        as [prop' ->]; [lia..|]. failed.
Qed.

Lemma AMF_Decode_ok fuel p nSize named :
  0 <= p -> 0 <= nSize -> p + nSize = E -> nSize + 1 <= Z.of_nat fuel ->
  exists nRes obj, AMF_Decode fuel b p nSize named = Done (nRes, obj) /\ -1 <= nRes <= nSize + 4.
Proof.
  intros Hp Hn HE Hf.
  destruct (Decode_with_ok (AMFProp_Decode fuel) nSize) with (fuel := fuel) (p := p) (nSize := nSize) (named := named)
    as (nRes & obj & Er & H); [|lia..|].
  - intros m Hm. apply AMFProp_Decode_ok; lia.
  - exists nRes, obj. split; [done|lia].
Qed.
End amf0.

(** ** Properties *)

(** C32: [AMF_Decode] returns on any bytes, however the data is nested or damaged, strict
    arrays included: it reads nothing outside the buffer, as many rounds as there are bytes
    suffice, and at most four bytes more than those it was given are taken.  The bytes are
    followed by five zero bytes (the decoder reads lengths before it compares them with what
    is left); and wherever one of the bytes is 17, the AMF3 marker, the decoder of AMF3 would
    return on those behind it, which it does not on all (it does not end on a class with
    members).  Bytes of which none is 17 meet this second condition. *)
Theorem amf_decode_total fuel b p nSize named :
  bytes b -> 0 <= p -> 0 <= nSize -> zeros_behind b (p + nSize) -> amf3_returns b (p + nSize) ->
  nSize + 1 <= Z.of_nat fuel ->
  exists nRes obj, AMF_Decode fuel b p nSize named = Done (nRes, obj) /\ -1 <= nRes <= nSize + 4.
Proof. intros Hbytes Hp Hn Hz H3 Hf. by apply (AMF_Decode_ok b (p + nSize)). Qed.

(** An AMF3 reference whose name is the byte 17; a strict array of a null and a string, of
    whose length a byte is missing; then the five zeros. *)
Definition damaged : buf :=
  [0; 1; 17; 17; 10; 0; 0; 1; 98; 10; 0; 0; 0; 2; 5; 2; 0; 0; 0; 0; 0; 0].

Lemma damaged_zeros : zeros_behind damaged 17.
Proof.
  split; [by vm_compute|]. intros q Hq.
  assert (q = 17 \/ q = 18 \/ q = 19 \/ q = 20 \/ q = 21) as [-> | [-> | [-> | [-> | ->]]]] by lia; done.
Qed.

Lemma damaged_markers q : rd damaged q = Some AMF_AVMPLUS -> q = 2 \/ q = 3.
Proof.
  intros Hr. assert (0 <= q < zlen damaged) by (destruct (decide (0 <= q < zlen damaged)); [done|rewrite rd_out in Hr; [done|lia]]).
  pose proof (forall_range (fun q => (q =? 2) || (q =? 3) || negb (bool_decide (rd damaged q = Some AMF_AVMPLUS)))
                0 22 q eq_refl ltac:(done)) as H1. cbv beta in H1.
  rewrite (bool_decide_eq_true_2 _ Hr) in H1. lia.
Qed.

Lemma damaged_amf3 : amf3_returns damaged 17.
Proof.
  intros fuel q _ Hr _. apply damaged_markers in Hr as [-> | ->]; (do 2 eexists; split; [reflexivity|lia]).
Qed.

Lemma amf_decode_total_witness :
  bytes damaged /\
  exists nRes obj, AMF_Decode 18 damaged 0 17 true = Done (nRes, obj) /\ -1 <= nRes <= 17 + 4.
Proof.
  split; [apply bytes_check; reflexivity|].
  apply (amf_decode_total 18 damaged 0 17 true);
    [apply bytes_check; reflexivity|lia..|apply damaged_zeros|apply damaged_amf3|lia].
Defined.

(** The lengths of strings, long strings, XML documents and strict arrays are
    read without a check: a buffer that ends with the type byte of one of them is read
    past its end. *)
Theorem amf_decode_overread fuel pre t :
  In t [AMF_STRING; AMF_STRICT_ARRAY; AMF_LONG_STRING; AMF_XML_DOC] ->
  AMFProp_Decode (S fuel) uninit_prop (pre ++ [t]) (zlen pre) 1 false = Undef.
Proof.
  intros Ht. cbn [AMFProp_Decode]. simpl Z.eqb. cbv beta iota delta [andb].
  unfold amf_value. rewrite rd_first. cbv beta iota zeta delta [lift].
  assert (AMF_DecodeInt16 (pre ++ [t]) (zlen pre + 1) = Undef /\
          AMF_DecodeInt32 (pre ++ [t]) (zlen pre + 1) = Undef) as [E16 E32].
  { unfold AMF_DecodeInt16, AMF_DecodeInt32.
    rewrite !(rd_out (pre ++ [t]) (zlen pre + 1)) by (rewrite zlen_app; right; done). done. }
  destruct Ht as [<-|[<-|[<-|[<-|[]]]]]; type_tests; by rewrite ?E16, ?E32.
Qed.

Lemma amf_decode_overread_witness :
  AMFProp_Decode 1 uninit_prop [0; 9; AMF_STRING] 2 1 false = Undef.
Proof. apply (amf_decode_overread 0 [0; 9] AMF_STRING). by left. Defined.

(** ** Members that are lost *)

(** A number that does not fit is not encoded. *)
Lemma number_refused d n x u w room :
  wf_str n = true -> 1 <= av_len n -> room <= zlen w -> room < zlen (enc_name n) + 9 ->
  exists w', AMFProp_Encode (S d) (AMFProp n AMF_NUMBER (Number x) u) w room = Some (None, w') /\ zlen w' = zlen w.
Proof.
  intros Hn Hlen Hw Hr. pose proof (zlen_enc_name n Hn) as Hl.
  rewrite (proj2 (Z.eqb_neq (av_len n) 0)) in Hl by lia.
  cbn [AMFProp_Encode p_type p_name]. type_tests. cbv beta iota delta [negb andb].
  rewrite (proj2 (Z.eqb_neq (av_len n) 0)) by lia.
  destruct (Z.leb_spec room (av_len n + 2 + 1)); [by eauto|].
  destruct w as [|x0 [|x1 w]]; [rewrite ?zlen_cons, zlen_nil in *; lia..|].
  rewrite !zlen_cons in Hw. rewrite wr_head. cbv beta iota.
  rewrite (wr_at [u8 (Z.shiftr (av_len n) 8)] x1 w 1) by done. cbv beta iota.
  change ([u8 (Z.shiftr (av_len n) 8)] ++ u8 (Z.land (av_len n) 255) :: w)
    with ([u8 (Z.shiftr (av_len n) 8); u8 (Z.land (av_len n) 255)] ++ w).
  rewrite (copy_aval_at _ w 2 n) by (done || lia). cbv beta iota.
  unfold enc_then. rewrite app_assoc, at_off_prefix
    by (rewrite zlen_app, chars_zlen by done; done).
  unfold encode_value. simpl p_type. type_tests. simpl p_vu. unfold AMF_EncodeNumber.
  rewrite (proj2 (Z.ltb_lt _ _)) by lia. eexists. split; [done|].
  pose proof (chars_zlen n Hn). rewrite !zlen_app, zlen_drop, !zlen_cons, zlen_nil; lia.
Qed.

(** When a member does not fit any more, [AMF_Encode] drops it and all those
    behind it, ends the object there and reports success: the bytes are those of the
    shorter object. *)
Theorem amf_encode_truncates depth o n x u rest w room :
  wf_object o = true -> (object_depth o <= S depth)%nat ->
  wf_str n = true -> 1 <= av_len n ->
  zlen (enc_object o) + 1 <= room -> room <= zlen w ->
  room < zlen (enc_object o) - 3 + zlen (enc_name n) + 9 ->
  exists tail, AMF_Encode (S depth) (o ++ AMFProp n AMF_NUMBER (Number x) u :: rest) w room =
    Some (Some (zlen (enc_object o)), enc_object o ++ tail).
Proof.
  intros Hwf Hd Hn Hlen Hr Hw Hlt. unfold AMF_Encode, AMF_Encode_with.
  change (enc_object o) with (AMF_OBJECT :: body_end o) in *. rewrite zlen_cons, zlen_body_end in *.
  pose proof (zlen_nonneg (enc_props o)). rewrite (proj2 (Z.leb_gt _ _)) by lia.
  destruct w as [|y w]; [rewrite zlen_nil in *; lia|]. rewrite zlen_cons in Hw.
  rewrite wr_head. cbv beta iota. change (u8 AMF_OBJECT :: w) with ([AMF_OBJECT] ++ w).
  rewrite encode_props_app; [|by apply members_emit|done|lia..]. cbn [encode_props].
  rewrite app_assoc, at_off_prefix by (by rewrite zlen_app).
  set (w1 := drop (Z.to_nat (zlen (enc_props o))) w).
  assert (zlen w1 = zlen w - zlen (enc_props o)) as Hw1 by (unfold w1; rewrite zlen_drop; lia).
  destruct (number_refused depth n x u w1 (room - (1 + zlen (enc_props o))) Hn) as (w2 & -> & Hw2); [lia..|].
  cbv beta iota. rewrite end_marker_emits; [|by rewrite zlen_app|lia..].
  exists (drop 3 w2). unfold body_end. simpl. rewrite <- !app_assoc.
  replace (1 + zlen (enc_props o) + 3) with (1 + (zlen (enc_props o) + 3)) by lia. done.
Qed.

(** A member that fits and one that does not. *)
Lemma amf_encode_truncates_witness :
  exists tail,
    AMF_Encode 1 [ AMFProp (sample_str [97]) AMF_NUMBER (Number 1) None;
                   AMFProp (sample_str [98]) AMF_NUMBER (Number 2) None ] (replicate 20 0) 20 =
    Some (Some 16, enc_object [AMFProp (sample_str [97]) AMF_NUMBER (Number 1) None] ++ tail).
Proof.
  apply (amf_encode_truncates 0 [AMFProp (sample_str [97]) AMF_NUMBER (Number 1) None]
           (sample_str [98]) 2 None []);
    [reflexivity|vm_compute; lia|reflexivity|vm_compute; discriminate..|reflexivity].
Defined.

(** After a failure the decoder looks for the end marker only. *)
Lemma error_loop pd w post m : 0 <= m -> forall fuel pre obj nSize,
  nSize = zlen w + 3 + m -> nSize <= Z.of_nat fuel ->
  exists k, amf_object_loop pd fuel obj true (pre ++ w ++ be24 AMF_OBJECT_END ++ post) (zlen pre)
              nSize true = Done (k, false, obj) /\ 0 <= k <= nSize - 3.
Proof.
  intros Hm. induction w as [|c w IH]; intros fuel pre obj nSize Hn Hf;
    pose proof (zlen_nonneg post); rewrite ?zlen_cons, ?zlen_nil in Hn;
    try pose proof (zlen_nonneg w);
    (destruct fuel as [|fuel]; [lia|]); cbn [amf_object_loop];
    rewrite (proj2 (Z.ltb_lt _ _)), (proj2 (Z.leb_le _ _)) by lia.
  - assert (AMF_DecodeInt24 (pre ++ [] ++ be24 AMF_OBJECT_END ++ post) (zlen pre) =
      Done AMF_OBJECT_END) as -> by (unfold AMF_DecodeInt24; rd_at; done).
    simpl. eexists. split; [done|lia].
  - destruct (rd_in (pre ++ (c :: w) ++ be24 AMF_OBJECT_END ++ post) (zlen pre)) as [c0 E0];
      [rewrite !zlen_app, zlen_cons, zlen_be24; pose proof (zlen_nonneg pre); lia|].
    destruct (rd_in (pre ++ (c :: w) ++ be24 AMF_OBJECT_END ++ post) (zlen pre + 1)) as [c1 E1];
      [rewrite !zlen_app, zlen_cons, zlen_be24; pose proof (zlen_nonneg pre); lia|].
    destruct (rd_in (pre ++ (c :: w) ++ be24 AMF_OBJECT_END ++ post) (zlen pre + 2)) as [c2 E2];
      [rewrite !zlen_app, zlen_cons, zlen_be24; pose proof (zlen_nonneg pre); lia|].
    unfold AMF_DecodeInt24. rewrite E0, E1, E2. cbn [lift].
    destruct (_ =? _); [eexists; split; [done|lia]|].
    destruct (IH fuel (pre ++ [c]) obj (nSize - 1)) as (k & E & Hk); [lia..|].
    rewrite <- app_assoc, zlen_app in E. exists k. split; [exact E|lia].
Qed.

Lemma body_end_head o :
  wf_object o = true -> exists c rest, body_end o = c :: rest /\ byte c.
Proof.
  destruct o as [|[n t v u] o]; intros Hwf.
  { do 2 eexists. split; [reflexivity|]. by apply is_u_0. }
  assert (wf_name true n = true) as Hn by (simpl in Hwf; by andbs).
  assert (1 <= av_len n) as Hl by (unfold wf_name in Hn; andbs; lia).
  unfold body_end, enc_props. cbn [map concat]. rewrite enc_prop_value.
  unfold enc_name. rewrite (proj2 (Z.eqb_neq _ _)) by lia.
  do 2 eexists. split; [reflexivity|]. by apply is_u_uwrap.
Qed.

(** A [null] at the place of a name. *)
Lemma null_as_name fuel prop pre c post nSize :
  byte c -> 4 <= nSize < 1280 ->
  AMFProp_Decode (S fuel) prop (pre ++ AMF_NULL :: c :: post) (zlen pre) nSize true =
    Done (-1, set_p_name AV_empty prop).
Proof.
  intros Hc Hn. cbn [AMFProp_Decode]. rewrite (proj2 (Z.eqb_neq _ _)) by lia.
  cbv beta iota delta [andb]. rewrite (proj2 (Z.ltb_ge _ _)) by lia.
  unfold AMF_DecodeInt16. rewrite rd_first.
  rewrite (rd_app_r pre _ _ _ eq_refl) by lia. change (rd (AMF_NULL :: c :: post) 1) with (Some c).
  cbn [lift]. rewrite lor_shiftl_add by (done || lia). change (Z.shiftl AMF_NULL 8) with 1280.
  rewrite (proj2 (Z.ltb_lt _ _)) by (destruct Hc; lia). done.
Qed.

Lemma null_written d n v u x w room :
  2 <= room -> AMFProp_Encode (S d) (AMFProp n AMF_NULL v u) (x :: w) room = Some (Some 1, AMF_NULL :: w).
Proof.
  intros Hr. cbn [AMFProp_Encode p_type p_name]. type_tests. cbv beta iota delta [negb andb].
  unfold encode_value. simpl p_type. type_tests. by rewrite (proj2 (Z.leb_gt _ _)) by lia.
Qed.

Lemma null_object_decodes fuel o post :
  wf_object o = true -> zlen (body_end o) < 1279 -> 1281 <= Z.of_nat fuel ->
  exists k, AMFProp_Decode (S fuel) uninit_prop ([AMF_OBJECT; AMF_NULL] ++ body_end o ++ post) 0
    (2 + zlen (body_end o)) false = Done (k, AMFProp AV_empty AMF_OBJECT (Obj []) None).
Proof.
  intros Hwf Hl Hf. destruct (body_end_head o Hwf) as (c & rest & E & Hc).
  pose proof (zlen_nonneg (enc_props o)). pose proof (zlen_body_end o) as Hb.
  cbn [AMFProp_Decode]. rewrite (proj2 (Z.eqb_neq _ _)) by lia. cbv beta iota delta [andb].
  unfold amf_value. change (rd ([AMF_OBJECT; AMF_NULL] ++ body_end o ++ post) 0) with (Some AMF_OBJECT).
  type_tests. unfold AMF_Decode_with. change (0 + 1) with (zlen [AMF_OBJECT]).
  change ([AMF_OBJECT; AMF_NULL] ++ body_end o ++ post)
    with ([AMF_OBJECT] ++ AMF_NULL :: body_end o ++ post).
  destruct fuel as [|fuel]; [lia|]. cbn [amf_object_loop].
  rewrite (proj2 (Z.ltb_lt 0 _)), (proj2 (Z.leb_le 3 _)) by lia.
  assert (exists v, AMF_DecodeInt24 ([AMF_OBJECT] ++ AMF_NULL :: body_end o ++ post) (zlen [AMF_OBJECT])
    = Done v /\ v <> AMF_OBJECT_END) as (v & -> & Hv).
  { set (b := [AMF_OBJECT] ++ AMF_NULL :: body_end o ++ post).
    assert (3 <= zlen (AMF_NULL :: body_end o ++ post)) as H3
      by (rewrite zlen_cons, zlen_app; pose proof (zlen_nonneg post); lia).
    assert (4 <= zlen b) by (unfold b; rewrite zlen_app; change (zlen [AMF_OBJECT]) with 1; lia).
    unfold AMF_DecodeInt24. change (rd b (zlen [AMF_OBJECT])) with (Some AMF_NULL).
    change (zlen [AMF_OBJECT]) with 1. clearbody b. do 2 rd_step. cbn [lift].
    eexists. split; [done|]. intros Ev. apply (f_equal (fun z => Z.testbit z 16)) in Ev.
    rewrite !Z.lor_spec in Ev. change (Z.testbit (Z.shiftl AMF_NULL 16) 16) with true in Ev. done. }
  cbv beta iota. rewrite (proj2 (Z.eqb_neq v _)) by done.
  replace (body_end o ++ post) with (c :: rest ++ post) by (by rewrite E).
  rewrite null_as_name by (done || lia).
  change (-1 =? -1) with true. cbv beta iota.
  destruct (error_loop (AMFProp_Decode (S fuel)) (AMF_NULL :: enc_props o) post 0 ltac:(lia)
    fuel [AMF_OBJECT] [] (2 + zlen (body_end o) - 1)) as (k & Ek & Hk); [rewrite zlen_cons; lia|lia|].
  replace (c :: rest ++ post) with (body_end o ++ post) by (by rewrite E).
  change ((AMF_NULL :: enc_props o) ++ be24 AMF_OBJECT_END ++ post)
    with (AMF_NULL :: enc_props o ++ be24 AMF_OBJECT_END ++ post) in Ek.
  unfold body_end at 1. rewrite <- (app_assoc (enc_props o)), Ek. cbv beta iota.
  rewrite (proj2 (Z.eqb_neq _ (-1))) by lia. eauto.
Qed.

(** [AMFProp_Encode] writes [null] without its name: what [AMF_Encode] makes of an
    object whose first member is [null] decodes - with success - to an object without
    any member, as long as it is shorter than 1280 bytes. *)
Theorem amf_null_member_loses depth fuel n u o w :
  wf_object o = true -> (object_depth o <= S depth)%nat ->
  zlen (enc_object o) + 2 <= zlen w -> zlen (enc_object o) < 1280 ->
  1281 <= Z.of_nat fuel ->
  exists size k w',
    AMF_Encode (S depth) (AMFProp n AMF_NULL Uninit u :: o) w (zlen w) = Some (Some size, w') /\
    AMFProp_Decode (S fuel) uninit_prop w' 0 size false =
      Done (k, AMFProp AV_empty AMF_OBJECT (Obj []) None).
Proof.
  intros Hwf Hd Hl Hmax Hf. pose proof (zlen_nonneg (enc_props o)).
  change (enc_object o) with (AMF_OBJECT :: body_end o) in *. rewrite zlen_cons, zlen_body_end in *.
  pose proof (members_emit (S depth) o Hwf Hd) as Hpe.
  exists (2 + zlen (body_end o)).
  destruct w as [|x0 [|x1 w]]; [rewrite ?zlen_cons, zlen_nil in *; lia..|].
  rewrite !zlen_cons in *.
  destruct (null_object_decodes fuel o (drop (Z.to_nat (zlen (body_end o))) w)) as [k Hk];
    [done|rewrite zlen_body_end; lia|lia|].
  exists k, ([AMF_OBJECT; AMF_NULL] ++ body_end o ++ drop (Z.to_nat (zlen (body_end o))) w).
  split; [|exact Hk].
  unfold AMF_Encode, AMF_Encode_with.
  rewrite (proj2 (Z.leb_gt _ _)) by lia. rewrite wr_head. cbv beta iota. cbn [encode_props].
  rewrite (at_off_prefix [u8 AMF_OBJECT] (x1 :: w) 1) by done.
  rewrite null_written by lia. cbv beta iota.
  rewrite (body_end_emits _ _ Hpe [AMF_OBJECT; AMF_NULL] w 2);
    [done|done|rewrite zlen_body_end; lia|lia].
Qed.

Lemma amf_null_member_loses_witness :
  exists size k w',
    AMF_Encode 1 [ AMFProp (sample_str [97]) AMF_NULL Uninit None;
                   AMFProp (sample_str [98]) AMF_NUMBER (Number 2) None ] (replicate 40 0) 40 =
      Some (Some size, w') /\
    AMFProp_Decode (S (Z.to_nat 1281)) uninit_prop w' 0 size false =
      Done (k, AMFProp AV_empty AMF_OBJECT (Obj []) None).
Proof.
  apply (amf_null_member_loses 0 (Z.to_nat 1281) (sample_str [97]) None
           [AMFProp (sample_str [98]) AMF_NUMBER (Number 2) None] (replicate 40 0));
    [reflexivity|vm_compute; lia|vm_compute; discriminate|reflexivity|lia].
Defined.
