(* ===== verification/AmfTyped.v ===== *)
(** AMF: the types of decoded objects. Whatever the bytes are, the members of the union of
    a property are only ever stored together with the type that says which one it is, and
    the strings handed out lie inside the buffer. *)

From stdpp Require Import base list option numbers.
From S2P Require Import Prelude CMem TypeDefs Amf AmfSpec AmfRoundTrip AmfSafety.

Local Open Scope Z_scope.
Open Scope c_scope.

(** ** Types *)

(** All [av_len] bytes of a string can be read. *)
Definition held (v : AVal) : Prop :=
  match av_val v with Some s => zlen s = av_len v | None => av_len v <= 0 end.

(** The member of the union is the one the type of the property announces, throughout. *)
Inductive typed : AMFObjectProperty -> Prop :=
| typed_number n t d u : held n -> t = AMF_NUMBER \/ t = AMF_BOOLEAN -> typed (AMFProp n t (Number d) u)
| typed_date n d u : held n -> typed (AMFProp n AMF_DATE (Number d) (Some u))
| typed_string n t v u : held n -> t = AMF_STRING \/ t = AMF_XML_DOC -> held v -> typed (AMFProp n t (Str v) u)
| typed_object n o u : held n -> Forall typed o -> typed (AMFProp n AMF_OBJECT (Obj o) u)
| typed_null n v u : held n -> typed (AMFProp n AMF_NULL v u).

(** What a decoder that reports success has stored. *)
Definition stores (n : Z) (p : AMFObjectProperty) : Prop := n = -1 \/ 1 <= n /\ typed p.

#[local] Hint Constructors typed : core.

Lemma held_empty : held AV_empty.
Proof. unfold held. cbn. lia. Qed.

(** What [AMF3_Decode] makes of the bytes behind any byte with the value of its marker is typed. *)
Definition amf3_typed (b : buf) : Prop :=
  forall fuel q n k obj, rd b q = Some AMF_AVMPLUS -> AMF3_Decode fuel b (q + 1) n true = Done (k, obj) ->
  Forall typed obj /\ -1 <= k.

Lemma amf3_typed_without b : Forall (fun x => x <> AMF_AVMPLUS) b -> amf3_typed b.
Proof.
  intros Hb fuel q n k obj Hr. unfold rd in Hr. destruct (0 <=? q); [|done].
  by apply (Forall_lookup_1 _ _ _ _ Hb) in Hr.
Qed.

(** ** Strings of the buffer *)

Section amf0.
Context (b : buf) (Hb : amf3_typed b) (Hbytes : bytes b).

Lemma bytes_at_held p n : 0 <= p -> p + n <= zlen b ->
  held (mkAVal (if 0 <? n then Some (bytes_at b p n) else None) n).
Proof.
  intros Hp Hn. unfold held. destruct (Z.ltb_spec 0 n); cbn; [|lia].
  unfold bytes_at. rewrite zlen_take; rewrite ?zlen_drop; lia.
Qed.

Lemma DecodeInt16_pos p n : AMF_DecodeInt16 b p = Done n -> 0 <= n.
Proof.
  unfold AMF_DecodeInt16. intros H.
  destruct (rd b p) as [x|] eqn:E1, (rd b (p + 1)) as [y|] eqn:E2; try done. injection H as <-.
  apply rd_byte in E1, E2; try done. destruct E1, E2. rewrite Z.lor_nonneg, Z.shiftl_nonneg. lia.
Qed.

Lemma DecodeInt32_pos p n : AMF_DecodeInt32 b p = Done n -> 0 <= n.
Proof.
  unfold AMF_DecodeInt32. intros H.
  destruct (rd b p) as [x|] eqn:E1, (rd b (p + 1)) as [y|] eqn:E2, (rd b (p + 2)) as [z|] eqn:E3,
    (rd b (p + 3)) as [w|] eqn:E4; try done. injection H as <-.
  apply rd_byte in E1, E2, E3, E4; try done. destruct E1, E2, E3, E4.
  rewrite !Z.lor_nonneg, !Z.shiftl_nonneg. lia.
Qed.

Lemma swrap_le w n : 0 < w -> 0 <= n -> swrap w n <= n.
Proof.
  intros Hw Hn. unfold swrap, uwrap. pose proof (Z.mod_le n (2 ^ w) Hn ltac:(lia)).
  destruct (_ <? _); lia.
Qed.

(** Strings whose length was compared with what is left. *)
Lemma DecodeString_held p n v : AMF_DecodeInt16 b p = Done n -> 0 <= p -> p + 2 + n <= zlen b ->
  AMF_DecodeString b p = Done v -> held v.
Proof. intros E Hp Hn. unfold AMF_DecodeString. rewrite E. intros [= <-]. apply bytes_at_held; lia. Qed.

Lemma DecodeLongString_held p n v : AMF_DecodeInt32 b p = Done n -> 0 <= p -> p + 4 + n <= zlen b ->
  AMF_DecodeLongString b p = Done v -> held v.
Proof.
  intros E Hp Hn. unfold AMF_DecodeLongString. rewrite E. intros [= <-]. pose proof (DecodeInt32_pos _ _ E).
  pose proof (swrap_le 32 n ltac:(lia) ltac:(lia)). apply bytes_at_held; lia.
Qed.

(** ** Values *)

(** What a decoder promises about every property it stores. *)
Definition typing (pd : prop_decoder) : Prop :=
  forall prop p nSize named n prop', 0 <= p -> p + nSize <= zlen b ->
    pd prop b p nSize named = Done (n, prop') -> stores n prop'.

Lemma add_typed obj n p : Forall typed obj -> stores n p -> n <> -1 -> Forall typed (AMF_AddProp obj p).
Proof. intros Ho [|[_ Hp]] Hn; [done|]. apply Forall_app. by split; [|constructor]. Qed.

Lemma object_loop_typed pd : typing pd -> forall fuel obj bError p nSize named k e obj',
  Forall typed obj -> 0 <= p -> p + nSize <= zlen b ->
  amf_object_loop pd fuel obj bError b p nSize named = Done (k, e, obj') -> Forall typed obj' /\ k <= nSize.
Proof.
  intros Hpd. induction fuel as [|fuel IH]; intros obj bError p nSize named k e obj' Ho Hp Hl; cbn [amf_object_loop];
    (destruct (0 <? nSize); [|intros [= <- <- <-]; split; [done|lia]]); [done|].
  destruct (if 3 <=? nSize then _ else _) as [at_end| |]; [|done..]. cbv beta iota.
  assert (forall obj0 bError0 q, Forall typed obj0 -> 0 <= q ->
    amf_object_loop pd fuel obj0 bError0 b (p + q) (nSize - q) named = Done (k, e, obj') ->
    Forall typed obj' /\ k <= nSize) as Hgo.
  { intros obj0 bError0 q H0 Hq E. apply IH in E; [|done|lia..]. split; [apply E|lia]. }
  destruct at_end; [intros [= <- <- <-]; split; [done|lia]|].
  destruct bError; [by apply Hgo|].
  destruct (pd uninit_prop b p nSize named) as [[n prop]| |] eqn:E; [|done..]. cbv beta iota.
  apply Hpd in E; [|done..]. destruct (Z.eqb_spec n (-1)) as [->|Hn].
  - intros H. apply (Hgo obj true 0); [done..|]. by rewrite Z.add_0_r, Z.sub_0_r.
  - apply Hgo; [by eapply add_typed|]. destruct E as [|[? _]]; lia.
Qed.

Lemma array_loop_typed pd : typing pd -> forall len obj bError p nSize named k e obj',
  Forall typed obj -> 0 <= p -> p + nSize <= zlen b ->
  amf_array_loop pd len obj bError b p nSize named = Done (k, e, obj') -> Forall typed obj' /\ k <= nSize.
Proof.
  intros Hpd. induction len as [|len IH]; intros obj bError p nSize named k e obj' Ho Hp Hl; cbn [amf_array_loop];
    [intros [= <- <- <-]; split; [done|lia]|].
  destruct (pd uninit_prop b p nSize named) as [[n prop]| |] eqn:E; [|done..]. cbv beta iota.
  apply Hpd in E; [|done..]. destruct (Z.eqb_spec n (-1)) as [->|Hn]; [by apply IH|].
  intros H. assert (1 <= n) by (destruct E as [|[? _]]; lia).
  apply IH in H; [|by eapply add_typed|lia..]. split; [apply H|lia].
Qed.

(** A decoder of objects, whose result is -1 when a member failed. *)
Definition gives (r : outcome (Z * AMFObject)) : Prop :=
  forall n o, r = Done (n, o) -> Forall typed o /\ -1 <= n.

Lemma Decode_with_typed pd fuel p nSize named : typing pd -> 0 <= p -> p + nSize <= zlen b ->
  gives (AMF_Decode_with pd fuel b p nSize named).
Proof.
  intros Hpd Hp Hl n o. unfold AMF_Decode_with.
  destruct (amf_object_loop _ _ _ _ _ _ _ _) as [[[k e] o']| |] eqn:E; [|done..]. intros [= <- <-].
  apply object_loop_typed in E; [|done..]. split; [apply E|]. destruct e; lia.
Qed.

Lemma DecodeArray_typed pd p nSize len named : typing pd -> 0 <= p -> p + nSize <= zlen b ->
  gives (AMF_DecodeArray_with pd b p nSize len named).
Proof.
  intros Hpd Hp Hl n o. unfold AMF_DecodeArray_with.
  destruct (amf_array_loop _ _ _ _ _ _ _ _) as [[[k e] o']| |] eqn:E; [|done..]. intros [= <- <-].
  apply array_loop_typed in E; [|done..]. split; [apply E|]. destruct e; lia.
Qed.

Ltac learn_pos L H :=
  let E := fresh "Hpos" in pose proof (L _ _ H) as E;
  lazymatch type of E with ?P => clear E; lazymatch goal with _ : P |- _ => fail | _ => assert P as E by exact (L _ _ H) end end.

Lemma amf_value_typed pd fuel nOriginalSize prop p nSize n prop' :
  typing pd -> held (p_name prop) -> 0 <= p -> p + nSize <= zlen b -> nSize <= nOriginalSize ->
  amf_value pd fuel nOriginalSize prop b p nSize = Done (n, prop') -> stores n prop'.
Proof.
  intros Hpd Hname Hp Hl Ho. unfold amf_value.
  destruct (rd b p) as [c|] eqn:Ec; [|done]. cbv beta iota zeta delta [lift].
  assert (forall f k o, u32 (s8 c) = AMF_AVMPLUS -> AMF3_Decode f b (p + 1) (nSize - 1) true = Done (k, o) ->
    Forall typed o /\ -1 <= k) as H17.
  { intros f k o E. apply type_byte in E; [|by eapply rd_byte|done]. subst c. by apply Hb. }
  repeat case_match; intros Hres; simplify_eq; try (by left).
  all: destruct prop as [nm t0 v0 u0]; cbn [p_name] in Hname;
    unfold stores, set_p_type, set_p_vu, set_p_UTCoffset; cbn [p_name p_type p_vu p_UTCoffset];
    repeat match goal with
    | H : (_ =? _) = true |- _ => apply Z.eqb_eq in H
    | H : AMF_Decode_with _ _ _ _ _ _ = Done _ |- _ => apply Decode_with_typed in H as [? ?]; [|done|lia..]
    | H : AMF_DecodeArray_with _ _ _ _ _ _ = Done _ |- _ => apply DecodeArray_typed in H as [? ?]; [|done|lia..]
    | H : AMF3_Decode _ _ _ _ _ = Done _ |- _ => apply H17 in H as [? ?]; [|done]
    | H : AMF_DecodeInt16 _ _ = Done _ |- _ => learn_pos DecodeInt16_pos H
    | H : AMF_DecodeInt32 _ _ = Done _ |- _ => learn_pos DecodeInt32_pos H
    end; try (right; split; [lia|by auto]).
  all: right; (split; [lia|]).
  2: { match goal with H : u32 (s8 c) = _ |- _ => rewrite H end. by auto. }
  all: apply typed_string; [done|first [by auto|right; by apply Z.eqb_eq]|].
  all: first [eapply DecodeString_held; [eassumption|lia..|eassumption]
    |eapply DecodeLongString_held; [eassumption|lia..|eassumption]].
Qed.

Lemma AMFProp_Decode_typed fuel : typing (AMFProp_Decode fuel).
Proof.
  induction fuel as [|fuel IH]; intros prop p nSize named n prop' Hp Hl; [done|]. cbn [AMFProp_Decode].
  destruct (nSize =? 0); [by intros [= <- <-]; left|]. destruct named; cbn [andb].
  - destruct (nSize <? 4); [by intros [= <- <-]; left|].
    destruct (AMF_DecodeInt16 b p) as [len| |] eqn:E; [|done..]. cbv beta iota. pose proof (DecodeInt16_pos _ _ E).
    destruct (Z.ltb_spec (nSize - 2) len); [by intros [= <- <-]; left|].
    destruct (AMF_DecodeString b p) as [name| |] eqn:Es; [|done..]. cbv beta iota.
    destruct (nSize - (2 + len) =? 0); [by intros [= <- <-]; left|].
    apply amf_value_typed; [done|eapply DecodeString_held; [done|lia..|done]|lia..].
  - apply amf_value_typed; [done|apply held_empty|lia..].
Qed.
End amf0.

(** ** The property *)

(** C33: [AMF_Decode] returns, and builds properly typed objects: the member of each
    property's union is the one its type announces, at every depth, and every name and string
    it hands out lies completely in the buffer - also when a part of the data is damaged and
    the rest is skipped.  As for its termination, the bytes are followed by five zero bytes;
    and wherever one of the bytes is 17, the AMF3 marker, the decoder of AMF3 would return
    typed objects from those behind it.  Bytes of which none is 17 meet this condition. *)
Theorem amf_decode_typed fuel b p nSize named :
  bytes b -> 0 <= p -> 0 <= nSize -> zeros_behind b (p + nSize) ->
  amf3_returns b (p + nSize) -> amf3_typed b -> nSize + 1 <= Z.of_nat fuel ->
  exists n obj, AMF_Decode fuel b p nSize named = Done (n, obj) /\ Forall typed obj.
Proof.
  intros Hbytes Hp Hn Hz H3 Ht Hf.
  destruct (AMF_Decode_ok b (p + nSize) Hz H3 Hbytes fuel p nSize named) as (n & obj & E & _); [done..|].
  exists n, obj. split; [done|]. destruct Hz as [Hl _].
  eapply (Decode_with_typed b); [by apply AMFProp_Decode_typed|exact Hp| |exact E]. lia.
Qed.

Lemma damaged_typed : amf3_typed damaged.
Proof.
  intros fuel q n k obj Hr E. assert (q = 2 \/ q = 3) as [-> | ->] by by apply damaged_markers.
  - injection E as <- <-. split; [constructor|lia].
  - injection E as <- <-. split; [constructor|lia].
Qed.

Lemma amf_decode_typed_witness :
  exists n obj, AMF_Decode 18 damaged 0 17 true = Done (n, obj) /\ Forall typed obj.
Proof.
  apply (amf_decode_typed 18 damaged 0 17 true);
    [apply bytes_check; reflexivity|lia..|apply damaged_zeros|apply damaged_amf3|apply damaged_typed|lia].
Defined.
