(* ===== verification/Amf3Spec.v ===== *)
(** AMF3 integers against their specification, and classes with sealed members. *)

From stdpp Require Import base list option numbers strings.
From S2P Require Import Prelude CMem TypeDefs Amf AmfSpec AmfRoundTrip.

Local Open Scope Z_scope.
Open Scope c_scope.

(** ** Integers

    The U29 encoding: seven bits in each of the first three bytes, the top bit set when
    another byte follows, and all eight bits of the fourth. *)
Definition enc_u29 (v : Z) : buf :=
  if v <? 2 ^ 7 then [v]
  else if v <? 2 ^ 14 then [Z.lor (Z.shiftr v 7) 0x80; Z.land v 0x7f]
  else if v <? 2 ^ 21 then
    [Z.lor (Z.shiftr v 14) 0x80; Z.lor (Z.land (Z.shiftr v 7) 0x7f) 0x80; Z.land v 0x7f]
  else [Z.lor (Z.shiftr v 22) 0x80; Z.lor (Z.land (Z.shiftr v 15) 0x7f) 0x80;
        Z.lor (Z.land (Z.shiftr v 8) 0x7f) 0x80; Z.land v 0xff].

(** Bit 28 is the sign. *)
Definition signed29 (v : Z) : Z := if v <? 2 ^ 28 then v else v - 2 ^ 29.

Lemma cont_byte x : truthy (Z.land (Z.lor x 0x80) 0x80) = true.
Proof.
  unfold truthy. assert (Z.land (Z.lor x 128) 128 = 128) as ->; [|done]. bits 8.
Qed.

Lemma last_byte x : is_u 7 x -> truthy (Z.land x 0x80) = false.
Proof.
  intros H. unfold truthy. assert (Z.land x 128 = 0) as ->; [|done].
  rewrite <- (uwrap_id 7 x) by done. bits 8.
Qed.

Lemma s8_low x : is_u 7 x -> s8 x = x.
Proof. intros H. by apply swrap_small. Qed.

Lemma AMF3ReadInteger_at pre w : AMF3ReadInteger (pre ++ w) (zlen pre) = AMF3ReadInteger w 0.
Proof.
  unfold AMF3ReadInteger. cbn [amf3_int_loop].
  rewrite !(rd_app_r pre w _ _ eq_refl) by lia.
  rewrite !Z.add_0_l.
  repeat match goal with
  | |- context [lift (rd w ?i)] => destruct (rd w i) as [?|]; [|done]; cbn [lift]
  | |- context [truthy ?x] => destruct (truthy x)
  end;
  cbv beta iota; simpl Z.ltb; cbv beta iota;
  by rewrite (rd_app_r pre w _ _ eq_refl), ?Z.add_0_l by lia.
Qed.

Lemma rd_0 a w : rd (a :: w) 0 = Some a. Proof. done. Qed.
Lemma rd_1 a b w : rd (a :: b :: w) 1 = Some b. Proof. done. Qed.
Lemma rd_2 a b c w : rd (a :: b :: c :: w) 2 = Some c. Proof. done. Qed.
Lemma rd_3 a b c d w : rd (a :: b :: c :: d :: w) 3 = Some d. Proof. done. Qed.

(** Evaluates [AMF3ReadInteger] on a buffer whose bytes are known to continue or not. *)
Ltac u29_eval :=
  unfold AMF3ReadInteger; cbn [amf3_int_loop]; rewrite !Z.add_0_l; zconst;
  repeat (cbv beta iota delta [lift];
          change (2 <? 0) with false; change (2 <? 1) with false;
          change (2 <? 2) with false; change (2 <? 3) with true;
          rewrite ?Z.add_0_l;
          first [rewrite rd_0|rewrite rd_1|rewrite rd_2|rewrite rd_3
                |rewrite cont_byte | rewrite last_byte by done]);
  cbv beta iota delta [lift]; zconst; rewrite ?s8_low by done.

Lemma read_1 x w : is_u 7 x -> AMF3ReadInteger (x :: w) 0 = Done (1, x).
Proof. intros Hx. u29_eval. done. Qed.

Lemma read_2 a x w :
  is_u 7 x ->
  AMF3ReadInteger (Z.lor a 0x80 :: x :: w) 0 =
    Done (2, Z.lor (Z.shiftl (Z.land (Z.lor a 0x80) 0x7f) 7) x).
Proof. intros Hx. u29_eval. done. Qed.

Lemma read_3 a b x w :
  is_u 7 x ->
  AMF3ReadInteger (Z.lor a 0x80 :: Z.lor b 0x80 :: x :: w) 0 =
    Done (3, Z.lor (Z.shiftl (Z.lor (Z.shiftl (Z.land (Z.lor a 0x80) 0x7f) 7)
                               (Z.land (Z.lor b 0x80) 0x7f)) 7) x).
Proof. intros Hx. u29_eval. done. Qed.

Lemma read_4 a b c x w :
  AMF3ReadInteger (Z.lor a 0x80 :: Z.lor b 0x80 :: Z.lor c 0x80 :: x :: w) 0 =
    let val := Z.lor (Z.shiftl (Z.lor (Z.shiftl (Z.lor (Z.shiftl (Z.land (Z.lor a 0x80) 0x7f) 7)
                 (Z.land (Z.lor b 0x80) 0x7f)) 7) (Z.land (Z.lor c 0x80) 0x7f)) 8) (s8 x) in
    Done (4, if AMF3_INTEGER_MAX <? val then val - 2 ^ 29 else val).
Proof. u29_eval. done. Qed.

(** The fourth byte is a signed [char]: its sign covers the bits read before. *)
Lemma lor_negative h c : byte c -> 128 <= c -> Z.lor (Z.shiftl h 8) (s8 c) = s8 c.
Proof.
  intros Hc Hge. assert (s8 c = Z.lnot (255 - c)) as ->.
  { unfold swrap. rewrite (uwrap_id 8) by done. rewrite (proj2 (Z.ltb_ge _ _)) by done.
    unfold Z.lnot. destruct Hc. lia. }
  apply Z.bits_inj'. intros i Hi. rewrite Z.lor_spec, Z.shiftl_spec, Z.lnot_spec by lia.
  destruct (Z.lt_ge_cases i 8); [by rewrite Z.testbit_neg_r by lia|].
  rewrite (testbit_high 8 (255 - c)); [by rewrite orb_true_r|destruct Hc; split; lia|lia].
Qed.

Lemma testbit_7 v : Z.testbit v 7 = (128 <=? u8 v).
Proof.
  assert (Z.testbit v 7 = Z.testbit (u8 v) 7) as -> by (rewrite testbit_uwrap by lia; done).
  pose proof (byte_case (fun c => eqb (Z.testbit c 7) (128 <=? c)) eq_refl (u8 v)
                (is_u_uwrap 8 v ltac:(lia))) as H.
  by apply eqb_prop in H.
Qed.

Lemma signed29_small v : v < 2 ^ 21 -> signed29 v = v.
Proof. intros. unfold signed29. by rewrite (proj2 (Z.ltb_lt _ _)) by lia. Qed.

Lemma AMF3ReadInteger_u29 v post :
  0 <= v < 2 ^ 29 ->
  AMF3ReadInteger (enc_u29 v ++ post) 0 =
    Done (zlen (enc_u29 v),
          if (v <? 2 ^ 21) || (u8 v <? 128) then signed29 v else s8 v).
Proof.
  intros Hv. unfold enc_u29.
  assert (is_u 7 (Z.land v 0x7f)) as H7 by eauto with cint.
  destruct (Z.ltb_spec v (2 ^ 7)).
  { rewrite (proj2 (Z.ltb_lt v (2 ^ 21))), signed29_small by lia. simpl orb. apply read_1. split; lia. }
  destruct (Z.ltb_spec v (2 ^ 14)).
  { rewrite (proj2 (Z.ltb_lt v (2 ^ 21))), signed29_small by lia.
    simpl app. simpl orb. rewrite read_2 by done. do 2 f_equal.
    rewrite <- (uwrap_id 14 v) by (split; lia). bits 14. }
  destruct (Z.ltb_spec v (2 ^ 21)).
  { rewrite signed29_small by lia. simpl app. simpl orb. rewrite read_3 by done. do 2 f_equal.
    rewrite <- (uwrap_id 21 v) by (split; lia). bits 21. }
  simpl app. rewrite read_4. do 2 f_equal. simpl orb.
  assert (s8 (Z.land v 0xff) = s8 v) as ->.
  { unfold swrap. assert (u8 (Z.land v 0xff) = u8 v) as -> by bits 8. done. }
  match goal with |- context [Z.lor (Z.shiftl ?h 8) _] => assert (Z.lor (Z.shiftl h 8) (u8 v) = v) as Eh end.
  { rewrite <- (uwrap_id 29 v) by (split; lia). bits 29. }
  destruct (Z.ltb_spec (u8 v) 128) as [Hb|Hb].
  - assert (s8 v = u8 v) as -> by (unfold swrap; by rewrite (proj2 (Z.ltb_lt _ _)) by done).
    rewrite Eh. unfold signed29, AMF3_INTEGER_MAX. simpl orb.
    destruct (Z.ltb_spec v (2 ^ 28)), (Z.ltb_spec 268435455 v); lia.
  - assert (s8 v = s8 (u8 v)) as -> by (unfold swrap; by rewrite uwrap_uwrap by lia).
    rewrite lor_negative by (done || by apply is_u_uwrap). simpl orb.
    assert (s8 (u8 v) < 0) as Hneg.
    { unfold swrap. rewrite uwrap_uwrap, (proj2 (Z.ltb_ge _ _)) by lia.
      destruct (is_u_uwrap 8 v); lia. }
    unfold AMF3_INTEGER_MAX. by rewrite (proj2 (Z.ltb_ge _ _)) by lia.
Qed.

(** [AMF3ReadInteger] reads a U29 integer as the AMF3 specification encodes it,
    with its sign in bit 28 - but when four bytes are used and the last one has its top
    bit set, that byte is taken as a negative [char] and overrides all the other bits:
    the result is then between -128 and -1 whatever was encoded. *)
Theorem amf3_integer_decoded v pre post :
  0 <= v < 2 ^ 29 ->
  AMF3ReadInteger (pre ++ enc_u29 v ++ post) (zlen pre) =
    Done (zlen (enc_u29 v),
          if (v <? 2 ^ 21) || (u8 v <? 128) then signed29 v else s8 v).
Proof. intros Hv. rewrite AMF3ReadInteger_at. by apply AMF3ReadInteger_u29. Qed.

Lemma amf3_integer_decoded_witness :
  AMF3ReadInteger ([4] ++ enc_u29 2097280 ++ [1]) 1 = Done (4, -128).
Proof. apply (amf3_integer_decoded 2097280 [4] [1]). lia. Defined.

(** ** Sealed members *)

(** Every name that is added makes the count grow: the loop never catches up. *)
Lemma members_never_done fuel : forall i cd b p nSize r,
  i < cd_num cd -> amf3_members_loop fuel i cd b p nSize <> Done r.
Proof.
  induction fuel as [|fuel IH]; intros i cd b p nSize r Hi; cbn [amf3_members_loop];
    rewrite (proj2 (Z.ltb_lt _ _)) by done; [done|].
  destruct (AMF3ReadString b p) as [[len name]| |]; [|done..].
  destruct name as [name|]; [|done]. cbn [lift].
  unfold AMF3CD_AddProp. cbv zeta. destruct (_ && _); [|done].
  apply IH. simpl. lia.
Qed.

(** An AMF3 object whose class is defined in line with sealed members cannot be
    decoded: [cd_num] already holds the number of members when [AMF3CD_AddProp] starts
    to count them once more, so [AMF3_Decode] stores the first name through a pointer
    never allocated or, if the number is a multiple of 16, reads names until it leaves
    the buffer.  It never returns. *)
Theorem amf3_sealed_never_decodes fuel b p nSize len ref r :
  AMF3ReadInteger b p = Done (len, ref) ->
  Z.testbit ref 0 = true -> Z.testbit ref 1 = true -> 1 <= Z.shiftr ref 4 ->
  AMF3_Decode fuel b p nSize false <> Done r.
Proof.
  intros Href H0 H1 Hn. unfold AMF3_Decode, AMF3_Decode_with. rewrite Href. cbv beta iota.
  assert (forall x, Z.testbit x 0 = true -> (Z.land x 1 =? 0) = false) as Hodd.
  { intros x Hx. apply Z.eqb_neq. intros E. apply (f_equal (fun y => Z.testbit y 0)) in E.
    rewrite Z.land_spec, Hx in E. done. }
  rewrite Hodd by done. unfold amf3_class.
  replace 4 with (1 + 1 + 2) in Hn by done.
  rewrite (Hodd (Z.shiftr ref 1)) by (by rewrite Z.shiftr_spec).
  destruct (AMF3ReadString b (p + len)) as [[l name]| |]; [|done..].
  cbv beta iota zeta.
  match goal with |- context [amf3_members_loop ?f ?i ?cd ?b ?p ?n] =>
    pose proof (members_never_done f i cd b p n) as Hm;
    destruct (amf3_members_loop f i cd b p n) as [r'| |] end; [|done..].
  exfalso. apply (Hm r'); [|done]. simpl. rewrite <- !Z.shiftr_shiftr in Hn by lia. lia.
Qed.

Lemma amf3_sealed_never_decodes_witness :
  AMF3ReadInteger [19; 1; 3; 97; 6; 3; 98] 0 = Done (1, 19) /\ AMF3_Decode 9 [19; 1; 3; 97; 6; 3; 98] 0 7 false <> Done (7, []).
Proof.
  split; [reflexivity|].
  apply (amf3_sealed_never_decodes 9 _ 0 7 1 19); [reflexivity..|vm_compute; discriminate].
Defined.
