(* ===== verification/RtmpTypes.v ===== *)
(** RTMP sessions: the data of src/protocol/rtmp/rtmpdump-master/librtmp/rtmp.h, the
    memory packets lie in, and the outside of the library. *)

From stdpp Require Import base list option numbers strings gmap.
From S2P Require Import Prelude CMem TypeDefs Amf.

Local Open Scope Z_scope.
Open Scope c_scope.

(** ** Constants *)

Definition RTMP_DEFAULT_CHUNKSIZE : Z := 128.
Definition RTMP_BUFFER_CACHE_SIZE : Z := 16 * 1024.
Definition RTMP_MAX_HEADER_SIZE : Z := 18.
Definition RTMP_LARGE_HEADER_SIZE : Z := 12.

Definition RTMP_FEATURE_WRITE : Z := 0x10.

Definition RTMP_PACKET_TYPE_CHUNK_SIZE : Z := 0x01.
Definition RTMP_PACKET_TYPE_BYTES_READ_REPORT : Z := 0x03.
Definition RTMP_PACKET_TYPE_CONTROL : Z := 0x04.
Definition RTMP_PACKET_TYPE_SERVER_BW : Z := 0x05.
Definition RTMP_PACKET_TYPE_CLIENT_BW : Z := 0x06.
Definition RTMP_PACKET_TYPE_AUDIO : Z := 0x08.
Definition RTMP_PACKET_TYPE_VIDEO : Z := 0x09.
Definition RTMP_PACKET_TYPE_FLEX_MESSAGE : Z := 0x11.
Definition RTMP_PACKET_TYPE_INFO : Z := 0x12.
Definition RTMP_PACKET_TYPE_INVOKE : Z := 0x14.
Definition RTMP_PACKET_TYPE_FLASH_VIDEO : Z := 0x16.

Definition RTMP_PACKET_SIZE_LARGE : Z := 0.
Definition RTMP_PACKET_SIZE_MEDIUM : Z := 1.
Definition RTMP_PACKET_SIZE_SMALL : Z := 2.
Definition RTMP_PACKET_SIZE_MINIMUM : Z := 3.

Definition packetSize : list Z := [12; 8; 4; 1].

Definition RTMP_LF_LIVE : Z := 0x0002.
Definition RTMP_LF_PLST : Z := 0x0008.
Definition RTMP_LF_BUFX : Z := 0x0010.
Definition RTMP_LF_FTCU : Z := 0x0020.
Definition RTMP_PUB_NAME : Z := 0x0001.
Definition RTMP_PUB_RESP : Z := 0x0002.
Definition RTMP_PUB_ALLOC : Z := 0x0004.
Definition RTMP_PUB_CLEAN : Z := 0x0008.
Definition RTMP_PUB_CLATE : Z := 0x0010.
Definition RTMP_READ_HEADER : Z := 0x01.
Definition RTMP_READ_SEEKING : Z := 0x20.
Definition RTMP_READ_EOF : Z := -1.

(** ** Packets *)

(** A pointer into a block of memory: the block and the offset in it. *)
Record ptr := mkPtr { p_blk : Z; p_off : Z }.

Record RTMPChunk := mkChunk {
  c_headerSize : Z;
  c_chunkSize : Z;
  c_chunk : option ptr;
  c_header : buf
}.

Record RTMPPacket := mkPacket {
  m_headerType : Z;
  m_packetType : Z;
  m_hasAbsTimestamp : bool;
  m_nChannel : Z;
  m_nTimeStamp : Z;
  m_nInfoField2 : Z;
  m_nBodySize : Z;
  m_nBytesRead : Z;
  m_chunk : option Z;
  m_body : option ptr
}.

(** ** The connection *)

(** The socket buffer: [sb_start] is the offset of the unprocessed bytes [sb_data] in
    [sb_buf]. *)
Record RTMPSockBuf := mkSockBuf {
  sb_socket : Z;
  sb_start : Z;
  sb_data : buf;
  sb_timedout : bool
}.

(** What the calls of [recv] and [send] will do, one event for each call: the bytes
    that have arrived (none when the peer has closed), the number of bytes taken, or an
    error. *)
Inductive recv_event := Received (bs : buf) | RecvInterrupted | RecvWouldBlock | RecvFailed.
Inductive send_event := Sent (n : Z) | SendInterrupted | SendFailed.

(** The outside of the library: the two event queues, the bytes [send] took, the user's
    interrupt, and the memory (blocks of bytes, and the chunk objects callers own). *)
Record World := mkWorld {
  recvs : list recv_event;
  sends : list send_event;
  sent : buf;
  RTMP_ctrlC : bool;
  heap : gmap Z buf;
  next_blk : Z;
  chunks : gmap Z RTMPChunk
}.

(** The part of [RTMP_LNK] the session uses. *)
Record RTMP_LNK := mkLNK {
  playpath0 : AVal;
  playpath : AVal;
  tcUrl : AVal;
  app : AVal;
  subscribepath : AVal;
  usherToken : AVal;
  token : AVal;
  seekTime : Z;
  stopTime : Z;
  lFlags : Z;
  protocol : Z;
  pFlags : Z;
  SWFSize : Z;
  SWFVerificationResponse : buf
}.

(** The part of [RTMP_READ] the session uses; [r_buf] is a block. *)
Record RTMP_READ := mkREAD {
  r_buf : option Z;
  r_dataType : Z;
  r_flags : Z;
  r_status : Z;
  r_nResumeTS : Z;
  r_nIgnoredFrameCounter : Z;
  r_nIgnoredFlvFrameCounter : Z
}.

(** ** The session

    The arrays of channels are maps from the indices of the slots that are not [NULL];
    slots below the allocated size that are not in the map hold [NULL] (0 for the time
    stamps). *)
Record RTMP := mkRTMP {
  m_inChunkSize : Z;
  m_outChunkSize : Z;
  m_nBWCheckCounter : Z;
  m_nBytesIn : Z;
  m_nBytesInSent : Z;
  m_nBufferMS : Z;
  m_stream_id : Z;
  m_mediaChannel : Z;
  m_mediaStamp : Z;
  m_pauseStamp : Z;
  m_pausing : Z;
  m_nServerBW : Z;
  m_nClientBW : Z;
  m_nClientBW2 : Z;
  m_bPlaying : bool;
  m_bSendCounter : bool;
  m_numInvokes : Z;
  m_methodCalls : list (AVal * Z);
  m_channelsAllocatedIn : Z;
  m_channelsAllocatedOut : Z;
  m_vecChannelsIn : gmap Z RTMPPacket;
  m_vecChannelsOut : gmap Z RTMPPacket;
  m_channelTimestamp : gmap Z Z;
  m_fDuration : Z;
  m_read : RTMP_READ;
  m_write : RTMPPacket;
  m_sb : RTMPSockBuf;
  Link : RTMP_LNK;
  world : World
}.

(** ** Assignments *)

Definition set_headerType v p : RTMPPacket := mkPacket
  v (m_packetType p) (m_hasAbsTimestamp p) (m_nChannel p) (m_nTimeStamp p) (m_nInfoField2 p)
  (m_nBodySize p) (m_nBytesRead p) (m_chunk p) (m_body p).
Definition set_packetType v p : RTMPPacket := mkPacket
  (m_headerType p) v (m_hasAbsTimestamp p) (m_nChannel p) (m_nTimeStamp p) (m_nInfoField2 p)
  (m_nBodySize p) (m_nBytesRead p) (m_chunk p) (m_body p).
Definition set_hasAbsTimestamp v p : RTMPPacket := mkPacket
  (m_headerType p) (m_packetType p) v (m_nChannel p) (m_nTimeStamp p) (m_nInfoField2 p)
  (m_nBodySize p) (m_nBytesRead p) (m_chunk p) (m_body p).
Definition set_nChannel v p : RTMPPacket := mkPacket
  (m_headerType p) (m_packetType p) (m_hasAbsTimestamp p) v (m_nTimeStamp p) (m_nInfoField2 p)
  (m_nBodySize p) (m_nBytesRead p) (m_chunk p) (m_body p).
Definition set_nTimeStamp v p : RTMPPacket := mkPacket
  (m_headerType p) (m_packetType p) (m_hasAbsTimestamp p) (m_nChannel p) v (m_nInfoField2 p)
  (m_nBodySize p) (m_nBytesRead p) (m_chunk p) (m_body p).
Definition set_nInfoField2 v p : RTMPPacket := mkPacket
  (m_headerType p) (m_packetType p) (m_hasAbsTimestamp p) (m_nChannel p) (m_nTimeStamp p) v
  (m_nBodySize p) (m_nBytesRead p) (m_chunk p) (m_body p).
Definition set_nBodySize v p : RTMPPacket := mkPacket
  (m_headerType p) (m_packetType p) (m_hasAbsTimestamp p) (m_nChannel p) (m_nTimeStamp p)
  (m_nInfoField2 p) v (m_nBytesRead p) (m_chunk p) (m_body p).
Definition set_nBytesRead v p : RTMPPacket := mkPacket
  (m_headerType p) (m_packetType p) (m_hasAbsTimestamp p) (m_nChannel p) (m_nTimeStamp p)
  (m_nInfoField2 p) (m_nBodySize p) v (m_chunk p) (m_body p).
Definition set_body v p : RTMPPacket := mkPacket
  (m_headerType p) (m_packetType p) (m_hasAbsTimestamp p) (m_nChannel p) (m_nTimeStamp p)
  (m_nInfoField2 p) (m_nBodySize p) (m_nBytesRead p) (m_chunk p) v.

Definition set_sb_socket v s : RTMPSockBuf := mkSockBuf
  v (sb_start s) (sb_data s) (sb_timedout s).
Definition set_sb_timedout v s : RTMPSockBuf := mkSockBuf
  (sb_socket s) (sb_start s) (sb_data s) v.

Definition set_playpath0 v l : RTMP_LNK := mkLNK
  v (playpath l) (tcUrl l) (app l) (subscribepath l) (usherToken l) (token l) (seekTime l)
  (stopTime l) (lFlags l) (protocol l) (pFlags l) (SWFSize l) (SWFVerificationResponse l).
Definition set_tcUrl v l : RTMP_LNK := mkLNK
  (playpath0 l) (playpath l) v (app l) (subscribepath l) (usherToken l) (token l) (seekTime l)
  (stopTime l) (lFlags l) (protocol l) (pFlags l) (SWFSize l) (SWFVerificationResponse l).
Definition set_app v l : RTMP_LNK := mkLNK
  (playpath0 l) (playpath l) (tcUrl l) v (subscribepath l) (usherToken l) (token l)
  (seekTime l) (stopTime l) (lFlags l) (protocol l) (pFlags l) (SWFSize l)
  (SWFVerificationResponse l).
Definition set_seekTime v l : RTMP_LNK := mkLNK
  (playpath0 l) (playpath l) (tcUrl l) (app l) (subscribepath l) (usherToken l) (token l) v
  (stopTime l) (lFlags l) (protocol l) (pFlags l) (SWFSize l) (SWFVerificationResponse l).
Definition set_lFlags v l : RTMP_LNK := mkLNK
  (playpath0 l) (playpath l) (tcUrl l) (app l) (subscribepath l) (usherToken l) (token l)
  (seekTime l) (stopTime l) v (protocol l) (pFlags l) (SWFSize l) (SWFVerificationResponse l).
Definition set_protocol v l : RTMP_LNK := mkLNK
  (playpath0 l) (playpath l) (tcUrl l) (app l) (subscribepath l) (usherToken l) (token l)
  (seekTime l) (stopTime l) (lFlags l) v (pFlags l) (SWFSize l) (SWFVerificationResponse l).
Definition set_pFlags v l : RTMP_LNK := mkLNK
  (playpath0 l) (playpath l) (tcUrl l) (app l) (subscribepath l) (usherToken l) (token l)
  (seekTime l) (stopTime l) (lFlags l) (protocol l) v (SWFSize l) (SWFVerificationResponse l).

Definition set_r_dataType v x : RTMP_READ := mkREAD
  (r_buf x) v (r_flags x) (r_status x) (r_nResumeTS x) (r_nIgnoredFrameCounter x)
  (r_nIgnoredFlvFrameCounter x).
Definition set_r_flags v x : RTMP_READ := mkREAD
  (r_buf x) (r_dataType x) v (r_status x) (r_nResumeTS x) (r_nIgnoredFrameCounter x)
  (r_nIgnoredFlvFrameCounter x).
Definition set_r_status v x : RTMP_READ := mkREAD
  (r_buf x) (r_dataType x) (r_flags x) v (r_nResumeTS x) (r_nIgnoredFrameCounter x)
  (r_nIgnoredFlvFrameCounter x).
Definition set_r_nResumeTS v x : RTMP_READ := mkREAD
  (r_buf x) (r_dataType x) (r_flags x) (r_status x) v (r_nIgnoredFrameCounter x)
  (r_nIgnoredFlvFrameCounter x).

Definition set_recvs v w : World := mkWorld
  v (sends w) (sent w) (RTMP_ctrlC w) (heap w) (next_blk w) (chunks w).
Definition set_heap v w : World := mkWorld
  (recvs w) (sends w) (sent w) (RTMP_ctrlC w) v (next_blk w) (chunks w).
Definition set_chunks v w : World := mkWorld
  (recvs w) (sends w) (sent w) (RTMP_ctrlC w) (heap w) (next_blk w) v.

Definition set_inChunkSize v r : RTMP := mkRTMP
  v (m_outChunkSize r) (m_nBWCheckCounter r) (m_nBytesIn r) (m_nBytesInSent r) (m_nBufferMS r)
  (m_stream_id r) (m_mediaChannel r) (m_mediaStamp r) (m_pauseStamp r) (m_pausing r)
  (m_nServerBW r) (m_nClientBW r) (m_nClientBW2 r) (m_bPlaying r) (m_bSendCounter r)
  (m_numInvokes r) (m_methodCalls r) (m_channelsAllocatedIn r) (m_channelsAllocatedOut r)
  (m_vecChannelsIn r) (m_vecChannelsOut r) (m_channelTimestamp r) (m_fDuration r) (m_read r)
  (m_write r) (m_sb r) (Link r) (world r).
Definition set_nBWCheckCounter v r : RTMP := mkRTMP
  (m_inChunkSize r) (m_outChunkSize r) v (m_nBytesIn r) (m_nBytesInSent r) (m_nBufferMS r)
  (m_stream_id r) (m_mediaChannel r) (m_mediaStamp r) (m_pauseStamp r) (m_pausing r)
  (m_nServerBW r) (m_nClientBW r) (m_nClientBW2 r) (m_bPlaying r) (m_bSendCounter r)
  (m_numInvokes r) (m_methodCalls r) (m_channelsAllocatedIn r) (m_channelsAllocatedOut r)
  (m_vecChannelsIn r) (m_vecChannelsOut r) (m_channelTimestamp r) (m_fDuration r) (m_read r)
  (m_write r) (m_sb r) (Link r) (world r).
Definition set_nBytesIn v r : RTMP := mkRTMP
  (m_inChunkSize r) (m_outChunkSize r) (m_nBWCheckCounter r) v (m_nBytesInSent r)
  (m_nBufferMS r) (m_stream_id r) (m_mediaChannel r) (m_mediaStamp r) (m_pauseStamp r)
  (m_pausing r) (m_nServerBW r) (m_nClientBW r) (m_nClientBW2 r) (m_bPlaying r)
  (m_bSendCounter r) (m_numInvokes r) (m_methodCalls r) (m_channelsAllocatedIn r)
  (m_channelsAllocatedOut r) (m_vecChannelsIn r) (m_vecChannelsOut r) (m_channelTimestamp r)
  (m_fDuration r) (m_read r) (m_write r) (m_sb r) (Link r) (world r).
Definition set_nBytesInSent v r : RTMP := mkRTMP
  (m_inChunkSize r) (m_outChunkSize r) (m_nBWCheckCounter r) (m_nBytesIn r) v (m_nBufferMS r)
  (m_stream_id r) (m_mediaChannel r) (m_mediaStamp r) (m_pauseStamp r) (m_pausing r)
  (m_nServerBW r) (m_nClientBW r) (m_nClientBW2 r) (m_bPlaying r) (m_bSendCounter r)
  (m_numInvokes r) (m_methodCalls r) (m_channelsAllocatedIn r) (m_channelsAllocatedOut r)
  (m_vecChannelsIn r) (m_vecChannelsOut r) (m_channelTimestamp r) (m_fDuration r) (m_read r)
  (m_write r) (m_sb r) (Link r) (world r).
Definition set_nBufferMS v r : RTMP := mkRTMP
  (m_inChunkSize r) (m_outChunkSize r) (m_nBWCheckCounter r) (m_nBytesIn r) (m_nBytesInSent r)
  v (m_stream_id r) (m_mediaChannel r) (m_mediaStamp r) (m_pauseStamp r) (m_pausing r)
  (m_nServerBW r) (m_nClientBW r) (m_nClientBW2 r) (m_bPlaying r) (m_bSendCounter r)
  (m_numInvokes r) (m_methodCalls r) (m_channelsAllocatedIn r) (m_channelsAllocatedOut r)
  (m_vecChannelsIn r) (m_vecChannelsOut r) (m_channelTimestamp r) (m_fDuration r) (m_read r)
  (m_write r) (m_sb r) (Link r) (world r).
Definition set_stream_id v r : RTMP := mkRTMP
  (m_inChunkSize r) (m_outChunkSize r) (m_nBWCheckCounter r) (m_nBytesIn r) (m_nBytesInSent r)
  (m_nBufferMS r) v (m_mediaChannel r) (m_mediaStamp r) (m_pauseStamp r) (m_pausing r)
  (m_nServerBW r) (m_nClientBW r) (m_nClientBW2 r) (m_bPlaying r) (m_bSendCounter r)
  (m_numInvokes r) (m_methodCalls r) (m_channelsAllocatedIn r) (m_channelsAllocatedOut r)
  (m_vecChannelsIn r) (m_vecChannelsOut r) (m_channelTimestamp r) (m_fDuration r) (m_read r)
  (m_write r) (m_sb r) (Link r) (world r).
Definition set_mediaChannel v r : RTMP := mkRTMP
  (m_inChunkSize r) (m_outChunkSize r) (m_nBWCheckCounter r) (m_nBytesIn r) (m_nBytesInSent r)
  (m_nBufferMS r) (m_stream_id r) v (m_mediaStamp r) (m_pauseStamp r) (m_pausing r)
  (m_nServerBW r) (m_nClientBW r) (m_nClientBW2 r) (m_bPlaying r) (m_bSendCounter r)
  (m_numInvokes r) (m_methodCalls r) (m_channelsAllocatedIn r) (m_channelsAllocatedOut r)
  (m_vecChannelsIn r) (m_vecChannelsOut r) (m_channelTimestamp r) (m_fDuration r) (m_read r)
  (m_write r) (m_sb r) (Link r) (world r).
Definition set_mediaStamp v r : RTMP := mkRTMP
  (m_inChunkSize r) (m_outChunkSize r) (m_nBWCheckCounter r) (m_nBytesIn r) (m_nBytesInSent r)
  (m_nBufferMS r) (m_stream_id r) (m_mediaChannel r) v (m_pauseStamp r) (m_pausing r)
  (m_nServerBW r) (m_nClientBW r) (m_nClientBW2 r) (m_bPlaying r) (m_bSendCounter r)
  (m_numInvokes r) (m_methodCalls r) (m_channelsAllocatedIn r) (m_channelsAllocatedOut r)
  (m_vecChannelsIn r) (m_vecChannelsOut r) (m_channelTimestamp r) (m_fDuration r) (m_read r)
  (m_write r) (m_sb r) (Link r) (world r).
Definition set_pauseStamp v r : RTMP := mkRTMP
  (m_inChunkSize r) (m_outChunkSize r) (m_nBWCheckCounter r) (m_nBytesIn r) (m_nBytesInSent r)
  (m_nBufferMS r) (m_stream_id r) (m_mediaChannel r) (m_mediaStamp r) v (m_pausing r)
  (m_nServerBW r) (m_nClientBW r) (m_nClientBW2 r) (m_bPlaying r) (m_bSendCounter r)
  (m_numInvokes r) (m_methodCalls r) (m_channelsAllocatedIn r) (m_channelsAllocatedOut r)
  (m_vecChannelsIn r) (m_vecChannelsOut r) (m_channelTimestamp r) (m_fDuration r) (m_read r)
  (m_write r) (m_sb r) (Link r) (world r).
Definition set_pausing v r : RTMP := mkRTMP
  (m_inChunkSize r) (m_outChunkSize r) (m_nBWCheckCounter r) (m_nBytesIn r) (m_nBytesInSent r)
  (m_nBufferMS r) (m_stream_id r) (m_mediaChannel r) (m_mediaStamp r) (m_pauseStamp r) v
  (m_nServerBW r) (m_nClientBW r) (m_nClientBW2 r) (m_bPlaying r) (m_bSendCounter r)
  (m_numInvokes r) (m_methodCalls r) (m_channelsAllocatedIn r) (m_channelsAllocatedOut r)
  (m_vecChannelsIn r) (m_vecChannelsOut r) (m_channelTimestamp r) (m_fDuration r) (m_read r)
  (m_write r) (m_sb r) (Link r) (world r).
Definition set_nServerBW v r : RTMP := mkRTMP
  (m_inChunkSize r) (m_outChunkSize r) (m_nBWCheckCounter r) (m_nBytesIn r) (m_nBytesInSent r)
  (m_nBufferMS r) (m_stream_id r) (m_mediaChannel r) (m_mediaStamp r) (m_pauseStamp r)
  (m_pausing r) v (m_nClientBW r) (m_nClientBW2 r) (m_bPlaying r) (m_bSendCounter r)
  (m_numInvokes r) (m_methodCalls r) (m_channelsAllocatedIn r) (m_channelsAllocatedOut r)
  (m_vecChannelsIn r) (m_vecChannelsOut r) (m_channelTimestamp r) (m_fDuration r) (m_read r)
  (m_write r) (m_sb r) (Link r) (world r).
Definition set_nClientBW v r : RTMP := mkRTMP
  (m_inChunkSize r) (m_outChunkSize r) (m_nBWCheckCounter r) (m_nBytesIn r) (m_nBytesInSent r)
  (m_nBufferMS r) (m_stream_id r) (m_mediaChannel r) (m_mediaStamp r) (m_pauseStamp r)
  (m_pausing r) (m_nServerBW r) v (m_nClientBW2 r) (m_bPlaying r) (m_bSendCounter r)
  (m_numInvokes r) (m_methodCalls r) (m_channelsAllocatedIn r) (m_channelsAllocatedOut r)
  (m_vecChannelsIn r) (m_vecChannelsOut r) (m_channelTimestamp r) (m_fDuration r) (m_read r)
  (m_write r) (m_sb r) (Link r) (world r).
Definition set_nClientBW2 v r : RTMP := mkRTMP
  (m_inChunkSize r) (m_outChunkSize r) (m_nBWCheckCounter r) (m_nBytesIn r) (m_nBytesInSent r)
  (m_nBufferMS r) (m_stream_id r) (m_mediaChannel r) (m_mediaStamp r) (m_pauseStamp r)
  (m_pausing r) (m_nServerBW r) (m_nClientBW r) v (m_bPlaying r) (m_bSendCounter r)
  (m_numInvokes r) (m_methodCalls r) (m_channelsAllocatedIn r) (m_channelsAllocatedOut r)
  (m_vecChannelsIn r) (m_vecChannelsOut r) (m_channelTimestamp r) (m_fDuration r) (m_read r)
  (m_write r) (m_sb r) (Link r) (world r).
Definition set_bPlaying v r : RTMP := mkRTMP
  (m_inChunkSize r) (m_outChunkSize r) (m_nBWCheckCounter r) (m_nBytesIn r) (m_nBytesInSent r)
  (m_nBufferMS r) (m_stream_id r) (m_mediaChannel r) (m_mediaStamp r) (m_pauseStamp r)
  (m_pausing r) (m_nServerBW r) (m_nClientBW r) (m_nClientBW2 r) v (m_bSendCounter r)
  (m_numInvokes r) (m_methodCalls r) (m_channelsAllocatedIn r) (m_channelsAllocatedOut r)
  (m_vecChannelsIn r) (m_vecChannelsOut r) (m_channelTimestamp r) (m_fDuration r) (m_read r)
  (m_write r) (m_sb r) (Link r) (world r).
Definition set_numInvokes v r : RTMP := mkRTMP
  (m_inChunkSize r) (m_outChunkSize r) (m_nBWCheckCounter r) (m_nBytesIn r) (m_nBytesInSent r)
  (m_nBufferMS r) (m_stream_id r) (m_mediaChannel r) (m_mediaStamp r) (m_pauseStamp r)
  (m_pausing r) (m_nServerBW r) (m_nClientBW r) (m_nClientBW2 r) (m_bPlaying r)
  (m_bSendCounter r) v (m_methodCalls r) (m_channelsAllocatedIn r) (m_channelsAllocatedOut r)
  (m_vecChannelsIn r) (m_vecChannelsOut r) (m_channelTimestamp r) (m_fDuration r) (m_read r)
  (m_write r) (m_sb r) (Link r) (world r).
Definition set_methodCalls v r : RTMP := mkRTMP
  (m_inChunkSize r) (m_outChunkSize r) (m_nBWCheckCounter r) (m_nBytesIn r) (m_nBytesInSent r)
  (m_nBufferMS r) (m_stream_id r) (m_mediaChannel r) (m_mediaStamp r) (m_pauseStamp r)
  (m_pausing r) (m_nServerBW r) (m_nClientBW r) (m_nClientBW2 r) (m_bPlaying r)
  (m_bSendCounter r) (m_numInvokes r) v (m_channelsAllocatedIn r) (m_channelsAllocatedOut r)
  (m_vecChannelsIn r) (m_vecChannelsOut r) (m_channelTimestamp r) (m_fDuration r) (m_read r)
  (m_write r) (m_sb r) (Link r) (world r).
Definition set_channelsAllocatedIn v r : RTMP := mkRTMP
  (m_inChunkSize r) (m_outChunkSize r) (m_nBWCheckCounter r) (m_nBytesIn r) (m_nBytesInSent r)
  (m_nBufferMS r) (m_stream_id r) (m_mediaChannel r) (m_mediaStamp r) (m_pauseStamp r)
  (m_pausing r) (m_nServerBW r) (m_nClientBW r) (m_nClientBW2 r) (m_bPlaying r)
  (m_bSendCounter r) (m_numInvokes r) (m_methodCalls r) v (m_channelsAllocatedOut r)
  (m_vecChannelsIn r) (m_vecChannelsOut r) (m_channelTimestamp r) (m_fDuration r) (m_read r)
  (m_write r) (m_sb r) (Link r) (world r).
Definition set_channelsAllocatedOut v r : RTMP := mkRTMP
  (m_inChunkSize r) (m_outChunkSize r) (m_nBWCheckCounter r) (m_nBytesIn r) (m_nBytesInSent r)
  (m_nBufferMS r) (m_stream_id r) (m_mediaChannel r) (m_mediaStamp r) (m_pauseStamp r)
  (m_pausing r) (m_nServerBW r) (m_nClientBW r) (m_nClientBW2 r) (m_bPlaying r)
  (m_bSendCounter r) (m_numInvokes r) (m_methodCalls r) (m_channelsAllocatedIn r) v
  (m_vecChannelsIn r) (m_vecChannelsOut r) (m_channelTimestamp r) (m_fDuration r) (m_read r)
  (m_write r) (m_sb r) (Link r) (world r).
Definition set_vecChannelsIn v r : RTMP := mkRTMP
  (m_inChunkSize r) (m_outChunkSize r) (m_nBWCheckCounter r) (m_nBytesIn r) (m_nBytesInSent r)
  (m_nBufferMS r) (m_stream_id r) (m_mediaChannel r) (m_mediaStamp r) (m_pauseStamp r)
  (m_pausing r) (m_nServerBW r) (m_nClientBW r) (m_nClientBW2 r) (m_bPlaying r)
  (m_bSendCounter r) (m_numInvokes r) (m_methodCalls r) (m_channelsAllocatedIn r)
  (m_channelsAllocatedOut r) v (m_vecChannelsOut r) (m_channelTimestamp r) (m_fDuration r)
  (m_read r) (m_write r) (m_sb r) (Link r) (world r).
Definition set_vecChannelsOut v r : RTMP := mkRTMP
  (m_inChunkSize r) (m_outChunkSize r) (m_nBWCheckCounter r) (m_nBytesIn r) (m_nBytesInSent r)
  (m_nBufferMS r) (m_stream_id r) (m_mediaChannel r) (m_mediaStamp r) (m_pauseStamp r)
  (m_pausing r) (m_nServerBW r) (m_nClientBW r) (m_nClientBW2 r) (m_bPlaying r)
  (m_bSendCounter r) (m_numInvokes r) (m_methodCalls r) (m_channelsAllocatedIn r)
  (m_channelsAllocatedOut r) (m_vecChannelsIn r) v (m_channelTimestamp r) (m_fDuration r)
  (m_read r) (m_write r) (m_sb r) (Link r) (world r).
Definition set_channelTimestamp v r : RTMP := mkRTMP
  (m_inChunkSize r) (m_outChunkSize r) (m_nBWCheckCounter r) (m_nBytesIn r) (m_nBytesInSent r)
  (m_nBufferMS r) (m_stream_id r) (m_mediaChannel r) (m_mediaStamp r) (m_pauseStamp r)
  (m_pausing r) (m_nServerBW r) (m_nClientBW r) (m_nClientBW2 r) (m_bPlaying r)
  (m_bSendCounter r) (m_numInvokes r) (m_methodCalls r) (m_channelsAllocatedIn r)
  (m_channelsAllocatedOut r) (m_vecChannelsIn r) (m_vecChannelsOut r) v (m_fDuration r)
  (m_read r) (m_write r) (m_sb r) (Link r) (world r).
Definition set_fDuration v r : RTMP := mkRTMP
  (m_inChunkSize r) (m_outChunkSize r) (m_nBWCheckCounter r) (m_nBytesIn r) (m_nBytesInSent r)
  (m_nBufferMS r) (m_stream_id r) (m_mediaChannel r) (m_mediaStamp r) (m_pauseStamp r)
  (m_pausing r) (m_nServerBW r) (m_nClientBW r) (m_nClientBW2 r) (m_bPlaying r)
  (m_bSendCounter r) (m_numInvokes r) (m_methodCalls r) (m_channelsAllocatedIn r)
  (m_channelsAllocatedOut r) (m_vecChannelsIn r) (m_vecChannelsOut r) (m_channelTimestamp r) v
  (m_read r) (m_write r) (m_sb r) (Link r) (world r).
Definition set_read v r : RTMP := mkRTMP
  (m_inChunkSize r) (m_outChunkSize r) (m_nBWCheckCounter r) (m_nBytesIn r) (m_nBytesInSent r)
  (m_nBufferMS r) (m_stream_id r) (m_mediaChannel r) (m_mediaStamp r) (m_pauseStamp r)
  (m_pausing r) (m_nServerBW r) (m_nClientBW r) (m_nClientBW2 r) (m_bPlaying r)
  (m_bSendCounter r) (m_numInvokes r) (m_methodCalls r) (m_channelsAllocatedIn r)
  (m_channelsAllocatedOut r) (m_vecChannelsIn r) (m_vecChannelsOut r) (m_channelTimestamp r)
  (m_fDuration r) v (m_write r) (m_sb r) (Link r) (world r).
Definition set_write v r : RTMP := mkRTMP
  (m_inChunkSize r) (m_outChunkSize r) (m_nBWCheckCounter r) (m_nBytesIn r) (m_nBytesInSent r)
  (m_nBufferMS r) (m_stream_id r) (m_mediaChannel r) (m_mediaStamp r) (m_pauseStamp r)
  (m_pausing r) (m_nServerBW r) (m_nClientBW r) (m_nClientBW2 r) (m_bPlaying r)
  (m_bSendCounter r) (m_numInvokes r) (m_methodCalls r) (m_channelsAllocatedIn r)
  (m_channelsAllocatedOut r) (m_vecChannelsIn r) (m_vecChannelsOut r) (m_channelTimestamp r)
  (m_fDuration r) (m_read r) v (m_sb r) (Link r) (world r).
Definition set_sb v r : RTMP := mkRTMP
  (m_inChunkSize r) (m_outChunkSize r) (m_nBWCheckCounter r) (m_nBytesIn r) (m_nBytesInSent r)
  (m_nBufferMS r) (m_stream_id r) (m_mediaChannel r) (m_mediaStamp r) (m_pauseStamp r)
  (m_pausing r) (m_nServerBW r) (m_nClientBW r) (m_nClientBW2 r) (m_bPlaying r)
  (m_bSendCounter r) (m_numInvokes r) (m_methodCalls r) (m_channelsAllocatedIn r)
  (m_channelsAllocatedOut r) (m_vecChannelsIn r) (m_vecChannelsOut r) (m_channelTimestamp r)
  (m_fDuration r) (m_read r) (m_write r) v (Link r) (world r).
Definition set_Link v r : RTMP := mkRTMP
  (m_inChunkSize r) (m_outChunkSize r) (m_nBWCheckCounter r) (m_nBytesIn r) (m_nBytesInSent r)
  (m_nBufferMS r) (m_stream_id r) (m_mediaChannel r) (m_mediaStamp r) (m_pauseStamp r)
  (m_pausing r) (m_nServerBW r) (m_nClientBW r) (m_nClientBW2 r) (m_bPlaying r)
  (m_bSendCounter r) (m_numInvokes r) (m_methodCalls r) (m_channelsAllocatedIn r)
  (m_channelsAllocatedOut r) (m_vecChannelsIn r) (m_vecChannelsOut r) (m_channelTimestamp r)
  (m_fDuration r) (m_read r) (m_write r) (m_sb r) v (world r).
Definition set_world v r : RTMP := mkRTMP
  (m_inChunkSize r) (m_outChunkSize r) (m_nBWCheckCounter r) (m_nBytesIn r) (m_nBytesInSent r)
  (m_nBufferMS r) (m_stream_id r) (m_mediaChannel r) (m_mediaStamp r) (m_pauseStamp r)
  (m_pausing r) (m_nServerBW r) (m_nClientBW r) (m_nClientBW2 r) (m_bPlaying r)
  (m_bSendCounter r) (m_numInvokes r) (m_methodCalls r) (m_channelsAllocatedIn r)
  (m_channelsAllocatedOut r) (m_vecChannelsIn r) (m_vecChannelsOut r) (m_channelTimestamp r)
  (m_fDuration r) (m_read r) (m_write r) (m_sb r) (Link r) v.

(** The bytes [send] has taken. *)
Definition set_sends evs out w : World := mkWorld (recvs w) evs out (RTMP_ctrlC w) (heap w)
  (next_blk w) (chunks w).

(** ** Machine arithmetic *)

(** Signed addition, which is undefined when it overflows. *)
Definition int_add (a b : Z) : outcome Z :=
  if (- 2 ^ 31 <=? a + b) && (a + b <? 2 ^ 31) then Done (a + b) else Undef.

(** [(int)] of a double, which is undefined when the value does not fit. *)
Definition int_of_double (d : Z) : option Z :=
  let e := Z.land (Z.shiftr d 52) 0x7ff in
  let a := Z.shiftl (2 ^ 52 + Z.land d (2 ^ 52 - 1)) (e - 1075) in
  let v := if Z.testbit d 63 then - a else a in
  if e =? 0x7ff then None
  else if e =? 0 then Some 0
  else if (- 2 ^ 31 <=? v) && (v <? 2 ^ 31) then Some v else None.

(** ** Memory *)

Definition ptr_add (p : ptr) (n : Z) : ptr := mkPtr (p_blk p) (p_off p + n).

(** The bytes at a pointer; a block that was freed is gone from the heap. *)
Definition mem_read (w : World) (p : ptr) (n : Z) : outcome buf :=
  lift (let* b := heap w !! p_blk p in rdn b (p_off p) n).

Definition mem_write (w : World) (p : ptr) (vs : buf) : outcome World :=
  lift (let* b := heap w !! p_blk p in
        let* b := wrn b (p_off p) vs in
        Some (set_heap (<[p_blk p := b]> (heap w)) w)).

(** Nothing can be read or written through [NULL]. *)
Definition mem_read_opt (w : World) (p : option ptr) (n : Z) : outcome buf :=
  match p with Some p => mem_read w p n | None => if n =? 0 then Done [] else Undef end.
Definition mem_write_opt (w : World) (p : option ptr) (vs : buf) : outcome World :=
  match p with Some p => mem_write w p vs | None => match vs with [] => Done w | _ => Undef end end.

(** A fresh block of zeros: [calloc(1, n)], which does not fail for a size a program
    can ask for, or an array on the stack (no byte of one is read before it is
    written). *)
Definition fresh (w : World) (n : Z) : ptr * World :=
  (mkPtr (next_blk w) 0,
   mkWorld (recvs w) (sends w) (sent w) (RTMP_ctrlC w)
     (<[next_blk w := replicate (Z.to_nat n) 0]> (heap w)) (next_blk w + 1) (chunks w)).
Definition calloc (w : World) (n : Z) : option (ptr * World) :=
  if n <? 0 then None else Some (fresh w n).

Definition release (w : World) (p : ptr) : World := set_heap (delete (p_blk p) (heap w)) w.

(** [free] of what is not the start of a block that is there is undefined. *)
Definition free (w : World) (p : option ptr) : outcome World :=
  match p with
  | None => Done w
  | Some q =>
      if p_off q =? 0 then
        let! _ := lift (heap w !! p_blk q) in
        Done (release w q)
      else Undef
  end.

(** ** Strings *)

Definition AVC (s : string) : AVal :=
  mkAVal (Some (map (fun c => Z.of_nat (Ascii.nat_of_ascii c)) (String.list_ascii_of_string s)))
    (Z.of_nat (String.length s)).

(** ** A new session

    Everything is zero but the settings below; no byte of the socket buffer is there. *)

Definition RTMPPacket_zero : RTMPPacket := mkPacket 0 0 false 0 0 0 0 0 None None.

Definition RTMP_Init (w : World) : RTMP :=
  let none := mkAVal None 0 in
  mkRTMP RTMP_DEFAULT_CHUNKSIZE RTMP_DEFAULT_CHUNKSIZE 0 0 0 30000 0 0 0 0 0 2500000 2500000 2
    false false 0 [] 0 0 ∅ ∅ ∅ 0 (mkREAD None 0 0 0 0 0 0) RTMPPacket_zero (mkSockBuf (-1) 0 [] false)
    (mkLNK none none none none none none none 0 0 0 0 0 0 (replicate 42 0)) w.

Definition RTMP_EnableWrite (r : RTMP) : RTMP :=
  set_Link (set_protocol (Z.lor (protocol (Link r)) RTMP_FEATURE_WRITE) (Link r)) r.
