(* ===== verification/Rtmp.v ===== *)
(** RTMP sessions: packets, the socket, the sending of messages and the end of a
    session; the model of the sending half of
    src/protocol/rtmp/rtmpdump-master/librtmp/rtmp.c on a plain connection (neither
    RTMPT nor an encrypted one).  Log messages are left out. *)

From stdpp Require Import base list option numbers strings gmap.
From S2P Require Import Prelude CMem TypeDefs Amf RtmpTypes.

Local Open Scope Z_scope.
Open Scope c_scope.

(** ** Packets *)

Definition RTMPPacket_Reset (p : RTMPPacket) : RTMPPacket :=
  mkPacket 0 0 false 0 0 0 0 0 (m_chunk p) (m_body p).

Definition RTMPPacket_Alloc (w : World) (p : RTMPPacket) (nSize : Z) : option (RTMPPacket * World) :=
  let* (q, w) := calloc w (nSize + RTMP_MAX_HEADER_SIZE) in
  Some (set_nBytesRead 0 (set_body (Some (ptr_add q RTMP_MAX_HEADER_SIZE)) p), w).

Definition RTMPPacket_Free (w : World) (p : RTMPPacket) : outcome (RTMPPacket * World) :=
  match m_body p with
  | None => Done (p, w)
  | Some q =>
      let! w := free w (Some (ptr_add q (- RTMP_MAX_HEADER_SIZE))) in
      Done (set_body None p, w)
  end.

Definition RTMPPacket_IsReady (p : RTMPPacket) : bool := m_nBytesRead p =? m_nBodySize p.

Definition DecodeInt32LE (b : buf) (p : Z) : outcome Z :=
  lift (let* c0 := rd b p in
        let* c1 := rd b (p + 1) in
        let* c2 := rd b (p + 2) in
        let* c3 := rd b (p + 3) in
        Some (s32 (Z.lor (Z.lor (Z.lor (Z.shiftl c3 24) (Z.shiftl c2 16)) (Z.shiftl c1 8)) c0))).

Definition EncodeInt32LE (w : buf) (nVal : Z) : option (Z * buf) :=
  let* w := wr w 0 nVal in
  let* w := wr w 1 (Z.shiftr nVal 8) in
  let* w := wr w 2 (Z.shiftr nVal 16) in
  let* w := wr w 3 (Z.shiftr nVal 24) in
  Some (4, w).

(** ** The calls an answer is awaited for *)

Definition AV_queue (vals : list (AVal * Z)) (av : AVal) (txn : Z) : option (list (AVal * Z)) :=
  let* name := (if av_len av =? 0 then Some [] else let* s := av_val av in rdn s 0 (av_len av)) in
  Some (vals ++ [(mkAVal (Some name) (av_len av), txn)]).

(** The entry behind the last one is cleared, which the list does not hold. *)
Definition AV_erase (vals : list (AVal * Z)) (i : Z) : option (list (AVal * Z)) :=
  if (0 <=? i) && (i <? zlen vals)
  then Some (take (Z.to_nat i) vals ++ drop (S (Z.to_nat i)) vals) else None.

Definition AV_clear (vals : list (AVal * Z)) : list (AVal * Z) := [].

Definition RTMP_DropRequest (r : RTMP) (i : Z) : option RTMP :=
  let* vals := AV_erase (m_methodCalls r) i in
  Some (set_methodCalls vals r).

(** ** The socket *)

Definition RTMP_IsConnected (r : RTMP) : bool := negb (sb_socket (m_sb r) =? -1).

(** [recv] of up to [cap] bytes, called again when a signal has interrupted it. *)
Fixpoint recv_loop (cap : Z) (evs : list recv_event) (ctrlC : bool)
  : outcome (Z * buf * bool * list recv_event) :=
  match evs with
  | [] => Unfinished
  | Received bs :: evs =>
      let data := take (Z.to_nat cap) bs in
      let rest := drop (Z.to_nat cap) bs in
      Done (zlen data, data, false, match rest with [] => evs | _ => Received rest :: evs end)
  | RecvInterrupted :: evs => if ctrlC then Done (-1, [], false, evs) else recv_loop cap evs ctrlC
  | RecvWouldBlock :: evs => Done (0, [], true, evs)
  | RecvFailed :: evs => Done (-1, [], false, evs)
  end.

Definition RTMPSockBuf_Fill (sb : RTMPSockBuf) (w : World) : outcome (Z * RTMPSockBuf * World) :=
  let start := if zlen (sb_data sb) =? 0 then 0 else sb_start sb in
  let cap := RTMP_BUFFER_CACHE_SIZE - 1 - zlen (sb_data sb) - start in
  let! (nBytes, data, timedout, evs) := recv_loop cap (recvs w) (RTMP_ctrlC w) in
  Done (nBytes, mkSockBuf (sb_socket sb) start (sb_data sb ++ data) (sb_timedout sb || timedout),
        set_recvs evs w).

(** One [send]: the number of bytes taken or -1, and whether a signal interrupted it. *)
Definition RTMPSockBuf_Send (data : buf) (w : World) : outcome (Z * bool * World) :=
  match sends w with
  | [] => Unfinished
  | Sent k :: evs =>
      let k := Z.max 0 (Z.min k (zlen data)) in
      Done (k, false, set_sends evs (sent w ++ take (Z.to_nat k) data) w)
  | SendInterrupted :: evs => Done (-1, true, set_sends evs (sent w) w)
  | SendFailed :: evs => Done (-1, false, set_sends evs (sent w) w)
  end.

(** ** The headers of [RTMP_SendPacket] *)

(** The header type with the attributes of the previous packet of the channel, and the
    time stamp the new one is relative to. *)
Definition compress (prevPacket : option RTMPPacket) (packet : RTMPPacket) : RTMPPacket * Z :=
  match prevPacket with
  | Some prev =>
      if m_headerType packet =? RTMP_PACKET_SIZE_LARGE then (packet, 0) else
      let packet :=
        if (m_nBodySize prev =? m_nBodySize packet) && (m_packetType prev =? m_packetType packet)
           && (m_headerType packet =? RTMP_PACKET_SIZE_MEDIUM)
        then set_headerType RTMP_PACKET_SIZE_SMALL packet else packet in
      let packet :=
        if (m_nTimeStamp prev =? m_nTimeStamp packet) && (m_headerType packet =? RTMP_PACKET_SIZE_SMALL)
        then set_headerType RTMP_PACKET_SIZE_MINIMUM packet else packet in
      (packet, m_nTimeStamp prev)
  | None => (packet, 0)
  end.

(** The bytes of the channel number behind the first byte. *)
Definition channel_size (nChannel : Z) : Z :=
  if 319 <? nChannel then 2 else if 63 <? nChannel then 1 else 0.

Definition first_byte (packet : RTMPPacket) : Z :=
  let c := u8 (Z.shiftl (m_headerType packet) 6) in
  let cSize := channel_size (m_nChannel packet) in
  if cSize =? 0 then u8 (Z.lor c (m_nChannel packet))
  else if cSize =? 1 then c else Z.lor c 1.

(** Storing the channel number behind the first byte. *)
Definition put_channel (w : buf) (nChannel : Z) : option buf :=
  let cSize := channel_size nChannel in
  let tmp := nChannel - 64 in
  if cSize =? 0 then Some w else
  let* w := wr w 1 (Z.land tmp 0xff) in
  if cSize =? 2 then wr w 2 (Z.shiftr tmp 8) else Some w.

(** Storing a value at [hptr] when [cond] holds, with what it needs behind it up to the
    end of [w]; the pointer that was advanced is not [NULL]. *)
Definition put_field (cond : bool) (off : Z) (w : buf) (f : buf -> Z -> enc_result)
  : option (Z * buf) :=
  if cond then
    let* (n, w) := enc_then w off (zlen w) f in
    let* off := n in
    Some (off, w)
  else Some (off, w).

(** The message header written to [w], the bytes from [header] to [hend]. *)
Definition put_header (w : buf) (packet : RTMPPacket) (nSize t : Z) : option buf :=
  let* w := wr w 0 (first_byte packet) in
  let* w := put_channel w (m_nChannel packet) in
  let off := 1 + channel_size (m_nChannel packet) in
  let* (off, w) := put_field (1 <? nSize) off w
    (fun w room => AMF_EncodeInt24 w room (if 0xffffff <? t then 0xffffff else t)) in
  let* (off, w) := put_field (4 <? nSize) off w
    (fun w room => AMF_EncodeInt24 w room (m_nBodySize packet)) in
  let* (off, w) := put_field (4 <? nSize) off w
    (fun w _ => let* w := wr w 0 (m_packetType packet) in Some (Some 1, w)) in
  let* (off, w) := put_field (8 <? nSize) off w
    (fun w _ => let* (n, w) := EncodeInt32LE w (m_nInfoField2 packet) in Some (Some n, w)) in
  let* (off, w) := put_field ((1 <? nSize) && (0xffffff <=? t)) off w
    (fun w room => AMF_EncodeInt32 w room t) in
  Some w.

(** The header of the chunks behind the first one. *)
Definition put_next_header (w : buf) (packet : RTMPPacket) : option buf :=
  let* w := wr w 0 (Z.lor 0xc0 (first_byte packet)) in
  put_channel w (m_nChannel packet).

(** [f] on the [n] bytes at [p]. *)
Definition mem_update (w : World) (p : option ptr) (n : Z) (f : buf -> option buf) : outcome World :=
  match p with
  | None => Undef
  | Some p =>
      let! old := mem_read w p n in
      let! new := lift (f old) in
      mem_write w p new
  end.

(** ** Sending

    Closing the session may send, and a failure to send closes it: the functions
    take what they call to close it. *)

Section Sending.
Variable close : RTMP -> outcome RTMP.

(** One event of [send] for each turn. *)
Fixpoint write_loop (evs : list send_event) (data : buf) (r : RTMP) : outcome (bool * RTMP) :=
  match data with
  | [] => Done (true, r)
  | _ =>
      let! (nBytes, interrupted, w) := RTMPSockBuf_Send data (world r) in
      let r := set_world w r in
      if nBytes <? 0 then
        if interrupted && negb (RTMP_ctrlC w) then
          match evs with [] => Unfinished | _ :: evs => write_loop evs data r end
        else
          let! r := close r in
          Done (false, r)
      else if nBytes =? 0 then Done (false, r)
      else match evs with
           | [] => Unfinished
           | _ :: evs => write_loop evs (drop (Z.to_nat nBytes) data) r
           end
  end.

Definition WriteN_with (r : RTMP) (buffer : option ptr) (n : Z) : outcome (bool * RTMP) :=
  if n <=? 0 then Done (n =? 0, r) else
  let! data := mem_read_opt (world r) buffer n in
  write_loop (sends (world r)) data r.

(** One turn for each chunk; [header] and [buffer] are the pointers of the code. *)
Fixpoint send_loop (fuel : nat) (packet : RTMPPacket) (header buffer : option ptr)
    (hSize nSize nChunkSize : Z) (r : RTMP) : outcome (bool * RTMP) :=
  if nSize + hSize =? 0 then Done (true, r) else
  match fuel with
  | O => Unfinished
  | S fuel =>
      let nChunkSize := if nSize <? nChunkSize then nSize else nChunkSize in
      let! (wrote, r) := WriteN_with r header (nChunkSize + hSize) in
      if negb wrote then Done (false, r) else
      let nSize := nSize - nChunkSize in
      let buffer := match buffer with Some p => Some (ptr_add p nChunkSize) | None => None end in
      if 0 <? nSize then
        let cSize := channel_size (m_nChannel packet) in
        let header := match buffer with Some p => Some (ptr_add p (- 1 - cSize)) | None => None end in
        let! w := mem_update (world r) header (1 + cSize) (fun w => put_next_header w packet) in
        send_loop fuel packet header buffer (1 + cSize) nSize nChunkSize (set_world w r)
      else send_loop fuel packet header buffer 0 nSize nChunkSize r
  end.

(** The call that an invocation waits for. *)
Definition queue_call (r : RTMP) (packet : RTMPPacket) (queue : bool) : outcome RTMP :=
  if m_packetType packet =? RTMP_PACKET_TYPE_INVOKE then
    match m_body packet with
    | None => Undef
    | Some q =>
        let! b := lift (heap (world r) !! p_blk q) in
        let! method := AMF_DecodeString b (p_off q + 1) in
        if queue then
          let! d := AMF_DecodeNumber b (p_off q + 1 + 3 + av_len method) in
          let! txn := lift (int_of_double d) in
          let! calls := lift (AV_queue (m_methodCalls r) method txn) in
          Done (set_methodCalls calls r)
        else Done r
    end
  else Done r.

(** Room for the channel in the array. *)
Definition grow_out (r : RTMP) (nChannel : Z) : RTMP :=
  if m_channelsAllocatedOut r <=? nChannel then set_channelsAllocatedOut (nChannel + 10) r else r.

(** The bytes before the body that the header takes. *)
Definition header_size (nSize cSize t : Z) : Z :=
  nSize + cSize + (if (1 <? nSize) && (0xffffff <=? t) then 4 else 0).

(** The packet with its header type, which the caller sees. *)
Definition RTMP_SendPacket_with (r : RTMP) (packet : RTMPPacket) (queue : bool)
  : outcome (bool * RTMPPacket * RTMP) :=
  let r := grow_out r (m_nChannel packet) in
  if m_nChannel packet <? 0 then Undef else
  let prevPacket := m_vecChannelsOut r !! m_nChannel packet in
  let (packet, last) := compress prevPacket packet in
  if 3 <? m_headerType packet then Done (false, packet, r) else
  let! nSize := lift (aget packetSize (m_headerType packet)) in
  let cSize := channel_size (m_nChannel packet) in
  let t := u32 (m_nTimeStamp packet - last) in
  let hSize := header_size nSize cSize t in
  let (hbuf, w) := match m_body packet with
                   | Some p => (None, world r)
                   | None => let (q, w) := fresh (world r) RTMP_MAX_HEADER_SIZE in (Some q, w)
                   end in
  let r := set_world w r in
  let '(header, hlen) :=
    match m_body packet, hbuf with
    | Some p, _ => (Some (ptr_add p (- hSize)), hSize)
    | None, Some q => (Some (ptr_add q (6 + nSize - hSize)), 12 + hSize - nSize)
    | None, None => (None, 0)
    end in
  let! w := mem_update w header hlen (fun w => put_header w packet nSize t) in
  let! (wrote, r) := send_loop (Z.to_nat (m_nBodySize packet) + 2) packet header (m_body packet)
                       hSize (s32 (m_nBodySize packet)) (m_outChunkSize r) (set_world w r) in
  let r := match hbuf with Some q => set_world (release (world r) q) r | None => r end in
  if negb wrote then Done (false, packet, r) else
  let! r := queue_call r packet queue in
  Done (true, packet, set_vecChannelsOut (<[m_nChannel packet := packet]> (m_vecChannelsOut r)) r).

(** ** Messages built on the stack

    The bytes of a body are a sequence of writes; a write through [NULL], where the
    code does not check for it, is undefined. *)

Definition put_byte (v : Z) (w : buf) (room : Z) : enc_result :=
  let* w := wr w 0 v in
  Some (Some 1, w).

Definition enc_seq (f g : buf -> Z -> enc_result) (w : buf) (room : Z) : enc_result :=
  let* (n, w) := f w room in
  let* off := n in
  enc_then w off room g.

(** The code checks the pointer after [f]. *)
Definition enc_check (f g : buf -> Z -> enc_result) (w : buf) (room : Z) : enc_result :=
  let* (n, w) := f w room in
  match n with None => Some (None, w) | Some off => enc_then w off room g end.

(** The packet of a message that is sent from an array on the stack; what is not
    assigned is not read. *)
Definition stack_packet (nChannel headerType packetType nTimeStamp nInfoField2 : Z)
    (nBodySize : Z) (body : ptr) : RTMPPacket :=
  mkPacket headerType packetType false nChannel nTimeStamp nInfoField2 nBodySize 0 None (Some body).

(** Writing the body to [pbuf + RTMP_MAX_HEADER_SIZE] and sending it; [checked] tells
    whether the code returns [FALSE] when it does not fit. *)
Definition send_stack (r : RTMP) (pbuf : Z) (checked : bool) (packet : Z -> ptr -> RTMPPacket)
    (body : buf -> Z -> enc_result) (queue : bool) : outcome (bool * RTMP) :=
  let (q, w) := fresh (world r) pbuf in
  let b := ptr_add q RTMP_MAX_HEADER_SIZE in
  let room := pbuf - RTMP_MAX_HEADER_SIZE in
  let! old := mem_read w b room in
  let! (n, new) := lift (body old room) in
  let! w := mem_write w b new in
  match n with
  | None => if checked then Done (false, set_world (release w q) r) else Undef
  | Some n =>
      let! (ok, _, r) := RTMP_SendPacket_with (set_world w r) (packet n b) queue in
      Done (ok, set_world (release (world r) q) r)
  end.

(** The next number of an invocation. *)
Definition next_invoke (r : RTMP) : outcome RTMP :=
  let! n := int_add (m_numInvokes r) 1 in
  Done (set_numInvokes n r).

(** The name of a method, the number of the call and a null. *)
Definition enc_call (method : AVal) (txn : Z) : buf -> Z -> enc_result :=
  enc_seq (fun w room => AMF_EncodeString w room method)
    (enc_seq (fun w room => AMF_EncodeNumber w room txn) (put_byte AMF_NULL)).

Definition SendFCUnpublish_with (r : RTMP) : outcome (bool * RTMP) :=
  let! r := next_invoke r in
  send_stack r 1024 true (stack_packet 0x03 RTMP_PACKET_SIZE_MEDIUM RTMP_PACKET_TYPE_INVOKE 0 0)
    (enc_seq (enc_call (AVC "FCUnpublish") (double_of_int (m_numInvokes r)))
       (fun w room => AMF_EncodeString w room (playpath (Link r)))) false.

Definition SendDeleteStream_with (r : RTMP) (dStreamId : Z) : outcome (bool * RTMP) :=
  let! r := next_invoke r in
  send_stack r 256 false (stack_packet 0x03 RTMP_PACKET_SIZE_MEDIUM RTMP_PACKET_TYPE_INVOKE 0 0)
    (enc_seq (enc_call (AVC "deleteStream") (double_of_int (m_numInvokes r)))
       (fun w room => AMF_EncodeNumber w room dStreamId)) false.

End Sending.

(** ** Closing *)

(** The packets of the channels are released. *)
Fixpoint free_channels (chs : gmap Z RTMPPacket) (ids : list Z) (w : World) : outcome World :=
  match ids with
  | [] => Done w
  | i :: ids =>
      match chs !! i with
      | Some p =>
          let! (_, w) := RTMPPacket_Free w p in
          free_channels chs ids w
      | None => free_channels chs ids w
      end
  end.

(** What [RTMP_Close] does to the addresses it keeps. *)
Definition clear_link (l : RTMP_LNK) : RTMP_LNK :=
  let null v := mkAVal None (av_len v) in
  let l := if truthy (Z.land (lFlags l) RTMP_LF_FTCU)
           then set_lFlags (Z.lxor (lFlags l) RTMP_LF_FTCU) (set_tcUrl (null (tcUrl l)) l) else l in
  let write := truthy (Z.land (protocol l) RTMP_FEATURE_WRITE) in
  let clean := truthy (Z.land (pFlags l) RTMP_PUB_CLEAN) in
  let l := if negb write || clean then set_playpath0 (null (playpath0 l)) l else l in
  if write && clean && truthy (Z.land (pFlags l) RTMP_PUB_ALLOC)
  then set_tcUrl (null (tcUrl l)) (set_app (null (app l)) l) else l.

(** The part of [RTMP_Close] behind the socket. *)
Definition close_reset (r : RTMP) : outcome RTMP :=
  let rd := m_read r in
  let header := truthy (Z.land (r_flags rd) RTMP_READ_HEADER) in
  let! w := (if header
             then free (world r) (match r_buf rd with Some b => Some (mkPtr b 0) | None => None end)
             else Done (world r)) in
  let! (wpkt, w) := RTMPPacket_Free w (set_nBytesRead 0 (m_write r)) in
  let! w := free_channels (m_vecChannelsIn r) (seqZ 0 (m_channelsAllocatedIn r)) w in
  Done (mkRTMP (m_inChunkSize r) (m_outChunkSize r) 0 0 0 (m_nBufferMS r) (-1) (m_mediaChannel r)
    (m_mediaStamp r) (m_pauseStamp r) (m_pausing r) (m_nServerBW r) (m_nClientBW r) (m_nClientBW2 r)
    false (m_bSendCounter r) 0 (AV_clear (m_methodCalls r)) 0 0 ∅ ∅ ∅ (m_fDuration r)
    (mkREAD (if header then None else r_buf rd) 0 0 0 0 0 0) wpkt
    (mkSockBuf (-1) (sb_start (m_sb r)) [] (sb_timedout (m_sb r))) (clear_link (Link r)) w).

(** The stream is closed first; what is sent for it may itself fail and close the
    session, where no stream is open any more. *)
Definition RTMP_Close (r : RTMP) : outcome RTMP :=
  if RTMP_IsConnected r && (0 <? m_stream_id r) then
    let i := m_stream_id r in
    let r := set_stream_id 0 r in
    let! r := (if truthy (Z.land (protocol (Link r)) RTMP_FEATURE_WRITE)
               then let! (_, r) := SendFCUnpublish_with close_reset r in Done r
               else Done r) in
    let! (_, r) := SendDeleteStream_with close_reset r (double_of_int i) in
    close_reset r
  else close_reset r.

Definition WriteN := WriteN_with RTMP_Close.
Definition RTMP_SendPacket := RTMP_SendPacket_with RTMP_Close.
Definition SendFCUnpublish := SendFCUnpublish_with RTMP_Close.
Definition SendDeleteStream := SendDeleteStream_with RTMP_Close.

(** A chunk the caller has read raw: its header is put before its bytes while they are
    sent, when there are any. *)
Definition RTMP_SendChunk (r : RTMP) (chunk : RTMPChunk) : outcome (bool * RTMP) :=
  let hSize := c_headerSize chunk in
  if c_chunkSize chunk =? 0 then
    if hSize <=? 0 then Done (hSize =? 0, r) else
    let! data := lift (rdn (c_header chunk) 0 hSize) in
    write_loop RTMP_Close (sends (world r)) data r
  else
    match c_chunk chunk with
    | None => Undef
    | Some c =>
        let ptr := ptr_add c (- hSize) in
        let! saved := mem_read (world r) ptr hSize in
        let! hdr := lift (rdn (c_header chunk) 0 hSize) in
        let! w := mem_write (world r) ptr hdr in
        let! (wrote, r) := WriteN (set_world w r) (Some ptr) (hSize + c_chunkSize chunk) in
        let! w := mem_write (world r) ptr saved in
        Done (wrote, set_world w r)
    end.
