(* ===== verification/RtmpInvoke.v ===== *)
(** RTMP sessions: the messages a client sends; the model of the [Send] functions of
    src/protocol/rtmp/rtmpdump-master/librtmp/rtmp.c (SendConnectPacket, which needs
    the addresses of the connection, is left out). *)

From stdpp Require Import base list option numbers strings gmap.
From S2P Require Import Prelude CMem TypeDefs Amf RtmpTypes Rtmp.

Local Open Scope Z_scope.
Open Scope c_scope.

(** ** Invocations

    Each counts the invocation, builds the body and sends it; [checked] as in
    [send_stack]. *)

Definition send := send_stack RTMP_Close.

Definition enc_str (v : AVal) : buf -> Z -> enc_result := fun w room => AMF_EncodeString w room v.
Definition enc_num (d : Z) : buf -> Z -> enc_result := fun w room => AMF_EncodeNumber w room d.

(** The number of the invocation that was counted last. *)
Definition invoke_txn (r : RTMP) : Z := double_of_int (m_numInvokes r).

(** A message on the control channel, with a header of medium size. *)
Definition control_packet : Z -> ptr -> RTMPPacket :=
  stack_packet 0x03 RTMP_PACKET_SIZE_MEDIUM RTMP_PACKET_TYPE_INVOKE 0 0.

Definition RTMP_SendCreateStream (r : RTMP) : outcome (bool * RTMP) :=
  let! r := next_invoke r in
  send r 256 false control_packet (enc_call (AVC "createStream") (invoke_txn r)) true.

Definition SendFCSubscribe (r : RTMP) (subscribepath : AVal) : outcome (bool * RTMP) :=
  let! r := next_invoke r in
  send r 512 true control_packet
    (enc_seq (enc_call (AVC "FCSubscribe") (invoke_txn r)) (enc_str subscribepath)) true.

Definition SendUsherToken (r : RTMP) (usherToken : AVal) : outcome (bool * RTMP) :=
  let! r := next_invoke r in
  send r 1024 true control_packet
    (enc_seq (enc_call (AVC "NetStream.Authenticate.UsherToken") (invoke_txn r)) (enc_str usherToken))
    false.

Definition SendReleaseStream (r : RTMP) : outcome (bool * RTMP) :=
  let! r := next_invoke r in
  send r 1024 true control_packet
    (enc_seq (enc_call (AVC "releaseStream") (invoke_txn r)) (enc_str (playpath (Link r)))) false.

Definition SendFCPublish (r : RTMP) : outcome (bool * RTMP) :=
  let! r := next_invoke r in
  send r 1024 true control_packet
    (enc_seq (enc_call (AVC "FCPublish") (invoke_txn r)) (enc_str (playpath (Link r)))) false.

Definition SendPublish (r : RTMP) : outcome (bool * RTMP) :=
  let! r := next_invoke r in
  send r 1024 true
    (stack_packet 0x04 RTMP_PACKET_SIZE_LARGE RTMP_PACKET_TYPE_INVOKE 0 (m_stream_id r))
    (enc_check (enc_seq (enc_call (AVC "publish") (invoke_txn r)) (enc_str (playpath (Link r))))
       (enc_str (AVC "live"))) true.

Definition enc_bool (b : bool) : buf -> Z -> enc_result := fun w room => AMF_EncodeBoolean w room b.

Definition RTMP_SendPause (r : RTMP) (DoPause : bool) (iTime : Z) : outcome (bool * RTMP) :=
  let! r := next_invoke r in
  send r 256 false (stack_packet 0x08 RTMP_PACKET_SIZE_MEDIUM RTMP_PACKET_TYPE_INVOKE 0 0)
    (enc_seq (enc_seq (enc_call (AVC "pause") (invoke_txn r)) (enc_bool DoPause))
       (enc_num (double_of_int iTime))) true.

(** The time stamp of the channel the media come in. *)
Definition media_timestamp (r : RTMP) : Z :=
  if m_mediaChannel r <? m_channelsAllocatedIn r
  then u32 (default 0 (m_channelTimestamp r !! m_mediaChannel r)) else 0.

Definition RTMP_Pause (r : RTMP) (DoPause : bool) : outcome (bool * RTMP) :=
  let r := if DoPause then set_pauseStamp (media_timestamp r) r else r in
  RTMP_SendPause r DoPause (s32 (m_pauseStamp r)).

Definition RTMP_SendSeek (r : RTMP) (iTime : Z) : outcome (bool * RTMP) :=
  let! r := next_invoke r in
  send (set_read (set_r_nResumeTS 0 (set_r_flags (Z.lor (r_flags (m_read r)) RTMP_READ_SEEKING) (m_read r))) r)
    256 false (stack_packet 0x08 RTMP_PACKET_SIZE_MEDIUM RTMP_PACKET_TYPE_INVOKE 0 0)
    (enc_seq (enc_call (AVC "seek") (invoke_txn r)) (enc_num (double_of_int iTime))) true.

Definition SendCheckBW (r : RTMP) : outcome (bool * RTMP) :=
  let! r := next_invoke r in
  send r 256 false (stack_packet 0x03 RTMP_PACKET_SIZE_LARGE RTMP_PACKET_TYPE_INVOKE 0 0)
    (enc_call (AVC "_checkbw") (invoke_txn r)) false.

Definition SendCheckBWResult (r : RTMP) (txn : Z) : outcome (bool * RTMP) :=
  let count := m_nBWCheckCounter r in
  let! next := int_add count 1 in
  send (set_nBWCheckCounter next r) 256 false
    (stack_packet 0x03 RTMP_PACKET_SIZE_MEDIUM RTMP_PACKET_TYPE_INVOKE (u32 (0x16 * count)) 0)
    (enc_seq (enc_call (AVC "_result") txn) (enc_num (double_of_int count))) false.

Definition SendPong (r : RTMP) (txn : Z) : outcome (bool * RTMP) :=
  send r 256 false
    (stack_packet 0x03 RTMP_PACKET_SIZE_MEDIUM RTMP_PACKET_TYPE_INVOKE
       (u32 (0x16 * m_nBWCheckCounter r)) 0)
    (enc_call (AVC "pong") txn) false.

(** The first number is the position to start from, the second one, when there is a time
    to stop at, the length. *)
Definition SendPlay (r : RTMP) : outcome (bool * RTMP) :=
  let! r := next_invoke r in
  let l := Link r in
  let start :=
    if truthy (Z.land (lFlags l) RTMP_LF_LIVE) then double_of_int (-1000)
    else if 0 <? seekTime l then double_of_int (seekTime l) else 0 in
  let! len := (if stopTime l =? 0 then Done 0 else int_add (stopTime l) (- seekTime l)) in
  let body := enc_check (enc_seq (enc_call (AVC "play") (invoke_txn r)) (enc_str (playpath l)))
                (enc_num start) in
  let body := if stopTime l =? 0 then body
              else enc_check body (enc_num (double_of_int len)) in
  send r 1024 true
    (stack_packet 0x08 RTMP_PACKET_SIZE_LARGE RTMP_PACKET_TYPE_INVOKE 0 (m_stream_id r)) body true.

(** There must be room for the three bytes of the end and another one. *)
Definition enc_playlist_end (w : buf) (room : Z) : enc_result :=
  if room <=? 3 then Some (None, w)
  else enc_seq (put_byte 0) (enc_seq (put_byte 0) (put_byte AMF_OBJECT_END)) w room.

Definition SendPlaylist (r : RTMP) : outcome (bool * RTMP) :=
  send r 1024 true
    (stack_packet 0x08 RTMP_PACKET_SIZE_LARGE RTMP_PACKET_TYPE_INVOKE 0 (m_stream_id r))
    (enc_check
       (enc_seq (enc_call (AVC "set_playlist") 0)
       (enc_seq (put_byte AMF_ECMA_ARRAY)
       (enc_seq (put_byte 0) (enc_seq (put_byte 0) (enc_seq (put_byte 0)
       (enc_seq (put_byte AMF_OBJECT)
       (fun w room => AMF_EncodeNamedString w room (AVC "0") (playpath (Link r)))))))))
       enc_playlist_end) true.

Definition SendSecureTokenResponse (r : RTMP) (resp : AVal) : outcome (bool * RTMP) :=
  send r 1024 true control_packet
    (enc_seq (enc_call (AVC "secureTokenResponse") 0) (enc_str resp)) false.

(** ** Protocol messages *)

Definition RTMP_SendServerBW (r : RTMP) : outcome (bool * RTMP) :=
  send r 256 false
    (fun _ => stack_packet 0x02 RTMP_PACKET_SIZE_LARGE RTMP_PACKET_TYPE_SERVER_BW 0 0 4)
    (fun w room => AMF_EncodeInt32 w room (m_nServerBW r)) false.

Definition RTMP_SendClientBW (r : RTMP) : outcome (bool * RTMP) :=
  send r 256 false
    (fun _ => stack_packet 0x02 RTMP_PACKET_SIZE_LARGE RTMP_PACKET_TYPE_CLIENT_BW 0 0 5)
    (enc_seq (fun w room => AMF_EncodeInt32 w room (m_nClientBW r)) (put_byte (m_nClientBW2 r))) false.

Definition ctrl_size (nType : Z) : Z :=
  if nType =? 0x03 then 10 else if nType =? 0x1A then 3 else if nType =? 0x1B then 44 else 6.

Definition RTMP_SendCtrl (r : RTMP) (nType nObject nTime : Z) : outcome (bool * RTMP) :=
  let nSize := ctrl_size nType in
  let fields : buf -> Z -> enc_result :=
    if nType =? 0x1B then
      fun w _ => let* data := rdn (SWFVerificationResponse (Link r)) 0 42 in
                 let* w := wrn w 0 data in Some (Some 42, w)
    else if nType =? 0x1A then put_byte (Z.land nObject 0xff)
    else
      let object := fun w room => AMF_EncodeInt32 w room nObject in
      if 6 <? nSize then enc_seq object (fun w room => AMF_EncodeInt32 w room nTime) else object in
  send r 256 false
    (fun _ => stack_packet 0x02 RTMP_PACKET_SIZE_MEDIUM RTMP_PACKET_TYPE_CONTROL 0 0 nSize)
    (enc_seq (fun w room => AMF_EncodeInt16 w room nType) fields) false.

Definition RTMP_SetBufferMS (r : RTMP) (size : Z) : RTMP := set_nBufferMS size r.

Definition RTMP_UpdateBufferMS (r : RTMP) : outcome RTMP :=
  let! (_, r) := RTMP_SendCtrl r 3 (u32 (m_stream_id r)) (u32 (m_nBufferMS r)) in
  Done r.

Definition RTMP_DeleteStream (r : RTMP) : outcome RTMP :=
  if m_stream_id r <? 0 then Done r else
  let r := set_bPlaying false r in
  let! (_, r) := SendDeleteStream r (double_of_int (m_stream_id r)) in
  Done (set_stream_id (-1) r).

(** The session waits a second between the two messages. *)
Definition RTMP_ToggleStream (r : RTMP) : outcome (bool * RTMP) :=
  let unpause r :=
    let! (res, r) := RTMP_SendPause r false (s32 (m_pauseStamp r)) in
    Done (res, set_pausing 3 r) in
  if m_pausing r =? 0 then
    let r := if sb_timedout (m_sb r) && (r_status (m_read r) =? RTMP_READ_EOF)
             then set_read (set_r_status 0 (m_read r)) r else r in
    let! (res, r) := RTMP_SendPause r true (s32 (m_pauseStamp r)) in
    if negb res then Done (res, r) else unpause (set_pausing 1 r)
  else unpause r.
