(* ===== verification/RtmpSpec.v ===== *)
(** RTMP chunk streams: the reference encoding of a message in chunks, and that
    [RTMP_SendPacket] writes it. *)

From stdpp Require Import base list option numbers strings gmap.
From S2P Require Import Prelude CMem TypeDefs Amf AmfSpec RtmpTypes Rtmp.

Local Open Scope Z_scope.
Open Scope c_scope.

(** Evaluates the comparisons of constants in the goal. *)
Ltac ztest a b f :=
  let c := eval vm_compute in (f a b) in
  match c with true => idtac | false => idtac end; change (f a b) with c.
Ltac ztests :=
  repeat match goal with
  | |- context [?a <? ?b] => ztest a b Z.ltb
  | |- context [?a <=? ?b] => ztest a b Z.leb
  | |- context [?a =? ?b] => ztest a b Z.eqb
  end; cbv iota delta [andb negb].

(** ** The reference encoding *)

(** The basic header: the type [fmt] of the header and the channel, in one to three
    bytes. *)
Definition chan_bytes (ch : Z) : buf :=
  if 319 <? ch then [(ch - 64) mod 256; (ch - 64) / 256]
  else if 63 <? ch then [ch - 64] else [].

Definition basic_header (fmt ch : Z) : buf :=
  (fmt * 64 + (if 319 <? ch then 1 else if 63 <? ch then 0 else ch)) :: chan_bytes ch.

(** A field, when it is there. *)
Definition when (c : bool) (bs : buf) : buf := if c then bs else [].

Definition le32 (n : Z) : buf := [u8 n; u8 (Z.shiftr n 8); u8 (Z.shiftr n 16); u8 (Z.shiftr n 24)].

(** The message header, less of it for each type; [t] is the time stamp or what has been
    added to it, which gets four more bytes when three do not hold it. *)
Definition message_header (fmt t size type info : Z) : buf :=
  when (fmt <? 3) (be24 (Z.min t 0xffffff)) ++
  when (fmt <? 2) (be24 size) ++ when (fmt <? 2) [type] ++
  when (fmt <? 1) (le32 info) ++
  when ((fmt <? 3) && (0xffffff <=? t)) (be32 t).

(** The body in pieces of [csz] bytes, with [sep] between them. *)
Fixpoint pieces (n : nat) (csz : Z) (sep body : buf) : buf :=
  match n with
  | O => body
  | S n => if zlen body <=? csz then body
           else take (Z.to_nat csz) body ++ sep ++ pieces n csz sep (drop (Z.to_nat csz) body)
  end.

Definition chunked (csz : Z) (sep body : buf) : buf := pieces (length body) csz sep body.

Definition message (csz fmt ch t type info : Z) (body : buf) : buf :=
  basic_header fmt ch ++ message_header fmt t (zlen body) type info ++
  chunked csz (basic_header 3 ch) body.

Lemma zlen_basic_header fmt ch : zlen (basic_header fmt ch) = 1 + channel_size ch.
Proof. unfold basic_header, chan_bytes, channel_size. by repeat case_match. Qed.

Lemma zlen_chan_bytes ch : zlen (chan_bytes ch) = channel_size ch.
Proof. unfold chan_bytes, channel_size. by repeat case_match. Qed.

(** The header types, their sizes. *)
Definition header_of (fmt : Z) : Z := nth (Z.to_nat fmt) packetSize 0.

Lemma zlen_message_header fmt t size type info :
  0 <= fmt <= 3 ->
  1 + zlen (message_header fmt t size type info) = header_size (header_of fmt) 0 t.
Proof.
  intros H. assert (fmt = 0 \/ fmt = 1 \/ fmt = 2 \/ fmt = 3) as [-> | [-> | [-> | ->]]] by lia;
    unfold message_header, header_size, when; simpl; by destruct (16777215 <=? t).
Qed.

(** ** The headers *)

Lemma u8_small v : 0 <= v < 256 -> u8 v = v.
Proof. intros. apply uwrap_id. split; lia. Qed.

Lemma s32_small v : 0 <= v < 2 ^ 31 -> s32 v = v.
Proof. intros. by apply swrap_small. Qed.

(** [fmt] in the two highest bits. *)
Lemma fmt_lor fmt low : 0 <= fmt <= 3 -> 0 <= low < 64 -> Z.lor (fmt * 64) low = fmt * 64 + low.
Proof.
  intros Hf Hl. rewrite <- Z.lxor_lor, <- Z.add_nocarry_lxor; [done| |];
    apply Z.bits_inj'; intros n Hn; rewrite Z.land_spec, Z.bits_0;
    change 64 with (2 ^ 6); destruct (Z.ltb_spec n 6);
    rewrite ?Z.mul_pow2_bits_low by lia; try done;
    rewrite (Z.bits_above_log2 low n), ?andb_false_r; try done; try lia;
    (destruct (Z.eqb_spec low 0) as [-> |]; [simpl; lia|]);
    (apply Z.log2_lt_pow2; [lia|]); (apply Z.lt_le_trans with (2 ^ 6); [lia|]);
    apply Z.pow_le_mono_r; lia.
Qed.

Lemma fmt_u8 fmt : 0 <= fmt <= 3 -> u8 (Z.shiftl fmt 6) = fmt * 64.
Proof. intros. rewrite Z.shiftl_mul_pow2 by lia. apply u8_small. lia. Qed.

(** The first byte of the header and the one of the chunks that follow. *)
Lemma first_byte_basic packet :
  0 <= m_headerType packet <= 3 -> 0 <= m_nChannel packet ->
  basic_header (m_headerType packet) (m_nChannel packet) =
    first_byte packet :: chan_bytes (m_nChannel packet) /\
  basic_header 3 (m_nChannel packet) =
    Z.lor 0xc0 (first_byte packet) :: chan_bytes (m_nChannel packet) /\
  0 <= first_byte packet < 256 /\ 0 <= Z.lor 0xc0 (first_byte packet) < 256.
Proof.
  intros Hf Hc. unfold first_byte, basic_header, channel_size. rewrite fmt_u8 by done.
  set (fmt := m_headerType packet) in *. set (ch := m_nChannel packet) in *.
  assert (forall low, 0 <= low < 64 -> Z.lor 0xc0 (fmt * 64 + low) = 3 * 64 + low) as H3.
  { intros low Hl. rewrite <- fmt_lor by lia. rewrite Z.lor_assoc.
    assert (Z.lor 0xc0 (fmt * 64) = 3 * 64) as ->; [|by apply (fmt_lor 3 low)].
    assert (fmt = 0 \/ fmt = 1 \/ fmt = 2 \/ fmt = 3) as [-> | [-> | [-> | ->]]] by lia; done. }
  destruct (Z.ltb_spec 319 ch); [|destruct (Z.ltb_spec 63 ch)]; simpl.
  - rewrite (fmt_lor fmt 1) by lia. rewrite (H3 1) by lia. split_and!; (done || lia).
  - specialize (H3 0 ltac:(lia)). rewrite Z.add_0_r in H3. rewrite H3, Z.add_0_r.
    split_and!; (done || lia).
  - rewrite fmt_lor by lia. rewrite u8_small by lia. rewrite H3 by lia.
    split_and!; (done || lia).
Qed.

Lemma put_channel_at b w ch :
  ch <= 65599 -> channel_size ch <= zlen w ->
  put_channel (b :: w) ch = Some (b :: chan_bytes ch ++ drop (Z.to_nat (channel_size ch)) w).
Proof.
  intros Hc Hl. unfold put_channel, channel_size, chan_bytes in *.
  destruct (Z.ltb_spec 319 ch); [|destruct (Z.ltb_spec 63 ch)]; simpl Z.eqb; cbv iota in *.
  - destruct w as [|x [|y w]]; [by exfalso; vm_compute in Hl..|].
    change (b :: x :: y :: w) with ([b] ++ x :: y :: w). rewrite wr_at by done. cbv iota beta.
    change ([b] ++ ?a :: y :: w) with ([b; a] ++ y :: w). rewrite wr_at by done.
    rewrite u8_land_ff, Z.shiftr_div_pow2 by lia. change (2 ^ 8) with 256.
    rewrite (u8_small ((ch - 64) / 256)); [done|].
    split; [apply Z.div_pos|apply Z.div_lt_upper_bound]; lia.
  - destruct w as [|x w]; [by exfalso; vm_compute in Hl|].
    change (b :: x :: w) with ([b] ++ x :: w). rewrite wr_at by done. cbv iota beta. rewrite u8_land_ff, u8_small by lia. done.
  - done.
Qed.

Lemma put_next_header_basic w packet :
  0 <= m_headerType packet <= 3 -> 0 <= m_nChannel packet <= 65599 ->
  zlen w = 1 + channel_size (m_nChannel packet) ->
  put_next_header w packet = Some (basic_header 3 (m_nChannel packet)).
Proof.
  intros Hf Hc Hl. destruct (first_byte_basic packet Hf (proj1 Hc)) as (_ & -> & _ & Hb).
  unfold put_next_header. destruct w as [|x w].
  { rewrite zlen_nil in Hl. unfold channel_size in Hl. by repeat case_match. }
  rewrite zlen_cons in Hl. rewrite wr_head. cbv iota beta.
  rewrite put_channel_at, u8_small by lia.
  replace (drop _ w) with (@nil Z); [by rewrite app_nil_r|].
  symmetry. apply nil_length_inv. rewrite length_drop. unfold zlen in Hl. lia.
Qed.

(** Writing field after field: [acc] is what was written to [w0] so far. *)
Lemma put_field_emits (c : bool) acc w0 f bs :
  emits 0 f bs -> zlen (acc ++ when c bs) <= zlen w0 ->
  put_field c (zlen acc) (acc ++ drop (Z.to_nat (zlen acc)) w0) f =
    Some (zlen (acc ++ when c bs),
          (acc ++ when c bs) ++ drop (Z.to_nat (zlen (acc ++ when c bs))) w0).
Proof.
  intros Hf Hl. pose proof (zlen_nonneg acc). rewrite zlen_app in Hl. unfold put_field, when in *.
  destruct c; [|by rewrite app_nil_r].
  pose proof (zlen_nonneg bs). assert (zlen (drop (Z.to_nat (zlen acc)) w0) = zlen w0 - zlen acc) as Hd
    by (rewrite zlen_drop; lia).
  rewrite (enc_then_emits 0 f bs acc _ _ (zlen acc)); rewrite ?zlen_app, ?Hd; [|done|done|lia|lia].
  cbv beta iota. by rewrite drop_drop_zlen, app_assoc, zlen_app.
Qed.

Lemma emits_byte v : emits 0 (fun w _ => let* w := wr w 0 v in Some (Some 1, w)) [u8 v].
Proof.
  intros w room Hr Hw. change (zlen [u8 v]) with 1 in *. split_buf w 1. by buf_eval.
Qed.

Lemma EncodeInt32LE_writes w n :
  4 <= zlen w -> EncodeInt32LE w n = Some (4, le32 n ++ drop 4 w).
Proof. intros H. unfold EncodeInt32LE. split_buf w 4. by buf_eval. Qed.

Lemma emits_info n :
  emits 0 (fun w _ => let* (n, w) := EncodeInt32LE w n in Some (Some n, w)) (le32 n).
Proof.
  intros w room Hr Hw. change (zlen (le32 n)) with 4 in *. by rewrite EncodeInt32LE_writes by lia.
Qed.

Lemma put_header_writes w packet fmt ch t :
  m_headerType packet = fmt -> m_nChannel packet = ch ->
  0 <= fmt <= 3 -> 0 <= ch <= 65599 -> 0 <= m_packetType packet < 256 ->
  header_size (header_of fmt) (channel_size ch) t <= zlen w ->
  put_header w packet (header_of fmt) t =
    Some ((basic_header fmt ch ++
           message_header fmt t (m_nBodySize packet) (m_packetType packet) (m_nInfoField2 packet)) ++
          drop (Z.to_nat (header_size (header_of fmt) (channel_size ch) t)) w).
Proof.
  intros <- <- Hf Hc Ht Hl. set (fmt := m_headerType packet) in *. set (ch := m_nChannel packet) in *.
  assert (zlen (basic_header fmt ch ++ message_header fmt t (m_nBodySize packet) (m_packetType packet)
            (m_nInfoField2 packet)) = header_size (header_of fmt) (channel_size ch) t) as Hsize.
  { rewrite zlen_app, zlen_basic_header. pose proof (zlen_message_header fmt t (m_nBodySize packet)
      (m_packetType packet) (m_nInfoField2 packet) Hf) as H. unfold header_size in *. lia. }
  destruct (first_byte_basic packet Hf (proj1 Hc)) as (Hb & _ & Hfb & _).
  fold fmt ch in Hb. rewrite <- Hsize in Hl |- *. unfold put_header.
  rewrite zlen_app, Hb, zlen_cons, zlen_chan_bytes in Hl.
  pose proof (zlen_nonneg (message_header fmt t (m_nBodySize packet) (m_packetType packet) (m_nInfoField2 packet))).
  assert (0 <= channel_size ch) by (unfold channel_size; by repeat case_match).
  destruct w as [|x w]; [rewrite zlen_nil in Hl; lia|]. rewrite zlen_cons in Hl.
  rewrite wr_head, u8_small by lia. cbv beta iota. fold ch.
  rewrite put_channel_at by lia. cbv beta iota.
  assert (first_byte packet :: chan_bytes ch ++ drop (Z.to_nat (channel_size ch)) w =
    basic_header fmt ch ++ drop (Z.to_nat (zlen (basic_header fmt ch))) (x :: w)) as ->.
  { rewrite Hb, zlen_cons, zlen_chan_bytes.
    by replace (Z.to_nat (1 + channel_size ch)) with (S (Z.to_nat (channel_size ch))) by lia. }
  assert ((1 <? header_of fmt) = (fmt <? 3) /\ (4 <? header_of fmt) = (fmt <? 2) /\
          (8 <? header_of fmt) = (fmt <? 1)) as (-> & -> & ->).
  { assert (fmt = 0 \/ fmt = 1 \/ fmt = 2 \/ fmt = 3) as [-> | [-> | [-> | ->]]] by lia; done. }
  rewrite <- (zlen_basic_header fmt).
  assert (basic_header fmt ch ++ message_header fmt t (m_nBodySize packet) (m_packetType packet)
     (m_nInfoField2 packet) =
    ((((basic_header fmt ch ++ when (fmt <? 3) (be24 (Z.min t 0xffffff))) ++
       when (fmt <? 2) (be24 (m_nBodySize packet))) ++ when (fmt <? 2) [u8 (m_packetType packet)]) ++
       when (fmt <? 1) (le32 (m_nInfoField2 packet))) ++
       when ((fmt <? 3) && (0xffffff <=? t)) (be32 t)) as E.
  { unfold message_header. rewrite (u8_small (m_packetType packet)) by lia. by rewrite <- !app_assoc. }
  assert (forall a b : buf, zlen a <= zlen (a ++ b)) as Hmono
    by (intros a b; rewrite zlen_app; pose proof (zlen_nonneg b); lia).
  assert (zlen (basic_header fmt ch ++ message_header fmt t (m_nBodySize packet)
    (m_packetType packet) (m_nInfoField2 packet)) <= zlen (x :: w)) as Hall.
  { rewrite zlen_app, Hb, !zlen_cons, zlen_chan_bytes. lia. }
  replace (if 0xffffff <? t then 0xffffff else t) with (Z.min t 0xffffff)
    by (destruct (Z.ltb_spec 0xffffff t); lia).
  rewrite E in *. clear E Hl H Hsize.
  erewrite put_field_emits; [cbv beta iota| |].
  erewrite put_field_emits; [cbv beta iota| |].
  erewrite put_field_emits; [cbv beta iota| |].
  erewrite put_field_emits; [cbv beta iota| |].
  erewrite put_field_emits; [cbv beta iota| |].
  { reflexivity. }
  all: lazymatch goal with
       | |- emits _ _ (be24 _) => apply emits_int24
       | |- emits _ _ [_] => apply emits_byte
       | |- emits _ _ (le32 _) => apply emits_info
       | |- emits _ _ (be32 _) => apply emits_int32
       | _ => idtac
       end.
  all: etrans; [|exact Hall]; repeat (apply Z.le_refl || (etrans; [|apply Hmono])).
Qed.

(** ** A socket that takes what is sent

    No call fails for good, and enough of them take something. *)

Definition willing (ctrlC : bool) (e : send_event) : bool :=
  match e with Sent k => 1 <=? k | SendInterrupted => negb ctrlC | SendFailed => false end.

Definition takes (e : send_event) : bool := match e with Sent _ => true | _ => false end.

Definition capacity (evs : list send_event) : Z := zlen (List.filter takes evs).

Definition ready (w : World) (n : Z) : Prop :=
  forallb (willing (RTMP_ctrlC w)) (sends w) = true /\ n <= capacity (sends w).

(** [w'] is [w] after it took [data]. *)
Definition took (w : World) (data : buf) (w' : World) : Prop :=
  exists evs, w' = set_sends evs (sent w ++ data) w /\
    forallb (willing (RTMP_ctrlC w)) evs = true /\ capacity (sends w) - zlen data <= capacity evs.

Lemma took_ready w data w' n : took w data w' -> ready w (zlen data + n) -> ready w' n.
Proof. intros (evs & -> & Hw & Hc) [_ Hn]. split; [exact Hw|]. simpl. lia. Qed.

Lemma took_trans w1 d1 w2 d2 w3 : took w1 d1 w2 -> took w2 d2 w3 -> took w1 (d1 ++ d2) w3.
Proof.
  intros (e1 & -> & _ & Hc1) (e2 & -> & Hw & Hc2). exists e2. simpl in *.
  split; [by unfold set_sends; simpl; rewrite app_assoc|]. split; [done|]. rewrite zlen_app. lia.
Qed.

Lemma took_nil w : forallb (willing (RTMP_ctrlC w)) (sends w) = true -> took w [] w.
Proof.
  intros H. exists (sends w). split; [destruct w; unfold set_sends; simpl; by rewrite app_nil_r|].
  split; [done|]. rewrite zlen_nil. lia.
Qed.

Lemma set_world_twice w w' r : set_world w (set_world w' r) = set_world w r.
Proof. done. Qed.

Lemma set_world_same r : set_world (world r) r = r.
Proof. by destruct r. Qed.

Lemma zlen_take_min {A} n (l : list A) : 0 <= n -> zlen (take (Z.to_nat n) l) = Z.min n (zlen l).
Proof. intros. unfold zlen. rewrite length_take. lia. Qed.

Lemma write_loop_takes close evs : forall data r,
  sends (world r) = evs -> ready (world r) (zlen data) ->
  exists w, write_loop close evs data r = Done (true, set_world w r) /\ took (world r) data w.
Proof.
  induction evs as [|e evs IH]; intros data r Hs [Hw Hc].
  { rewrite Hs in Hc. destruct data as [|x data].
    - exists (world r). split; [by rewrite set_world_same|apply took_nil; by rewrite Hs].
    - rewrite zlen_cons in Hc. change (capacity []) with 0 in Hc. pose proof (zlen_nonneg data). lia. }
  destruct data as [|x data'].
  { exists (world r). split; [by rewrite set_world_same|by apply took_nil]. }
  set (data := x :: data') in *. assert (1 <= zlen data) as Hd
    by (unfold data; rewrite zlen_cons; pose proof (zlen_nonneg data'); lia).
  assert (write_loop close (e :: evs) data r =
    let! (nBytes, interrupted, w) := RTMPSockBuf_Send data (world r) in
    let r := set_world w r in
    if nBytes <? 0 then
      if interrupted && negb (RTMP_ctrlC w) then write_loop close evs data r
      else let! r := close r in Done (false, r)
    else if nBytes =? 0 then Done (false, r)
    else write_loop close evs (drop (Z.to_nat nBytes) data) r) as -> by done.
  unfold RTMPSockBuf_Send. rewrite Hs in *. simpl in Hw. apply andb_prop in Hw as [He Hw].
  destruct e as [k| |]; [|simpl in He|done].
  - simpl in He. set (n := Z.max 0 (Z.min k (zlen data))). assert (1 <= n <= zlen data) as Hn by lia.
    rewrite (proj2 (Z.ltb_ge n 0)), (proj2 (Z.eqb_neq n 0)) by lia. cbv beta iota.
    change (capacity (Sent k :: evs)) with (zlen (Sent k :: List.filter takes evs)) in Hc.
    rewrite zlen_cons in Hc. fold (capacity evs) in Hc.
    destruct (IH (drop (Z.to_nat n) data) (set_world (set_sends evs (sent (world r) ++
      take (Z.to_nat n) data) (world r)) r)) as (w & -> & Ht); [done|split; [done|]; simpl|].
    { rewrite zlen_drop; lia. }
    exists w. split; [done|]. rewrite <- (take_drop (Z.to_nat n) data).
    eapply took_trans; [|exact Ht]. simpl. eexists. split; [done|]. split; [done|].
    rewrite Hs. change (capacity (Sent k :: evs)) with (zlen (Sent k :: List.filter takes evs)).
    rewrite zlen_cons, zlen_take by lia. fold (capacity evs). lia.
  - change (-1 <? 0) with true. simpl. rewrite He. change (capacity (SendInterrupted :: evs)) with (capacity evs) in Hc.
    destruct (IH data (set_world (set_sends evs (sent (world r)) (world r)) r)) as (w & -> & Ht);
      [done|by split|].
    exists w. split; [done|]. destruct Ht as (evs' & -> & Hw' & Hc'). exists evs'. simpl in *.
    split; [done|]. split; [done|]. rewrite Hs. done.
Qed.

(** ** Pieces *)

Lemma pieces_enough csz sep : 0 < csz -> forall n body,
  (length body <= n)%nat -> pieces n csz sep body = chunked csz sep body.
Proof.
  intros Hc. unfold chunked.
  assert (forall n m body, (length body <= n)%nat -> (length body <= m)%nat ->
    pieces n csz sep body = pieces m csz sep body) as H; [|intros; by apply H].
  induction n as [|n IH]; intros m body Hn Hm.
  { destruct body; [|simpl in Hn; lia]. destruct m; [done|]. simpl.
    by rewrite (proj2 (Z.leb_le (zlen []) csz)) by (rewrite zlen_nil; lia). }
  destruct m as [|m]; [destruct body; [|simpl in Hm; lia]; simpl;
    by rewrite (proj2 (Z.leb_le (zlen []) csz)) by (rewrite zlen_nil; lia)|].
  simpl. destruct (Z.leb_spec (zlen body) csz) as [|Hlt]; [done|]. do 2 f_equal.
  apply IH; rewrite length_drop; unfold zlen in Hlt; lia.
Qed.

Lemma chunked_last csz sep body : zlen body <= csz -> chunked csz sep body = body.
Proof.
  intros H. unfold chunked. destruct (length body); [done|]. simpl.
  by rewrite (proj2 (Z.leb_le _ _)) by lia.
Qed.

Lemma chunked_more csz sep body : 0 < csz -> csz < zlen body ->
  chunked csz sep body =
    take (Z.to_nat csz) body ++ sep ++ chunked csz sep (drop (Z.to_nat csz) body).
Proof.
  intros Hc Hl. unfold chunked at 1. destruct body as [|x body]; [rewrite zlen_nil in Hl; lia|].
  simpl length. cbn [pieces]. rewrite (proj2 (Z.leb_gt _ _)) by lia.
  rewrite pieces_enough; [done|done|]. rewrite length_drop. simpl. lia.
Qed.

(** ** Memory *)

Lemma mem_read_at w blk pre mid post off n :
  heap w !! blk = Some (pre ++ mid ++ post) -> off = zlen pre -> n = zlen mid ->
  mem_read w (mkPtr blk off) n = Done mid.
Proof. intros Hh -> ->. unfold mem_read. simpl. by rewrite Hh, rdn_app. Qed.

Lemma mem_write_at w blk pre old new post off :
  heap w !! blk = Some (pre ++ old ++ post) -> off = zlen pre -> zlen new = zlen old ->
  mem_write w (mkPtr blk off) new = Done (set_heap (<[blk := pre ++ new ++ post]> (heap w)) w).
Proof. intros Hh -> Hl. unfold mem_write. simpl. by rewrite Hh, wrn_app. Qed.

Lemma mem_update_at w blk pre old new post off n f :
  heap w !! blk = Some (pre ++ old ++ post) -> off = zlen pre -> n = zlen old ->
  f old = Some new -> zlen new = zlen old ->
  mem_update w (Some (mkPtr blk off)) n f =
    Done (set_heap (<[blk := pre ++ new ++ post]> (heap w)) w).
Proof.
  intros Hh Ho Hn Hf Hl. unfold mem_update. rewrite (mem_read_at _ _ _ _ _ _ _ Hh Ho Hn), Hf.
  by apply (mem_write_at _ _ _ old).
Qed.

Lemma set_heap_same w : set_heap (heap w) w = w.
Proof. by destruct w. Qed.

Lemma took_set_heap w data w' h : took w data w' -> took (set_heap h w) data (set_heap h w').
Proof. intros (evs & -> & H). by exists evs. Qed.

Lemma took_heap w data w' : took w data w' -> heap w' = heap w.
Proof. by intros (evs & -> & _). Qed.

(** Writing what lies at a pointer. *)
Lemma WriteN_takes close r blk pre mid post off n :
  heap (world r) !! blk = Some (pre ++ mid ++ post) -> off = zlen pre -> n = zlen mid ->
  ready (world r) n ->
  exists w, WriteN_with close r (Some (mkPtr blk off)) n = Done (true, set_world w r) /\
    took (world r) mid w.
Proof.
  intros Hh Ho Hn Hr. unfold WriteN_with. pose proof (zlen_nonneg mid).
  destruct (Z.leb_spec n 0).
  - assert (mid = []) as -> by (destruct mid; [done|rewrite zlen_cons in *; pose proof (zlen_nonneg mid); lia]).
    exists (world r). rewrite set_world_same, (proj2 (Z.eqb_eq n 0)) by lia.
    split; [done|]. apply took_nil, Hr.
  - unfold mem_read_opt. rewrite (mem_read_at _ _ _ _ _ _ _ Hh Ho Hn). subst n.
    by apply write_loop_takes.
Qed.

(** ** The chunks *)

Lemma split_tail (d : buf) n :
  0 <= n <= zlen d -> exists A old, d = A ++ old /\ zlen A = zlen d - n /\ zlen old = n.
Proof.
  intros H. exists (take (Z.to_nat (zlen d - n)) d), (drop (Z.to_nat (zlen d - n)) d).
  rewrite take_drop, zlen_take, zlen_drop by lia. split_and!; [done..|lia].
Qed.

Section chunks.
Context (close : RTMP -> outcome RTMP) (packet : RTMPPacket) (blk csz : Z) (post : buf).
Context (Hfmt : 0 <= m_headerType packet <= 3) (Hch : 0 <= m_nChannel packet <= 65599).
Context (Hcsz : 0 < csz).

Abbreviation sep := (basic_header 3 (m_nChannel packet)).

(** The loop of [RTMP_SendPacket], when [dn] lies before the header [hdr] of what is
    still to be sent, [rest].  The header of the next chunk is written over bytes that
    were sent. *)
Lemma send_loop_writes fuel : forall dn hdr rest r,
  heap (world r) !! blk = Some (dn ++ hdr ++ rest ++ post) ->
  zlen sep <= zlen dn + zlen hdr -> 1 <= zlen hdr -> zlen rest < Z.of_nat fuel ->
  ready (world r) (zlen (hdr ++ chunked csz sep rest)) ->
  exists w X,
    send_loop close fuel packet (Some (mkPtr blk (zlen dn))) (Some (mkPtr blk (zlen (dn ++ hdr))))
      (zlen hdr) (zlen rest) csz r = Done (true, set_world w r) /\
    took (set_heap (<[blk := X ++ post]> (heap (world r))) (world r)) (hdr ++ chunked csz sep rest) w /\
    zlen X = zlen (dn ++ hdr ++ rest) /\ (zlen rest <= csz -> X = dn ++ hdr ++ rest).
Proof.
  induction fuel as [|fuel IH]; intros dn hdr rest r Hh Hsep Hhdr Hfuel Hr;
    pose proof (zlen_nonneg rest); [lia|].
  cbn [send_loop]. rewrite (proj2 (Z.eqb_neq _ 0)) by lia.
  destruct (Z.leb_spec (zlen rest) csz) as [Hle|Hlt].
  - replace (if zlen rest <? csz then zlen rest else csz) with (zlen rest)
      by (destruct (Z.ltb_spec (zlen rest) csz); lia).
    rewrite chunked_last in Hr |- * by done.
    destruct (WriteN_takes close r blk dn (hdr ++ rest) post (zlen dn) (zlen rest + zlen hdr))
      as (w & -> & Hw); [by rewrite Hh, <- app_assoc|done|rewrite zlen_app; lia|
      by rewrite Z.add_comm, <- zlen_app|].
    cbv beta iota. simpl negb. cbv beta iota. rewrite Z.sub_diag. change (0 <? 0) with false.
    exists w, (dn ++ hdr ++ rest). split; [by destruct fuel|]. split; [|done].
    rewrite <- !app_assoc, insert_id, set_heap_same by done. done.
  - rewrite (proj2 (Z.ltb_ge (zlen rest) csz)) by lia.
    rewrite chunked_more in Hr |- * by done.
    set (piece := take (Z.to_nat csz) rest) in *. set (rest' := drop (Z.to_nat csz) rest) in *.
    assert (zlen piece = csz) as Hp by (unfold piece; rewrite zlen_take; lia).
    assert (zlen rest' = zlen rest - csz) as Hr' by (unfold rest'; rewrite zlen_drop; lia).
    assert (rest = piece ++ rest') as Erest by (by unfold piece, rest'; rewrite take_drop).
    destruct (WriteN_takes close r blk dn (hdr ++ piece) (rest' ++ post) (zlen dn) (csz + zlen hdr))
      as (w & -> & Hw);
      [by rewrite Hh, Erest, <- !app_assoc|done|rewrite zlen_app; lia| |].
    { destruct Hr as [? Hr]. split; [done|]. rewrite !zlen_app in Hr.
      pose proof (zlen_nonneg sep). pose proof (zlen_nonneg (chunked csz sep rest')). lia. }
    cbv beta iota. simpl negb. cbv beta iota. rewrite <- Hr', (proj2 (Z.ltb_lt 0 _)) by lia.
    destruct (split_tail (dn ++ hdr ++ piece) (zlen sep)) as (A & old & EA & HA & Ho);
      [rewrite !zlen_app; pose proof (zlen_nonneg sep); lia|]. rewrite !zlen_app in HA.
    assert (heap (world r) !! blk = Some (A ++ old ++ rest' ++ post)) as Hh'
      by (rewrite Hh, (app_assoc A), <- EA, Erest, <- !app_assoc; done).
    rewrite zlen_basic_header in HA. unfold ptr_add. cbn [p_blk p_off].
    rewrite (mem_update_at _ blk A old sep (rest' ++ post));
      [|simpl; by rewrite (took_heap _ _ _ Hw)|rewrite HA, zlen_app; lia|by rewrite Ho, zlen_basic_header
       |by apply put_next_header_basic; rewrite ?Ho, ?zlen_basic_header|done].
    cbv beta iota. simpl world. rewrite (took_heap _ _ _ Hw).
    set (h := <[blk:=A ++ sep ++ rest' ++ post]> (heap (world r))).
    pose proof (took_set_heap _ _ _ h Hw) as Hw1.
    destruct (IH A sep rest' (set_world (set_heap h w) r)) as (w' & X & E & Ht & HX & _).
    { apply lookup_insert_eq. }
    { pose proof (zlen_nonneg A). lia. }
    { rewrite zlen_basic_header. unfold channel_size. repeat case_match; lia. }
    { lia. }
    { eapply took_ready; [exact Hw1|]. rewrite <- zlen_app, <- app_assoc. exact Hr. }
    exists w', X. split; [|split; [|split; [|lia]]].
    + rewrite zlen_basic_header in E. rewrite set_world_twice in *. rewrite <- E. do 3 f_equal.
      * rewrite zlen_app. lia.
      * rewrite !zlen_app, zlen_basic_header. lia.
    + simpl in Ht. unfold h in Ht. rewrite insert_insert_eq in Ht.
      pose proof (took_set_heap _ _ _ (<[blk:=X ++ post]> (heap (world r))) Hw) as Hw2.
      pose proof (took_trans _ _ _ _ _ Hw2 Ht) as Hw3. by rewrite <- app_assoc in Hw3.
    + rewrite HX, !zlen_app, zlen_basic_header. lia.
Qed.
End chunks.

(** ** Messages *)

(** The header type a packet is sent with.  Type 0 has all fields; type 1 leaves out the stream
    identifier, type 2 also size and type of the message, type 3 also the time stamp.  A
    packet goes out with the type it asks for, 0 to 3, unless less is enough: size and type
    are left out when type 1 was asked for and they are those of the last packet of the
    channel, the time stamp when then, or for type 2, it is that of the last packet. *)
Definition sent_type (r : RTMP) (packet : RTMPPacket) : Z :=
  match m_vecChannelsOut r !! m_nChannel packet with
  | None => m_headerType packet
  | Some last =>
      let without_kind := if m_nTimeStamp last =? m_nTimeStamp packet then 3 else 2 in
      match m_headerType packet with
      | 1 => if (m_nBodySize last =? m_nBodySize packet) && (m_packetType last =? m_packetType packet)
             then without_kind else 1
      | 2 => without_kind
      | fmt => fmt
      end
  end.
(** The time stamp in its header: the difference from that of the last packet, but for type 0. *)
Definition sent_time (r : RTMP) (packet : RTMPPacket) : Z :=
  match m_vecChannelsOut r !! m_nChannel packet with
  | Some last => if m_headerType packet =? 0 then u32 (m_nTimeStamp packet)
                 else u32 (m_nTimeStamp packet - m_nTimeStamp last)
  | None => u32 (m_nTimeStamp packet)
  end.

Lemma sent_type_compress r packet : 0 <= m_headerType packet <= 3 ->
  m_headerType (fst (compress (m_vecChannelsOut r !! m_nChannel packet) packet)) = sent_type r packet.
Proof.
  intros H. unfold sent_type, compress, RTMP_PACKET_SIZE_LARGE, RTMP_PACKET_SIZE_MEDIUM,
    RTMP_PACKET_SIZE_SMALL, RTMP_PACKET_SIZE_MINIMUM. destruct (m_vecChannelsOut r !! m_nChannel packet) as [l|]; [|done].
  assert (m_headerType packet = 0 \/ m_headerType packet = 1 \/ m_headerType packet = 2 \/ m_headerType packet = 3)
    as [E | [E | [E | E]]] by lia; rewrite E; cbn;
    destruct (m_nBodySize l =? m_nBodySize packet), (m_packetType l =? m_packetType packet),
      (m_nTimeStamp l =? m_nTimeStamp packet) eqn:Et; cbn; repeat (rewrite ?E, ?Et; cbn); done.
Qed.

Lemma sent_time_compress r packet :
  u32 (m_nTimeStamp packet - snd (compress (m_vecChannelsOut r !! m_nChannel packet) packet)) = sent_time r packet.
Proof.
  unfold sent_time, compress. destruct (m_vecChannelsOut r !! m_nChannel packet) as [l|]; cbn;
    [|by rewrite Z.sub_0_r]. unfold RTMP_PACKET_SIZE_LARGE.
  destruct (m_headerType packet =? 0); cbn; [by rewrite Z.sub_0_r|done].
Qed.

(** The bytes of a packet with the body [body]. *)
Definition packet_bytes (r : RTMP) (packet : RTMPPacket) (body : buf) : buf :=
  message (m_outChunkSize r) (sent_type r packet) (m_nChannel packet) (sent_time r packet)
    (m_packetType packet) (m_nInfoField2 packet) body.

Lemma sent_time_range r packet : is_u 32 (sent_time r packet).
Proof. rewrite <- sent_time_compress. by apply is_u_uwrap. Qed.

Lemma compress_type prev packet :
  fst (compress prev packet) = set_headerType (m_headerType (fst (compress prev packet))) packet.
Proof. unfold compress. destruct packet; repeat case_match; done. Qed.

Lemma compress_range prev packet :
  0 <= m_headerType packet <= 3 -> 0 <= m_headerType (fst (compress prev packet)) <= 3.
Proof.
  intros H. unfold compress. repeat case_match; simpl;
    unfold RTMP_PACKET_SIZE_SMALL, RTMP_PACKET_SIZE_MINIMUM; lia.
Qed.

Lemma packetSize_header_of fmt : 0 <= fmt <= 3 -> aget packetSize fmt = Some (header_of fmt).
Proof.
  intros H. assert (fmt = 0 \/ fmt = 1 \/ fmt = 2 \/ fmt = 3) as [-> | [-> | [-> | ->]]] by lia; done.
Qed.

Lemma header_size_range fmt ch t :
  0 <= fmt <= 3 -> 1 <= header_size (header_of fmt) (channel_size ch) t <= RTMP_MAX_HEADER_SIZE.
Proof.
  intros H. assert (0 <= channel_size ch <= 2) by (unfold channel_size; repeat case_match; lia).
  generalize dependent (channel_size ch). intros c Hc.
  assert (fmt = 0 \/ fmt = 1 \/ fmt = 2 \/ fmt = 3) as [-> | [-> | [-> | ->]]] by lia;
    unfold header_size, RTMP_MAX_HEADER_SIZE, header_of; simpl; repeat case_match; lia.
Qed.

Lemma grow_out_fields r ch :
  m_vecChannelsOut (grow_out r ch) = m_vecChannelsOut r /\ world (grow_out r ch) = world r /\
  m_outChunkSize (grow_out r ch) = m_outChunkSize r.
Proof. unfold grow_out. by case_match. Qed.

(** What [RTMP_SendPacket] needs of a packet that has a body, [body], which lies in the
    block [blk] behind [pre]. *)
Record sendable (r : RTMP) (packet : RTMPPacket) (blk : Z) (pre body post : buf) : Prop := {
  send_body : m_body packet = Some (mkPtr blk (zlen pre));
  send_block : heap (world r) !! blk = Some (pre ++ body ++ post);
  send_room : RTMP_MAX_HEADER_SIZE <= zlen pre;
  send_size : m_nBodySize packet = zlen body;
  send_int : zlen body < 2 ^ 31;
  send_fmt : 0 <= m_headerType packet <= 3;
  send_channel : 0 <= m_nChannel packet <= 65599;
  send_type : 0 <= m_packetType packet < 256;
  send_chunk : 0 < m_outChunkSize r
}.

(** What is left of the block the body lies in: the bytes before the chunks may have
    been overwritten, the body is still there when it was sent as one chunk. *)
Definition leftover (csz : Z) (pre body X : buf) : Prop :=
  zlen X = zlen pre + zlen body /\
  (zlen body <= csz -> exists hd, X = hd ++ body /\ zlen hd = zlen pre).

Section sending.
Context (close : RTMP -> outcome RTMP).

(** The header is written before the body, then the chunks are sent. *)
Lemma message_written r packet blk pre body post t :
  sendable r packet blk pre body post ->
  let fmt := m_headerType packet in
  let hs := header_size (header_of fmt) (channel_size (m_nChannel packet)) t in
  let bytes := message (m_outChunkSize r) fmt (m_nChannel packet) t (m_packetType packet)
                 (m_nInfoField2 packet) body in
  ready (world r) (zlen bytes) ->
  exists w X,
    (let! w := mem_update (world r) (Some (ptr_add (mkPtr blk (zlen pre)) (- hs))) hs
                 (fun w => put_header w packet (header_of fmt) t) in
     send_loop close (Z.to_nat (m_nBodySize packet) + 2) packet
       (Some (ptr_add (mkPtr blk (zlen pre)) (- hs))) (m_body packet) hs
       (s32 (m_nBodySize packet)) (m_outChunkSize r) (set_world w r)) = Done (true, set_world w r) /\
    took (set_heap (<[blk := X ++ post]> (heap (world r))) (world r)) bytes w /\
    leftover (m_outChunkSize r) pre body X.
Proof.
  intros [Hbody Hblock Hroom Hsize Hint Hfmt Hch Htype Hchunk] fmt hs bytes Hready.
  rewrite Hbody. pose proof (header_size_range fmt (m_nChannel packet) t Hfmt) as Hhs. fold hs in Hhs.
  destruct (split_tail pre hs) as (pre0 & hold & -> & Hpre0 & Hhold); [lia|].
  unfold ptr_add. cbn [p_blk p_off].
  pose (hdr := basic_header fmt (m_nChannel packet) ++
    message_header fmt t (zlen body) (m_packetType packet) (m_nInfoField2 packet)).
  assert (zlen hdr = hs) as Hhdr.
  { unfold hdr, hs. rewrite zlen_app, zlen_basic_header.
    pose proof (zlen_message_header fmt t (zlen body) (m_packetType packet) (m_nInfoField2 packet) Hfmt) as H.
    unfold header_size in *. lia. }
  rewrite (mem_update_at _ blk pre0 hold hdr (body ++ post));
    [|by rewrite Hblock, <- app_assoc|lia|done| |lia].
  2: { rewrite (put_header_writes hold packet fmt (m_nChannel packet) t); try done; [|fold hs; lia].
       fold hs. rewrite Hsize. fold hdr. rewrite drop_ge by (unfold zlen in *; lia). by rewrite app_nil_r. }
  cbv beta iota. set (h := <[blk:=pre0 ++ hdr ++ body ++ post]> (heap (world r))).
  assert (bytes = hdr ++ chunked (m_outChunkSize r) (basic_header 3 (m_nChannel packet)) body) as Eb
    by (unfold hdr; by rewrite <- app_assoc).
  rewrite Eb in *. rewrite zlen_app in *.
  destruct (send_loop_writes close packet blk (m_outChunkSize r) post Hfmt Hch Hchunk
      (Z.to_nat (m_nBodySize packet) + 2) pre0 hdr body (set_world (set_heap h (world r)) r))
    as (w & X & E & Ht & HX & Hl).
  { apply lookup_insert_eq. }
  { unfold hdr. rewrite zlen_app, !zlen_basic_header.
    pose proof (zlen_nonneg (message_header fmt t (zlen body) (m_packetType packet) (m_nInfoField2 packet))).
    pose proof (zlen_nonneg pre0). lia. }
  { lia. }
  { pose proof (zlen_nonneg body). lia. }
  { rewrite zlen_app. exact Hready. }
  exists w, X. split; [|split].
  - rewrite Hhdr in E. rewrite Hsize, s32_small by (split; [apply zlen_nonneg|done]).
    rewrite Hsize in E. rewrite !zlen_app in *.
    replace (zlen pre0 + zlen hold + - hs) with (zlen pre0) by lia.
    replace (zlen pre0 + zlen hold) with (zlen pre0 + zlen hdr) by lia. exact E.
  - simpl in Ht. unfold h in Ht. by rewrite insert_insert_eq in Ht.
  - split; [rewrite HX, !zlen_app; lia|]. intros Hb. exists (pre0 ++ hdr).
    rewrite (Hl Hb), <- app_assoc, !zlen_app. split; [done|lia].
Qed.

Lemma sendable_compressed r packet blk pre body post :
  sendable r packet blk pre body post ->
  sendable (set_world (world r) (grow_out r (m_nChannel packet)))
    (set_headerType (sent_type r packet) packet) blk pre body post.
Proof.
  intros [Hbody Hblock Hroom Hsize Hint Hfmt Hch Htype Hchunk].
  destruct (grow_out_fields r (m_nChannel packet)) as (Hg1 & Hg2 & Hg3).
  constructor; try done; [|simpl; by rewrite Hg3].
  cbn. rewrite <- sent_type_compress by done. by apply compress_range.
Qed.

(** All of [RTMP_SendPacket]; for an invocation it reads the body again. *)
Lemma SendPacket_writes r packet queue blk pre body post :
  sendable r packet blk pre body post ->
  ready (world r) (zlen (packet_bytes r packet body)) ->
  let packet' := set_headerType (sent_type r packet) packet in
  exists w X,
    RTMP_SendPacket_with close r packet queue =
      (let! r' := queue_call (set_world w (grow_out r (m_nChannel packet))) packet' queue in
       Done (true, packet', set_vecChannelsOut (<[m_nChannel packet := packet']> (m_vecChannelsOut r')) r')) /\
    took (set_heap (<[blk := X ++ post]> (heap (world r))) (world r)) (packet_bytes r packet body) w /\
    leftover (m_outChunkSize r) pre body X.
Proof.
  intros Hs Hr packet'. pose proof (sendable_compressed _ _ _ _ _ _ Hs) as Hs'. fold packet' in Hs'.
  destruct (grow_out_fields r (m_nChannel packet)) as (Hg1 & Hg2 & Hg3).
  destruct (message_written _ packet' blk pre body post (sent_time r packet) Hs') as (w & X & E & Ht & Hl).
  { cbn [world set_world m_outChunkSize]. rewrite Hg3. exact Hr. }
  cbn [m_outChunkSize set_world world] in Ht, Hl. rewrite Hg3 in Ht, Hl.
  exists w, X. split; [|done]. unfold RTMP_SendPacket_with.
  pose proof (send_channel _ _ _ _ _ _ Hs). rewrite (proj2 (Z.ltb_ge _ _)) by lia. rewrite Hg1.
  pose proof (compress_type (m_vecChannelsOut r !! m_nChannel packet) packet) as Ecomp.
  rewrite sent_type_compress in Ecomp by apply Hs. fold packet' in Ecomp. rewrite <- sent_time_compress in E.
  destruct (compress (m_vecChannelsOut r !! m_nChannel packet) packet) as [p last].
  cbn [fst snd] in Ecomp, E. subst p.
  pose proof (send_fmt _ _ _ _ _ _ Hs') as Hfmt'.
  rewrite (proj2 (Z.ltb_ge 3 _)), packetSize_header_of by lia. cbn [lift].
  pose proof (send_body _ _ _ _ _ _ Hs') as Hbody. rewrite Hbody in *.
  change (m_outChunkSize (set_world ?w ?r)) with (m_outChunkSize r) in E |- *.
  change (world (set_world ?w ?r)) with w in E |- *. rewrite Hg2 in *. cbv beta iota.
  change (m_nChannel packet') with (m_nChannel packet) in *.
  change (m_nTimeStamp packet') with (m_nTimeStamp packet) in *.
  destruct (mem_update _ _ _ _) as [w0| |]; [|done..]. cbv beta iota in E |- *.
  change (set_world w0 (set_world (world r) ?r)) with (set_world w0 r) in *. rewrite E.
  done.
Qed.
End sending.

(** The call, and what it leaves. *)
Lemma send_packet_writes r packet queue blk pre body post :
  sendable r packet blk pre body post -> m_packetType packet <> RTMP_PACKET_TYPE_INVOKE ->
  ready (world r) (zlen (packet_bytes r packet body)) ->
  exists r', RTMP_SendPacket r packet queue =
      Done (true, set_headerType (sent_type r packet) packet, r') /\
    sent (world r') = sent (world r) ++ packet_bytes r packet body /\
    m_vecChannelsOut r' =
      <[m_nChannel packet := set_headerType (sent_type r packet) packet]> (m_vecChannelsOut r) /\
    forall b, b <> blk -> heap (world r') !! b = heap (world r) !! b.
Proof.
  intros Hs Ht Hr.
  destruct (SendPacket_writes RTMP_Close r packet queue blk pre body post Hs Hr)
    as (w & X & E & (evs & -> & _) & _).
  destruct (grow_out_fields r (m_nChannel packet)) as (Hg1 & _).
  unfold RTMP_SendPacket. rewrite E. unfold queue_call.
  change (m_packetType (set_headerType ?v packet)) with (m_packetType packet).
  rewrite (proj2 (Z.eqb_neq _ _)) by done. eexists. split; [done|]. simpl. rewrite Hg1.
  split_and!; [done..|]. intros b Hb. by rewrite lookup_insert_ne.
Qed.

(** C20: sending a packet that is not an invocation, on a channel up to 65599 and over
    a socket that takes the bytes in pieces of any size, succeeds; what goes out is
    the encoding of the message in chunks: the shortest basic header for the channel,
    the message header, the extended time stamp, and the body in chunks.  The header is of the type
    the packet asks for; when that is 1, size and type of the message are left out too if they are
    those of the last packet of the channel, and then, or when it is 2, the time stamp is
    left out too if it is that of the last packet.  The time stamp is written in full in a header of type 0 or on a
    new channel, else as the difference from the last one.  The packet is remembered for
    its channel, and memory other than that of the body is left alone. *)
Theorem rtmp_send_writes r packet queue blk pre body post :
  sendable r packet blk pre body post -> m_packetType packet <> RTMP_PACKET_TYPE_INVOKE ->
  ready (world r) (zlen (packet_bytes r packet body)) ->
  exists r', RTMP_SendPacket r packet queue =
      Done (true, set_headerType (sent_type r packet) packet, r') /\
    sent (world r') = sent (world r) ++ packet_bytes r packet body /\
    m_vecChannelsOut r' =
      <[m_nChannel packet := set_headerType (sent_type r packet) packet]> (m_vecChannelsOut r) /\
    forall b, b <> blk -> heap (world r') !! b = heap (world r) !! b.
Proof. apply send_packet_writes. Qed.

(** ** Bodies *)

Lemma emits_put_byte v : emits 0 (put_byte v) [u8 v].
Proof. exact (emits_byte v). Qed.

(** One writer after the other; the room the first one asks for is there when the second
    one needs it. *)
Lemma enc_seq_emits j k f g bs1 bs2 :
  emits j f bs1 -> emits k g bs2 -> 0 <= k -> j <= zlen bs2 + k -> emits k (enc_seq f g) (bs1 ++ bs2).
Proof.
  intros Hf Hg Hk Hjk w room Hr Hw. rewrite zlen_app in *. unfold enc_seq. rewrite Hf by lia. cbv beta iota.
  pose proof (zlen_nonneg bs1). pose proof (zlen_nonneg bs2).
  rewrite (enc_then_emits k g bs2); [|done|done|lia|rewrite zlen_drop; lia].
  by rewrite drop_drop_zlen, zlen_app, app_assoc.
Qed.

(** What the body of an invocation starts with. *)
Definition call_bytes (method : AVal) (txn : Z) : buf :=
  enc_string method ++ (AMF_NUMBER :: double_bytes txn) ++ [AMF_NULL].

Lemma enc_call_emits method txn : wf_str method = true -> emits 0 (enc_call method txn) (call_bytes method txn).
Proof.
  intros H. apply (enc_seq_emits 2); [by apply emits_string| |done..].
  apply (enc_seq_emits 0); [apply emits_number|apply emits_put_byte|done..].
Qed.

(** A string, which is written when there is room for it and five more bytes. *)
Lemma enc_seq_string f bs v old room :
  emits 0 f bs -> wf_str v = true -> zlen old = room -> zlen bs <= room < 65536 ->
  exists n new, enc_seq f (fun w room => AMF_EncodeString w room v) old room = Some (n, new) /\
    zlen new = room /\ match n with
                       | Some k => zlen bs <= k <= room /\ new = (bs ++ enc_string v) ++ drop (Z.to_nat k) old /\
                                   k = zlen (bs ++ enc_string v)
                       | None => room - zlen bs < 5 + av_len v
                       end.
Proof.
  intros Hf Hv Ho Hr. pose proof (zlen_nonneg bs). unfold enc_seq. rewrite Hf by lia. cbv beta iota.
  set (w := drop (Z.to_nat (zlen bs)) old).
  assert (zlen w = room - zlen bs) as Hw by (unfold w; rewrite zlen_drop; lia).
  assert (0 <= av_len v) by (unfold wf_str in Hv; lia).
  destruct (Z.leb_spec (5 + av_len v) (room - zlen bs)).
  - assert (zlen (enc_string v) = 3 + av_len v) as Hl.
    { unfold enc_string. rewrite (proj2 (Z.ltb_lt _ _)) by lia. rewrite zlen_app, chars_zlen by done.
      rewrite zlen_cons, zlen_be16. lia. }
    rewrite (enc_then_emits 2 _ (enc_string v)); [|by apply emits_string|done|lia|lia].
    do 2 eexists. split; [done|]. unfold w. rewrite drop_drop_zlen, app_assoc.
    rewrite zlen_app, zlen_drop; rewrite !zlen_app; [|lia]. split; [lia|]. split; [lia|done].
  - unfold enc_then. rewrite at_off_app. unfold AMF_EncodeString.
    rewrite (proj2 (Z.ltb_lt _ (1 + 4 + _))), orb_true_r by lia. cbv beta iota.
    do 2 eexists. split; [done|]. rewrite zlen_app. split; lia.
Qed.

(** *** An example: a packet of two chunks. *)

Definition example_body : buf := replicate 130 7.

Definition example_packet : RTMPPacket :=
  mkPacket RTMP_PACKET_SIZE_MEDIUM RTMP_PACKET_TYPE_AUDIO false 4 1000 0 130 0 None (Some (mkPtr 0 18)).

Definition example_sender : RTMP :=
  RTMP_Init (mkWorld [] (replicate 150 (Sent 50)) [] false {[0 := replicate 18 0 ++ example_body]} 1 ∅).

Lemma example_sendable : sendable example_sender example_packet 0 (replicate 18 0) example_body [].
Proof. by constructor. Qed.

Lemma rtmp_send_writes_witness : exists r',
  RTMP_SendPacket example_sender example_packet false = Done (true, example_packet, r') /\
  sent (world r') = [0x44; 0; 3; 232; 0; 0; 130; 8] ++ replicate 128 7 ++ [0xc4; 7; 7].
Proof.
  destruct (rtmp_send_writes example_sender example_packet false 0 (replicate 18 0) example_body [])
    as (r' & E & Hs & _); [apply example_sendable|by intros [=]|by vm_compute|].
  exists r'. split; [exact E|]. rewrite Hs. by vm_compute.
Defined.
