(* ===== verification/RtmpRead.v ===== *)
(** RTMP sessions: the reading of chunks and messages; the model of the receiving half
    of src/protocol/rtmp/rtmpdump-master/librtmp/rtmp.c on a plain connection. *)

From stdpp Require Import base list option numbers strings gmap.
From S2P Require Import Prelude CMem TypeDefs Amf RtmpTypes Rtmp.

Local Open Scope Z_scope.
Open Scope c_scope.

(** ** Bytes from the socket *)

(** The report of the bytes read so far. *)
Definition SendBytesReceived (r : RTMP) : outcome (bool * RTMP) :=
  let! (ok, r) := send_stack RTMP_Close (set_nBytesInSent (m_nBytesIn r) r) 256 false
    (fun _ => stack_packet 0x02 RTMP_PACKET_SIZE_MEDIUM RTMP_PACKET_TYPE_BYTES_READ_REPORT 0 0 4)
    (fun w room => AMF_EncodeInt32 w room (m_nBytesIn r)) false in
  Done (ok, r).

Definition report_due (r : RTMP) : outcome bool :=
  if m_bSendCounter r then
    let! limit := int_add (m_nBytesInSent r) (Z.quot (m_nClientBW r) 10) in
    Done (limit <? m_nBytesIn r)
  else Done false.

(** Where [ReadN] puts the bytes: an array of the caller, which sees them as the
    result, or the memory at a pointer. *)
Inductive dest := Local | At (p : option ptr).

Definition put_dest (w : World) (d : dest) (off : Z) (vs : buf) : outcome World :=
  match d with
  | Local => Done w
  | At p => mem_write_opt w (match p with Some p => Some (ptr_add p off) | None => None end) vs
  end.

(** [m_sb] after [n] of its bytes were taken. *)
Definition sb_advance (n : Z) (s : RTMPSockBuf) : RTMPSockBuf :=
  mkSockBuf (sb_socket s) (sb_start s + n) (drop (Z.to_nat n) (sb_data s)) (sb_timedout s).

(** [acc] holds the bytes read so far; every turn reads at least one. *)
Fixpoint read_loop (fuel : nat) (d : dest) (n : Z) (acc : buf) (r : RTMP)
  : outcome (Z * buf * RTMP) :=
  if n <=? 0 then Done (zlen acc, acc, r) else
  match fuel with
  | O => Unfinished
  | S fuel =>
      let! (filled, r) :=
        (if zlen (sb_data (m_sb r)) =? 0 then
           let! (ret, sb, w) := RTMPSockBuf_Fill (m_sb r) (world r) in
           Done (1 <=? ret, set_world w (set_sb sb r))
         else Done (true, r)) in
      if negb filled then
        if sb_timedout (m_sb r) then Done (0, acc, r) else
        let! r := RTMP_Close r in
        Done (0, acc, r)
      else
        let nRead := Z.min n (zlen (sb_data (m_sb r))) in
        if nRead <=? 0 then
          let! r := RTMP_Close r in
          Done (zlen acc, acc, r)
        else
          let data := take (Z.to_nat nRead) (sb_data (m_sb r)) in
          let! w := put_dest (world r) d (zlen acc) data in
          let! nBytesIn := int_add (m_nBytesIn r) nRead in
          let acc := acc ++ data in
          let r := set_nBytesIn nBytesIn (set_sb (sb_advance nRead (m_sb r)) (set_world w r)) in
          let! due := report_due r in
          if due then
            let! (ok, r) := SendBytesReceived r in
            if ok then read_loop fuel d (n - nRead) acc r else Done (0, acc, r)
          else read_loop fuel d (n - nRead) acc r
  end.

(** The number of bytes that were read, and the bytes. *)
Definition ReadN (r : RTMP) (d : dest) (n : Z) : outcome (Z * buf * RTMP) :=
  let r := set_sb (set_sb_timedout false (m_sb r)) r in
  read_loop (Z.to_nat n) d n [] r.

(** ** Chunks

    The functions of this part follow [RTMP_ReadPacket] step by step; [hbuf] holds the
    bytes of the header read so far.  [None] in a result stands for the early return
    of [FALSE], which leaves the packet as it is then. *)

(** The number of the channel, whose smallest values say how long it is. *)
Definition read_channel (r : RTMP) (packet : RTMPPacket) (b0 : Z)
  : outcome (bool * buf * RTMPPacket * RTMP) :=
  let packet := set_nChannel (Z.land b0 0x3f) (set_headerType (Z.shiftr (Z.land b0 0xc0) 6) packet) in
  if m_nChannel packet =? 0 then
    let! (n, bs, r) := ReadN r Local 1 in
    if negb (n =? 1) then Done (false, [b0], packet, r) else
    let! b1 := lift (rd bs 0) in
    Done (true, [b0; b1], set_nChannel (b1 + 64) packet, r)
  else if m_nChannel packet =? 1 then
    let! (n, bs, r) := ReadN r Local 2 in
    if negb (n =? 2) then Done (false, [b0], packet, r) else
    let! b1 := lift (rd bs 0) in
    let! b2 := lift (rd bs 1) in
    Done (true, [b0; b1; b2], set_nChannel (Z.shiftl b2 8 + b1 + 64) packet, r)
  else Done (true, [b0], packet, r).

(** Room for the channel in the arrays; the new slots hold no packet and the time
    stamp 0. *)
Definition grow_in (r : RTMP) (nChannel : Z) : RTMP :=
  if m_channelsAllocatedIn r <=? nChannel then set_channelsAllocatedIn (nChannel + 10) r else r.

(** A full header has an absolute time stamp; another one continues the last packet of
    the channel. *)
Definition inherit (r : RTMP) (packet : RTMPPacket) (nSize : Z) : RTMPPacket :=
  if nSize =? RTMP_LARGE_HEADER_SIZE then set_hasAbsTimestamp true packet
  else if nSize <? RTMP_LARGE_HEADER_SIZE then
    match m_vecChannelsIn r !! m_nChannel packet with Some prev => prev | None => packet end
  else packet.

(** The fields of the message header, of which [nSize] bytes were read. *)
Definition parse_header (w : World) (packet : RTMPPacket) (header : buf) (nSize : Z)
  : outcome (RTMPPacket * World) :=
  if 3 <=? nSize then
    let! ts := AMF_DecodeInt24 header 0 in
    let packet := set_nTimeStamp ts packet in
    if 6 <=? nSize then
      let! size := AMF_DecodeInt24 header 3 in
      let! (packet, w) := RTMPPacket_Free w (set_nBytesRead 0 (set_nBodySize size packet)) in
      if 6 <? nSize then
        let! type := lift (rd header 6) in
        let packet := set_packetType type packet in
        if nSize =? 11 then
          let! info := DecodeInt32LE header 7 in
          Done (set_nInfoField2 info packet, w)
        else Done (packet, w)
      else Done (packet, w)
    else Done (packet, w)
  else Done (packet, w).

(** The extended time stamp behind the header. *)
Definition read_extended (r : RTMP) (packet : RTMPPacket) (nSize : Z)
  : outcome (bool * buf * RTMPPacket * RTMP) :=
  if (3 <=? nSize) && (m_nTimeStamp packet =? 0xffffff) then
    let! (n, bs, r) := ReadN r Local 4 in
    if negb (n =? 4) then Done (false, [], packet, r) else
    let! ts := AMF_DecodeInt32 bs 0 in
    Done (true, bs, set_nTimeStamp (u32 ts) packet, r)
  else Done (true, [], packet, r).

(** What the caller that wants the raw chunk gets. *)
Definition raw_chunk (w : World) (packet : RTMPPacket) (hbuf : buf) (nChunk : Z) : outcome World :=
  match m_chunk packet with
  | None => Done w
  | Some c =>
      let! chunk := lift (chunks w !! c) in
      let! header := lift (wrn (c_header chunk) 0 hbuf) in
      let data := match m_body packet with
                  | Some p => Some (ptr_add p (m_nBytesRead packet)) | None => None end in
      Done (set_chunks (<[c := mkChunk (zlen hbuf) nChunk data header]> (chunks w)) w)
  end.

(** The end of [RTMP_ReadPacket]: the packet is kept for the next chunk of the channel,
    or is complete. *)
Definition finish_packet (r : RTMP) (packet : RTMPPacket) : RTMPPacket * RTMP :=
  let ch := m_nChannel packet in
  if RTMPPacket_IsReady packet then
    let last := default 0 (m_channelTimestamp r !! ch) in
    let ts := if m_hasAbsTimestamp packet then m_nTimeStamp packet
              else u32 (m_nTimeStamp packet + last) in
    (set_nTimeStamp ts packet,
     set_vecChannelsIn
       (<[ch := set_hasAbsTimestamp false (set_nBytesRead 0 (set_body None packet))]> (m_vecChannelsIn r))
       (set_channelTimestamp (<[ch := s32 ts]> (m_channelTimestamp r)) r))
  else
    (set_body None packet, set_vecChannelsIn (<[ch := packet]> (m_vecChannelsIn r)) r).

(** The data of the chunk; the header type is the one of this chunk when the body was
    allocated for it. *)
Definition read_body (r : RTMP) (packet : RTMPPacket) (hbuf : buf) (b0 : Z)
  : outcome (bool * RTMPPacket * RTMP) :=
  let! (packet, w) :=
    (if (0 <? m_nBodySize packet) && negb (bool_decide (is_Some (m_body packet))) then
       let! (packet, w) := lift (RTMPPacket_Alloc (world r) packet (m_nBodySize packet)) in
       Done (set_headerType (Z.shiftr (Z.land b0 0xc0) 6) packet, w)
     else Done (packet, world r)) in
  let nToRead := s32 (m_nBodySize packet - m_nBytesRead packet) in
  let nChunk := if nToRead <? m_inChunkSize r then nToRead else m_inChunkSize r in
  let! w := raw_chunk w packet hbuf nChunk in
  let data := match m_body packet with
              | Some p => Some (ptr_add p (m_nBytesRead packet)) | None => None end in
  let! (n, _, r) := ReadN (set_world w r) (At data) nChunk in
  if negb (n =? nChunk) then Done (false, packet, r) else
  let packet := set_nBytesRead (u32 (m_nBytesRead packet + nChunk)) packet in
  let (packet, r) := finish_packet r packet in
  Done (true, packet, r).

(** The message header and what is behind it, [hbuf] holding the basic header. *)
Definition read_message (r : RTMP) (packet : RTMPPacket) (hbuf : buf) (b0 : Z)
  : outcome (bool * RTMPPacket * RTMP) :=
  let! nSize := lift (aget packetSize (m_headerType packet)) in
  let r := grow_in r (m_nChannel packet) in
  let packet := inherit r packet nSize in
  let nSize := nSize - 1 in
  let! (n, header, r) :=
    (if 0 <? nSize then ReadN r Local nSize else Done (nSize, [], r)) in
  if negb (n =? nSize) then Done (false, packet, r) else
  let! (packet, w) := parse_header (world r) packet header nSize in
  let! (ok, ext, packet, r) := read_extended (set_world w r) packet nSize in
  if negb ok then Done (false, packet, r) else
  read_body r packet (hbuf ++ header ++ ext) b0.

Definition RTMP_ReadPacket (r : RTMP) (packet : RTMPPacket) : outcome (bool * RTMPPacket * RTMP) :=
  let! (n, bs, r) := ReadN r Local 1 in
  if n =? 0 then Done (false, packet, r) else
  let! b0 := lift (rd bs 0) in
  let! (ok, hbuf, packet, r) := read_channel r packet b0 in
  if negb ok then Done (false, packet, r) else
  read_message r packet hbuf b0.
