(* ===== verification/RtmpRoundTrip.v ===== *)
(** RTMP chunk streams: the receiver reads back what the sender wrote, whatever the
    pieces in which the bytes arrive. *)

From stdpp Require Import base list option numbers strings gmap.
From S2P Require Import Prelude CMem TypeDefs Amf AmfSpec AmfRoundTrip RtmpTypes Rtmp RtmpSpec RtmpRead.

Local Open Scope Z_scope.
Open Scope c_scope.

(** ** Bytes that will arrive *)

(** The bytes up to the end of the stream or the first failure. *)
Fixpoint arriving (ctrlC : bool) (evs : list recv_event) : buf :=
  match evs with
  | Received [] :: _ => []
  | Received bs :: evs => bs ++ arriving ctrlC evs
  | RecvInterrupted :: evs => if ctrlC then [] else arriving ctrlC evs
  | _ => []
  end.

Definition pending (r : RTMP) : buf :=
  sb_data (m_sb r) ++ arriving (RTMP_ctrlC (world r)) (recvs (world r)).

(** [n] more bytes neither make a report of the bytes read due nor overflow the
    counter. *)
Definition quiet (r : RTMP) (n : Z) : Prop :=
  0 <= m_nBytesIn r /\ m_nBytesIn r + n < 2 ^ 31 /\
  (m_bSendCounter r = false \/
   m_nBytesIn r + n <= m_nBytesInSent r + Z.quot (m_nClientBW r) 10 < 2 ^ 31).

(** [r'] is [r] after [n] bytes were read, with the memory [h]. *)
Definition after (r : RTMP) (n : Z) (h : gmap Z buf) (sb : RTMPSockBuf) (evs : list recv_event) : RTMP :=
  set_nBytesIn (m_nBytesIn r + n) (set_sb sb (set_world (set_heap h (set_recvs evs (world r))) r)).

Lemma quiet_after r n h sb evs m : 0 <= n -> quiet r (n + m) -> quiet (after r n h sb evs) m.
Proof. unfold quiet, after. simpl. intros Hn (H1 & H2 & H3). split_and!; [lia..|]. destruct H3; [by left|right; lia]. Qed.

Lemma quiet_sub r n m : m <= n -> quiet r n -> quiet r m.
Proof. unfold quiet. intros H (H1 & H2 & H3). split_and!; [lia..|]. destruct H3; [by left|right; lia]. Qed.

(** ** Filling the socket buffer *)

Lemma recv_loop_arriving cap ctrlC evs :
  0 < cap -> arriving ctrlC evs <> [] ->
  exists data evs', recv_loop cap evs ctrlC = Done (zlen data, data, false, evs') /\
    1 <= zlen data /\ arriving ctrlC evs = data ++ arriving ctrlC evs'.
Proof.
  intros Hc. induction evs as [|[bs| | |] evs IH]; simpl; try done.
  - destruct bs as [|x bs]; [done|]. intros _. set (l := x :: bs).
    exists (take (Z.to_nat cap) l). eexists. split; [done|]. split.
    { rewrite zlen_take_min by lia. unfold l. rewrite zlen_cons. pose proof (zlen_nonneg bs). lia. }
    change (match l with [] => [] | _ => l ++ arriving ctrlC evs end) with (l ++ arriving ctrlC evs).
    rewrite <- (take_drop (Z.to_nat cap) l) at 1. rewrite <- app_assoc. f_equal.
    by destruct (drop (Z.to_nat cap) l).
  - by destruct ctrlC.
Qed.

Lemma Fill_pending r :
  sb_data (m_sb r) = [] -> pending r <> [] ->
  exists n sb w, RTMPSockBuf_Fill (m_sb r) (world r) = Done (n, sb, w) /\ 1 <= n /\
    1 <= zlen (sb_data sb) /\ sb_socket sb = sb_socket (m_sb r) /\
    (exists evs, w = set_recvs evs (world r)) /\
    sb_data sb ++ arriving (RTMP_ctrlC w) (recvs w) = pending r.
Proof.
  unfold pending. intros Hd Hp. rewrite Hd in *. simpl in Hp. unfold RTMPSockBuf_Fill. rewrite Hd.
  change (zlen (@nil Z)) with 0. simpl Z.eqb. cbv iota.
  destruct (recv_loop_arriving (RTMP_BUFFER_CACHE_SIZE - 1 - 0 - 0) (RTMP_ctrlC (world r))
    (recvs (world r)) ltac:(done) Hp) as (data & evs & -> & Hn & E).
  cbv beta iota. do 3 eexists. split; [done|]. simpl. split_and!; try done; try (by exists evs); by rewrite E.
Qed.

(** ** Where the bytes go *)

Lemma wrn_inv b i vs b2 :
  wrn b i vs = Some b2 -> vs <> [] ->
  exists pre old post, b = pre ++ old ++ post /\ zlen pre = i /\ zlen old = zlen vs /\
    b2 = pre ++ vs ++ post.
Proof.
  unfold wrn. intros H Hv. destruct (Z.leb_spec 0 i) as [Hi|]; [|done].
  destruct (Nat.eqb_spec (length (take (length vs) (drop (Z.to_nat i) b))) (length vs)) as [Hl|];
    [|done].
  injection H as <-. destruct vs as [|x vs]; [done|].
  rewrite length_take, length_drop in Hl. simpl length in Hl.
  exists (take (Z.to_nat i) b), (take (S (length vs)) (drop (Z.to_nat i) b)),
    (drop (S (length vs)) (drop (Z.to_nat i) b)).
  rewrite !take_drop. unfold zlen. rewrite !length_take, length_drop. simpl length.
  split_and!; [done|lia|lia|done].
Qed.

Lemma wrn_nil b i : 0 <= i -> wrn b i [] = Some b.
Proof.
  intros H. unfold wrn. rewrite (proj2 (Z.leb_le _ _)) by done.
  change (length (@nil Z)) with 0%nat. rewrite take_0, drop_0. simpl. by rewrite take_drop.
Qed.

Lemma wrn_split b i a c b2 :
  wrn b i (a ++ c) = Some b2 ->
  exists b1, wrn b i a = Some b1 /\ wrn b1 (i + zlen a) c = Some b2.
Proof.
  intros H. assert (0 <= i) as Hi by (unfold wrn in H; destruct (Z.leb_spec 0 i); [done|done]).
  destruct a as [|x a].
  { exists b. rewrite wrn_nil, zlen_nil, Z.add_0_r by done. done. }
  apply wrn_inv in H as (pre & old & post & -> & <- & Hl & ->); [|done].
  set (a' := x :: a) in *. rewrite zlen_app in Hl.
  destruct (split_tail old (zlen c)) as (o1 & o2 & -> & Ho1 & Ho2).
  { pose proof (zlen_nonneg c). pose proof (zlen_nonneg a'). lia. }
  exists (pre ++ a' ++ o2 ++ post). rewrite <- !app_assoc. split; [apply wrn_app; lia|].
  rewrite (app_assoc pre a'), <- zlen_app, wrn_app, <- app_assoc by lia. done.
Qed.

Lemma put_dest_split w d off a c w2 :
  put_dest w d off (a ++ c) = Done w2 ->
  exists w1, put_dest w d off a = Done w1 /\ put_dest w1 d (off + zlen a) c = Done w2.
Proof.
  destruct d as [|[p|]]; simpl; [by eauto| |].
  - unfold mem_write, ptr_add. simpl. destruct (heap w !! p_blk p) as [b|] eqn:Eb; [|done].
    destruct (wrn b (p_off p + off) (a ++ c)) as [b2|] eqn:E; [|done]. intros [= <-].
    apply wrn_split in E as (b1 & E1 & E2). rewrite E1. eexists. split; [done|].
    simpl. rewrite lookup_insert_eq. rewrite Z.add_assoc, E2. simpl. unfold set_heap. simpl.
    by rewrite insert_insert_eq.
  - destruct a; [|done]. destruct c; [|done]. simpl. intros [= <-]. eauto.
Qed.

Lemma put_dest_recvs w d off vs evs w1 :
  put_dest w d off vs = Done w1 ->
  put_dest (set_recvs evs w) d off vs = Done (set_recvs evs w1) /\ w1 = set_heap (heap w1) w.
Proof.
  destruct d as [|[p|]]; simpl.
  - intros [= <-]. split; [done|by destruct w].
  - unfold mem_write. simpl. destruct (heap w !! p_blk p) as [b|]; [|done].
    destruct (wrn _ _ _) as [b1|]; [|done]. intros [= <-]. by split.
  - destruct vs; [|done]. intros [= <-]. split; [done|by destruct w].
Qed.

(** ** Reading *)

Lemma report_not_due r n : 0 <= n -> quiet r n -> report_due (set_nBytesIn (m_nBytesIn r + n) r) = Done false.
Proof.
  intros Hn (H0 & H1 & [H | H]); unfold report_due; simpl; [by rewrite H|].
  destruct (m_bSendCounter r); [|done]. unfold int_add.
  rewrite (proj2 (Z.leb_le _ _)), (proj2 (Z.ltb_lt _ (2 ^ 31))) by lia. cbv beta iota delta [andb].
  by rewrite (proj2 (Z.ltb_ge _ _)) by lia.
Qed.

Lemma after_zero r : after r 0 (heap (world r)) (m_sb r) (recvs (world r)) = r.
Proof.
  unfold after. rewrite Z.add_0_r. destruct r as [? ? ? ? ? ? ? ? ? ? ? ? ? ? ? ? ? ? ? ? ? ? ? ? ? ? ? ? w].
  by destruct w.
Qed.

Lemma after_after r n h sb evs m h' sb' evs' :
  after (after r n h sb evs) m h' sb' evs' = after r (n + m) h' sb' evs'.
Proof. unfold after. simpl. by rewrite Z.add_assoc. Qed.

(** One turn of the loop, when there is something in the socket buffer. *)
Lemma read_turn fuel d n acc r w1 k :
  0 < n -> 0 < k -> k = Z.min n (zlen (sb_data (m_sb r))) -> quiet r k ->
  put_dest (world r) d (zlen acc) (take (Z.to_nat k) (sb_data (m_sb r))) = Done w1 ->
  read_loop (S fuel) d n acc r =
    read_loop fuel d (n - k) (acc ++ take (Z.to_nat k) (sb_data (m_sb r)))
      (after r k (heap w1) (sb_advance k (m_sb r)) (recvs (world r))).
Proof.
  intros Hn Hk Ek Hq Hd. cbn [read_loop]. rewrite (proj2 (Z.leb_gt _ _)) by lia.
  rewrite (proj2 (Z.eqb_neq (zlen _) 0)) by lia. cbv beta iota. simpl negb. cbv iota.
  rewrite <- Ek. rewrite (proj2 (Z.leb_gt _ _)), Hd by lia.
  pose proof Hq as (H0 & H1 & _). unfold int_add.
  rewrite (proj2 (Z.leb_le _ _)), (proj2 (Z.ltb_lt _ (2 ^ 31))) by lia. cbv beta iota delta [andb].
  assert (w1 = set_heap (heap w1) (set_recvs (recvs (world r)) (world r))) as Ew1.
  { destruct (put_dest_recvs _ _ _ _ (recvs (world r)) _ Hd) as [_ E]. rewrite E at 1.
    by destruct (world r). }
  replace (set_nBytesIn (m_nBytesIn r + k) (set_sb (sb_advance k (m_sb r)) (set_world w1 r)))
    with (after r k (heap w1) (sb_advance k (m_sb r)) (recvs (world r)))
    by (unfold after; by rewrite <- Ew1).
  assert (report_due (after r k (heap w1) (sb_advance k (m_sb r)) (recvs (world r))) = Done false) as ->.
  { apply (report_not_due (set_sb (sb_advance k (m_sb r)) (set_world w1 r)) k); [lia|exact Hq]. }
  done.
Qed.

(** An empty socket buffer is filled first. *)
Lemma read_fill fuel d n acc r :
  0 < n -> sb_data (m_sb r) = [] -> pending r <> [] ->
  exists sb evs, let r1 := after r 0 (heap (world r)) sb evs in
    read_loop (S fuel) d n acc r = read_loop (S fuel) d n acc r1 /\
    1 <= zlen (sb_data sb) /\ sb_socket sb = sb_socket (m_sb r) /\ pending r1 = pending r.
Proof.
  intros Hn Hd Hp. destruct (Fill_pending r Hd Hp) as (m & sb & w & E & Hm & Hl & Hs & [evs ->] & Hpd).
  exists sb, evs. split_and!; [|done|done|done]. cbn [read_loop]. rewrite (proj2 (Z.leb_gt n 0)) by lia.
  rewrite Hd. change (zlen (@nil Z) =? 0) with true. cbv iota. rewrite E. cbv beta iota.
  rewrite (proj2 (Z.leb_le 1 m)) by lia.
  change (m_sb (after r 0 (heap (world r)) sb evs)) with sb.
  rewrite (proj2 (Z.eqb_neq (zlen (sb_data sb)) 0)) by lia. cbv beta iota.
  replace (after r 0 (heap (world r)) sb evs) with (set_world (set_recvs evs (world r)) (set_sb sb r));
    [done|].
  unfold after. rewrite Z.add_0_r. by destruct r as [? ? ? ? ? ? ? ? ? ? ? ? ? ? ? ? ? ? ? ? ? ? ? ? ? ? ? ? []].
Qed.

Lemma take_at {A} (a b : list A) n : zlen a = n -> take (Z.to_nat n) (a ++ b) = a.
Proof. intros <-. unfold zlen. by rewrite Nat2Z.id, take_app_length. Qed.

Lemma put_dest_nil w d off w1 : put_dest w d off [] = Done w1 -> w1 = w.
Proof.
  destruct d as [|[p|]]; simpl; [by intros [= <-]| |by intros [= <-]].
  unfold mem_write. destruct (heap w !! _) as [b|] eqn:Eb; [|done]. simpl.
  destruct (Z.leb_spec 0 (p_off p + off)).
  - rewrite wrn_nil by done. intros [= <-]. rewrite insert_id by done. apply set_heap_same.
  - unfold wrn. by rewrite (proj2 (Z.leb_gt _ _)) by lia.
Qed.

Lemma take_split {A} (l : list A) k n :
  0 <= k <= n ->
  take (Z.to_nat n) l = take (Z.to_nat k) l ++ take (Z.to_nat (n - k)) (drop (Z.to_nat k) l).
Proof.
  intros H. replace (Z.to_nat n) with (Z.to_nat k + Z.to_nat (n - k))%nat by lia.
  by rewrite take_take_drop.
Qed.

Lemma drop_split {A} (l : list A) k n :
  0 <= k <= n -> drop (Z.to_nat n) l = drop (Z.to_nat (n - k)) (drop (Z.to_nat k) l).
Proof. intros H. rewrite drop_drop. f_equal. lia. Qed.

Lemma read_loop_ok d fuel : forall n acc r w1,
  0 <= n <= zlen (pending r) -> n <= Z.of_nat fuel -> quiet r n ->
  put_dest (world r) d (zlen acc) (take (Z.to_nat n) (pending r)) = Done w1 ->
  exists sb evs, let r' := after r n (heap w1) sb evs in
    read_loop fuel d n acc r = Done (zlen acc + n, acc ++ take (Z.to_nat n) (pending r), r') /\
    sb_socket sb = sb_socket (m_sb r) /\ pending r' = drop (Z.to_nat n) (pending r).
Proof.
  assert (forall f acc r w1,
    put_dest (world r) d (zlen acc) (take (Z.to_nat 0) (pending r)) = Done w1 ->
    exists sb evs, let r' := after r 0 (heap w1) sb evs in
    read_loop f d 0 acc r = Done (zlen acc + 0, acc ++ take (Z.to_nat 0) (pending r), r') /\
    sb_socket sb = sb_socket (m_sb r) /\ pending r' = drop (Z.to_nat 0) (pending r)) as Hzero.
  { intros f acc r w1 Hd. apply put_dest_nil in Hd as ->. exists (m_sb r), (recvs (world r)).
    rewrite after_zero, take_0, app_nil_r, drop_0, Z.add_0_r. by destruct f. }
  induction fuel as [|fuel IH]; intros n acc r w1 Hn Hf Hq Hd;
    destruct (Z.eqb_spec n 0) as [-> | Hn0]; [by apply Hzero|lia|by apply Hzero|].
  assert (exists sb0 evs0, let r0 := after r 0 (heap (world r)) sb0 evs0 in
    read_loop (S fuel) d n acc r = read_loop (S fuel) d n acc r0 /\
    1 <= zlen (sb_data sb0) /\ sb_socket sb0 = sb_socket (m_sb r) /\ pending r0 = pending r)
    as (sb0 & evs0 & -> & Hl0 & Hs0 & Hp0).
  { destruct (sb_data (m_sb r)) as [|x l] eqn:E.
    - apply read_fill; [lia|done|]. intros E'. rewrite E' in Hn. change (zlen (@nil Z)) with 0 in Hn. lia.
    - exists (m_sb r), (recvs (world r)). rewrite after_zero, E, zlen_cons.
      pose proof (zlen_nonneg l). split_and!; try done; lia. }
  set (k := Z.min n (zlen (sb_data sb0))). assert (0 < k <= n) as Hk by lia.
  set (r0 := after r 0 (heap (world r)) sb0 evs0) in *. rewrite <- Hp0 in *.
  assert (take (Z.to_nat k) (pending r0) = take (Z.to_nat k) (sb_data sb0)) as Htake.
  { change (pending r0) with (sb_data sb0 ++ arriving (RTMP_ctrlC (world r)) evs0).
    apply take_app_le. unfold zlen in *. lia. }
  rewrite (take_split _ k n) in Hd |- * by lia. rewrite Htake in *.
  apply put_dest_split in Hd as (w2 & Hd1 & Hd2).
  destruct (put_dest_recvs _ _ _ _ evs0 _ Hd1) as [Hd1' Ew2].
  assert (set_recvs evs0 (world r) = world r0) as Er0 by (unfold r0; simpl; by destruct (world r)).
  rewrite Er0 in Hd1'.
  assert (quiet r0 n) as Hq0 by (apply quiet_after; [lia|exact Hq]).
  rewrite (read_turn fuel d n acc r0 (set_recvs evs0 w2) k);
    [|lia..|done|by apply (quiet_sub _ n); [lia|]|exact Hd1'].
  change (sb_data (m_sb r0)) with (sb_data sb0).
  set (r1 := after r0 k (heap (set_recvs evs0 w2)) (sb_advance k (m_sb r0)) (recvs (world r0))).
  assert (pending r1 = drop (Z.to_nat k) (pending r0)) as Hp1.
  { change (pending r1) with (drop (Z.to_nat k) (sb_data sb0) ++ arriving (RTMP_ctrlC (world r)) evs0).
    symmetry. apply drop_app_le. unfold zlen in *. lia. }
  assert (world r1 = set_recvs evs0 w2) as Er1.
  { unfold r1, r0, after. simpl. rewrite Ew2. simpl. by destruct (world r). }
  destruct (put_dest_recvs _ _ _ _ evs0 _ Hd2) as [Hd2' _]. rewrite <- Er1, <- zlen_app, <- Hp1 in Hd2'.
  destruct (IH (n - k) (acc ++ take (Z.to_nat k) (sb_data sb0)) r1 (set_recvs evs0 w1)) with (4 := Hd2')
    as (sb & evs & -> & Hs & Hp).
  { rewrite Hp1, zlen_drop; lia. }
  { lia. }
  { apply quiet_after; [lia|]. by replace (k + (n - k)) with n by lia. }
  change (heap (set_recvs evs0 w1)) with (heap w1) in *.
  assert (after r1 (n - k) (heap w1) sb evs = after r n (heap w1) sb evs) as Er
    by (unfold r1, r0; rewrite !after_after; f_equal; lia).
  exists sb, evs. rewrite Er in *. split_and!; [|by rewrite Hs|by rewrite Hp, Hp1, <- drop_split by lia].
  f_equal. f_equal. f_equal; [|by rewrite <- app_assoc, Hp1].
  rewrite zlen_app, zlen_take by lia. lia.
Qed.

Lemma ReadN_ok r d n w1 :
  0 <= n <= zlen (pending r) -> quiet r n ->
  put_dest (world r) d 0 (take (Z.to_nat n) (pending r)) = Done w1 ->
  exists sb evs, let r' := after r n (heap w1) sb evs in
    ReadN r d n = Done (n, take (Z.to_nat n) (pending r), r') /\
    sb_socket sb = sb_socket (m_sb r) /\ pending r' = drop (Z.to_nat n) (pending r).
Proof.
  intros Hn Hq Hd. unfold ReadN. set (r0 := set_sb (set_sb_timedout false (m_sb r)) r).
  destruct (read_loop_ok d (Z.to_nat n) n [] r0 w1) as (sb & evs & E & Hs & Hp); [done|lia|done|done|].
  exists sb, evs. by rewrite E.
Qed.

(** [r'] is [r] after the bytes [a] were read, the memory being [h] then. *)
Definition reads (r : RTMP) (a : buf) (h : gmap Z buf) (r' : RTMP) : Prop :=
  exists sb evs, r' = after r (zlen a) h sb evs /\ sb_socket sb = sb_socket (m_sb r) /\
    pending r = a ++ pending r'.

Lemma reads_trans r a h r1 b h' r2 : reads r a h r1 -> reads r1 b h' r2 -> reads r (a ++ b) h' r2.
Proof.
  intros (sb & evs & -> & Hs & Hp) (sb' & evs' & -> & Hs' & Hp'). exists sb', evs'.
  rewrite after_after, zlen_app. rewrite after_after in Hp'. rewrite <- app_assoc, <- Hp'.
  by rewrite Hs', Hp.
Qed.

Lemma reads_quiet r a h r1 n : reads r a h r1 -> quiet r (zlen a + n) -> quiet r1 n.
Proof. intros (sb & evs & -> & _). apply quiet_after. apply zlen_nonneg. Qed.

Lemma reads_nil r : reads r [] (heap (world r)) r.
Proof. exists (m_sb r), (recvs (world r)). by rewrite after_zero. Qed.

Lemma reads_heap r a h r1 : reads r a h r1 -> heap (world r1) = h.
Proof. by intros (sb & evs & -> & _). Qed.

(** Reading to an array of the caller. *)
Lemma ReadN_local r a rest :
  pending r = a ++ rest -> quiet r (zlen a) ->
  exists r', ReadN r Local (zlen a) = Done (zlen a, a, r') /\
    reads r a (heap (world r)) r' /\ pending r' = rest.
Proof.
  intros Hp Hq. destruct (ReadN_ok r Local (zlen a) (world r)) as (sb & evs & E & Hs & Hp').
  { rewrite Hp, zlen_app. pose proof (zlen_nonneg a). pose proof (zlen_nonneg rest). lia. }
  { done. }
  { done. }
  rewrite Hp in E, Hp'. rewrite drop_at in Hp' by done. rewrite take_at in E by done.
  eexists. split; [exact E|]. split; [|done]. exists sb, evs. split; [done|]. split; [done|].
  by rewrite Hp, Hp'.
Qed.

(** ** The fields of the headers *)

Lemma DecodeInt24_at pre post n :
  is_u 24 n -> AMF_DecodeInt24 (pre ++ be24 n ++ post) (zlen pre) = Done n.
Proof.
  intros Hn. unfold AMF_DecodeInt24. rd_at. unfold be24. buf_eval. simpl. f_equal. bits 24.
Qed.

Lemma swrap_id w n : 0 < w -> - 2 ^ (w - 1) <= n < 2 ^ (w - 1) -> swrap w n = n.
Proof.
  intros Hw Hn. destruct (Z.ltb_spec n 0); [|apply swrap_small; [done|split; lia]].
  assert (2 ^ w = 2 * 2 ^ (w - 1)) as E.
  { rewrite <- Z.pow_succ_r by lia. f_equal. lia. }
  unfold swrap, uwrap. rewrite <- (Z_mod_plus_full n 1), Z.mod_small by lia.
  destruct (Z.ltb_spec (n + 1 * 2 ^ w) (2 ^ (w - 1))); lia.
Qed.

Lemma DecodeInt32LE_at pre post n :
  - 2 ^ 31 <= n < 2 ^ 31 -> DecodeInt32LE (pre ++ le32 n ++ post) (zlen pre) = Done n.
Proof.
  intros Hn. unfold DecodeInt32LE. rd_at. unfold le32. buf_eval. simpl lift. f_equal.
  match goal with |- swrap 32 ?v = _ => replace v with (u32 n) by bits 32 end.
  unfold swrap at 1. rewrite uwrap_uwrap by lia. fold (s32 n). by apply swrap_id.
Qed.

(** The packet with the fields that the header of type [fmt] holds. *)
Definition with_header (fmt t size type info : Z) (p : RTMPPacket) : RTMPPacket :=
  let p := if fmt <? 3 then set_nTimeStamp t p else p in
  let p := if fmt <? 2 then set_packetType type (set_nBytesRead 0 (set_nBodySize size p)) else p in
  if fmt <? 1 then set_nInfoField2 info p else p.

(** The part of the header before the extended time stamp. *)
Definition short_header (fmt t size type info : Z) : buf :=
  when (fmt <? 3) (be24 (Z.min t 0xffffff)) ++
  when (fmt <? 2) (be24 size) ++ when (fmt <? 2) [type] ++ when (fmt <? 1) (le32 info).

Lemma message_header_split fmt t size type info :
  message_header fmt t size type info =
    short_header fmt t size type info ++ when ((fmt <? 3) && (0xffffff <=? t)) (be32 t).
Proof. unfold message_header, short_header. by rewrite <- !app_assoc. Qed.

Lemma zlen_short_header fmt t size type info :
  0 <= fmt <= 3 -> zlen (short_header fmt t size type info) = header_of fmt - 1.
Proof.
  intros H. by assert (fmt = 0 \/ fmt = 1 \/ fmt = 2 \/ fmt = 3) as [-> | [-> | [-> | ->]]] by lia.
Qed.

Section fields.
Context (t size type info : Z) (post : buf).
Context (Ht : is_u 24 t) (Hs : is_u 24 size) (Hi : - 2 ^ 31 <= info < 2 ^ 31).

Lemma field_time : AMF_DecodeInt24 (be24 t ++ post) 0 = Done t.
Proof. exact (DecodeInt24_at [] post t Ht). Qed.
Lemma field_size : AMF_DecodeInt24 (be24 t ++ be24 size ++ post) 3 = Done size.
Proof. exact (DecodeInt24_at (be24 t) post size Hs). Qed.
Lemma field_type : rd (be24 t ++ be24 size ++ [type] ++ post) 6 = Some type.
Proof. done. Qed.
Lemma field_info : DecodeInt32LE (be24 t ++ be24 size ++ [type] ++ le32 info) 7 = Done info.
Proof. exact (DecodeInt32LE_at (be24 t ++ be24 size ++ [type]) [] info Hi). Qed.
End fields.

Lemma parse_header_reads w fmt t size type info p :
  0 <= fmt <= 3 -> is_u 32 t -> is_u 24 size -> - 2 ^ 31 <= info < 2 ^ 31 ->
  (m_body p = None \/ 2 <= fmt) ->
  parse_header w p (short_header fmt t size type info) (header_of fmt - 1) =
    Done (with_header fmt (Z.min t 0xffffff) size type info p, w).
Proof.
  intros Hf Ht Hs Hi Hb. assert (is_u 24 (Z.min t 0xffffff)) as Ht' by (destruct Ht; split; lia).
  assert (m_body p = None -> forall p', m_body p' = m_body p -> RTMPPacket_Free w p' = Done (p', w)) as Hfree.
  { intros H p' H'. unfold RTMPPacket_Free. by rewrite H', H. }
  assert (fmt = 0 \/ fmt = 1 \/ fmt = 2 \/ fmt = 3) as [-> | [-> | [-> | ->]]] by lia;
    unfold parse_header, with_header, short_header, when; ztests; rewrite ?field_time, ?field_size by done; cbv beta iota; [| |done|done];
    destruct Hb as [Hb|]; [|lia| |lia]; rewrite (Hfree Hb) by done; cbv beta iota.
  - rewrite field_type, field_info by done. done.
  - done.
Qed.

Lemma with_header_time fmt t size type info p :
  (if fmt <? 3 then set_nTimeStamp t (with_header fmt (Z.min t 0xffffff) size type info p)
   else with_header fmt (Z.min t 0xffffff) size type info p) = with_header fmt t size type info p.
Proof.
  unfold with_header. destruct (Z.ltb_spec fmt 3), (Z.ltb_spec fmt 2), (Z.ltb_spec fmt 1); try lia; done.
Qed.

Lemma with_header_stamp fmt t size type info p :
  fmt < 3 -> m_nTimeStamp (with_header fmt t size type info p) = t.
Proof. intros H. unfold with_header. rewrite (proj2 (Z.ltb_lt fmt 3)) by done. by repeat case_match. Qed.

Lemma header_of_3 fmt : 0 <= fmt <= 3 -> (3 <=? header_of fmt - 1) = (fmt <? 3).
Proof.
  intros H. by assert (fmt = 0 \/ fmt = 1 \/ fmt = 2 \/ fmt = 3) as [-> | [-> | [-> | ->]]] by lia.
Qed.

Lemma read_extended_reads r fmt t size type info p rest :
  let bs := when ((fmt <? 3) && (0xffffff <=? t)) (be32 t) in
  0 <= fmt <= 3 -> is_u 32 t -> pending r = bs ++ rest -> quiet r (zlen bs) ->
  exists r', read_extended r (with_header fmt (Z.min t 0xffffff) size type info p) (header_of fmt - 1) =
      Done (true, bs, with_header fmt t size type info p, r') /\
    reads r bs (heap (world r)) r' /\ pending r' = rest.
Proof.
  intros bs Hf Ht Hp Hq. unfold read_extended. rewrite header_of_3 by done.
  pose proof (with_header_time fmt t size type info p) as Et.
  destruct (Z.ltb_spec fmt 3) as [Hlt|Hge].
  - rewrite with_header_stamp by done. cbn [andb] in *. destruct (Z.leb_spec 0xffffff t) as [Hle|Hgt].
    + rewrite Z.min_r, Z.eqb_refl by done. destruct (ReadN_local r bs rest Hp Hq) as (r' & E & Hr & Hp').
      change (zlen bs) with 4 in E. rewrite E. simpl negb. cbv beta iota.
      pose proof (DecodeInt32_at [] [] t Ht) as E'. rewrite app_nil_r in E'.
      change (AMF_DecodeInt32 bs 0 = Done t) in E'. rewrite E', (uwrap_id 32) by done. cbv beta iota.
      exists r'. split; [|done]. rewrite Z.min_r in Et by done. by rewrite Et.
    + rewrite Z.min_l in * by lia. rewrite (proj2 (Z.eqb_neq _ _)) by lia.
      exists r. split; [done|]. split; [apply reads_nil|done].
  - cbn [andb] in *. rewrite Et. exists r. split; [done|]. split; [apply reads_nil|done].
Qed.

(** ** The basic header *)

Lemma fmt_low fmt low :
  0 <= fmt <= 3 -> 0 <= low < 64 ->
  Z.land (fmt * 64 + low) 0x3f = low /\ Z.shiftr (Z.land (fmt * 64 + low) 0xc0) 6 = fmt.
Proof.
  intros Hf Hl. split.
  - change 0x3f with (Z.ones 6). rewrite Z.land_ones by lia. change (2 ^ 6) with 64.
    rewrite Z.add_comm, Z_mod_plus_full. apply Z.mod_small. lia.
  - rewrite Z.shiftr_land. change (Z.shiftr 0xc0 6) with (Z.ones 2). rewrite Z.land_ones by lia.
    rewrite Z.shiftr_div_pow2 by lia. change (2 ^ 6) with 64. rewrite Z.div_add_l by lia.
    rewrite (Z.div_small low), Z.add_0_r by lia. apply Z.mod_small. change (2 ^ 2) with 4. lia.
Qed.

Definition low_bits (ch : Z) : Z := if 319 <? ch then 1 else if 63 <? ch then 0 else ch.

Lemma read_channel_reads r p fmt ch rest :
  0 <= fmt <= 3 -> 2 <= ch <= 65599 -> pending r = chan_bytes ch ++ rest ->
  quiet r (zlen (chan_bytes ch)) ->
  exists r', read_channel r p (fmt * 64 + low_bits ch) =
      Done (true, basic_header fmt ch, set_nChannel ch (set_headerType fmt p), r') /\
    reads r (chan_bytes ch) (heap (world r)) r' /\ pending r' = rest.
Proof.
  intros Hf Hc Hp Hq.
  assert (0 <= low_bits ch < 64) as Hlow by (unfold low_bits; repeat case_match; lia).
  destruct (fmt_low fmt (low_bits ch) Hf Hlow) as [E1 E2]. unfold read_channel. rewrite E1, E2.
  cbn [m_nChannel set_nChannel]. unfold basic_header. fold (low_bits ch).
  pose proof (ReadN_local r (chan_bytes ch) rest Hp Hq) as (r' & E & Hr & Hp').
  unfold low_bits, chan_bytes in *.
  destruct (Z.ltb_spec 319 ch); [|destruct (Z.ltb_spec 63 ch)].
  - ztests. change (zlen [_; _]) with 2 in E. rewrite E. cbv beta iota. ztests.
    simpl lift. cbv beta iota. exists r'. split; [|done].
    rewrite Z.shiftl_mul_pow2 by lia. change (2 ^ 8) with 256.
    pose proof (Z.div_mod (ch - 64) 256 ltac:(lia)).
    by replace ((ch - 64) / 256 * 256 + (ch - 64) mod 256 + 64) with ch by lia.
  - ztests. change (zlen [_]) with 1 in E. rewrite E. cbv beta iota. ztests.
    simpl lift. cbv beta iota. exists r'. split; [|done]. by replace (ch - 64 + 64) with ch by lia.
  - rewrite (proj2 (Z.eqb_neq ch 0)), (proj2 (Z.eqb_neq ch 1)) by lia.
    exists r. split; [done|]. split; [apply reads_nil|done].
Qed.

Lemma ReadPacket_basic r p fmt ch rest :
  0 <= fmt <= 3 -> 2 <= ch <= 65599 -> pending r = basic_header fmt ch ++ rest ->
  quiet r (zlen (basic_header fmt ch)) ->
  exists r' b0, RTMP_ReadPacket r p =
      read_message r' (set_nChannel ch (set_headerType fmt p)) (basic_header fmt ch) b0 /\
    Z.shiftr (Z.land b0 0xc0) 6 = fmt /\
    reads r (basic_header fmt ch) (heap (world r)) r' /\ pending r' = rest.
Proof.
  intros Hf Hc Hp Hq. unfold basic_header in Hp, Hq. fold (low_bits ch) in Hp, Hq.
  set (b0 := fmt * 64 + low_bits ch) in *. rewrite zlen_cons in Hq.
  assert (0 <= low_bits ch < 64) as Hlow by (unfold low_bits; repeat case_match; lia).
  destruct (ReadN_local r [b0] (chan_bytes ch ++ rest) Hp) as (r1 & E1 & H1 & Hp1).
  { eapply quiet_sub; [|exact Hq]. change (zlen [b0]) with 1. pose proof (zlen_nonneg (chan_bytes ch)). lia. }
  change (zlen [b0]) with 1 in E1.
  destruct (read_channel_reads r1 p fmt ch rest Hf Hc Hp1) as (r2 & E2 & H2 & Hp2).
  { eapply reads_quiet; [exact H1|]. exact Hq. }
  exists r2, b0. split; [|split; [by apply fmt_low|split; [|done]]].
  - unfold RTMP_ReadPacket. rewrite E1. cbv beta iota. ztests. simpl lift. cbv beta iota.
    fold b0 in E2. by rewrite E2.
  - rewrite (reads_heap _ _ _ _ H1) in H2. exact (reads_trans _ _ _ _ _ _ _ H1 H2).
Qed.

(** ** Reading a chunk *)

(** [r'] is a later state of [r], [a] being the bytes that were read in between; the
    memory and the channels are told separately. *)
Record progress (r : RTMP) (a : buf) (r' : RTMP) : Prop := {
  pr_pending : pending r = a ++ pending r';
  pr_read : m_nBytesIn r' = m_nBytesIn r + zlen a;
  pr_chunk : m_inChunkSize r' = m_inChunkSize r;
  pr_counter : m_bSendCounter r' = m_bSendCounter r;
  pr_report : m_nBytesInSent r' = m_nBytesInSent r;
  pr_bandwidth : m_nClientBW r' = m_nClientBW r;
  pr_socket : sb_socket (m_sb r') = sb_socket (m_sb r)
}.

Lemma progress_trans r a r1 b r2 : progress r a r1 -> progress r1 b r2 -> progress r (a ++ b) r2.
Proof.
  intros [] []. constructor; try congruence.
  - rewrite <- app_assoc. congruence.
  - rewrite zlen_app. lia.
Qed.

Lemma progress_nil r r' : progress r [] r' -> forall a r2, progress r' a r2 -> progress r a r2.
Proof. intros H a r2 H'. exact (progress_trans _ _ _ _ _ H H'). Qed.

Lemma progress_quiet r a r' n : progress r a r' -> quiet r (zlen a + n) -> quiet r' n.
Proof.
  intros [] (H1 & H2 & H3). unfold quiet. rewrite pr_read0, pr_counter0, pr_report0, pr_bandwidth0.
  pose proof (zlen_nonneg a). split_and!; [lia..|]. destruct H3; [by left|right; lia].
Qed.

Lemma reads_progress r a h r' : reads r a h r' -> progress r a r'.
Proof. intros (sb & evs & -> & Hs & Hp). by constructor. Qed.

Lemma reads_fields r a h r' : reads r a h r' ->
  m_vecChannelsIn r' = m_vecChannelsIn r /\ m_channelTimestamp r' = m_channelTimestamp r /\
  next_blk (world r') = next_blk (world r) /\ m_channelsAllocatedIn r' = m_channelsAllocatedIn r /\
  heap (world r') = h.
Proof. by intros (sb & evs & -> & _). Qed.

Lemma grow_in_fields r ch :
  progress r [] (grow_in r ch) /\ m_vecChannelsIn (grow_in r ch) = m_vecChannelsIn r /\
  m_channelTimestamp (grow_in r ch) = m_channelTimestamp r /\ world (grow_in r ch) = world r.
Proof.
  unfold grow_in. case_match; (split; [|done]); constructor; try done; simpl; rewrite ?zlen_nil; lia.
Qed.

(** The header of a chunk: the fields it holds replace those of the packet it
    continues. *)
Lemma read_message_reads r p fmt ch t size type info rest hbuf b0 :
  let hdr := message_header fmt t size type info in
  let base := inherit (grow_in r ch) p (header_of fmt) in
  m_headerType p = fmt -> m_nChannel p = ch ->
  0 <= fmt <= 3 -> is_u 32 t -> is_u 24 size -> - 2 ^ 31 <= info < 2 ^ 31 ->
  (m_body base = None \/ 2 <= fmt) ->
  pending r = hdr ++ rest -> quiet r (zlen hdr) ->
  exists r', read_message r p hbuf b0 =
      read_body r' (with_header fmt t size type info base) (hbuf ++ hdr) b0 /\
    reads (grow_in r ch) hdr (heap (world r)) r' /\ pending r' = rest.
Proof.
  intros hdr base <- <- Hf Ht Hsz Hi Hb Hp Hq.
  destruct (grow_in_fields r (m_nChannel p)) as (Hg & _ & _ & Hgw).
  assert (quiet (grow_in r (m_nChannel p)) (zlen hdr)) as Hq' by exact (progress_quiet _ _ _ _ Hg Hq).
  rewrite (pr_pending _ _ _ Hg) in Hp. simpl in Hp. rewrite <- Hgw.
  unfold read_message. rewrite packetSize_header_of by done. cbn [lift]. fold base.
  set (r0 := grow_in r (m_nChannel p)) in *. unfold hdr in *. rewrite message_header_split in *.
  set (fmt := m_headerType p) in *. set (short := short_header fmt t size type info) in *.
  set (ext := when ((fmt <? 3) && (0xffffff <=? t)) (be32 t)) in *.
  rewrite <- app_assoc in Hp. rewrite zlen_app in Hq'. pose proof (zlen_nonneg ext).
  assert (zlen short = header_of fmt - 1) as Hl by (by apply zlen_short_header).
  assert (exists r1, (if 0 <? header_of fmt - 1 then ReadN r0 Local (header_of fmt - 1)
      else Done (header_of fmt - 1, [], r0)) = Done (header_of fmt - 1, short, r1) /\
      reads r0 short (heap (world r0)) r1 /\ pending r1 = ext ++ rest) as (r1 & -> & H1 & Hp1).
  { destruct (Z.ltb_spec 0 (header_of fmt - 1)).
    - rewrite <- Hl. apply ReadN_local; [done|]. eapply quiet_sub; [|exact Hq']. lia.
    - exists r0. assert (short = []) as E by (destruct short; [done|]; rewrite zlen_cons in Hl;
        pose proof (zlen_nonneg short); lia).
      rewrite E in *. split; [done|]. split; [apply reads_nil|done]. }
  rewrite Z.eqb_refl. simpl negb. cbv beta iota.
  unfold short at 1. rewrite parse_header_reads by done. cbv beta iota. rewrite set_world_same.
  destruct (read_extended_reads r1 fmt t size type info base rest Hf Ht Hp1) as (r2 & -> & H2 & Hp2).
  { eapply reads_quiet; [exact H1|exact Hq']. }
  cbv beta iota. simpl negb. cbv iota. exists r2. split; [done|]. split; [|done].
  rewrite (reads_heap _ _ _ _ H1) in H2. exact (reads_trans _ _ _ _ _ _ _ H1 H2).
Qed.

(** The body of a packet in memory: [got] was read so far, [tail] is to come. *)
Definition body_at (h : gmap Z buf) (p : RTMPPacket) (blk : Z) (got tail : buf) : Prop :=
  m_body p = Some (mkPtr blk RTMP_MAX_HEADER_SIZE) /\
  m_nBytesRead p = zlen got /\ m_nBodySize p = zlen got + zlen tail /\
  exists hd, zlen hd = RTMP_MAX_HEADER_SIZE /\ h !! blk = Some (hd ++ got ++ tail).

(** The next chunk of the body. *)
Lemma read_body_chunk r p blk got tail piece rest hbuf b0 :
  body_at (heap (world r)) p blk got tail -> m_chunk p = None ->
  zlen got + zlen tail < 2 ^ 31 -> 0 < m_inChunkSize r ->
  zlen piece = Z.min (m_inChunkSize r) (zlen tail) ->
  pending r = piece ++ rest -> quiet r (zlen piece) ->
  exists r' h, let p' := set_nBytesRead (zlen got + zlen piece) p in
    read_body r p hbuf b0 =
      (let (p', r') := finish_packet r' p' in Done (true, p', r')) /\
    reads r piece h r' /\
    body_at h p' blk (got ++ piece) (drop (Z.to_nat (zlen piece)) tail) /\
    (forall b, b <> blk -> h !! b = heap (world r) !! b).
Proof.
  intros (Hb & Hread & Hsize & hd & Hhd & Hh) Hc Hmax Hcsz Hpiece Hp Hq.
  pose proof (zlen_nonneg got). pose proof (zlen_nonneg tail). pose proof (zlen_nonneg rest).
  unfold read_body. rewrite Hb, bool_decide_eq_true_2 by eauto. rewrite andb_false_r. cbv beta iota.
  rewrite Hsize, Hread. replace (zlen got + zlen tail - zlen got) with (zlen tail) by lia.
  rewrite s32_small by lia. unfold raw_chunk. rewrite Hc. cbv beta iota. rewrite set_world_same.
  replace (if zlen tail <? m_inChunkSize r then zlen tail else m_inChunkSize r) with (zlen piece)
    by (rewrite Hpiece; case_match eqn:E; [apply Z.ltb_lt in E|apply Z.ltb_ge in E]; lia).
  rewrite Hb. change (ptr_add (mkPtr blk RTMP_MAX_HEADER_SIZE) (zlen got))
    with (mkPtr blk (RTMP_MAX_HEADER_SIZE + zlen got)).
  destruct (ReadN_ok r (At (Some (mkPtr blk (RTMP_MAX_HEADER_SIZE + zlen got)))) (zlen piece)
    (set_heap (<[blk := (hd ++ got) ++ piece ++ drop (Z.to_nat (zlen piece)) tail]> (heap (world r))) (world r)))
    as (sb & evs & E & Hs & Hp').
  { rewrite Hp, zlen_app. pose proof (zlen_nonneg piece). lia. }
  { done. }
  { rewrite Hp, take_at by done. simpl. unfold ptr_add. cbn [p_blk p_off].
    apply (mem_write_at _ blk _ (take (Z.to_nat (zlen piece)) tail)).
    - rewrite take_drop, <- app_assoc. exact Hh.
    - rewrite zlen_app. lia.
    - rewrite zlen_take; pose proof (zlen_nonneg piece); lia. }
  rewrite Hp, drop_at in Hp' by done. cbn [heap set_heap] in E, Hp'.
  rewrite E. cbv beta iota. rewrite Z.eqb_refl. simpl negb. cbv iota.
  rewrite (uwrap_id 32) by (split; pose proof (zlen_nonneg piece); lia).
  do 2 eexists. split; [done|]. split; [|split].
  - exists sb, evs. split; [done|]. split; [done|]. by rewrite Hp, Hp'.
  - split; [done|]. split; [simpl; by rewrite zlen_app|]. split.
    + simpl. rewrite Hsize, zlen_app, zlen_drop by (pose proof (zlen_nonneg piece); lia). lia.
    + exists hd. split; [done|]. rewrite lookup_insert_eq. by rewrite <- !app_assoc.
  - intros b Hne. by rewrite lookup_insert_ne.
Qed.

(** ** Reading a message

    The chunks are read until the packet is complete, as the loops of the code do. *)

Fixpoint receive (n : nat) (r : RTMP) (p : RTMPPacket) : outcome (bool * RTMPPacket * RTMP) :=
  match n with
  | O => Unfinished
  | S n =>
      let! (ok, p, r) := RTMP_ReadPacket r p in
      if negb ok then Done (false, p, r)
      else if RTMPPacket_IsReady p then Done (true, p, r) else receive n r p
  end.

Definition receive_from (n : nat) (x : outcome (bool * RTMPPacket * RTMP)) : outcome (bool * RTMPPacket * RTMP) :=
  let! (ok, p, r) := x in
  if negb ok then Done (false, p, r)
  else if RTMPPacket_IsReady p then Done (true, p, r) else receive n r p.

(** [r'] is [r] after the message, apart from the slot [ch] of the channels. *)
Record same_but (ch blk : Z) (r r' : RTMP) : Prop := {
  sb_channels : forall c, c <> ch -> m_vecChannelsIn r' !! c = m_vecChannelsIn r !! c;
  sb_times : m_channelTimestamp r' = m_channelTimestamp r;
  sb_blocks : forall b, b <> blk -> heap (world r') !! b = heap (world r) !! b
}.

Lemma same_but_trans ch blk r1 r2 r3 : same_but ch blk r1 r2 -> same_but ch blk r2 r3 -> same_but ch blk r1 r3.
Proof.
  intros [] []. constructor; try congruence.
  - intros c Hc. rewrite sb_channels1, sb_channels0; done.
  - intros b Hb. rewrite sb_blocks1, sb_blocks0; done.
Qed.

Lemma reads_same r a h r' ch blk :
  reads r a h r' -> (forall b, b <> blk -> h !! b = heap (world r) !! b) -> same_but ch blk r r'.
Proof.
  intros H Hb. destruct (reads_fields _ _ _ _ H) as (E1 & E2 & E3 & _ & E4).
  constructor; [by rewrite E1|done|by rewrite E4].
Qed.

Lemma keep_progress r s : progress r [] (set_vecChannelsIn (<[m_nChannel s := s]> (m_vecChannelsIn r)) r).
Proof. constructor; try done. simpl. rewrite zlen_nil. lia. Qed.

Lemma keep_same ch blk r s : m_nChannel s = ch ->
  same_but ch blk r (set_vecChannelsIn (<[m_nChannel s := s]> (m_vecChannelsIn r)) r).
Proof. intros <-. constructor; try done. intros c Hc. simpl. by rewrite lookup_insert_ne. Qed.

Section body.
Context (ch blk csz : Z) (Hch : 2 <= ch <= 65599) (Hcsz : 0 < csz).
Abbreviation sep := (basic_header 3 ch).

Lemma finish_ready n r p : m_nBytesRead p = m_nBodySize p ->
  receive_from n (let (p, r) := finish_packet r p in Done (true, p, r)) =
    (let (p, r) := finish_packet r p in Done (true, p, r)).
Proof.
  intros E. unfold finish_packet, RTMPPacket_IsReady. rewrite E, Z.eqb_refl. unfold receive_from.
  unfold RTMPPacket_IsReady. cbn [m_nBytesRead m_nBodySize set_nTimeStamp]. by rewrite E, Z.eqb_refl.
Qed.

(** A packet that is not complete is kept for the next chunk. *)
Lemma finish_more n r p : m_nBytesRead p <> m_nBodySize p ->
  receive_from n (let (p, r) := finish_packet r p in Done (true, p, r)) =
    receive n (set_vecChannelsIn (<[m_nChannel p := p]> (m_vecChannelsIn r)) r) (set_body None p).
Proof.
  intros E. unfold finish_packet, RTMPPacket_IsReady. rewrite (proj2 (Z.eqb_neq _ _)) by done.
  unfold receive_from, RTMPPacket_IsReady. cbn [m_nBytesRead m_nBodySize set_body].
  by rewrite (proj2 (Z.eqb_neq _ _)) by done.
Qed.

(** The header of the next chunk: nothing but the channel. *)
Lemma receive_next n r p s rest :
  m_vecChannelsIn r !! ch = Some s -> pending r = sep ++ rest -> quiet r (zlen sep) ->
  exists r1 hbuf b0, receive (S n) r p = receive_from n (read_body r1 s hbuf b0) /\
    progress r sep r1 /\ pending r1 = rest /\ m_vecChannelsIn r1 = m_vecChannelsIn r /\
    (forall blk, same_but ch blk r r1) /\ heap (world r1) = heap (world r).
Proof.
  intros Hs Hp Hq.
  destruct (ReadPacket_basic r p 3 ch rest ltac:(lia) Hch Hp Hq) as (r1 & b0 & E1 & _ & H1 & Hp1).
  destruct (reads_fields _ _ _ _ H1) as (Hv1 & Ht1 & Hn1 & Ha1 & Hh1).
  destruct (grow_in_fields r1 ch) as (Hg & Hv2 & Ht2 & Hw2).
  set (p0 := set_nChannel ch (set_headerType 3 p)) in *.
  assert (inherit (grow_in r1 ch) p0 (header_of 3) = s) as Hinh.
  { unfold inherit. change (m_nChannel p0) with ch. rewrite Hv2, Hv1, Hs. done. }
  destruct (read_message_reads r1 p0 3 ch 0 0 0 0 rest sep b0) as (r2 & E2 & H2 & Hp2); try done.
  { right. lia. }
  { change (message_header 3 0 0 0 0) with (@nil Z). rewrite zlen_nil.
    eapply reads_quiet; [exact H1|]. by rewrite Z.add_0_r. }
  change (message_header 3 0 0 0 0) with (@nil Z) in *. rewrite Hinh in E2.
  change (with_header 3 0 0 0 0 s) with s in E2.
  exists r2, (sep ++ []), b0. cbn [receive]. rewrite E1, E2.
  destruct (reads_fields _ _ _ _ H2) as (Hv3 & Ht3 & Hn3 & _ & Hh3).
  split_and!; [done| |done|congruence| |congruence].
  - apply reads_progress in H1, H2.
    pose proof (progress_trans _ _ _ _ _ (progress_trans _ _ _ _ _ H1 Hg) H2) as H.
    by rewrite !app_nil_r in H.
  - intros b. constructor; congruence.
Qed.

Lemma receive_body n : forall r p got tail body rest hbuf b0,
  m_nChannel p = ch -> m_chunk p = None -> body_at (heap (world r)) p blk got tail ->
  zlen body = zlen tail -> zlen got + zlen tail < 2 ^ 31 -> zlen tail <= Z.of_nat n ->
  m_inChunkSize r = csz -> pending r = chunked csz sep body ++ rest ->
  quiet r (zlen (chunked csz sep body)) ->
  exists r1, let p1 := set_nBytesRead (m_nBodySize p) p in
    receive_from n (read_body r p hbuf b0) =
      (let (p', r') := finish_packet r1 p1 in Done (true, p', r')) /\
    progress r (chunked csz sep body) r1 /\ same_but ch blk r r1 /\
    body_at (heap (world r1)) p1 blk (got ++ body) [].
Proof.
  induction n as [|n IH]; intros r p got tail body rest hbuf b0 Hpch Hpc Hat Hbody Hmax Hn Hc Hp Hq;
    pose proof (zlen_nonneg tail); pose proof (zlen_nonneg got);
    destruct (Z.leb_spec (zlen body) csz) as [Hle|Hlt]; [| lia| |].
  1, 2: rewrite chunked_last in * by done;
    destruct (read_body_chunk r p blk got tail body rest hbuf b0 Hat Hpc) as (r1 & h & E & Hr & Hat' & Hb);
      try done; [lia|lia|]; exists r1; rewrite E; clear E;
    destruct (Hat) as (_ & _ & Hsz & _); rewrite Hbody in *; rewrite <- Hsz in *;
    split_and!; [by apply finish_ready|by apply (reads_progress _ _ h)|by apply (reads_same _ body h)|
      rewrite (reads_heap _ _ _ _ Hr); by rewrite drop_ge in Hat' by (unfold zlen in *; lia)].
  rewrite chunked_more in * by done. set (piece := take (Z.to_nat csz) body) in *.
  set (body' := drop (Z.to_nat csz) body) in *. rewrite <- !app_assoc in Hp.
  assert (zlen piece = csz) as Hpl by (unfold piece; rewrite zlen_take; lia).
  assert (zlen body' = zlen tail - csz) as Hb' by (unfold body'; rewrite zlen_drop; lia).
  rewrite !zlen_app in Hq. pose proof (zlen_nonneg sep). pose proof (zlen_nonneg (chunked csz sep body')).
  destruct (read_body_chunk r p blk got tail piece (sep ++ chunked csz sep body' ++ rest) hbuf b0 Hat Hpc)
    as (r1 & h & -> & Hr & Hat1 & Hb1);
    [done|lia|lia|exact Hp|by eapply quiet_sub; [|exact Hq]; lia|].
  destruct Hat as (_ & _ & Hsz & _). rewrite finish_more by (simpl; lia).
  set (s := set_nBytesRead (zlen got + zlen piece) p) in *.
  set (r1' := set_vecChannelsIn (<[m_nChannel s := s]> (m_vecChannelsIn r1)) r1).
  pose proof (reads_progress _ _ _ _ Hr) as Hpr.
  destruct (receive_next n r1' (set_body None s) s (chunked csz sep body' ++ rest))
    as (r2 & hbuf' & b0' & -> & Hpr2 & Hp2 & Hv2 & Hsame2 & Hh2).
  { simpl. by rewrite Hpch, lookup_insert_eq. }
  { change (pending r1') with (pending r1). apply (app_inv_head piece). rewrite <- Hp.
    symmetry. exact (pr_pending _ _ _ Hpr). }
  { apply (progress_quiet _ _ _ _ Hpr). eapply quiet_sub; [|exact Hq]. lia. }
  destruct (IH r2 s (got ++ piece) (drop (Z.to_nat (zlen piece)) tail) body' rest hbuf' b0')
    as (r3 & E & Hpr3 & Hsame3 & Hat3); try done.
  { rewrite Hh2. simpl. by rewrite (reads_heap _ _ _ _ Hr). }
  { rewrite zlen_drop; lia. }
  { rewrite zlen_app, zlen_drop; lia. }
  { rewrite zlen_drop; lia. }
  { rewrite (pr_chunk _ _ _ Hpr2). simpl. by rewrite (pr_chunk _ _ _ Hpr). }
  { apply (progress_quiet _ _ _ _ Hpr2). exact (progress_quiet _ _ _ _ Hpr Hq). }
  exists r3. split; [exact E|]. split; [|split].
  - eapply progress_trans; [exact Hpr|]. apply (progress_nil _ r1'); [apply keep_progress|].
    exact (progress_trans _ _ _ _ _ Hpr2 Hpr3).
  - eapply same_but_trans; [by eapply reads_same|]. eapply same_but_trans; [by apply (keep_same ch blk r1 s)|].
    eapply same_but_trans; [apply Hsame2|exact Hsame3].
  - replace (got ++ body) with ((got ++ piece) ++ body'); [exact Hat3|].
    rewrite <- app_assoc. unfold piece, body'. by rewrite take_drop.
Qed.
End body.

(** The body of the packet [p]. *)
Definition holds (w : World) (p : RTMPPacket) (body : buf) : Prop :=
  m_nBodySize p = zlen body /\
  match m_body p with
  | None => body = []
  | Some q => exists hd, heap w !! p_blk q = Some (hd ++ body) /\ zlen hd = p_off q
  end.

(** A body that is not empty is allocated with the first chunk. *)
Definition allocated (w : World) (p : RTMPPacket) (b0 : Z) : RTMPPacket :=
  set_headerType (Z.shiftr (Z.land b0 0xc0) 6)
    (set_nBytesRead 0 (set_body (Some (mkPtr (next_blk w) RTMP_MAX_HEADER_SIZE)) p)).

Lemma read_body_alloc r p hbuf b0 :
  m_body p = None -> 0 < m_nBodySize p ->
  let w := snd (fresh (world r) (m_nBodySize p + RTMP_MAX_HEADER_SIZE)) in
  read_body r p hbuf b0 = read_body (set_world w r) (allocated (world r) p b0) hbuf b0 /\
  body_at (heap w) (allocated (world r) p b0) (next_blk (world r)) []
    (replicate (Z.to_nat (m_nBodySize p)) 0) /\
  same_but (m_nChannel p) (next_blk (world r)) r (set_world w r) /\
  progress r [] (set_world w r).
Proof.
  intros Hb Hs w. unfold RTMP_MAX_HEADER_SIZE in *. split; [|split; [|split]].
  - unfold read_body at 1. rewrite (proj2 (Z.ltb_lt 0 _)), Hb, bool_decide_eq_false_2 by (done || by intros []).
    cbn [andb negb]. unfold RTMPPacket_Alloc, calloc, RTMP_MAX_HEADER_SIZE.
    rewrite (proj2 (Z.ltb_ge _ 0)) by lia. unfold fresh in *. cbv beta iota zeta. cbn [lift].
    unfold read_body. cbn [m_body allocated set_headerType set_nBytesRead set_body].
    rewrite bool_decide_eq_true_2 by eauto. cbn [negb]. rewrite andb_false_r. done.
  - split; [done|]. split; [done|]. split; [simpl; unfold zlen; rewrite length_replicate; simpl; lia|].
    exists (replicate 18 0). split; [done|]. simpl. rewrite lookup_insert_eq.
    replace (Z.to_nat (m_nBodySize p + 18)) with (18 + Z.to_nat (m_nBodySize p))%nat by lia. done.
  - constructor; try done. intros b Hne. simpl. by rewrite lookup_insert_ne.
  - constructor; try done. simpl. rewrite zlen_nil. lia.
Qed.

Lemma read_body_empty r p hbuf b0 :
  m_body p = None -> m_chunk p = None -> m_nBodySize p = 0 -> m_nBytesRead p = 0 ->
  0 < m_inChunkSize r -> quiet r 0 ->
  exists r1, read_body r p hbuf b0 =
      (let (p', r') := finish_packet r1 (set_nBytesRead 0 p) in Done (true, p', r')) /\
    reads r [] (heap (world r)) r1.
Proof.
  intros Hb Hc Hs Hr Hcs Hq. unfold read_body. rewrite Hs. ztests. cbv beta iota.
  unfold raw_chunk. rewrite Hb, Hc, Hr, Hs. change (s32 (0 - 0)) with 0.
  rewrite (proj2 (Z.ltb_lt 0 _)) by done. cbv beta iota.
  rewrite set_world_same.
  destruct (ReadN_ok r (At None) 0 (world r)) as (sb & evs & -> & Hsb & Hp); try done.
  { pose proof (zlen_nonneg (pending r)). lia. }
  cbv beta iota. ztests. eexists. split; [done|]. exists sb, evs. split; [done|]. split; [done|].
  by rewrite Hp.
Qed.

Section message.
Context (n : nat) (r : RTMP) (p : RTMPPacket) (fmt ch t type info : Z) (body rest : buf).
Abbreviation bytes := (message (m_inChunkSize r) fmt ch t type info body).
Abbreviation hdr := (message_header fmt t (zlen body) type info).
Abbreviation data := (chunked (m_inChunkSize r) (basic_header 3 ch) body).
Abbreviation base := (inherit r (set_nChannel ch (set_headerType fmt p)) (header_of fmt)).
Abbreviation P := (with_header fmt t (zlen body) type info base).
Context (Hf : 0 <= fmt <= 3) (Hch : 2 <= ch <= 65599) (Ht : is_u 32 t) (Hsz : zlen body < 2 ^ 24).
Context (Hi : - 2 ^ 31 <= info < 2 ^ 31) (Hcsz : 0 < m_inChunkSize r) (Hn : zlen body <= Z.of_nat n).
Context (Hbb : m_body base = None) (Hbc : m_chunk base = None) (Hbch : m_nChannel base = ch).
Context (HPs : m_nBodySize P = zlen body) (HPr : m_nBytesRead P = 0).
Context (Hp : pending r = bytes ++ rest) (Hq : quiet r (zlen bytes)).

(** The headers. *)
Lemma receive_header :
  exists r2 hbuf b0, receive (S n) r p = receive_from n (read_body r2 P hbuf b0) /\
    progress r (basic_header fmt ch ++ hdr) r2 /\ (forall blk, same_but ch blk r r2) /\
    next_blk (world r2) = next_blk (world r) /\ pending r2 = data ++ rest.
Proof.
  unfold message in Hp, Hq. rewrite <- !app_assoc in Hp. rewrite !zlen_app in Hq.
  pose proof (zlen_nonneg hdr). pose proof (zlen_nonneg data). pose proof (zlen_nonneg body).
  destruct (ReadPacket_basic r p fmt ch (hdr ++ data ++ rest) Hf Hch Hp) as (r1 & b0 & E1 & _ & Hr1 & Hp1).
  { eapply quiet_sub; [|exact Hq]. lia. }
  destruct (reads_fields _ _ _ _ Hr1) as (Hv1 & Ht1 & Hn1 & Ha1 & Hh1).
  destruct (grow_in_fields r1 ch) as (Hg & Hv2 & Ht2 & Hw2).
  assert (inherit (grow_in r1 ch) (set_nChannel ch (set_headerType fmt p)) (header_of fmt) = base) as Hinh.
  { unfold inherit. by rewrite Hv2, Hv1. }
  destruct (read_message_reads r1 (set_nChannel ch (set_headerType fmt p)) fmt ch t (zlen body) type info
    (data ++ rest) (basic_header fmt ch) b0) as (r2 & E2 & Hr2 & Hp2); try done.
  { left. by rewrite Hinh. }
  { eapply reads_quiet; [exact Hr1|]. eapply quiet_sub; [|exact Hq]. lia. }
  rewrite Hinh in E2. exists r2, (basic_header fmt ch ++ hdr), b0.
  rewrite (reads_heap _ _ _ _ Hr1) in Hr2.
  destruct (reads_fields _ _ _ _ Hr2) as (Hv3 & Ht3 & Hn3 & _ & Hh3).
  split_and!; [cbn [receive]; by rewrite E1, E2| | |congruence|done].
  - eapply progress_trans; [by eapply reads_progress|]. apply (progress_nil _ (grow_in r1 ch)); [done|].
    by eapply reads_progress.
  - intros blk. constructor; [|congruence|]; intros; congruence.
Qed.

(** The packet that [receive] returns at the end, and the session then. *)
Lemma receive_message :
  exists r1 P1, receive (S n) r p = (let (P', r') := finish_packet r1 P1 in Done (true, P', r')) /\
    progress r bytes r1 /\ same_but ch (next_blk (world r)) r r1 /\ holds (world r1) P1 body /\
    m_nBytesRead P1 = zlen body /\
    P1 = set_headerType (m_headerType P1) (set_body (m_body P1) (set_nBytesRead (zlen body) P)).
Proof.
  destruct receive_header as (r2 & hbuf & b0 & -> & Hpr & Hsame & Hn2 & Hp2).
  unfold message in Hq |- *. rewrite (app_assoc (basic_header fmt ch)) in Hq |- *. rewrite zlen_app in Hq.
  pose proof (progress_quiet _ _ _ _ Hpr Hq) as Hq2.
  assert (m_body P = None /\ m_chunk P = None /\ m_nChannel P = ch) as (HPb & HPc & HPch)
    by (unfold with_header; repeat case_match; done).
  set (P0 := P) in *. clearbody P0. destruct (Z.eqb_spec (zlen body) 0) as [E0|E0].
  - assert (body = []) as E by (destruct body; [done|rewrite zlen_cons in E0; pose proof (zlen_nonneg l); lia]).
    destruct (read_body_empty r2 P0 hbuf b0 HPb HPc) as (r3 & -> & Hr3); [lia|done|
      by rewrite (pr_chunk _ _ _ Hpr)|eapply quiet_sub; [|exact Hq2]; apply zlen_nonneg|].
    rewrite E in *. exists r3, (set_nBytesRead 0 P0). split_and!; [by apply finish_ready| | | |done|by destruct P0].
    + eapply progress_trans; [exact Hpr|]. by eapply reads_progress.
    + eapply same_but_trans; [apply Hsame|]. by eapply reads_same.
    + split; [exact HPs|]. cbn [m_body set_nBytesRead]. by rewrite HPb.
  - pose proof (zlen_nonneg body).
    destruct (read_body_alloc r2 P0 hbuf b0 HPb) as (-> & Hat & Hsame' & Hpr'); [lia|].
    rewrite HPch, Hn2 in Hsame'. rewrite Hn2 in Hat.
    set (w := snd (fresh (world r2) (m_nBodySize P0 + RTMP_MAX_HEADER_SIZE))) in *.
    set (P1 := allocated (world r2) P0 b0) in *.
    destruct (receive_body ch (next_blk (world r)) (m_inChunkSize r) Hch Hcsz n (set_world w r2) P1 []
      (replicate (Z.to_nat (m_nBodySize P0)) 0) body rest hbuf b0) as (r3 & E & Hpr3 & Hsame3 & Hat3);
      rewrite ?zlen_replicate, ?HPs, ?Z2Nat.id, ?zlen_nil by lia; try done;
      [by rewrite <- HPs|lia|exact (pr_chunk _ _ _ Hpr)|].
    exists r3, (set_nBytesRead (m_nBodySize P1) P1). split_and!; [exact E| | | |exact HPs|].
    + eapply progress_trans; [exact Hpr|]. by apply (progress_nil _ _ Hpr').
    + eapply same_but_trans; [apply Hsame|]. by eapply same_but_trans.
    + split; [exact HPs|]. destruct Hat3 as (Hb3 & _ & _ & hd & Hhd & Hh3). rewrite Hb3.
      exists hd. cbn [p_blk p_off]. rewrite app_nil_r in Hh3. by split.
    + unfold P1, allocated. rewrite <- HPs. by destruct P0.
Qed.
End message.

(** ** Sender and receiver *)

(** What the receiver [r] keeps of a channel agrees with the last packet [prev] the
    sender has sent on it. *)
Definition in_sync (ch : Z) (prev : option RTMPPacket) (r : RTMP) : Prop :=
  match prev with
  | None => m_vecChannelsIn r !! ch = None /\ default 0 (m_channelTimestamp r !! ch) = 0
  | Some p =>
      default 0 (m_channelTimestamp r !! ch) = s32 (m_nTimeStamp p) /\
      exists q, m_vecChannelsIn r !! ch = Some q /\ m_nChannel q = ch /\
        m_chunk q = None /\ m_body q = None /\ m_nBytesRead q = 0 /\ m_hasAbsTimestamp q = false /\
        m_nBodySize q = m_nBodySize p /\ m_packetType q = m_packetType p /\
        m_nInfoField2 q = m_nInfoField2 p
  end.

(** A header that does not hold the stream id says that it has not changed; on a new
    channel it is the one of the packet [p] the receiver passes. *)
Definition same_stream (s : RTMP) (packet p : RTMPPacket) : Prop :=
  m_headerType packet = RTMP_PACKET_SIZE_LARGE \/
  m_nInfoField2 (default p (m_vecChannelsOut s !! m_nChannel packet)) = m_nInfoField2 packet.

Lemma compress_medium pv packet :
  m_headerType packet = RTMP_PACKET_SIZE_MEDIUM ->
  snd (compress (Some pv) packet) = m_nTimeStamp pv /\
  (m_headerType (fst (compress (Some pv) packet)) = 1 \/
   m_nBodySize pv = m_nBodySize packet /\ m_packetType pv = m_packetType packet /\
   2 <= m_headerType (fst (compress (Some pv) packet))).
Proof.
  intros H. unfold compress. rewrite H.
  destruct (Z.eqb_spec (m_nBodySize pv) (m_nBodySize packet)) as [E1|];
    destruct (Z.eqb_spec (m_packetType pv) (m_packetType packet)) as [E2|];
    cbn [andb]; ztests; rewrite ?H; cbn; rewrite ?H; cbn; destruct (m_nTimeStamp pv =? m_nTimeStamp packet);
    (split; [done|]); first [by left | right; split_and!; [done..|by vm_compute]].
Qed.

Lemma u32_delta ts last : is_u 32 ts -> u32 (u32 (ts - last) + s32 last) = ts.
Proof.
  intros H. unfold uwrap at 1 2. rewrite Zplus_mod_idemp_l, Zplus_mod.
  change (s32 last mod 2 ^ 32) with (u32 (s32 last)). rewrite uwrap_swrap by lia. unfold uwrap.
  rewrite <- Zplus_mod. replace (ts - last + last) with ts by lia. by apply Z.mod_small.
Qed.

(** The packet the header is applied to, and the fields that result. *)
Lemma header_applied s packet p r :
  let ch := m_nChannel packet in
  let fmt := sent_type s packet in
  let t := sent_time s packet in
  let base := inherit r (set_nChannel ch (set_headerType fmt p)) (header_of fmt) in
  let P := with_header fmt t (m_nBodySize packet) (m_packetType packet) (m_nInfoField2 packet) base in
  in_sync ch (m_vecChannelsOut s !! ch) r -> m_body p = None -> m_chunk p = None ->
  (m_headerType packet = RTMP_PACKET_SIZE_LARGE \/ m_headerType packet = RTMP_PACKET_SIZE_MEDIUM) ->
  fmt <> RTMP_PACKET_SIZE_MINIMUM -> same_stream s packet p -> is_u 32 (m_nTimeStamp packet) ->
  (m_body base = None /\ m_chunk base = None /\ m_nChannel base = ch) /\
  m_nBodySize P = m_nBodySize packet /\ m_nBytesRead P = 0 /\ m_packetType P = m_packetType packet /\
  m_nInfoField2 P = m_nInfoField2 packet /\
  (if m_hasAbsTimestamp P then m_nTimeStamp P
   else u32 (m_nTimeStamp P + default 0 (m_channelTimestamp r !! ch))) = m_nTimeStamp packet.
Proof.
  intros ch fmt t base P Hsync Hb Hc Hty Hmin Hstream Hts.
  assert (0 <= m_headerType packet <= 3) as Hrange by (by destruct Hty as [-> | ->]).
  unfold P, base, fmt, t, same_stream in *. rewrite <- sent_time_compress.
  rewrite <- sent_type_compress in * by done. fold ch in Hstream, Hmin |- *.
  assert (u32 (m_nTimeStamp packet - 0) = m_nTimeStamp packet) as E0
    by (rewrite Z.sub_0_r; by apply uwrap_id).
  destruct Hty as [Hty|Hty].
  - assert (compress (m_vecChannelsOut s !! ch) packet = (packet, 0)) as ->
      by (unfold compress; rewrite Hty; by destruct (m_vecChannelsOut s !! ch)).
    cbn [fst snd]. rewrite Hty, E0. done.
  - destruct Hstream as [Hs|Hstream]; [by rewrite Hty in Hs|].
    destruct (m_vecChannelsOut s !! ch) as [pv|]; cbn [in_sync default] in Hsync, Hstream.
    + destruct Hsync as (Hlast & q & Hq & Hqc & Hqk & Hqb & Hqr & Hqa & Hqs & Hqt & Hqi).
      unfold id in Hstream. destruct (compress_medium pv packet Hty) as [-> Hfmt].
      set (f := m_headerType (fst (compress (Some pv) packet))) in *.
      assert (f = 1 \/ f = 2) as Hf.
      { destruct Hfmt as [|(_ & _ & Hf)]; [by left|right].
        assert (f <= 3); [|unfold RTMP_PACKET_SIZE_MINIMUM in Hmin; lia].
        apply (compress_range (Some pv) packet). rewrite Hty. done. }
      assert (inherit r (set_nChannel ch (set_headerType f p)) (header_of f) = q) as ->
        by (unfold inherit; cbn [m_nChannel set_nChannel]; rewrite Hq; by destruct Hf as [-> | ->]).
      pose proof (u32_delta _ (m_nTimeStamp pv) Hts) as Ht.
      destruct Hf as [E|E]; rewrite E in *.
      * cbn. rewrite Hqa, Hlast. split_and!; first [done|congruence].
      * destruct Hfmt as [|(Hs & Ht' & _)]; [done|]. cbn. rewrite Hqa, Hlast.
        split_and!; first [done|congruence].
    + destruct Hsync as [Hnone Hlast]. cbn [compress fst snd]. rewrite Hty, E0, Hlast.
      assert (inherit r (set_nChannel ch (set_headerType 1 p)) (header_of 1) =
        set_nChannel ch (set_headerType 1 p)) as E
        by (unfold inherit; cbn [m_nChannel set_nChannel]; by rewrite Hnone).
      unfold RTMP_PACKET_SIZE_MEDIUM. rewrite E. cbn.
      split_and!; try done. rewrite Z.add_0_r. rewrite (uwrap_id 32) by done. by case_match.
Qed.

(** Sender and receiver agree on all channels. *)
Definition synced (s r : RTMP) : Prop := forall ch, in_sync ch (m_vecChannelsOut s !! ch) r.

(** Finishing a complete packet brings the channel back in step with the sender. *)
Lemma finish_synced s packet' r r1 ch blk P1 ts :
  synced s r -> same_but ch blk r r1 -> m_nChannel P1 = ch -> m_chunk P1 = None ->
  m_nBytesRead P1 = m_nBodySize P1 ->
  (if m_hasAbsTimestamp P1 then m_nTimeStamp P1
   else u32 (m_nTimeStamp P1 + default 0 (m_channelTimestamp r !! ch))) = ts ->
  m_nTimeStamp packet' = ts -> m_nBodySize P1 = m_nBodySize packet' ->
  m_packetType P1 = m_packetType packet' -> m_nInfoField2 P1 = m_nInfoField2 packet' ->
  exists r', finish_packet r1 P1 = (set_nTimeStamp ts P1, r') /\ world r' = world r1 /\
    pending r' = pending r1 /\
    forall c, in_sync c (<[ch := packet']> (m_vecChannelsOut s) !! c) r'.
Proof.
  intros Hs Hsame Hc Hk Hn Hts Ht Hsz Hty Hi.
  unfold finish_packet, RTMPPacket_IsReady. rewrite Hn, Z.eqb_refl, Hc, (sb_times _ _ _ _ Hsame), Hts.
  eexists. split; [done|]. split; [done|]. split; [done|]. intros c.
  destruct (decide (c = ch)) as [->|Hne].
  - rewrite lookup_insert_eq. cbn [in_sync]. cbn. rewrite !lookup_insert_eq. cbn. rewrite Ht.
    split; [done|]. eexists. by split_and!.
  - rewrite lookup_insert_ne by done. specialize (Hs c). unfold in_sync in *. cbn.
    rewrite !lookup_insert_ne, (sb_channels _ _ _ _ Hsame) by done. exact Hs.
Qed.


(** *** Two new sessions. *)

Lemma synced_new w w' : synced (RTMP_Init w) (RTMP_Init w').
Proof. by intros ch. Qed.

(** The message of [example_packet] arrives in pieces of 50 bytes at most, with another
    byte behind it. *)
Definition example_wire : buf := [0x44; 0; 3; 232; 0; 0; 130; 8] ++ replicate 128 7 ++ [0xc4; 7; 7; 9].

Definition example_receiver : RTMP :=
  RTMP_Init (mkWorld [Received (take 50 example_wire); RecvInterrupted;
    Received (take 50 (drop 50 example_wire)); Received (drop 100 example_wire)] [] [] false ∅ 0 ∅).

