(* ===== verification/RtmpSafety.v ===== *)
(** RTMP sessions: which blocks of memory a session owns, and that reading a chunk
    neither frees nor writes anything else. *)

From stdpp Require Import base list option numbers strings gmap.
From S2P Require Import Prelude CMem TypeDefs Amf AmfSpec AmfRoundTrip RtmpTypes Rtmp RtmpSpec.
From S2P Require Import RtmpRead RtmpRoundTrip.

Local Open Scope Z_scope.
Open Scope c_scope.

(** No undefined behaviour, and [Q] of the result.  [Unfinished] stands for a call of
    [recv] or [send] that does not return. *)
Definition safe {A} (x : outcome A) (Q : A -> Prop) : Prop :=
  match x with Done a => Q a | Undef => False | Unfinished => True end.

Lemma safe_mono {A} (x : outcome A) (Q Q' : A -> Prop) : safe x Q -> (forall a, Q a -> Q' a) -> safe x Q'.
Proof. destruct x; simpl; auto. Qed.

(** One step of a sequence: [H] is about its first computation. *)
Ltac safe_in H :=
  match type of H with
  | safe ?x _ => let a := fresh "a" in let E := fresh "E" in
      destruct x as [a| |] eqn:E; cbn [safe] in H; [|done|exact I]
  end.

(** *** Accesses within a block *)

Lemma wrn_in b i vs : 0 <= i -> i + zlen vs <= zlen b -> exists b', wrn b i vs = Some b' /\ zlen b' = zlen b.
Proof.
  intros Hi H. unfold wrn. rewrite (proj2 (Z.leb_le _ _)) by lia. unfold zlen in *.
  rewrite (proj2 (Nat.eqb_eq _ _)) by (rewrite length_take, length_drop; lia).
  eexists. split; [done|]. rewrite !length_app, length_take, !length_drop. lia.
Qed.

Lemma mem_write_in w blk off vs b :
  heap w !! blk = Some b -> 0 <= off -> off + zlen vs <= zlen b ->
  exists b', mem_write w (mkPtr blk off) vs = Done (set_heap (<[blk := b']> (heap w)) w) /\ zlen b' = zlen b.
Proof.
  intros Hb Ho Hl. unfold mem_write. cbn. rewrite Hb. destruct (wrn_in b off vs Ho Hl) as (b' & -> & E).
  by exists b'.
Qed.

Lemma mem_update_in w blk off n f b :
  heap w !! blk = Some b -> 0 <= off -> 0 <= n -> off + n <= zlen b ->
  (forall old, zlen old = n -> exists new, f old = Some new /\ zlen new = n) ->
  exists b', mem_update w (Some (mkPtr blk off)) n f = Done (set_heap (<[blk := b']> (heap w)) w) /\
    zlen b' = zlen b.
Proof.
  intros Hb Ho Hn Hl Hf. unfold mem_update, mem_read. cbn. rewrite Hb.
  destruct (rdn_in b off n Ho Hn Hl) as (old & -> & Eo). cbn. destruct (Hf old Eo) as (new & -> & En).
  cbn. by apply mem_write_in; rewrite ?En.
Qed.

(** ** The blocks of a session *)

Inductive owner := Channel (ch : Z) | Unsent | Input.

Inductive owns (r : RTMP) : owner -> ptr -> Prop :=
  | owns_channel ch q p :
      m_vecChannelsIn r !! ch = Some q -> m_body q = Some p ->
      owns r (Channel ch) (ptr_add p (- RTMP_MAX_HEADER_SIZE))
  | owns_unsent p : m_body (m_write r) = Some p -> owns r Unsent (ptr_add p (- RTMP_MAX_HEADER_SIZE))
  | owns_input b :
      truthy (Z.land (r_flags (m_read r)) RTMP_READ_HEADER) = true -> r_buf (m_read r) = Some b ->
      owns r Input (mkPtr b 0).

(** Each is the start of a block that was allocated and has no other owner. *)
Record owned (r : RTMP) : Prop := {
  ow_live : forall o p, owns r o p -> p_off p = 0 /\ is_Some (heap (world r) !! p_blk p);
  ow_unique : forall o1 o2 p1 p2, owns r o1 p1 -> owns r o2 p2 -> p_blk p1 = p_blk p2 -> o1 = o2;
  ow_fresh : forall b, is_Some (heap (world r) !! b) -> b < next_blk (world r)
}.

(** What a session needs to be closed: the messages it sends then, with [k] more
    invocations to count. *)
Record tidy (k : Z) (r : RTMP) : Prop := {
  td_owned : owned r;
  td_out : 0 < m_outChunkSize r;
  td_path : wf_str (playpath (Link r)) = true;
  td_invokes : 0 <= m_numInvokes r /\ m_numInvokes r + k < 2 ^ 31
}.

(** [r'] is [r] after the end of the session. *)
Record ends (r r' : RTMP) : Prop := {
  en_owns : forall o p, ~ owns r' o p;
  en_channels : m_vecChannelsIn r' = ∅;
  en_next : next_blk (world r) <= next_blk (world r');
  en_fresh : forall b, is_Some (heap (world r') !! b) -> b < next_blk (world r');
  en_recvs : recvs (world r') = recvs (world r);
  en_data : sb_data (m_sb r') = [];
  en_in : m_inChunkSize r' = m_inChunkSize r;
  en_out : m_outChunkSize r' = m_outChunkSize r;
  en_path : playpath (Link r') = playpath (Link r);
  en_invokes : m_numInvokes r' = 0;
  en_bytes : m_nBytesIn r' = 0 /\ m_nBytesInSent r' = 0;
  en_bandwidth : m_nClientBW r' = m_nClientBW r
}.

Lemma free_live w p : p_off p = 0 -> is_Some (heap w !! p_blk p) -> free w (Some p) = Done (release w p).
Proof. intros Ho [b Hb]. unfold free. by rewrite Ho, Hb. Qed.

Lemma free_channels_live chs ids : forall w,
  NoDup ids ->
  (forall ch q p, chs !! ch = Some q -> m_body q = Some p ->
     p_off p = RTMP_MAX_HEADER_SIZE /\ is_Some (heap w !! p_blk p) \/ ~ ch ∈ ids) ->
  (forall ch1 ch2 q1 q2 p1 p2, chs !! ch1 = Some q1 -> chs !! ch2 = Some q2 ->
     m_body q1 = Some p1 -> m_body q2 = Some p2 -> p_blk p1 = p_blk p2 -> ch1 = ch2) ->
  exists h, free_channels chs ids w = Done (set_heap h w) /\ h ⊆ heap w.
Proof.
  induction ids as [|i ids IH]; intros w Hn Hlive Huniq; cbn [free_channels].
  { exists (heap w). by rewrite set_heap_same. }
  apply NoDup_cons in Hn as [Hi Hn]. destruct (chs !! i) as [q|] eqn:Eq; [|apply IH; [done| |done]].
  - unfold RTMPPacket_Free. destruct (m_body q) as [p|] eqn:Ep.
    + destruct (Hlive _ _ _ Eq Ep) as [[Ho Hl]|Hnot]; [|by destruct Hnot; left].
      rewrite free_live; [|by unfold ptr_add; cbn; rewrite Ho|done]. cbv beta iota.
      destruct (IH (release w (ptr_add p (- RTMP_MAX_HEADER_SIZE)))) as (h & E & Hh); [done| |done|].
      * intros ch q' p' Hq' Hp'. destruct (decide (ch ∈ ids)) as [Hin|]; [left|by right].
        destruct (Hlive _ _ _ Hq' Hp') as [[Ho' Hl']|Hnot]; [|by destruct Hnot; right].
        split; [done|]. cbn. rewrite lookup_delete_ne; [done|]. intros Eb.
        assert (i = ch) as -> by (by eapply Huniq). done.
      * exists h. split; [exact E|]. etrans; [exact Hh|]. cbn. apply delete_subseteq.
    + cbv beta iota. apply IH; [done| |done]. intros ch q' p' Hq' Hp'.
      destruct (Hlive _ _ _ Hq' Hp') as [|Hnot]; [by left|right]. intros ?. apply Hnot. by right.
  - intros ch q' p' Hq' Hp'. destruct (Hlive _ _ _ Hq' Hp') as [|Hnot]; [by left|right].
    intros ?. apply Hnot. by right.
Qed.

Lemma is_Some_subseteq (h h' : gmap Z buf) b : h ⊆ h' -> is_Some (h !! b) -> is_Some (h' !! b).
Proof. intros Hs [x Hx]. exists x. by eapply lookup_weaken. Qed.

(** Releasing the block of an owner leaves the others alone. *)
Lemma release_live r w o p :
  owned r -> heap w ⊆ heap (world r) ->
  (forall o' p', owns r o' p' -> o' = o -> is_Some (heap w !! p_blk p')) -> owns r o p ->
  free w (Some p) = Done (release w p) /\ heap (release w p) ⊆ heap (world r) /\
  forall o' p', owns r o' p' -> is_Some (heap w !! p_blk p') -> o' <> o ->
    is_Some (heap (release w p) !! p_blk p').
Proof.
  intros Hr Hw Hl Hp. destruct (ow_live r Hr _ _ Hp) as [Ho _]. split; [|split].
  - apply free_live; [done|]. by eapply Hl.
  - cbn. etrans; [apply delete_subseteq|done].
  - intros o' p' Hp' Hl' Hne. cbn. rewrite lookup_delete_ne; [done|].
    intros Eb. apply Hne. symmetry. by eapply (ow_unique r Hr).
Qed.

(** The packets of the channels lie in the array. *)
Definition channels_in (r : RTMP) : Prop :=
  forall ch q, m_vecChannelsIn r !! ch = Some q -> 0 <= ch < m_channelsAllocatedIn r.

(** [h] without the blocks that [gone] holds of. *)
Definition without (gone : Z -> Prop) (h h' : gmap Z buf) : Prop :=
  (forall b, gone b -> h' !! b = None) /\ (forall b, ~ gone b -> h' !! b = h !! b).

Lemma without_next (g1 g2 g : Z -> Prop) h1 h2 h3 :
  without g1 h1 h2 -> without g2 h2 h3 -> (forall b, g b <-> g1 b \/ g2 b) -> without g h1 h3.
Proof.
  intros [A1 B1] [A2 B2] Hg. assert (forall b, h2 !! b = None -> h3 !! b = None) as Hnone.
  { intros b Hb. destruct (h3 !! b) eqn:E; [|done]. exfalso.
    assert (~ g2 b) as Hn by (intros H; by rewrite A2 in E). rewrite B2 in E by done. congruence. }
  split.
  - intros b [H|H]%Hg; [by apply Hnone, A1|by apply A2].
  - intros b Hb. rewrite B2, B1; [done|..]; intros H; apply Hb, Hg; tauto.
Qed.

Lemma without_iff (g g' : Z -> Prop) h h' : (forall b, g b <-> g' b) -> without g h h' -> without g' h h'.
Proof. intros H [A B]. split; intros b Hb; [by apply A, H|apply B; by rewrite H]. Qed.

Lemma without_none h : without (fun _ => False) h h.
Proof. by split. Qed.

Lemma free_without w q w' : free w q = Done w' ->
  w' = set_heap (heap w') w /\ without (fun b => exists p, q = Some p /\ p_blk p = b) (heap w) (heap w').
Proof.
  unfold free. destruct q as [p|].
  - destruct (p_off p =? 0); [|done]. destruct (heap w !! p_blk p); [|done]. cbn. intros [= <-]. split; [done|]. split.
    + intros b (p' & [= <-] & <-). cbn. apply lookup_delete_eq.
    + intros b Hb. cbn. rewrite lookup_delete_ne; [done|]. intros <-. apply Hb. eauto.
  - intros [= <-]. rewrite set_heap_same. split; [done|]. split; [|done]. by intros b (p & ? & _).
Qed.

(** The block behind a body. *)
Definition holds_block (q : RTMPPacket) (b : Z) : Prop := exists p, m_body q = Some p /\ p_blk p = b.

Lemma packet_free_without w q q' w' : RTMPPacket_Free w q = Done (q', w') ->
  w' = set_heap (heap w') w /\ without (holds_block q) (heap w) (heap w').
Proof.
  unfold RTMPPacket_Free, holds_block. destruct (m_body q) as [p|].
  - destruct (free w _) as [w1| |] eqn:E; [|done..]. intros [= _ <-]. apply free_without in E as [E1 E2].
    split; [done|]. eapply without_iff; [|exact E2]. intros b. split; intros (p' & [= <-] & <-); eauto.
  - intros [= _ <-]. rewrite set_heap_same. split; [done|]. split; [|done]. by intros b (p & ? & _).
Qed.

Lemma free_channels_without chs ids : forall w w',
  free_channels chs ids w = Done w' ->
  w' = set_heap (heap w') w /\
  without (fun b => exists ch q, ch ∈ ids /\ chs !! ch = Some q /\ holds_block q b) (heap w) (heap w').
Proof.
  induction ids as [|i ids IH]; intros w w'; cbn [free_channels].
  { intros [= <-]. rewrite set_heap_same. split; [done|]. eapply without_iff; [|apply without_none].
    intros b. split; [done|]. by intros (ch & q & H%not_elem_of_nil & _). }
  destruct (chs !! i) as [q|] eqn:Eq.
  - destruct (RTMPPacket_Free w q) as [[q' w1]| |] eqn:E; [|done..]. intros E2.
    apply packet_free_without in E as [E A]. apply IH in E2 as [E2 A2]. split; [by rewrite E2, E|].
    eapply without_next; [exact A|exact A2|]. intros b. split.
    + intros (ch & q2 & [->|Hin]%elem_of_cons & Hq & Hb); [left; congruence|right; eauto].
    + intros [Hb|(ch & q2 & Hin & Hq & Hb)]; [exists i, q|exists ch, q2]; split_and!; try done; [left|by right].
  - intros E2. apply IH in E2 as [E2 A2]. split; [done|]. eapply without_iff; [|exact A2]. intros b. split.
    + intros (ch & q2 & Hin & Hq & Hb). exists ch, q2. split_and!; try done. by right.
    + intros (ch & q2 & [->|Hin]%elem_of_cons & Hq & Hb); [congruence|eauto].
Qed.

(** The end of a session releases what it owns, and nothing else. *)
Lemma close_reset_without r r' : channels_in r -> close_reset r = Done r' ->
  without (fun b => exists o p, owns r o p /\ p_blk p = b) (heap (world r)) (heap (world r')).
Proof.
  intros Hin. unfold close_reset. set (header := truthy (Z.land (r_flags (m_read r)) RTMP_READ_HEADER)).
  assert (forall w, (if header then free (world r) (match r_buf (m_read r) with Some b => Some (mkPtr b 0) | None => None end)
      else Done (world r)) = Done w ->
    without (fun b => exists p, owns r Input p /\ p_blk p = b) (heap (world r)) (heap w)) as H1.
  { intros w. destruct header eqn:Eh.
    - intros [_ A]%free_without. eapply without_iff; [|exact A]. intros b. split.
      + destruct (r_buf (m_read r)) eqn:Eb; intros (p & [=<-] & <-). eexists. split; [by constructor|done].
      + intros (p & H & <-). inversion H as [| |b' _ Eb]; subst. rewrite Eb. eauto.
    - intros [= <-]. eapply without_iff; [|apply without_none]. intros b. split; [done|].
      intros (p & H & _). inversion H as [| |b' Eb _]. unfold header in Eh. congruence. }
  destruct (if header then _ else _) as [w1| |]; [|done..]. cbv beta iota. specialize (H1 w1 eq_refl).
  destruct (RTMPPacket_Free w1 _) as [[wq w2]| |] eqn:E2; [|done..]. cbv beta iota. apply packet_free_without in E2 as [_ H2].
  destruct (free_channels _ _ w2) as [w3| |] eqn:E3; [|done..]. cbv beta iota. apply free_channels_without in E3 as [_ H3].
  intros [= <-]. cbn [world].
  eapply without_next; [exact H1|eapply (without_next _ _ (fun b => _ b \/ _ b)); [exact H2|exact H3|done]|].
  intros b. cbv beta.
  unfold holds_block. cbn [m_body set_nBytesRead]. split.
  - intros (o & p & H & <-). inversion H as [ch q p' Hq Hp|p' Hp|b Hf Hb]; subst.
    + right. right. exists ch, q. split_and!; [|done|eauto]. apply elem_of_seqZ. specialize (Hin _ _ Hq). lia.
    + right. left. eauto.
    + left. exists (mkPtr b 0). split; [done|done].
  - intros [(p & H & Hb)|[(p & Hp & Hb)|(ch & q & _ & Hq & p & Hp & Hb)]]; [by exists Input, p| |].
    + exists Unsent, (ptr_add p (- RTMP_MAX_HEADER_SIZE)). split; [by constructor|done].
    + exists (Channel ch), (ptr_add p (- RTMP_MAX_HEADER_SIZE)). split; [by eapply owns_channel|done].
Qed.

Lemma close_reset_out r r' : close_reset r = Done r' -> m_vecChannelsOut r' = ∅.
Proof. unfold close_reset. repeat case_match; intros [= <-] || intros; done. Qed.

Lemma owns_same r r' o p :
  m_vecChannelsIn r' = m_vecChannelsIn r -> m_write r' = m_write r -> m_read r' = m_read r ->
  owns r o p <-> owns r' o p.
Proof.
  intros E1 E2 E3. split; intros H; inversion H; subst; econstructor; rewrite ?E1, ?E2, ?E3 in *; done.
Qed.

Lemma close_reset_done r : owned r ->
  exists r', close_reset r = Done r' /\ ends r r' /\ sent (world r') = sent (world r) /\
    RTMP_IsConnected r' = false /\ m_stream_id r' = -1 /\ m_methodCalls r' = [] /\ m_bPlaying r' = false.
Proof.
  intros Hr. unfold close_reset.
  set (header := truthy (Z.land (r_flags (m_read r)) RTMP_READ_HEADER)).
  assert (exists w, (if header then free (world r) (match r_buf (m_read r) with
      Some b => Some (mkPtr b 0) | None => None end) else Done (world r)) = Done w /\
    w = set_heap (heap w) (world r) /\ heap w ⊆ heap (world r) /\
    forall o p, owns r o p -> o <> Input -> is_Some (heap w !! p_blk p)) as (w1 & -> & Ew1 & Hs1 & Hl1).
  { assert (forall o p, owns r o p -> is_Some (heap (world r) !! p_blk p)) as Hlive
      by (intros o p Hp; apply (ow_live r Hr _ _ Hp)).
    destruct header eqn:Eh; [destruct (r_buf (m_read r)) as [b|] eqn:Eb|];
      try (exists (world r); rewrite set_heap_same; by eauto).
    destruct (release_live r (world r) Input (mkPtr b 0)) as (-> & Hs & Hl); [done..|by eauto|by constructor|].
    eexists. split; [done|]. split; [done|]. split; [done|]. eauto. }
  cbv beta iota.
  assert (exists w q, RTMPPacket_Free w1 (set_nBytesRead 0 (m_write r)) = Done (q, w) /\ m_body q = None /\
    w = set_heap (heap w) (world r) /\ heap w ⊆ heap (world r) /\
    forall ch p, owns r (Channel ch) p -> is_Some (heap w !! p_blk p)) as (w2 & wq & -> & Hwq & Ew2 & Hs2 & Hl2).
  { unfold RTMPPacket_Free. cbn [m_body set_nBytesRead]. destruct (m_body (m_write r)) as [p|] eqn:Ep.
    - destruct (release_live r w1 Unsent (ptr_add p (- RTMP_MAX_HEADER_SIZE))) as (-> & Hs & Hl);
        [done..|intros o' p' Hp' ->; by eapply Hl1|by constructor|].
      cbv beta iota. do 2 eexists. split; [done|]. split; [done|]. split; [by rewrite Ew1|]. split; [done|].
      intros ch p' Hp'. apply (Hl _ _ Hp'); [by eapply Hl1|done].
    - cbv beta iota. do 2 eexists. split; [done|]. split; [done|]. split; [done|]. split; [done|].
      intros ch p' Hp'. by eapply Hl1. }
  cbv beta iota.
  destruct (free_channels_live (m_vecChannelsIn r) (seqZ 0 (m_channelsAllocatedIn r)) w2) as (h & -> & Hh).
  { apply NoDup_seqZ. }
  { intros ch q p Hq Hp. left. pose proof (owns_channel r ch q p Hq Hp) as Ho.
    split; [|by apply Hl2 in Ho]. destruct (ow_live r Hr _ _ Ho) as [Hoff _]. cbn in Hoff. lia. }
  { intros ch1 ch2 q1 q2 p1 p2 H1 H2 Hp1 Hp2 Eb.
    assert (Channel ch1 = Channel ch2) as [=]; [|done].
    eapply (ow_unique r Hr); [by eapply owns_channel|by eapply owns_channel|done]. }
  cbv beta iota. eexists. split; [done|]. split; [|split; [cbn; by rewrite Ew2|done]]. constructor; cbn; try done.
  - intros o p Ho. inversion Ho as [ch q p' Hq| |b Hb]; subst.
    + cbn in Hq. by rewrite lookup_empty in Hq.
    + cbn in H. by rewrite Hwq in H.
    + cbn in Hb. done.
  - by rewrite Ew2.
  - intros b Hb. rewrite Ew2. cbn. apply (ow_fresh r Hr). eapply is_Some_subseteq; [|exact Hb].
    by etrans.
  - by rewrite Ew2.
  - unfold clear_link. repeat case_match; done.
Qed.

Lemma close_reset_safe r : owned r -> safe (close_reset r) (ends r).
Proof. intros H. destruct (close_reset_done r H) as (r' & -> & He & _). exact He. Qed.

(** ** Sending and reading

    [r'] is [r] after something was sent or read: the session owns the same blocks, and of
    the memory that was there only the block [ob] has changed, and not its length. *)
Record frame (ob : option Z) (r r' : RTMP) : Prop := {
  fr_channels : m_vecChannelsIn r' = m_vecChannelsIn r /\ m_channelTimestamp r' = m_channelTimestamp r;
  fr_chunks : m_inChunkSize r' = m_inChunkSize r /\ m_outChunkSize r' = m_outChunkSize r;
  fr_files : m_read r' = m_read r /\ m_write r' = m_write r;
  fr_link : Link r' = Link r;
  fr_invokes : m_numInvokes r' = m_numInvokes r;
  fr_bandwidth : m_nClientBW r' = m_nClientBW r /\ m_bSendCounter r' = m_bSendCounter r;
  fr_ctrlC : RTMP_ctrlC (world r') = RTMP_ctrlC (world r);
  fr_next : next_blk (world r) <= next_blk (world r');
  fr_heap : forall b, b < next_blk (world r) -> ob <> Some b -> heap (world r') !! b = heap (world r) !! b;
  fr_block : forall b v, ob = Some b -> heap (world r) !! b = Some v ->
    exists v', heap (world r') !! b = Some v' /\ zlen v' = zlen v;
  fr_fresh : (forall b, is_Some (heap (world r) !! b) -> b < next_blk (world r)) ->
    forall b, is_Some (heap (world r') !! b) -> b < next_blk (world r')
}.

Lemma frame_refl ob r : frame ob r r.
Proof. constructor; eauto; lia. Qed.

Lemma frame_trans ob r1 r2 r3 : frame ob r1 r2 -> frame ob r2 r3 -> frame ob r1 r3.
Proof.
  intros [] []. constructor; try (repeat split; intuition congruence); try lia.
  - intros b Hb Hne. rewrite fr_heap1, fr_heap0 by (done || lia). done.
  - intros b v Hb Hv. destruct (fr_block0 b v Hb Hv) as (v1 & H1 & E1).
    destruct (fr_block1 b v1 Hb H1) as (v2 & H2 & E2). exists v2. split; [done|congruence].
Qed.

Lemma frame_owns ob r r' o p : frame ob r r' -> owns r' o p -> owns r o p.
Proof.
  intros [] Ho. destruct fr_channels0 as [Ec _]. destruct fr_files0 as [Er Ew].
  inversion Ho; subst; [rewrite Ec in *; by eapply owns_channel|rewrite Ew in *; by constructor|
    rewrite Er in *; by constructor].
Qed.

Lemma frame_owned ob r r' : frame ob r r' -> owned r -> owned r'.
Proof.
  intros Hs Hr. pose proof (fun o p => frame_owns _ _ _ o p Hs) as Ho. constructor.
  - intros o p Hp. apply Ho in Hp. destruct (ow_live r Hr _ _ Hp) as [Hoff [v Hv]]. split; [done|].
    destruct (decide (ob = Some (p_blk p))) as [Eb|].
    + destruct (fr_block _ _ _ Hs _ v Eb Hv) as (v' & -> & _). by eexists.
    + rewrite (fr_heap _ _ _ Hs) by (done || by apply (ow_fresh r Hr); eexists). by eexists.
  - intros o1 o2 p1 p2 H1 H2. by eapply (ow_unique r Hr); apply Ho.
  - apply (fr_fresh _ _ _ Hs), Hr.
Qed.

Lemma frame_tidy k ob r r' : frame ob r r' -> tidy k r -> tidy k r'.
Proof.
  intros Hs []. destruct (fr_chunks _ _ _ Hs) as [_ Ho].
  constructor; [by eapply frame_owned|by rewrite Ho|by rewrite (fr_link _ _ _ Hs)|by rewrite (fr_invokes _ _ _ Hs)].
Qed.

(** Sending does not touch what was received. *)
Record sent_by (ob : option Z) (r r' : RTMP) : Prop := {
  sy_frame : frame ob r r';
  sy_sb : m_sb r' = m_sb r;
  sy_counters : m_nBytesIn r' = m_nBytesIn r /\ m_nBytesInSent r' = m_nBytesInSent r;
  sy_recvs : recvs (world r') = recvs (world r)
}.

Lemma sent_by_refl ob r : sent_by ob r r.
Proof. constructor; eauto using frame_refl. Qed.

Lemma sent_by_trans ob r1 r2 r3 : sent_by ob r1 r2 -> sent_by ob r2 r3 -> sent_by ob r1 r3.
Proof. intros [] []. constructor; [by eapply frame_trans|intuition congruence..]. Qed.

Lemma sent_by_tidy k ob r r' : sent_by ob r r' -> tidy k r -> tidy k r'.
Proof. intros []. by apply (frame_tidy k ob). Qed.

Lemma ends_sent ob r r' r'' : sent_by ob r r' -> ends r' r'' -> ends r r''.
Proof. intros [[]] []. constructor; try done; try (intuition congruence); lia. Qed.

Lemma ends_trans r r' r'' : ends r r' -> ends r' r'' -> ends r r''.
Proof. intros [] []. constructor; try done; try (intuition congruence); lia. Qed.

Lemma ends_tidy k j r r' : ends r r' -> tidy k r -> j <= 2 -> tidy j r'.
Proof.
  intros [] []. constructor; [|lia|by rewrite en_path0|lia].
  constructor; [intros o p Ho; by apply en_owns0 in Ho|intros o1 o2 p1 p2 Ho; by apply en_owns0 in Ho|done].
Qed.

(** Sending fails, where the session may have been closed, or succeeds. *)
Definition sends_or_ends (ob : option Z) (r : RTMP) (res : bool * RTMP) : Prop :=
  sent_by ob r (snd res) \/ fst res = false /\ ends r (snd res).

Section sending_safe.
Context (k : Z) (close : RTMP -> outcome RTMP) (Hclose : forall r, tidy k r -> safe (close r) (ends r)).

Lemma sends_sent_by ob r evs out : sent_by ob r (set_world (set_sends evs out (world r)) r).
Proof. constructor; [constructor|..]; cbn; eauto; lia. Qed.

Lemma write_loop_safe ob evs : forall data r,
  sends (world r) = evs -> tidy k r -> safe (write_loop close evs data r) (sends_or_ends ob r).
Proof.
  induction evs as [|e evs IH]; intros data r Hs Hr; (destruct data as [|x data'];
    [by left; apply sent_by_refl|]); [by cbn; unfold RTMPSockBuf_Send; rewrite Hs|].
  set (data := x :: data') in *.
  assert (forall out data, safe (write_loop close evs data (set_world (set_sends evs out (world r)) r))
    (sends_or_ends ob r)) as Hnext.
  { intros out d. pose proof (sends_sent_by ob r evs out) as Hb.
    eapply safe_mono; [apply IH; [done|by eapply sent_by_tidy]|].
    intros [ok r'] [H|[H1 H2]]; [left; by eapply sent_by_trans|right; split; [done|by eapply ends_sent]]. }
  assert (forall out, safe (let! r := close (set_world (set_sends evs out (world r)) r) in Done (false, r))
    (sends_or_ends ob r)) as Hend.
  { intros out. pose proof (sends_sent_by ob r evs out) as Hb.
    pose proof (Hclose _ (sent_by_tidy _ _ _ _ Hb Hr)) as H. safe_in H. cbn. right. split; [done|].
    by eapply ends_sent. }
  cbn [write_loop data]. fold data. unfold RTMPSockBuf_Send. rewrite Hs.
  destruct e as [taken| |]; cbv beta iota zeta.
  - destruct (_ <? 0); [exact (Hend _)|]. destruct (_ =? 0); [left; apply sends_sent_by|apply Hnext].
  - change (-1 <? 0) with true. destruct (true && _); [apply Hnext|apply Hend].
  - apply Hend.
Qed.

Lemma sends_or_ends_trans ob r r' res : sent_by ob r r' -> sends_or_ends ob r' res -> sends_or_ends ob r res.
Proof.
  intros H [H'|[E H']]; [left; by eapply sent_by_trans|right; split; [done|by eapply ends_sent]].
Qed.

Lemma WriteN_safe ob r blk b off n :
  tidy k r -> heap (world r) !! blk = Some b -> 0 <= off -> off + n <= zlen b ->
  safe (WriteN_with close r (Some (mkPtr blk off)) n) (sends_or_ends ob r).
Proof.
  intros Hr Hb Ho Hn. unfold WriteN_with. destruct (Z.leb_spec n 0); [by left; apply sent_by_refl|].
  unfold mem_read_opt, mem_read. cbn [p_blk p_off]. rewrite Hb.
  destruct (rdn_in b off n) as (v & -> & _); [lia..|]. by apply write_loop_safe.
Qed.

(** Writing to a block that was there. *)
Lemma write_sent_by r blk b b' :
  heap (world r) !! blk = Some b -> zlen b' = zlen b ->
  sent_by (Some blk) r (set_world (set_heap (<[blk := b']> (heap (world r))) (world r)) r).
Proof.
  intros Hb Hl. constructor; [constructor|..]; cbn; eauto; try lia.
  - intros b0 _ Hne. rewrite lookup_insert_ne; [done|]. congruence.
  - intros b0 v [= <-] Hv. rewrite lookup_insert_eq. exists b'. split; [done|congruence].
  - intros H b0 Hb0. destruct (decide (b0 = blk)) as [->|Hne]; [apply H; by eexists|].
    apply H. by rewrite lookup_insert_ne in Hb0.
Qed.

Lemma put_next_header_in packet w :
  0 <= m_headerType packet <= 3 -> 0 <= m_nChannel packet <= 65599 ->
  zlen w = 1 + channel_size (m_nChannel packet) ->
  exists new, put_next_header w packet = Some new /\ zlen new = 1 + channel_size (m_nChannel packet).
Proof.
  intros Hf Hc Hw. rewrite put_next_header_basic by done. eexists. split; [done|]. by rewrite zlen_basic_header.
Qed.

Lemma send_loop_safe packet blk : forall fuel r b h hs size csz,
  0 <= m_headerType packet <= 3 -> 0 <= m_nChannel packet <= 65599 ->
  tidy k r -> heap (world r) !! blk = Some b ->
  0 <= h -> 0 <= hs -> 0 <= size -> 0 < csz -> h + hs + size <= zlen b -> 2 <= h + hs ->
  safe (send_loop close fuel packet (Some (mkPtr blk h)) (Some (mkPtr blk (h + hs))) hs size csz r)
    (sends_or_ends (Some blk) r).
Proof.
  induction fuel as [|fuel IH]; intros r b h hs size csz Hf Hc Hr Hb Hh Hhs Hs Hcsz Hl H2; cbn [send_loop].
  { destruct (size + hs =? 0); [by left; apply sent_by_refl|done]. }
  destruct (Z.eqb_spec (size + hs) 0); [by left; apply sent_by_refl|].
  set (m := if size <? csz then size else csz).
  assert (0 <= m <= size /\ (m < size -> m = csz)) as [Hk Hkc]
    by (unfold m; destruct (Z.ltb_spec size csz); lia).
  pose proof (WriteN_safe (Some blk) r blk b h (m + hs) Hr Hb Hh ltac:(lia)) as HW. safe_in HW.
  destruct a as [wrote r1]. destruct HW as [HW|[E1 HW]]; cbn in HW; [|cbn in E1; subst; by right].
  destruct wrote; cbn [negb]; [|by left].
  destruct (fr_block _ _ _ (sy_frame _ _ _ HW) blk b eq_refl Hb) as (b1 & Hb1 & El1).
  pose proof (sent_by_tidy _ _ _ _ HW Hr) as Hr1.
  unfold ptr_add. cbn [p_blk p_off]. destruct (Z.ltb_spec 0 (size - m)).
  - assert (0 <= channel_size (m_nChannel packet) <= 2) as Hcs by (unfold channel_size; repeat case_match; lia).
    destruct (Z.eqb_spec m 0); [lia|].
    destruct (mem_update_in (world r1) blk (h + hs + m + (-1 - channel_size (m_nChannel packet)))
      (1 + channel_size (m_nChannel packet)) (fun w => put_next_header w packet) b1) as (b2 & E2 & El2);
      [done|lia|lia|lia|intros old Ho; by apply put_next_header_in|].
    rewrite E2. cbv beta iota.
    pose proof (write_sent_by r1 blk b1 b2 Hb1 El2) as H3.
    eapply safe_mono; [|intros res; apply sends_or_ends_trans; eapply sent_by_trans; [exact HW|exact H3]].
    replace (h + hs + m) with (h + hs + m + (-1 - channel_size (m_nChannel packet)) + (1 + channel_size (m_nChannel packet)))
      at 2 by lia.
    eapply IH; try done; [by eapply sent_by_tidy|cbn; by rewrite lookup_insert_eq|lia..].
  - eapply safe_mono; [|intros res; by apply sends_or_ends_trans].
    rewrite <- (Z.add_0_r (h + hs + m)) at 1. 
    destruct fuel; cbn [send_loop]; replace (size - m + 0 =? 0) with true by lia; cbn; left; apply sent_by_refl.
Qed.

(** A packet whose body, with room for the header, lies in a block. *)
Record in_block (r : RTMP) (packet : RTMPPacket) (blk : Z) (b : buf) : Prop := {
  ib_block : heap (world r) !! blk = Some b;
  ib_body : exists off, m_body packet = Some (mkPtr blk off) /\ RTMP_MAX_HEADER_SIZE <= off /\
    off + m_nBodySize packet <= zlen b;
  ib_size : 0 <= m_nBodySize packet < 2 ^ 31;
  ib_fmt : 0 <= m_headerType packet <= 3;
  ib_channel : 0 <= m_nChannel packet <= 65599;
  ib_type : 0 <= m_packetType packet < 256;
  ib_invoke : m_packetType packet = RTMP_PACKET_TYPE_INVOKE -> 3 <= m_nBodySize packet
}.

Lemma grow_out_sent_by ob r ch : sent_by ob r (grow_out r ch).
Proof. unfold grow_out. case_match; (constructor; [constructor|..]); cbn; eauto; lia. Qed.

Lemma channels_out_sent_by ob r v : sent_by ob r (set_vecChannelsOut v r).
Proof. constructor; [constructor|..]; cbn; eauto; lia. Qed.

Lemma in_block_sent r r' packet blk b : in_block r packet blk b -> sent_by (Some blk) r r' ->
  exists b', in_block r' packet blk b'.
Proof.
  intros [Hb (off & Hp & Ho & Hl)] Hs. destruct (fr_block _ _ _ (sy_frame _ _ _ Hs) _ _ eq_refl Hb) as (b' & Hb' & E).
  exists b'. constructor; try done. exists off. split_and!; [done..|lia].
Qed.

Lemma in_block_type r packet blk b fmt : 0 <= fmt <= 3 -> in_block r packet blk b ->
  in_block r (set_headerType fmt packet) blk b.
Proof. intros ? []. constructor; done. Qed.

Lemma queue_call_safe r packet blk b :
  in_block r packet blk b -> exists r', queue_call r packet false = Done r' /\ r' = r.
Proof.
  intros [Hb (off & Hp & Ho & Hl) Hsz Hf Hc Ht Hi]. unfold queue_call, RTMP_MAX_HEADER_SIZE in *.
  destruct (Z.eqb_spec (m_packetType packet) RTMP_PACKET_TYPE_INVOKE); [|by exists r].
  specialize (Hi e). rewrite Hp. cbn [p_blk p_off]. rewrite Hb. cbv [lift]. unfold AMF_DecodeString, AMF_DecodeInt16.
  do 2 rd_step. by exists r.
Qed.

Lemma header_size_bound fmt ch t :
  0 <= fmt <= 3 -> 1 <= header_size (header_of fmt) (channel_size ch) t <= RTMP_MAX_HEADER_SIZE.
Proof.
  intros H. pose proof (header_size_range fmt ch t H). unfold RTMP_MAX_HEADER_SIZE in *.
  unfold header_size in *. assert (1 <= header_of fmt).
  { assert (fmt = 0 \/ fmt = 1 \/ fmt = 2 \/ fmt = 3) as [-> | [-> | [-> | ->]]] by lia; by vm_compute. }
  assert (0 <= channel_size ch) by (unfold channel_size; repeat case_match; lia).
  split; [case_match; lia|lia].
Qed.

Lemma SendPacket_safe r packet blk b :
  tidy k r -> in_block r packet blk b ->
  safe (RTMP_SendPacket_with close r packet false)
    (fun '(ok, _, r') => sends_or_ends (Some blk) r (ok, r')).
Proof.
  intros Hr Hib. unfold RTMP_SendPacket_with.
  rewrite (proj2 (Z.ltb_ge _ 0)) by apply (ib_channel _ _ _ _ Hib).
  set (r0 := grow_out r (m_nChannel packet)).
  pose proof (grow_out_sent_by (Some blk) r (m_nChannel packet)) as H0. fold r0 in H0.
  pose proof (compress_type (m_vecChannelsOut r0 !! m_nChannel packet) packet) as Ec.
  pose proof (compress_range (m_vecChannelsOut r0 !! m_nChannel packet) packet (ib_fmt _ _ _ _ Hib)) as Hfmt.
  destruct (compress _ packet) as [packet' last]. cbn [fst] in Ec, Hfmt.
  set (fmt := m_headerType packet') in *.
  pose proof (in_block_type _ _ _ _ fmt Hfmt Hib) as Hib'. rewrite <- Ec in Hib'. clear Ec.
  destruct (in_block_sent _ _ _ _ _ Hib' H0) as [b0 Hib0].
  subst fmt.
  rewrite (proj2 (Z.ltb_ge 3 _)) by lia. rewrite packetSize_header_of by done. cbn [lift].
  destruct (ib_body _ _ _ _ Hib0) as (off & Hp & Ho & Hl). rewrite Hp. cbv beta iota zeta.
  set (t := u32 (m_nTimeStamp packet' - last)). set (ch := m_nChannel packet').
  pose proof (header_size_bound _ ch t Hfmt) as Hhs.
  set (hs := header_size (header_of (m_headerType packet')) (channel_size ch) t) in *.
  unfold ptr_add. cbn [p_blk p_off].
  destruct (mem_update_in (world r0) blk (off + - hs) hs
    (fun w => put_header w packet' (header_of (m_headerType packet')) t) b0) as (b1 & E1 & El1);
    [apply Hib0|lia|lia|pose proof (ib_size _ _ _ _ Hib0); lia| |].
  { intros old Hold. rewrite (put_header_writes old packet' (m_headerType packet') ch t); try done;
      [|apply Hib0..|fold hs; lia].
    eexists. split; [done|]. fold hs.
    rewrite zlen_app, zlen_drop by lia. rewrite zlen_app, zlen_basic_header.
    pose proof (zlen_message_header (m_headerType packet') t (m_nBodySize packet') (m_packetType packet')
      (m_nInfoField2 packet') Hfmt) as Hm. unfold hs, header_size in *. lia. }
  change (world (set_world (world r0) r0)) with (world r0). rewrite E1. cbv beta iota.
  pose proof (write_sent_by r0 blk b0 b1 (ib_block _ _ _ _ Hib0) El1) as H1.
  pose proof (sent_by_trans _ _ _ _ H0 H1) as H01.
  rewrite s32_small by apply Hib0. set (r1 := set_world _ r0) in *.
  change (set_world _ (set_world (world r0) r0)) with r1.
  change (m_outChunkSize (set_world (world r0) r0)) with (m_outChunkSize r0).
  pose proof (sent_by_tidy _ _ _ _ H01 Hr) as Hr1.
  pose proof (send_loop_safe packet' blk (Z.to_nat (m_nBodySize packet') + 2) r1 b1 (off + - hs) hs
    (m_nBodySize packet') (m_outChunkSize r0) Hfmt) as HL.
  replace (off + - hs + hs) with off in HL by lia.
  unfold RTMP_MAX_HEADER_SIZE in *.
  specialize (HL (ib_channel _ _ _ _ Hib0) Hr1 ltac:(cbn; by rewrite lookup_insert_eq) ltac:(lia) ltac:(lia)
    ltac:(apply Hib0) ltac:(apply Hr1) ltac:(lia) ltac:(lia)).
  safe_in HL. destruct a as [wrote r2]. cbv beta iota.
  destruct HL as [HL|[Ew HL]]; cbn [fst snd] in *.
  2: { subst wrote. right. split; [done|]. by eapply ends_sent. }
  pose proof (sent_by_trans _ _ _ _ H01 HL) as H02.
  destruct wrote; cbn [negb]; [|left; exact H02].
  destruct (in_block_sent _ _ _ _ _ Hib' H02) as [b2 Hib2].
  destruct (queue_call_safe _ _ _ _ Hib2) as (r3 & -> & ->). cbn. left. cbn.
  eapply sent_by_trans; [exact H02|]. apply channels_out_sent_by.
Qed.

(** A message on the stack: the body is written within the array, and when it does not
    fit the code checks for that. *)
Definition fills (checked : bool) (room : Z) (packet : Z -> ptr -> RTMPPacket)
    (body : buf -> Z -> enc_result) : Prop :=
  forall old, zlen old = room -> exists n new, body old room = Some (n, new) /\ zlen new = room /\
    match n with
    | None => checked = true
    | Some n => forall q, m_body (packet n q) = Some q /\ 0 <= m_nBodySize (packet n q) <= room /\
        0 <= m_headerType (packet n q) <= 3 /\ 0 <= m_nChannel (packet n q) <= 65599 /\
        0 <= m_packetType (packet n q) < 256 /\
        (m_packetType (packet n q) = RTMP_PACKET_TYPE_INVOKE -> 3 <= m_nBodySize (packet n q))
    end.

Lemma fresh_sent_by r n v :
  sent_by None r (set_world (set_heap (<[next_blk (world r) := v]> (heap (snd (fresh (world r) n))))
    (snd (fresh (world r) n))) r).
Proof.
  constructor; [constructor|..]; cbn; eauto; try lia; try by intros.
  - intros b Hb _. by rewrite !lookup_insert_ne by lia.
  - intros H b Hb. destruct (decide (b = next_blk (world r))) as [->|Hne]; [lia|].
    rewrite !lookup_insert_ne in Hb by done. specialize (H b Hb). lia.
Qed.

Lemma is_Some_delete (h : gmap Z buf) i b : is_Some (delete i h !! b) -> is_Some (h !! b).
Proof. intros [x Hx]. apply lookup_delete_Some in Hx as [_ Hx]. by exists x. Qed.

(** The array is gone at the end. *)
Lemma release_sent_by r r1 r2 q :
  p_blk q = next_blk (world r) -> sent_by None r r1 -> sent_by (Some (p_blk q)) r1 r2 ->
  next_blk (world r) < next_blk (world r1) ->
  sent_by None r (set_world (release (world r2) q) r2).
Proof.
  intros Hq [[]] [[]] Hn. constructor; [constructor|..]; cbn; try (intuition congruence); try lia.
  - intros b Hb _. rewrite lookup_delete_ne by lia. rewrite fr_heap1, fr_heap0 by (done || lia || (intros [=]; lia)). done.
  - intros H b Hb. apply is_Some_delete in Hb. apply fr_fresh1; [|done]. by apply fr_fresh0.
Qed.

Lemma release_ends r r' q : ends r r' -> ends r (set_world (release (world r') q) r').
Proof.
  intros []. constructor; try done.
  - intros o p Ho. apply (en_owns0 o p). inversion Ho; subst; by econstructor.
  - intros b Hb. cbn in *. apply en_fresh0. by eapply is_Some_delete.
Qed.

Lemma send_stack_safe r pbuf checked packet body :
  tidy k r -> RTMP_MAX_HEADER_SIZE <= pbuf < 2 ^ 31 -> fills checked (pbuf - RTMP_MAX_HEADER_SIZE) packet body ->
  safe (send_stack close r pbuf checked packet body false) (sends_or_ends None r).
Proof.
  intros Hr Hp Hfill. unfold send_stack, RTMP_MAX_HEADER_SIZE in *. unfold fresh at 1. cbv beta iota zeta.
  set (blk := next_blk (world r)). set (w := mkWorld _ _ _ _ _ _ _). unfold ptr_add. cbn [p_blk p_off].
  set (b0 := replicate (Z.to_nat pbuf) 0). assert (zlen b0 = pbuf) as Eb0 by (unfold b0; rewrite zlen_replicate; lia).
  assert (heap w !! blk = Some b0) as Hb0 by (cbn; by rewrite lookup_insert_eq).
  unfold mem_read. cbn [p_blk p_off]. rewrite Hb0. destruct (rdn_in b0 (0 + 18) (pbuf - 18)) as (old & -> & Hold); [lia..|].
  cbn [lift]. destruct (Hfill old Hold) as (n & new & -> & Hnew & Hn). cbn [lift].
  destruct (mem_write_in w blk (0 + 18) new b0 Hb0) as (b1 & -> & Eb1); [lia|lia|]. cbv beta iota.
  pose proof (fresh_sent_by r pbuf b1) as H1. fold blk in H1. change (snd (fresh (world r) pbuf)) with w in H1.
  set (r1 := set_world _ r) in *. pose proof (sent_by_tidy _ _ _ _ H1 Hr) as Hr1.
  assert (next_blk (world r) < next_blk (world r1)) as Hlt by (cbn; lia).
  destruct n as [m|].
  - destruct (Hn (mkPtr blk (0 + 18))) as (Q1 & Q2 & Q3 & Q4 & Q5 & Q6).
    assert (in_block r1 (packet m (mkPtr blk (0 + 18))) blk b1) as Hib.
    { constructor; try done; try lia; [cbn; by rewrite lookup_insert_eq|].
      exists (0 + 18). unfold RTMP_MAX_HEADER_SIZE. split_and!; [done|lia|lia]. }
    pose proof (SendPacket_safe r1 _ blk b1 Hr1 Hib) as HS. safe_in HS.
    destruct a as [[ok p'] r2]. cbn [safe]. destruct HS as [HS|[E1 HS]]; cbn [fst snd] in *.
    + left. cbn. by apply (release_sent_by r r1).
    + right. split; [done|]. cbn. apply release_ends. by eapply ends_sent.
  - rewrite Hn. cbn. left. cbn. apply (release_sent_by r r1 r1 (mkPtr blk 0)); try done. apply sent_by_refl.
Qed.
End sending_safe.

(** *** The messages of the end of a session *)

Lemma next_invoke_tidy k r : tidy (k + 1) r -> 0 <= k ->
  next_invoke r = Done (set_numInvokes (m_numInvokes r + 1) r).
Proof.
  intros [_ _ _ H] Hk. unfold next_invoke, int_add.
  by rewrite (proj2 (Z.leb_le _ _)), (proj2 (Z.ltb_lt _ _)) by lia.
Qed.

Lemma fields_owned r r' :
  m_vecChannelsIn r' = m_vecChannelsIn r -> m_write r' = m_write r -> m_read r' = m_read r ->
  world r' = world r -> owned r -> owned r'.
Proof.
  intros Hc Hw Hr Hd H.
  assert (forall o p, owns r' o p -> owns r o p) as Ho.
  { intros o p Hp. inversion Hp; subst; [rewrite Hc in *; by eapply owns_channel|rewrite Hw in *; by constructor|
      rewrite Hr in *; by constructor]. }
  constructor; rewrite ?Hd.
  - intros o p Hp. apply (ow_live r H o), Ho, Hp.
  - intros o1 o2 p1 p2 H1 H2. by eapply (ow_unique r H); apply Ho.
  - apply H.
Qed.

Lemma count_tidy k r : tidy (k + 1) r -> tidy k (set_numInvokes (m_numInvokes r + 1) r).
Proof. intros []. constructor; try done; [by apply (fields_owned r)|cbn; lia]. Qed.

(** The packet of an invocation with the number of its bytes. *)
Lemma call_fills checked room ch ht info ts (body : buf -> Z -> enc_result) :
  0 <= ht <= 3 -> 0 <= ch <= 65599 ->
  (forall old, zlen old = room -> exists n new, body old room = Some (n, new) /\ zlen new = room /\
     match n with None => checked = true | Some k => 3 <= k <= room end) ->
  fills checked room (stack_packet ch ht RTMP_PACKET_TYPE_INVOKE ts info) body.
Proof.
  intros Hh Hc H old Ho. destruct (H old Ho) as (n & new & E & Hl & Hn). exists n, new.
  split; [done|]. split; [done|]. destruct n as [k|]; [|done]. intros q. cbn. split_and!; (done || lia).
Qed.

Lemma wf_AVC_FCUnpublish : wf_str (AVC "FCUnpublish") = true.
Proof. by vm_compute. Qed.

Section closing.
Context (k : Z) (close : RTMP -> outcome RTMP) (Hclose : forall r, tidy k r -> safe (close r) (ends r)).

Definition ends_or_counts (r : RTMP) (res : bool * RTMP) : Prop :=
  sent_by None (set_numInvokes (m_numInvokes r + 1) r) (snd res) \/ fst res = false /\ ends r (snd res).

Lemma count_sends_or_ends r res :
  sends_or_ends None (set_numInvokes (m_numInvokes r + 1) r) res -> ends_or_counts r res.
Proof. intros [H|[E H]]; [by left|right]. split; [done|]. destruct H. by constructor. Qed.

Lemma SendFCUnpublish_safe r : tidy (k + 1) r -> 0 <= k ->
  safe (SendFCUnpublish_with close r) (ends_or_counts r).
Proof.
  intros Hr Hn. unfold SendFCUnpublish_with. rewrite (next_invoke_tidy k) by done. cbv beta iota.
  eapply safe_mono; [|apply count_sends_or_ends]. apply (send_stack_safe k); [done|by apply count_tidy|done|].
  apply call_fills; [done..|]. intros old Ho. set (txn := double_of_int _).
  assert (zlen (call_bytes (AVC "FCUnpublish") txn) = 24) as Hl by done.
  destruct (enc_seq_string _ (call_bytes (AVC "FCUnpublish") txn) (playpath (Link r)) old
    (1024 - RTMP_MAX_HEADER_SIZE) (enc_call_emits _ txn wf_AVC_FCUnpublish) (td_path _ r Hr) Ho)
    as (n & new & E & Hnew & Hk); [rewrite Hl; done|].
  exists n, new. split; [exact E|]. split; [done|]. destruct n; [|done]. rewrite Hl in Hk. lia.
Qed.

Lemma SendDeleteStream_safe r d : tidy (k + 1) r -> 0 <= k ->
  safe (SendDeleteStream_with close r d) (ends_or_counts r).
Proof.
  intros Hr Hn. unfold SendDeleteStream_with. rewrite (next_invoke_tidy k) by done. cbv beta iota.
  eapply safe_mono; [|apply count_sends_or_ends]. apply (send_stack_safe k); [done|by apply count_tidy|done|].
  apply call_fills; [done..|]. intros old Ho. set (txn := double_of_int _).
  assert (emits 0 (enc_seq (enc_call (AVC "deleteStream") txn) (fun w room => AMF_EncodeNumber w room d))
    (call_bytes (AVC "deleteStream") txn ++ AMF_NUMBER :: double_bytes d)) as He.
  { apply (enc_seq_emits 0); [by apply enc_call_emits|apply emits_number|done..]. }
  assert (zlen (call_bytes (AVC "deleteStream") txn ++ AMF_NUMBER :: double_bytes d) = 34) as Hl by done.
  rewrite He by (rewrite ?Hl; rewrite ?Ho; done). rewrite Hl. do 2 eexists. split; [done|].
  rewrite zlen_app, Hl, zlen_drop by (rewrite Ho; done). rewrite Ho. split; [done|]. done.
Qed.
End closing.

Lemma close_reset_tidy k r : tidy k r -> safe (close_reset r) (ends r).
Proof. intros []. by apply close_reset_safe. Qed.

(** A session during its end: [r'] is [r] after some of the messages. *)
Definition closing (j : Z) (r r' : RTMP) : Prop := tidy j r' /\ forall r'', ends r' r'' -> ends r r''.

Lemma closing_step j r r1 res :
  closing (j + 1) r r1 -> j <= 2 -> ends_or_counts r1 res -> closing j r (snd res).
Proof.
  intros [Hr1 H1] Hj [H|[_ H]].
  - split; [eapply sent_by_tidy; [exact H|by apply count_tidy]|]. intros r2 H2. apply H1.
    pose proof (ends_sent _ _ _ _ H H2) as []. by constructor.
  - split; [by eapply ends_tidy|]. intros r2 H2. apply H1. by eapply ends_trans.
Qed.

Lemma RTMP_Close_safe r : tidy 2 r -> safe (RTMP_Close r) (ends r).
Proof.
  intros Hr. unfold RTMP_Close. destruct (_ && _); [|apply close_reset_safe, Hr].
  set (r0 := set_stream_id 0 r).
  assert (closing 2 r r0) as H0.
  { split; [destruct Hr; constructor; try done; by apply (fields_owned r)|]. intros r2 []. by constructor. }
  assert (safe (if truthy (Z.land (protocol (Link r0)) RTMP_FEATURE_WRITE)
      then let! (_, r) := SendFCUnpublish_with close_reset r0 in Done r else Done r0) (closing 1 r)) as H1.
  { destruct (truthy _).
    - pose proof (SendFCUnpublish_safe 1 close_reset (close_reset_tidy 1) r0 (proj1 H0) ltac:(lia)) as H.
      safe_in H. destruct a as [ok r1]. cbn. by apply (closing_step 1 r r0 (ok, r1)).
    - cbn. destruct H0 as [[] H]. split; [|done]. constructor; try done. lia. }
  safe_in H1.
  pose proof (SendDeleteStream_safe 0 close_reset (close_reset_tidy 0) a (double_of_int (m_stream_id r))
    (proj1 H1) ltac:(lia)) as H.
  safe_in H. destruct a0 as [ok r1].
  pose proof (closing_step 0 r a (ok, r1) H1 ltac:(lia) H) as [Hr1 He]. cbn [snd] in *.
  eapply safe_mono; [apply close_reset_safe, Hr1|exact He].
Qed.

(** ** Reading *)

Lemma SendBytesReceived_safe r : tidy 2 r ->
  safe (SendBytesReceived r) (sends_or_ends None (set_nBytesInSent (m_nBytesIn r) r)).
Proof.
  intros Hr. unfold SendBytesReceived. set (r0 := set_nBytesInSent (m_nBytesIn r) r).
  assert (tidy 2 r0) as Hr0 by (destruct Hr; constructor; try done; by apply (fields_owned r)).
  assert (safe (send_stack RTMP_Close r0 256 false (fun _ => stack_packet 0x02 RTMP_PACKET_SIZE_MEDIUM
      RTMP_PACKET_TYPE_BYTES_READ_REPORT 0 0 4) (fun w room => AMF_EncodeInt32 w room (m_nBytesIn r)) false)
    (sends_or_ends None r0)) as H.
  { apply (send_stack_safe 2 RTMP_Close RTMP_Close_safe); [done..|].
    intros old Ho. rewrite emits_int32 by (rewrite ?Ho; done). do 2 eexists. split; [done|].
    rewrite zlen_app, zlen_drop by (rewrite Ho; done). rewrite Ho. split; [done|]. intros q. by cbn. }
  safe_in H. by destruct a as [ok r1].
Qed.

(** What has arrived and will arrive consists of bytes. *)
Definition event_bytes (e : recv_event) : Prop := match e with Received bs => bytes bs | _ => True end.
Definition fed (r : RTMP) : Prop := bytes (sb_data (m_sb r)) /\ Forall event_bytes (recvs (world r)).

(** [n] more bytes do not overflow the counters of the session. *)
Definition counters (r : RTMP) (n : Z) : Prop :=
  0 <= m_nBytesIn r /\ m_nBytesIn r + n < 2 ^ 30 /\ 0 <= m_nBytesInSent r < 2 ^ 30 /\
  - 2 ^ 31 <= m_nClientBW r < 2 ^ 31.

(** [r'] is [r] after the bytes [bs] were taken from the socket buffer. *)
Record read_by (ob : option Z) (bs : buf) (r r' : RTMP) : Prop := {
  rb_frame : frame ob r r';
  rb_fed : fed r';
  rb_counters : forall n, counters r (zlen bs + n) -> counters r' n
}.

Lemma read_by_trans ob a b r1 r2 r3 : read_by ob a r1 r2 -> read_by ob b r2 r3 -> read_by ob (a ++ b) r1 r3.
Proof.
  intros [] []. constructor; [by eapply frame_trans|done|]. intros n H. apply rb_counters1, rb_counters0.
  rewrite zlen_app in H. by rewrite Z.add_assoc.
Qed.

Lemma frame_widen ob r r' : owned r -> frame None r r' -> frame ob r r'.
Proof.
  intros Hr []. constructor; try done.
  - intros b Hb _. by apply fr_heap0.
  - intros b v _ Hv. exists v. rewrite fr_heap0; [done| |done]. apply (ow_fresh r Hr). by eexists.
Qed.

Lemma recv_loop_safe cap ctrlC evs : 0 <= cap -> Forall event_bytes evs ->
  safe (recv_loop cap evs ctrlC) (fun '(n, data, _, evs') => bytes data /\ Forall event_bytes evs' /\
    (1 <= n -> n = zlen data /\ arriving ctrlC evs = data ++ arriving ctrlC evs')).
Proof.
  intros Hc. induction evs as [|e evs IH]; intros He; [done|]. inversion He as [|? ? He1 He2]; subst.
  destruct e as [bs| | |]; cbn [recv_loop].
  - assert (bytes (take (Z.to_nat cap) bs) /\ bytes (drop (Z.to_nat cap) bs)) as [Ht Hd]
      by (apply Forall_app; by rewrite take_drop). cbn.
    split; [done|]. split.
    { destruct (drop (Z.to_nat cap) bs) eqn:E; [done|]. by constructor. }
    intros Hn. split; [done|]. destruct bs as [|x bs]; [by rewrite take_nil in Hn|]. set (l := x :: bs) in *.
    rewrite <- (take_drop (Z.to_nat cap) l) at 1. rewrite <- app_assoc. f_equal.
    by destruct (drop (Z.to_nat cap) l).
  - destruct ctrlC; [done|]. by apply IH.
  - done.
  - done.
Qed.

Lemma Fill_safe ob r : sb_data (m_sb r) = [] -> fed r ->
  safe (RTMPSockBuf_Fill (m_sb r) (world r)) (fun '(ret, sb, w) =>
    let r1 := set_world w (set_sb sb r) in
    read_by ob [] r r1 /\ (1 <= ret -> 1 <= zlen (sb_data sb) /\ pending r = pending r1)).
Proof.
  intros Hd [Hb He]. unfold RTMPSockBuf_Fill. rewrite Hd. change (zlen (@nil Z)) with 0. ztests.
  pose proof (recv_loop_safe (RTMP_BUFFER_CACHE_SIZE - 1 - 0 - 0) (RTMP_ctrlC (world r)) (recvs (world r))
    ltac:(done) He) as H.
  safe_in H. destruct a as [[[n data] to] evs]. destruct H as (H1 & H2 & H3). cbn. split.
  - constructor; [constructor; cbn; eauto; lia|by split|]. intros m. by rewrite zlen_nil.
  - intros Hn. destruct (H3 Hn) as [-> Ea]. split; [done|]. unfold pending. cbn. by rewrite Hd, Ea.
Qed.

(** Room for [n] bytes where [ReadN] puts them. *)
Definition room_for (w : World) (ob : option Z) (d : dest) (n : Z) : Prop :=
  match d with
  | Local => True
  | At None => n <= 0
  | At (Some q) => ob = Some (p_blk q) /\ 0 <= p_off q /\
      exists b, heap w !! p_blk q = Some b /\ p_off q + n <= zlen b
  end.

Lemma room_for_frame r r' ob d n : frame ob r r' -> room_for (world r) ob d n -> room_for (world r') ob d n.
Proof.
  intros Hf. destruct d as [|[q|]]; cbn; try done. intros (Ho & Hq & b & Hb & Hl).
  split; [done|]. split; [done|]. destruct (fr_block _ _ _ Hf _ _ Ho Hb) as (b' & Hb' & E).
  exists b'. split; [done|lia].
Qed.

Lemma put_dest_safe r ob d off vs :
  room_for (world r) ob d (off + zlen vs) -> 0 <= off -> 0 < zlen vs ->
  exists w, put_dest (world r) d off vs = Done w /\ frame ob r (set_world w r) /\
    w = set_heap (heap w) (world r).
Proof.
  intros Hroom Ho Hv. destruct d as [|[q|]]; cbn in *; [| |lia].
  - exists (world r). split; [done|]. rewrite set_world_same. split; [apply frame_refl|by rewrite set_heap_same].
  - destruct Hroom as (-> & Hq & b & Hb & Hl). destruct q as [blk qoff]. cbn in *.
    destruct (mem_write_in (world r) blk (qoff + off) vs b Hb) as (b' & E & El); [lia..|].
    unfold ptr_add. cbn. rewrite E. eexists. split; [done|]. split; [|done].
    apply (sy_frame _ _ _ (write_sent_by r blk b b' Hb El)).
Qed.

(** [n] bytes were read, [data], or the session was left or ended with less. *)
Definition read_post (ob : option Z) (n : Z) (r : RTMP) (ok : bool) (data : buf) (r' : RTMP) : Prop :=
  if ok then zlen data = n /\ bytes data /\ read_by ob data r r' /\ pending r = data ++ pending r'
  else exists data r1, zlen data <= n /\ read_by ob data r r1 /\ (r' = r1 \/ ends r1 r').

Lemma read_post_trans ob n data0 r r1 ok data r' :
  zlen data0 <= n -> bytes data0 -> read_by ob data0 r r1 -> pending r = data0 ++ pending r1 ->
  read_post ob (n - zlen data0) r1 ok data r' -> read_post ob n r ok (data0 ++ data) r'.
Proof.
  intros Hn Hb Hr Hp H. destruct ok; cbn in *.
  - destruct H as (Hl & Hd & Hr' & Hp'). split_and!; [rewrite zlen_app; lia|by apply Forall_app|
      by eapply read_by_trans|by rewrite Hp, Hp', app_assoc].
  - destruct H as (d & r2 & Hl & Hr2 & H). exists (data0 ++ d), r2. rewrite zlen_app.
    split; [lia|]. split; [by eapply read_by_trans|done].
Qed.

Lemma counters_le r n m : m <= n -> counters r n -> counters r m.
Proof. unfold counters. lia. Qed.

Lemma report_due_safe r n : counters r n -> exists due, report_due r = Done due.
Proof.
  intros (_ & _ & Hs & Hc). unfold report_due. destruct (m_bSendCounter r); [|by eexists].
  assert (- 2 ^ 28 <= Z.quot (m_nClientBW r) 10 <= 2 ^ 28) as Hq by (split; [apply Z.quot_le_lower_bound|apply Z.quot_le_upper_bound]; lia).
  unfold int_add. rewrite (proj2 (Z.leb_le _ _)), (proj2 (Z.ltb_lt _ (2 ^ 31))) by lia. by eexists.
Qed.

(** After [k] bytes were taken: the report, when it is due. *)
Lemma report_safe ob r n : tidy 2 r -> fed r -> counters r n -> 0 <= n ->
  safe (SendBytesReceived r) (fun '(ok, r') =>
    if ok then read_by ob [] r r' /\ pending r' = pending r
    else exists r1, read_by ob [] r r1 /\ (r' = r1 \/ ends r1 r')).
Proof.
  intros Hr Hf Hc Hn. pose proof (SendBytesReceived_safe r Hr) as H. safe_in H. destruct a as [ok r'].
  set (r0 := set_nBytesInSent (m_nBytesIn r) r) in *.
  assert (read_by ob [] r r0) as H0.
  { constructor; [constructor; cbn; eauto; lia|done|]. intros m Hm. rewrite zlen_nil in Hm. unfold counters in *. cbn. lia. }
  assert (owned r0) as Ho by (eapply frame_owned; [apply H0|apply Hr]).
  assert (sent_by None r0 r' -> read_by ob [] r r' /\ pending r' = pending r) as Hsent.
  { intros [Hfr Hsb [Hc1 Hc2] Hrv]. split.
    - constructor.
      + eapply frame_trans; [apply H0|by apply frame_widen].
      + unfold fed. rewrite Hsb, Hrv. exact Hf.
      + intros m Hm. apply (rb_counters _ _ _ _ H0) in Hm. unfold counters in *.
        rewrite Hc1, Hc2, (proj1 (fr_bandwidth _ _ _ Hfr)). exact Hm.
    - unfold pending. by rewrite Hsb, Hrv, (fr_ctrlC _ _ _ Hfr). }
  destruct H as [H|[E1 H]]; cbn [fst snd] in *.
  - destruct ok; [by apply Hsent|]. exists r'. split; [by apply Hsent|by left].
  - subst ok. exists r0. split; [exact H0|by right].
Qed.

Lemma read_loop_safe ob d fuel : forall n acc r,
  tidy 2 r -> fed r -> counters r n -> 0 <= n -> room_for (world r) ob d (zlen acc + n) ->
  safe (read_loop fuel d n acc r) (fun '(k, bs, r') => exists ok data,
    read_post ob n r ok data r' /\
    if ok then bs = acc ++ data /\ k = zlen acc + n else 0 <= k < zlen acc + n).
Proof.
  assert (forall n acc r, fed r -> 0 <= n -> n <= 0 -> exists ok data, read_post ob n r ok data r /\
    if ok then acc = acc ++ data /\ zlen acc = zlen acc + n else 0 <= zlen acc < zlen acc + n) as Hnone.
  { intros n acc r Hf H0 Hn. exists true, []. cbn. rewrite app_nil_r, zlen_nil.
    split_and!; (done || lia || idtac). constructor; [apply frame_refl|done|]. intros m. by rewrite zlen_nil. }
  induction fuel as [|fuel IH]; intros n acc r Hr Hf Hc Hn Hroom; cbn [read_loop];
    pose proof (zlen_nonneg acc); (destruct (Z.leb_spec n 0); [by apply Hnone|]); [done|].
  assert (safe (if zlen (sb_data (m_sb r)) =? 0 then
      let! (ret, sb, w) := RTMPSockBuf_Fill (m_sb r) (world r) in Done (1 <=? ret, set_world w (set_sb sb r))
      else Done (true, r)) (fun '(filled, r1) => read_by ob [] r r1 /\
        (filled = true -> 1 <= zlen (sb_data (m_sb r1)) /\ pending r = pending r1))) as HF.
  { destruct (Z.eqb_spec (zlen (sb_data (m_sb r))) 0) as [E0|E0].
    - assert (sb_data (m_sb r) = []) as Ed
        by (destruct (sb_data (m_sb r)); [done|rewrite zlen_cons in E0; pose proof (zlen_nonneg l); lia]).
      pose proof (Fill_safe ob r Ed Hf) as HF. safe_in HF. destruct a as [[ret sb] w]. cbn.
      destruct HF as [H1 H2]. split; [done|]. intros Hret. apply Z.leb_le in Hret. by apply H2.
    - cbn. split; [|intros _; split; [|done]; pose proof (zlen_nonneg (sb_data (m_sb r))); lia].
      constructor; [apply frame_refl|done|]. intros m. by rewrite zlen_nil. }
  safe_in HF. destruct a as [filled r1]. destruct HF as [Hr1 Hfill]. cbv beta iota.
  pose proof (frame_tidy _ _ _ _ (rb_frame _ _ _ _ Hr1) Hr) as Ht1.
  assert (forall r2, r2 = r1 \/ ends r1 r2 -> read_post ob n r false [] r2) as Hstop.
  { intros r2 H2. cbn. exists [], r1. rewrite zlen_nil. by split_and!. }
  destruct filled; cbn [negb].
  2: { destruct (sb_timedout (m_sb r1)).
    - cbn. exists false, []. split; [|lia]. apply Hstop. by left.
    - pose proof (RTMP_Close_safe r1 Ht1) as HC. safe_in HC. cbn. exists false, []. split; [|lia].
      apply Hstop. by right. }
  destruct (Hfill eq_refl) as [Hlen Hpend].
  set (k := Z.min n (zlen (sb_data (m_sb r1)))). assert (1 <= k <= n) as Hk by lia.
  rewrite (proj2 (Z.leb_gt k 0)) by lia.
  set (data := take (Z.to_nat k) (sb_data (m_sb r1))).
  assert (zlen data = k) as Hdl by (unfold data; rewrite zlen_take; lia).
  pose proof (room_for_frame _ _ _ _ _ (rb_frame _ _ _ _ Hr1) Hroom) as Hroom1.
  destruct (put_dest_safe r1 ob d (zlen acc) data) as (w & -> & Hfw & Ew); [|lia|lia|].
  { rewrite Hdl. destruct d as [|[q|]]; cbn in *; [done| |lia]. destruct Hroom1 as (? & ? & b & ? & ?).
    split_and!; try done. exists b. split; [done|lia]. }
  cbv beta iota.
  assert (counters r1 n) as Hc1 by (apply (rb_counters _ _ _ _ Hr1); by rewrite zlen_nil).
  assert (int_add (m_nBytesIn r1) k = Done (m_nBytesIn r1 + k)) as ->.
  { unfold counters, int_add in *. by rewrite (proj2 (Z.leb_le _ _)), (proj2 (Z.ltb_lt _ (2 ^ 31))) by lia. }
  cbv beta iota.
  set (r2 := set_nBytesIn (m_nBytesIn r1 + k) (set_sb (sb_advance k (m_sb r1)) (set_world w r1))).
  assert (read_by ob data r1 r2 /\ pending r1 = data ++ pending r2) as [Hr2 Hp2].
  { split.
    - constructor.
      + destruct Hfw. by constructor.
      + destruct (rb_fed _ _ _ _ Hr1) as [Hb He]. unfold fed. cbn. split; [|by rewrite Ew].
        apply Forall_drop, Hb.
      + intros m Hm. rewrite Hdl in Hm. unfold counters in *. cbn. lia.
    - unfold pending. cbn. rewrite Ew. cbn. rewrite app_assoc. f_equal. unfold data. by rewrite take_drop. }
  assert (bytes data) as Hdb by (destruct (rb_fed _ _ _ _ Hr1) as [Hb _]; apply Forall_take, Hb).
  assert (tidy 2 r2) as Ht2 by (eapply frame_tidy; [apply Hr2|done]).
  assert (counters r2 (n - k)) as Hc2.
  { apply (rb_counters _ _ _ _ Hr2). rewrite Hdl. by replace (k + (n - k)) with n by lia. }
  pose proof (read_by_trans _ _ _ _ _ _ Hr1 Hr2) as Hr02. cbn [app] in Hr02.
  assert (pending r = data ++ pending r2) as Hp02 by congruence.
  destruct (report_due_safe r2 (n - k) Hc2) as [due ->]. cbv beta iota.
  assert (forall r3, read_by ob [] r2 r3 -> pending r3 = pending r2 ->
    safe (read_loop fuel d (n - k) (acc ++ data) r3) (fun '(k, bs, r') => exists ok data,
    read_post ob n r ok data r' /\
    if ok then bs = acc ++ data /\ k = zlen acc + n else 0 <= k < zlen acc + n)) as Hnext.
  { intros r3 Hr3 Hp3. pose proof (read_by_trans _ _ _ _ _ _ Hr02 Hr3) as Hr03. rewrite app_nil_r in Hr03.
    eapply safe_mono; [apply (IH (n - k) (acc ++ data) r3)|].
    - eapply frame_tidy; [apply Hr3|done].
    - apply Hr3.
    - apply (rb_counters _ _ _ _ Hr3). by rewrite zlen_nil.
    - lia.
    - eapply room_for_frame; [apply Hr03|]. rewrite zlen_app, Hdl. by replace (zlen acc + k + (n - k)) with (zlen acc + n) by lia.
    - intros [[m bs] r'] (ok & dd & Hpost & Hm). exists ok, (data ++ dd). split.
      + eapply (read_post_trans _ _ _ _ r3); [lia|done|done|congruence|by rewrite Hdl].
      + rewrite zlen_app, Hdl in Hm. destruct ok; [destruct Hm as [-> ->]; rewrite app_assoc; split; [done|lia]|lia]. }
  destruct due.
  - pose proof (report_safe ob r2 (n - k) Ht2 (rb_fed _ _ _ _ Hr2) Hc2 ltac:(lia)) as HS. safe_in HS.
    destruct a as [ok r3]. destruct ok; [destruct HS as [H3 H4]; by apply Hnext|]. cbn. exists false, []. split; [|lia].
    destruct HS as (r4 & H4 & H5). pose proof (read_by_trans _ _ _ _ _ _ Hr02 H4) as H04. rewrite app_nil_r in H04.
    exists data, r4. split_and!; [lia|done|done].
  - apply Hnext; [|done]. constructor; [apply frame_refl|apply Hr2|]. intros m. by rewrite zlen_nil.
Qed.

(** ** Packets

    The body of a packet that is being read lies in a block of its size. *)
Definition body_sound (w : World) (p : RTMPPacket) : Prop :=
  0 <= m_nBodySize p < 2 ^ 24 /\ m_chunk p = None /\
  match m_body p with
  | None => m_nBodySize p = 0 -> m_nBytesRead p = 0
  | Some q => p_off q = RTMP_MAX_HEADER_SIZE /\ 0 <= m_nBytesRead p <= m_nBodySize p /\
      exists b, heap w !! p_blk q = Some b /\ zlen b = RTMP_MAX_HEADER_SIZE + m_nBodySize p
  end.

(** The invariant of a session. *)
Record sound (r : RTMP) : Prop := {
  so_tidy : tidy 2 r;
  so_fed : fed r;
  so_stored : forall ch q, m_vecChannelsIn r !! ch = Some q -> m_nChannel q = ch /\ body_sound (world r) q
}.

Lemma body_sound_frame ob r r' p :
  frame ob r r' -> owned r -> body_sound (world r) p -> body_sound (world r') p.
Proof.
  intros Hf Hr (Hs & Hc & Hb). split; [done|]. split; [done|]. destruct (m_body p) as [q|]; [|done].
  destruct Hb as (Ho & Hn & b & Hb & Hl). split; [done|]. split; [done|].
  destruct (decide (ob = Some (p_blk q))) as [E|Hne].
  - destruct (fr_block _ _ _ Hf _ _ E Hb) as (b' & Hb' & El). exists b'. split; [done|lia].
  - exists b. rewrite (fr_heap _ _ _ Hf); [done| |done]. apply (ow_fresh r Hr). by eexists.
Qed.

Lemma sound_frame ob r r' : frame ob r r' -> fed r' -> sound r -> sound r'.
Proof.
  intros Hf Hfed []. constructor; [by eapply frame_tidy|done|]. rewrite (proj1 (fr_channels _ _ _ Hf)).
  intros ch q Hq. destruct (so_stored0 ch q Hq) as [Hc Hb]. split; [done|].
  eapply body_sound_frame; [exact Hf|apply so_tidy0|done].
Qed.

Lemma sound_read ob data r r' : read_by ob data r r' -> sound r -> sound r'.
Proof. intros []. by apply (sound_frame ob). Qed.

Lemma sound_ends r r' : ends r r' -> sound r -> sound r'.
Proof.
  intros He []. pose proof (ends_tidy _ 2 _ _ He so_tidy0 ltac:(lia)) as Ht. destruct He. constructor; [done| |].
  - split; [by rewrite en_data0; constructor|]. rewrite en_recvs0. apply so_fed0.
  - intros ch q Hq. by rewrite en_channels0, lookup_empty in Hq.
Qed.

Lemma ReadN_sound ob d n r : sound r -> counters r n -> 0 <= n -> room_for (world r) ob d n ->
  safe (ReadN r d n) (fun '(k, bs, r') =>
    if k =? n then zlen bs = n /\ bytes bs /\ read_by ob bs r r' /\ pending r = bs ++ pending r'
    else 0 <= k < n /\ sound r').
Proof.
  intros Hr Hc Hn Hroom. unfold ReadN. set (r0 := set_sb _ r).
  assert (read_by ob [] r r0 /\ pending r = pending r0) as [H0 Hp0].
  { split; [|done]. constructor; [constructor; cbn; eauto; lia|apply (so_fed r Hr)|]. intros m. by rewrite zlen_nil. }
  pose proof (sound_read _ _ _ _ H0 Hr) as Hr0.
  pose proof (read_loop_safe ob d (Z.to_nat n) n [] r0 (so_tidy _ Hr0) (so_fed _ Hr0)) as H.
  change (zlen (@nil Z)) with 0 in H. cbn [Z.add] in H. specialize (H ltac:(apply (rb_counters _ _ _ _ H0); by rewrite zlen_nil) Hn Hroom).
  safe_in H. destruct a as [[k bs] r']. destruct H as (ok & data & Hpost & Hk). cbn.
  destruct ok; cbn in Hpost.
  - destruct Hk as [-> ->]. rewrite (proj2 (Z.eqb_eq _ _)) by lia. destruct Hpost as (Hl & Hb & Hrd & Hp).
    split_and!; [done..|eapply (read_by_trans _ [] data); done|by rewrite Hp0].
  - rewrite (proj2 (Z.eqb_neq _ _)) by lia. split; [lia|]. destruct Hpost as (d' & r1 & _ & Hrd & [-> | He]).
    + by eapply sound_read.
    + eapply sound_ends; [exact He|]. by eapply sound_read.
Qed.

(** What a read that was asked for nothing does. *)
Lemma ReadN_nothing r d n : n <= 0 -> exists r', ReadN r d n = Done (0, [], r') /\ forall ob, frame ob r r' /\
  pending r' = pending r /\ (fed r -> fed r') /\ forall m, counters r m -> counters r' m.
Proof.
  intros Hn. unfold ReadN. replace (Z.to_nat n) with 0%nat by lia. cbn [read_loop].
  rewrite (proj2 (Z.leb_le _ _)) by done. eexists. split; [done|]. intros ob.
  split; [constructor; cbn; eauto; lia|]. done.
Qed.

(** The packet in hand: nothing but its own channel refers to its body. *)
Definition in_hand (r : RTMP) (p : RTMPPacket) : Prop :=
  body_sound (world r) p /\
  forall q o p', m_body p = Some q -> owns r o p' -> p_blk p' = p_blk q -> o = Channel (m_nChannel p).

Lemma in_hand_frame ob r r' p : frame ob r r' -> owned r -> in_hand r p -> in_hand r' p.
Proof.
  intros Hf Hr [Hb Ho]. split; [by eapply body_sound_frame|]. intros q o p' Hq Hp'. eapply Ho; [done|].
  by eapply frame_owns.
Qed.

(** *** The header *)

(** The channel that the first bytes of a chunk name. *)
Definition channel_named (bs : buf) : option Z :=
  match bs with
  | b0 :: rest =>
      match Z.land b0 0x3f, rest with
      | 0, b1 :: _ => Some (b1 + 64)
      | 1, b1 :: b2 :: _ => Some (b1 + 256 * b2 + 64)
      | 0, _ | 1, _ => None
      | ch, _ => Some ch
      end
  | [] => None
  end.

Lemma read_channel_sound r p b0 :
  sound r -> counters r 2 -> byte b0 ->
  safe (read_channel r p b0) (fun '(ok, hbuf, p', r') =>
    if ok then exists bs ch, p' = set_nChannel ch (set_headerType (Z.shiftr (Z.land b0 0xc0) 6) p) /\
      zlen bs <= 2 /\ read_by None bs r r' /\ channel_named (b0 :: pending r) = Some ch
    else sound r').
Proof.
  intros Hr Hc Hb. unfold read_channel. cbn [m_nChannel set_nChannel].
  destruct (Z.eqb_spec (Z.land b0 0x3f) 0) as [E0|N0]; [|destruct (Z.eqb_spec (Z.land b0 0x3f) 1) as [E1|N1]].
  - pose proof (ReadN_sound None Local 1 r Hr ltac:(eapply counters_le; [|exact Hc]; lia) ltac:(lia) I) as H.
    safe_in H. destruct a as [[k bs] r']. destruct (Z.eqb_spec k 1) as [->|Hk]; cbn [negb]; [|apply H].
    destruct H as (Hl & Hbs & Hrd & Hp). destruct bs as [|b1 bs]; [done|]. cbn. exists (b1 :: bs), (b1 + 64).
    split_and!; [done|lia|done|]. rewrite Hp, E0. done.
  - pose proof (ReadN_sound None Local 2 r Hr Hc ltac:(lia) I) as H.
    safe_in H. destruct a as [[k bs] r']. destruct (Z.eqb_spec k 2) as [->|Hk]; cbn [negb]; [|apply H].
    destruct H as (Hl & Hbs & Hrd & Hp). destruct bs as [|b1 [|b2 bs]]; [done..|]. cbn. do 2 eexists.
    split_and!; [done| |exact Hrd|rewrite Hp, E1; cbn; rewrite Z.shiftl_mul_pow2 by lia; do 2 f_equal; lia]. lia.
  - cbn. exists [], (Z.land b0 0x3f). split_and!; [done|by rewrite zlen_nil; lia| |by destruct (Z.land b0 0x3f) as [|[ | |]|]].
    constructor; [apply frame_refl|apply Hr|]. intros m. by rewrite zlen_nil.
Qed.

Lemma fmt_range b0 : byte b0 -> 0 <= Z.shiftr (Z.land b0 0xc0) 6 <= 3.
Proof.
  intros H. apply (byte_case (fun b => (0 <=? Z.shiftr (Z.land b 0xc0) 6) && (Z.shiftr (Z.land b 0xc0) 6 <=? 3))) in H;
    [lia|by vm_compute].
Qed.

Lemma fmt_div b0 : byte b0 -> b0 `div` 64 = Z.shiftr (Z.land b0 0xc0) 6.
Proof.
  intros H. apply (byte_case (fun b => b `div` 64 =? Z.shiftr (Z.land b 0xc0) 6)) in H; [lia|by vm_compute].
Qed.

Lemma DecodeInt24_range b p n : AMF_DecodeInt24 b p = Done n -> bytes b -> 0 <= n < 2 ^ 24.
Proof.
  unfold AMF_DecodeInt24. intros H Hb.
  destruct (rd b p) as [c0|] eqn:E0; [|done]. destruct (rd b (p + 1)) as [c1|] eqn:E1; [|done].
  destruct (rd b (p + 2)) as [c2|] eqn:E2; [|done]. cbn in H. injection H as <-.
  apply rd_byte in E0, E1, E2; try done.
  assert (is_u 24 (Z.lor (Z.lor (Z.shiftl c0 16) (Z.shiftl c1 8)) c2)) as []; [|done].
  apply is_u_lor; [done|apply is_u_lor; [done|..]|]; [by apply (is_u_shiftl 24 8)|by apply (is_u_shiftl 24 8)|
    by apply (is_u_weaken 8)].
Qed.

(** The packet the header is applied to: that of the channel, or the caller's. *)
Lemma inherit_in_hand r p nSize :
  sound r -> in_hand r p -> m_body p = None ->
  exists p', inherit r p nSize = p' /\ in_hand r p' /\
    (m_body p' = None \/ exists q, m_vecChannelsIn r !! m_nChannel p = Some q /\ p' = q /\ nSize < RTMP_LARGE_HEADER_SIZE).
Proof.
  intros Hr Hp Hb. eexists. split; [done|]. unfold inherit.
  destruct (Z.eqb_spec nSize RTMP_LARGE_HEADER_SIZE).
  - split; [|by left]. destruct Hp as [Hs Ho]. split; [done|]. exact Ho.
  - destruct (Z.ltb_spec nSize RTMP_LARGE_HEADER_SIZE); [|split; [done|by left]].
    destruct (m_vecChannelsIn r !! m_nChannel p) as [q|] eqn:Eq; [|split; [done|by left]].
    destruct (so_stored r Hr _ _ Eq) as [Hch Hs]. split; [|right; by exists q].
    split; [done|]. intros b o p' Hbq Hp' E. rewrite Hch.
    eapply (ow_unique r (td_owned _ _ (so_tidy r Hr))); [exact Hp'|by eapply owns_channel|done].
Qed.

Lemma parse_header_sound r p header nSize :
  in_hand r p -> bytes header -> zlen header = Z.max 0 nSize -> nSize = 11 \/ nSize = 7 \/ nSize = 3 \/ nSize = 0 ->
  (7 <= nSize -> m_body p = None) ->
  exists p', parse_header (world r) p header nSize = Done (p', world r) /\ in_hand r p'.
Proof.
  intros Hp Hb Hl Hn Hnone.
  assert (forall d, 0 <= d -> d + 3 <= zlen header ->
    exists n, AMF_DecodeInt24 header d = Done n /\ 0 <= n < 2 ^ 24) as Hdec.
  { intros d H0 H3. destruct (rd_in header d ltac:(lia)) as [c0 E0], (rd_in header (d + 1) ltac:(lia)) as [c1 E1],
      (rd_in header (d + 2) ltac:(lia)) as [c2 E2].
    destruct (AMF_DecodeInt24 header d) as [n| |] eqn:E;
      [exists n; split; [done|by eapply DecodeInt24_range]|unfold AMF_DecodeInt24 in E; by rewrite E0, E1, E2 in E..]. }
  unfold parse_header. destruct Hp as [(Hs & Hc & Hbody) Ho].
  destruct (Z.leb_spec 3 nSize) as [H3|]; [|by exists p].
  destruct (Hdec 0) as (ts & -> & _); [lia..|]. cbv beta iota.
  destruct (Z.leb_spec 6 nSize) as [H6|]; [|by exists (set_nTimeStamp ts p)].
  destruct (Hdec 3) as (size & -> & Hsize); [lia..|]. cbv beta iota.
  specialize (Hnone ltac:(lia)). unfold RTMPPacket_Free. cbn [m_body set_nBytesRead set_nBodySize set_nTimeStamp].
  rewrite Hnone. cbv beta iota. rewrite (proj2 (Z.ltb_lt 6 nSize)) by lia.
  destruct (rd_in header 6 ltac:(lia)) as [ty ->]. cbn [lift].
  destruct (Z.eqb_spec nSize 11).
  - unfold DecodeInt32LE. destruct (rd_in header 7 ltac:(lia)) as [c0 ->], (rd_in header (7 + 1) ltac:(lia)) as [c1 ->],
      (rd_in header (7 + 2) ltac:(lia)) as [c2 ->], (rd_in header (7 + 3) ltac:(lia)) as [c3 ->]. cbn [lift].
    eexists. split; [done|]. split; [|cbn; by rewrite Hnone]. split; [done|]. cbn. by rewrite Hnone.
  - eexists. split; [done|]. split; [|cbn; by rewrite Hnone]. split; [done|]. cbn. by rewrite Hnone.
Qed.

Lemma read_extended_sound r p nSize :
  sound r -> in_hand r p -> counters r 4 ->
  safe (read_extended r p nSize) (fun '(ok, ext, p', r') =>
    if ok then in_hand r' p' /\ exists bs, zlen bs <= 4 /\ read_by None bs r r' else sound r').
Proof.
  intros Hr Hp Hc. unfold read_extended. destruct (_ && _).
  - pose proof (ReadN_sound None Local 4 r Hr Hc ltac:(lia) I) as H. safe_in H. destruct a as [[k bs] r'].
    destruct (Z.eqb_spec k 4) as [->|]; cbn [negb]; [|apply H]. destruct H as (Hl & Hb & Hrd & _).
    unfold AMF_DecodeInt32. do 4 rd_step. cbn. split.
    + assert (in_hand r' p) as [Hs Ho] by (eapply in_hand_frame; [apply Hrd|apply Hr|done]). by split.
    + exists bs. split; [lia|done].
  - cbn. split; [done|]. exists []. rewrite zlen_nil. split; [lia|].
    constructor; [apply frame_refl|apply Hr|]. intros m. by rewrite zlen_nil.
Qed.

(** *** The end of a chunk *)

(** What the caller gets: the body of a complete packet, which nothing of the session
    refers to, or no body. *)
Definition delivered (r : RTMP) (p : RTMPPacket) : Prop :=
  0 <= m_nBodySize p < 2 ^ 24 /\ m_chunk p = None /\
  match m_body p with
  | None => RTMPPacket_IsReady p = true -> m_nBodySize p = 0
  | Some q => RTMPPacket_IsReady p = true /\ p_off q = RTMP_MAX_HEADER_SIZE /\
      (exists b, heap (world r) !! p_blk q = Some b /\ zlen b = RTMP_MAX_HEADER_SIZE + m_nBodySize p) /\
      forall o p', owns r o p' -> p_blk p' <> p_blk q
  end.

Lemma owns_insert r r' ch q o p :
  m_vecChannelsIn r' = <[ch := q]> (m_vecChannelsIn r) -> m_write r' = m_write r -> m_read r' = m_read r ->
  owns r' o p ->
  o = Channel ch /\ (exists b, m_body q = Some b /\ p = ptr_add b (- RTMP_MAX_HEADER_SIZE)) \/
  owns r o p /\ o <> Channel ch.
Proof.
  intros Hc Hw Hr Ho. inversion Ho as [c q' b Hq Hb|b Hb|b Hf Hb]; subst.
  - rewrite Hc in Hq. destruct (decide (c = ch)) as [->|Hne].
    + rewrite lookup_insert_eq in Hq. injection Hq as <-. left. split; [done|]. by exists b.
    + rewrite lookup_insert_ne in Hq by done. right. split; [by eapply owns_channel|congruence].
  - right. split; [constructor; by rewrite <- Hw|done].
  - right. split; [constructor; by rewrite <- Hr|done].
Qed.

(** Storing a packet whose body nothing else refers to. *)
Lemma insert_sound r r' ch q :
  sound r -> m_vecChannelsIn r' = <[ch := q]> (m_vecChannelsIn r) -> m_write r' = m_write r ->
  m_read r' = m_read r -> world r' = world r -> m_outChunkSize r' = m_outChunkSize r ->
  Link r' = Link r -> m_numInvokes r' = m_numInvokes r -> m_sb r' = m_sb r ->
  m_nChannel q = ch -> body_sound (world r) q ->
  (forall b o p', m_body q = Some b -> owns r o p' -> p_blk p' = p_blk b -> o = Channel ch) ->
  sound r'.
Proof.
  intros Hr Hc Hw Hf Hd Ho Hl Hi Hsb Hch Hs Hown. destruct Hr as [[Hr Hout Hpath Hinv] [Hf1 Hf2] Hst].
  pose proof (fun o p => owns_insert r r' ch q o p Hc Hw Hf) as Hi'.
  constructor; [constructor| |].
  - constructor; rewrite ?Hd.
    + intros o p Hp. destruct (Hi' o p Hp) as [[-> (b & Hb & ->)]|[Hp' _]]; [|by apply (ow_live r Hr o)].
      destruct Hs as (_ & _ & Hs). rewrite Hb in Hs. destruct Hs as (Hoff & _ & v & Hv & _). cbn. rewrite Hoff.
      split; [done|by eexists].
    + intros o1 o2 p1 p2 H1 H2 E.
      destruct (Hi' _ _ H1) as [[-> (b1 & Hb1 & ->)]|[H1' N1]], (Hi' _ _ H2) as [[-> (b2 & Hb2 & ->)]|[H2' N2]].
      * done.
      * symmetry. by eapply Hown.
      * by eapply Hown.
      * by eapply (ow_unique r Hr).
    + apply Hr.
  - by rewrite Ho.
  - by rewrite Hl.
  - by rewrite Hi.
  - unfold fed. by rewrite Hsb, Hd.
  - rewrite Hc, Hd. intros c q' Hq'. destruct (decide (c = ch)) as [->|Hne].
    + rewrite lookup_insert_eq in Hq'. by injection Hq' as <-.
    + rewrite lookup_insert_ne in Hq' by done. by apply Hst.
Qed.

Lemma finish_sound r p :
  sound r -> in_hand r p -> (m_body p = None -> m_nBodySize p = 0) ->
  let (p', r') := finish_packet r p in sound r' /\ delivered r' p'.
Proof.
  intros Hr [Hs Ho] Hnone. unfold finish_packet. destruct (RTMPPacket_IsReady p) eqn:Er.
  - set (p0 := set_hasAbsTimestamp false (set_nBytesRead 0 (set_body None p))). split.
    + eapply (insert_sound r _ (m_nChannel p) p0); try done.
      destruct Hs as (Hsz & Hc & _). split; [exact Hsz|]. by split.
    + destruct Hs as (Hsz & Hc & Hb). split; [done|]. split; [done|]. cbn [m_body set_nTimeStamp].
      destruct (m_body p) as [q|] eqn:Eq; [|intros _; by apply Hnone].
      destruct Hb as (Hoff & _ & b & Hb & Hl). split; [exact Er|]. split; [done|]. split; [by exists b|].
      intros o p' Hp' E. eapply (owns_insert r _ (m_nChannel p) p0) in Hp'; [|done..].
      destruct Hp' as [[-> (b' & Hb' & _)]|[Hp' Hne]]; [done|]. apply Hne. by eapply Ho.
  - split.
    + by eapply (insert_sound r _ (m_nChannel p) p).
    + destruct Hs as (Hsz & Hc & Hb). split; [done|]. split; [done|]. cbn. intros E. unfold RTMPPacket_IsReady in *.
      cbn in E. congruence.
Qed.

(** The body is allocated with the first chunk, unless it is empty. *)
Lemma alloc_sound r p b0 :
  sound r -> in_hand r p ->
  exists p1 w1, (if (0 <? m_nBodySize p) && negb (bool_decide (is_Some (m_body p))) then
       let! (packet, w) := lift (RTMPPacket_Alloc (world r) p (m_nBodySize p)) in
       Done (set_headerType (Z.shiftr (Z.land b0 0xc0) 6) packet, w)
     else Done (p, world r)) = Done (p1, w1) /\
    read_by None [] r (set_world w1 r) /\ in_hand (set_world w1 r) p1 /\
    (m_body p1 = None -> m_nBodySize p1 = 0 /\ m_nBytesRead p1 = 0).
Proof.
  intros Hr [Hs Ho].
  assert (read_by None [] r r) as Hid.
  { constructor; [apply frame_refl|apply Hr|]. intros m. by rewrite zlen_nil. }
  destruct (m_body p) as [q|] eqn:Eq.
  { rewrite bool_decide_eq_true_2 by eauto. rewrite andb_false_r. exists p, (world r).
    rewrite set_world_same. split; [done|]. split; [done|]. split; [split; [done|by rewrite Eq]|congruence]. }
  rewrite bool_decide_eq_false_2 by (by intros []). destruct (Z.ltb_spec 0 (m_nBodySize p)) as [Hpos|Hpos].
  - cbn [andb negb]. unfold RTMPPacket_Alloc, calloc. destruct Hs as (Hsz & Hc & _).
    rewrite (proj2 (Z.ltb_ge _ 0)) by (unfold RTMP_MAX_HEADER_SIZE; lia). cbv beta iota zeta. unfold fresh. cbn [lift].
    do 2 eexists. split; [done|].
    set (v := replicate (Z.to_nat (m_nBodySize p + RTMP_MAX_HEADER_SIZE)) 0).
    assert (zlen v = m_nBodySize p + RTMP_MAX_HEADER_SIZE) as Hv
      by (unfold v, RTMP_MAX_HEADER_SIZE; rewrite zlen_replicate; lia).
    split; [|split; [split|]].
    + constructor; [constructor|..]; cbn; eauto; try lia; try by intros.
      * intros b Hb _. by rewrite lookup_insert_ne by lia.
      * intros H b Hb. destruct (decide (b = next_blk (world r))) as [->|Hne]; [lia|].
        rewrite lookup_insert_ne in Hb by done. specialize (H b Hb). lia.
      * apply Hr.
    + split; [done|]. split; [done|]. cbn. split; [done|]. split; [lia|]. exists v.
      rewrite lookup_insert_eq. split; [done|]. lia.
    + intros q o p' [= <-] Hp' E. cbn in E. destruct (so_tidy r Hr) as [Hown _ _ _].
      assert (owns r o p') as Hp'' by (inversion Hp'; subst; by econstructor).
      destruct (ow_live r Hown _ _ Hp'') as [_ Hl]. apply (ow_fresh r Hown) in Hl. lia.
    + done.
  - cbn [andb]. exists p, (world r). rewrite set_world_same. split; [done|]. split; [done|].
    split; [split; [done|by rewrite Eq]|]. intros _. split.
    + destruct Hs as (? & _ & _). lia.
    + destruct Hs as (? & _ & Hs). rewrite Eq in Hs. apply Hs. lia.
Qed.

Lemma read_body_sound r p hbuf b0 :
  sound r -> in_hand r p -> counters r (2 ^ 24) ->
  safe (read_body r p hbuf b0) (fun '(ok, p', r') => sound r' /\ (ok = true -> delivered r' p')).
Proof.
  intros Hr Hp Hcnt. unfold read_body. destruct (alloc_sound r p b0 Hr Hp) as (p1 & w1 & -> & Hr1 & Hp1 & Hnone).
  cbv beta iota. set (r1 := set_world w1 r) in *.
  pose proof (sound_read _ _ _ _ Hr1 Hr) as Hs1. destruct Hp1 as [Hb1 Ho1].
  assert (counters r1 (2 ^ 24)) as Hcnt1 by (apply (rb_counters _ _ _ _ Hr1); by rewrite zlen_nil).
  destruct Hb1 as (Hsz & Hck & Hb1).
  assert (0 <= m_nBytesRead p1 <= m_nBodySize p1) as Hrd.
  { destruct (m_body p1); [apply Hb1|]. destruct Hnone; [done|]. lia. }
  rewrite s32_small by lia. unfold raw_chunk. rewrite Hck. cbv beta iota. fold r1.
  set (nChunk := if _ <? _ then _ else _).
  assert (nChunk <= m_nBodySize p1 - m_nBytesRead p1) as Hn
    by (unfold nChunk; destruct (Z.ltb_spec (m_nBodySize p1 - m_nBytesRead p1) (m_inChunkSize r)); lia).
  set (ob := match m_body p1 with Some q => Some (p_blk q) | None => None end).
  set (data := match m_body p1 with Some q => _ | None => None end).
  assert (safe (ReadN r1 (At data) nChunk) (fun '(n, _, r2) =>
    sound r2 /\ (n = nChunk -> 0 <= nChunk /\ frame ob r1 r2))) as HR.
  { destruct (Z.leb_spec nChunk 0).
    - destruct (ReadN_nothing r1 (At data) nChunk) as (r2 & -> & H2); [done|]. cbn.
      destruct (H2 ob) as (Hf & _ & Hfed & _). split; [|intros <-; by split].
      apply (sound_frame ob r1); [done|by apply Hfed, Hs1|done].
    - pose proof (ReadN_sound ob (At data) nChunk r1 Hs1 ltac:(eapply counters_le; [|exact Hcnt1]; lia) ltac:(lia)) as HR.
      unfold ob, data in *. destruct (m_body p1) as [q|] eqn:Eq; [|destruct Hnone; [done|]; lia].
      destruct Hb1 as (Hoff & _ & b & Hb & Hl).
      unfold RTMP_MAX_HEADER_SIZE in Hoff, Hl.
      specialize (HR ltac:(cbn; split; [done|]; split; [lia|]; exists b; split; [done|lia])).
      safe_in HR. destruct a as [[n bs] r2]. cbn. destruct (Z.eqb_spec n nChunk).
      + destruct HR as (_ & _ & Hrb & _). split; [by eapply sound_read|]. intros _. split; [lia|apply Hrb].
      + by split; [apply HR|]. }
  safe_in HR. destruct a as [[n bs] r2]. destruct HR as [Hs2 Hok]. cbv beta iota.
  destruct (Z.eqb_spec n nChunk) as [En|]; cbn [negb]; [|by split].
  destruct (Hok En) as [H0 Hf].
  rewrite (uwrap_id 32) by (split; lia).
  set (p2 := set_nBytesRead (m_nBytesRead p1 + nChunk) p1).
  assert (in_hand r2 p2) as Hp2.
  { assert (in_hand r2 p1) as [(_ & _ & Hb2) Ho2].
    { eapply in_hand_frame; [exact Hf|apply Hs1|]. split; [|exact Ho1]. split; [exact Hsz|]. by split. }
    split; [|done]. split; [done|]. split; [done|]. unfold p2. cbn. destruct (m_body p1) as [q|].
    - destruct Hb2 as (Hoff & _ & Hb2). split_and!; [done|lia|lia|done].
    - destruct Hnone; [done|]. lia. }
  pose proof (finish_sound r2 p2 Hs2 Hp2) as HF. destruct (finish_packet r2 p2) as [p3 r3]. cbn.
  destruct HF as [HF1 HF2]; [|by split]. intros Hb. destruct (Hnone Hb). done.
Qed.

(** A header of medium size starts a new message; in the middle of a message of its channel
    it makes the code release the body that the channel still refers to (see [RtmpErrors]). *)
Definition no_restart (r : RTMP) : Prop :=
  forall b0 rest ch q, pending r = b0 :: rest -> b0 `div` 64 = 1 -> channel_named (pending r) = Some ch ->
  m_vecChannelsIn r !! ch = Some q -> m_body q = None.

Lemma read_message_sound r p hbuf b0 :
  sound r -> in_hand r p -> m_body p = None -> 0 <= m_headerType p <= 3 -> counters r (2 ^ 24 + 15) ->
  (m_headerType p = RTMP_PACKET_SIZE_MEDIUM ->
    forall q, m_vecChannelsIn r !! m_nChannel p = Some q -> m_body q = None) ->
  safe (read_message r p hbuf b0) (fun '(ok, p', r') => sound r' /\ (ok = true -> delivered r' p')).
Proof.
  intros Hr Hp Hb Hf Hc Hrestart. unfold read_message. rewrite packetSize_header_of by done. cbn [lift].
  assert (frame None r (grow_in r (m_nChannel p)) /\ fed (grow_in r (m_nChannel p)) /\
    (forall n, counters r n -> counters (grow_in r (m_nChannel p)) n)) as (Hg & Hgf & Hgc).
  { unfold grow_in. destruct (_ <=? _); (split; [constructor; cbn; eauto; lia|]); (split; [apply Hr|done]). }
  set (r0 := grow_in r (m_nChannel p)) in *.
  pose proof (sound_frame _ _ _ Hg Hgf Hr) as Hr0.
  assert (in_hand r0 p) as Hp0 by (eapply in_hand_frame; [exact Hg|apply Hr|done]).
  destruct (inherit_in_hand r0 p (header_of (m_headerType p)) Hr0 Hp0 Hb) as (base & -> & Hbase & Hold).
  set (nSize := header_of (m_headerType p) - 1).
  assert ((nSize = 11 /\ m_headerType p = 0 \/ nSize = 7 /\ m_headerType p = 1 \/ nSize = 3 \/ nSize = 0)) as Hn.
  { unfold nSize. assert (m_headerType p = 0 \/ m_headerType p = 1 \/ m_headerType p = 2 \/ m_headerType p = 3)
      as [-> | [-> | [-> | ->]]] by lia; vm_compute; intuition. }
  assert (safe (if 0 <? nSize then ReadN r0 Local nSize else Done (nSize, [], r0)) (fun '(n, header, r1) =>
    if n =? nSize then zlen header = Z.max 0 nSize /\ bytes header /\ read_by None header r0 r1 else sound r1)) as HR.
  { destruct (Z.ltb_spec 0 nSize).
    - pose proof (ReadN_sound None Local nSize r0 Hr0 ltac:(eapply counters_le; [|apply Hgc, Hc]; lia) ltac:(lia) I) as HN.
      safe_in HN. destruct a as [[n header] r1]. cbn. destruct (n =? nSize); [|apply HN].
      destruct HN as (Hl & Hbs & Hrd & _). split_and!; [lia|done|done].
    - cbn. rewrite Z.eqb_refl. split; [rewrite zlen_nil; lia|]. split; [constructor|].
      constructor; [apply frame_refl|apply Hr0|]. intros m. by rewrite zlen_nil. }
  safe_in HR. destruct a as [[n header] r1]. cbv beta iota. destruct (n =? nSize); cbn [negb]; [|by split].
  destruct HR as (Hl & Hbs & Hr1).
  pose proof (sound_read _ _ _ _ Hr1 Hr0) as Hs1.
  assert (in_hand r1 base) as Hbase1 by (eapply in_hand_frame; [apply Hr1|apply Hr0|done]).
  destruct (parse_header_sound r1 base header nSize Hbase1 Hbs Hl) as (p1 & -> & Hp1); [lia| |].
  { intros H7. destruct Hold as [|(q & Hq & -> & Hsz)]; [done|].
    apply (Hrestart ltac:(destruct Hn as [[]|[[]|]]; unfold RTMP_LARGE_HEADER_SIZE, nSize in *; (done || lia))).
    by rewrite <- (proj1 (fr_channels _ _ _ Hg)). }
  cbv beta iota. rewrite set_world_same.
  assert (counters r1 (2 ^ 24 + 4)) as Hc1.
  { apply (rb_counters _ _ _ _ Hr1), Hgc. eapply counters_le; [|exact Hc]. lia. }
  pose proof (read_extended_sound r1 p1 nSize Hs1 Hp1 ltac:(eapply counters_le; [|exact Hc1]; lia)) as HX.
  safe_in HX. destruct a as [[[ok ext] p2] r2]. destruct ok; cbn [negb]; [|by split].
  destruct HX as (Hp2 & bs & Hbl & Hr2). apply read_body_sound; [by eapply sound_read|done|].
  apply (rb_counters _ _ _ _ Hr2). eapply counters_le; [|exact Hc1]. lia.
Qed.

(** C5: reading a chunk is safe and keeps the invariant of the session.  For bytes that
    arrive in whatever pieces, and also when the connection breaks and the session ends,
    [RTMP_ReadPacket] accesses only memory that is there, frees a block only once, keeps
    for each channel a body of the size that was announced, and delivers a complete packet
    with a body that nothing of the session refers to.  It is assumed that the session
    satisfies the invariant, that the caller's packet has no body, and two things that the
    code does not check: the session's counters leave room for a chunk ([m_nBytesIn], an
    int, counts every byte that was received and is below 2^30 - 2^24 - 18, and
    [m_nBytesInSent] is below 2^30); and the chunk that arrives is not one with a medium
    header on a channel whose message is incomplete, which makes the code release the body
    that the channel still refers to. *)
Theorem rtmp_read_safe r p :
  sound r -> body_sound (world r) p -> m_body p = None -> counters r (2 ^ 24 + 18) -> no_restart r ->
  safe (RTMP_ReadPacket r p) (fun '(ok, p', r') => sound r' /\ (ok = true -> delivered r' p')).
Proof.
  intros Hr Hp Hb Hc Hrestart. unfold RTMP_ReadPacket.
  pose proof (ReadN_sound None Local 1 r Hr ltac:(eapply counters_le; [|exact Hc]; lia) ltac:(lia) I) as H.
  safe_in H. destruct a as [[n bs] r1]. cbv beta iota.
  destruct (Z.eqb_spec n 1) as [->|Hn].
  2: { replace n with 0 by lia. cbn. split; [apply H|done]. }
  cbn [Z.eqb]. destruct H as (Hl & Hbs & Hr1 & Hp1). destruct bs as [|b0 [|b1 bs]];
    [done| |rewrite !zlen_cons in Hl; pose proof (zlen_nonneg bs); lia].
  change (rd [b0] 0) with (Some b0). cbn [lift]. assert (byte b0) as Hb0 by (by inversion Hbs).
  pose proof (sound_read _ _ _ _ Hr1 Hr) as Hs1.
  assert (counters r1 (2 ^ 24 + 17)) as Hc1
    by (apply (rb_counters _ _ _ _ Hr1); eapply counters_le; [|exact Hc]; change (zlen [b0]) with 1; lia).
  pose proof (read_channel_sound r1 p b0 Hs1 ltac:(eapply counters_le; [|exact Hc1]; lia) Hb0) as HC.
  safe_in HC. destruct a as [[[ok hbuf] p1] r2]. destruct ok; cbn [negb]; [|by split].
  destruct HC as (bs & ch & -> & Hbl & Hr2 & Hch).
  assert (frame None r r2) as Hf by (eapply frame_trans; [apply Hr1|apply Hr2]).
  apply read_message_sound; [by eapply sound_read| |done|by apply fmt_range| |].
  - assert (in_hand r2 p) as [[Hsz [Hck Hbd]] Ho].
    { eapply in_hand_frame; [exact Hf|apply Hr|]. split; [done|]. by rewrite Hb. }
    split; [|cbn; by rewrite Hb]. split; [done|]. by split.
  - apply (rb_counters _ _ _ _ Hr2). eapply counters_le; [|exact Hc1]. lia.
  - cbn [m_headerType m_nChannel set_nChannel set_headerType]. intros Hm q.
    rewrite (proj1 (fr_channels _ _ _ Hf)). apply (Hrestart b0 (pending r1) ch q Hp1); [|by rewrite Hp1].
    by rewrite fmt_div.
Qed.

(** A new session satisfies the invariant. *)
Lemma sound_new w : heap w = ∅ -> Forall event_bytes (recvs w) -> sound (RTMP_Init w).
Proof.
  intros Hh He. assert (forall o p, ~ owns (RTMP_Init w) o p) as Hno.
  { intros o p Ho. inversion Ho as [ch q p' Hq| |]; subst; [|done..].
    change (m_vecChannelsIn (RTMP_Init w)) with (∅ : gmap Z RTMPPacket) in Hq. by rewrite lookup_empty in Hq. }
  constructor; [constructor| |].
  - constructor; [intros o p Ho; by apply Hno in Ho|intros o1 o2 p1 p2 Ho; by apply Hno in Ho|].
    intros b [x Hb]. change (world (RTMP_Init w)) with w in Hb. by rewrite Hh, lookup_empty in Hb.
  - done.
  - by vm_compute.
  - done.
  - split; [constructor|exact He].
  - intros ch q Hq. change (m_vecChannelsIn (RTMP_Init w)) with (∅ : gmap Z RTMPPacket) in Hq. by rewrite lookup_empty in Hq.
Qed.

Lemma sound_socket s r : sound r -> bytes (sb_data s) -> sound (set_sb s r).
Proof.
  intros [[Ho ? ? ?] [_ Hf] Hst] Hs. constructor; [constructor; try done; by apply (fields_owned r)|by split|done].
Qed.

(** The first chunk of [example_wire], which says that more is to come. *)
Lemma rtmp_read_safe_witness :
  safe (RTMP_ReadPacket example_receiver RTMPPacket_zero)
    (fun '(ok, p', r') => sound r' /\ (ok = true -> delivered r' p')).
Proof.
  apply rtmp_read_safe.
  - apply sound_new; [done|]. vm_compute. repeat (apply List.Forall_cons || apply List.Forall_nil || split || done).
  - split; [done|]. by split.
  - done.
  - by vm_compute.
  - intros b0 rest ch q _ _ _ Hq. by vm_compute in Hq.
Defined.
