(* ===== verification/RtmpErrors.v ===== *)
(** RTMP sessions: where the two halves of librtmp do not fit together, or where a
    message of the other side leads to undefined behaviour. *)

From stdpp Require Import base list option numbers gmap.
From S2P Require Import Prelude CMem TypeDefs Amf RtmpTypes Rtmp RtmpSpec RtmpRead RtmpRoundTrip.

Local Open Scope Z_scope.
Open Scope c_scope.

(** ** Equal time stamps *)

Lemma compress_minimum prev packet :
  m_headerType packet = RTMP_PACKET_SIZE_MEDIUM ->
  m_headerType (fst (compress prev packet)) = RTMP_PACKET_SIZE_MINIMUM ->
  exists pv, prev = Some pv /\ m_nBodySize pv = m_nBodySize packet /\ m_packetType pv = m_packetType packet /\
    m_nTimeStamp pv = m_nTimeStamp packet.
Proof.
  intros H. destruct prev as [pv|]; [|by cbn; rewrite H]. unfold compress. rewrite H.
  destruct (Z.eqb_spec (m_nBodySize pv) (m_nBodySize packet));
    destruct (Z.eqb_spec (m_packetType pv) (m_packetType packet)); cbn; rewrite ?H; cbn;
    destruct (Z.eqb_spec (m_nTimeStamp pv) (m_nTimeStamp packet)); cbn; rewrite ?H; try done.
  by exists pv.
Qed.

(** When a packet has the size, the type and the time stamp of the last one of its
    channel, [RTMP_SendPacket] sends the header without a time stamp; to
    [RTMP_ReadPacket] that says that the time goes on by the last difference (the whole
    time stamp, after a large header), so that the packet is received with a wrong time
    stamp unless that difference was 0. *)
Theorem rtmp_equal_times s packet queue blk pre body post r p q rest n :
  sendable s packet blk pre body post -> m_packetType packet <> RTMP_PACKET_TYPE_INVOKE ->
  ready (world s) (zlen (packet_bytes s packet body)) ->
  2 <= m_nChannel packet -> m_headerType packet = RTMP_PACKET_SIZE_MEDIUM ->
  sent_type s packet = RTMP_PACKET_SIZE_MINIMUM ->
  is_u 32 (m_nTimeStamp packet) -> - 2 ^ 31 <= m_nInfoField2 packet < 2 ^ 31 -> zlen body < 2 ^ 24 ->
  synced s r -> m_vecChannelsIn r !! m_nChannel packet = Some q ->
  m_inChunkSize r = m_outChunkSize s -> pending r = packet_bytes s packet body ++ rest ->
  quiet r (zlen (packet_bytes s packet body)) -> zlen body <= Z.of_nat n ->
  exists s' p' r',
    RTMP_SendPacket s packet queue = Done (true, set_headerType RTMP_PACKET_SIZE_MINIMUM packet, s') /\
    receive (S n) r p = Done (true, p', r') /\ holds (world r') p' body /\
    m_nTimeStamp p' = u32 (m_nTimeStamp packet + m_nTimeStamp q).
Proof.
  intros Hs Hinv Hready Hch Hty Hmin Hts Hinfo Hsz Hsync Hq Hcs Hp Hqu Hn.
  destruct (send_packet_writes s packet queue blk pre body post Hs Hinv Hready) as (s' & E & _).
  pose proof Hmin as Hmin'. rewrite <- sent_type_compress in Hmin' by apply Hs.
  destruct (compress_minimum _ _ Hty Hmin') as (pv & Hpv & Hps & Hpt & Hpts).
  pose proof (Hsync (m_nChannel packet)) as Hc. rewrite Hpv in Hc.
  destruct Hc as (Hlast & q' & Hq' & Hqc & Hqk & Hqb & Hqr & Hqa & Hqs & Hqt & Hqi).
  rewrite Hq in Hq'. injection Hq' as <-.
  pose proof (send_size _ _ _ _ _ _ Hs) as Hbody. pose proof (send_chunk _ _ _ _ _ _ Hs) as Hcz.
  unfold packet_bytes in Hp, Hqu. rewrite <- Hcs in Hp, Hqu. rewrite Hmin in Hp, Hqu.
  assert (inherit r (set_nChannel (m_nChannel packet) (set_headerType RTMP_PACKET_SIZE_MINIMUM p))
    (header_of RTMP_PACKET_SIZE_MINIMUM) = q) as Hinh.
  { unfold inherit. cbn [m_nChannel set_nChannel]. rewrite Hq. done. }
  pose proof (send_channel _ _ _ _ _ _ Hs) as Hch'.
  destruct (receive_message n r p RTMP_PACKET_SIZE_MINIMUM (m_nChannel packet) (sent_time s packet)
    (m_packetType packet) (m_nInfoField2 packet) body rest) as (r1 & P1 & E1 & Hpr & Hsame & Hh & Hread & HP1);
    rewrite ?Hinh in *; try done; [lia|apply sent_time_range|lia|by cbn; lia|].
  cbn in HP1. rewrite <- Hmin. do 3 eexists. split; [exact E|].
  unfold finish_packet, RTMPPacket_IsReady in E1.
  rewrite HP1 in E1. cbn in E1. rewrite Hqs, Hps, Hbody, Z.eqb_refl, Hqa, Hqc in E1.
  rewrite (sb_times _ _ _ _ Hsame), Hlast in E1. split; [exact E1|]. split; [|cbn].
  - cbn. rewrite HP1 in Hh. exact Hh.
  - rewrite Hpts. unfold uwrap. rewrite <- Zplus_mod_idemp_r.
    change (s32 (m_nTimeStamp packet) mod 2 ^ 32) with (u32 (s32 (m_nTimeStamp packet))).
    rewrite uwrap_swrap, uwrap_id by (done || lia). f_equal. lia.
Qed.

(** The second of two packets with the time stamp 1000, the first one sent with a large
    header: it is received with the time stamp 2000. *)
Definition repeated : RTMP := set_vecChannelsOut {[4 := example_packet]} example_sender.

Definition repeated_receiver : RTMP :=
  set_vecChannelsIn {[4 := mkPacket 0 8 false 4 1000 0 130 0 None None]}
    (set_channelTimestamp {[4 := 1000]}
       (RTMP_Init (mkWorld [Received (packet_bytes repeated example_packet example_body)] [] [] false ∅ 0 ∅))).

Lemma repeated_synced : synced repeated repeated_receiver.
Proof.
  intros ch. change (m_vecChannelsOut repeated) with ({[4 := example_packet]} : gmap Z RTMPPacket).
  unfold in_sync. change (m_channelTimestamp repeated_receiver) with ({[4 := 1000]} : gmap Z Z).
  change (m_vecChannelsIn repeated_receiver)
    with ({[4 := mkPacket 0 8 false 4 1000 0 130 0 None None]} : gmap Z RTMPPacket).
  destruct (decide (ch = 4)) as [->|Hne].
  - rewrite !lookup_singleton_eq. split; [done|]. eexists. by split_and!.
  - by rewrite !lookup_singleton_ne.
Qed.

Lemma rtmp_equal_times_witness : exists s' p' r',
  RTMP_SendPacket repeated example_packet false = Done (true, set_headerType 3 example_packet, s') /\
  receive 201 repeated_receiver RTMPPacket_zero = Done (true, p', r') /\ m_nTimeStamp p' = 2000.
Proof.
  destruct (rtmp_equal_times repeated example_packet false 0 (replicate 18 0) example_body []
    repeated_receiver RTMPPacket_zero (mkPacket 0 8 false 4 1000 0 130 0 None None) [] 200)
    as (s' & p' & r' & E & E' & _ & Ht);
    [by constructor|by intros [=]|by vm_compute|by vm_compute|done|by vm_compute|by vm_compute|
     by vm_compute|by vm_compute|apply repeated_synced|done|done|by vm_compute| |by vm_compute|].
  - vm_compute. split_and!; by try left.
  - exists s', p', r'. by split_and!.
Defined.

(** ** A message that starts in the middle of another one *)

(** The first chunk of a message of 200 bytes on channel 4; then a medium header that
    announces 10 bytes on that channel, and the end of the connection. *)
Definition restarting_peer : RTMP :=
  set_sb (mkSockBuf 3 0 [] false)
    (RTMP_Init (mkWorld [Received (basic_header 0 4 ++ message_header 0 0 200 9 1 ++ replicate 128 7);
       Received (basic_header 1 4 ++ message_header 1 0 10 9 1); Received []] [] [] false ∅ 0 ∅)).

(** The body of a message that a medium header interrupts is released while the
    channel still refers to it: when the connection ends before the first chunk of the new
    message is complete, [RTMP_Close] releases it again. *)
Theorem rtmp_double_free : exists p r,
  RTMP_ReadPacket restarting_peer RTMPPacket_zero = Done (true, p, r) /\ RTMP_ReadPacket r p = Undef.
Proof.
  set (x := RTMP_ReadPacket restarting_peer RTMPPacket_zero).
  assert (match x with Done (true, p, r) => RTMP_ReadPacket r p = Undef | _ => False end) as Hx by (by vm_compute).
  destruct x as [[[[|] p] r]| |]; [|done..]. by exists p, r.
Qed.
