(* ===== verification/Tea.v ===== *)
(** The decryption of the secure token: the model of [DecodeTEA] in
    src/protocol/rtmp/rtmpdump-master/librtmp/rtmp.c. *)

From stdpp Require Import base list option numbers.
From S2P Require Import Prelude CMem TypeDefs Amf.

Local Open Scope Z_scope.
Open Scope c_scope.

Definition HEX2BIN (a : Z) : Z :=
  if truthy (Z.land a 0x40) then Z.land a 0xf + 9 else Z.land a 0xf.

(** The key: the words, the index of the next one, the word being filled and the number
    of its bytes. *)
Definition key_step (s : list Z * nat * Z * Z) (c : Z) : list Z * nat * Z * Z :=
  let '(k, v, u, n) := s in
  let u := Z.lor u (Z.shiftl c (n * 8)) in
  if n =? 3 then (<[v := u]> k, S v, 0, 0) else (k, v, u, n + 1).

Definition tea_key (key : AVal) : option (list Z) :=
  let p := if 16 <? av_len key then 16 else av_len key in
  let* chars := (if p <=? 0 then Some [] else let* s := av_val key in rdn s 0 p) in
  let '(k, v, u, _) := fold_left key_step chars (replicate 4 0, O, 0, 0) in
  Some (if u =? 0 then k else <[v := u]> k).

(** A word from eight hexadecimal digits. *)
Definition hex_byte (b : buf) (i : Z) : option Z :=
  let* c0 := rd b i in
  let* c1 := rd b (i + 1) in
  Some (Z.shiftl (HEX2BIN c0) 4 + HEX2BIN c1).
Definition hex_word (b : buf) (i : Z) : option Z :=
  let* u0 := hex_byte b i in
  let* u1 := hex_byte b (i + 2) in
  let* u2 := hex_byte b (i + 4) in
  let* u3 := hex_byte b (i + 6) in
  Some (u32 (Z.lor (Z.lor (Z.lor u0 (Z.shiftl u1 8)) (Z.shiftl u2 16)) (Z.shiftl u3 24))).

Fixpoint hex_words (n : nat) (b : buf) (i : Z) : option (list Z) :=
  match n with
  | O => Some []
  | S n => let* w := hex_word b i in
           let* ws := hex_words n b (i + 8) in
           Some (w :: ws)
  end.

Definition DELTA : Z := 0x9e3779b9.

Definition MX (z y sum p e : Z) (k : list Z) : Z :=
  Z.lxor (u32 (Z.lxor (Z.shiftr z 5) (u32 (Z.shiftl y 2)) + Z.lxor (Z.shiftr y 3) (u32 (Z.shiftl z 4))))
    (u32 (Z.lxor sum y + Z.lxor (nth (Z.to_nat (Z.lxor (Z.land p 3) e)) k 0) z)).

(** The loop over [p] from [p] down to 1; [y] is the word decrypted last. *)
Fixpoint tea_words (p : nat) (v : list Z) (y sum e : Z) (k : list Z) : list Z * Z :=
  match p with
  | O => (v, y)
  | S p' =>
      let y := u32 (nth p v 0 - MX (nth p' v 0) y sum (Z.of_nat p) e k) in
      tea_words p' (<[p := y]> v) y sum e k
  end.

(** One turn of the [while] loop. *)
Definition tea_round (v : list Z) (y sum : Z) (k : list Z) : list Z * Z :=
  let e := Z.land (Z.shiftr sum 2) 3 in
  let (v, y) := tea_words (length v - 1) v y sum e k in
  let y := u32 (nth 0 v 0 - MX (nth (length v - 1) v 0) y sum 0 e k) in
  (<[O := y]> v, y).

(** The loop ends when [sum] is 0. *)
Fixpoint tea_rounds (fuel : nat) (v : list Z) (y sum : Z) (k : list Z) : outcome (list Z) :=
  if sum =? 0 then Done v else
  match fuel with
  | O => Unfinished
  | S fuel =>
      let (v, y) := tea_round v y sum k in
      tea_rounds fuel v y (u32 (sum - DELTA)) k
  end.

(** The bytes of the words, the least significant first. *)
Definition word_bytes (u : Z) : buf :=
  [u8 u; u8 (Z.shiftr u 8); u8 (Z.shiftr u 16); u8 (Z.shiftr u 24)].

(** The text is replaced by the bytes of the words, half as many as it has characters.
    No text at all is a division by 0. *)
Definition DecodeTEA (key text : AVal) : outcome AVal :=
  let! k := lift (tea_key key) in
  let n := Z.quot (av_len text + 7) 8 in
  if n <=? 0 then Undef else
  let! b := lift (av_val text) in
  let! v := lift (hex_words (Z.to_nat n) b 0) in
  let q := 6 + Z.quot 52 n in
  let! v := tea_rounds (Z.to_nat q) v (nth 0 v 0) (u32 (q * DELTA)) k in
  let len := Z.quot (av_len text) 2 in
  let! out := lift (rdn (concat (map word_bytes v)) 0 len) in
  let! s := lift (wrn b 0 out) in
  Done (mkAVal (Some s) len).
