(* ===== verification/TeaSpec.v ===== *)
(** The secure token: the encryption the server uses, stated independently of the
    client, and the theorem that [DecodeTEA] recovers what was encrypted. *)

From stdpp Require Import base list option numbers.
From S2P Require Import Prelude CMem TypeDefs Amf Tea.

Local Open Scope Z_scope.
Open Scope c_scope.

(** ** Corrected block TEA

    A round replaces every word in turn, each one by its sum with a mixture of its two
    neighbours on the circle of the words. *)

Definition before (n p : nat) : nat := match p with O => (n - 1)%nat | S p => p end.
Definition behind (n p : nat) : nat := if decide (S p = n) then O else S p.

(** Words of 32 bits: sums and shifts to the left are taken modulo 2^32. *)
Definition word (x : Z) : Z := x mod 2 ^ 32.
(** The golden ratio: 2^32 divided by it. *)
Definition golden : Z := 2654435769.

(** The mixture of two neighbours [z] and [y] with a word of the key. *)
Definition mixing (z y sum kw : Z) : Z :=
  Z.lxor (word (Z.lxor (z / 2 ^ 5) (word (y * 2 ^ 2)) + Z.lxor (y / 2 ^ 3) (word (z * 2 ^ 4))))
    (word (Z.lxor sum y + Z.lxor kw z)).

(** The mixture of the neighbours of word [p]; the sum selects the word of the key. *)
Definition mixture (v : list Z) (sum : Z) (k : list Z) (p : nat) : Z :=
  mixing (nth (before (length v) p) v 0) (nth (behind (length v) p) v 0) sum
    (nth (Z.to_nat (Z.lxor (Z.of_nat p mod 4) (sum / 4 mod 4))) k 0).

Definition mix (sum : Z) (k : list Z) (v : list Z) (p : nat) : list Z :=
  <[p := word (nth p v 0 + mixture v sum k p)]> v.
Definition unmix (sum : Z) (k : list Z) (v : list Z) (p : nat) : list Z :=
  <[p := word (nth p v 0 - mixture v sum k p)]> v.

Definition encrypt_round (v : list Z) (sum : Z) (k : list Z) : list Z :=
  fold_left (mix sum k) (seq 0 (length v)) v.

(** Round [i] of the rounds, counted from 1. *)
Fixpoint encrypt_rounds (i : nat) (v : list Z) (k : list Z) : list Z :=
  match i with
  | O => v
  | S i' => encrypt_round (encrypt_rounds i' v k) (word (Z.of_nat i * golden)) k
  end.

Definition rounds (n : nat) : nat := (6 + 52 / n)%nat.

Definition xxtea (k v : list Z) : list Z := encrypt_rounds (rounds (length v)) v k.

(** The token is sent as hexadecimal digits. *)
Definition hex_digit (d : Z) : Z := if d <? 10 then 48 + d else 87 + d.
Definition hex_digits (b : Z) : buf := [hex_digit (b / 16); hex_digit (b mod 16)].
Definition hex_text (bs : buf) : buf := concat (map hex_digits bs).

(** Words and their four bytes, the least significant first. *)
Fixpoint bytes_of_word (n : nat) (u : Z) : buf :=
  match n with O => [] | S n => u mod 256 :: bytes_of_word n (u / 256) end.
Definition words_bytes (v : list Z) : buf := concat (map (bytes_of_word 4) v).
Definition word_of_bytes (bs : buf) : Z := foldr (fun b w => b + 256 * w) 0 bs.

(** The key: the words of the first sixteen characters, filled up with zeros. *)
Definition key_words (s : buf) : list Z :=
  let bs := take 16 s ++ replicate (16 - length s) 0 in
  map (fun i => word_of_bytes (take 4 (drop (4 * i) bs))) [0; 1; 2; 3]%nat.

(** Test vectors that are published for the cipher, as bytes: words of zeros and of ones and
    others, under three keys. *)
Example xxtea_zeros :
  words_bytes (xxtea (key_words (replicate 16 0)) [0; 0]) = [0xab; 0x04; 0x37; 0x05; 0x80; 0x8c; 0x5d; 0x57].
Proof. vm_compute. reflexivity. Qed.
Definition vector_key : buf := [1; 2; 4; 8; 16; 32; 64; 128; 255; 254; 252; 248; 240; 224; 192; 128].
Example xxtea_key :
  words_bytes (xxtea (key_words vector_key) [0; 0]) = [0xd1; 0xe7; 0x8b; 0xe2; 0xc7; 0x46; 0x72; 0x8a].
Proof. vm_compute. reflexivity. Qed.
Example xxtea_data :
  words_bytes (xxtea (key_words vector_key) (map word_of_bytes [[255; 254; 252; 248]; [240; 224; 192; 128]])) =
    [0x8c; 0x37; 0x07; 0xc0; 0x1c; 0x7f; 0xcc; 0xc4].
Proof. vm_compute. reflexivity. Qed.
Example xxtea_ones :
  words_bytes (xxtea (key_words [0x9e; 0x37; 0x79; 0xb9; 0x9b; 0x97; 0x73; 0xe9; 0xb9; 0x79; 0x37; 0x9e; 0x6b; 0x69; 0x51; 0x56])
    [0xffffffff; 0xffffffff]) = [0x67; 0xed; 0x0e; 0xa8; 0xe8; 0x97; 0x3f; 0xc5].
Proof. vm_compute. reflexivity. Qed.

(** ** The code's words

    The same with shifts and masks. *)

Lemma land3 x : Z.land x 3 = x mod 4.
Proof. by apply (Z.land_ones x 2). Qed.
Lemma land15 x : Z.land x 15 = x mod 16.
Proof. by apply (Z.land_ones x 4). Qed.

Lemma mixture_MX v sum k p :
  mixture v sum k p = MX (nth (before (length v) p) v 0) (nth (behind (length v) p) v 0) sum (Z.of_nat p)
    (Z.land (Z.shiftr sum 2) 3) k.
Proof.
  unfold mixture, mixing, MX. rewrite !land3.
  rewrite !Z.shiftr_div_pow2, !Z.shiftl_mul_pow2 by lia. done.
Qed.

Lemma bytes_of_word_eq u : bytes_of_word 4 u = word_bytes u.
Proof.
  cbn [bytes_of_word]. unfold word_bytes. rewrite !Z.shiftr_div_pow2 by lia.
  rewrite !Z.div_div by lia. done.
Qed.

Lemma hex_digits_eq b : hex_digits b = [hex_digit (Z.shiftr b 4); hex_digit (Z.land b 15)].
Proof.
  unfold hex_digits. by rewrite land15, Z.shiftr_div_pow2 by lia.
Qed.

(** Up to three characters of the key are added to the word that is filled. *)
Lemma key_char u c n : is_u (n * 8) u -> 0 <= n -> byte c ->
  Z.lor u (Z.shiftl c (n * 8)) = u + 2 ^ (n * 8) * c /\ is_u ((n + 1) * 8) (u + 2 ^ (n * 8) * c).
Proof.
  intros Hu Hn Hc. rewrite Z.lor_comm, lor_shiftl_add by (done || lia). rewrite Z.shiftl_mul_pow2 by lia.
  split; [lia|]. replace ((n + 1) * 8) with (n * 8 + 8) by lia. unfold is_u, byte in *.
  rewrite Z.pow_add_r by lia. nia.
Qed.
Lemma key_part l : forall k v u n, bytes l -> is_u (n * 8) u -> 0 <= n -> n + zlen l <= 3 ->
  fold_left key_step l (k, v, u, n) = (k, v, u + 2 ^ (n * 8) * word_of_bytes l, n + zlen l).
Proof.
  induction l as [|c l IH]; intros k v u n Hl Hu Hn Hz.
  { cbn. change (zlen []) with 0. f_equal; [f_equal; lia|lia]. }
  apply List.Forall_cons_iff in Hl as [Hc Hl]. rewrite zlen_cons in Hz. pose proof (zlen_nonneg l).
  destruct (key_char u c n Hu Hn Hc) as [E Hu'].
  cbn [fold_left key_step]. rewrite E, (proj2 (Z.eqb_neq n 3)) by lia. rewrite IH by (done || lia).
  cbn [word_of_bytes foldr]. fold (word_of_bytes l). rewrite zlen_cons.
  replace ((n + 1) * 8) with (n * 8 + 8) by lia. rewrite Z.pow_add_r by lia. f_equal; [f_equal; lia|lia].
Qed.

Lemma key_full a b c d l k v : bytes [a; b; c; d] ->
  fold_left key_step (a :: b :: c :: d :: l) (k, v, 0, 0) =
  fold_left key_step l (<[v := word_of_bytes [a; b; c; d]]> k, S v, 0, 0).
Proof.
  intros H. change (a :: b :: c :: d :: l) with ([a; b; c] ++ [d] ++ l). rewrite !fold_left_app.
  assert (bytes [a; b; c] /\ byte d) as [Ha Hd].
  { change [a; b; c; d] with ([a; b; c] ++ [d]) in H. apply List.Forall_app in H as [H1 H2]. by inversion H2. }
  rewrite key_part by (done || vm_compute; intuition congruence).
  assert (is_u (3 * 8) (0 + 2 ^ (0 * 8) * word_of_bytes [a; b; c])) as Hu.
  { repeat match goal with H : bytes (_ :: _) |- _ => apply List.Forall_cons_iff in H as [? H] end.
    unfold byte, is_u in *. cbn. lia. }
  change (0 + zlen [a; b; c]) with 3. destruct (key_char _ d 3 Hu ltac:(lia) Hd) as [E _].
  cbn [fold_left app key_step]. rewrite E. change (3 =? 3) with true. cbv iota.
  assert (0 + 2 ^ (0 * 8) * word_of_bytes [a; b; c] + 2 ^ (3 * 8) * d = word_of_bytes [a; b; c; d]) as ->; [|done].
  change (2 ^ (0 * 8)) with 1. change (2 ^ (3 * 8)) with 16777216. unfold word_of_bytes. cbn [foldr]. lia.
Qed.

Ltac chars := repeat (apply List.Forall_cons; [assumption|]); apply List.Forall_nil.

Lemma tea_key_words s : bytes s -> tea_key (mkAVal (Some s) (zlen s)) = Some (key_words s).
Proof.
  intros Hs. unfold tea_key. cbn [av_len av_val].
  assert ((if (if 16 <? zlen s then 16 else zlen s) <=? 0 then Some []
           else let* s0 := Some s in rdn s0 0 (if 16 <? zlen s then 16 else zlen s)) = Some (take 16 s)) as ->.
  { pose proof (zlen_nonneg s). destruct (Z.ltb_spec 16 (zlen s)).
    - change (16 <=? 0) with false. cbv iota. rewrite rdn_prefix by lia. done.
    - destruct (Z.leb_spec (zlen s) 0).
      + assert (zlen s = 0) by lia. by destruct s.
      + rewrite rdn_prefix by lia. rewrite !take_ge by (unfold zlen in *; lia). done. }
  unfold key_words. assert ((16 - length s = 16 - length (take 16 s))%nat) as -> by (rewrite length_take; lia).
  assert (length (take 16 s) <= 16)%nat as Hl by (rewrite length_take; lia).
  assert (bytes (take 16 s)) as Ht by (by apply Forall_take). generalize dependent (take 16 s). clear Hs. intros t Hl Ht.
  assert (forall x l y l', x = y -> l = l' -> (x : Z) :: l = y :: l') as Hcons by (by intros ? ? ? ? -> ->).
  do 17 (destruct t as [|? t]; [
    repeat (apply List.Forall_cons_iff in Ht as [? Ht]);
    rewrite ?key_full by chars; rewrite key_part by first [by chars|by vm_compute];
    cbn -[Z.pow Z.mul Z.add Z.eqb]; change (2 ^ (0 * 8)) with 1;
    case_match; f_equal; repeat (apply Hcons; [lia|]); done|]).
  cbn in Hl. lia.
Qed.

(** ** One round *)

Lemma length_mix sum k v p : length (mix sum k v p) = length v.
Proof. unfold mix. by rewrite length_insert. Qed.

Lemma length_mixes sum k ps v : length (fold_left (mix sum k) ps v) = length v.
Proof. revert v. induction ps as [|p ps IH]; intros v; [done|]. cbn. by rewrite IH, length_mix. Qed.

Lemma length_unmix sum k v p : length (unmix sum k v p) = length v.
Proof. unfold unmix. by rewrite length_insert. Qed.

Lemma length_unmixes sum k ps v : length (fold_left (unmix sum k) ps v) = length v.
Proof. revert v. induction ps as [|p ps IH]; intros v; [done|]. cbn. by rewrite IH, length_unmix. Qed.

Lemma nth_insert_ne (v : list Z) i j x : i <> j -> nth j (<[i := x]> v) 0 = nth j v 0.
Proof. intros. rewrite !nth_lookup. by rewrite list_lookup_insert_ne. Qed.

Lemma nth_insert (v : list Z) i x : (i < length v)%nat -> nth i (<[i := x]> v) 0 = x.
Proof. intros. rewrite nth_lookup. by rewrite list_lookup_insert_eq. Qed.

Lemma before_ne n p : (2 <= n)%nat -> (p < n)%nat -> before n p <> p.
Proof. intros. destruct p; cbn; lia. Qed.

Lemma behind_ne n p : (2 <= n)%nat -> (p < n)%nat -> behind n p <> p.
Proof. intros. unfold behind. case_decide; lia. Qed.

(** Changing a word does not change what is mixed into it. *)
Lemma mixture_insert v sum k p x : (2 <= length v)%nat -> (p < length v)%nat ->
  mixture (<[p := x]> v) sum k p = mixture v sum k p.
Proof.
  intros Hn Hp. unfold mixture. rewrite length_insert.
  rewrite !nth_insert_ne by (apply not_eq_sym; by apply before_ne || by apply behind_ne). done.
Qed.

Lemma unmix_mix sum k v p : (2 <= length v)%nat -> (p < length v)%nat -> Forall (is_u 32) v ->
  unmix sum k (mix sum k v p) p = v.
Proof.
  intros Hn Hp Hv. unfold unmix, mix. rewrite mixture_insert, nth_insert by done.
  rewrite list_insert_insert_eq. apply list_insert_id.
  destruct (lookup_lt_is_Some_2 v p Hp) as [x Hx]. rewrite Hx. f_equal.
  rewrite nth_lookup, Hx. cbn. pose proof (Forall_lookup_1 _ _ _ _ Hv Hx) as Hu.
  rewrite <- (uwrap_id 32 x Hu) at 1. unfold word, uwrap. rewrite Zminus_mod_idemp_l. f_equal. lia.
Qed.

Lemma mix_words sum k v p : Forall (is_u 32) v -> Forall (is_u 32) (mix sum k v p).
Proof. intros. apply Forall_insert; [done|]. by apply (is_u_uwrap 32). Qed.

Lemma mixes_words sum k ps v : Forall (is_u 32) v -> Forall (is_u 32) (fold_left (mix sum k) ps v).
Proof. revert v. induction ps as [|p ps IH]; intros v Hv; [done|]. cbn. apply IH. by apply mix_words. Qed.

(** The words are recovered in the opposite order. *)
Lemma unmixes_mixes sum k n v : (n <= length v)%nat -> (2 <= length v)%nat -> Forall (is_u 32) v ->
  fold_left (unmix sum k) (rev (seq 0 n)) (fold_left (mix sum k) (seq 0 n) v) = v.
Proof.
  intros Hn H2 Hv. induction n as [|n IH]; [done|].
  rewrite seq_S, rev_app_distr, !fold_left_app. cbn [rev app fold_left Nat.add].
  rewrite unmix_mix; [apply IH; lia|by rewrite length_mixes|rewrite length_mixes; lia|by apply mixes_words].
Qed.

(** ** The loops of the client *)

(** The inner loop and the word after it. *)
Lemma tea_words_unmixes sum k p v : (p < length v)%nat -> (2 <= length v)%nat ->
  let r := tea_words p v (nth (behind (length v) p) v 0) sum (Z.land (Z.shiftr sum 2) 3) k in
  fst r = fold_left (unmix sum k) (rev (seq 1 p)) v /\ snd r = nth 1 (fst r) 0.
Proof.
  revert v. induction p as [|p IH]; intros v Hp Hn.
  - cbn. split; [done|]. unfold behind. case_decide; [lia|done].
  - rewrite seq_S, rev_app_distr. cbn [rev app fold_left Nat.add tea_words].
    set (x := u32 _). assert (x = word (nth (S p) v 0 - mixture v sum k (S p))) as Hx by (by rewrite mixture_MX).
    assert (<[S p := x]> v = unmix sum k v (S p)) as -> by (unfold unmix; by rewrite <- Hx).
    specialize (IH (unmix sum k v (S p))). rewrite length_unmix in IH.
    assert (nth (behind (length v) p) (unmix sum k v (S p)) 0 = x) as E.
    { unfold behind. case_decide; [lia|]. unfold unmix. rewrite nth_insert; [by rewrite <- Hx|lia]. }
    rewrite E in IH. apply IH; lia.
Qed.

Lemma tea_round_unmixes sum k v : (2 <= length v)%nat ->
  let r := tea_round v (nth 0 v 0) sum k in
  fst r = fold_left (unmix sum k) (rev (seq 0 (length v))) v /\ snd r = nth 0 (fst r) 0.
Proof.
  intros Hn. unfold tea_round.
  pose proof (tea_words_unmixes sum k (length v - 1) v ltac:(lia) Hn) as H. cbv zeta in H.
  replace (behind (length v) (length v - 1)) with O in H by (unfold behind; case_decide; lia).
  destruct (tea_words _ _ _ _ _ _) as [w y]. cbn [fst snd] in *. destruct H as [-> ->].
  assert (rev (seq 0 (length v)) = rev (seq 1 (length v - 1)) ++ [O]) as ->
    by (replace (length v) with (S (length v - 1)) at 1 by lia; done).
  rewrite fold_left_app. cbn [fold_left].
  set (w := fold_left _ _ v). assert (length w = length v) as Hw by apply length_unmixes.
  rewrite nth_insert by lia. split; [|done]. unfold unmix. rewrite mixture_MX, Hw.
  unfold behind. cbn [before]. case_decide; [lia|done].
Qed.

Lemma tea_round_encrypt sum k v : (2 <= length v)%nat -> Forall (is_u 32) v ->
  let w := encrypt_round v sum k in tea_round w (nth 0 w 0) sum k = (v, nth 0 v 0).
Proof.
  intros Hn Hv w. assert (length w = length v) as Hw by apply length_mixes.
  pose proof (tea_round_unmixes sum k w ltac:(lia)) as [E1 E2].
  assert (fold_left (unmix sum k) (rev (seq 0 (length v))) w = v) as Ew by (by apply unmixes_mixes).
  rewrite Hw, Ew in E1.
  destruct (tea_round _ _ _ _). cbn in *. by subst.
Qed.

(** ** All rounds *)

Lemma length_encrypt_rounds i v k : length (encrypt_rounds i v k) = length v.
Proof. induction i as [|i IH]; [done|]. cbn. unfold encrypt_round. by rewrite length_mixes. Qed.

Lemma encrypt_rounds_words i v k : Forall (is_u 32) v -> Forall (is_u 32) (encrypt_rounds i v k).
Proof. intros Hv. induction i as [|i IH]; [done|]. cbn. by apply mixes_words. Qed.

(** The sum of the first 32 rounds is not 0, which ends the loop. *)
Lemma sum_not_zero i : 1 <= i <= 32 -> u32 (i * DELTA) =? 0 = false.
Proof.
  intros. apply negb_true_iff.
  apply (forall_range (fun i => negb (u32 (i * DELTA) =? 0)) 1 32); [by vm_compute|lia].
Qed.

Lemma tea_rounds_encrypt i fuel v k : (2 <= length v)%nat -> Forall (is_u 32) v ->
  (i <= 32)%nat -> (i <= fuel)%nat ->
  let w := encrypt_rounds i v k in
  tea_rounds fuel w (nth 0 w 0) (u32 (Z.of_nat i * DELTA)) k = Done v.
Proof.
  intros Hn Hv. revert fuel. induction i as [|i IH]; intros fuel Hi Hf; [by destruct fuel|].
  destruct fuel as [|fuel]; [lia|]. cbn [tea_rounds]. rewrite sum_not_zero by lia.
  cbn [encrypt_rounds]. rewrite tea_round_encrypt
    by (rewrite ?length_encrypt_rounds; done || by apply encrypt_rounds_words).
  replace (u32 (u32 (Z.of_nat (S i) * DELTA) - DELTA)) with (u32 (Z.of_nat i * DELTA)).
  - apply IH; lia.
  - unfold uwrap. rewrite Zminus_mod_idemp_l. f_equal. lia.
Qed.

(** ** The text *)

Lemma HEX2BIN_digit d : 0 <= d < 16 -> HEX2BIN (hex_digit d) = d.
Proof.
  intros. apply Z.eqb_eq. apply (forall_range (fun d => HEX2BIN (hex_digit d) =? d) 0 16); [by vm_compute|lia].
Qed.

Lemma hex_byte_app pre w i j : zlen pre = i -> 0 <= j -> hex_byte (pre ++ w) (i + j) = hex_byte w j.
Proof.
  intros Hi Hj. unfold hex_byte. rewrite <- Z.add_assoc. by rewrite !rd_app_r by (done || lia).
Qed.

(** The value of the two digits of a byte. *)
Lemma digits_value b : byte b ->
  Z.shiftl (HEX2BIN (hex_digit (Z.shiftr b 4))) 4 + HEX2BIN (hex_digit (Z.land b 15)) = b.
Proof.
  intros [H0 H1]. apply Z.eqb_eq.
  apply (forall_range (fun b => Z.shiftl (HEX2BIN (hex_digit (Z.shiftr b 4))) 4
    + HEX2BIN (hex_digit (Z.land b 15)) =? b) 0 256); [by vm_compute|lia].
Qed.

Lemma word_value u : is_u 32 u ->
  u32 (Z.lor (Z.lor (Z.lor (u8 u) (Z.shiftl (u8 (Z.shiftr u 8)) 8)) (Z.shiftl (u8 (Z.shiftr u 16)) 16))
    (Z.shiftl (u8 (Z.shiftr u 24)) 24)) = u.
Proof. intros Hu. rewrite <- (uwrap_id 32 u Hu) at 5. bits 32. Qed.

Lemma hex_byte_at pre b post i : zlen pre = i -> byte b -> hex_byte (pre ++ hex_digits b ++ post) i = Some b.
Proof.
  intros Hi Hb. rewrite <- (Z.add_0_r i), hex_byte_app by done.
  rewrite <- (digits_value b Hb) at 2. by rewrite hex_digits_eq.
Qed.

Lemma hex_word_at pre u post i : zlen pre = i -> is_u 32 u ->
  hex_word (pre ++ hex_text (word_bytes u) ++ post) i = Some u.
Proof.
  intros Hi Hu. unfold hex_word. change (hex_text (word_bytes u)) with
    (hex_digits (u8 u) ++ hex_digits (u8 (Z.shiftr u 8)) ++ hex_digits (u8 (Z.shiftr u 16))
       ++ hex_digits (u8 (Z.shiftr u 24)) ++ []).
  assert (forall b, zlen (hex_digits b) = 2) as Hd by done.
  rewrite <- !app_assoc, (hex_byte_at pre) by auto with cint.
  do 3 (rewrite (app_assoc _ (hex_digits _)), hex_byte_at by (rewrite ?zlen_app, ?Hd; auto with cint lia)).
  by rewrite word_value.
Qed.

Lemma hex_text_app bs cs : hex_text (bs ++ cs) = hex_text bs ++ hex_text cs.
Proof. unfold hex_text. by rewrite map_app, concat_app. Qed.

Lemma hex_words_at pre v post i : zlen pre = i -> Forall (is_u 32) v ->
  hex_words (length v) (pre ++ hex_text (concat (map word_bytes v)) ++ post) i = Some v.
Proof.
  intros Hi Hv. revert pre i Hi. induction Hv as [|u v Hu Hv IH]; intros pre i Hi; [done|].
  cbn [map concat]. cbn [length hex_words].
  rewrite hex_text_app, <- app_assoc.
  rewrite hex_word_at by done. rewrite app_assoc.
  rewrite (IH (pre ++ hex_text (word_bytes u)) (i + 8)); [done|by rewrite zlen_app, Hi].
Qed.

Lemma words_bytes_eq v : words_bytes v = concat (map word_bytes v).
Proof. unfold words_bytes. f_equal. apply map_ext, bytes_of_word_eq. Qed.

Lemma zlen_words_bytes v : zlen (words_bytes v) = 4 * zlen v.
Proof.
  induction v as [|u v IH]; [done|]. unfold words_bytes in *. cbn [map concat].
  rewrite zlen_app, zlen_cons, IH. change (zlen (bytes_of_word 4 u)) with 4. lia.
Qed.

Lemma zlen_hex_text bs : zlen (hex_text bs) = 2 * zlen bs.
Proof.
  induction bs as [|b bs IH]; [done|]. unfold hex_text in *. cbn [map concat].
  rewrite zlen_app, zlen_cons, IH. change (zlen (hex_digits b)) with 2. lia.
Qed.

(** ** The token *)

(** C25: decrypting a secure token gives what the server encrypted.  The server's side is the
    cipher Corrected Block TEA in 6 + 52 / n rounds over n words of 32 bits, under the first sixteen
    characters of the key as four words; published test vectors are proved of it.  For
    every key of bytes and two or more words, [DecodeTEA] on the hexadecimal text of the encrypted
    words puts their bytes before the rest of the text's memory and halves the length. *)
Theorem tea_roundtrip key v rest :
  bytes key -> (2 <= length v)%nat -> Forall (is_u 32) v ->
  let text := hex_text (words_bytes (xxtea (key_words key) v)) ++ rest in
  DecodeTEA (mkAVal (Some key) (zlen key)) (mkAVal (Some text) (8 * zlen v))
  = Done (mkAVal (Some (words_bytes v ++ drop (4 * length v) text)) (4 * zlen v)).
Proof.
  intros Hk Hn Hv. set (k := key_words key). intros text. unfold DecodeTEA. rewrite tea_key_words by done.
  fold k. cbn [lift av_len av_val].
  assert (0 < zlen v) as Hz by (unfold zlen; lia).
  replace (Z.quot (8 * zlen v + 7) 8) with (zlen v) by (Z.to_euclidean_division_equations; lia).
  rewrite (proj2 (Z.leb_gt _ _)) by lia.
  assert (length (xxtea k v) = length v) as Hx by apply length_encrypt_rounds.
  assert (Z.to_nat (zlen v) = length (xxtea k v)) as -> by (unfold zlen; lia).
  assert (Forall (is_u 32) (xxtea k v)) as Hxw by (by apply encrypt_rounds_words).
  pose proof (hex_words_at [] (xxtea k v) rest 0 eq_refl Hxw) as Hwords. cbn [app] in Hwords. rewrite <- words_bytes_eq in Hwords. fold text in Hwords.
  rewrite Hwords. cbn [lift].
  assert (6 + Z.quot 52 (zlen v) = Z.of_nat (rounds (length v))) as ->.
  { unfold rounds, zlen. rewrite Z.quot_div_nonneg by lia. rewrite Nat2Z.inj_add, Nat2Z.inj_div. lia. }
  rewrite Nat2Z.id. unfold xxtea at 1 2. rewrite tea_rounds_encrypt; try done.
  2: { unfold rounds. assert (52 / length v <= 52 / 2)%nat by (apply Nat.div_le_compat_l; lia). cbn in *. lia. }
  replace (Z.quot (8 * zlen v) 2) with (4 * zlen v) by (Z.to_euclidean_division_equations; lia).
  rewrite <- words_bytes_eq. rewrite <- zlen_words_bytes.
  pose proof (rdn_app [] (words_bytes v) []) as Hr. rewrite app_nil_r in Hr. cbn [app] in Hr.
  change (zlen []) with 0 in Hr. rewrite Hr. cbn [lift].
  pose proof (wrn_tail [] text 0 (words_bytes v) eq_refl) as Hw. cbn [app] in Hw. rewrite Hw.
  - cbn [lift]. replace (Z.to_nat (zlen (words_bytes v))) with (4 * length v)%nat; [done|].
    rewrite zlen_words_bytes. unfold zlen. lia.
  - subst text. rewrite zlen_app, zlen_hex_text, !zlen_words_bytes. unfold zlen. rewrite Hx. lia.
Qed.

(** [hello] with the key [key]. *)
Lemma tea_roundtrip_witness :
  let text := hex_text (words_bytes (xxtea (key_words [107; 101; 121]) [1819043176; 111])) ++ [0] in
  DecodeTEA (mkAVal (Some [107; 101; 121]) 3) (mkAVal (Some text) 16)
  = Done (mkAVal (Some ([104; 101; 108; 108; 111; 0; 0; 0] ++ drop 8 text)) 8).
Proof.
  apply (tea_roundtrip [107; 101; 121] [1819043176; 111] [0]);
    [apply bytes_check; reflexivity|cbn; lia|by repeat constructor].
Defined.
