(* ===== verification/RtmpSession.v ===== *)
(** RTMP sessions: what a client does with the messages it receives; the model of the
    handlers of src/protocol/rtmp/rtmpdump-master/librtmp/rtmp.c and of the loops
    around them. *)

From stdpp Require Import base list option numbers strings gmap.
From S2P Require Import Prelude CMem TypeDefs Amf RtmpTypes Rtmp RtmpInvoke RtmpRead Tea.

Local Open Scope Z_scope.
Open Scope c_scope.

(** The memory the body of a packet lies in, and where it starts there. *)
Definition body_block (r : RTMP) (packet : RTMPPacket) : outcome (buf * Z) :=
  match m_body packet with
  | None => Undef
  | Some q => let! b := lift (heap (world r) !! p_blk q) in Done (b, p_off q)
  end.

(** ** Protocol messages *)

Definition HandleChangeChunkSize (r : RTMP) (packet : RTMPPacket) : outcome RTMP :=
  if 4 <=? m_nBodySize packet then
    let! (b, p) := body_block r packet in
    let! size := AMF_DecodeInt32 b p in
    Done (set_inChunkSize (s32 size) r)
  else Done r.

Definition HandleServerBW (r : RTMP) (packet : RTMPPacket) : outcome RTMP :=
  let! (b, p) := body_block r packet in
  let! bw := AMF_DecodeInt32 b p in
  Done (set_nServerBW (s32 bw) r).

Definition HandleClientBW (r : RTMP) (packet : RTMPPacket) : outcome RTMP :=
  let! (b, p) := body_block r packet in
  let! bw := AMF_DecodeInt32 b p in
  let r := set_nClientBW (s32 bw) r in
  if 4 <? m_nBodySize packet then
    let! c := lift (rd b (p + 4)) in
    Done (set_nClientBW2 c r)
  else Done (set_nClientBW2 255 r).

(** The media are paused and resumed when the server has sent a whole buffer. *)
Definition buffer_empty (r : RTMP) : outcome RTMP :=
  if negb (truthy (Z.land (lFlags (Link r)) RTMP_LF_BUFX)) then Done r
  else if m_pausing r =? 0 then
    let r := set_pauseStamp (media_timestamp r) r in
    let! (_, r) := RTMP_SendPause r true (s32 (m_pauseStamp r)) in
    Done (set_pausing 1 r)
  else if m_pausing r =? 2 then
    let! (_, r) := RTMP_SendPause r false (s32 (m_pauseStamp r)) in
    Done (set_pausing 3 r)
  else Done r.

(** The request to verify the player is answered when there is an answer. *)
Definition swf_verification (r : RTMP) (packet : RTMPPacket) : outcome RTMP :=
  let! unsupported :=
    (if 2 <? m_nBodySize packet then
       let! (b, p) := body_block r packet in
       let! c := lift (rd b (p + 2)) in
       Done (1 <? s8 c)
     else Done false) in
  if unsupported then Done r
  else if SWFSize (Link r) =? 0 then Done r
  else let! (_, r) := RTMP_SendCtrl r 0x1B 0 0 in Done r.

Definition HandleCtrl (r : RTMP) (packet : RTMPPacket) : outcome RTMP :=
  let! nType :=
    (if bool_decide (is_Some (m_body packet)) && (2 <=? m_nBodySize packet) then
       let! (b, p) := body_block r packet in
       let! t := AMF_DecodeInt16 b p in
       Done (s16 t)
     else Done (-1)) in
  let! r :=
    (if 6 <=? m_nBodySize packet then
       let! (b, p) := body_block r packet in
       let! tmp := AMF_DecodeInt32 b (p + 2) in
       if nType =? 1 then Done (if m_pausing r =? 1 then set_pausing 2 r else r)
       else if nType =? 6 then let! (_, r) := RTMP_SendCtrl r 0x07 tmp 0 in Done r
       else if nType =? 31 then buffer_empty r
       else Done r
     else Done r) in
  if nType =? 0x1A then swf_verification r packet else Done r.

(** ** Properties of metadata *)

(** The first property of the name, the members of an object before those behind it. *)
Fixpoint find_in_prop (name : AVal) (prop : AMFObjectProperty) : option (option AMFObjectProperty) :=
  let* m := AVMATCH (p_name prop) name in
  if m then Some (Some prop) else
  if (p_type prop =? AMF_OBJECT) || (p_type prop =? AMF_ECMA_ARRAY) then
    match prop with
    | AMFProp _ _ (Obj o) _ =>
        (fix find_in (o : AMFObject) : option (option AMFObjectProperty) :=
           match o with
           | [] => Some None
           | p :: o => let* f := find_in_prop name p in
                       match f with Some p => Some (Some p) | None => find_in o end
           end) o
    | _ => None
    end
  else Some None.

Fixpoint RTMP_FindFirstMatchingProperty (obj : AMFObject) (name : AVal)
  : option (option AMFObjectProperty) :=
  match obj with
  | [] => Some None
  | p :: obj => let* f := find_in_prop name p in
                match f with Some p => Some (Some p) | None => RTMP_FindFirstMatchingProperty obj name end
  end.

(** Whether [name] is a proper prefix of the name of the property. *)
Definition name_prefix (prop : AMFObjectProperty) (name : AVal) : option bool :=
  if av_len name <? av_len (p_name prop) then
    let* s1 := av_val (p_name prop) in
    let* s2 := av_val name in
    let* d1 := rdn s1 0 (av_len name) in
    let* d2 := rdn s2 0 (av_len name) in
    Some (bool_decide (d1 = d2))
  else Some false.

Fixpoint prefix_in_prop (name : AVal) (prop : AMFObjectProperty) : option (option AMFObjectProperty) :=
  let* m := name_prefix prop name in
  if m then Some (Some prop) else
  if p_type prop =? AMF_OBJECT then
    match prop with
    | AMFProp _ _ (Obj o) _ =>
        (fix prefix_in (o : AMFObject) : option (option AMFObjectProperty) :=
           match o with
           | [] => Some None
           | p :: o => let* f := prefix_in_prop name p in
                       match f with Some p => Some (Some p) | None => prefix_in o end
           end) o
    | _ => None
    end
  else Some None.

Fixpoint RTMP_FindPrefixProperty (obj : AMFObject) (name : AVal)
  : option (option AMFObjectProperty) :=
  match obj with
  | [] => Some None
  | p :: obj => let* f := prefix_in_prop name p in
                match f with Some p => Some (Some p) | None => RTMP_FindPrefixProperty obj name end
  end.

(** ** Messages with properties

    [fuel] is that of the decoder.  What the code reads of a property that was not
    decoded is garbage ([None]), which matters only where it is used. *)

Section Handlers.
Variable fuel : nat.

Definition decode_message (b : buf) (p nBodySize : Z) : outcome (option AMFObject) :=
  let! (nRes, obj) := AMF_Decode fuel b p nBodySize false in
  Done (if nRes <? 0 then None else Some obj).

Definition match_str (a : AVal) (s : string) : outcome bool := lift (AVMATCH a (AVC s)).

Definition HandleMetadata (r : RTMP) (b : buf) (p len : Z) : outcome (bool * RTMP) :=
  let! decoded := decode_message b p (s32 len) in
  match decoded with
  | None => Done (false, r)
  | Some obj =>
      let! prop := lift (AMF_GetProp obj AV_empty 0) in
      let! metastring := lift (AMFProp_GetString prop) in
      let! meta := match_str metastring "onMetaData" in
      if negb meta then Done (false, r) else
      let! duration := lift (RTMP_FindFirstMatchingProperty obj (AVC "duration")) in
      let! r := match duration with
                | Some prop => let! d := lift (AMFProp_GetNumber prop) in Done (set_fDuration d r)
                | None => Done r
                end in
      let! video := lift (RTMP_FindPrefixProperty obj (AVC "video")) in
      let! audio := lift (RTMP_FindPrefixProperty obj (AVC "audio")) in
      let rd := m_read r in
      let t := if bool_decide (is_Some video) then Z.lor (r_dataType rd) 1 else r_dataType rd in
      let t := if bool_decide (is_Some audio) then Z.lor t 4 else t in
      Done (true, set_read (set_r_dataType t rd) r)
  end.

(** The call of the number, which is taken off the list.  The number is converted for
    every entry. *)
Fixpoint find_call (calls : list (AVal * Z)) (i : Z) (txn : option Z) : outcome (option (Z * AVal)) :=
  match calls with
  | [] => Done None
  | (name, num) :: calls =>
      let! d := lift txn in
      let! n := lift (int_of_double d) in
      if num =? n then Done (Some (i, name)) else find_call calls (i + 1) txn
  end.

Definition erase_call (r : RTMP) (i : Z) : outcome RTMP :=
  let! calls := lift (AV_erase (m_methodCalls r) i) in
  Done (set_methodCalls calls r).

(** The first call of the method is taken off the list. *)
Fixpoint find_method (calls : list (AVal * Z)) (i : Z) (method : string) : outcome (option Z) :=
  match calls with
  | [] => Done None
  | (name, _) :: calls =>
      let! m := match_str name method in
      if m then Done (Some i) else find_method calls (i + 1) method
  end.
Definition drop_method (r : RTMP) (method : string) : outcome RTMP :=
  let! i := find_method (m_methodCalls r) 0 method in
  match i with Some i => erase_call r i | None => Done r end.

(** What is sent is not checked. *)
Definition ignore (x : outcome (bool * RTMP)) : outcome RTMP := let! (_, r) := x in Done r.

Definition publishing (r : RTMP) : bool := truthy (Z.land (protocol (Link r)) RTMP_FEATURE_WRITE).
Definition has_flag (r : RTMP) (f : Z) : bool := truthy (Z.land (lFlags (Link r)) f).

(** The answer to [connect]: the token of the server, and the messages that open a
    stream. *)
Definition connected (r : RTMP) (obj : AMFObject) : outcome RTMP :=
  let! r :=
    (if av_len (token (Link r)) =? 0 then Done r else
     let! found := lift (RTMP_FindFirstMatchingProperty obj (AVC "secureToken")) in
     match found with
     | None => Done r
     | Some prop =>
         let! text := lift (AMFProp_GetString prop) in
         let! text := DecodeTEA (token (Link r)) text in
         ignore (SendSecureTokenResponse r text)
     end) in
  let! r :=
    (if publishing r then let! r := ignore (SendReleaseStream r) in ignore (SendFCPublish r)
     else let! r := ignore (RTMP_SendServerBW r) in ignore (RTMP_SendCtrl r 3 0 300)) in
  let! r := ignore (RTMP_SendCreateStream r) in
  if publishing r then Done r else
  let! r := (if av_len (usherToken (Link r)) =? 0 then Done r
             else ignore (SendUsherToken r (usherToken (Link r)))) in
  if negb (av_len (subscribepath (Link r)) =? 0) then ignore (SendFCSubscribe r (subscribepath (Link r)))
  else if has_flag r RTMP_LF_LIVE then ignore (SendFCSubscribe r (playpath (Link r)))
  else Done r.

(** The answer to [createStream]: its number, and the message that starts it. *)
Definition stream_created (r : RTMP) (obj : AMFObject) : outcome RTMP :=
  let! prop := lift (AMF_GetProp obj AV_empty 3) in
  let! d := lift (AMFProp_GetNumber prop) in
  let! id := lift (int_of_double d) in
  let r := set_stream_id id r in
  if publishing r then ignore (SendPublish r)
  else
    let! r := (if has_flag r RTMP_LF_PLST then ignore (SendPlaylist r) else Done r) in
    let! r := ignore (SendPlay r) in
    ignore (RTMP_SendCtrl r 3 (u32 (m_stream_id r)) (u32 (m_nBufferMS r))).

Definition on_result (r : RTMP) (obj : AMFObject) (txn : option Z) : outcome RTMP :=
  let! call := find_call (m_methodCalls r) 0 txn in
  match call with
  | None => Done r
  | Some (i, methodInvoked) =>
      let! r := erase_call r i in
      let! is_connect := match_str methodInvoked "connect" in
      let! is_create := match_str methodInvoked "createStream" in
      let! is_play := match_str methodInvoked "play" in
      let! is_publish := match_str methodInvoked "publish" in
      if is_connect then connected r obj
      else if is_create then stream_created r obj
      else if is_play || is_publish then Done (set_bPlaying true r)
      else Done r
  end.

(** Member [name] of the object [obj] as a string. *)
Definition member_string (obj : AMFObject) (name : string) : outcome AVal :=
  let! prop := lift (AMF_GetProp obj (AVC name) (-1)) in
  lift (AMFProp_GetString prop).

Definition info_object (obj : AMFObject) : outcome AMFObject :=
  let! prop := lift (AMF_GetProp obj AV_empty 3) in
  lift (AMFProp_GetObject prop).

Fixpoint match_any (a : AVal) (l : list string) : outcome bool :=
  match l with
  | [] => Done false
  | s :: l => let! m := match_str a s in if m then Done true else match_any a l
  end.

(** The status of the stream: 1 when it is over. *)
Definition on_status (r : RTMP) (obj : AMFObject) : outcome (Z * RTMP) :=
  let! info := info_object obj in
  let! code := member_string info "code" in
  let! _ := member_string info "level" in
  let! failed := match_any code ["NetStream.Failed"; "NetStream.Play.Failed";
    "NetStream.Play.StreamNotFound"; "NetConnection.Connect.InvalidApp"] in
  let! started := match_any code ["NetStream.Play.Start"; "NetStream.Play.PublishNotify"] in
  let! published := match_any code ["NetStream.Publish.Start"] in
  let! over := match_any code ["NetStream.Play.Complete"; "NetStream.Play.Stop";
    "NetStream.Play.UnpublishNotify"] in
  let! sought := match_any code ["NetStream.Seek.Notify"] in
  let! paused := match_any code ["NetStream.Pause.Notify"] in
  if failed then let! r := RTMP_Close (set_stream_id (-1) r) in Done (0, r)
  else if started then let! r := drop_method (set_bPlaying true r) "play" in Done (0, r)
  else if published then let! r := drop_method (set_bPlaying true r) "publish" in Done (0, r)
  else if over then let! r := RTMP_Close r in Done (1, r)
  else if sought then
    Done (0, set_read (set_r_flags (Z.land (r_flags (m_read r)) (255 - RTMP_READ_SEEKING)) (m_read r)) r)
  else if paused then
    if (m_pausing r =? 1) || (m_pausing r =? 2) then
      let! r := ignore (RTMP_SendPause r false (s32 (m_pauseStamp r))) in
      Done (0, set_pausing 3 r)
    else Done (0, r)
  else Done (0, r).

(** The two functions that open a connection anew are arguments: [PublisherAuth], with
    the description of the error, and [reconnect], which stands for [RTMP_Connect] and
    [RTMP_ConnectStream]. *)
Variable PublisherAuth : RTMP -> AVal -> outcome RTMP.
Variable reconnect : RTMP -> outcome RTMP.

(** [txn] is compared as a double with the numbers of the calls. *)
Fixpoint find_call_double (calls : list (AVal * Z)) (i : Z) (txn : option Z) : outcome (option (Z * AVal)) :=
  match calls with
  | [] => Done None
  | (name, num) :: calls =>
      let! d := lift txn in
      if (double_of_int num =? d) || ((num =? 0) && negb (double_nonzero d)) then Done (Some (i, name))
      else find_call_double calls (i + 1) txn
  end.

Definition on_error (r : RTMP) (obj : AMFObject) (txn : option Z) : outcome RTMP :=
  if publishing r then
    let! call := find_call_double (m_methodCalls r) 0 txn in
    match call with
    | None => Done r
    | Some (i, methodInvoked) =>
        let! r := erase_call r i in
        let! is_connect := match_str methodInvoked "connect" in
        if is_connect then
          let! info := info_object obj in
          let! _ := member_string info "code" in
          let! _ := member_string info "level" in
          let! description := member_string info "description" in
          PublisherAuth r description
        else Done r
    end
  else Done r.

(** The server closes the connection; a client that publishes may have to try again
    with its name and password. *)
Definition on_close (r : RTMP) : outcome RTMP :=
  let! r := RTMP_Close r in
  let flag f := truthy (Z.land (pFlags (Link r)) f) in
  if publishing r && negb (flag RTMP_PUB_CLEAN)
     && (negb (flag RTMP_PUB_NAME) || negb (flag RTMP_PUB_RESP) || flag RTMP_PUB_CLATE)
  then
    let r := if flag RTMP_PUB_CLATE
             then set_Link (set_pFlags (Z.lor (pFlags (Link r)) RTMP_PUB_CLEAN) (Link r)) r else r in
    reconnect r
  else Done r.

Definition HandleInvoke (r : RTMP) (b : buf) (p nBodySize : Z) : outcome (Z * RTMP) :=
  let! c := lift (rd b p) in
  if negb (c =? 0x02) then Done (0, r) else
  let! decoded := decode_message b p (s32 nBodySize) in
  match decoded with
  | None => Done (0, r)
  | Some obj =>
      let! prop := lift (AMF_GetProp obj AV_empty 0) in
      let! method := lift (AMFProp_GetString prop) in
      let! prop := lift (AMF_GetProp obj AV_empty 1) in
      let txn := AMFProp_GetNumber prop in
      let zero (x : outcome RTMP) : outcome (Z * RTMP) := let! r := x in Done (0, r) in
      let! is_result := match_str method "_result" in
      let! is_bwdone := match_str method "onBWDone" in
      let! is_unsubscribe := match_str method "onFCUnsubscribe" in
      let! is_ping := match_str method "ping" in
      let! is_bwcheck := match_str method "_onbwcheck" in
      let! is_checked := match_str method "_onbwdone" in
      let! is_error := match_str method "_error" in
      let! is_close := match_str method "close" in
      let! is_status := match_str method "onStatus" in
      let! is_playlist := match_str method "playlist_ready" in
      if is_result then zero (on_result r obj txn)
      else if is_bwdone then
        if m_nBWCheckCounter r =? 0 then zero (ignore (SendCheckBW r)) else Done (0, r)
      else if is_unsubscribe then let! r := RTMP_Close r in Done (1, r)
      else if is_ping then let! d := lift txn in zero (ignore (SendPong r d))
      else if is_bwcheck then let! d := lift txn in zero (ignore (SendCheckBWResult r d))
      else if is_checked then zero (drop_method r "_checkbw")
      else if is_error then zero (on_error r obj txn)
      else if is_close then zero (on_close r)
      else if is_status then on_status r obj
      else if is_playlist then zero (drop_method r "set_playlist")
      else Done (0, r)
  end.

(** ** Received messages *)

(** The FLV tags of a message: metadata is handled, the time stamp of the last audio or
    video tag is kept. *)
Fixpoint flv_tags (n : nat) (b : buf) (p pos size ts : Z) (r : RTMP) : outcome (Z * RTMP) :=
  if pos + 11 <? size then
    match n with
    | O => Unfinished
    | S n =>
        let! dataSize := AMF_DecodeInt24 b (p + pos + 1) in
        if size <? pos + 11 + dataSize + 4 then Done (ts, r) else
        let! c := lift (rd b (p + pos)) in
        let! (ts, r) :=
          (if c =? 0x12 then
             let! (_, r) := HandleMetadata r b (p + pos + 11) dataSize in Done (ts, r)
           else if (c =? 8) || (c =? 9) then
             let! t := AMF_DecodeInt24 b (p + pos + 4) in
             let! high := lift (rd b (p + pos + 7)) in
             Done (u32 (Z.lor t (Z.shiftl (s8 high) 24)), r)
           else Done (ts, r)) in
        flv_tags n b p (pos + (11 + dataSize + 4)) size ts r
    end
  else Done (ts, r).

(** Audio or video. *)
Definition media_packet (r : RTMP) (packet : RTMPPacket) : RTMP :=
  let r := if m_mediaChannel r =? 0 then set_mediaChannel (m_nChannel packet) r else r in
  if m_pausing r =? 0 then set_mediaStamp (m_nTimeStamp packet) r else r.

(** 1 for a packet with media, 2 for one that ends them, 0 for any other. *)
Definition RTMP_ClientPacket (r : RTMP) (packet : RTMPPacket) : outcome (Z * RTMP) :=
  let t := m_packetType packet in
  let zero (x : outcome RTMP) : outcome (Z * RTMP) := let! r := x in Done (0, r) in
  let invoke off :=
    let! (b, p) := body_block r packet in
    let! (over, r) := HandleInvoke r b (p + off) (u32 (m_nBodySize packet - off)) in
    Done (if over =? 1 then 2 else 0, r) in
  if t =? RTMP_PACKET_TYPE_CHUNK_SIZE then zero (HandleChangeChunkSize r packet)
  else if t =? RTMP_PACKET_TYPE_CONTROL then zero (HandleCtrl r packet)
  else if t =? RTMP_PACKET_TYPE_SERVER_BW then zero (HandleServerBW r packet)
  else if t =? RTMP_PACKET_TYPE_CLIENT_BW then zero (HandleClientBW r packet)
  else if (t =? RTMP_PACKET_TYPE_AUDIO) || (t =? RTMP_PACKET_TYPE_VIDEO) then
    Done (1, media_packet r packet)
  else if t =? RTMP_PACKET_TYPE_FLEX_MESSAGE then invoke 1
  else if t =? RTMP_PACKET_TYPE_INFO then
    let! (b, p) := (match m_body packet with
                    | None => Done ([], 0) | Some _ => body_block r packet end) in
    let! (ok, r) := HandleMetadata r b p (m_nBodySize packet) in
    Done (if ok then 1 else 0, r)
  else if t =? RTMP_PACKET_TYPE_INVOKE then invoke 0
  else if t =? RTMP_PACKET_TYPE_FLASH_VIDEO then
    let! (b, p) := (match m_body packet with
                    | None => Done ([], 0) | Some _ => body_block r packet end) in
    let! (ts, r) := flv_tags (Z.to_nat (m_nBodySize packet)) b p 0 (m_nBodySize packet)
                      (m_nTimeStamp packet) r in
    Done (1, if m_pausing r =? 0 then set_mediaStamp ts r else r)
  else Done (0, r).

(** The loop of [RTMP_GetNextMediaPacket]: the next packet with media, if there is one;
    after a pause the packets of the time before it are skipped. *)
Fixpoint media_loop (n : nat) (r : RTMP) (packet : RTMPPacket) : outcome (Z * RTMPPacket * RTMP) :=
  if negb (RTMP_IsConnected r) then Done (0, packet, r) else
  match n with
  | O => Unfinished
  | S n =>
      let! (ok, packet, r) := RTMP_ReadPacket r packet in
      if negb ok then Done (0, packet, r) else
      if negb (RTMPPacket_IsReady packet) then media_loop n r packet else
      let! (media, r) := RTMP_ClientPacket r packet in
      let skip (r : RTMP) :=
        let! (packet, w) := RTMPPacket_Free (world r) packet in
        media_loop n (set_world w r) packet in
      if media =? 0 then skip r
      else if m_pausing r =? 3 then
        if m_nTimeStamp packet <=? m_mediaStamp r then skip r
        else Done (media, packet, set_pausing 0 r)
      else Done (media, packet, r)
  end.

Definition RTMP_GetNextMediaPacket (n : nat) (r : RTMP) (packet : RTMPPacket)
  : outcome (Z * RTMPPacket * RTMP) :=
  let! (media, packet, r) := media_loop n r packet in
  if negb (media =? 0) then Done (media, packet, set_bPlaying true r)
  else if sb_timedout (m_sb r) && (m_pausing r =? 0)
  then Done (media, packet, set_pauseStamp (media_timestamp r) r)
  else Done (media, packet, r).

(** The messages before the stream plays; media that come too early are dropped. *)
Fixpoint connect_loop (n : nat) (r : RTMP) (packet : RTMPPacket) : outcome RTMP :=
  if m_bPlaying r || negb (RTMP_IsConnected r) then Done r else
  match n with
  | O => Unfinished
  | S n =>
      let! (ok, packet, r) := RTMP_ReadPacket r packet in
      if negb ok then Done r else
      if negb (RTMPPacket_IsReady packet) then connect_loop n r packet else
      if m_nBodySize packet =? 0 then connect_loop n r packet else
      let early := (m_packetType packet =? RTMP_PACKET_TYPE_AUDIO)
                   || (m_packetType packet =? RTMP_PACKET_TYPE_VIDEO)
                   || (m_packetType packet =? RTMP_PACKET_TYPE_INFO) in
      let! r := (if early then Done r else let! (_, r) := RTMP_ClientPacket r packet in Done r) in
      let! (packet, w) := RTMPPacket_Free (world r) packet in
      connect_loop n (set_world w r) packet
  end.

Definition RTMP_ConnectStream (n : nat) (r : RTMP) (seekTime : Z) : outcome (bool * RTMP) :=
  let r := if 0 <? seekTime then set_Link (set_seekTime seekTime (Link r)) r else r in
  let! r := connect_loop n (set_mediaChannel 0 r) (mkPacket 0 0 false 0 0 0 0 0 None None) in
  Done (m_bPlaying r, r).

Definition RTMP_ReconnectStream (n : nat) (r : RTMP) (seekTime : Z) : outcome (bool * RTMP) :=
  let! r := RTMP_DeleteStream r in
  let! (_, r) := RTMP_SendCreateStream r in
  RTMP_ConnectStream n r seekTime.

End Handlers.
