(* ===== verification/RtmpMessages.v ===== *)
(** RTMP sessions: what the messages of a client look like on the wire, and which of them
    a message of the server leads to. *)

From stdpp Require Import base list option numbers strings gmap.
From S2P Require Import Prelude CMem TypeDefs Amf AmfSpec AmfRoundTrip RtmpTypes Rtmp RtmpInvoke.
From S2P Require Import RtmpSpec RtmpRead RtmpRoundTrip RtmpSafety Tea RtmpSession.

Local Open Scope Z_scope.
Open Scope c_scope.

(** ** Messages from the stack *)

(** The packet of a message with the body [bs], as [send_stack] sends it. *)
Definition wire (r : RTMP) (packet : Z -> ptr -> RTMPPacket) (bs : buf) : buf :=
  packet_bytes r (packet (zlen bs) (mkPtr (next_blk (world r)) RTMP_MAX_HEADER_SIZE)) bs.

(** The session after a message was sent from the stack: the bytes are out, which took socket
    events, so that [evs] are left; the array is gone again; the packet is remembered for its
    channel, for which there is room.  All else is as before. *)
Definition after_message (r : RTMP) (packet : Z -> ptr -> RTMPPacket) (bs : buf) (evs : list send_event) : RTMP :=
  let w := world r in
  let p := packet (zlen bs) (mkPtr (next_blk w) RTMP_MAX_HEADER_SIZE) in
  set_world (mkWorld (recvs w) evs (sent w ++ wire r packet bs) (RTMP_ctrlC w)
      (delete (next_blk w) (heap w)) (next_blk w + 1) (chunks w))
    (set_vecChannelsOut (<[m_nChannel p := set_headerType (sent_type r p) p]> (m_vecChannelsOut r))
      (set_channelsAllocatedOut
        (if m_channelsAllocatedOut r <=? m_nChannel p then m_nChannel p + 10 else m_channelsAllocatedOut r) r)).

(** What a packet of a message on the stack must look like. *)
Record stackable (packet : Z -> ptr -> RTMPPacket) (bs : buf) : Prop := {
  st_body : forall q, m_body (packet (zlen bs) q) = Some q;
  st_size : forall q, m_nBodySize (packet (zlen bs) q) = zlen bs;
  st_fmt : forall q, 0 <= m_headerType (packet (zlen bs) q) <= 3;
  st_channel : forall q, 0 <= m_nChannel (packet (zlen bs) q) <= 65599;
  st_type : forall q, 0 <= m_packetType (packet (zlen bs) q) < 256
}.

(** The calls that wait for an answer after the message was sent. *)
Definition queued (type : Z) (queue : bool) (method : AVal) (txn : Z) (calls : list (AVal * Z)) : list (AVal * Z) :=
  if (type =? RTMP_PACKET_TYPE_INVOKE) && queue then calls ++ [(decoded_str method, txn)] else calls.

(** [r'] is [r] after the bytes [data] were sent from the stack. *)
Record sends_message (r : RTMP) (data : buf) (calls : list (AVal * Z)) (r' : RTMP) : Prop := {
  sm_sent : sent (world r') = sent (world r) ++ data;
  sm_calls : m_methodCalls r' = calls;
  sm_by : sent_by None r r';
  sm_capacity : forallb (willing (RTMP_ctrlC (world r'))) (sends (world r')) = true /\
    capacity (sends (world r)) - zlen data <= capacity (sends (world r'));
  sm_session : m_stream_id r' = m_stream_id r /\ m_bPlaying r' = m_bPlaying r /\
    m_nBWCheckCounter r' = m_nBWCheckCounter r
}.

(** The numbers of calls are sent as doubles. *)
Lemma int_of_double_of_int n : - 2 ^ 31 <= n < 2 ^ 31 -> int_of_double (double_of_int n) = Some n.
Proof.
  intros Hn. unfold double_of_int. destruct (Z.eqb_spec n 0) as [->|H0]; [done|].
  set (a := Z.abs n). set (e := Z.log2 a).
  assert (0 < a <= 2 ^ 31) as Ha by lia.
  pose proof (Z.log2_spec a (proj1 Ha)) as [He1 He2]. fold e in He1, He2.
  assert (0 <= e <= 31) as He.
  { split; [apply Z.log2_nonneg|]. apply (Z.log2_le_mono a (2 ^ 31)). lia. }
  set (m := a * 2 ^ (52 - e) - 2 ^ 52).
  assert (2 ^ 52 = 2 ^ e * 2 ^ (52 - e)) as Hp by (rewrite <- Z.pow_add_r by lia; f_equal; lia).
  assert (2 ^ 53 = 2 ^ Z.succ e * 2 ^ (52 - e)) as Hp' by (rewrite <- Z.pow_add_r by lia; f_equal; lia).
  assert (0 < 2 ^ (52 - e)) by (apply Z.pow_pos_nonneg; lia).
  assert (0 <= m < 2 ^ 52) as Hm by (unfold m; split; [nia|]; change (2 ^ 52) with (2 ^ 53 - 2 ^ 52) at 2; nia).
  set (s := if n <? 0 then 1 else 0).
  replace ((if n <? 0 then 2 ^ 63 else 0) + (1023 + e) * 2 ^ 52 + m) with ((s * 2048 + 1023 + e) * 2 ^ 52 + m)
    by (unfold s; destruct (n <? 0); lia).
  set (d := (s * 2048 + 1023 + e) * 2 ^ 52 + m).
  assert (0 <= s <= 1) as Hs by (unfold s; destruct (n <? 0); lia).
  assert (Z.shiftr d 52 = s * 2048 + 1023 + e) as E1.
  { rewrite Z.shiftr_div_pow2 by lia. unfold d. rewrite Z.div_add_l, (Z.div_small m) by lia. lia. }
  assert (Z.land d (2 ^ 52 - 1) = m) as E2.
  { change (2 ^ 52 - 1) with (Z.ones 52). rewrite Z.land_ones by lia. unfold d.
    rewrite Z.add_comm, Z_mod_plus_full. by apply Z.mod_small. }
  unfold int_of_double. rewrite E1, E2.
  assert (Z.land (s * 2048 + 1023 + e) 0x7ff = 1023 + e) as ->.
  { change 0x7ff with (Z.ones 11). rewrite Z.land_ones by lia.
    replace (s * 2048 + 1023 + e) with (1023 + e + s * 2 ^ 11) by lia.
    rewrite Z_mod_plus_full. apply Z.mod_small. lia. }
  rewrite (proj2 (Z.eqb_neq _ 0x7ff)), (proj2 (Z.eqb_neq _ 0)) by lia.
  assert (Z.shiftl (2 ^ 52 + m) (1023 + e - 1075) = a) as ->.
  { replace (1023 + e - 1075) with (- (52 - e)) by lia. rewrite Z.shiftl_opp_r, Z.shiftr_div_pow2 by lia.
    unfold m. replace (2 ^ 52 + (a * 2 ^ (52 - e) - 2 ^ 52)) with (a * 2 ^ (52 - e)) by lia.
    apply Z.div_mul. lia. }
  assert (Z.testbit d 63 = (n <? 0)) as ->.
  { change 63 with (11 + 52). rewrite <- Z.shiftr_spec by lia. rewrite E1.
    rewrite Z.testbit_eqb by lia. change (2 ^ 11) with 2048.
    replace (s * 2048 + 1023 + e) with (1023 + e + s * 2048) by lia.
    rewrite Z.div_add, (Z.div_small (1023 + e)) by lia. unfold s. by destruct (n <? 0). }
  assert ((if n <? 0 then - a else a) = n) as -> by (destruct (Z.ltb_spec n 0); lia).
  by rewrite (proj2 (Z.leb_le _ _)), (proj2 (Z.ltb_lt n (2 ^ 31))) by lia.
Qed.

(** [body] writes [bs] to an array of [room] bytes. *)
Definition yields (room : Z) (body : buf -> Z -> enc_result) (bs : buf) : Prop :=
  forall old, zlen old = room -> exists post, body old room = Some (Some (zlen bs), bs ++ post) /\
    zlen (bs ++ post) = room.

Lemma emits_yields room f bs : emits 0 f bs -> zlen bs <= room -> yields room f bs.
Proof.
  intros Hf Hr old Ho. pose proof (zlen_nonneg bs). exists (drop (Z.to_nat (zlen bs)) old).
  rewrite Hf by lia. split; [done|]. rewrite zlen_app, zlen_drop; lia.
Qed.

Lemma string_yields room f bs v :
  emits 0 f bs -> wf_str v = true -> room < 65536 -> zlen bs + 5 + av_len v <= room ->
  yields room (enc_seq f (enc_str v)) (bs ++ enc_string v).
Proof.
  intros Hf Hv Hroom Hl old Ho. assert (0 <= av_len v) by (unfold wf_str in Hv; lia).
  destruct (enc_seq_string f bs v old room Hf Hv Ho ltac:(pose proof (zlen_nonneg bs); lia)) as (n & new & E & Hnew & Hn).
  destruct n as [n|]; [|lia]. destruct Hn as (_ & En & ->). eexists. unfold enc_str. rewrite E. by rewrite <- Hnew, En.
Qed.

(** What [RTMP_SendPacket] reads of an invocation again. *)
Record invocation (queue : bool) (method : AVal) (txn : Z) (bs rest : buf) : Prop := {
  iv_bytes : bs = call_bytes method (double_of_int txn) ++ rest;
  iv_method : wf_str method = true /\ 0 < av_len method < 65536;
  iv_txn : - 2 ^ 31 <= txn < 2 ^ 31
}.

Lemma is_u_double n : - 2 ^ 31 <= n < 2 ^ 31 -> is_u 64 (double_of_int n).
Proof.
  intros Hn. unfold double_of_int. destruct (Z.eqb_spec n 0) as [->|H0]; [by vm_compute|].
  set (a := Z.abs n). set (e := Z.log2 a).
  assert (0 < a <= 2 ^ 31) as Ha by lia.
  pose proof (Z.log2_spec a (proj1 Ha)) as [He1 He2]. fold e in He1, He2.
  assert (0 <= e <= 31) as He.
  { split; [apply Z.log2_nonneg|]. apply (Z.log2_le_mono a (2 ^ 31)). lia. }
  assert (2 ^ 52 = 2 ^ e * 2 ^ (52 - e)) as Hp by (rewrite <- Z.pow_add_r by lia; f_equal; lia).
  assert (2 ^ 53 = 2 ^ Z.succ e * 2 ^ (52 - e)) as Hp' by (rewrite <- Z.pow_add_r by lia; f_equal; lia).
  assert (0 < 2 ^ (52 - e)) by (apply Z.pow_pos_nonneg; lia).
  assert (2 ^ 52 <= a * 2 ^ (52 - e) < 2 ^ 53) by nia.
  unfold is_u. destruct (n <? 0); lia.
Qed.

Lemma queue_call_invocation r packet queue blk pre bs post method txn rest :
  m_packetType packet = RTMP_PACKET_TYPE_INVOKE -> m_body packet = Some (mkPtr blk (zlen pre)) ->
  heap (world r) !! blk = Some (pre ++ bs ++ post) -> invocation queue method txn bs rest ->
  queue_call r packet queue =
    Done (if queue then set_methodCalls (m_methodCalls r ++ [(decoded_str method, txn)]) r else r).
Proof.
  intros Ht Hb Hh [-> [Hm Hml] Htx]. unfold queue_call. rewrite Ht, Hb. ztests. cbn [p_blk p_off]. rewrite Hh. cbn [lift].
  pose proof (chars_zlen method Hm) as Hc. unfold call_bytes, enc_string.
  rewrite (proj2 (Z.ltb_lt _ 65536)) by lia.
  assert (pre ++ ((((AMF_STRING :: be16 (av_len method)) ++ chars method) ++
      (AMF_NUMBER :: double_bytes (double_of_int txn)) ++ [AMF_NULL]) ++ rest) ++ post =
    (pre ++ [AMF_STRING]) ++ be16 (av_len method) ++ chars method ++
      (AMF_NUMBER :: double_bytes (double_of_int txn)) ++ [AMF_NULL] ++ rest ++ post) as ->
    by (rewrite <- !app_assoc; done).
  replace (zlen pre + 1) with (zlen (pre ++ [AMF_STRING])) by (by rewrite zlen_app).
  rewrite DecodeString_at by (done || lia). cbv beta iota. destruct queue; [|done].
  assert (av_len (decoded_str method) = av_len method) as El by (unfold decoded_str; by destruct (0 <? av_len method)).
  set (h := (pre ++ [AMF_STRING]) ++ be16 (av_len method) ++ chars method ++ [AMF_NUMBER]).
  assert ((pre ++ [AMF_STRING]) ++ be16 (av_len method) ++ chars method ++
      (AMF_NUMBER :: double_bytes (double_of_int txn)) ++ [AMF_NULL] ++ rest ++ post =
    h ++ double_bytes (double_of_int txn) ++ [AMF_NULL] ++ rest ++ post) as ->
    by (unfold h; rewrite <- !app_assoc; done).
  replace (zlen (pre ++ [AMF_STRING]) + 3 + av_len (decoded_str method)) with (zlen h)
    by (unfold h; rewrite !zlen_app, zlen_be16, Hc, El; change (zlen [AMF_STRING]) with 1; change (zlen [AMF_NUMBER]) with 1; lia).
  rewrite DecodeNumber_at by (by apply is_u_double). cbv beta iota.
  rewrite int_of_double_of_int by done. cbn [lift].
  unfold AV_queue. rewrite El, (proj2 (Z.eqb_neq _ 0)) by lia.
  unfold decoded_str. rewrite (proj2 (Z.ltb_lt 0 _)) by lia. cbn [av_val av_len].
  rewrite <- Hc. rewrite rdn_prefix by (pose proof (zlen_nonneg (chars method)); lia).
  cbn [lift]. unfold zlen at 1. by rewrite Nat2Z.id, firstn_all.
Qed.

Lemma compress_packet_type r p : m_packetType (set_headerType (sent_type r p) p) = m_packetType p.
Proof. done. Qed.

Lemma send_stack_writes close r pbuf checked packet body bs queue method txn rest :
  yields (pbuf - RTMP_MAX_HEADER_SIZE) body bs -> stackable packet bs ->
  RTMP_MAX_HEADER_SIZE <= pbuf < 2 ^ 31 -> 0 < m_outChunkSize r ->
  (forall q, m_packetType (packet (zlen bs) q) = RTMP_PACKET_TYPE_INVOKE ->
     zlen bs <= m_outChunkSize r /\ invocation queue method txn bs rest) ->
  ready (world r) (zlen (wire r packet bs)) ->
  exists r', send_stack close r pbuf checked packet body queue = Done (true, r') /\
    sends_message r (wire r packet bs)
      (queued (m_packetType (packet (zlen bs) (mkPtr (next_blk (world r)) RTMP_MAX_HEADER_SIZE))) queue method txn
         (m_methodCalls r)) r' /\
    set_methodCalls (m_methodCalls r) r' = after_message r packet bs (sends (world r')).
Proof.
  intros Hbody [Sb Ss Sf Sc St] Hp Hout Hinv Hready. unfold send_stack. unfold fresh at 1. cbv beta iota zeta.
  set (blk := next_blk (world r)) in *. set (w := mkWorld _ _ _ _ _ _ _). unfold ptr_add. cbn [p_blk p_off].
  change (0 + RTMP_MAX_HEADER_SIZE) with RTMP_MAX_HEADER_SIZE.
  set (room := pbuf - RTMP_MAX_HEADER_SIZE) in *.
  set (b0 := replicate (Z.to_nat pbuf) 0). assert (zlen b0 = pbuf) as Eb0
    by (unfold b0, RTMP_MAX_HEADER_SIZE in *; rewrite zlen_replicate; lia).
  set (pre := take (Z.to_nat RTMP_MAX_HEADER_SIZE) b0). set (old := drop (Z.to_nat RTMP_MAX_HEADER_SIZE) b0).
  assert (zlen pre = RTMP_MAX_HEADER_SIZE) as Hpre by (unfold pre, RTMP_MAX_HEADER_SIZE in *; rewrite zlen_take; lia).
  assert (zlen old = room) as Hold by (unfold old, room, RTMP_MAX_HEADER_SIZE in *; rewrite zlen_drop; lia).
  assert (heap w !! blk = Some (pre ++ old ++ [])) as Hb0
    by (cbn; rewrite lookup_insert_eq, app_nil_r; unfold pre, old; by rewrite take_drop).
  rewrite (mem_read_at w blk pre old [] RTMP_MAX_HEADER_SIZE room Hb0) by done. cbv beta iota.
  destruct (Hbody old Hold) as (post & -> & Hpost). cbn [lift].
  rewrite (mem_write_at w blk pre old (bs ++ post) [] RTMP_MAX_HEADER_SIZE Hb0) by (done || lia). cbv beta iota.
  rewrite app_nil_r.
  pose proof (fresh_sent_by r pbuf (pre ++ bs ++ post)) as H1. fold blk in H1. change (snd (fresh (world r) pbuf)) with w in H1.
  set (w1 := set_heap _ w) in *. set (r1 := set_world w1 r) in *.
  set (P := packet (zlen bs) (mkPtr blk RTMP_MAX_HEADER_SIZE)) in *.
  assert (sendable r1 P blk pre bs post) as Hs.
  { constructor; unfold P; rewrite ?Sb, ?Ss; try done; [by rewrite Hpre|cbn; by rewrite lookup_insert_eq|by rewrite Hpre|].
    rewrite zlen_app in Hpost. pose proof (zlen_nonneg post). unfold room, RTMP_MAX_HEADER_SIZE in *. lia. }
  destruct (SendPacket_writes close r1 P queue blk pre bs post Hs) as (w2 & X & -> & (evs & Ew2 & Hw & Hcap) & HX1 & HX2);
    [exact Hready|].
  change (packet_bytes r1 P bs) with (wire r packet bs) in *.
  set (P' := set_headerType (sent_type r1 P) P) in *.
  set (r2 := set_world w2 (grow_out r1 (m_nChannel P))) in *.
  assert (queue_call r2 P' queue = Done (if (m_packetType P =? RTMP_PACKET_TYPE_INVOKE) && queue
      then set_methodCalls (m_methodCalls r2 ++ [(decoded_str method, txn)]) r2 else r2)) as ->.
  { destruct (Z.eqb_spec (m_packetType P) RTMP_PACKET_TYPE_INVOKE) as [Et|Et].
    - destruct (Hinv _ Et) as [Hle Hiv]. destruct (HX2 ltac:(exact Hle)) as (hd & EX & Ehd).
      apply (queue_call_invocation r2 P' queue blk hd bs post method txn rest); [exact Et|
        by unfold P'; cbn; unfold P; rewrite Sb, Ehd, Hpre| |exact Hiv].
      unfold r2. cbn. rewrite Ew2. cbn. rewrite lookup_insert_eq, EX. by rewrite <- app_assoc.
    - unfold queue_call. change (m_packetType P') with (m_packetType P). by rewrite (proj2 (Z.eqb_neq _ _)). }
  cbv beta iota. set (r3 := if _ && _ then _ else _).
  assert (sent_by (Some blk) r1 r2) as H2.
  { eapply sent_by_trans; [apply grow_out_sent_by|].
    destruct (grow_out_fields r1 (m_nChannel P)) as (_ & Hgw & _).
    assert (zlen (X ++ post) = zlen (pre ++ bs ++ post)) as EXl by (rewrite !zlen_app, HX1; lia).
    pose proof (write_sent_by (grow_out r1 (m_nChannel P)) blk (pre ++ bs ++ post) (X ++ post)) as Hwr.
    rewrite Hgw in Hwr. specialize (Hwr ltac:(cbn; by rewrite lookup_insert_eq) EXl).
    eapply sent_by_trans; [exact Hwr|]. unfold r2. rewrite Ew2. apply (sends_sent_by _ (set_world _ _)). }
  assert (sent_by (Some blk) r2 r3) as H3.
  { unfold r3. destruct (_ && _); [|apply sent_by_refl]. constructor; [constructor|..]; cbn; eauto; lia. }
  eexists. split; [done|].
  assert (world r3 = w2 /\ m_methodCalls r3 = queued (m_packetType P) queue method txn (m_methodCalls r)) as [Ew3 Ec3].
  { unfold r3, queued, r2, grow_out. destruct (_ && _); cbn; repeat case_match; done. }
  split; cycle 1.
  { assert (delete blk (heap w2) = delete blk (heap (world r))) as Eh
      by (rewrite Ew2; cbn; by rewrite !delete_insert_eq).
    unfold after_message. fold blk. fold P.
    unfold r3, r2, grow_out, release. change (m_channelsAllocatedOut r1) with (m_channelsAllocatedOut r).
    destruct (_ && _), (m_channelsAllocatedOut r <=? m_nChannel P); cbn; rewrite Eh, Ew2; reflexivity. }
  constructor.
  - cbn. rewrite Ew3, Ew2. done.
  - exact Ec3.
  - apply (release_sent_by r r1 (set_vecChannelsOut (<[m_nChannel P':=P']> (m_vecChannelsOut r3)) r3) (mkPtr blk 0));
      [done|exact H1| |cbn; lia]. cbn [p_blk].
    eapply sent_by_trans; [exact H2|]. eapply sent_by_trans; [exact H3|apply channels_out_sent_by].
  - cbn. rewrite Ew3, Ew2. cbn. split; [exact Hw|]. exact Hcap.
  - cbn. unfold r3, r2, grow_out. destruct (_ && _); cbn; repeat case_match; done.
Qed.

(** ** Answers to control messages *)

(** The packet of a control message of [n] bytes. *)
Definition ctrl_packet (n : Z) : Z -> ptr -> RTMPPacket :=
  fun _ => stack_packet 0x02 RTMP_PACKET_SIZE_MEDIUM RTMP_PACKET_TYPE_CONTROL 0 0 n.

Lemma SendCtrl_writes r type object :
  0 < m_outChunkSize r -> ctrl_size type = 6 -> type <> 0x1B -> type <> 0x1A ->
  ready (world r) (zlen (wire r (ctrl_packet 6) (be16 type ++ be32 object))) ->
  exists r', RTMP_SendCtrl r type object 0 = Done (true, r') /\
    set_methodCalls (m_methodCalls r) r' =
      after_message r (ctrl_packet 6) (be16 type ++ be32 object) (sends (world r')) /\
    sends_message r (wire r (ctrl_packet 6) (be16 type ++ be32 object)) (m_methodCalls r) r'.
Proof.
  intros Hout Hsz H1 H2 Hr. unfold RTMP_SendCtrl. rewrite Hsz.
  rewrite (proj2 (Z.eqb_neq _ 0x1B)), (proj2 (Z.eqb_neq _ 0x1A)) by done. ztests.
  destruct (send_stack_writes RTMP_Close r 256 false (ctrl_packet 6)
    (enc_seq (fun w room => AMF_EncodeInt16 w room type) (fun w room => AMF_EncodeInt32 w room object))
    (be16 type ++ be32 object) false (AVC "") 0 []) as (r' & E & Hs & Ha); [|done..|by exists r'].
  apply emits_yields; [|done]. apply (enc_seq_emits 0); [apply emits_int16|apply emits_int32|done..].
Qed.

Lemma set_methodCalls_same r : set_methodCalls (m_methodCalls r) r = r.
Proof. by destruct r. Qed.

(** C26: a ping of the server is answered: when a control message of type 6 arrives and
    the socket takes what is sent, the client sends a control message of type 7 with the
    number of the ping, and does nothing else: of the session only the packet remembered for
    channel 2 and the room for the channels change, and outside of it the bytes sent, the
    events of the socket and the number of blocks allocated so far. *)
Theorem rtmp_ping_answered r packet blk pre post n :
  0 < m_outChunkSize r -> is_u 32 n ->
  m_body packet = Some (mkPtr blk (zlen pre)) -> 6 <= m_nBodySize packet ->
  heap (world r) !! blk = Some (pre ++ be16 6 ++ be32 n ++ post) ->
  ready (world r) (zlen (wire r (ctrl_packet 6) (be16 7 ++ be32 n))) ->
  exists r', HandleCtrl r packet = Done r' /\
    sent (world r') = sent (world r) ++ wire r (ctrl_packet 6) (be16 7 ++ be32 n) /\
    r' = after_message r (ctrl_packet 6) (be16 7 ++ be32 n) (sends (world r')).
Proof.
  intros Hout Hn Hb Hsz Hh Hr.
  destruct (SendCtrl_writes r 7 n Hout eq_refl ltac:(done) ltac:(done) Hr) as (r' & E & Ha & Hs).
  exists r'. split; [|split; [apply Hs|rewrite <- Ha, <- (sm_calls _ _ _ _ Hs); by rewrite set_methodCalls_same]].
  unfold HandleCtrl, body_block. rewrite Hb. cbn [p_blk p_off]. rewrite Hh.
  rewrite bool_decide_eq_true_2 by eauto. rewrite !(proj2 (Z.leb_le _ (m_nBodySize packet))) by lia. cbn [andb lift].
  rewrite DecodeInt16_at by done. cbv beta iota. change (s16 6) with 6.
  rewrite app_assoc. replace (zlen pre + 2) with (zlen (pre ++ be16 6)) by (by rewrite zlen_app).
  rewrite DecodeInt32_at by done. cbv beta iota. ztests. rewrite E. done.
Qed.

(** A ping with the number 4711. *)
Lemma rtmp_ping_answered_witness : exists r',
  let packet := mkPacket 0 RTMP_PACKET_TYPE_CONTROL true 2 0 0 6 6 None (Some (mkPtr 0 18)) in
  let r := RTMP_Init (mkWorld [] (replicate 20 (Sent 7)) [] false {[0 := replicate 18 0 ++ [0; 6; 0; 0; 18; 103]]} 1 ∅) in
  HandleCtrl r packet = Done r' /\ sent (world r') = [66; 0; 0; 0; 0; 0; 6; 4; 0; 7; 0; 0; 18; 103].
Proof.
  pose proof (rtmp_ping_answered
    (RTMP_Init (mkWorld [] (replicate 20 (Sent 7)) [] false {[0 := replicate 18 0 ++ [0; 6; 0; 0; 18; 103]]} 1 ∅))
    (mkPacket 0 RTMP_PACKET_TYPE_CONTROL true 2 0 0 6 6 None (Some (mkPtr 0 18))) 0 (replicate 18 0) [] 4711) as H.
  destruct H as (r' & E & Hs & _); [done|by vm_compute|done|done|done|by vm_compute|].
  exists r'. split; [exact E|]. rewrite Hs. by vm_compute.
Defined.

(** ** Invocations *)

(** The packet of most invocations. *)
Definition invoke_packet : Z -> ptr -> RTMPPacket :=
  stack_packet 0x03 RTMP_PACKET_SIZE_MEDIUM RTMP_PACKET_TYPE_INVOKE 0 0.

(** What [deleteStream] of the stream [id] consists of, as the invocation [txn]. *)
Definition delete_stream (txn id : Z) : buf :=
  call_bytes (AVC "deleteStream") (double_of_int txn) ++ AMF_NUMBER :: double_bytes (double_of_int id).

(** C21: closing a connected session with an open stream, of a protocol without the feature to
    write, over a socket that takes what is sent, in chunks of 34 bytes or more (the session
    owns its blocks, [tidy], and its channels lie in their array): the server is told to delete the stream, the connection is left, and exactly what the
    session owned is released: the bodies of the packets of all channels, of the packet that
    is written and the input that was read are gone, each once, and all other memory is as it
    was; the session keeps no packets and no waiting calls. *)
Theorem rtmp_close_ends r :
  tidy 2 r -> channels_in r -> RTMP_IsConnected r = true -> 0 < m_stream_id r ->
  truthy (Z.land (protocol (Link r)) RTMP_FEATURE_WRITE) = false -> 34 <= m_outChunkSize r ->
  ready (world r) (zlen (wire r invoke_packet (delete_stream (m_numInvokes r + 1) (m_stream_id r)))) ->
  exists r', RTMP_Close r = Done r' /\
    sent (world r') = sent (world r) ++ wire r invoke_packet (delete_stream (m_numInvokes r + 1) (m_stream_id r)) /\
    RTMP_IsConnected r' = false /\ m_stream_id r' = -1 /\ m_methodCalls r' = [] /\ m_bPlaying r' = false /\
    m_vecChannelsIn r' = ∅ /\ m_vecChannelsOut r' = ∅ /\ (forall o p, ~ owns r' o p) /\
    (forall o p, owns r o p -> heap (world r') !! p_blk p = None) /\
    (forall b, (forall o p, owns r o p -> p_blk p <> b) -> heap (world r') !! b = heap (world r) !! b).
Proof.
  intros Hr Hin Hc Hid Hw Hout Hready. unfold RTMP_Close. rewrite Hc, (proj2 (Z.ltb_lt 0 _)) by done. cbn [andb].
  set (id := m_stream_id r) in *. set (r0 := set_stream_id 0 r).
  change (protocol (Link r0)) with (protocol (Link r)). rewrite Hw. cbv beta iota.
  assert (tidy 2 r0) as Hr0 by (destruct Hr; constructor; try done; by apply (fields_owned r)).
  unfold SendDeleteStream_with. rewrite (next_invoke_tidy 1) by (done || lia). cbv beta iota.
  set (txn := m_numInvokes r0 + 1). set (r1 := set_numInvokes txn r0).
  assert (tidy 1 r1) as Hr1 by (by apply count_tidy).
  assert (- 2 ^ 31 <= txn < 2 ^ 31) as Htxn by (destruct Hr0 as [_ _ _ Hn]; unfold txn; lia).
  set (bs := delete_stream txn id). change (m_numInvokes r + 1) with txn in *. fold bs in Hready |- *.
  assert (zlen bs = 34) as Hbs by done.
  change (stack_packet 3 RTMP_PACKET_SIZE_MEDIUM RTMP_PACKET_TYPE_INVOKE 0 0) with invoke_packet.
  destruct (send_stack_writes close_reset r1 256 false invoke_packet
    (enc_seq (enc_call (AVC "deleteStream") (double_of_int (m_numInvokes r1)))
       (fun w room => AMF_EncodeNumber w room (double_of_int id))) bs false (AVC "deleteStream") txn
    (AMF_NUMBER :: double_bytes (double_of_int id))) as (r2 & -> & Hs & Ha); try done.
  - apply emits_yields; [|done]. apply (enc_seq_emits 0); [by apply enc_call_emits|apply emits_number|done..].
  - change (m_outChunkSize r1) with (m_outChunkSize r). lia.
  - cbv beta iota. assert (tidy 1 r2) as Hr2 by (eapply sent_by_tidy; [apply Hs|done]).
    destruct (close_reset_done r2 (td_owned _ _ Hr2)) as (r3 & E & He & Hsent & Hrest).
    assert (forall o p, owns r o p <-> owns r2 o p) as Ho by
      (intros o p; apply owns_same; [exact (f_equal m_vecChannelsIn Ha)|exact (f_equal m_write Ha)|exact (f_equal m_read Ha)]).
    assert (channels_in r2) as Hin2 by (intros ch q;
      rewrite (f_equal m_vecChannelsIn Ha : m_vecChannelsIn r2 = m_vecChannelsIn r),
        (f_equal m_channelsAllocatedIn Ha : m_channelsAllocatedIn r2 = m_channelsAllocatedIn r); apply Hin).
    assert (heap (world r2) = heap (world r)) as Hh by
      (rewrite (f_equal (fun r => heap (world r)) Ha : heap (world r2) = delete (next_blk (world r)) (heap (world r)));
       apply delete_id, eq_None_not_Some; intros H%(ow_fresh r (td_owned _ _ Hr)); lia).
    destruct (close_reset_without r2 r3 Hin2 E) as [Hgone Hkept]. rewrite Hh in Hkept.
    exists r3. split; [exact E|]. split; [rewrite Hsent, (sm_sent _ _ _ _ Hs); done|].
    destruct Hrest as (? & ? & ? & ?). split_and!; try done; [apply He|by eapply close_reset_out|apply He|..].
    + intros o p Hp. apply Hgone. exists o, p. by rewrite <- Ho.
    + intros b Hb. apply Hkept. intros (o & p & Hp & Eb). apply (Hb o p); [by apply Ho|done].
Qed.

(** A session with stream 1, connected by socket 3, that has received a part of a packet of
    channel 4, whose body is in block 0; block 1 is not the session's. *)
Definition example_part : RTMPPacket :=
  mkPacket RTMP_PACKET_SIZE_MEDIUM RTMP_PACKET_TYPE_AUDIO false 4 1000 1 130 128 None (Some (mkPtr 0 18)).
Definition example_session : RTMP :=
  set_channelsAllocatedIn 14 (set_vecChannelsIn {[4 := example_part]} (set_stream_id 1 (set_sb (mkSockBuf 3 0 [] false)
    (RTMP_Init (mkWorld [] (replicate 60 (Sent 7)) [] false {[0 := replicate 148 0; 1 := [1; 2]]} 2 ∅))))).

Lemma example_owns o p : owns example_session o p -> o = Channel 4 /\ p = mkPtr 0 0.
Proof.
  intros H. inversion H as [ch q p' Hq Hp|p' Hp|b Hf Hb]; subst; [|done..].
  cbn in Hq. apply lookup_singleton_Some in Hq as [<- <-]. by injection Hp as <-.
Qed.

Lemma example_tidy : tidy 2 example_session.
Proof.
  constructor; [constructor|done..].
  - intros o p [_ ->]%example_owns. split; [done|]. by eexists.
  - by intros o1 o2 p1 p2 [-> _]%example_owns [-> _]%example_owns.
  - intros b. cbn. intros [v Hb]. apply lookup_insert_Some in Hb as [[<- _]|[_ Hb]]; [done|].
    apply lookup_singleton_Some in Hb as [<- _]. done.
Qed.

Lemma rtmp_close_ends_witness : exists r',
  RTMP_Close example_session = Done r' /\ zlen (sent (world r')) = 42 /\ RTMP_IsConnected r' = false /\
  heap (world r') !! 0 = None /\ heap (world r') !! 1 = Some [1; 2].
Proof.
  destruct (rtmp_close_ends example_session example_tidy)
    as (r' & E & Hs & Hc & _ & _ & _ & _ & _ & _ & Hgone & Hkept);
    [|done|done|done|done|by vm_compute|].
  - intros ch q Hq. cbn in Hq. apply lookup_singleton_Some in Hq as [<- _]. done.
  - exists r'. split; [exact E|]. split; [rewrite Hs; by vm_compute|]. split; [exact Hc|]. split.
    + apply (Hgone (Channel 4) (mkPtr 0 0)). by apply (owns_channel example_session 4 example_part (mkPtr 0 18)).
    + rewrite Hkept; [done|]. by intros o p [_ ->]%example_owns.
Defined.
