(* ===== verification/SipTypes.v ===== *)
(** SIP transactions: the data of libosip2, from include/osipparser2 (messages and their
    headers) and include/osip2/osip.h (events, transactions and the stack), and the outside
    of the library.

    A [char *] is an [option string].  The lists of the library hold pointers to elements
    that nothing else points to, so they are lists of values.  Messages are shared between
    events, transactions and the application: they lie in a heap, and a pointer to one is
    its number there. *)

From stdpp Require Import base list option numbers strings gmap.
From S2P Require Import Prelude.

Local Open Scope Z_scope.
Open Scope c_scope.

(** ** Results (osip_port.h) *)

Definition OSIP_SUCCESS : Z := 0.
Definition OSIP_UNDEFINED_ERROR : Z := -1.
Definition OSIP_BADPARAMETER : Z := -2.
Definition OSIP_SYNTAXERROR : Z := -5.

(** What a function returns that stores its result through a pointer: the result, or an
    error number. *)
Inductive ret (A : Type) : Type := Ok (a : A) | Err (e : Z).
Arguments Ok {A} _.
Arguments Err {A} _.

Notation "'let?' p := e 'in' k" :=
  (match e with Ok x => (match x with p => k end) | Err err => Err err end)
    (at level 10, p pattern, e at level 200, k at level 200,
     format "'[v' 'let?'  p  :=  e  'in' '/' k ']'") : c_scope.

(** ** Headers and messages *)

Record osip_uri_param := mkParam {
  gname : option string;
  gvalue : option string
}.

Record osip_uri := mkUri {
  u_scheme : option string;
  u_username : option string;
  u_password : option string;
  u_host : option string;
  u_port : option string;
  url_params : list osip_uri_param;
  url_headers : list osip_uri_param;
  u_string : option string
}.

Record osip_via := mkVia {
  v_version : option string;
  v_protocol : option string;
  v_host : option string;
  v_port : option string;
  v_comment : option string;
  via_params : list osip_uri_param
}.

(** From, To and Route headers. *)
Record osip_from := mkFrom {
  displayname : option string;
  f_url : option osip_uri;
  gen_params : list osip_uri_param
}.

Record osip_call_id := mkCallId {
  ci_number : option string;
  ci_host : option string
}.

Record osip_cseq := mkCSeq {
  cs_method : option string;
  cs_number : option string
}.

Record osip_authorization := mkAuth {
  auth_type : option string;
  username : option string;
  realm : option string;
  nonce : option string;
  a_uri : option string;
  a_response : option string;
  digest : option string;
  algorithm : option string;
  cnonce : option string;
  opaque : option string;
  message_qop : option string;
  nonce_count : option string;
  version : option string;
  targetname : option string;
  gssapi_data : option string;
  crand : option string;
  cnum : option string
}.

(** The headers the transactions look at. *)
Record osip_message := mkMessage {
  sip_version : option string;
  req_uri : option osip_uri;
  sip_method : option string;
  status_code : Z;
  reason_phrase : option string;
  authorizations : list osip_authorization;
  call_id : option osip_call_id;
  m_cseq : option osip_cseq;
  m_from : option osip_from;
  proxy_authorizations : list osip_authorization;
  routes : list osip_from;
  m_to : option osip_from;
  vias : list osip_via
}.

Definition set_cs_method v x : osip_cseq := mkCSeq
  v (cs_number x).
Definition set_sip_version v m : osip_message := mkMessage
  v (req_uri m) (sip_method m) (status_code m) (reason_phrase m) (authorizations m) (call_id m)
  (m_cseq m) (m_from m) (proxy_authorizations m) (routes m) (m_to m) (vias m).
Definition set_req_uri v m : osip_message := mkMessage
  (sip_version m) v (sip_method m) (status_code m) (reason_phrase m) (authorizations m)
  (call_id m) (m_cseq m) (m_from m) (proxy_authorizations m) (routes m) (m_to m) (vias m).
Definition set_sip_method v m : osip_message := mkMessage
  (sip_version m) (req_uri m) v (status_code m) (reason_phrase m) (authorizations m)
  (call_id m) (m_cseq m) (m_from m) (proxy_authorizations m) (routes m) (m_to m) (vias m).
Definition set_authorizations v m : osip_message := mkMessage
  (sip_version m) (req_uri m) (sip_method m) (status_code m) (reason_phrase m) v (call_id m)
  (m_cseq m) (m_from m) (proxy_authorizations m) (routes m) (m_to m) (vias m).
Definition set_call_id v m : osip_message := mkMessage
  (sip_version m) (req_uri m) (sip_method m) (status_code m) (reason_phrase m)
  (authorizations m) v (m_cseq m) (m_from m) (proxy_authorizations m) (routes m) (m_to m)
  (vias m).
Definition set_m_cseq v m : osip_message := mkMessage
  (sip_version m) (req_uri m) (sip_method m) (status_code m) (reason_phrase m)
  (authorizations m) (call_id m) v (m_from m) (proxy_authorizations m) (routes m) (m_to m)
  (vias m).
Definition set_m_from v m : osip_message := mkMessage
  (sip_version m) (req_uri m) (sip_method m) (status_code m) (reason_phrase m)
  (authorizations m) (call_id m) (m_cseq m) v (proxy_authorizations m) (routes m) (m_to m)
  (vias m).
Definition set_proxy_authorizations v m : osip_message := mkMessage
  (sip_version m) (req_uri m) (sip_method m) (status_code m) (reason_phrase m)
  (authorizations m) (call_id m) (m_cseq m) (m_from m) v (routes m) (m_to m) (vias m).
Definition set_routes v m : osip_message := mkMessage
  (sip_version m) (req_uri m) (sip_method m) (status_code m) (reason_phrase m)
  (authorizations m) (call_id m) (m_cseq m) (m_from m) (proxy_authorizations m) v (m_to m)
  (vias m).
Definition set_m_to v m : osip_message := mkMessage
  (sip_version m) (req_uri m) (sip_method m) (status_code m) (reason_phrase m)
  (authorizations m) (call_id m) (m_cseq m) (m_from m) (proxy_authorizations m) (routes m) v
  (vias m).
Definition set_vias v m : osip_message := mkMessage
  (sip_version m) (req_uri m) (sip_method m) (status_code m) (reason_phrase m)
  (authorizations m) (call_id m) (m_cseq m) (m_from m) (proxy_authorizations m) (routes m)
  (m_to m) v.

(** ** Events *)

Inductive type_t : Set :=
| TIMEOUT_A | TIMEOUT_B | TIMEOUT_D
| TIMEOUT_E | TIMEOUT_F | TIMEOUT_K
| TIMEOUT_G | TIMEOUT_H | TIMEOUT_I
| TIMEOUT_J
| RCV_REQINVITE | RCV_REQACK | RCV_REQUEST | RCV_STATUS_1XX | RCV_STATUS_2XX | RCV_STATUS_3456XX
| SND_REQINVITE | SND_REQACK | SND_REQUEST | SND_STATUS_1XX | SND_STATUS_2XX | SND_STATUS_3456XX
| KILL_TRANSACTION | UNKNOWN_EVT.

#[export] Instance type_t_eq_dec : EqDecision type_t.
Proof. solve_decision. Defined.

(** The value of an event type, whose order the tests below use. *)
Definition type_number (t : type_t) : Z :=
  match t with
  | TIMEOUT_A => 0 | TIMEOUT_B => 1 | TIMEOUT_D => 2
  | TIMEOUT_E => 3 | TIMEOUT_F => 4 | TIMEOUT_K => 5
  | TIMEOUT_G => 6 | TIMEOUT_H => 7 | TIMEOUT_I => 8
  | TIMEOUT_J => 9
  | RCV_REQINVITE => 10 | RCV_REQACK => 11 | RCV_REQUEST => 12
  | RCV_STATUS_1XX => 13 | RCV_STATUS_2XX => 14 | RCV_STATUS_3456XX => 15
  | SND_REQINVITE => 16 | SND_REQACK => 17 | SND_REQUEST => 18
  | SND_STATUS_1XX => 19 | SND_STATUS_2XX => 20 | SND_STATUS_3456XX => 21
  | KILL_TRANSACTION => 22 | UNKNOWN_EVT => 23
  end.

Definition type_between (a b t : type_t) : bool :=
  (type_number a <=? type_number t) && (type_number t <=? type_number b).

Definition EVT_IS_INCOMINGMSG := type_between RCV_REQINVITE RCV_STATUS_3456XX.
Definition EVT_IS_OUTGOINGMSG := type_between SND_REQINVITE SND_STATUS_3456XX.
Definition EVT_IS_MSG := type_between RCV_REQINVITE SND_STATUS_3456XX.
Definition EVT_IS_INCOMINGREQ := type_between RCV_REQINVITE RCV_REQUEST.
Definition EVT_IS_INCOMINGRESP := type_between RCV_STATUS_1XX RCV_STATUS_3456XX.
Definition EVT_IS_OUTGOINGREQ := type_between SND_REQINVITE SND_REQUEST.

Record osip_event := mkEvent {
  e_type : type_t;
  e_transactionid : Z;
  e_sip : option Z
}.
Definition set_e_transactionid v e : osip_event := mkEvent
  (e_type e) v (e_sip e).

(** ** Time *)

Record timeval := mkTimeval { tv_sec : Z; tv_usec : Z }.

(** [osip_timercmp (a, b, >)] *)
Definition later (a b : timeval) : bool :=
  if tv_sec a =? tv_sec b then tv_usec b <? tv_usec a else tv_sec b <? tv_sec a.

(** A timer that is not running. *)
Definition stop (t : timeval) : timeval := mkTimeval (-1) (tv_usec t).

Definition DEFAULT_T1 : Z := 500.
Definition DEFAULT_T1_TCP_PROGRESS : Z := 50.
Definition DEFAULT_T2 : Z := 4000.
Definition DEFAULT_T4 : Z := 5000.

(** ** Transactions *)

Inductive state_t : Set :=
| ICT_PRE_CALLING | ICT_CALLING | ICT_PROCEEDING | ICT_COMPLETED | ICT_TERMINATED
| IST_PRE_PROCEEDING | IST_PROCEEDING | IST_COMPLETED | IST_CONFIRMED | IST_TERMINATED
| NICT_PRE_TRYING | NICT_TRYING | NICT_PROCEEDING | NICT_COMPLETED | NICT_TERMINATED
| NIST_PRE_TRYING | NIST_TRYING | NIST_PROCEEDING | NIST_COMPLETED | NIST_TERMINATED.

#[export] Instance state_t_eq_dec : EqDecision state_t.
Proof. solve_decision. Defined.

Inductive osip_fsm_type_t : Set := ICT | IST | NICT | NIST.

#[export] Instance osip_fsm_type_t_eq_dec : EqDecision osip_fsm_type_t.
Proof. solve_decision. Defined.

Record osip_ict := mkIct {
  timer_a_length : Z;
  timer_a_start : timeval;
  timer_b_length : Z;
  timer_b_start : timeval;
  timer_d_length : Z;
  timer_d_start : timeval;
  ict_destination : option string;
  ict_port : Z
}.

Record osip_nict := mkNict {
  timer_e_length : Z;
  timer_e_start : timeval;
  timer_f_length : Z;
  timer_f_start : timeval;
  timer_k_length : Z;
  timer_k_start : timeval;
  nict_destination : option string;
  nict_port : Z
}.

Record osip_ist := mkIst {
  timer_g_length : Z;
  timer_g_start : timeval;
  timer_h_length : Z;
  timer_h_start : timeval;
  timer_i_length : Z;
  timer_i_start : timeval
}.

Record osip_nist := mkNist {
  timer_j_length : Z;
  timer_j_start : timeval
}.

Definition set_timer_a_length v x : osip_ict := mkIct
  v (timer_a_start x) (timer_b_length x) (timer_b_start x) (timer_d_length x) (timer_d_start x)
  (ict_destination x) (ict_port x).
Definition set_timer_a_start v x : osip_ict := mkIct
  (timer_a_length x) v (timer_b_length x) (timer_b_start x) (timer_d_length x)
  (timer_d_start x) (ict_destination x) (ict_port x).
Definition set_timer_b_length v x : osip_ict := mkIct
  (timer_a_length x) (timer_a_start x) v (timer_b_start x) (timer_d_length x) (timer_d_start x)
  (ict_destination x) (ict_port x).
Definition set_timer_b_start v x : osip_ict := mkIct
  (timer_a_length x) (timer_a_start x) (timer_b_length x) v (timer_d_length x)
  (timer_d_start x) (ict_destination x) (ict_port x).
Definition set_timer_d_length v x : osip_ict := mkIct
  (timer_a_length x) (timer_a_start x) (timer_b_length x) (timer_b_start x) v (timer_d_start x)
  (ict_destination x) (ict_port x).
Definition set_timer_d_start v x : osip_ict := mkIct
  (timer_a_length x) (timer_a_start x) (timer_b_length x) (timer_b_start x) (timer_d_length x)
  v (ict_destination x) (ict_port x).
Definition set_timer_e_length v x : osip_nict := mkNict
  v (timer_e_start x) (timer_f_length x) (timer_f_start x) (timer_k_length x) (timer_k_start x)
  (nict_destination x) (nict_port x).
Definition set_timer_e_start v x : osip_nict := mkNict
  (timer_e_length x) v (timer_f_length x) (timer_f_start x) (timer_k_length x)
  (timer_k_start x) (nict_destination x) (nict_port x).
Definition set_timer_f_length v x : osip_nict := mkNict
  (timer_e_length x) (timer_e_start x) v (timer_f_start x) (timer_k_length x) (timer_k_start x)
  (nict_destination x) (nict_port x).
Definition set_timer_f_start v x : osip_nict := mkNict
  (timer_e_length x) (timer_e_start x) (timer_f_length x) v (timer_k_length x)
  (timer_k_start x) (nict_destination x) (nict_port x).
Definition set_timer_k_length v x : osip_nict := mkNict
  (timer_e_length x) (timer_e_start x) (timer_f_length x) (timer_f_start x) v (timer_k_start x)
  (nict_destination x) (nict_port x).
Definition set_timer_k_start v x : osip_nict := mkNict
  (timer_e_length x) (timer_e_start x) (timer_f_length x) (timer_f_start x) (timer_k_length x)
  v (nict_destination x) (nict_port x).
Definition set_timer_g_length v x : osip_ist := mkIst
  v (timer_g_start x) (timer_h_length x) (timer_h_start x) (timer_i_length x) (timer_i_start x).
Definition set_timer_g_start v x : osip_ist := mkIst
  (timer_g_length x) v (timer_h_length x) (timer_h_start x) (timer_i_length x)
  (timer_i_start x).
Definition set_timer_h_length v x : osip_ist := mkIst
  (timer_g_length x) (timer_g_start x) v (timer_h_start x) (timer_i_length x) (timer_i_start x).
Definition set_timer_h_start v x : osip_ist := mkIst
  (timer_g_length x) (timer_g_start x) (timer_h_length x) v (timer_i_length x)
  (timer_i_start x).
Definition set_timer_i_length v x : osip_ist := mkIst
  (timer_g_length x) (timer_g_start x) (timer_h_length x) (timer_h_start x) v (timer_i_start x).
Definition set_timer_i_start v x : osip_ist := mkIst
  (timer_g_length x) (timer_g_start x) (timer_h_length x) (timer_h_start x) (timer_i_length x)
  v.
Definition set_timer_j_length v x : osip_nist := mkNist
  v (timer_j_start x).
Definition set_timer_j_start v x : osip_nist := mkNist
  (timer_j_length x) v.

Record osip_transaction := mkTransaction {
  transactionid : Z;
  transactionff : list osip_event;
  topvia : option osip_via;
  t_from : option osip_from;
  t_to : option osip_from;
  callid : option osip_call_id;
  t_cseq : option osip_cseq;
  orig_request : option Z;
  last_response : option Z;
  t_ack : option Z;
  t_state : state_t;
  birth_time : Z;
  completed_time : Z;
  in_socket : Z;
  out_socket : Z;
  ctx_type : osip_fsm_type_t;
  ict_context : option osip_ict;
  ist_context : option osip_ist;
  nict_context : option osip_nict;
  nist_context : option osip_nist
}.
Definition set_transactionff v t : osip_transaction := mkTransaction
  (transactionid t) v (topvia t) (t_from t) (t_to t) (callid t) (t_cseq t) (orig_request t)
  (last_response t) (t_ack t) (t_state t) (birth_time t) (completed_time t) (in_socket t)
  (out_socket t) (ctx_type t) (ict_context t) (ist_context t) (nict_context t) (nist_context t).
Definition set_topvia v t : osip_transaction := mkTransaction
  (transactionid t) (transactionff t) v (t_from t) (t_to t) (callid t) (t_cseq t)
  (orig_request t) (last_response t) (t_ack t) (t_state t) (birth_time t) (completed_time t)
  (in_socket t) (out_socket t) (ctx_type t) (ict_context t) (ist_context t) (nict_context t)
  (nist_context t).
Definition set_t_from v t : osip_transaction := mkTransaction
  (transactionid t) (transactionff t) (topvia t) v (t_to t) (callid t) (t_cseq t)
  (orig_request t) (last_response t) (t_ack t) (t_state t) (birth_time t) (completed_time t)
  (in_socket t) (out_socket t) (ctx_type t) (ict_context t) (ist_context t) (nict_context t)
  (nist_context t).
Definition set_t_to v t : osip_transaction := mkTransaction
  (transactionid t) (transactionff t) (topvia t) (t_from t) v (callid t) (t_cseq t)
  (orig_request t) (last_response t) (t_ack t) (t_state t) (birth_time t) (completed_time t)
  (in_socket t) (out_socket t) (ctx_type t) (ict_context t) (ist_context t) (nict_context t)
  (nist_context t).
Definition set_callid v t : osip_transaction := mkTransaction
  (transactionid t) (transactionff t) (topvia t) (t_from t) (t_to t) v (t_cseq t)
  (orig_request t) (last_response t) (t_ack t) (t_state t) (birth_time t) (completed_time t)
  (in_socket t) (out_socket t) (ctx_type t) (ict_context t) (ist_context t) (nict_context t)
  (nist_context t).
Definition set_t_cseq v t : osip_transaction := mkTransaction
  (transactionid t) (transactionff t) (topvia t) (t_from t) (t_to t) (callid t) v
  (orig_request t) (last_response t) (t_ack t) (t_state t) (birth_time t) (completed_time t)
  (in_socket t) (out_socket t) (ctx_type t) (ict_context t) (ist_context t) (nict_context t)
  (nist_context t).
Definition set_orig_request v t : osip_transaction := mkTransaction
  (transactionid t) (transactionff t) (topvia t) (t_from t) (t_to t) (callid t) (t_cseq t) v
  (last_response t) (t_ack t) (t_state t) (birth_time t) (completed_time t) (in_socket t)
  (out_socket t) (ctx_type t) (ict_context t) (ist_context t) (nict_context t) (nist_context t).
Definition set_last_response v t : osip_transaction := mkTransaction
  (transactionid t) (transactionff t) (topvia t) (t_from t) (t_to t) (callid t) (t_cseq t)
  (orig_request t) v (t_ack t) (t_state t) (birth_time t) (completed_time t) (in_socket t)
  (out_socket t) (ctx_type t) (ict_context t) (ist_context t) (nict_context t) (nist_context t).
Definition set_t_ack v t : osip_transaction := mkTransaction
  (transactionid t) (transactionff t) (topvia t) (t_from t) (t_to t) (callid t) (t_cseq t)
  (orig_request t) (last_response t) v (t_state t) (birth_time t) (completed_time t)
  (in_socket t) (out_socket t) (ctx_type t) (ict_context t) (ist_context t) (nict_context t)
  (nist_context t).
Definition set_t_state v t : osip_transaction := mkTransaction
  (transactionid t) (transactionff t) (topvia t) (t_from t) (t_to t) (callid t) (t_cseq t)
  (orig_request t) (last_response t) (t_ack t) v (birth_time t) (completed_time t)
  (in_socket t) (out_socket t) (ctx_type t) (ict_context t) (ist_context t) (nict_context t)
  (nist_context t).
Definition set_completed_time v t : osip_transaction := mkTransaction
  (transactionid t) (transactionff t) (topvia t) (t_from t) (t_to t) (callid t) (t_cseq t)
  (orig_request t) (last_response t) (t_ack t) (t_state t) (birth_time t) v (in_socket t)
  (out_socket t) (ctx_type t) (ict_context t) (ist_context t) (nict_context t) (nist_context t).
Definition set_in_socket v t : osip_transaction := mkTransaction
  (transactionid t) (transactionff t) (topvia t) (t_from t) (t_to t) (callid t) (t_cseq t)
  (orig_request t) (last_response t) (t_ack t) (t_state t) (birth_time t) (completed_time t) v
  (out_socket t) (ctx_type t) (ict_context t) (ist_context t) (nict_context t) (nist_context t).
Definition set_out_socket v t : osip_transaction := mkTransaction
  (transactionid t) (transactionff t) (topvia t) (t_from t) (t_to t) (callid t) (t_cseq t)
  (orig_request t) (last_response t) (t_ack t) (t_state t) (birth_time t) (completed_time t)
  (in_socket t) v (ctx_type t) (ict_context t) (ist_context t) (nict_context t)
  (nist_context t).
Definition set_ict_context v t : osip_transaction := mkTransaction
  (transactionid t) (transactionff t) (topvia t) (t_from t) (t_to t) (callid t) (t_cseq t)
  (orig_request t) (last_response t) (t_ack t) (t_state t) (birth_time t) (completed_time t)
  (in_socket t) (out_socket t) (ctx_type t) v (ist_context t) (nict_context t) (nist_context t).
Definition set_ist_context v t : osip_transaction := mkTransaction
  (transactionid t) (transactionff t) (topvia t) (t_from t) (t_to t) (callid t) (t_cseq t)
  (orig_request t) (last_response t) (t_ack t) (t_state t) (birth_time t) (completed_time t)
  (in_socket t) (out_socket t) (ctx_type t) (ict_context t) v (nict_context t) (nist_context t).
Definition set_nict_context v t : osip_transaction := mkTransaction
  (transactionid t) (transactionff t) (topvia t) (t_from t) (t_to t) (callid t) (t_cseq t)
  (orig_request t) (last_response t) (t_ack t) (t_state t) (birth_time t) (completed_time t)
  (in_socket t) (out_socket t) (ctx_type t) (ict_context t) (ist_context t) v (nist_context t).
Definition set_nist_context v t : osip_transaction := mkTransaction
  (transactionid t) (transactionff t) (topvia t) (t_from t) (t_to t) (callid t) (t_cseq t)
  (orig_request t) (last_response t) (t_ack t) (t_state t) (birth_time t) (completed_time t)
  (in_socket t) (out_socket t) (ctx_type t) (ict_context t) (ist_context t) (nict_context t) v.

(** ** The outside *)

Inductive osip_message_callback_type : Set :=
  | OSIP_ICT_INVITE_SENT | OSIP_ICT_INVITE_SENT_AGAIN | OSIP_ICT_ACK_SENT
  | OSIP_ICT_ACK_SENT_AGAIN | OSIP_ICT_STATUS_1XX_RECEIVED | OSIP_ICT_STATUS_2XX_RECEIVED
  | OSIP_ICT_STATUS_2XX_RECEIVED_AGAIN | OSIP_ICT_STATUS_3XX_RECEIVED
  | OSIP_ICT_STATUS_4XX_RECEIVED | OSIP_ICT_STATUS_5XX_RECEIVED | OSIP_ICT_STATUS_6XX_RECEIVED
  | OSIP_ICT_STATUS_3456XX_RECEIVED_AGAIN | OSIP_IST_INVITE_RECEIVED
  | OSIP_IST_INVITE_RECEIVED_AGAIN | OSIP_IST_ACK_RECEIVED | OSIP_IST_ACK_RECEIVED_AGAIN
  | OSIP_IST_STATUS_1XX_SENT | OSIP_IST_STATUS_2XX_SENT | OSIP_IST_STATUS_2XX_SENT_AGAIN
  | OSIP_IST_STATUS_3XX_SENT | OSIP_IST_STATUS_4XX_SENT | OSIP_IST_STATUS_5XX_SENT
  | OSIP_IST_STATUS_6XX_SENT | OSIP_IST_STATUS_3456XX_SENT_AGAIN | OSIP_NICT_REGISTER_SENT
  | OSIP_NICT_BYE_SENT | OSIP_NICT_OPTIONS_SENT | OSIP_NICT_INFO_SENT | OSIP_NICT_CANCEL_SENT
  | OSIP_NICT_NOTIFY_SENT | OSIP_NICT_SUBSCRIBE_SENT | OSIP_NICT_UNKNOWN_REQUEST_SENT
  | OSIP_NICT_REQUEST_SENT_AGAIN | OSIP_NICT_STATUS_1XX_RECEIVED
  | OSIP_NICT_STATUS_2XX_RECEIVED | OSIP_NICT_STATUS_2XX_RECEIVED_AGAIN
  | OSIP_NICT_STATUS_3XX_RECEIVED | OSIP_NICT_STATUS_4XX_RECEIVED
  | OSIP_NICT_STATUS_5XX_RECEIVED | OSIP_NICT_STATUS_6XX_RECEIVED
  | OSIP_NICT_STATUS_3456XX_RECEIVED_AGAIN | OSIP_NIST_REGISTER_RECEIVED
  | OSIP_NIST_BYE_RECEIVED | OSIP_NIST_OPTIONS_RECEIVED | OSIP_NIST_INFO_RECEIVED
  | OSIP_NIST_CANCEL_RECEIVED | OSIP_NIST_NOTIFY_RECEIVED | OSIP_NIST_SUBSCRIBE_RECEIVED
  | OSIP_NIST_UNKNOWN_REQUEST_RECEIVED | OSIP_NIST_REQUEST_RECEIVED_AGAIN
  | OSIP_NIST_STATUS_1XX_SENT | OSIP_NIST_STATUS_2XX_SENT | OSIP_NIST_STATUS_2XX_SENT_AGAIN
  | OSIP_NIST_STATUS_3XX_SENT | OSIP_NIST_STATUS_4XX_SENT | OSIP_NIST_STATUS_5XX_SENT
  | OSIP_NIST_STATUS_6XX_SENT | OSIP_NIST_STATUS_3456XX_SENT_AGAIN | OSIP_ICT_STATUS_TIMEOUT
  | OSIP_NICT_STATUS_TIMEOUT.

(** What the library makes the application do, in order: a message of a transaction (of
    none: of a dialog) is sent to a destination, with the result of the sending; a callback
    with a message; the callbacks for a transaction that has ended and for an error of the
    transport.  A callback happens when the application has set one, and it only looks at
    the transaction. *)
Inductive action : Type :=
| Send (tr : option Z) (msg : Z) (host : option string) (port : Z) (result : Z)
| Inform (type : osip_message_callback_type) (tr : Z) (msg : option Z)
| Kill (type : osip_fsm_type_t) (tr : Z)
| TransportError (type : osip_fsm_type_t) (tr : Z) (err : Z).

(** The heap of messages, the time, which passes between the calls of the library but not
    during one, and the results of the calls of [cb_send_message] to come. *)
Record SipWorld := mkSipWorld {
  msgs : gmap Z osip_message;
  next_msg : Z;
  clock : timeval;
  transport : list Z;
  actions : list action
}.
Definition set_msgs v w : SipWorld := mkSipWorld
  v (next_msg w) (clock w) (transport w) (actions w).
Definition set_clock v w : SipWorld := mkSipWorld
  (msgs w) (next_msg w) v (transport w) (actions w).
Definition set_transport v w : SipWorld := mkSipWorld
  (msgs w) (next_msg w) (clock w) v (actions w).
Definition set_actions v w : SipWorld := mkSipWorld
  (msgs w) (next_msg w) (clock w) (transport w) v.

(** ** The stack *)

(** The retransmissions of a 200 or of an ACK, which the dialogs need. *)
Record ixt := mkIxt {
  ixt_dialog : Z;
  msg2xx : option Z;
  ixt_ack : option Z;
  ixt_start : timeval;
  interval : Z;
  ixt_dest : option string;
  ixt_port : Z;
  ixt_sock : Z;
  counter : Z
}.
Definition set_ixt_start v x : ixt := mkIxt
  (ixt_dialog x) (msg2xx x) (ixt_ack x) v (interval x) (ixt_dest x) (ixt_port x) (ixt_sock x)
  (counter x).
Definition set_interval v x : ixt := mkIxt
  (ixt_dialog x) (msg2xx x) (ixt_ack x) (ixt_start x) v (ixt_dest x) (ixt_port x) (ixt_sock x)
  (counter x).
Definition set_counter v x : ixt := mkIxt
  (ixt_dialog x) (msg2xx x) (ixt_ack x) (ixt_start x) (interval x) (ixt_dest x) (ixt_port x)
  (ixt_sock x) v.

(** The transactions of the stack by their number, and the lists of their numbers. *)
Record osip := mkOsip {
  next_transactionid : Z;
  transactions : gmap Z osip_transaction;
  osip_ict_transactions : list Z;
  osip_ist_transactions : list Z;
  osip_nict_transactions : list Z;
  osip_nist_transactions : list Z;
  ixt_retransmissions : list ixt;
  sip_world : SipWorld
}.
Definition set_next_transactionid v o : osip := mkOsip
  v (transactions o) (osip_ict_transactions o) (osip_ist_transactions o)
  (osip_nict_transactions o) (osip_nist_transactions o) (ixt_retransmissions o) (sip_world o).
Definition set_transactions v o : osip := mkOsip
  (next_transactionid o) v (osip_ict_transactions o) (osip_ist_transactions o)
  (osip_nict_transactions o) (osip_nist_transactions o) (ixt_retransmissions o) (sip_world o).
Definition set_osip_ict_transactions v o : osip := mkOsip
  (next_transactionid o) (transactions o) v (osip_ist_transactions o)
  (osip_nict_transactions o) (osip_nist_transactions o) (ixt_retransmissions o) (sip_world o).
Definition set_osip_ist_transactions v o : osip := mkOsip
  (next_transactionid o) (transactions o) (osip_ict_transactions o) v
  (osip_nict_transactions o) (osip_nist_transactions o) (ixt_retransmissions o) (sip_world o).
Definition set_osip_nict_transactions v o : osip := mkOsip
  (next_transactionid o) (transactions o) (osip_ict_transactions o) (osip_ist_transactions o) v
  (osip_nist_transactions o) (ixt_retransmissions o) (sip_world o).
Definition set_osip_nist_transactions v o : osip := mkOsip
  (next_transactionid o) (transactions o) (osip_ict_transactions o) (osip_ist_transactions o)
  (osip_nict_transactions o) v (ixt_retransmissions o) (sip_world o).
Definition set_ixt_retransmissions v o : osip := mkOsip
  (next_transactionid o) (transactions o) (osip_ict_transactions o) (osip_ist_transactions o)
  (osip_nict_transactions o) (osip_nist_transactions o) v (sip_world o).
Definition set_sip_world v o : osip := mkOsip
  (next_transactionid o) (transactions o) (osip_ict_transactions o) (osip_ist_transactions o)
  (osip_nict_transactions o) (osip_nist_transactions o) (ixt_retransmissions o) v.
