(* ===== verification/SipMessage.v ===== *)
(** SIP messages as the transactions see them: tests and copies of messages and headers,
    their comparison, and the address a message goes to; from src/osipparser2 of libosip2
    (osip_uri.c, osip_via.c, osip_from.c, osip_call_id.c, osip_cseq.c, osip_port.c,
    osip_message.h) and src/osip2 (ict.c, nict.c, osip_event.c, osip_transaction.c).
    Memory is always allocated. *)

From stdpp Require Import base list option numbers strings gmap.
From S2P Require Import Prelude.
From S2P Require Import SipTypes.

Local Open Scope Z_scope.
Open Scope c_scope.

(** ** Strings *)

(** [strcmp (a, b) == 0] for pointers that are not [NULL]. *)
Definition streq (a b : option string) : outcome bool :=
  let! x := lift a in
  let! y := lift b in
  Done (String.eqb x y).

Definition is_upper (c : Ascii.ascii) : bool :=
  (65 <=? Z.of_nat (Ascii.nat_of_ascii c)) && (Z.of_nat (Ascii.nat_of_ascii c) <=? 90).
Definition tolower (c : Ascii.ascii) : Ascii.ascii :=
  if is_upper c then Ascii.ascii_of_nat (Ascii.nat_of_ascii c + 32) else c.

(** [strncasecmp (a, b, n) == 0] and [strcasecmp (a, b) == 0]. *)
Fixpoint strncaseeq (n : nat) (a b : string) : bool :=
  match n with
  | O => true
  | S n =>
      match a, b with
      | EmptyString, EmptyString => true
      | String x a, String y b => Ascii.eqb (tolower x) (tolower y) && strncaseeq n a b
      | _, _ => false
      end
  end.
Definition strcaseeq (a b : string) : bool :=
  strncaseeq (S (Nat.max (String.length a) (String.length b))) a b.

Definition is_null {A} (p : option A) : bool := match p with None => true | Some _ => false end.

(** [strtol] with base 10: white space, a sign and digits; the value is kept within a
    [long]. *)
Definition code (c : Ascii.ascii) : Z := Z.of_nat (Ascii.nat_of_ascii c).
Definition is_space (c : Ascii.ascii) : bool := (code c =? 32) || ((9 <=? code c) && (code c <=? 13)).
Definition is_digit (c : Ascii.ascii) : bool := (48 <=? code c) && (code c <=? 57).
Fixpoint digits (s : string) (acc : Z) : Z :=
  match s with
  | String c s => if is_digit c then digits s (acc * 10 + (code c - 48)) else acc
  | EmptyString => acc
  end.
Fixpoint strtol (s : string) : Z :=
  match s with
  | String c s' =>
      if is_space c then strtol s'
      else let v := if code c =? 45 then - digits s' 0
                    else if code c =? 43 then digits s' 0 else digits s 0 in
           Z.max (- 2 ^ 63) (Z.min v (2 ^ 63 - 1))
  | EmptyString => 0
  end.

(** The comparison with the limits of a [long] is made with the [int]. *)
Definition osip_atoi (number : option string) : Z :=
  match number with
  | None => OSIP_UNDEFINED_ERROR
  | Some s => s32 (strtol s)
  end.

(** ** Tests of messages *)

Definition MSG_IS_REQUEST (m : osip_message) : bool := status_code m =? 0.
Definition MSG_IS_RESPONSE (m : osip_message) : bool := negb (status_code m =? 0).

Definition MSG_IS (method : string) (m : osip_message) : outcome bool :=
  if MSG_IS_REQUEST m then streq (sip_method m) (Some method) else Done false.

Definition MSG_IS_STATUS (n : Z) (m : osip_message) : bool :=
  (n * 100 <=? status_code m) && (status_code m <? (n + 1) * 100).

Definition evt_set_type_incoming_sipmessage (sip : osip_message) : outcome type_t :=
  if MSG_IS_REQUEST sip then
    let! invite := MSG_IS "INVITE" sip in
    if invite then Done RCV_REQINVITE else
    let! ack := MSG_IS "ACK" sip in
    if ack then Done RCV_REQACK else Done RCV_REQUEST
  else if MSG_IS_STATUS 1 sip then Done RCV_STATUS_1XX
  else if MSG_IS_STATUS 2 sip then Done RCV_STATUS_2XX
  else Done RCV_STATUS_3456XX.

Definition evt_set_type_outgoing_sipmessage (sip : osip_message) : outcome type_t :=
  if MSG_IS_REQUEST sip then
    let! invite := MSG_IS "INVITE" sip in
    if invite then Done SND_REQINVITE else
    let! ack := MSG_IS "ACK" sip in
    if ack then Done SND_REQACK else Done SND_REQUEST
  else if MSG_IS_STATUS 1 sip then Done SND_STATUS_1XX
  else if MSG_IS_STATUS 2 sip then Done SND_STATUS_2XX
  else Done SND_STATUS_3456XX.

Definition osip_event_new (type : type_t) (transactionid : Z) : osip_event :=
  mkEvent type transactionid None.

(** ** Parameters and the lists of headers *)

Fixpoint find_param (params : list osip_uri_param) (pname : string) : outcome (option osip_uri_param) :=
  match params with
  | [] => Done None
  | p :: params =>
      let! name := lift (gname p) in
      if (String.length pname =? String.length name)%nat && strncaseeq (String.length pname) name pname
      then Done (Some p) else find_param params pname
  end.

Definition osip_uri_param_get_byname (params : list osip_uri_param) (pname : string)
  : outcome (option osip_uri_param) :=
  if (String.length pname =? 0)%nat then Done None else find_param params pname.

(** The first Via; the result of the function is negative when there is none. *)
Definition osip_message_get_via (sip : osip_message) : ret osip_via :=
  match vias sip with [] => Err OSIP_UNDEFINED_ERROR | via :: _ => Ok via end.

Definition osip_message_get_route (sip : osip_message) : option osip_from :=
  match routes sip with [] => None | route :: _ => Some route end.

(** ** Copies *)

Fixpoint osip_list_clone {A} (clone_func : A -> ret A) (src : list A) : ret (list A) :=
  match src with
  | [] => Ok []
  | data :: src =>
      let? data2 := clone_func data in
      let? dst := osip_list_clone clone_func src in
      Ok (data2 :: dst)
  end.

Definition osip_uri_param_clone (uparam : osip_uri_param) : ret osip_uri_param :=
  if is_null (gname uparam) then Err OSIP_BADPARAMETER
  else Ok (mkParam (gname uparam) (gvalue uparam)).

Definition osip_uri_clone (url : option osip_uri) : ret osip_uri :=
  match url with
  | None => Err OSIP_BADPARAMETER
  | Some url =>
      if is_null (u_host url) && is_null (u_string url) then Err OSIP_BADPARAMETER else
      let? params := osip_list_clone osip_uri_param_clone (url_params url) in
      let? headers := osip_list_clone osip_uri_param_clone (url_headers url) in
      Ok (mkUri (u_scheme url) (u_username url) (u_password url) (u_host url) (u_port url)
            params headers (u_string url))
  end.

(** Also [osip_to_clone] and [osip_route_clone]. *)
Definition osip_from_clone (from : option osip_from) : ret osip_from :=
  match from with
  | None => Err OSIP_BADPARAMETER
  | Some from =>
      let? url := (match f_url from with
                   | None => Ok None
                   | Some u => let? u := osip_uri_clone (Some u) in Ok (Some u)
                   end) in
      let? params := osip_list_clone osip_uri_param_clone (gen_params from) in
      Ok (mkFrom (displayname from) url params)
  end.

Definition osip_call_id_clone (callid : option osip_call_id) : ret osip_call_id :=
  match callid with
  | None => Err OSIP_BADPARAMETER
  | Some c => if is_null (ci_number c) then Err OSIP_BADPARAMETER
              else Ok (mkCallId (ci_number c) (ci_host c))
  end.

Definition osip_cseq_clone (cseq : option osip_cseq) : ret osip_cseq :=
  match cseq with
  | None => Err OSIP_BADPARAMETER
  | Some c => if is_null (cs_method c) || is_null (cs_number c) then Err OSIP_BADPARAMETER
              else Ok (mkCSeq (cs_method c) (cs_number c))
  end.

Definition osip_via_clone (via : option osip_via) : ret osip_via :=
  match via with
  | None => Err OSIP_BADPARAMETER
  | Some v =>
      if is_null (v_version v) || is_null (v_protocol v) || is_null (v_host v) then Err OSIP_BADPARAMETER else
      let? params := osip_list_clone osip_uri_param_clone (via_params v) in
      Ok (mkVia (v_version v) (v_protocol v) (v_host v) (v_port v) (v_comment v) params)
  end.

Definition osip_authorization_clone (a : osip_authorization) : ret osip_authorization :=
  Ok (mkAuth (auth_type a) (username a) (realm a) (nonce a) (a_uri a) (a_response a) (digest a)
        (algorithm a) (cnonce a) (opaque a) (message_qop a) (nonce_count a) (version a)
        (targetname a) (gssapi_data a) (crand a) (cnum a)).

(** ** Comparison of headers *)

Definition osip_call_id_match (callid1 callid2 : option osip_call_id) : Z :=
  match callid1, callid2 with
  | Some c1, Some c2 =>
      match ci_number c1, ci_number c2 with
      | Some n1, Some n2 =>
          if negb (String.eqb n1 n2) then OSIP_UNDEFINED_ERROR else
          match ci_host c1, ci_host c2 with
          | None, None => OSIP_SUCCESS
          | Some h1, Some h2 => if String.eqb h1 h2 then OSIP_SUCCESS else OSIP_UNDEFINED_ERROR
          | _, _ => OSIP_UNDEFINED_ERROR
          end
      | _, _ => OSIP_BADPARAMETER
      end
  | _, _ => OSIP_BADPARAMETER
  end.

Definition is_invite_or_ack (method : string) : bool :=
  String.eqb method "INVITE" || String.eqb method "ACK".

Definition osip_cseq_match (cseq1 cseq2 : option osip_cseq) : Z :=
  match cseq1, cseq2 with
  | Some c1, Some c2 =>
      match cs_number c1, cs_number c2, cs_method c1, cs_method c2 with
      | Some n1, Some n2, Some m1, Some m2 =>
          if String.eqb n1 n2 &&
             (if is_invite_or_ack m2 then is_invite_or_ack m1 else String.eqb m1 m2)
          then OSIP_SUCCESS else OSIP_UNDEFINED_ERROR
      | _, _, _, _ => OSIP_BADPARAMETER
      end
  | _, _ => OSIP_BADPARAMETER
  end.

(** Also [osip_to_tag_match]. *)
Definition osip_from_tag_match (from1 from2 : option osip_from) : outcome Z :=
  match from1, from2 with
  | Some f1, Some f2 =>
      let! tag1 := osip_uri_param_get_byname (gen_params f1) "tag" in
      let! tag2 := osip_uri_param_get_byname (gen_params f2) "tag" in
      match tag1, tag2 with
      | None, None => Done OSIP_SUCCESS
      | Some t1, Some t2 =>
          match gvalue t1, gvalue t2 with
          | Some v1, Some v2 => Done (if String.eqb v1 v2 then OSIP_SUCCESS else OSIP_UNDEFINED_ERROR)
          | _, _ => Done OSIP_UNDEFINED_ERROR
          end
      | _, _ => Done OSIP_UNDEFINED_ERROR
      end
  | _, _ => Done OSIP_BADPARAMETER
  end.

Fixpoint has_colon (s : string) : bool :=
  match s with
  | EmptyString => false
  | String c s => (code c =? 58) || has_colon s
  end.

(** The parameters of a Via as [osip_via_to_str] prints them. *)
Fixpoint via_params_to_str (params : list osip_uri_param) : outcome string :=
  match params with
  | [] => Done ""
  | u_param :: params =>
      let! name := lift (gname u_param) in
      let! rest := via_params_to_str params in
      Done (match gvalue u_param with
            | None => ";" +:+ name
            | Some value => ";" +:+ name +:+ "=" +:+ value
            end +:+ rest)
  end.

Definition osip_via_to_str (via : option osip_via) : outcome (ret string) :=
  match via with
  | None => Done (Err OSIP_BADPARAMETER)
  | Some v =>
      match v_host v, v_version v, v_protocol v with
      | Some host, Some version, Some protocol =>
          let host := if has_colon host then "[" +:+ host +:+ "]" else host in
          let port := match v_port v with None => "" | Some port => ":" +:+ port end in
          let buf := "SIP/" +:+ version +:+ "/" +:+ protocol +:+ " " +:+ host +:+ port in
          let! params := via_params_to_str (via_params v) in
          let comment := match v_comment v with None => "" | Some c => " (" +:+ c +:+ ")" end in
          Done (Ok (buf +:+ params +:+ comment))
      | _, _, _ => Done (Err OSIP_BADPARAMETER)
      end
  end.

Definition osip_via_match (via1 via2 : option osip_via) : outcome Z :=
  if is_null via1 || is_null via2 then Done OSIP_BADPARAMETER else
  let! s1 := osip_via_to_str via1 in
  match s1 with
  | Err i => Done i
  | Ok s1 =>
      let! s2 := osip_via_to_str via2 in
      match s2 with
      | Err i => Done i
      | Ok s2 => Done (if String.eqb s1 s2 then OSIP_SUCCESS else OSIP_UNDEFINED_ERROR)
      end
  end.

(** ** Transports and destinations *)

(** The test of the four state machines for a transport that does not retransmit. *)
Definition is_reliable (proto : string) : bool :=
  strcaseeq proto "TCP" || strcaseeq proto "TLS" || strcaseeq proto "SCTP".

Definition port_or_5060 (port : option string) : Z :=
  match port with None => 5060 | Some _ => osip_atoi port end.

(** The value of a parameter, when it is there and has one. *)
Definition param_value (params : list osip_uri_param) (name : string) : outcome (option string) :=
  let! p := osip_uri_param_get_byname params name in
  Done (match p with None => None | Some p => gvalue p end).

(** Where a request goes: the first route if it is a loose one, or else the request's URI,
    for which [maddr], or [x-obr] with [x-obp], may stand. *)
Definition request_destination (m : osip_message) : outcome (option string * Z) :=
  let! route :=
    match osip_message_get_route m with
    | Some r =>
        match f_url r with
        | Some url =>
            let! lr_param := osip_uri_param_get_byname (url_params url) "lr" in
            Done (match lr_param with None => None | Some _ => Some url end)
        | None => Done None
        end
    | None => Done None
    end in
  match route with
  | Some url => Done (u_host url, port_or_5060 (u_port url))
  | None =>
      let! uri := lift (req_uri m) in
      let port := port_or_5060 (u_port uri) in
      let! obr := param_value (url_params uri) "x-obr" in
      let! obp := param_value (url_params uri) "x-obp" in
      let! maddr := param_value (url_params uri) "maddr" in
      Done (match maddr, obr, obp with
            | Some host, _, _ => (Some host, port)
            | None, Some host, Some _ => (Some host, osip_atoi obp)
            | _, _, _ => (u_host uri, port)
            end)
  end.

(** Where a response goes, from its first Via (RFC 3261, 18.2.2, and RFC 3581). *)
Definition response_destination (via : osip_via) : outcome (option string * Z) :=
  let! maddr := osip_uri_param_get_byname (via_params via) "maddr" in
  let! received := osip_uri_param_get_byname (via_params via) "received" in
  let! rport := param_value (via_params via) "rport" in
  let host := match maddr, received with
              | Some p, _ => gvalue p
              | None, Some p => gvalue p
              | None, None => v_host via
              end in
  let port := match rport with
              | None => port_or_5060 (v_port via)
              | Some _ => osip_atoi rport
              end in
  Done (host, port).

Definition clone_option {A} (clone : option A -> ret A) (p : option A) : ret (option A) :=
  match p with None => Ok None | Some _ => let? a := clone p in Ok (Some a) end.

(** [osip_message_clone], for the headers of the model. *)
Definition clone_message (sip : osip_message) : ret osip_message :=
  let? uri := clone_option osip_uri_clone (req_uri sip) in
  let? auths := osip_list_clone osip_authorization_clone (authorizations sip) in
  let? call_id := clone_option osip_call_id_clone (call_id sip) in
  let? cseq := clone_option osip_cseq_clone (m_cseq sip) in
  let? from := clone_option osip_from_clone (m_from sip) in
  let? proxy_auths := osip_list_clone osip_authorization_clone (proxy_authorizations sip) in
  let? routes := osip_list_clone (fun route => osip_from_clone (Some route)) (routes sip) in
  let? to := clone_option osip_from_clone (m_to sip) in
  let? vias := osip_list_clone (fun via => osip_via_clone (Some via)) (vias sip) in
  Ok (mkMessage (sip_version sip) uri (sip_method sip) (status_code sip) (reason_phrase sip)
        auths call_id cseq from proxy_auths routes to vias).
