(* ===== verification/SipUri.v ===== *)
(** SIP URIs: the model of the parser and the printer of src/osipparser2/osip_uri.c of
    libosip2, and of what they call of osip_port.c.

    A C string is the list of its characters, without the terminating NUL; a pointer into it
    is an index, which may be the one of the NUL.  Reading elsewhere and writing more into a
    buffer than was allocated is [Undef]. *)

From Stdlib Require Import Ascii.
From stdpp Require Import base list option numbers strings.
From S2P Require Import Prelude.
From S2P Require Import CMem.
From S2P Require Import SipTypes.
From S2P Require Import SipMessage.

Local Open Scope Z_scope.
Open Scope c_scope.

(** ** Strings *)

Abbreviation text := (list Ascii.ascii).
Definition txt (s : string) : text := String.list_ascii_of_string s.
Definition str (l : text) : string := String.string_of_list_ascii l.

Definition char_of (n : Z) : Ascii.ascii := Ascii.ascii_of_nat (Z.to_nat n).
Definition NUL : Ascii.ascii := char_of 0.

Definition char_at (b : text) (i : Z) : outcome Ascii.ascii :=
  if (0 <=? i) && (i <=? zlen b) then Done (default NUL (b !! Z.to_nat i)) else Undef.

Fixpoint index_of (c : Ascii.ascii) (l : text) : option Z :=
  match l with
  | [] => None
  | x :: l => if Ascii.eqb x c then Some 0 else Z.succ <$> index_of c l
  end.

(** [strchr (b + i, c)] *)
Definition strchr (b : text) (i : Z) (c : Ascii.ascii) : outcome (option Z) :=
  if (0 <=? i) && (i <=? zlen b) then Done (Z.add i <$> index_of c (drop (Z.to_nat i) b)) else Undef.

(** [osip_strncpy] of [n] characters from [b + i] into a buffer of [size] bytes. *)
Definition osip_strncpy (size : Z) (b : text) (i n : Z) : outcome text :=
  if (0 <=? n) && (n + 1 <=? size) && (0 <=? i) && (i <=? zlen b)
  then Done (take (Z.to_nat n) (drop (Z.to_nat i) b)) else Undef.

Definition is_blank (c : Ascii.ascii) : bool :=
  (code c =? 32) || (code c =? 13) || (code c =? 10) || (code c =? 9).

(** The loops that look for the first and the last character that is not blank. *)
Fixpoint first_text (fuel : nat) (b : text) (pbeg : Z) : outcome Z :=
  let! c := char_at b pbeg in
  if is_blank c then match fuel with O => Unfinished | S fuel => first_text fuel b (pbeg + 1) end
  else Done pbeg.
Fixpoint last_text (fuel : nat) (b : text) (pbeg pend : Z) : outcome (option Z) :=
  let! c := char_at b pend in
  if is_blank c then
    if pend - 1 <? pbeg then Done None
    else match fuel with O => Unfinished | S fuel => last_text fuel b pbeg (pend - 1) end
  else Done (Some pend).

(** [osip_clrncpy] of [len] characters from [b + src] into a buffer of [size] bytes. *)
Definition osip_clrncpy (size : Z) (b : text) (src len : Z) : outcome text :=
  if len =? 0 then (if 1 <=? size then Done [] else Undef) else
  let! pbeg := first_text (length b) b src in
  let! pend := last_text (length b) b pbeg (src + len - 1) in
  match pend with
  | None => if 1 <=? size then Done [] else Undef
  | Some pend => osip_strncpy size b pbeg (pend - pbeg + 1)
  end.

(** [osip_clrspace], which changes the string in its place. *)
Definition osip_clrspace (word : text) : outcome text :=
  match word with
  | [] => Done []
  | _ =>
      let! pbeg := first_text (length word) word 0 in
      let! pend := last_text (length word) word pbeg (zlen word - 1) in
      match pend with
      | None => Done []
      | Some pend => osip_strncpy (zlen word + 1) word pbeg (pend - pbeg + 1)
      end
  end.

(** ** Escapes *)

Definition is_lower (c : Ascii.ascii) : bool := (97 <=? code c) && (code c <=? 122).
Definition osip_is_alpha (c : Ascii.ascii) : bool := is_lower c || is_upper c.
Definition osip_is_alphanum (c : Ascii.ascii) : bool := is_lower c || is_upper c || is_digit c.

Definition userinfo_def : text := txt "-_.!~*'()&=+$,;?/".
Definition password_def : text := txt "-_.!~*'()&=+$,".
Definition uri_param_def : text := txt "-_.!~*'()[]/:&+$".
Definition header_param_def : text := txt "-_.!~*'()[]/?:+$".

Definition hex_digit (n : Z) : Ascii.ascii := char_of (if n <? 10 then 48 + n else 55 + n).
Definition hex_value (c : Ascii.ascii) : option Z :=
  if is_digit c then Some (code c - 48)
  else if (65 <=? code c) && (code c <=? 70) then Some (code c - 55)
  else if (97 <=? code c) && (code c <=? 102) then Some (code c - 87)
  else None.

(** The buffer [ns] of [alloc] bytes, of which [newlen] will be used as it looks. *)
Fixpoint escape_loop (def string : text) (alloc newlen : Z) (ns : text) : outcome text :=
  match string with
  | [] => if zlen ns + 1 <=? alloc then Done ns else Undef
  | c :: string =>
      if osip_is_alphanum c || existsb (Ascii.eqb c) def then
        if zlen ns + 1 <=? alloc then escape_loop def string alloc newlen (ns ++ [c]) else Undef
      else
        let newlen := newlen + 2 in
        let alloc := if alloc <? newlen then alloc * 2 else alloc in
        if zlen ns + 4 <=? alloc then
          escape_loop def string alloc newlen
            (ns ++ [char_of 37; hex_digit (code c / 16); hex_digit (code c mod 16)])
        else Undef
  end.
Definition osip_uri_escape_nonascii_and_nondef (string def : text) : outcome text :=
  escape_loop def string (zlen string + 1) (zlen string + 1) [].

(** [sscanf (s, "%02X", &hex)], when it converts: white space, a sign, and digits, two
    characters of these at most; [0x] alone is no number. *)
Fixpoint skip_space (s : text) : text :=
  match s with c :: s' => if is_space c then skip_space s' else s | [] => [] end.
Definition scan_hex (s : text) : option Z :=
  match skip_space s with
  | [] => None
  | c :: rest =>
      match hex_value c with
      | Some d =>
          match rest with
          | c2 :: _ =>
              match hex_value c2 with
              | Some d2 => Some (d * 16 + d2)
              | None => if (code c =? 48) && ((code c2 =? 120) || (code c2 =? 88)) then None else Some d
              end
          | [] => Some d
          end
      | None =>
          match rest with
          | c2 :: _ =>
              if code c =? 43 then hex_value c2
              else if code c =? 45 then Z.opp <$> hex_value c2 else None
          | [] => None
          end
      end
  end.

(** The loop reads [ptr] and writes at the front of the same string. *)
Fixpoint unescape_loop (ptr : text) : text :=
  match ptr with
  | [] => []
  | c :: ptr =>
      if Ascii.eqb c (char_of 37) then
        match ptr with
        | _ :: ((c2 :: rest) as ptr1) =>
            match scan_hex ptr with
            | Some hex =>
                char_of (u8 hex) ::
                  (match hex_value c2 with Some _ => unescape_loop rest | None => unescape_loop ptr1 end)
            | None => []
            end
        | _ => []
        end
      else c :: unescape_loop ptr
  end.

(** A string ends with the first NUL that is written into it. *)
Fixpoint c_string (s : text) : text :=
  match s with [] => [] | c :: s => if Ascii.eqb c NUL then [] else c :: c_string s end.
Definition osip_uri_unescape (string : text) : text := c_string (unescape_loop string).

(** ** The parts of a URI *)

Definition set_scheme v u := mkUri v (u_username u) (u_password u) (u_host u) (u_port u) (url_params u) (url_headers u) (u_string u).
Definition set_username v u := mkUri (u_scheme u) v (u_password u) (u_host u) (u_port u) (url_params u) (url_headers u) (u_string u).
Definition set_password v u := mkUri (u_scheme u) (u_username u) v (u_host u) (u_port u) (url_params u) (url_headers u) (u_string u).
Definition set_host v u := mkUri (u_scheme u) (u_username u) (u_password u) v (u_port u) (url_params u) (url_headers u) (u_string u).
Definition set_port v u := mkUri (u_scheme u) (u_username u) (u_password u) (u_host u) v (url_params u) (url_headers u) (u_string u).
Definition set_params v u := mkUri (u_scheme u) (u_username u) (u_password u) (u_host u) (u_port u) v (url_headers u) (u_string u).
Definition set_headers v u := mkUri (u_scheme u) (u_username u) (u_password u) (u_host u) (u_port u) (url_params u) v (u_string u).
Definition set_string v u := mkUri (u_scheme u) (u_username u) (u_password u) (u_host u) (u_port u) (url_params u) (url_headers u) v.

Definition osip_uri_init : osip_uri := mkUri None None None None None [] [] None.

Definition osip_uri_param_set (pname : text) (pvalue : option text) : outcome osip_uri_param :=
  let! pname := osip_clrspace pname in
  match pvalue with
  | None => Done (mkParam (Some (str pname)) None)
  | Some v => let! v := osip_clrspace v in Done (mkParam (Some (str pname)) (Some (str v)))
  end.

(** Also [osip_uri_header_add]; the list with the parameter at its end. *)
Definition osip_uri_param_add (params : list osip_uri_param) (pname : text) (pvalue : option text)
  : outcome (list osip_uri_param) :=
  let! p := osip_uri_param_set pname pvalue in
  Done (params ++ [p]).

(** ** Parsing

    The result is what the function returns and the structure as it leaves it, which is
    filled as far as the parser came. *)

Definition next_separator (b : text) (ch : Z) (separator_osip_to_find before_separator : Ascii.ascii)
  : outcome (option Z) :=
  let! ind := strchr b ch separator_osip_to_find in
  match ind with
  | None => Done None
  | Some ind =>
      let! tmp := (if Ascii.eqb before_separator NUL then Done None else strchr b ch before_separator) in
      match tmp with
      | Some tmp => if ind <? tmp then Done (Some ind) else Done None
      | None => Done (Some ind)
      end
  end.

(** One parameter, of which the name begins after [params] and the value ends before [comma]. *)
Definition parse_param (url : osip_uri) (b : text) (params : Z) (equal : option Z) (comma : Z)
  : outcome (Z * osip_uri) :=
  let! value :=
    (match equal with
     | None => Done (Ok (comma, None))
     | Some equal =>
         if comma - equal <? 2 then Done (Err OSIP_SYNTAXERROR) else
         let! pvalue := osip_strncpy (comma - equal) b (equal + 1) (comma - equal - 1) in
         Done (Ok (equal, Some (osip_uri_unescape pvalue)))
     end) in
  match value with
  | Err i => Done (i, url)
  | Ok (equal, pvalue) =>
      if equal - params <? 2 then Done (OSIP_SYNTAXERROR, url) else
      let! pname := osip_strncpy (equal - params) b (params + 1) (equal - params - 1) in
      let! l := osip_uri_param_add (url_params url) (osip_uri_unescape pname) pvalue in
      Done (OSIP_SUCCESS, set_params l url)
  end.

Fixpoint params_loop (fuel : nat) (url : osip_uri) (b : text) (params : Z) : outcome (Z * osip_uri) :=
  let! equal := next_separator b (params + 1) "="%char ";"%char in
  let! comma := strchr b (params + 1) ";"%char in
  match comma with
  | Some comma =>
      let! (i, url) := parse_param url b params equal comma in
      if negb (i =? OSIP_SUCCESS) then Done (i, url) else
      match fuel with O => Unfinished | S fuel => params_loop fuel url b comma end
  | None => parse_param url b params equal (zlen b)
  end.
Definition osip_uri_parse_params (url : osip_uri) (params : text) : outcome (Z * osip_uri) :=
  params_loop (length params) url params 0.

(** The header fields that begin after [headers], the index of a question mark or an
    ampersand. *)
Fixpoint headers_loop (fuel : nat) (url : osip_uri) (b : text) (headers : Z) : outcome (Z * osip_uri) :=
  let! equal := strchr b headers "="%char in
  let! _and := strchr b (headers + 1) "&"%char in
  match equal with
  | None => Done (OSIP_SYNTAXERROR, url)
  | Some equal =>
      let! hname := osip_strncpy (equal - headers) b (headers + 1) (equal - headers - 1) in
      let hname := osip_uri_unescape hname in
      match _and with
      | Some _and =>
          if _and - equal <? 2 then Done (OSIP_SYNTAXERROR, url) else
          let! hvalue := osip_strncpy (_and - equal) b (equal + 1) (_and - equal - 1) in
          let! l := osip_uri_param_add (url_headers url) hname (Some (osip_uri_unescape hvalue)) in
          match fuel with
          | O => Unfinished
          | S fuel => headers_loop fuel (set_headers l url) b _and
          end
      | None =>
          if zlen b - equal + 1 <? 2 then Done (OSIP_SYNTAXERROR, url) else
          let! hvalue := osip_strncpy (zlen b - equal + 1) b (equal + 1) (zlen b - equal) in
          let! l := osip_uri_param_add (url_headers url) hname (Some (osip_uri_unescape hvalue)) in
          Done (OSIP_SUCCESS, set_headers l url)
      end
  end.
Definition osip_uri_parse_headers (url : osip_uri) (b : text) (headers : Z) : outcome (Z * osip_uri) :=
  headers_loop (length b) url b headers.

(** The steps of [osip_uri_parse].  The user part: the index of the character before the
    host, of a colon or an at sign, or an error. *)
Definition parse_userinfo (url : osip_uri) (b : text) (username : Z) : outcome (ret Z * osip_uri) :=
  let! host := strchr b 0 "@"%char in
  match host with
  | None => Done (Ok username, url)
  | Some host =>
      let! c := char_at b (username + 1) in
      if Ascii.eqb c "@"%char then Done (Ok (username + 1), url) else
      let! password := next_separator b (username + 1) ":"%char "@"%char in
      let! r :=
        (match password with
         | None => Done (Ok host, url)
         | Some password =>
             if host - password <? 2 then Done (Err OSIP_SYNTAXERROR, url) else
             let! s := osip_strncpy (host - password) b (password + 1) (host - password - 1) in
             Done (Ok password, set_password (Some (str (osip_uri_unescape s))) url)
         end) in
      match r with
      | (Err i, url) => Done (Err i, url)
      | (Ok password, url) =>
          if password - username <? 2 then Done (Err OSIP_SYNTAXERROR, url) else
          let! s := osip_strncpy (password - username) b (username + 1) (password - username - 1) in
          Done (Ok host, set_username (Some (str (osip_uri_unescape s))) url)
      end
  end.

(** Header fields and parameters; the errors of the two parsers are not looked at.  Where
    the parameters begin, or the header fields, or the index of the NUL. *)
Definition parse_lists (url : osip_uri) (b : text) (host : Z) : outcome (ret Z * osip_uri) :=
  let! headers := strchr b host "?"%char in
  let! (headers, url) :=
    (match headers with
     | None => Done (zlen b, url)
     | Some headers => let! (_, url) := osip_uri_parse_headers url b headers in Done (headers, url)
     end) in
  let! params := strchr b host ";"%char in
  match params with
  | None => Done (Ok headers, url)
  | Some params =>
      if headers - params + 1 <? 2 then Done (Err OSIP_SYNTAXERROR, url) else
      let! tmpbuf := osip_strncpy (headers - params + 1) b params (headers - params) in
      let! (_, url) := osip_uri_parse_params url tmpbuf in
      Done (Ok params, url)
  end.

(** Down from [i], to one of the characters of [stop] or to [host]; and up from [i], to
    [c] or to [last]. *)
Fixpoint search_down (fuel : nat) (b : text) (host i : Z) (stop : list Ascii.ascii) : outcome Z :=
  if i <=? host then Done i else
  let! c := char_at b i in
  if existsb (Ascii.eqb c) stop then Done i
  else match fuel with O => Unfinished | S fuel => search_down fuel b host (i - 1) stop end.
Fixpoint search_up (fuel : nat) (b : text) (i last : Z) (c : Ascii.ascii) : outcome Z :=
  if last <=? i then Done i else
  let! x := char_at b i in
  if Ascii.eqb x c then Done i
  else match fuel with O => Unfinished | S fuel => search_up fuel b (i + 1) last c end.

(** The port; the index where the host ends. *)
Definition parse_port (url : osip_uri) (b : text) (host params : Z) : outcome (ret Z * osip_uri) :=
  let! port := search_down (length b) b host (params - 1) ["]"%char; ":"%char] in
  let! c := char_at b port in
  if Ascii.eqb c ":"%char then
    if host =? port then Done (Ok params, url)
    else if (params - port <? 2) || (8 <? params - port) then Done (Err OSIP_SYNTAXERROR, url)
    else
      let! s := osip_clrncpy (params - port) b (port + 1) (params - port - 1) in
      Done (Ok port, set_port (Some (str s)) url)
  else Done (Ok params, url).

Definition parse_host (url : osip_uri) (b : text) (host port : Z) : outcome (Z * osip_uri) :=
  let! tmp := search_down (length b) b host port ["]"%char] in
  let! c := char_at b tmp in
  let! r :=
    (if Ascii.eqb c "]"%char then
       let! host := search_up (length b) b host tmp "["%char in
       Done (host, tmp, tmp <=? host)
     else Done (host, port, false)) in
  match r with
  | (host, port, wrong) =>
      if wrong || (port - host <? 2) then Done (OSIP_SYNTAXERROR, url) else
      let! s := osip_clrncpy (port - host) b (host + 1) (port - host - 1) in
      Done (OSIP_SUCCESS, set_host (Some (str s)) url)
  end.

(** [strncasecmp] of the scheme with "sip", or with "sips". *)
Definition is_sip_scheme (scheme : text) : bool :=
  negb (zlen scheme <? 3) && (strncaseeq 3 (str scheme) "sip" || strncaseeq 4 (str scheme) "sips").

Definition osip_uri_parse (url : osip_uri) (b : text) : outcome (Z * osip_uri) :=
  match b with
  | [] => Done (OSIP_BADPARAMETER, url)
  | _ =>
      let! tmp := strchr b 0 ":"%char in
      match tmp with
      | None => Done (OSIP_SYNTAXERROR, url)
      | Some tmp =>
          if tmp <? 2 then Done (OSIP_SYNTAXERROR, url) else
          if negb (forallb osip_is_alpha (take (Z.to_nat tmp) b)) then Done (OSIP_SYNTAXERROR, url) else
          let! scheme := osip_strncpy (tmp + 1) b 0 tmp in
          let url := set_scheme (Some (str scheme)) url in
          let! blank := strchr scheme 0 " "%char in
          if negb (is_null blank) then Done (OSIP_SYNTAXERROR, url) else
          if negb (is_sip_scheme scheme) then
            let i := zlen b - (tmp + 1) in
            if i <? 2 then Done (OSIP_SYNTAXERROR, url) else
            let! s := osip_strncpy (i + 1) b (tmp + 1) i in
            Done (OSIP_SUCCESS, set_string (Some (str s)) url)
          else
            let! (r, url) := parse_userinfo url b tmp in
            match r with
            | Err i => Done (i, url)
            | Ok host =>
                let! (r, url) := parse_lists url b host in
                match r with
                | Err i => Done (i, url)
                | Ok params =>
                    let! (r, url) := parse_port url b host params in
                    match r with
                    | Err i => Done (i, url)
                    | Ok port => parse_host url b host port
                    end
                end
            end
      end
  end.

(** ** Printing *)

(** [sprintf (buf + strlen (buf), ...)] of [piece], in a buffer of [len] bytes; and
    [snprintf] with what is left of the buffer, which cuts the piece. *)
Definition sprintf (len : Z) (buf piece : text) : outcome text :=
  if zlen buf + zlen piece + 1 <=? len then Done (buf ++ piece) else Undef.
Definition snprintf (len : Z) (buf piece : text) : outcome text :=
  if zlen buf + 1 <=? len then Done (buf ++ take (Z.to_nat (len - zlen buf - 1)) piece) else Undef.

Definition osip_uri_escape_userinfo (s : text) := osip_uri_escape_nonascii_and_nondef s userinfo_def.
Definition osip_uri_escape_password (s : text) := osip_uri_escape_nonascii_and_nondef s password_def.
Definition osip_uri_escape_uri_param (s : text) := osip_uri_escape_nonascii_and_nondef s uri_param_def.
Definition osip_uri_escape_header_param (s : text) := osip_uri_escape_nonascii_and_nondef s header_param_def.

(** What is internal to libeXosip2 and must not appear in a message. *)
Definition is_internal (gname : string) : bool :=
  strcaseeq gname "x-obr" || strcaseeq gname "x-obp".

(** The buffer, of [len] bytes, grows with each parameter. *)
Fixpoint print_params (l : list osip_uri_param) (len : Z) (buf : text) : outcome (Z * text) :=
  match l with
  | [] => Done (len, buf)
  | u_param :: l =>
      let! name := lift (gname u_param) in
      if is_internal name then print_params l len buf else
      let! tmp1 := osip_uri_escape_uri_param (txt name) in
      match gvalue u_param with
      | None =>
          let len := len + (zlen tmp1 + 2) in
          let! buf := sprintf len buf (";"%char :: tmp1) in
          print_params l len buf
      | Some value =>
          let! tmp2 := osip_uri_escape_uri_param (txt value) in
          let len := len + (zlen tmp1 + zlen tmp2 + 3) in
          let! buf := sprintf len buf ((";"%char :: tmp1) ++ "="%char :: tmp2) in
          print_params l len buf
      end
  end.

(** [pos] is the position of the iterator. *)
Fixpoint print_headers (l : list osip_uri_param) (pos len : Z) (buf : text) : outcome text :=
  match l with
  | [] => Done buf
  | u_header :: l =>
      let! name := lift (gname u_header) in
      let! tmp1 := osip_uri_escape_header_param (txt name) in
      let! value := lift (gvalue u_header) in
      let! tmp2 := osip_uri_escape_header_param (txt value) in
      let len := len + (zlen tmp1 + zlen tmp2 + 4) in
      let! buf :=
        snprintf len buf (((if pos =? 0 then "?"%char else "&"%char) :: tmp1) ++ "="%char :: tmp2) in
      print_headers l (pos + 1) len buf
  end.

(** The scheme, the user part, the host and the port, in a buffer of [len] bytes. *)
Definition print_userinfo (url : osip_uri) (len : Z) (buf : text) : outcome text :=
  match u_username url with
  | None => Done buf
  | Some username =>
      let! tmp2 := osip_uri_escape_userinfo (txt username) in
      let! buf := sprintf len buf tmp2 in
      let! buf :=
        (match u_password url with
         | None => Done buf
         | Some password =>
             let! tmp2 := osip_uri_escape_password (txt password) in
             sprintf len buf (":"%char :: tmp2)
         end) in
      sprintf len buf ["@"%char]
  end.

Definition print_hostport (url : osip_uri) (host : string) (len : Z) (buf : text) : outcome text :=
  let! buf :=
    (if is_null (index_of ":"%char (txt host)) then sprintf len buf (txt host)
     else sprintf len buf ("["%char :: txt host ++ ["]"%char])) in
  match u_port url with
  | None => Done buf
  | Some port => sprintf len buf (":"%char :: txt port)
  end.

Definition osip_uri_to_str (url : osip_uri) : outcome (ret text) :=
  if is_null (u_host url) && is_null (u_string url) then Done (Err OSIP_BADPARAMETER) else
  if is_null (u_scheme url) && negb (is_null (u_string url)) then Done (Err OSIP_BADPARAMETER) else
  let scheme := txt (default "sip"%string (u_scheme url)) in
  match u_string url with
  | Some s =>
      let len := zlen scheme + zlen (txt s) + 3 in
      let! buf := sprintf len [] (scheme ++ [":"%char]) in
      let! buf := sprintf len buf (txt s) in
      Done (Ok buf)
  | None =>
      let! host := lift (u_host url) in
      let len := zlen scheme + 1 + zlen (txt host) + 5 in
      let len := match u_username url with Some s => len + zlen (txt s) * 3 + 1 | None => len end in
      let len := match u_password url with Some s => len + zlen (txt s) * 3 + 1 | None => len end in
      let len := match u_port url with Some s => len + zlen (txt s) + 3 | None => len end in
      let! buf := sprintf len [] (scheme ++ [":"%char]) in
      let! buf := print_userinfo url len buf in
      let! buf := print_hostport url host len buf in
      let! (len, buf) := print_params (url_params url) len buf in
      let! buf := print_headers (url_headers url) 0 len buf in
      Done (Ok buf)
  end.

Definition osip_uri_to_str_canonical (url : osip_uri) : outcome (ret text) :=
  let! r := osip_uri_to_str url in
  match r with
  | Ok dest => Done (Ok (osip_uri_unescape dest))
  | Err i => Done (Err i)
  end.
