(* ===== verification/SipFsm.v ===== *)
(** The state machines of SIP transactions, from src/osip2 of libosip2: ict.c and ict_fsm.c
    (INVITE client), nict.c and nict_fsm.c (other clients), ist.c and ist_fsm.c (INVITE
    server), nist.c and nist_fsm.c (other servers), fsm_misc.c, osip_time.c, and of
    osip_transaction.c the execution of an event, the timers and the sending of a response.

    A handler takes the transaction, the event and the world, and returns the transaction
    and the world.  Freeing a message that is not alive, and reading one, is [Undef]. *)

From stdpp Require Import base list option numbers strings gmap.
From S2P Require Import Prelude.
From S2P Require Import SipTypes.
From S2P Require Import SipMessage.

Local Open Scope Z_scope.
Open Scope c_scope.

(** ** Time (osip_time.c) *)

Definition add_gettimeofday (atv : timeval) (ms : Z) : timeval :=
  if 1000000 <=? ms then mkTimeval (tv_sec atv + Z.quot ms 1000) 0
  else
    let usec := tv_usec atv + ms * 1000 in
    mkTimeval (tv_sec atv + Z.quot usec 1000000) (Z.rem usec 1000000).

(** [tv1] becomes the earlier of the two, unless the second is not running. *)
Definition min_timercmp (tv1 tv2 : timeval) : timeval :=
  if tv_sec tv2 =? -1 then tv1
  else if later tv1 tv2 then tv2 else tv1.

(** The start of a timer that is set now. *)
Definition timer_from_now (w : SipWorld) (length : Z) : timeval := add_gettimeofday (clock w) length.

(** ** Messages and callbacks *)

Definition deref (p : option Z) (w : SipWorld) : outcome osip_message :=
  let! i := lift p in lift (msgs w !! i).

Definition alive (p : option Z) (w : SipWorld) : bool :=
  match p with None => true | Some i => negb (is_null (msgs w !! i)) end.

Definition osip_message_free (p : option Z) (w : SipWorld) : outcome SipWorld :=
  match p with
  | None => Done w
  | Some i => if alive p w then Done (set_msgs (delete i (msgs w)) w) else Undef
  end.

(** A new message. *)
Definition allocate (m : osip_message) (w : SipWorld) : Z * SipWorld :=
  (next_msg w,
   mkSipWorld (<[next_msg w := m]> (msgs w)) (next_msg w + 1) (clock w) (transport w) (actions w)).

Definition record_action (a : action) (w : SipWorld) : SipWorld := set_actions (actions w ++ [a]) w.

(** The result of the next sending; a transport that is not told otherwise sends. *)
Definition cb_send_message (tr : option Z) (msg : option Z) (host : option string) (port : Z)
    (w : SipWorld) : outcome (Z * SipWorld) :=
  let! i := lift msg in
  let! _ := lift (msgs w !! i) in
  let result := match transport w with [] => 0 | r :: _ => r end in
  Done (result, record_action (Send tr i host port result) (set_transport (tail (transport w)) w)).

Definition message_callback (type : osip_message_callback_type) (t : osip_transaction)
    (msg : option Z) (w : SipWorld) : outcome SipWorld :=
  if alive msg w then Done (record_action (Inform type (transactionid t) msg) w) else Undef.

Definition kill_transaction_callback (type : osip_fsm_type_t) (t : osip_transaction) (w : SipWorld)
  : osip_transaction * SipWorld :=
  (set_completed_time (tv_sec (clock w)) t, record_action (Kill type (transactionid t)) w).

Definition transport_error_callback (type : osip_fsm_type_t) (t : osip_transaction) (err : Z)
    (w : SipWorld) : SipWorld :=
  record_action (TransportError type (transactionid t) err) w.

Definition terminated (type : osip_fsm_type_t) : state_t :=
  match type with
  | ICT => ICT_TERMINATED | IST => IST_TERMINATED
  | NICT => NICT_TERMINATED | NIST => NIST_TERMINATED
  end.

(** The end of a transaction, and [ict_handle_transport_error] with its three copies. *)
Definition terminate (type : osip_fsm_type_t) (t : osip_transaction) (w : SipWorld)
  : outcome (osip_transaction * SipWorld) :=
  Done (kill_transaction_callback type (set_t_state (terminated type) t) w).

Definition handle_transport_error (type : osip_fsm_type_t) (t : osip_transaction) (err : Z)
    (w : SipWorld) : outcome (osip_transaction * SipWorld) :=
  terminate type t (transport_error_callback type t err w).

Definition handler : Type :=
  osip_transaction -> osip_event -> SipWorld -> outcome (osip_transaction * SipWorld).

(** ** Contexts *)

Definition not_started : timeval := mkTimeval (-1) 0.

(** What the four initialisations read first: the transport of the first Via; [noproto] is
    the error when it has none. *)
Definition via_protocol (noproto : Z) (m : osip_message) : ret string :=
  let? via := osip_message_get_via m in
  match v_protocol via with None => Err noproto | Some proto => Ok proto end.

Definition osip_ict_init (invite : osip_message) (w : SipWorld) : outcome (ret osip_ict) :=
  match via_protocol OSIP_SYNTAXERROR invite with
  | Err i => Done (Err i)
  | Ok proto =>
      let d_length := if is_reliable proto then 0
                      else if 64 * DEFAULT_T1 <? 32000 then 32000 else 64 * DEFAULT_T1 in
      let! (destination, port) := request_destination invite in
      Done (Ok (mkIct DEFAULT_T1 (timer_from_now w DEFAULT_T1)
                      (64 * DEFAULT_T1) (timer_from_now w (64 * DEFAULT_T1))
                      d_length not_started destination port))
  end.

Definition osip_nict_init (request : osip_message) (w : SipWorld) : outcome (ret osip_nict) :=
  match via_protocol OSIP_UNDEFINED_ERROR request with
  | Err i => Done (Err i)
  | Ok proto =>
      let k_length := if is_reliable proto then 0 else DEFAULT_T4 in
      let! (destination, port) := request_destination request in
      Done (Ok (mkNict DEFAULT_T1 not_started
                       (64 * DEFAULT_T1) (timer_from_now w (64 * DEFAULT_T1))
                       k_length not_started destination port))
  end.

Definition osip_ist_init (invite : osip_message) : ret osip_ist :=
  let? proto := via_protocol OSIP_UNDEFINED_ERROR invite in
  let (g_length, i_length) := if is_reliable proto then (-1, 0) else (DEFAULT_T1, DEFAULT_T4) in
  Ok (mkIst g_length not_started (64 * DEFAULT_T1) not_started i_length not_started).

Definition osip_nist_init (request : osip_message) : ret osip_nist :=
  let? proto := via_protocol OSIP_UNDEFINED_ERROR request in
  Ok (mkNist (if is_reliable proto then 0 else 64 * DEFAULT_T1) not_started).

(** ** INVITE client transactions (ict_fsm.c) *)

Definition with_ict (f : osip_ict -> osip_ict) (t : osip_transaction) : outcome osip_transaction :=
  let! c := lift (ict_context t) in Done (set_ict_context (Some (f c)) t).

Definition ict_send (msg : option Z) (t : osip_transaction) (w : SipWorld) : outcome (Z * SipWorld) :=
  let! c := lift (ict_context t) in
  cb_send_message (Some (transactionid t)) msg (ict_destination c) (ict_port c) w.

(** The transport of the request, when it has just been sent: the result is a reason to
    fail, or whether the transport is reliable. *)
Definition sent_reliably (noproto : Z) (t : osip_transaction) (w : SipWorld) : outcome (ret bool) :=
  let! m := deref (orig_request t) w in
  Done (let? proto := via_protocol noproto m in Ok (is_reliable proto)).

Definition stop_timer_a (c : osip_ict) : osip_ict :=
  set_timer_a_start (stop (timer_a_start c)) (set_timer_a_length (-1) c).

Definition ict_snd_invite : handler := fun t evt w =>
  let t := set_orig_request (e_sip evt) t in
  let! (i, w) := ict_send (e_sip evt) t w in
  if i <? 0 then handle_transport_error ICT t i w else
  let! reliable := (if i =? 0 then sent_reliably 0 t w else Done (Ok false)) in
  match reliable with
  | Err i => handle_transport_error ICT t i w
  | Ok reliable =>
      let! t := (if reliable : bool then with_ict stop_timer_a t else Done t) in
      let! w := message_callback OSIP_ICT_INVITE_SENT t (orig_request t) w in
      Done (set_t_state ICT_CALLING t, w)
  end.

Definition osip_ict_timeout_a_event : handler := fun t evt w =>
  let! t := with_ict (fun c =>
    let c := set_timer_a_length (timer_a_length c * 2) c in
    set_timer_a_start (timer_from_now w (timer_a_length c)) c) t in
  let! (i, w) := ict_send (orig_request t) t w in
  if i <? 0 then handle_transport_error ICT t i w else
  if i =? 0 then
    let! reliable := sent_reliably 0 t w in
    match reliable with
    | Err i => handle_transport_error ICT t i w
    | Ok reliable =>
        let! t := (if reliable : bool then with_ict stop_timer_a t else Done t) in
        let! w := message_callback OSIP_ICT_INVITE_SENT_AGAIN t (orig_request t) w in
        Done (t, w)
    end
  else Done (t, w).

Definition osip_ict_timeout_b_event : handler := fun t evt w =>
  let! t := with_ict (fun c => set_timer_b_start (stop (timer_b_start c)) (set_timer_b_length (-1) c)) t in
  let! w := message_callback OSIP_ICT_STATUS_TIMEOUT t (e_sip evt) w in
  terminate ICT t w.

(** The last response is replaced. *)
Definition replace_last_response (evt : osip_event) (t : osip_transaction) (w : SipWorld)
  : outcome (osip_transaction * SipWorld) :=
  let! w := osip_message_free (last_response t) w in
  Done (set_last_response (e_sip evt) t, w).

Definition ict_rcv_1xx : handler := fun t evt w =>
  let! (t, w) := replace_last_response evt t w in
  let! w := message_callback OSIP_ICT_STATUS_1XX_RECEIVED t (e_sip evt) w in
  Done (set_t_state ICT_PROCEEDING t, w).

Definition ict_rcv_2xx : handler := fun t evt w =>
  let! (t, w) := replace_last_response evt t w in
  let! w := message_callback OSIP_ICT_STATUS_2XX_RECEIVED t (e_sip evt) w in
  terminate ICT t w.

(** The ACK of a response that is not a success (RFC 3261, 17.1.1.3): the request of the
    transaction [orig], the response, and the ACK or [NULL]. *)
Definition ict_create_ack (orig response : osip_message) : ret osip_message :=
  let? from := osip_from_clone (m_from response) in
  let? to := osip_from_clone (m_to response) in
  let? call_id := osip_call_id_clone (call_id response) in
  let? cseq := osip_cseq_clone (m_cseq response) in
  let cseq := set_cs_method (Some "ACK") cseq in
  if is_null (sip_version orig) then Err OSIP_UNDEFINED_ERROR else
  let? uri := osip_uri_clone (req_uri orig) in
  let? orig_via := osip_message_get_via orig in
  let? via := osip_via_clone (Some orig_via) in
  let? routes := osip_list_clone (fun route => osip_from_clone (Some route)) (routes orig) in
  let challenged := (status_code response =? 401) || (status_code response =? 407) in
  let? auths := (if challenged then Ok [] else osip_list_clone osip_authorization_clone (authorizations orig)) in
  let? proxy_auths :=
    (if challenged then Ok [] else osip_list_clone osip_authorization_clone (proxy_authorizations orig)) in
  Ok (mkMessage (sip_version orig) (Some uri) (Some "ACK") 0 None auths (Some call_id) (Some cseq)
        (Some from) proxy_auths routes (Some to) [via]).

Definition osip_ict_set_destination (d : option string * Z) (c : osip_ict) : osip_ict :=
  mkIct (timer_a_length c) (timer_a_start c) (timer_b_length c) (timer_b_start c)
    (timer_d_length c) (timer_d_start c) (fst d) (snd d).

Definition start_timer_d (w : SipWorld) (c : osip_ict) : osip_ict :=
  set_timer_d_start (timer_from_now w (timer_d_length c)) c.

(** The callback for a response of this class. *)
Definition status_class {A} (s3 s4 s5 s6 : A) (m : osip_message) : A :=
  if MSG_IS_STATUS 3 m then s3
  else if MSG_IS_STATUS 4 m then s4
  else if MSG_IS_STATUS 5 m then s5 else s6.

Definition ict_status_received : osip_message -> osip_message_callback_type :=
  status_class OSIP_ICT_STATUS_3XX_RECEIVED OSIP_ICT_STATUS_4XX_RECEIVED
    OSIP_ICT_STATUS_5XX_RECEIVED OSIP_ICT_STATUS_6XX_RECEIVED.

(** The destination of the ACK, unless the transaction has one. *)
Definition ict_default_destination (ack : osip_message) (t : osip_transaction) : outcome osip_transaction :=
  let! c := lift (ict_context t) in
  match ict_destination c with
  | Some _ => Done t
  | None => let! d := request_destination ack in with_ict (osip_ict_set_destination d) t
  end.

(** A response that is not a retransmission: it is acknowledged. *)
Definition ict_acknowledge (evt : osip_event) (t : osip_transaction) (w : SipWorld)
  : outcome (bool * (osip_transaction * SipWorld)) :=
  let! response := deref (e_sip evt) w in
  let! orig := deref (orig_request t) w in
  match ict_create_ack orig response with
  | Err _ =>
      let! r := terminate ICT (set_t_ack None t) w in
      Done (false, r)
  | Ok ack =>
      let (a, w) := allocate ack w in
      let t := set_t_ack (Some a) t in
      let! t := ict_default_destination ack t in
      let! (i, w) := ict_send (Some a) t w in
      if negb (i =? 0) then
        let! r := handle_transport_error ICT t i w in
        Done (false, r)
      else
        let! w := message_callback (ict_status_received response) t (e_sip evt) w in
        let! w := message_callback OSIP_ICT_ACK_SENT t (Some a) w in
        Done (true, (t, w))
  end.

Definition ict_rcv_3456xx : handler := fun t evt w =>
  let! (t, w) := replace_last_response evt t w in
  let! (go_on, (t, w)) := (if decide (t_state t = ICT_COMPLETED) then Done (true, (t, w))
                           else ict_acknowledge evt t w) in
  if go_on : bool then
    let! t := with_ict (start_timer_d w) t in
    Done (set_t_state ICT_COMPLETED t, w)
  else Done (t, w).

Definition osip_ict_timeout_d_event : handler := fun t evt w =>
  let! t := with_ict (fun c => set_timer_d_start (stop (timer_d_start c)) (set_timer_d_length (-1) c)) t in
  terminate ICT t w.

Definition ict_retransmit_ack : handler := fun t evt w =>
  let! w := message_callback OSIP_ICT_STATUS_3456XX_RECEIVED_AGAIN t (e_sip evt) w in
  let! w := osip_message_free (e_sip evt) w in
  let! (i, w) := ict_send (t_ack t) t w in
  if i =? 0 then
    let! w := message_callback OSIP_ICT_ACK_SENT_AGAIN t (t_ack t) w in
    Done (set_t_state ICT_COMPLETED t, w)
  else handle_transport_error ICT t i w.

(** ** Other client transactions (nict_fsm.c) *)

Definition with_nict (f : osip_nict -> osip_nict) (t : osip_transaction) : outcome osip_transaction :=
  let! c := lift (nict_context t) in Done (set_nict_context (Some (f c)) t).

Definition nict_send (msg : option Z) (t : osip_transaction) (w : SipWorld) : outcome (Z * SipWorld) :=
  let! c := lift (nict_context t) in
  cb_send_message (Some (transactionid t)) msg (nict_destination c) (nict_port c) w.

(** The first method the message is a request of, and what goes with it. *)
Fixpoint by_method {A} (cases : list (string * A)) (default : A) (m : osip_message) : outcome A :=
  match cases with
  | [] => Done default
  | (method, a) :: cases =>
      let! yes := MSG_IS method m in
      if yes : bool then Done a else by_method cases default m
  end.

Definition nict_request_sent : osip_message -> outcome osip_message_callback_type :=
  by_method [("REGISTER", OSIP_NICT_REGISTER_SENT); ("BYE", OSIP_NICT_BYE_SENT);
             ("OPTIONS", OSIP_NICT_OPTIONS_SENT); ("INFO", OSIP_NICT_INFO_SENT);
             ("CANCEL", OSIP_NICT_CANCEL_SENT); ("NOTIFY", OSIP_NICT_NOTIFY_SENT);
             ("SUBSCRIBE", OSIP_NICT_SUBSCRIBE_SENT)] OSIP_NICT_UNKNOWN_REQUEST_SENT.

Definition stop_timer_e (c : osip_nict) : osip_nict :=
  set_timer_e_start (stop (timer_e_start c)) (set_timer_e_length (-1) c).

Definition start_timer_e (w : SipWorld) (c : osip_nict) : osip_nict :=
  if 0 <? timer_e_length c then set_timer_e_start (timer_from_now w (timer_e_length c)) c else c.

(** A reliable transport retransmits no more once it has sent, and is asked often until
    then. *)
Definition timer_e_after_sending (i : Z) (reliable : bool) (c : osip_nict) : osip_nict :=
  if negb reliable then c
  else if i =? 0 then stop_timer_e c
  else set_timer_e_length DEFAULT_T1_TCP_PROGRESS c.

Definition nict_snd_request : handler := fun t evt w =>
  let t := set_orig_request (e_sip evt) t in
  let! (i, w) := nict_send (e_sip evt) t w in
  if 0 <=? i then
    let! m := deref (e_sip evt) w in
    let! type := nict_request_sent m in
    let! w := message_callback type t (orig_request t) w in
    let! reliable := sent_reliably (-1) t w in
    match reliable with
    | Err _ => handle_transport_error NICT t (-1) w
    | Ok reliable =>
        let! t := with_nict (fun c => start_timer_e w (timer_e_after_sending i reliable c)) t in
        Done (set_t_state NICT_TRYING t, w)
    end
  else handle_transport_error NICT t i w.

Definition next_timer_e_length (state : state_t) (e_length : Z) : Z :=
  if decide (state = NICT_TRYING) then
    Z.min DEFAULT_T2
      (if e_length <? DEFAULT_T1 then e_length + DEFAULT_T1_TCP_PROGRESS else e_length * 2)
  else DEFAULT_T2.

Definition osip_nict_timeout_e_event : handler := fun t evt w =>
  let! t := with_nict (fun c =>
    let c := set_timer_e_length (next_timer_e_length (t_state t) (timer_e_length c)) c in
    set_timer_e_start (timer_from_now w (timer_e_length c)) c) t in
  let! (i, w) := nict_send (orig_request t) t w in
  if i <? 0 then handle_transport_error NICT t i w else
  if i =? 0 then
    let! reliable := sent_reliably (-1) t w in
    match reliable with
    | Err _ => handle_transport_error NICT t (-1) w
    | Ok reliable =>
        let! t := (if reliable : bool then with_nict stop_timer_e t else Done t) in
        let! w := message_callback OSIP_NICT_REQUEST_SENT_AGAIN t (orig_request t) w in
        Done (t, w)
    end
  else Done (t, w).

Definition osip_nict_timeout_f_event : handler := fun t evt w =>
  let! t := with_nict (fun c => set_timer_f_start (stop (timer_f_start c)) (set_timer_f_length (-1) c)) t in
  let! w := message_callback OSIP_NICT_STATUS_TIMEOUT t (e_sip evt) w in
  terminate NICT t w.

Definition osip_nict_timeout_k_event : handler := fun t evt w =>
  let! t := with_nict (fun c => set_timer_k_start (stop (timer_k_start c)) (set_timer_k_length (-1) c)) t in
  terminate NICT t w.

Definition slow_timer_e (w : SipWorld) (c : osip_nict) : osip_nict :=
  if 0 <? timer_e_length c
  then set_timer_e_start (timer_from_now w DEFAULT_T2) (set_timer_e_length DEFAULT_T2 c) else c.

Definition nict_rcv_1xx : handler := fun t evt w =>
  let! (t, w) := replace_last_response evt t w in
  let! t := with_nict (slow_timer_e w) t in
  let! w := message_callback OSIP_NICT_STATUS_1XX_RECEIVED t (e_sip evt) w in
  Done (set_t_state NICT_PROCEEDING t, w).

Definition nict_status_received (type : type_t) (msg : option Z) (w : SipWorld)
  : outcome osip_message_callback_type :=
  if decide (type = RCV_STATUS_2XX) then Done OSIP_NICT_STATUS_2XX_RECEIVED else
  let! m := deref msg w in
  Done (status_class OSIP_NICT_STATUS_3XX_RECEIVED OSIP_NICT_STATUS_4XX_RECEIVED
          OSIP_NICT_STATUS_5XX_RECEIVED OSIP_NICT_STATUS_6XX_RECEIVED m).

Definition start_timer_k (w : SipWorld) (c : osip_nict) : osip_nict :=
  set_timer_k_start (timer_from_now w (timer_k_length c)) c.

Definition nict_rcv_23456xx : handler := fun t evt w =>
  let! (t, w) := replace_last_response evt t w in
  let! type := nict_status_received (e_type evt) (last_response t) w in
  let! w := message_callback type t (last_response t) w in
  let! t := (if decide (t_state t = NICT_COMPLETED) then Done t else with_nict (start_timer_k w) t) in
  Done (set_t_state NICT_COMPLETED t, w).

(** ** Sending of responses (osip_transaction.c) *)

Definition transaction_snd_xxx (t : osip_transaction) (msg : option Z) (w : SipWorld)
  : outcome (Z * SipWorld) :=
  let! m := deref msg w in
  match vias m with
  | [] => Done (OSIP_SYNTAXERROR, w)
  | via :: _ =>
      let! (host, port) := response_destination via in
      cb_send_message (Some (transactionid t)) msg host port w
  end.

(** The last response is sent again, for a retransmission of the request. *)
Definition snd_last_response_again (type : osip_fsm_type_t)
    (sent_1xx sent_2xx_again sent_3456xx_again : osip_message_callback_type)
    (t : osip_transaction) (w : SipWorld) : outcome (osip_transaction * SipWorld) :=
  match last_response t with
  | None => Done (t, w)
  | Some _ =>
      let! (i, w) := transaction_snd_xxx t (last_response t) w in
      if negb (i =? 0) then handle_transport_error type t i w else
      let! m := deref (last_response t) w in
      let! w := message_callback (if MSG_IS_STATUS 1 m then sent_1xx
                                  else if MSG_IS_STATUS 2 m then sent_2xx_again
                                  else sent_3456xx_again) t (last_response t) w in
      Done (t, w)
  end.

(** ** INVITE server transactions (ist_fsm.c) *)

Definition with_ist (f : osip_ist -> osip_ist) (t : osip_transaction) : outcome osip_transaction :=
  let! c := lift (ist_context t) in Done (set_ist_context (Some (f c)) t).

Definition ist_rcv_invite : handler := fun t evt w =>
  if decide (t_state t = IST_PRE_PROCEEDING) then
    let t := set_orig_request (e_sip evt) t in
    let! w := message_callback OSIP_IST_INVITE_RECEIVED t (e_sip evt) w in
    Done (set_t_state IST_PROCEEDING t, w)
  else
    let! w := osip_message_free (e_sip evt) w in
    let! w := message_callback OSIP_IST_INVITE_RECEIVED_AGAIN t (orig_request t) w in
    snd_last_response_again IST OSIP_IST_STATUS_1XX_SENT OSIP_IST_STATUS_2XX_SENT_AGAIN
      OSIP_IST_STATUS_3456XX_SENT_AGAIN t w.

Definition double_timer_g (w : SipWorld) (c : osip_ist) : osip_ist :=
  let c := set_timer_g_length (Z.min DEFAULT_T2 (timer_g_length c * 2)) c in
  set_timer_g_start (timer_from_now w (timer_g_length c)) c.

Definition osip_ist_timeout_g_event : handler := fun t evt w =>
  let! t := with_ist (double_timer_g w) t in
  let! (i, w) := transaction_snd_xxx t (last_response t) w in
  if negb (i =? 0) then handle_transport_error IST t i w else
  let! w := message_callback OSIP_IST_STATUS_3456XX_SENT_AGAIN t (last_response t) w in
  Done (t, w).

Definition osip_ist_timeout_h_event : handler := fun t evt w =>
  let! t := with_ist (fun c => set_timer_h_start (stop (timer_h_start c)) (set_timer_h_length (-1) c)) t in
  terminate IST t w.

Definition osip_ist_timeout_i_event : handler := fun t evt w =>
  let! t := with_ist (fun c => set_timer_i_start (stop (timer_i_start c)) (set_timer_i_length (-1) c)) t in
  terminate IST t w.

Definition ist_snd_1xx : handler := fun t evt w =>
  let! (t, w) := replace_last_response evt t w in
  let! (i, w) := transaction_snd_xxx t (e_sip evt) w in
  if negb (i =? 0) then handle_transport_error IST t i w else
  let! w := message_callback OSIP_IST_STATUS_1XX_SENT t (last_response t) w in
  Done (t, w).

Definition ist_snd_2xx : handler := fun t evt w =>
  let! (t, w) := replace_last_response evt t w in
  let! (i, w) := transaction_snd_xxx t (e_sip evt) w in
  if negb (i =? 0) then handle_transport_error IST t i w else
  let! w := message_callback OSIP_IST_STATUS_2XX_SENT t (last_response t) w in
  terminate IST t w.

Definition start_timers_g_h (w : SipWorld) (c : osip_ist) : osip_ist :=
  let c := if timer_g_length c =? -1 then c
           else set_timer_g_start (timer_from_now w (timer_g_length c)) c in
  set_timer_h_start (timer_from_now w (timer_h_length c)) c.

Definition ist_snd_3456xx : handler := fun t evt w =>
  let! (t, w) := replace_last_response evt t w in
  let! (i, w) := transaction_snd_xxx t (e_sip evt) w in
  if negb (i =? 0) then handle_transport_error IST t i w else
  let! m := deref (last_response t) w in
  let type := status_class OSIP_IST_STATUS_3XX_SENT OSIP_IST_STATUS_4XX_SENT
                OSIP_IST_STATUS_5XX_SENT OSIP_IST_STATUS_6XX_SENT m in
  let! w := message_callback type t (last_response t) w in
  let! t := with_ist (start_timers_g_h w) t in
  Done (set_t_state IST_COMPLETED t, w).

Definition start_timer_i (w : SipWorld) (c : osip_ist) : osip_ist :=
  set_timer_i_start (timer_from_now w (timer_i_length c)) c.

Definition ist_rcv_ack : handler := fun t evt w =>
  let! w := osip_message_free (t_ack t) w in
  let t := set_t_ack (e_sip evt) t in
  let type := if decide (t_state t = IST_COMPLETED) then OSIP_IST_ACK_RECEIVED
              else OSIP_IST_ACK_RECEIVED_AGAIN in
  let! w := message_callback type t (t_ack t) w in
  let! t := with_ist (start_timer_i w) t in
  Done (set_t_state IST_CONFIRMED t, w).

(** ** Other server transactions (nist_fsm.c) *)

Definition with_nist (f : osip_nist -> osip_nist) (t : osip_transaction) : outcome osip_transaction :=
  let! c := lift (nist_context t) in Done (set_nist_context (Some (f c)) t).

Definition nist_request_received : osip_message -> outcome osip_message_callback_type :=
  by_method [("REGISTER", OSIP_NIST_REGISTER_RECEIVED); ("BYE", OSIP_NIST_BYE_RECEIVED);
             ("OPTIONS", OSIP_NIST_OPTIONS_RECEIVED); ("INFO", OSIP_NIST_INFO_RECEIVED);
             ("CANCEL", OSIP_NIST_CANCEL_RECEIVED); ("NOTIFY", OSIP_NIST_NOTIFY_RECEIVED);
             ("SUBSCRIBE", OSIP_NIST_SUBSCRIBE_RECEIVED)] OSIP_NIST_UNKNOWN_REQUEST_RECEIVED.

Definition nist_rcv_request : handler := fun t evt w =>
  if decide (t_state t = NIST_PRE_TRYING) then
    let t := set_orig_request (e_sip evt) t in
    let! m := deref (e_sip evt) w in
    let! type := nist_request_received m in
    let! w := message_callback type t (orig_request t) w in
    Done (set_t_state NIST_TRYING t, w)
  else
    let! w := osip_message_free (e_sip evt) w in
    let! w := message_callback OSIP_NIST_REQUEST_RECEIVED_AGAIN t (orig_request t) w in
    snd_last_response_again NIST OSIP_NIST_STATUS_1XX_SENT OSIP_NIST_STATUS_2XX_SENT_AGAIN
      OSIP_NIST_STATUS_3456XX_SENT_AGAIN t w.

Definition nist_snd_1xx : handler := fun t evt w =>
  let! (t, w) := replace_last_response evt t w in
  let! (i, w) := transaction_snd_xxx t (last_response t) w in
  if negb (i =? 0) then handle_transport_error NIST t i w else
  let! w := message_callback OSIP_NIST_STATUS_1XX_SENT t (last_response t) w in
  Done (set_t_state NIST_PROCEEDING t, w).

Definition start_timer_j (w : SipWorld) (c : osip_nist) : osip_nist :=
  set_timer_j_start (timer_from_now w (timer_j_length c)) c.

Definition nist_snd_23456xx : handler := fun t evt w =>
  let! (t, w) := replace_last_response evt t w in
  let! (i, w) := transaction_snd_xxx t (last_response t) w in
  if negb (i =? 0) then handle_transport_error NIST t i w else
  let! m := deref (last_response t) w in
  let type := if decide (e_type evt = SND_STATUS_2XX) then OSIP_NIST_STATUS_2XX_SENT
              else status_class OSIP_NIST_STATUS_3XX_SENT OSIP_NIST_STATUS_4XX_SENT
                     OSIP_NIST_STATUS_5XX_SENT OSIP_NIST_STATUS_6XX_SENT m in
  let! w := message_callback type t (last_response t) w in
  let! t := (if decide (t_state t = NIST_COMPLETED) then Done t else with_nist (start_timer_j w) t) in
  Done (set_t_state NIST_COMPLETED t, w).

Definition osip_nist_timeout_j_event : handler := fun t evt w =>
  let! t := with_nist (fun c => set_timer_j_start (stop (timer_j_start c)) (set_timer_j_length (-1) c)) t in
  terminate NIST t w.

(** ** Transition tables and the execution of an event *)

Definition transition : Type := state_t * type_t * handler.

Definition ict_transition : list transition :=
  [(ICT_PRE_CALLING, SND_REQINVITE, ict_snd_invite);
   (ICT_CALLING, TIMEOUT_A, osip_ict_timeout_a_event);
   (ICT_CALLING, TIMEOUT_B, osip_ict_timeout_b_event);
   (ICT_CALLING, RCV_STATUS_1XX, ict_rcv_1xx);
   (ICT_CALLING, RCV_STATUS_2XX, ict_rcv_2xx);
   (ICT_CALLING, RCV_STATUS_3456XX, ict_rcv_3456xx);
   (ICT_PROCEEDING, RCV_STATUS_1XX, ict_rcv_1xx);
   (ICT_PROCEEDING, RCV_STATUS_2XX, ict_rcv_2xx);
   (ICT_PROCEEDING, RCV_STATUS_3456XX, ict_rcv_3456xx);
   (ICT_COMPLETED, RCV_STATUS_3456XX, ict_retransmit_ack);
   (ICT_COMPLETED, TIMEOUT_D, osip_ict_timeout_d_event)].

Definition nict_transition : list transition :=
  [(NICT_PRE_TRYING, SND_REQUEST, nict_snd_request);
   (NICT_TRYING, TIMEOUT_F, osip_nict_timeout_f_event);
   (NICT_TRYING, TIMEOUT_E, osip_nict_timeout_e_event);
   (NICT_TRYING, RCV_STATUS_1XX, nict_rcv_1xx);
   (NICT_TRYING, RCV_STATUS_2XX, nict_rcv_23456xx);
   (NICT_TRYING, RCV_STATUS_3456XX, nict_rcv_23456xx);
   (NICT_PROCEEDING, TIMEOUT_F, osip_nict_timeout_f_event);
   (NICT_PROCEEDING, TIMEOUT_E, osip_nict_timeout_e_event);
   (NICT_PROCEEDING, RCV_STATUS_1XX, nict_rcv_1xx);
   (NICT_PROCEEDING, RCV_STATUS_2XX, nict_rcv_23456xx);
   (NICT_PROCEEDING, RCV_STATUS_3456XX, nict_rcv_23456xx);
   (NICT_COMPLETED, TIMEOUT_K, osip_nict_timeout_k_event)].

Definition ist_transition : list transition :=
  [(IST_PRE_PROCEEDING, RCV_REQINVITE, ist_rcv_invite);
   (IST_PROCEEDING, RCV_REQINVITE, ist_rcv_invite);
   (IST_COMPLETED, RCV_REQINVITE, ist_rcv_invite);
   (IST_COMPLETED, TIMEOUT_G, osip_ist_timeout_g_event);
   (IST_COMPLETED, TIMEOUT_H, osip_ist_timeout_h_event);
   (IST_PROCEEDING, SND_STATUS_1XX, ist_snd_1xx);
   (IST_PROCEEDING, SND_STATUS_2XX, ist_snd_2xx);
   (IST_PROCEEDING, SND_STATUS_3456XX, ist_snd_3456xx);
   (IST_COMPLETED, RCV_REQACK, ist_rcv_ack);
   (IST_CONFIRMED, RCV_REQACK, ist_rcv_ack);
   (IST_CONFIRMED, TIMEOUT_I, osip_ist_timeout_i_event)].

Definition nist_transition : list transition :=
  [(NIST_PRE_TRYING, RCV_REQUEST, nist_rcv_request);
   (NIST_TRYING, SND_STATUS_1XX, nist_snd_1xx);
   (NIST_TRYING, SND_STATUS_2XX, nist_snd_23456xx);
   (NIST_TRYING, SND_STATUS_3456XX, nist_snd_23456xx);
   (NIST_PROCEEDING, SND_STATUS_1XX, nist_snd_1xx);
   (NIST_PROCEEDING, SND_STATUS_2XX, nist_snd_23456xx);
   (NIST_PROCEEDING, SND_STATUS_3456XX, nist_snd_23456xx);
   (NIST_PROCEEDING, RCV_REQUEST, nist_rcv_request);
   (NIST_COMPLETED, TIMEOUT_J, osip_nist_timeout_j_event);
   (NIST_COMPLETED, RCV_REQUEST, nist_rcv_request)].

Fixpoint fsm_findmethod (type : type_t) (state : state_t) (statemachine : list transition)
  : option handler :=
  match statemachine with
  | [] => None
  | (s, ty, method) :: rest =>
      if decide (ty = type) then
        if decide (s = state) then Some method else fsm_findmethod type state rest
      else fsm_findmethod type state rest
  end.

Definition statemachine_of (type : osip_fsm_type_t) : list transition :=
  match type with
  | ICT => ict_transition | IST => ist_transition
  | NICT => nict_transition | NIST => nist_transition
  end.

(** The result, the transaction and the world; the event is gone. *)
Definition osip_transaction_execute (t : osip_transaction) (evt : osip_event) (w : SipWorld)
  : outcome (Z * osip_transaction * SipWorld) :=
  if decide (e_type evt = KILL_TRANSACTION) then Done (OSIP_SUCCESS, t, w) else
  match fsm_findmethod (e_type evt) (t_state t) (statemachine_of (ctx_type t)) with
  | Some method => let! (t, w) := method t evt w in Done (1, t, w)
  | None =>
      let! w := (if EVT_IS_MSG (e_type evt) then osip_message_free (e_sip evt) w else Done w) in
      Done (1, t, w)
  end.

(** ** Timers that have expired *)

Definition need_timer_x_event (timer : option timeval) (cond_state : bool) (id : Z) (type : type_t)
    (w : SipWorld) : option osip_event :=
  match timer with
  | None => None
  | Some timer =>
      if cond_state && negb (tv_sec timer =? -1) && later (clock w) timer
      then Some (osip_event_new type id) else None
  end.

Definition ict_need_timer_a_event (ict : option osip_ict) (state : state_t) (id : Z) (w : SipWorld) :=
  need_timer_x_event (timer_a_start <$> ict) (bool_decide (state = ICT_CALLING)) id TIMEOUT_A w.
Definition ict_need_timer_b_event (ict : option osip_ict) (state : state_t) (id : Z) (w : SipWorld) :=
  need_timer_x_event (timer_b_start <$> ict) (bool_decide (state = ICT_CALLING)) id TIMEOUT_B w.
Definition ict_need_timer_d_event (ict : option osip_ict) (state : state_t) (id : Z) (w : SipWorld) :=
  need_timer_x_event (timer_d_start <$> ict) (bool_decide (state = ICT_COMPLETED)) id TIMEOUT_D w.

Definition nict_running (state : state_t) : bool :=
  bool_decide (state = NICT_PROCEEDING) || bool_decide (state = NICT_TRYING).
Definition nict_need_timer_e_event (nict : option osip_nict) (state : state_t) (id : Z) (w : SipWorld) :=
  need_timer_x_event (timer_e_start <$> nict) (nict_running state) id TIMEOUT_E w.
Definition nict_need_timer_f_event (nict : option osip_nict) (state : state_t) (id : Z) (w : SipWorld) :=
  need_timer_x_event (timer_f_start <$> nict) (nict_running state) id TIMEOUT_F w.
Definition nict_need_timer_k_event (nict : option osip_nict) (state : state_t) (id : Z) (w : SipWorld) :=
  need_timer_x_event (timer_k_start <$> nict) (bool_decide (state = NICT_COMPLETED)) id TIMEOUT_K w.

Definition ist_need_timer_g_event (ist : option osip_ist) (state : state_t) (id : Z) (w : SipWorld) :=
  need_timer_x_event (timer_g_start <$> ist) (bool_decide (state = IST_COMPLETED)) id TIMEOUT_G w.
Definition ist_need_timer_h_event (ist : option osip_ist) (state : state_t) (id : Z) (w : SipWorld) :=
  need_timer_x_event (timer_h_start <$> ist) (bool_decide (state = IST_COMPLETED)) id TIMEOUT_H w.
Definition ist_need_timer_i_event (ist : option osip_ist) (state : state_t) (id : Z) (w : SipWorld) :=
  need_timer_x_event (timer_i_start <$> ist) (bool_decide (state = IST_CONFIRMED)) id TIMEOUT_I w.

Definition nist_need_timer_j_event (nist : option osip_nist) (state : state_t) (id : Z) (w : SipWorld) :=
  need_timer_x_event (timer_j_start <$> nist) (bool_decide (state = NIST_COMPLETED)) id TIMEOUT_J w.
