(* ===== verification/SipStack.v ===== *)
(** The stack of SIP transactions, from src/osip2 of libosip2: the life of a transaction and
    the matching of messages with transactions (osip_transaction.c), the lists of
    transactions, the execution of their events and their timers (osip.c).

    Transactions are kept under their numbers; using one that has been freed is [Undef]. *)

From stdpp Require Import base list option numbers strings gmap.
From S2P Require Import Prelude.
From S2P Require Import SipTypes.
From S2P Require Import SipMessage.
From S2P Require Import SipFsm.

Local Open Scope Z_scope.
Open Scope c_scope.

(** ** Access *)

Definition get_transaction (id : Z) (o : osip) : outcome osip_transaction := lift (transactions o !! id).
Definition put_transaction (t : osip_transaction) (o : osip) : osip :=
  set_transactions (<[transactionid t := t]> (transactions o)) o.

Definition transactions_of (type : osip_fsm_type_t) (o : osip) : list Z :=
  match type with
  | ICT => osip_ict_transactions o | IST => osip_ist_transactions o
  | NICT => osip_nict_transactions o | NIST => osip_nist_transactions o
  end.
Definition set_transactions_of (type : osip_fsm_type_t) (l : list Z) (o : osip) : osip :=
  match type with
  | ICT => set_osip_ict_transactions l o | IST => set_osip_ist_transactions l o
  | NICT => set_osip_nict_transactions l o | NIST => set_osip_nist_transactions l o
  end.

(** [osip_init], with the world the stack starts in. *)
Definition osip_init (w : SipWorld) : osip := mkOsip 1 ∅ [] [] [] [] [] w.

(** ** Lists of transactions (osip.c) *)

(** [__osip_add_ict] and its three copies. *)
Definition osip_add (type : osip_fsm_type_t) (id : Z) (o : osip) : osip :=
  set_transactions_of type (transactions_of type o ++ [id]) o.

Fixpoint remove_id (id : Z) (l : list Z) (o : osip) : outcome (option (list Z)) :=
  match l with
  | [] => Done None
  | tmp :: l =>
      let! t := get_transaction tmp o in
      if transactionid t =? id then Done (Some l) else
      let! r := remove_id id l o in
      Done (cons tmp <$> r)
  end.

(** [__osip_remove_ict_transaction] and its three copies. *)
Definition osip_remove_transaction (id : Z) (o : osip) : outcome (Z * osip) :=
  let! t := get_transaction id o in
  let type := ctx_type t in
  let! r := remove_id (transactionid t) (transactions_of type o) o in
  Done (match r with
        | Some l => (OSIP_SUCCESS, set_transactions_of type l o)
        | None => (OSIP_UNDEFINED_ERROR, o)
        end).

(** ** The life of a transaction (osip_transaction.c) *)

Definition initial_state (type : osip_fsm_type_t) : state_t :=
  match type with
  | ICT => ICT_PRE_CALLING | IST => IST_PRE_PROCEEDING
  | NICT => NICT_PRE_TRYING | NIST => NIST_PRE_TRYING
  end.

(** The context of the transaction.  When [__osip_ict_init] fails it has freed the context
    and leaves its address, which the caller frees again. *)
Definition init_context (type : osip_fsm_type_t) (request : osip_message) (w : SipWorld)
    (t : osip_transaction) : outcome (ret osip_transaction) :=
  match type with
  | ICT =>
      let! c := osip_ict_init request w in
      match c with Ok c => Done (Ok (set_ict_context (Some c) t)) | Err _ => Undef end
  | IST => Done (let? c := osip_ist_init request in Ok (set_ist_context (Some c) t))
  | NICT =>
      let! c := osip_nict_init request w in
      Done (let? c := c in Ok (set_nict_context (Some c) t))
  | NIST => Done (let? c := osip_nist_init request in Ok (set_nist_context (Some c) t))
  end.

(** The copies of the headers a transaction keeps, in the order in which they are made. *)
Definition init_headers (type : osip_fsm_type_t) (id now : Z) (request : osip_message)
  : ret osip_transaction :=
  match vias request with
  | [] => Err OSIP_SYNTAXERROR
  | topvia :: _ =>
      let? topvia := osip_via_clone (Some topvia) in
      let? from := osip_from_clone (m_from request) in
      let? to := osip_from_clone (m_to request) in
      let? callid := osip_call_id_clone (call_id request) in
      let? cseq := osip_cseq_clone (m_cseq request) in
      Ok (mkTransaction id [] (Some topvia) (Some from) (Some to) (Some callid) (Some cseq)
            None None None (initial_state type) now 0 0 0 type None None None None)
  end.

(** The number of the new transaction, or an error; the next number is used up as soon as
    the request has a Call-ID. *)
Definition osip_transaction_init (type : osip_fsm_type_t) (msg : option Z) (o : osip)
  : outcome (ret Z * osip) :=
  match msg with
  | None => Done (Err OSIP_BADPARAMETER, o)
  | Some _ =>
      let w := sip_world o in
      let! request := deref msg w in
      if is_null (call_id request ≫= ci_number) then Done (Err OSIP_BADPARAMETER, o) else
      let id := next_transactionid o in
      if id =? 2 ^ 31 - 1 then Undef else
      let o := set_next_transactionid (id + 1) o in
      match init_headers type id (tv_sec (clock w)) request with
      | Err i => Done (Err i, o)
      | Ok t =>
          let! t := init_context type request w t in
          Done (match t with
                | Err i => (Err i, o)
                | Ok t => (Ok id, osip_add type id (put_transaction t o))
                end)
      end
  end.

Fixpoint free_messages (l : list (option Z)) (w : SipWorld) : outcome SipWorld :=
  match l with
  | [] => Done w
  | p :: l => let! w := osip_message_free p w in free_messages l w
  end.

(** The messages a transaction holds, in the order in which they are freed. *)
Definition held (t : osip_transaction) : list (option Z) :=
  map e_sip (transactionff t) ++ [orig_request t; last_response t; t_ack t].

Definition osip_transaction_free2 (id : Z) (o : osip) : outcome osip :=
  let! t := get_transaction id o in
  if negb (alive (orig_request t) (sip_world o)) then Undef else
  let! w := free_messages (held t) (sip_world o) in
  Done (set_sip_world w (set_transactions (delete id (transactions o)) o)).

Definition osip_transaction_free (id : Z) (o : osip) : outcome osip :=
  let! (_, o) := osip_remove_transaction id o in
  osip_transaction_free2 id o.

Definition osip_transaction_add_event (id : Z) (evt : osip_event) (o : osip) : outcome osip :=
  let! t := get_transaction id o in
  let evt := set_e_transactionid (transactionid t) evt in
  Done (put_transaction (set_transactionff (transactionff t ++ [evt]) t) o).

(** The result, the address and the port. *)
Definition osip_transaction_get_destination (t : osip_transaction) : Z * option string * Z :=
  match ict_context t with
  | Some c => (OSIP_SUCCESS, ict_destination c, ict_port c)
  | None =>
      match nict_context t with
      | Some c => (OSIP_SUCCESS, nict_destination c, nict_port c)
      | None => (OSIP_UNDEFINED_ERROR, None, 0)
      end
  end.

(** ** Matching of messages with transactions (osip_transaction.c) *)

(** Responses to client transactions: RFC 3261, 17.1.3. *)
Definition matching_response_17_1_3 (tr : osip_transaction) (response : osip_message) : outcome Z :=
  let method := m_cseq response ≫= cs_method in
  if (is_null (ict_context tr) && is_null (nict_context tr)) || is_null method
  then Done OSIP_BADPARAMETER else
  match vias response with
  | [] => Done OSIP_SYNTAXERROR
  | topvia_response :: _ =>
      let! tr_via := lift (topvia tr) in
      let! b_request := osip_uri_param_get_byname (via_params tr_via) "branch" in
      match b_request with
      | None => Done OSIP_SYNTAXERROR
      | Some b_request =>
          let! b_response := osip_uri_param_get_byname (via_params topvia_response) "branch" in
          match b_response ≫= gvalue, gvalue b_request with
          | Some v_response, Some v_request =>
              if negb (String.eqb v_request v_response) then Done OSIP_UNDEFINED_ERROR else
              let! same := streq method (t_cseq tr ≫= cs_method) in
              Done (if same : bool then OSIP_SUCCESS else OSIP_UNDEFINED_ERROR)
          | _, _ => Done OSIP_SYNTAXERROR
          end
      end
  end.

Definition is_compliant (branch : string) : bool := String.prefix "z9hG4bK" branch.

(** The comparison of the addresses two requests came from. *)
Definition same_sent_by (v_orig v : osip_via) : bool :=
  match v_host v_orig, v_host v with
  | Some h_orig, Some h =>
      String.eqb h_orig h &&
      match v_port v, v_port v_orig with
      | Some port, None => String.eqb port "5060"
      | None, Some port => String.eqb port "5060"
      | Some port, Some port_orig => String.eqb port_orig port
      | None, None => true
      end
  | _, _ => false
  end.

Definition success_if (b : bool) : Z := if b then OSIP_SUCCESS else OSIP_UNDEFINED_ERROR.

(** The matching of RFC 2543, by the headers. *)
Definition matching_request_2543 (tr : osip_transaction) (request : osip_message) (via : osip_via)
    (w : SipWorld) : outcome Z :=
  if negb (osip_call_id_match (callid tr) (call_id request) =? 0) then Done OSIP_UNDEFINED_ERROR else
  let! ack := MSG_IS "ACK" request in
  let! to_ok :=
    (if ack : bool then
       let! to1 := lift (t_to tr) in
       let! tag1 := osip_uri_param_get_byname (gen_params to1) "tag" in
       let! to2 := lift (m_to request) in
       let! tag2 := osip_uri_param_get_byname (gen_params to2) "tag" in
       match tag1, tag2 with
       | None, Some _ => Done true
       | Some _, None => Done false
       | _, _ => let! i := osip_from_tag_match (t_to tr) (m_to request) in Done (i =? 0)
       end
     else
       match orig_request tr with
       | None => Done false
       | Some _ =>
           let! orig := deref (orig_request tr) w in
           match m_to orig with
           | None => Done false
           | Some to => let! i := osip_from_tag_match (Some to) (m_to request) in Done (i =? 0)
           end
       end) in
  if negb to_ok then Done OSIP_UNDEFINED_ERROR else
  let! i := osip_from_tag_match (t_from tr) (m_from request) in
  if negb (i =? 0) then Done OSIP_UNDEFINED_ERROR else
  if negb (osip_cseq_match (t_cseq tr) (m_cseq request) =? 0) then Done OSIP_UNDEFINED_ERROR else
  let! i := osip_via_match (topvia tr) (Some via) in
  Done (success_if (i =? 0)).

(** Requests to server transactions: RFC 3261, 17.2.3. *)
Definition matching_request_17_2_3 (tr : osip_transaction) (request : osip_message) (w : SipWorld)
  : outcome Z :=
  let method := m_cseq request ≫= cs_method in
  if (is_null (ist_context tr) && is_null (nist_context tr)) || is_null method
  then Done OSIP_BADPARAMETER else
  match vias request with
  | [] => Done OSIP_SYNTAXERROR
  | via :: _ =>
      let! tr_via := lift (topvia tr) in
      let! b_request := osip_uri_param_get_byname (via_params via) "branch" in
      let! b_orig := osip_uri_param_get_byname (via_params tr_via) "branch" in
      match b_orig, b_request with
      | None, None => matching_request_2543 tr request via w
      | Some b_orig, Some b_request =>
          match gvalue b_orig, gvalue b_request with
          | Some orig, Some branch =>
              if negb (String.length orig =? String.length branch)%nat then Done OSIP_UNDEFINED_ERROR else
              if is_compliant orig && is_compliant branch then
                if negb (String.eqb orig branch) then Done OSIP_UNDEFINED_ERROR else
                if negb (same_sent_by tr_via via) then Done OSIP_UNDEFINED_ERROR else
                let! orig_method := lift (t_cseq tr ≫= cs_method) in
                let! method := lift method in
                Done (success_if ((String.eqb orig_method "INVITE" && String.eqb method "ACK")
                                  || String.eqb orig_method method))
              else matching_request_2543 tr request via w
          | _, _ => Done OSIP_UNDEFINED_ERROR
          end
      | _, _ => Done OSIP_SYNTAXERROR
      end
  end.

Fixpoint find_first (matches : osip_transaction -> outcome Z) (l : list Z) (o : osip)
  : outcome (option Z) :=
  match l with
  | [] => Done None
  | id :: l =>
      let! t := get_transaction id o in
      let! i := matches t in
      if i =? 0 then Done (Some id) else find_first matches l o
  end.

Definition osip_transaction_find (l : list Z) (evt : osip_event) (o : osip) : outcome (option Z) :=
  match l with
  | [] => Done None
  | _ =>
      if EVT_IS_INCOMINGREQ (e_type evt) then
        let! sip := deref (e_sip evt) (sip_world o) in
        find_first (fun t => matching_request_17_2_3 t sip (sip_world o)) l o
      else if EVT_IS_INCOMINGRESP (e_type evt) then
        let! sip := deref (e_sip evt) (sip_world o) in
        find_first (fun t => matching_response_17_1_3 t sip) l o
      else find_first (fun t => Done (if transactionid t =? e_transactionid evt then 0 else 1)) l o
  end.

(** The list that a message's transaction is in. *)
Definition transactions_for (evt : osip_event) (sip : osip_message) (method : option string)
  : outcome (option osip_fsm_type_t) :=
  if EVT_IS_MSG (e_type evt) then
    let! method := lift method in
    let invite := String.eqb method "INVITE" in
    let invite_or_ack := invite || String.eqb method "ACK" in
    Done (Some (match EVT_IS_INCOMINGMSG (e_type evt), MSG_IS_REQUEST sip with
                | true, true => if invite_or_ack then IST else NIST
                | true, false => if invite then ICT else NICT
                | false, false => if invite then IST else NIST
                | false, true => if invite_or_ack then ICT else NICT
                end))
  else Done None.

(** The transaction of a message, which gets the event when it is to [consume] it. *)
Definition osip_find_transaction_aux (evt : osip_event) (consume : bool) (o : osip)
  : outcome (option Z * osip) :=
  match e_sip evt with
  | None => Done (None, o)
  | Some _ =>
      let! sip := deref (e_sip evt) (sip_world o) in
      match m_cseq sip with
      | None => Done (None, o)
      | Some cseq =>
          let! type := transactions_for evt sip (cs_method cseq) in
          match type with
          | None => Done (None, o)
          | Some type =>
              let! tr := osip_transaction_find (transactions_of type o) evt o in
              match tr with
              | Some id =>
                  if consume then let! o := osip_transaction_add_event id evt o in Done (tr, o)
                  else Done (tr, o)
              | None => Done (None, o)
              end
          end
      end
  end.

Definition osip_find_transaction_and_add_event (evt : osip_event) (o : osip) : outcome (Z * osip) :=
  let! (tr, o) := osip_find_transaction_aux evt true o in
  Done (match tr with None => OSIP_UNDEFINED_ERROR | Some _ => OSIP_SUCCESS end, o).

(** The transaction a request creates, and the event with its number. *)
Definition osip_create_transaction (evt : osip_event) (o : osip)
  : outcome (option Z * osip_event * osip) :=
  let none := Done (None, evt, o) in
  match e_sip evt with
  | None => none
  | Some _ =>
      let! sip := deref (e_sip evt) (sip_world o) in
      let method := m_cseq sip ≫= cs_method in
      let! consistent :=
        (if MSG_IS_REQUEST sip then
           if is_null method || is_null (sip_method sip) then Done false
           else streq method (sip_method sip)
         else Done true) in
      if negb consistent then none else
      let! ack := MSG_IS "ACK" sip in
      if ack : bool then none else
      let incoming := EVT_IS_INCOMINGREQ (e_type evt) in
      if incoming || EVT_IS_OUTGOINGREQ (e_type evt) then
        let! invite := streq method (Some "INVITE") in
        let type := match incoming, invite with
                    | true, true => IST | true, false => NIST
                    | false, true => ICT | false, false => NICT
                    end in
        let! (r, o) := osip_transaction_init type (e_sip evt) o in
        match r with
        | Err _ => Done (None, evt, o)
        | Ok id => Done (Some id, set_e_transactionid id evt, o)
        end
      else none
  end.

(** ** Execution (osip.c) *)

(** The events of one transaction, until there are none; the fuel is the number of events,
    which the handlers do not change. *)
Fixpoint drain (fuel : nat) (id : Z) (o : osip) : outcome osip :=
  let! t := get_transaction id o in
  match transactionff t with
  | [] => Done o
  | se :: rest =>
      match fuel with
      | O => Unfinished
      | S fuel =>
          let! (_, t, w) := osip_transaction_execute (set_transactionff rest t) se (sip_world o) in
          drain fuel id (set_sip_world w (put_transaction t o))
      end
  end.

Definition pending (id : Z) (o : osip) : nat :=
  match transactions o !! id with Some t => List.length (transactionff t) | None => 0 end.

Fixpoint execute_all (l : list Z) (o : osip) : outcome osip :=
  match l with
  | [] => Done o
  | id :: l => let! o := drain (pending id o) id o in execute_all l o
  end.

(** [osip_ict_execute] and its three copies, on a copy of the list. *)
Definition osip_execute (type : osip_fsm_type_t) (o : osip) : outcome osip :=
  execute_all (transactions_of type o) o.

(** ** Timers (osip.c) *)

Definition or_else {A} (a b : option A) : option A := match a with Some _ => a | None => b end.

(** The event of a transaction whose timer has expired. *)
Definition timer_event (type : osip_fsm_type_t) (t : osip_transaction) (w : SipWorld) : option osip_event :=
  let state := t_state t in
  let id := transactionid t in
  match type with
  | ICT =>
      or_else (ict_need_timer_b_event (ict_context t) state id w)
        (or_else (ict_need_timer_a_event (ict_context t) state id w)
           (ict_need_timer_d_event (ict_context t) state id w))
  | IST =>
      or_else (ist_need_timer_i_event (ist_context t) state id w)
        (or_else (ist_need_timer_h_event (ist_context t) state id w)
           (ist_need_timer_g_event (ist_context t) state id w))
  | NICT =>
      or_else (nict_need_timer_k_event (nict_context t) state id w)
        (or_else (nict_need_timer_f_event (nict_context t) state id w)
           (nict_need_timer_e_event (nict_context t) state id w))
  | NIST => nist_need_timer_j_event (nist_context t) state id w
  end.

(** INVITE client transactions that have events already get none. *)
Definition timer_step (type : osip_fsm_type_t) (t : osip_transaction) (w : SipWorld) : osip_transaction :=
  if bool_decide (type = ICT) && negb (bool_decide (transactionff t = [])) then t
  else match timer_event type t w with
       | Some evt => set_transactionff (transactionff t ++ [evt]) t
       | None => t
       end.

Fixpoint timers_all (type : osip_fsm_type_t) (l : list Z) (o : osip) : outcome osip :=
  match l with
  | [] => Done o
  | id :: l =>
      let! t := get_transaction id o in
      timers_all type l (put_transaction (timer_step type t (sip_world o)) o)
  end.

(** [osip_timers_ict_execute] and its three copies. *)
Definition osip_timers_execute (type : osip_fsm_type_t) (o : osip) : outcome osip :=
  timers_all type (transactions_of type o) o.

(** A loop of [osip_timers_gettimeout] over a list, with the earliest time so far; [None]
    when there is something to do at once. *)
Fixpoint earliest {A} (f : A -> timeval -> outcome (option timeval)) (now : timeval) (l : list A)
    (lower : timeval) : outcome (option timeval) :=
  match l with
  | [] => Done (Some lower)
  | x :: l =>
      let! r := f x lower in
      match r with
      | None => Done None
      | Some lower => if later now lower then Done None else earliest f now l lower
      end
  end.

(** [min_timercmp] with a timer of the context, in the states in which it runs. *)
Definition min_timer {C} (running : bool) (context : option C) (start : C -> timeval) (lower : timeval)
  : outcome timeval :=
  if running then let! c := lift context in Done (min_timercmp lower (start c)) else Done lower.

Definition earliest_timer (type : osip_fsm_type_t) (t : osip_transaction) (lower : timeval)
  : outcome (option timeval) :=
  let state := t_state t in
  match type with
  | ICT =>
      if negb (bool_decide (transactionff t = [])) then Done None else
      let calling := bool_decide (state = ICT_CALLING) in
      let! lower := min_timer calling (ict_context t) timer_b_start lower in
      let! lower := min_timer calling (ict_context t) timer_a_start lower in
      let! lower := min_timer (bool_decide (state = ICT_COMPLETED)) (ict_context t) timer_d_start lower in
      Done (Some lower)
  | IST =>
      let completed := bool_decide (state = IST_COMPLETED) in
      let! lower := min_timer (bool_decide (state = IST_CONFIRMED)) (ist_context t) timer_i_start lower in
      let! lower := min_timer completed (ist_context t) timer_h_start lower in
      let! lower := min_timer completed (ist_context t) timer_g_start lower in
      Done (Some lower)
  | NICT =>
      let! lower := min_timer (bool_decide (state = NICT_COMPLETED)) (nict_context t) timer_k_start lower in
      let! lower := min_timer (nict_running state) (nict_context t) timer_f_start lower in
      let! lower := min_timer (nict_running state) (nict_context t) timer_e_start lower in
      Done (Some lower)
  | NIST =>
      let! lower := min_timer (bool_decide (state = NIST_COMPLETED)) (nist_context t) timer_j_start lower in
      Done (Some lower)
  end.

Definition earliest_of (type : osip_fsm_type_t) (o : osip) (lower : timeval) : outcome (option timeval) :=
  earliest (fun id lower => let! t := get_transaction id o in earliest_timer type t lower)
    (clock (sip_world o)) (transactions_of type o) lower.

(** A step that is left out once there is something to do. *)
Definition and_then (r : outcome (option timeval)) (k : timeval -> outcome (option timeval))
  : outcome (option timeval) :=
  let! r := r in match r with None => Done None | Some lower => k lower end.

(** The time until the next timer, at most a year. *)
Definition osip_timers_gettimeout (o : osip) : outcome timeval :=
  let now := clock (sip_world o) in
  let lower := mkTimeval (tv_sec now + 3600 * 24 * 365) (tv_usec now) in
  let! r := and_then (earliest_of ICT o lower) (fun lower =>
            and_then (earliest_of IST o lower) (fun lower =>
            and_then (earliest_of NICT o lower) (fun lower =>
            and_then (earliest_of NIST o lower) (fun lower =>
            earliest (fun x lower => Done (Some (min_timercmp lower (ixt_start x)))) now
              (ixt_retransmissions o) lower)))) in
  match r with
  | None => Done (mkTimeval 0 0)
  | Some lower =>
      let sec := tv_sec lower - tv_sec now in
      let usec := tv_usec lower - tv_usec now in
      let (sec, usec) := if usec <? 0 then (sec - 1, usec + 1000000) else (sec, usec) in
      let (sec, usec) := if sec <? 0 then (0, 0) else (sec, usec) in
      Done (if 1000000 <? usec then mkTimeval (sec + 1) (usec - 1000000) else mkTimeval sec usec)
  end.

(** ** Retransmissions of dialogs (osip.c) *)

Definition ixt_init (w : SipWorld) : ixt :=
  mkIxt 0 None None (timer_from_now w (DEFAULT_T1 + 10)) DEFAULT_T1 None 5060 (-1) 10.

Definition osip_add_ixt (x : ixt) (o : osip) : osip :=
  set_ixt_retransmissions (x :: ixt_retransmissions o) o.

Definition ixt_free (x : ixt) (w : SipWorld) : outcome SipWorld :=
  let! w := osip_message_free (ixt_ack x) w in osip_message_free (msg2xx x) w.

(** A copy of a message, or [NULL]. *)
Definition osip_message_clone (p : option Z) (w : SipWorld) : outcome (option Z * SipWorld) :=
  match p with
  | None => Done (None, w)
  | Some _ =>
      let! m := deref p w in
      Done (match clone_message m with
            | Ok copy => let (i, w) := allocate copy w in (Some i, w)
            | Err _ => (None, w)
            end)
  end.

Definition osip_response_get_destination (m : osip_message) : outcome (option string * Z) :=
  match vias m with
  | [] => Done (None, 0)
  | via :: _ => response_destination via
  end.

Definition osip_start_200ok_retransmissions (dialog : Z) (msg200ok : option Z) (sock : Z) (o : osip)
  : outcome osip :=
  let x := ixt_init (sip_world o) in
  let! (copy, w) := osip_message_clone msg200ok (sip_world o) in
  let! m := deref msg200ok w in
  let! (dest, port) := osip_response_get_destination m in
  Done (osip_add_ixt (mkIxt dialog copy None (ixt_start x) (interval x) dest port sock (counter x))
          (set_sip_world w o)).

Definition osip_start_ack_retransmissions (dialog : Z) (ack : option Z) (dest : option string)
    (port sock : Z) (o : osip) : outcome osip :=
  let x := ixt_init (sip_world o) in
  let! (copy, w) := osip_message_clone ack (sip_world o) in
  Done (osip_add_ixt (mkIxt dialog None copy (ixt_start x) (interval x) dest port sock (counter x))
          (set_sip_world w o)).

Fixpoint stop_from_dialog (dialog : Z) (l : list ixt) (w : SipWorld) : outcome (list ixt * SipWorld) :=
  match l with
  | [] => Done ([], w)
  | x :: l =>
      if ixt_dialog x =? dialog then
        let! w := ixt_free x w in stop_from_dialog dialog l w
      else
        let! (l, w) := stop_from_dialog dialog l w in Done (x :: l, w)
  end.

Definition osip_stop_retransmissions_from_dialog (dialog : Z) (o : osip) : outcome osip :=
  let! (l, w) := stop_from_dialog dialog (ixt_retransmissions o) (sip_world o) in
  Done (set_sip_world w (set_ixt_retransmissions l o)).

Definition ixt_retransmit (x : ixt) (current : timeval) (w : SipWorld) : outcome (ixt * SipWorld) :=
  if later current (ixt_start x) then
    let x := set_interval (Z.min DEFAULT_T2 (interval x * 2)) x in
    let x := set_ixt_start (add_gettimeofday (ixt_start x) (interval x)) x in
    let! w := match ixt_ack x, msg2xx x with
              | Some _, _ =>
                  let! (_, w) := cb_send_message None (ixt_ack x) (ixt_dest x) (ixt_port x) w in Done w
              | None, Some _ =>
                  let! (_, w) := cb_send_message None (msg2xx x) (ixt_dest x) (ixt_port x) w in Done w
              | None, None => Done w
              end in
    Done (set_counter (counter x - 1) x, w)
  else Done (x, w).

Fixpoint retransmissions_all (l : list ixt) (current : timeval) (w : SipWorld)
  : outcome (list ixt * SipWorld) :=
  match l with
  | [] => Done ([], w)
  | x :: l =>
      let! (x, w) := ixt_retransmit x current w in
      if counter x =? 0 then
        let! w := ixt_free x w in retransmissions_all l current w
      else
        let! (l, w) := retransmissions_all l current w in Done (x :: l, w)
  end.

Definition osip_retransmissions_execute (o : osip) : outcome osip :=
  let! (l, w) := retransmissions_all (ixt_retransmissions o) (clock (sip_world o)) (sip_world o) in
  Done (set_sip_world w (set_ixt_retransmissions l o)).
