(* ===== verification/SipOwnership.v ===== *)
(** Who owns the SIP messages: the accounting of the heap of messages, what each primitive
    of the state machines does to it, and what the copies and the tests of messages return
    when the messages are as the parser makes them. *)

From stdpp Require Import base list option numbers strings gmap.
From S2P Require Import Prelude.
From S2P Require Import SipTypes.
From S2P Require Import SipMessage.
From S2P Require Import SipFsm.
From S2P Require Import SipStack.

Local Open Scope Z_scope.
Open Scope c_scope.

(** ** Results *)

(** [x] has a result, which is not undefined behaviour, and [Q] holds of it. *)
Definition returns {A} (x : outcome A) (Q : A -> Prop) : Prop :=
  match x with Done a => Q a | _ => False end.

Lemma returns_mono {A} (x : outcome A) (Q Q' : A -> Prop) :
  returns x Q -> (forall a, Q a -> Q' a) -> returns x Q'.
Proof. destruct x; simpl; auto. Qed.

Lemma returns_bind {A B} (x : outcome A) (k : A -> outcome B) (P : A -> Prop) (Q : B -> Prop) :
  returns x P -> (forall a, P a -> returns (k a) Q) ->
  returns (match x with Done a => k a | Undef => Undef | Unfinished => Unfinished end) Q.
Proof. destruct x; simpl; auto; done. Qed.

Lemma returns_done {A} (x : outcome A) (Q : A -> Prop) : returns x Q -> exists a, x = Done a /\ Q a.
Proof. destruct x; simpl; [eauto|done|done]. Qed.

(** ** Messages as the parser makes them *)

Definition named (params : list osip_uri_param) : bool :=
  forallb (fun p => negb (is_null (gname p))) params.
Definition uri_ok (u : osip_uri) : bool := named (url_params u) && named (url_headers u).
Definition from_ok (f : osip_from) : bool :=
  named (gen_params f) && match f_url f with None => true | Some u => uri_ok u end.
Definition if_any {A} (f : A -> bool) (p : option A) : bool :=
  match p with None => true | Some a => f a end.

(** Parameters have names, a request has a method and a URI, and a CSeq has a method. *)
Definition msg_ok (m : osip_message) : bool :=
  (if MSG_IS_REQUEST m then negb (is_null (sip_method m)) && negb (is_null (req_uri m)) else true) &&
  if_any uri_ok (req_uri m) && if_any from_ok (m_from m) && if_any from_ok (m_to m) &&
  forallb from_ok (routes m) && forallb (fun v => named (via_params v)) (vias m) &&
  if_any (fun c => negb (is_null (cs_method c))) (m_cseq m).

Record msg_good (m : osip_message) : Prop := {
  mg_request : MSG_IS_REQUEST m = true -> is_Some (sip_method m) /\ is_Some (req_uri m);
  mg_uri : forall u, req_uri m = Some u -> uri_ok u = true;
  mg_from : forall f, m_from m = Some f -> from_ok f = true;
  mg_to : forall f, m_to m = Some f -> from_ok f = true;
  mg_routes : forall f, f ∈ routes m -> from_ok f = true;
  mg_vias : forall v, v ∈ vias m -> named (via_params v) = true;
  mg_cseq : forall c, m_cseq m = Some c -> is_Some (cs_method c)
}.

Lemma if_any_true {A} (f : A -> bool) p : if_any f p = true -> forall a, p = Some a -> f a = true.
Proof. intros H a ->. done. Qed.

Lemma not_null {A} (p : option A) : negb (is_null p) = true -> is_Some p.
Proof. destruct p; [eauto|done]. Qed.

Lemma forallb_elem {A} (f : A -> bool) l : forallb f l = true -> forall x, x ∈ l -> f x = true.
Proof. intros H x Hx. by eapply forallb_forall in H; [|apply list_elem_of_In]. Qed.

Lemma msg_ok_good m : msg_ok m = true -> msg_good m.
Proof.
  unfold msg_ok. rewrite !andb_true_iff. intros [[[[[[H1 H2] H3] H4] H5] H6] H7].
  split; eauto using if_any_true, forallb_elem.
  - intros E. rewrite E in H1. apply andb_true_iff in H1 as []. eauto using not_null.
  - intros f Hf. by apply (forallb_elem _ _ H6 f Hf).
  - intros c Hc. apply not_null. by apply (if_any_true _ _ H7 c Hc).
Qed.

(** ** The heap of messages *)

(** How many pointers of the list point to message [i]. *)
Fixpoint owners (l : list (option Z)) (i : Z) : nat :=
  match l with
  | [] => 0
  | p :: l => (if decide (p = Some i) then 1 else 0) + owners l i
  end.

Lemma owners_app l l' i : owners (l ++ l') i = (owners l i + owners l' i)%nat.
Proof. induction l as [|p l IH]; simpl; [done|]. rewrite IH. lia. Qed.

(** One pointer less, and one more. *)
Definition less (p : option Z) (f : Z -> nat) (i : Z) : nat :=
  f i - (if decide (p = Some i) then 1 else 0).
Definition more (p : option Z) (f : Z -> nat) (i : Z) : nat :=
  f i + (if decide (p = Some i) then 1 else 0).

(** [f i] counts the pointers to message [i] that there are: each live message has one, and
    no other message has any.  Nothing has leaked and nothing is freed twice. *)
Definition accounted (f : Z -> nat) (w : SipWorld) : Prop :=
  forall i, f i = match msgs w !! i with Some _ => 1%nat | None => 0%nat end.

Record heap_ok (f : Z -> nat) (w : SipWorld) : Prop := {
  ho_accounted : accounted f w;
  ho_fresh : forall i, is_Some (msgs w !! i) -> i < next_msg w;
  ho_good : forall i m, msgs w !! i = Some m -> msg_ok m = true
}.

(** What the outside sees of a computation: the actions, and messages do not change. *)
Record does (w w' : SipWorld) (out : list action) : Prop := {
  do_actions : actions w' = actions w ++ out;
  do_clock : clock w' = clock w;
  do_next : next_msg w <= next_msg w';
  do_same : forall i m, msgs w' !! i = Some m -> i < next_msg w -> msgs w !! i = Some m
}.

Lemma does_nil w : does w w [].
Proof. split; [by rewrite app_nil_r|done|lia|done]. Qed.

Lemma does_trans w w1 w2 out1 out2 :
  does w w1 out1 -> does w1 w2 out2 -> does w w2 (out1 ++ out2).
Proof.
  intros [A1 C1 N1 S1] [A2 C2 N2 S2]. split.
  - by rewrite A2, A1, app_assoc.
  - by rewrite C2.
  - lia.
  - intros i m Hi Hn. apply S1; [|done]. apply S2; [done|lia].
Qed.

Lemma heap_ok_eq f g w : heap_ok f w -> (forall i, f i = g i) -> heap_ok g w.
Proof. intros [A F G] E. split; [|done|done]. intros i. rewrite <- E. apply A. Qed.

Lemma heap_ok_live f w i : heap_ok f w -> (0 < f i)%nat -> is_Some (msgs w !! i).
Proof. intros [A F G] H. specialize (A i). destruct (msgs w !! i); [eauto|lia]. Qed.

Lemma heap_ok_once f w i : heap_ok f w -> (f i <= 1)%nat.
Proof. intros [A _ _]. rewrite A. case_match; lia. Qed.

Lemma deref_ok f w i : heap_ok f w -> (0 < f i)%nat ->
  exists m, deref (Some i) w = Done m /\ msgs w !! i = Some m /\ msg_ok m = true.
Proof.
  intros H Hi. destruct (heap_ok_live _ _ _ H Hi) as [m E]. exists m.
  cbn. rewrite E. split; [done|]. split; [done|]. by eapply ho_good.
Qed.

Lemma free_ok p f w : heap_ok f w -> (forall i, p = Some i -> (0 < f i)%nat) ->
  exists w', osip_message_free p w = Done w' /\ heap_ok (less p f) w' /\ does w w' [].
Proof.
  intros H Hp. destruct p as [i|].
  - destruct (heap_ok_live _ _ i H (Hp i eq_refl)) as [m E].
    unfold osip_message_free, alive. rewrite E. eexists. split; [done|].
    destruct H as [A F G]. split; [split|].
    + intros j. specialize (A j). unfold less. cbn. destruct (decide (Some i = Some j)) as [[= ->]|].
      * rewrite lookup_delete_eq. rewrite E in A. lia.
      * rewrite lookup_delete_ne by congruence. rewrite A. case_match; lia.
    + intros j Hj. apply F. cbn in *. rewrite lookup_delete_is_Some in Hj. tauto.
    + intros j m' Hj. cbn in Hj. rewrite lookup_delete_Some in Hj. destruct Hj as [_ Hj]. eauto.
    + split; cbn; [by rewrite app_nil_r|done|lia|].
      intros j m' Hj _. rewrite lookup_delete_Some in Hj. tauto.
  - exists w. split; [done|]. split; [|apply does_nil]. eapply heap_ok_eq; [done|].
    intros i. unfold less. case_decide; [done|lia].
Qed.

Lemma allocate_ok m f w : heap_ok f w -> msg_ok m = true ->
  exists i w', allocate m w = (i, w') /\ f i = 0%nat /\ msgs w' !! i = Some m /\
    heap_ok (more (Some i) f) w' /\ does w w' [].
Proof.
  intros [A F G] Hm. do 2 eexists. split; [done|].
  assert (msgs w !! next_msg w = None) as En.
  { destruct (msgs w !! next_msg w) eqn:E; [|done].
    pose proof (F _ (ltac:(eauto) : is_Some (msgs w !! next_msg w))). lia. }
  assert (f (next_msg w) = 0%nat) as E0 by (rewrite A, En; done).
  split; [done|]. split; [cbn; by rewrite lookup_insert_eq|]. split; [split|].
  - intros j. specialize (A j). unfold more. cbn. destruct (decide (Some (next_msg w) = Some j)) as [[= <-]|].
    + rewrite lookup_insert_eq, E0. done.
    + rewrite lookup_insert_ne by congruence. rewrite A. case_match; lia.
  - intros j Hj. cbn in *. rewrite lookup_insert_is_Some in Hj. destruct Hj as [<-|[_ Hj]]; [lia|].
    apply F in Hj. lia.
  - intros j m' Hj. cbn in Hj. apply lookup_insert_Some in Hj as [[_ <-]|[_ Hj]]; [done|]. eauto.
  - split; cbn; [by rewrite app_nil_r|done|lia|].
    intros j m' Hj Hlt. apply lookup_insert_Some in Hj as [[<- _]|[_ Hj]]; [lia|done].
Qed.

Lemma heap_ok_record a f w : heap_ok f w -> heap_ok f (record_action a w).
Proof. intros [A F G]. by split. Qed.

Lemma does_record a w w1 out : does w w1 out -> does w (record_action a w1) (out ++ [a]).
Proof. intros [A C N S]. split; cbn; [by rewrite A, app_assoc|done|lia|done]. Qed.

Lemma send_ok tr i host port f w : heap_ok f w -> (0 < f i)%nat ->
  exists r w', cb_send_message tr (Some i) host port w = Done (r, w') /\ heap_ok f w' /\
    does w w' [Send tr i host port r].
Proof.
  intros H Hi. destruct (heap_ok_live _ _ _ H Hi) as [m E]. unfold cb_send_message. cbn. rewrite E. cbn.
  do 2 eexists. split; [done|]. destruct H as [A F G]. split; [done|]. split; cbn; [done|done|lia|done].
Qed.

Lemma inform_ok type t p f w :
  heap_ok f w -> (forall i, p = Some i -> (0 < f i)%nat) ->
  exists w', message_callback type t p w = Done w' /\ heap_ok f w' /\
    does w w' [Inform type (transactionid t) p].
Proof.
  intros H Hp. unfold message_callback.
  assert (alive p w = true) as ->.
  { destruct p as [i|]; [|done]. cbn. destruct (heap_ok_live _ _ i H) as [m ->]; [|done]. by apply Hp. }
  eexists. split; [done|]. split; [by apply heap_ok_record|]. exact (does_record _ _ _ _ (does_nil w)).
Qed.

(** ** Copies and tests *)

Lemma find_param_ok params name :
  named params = true -> returns (find_param params name) (fun _ => True).
Proof.
  unfold named. induction params as [|p params IH]; [done|]. cbn. rewrite andb_true_iff. intros [Hp Hl].
  destruct (gname p); [|done]. cbn. case_match; [done|]. by apply IH.
Qed.

Lemma get_byname_ok params name :
  named params = true -> returns (osip_uri_param_get_byname params name) (fun _ => True).
Proof. intros H. unfold osip_uri_param_get_byname. case_match; [done|]. by apply find_param_ok. Qed.

Lemma param_value_ok params name :
  named params = true -> returns (param_value params name) (fun _ => True).
Proof.
  intros H. unfold param_value. eapply returns_bind; [by apply get_byname_ok|]. done.
Qed.

(** [asks] runs the look-up of a parameter. *)
Ltac asks lem := eapply returns_bind; [by apply lem|intros ? _].

Lemma route_uri_ok r u : from_ok r = true -> f_url r = Some u -> named (url_params u) = true.
Proof.
  unfold from_ok, uri_ok. intros H E. rewrite E in H. rewrite !andb_true_iff in H. tauto.
Qed.

Lemma request_destination_ok m :
  msg_ok m = true -> is_Some (req_uri m) -> returns (request_destination m) (fun _ => True).
Proof.
  intros Hm [u Hu]. apply msg_ok_good in Hm. unfold request_destination, osip_message_get_route.
  eapply returns_bind with (P := fun _ => True).
  - destruct (routes m) as [|r l] eqn:Er; [done|]. destruct (f_url r) as [v|] eqn:Ev; [|done].
    eapply returns_bind; [apply get_byname_ok|done]. eapply route_uri_ok; [|done].
    eapply mg_routes; [done|]. rewrite Er. left.
  - intros [v|] _; [done|]. rewrite Hu. cbn.
    assert (named (url_params u) = true) as Hn.
    { pose proof (mg_uri _ Hm _ Hu) as H. unfold uri_ok in H. rewrite andb_true_iff in H. tauto. }
    do 3 (asks param_value_ok). repeat case_match; done.
Qed.

Lemma response_destination_ok via :
  named (via_params via) = true -> returns (response_destination via) (fun _ => True).
Proof.
  intros H. unfold response_destination. do 2 (asks get_byname_ok). asks param_value_ok. done.
Qed.

Lemma by_method_ok {A} (cases : list (string * A)) default m :
  msg_ok m = true -> returns (by_method cases default m) (fun a => a = default \/ a ∈ map snd cases).
Proof.
  intros Hm. apply msg_ok_good in Hm. induction cases as [|[method a] cases IH]; cbn; [auto|].
  eapply returns_bind with (P := fun _ => True).
  - unfold MSG_IS. destruct (MSG_IS_REQUEST m) eqn:E; [|done].
    destruct (mg_request _ Hm E) as [[s ->] _]. done.
  - intros [] _; cbn; [right; left|]. eapply returns_mono; [done|]. intros b [->|]; [auto|]. right. by right.
Qed.

Lemma osip_list_clone_all {A} (clone : A -> ret A) (P : A -> bool) l :
  (forall a b, clone a = Ok b -> P b = true) ->
  forall l', osip_list_clone clone l = Ok l' -> forallb P l' = true.
Proof.
  intros H. induction l as [|a l IH]; cbn; intros l'; [by intros [= <-]|].
  destruct (clone a) as [b|] eqn:Eb; [|done].
  destruct (osip_list_clone clone l) as [l2|] eqn:El; [|done]. intros [= <-]. cbn.
  rewrite (H _ _ Eb). by apply IH.
Qed.

Lemma clone_named l l' : osip_list_clone osip_uri_param_clone l = Ok l' -> named l' = true.
Proof.
  apply osip_list_clone_all. intros a b.
  unfold osip_uri_param_clone. destruct (gname a) eqn:E; cbn; [|done]. intros [= <-]. done.
Qed.

Lemma uri_clone_ok u u' : osip_uri_clone u = Ok u' -> uri_ok u' = true.
Proof.
  destruct u as [u|]; [|done]. unfold osip_uri_clone. case_match; [done|].
  destruct (osip_list_clone _ (url_params u)) eqn:E1; [|done].
  destruct (osip_list_clone _ (url_headers u)) eqn:E2; [|done]. intros [= <-].
  unfold uri_ok. apply andb_true_iff. split; by eapply clone_named.
Qed.

Lemma from_clone_ok f f' : osip_from_clone f = Ok f' -> from_ok f' = true.
Proof.
  destruct f as [f|]; [|done]. unfold osip_from_clone, from_ok.
  destruct (f_url f) as [u|].
  - destruct (osip_uri_clone (Some u)) as [u'|] eqn:Eu; [|done].
    destruct (osip_list_clone _ (gen_params f)) eqn:E1; [|done]. intros [= <-].
    apply andb_true_iff. split; [by eapply clone_named|by eapply uri_clone_ok].
  - destruct (osip_list_clone _ (gen_params f)) eqn:E1; [|done]. intros [= <-].
    apply andb_true_iff. split; [by eapply clone_named|done].
Qed.

Lemma via_clone_ok v v' : osip_via_clone v = Ok v' ->
  named (via_params v') = true /\ is_Some (v_protocol v') /\
  v_protocol v' = v ≫= v_protocol /\ v_host v' = v ≫= v_host.
Proof.
  destruct v as [v|]; [|done]. unfold osip_via_clone.
  destruct (v_version v); [|done]. destruct (v_protocol v) eqn:Ep; [|done].
  destruct (v_host v) eqn:Eh; [|done]. cbn.
  destruct (osip_list_clone _ (via_params v)) eqn:E1; [|done]. intros [= <-].
  split; [by eapply clone_named|]. cbn. rewrite Ep, Eh. eauto.
Qed.

Lemma cseq_clone_ok c c' : osip_cseq_clone c = Ok c' -> negb (is_null (cs_method c')) = true.
Proof.
  destruct c as [c|]; [|done]. unfold osip_cseq_clone.
  destruct (cs_method c) eqn:E, (cs_number c); cbn; [|done..]. by intros [= <-].
Qed.
