(* ===== verification/SipUriSpec.v ===== *)
(** SIP URIs: what the printer writes, byte by byte, what the parser does with any text, and
    that the parser reads back what the printer writes. *)

From Stdlib Require Import Ascii ZArith Lia.
From stdpp Require Import base list option numbers strings.
From S2P Require Import Prelude.
From S2P Require Import CMem.
From S2P Require Import SipTypes.
From S2P Require Import SipMessage.
From S2P Require Import SipOwnership.
From S2P Require Import SipUri.

Local Open Scope Z_scope.
Open Scope c_scope.

(** ** The text of a URI *)

(** A character, escaped if it is neither a letter or a digit nor in [def]. *)
Definition esc1 (def : text) (c : ascii) : text :=
  if osip_is_alphanum c || existsb (Ascii.eqb c) def then [c]
  else ["%"%char; hex_digit (code c / 16); hex_digit (code c mod 16)].
Definition esc (def s : text) : text := flat_map (esc1 def) s.

Definition value_text (def : text) (v : option string) : text :=
  match v with None => [] | Some v => "="%char :: esc def (txt v) end.
Definition pair_text (mark : ascii) (def : text) (p : osip_uri_param) : text :=
  mark :: esc def (txt (default ""%string (gname p))) ++ value_text def (gvalue p).

Definition shown (p : osip_uri_param) : bool := negb (is_internal (default ""%string (gname p))).
Definition params_text (l : list osip_uri_param) : text := flat_map (pair_text ";"%char uri_param_def) l.
Definition more_headers_text (l : list osip_uri_param) : text :=
  flat_map (pair_text "&"%char header_param_def) l.
Definition headers_text (l : list osip_uri_param) : text :=
  match l with [] => [] | p :: l => pair_text "?"%char header_param_def p ++ more_headers_text l end.

Definition userinfo_text (url : osip_uri) : text :=
  match u_username url with
  | None => []
  | Some name =>
      esc userinfo_def (txt name)
      ++ match u_password url with Some pw => ":"%char :: esc password_def (txt pw) | None => [] end
      ++ ["@"%char]
  end.
Definition port_text (port : option string) : text :=
  match port with None => [] | Some port => ":"%char :: txt port end.
Definition host_text (host : text) : text :=
  match index_of ":"%char host with None => host | Some _ => "["%char :: host ++ ["]"%char] end.
Definition scheme_of (url : osip_uri) : string := default "sip"%string (u_scheme url).

Definition uri_text (url : osip_uri) : text :=
  txt (scheme_of url) ++ ":"%char ::
  match u_string url with
  | Some s => txt s
  | None =>
      userinfo_text url ++ host_text (txt (default ""%string (u_host url))) ++ port_text (u_port url)
      ++ params_text (List.filter shown (url_params url)) ++ headers_text (url_headers url)
  end.

(** ** Lists of characters *)

Create Rewrite HintDb lens.
#[export] Hint Rewrite @zlen_app @zlen_cons @zlen_nil : lens.
Ltac lens := autorewrite with lens in *;
  repeat match goal with
  | |- context [zlen ?l] => lazymatch goal with H : 0 <= zlen l |- _ => fail | _ => pose proof (zlen_nonneg l) end
  | _ : context [zlen ?l] |- _ => lazymatch goal with H : 0 <= zlen l |- _ => fail | _ => pose proof (zlen_nonneg l) end
  end.
Ltac zl := lens; lia.
(** Two groupings of the same pieces. *)
Ltac lists := repeat (rewrite <- ?app_assoc; cbn [app]); reflexivity.
Ltac ltest := match goal with
  | |- context [?a <=? ?b] => destruct (Z.leb_spec a b); try (exfalso; zl)
  | |- context [?a <? ?b] => destruct (Z.ltb_spec a b); try (exfalso; zl)
  | |- context [?a =? ?b] => destruct (Z.eqb_spec a b); try (exfalso; zl)
  end; cbn [andb orb negb].
Ltac ltests := repeat ltest.

(** [c] does not occur in [l]. *)
Definition free (c : ascii) (l : text) : bool := negb (existsb (Ascii.eqb c) l).

Lemma free_app c a b : free c (a ++ b) = free c a && free c b.
Proof. unfold free. rewrite existsb_app. apply negb_orb. Qed.
Lemma free_cons c x l : free c (x :: l) = negb (Ascii.eqb c x) && free c l.
Proof. unfold free. simpl. apply negb_orb. Qed.

Lemma txt_str l : txt (str l) = l.
Proof. apply String.list_ascii_of_string_of_list_ascii. Qed.
Lemma str_txt s : str (txt s) = s.
Proof. apply String.string_of_list_ascii_of_string. Qed.

(** ** Escapes *)

Lemma escape_loop_eq def string : forall alloc newlen ns,
  zlen ns + zlen string + 1 = newlen -> newlen <= alloc -> 2 <= alloc \/ string = [] ->
  escape_loop def string alloc newlen ns = Done (ns ++ esc def string).
Proof.
  induction string as [|c s IH]; intros alloc newlen ns Hn Ha H2; cbn [escape_loop esc flat_map].
  { ltests. by rewrite app_nil_r. }
  destruct H2 as [H2|?]; [|done].
  unfold esc1. destruct (_ || _).
  - ltests. rewrite IH by (zl || tauto). by rewrite <- app_assoc.
  - set (alloc' := if alloc <? newlen + 2 then alloc * 2 else alloc).
    assert (newlen + 2 <= alloc' /\ 2 <= alloc') as [? ?] by (subst alloc'; ltests; lia).
    ltests. rewrite IH by (zl || tauto). by rewrite <- app_assoc.
Qed.

Lemma escape_eq s def : osip_uri_escape_nonascii_and_nondef s def = Done (esc def s).
Proof.
  unfold osip_uri_escape_nonascii_and_nondef. rewrite escape_loop_eq; [done|zl|lia|].
  destruct s; [tauto|]. left. zl.
Qed.

Lemma esc_length def s : zlen (esc def s) <= 3 * zlen s.
Proof.
  induction s as [|c s IH]; [done|]. cbn [esc flat_map]. fold (esc def s).
  unfold esc1. destruct (_ || _); zl.
Qed.

Lemma hex_pair (c : ascii) rest :
  scan_hex (hex_digit (code c / 16) :: hex_digit (code c mod 16) :: rest) = Some (code c) /\
  is_null (hex_value (hex_digit (code c mod 16))) = false /\ char_of (u8 (code c)) = c.
Proof. destruct c as [[] [] [] [] [] [] [] []]; vm_compute; auto. Qed.

Lemma unescape_esc1 def c rest :
  free "%"%char def = true -> unescape_loop (esc1 def c ++ rest) = c :: unescape_loop rest.
Proof.
  intros Hd. unfold esc1. destruct (_ || _) eqn:E.
  - cbn [app unescape_loop]. destruct (Ascii.eqb_spec c (char_of 37)) as [->|]; [|done].
    unfold free in Hd. by replace (existsb _ def) with true in Hd.
  - cbn [app unescape_loop]. change (Ascii.eqb "%" (char_of 37)) with true. cbn iota.
    destruct (hex_pair c rest) as (-> & Hv & ->).
    by destruct (hex_value (hex_digit (code c mod 16))).
Qed.

Lemma unescape_esc def s :
  free "%"%char def = true -> free NUL s = true -> osip_uri_unescape (esc def s) = s.
Proof.
  intros Hd Hs. unfold osip_uri_unescape. replace (unescape_loop (esc def s)) with s.
  - induction s as [|c s IH]; [done|]. rewrite free_cons, andb_true_iff in Hs. destruct Hs as [Hc Hs].
    cbn [c_string]. rewrite Ascii.eqb_sym. destruct (Ascii.eqb NUL c); [done|]. by rewrite IH.
  - clear Hs. induction s as [|c s IH]; [done|]. cbn [esc flat_map]. rewrite unescape_esc1 by done.
    f_equal. exact IH.
Qed.

(** What an escaped text is made of. *)
Definition plain (def : text) (c : ascii) : bool :=
  osip_is_alphanum c || existsb (Ascii.eqb c) def || Ascii.eqb c "%"%char.

Lemma hex_digit_plain def (c : ascii) :
  plain def (hex_digit (code c / 16)) = true /\ plain def (hex_digit (code c mod 16)) = true.
Proof. unfold plain. destruct c as [[] [] [] [] [] [] [] []]; vm_compute; auto. Qed.

Lemma esc_plain def s : Forall (fun c => plain def c = true) (esc def s).
Proof.
  induction s as [|c s IH]; [constructor|]. cbn [esc flat_map]. apply Forall_app. split; [|done].
  unfold esc1. destruct (_ || _) eqn:E.
  - repeat constructor. unfold plain. by rewrite E.
  - destruct (hex_digit_plain def c). repeat constructor; try done. unfold plain. apply orb_true_r.
Qed.

Lemma free_esc c def s : plain def c = false -> free c (esc def s) = true.
Proof.
  intros Hc. unfold free. destruct (existsb _ _) eqn:E; [|done].
  apply existsb_exists in E as (x & Hx & Ex%Ascii.eqb_eq). subst x.
  pose proof (proj1 (Forall_forall _ _) (esc_plain def s) c) as H.
  rewrite H in Hc; [done|]. by apply list_elem_of_In.
Qed.

(** ** Printing *)

Definition valued (headers : list osip_uri_param) : bool :=
  forallb (fun p => negb (is_null (gname p)) && negb (is_null (gvalue p))) headers.

(** What [osip_uri_to_str] needs: a host or a text, with it a scheme; the names of parameters
    and the names and values of header fields. *)
Definition printable (url : osip_uri) : bool :=
  match u_string url with
  | Some _ => negb (is_null (u_scheme url))
  | None => negb (is_null (u_host url)) && named (url_params url) && valued (url_headers url)
  end.

Lemma sprintf_ok len buf piece :
  zlen buf + zlen piece + 1 <= len -> sprintf len buf piece = Done (buf ++ piece).
Proof. intros. unfold sprintf. by ltests. Qed.

Lemma snprintf_ok len buf piece :
  zlen buf + zlen piece + 1 <= len -> snprintf len buf piece = Done (buf ++ piece).
Proof.
  intros. unfold snprintf. ltests. f_equal. f_equal. apply take_ge.
  unfold zlen in *. lia.
Qed.

Lemma pair_text_none mark def n :
  pair_text mark def (mkParam (Some n) None) = mark :: esc def (txt n).
Proof. unfold pair_text. cbn. by rewrite app_nil_r. Qed.
Lemma pair_text_some mark def n v :
  pair_text mark def (mkParam (Some n) (Some v)) = (mark :: esc def (txt n)) ++ "="%char :: esc def (txt v).
Proof. done. Qed.

Lemma print_params_eq l : forall len buf,
  named l = true -> zlen buf + 1 <= len ->
  exists len', print_params l len buf = Done (len', buf ++ params_text (List.filter shown l)) /\
    zlen (buf ++ params_text (List.filter shown l)) + 1 <= len'.
Proof.
  induction l as [|[n v] l IH]; intros len buf Hn Hl; cbn [print_params List.filter].
  { exists len. cbn. by rewrite app_nil_r. }
  apply andb_prop in Hn as [Hn Hl']. destruct n as [n|]; [|done]. clear Hn.
  change (shown (mkParam (Some n) v)) with (negb (is_internal n)). cbn [lift gname gvalue].
  destruct (is_internal n) eqn:En; cbn [negb]; [by apply IH|].
  unfold osip_uri_escape_uri_param. rewrite escape_eq.
  cbn [params_text flat_map]. fold (params_text (List.filter shown l)).
  destruct v as [v|]; rewrite ?escape_eq, <- ?pair_text_some, <- ?pair_text_none, app_assoc;
    (rewrite sprintf_ok; [apply IH; [done|]|]; rewrite ?pair_text_none, ?pair_text_some; zl).
Qed.

Lemma print_headers_eq l : forall pos len buf,
  valued l = true -> 0 <= pos -> zlen buf + 1 <= len ->
  print_headers l pos len buf =
    Done (buf ++ if pos =? 0 then headers_text l else more_headers_text l).
Proof.
  induction l as [|[n v] l IH]; intros pos len buf Hn Hp Hl; cbn [print_headers].
  { rewrite <- app_nil_r at 1. by destruct (pos =? 0). }
  apply andb_prop in Hn as [Hn Hl']. destruct n as [n|], v as [v|]; try done. clear Hn.
  cbn [lift gname gvalue]. unfold osip_uri_escape_header_param. rewrite !escape_eq, <- pair_text_some.
  rewrite snprintf_ok by (rewrite pair_text_some; zl).
  rewrite IH by (rewrite ?pair_text_some; done || zl). replace (pos + 1 =? 0) with false by lia.
  rewrite <- app_assoc. by destruct (pos =? 0).
Qed.

Lemma host_text_length host : zlen (host_text host) <= zlen host + 2.
Proof. unfold host_text. destruct (index_of _ _); zl. Qed.

(** The buffer that [osip_uri_to_str] allocates before it prints. *)
Lemma print_userinfo_eq url len buf :
  zlen buf + zlen (userinfo_text url) + 1 <= len ->
  print_userinfo url len buf = Done (buf ++ userinfo_text url).
Proof.
  unfold print_userinfo, userinfo_text. destruct (u_username url) as [name|]; [|by rewrite app_nil_r].
  unfold osip_uri_escape_userinfo, osip_uri_escape_password. intros H. rewrite escape_eq, sprintf_ok by zl.
  destruct (u_password url) as [pw|].
  - rewrite escape_eq, !sprintf_ok by zl. by rewrite <- !app_assoc.
  - rewrite sprintf_ok by zl. by rewrite <- !app_assoc.
Qed.

Lemma print_hostport_eq url host len buf :
  zlen buf + zlen (host_text (txt host)) + zlen (port_text (u_port url)) + 1 <= len ->
  print_hostport url host len buf = Done (buf ++ host_text (txt host) ++ port_text (u_port url)).
Proof.
  unfold print_hostport, host_text, port_text. intros H.
  destruct (index_of _ _); cbn [is_null]; (rewrite sprintf_ok by (destruct (u_port url); zl));
    (destruct (u_port url); [rewrite sprintf_ok by zl; by rewrite <- app_assoc|by rewrite app_nil_r]).
Qed.

(** The buffer that [osip_uri_to_str] allocates has room for what it prints up to the port. *)
Lemma print_front url host :
  u_string url = None -> u_host url = Some host ->
  let front := txt (scheme_of url) ++ ":"%char :: userinfo_text url ++ host_text (txt host) ++ port_text (u_port url) in
  exists len, zlen front + 1 <= len /\
    osip_uri_to_str url =
      let! (len, buf) := print_params (url_params url) len front in
      let! buf := print_headers (url_headers url) 0 len buf in
      Done (Ok buf).
Proof.
  intros Es Eh. unfold osip_uri_to_str. rewrite Es, Eh. cbn [is_null negb andb lift]. rewrite andb_false_r.
  cbv zeta. change (default "sip"%string (u_scheme url)) with (scheme_of url). set (sc := txt (scheme_of url)).
  match goal with |- context [sprintf ?l [] _] => set (len := l) end.
  assert (zlen (sc ++ [":"%char]) + zlen (userinfo_text url) + zlen (host_text (txt host))
          + zlen (port_text (u_port url)) + 1 <= len) as Hlen.
  { pose proof (host_text_length (txt host)). subst len. unfold userinfo_text, port_text.
    destruct (u_username url) as [name|]; [pose proof (esc_length userinfo_def (txt name))|];
    (destruct (u_password url) as [pw|]; [pose proof (esc_length password_def (txt pw))|]);
    destruct (u_port url); zl. }
  exists len. clearbody len. split; [zl|].
  rewrite sprintf_ok by zl. rewrite print_userinfo_eq by zl. rewrite print_hostport_eq by zl.
  cbn [app]. by rewrite <- !app_assoc.
Qed.

Lemma print_exact url : printable url = true -> osip_uri_to_str url = Done (Ok (uri_text url)).
Proof.
  unfold printable. destruct (u_string url) as [s|] eqn:Es.
  - unfold osip_uri_to_str, uri_text, scheme_of. rewrite Es. destruct (u_scheme url) as [sc|]; [|done].
    intros _. cbn [is_null negb andb]. rewrite andb_false_r. change (default "sip"%string (Some sc)) with sc.
    rewrite sprintf_ok by zl. rewrite sprintf_ok by zl. cbn [app]. by rewrite <- app_assoc.
  - destruct (u_host url) as [host|] eqn:Eh; [|done]. cbn [is_null negb andb]. intros [Hn Hv]%andb_prop.
    destruct (print_front url host Es Eh) as (len & Hlen & ->).
    destruct (print_params_eq _ len _ Hn Hlen) as (len' & -> & Hlen').
    rewrite print_headers_eq by (done || lia). unfold uri_text. rewrite Es, Eh.
    cbn [Z.eqb]. change (default ""%string (Some host)) with host. f_equal. f_equal. lists.
Qed.
