(* ===== verification/SipUriParse.v ===== *)
(** SIP URIs: the parser returns on every text, and what it accepts can be printed. *)

From Stdlib Require Import Ascii ZArith Lia.
From stdpp Require Import base list option numbers strings.
From S2P Require Import Prelude.
From S2P Require Import CMem.
From S2P Require Import SipTypes.
From S2P Require Import SipMessage.
From S2P Require Import SipOwnership.
From S2P Require Import SipUri.
From S2P Require Import SipUriSpec.

Local Open Scope Z_scope.
Open Scope c_scope.

(** ** Access to the text *)

Lemma index_of_spec c l :
  match index_of c l with None => free c l = true | Some j => 0 <= j < zlen l /\ l !! Z.to_nat j = Some c end.
Proof.
  induction l as [|x l IH]; [done|]. cbn [index_of]. rewrite free_cons, Ascii.eqb_sym.
  destruct (Ascii.eqb_spec c x) as [->|]; [split; [zl|done]|].
  destruct (index_of c l) as [j|]; cbn; [|done]. destruct IH as [H E]. split; [zl|].
  by rewrite Z2Nat.inj_succ by lia.
Qed.

Lemma strchr_ok b i c :
  0 <= i <= zlen b ->
  returns (strchr b i c)
    (fun r => match r with None => True | Some j => i <= j < zlen b /\ b !! Z.to_nat j = Some c end).
Proof.
  intros H. unfold strchr. ltests. cbn. pose proof (index_of_spec c (drop (Z.to_nat i) b)) as S.
  destruct (index_of _ _) as [j|]; cbn; [|done]. destruct S as [S E].
  unfold zlen in *. rewrite length_drop in S. rewrite lookup_drop in E.
  replace (Z.to_nat (i + j)) with (Z.to_nat i + Z.to_nat j)%nat by lia. split; [lia|done].
Qed.

Lemma char_at_ok b i : 0 <= i <= zlen b -> char_at b i = Done (default NUL (b !! Z.to_nat i)).
Proof. intros. unfold char_at. by ltests. Qed.

Lemma strncpy_ok size b i n :
  0 <= n -> n + 1 <= size -> 0 <= i <= zlen b -> returns (osip_strncpy size b i n) (fun _ => True).
Proof. intros. unfold osip_strncpy. by ltests. Qed.

(** The index of the NUL is not one of a blank. *)
Lemma at_end b i : zlen b <= i -> is_blank (default NUL (b !! Z.to_nat i)) = false.
Proof. intros. by rewrite lookup_ge_None_2 by (unfold zlen in *; lia). Qed.

Lemma first_text_ok b fuel : forall i,
  0 <= i <= zlen b -> zlen b - i <= Z.of_nat fuel ->
  returns (first_text fuel b i)
    (fun p => i <= p <= zlen b /\
              forall j, i <= j < p -> is_blank (default NUL (b !! Z.to_nat j)) = true).
Proof.
  induction fuel as [|fuel IH]; intros i Hi Hf; cbn [first_text]; rewrite char_at_ok by done;
    destruct (is_blank _) eqn:E; try (cbn; split; intros; lia).
  - rewrite at_end in E by lia. done.
  - destruct (Z.eq_dec i (zlen b)) as [->|]; [by rewrite at_end in E|].
    eapply returns_mono; [apply IH; lia|]. intros p [Hp Hj]. split; [lia|].
    intros j Hj'. destruct (Z.eq_dec i j) as [->|]; [done|apply Hj; lia].
Qed.

Lemma last_text_ok b i pbeg fuel : forall pend,
  0 <= i <= pbeg -> i - 1 <= pend -> 0 <= pend <= zlen b -> pend - i < Z.of_nat fuel ->
  (forall j, i <= j < pbeg -> is_blank (default NUL (b !! Z.to_nat j)) = true) ->
  i <= pend ->
  returns (last_text fuel b pbeg pend)
    (fun r => match r with None => True | Some p => pbeg <= p <= pend end).
Proof.
  induction fuel as [|fuel IH]; intros pend Hi Hi' Hp Hf Hj Hip; [lia|].
  cbn [last_text]. rewrite char_at_ok by lia. destruct (is_blank _) eqn:E.
  - ltests; [done|]. eapply returns_mono; [apply IH; (lia || done)|].
    intros [p|]; [lia|done].
  - cbn. destruct (Z.lt_ge_cases pend pbeg) as [Hlt|]; [|lia]. by rewrite Hj in E by lia.
Qed.

Lemma clear_ok size b src len :
  0 <= src -> 0 < len -> src + len <= zlen b -> len + 1 <= size ->
  returns (let! pbeg := first_text (length b) b src in
           let! pend := last_text (length b) b pbeg (src + len - 1) in
           match pend with
           | None => if 1 <=? size then Done [] else Undef
           | Some pend => osip_strncpy size b pbeg (pend - pbeg + 1)
           end) (fun _ => True).
Proof.
  intros Hs Hl Hb Hz.
  eapply returns_bind; [apply first_text_ok; unfold zlen in *; lia|]. intros pbeg [Hp Hj].
  eapply returns_bind; [apply (last_text_ok b src); unfold zlen in *; (lia || done)|].
  intros [p|] H; [|by ltests]. apply strncpy_ok; lia.
Qed.

Lemma clrncpy_ok size b src len :
  0 <= src -> 0 <= len -> src + len <= zlen b -> len + 1 <= size ->
  returns (osip_clrncpy size b src len) (fun _ => True).
Proof.
  intros. unfold osip_clrncpy. destruct (Z.eqb_spec len 0); [by ltests|]. apply clear_ok; lia.
Qed.

Lemma clrspace_ok word : returns (osip_clrspace word) (fun _ => True).
Proof.
  destruct word as [|c w]; [done|]. unfold osip_clrspace. set (word := c :: w).
  pose proof (clear_ok (zlen word + 1) word 0 (zlen word) ltac:(lia) ltac:(subst word; zl) ltac:(lia) ltac:(lia)) as H.
  rewrite Z.add_0_l in H. revert H.
  destruct (first_text _ _ _) as [pbeg| |]; try done. destruct (last_text _ _ _ _) as [[p|]| |]; done.
Qed.

(** ** The invariant of the structure

    [osip_uri_to_str] can print it once the host is there. *)

Definition filling (url : osip_uri) : Prop :=
  named (url_params url) = true /\ valued (url_headers url) = true /\ u_string url = None.

Definition parse_code (i : Z) : Prop := i = OSIP_SUCCESS \/ i = OSIP_SYNTAXERROR.

(** What a step leaves: an index from [lo] to [hi], or an error. *)
Definition stepped (lo hi : Z) (r : ret Z * osip_uri) : Prop :=
  filling (snd r) /\
  match fst r with Ok i => lo <= i <= hi | Err i => i = OSIP_SYNTAXERROR end.

Lemma next_separator_ok b ch c d :
  0 <= ch <= zlen b ->
  returns (next_separator b ch c d)
    (fun r => match r with None => True | Some j => ch <= j < zlen b /\ b !! Z.to_nat j = Some c end).
Proof.
  intros H. unfold next_separator. eapply returns_bind; [by apply strchr_ok|].
  intros [ind|] Hi; [|done]. eapply returns_bind.
  - instantiate (1 := fun _ => True). destruct (Ascii.eqb d NUL); [done|].
    eapply returns_mono; [by apply strchr_ok|done].
  - intros [tmp|] _; [|done]. by destruct (ind <? tmp).
Qed.

Lemma param_add_ok l pname pvalue :
  returns (osip_uri_param_add l pname pvalue)
    (fun l' => (named l = true -> named l' = true) /\
               (pvalue <> None -> valued l = true -> valued l' = true)).
Proof.
  unfold osip_uri_param_add, osip_uri_param_set.
  eapply returns_bind with (P := fun p => is_null (gname p) = false /\ is_null (gvalue p) = is_null pvalue).
  - eapply returns_bind; [apply clrspace_ok|]. intros n _. destruct pvalue as [v|]; [|done].
    eapply returns_bind; [apply clrspace_ok|]. done.
  - intros p [Hn Hv]. cbn. unfold named, valued. rewrite !forallb_app. cbn [forallb].
    rewrite Hn, Hv. split; [by intros ->|]. intros Hp ->. by destruct pvalue.
Qed.

Ltac binds lem := eapply returns_bind; [eapply lem|cbv beta].
Ltac copies := binds strncpy_ok; [lia..|intros ? _].

Lemma parse_param_ok url b params equal comma :
  0 <= params -> params < comma <= zlen b ->
  match equal with None => True | Some e => params < e < zlen b end ->
  filling url ->
  returns (parse_param url b params equal comma) (fun '(i, url) => parse_code i /\ filling url).
Proof.
  intros H0 Hc He Hu. unfold parse_param, parse_code. pose proof Hu as (Hn & Hv & Hs).
  eapply returns_bind with
    (P := fun r => match r with Err i => i = OSIP_SYNTAXERROR | Ok (e, _) => params < e <= zlen b end).
  - destruct equal as [e|]; [|cbn; lia]. ltests; [done|]. copies. cbn. lia.
  - intros [[e v]|i]; [|intros ->; split; [by right|done]]. intros He'. ltests; [split; [by right|done]|].
    copies. binds param_add_ok. intros l [Hl _]. cbn. split; [by left|]. split; [by apply Hl|done].
Qed.

Lemma params_loop_ok b fuel : forall url params,
  0 <= params < zlen b -> zlen b - params <= Z.of_nat fuel -> filling url ->
  returns (params_loop fuel url b params) (fun '(i, url) => parse_code i /\ filling url).
Proof.
  induction fuel as [|fuel IH]; intros url params Hp Hf Hu; [lia|]. cbn [params_loop].
  binds next_separator_ok; [lia|]. intros equal He. binds strchr_ok; [lia|].
  intros [comma|] Hc.
  - eapply returns_bind; [apply parse_param_ok; (lia || done || destruct equal; done || lia)|].
    intros [i u'] [Hi Hu']. destruct (Z.eqb_spec i OSIP_SUCCESS); cbn [negb]; [|done].
    apply IH; (lia || done).
  - apply parse_param_ok; (lia || done || destruct equal; done || lia).
Qed.

Lemma headers_loop_ok b fuel : forall url headers,
  0 <= headers < zlen b -> zlen b - headers <= Z.of_nat fuel ->
  b !! Z.to_nat headers <> Some "="%char -> filling url ->
  returns (headers_loop fuel url b headers) (fun '(i, url) => parse_code i /\ filling url).
Proof.
  induction fuel as [|fuel IH]; intros url headers Hp Hf Hne Hu; [lia|]. cbn [headers_loop].
  binds strchr_ok; [lia|]. intros equal He. binds strchr_ok; [lia|]. intros _and Ha.
  destruct equal as [equal|]; [|split; [by right|done]]. destruct He as [He Ee].
  assert (equal <> headers) by congruence.
  copies. pose proof Hu as (Hn & Hv & Hs). destruct _and as [_and|]; ltests; try by split; [right|].
  - copies. binds param_add_ok. intros l [_ Hl]. apply IH; try lia.
    + destruct Ha as [_ ->]. done.
    + split; [done|]. split; [|done]. by apply Hl.
  - copies. binds param_add_ok. intros l [_ Hl]. cbn. split; [by left|].
    split; [done|]. split; [|done]. by apply Hl.
Qed.

(** ** The steps of the parser *)

(** The character before the host. *)
Definition before_host (b : text) (host : Z) : Prop :=
  0 <= host < zlen b /\ (b !! Z.to_nat host = Some ":"%char \/ b !! Z.to_nat host = Some "@"%char).

Lemma char_found b i c : 0 <= i <= zlen b -> c <> NUL -> default NUL (b !! Z.to_nat i) = c ->
  b !! Z.to_nat i = Some c /\ i < zlen b.
Proof.
  intros Hi Hc E. destruct (b !! Z.to_nat i) as [x|] eqn:L; cbn in E; [|congruence].
  apply lookup_lt_Some in L. subst. split; [done|unfold zlen; lia].
Qed.

Lemma parse_userinfo_ok url b username :
  0 <= username < zlen b -> b !! Z.to_nat username = Some ":"%char -> filling url ->
  returns (parse_userinfo url b username)
    (fun r => filling (snd r) /\
       match fst r with Ok host => before_host b host | Err i => i = OSIP_SYNTAXERROR end).
Proof.
  intros Hu Eu Hf. unfold parse_userinfo. binds strchr_ok; [lia|]. intros [host|] Hh.
  2:{ split; [done|]. by split; [|left]. }
  destruct Hh as [Hh Eh]. rewrite char_at_ok by lia.
  destruct (Ascii.eqb_spec (default NUL (b !! Z.to_nat (username + 1))) "@"%char) as [E|_].
  { apply char_found in E as [E ?]; [|lia|done]. split; [done|]. split; [lia|by right]. }
  assert (before_host b host) as Hb by (split; [lia|by right]).
  binds next_separator_ok; [lia|]. intros password Hp.
  eapply returns_bind with
    (P := fun r => filling (snd r) /\ match fst r with Ok p => username < p < zlen b \/ p = host | Err i => i = OSIP_SYNTAXERROR end).
  - destruct password as [p|]; [|by split; [|right]]. ltests; [done|]. copies.
    split; [done|]. left. lia.
  - intros [[p|i] u'] [Hf' H]; cbn [fst snd] in *; [|done]. ltests; [done|]. copies. done.
Qed.

Lemma parse_lists_ok url b host :
  before_host b host -> filling url -> returns (parse_lists url b host) (stepped (host + 1) (zlen b)).
Proof.
  intros [Hh Eh] Hf. unfold parse_lists. binds strchr_ok; [lia|]. intros headers Hd.
  eapply returns_bind with (P := fun '(h, u) => host < h <= zlen b /\ filling u).
  - destruct headers as [h|]; [|cbn; split; [lia|done]]. destruct Hd as [Hd Ed].
    assert (h <> host) by (intros ->; destruct Eh; congruence).
    eapply returns_bind; [apply headers_loop_ok; [lia|unfold zlen in *; lia|by rewrite Ed|done]|].
    intros [i u] [_ Hu]. split; [lia|done].
  - intros [h u] [Hh' Hu]. binds strchr_ok; [lia|]. intros [p|] Hp; [|split; cbn; [done|lia]].
    destruct Hp as [Hp Ep]. assert (p <> host) by (intros ->; destruct Eh; congruence).
    ltests; [done|].
    assert (osip_strncpy (h - p + 1) b p (h - p) = Done (take (Z.to_nat (h - p)) (drop (Z.to_nat p) b))) as ->.
    { unfold osip_strncpy. by ltests. }
    eapply returns_bind; [apply params_loop_ok; [|unfold zlen; lia|done]|].
    + unfold zlen in *. rewrite length_take, length_drop. lia.
    + intros [i u'] [_ Hu']. split; cbn; [done|lia].
Qed.

Lemma search_down_ok b host stop fuel : forall i,
  0 <= host <= i -> i <= zlen b -> i - host <= Z.of_nat fuel ->
  returns (search_down fuel b host i stop) (fun p => host <= p <= i).
Proof.
  induction fuel as [|fuel IH]; intros i Hi Hb Hf; cbn [search_down]; ltests; try (cbn; lia).
  rewrite char_at_ok by lia. destruct (existsb _ _); [cbn; lia|].
  eapply returns_mono; [apply IH; lia|]. cbn. lia.
Qed.

Lemma search_up_ok b last c fuel : forall i,
  0 <= i <= last -> last <= zlen b -> last - i <= Z.of_nat fuel ->
  returns (search_up fuel b i last c) (fun p => i <= p <= last).
Proof.
  induction fuel as [|fuel IH]; intros i Hi Hb Hf; cbn [search_up]; ltests; try (cbn; lia).
  rewrite char_at_ok by lia. destruct (Ascii.eqb _ _); [cbn; lia|].
  eapply returns_mono; [apply IH; lia|]. cbn. lia.
Qed.

Lemma parse_port_ok url b host params :
  0 <= host < params -> params <= zlen b -> filling url ->
  returns (parse_port url b host params) (stepped (host + 1) (zlen b)).
Proof.
  intros Hh Hp Hf. unfold parse_port. binds search_down_ok; [lia|lia|unfold zlen in *; lia|].
  intros port Ho. rewrite char_at_ok by lia. destruct (Ascii.eqb _ _); [|split; cbn; [done|lia]].
  destruct (Z.eqb_spec host port); [split; cbn; [done|lia]|].
  destruct (Z.ltb_spec (params - port) 2); cbn [orb]; [done|]. ltests; [done|].
  binds clrncpy_ok; [lia..|]. intros s _. split; cbn; [done|lia].
Qed.

Lemma valued_named l : valued l = true -> named l = true.
Proof.
  induction l as [|p l IH]; [done|]. cbn [valued named forallb]. intros [[H _]%andb_prop Hl]%andb_prop.
  rewrite H. by apply IH.
Qed.

(** What the transaction layer assumes of a URI, and the printer. *)
Definition complete (url : osip_uri) : Prop := printable url = true /\ uri_ok url = true.

Lemma parse_host_ok url b host port :
  0 <= host < port -> port <= zlen b -> filling url ->
  returns (parse_host url b host port)
    (fun '(i, url) => parse_code i /\ (i = OSIP_SUCCESS -> complete url)).
Proof.
  intros Hh Hp (Hn & Hv & Hs). unfold parse_host. binds search_down_ok; [lia|lia|unfold zlen in *; lia|].
  intros tmp Ht. rewrite char_at_ok by lia.
  eapply returns_bind with (P := fun '(h, p, _) => 0 <= h /\ p <= zlen b).
  - destruct (Ascii.eqb _ _); [|cbn; lia].
    binds search_up_ok; [lia|lia|unfold zlen in *; lia|]. intros h Hh'. cbn. lia.
  - intros [[h p] wrong] [? ?]. destruct (wrong || (p - h <? 2)) eqn:E; [by split; [right|]|].
    apply orb_false_iff in E as [_ E%Z.ltb_ge]. binds clrncpy_ok; [lia..|]. intros s _.
    split; [by left|]. intros _. unfold complete, printable, uri_ok, set_host.
    cbn [u_string u_host url_params url_headers is_null negb andb].
    by rewrite Hs, Hn, Hv, (valued_named _ Hv).
Qed.

Lemma uri_parse_ok b :
  returns (osip_uri_parse osip_uri_init b) (fun '(i, url) =>
    (parse_code i \/ i = OSIP_BADPARAMETER /\ b = []) /\ (i = OSIP_SUCCESS -> complete url)).
Proof.
  destruct b as [|c b']; [split; [by right|done]|]. unfold osip_uri_parse. set (b := c :: b').
  assert (forall u, returns (Done (OSIP_SYNTAXERROR, u)) (fun '(i, url) =>
    (parse_code i \/ i = OSIP_BADPARAMETER /\ b = []) /\ (i = OSIP_SUCCESS -> complete url))) as Err.
  { intros u. split; [left; by right|done]. }
  binds strchr_ok; [zl|]. intros [tmp|] Ht; [|apply Err]. destruct Ht as [Ht Et].
  ltest; [apply Err|]. destruct (forallb _ _); cbn [negb]; [|apply Err].
  copies. binds strchr_ok; [zl|]. intros blank _. destruct blank; cbn [is_null negb]; [apply Err|].
  destruct (is_sip_scheme _); cbn [negb].
  2:{ ltests; [apply Err|]. copies. split; [left; by left|done]. }
  binds parse_userinfo_ok; [lia|done|done|]. intros [[host|i] u1] [F1 H1]; cbn [fst snd] in *; [|subst; apply Err].
  binds parse_lists_ok; [done|done|]. intros [[params|i] u2] [F2 H2]; cbn [fst snd] in *; [|subst; apply Err].
  destruct H1 as [H1 _].
  binds parse_port_ok; [lia|lia|done|]. intros [[port|i] u3] [F3 H3]; cbn [fst snd] in *; [|subst; apply Err].
  eapply returns_mono; [apply parse_host_ok; (lia || done)|]. intros [i u] [Hi Hp]. by split; [left|].
Qed.

(** C8: [osip_uri_parse] returns on every text: it reads and writes within the text and
    the pieces it allocates, its loops end, and it gives success or one of two errors; what
    it accepts, [osip_uri_to_str] prints, and is what the transactions assume of the URI of
    a message ([uri_ok], a part of [msg_ok]). *)
Theorem sip_uri_parse_safe b :
  exists i url, osip_uri_parse osip_uri_init b = Done (i, url) /\
    (i = OSIP_SUCCESS \/ i = OSIP_SYNTAXERROR \/ i = OSIP_BADPARAMETER /\ b = []) /\
    (i = OSIP_SUCCESS -> osip_uri_to_str url = Done (Ok (uri_text url)) /\ uri_ok url = true).
Proof.
  pose proof (uri_parse_ok b) as H. apply returns_done in H as ([i url] & E & Hi & Hp). exists i, url.
  split; [done|]. unfold parse_code in Hi. split; [tauto|].
  intros [? ?]%Hp. split; [by apply print_exact|done].
Qed.
