(* ===== verification/SipUriRoundTrip.v ===== *)
(** SIP URIs: the parser reads back what the printer writes. *)

From Stdlib Require Import Ascii ZArith Lia.
From stdpp Require Import base list option numbers strings.
From S2P Require Import Prelude.
From S2P Require Import CMem.
From S2P Require Import SipTypes.
From S2P Require Import SipMessage.
From S2P Require Import SipOwnership.
From S2P Require Import SipUri.
From S2P Require Import SipUriSpec.
From S2P Require Import SipUriParse.

Local Open Scope Z_scope.
Open Scope c_scope.

(** ** Well-formed URIs *)

Definition nonempty (l : text) : bool := 0 <? zlen l.
Definition lacks (cs l : text) : bool := forallb (fun c => free c l) cs.

(** No blanks around it. *)
Definition trimmed (l : text) : bool :=
  match l with
  | [] => true
  | c :: _ => negb (is_blank c) && negb (is_blank (List.last l NUL))
  end.

(** A piece that is written as it is, without the characters of [cs]; and one that is escaped. *)
Definition raw_ok (cs l : text) : bool := nonempty l && trimmed l && lacks (NUL :: cs) l.
Definition user_ok (s : string) : bool := nonempty (txt s) && free NUL (txt s).
Definition word_ok (s : string) : bool := trimmed (txt s) && free NUL (txt s).
Definition token_ok (s : string) : bool := nonempty (txt s) && word_ok s.

Definition opt_ok (f : string -> bool) (s : option string) : bool :=
  match s with None => true | Some s => f s end.
Definition some_ok (f : string -> bool) (s : option string) : bool :=
  match s with None => false | Some s => f s end.

Definition param_ok (p : osip_uri_param) : bool :=
  some_ok token_ok (gname p) && opt_ok token_ok (gvalue p).
(** The value of the last header field may be empty. *)
Definition header_ok (value_ok : string -> bool) (p : osip_uri_param) : bool :=
  some_ok word_ok (gname p) && some_ok value_ok (gvalue p).
Fixpoint headers_ok (l : list osip_uri_param) : bool :=
  match l with
  | [] => true
  | [p] => header_ok word_ok p
  | p :: l => header_ok token_ok p && headers_ok l
  end.

Definition userinfo_ok (url : osip_uri) : bool :=
  match u_username url with
  | None => is_null (u_password url)
  | Some name => user_ok name && opt_ok user_ok (u_password url)
  end.
Definition host_ok (s : string) : bool := raw_ok [";"; "?"; "@"; "["; "]"]%char (txt s).
Definition port_ok (s : string) : bool :=
  raw_ok [";"; "?"; "@"; ":"; "]"]%char (txt s) && (zlen (txt s) <=? 7).

Definition well_formed (url : osip_uri) : bool :=
  let scheme := txt (scheme_of url) in
  forallb osip_is_alpha scheme &&
  match u_string url with
  | None =>
      is_sip_scheme scheme && userinfo_ok url && some_ok host_ok (u_host url)
      && opt_ok port_ok (u_port url) && forallb param_ok (url_params url) && headers_ok (url_headers url)
  | Some s =>
      negb (is_null (u_scheme url)) && negb (is_sip_scheme scheme) && (2 <=? zlen scheme)
      && (2 <=? zlen (txt s)) && free NUL (txt s)
      && is_null (u_username url) && is_null (u_password url) && is_null (u_host url)
      && is_null (u_port url)
      && match url_params url, url_headers url with [], [] => true | _, _ => false end
  end.

(** What is printed of a URI: the default scheme is written out, and the parameters that
    are internal are left out. *)
Definition visible (url : osip_uri) : osip_uri :=
  mkUri (Some (scheme_of url)) (u_username url) (u_password url) (u_host url) (u_port url)
    (List.filter shown (url_params url)) (url_headers url) (u_string url).

(** ** Reading at a known place *)

Lemma lookup_mid {A} (p : list A) c q i : i = zlen p -> (p ++ c :: q) !! Z.to_nat i = Some c.
Proof. intros ->. unfold zlen. rewrite Nat2Z.id. by apply list_lookup_middle. Qed.

Lemma drop_mid {A} (p q : list A) i : i = zlen p -> drop (Z.to_nat i) (p ++ q) = q.
Proof. intros ->. unfold zlen. rewrite Nat2Z.id. apply drop_app_length. Qed.

Lemma char_at_mid p c q b i : b = p ++ c :: q -> i = zlen p -> char_at b i = Done c.
Proof. intros -> E. rewrite char_at_ok by zl. by rewrite lookup_mid. Qed.

Lemma index_of_free c a r : free c a = true -> index_of c (a ++ r) = Z.add (zlen a) <$> index_of c r.
Proof.
  induction a as [|x a IH]; intros Ha; cbn [app index_of].
  { rewrite zlen_nil. destruct (index_of c r); reflexivity. }
  rewrite free_cons in Ha. apply andb_prop in Ha as [Hx Ha]. rewrite Ascii.eqb_sym.
  destruct (Ascii.eqb c x); [done|]. rewrite IH by done. destruct (index_of c r); cbn; [|done].
  f_equal. zl.
Qed.

Lemma strchr_skip p a r c b i :
  b = p ++ a ++ r -> i = zlen p -> free c a = true ->
  strchr b i c = Done (Z.add (i + zlen a) <$> index_of c r).
Proof.
  intros -> E Ha. unfold strchr. ltests. rewrite drop_mid, index_of_free by done.
  destruct (index_of c r); cbn; [|done]. do 2 f_equal. lia.
Qed.

Lemma strchr_at p a r c b i j :
  b = p ++ a ++ c :: r -> i = zlen p -> free c a = true -> j = i + zlen a ->
  strchr b i c = Done (Some j).
Proof.
  intros Eb Ei Ha ->. rewrite (strchr_skip p a (c :: r)) by done. cbn. rewrite Ascii.eqb_refl. cbn.
  do 2 f_equal. lia.
Qed.

Lemma strchr_none p a c b i :
  b = p ++ a -> i = zlen p -> free c a = true -> strchr b i c = Done None.
Proof. intros Eb Ei Ha. by rewrite (strchr_skip p a []) by (by rewrite ?app_nil_r). Qed.

Lemma strncpy_at p s r size b i n :
  b = p ++ s ++ r -> i = zlen p -> n = zlen s -> n + 1 <= size -> osip_strncpy size b i n = Done s.
Proof.
  intros -> Ei En Hs. unfold osip_strncpy. ltests. rewrite drop_mid by done. f_equal.
  subst n. unfold zlen. rewrite Nat2Z.id. apply take_app_length.
Qed.

(** ** Blanks *)

Lemma last_mid (s : text) : s <> [] -> s = removelast s ++ [List.last s NUL].
Proof. apply app_removelast_last. Qed.

Lemma clear_at p s r size fuel b i j :
  b = p ++ s ++ r -> i = zlen p -> s <> [] -> trimmed s = true -> zlen s + 1 <= size ->
  j = i + zlen s - 1 ->
  first_text fuel b i = Done i /\ last_text fuel b i j = Done (Some j) /\
  osip_strncpy size b i (j - i + 1) = Done s.
Proof.
  intros -> -> Hs Ht Hz ->. destruct s as [|c s0] eqn:Es; [done|]. rewrite <- Es in *.
  assert (is_blank c = false /\ is_blank (List.last s NUL) = false) as [H1 H2].
  { rewrite Es in Ht. cbn [trimmed] in Ht. rewrite <- Es in Ht.
    apply andb_prop in Ht as [?%negb_true_iff ?%negb_true_iff]. done. }
  repeat split.
  - destruct fuel; cbn [first_text]; (rewrite (char_at_mid p c (s0 ++ r)) by (subst; done || lists));
      by rewrite H1.
  - assert (p ++ s ++ r = (p ++ removelast s) ++ List.last s NUL :: r) as E.
    { rewrite (last_mid s Hs) at 1. lists. }
    pose proof (f_equal zlen (last_mid s Hs)) as L.
    destruct fuel; cbn [last_text]; (rewrite (char_at_mid _ _ _ _ _ E) by zl); by rewrite H2.
  - apply (strncpy_at p s r); (done || zl).
Qed.

Lemma clrspace_id s : trimmed s = true -> osip_clrspace s = Done s.
Proof.
  destruct s as [|c s0] eqn:E; [done|]. rewrite <- E. intros Ht. unfold osip_clrspace. rewrite E at 1.
  destruct (clear_at [] s [] (zlen s + 1) (length s) s 0 (zlen s - 1)) as (-> & -> & ->);
    subst; (done || zl || by rewrite app_nil_r).
Qed.

Lemma clrncpy_at p s r size b i n :
  b = p ++ s ++ r -> i = zlen p -> n = zlen s -> nonempty s = true -> trimmed s = true ->
  n + 1 <= size -> osip_clrncpy size b i n = Done s.
Proof.
  intros Eb Ei -> Hn Ht Hs. apply Z.ltb_lt in Hn. unfold osip_clrncpy. ltests.
  destruct (clear_at p s r size (length b) b i (i + zlen s - 1)) as (-> & -> & ->); (done || lia || by intros ->).
Qed.

(** ** Parameters *)

Create Rewrite HintDb frees.
#[export] Hint Rewrite free_app free_cons : frees.
#[export] Hint Rewrite free_esc using reflexivity : frees.
Ltac frees :=
  autorewrite with frees;
  repeat match goal with H : free ?c ?l = true |- context [free ?c ?l] => rewrite H end; reflexivity.

Lemma esc_nonempty def s : zlen s <= zlen (esc def s).
Proof.
  induction s as [|c s IH]; [done|]. cbn [esc flat_map]. fold (esc def s).
  unfold esc1. destruct (_ || _); zl.
Qed.

Lemma next_separator_at p a r c d q b i j :
  b = p ++ a ++ c :: r ++ q -> i = zlen p -> free c a = true -> j = i + zlen a ->
  free d a = true -> Ascii.eqb d c = false -> free d r = true -> (q = [] \/ exists q', q = d :: q') ->
  Ascii.eqb d NUL = false ->
  next_separator b i c d = Done (Some j).
Proof.
  intros Eb Ei Ha -> Hd Hdc Hr Hq Hn. unfold next_separator. rewrite (strchr_at p a (r ++ q) c b i (i + zlen a)) by done.
  rewrite Hn. rewrite (strchr_skip p (a ++ c :: r) q d b i) by first [subst; lists | done | frees || (autorewrite with frees; by rewrite Hd, Hdc, Hr)].
  destruct Hq as [->|[q' ->]]; cbn; [done|]. rewrite Ascii.eqb_refl. cbn.
  ltests. done.
Qed.

Lemma next_separator_none p a r c d b i :
  b = p ++ a ++ r -> i = zlen p -> free c a = true -> free d a = true -> Ascii.eqb d NUL = false ->
  Ascii.eqb d c = false -> (r = [] \/ exists r', r = d :: r') ->
  next_separator b i c d = Done None.
Proof.
  intros Eb Ei Ha Hd Hn Hdc Hr. unfold next_separator.
  rewrite !(strchr_skip p a r _ b i) by done. rewrite Hn. destruct Hr as [->|[r' ->]]; [done|].
  cbn. rewrite Hdc, Ascii.eqb_refl. pose proof (index_of_spec c r') as S. destruct (index_of c r') as [j|]; cbn; [|done].
  by ltests.
Qed.

Lemma unescape_word def s :
  free "%"%char def = true -> word_ok s = true ->
  osip_uri_unescape (esc def (txt s)) = txt s /\ osip_clrspace (txt s) = Done (txt s).
Proof.
  intros Hd [Ht Hn]%andb_prop. split; [by apply unescape_esc|by apply clrspace_id].
Qed.

(** A name and perhaps a value, as the parsers find them, are added as they were. *)
Lemma param_add_eq def l n v :
  free "%"%char def = true -> word_ok n = true -> opt_ok word_ok v = true ->
  osip_uri_param_add l (osip_uri_unescape (esc def (txt n)))
    (match v with None => None | Some v => Some (osip_uri_unescape (esc def (txt v))) end)
  = Done (l ++ [mkParam (Some n) v]).
Proof.
  intros Hd Hn Hv. unfold osip_uri_param_add, osip_uri_param_set.
  destruct (unescape_word def n Hd Hn) as [-> ->].
  destruct v as [v|]; [|by rewrite str_txt]. destruct (unescape_word def v Hd Hv) as [-> ->].
  by rewrite !str_txt.
Qed.

Lemma token_word s : token_ok s = true -> word_ok s = true /\ 0 < zlen (txt s).
Proof. intros [H ?]%andb_prop. by apply Z.ltb_lt in H. Qed.

Definition start (s : string) : osip_uri := mkUri (Some s) None None None None [] [] None.

(** The place of the equals sign. *)
Definition equal_at (i : Z) (p : osip_uri_param) : option Z :=
  match gvalue p with
  | None => None
  | Some _ => Some (i + zlen (esc uri_param_def (txt (default ""%string (gname p)))))
  end.

Lemma parse_param_eq url pre p r b i comma :
  b = pre ++ pair_text ";"%char uri_param_def p ++ r -> i = zlen pre ->
  comma = i + zlen (pair_text ";"%char uri_param_def p) -> param_ok p = true ->
  parse_param url b i (equal_at (i + 1) p) comma = Done (OSIP_SUCCESS, set_params (url_params url ++ [p]) url).
Proof.
  intros Eb Ei Ec [Hn Hv]%andb_prop. destruct p as [n v]. cbn [gname gvalue] in *.
  destruct n as [n|]; [|done]. cbn [some_ok] in Hn. apply token_word in Hn as [Hw Hn].
  pose proof (esc_nonempty uri_param_def (txt n)) as Ln. unfold parse_param, equal_at. cbn [gname gvalue].
  change (default ""%string (Some n)) with n.
  destruct v as [v|]; cbn [opt_ok] in Hv.
  - apply token_word in Hv as [Hv Lv]. pose proof (esc_nonempty uri_param_def (txt v)) as Lv'.
    rewrite pair_text_some in Eb, Ec. ltests.
    rewrite (strncpy_at (pre ++ (";"%char :: esc uri_param_def (txt n)) ++ ["="%char]) (esc uri_param_def (txt v)) r)
      by (subst; lists || zl).
    ltests.
    rewrite (strncpy_at (pre ++ [";"%char]) (esc uri_param_def (txt n)) ("="%char :: esc uri_param_def (txt v) ++ r))
      by (subst; lists || zl).
    by rewrite (param_add_eq uri_param_def _ n (Some v)).
  - rewrite pair_text_none in Eb, Ec. ltests.
    rewrite (strncpy_at (pre ++ [";"%char]) (esc uri_param_def (txt n)) r) by (subst; lists || zl).
    by rewrite (param_add_eq uri_param_def _ n None).
Qed.

Lemma params_text_head l : l = [] \/ exists r, params_text l = ";"%char :: r.
Proof. destruct l as [|p l]; [by left|right]. by eexists. Qed.

(** The two searches for the end of a name and for the end of a parameter. *)
Lemma param_searches pre p l b i :
  b = pre ++ pair_text ";"%char uri_param_def p ++ params_text l -> i = zlen pre + 1 ->
  param_ok p = true ->
  next_separator b i "="%char ";"%char = Done (equal_at i p) /\
  strchr b i ";"%char =
    Done (match l with [] => None | _ => Some (i + zlen (pair_text ";"%char uri_param_def p) - 1) end).
Proof.
  intros Eb Ei [Hn Hv]%andb_prop. destruct p as [n v]. cbn [gname gvalue] in *.
  destruct n as [n|]; [|done]. unfold equal_at. cbn [gname gvalue]. change (default ""%string (Some n)) with n.
  assert (params_text l = [] \/ exists r, params_text l = ";"%char :: r) as Hl
    by (destruct (params_text_head l) as [->|]; [by left|by right]).
  split.
  - destruct v as [v|].
    + apply (next_separator_at (pre ++ [";"%char]) (esc uri_param_def (txt n)) (esc uri_param_def (txt v)) _ _ (params_text l));
        first [done | subst; rewrite pair_text_some; lists | zl | frees].
    + apply (next_separator_none (pre ++ [";"%char]) (esc uri_param_def (txt n)) (params_text l));
        first [done | subst; rewrite pair_text_none; lists | zl | frees].
  - set (w := esc uri_param_def (txt n) ++ value_text uri_param_def v).
    assert (pair_text ";"%char uri_param_def (mkParam (Some n) v) = ";"%char :: w) as Ew by done.
    assert (free ";"%char w = true) as Hw by (subst w; destruct v; cbn [value_text]; frees).
    rewrite Ew in *. destruct l as [|p' l'].
    + apply (strchr_none (pre ++ [";"%char]) w); first [done | subst; cbn; rewrite ?app_nil_r; lists | zl].
    + destruct (params_text_head (p' :: l')) as [|[r Er]]; [done|]. rewrite Er in *.
      apply (strchr_at (pre ++ [";"%char]) w r); first [done | subst; lists | zl].
Qed.

Lemma params_loop_eq l : forall pre url b i fuel,
  b = pre ++ params_text l -> i = zlen pre -> l <> [] -> forallb param_ok l = true ->
  (length l <= fuel)%nat ->
  params_loop fuel url b i = Done (OSIP_SUCCESS, set_params (url_params url ++ l) url).
Proof.
  induction l as [|p l IH]; intros pre url b i fuel Eb Ei Hne Hok Hf; [done|]. clear Hne.
  apply andb_prop in Hok as [Hp Hl]. cbn [params_text flat_map] in Eb. fold (params_text l) in Eb.
  destruct fuel as [|fuel]; [simpl in Hf; lia|]. cbn [params_loop].
  destruct (param_searches pre p l b (i + 1) Eb) as [-> ->]; [lia|done|].
  destruct l as [|p' l'].
  - apply (parse_param_eq url pre p []); [exact Eb|done| |done].
    rewrite Eb. change (params_text []) with (@nil Ascii.ascii). zl.
  - rewrite (parse_param_eq url pre p (params_text (p' :: l'))) by (done || lia). cbn [negb Z.eqb].
    rewrite (IH (pre ++ pair_text ";"%char uri_param_def p)); first [done | subst; lists | zl | simpl in *; lia | idtac].
    unfold set_params. cbn. by rewrite <- app_assoc.
Qed.

(** ** Header fields *)

Definition list_text (mark : ascii) (l : list osip_uri_param) : text :=
  match l with [] => [] | p :: l => pair_text mark header_param_def p ++ more_headers_text l end.

Lemma more_headers_eq l : more_headers_text l = list_text "&"%char l.
Proof. by destruct l. Qed.

Lemma headers_ok_cons p l :
  headers_ok (p :: l) = true ->
  exists n v, p = mkParam (Some n) (Some v) /\ word_ok n = true /\ word_ok v = true /\
    (l <> [] -> 0 < zlen (txt v)) /\ headers_ok l = true.
Proof.
  destruct p as [n v]. intros H.
  assert (some_ok word_ok n = true /\ some_ok word_ok v = true /\
          (l <> [] -> some_ok token_ok v = true) /\ headers_ok l = true) as (Hn & Hv & Ht & Hl).
  { destruct l as [|p' l]; cbn [headers_ok] in H.
    - by apply andb_prop in H as [? ?].
    - apply andb_prop in H as [[? Hv]%andb_prop ?]. cbn [gvalue gname] in *. repeat split; try done.
      destruct v as [v|]; [|done]. by apply token_word in Hv as [? _]. }
  destruct n as [n|], v as [v|]; try done. exists n, v. repeat split; try done.
  intros Hne. by apply Ht, token_word in Hne as [_ ?].
Qed.

Lemma headers_loop_eq l : forall mark pre url b i fuel,
  b = pre ++ list_text mark l -> i = zlen pre -> Ascii.eqb "="%char mark = false ->
  l <> [] -> headers_ok l = true -> (length l <= fuel)%nat ->
  headers_loop fuel url b i = Done (OSIP_SUCCESS, set_headers (url_headers url ++ l) url).
Proof.
  induction l as [|p l IH]; intros mark pre url b i fuel Eb Ei Hm Hne Hok Hf; [done|]. clear Hne.
  apply headers_ok_cons in Hok as (n & v & -> & Hn & Hv & Ht & Hl).
  cbn [list_text] in Eb. rewrite more_headers_eq, pair_text_some in Eb.
  set (N := esc header_param_def (txt n)) in *. set (V := esc header_param_def (txt v)) in *.
  assert (zlen (txt v) <= zlen V) as Lv by apply esc_nonempty.
  destruct fuel as [|fuel]; [simpl in Hf; lia|]. cbn [headers_loop].
  assert (free "="%char (mark :: N) = true) as Hf1.
  { subst N. autorewrite with frees. by rewrite Hm. }
  assert (free "&"%char (N ++ "="%char :: V) = true) as Hf2 by (subst N V; frees).
  rewrite (strchr_at pre (mark :: N) (V ++ list_text "&"%char l) "="%char b i (i + 1 + zlen N))
    by first [done | subst b; lists | zl].
  rewrite (strncpy_at (pre ++ [mark]) N ("="%char :: V ++ list_text "&"%char l))
    by first [subst b; lists | zl].
  destruct l as [|p' l'].
  - cbn [list_text] in Eb. rewrite app_nil_r in Eb.
    rewrite (strchr_none (pre ++ [mark]) (N ++ "="%char :: V)) by first [done | subst b; lists | zl].
    assert (zlen b = zlen pre + 1 + zlen N + 1 + zlen V) as Lb by (subst b; zl). ltests.
    assert (osip_strncpy (zlen b - (i + 1 + zlen N) + 1) b (i + 1 + zlen N + 1) (zlen b - (i + 1 + zlen N)) = Done V) as ->.
    { unfold osip_strncpy. ltests. replace b with (((pre ++ [mark]) ++ N ++ ["="%char]) ++ V) by (subst b; lists).
      rewrite drop_mid by zl. f_equal. apply take_ge. lens. unfold zlen in *. lia. }
    by rewrite (param_add_eq header_param_def _ n (Some v)).
  - set (rest := list_text "&"%char (p' :: l')) in *.
    assert (exists r, rest = "&"%char :: r) as [r Er] by (by eexists).
    rewrite (strchr_at (pre ++ [mark]) (N ++ "="%char :: V) r "&"%char b (i + 1) (i + 1 + zlen N + 1 + zlen V))
      by first [done | subst b; rewrite Er; lists | zl].
    pose proof (Ht ltac:(done)). ltests.
    rewrite (strncpy_at (pre ++ mark :: N ++ ["="%char]) V rest) by first [subst b; lists | zl].
    rewrite (param_add_eq header_param_def _ n (Some v)) by done.
    rewrite (IH "&"%char ((pre ++ mark :: N) ++ "="%char :: V));
      first [done | subst b; lists | zl | simpl in *; lia | idtac].
    unfold set_headers. cbn. by rewrite <- app_assoc.
Qed.

(** ** The user part *)

Lemma parse_userinfo_eq sc b t url :
  b = txt sc ++ ":"%char :: userinfo_text url ++ t -> free "@"%char (txt sc) = true ->
  free "@"%char t = true -> userinfo_ok url = true ->
  parse_userinfo (start sc) b (zlen (txt sc)) =
    Done (Ok (zlen (txt sc) + zlen (userinfo_text url)),
          mkUri (Some sc) (u_username url) (u_password url) None None [] [] None).
Proof.
  intros Eb Hsc Ht Hu. unfold parse_userinfo. unfold userinfo_ok, userinfo_text in *.
  set (pre := txt sc ++ [":"%char]). destruct (u_username url) as [name|].
  2:{ destruct (u_password url); [done|].
      rewrite (strchr_none [] (txt sc ++ ":"%char :: t)) by first [done | frees].
      rewrite zlen_nil, Z.add_0_r. done. }
  apply andb_prop in Hu as [[Ln Hn]%andb_prop Hp]. apply Z.ltb_lt in Ln.
  pose proof (esc_nonempty userinfo_def (txt name)) as Ln'.
  pose proof (unescape_esc userinfo_def (txt name) eq_refl Hn) as En.
  set (N := esc userinfo_def (txt name)) in *.
  set (P := match u_password url with Some pw => ":"%char :: esc password_def (txt pw) | None => [] end) in *.
  assert (free "@"%char N = true) as HaN by (subst N; frees).
  assert (free ":"%char N = true) as HcN by (subst N; frees).
  assert (free "@"%char P = true) as HaP by (subst P; destruct (u_password url); frees).
  rewrite (strchr_at [] ((txt sc ++ ":"%char :: N) ++ P) t "@"%char b 0 (zlen (txt sc) + 1 + zlen N + zlen P))
    by first [subst b; lists | zl | frees].
  assert (exists c N', N = c :: N' /\ Ascii.eqb c "@"%char = false) as (c & N' & EN & Hc).
  { destruct N as [|c N']; [by rewrite zlen_nil in Ln'; lia|]. exists c, N'. split; [done|].
    rewrite free_cons in HaN. apply andb_prop in HaN as [H _]. rewrite Ascii.eqb_sym. by apply negb_true_iff in H. }
  rewrite (char_at_mid (txt sc ++ [":"%char]) c (N' ++ P ++ "@"%char :: t))
    by first [subst b; rewrite EN; lists | zl].
  rewrite Hc. clear EN Hc c N'. destruct (u_password url) as [pw|]; subst P; cbn [opt_ok] in Hp.
  - apply andb_prop in Hp as [Lp Hp]. apply Z.ltb_lt in Lp.
    pose proof (esc_nonempty password_def (txt pw)) as Lp'.
    pose proof (unescape_esc password_def (txt pw) eq_refl Hp) as Ep.
    set (P := esc password_def (txt pw)) in *.
    assert (free "@"%char P = true) as HP by (subst P; frees).
    rewrite (next_separator_at pre N P ":"%char "@"%char ("@"%char :: t) b _ (zlen (txt sc) + 1 + zlen N))
      by first [done | subst b pre; lists | subst pre; zl | by right; eexists].
    ltests.
    rewrite (strncpy_at (txt sc ++ ":"%char :: N ++ [":"%char]) P ("@"%char :: t)) by first [subst b; lists | zl].
    ltests.
    rewrite (strncpy_at pre N (":"%char :: P ++ "@"%char :: t)) by first [subst b pre; lists | subst pre; zl].
    rewrite Ep, En, !str_txt. unfold start, set_username, set_password. cbn. do 3 f_equal. zl.
  - rewrite (next_separator_none pre N ("@"%char :: t))
      by first [done | subst b pre; lists | subst pre; zl | by right; eexists].
    ltests.
    rewrite (strncpy_at pre N ("@"%char :: t)) by first [subst b pre; lists | subst pre; zl].
    rewrite En, !str_txt. unfold start, set_username. cbn. do 3 f_equal. zl.
Qed.

(** ** Parameters and header fields *)

Lemma params_free c l :
  plain uri_param_def c = false -> Ascii.eqb c ";"%char = false -> Ascii.eqb c "="%char = false ->
  free c (params_text l) = true.
Proof.
  intros Hc H1 H2. induction l as [|[n v] l IH]; [done|]. cbn [params_text flat_map pair_text].
  fold (params_text l). unfold pair_text. rewrite free_app, free_cons, free_app, IH, H1, free_esc by done.
  destruct v as [v|]; cbn [gvalue value_text]; [|done]. by rewrite free_cons, H2, free_esc.
Qed.

Lemma list_free c mark l :
  plain header_param_def c = false -> Ascii.eqb c mark = false -> Ascii.eqb c "&"%char = false ->
  Ascii.eqb c "="%char = false -> free c (list_text mark l) = true.
Proof.
  intros Hc. revert mark. induction l as [|[n v] l IH]; intros mark H1 H2 H3; [done|]. cbn [list_text].
  rewrite more_headers_eq. unfold pair_text.
  rewrite free_app, free_cons, free_app, (IH "&"%char), H1, free_esc by done.
  destruct v as [v|]; cbn [gvalue value_text]; [|done]. by rewrite free_cons, H3, free_esc.
Qed.

Lemma pair_text_length mark def p : 1 <= zlen (pair_text mark def p).
Proof. unfold pair_text. zl. Qed.
Lemma params_text_length l : Z.of_nat (length l) <= zlen (params_text l).
Proof.
  induction l as [|p l IH]; [done|]. cbn [params_text flat_map length]. fold (params_text l).
  pose proof (pair_text_length ";"%char uri_param_def p). zl.
Qed.
Lemma list_text_length mark l : Z.of_nat (length l) <= zlen (list_text mark l).
Proof.
  revert mark. induction l as [|p l IH]; intros mark; [done|]. cbn [list_text length].
  rewrite more_headers_eq. pose proof (pair_text_length mark header_param_def p). specialize (IH "&"%char). zl.
Qed.

(** The host and what is before it, up to the character before the host, is [a ++ [x]]. *)
Lemma parse_lists_eq url a x h params headers b i :
  b = a ++ x :: h ++ params_text params ++ list_text "?"%char headers -> i = zlen a ->
  free "?"%char (x :: h) = true -> free ";"%char (x :: h) = true ->
  forallb param_ok params = true -> headers_ok headers = true ->
  parse_lists url b i =
    Done (Ok (i + 1 + zlen h),
          set_params (url_params url ++ params) (set_headers (url_headers url ++ headers) url)).
Proof.
  intros Eb Ei Hq Hs Hp Hh. unfold parse_lists.
  set (url1 := set_headers (url_headers url ++ headers) url).
  set (P := params_text params) in *. set (Q := list_text "?"%char headers) in *.
  assert (free "?"%char P = true) as HqP by (by apply params_free).
  assert (free ";"%char Q = true) as HsQ by (by apply list_free).
  assert (exists k, strchr b i "?"%char = Done k /\
    match k with
    | None => Done (zlen b, url)
    | Some h => let! (_, url) := osip_uri_parse_headers url b h in Done (h, url)
    end = Done (i + 1 + zlen h + zlen P, url1)) as (k & -> & ->).
  { destruct headers as [|p l].
    - exists None. cbn [list_text] in Q. subst Q. rewrite app_nil_r in Eb.
      split; [apply (strchr_none a ((x :: h) ++ P)); first [done | subst b; lists | by rewrite free_app, Hq, HqP]|].
      subst url1. rewrite app_nil_r. do 2 f_equal; [subst b; zl|by destruct url].
    - exists (Some (i + 1 + zlen h + zlen P)).
      assert (exists r, Q = "?"%char :: r) as [r Er] by (by eexists). split.
      + apply (strchr_at a ((x :: h) ++ P) r); first [done | subst b; rewrite Er; lists | by rewrite free_app, Hq, HqP | zl].
      + unfold osip_uri_parse_headers.
        rewrite (headers_loop_eq (p :: l) "?"%char (a ++ (x :: h) ++ P)); try done; [subst b; lists|subst b; zl|].
        pose proof (list_text_length "?"%char (p :: l)) as L. fold Q in L.
        assert (zlen Q <= zlen b) by (subst b; zl). unfold zlen in *. lia. }
  destruct params as [|p l].
  - cbn in P. subst P. assert (free ";"%char ((x :: h) ++ Q) = true) as F by (by rewrite free_app, Hs, HsQ).
    rewrite (strchr_none a ((x :: h) ++ Q)) by first [exact F | subst b; lists | done].
    rewrite app_nil_r. subst url1. rewrite zlen_nil, Z.add_0_r. by destruct url.
  - assert (exists r, P = ";"%char :: r) as [r Er] by (by eexists).
    rewrite (strchr_at a (x :: h) (r ++ Q) ";"%char b i (i + 1 + zlen h))
      by first [done | subst b; rewrite Er; lists | zl].
    assert (1 <= zlen P) by (rewrite Er; zl). ltests.
    rewrite (strncpy_at (a ++ x :: h) P Q) by first [subst b; lists | zl].
    unfold osip_uri_parse_params. rewrite (params_loop_eq (p :: l) []); try done.
    pose proof (params_text_length (p :: l)) as L. fold P in L. unfold zlen in L. lia.
Qed.

(** ** Port and host *)

Lemma lacks_app cs a b : lacks cs (a ++ b) = lacks cs a && lacks cs b.
Proof.
  induction cs as [|c cs IH]; [done|]. cbn [lacks forallb]. fold (lacks cs (a ++ b)) (lacks cs a) (lacks cs b).
  rewrite IH, free_app. by destruct (free c a), (free c b), (lacks cs a), (lacks cs b).
Qed.

Lemma lacks_one cs x : lacks cs [x] = negb (existsb (Ascii.eqb x) cs).
Proof.
  induction cs as [|c cs IH]; [done|]. cbn [lacks forallb existsb]. fold (lacks cs [x]).
  rewrite IH, negb_orb, free_cons, Ascii.eqb_sym. by destruct (Ascii.eqb x c).
Qed.

Lemma lacks_free cs c l : lacks cs l = true -> existsb (Ascii.eqb c) cs = true -> free c l = true.
Proof.
  intros H (x & Hx & E%Ascii.eqb_eq)%existsb_exists. subst x.
  by apply (proj1 (forallb_forall _ _) H).
Qed.

(** The text is long enough for the fuel. *)
Ltac fuel :=
  match goal with |- context [Z.of_nat (length ?b)] => change (Z.of_nat (length b)) with (zlen b); subst b; zl end.

Lemma search_down_at p c stop a : forall q b host i fuel,
  b = p ++ c :: a ++ q -> i = zlen p + zlen a -> 0 <= host <= zlen p ->
  host = zlen p \/ existsb (Ascii.eqb c) stop = true -> lacks stop a = true -> zlen a <= Z.of_nat fuel ->
  search_down fuel b host i stop = Done (zlen p).
Proof.
  induction a as [|x a IH] using rev_ind; intros q b host i fuel Eb Ei Hh Hc Ha Hf.
  - assert (i = zlen p) as -> by (subst; zl). destruct fuel as [|fuel]; cbn [search_down]; ltests; try done.
    all: destruct Hc as [Hc|Hc]; [lia|]; rewrite (char_at_mid p c q) by first [subst b; lists | done]; by rewrite Hc.
  - rewrite lacks_app, lacks_one in Ha. apply andb_prop in Ha as [Ha Hx%negb_true_iff].
    destruct fuel as [|fuel]; [zl|]. cbn [search_down]. ltests.
    rewrite (char_at_mid (p ++ c :: a) x q) by first [subst b; lists | subst i; zl]. rewrite Hx.
    apply (IH (x :: q)); first [done | subst b; lists | subst i; zl | zl].
Qed.

Lemma search_down_step c b host i stop fuel :
  char_at b i = Done c -> host < i -> existsb (Ascii.eqb c) stop = false ->
  search_down (S fuel) b host i stop = search_down fuel b host (i - 1) stop.
Proof. intros E Hi Hs. cbn [search_down]. ltests. by rewrite E, Hs. Qed.

(** What the host and the port guarantee. *)
Lemma raw_spec cs l : raw_ok cs l = true ->
  nonempty l = true /\ 0 < zlen l /\ trimmed l = true /\ lacks (NUL :: cs) l = true.
Proof.
  intros [[Hn Ht]%andb_prop Hl]%andb_prop. repeat split; try done. by apply Z.ltb_lt in Hn.
Qed.

Lemma host_text_cases h :
  host_text h = h /\ free ":"%char h = true \/ host_text h = "["%char :: h ++ ["]"%char].
Proof.
  unfold host_text. pose proof (index_of_spec ":"%char h) as S.
  destruct (index_of _ _); [by right|by left].
Qed.

Lemma lacks_host h : raw_ok [";"; "?"; "@"; "["; "]"]%char h = true -> free ":"%char h = true ->
  lacks ["]"; ":"]%char h = true.
Proof.
  intros (_ & _ & _ & Hl)%raw_spec Hc. cbn [lacks forallb].
  by rewrite (lacks_free _ "]"%char h Hl eq_refl), Hc.
Qed.

Lemma parse_port_eq url a x host port r b i params :
  b = a ++ x :: host_text (txt host) ++ port_text port ++ r -> i = zlen a ->
  params = i + 1 + zlen (host_text (txt host)) + zlen (port_text port) ->
  (x = ":"%char \/ x = "@"%char) -> host_ok host = true -> opt_ok port_ok port = true ->
  u_port url = None ->
  parse_port url b i params = Done (Ok (i + 1 + zlen (host_text (txt host))), set_port port url).
Proof.
  intros Eb Ei Ep Hx Hh Hp Hu. unfold parse_port. pose proof (raw_spec _ _ Hh) as (_ & Lh & _ & _).
  set (H := host_text (txt host)) in *.
  assert (0 < zlen H) as LH by (subst H; destruct (host_text_cases (txt host)) as [[-> _]| ->]; zl).
  destruct port as [pt|]; cbn [port_text opt_ok] in *.
  - apply andb_prop in Hp as [Hp L7]. apply Z.leb_le in L7. pose proof (raw_spec _ _ Hp) as (Np & Lp & Tp & Hl).
    rewrite (search_down_at (a ++ x :: H) ":"%char _ (txt pt) r);
      first [by right | subst b; lists | subst params; zl | zl | fuel | idtac].
    2:{ cbn [lacks forallb]. rewrite !(lacks_free _ _ _ Hl) by done. done. }
    rewrite (char_at_mid (a ++ x :: H) ":"%char (txt pt ++ r)) by first [subst b; lists | zl]. cbn iota.
    replace (Ascii.eqb ":" ":") with true by done. lens. ltests.
    destruct (Z.ltb_spec (params - (zlen a + (zlen H + 1))) 2); [exfalso; zl|]. cbn [orb]. ltests.
    rewrite (clrncpy_at ((a ++ x :: H) ++ [":"%char]) (txt pt) r) by first [done | subst b; lists | subst params; zl].
    rewrite str_txt. do 3 f_equal. subst i. lia.
  - rewrite zlen_nil, Z.add_0_r in Ep. cbn [app] in Eb.
    assert (set_port None url = url) as -> by (destruct url; cbn in *; by subst). subst params.
    subst H. destruct (host_text_cases (txt host)) as [[E Hc]|E]; rewrite E in *.
    + rewrite (search_down_at a x _ (txt host) r);
        first [done | zl | by left | by apply lacks_host | fuel | idtac].
      rewrite (char_at_mid a x (txt host ++ r)) by done. destruct Hx as [->| ->]; [|done].
      by rewrite Ei, Z.eqb_refl.
    + rewrite (search_down_at (a ++ x :: "["%char :: txt host) "]"%char _ [] r);
        first [by right | done | subst b; lists | zl | fuel | idtac].
      by rewrite (char_at_mid (a ++ x :: "["%char :: txt host) "]"%char r) by first [done | subst b; lists].
Qed.

Lemma char_at_next p r b i : b = p ++ r -> i = zlen p -> char_at b i = Done (default NUL (head r)).
Proof.
  intros Eb Ei. rewrite char_at_ok by (subst; zl). f_equal. f_equal. subst. unfold zlen. rewrite Nat2Z.id.
  rewrite lookup_app_r, Nat.sub_diag by done. by destruct r.
Qed.

Lemma search_up_at x c b i last fuel p q :
  b = p ++ x :: c :: q -> i = zlen p -> i + 1 < last -> Ascii.eqb x c = false ->
  search_up (S (S fuel)) b i last c = Done (i + 1).
Proof.
  intros Eb Ei Hl Hx. cbn [search_up]. ltests.
  rewrite (char_at_mid p x (c :: q)) by done. rewrite Hx. ltests.
  rewrite (char_at_mid (p ++ [x]) c q) by first [subst; lists | zl]. by rewrite Ascii.eqb_refl.
Qed.

Lemma parse_host_eq url a x host r b i port :
  b = a ++ x :: host_text (txt host) ++ r -> i = zlen a ->
  port = i + 1 + zlen (host_text (txt host)) ->
  (x = ":"%char \/ x = "@"%char) -> Ascii.eqb (default NUL (head r)) "]"%char = false ->
  host_ok host = true ->
  parse_host url b i port = Done (OSIP_SUCCESS, set_host (Some host) url).
Proof.
  intros Eb Ei Ep Hx Hr Hh. unfold parse_host. pose proof (raw_spec _ _ Hh) as (Nh & Lh & Th & Fh).
  assert (Ascii.eqb x "]"%char = false /\ Ascii.eqb x "["%char = false) as [Hx1 Hx2] by (by destruct Hx; subst).
  assert (exists f, length b = S (S f) /\ zlen b = Z.of_nat (S (S f))) as (f & Ef & Zf).
  { exists (length b - 2)%nat. subst b. unfold zlen in *. rewrite length_app. cbn [length]. rewrite length_app.
    destruct (host_text_cases (txt host)) as [[E _]|E]; rewrite E; cbn [length]; rewrite ?length_app; lia. }
  rewrite Ef. assert (char_at b port = Done (default NUL (head r))) as Cp.
  { apply (char_at_next (a ++ x :: host_text (txt host))); [subst b; lists|subst; zl]. }
  rewrite (search_down_step _ _ _ _ _ _ Cp); [|subst; zl|by cbn [existsb]; rewrite Hr].
  destruct (host_text_cases (txt host)) as [[E Hc]|E]; rewrite E in *.
  - rewrite (search_down_at a x _ (txt host) r); first [done | zl | by left | subst b; zl | idtac].
    2:{ cbn [lacks forallb]. by rewrite (lacks_free _ "]"%char _ Fh eq_refl). }
    rewrite (char_at_mid a x (txt host ++ r)) by done. rewrite Hx1. cbn [orb]. ltests.
    rewrite (clrncpy_at (a ++ [x]) (txt host) r) by first [done | subst b; lists | zl]. by rewrite str_txt.
  - rewrite (search_down_at (a ++ x :: "["%char :: txt host) "]"%char _ [] r);
      first [done | zl | by right | subst b; lists | subst b; zl | idtac].
    rewrite (char_at_mid (a ++ x :: "["%char :: txt host) "]"%char r) by first [done | subst b; lists].
    replace (Ascii.eqb "]" "]") with true by done.
    rewrite (search_up_at x "["%char b i _ _ a (txt host ++ "]"%char :: r)) by first [done | subst b; lists | zl].
    destruct (Z.leb_spec (zlen (a ++ x :: "["%char :: txt host)) (i + 1)); [exfalso; zl|]. cbn [orb]. lens. ltests.
    rewrite (clrncpy_at (a ++ [x; "["%char]) (txt host) ("]"%char :: r)) by first [done | subst b; lists | zl].
    by rewrite str_txt.
Qed.

(** ** The round trip *)

Lemma alpha_free c l : forallb osip_is_alpha l = true -> osip_is_alpha c = false -> free c l = true.
Proof.
  intros Hl Hc. unfold free. destruct (existsb _ _) eqn:E; [|done].
  apply existsb_exists in E as (x & Hx & <-%Ascii.eqb_eq).
  by rewrite (proj1 (forallb_forall _ _) Hl) in Hc.
Qed.

(** The scheme, which both kinds of URI begin with. *)
Lemma parse_scheme_eq sc t :
  forallb osip_is_alpha (txt sc) = true -> 2 <= zlen (txt sc) ->
  let b := txt sc ++ ":"%char :: t in
  osip_uri_parse osip_uri_init b =
    if negb (is_sip_scheme (txt sc)) then
      (if zlen t <? 2 then Done (OSIP_SYNTAXERROR, start sc)
       else Done (OSIP_SUCCESS, set_string (Some (str t)) (start sc)))
    else
      let! (r, url) := parse_userinfo (start sc) b (zlen (txt sc)) in
      match r with
      | Err i => Done (i, url)
      | Ok host =>
          let! (r, url) := parse_lists url b host in
          match r with
          | Err i => Done (i, url)
          | Ok params =>
              let! (r, url) := parse_port url b host params in
              match r with
              | Err i => Done (i, url)
              | Ok port => parse_host url b host port
              end
          end
      end.
Proof.
  intros Ha Hl b. unfold osip_uri_parse. destruct b as [|c b'] eqn:Eb.
  { subst b. by destruct (txt sc). }
  rewrite <- Eb. assert (b = txt sc ++ ":"%char :: t) as E by done. clearbody b. clear Eb c b'.
  rewrite (strchr_at [] (txt sc) t ":"%char b 0 (zlen (txt sc))) by first [done | by apply alpha_free].
  destruct (Z.ltb_spec (zlen (txt sc)) 2); [lia|].
  assert (take (Z.to_nat (zlen (txt sc))) b = txt sc) as ->.
  { subst b. unfold zlen. rewrite Nat2Z.id. apply take_app_length. }
  rewrite Ha. cbn [negb]. rewrite (strncpy_at [] (txt sc) (":"%char :: t)) by first [done | zl].
  rewrite (strchr_none [] (txt sc)) by first [done | by apply alpha_free]. cbn [is_null negb]. rewrite str_txt.
  destruct (is_sip_scheme (txt sc)); cbn [negb]; [done|].
  assert (zlen b - (zlen (txt sc) + 1) = zlen t) as -> by (subst b; zl).
  destruct (Z.ltb_spec (zlen t) 2); [done|].
  by rewrite (strncpy_at (txt sc ++ [":"%char]) t []) by first [done | subst b; rewrite app_nil_r; lists | zl].
Qed.

Lemma sip_scheme_length l : is_sip_scheme l = true -> 2 <= zlen l.
Proof. unfold is_sip_scheme. intros [H%negb_true_iff%Z.ltb_ge _]%andb_prop. lia. Qed.

Lemma headers_valued l : headers_ok l = true -> valued l = true.
Proof.
  induction l as [|p l IH]; [done|]. intros (n & v & -> & _ & _ & _ & Hl)%headers_ok_cons. by apply IH.
Qed.
Lemma params_named l : forallb param_ok l = true -> named l = true.
Proof.
  induction l as [|p l IH]; [done|]. cbn [forallb]. intros [[H _]%andb_prop Hl]%andb_prop.
  unfold named. cbn [forallb]. destruct (gname p); [|done]. by apply IH.
Qed.
Lemma filter_ok {A} (f g : A -> bool) l : forallb f l = true -> forallb f (List.filter g l) = true.
Proof.
  induction l as [|x l IH]; [done|]. cbn [forallb List.filter]. intros [Hx Hl]%andb_prop.
  destruct (g x); [|by apply IH]. cbn [forallb]. rewrite Hx. by apply IH.
Qed.

(** The host and the port have none of the characters that end them. *)
Lemma host_free c host :
  existsb (Ascii.eqb c) [";"; "?"; "@"]%char = true -> host_ok host = true ->
  free c (host_text (txt host)) = true.
Proof.
  intros Hc (_ & _ & _ & Hl)%raw_spec.
  assert (free c (txt host) = true) as Hf.
  { apply (lacks_free _ _ _ Hl). cbn [existsb] in *. destruct (Ascii.eqb c NUL); [done|].
    rewrite orb_false_r in Hc. destruct (Ascii.eqb c ";"), (Ascii.eqb c "?"), (Ascii.eqb c "@"); done. }
  apply existsb_exists in Hc as (y & Hy & ->%Ascii.eqb_eq).
  destruct (host_text_cases (txt host)) as [[-> _]| ->]; [done|].
  rewrite free_cons, free_app, Hf. repeat destruct Hy as [<-|Hy]; done.
Qed.
Lemma port_free c port :
  existsb (Ascii.eqb c) [";"; "?"; "@"]%char = true -> opt_ok port_ok port = true ->
  free c (port_text port) = true.
Proof.
  intros Hc Hp. destruct port as [p|]; [|done]. apply andb_prop in Hp as [(_ & _ & _ & Hl)%raw_spec _].
  apply existsb_exists in Hc as (y & Hy & ->%Ascii.eqb_eq). cbn [port_text]. rewrite free_cons.
  repeat destruct Hy as [<-|Hy]; try done; by rewrite (lacks_free _ _ _ Hl).
Qed.

Lemma parse_sip_eq url host :
  let b := txt (scheme_of url) ++ ":"%char :: userinfo_text url ++ host_text (txt host) ++ port_text (u_port url)
             ++ params_text (List.filter shown (url_params url)) ++ headers_text (url_headers url) in
  forallb osip_is_alpha (txt (scheme_of url)) = true -> is_sip_scheme (txt (scheme_of url)) = true ->
  userinfo_ok url = true -> host_ok host = true -> opt_ok port_ok (u_port url) = true ->
  forallb param_ok (url_params url) = true -> headers_ok (url_headers url) = true ->
  u_host url = Some host -> u_string url = None ->
  osip_uri_parse osip_uri_init b = Done (OSIP_SUCCESS, visible url).
Proof.
  intros b Ha Hsip Hu Hh Hp Hps Hhs Eh Es. subst b.
  rewrite parse_scheme_eq by (done || by apply sip_scheme_length). rewrite Hsip. cbn [negb].
  set (H := host_text (txt host)). set (PT := port_text (u_port url)).
  set (params := List.filter shown (url_params url)).
  assert (forallb param_ok params = true) as Hps' by (by apply filter_ok).
  change (headers_text (url_headers url)) with (list_text "?"%char (url_headers url)).
  set (R := params_text params ++ list_text "?"%char (url_headers url)).
  assert (free "@"%char (H ++ PT ++ R) = true) as HT.
  { subst H PT R. by rewrite !free_app, host_free, port_free, params_free, list_free. }
  rewrite (parse_userinfo_eq (scheme_of url) _ (H ++ PT ++ R) url) by first [done | by apply alpha_free].
  set (b := txt (scheme_of url) ++ ":"%char :: userinfo_text url ++ H ++ PT ++ R).
  set (i := zlen (txt (scheme_of url)) + zlen (userinfo_text url)).
  assert (exists a x, b = a ++ x :: H ++ PT ++ R /\ i = zlen a /\ (x = ":"%char \/ x = "@"%char))
    as (a & x & Eb & Ei & Hx).
  { subst b i. unfold userinfo_text. destruct (u_username url) as [name|].
    - match goal with |- context [esc userinfo_def ?n ++ ?p ++ ["@"%char]] =>
        exists (txt (scheme_of url) ++ ":"%char :: esc userinfo_def n ++ p), "@"%char end.
      split; [lists|]. split; [zl|by right].
    - exists (txt (scheme_of url)), ":"%char. split; [done|]. split; [zl|by left]. }
  clearbody b i.
  rewrite (parse_lists_eq _ a x (H ++ PT) params (url_headers url)); try done.
  2:{ subst b R. lists. }
  2:{ rewrite free_cons, free_app. subst H PT. rewrite host_free, port_free by done. by destruct Hx; subst x. }
  2:{ rewrite free_cons, free_app. subst H PT. rewrite host_free, port_free by done. by destruct Hx; subst x. }
  subst H PT. rewrite (parse_port_eq _ a x host (u_port url) R b i) by first [done | zl].
  rewrite (parse_host_eq _ a x host (port_text (u_port url) ++ R) b i); try done.
  - unfold visible. cbn. by rewrite Eh, Es.
  - subst R. destruct (u_port url); [done|]. by destruct params as [|p l]; [destruct (url_headers url)|].
Qed.

Lemma round_trip url :
  well_formed url = true ->
  osip_uri_to_str url = Done (Ok (uri_text url)) /\
  osip_uri_parse osip_uri_init (uri_text url) = Done (OSIP_SUCCESS, visible url).
Proof.
  intros [Ha H]%andb_prop.
  destruct (u_string url) as [s|] eqn:Es.
  - rewrite !andb_true_iff in H. destruct H as [[[[[[[[[H0 Hsip] H2] Ls] Fs] H3] H4] H5] H6] H7].
    destruct url as [sc un pw h po ps hs s'].
    cbn [u_scheme u_username u_password u_host u_port url_params url_headers u_string] in *.
    subst s'. destruct sc as [sc|]; [|done]. split; [by apply print_exact|].
    unfold uri_text, visible, scheme_of in *. cbn [u_scheme u_string] in *.
    change (default "sip"%string (Some sc)) with sc in *. apply Z.leb_le in H2, Ls.
    rewrite parse_scheme_eq by done. rewrite Hsip. ltests. destruct un, pw, h, po, ps, hs; try done.
    by rewrite str_txt.
  - rewrite !andb_true_iff in H. destruct H as [[[[[Hsip Hu] Hh] Hp] Hps] Hhs].
    destruct (u_host url) as [host|] eqn:Eh; [|done]. split.
    + apply print_exact. unfold printable.
      by rewrite Es, Eh, (params_named _ Hps), (headers_valued _ Hhs).
    + unfold uri_text. rewrite Es, Eh. by apply parse_sip_eq.
Qed.

(** C7: a well-formed URI that [osip_uri_to_str] prints is read back by [osip_uri_parse] as it
    was, but for the default scheme and the internal parameters: user names, passwords,
    parameters and header fields with any characters, which are escaped and unescaped,
    IPv6 addresses in brackets, and URIs of other schemes. *)
Theorem sip_uri_round_trip url :
  well_formed url = true ->
  exists t, osip_uri_to_str url = Done (Ok t) /\
    osip_uri_parse osip_uri_init t = Done (OSIP_SUCCESS, visible url).
Proof. intros H. exists (uri_text url). by apply round_trip. Qed.
