(* ===== verification/SipUriTheorems.v ===== *)
(** SIP URIs: the theorems on the printer as a whole, what the parser loses, and the theorems
    at concrete URIs. *)

From Stdlib Require Import Ascii ZArith Lia.
From stdpp Require Import base list option numbers strings.
From S2P Require Import Prelude.
From S2P Require Import CMem.
From S2P Require Import SipTypes.
From S2P Require Import SipMessage.
From S2P Require Import SipOwnership.
From S2P Require Import SipUri.
From S2P Require Import SipUriSpec.
From S2P Require Import SipUriParse.
From S2P Require Import SipUriRoundTrip.

Local Open Scope Z_scope.
Open Scope c_scope.

(** ** The printer on every URI *)

Lemma print_params_unnamed l : forall len buf,
  named l = false -> zlen buf + 1 <= len -> print_params l len buf = Undef.
Proof.
  induction l as [|[n v] l IH]; intros len buf Hn Hl; [done|]. cbn [print_params gname gvalue].
  destruct n as [n|]; [|done]. cbn [lift]. change (named l = false) in Hn.
  destruct (is_internal n); [by apply IH|].
  unfold osip_uri_escape_uri_param. rewrite escape_eq.
  destruct v as [v|]; rewrite ?escape_eq, sprintf_ok by zl; apply IH; (done || zl).
Qed.

Lemma print_headers_unvalued l : forall pos len buf,
  valued l = false -> zlen buf + 1 <= len -> print_headers l pos len buf = Undef.
Proof.
  induction l as [|[n v] l IH]; intros pos len buf Hn Hl; [done|]. cbn [print_headers gname gvalue].
  destruct n as [n|]; [|done]. cbn [lift]. unfold osip_uri_escape_header_param. rewrite escape_eq.
  destruct v as [v|]; [|done]. cbn [lift]. change (valued l = false) in Hn.
  rewrite escape_eq, snprintf_ok by zl. apply IH; (done || zl).
Qed.

(** ** The text of a URI after RFC 3261, section 25.1 *)

Definition alphanum : text := txt "abcdefghijklmnopqrstuvwxyzABCDEFGHIJKLMNOPQRSTUVWXYZ0123456789".
Definition mark : text := txt "-_.!~*'()".
Definition user_unreserved : text := txt "&=+$,;?/".
Definition password_unreserved : text := txt "&=+$,".
Definition param_unreserved : text := txt "[]/:&+$".
Definition hnv_unreserved : text := txt "[]/?:+$".

Definition HEXDIG (n : nat) : ascii := nth n (txt "0123456789ABCDEF") " "%char.
Definition escaped (c : ascii) : text :=
  ["%"%char; HEXDIG (nat_of_ascii c / 16); HEXDIG (nat_of_ascii c mod 16)].

(** A text whose characters are escaped unless they are unreserved or in [more]. *)
Definition encoded (more s : text) : text :=
  flat_map (fun c => if existsb (Ascii.eqb c) (alphanum ++ mark ++ more) then [c] else escaped c) s.

Definition named_value (more : text) (before : ascii) (p : osip_uri_param) : text :=
  before :: encoded more (txt (default ""%string (gname p)))
  ++ match gvalue p with Some v => "="%char :: encoded more (txt v) | None => [] end.

Definition private (p : osip_uri_param) : bool :=
  strcaseeq (default ""%string (gname p)) "x-obr" || strcaseeq (default ""%string (gname p)) "x-obp".

Definition hostport (host : text) (port : option string) : text :=
  (if existsb (Ascii.eqb ":"%char) host then "["%char :: host ++ ["]"%char] else host)
  ++ match port with Some port => ":"%char :: txt port | None => [] end.

Definition userinfo (url : osip_uri) : text :=
  match u_username url, u_password url with
  | Some user, Some password =>
      encoded user_unreserved (txt user) ++ ":"%char :: encoded password_unreserved (txt password) ++ ["@"%char]
  | Some user, None => encoded user_unreserved (txt user) ++ ["@"%char]
  | None, _ => []
  end.

Definition header_fields (l : list osip_uri_param) : text :=
  match l with
  | [] => []
  | h :: l => named_value hnv_unreserved "?"%char h ++ flat_map (named_value hnv_unreserved "&"%char) l
  end.

Definition SIP_URI (url : osip_uri) (host : text) : text :=
  txt (default "sip"%string (u_scheme url)) ++ ":"%char ::
  userinfo url ++ hostport host (u_port url)
  ++ flat_map (named_value param_unreserved ";"%char) (List.filter (fun p => negb (private p)) (url_params url))
  ++ header_fields (url_headers url).

(** One character at a time, all 256 of them. *)
Lemma encoded_esc more def s :
  (forall c, (if existsb (Ascii.eqb c) (alphanum ++ mark ++ more) then [c] else escaped c) = esc1 def c) ->
  encoded more s = esc def s.
Proof. intros H. apply flat_map_ext, H. Qed.

Ltac each_character := intros [[] [] [] [] [] [] [] []]; vm_compute; reflexivity.

Lemma encoded_user s : encoded user_unreserved s = esc userinfo_def s.
Proof. apply encoded_esc. each_character. Qed.
Lemma encoded_password s : encoded password_unreserved s = esc password_def s.
Proof. apply encoded_esc. each_character. Qed.
Lemma encoded_param s : encoded param_unreserved s = esc uri_param_def s.
Proof. apply encoded_esc. each_character. Qed.
Lemma encoded_header s : encoded hnv_unreserved s = esc header_param_def s.
Proof. apply encoded_esc. each_character. Qed.

Lemma header_fields_text l : header_fields l = headers_text l.
Proof.
  assert (forall p before, named_value hnv_unreserved before p = pair_text before header_param_def p) as Hp.
  { intros p before. unfold named_value, pair_text, value_text. rewrite encoded_header.
    destruct (gvalue p) as [v|]; [|done]. by rewrite encoded_header. }
  destruct l as [|p l]; [done|]. unfold header_fields, headers_text, more_headers_text. rewrite Hp. f_equal.
  apply flat_map_ext. intros q. apply Hp.
Qed.

Lemma hostport_text host port : hostport host port = host_text host ++ port_text port.
Proof.
  unfold hostport, host_text, port_text. f_equal.
  assert (existsb (Ascii.eqb ":"%char) host = negb (is_null (index_of ":"%char host))) as ->.
  { induction host as [|c host IH]; [done|]. cbn [existsb index_of]. rewrite (Ascii.eqb_sym ":"%char).
    destruct (Ascii.eqb c ":"); [done|]. cbn [orb]. rewrite IH. by destruct (index_of _ _). }
  by destruct (index_of _ _).
Qed.

Lemma SIP_URI_text url host :
  u_string url = None -> u_host url = Some host -> SIP_URI url (txt host) = uri_text url.
Proof.
  intros Es Eh. unfold SIP_URI, uri_text, scheme_of. rewrite Es, Eh. cbn [default from_option id].
  rewrite hostport_text, header_fields_text, <- app_assoc. f_equal. f_equal. f_equal.
  { unfold userinfo, userinfo_text. destruct (u_username url), (u_password url);
      rewrite ?encoded_user, ?encoded_password; [by rewrite <- app_comm_cons|done..]. }
  do 2 f_equal. f_equal. unfold params_text, shown, private.
  induction (url_params url) as [|p l IH]; [done|]. cbn [List.filter]. unfold is_internal at 1.
  destruct (_ || _); cbn [negb]; [exact IH|]. cbn [flat_map]. f_equal; [|exact IH].
  unfold named_value, pair_text, value_text. rewrite encoded_param.
  destruct (gvalue p) as [v|]; [|done]. by rewrite encoded_param.
Qed.

Lemma named_all l : forallb (fun p => bool_decide (is_Some (gname p))) l = named l.
Proof. unfold named. induction l as [|[[n|] v] l IH]; cbn; [done| |done]. by rewrite IH. Qed.
Lemma valued_all l : forallb (fun h => bool_decide (is_Some (gname h) /\ is_Some (gvalue h))) l = valued l.
Proof.
  unfold valued. induction l as [|[n v] l IH]; [done|]. cbn [forallb gname gvalue]. rewrite IH. f_equal.
  case_bool_decide as H; [by destruct H as [[? ->] [? ->]]|].
  destruct n, v; try done. by destruct H; eauto.
Qed.

(** C40: the printer of SIP URIs on every URI: without a host and a text, or with a text but
    no scheme, it reports an error; where a parameter has no name, or a header field no name
    or no value, it follows a null pointer; on every other URI it stays within the buffers
    it allocates and grows, whatever the lengths and the characters to be escaped,
    no header field is cut by [snprintf], and the text is that of RFC 3261, 25.1: scheme (sip
    when there is none), user part, host (in brackets when it has a colon), port, the parameters but for the two
    that are internal to libeXosip2 (x-obr and x-obp), and header fields, each part with the
    characters escaped that its grammar does not allow.  A URI with a text of its own is
    printed as scheme and text. *)
Theorem sip_uri_to_str_spec url :
  osip_uri_to_str url =
    match u_string url, u_host url with
    | Some text, _ =>
        match u_scheme url with
        | Some scheme => Done (Ok (txt scheme ++ ":"%char :: txt text))
        | None => Done (Err OSIP_BADPARAMETER)
        end
    | None, None => Done (Err OSIP_BADPARAMETER)
    | None, Some host =>
        if forallb (fun p => bool_decide (is_Some (gname p))) (url_params url)
           && forallb (fun h => bool_decide (is_Some (gname h) /\ is_Some (gvalue h))) (url_headers url)
        then Done (Ok (SIP_URI url (txt host)))
        else Undef
    end.
Proof.
  destruct (u_string url) as [s|] eqn:Es.
  { destruct (u_scheme url) as [sc|] eqn:Ec.
    - rewrite print_exact by (unfold printable; by rewrite Es, Ec). unfold uri_text, scheme_of. by rewrite Es, Ec.
    - unfold osip_uri_to_str. rewrite Es, Ec. by destruct (u_host url). }
  destruct (u_host url) as [host|] eqn:Eh; [|unfold osip_uri_to_str; by rewrite Es, Eh].
  rewrite named_all, valued_all. destruct (named (url_params url)) eqn:Hn.
  - destruct (valued (url_headers url)) eqn:Hv; cbn [andb].
    + rewrite (SIP_URI_text _ _ Es Eh). apply print_exact. unfold printable. by rewrite Es, Eh, Hn, Hv.
    + destruct (print_front url host Es Eh) as (len & Hl & ->).
      destruct (print_params_eq _ len _ Hn Hl) as (len' & -> & Hl'). by rewrite print_headers_unvalued.
  - destruct (print_front url host Es Eh) as (len & Hl & ->). by rewrite print_params_unnamed.
Qed.

(** ** What the parser loses

    [osip_uri_parse] does not look at the results of the parsers of parameters and of header
    fields: a mistake in one of them silently ends their list. *)

Definition simple_uri (user : option string) (host : string) : osip_uri :=
  mkUri (Some "sip"%string) user None (Some host) None [] [] None.

Lemma sip_uri_errors_ignored :
  osip_uri_parse osip_uri_init (txt "sip:a@h;lr=;transport=tcp") = Done (OSIP_SUCCESS, simple_uri (Some "a"%string) "h") /\
  osip_uri_parse osip_uri_init (txt "sip:a@h;;transport=tcp") = Done (OSIP_SUCCESS, simple_uri (Some "a"%string) "h") /\
  osip_uri_parse osip_uri_init (txt "sip:a@h?subject=&priority=urgent") = Done (OSIP_SUCCESS, simple_uri (Some "a"%string) "h").
Proof. repeat split; vm_compute; reflexivity. Qed.

(** An at sign in a parameter is taken for the end of the user part. *)
Lemma sip_uri_at_in_parameter :
  osip_uri_parse osip_uri_init (txt "sip:proxy.com;id=a@b.com") =
    Done (OSIP_SUCCESS, simple_uri (Some "proxy.com;id=a"%string) "b.com").
Proof. vm_compute. reflexivity. Qed.

(** Every scheme that begins with these three letters is parsed as one of SIP. *)
Lemma sip_uri_scheme_prefix :
  exists url, osip_uri_parse osip_uri_init (txt "sipfoo:data") = Done (OSIP_SUCCESS, url) /\
    u_host url = Some "data"%string /\ u_string url = None.
Proof. eexists. split; [vm_compute; reflexivity|done]. Qed.

(** The canonical text does not tell a parameter with a semicolon in its value from two
    parameters. *)
Lemma sip_uri_canonical_ambiguous :
  let one := mkUri None None None (Some "h"%string) None [mkParam (Some "x"%string) (Some "1;lr"%string)] [] None in
  let two := mkUri None None None (Some "h"%string) None
               [mkParam (Some "x"%string) (Some "1"%string); mkParam (Some "lr"%string) None] [] None in
  osip_uri_to_str_canonical one = osip_uri_to_str_canonical two /\
  osip_uri_to_str one <> osip_uri_to_str two.
Proof. split; [vm_compute; reflexivity|vm_compute; congruence]. Qed.

(** ** At concrete URIs *)

(** A user name with a blank and an at sign, a password, an IPv6 address and a port, a
    parameter of libeXosip2, and header fields, the last one without a value. *)
Definition full_uri : osip_uri :=
  mkUri (Some "sips"%string) (Some "a b@c"%string) (Some "p:w"%string) (Some "::1"%string) (Some "5061"%string)
    [mkParam (Some "lr"%string) None; mkParam (Some "X-OBR"%string) None;
     mkParam (Some "x"%string) (Some "1;=?"%string)]
    [mkParam (Some "Subject"%string) (Some "100% &"%string); mkParam (Some "y"%string) (Some ""%string)] None.

Lemma sip_uri_round_trip_witness :
  osip_uri_to_str full_uri =
    Done (Ok (txt "sips:a%20b%40c:p%3Aw@[::1]:5061;lr;x=1%3B%3D%3F?Subject=100%25%20%26&y=")) /\
  exists t, osip_uri_to_str full_uri = Done (Ok t) /\
    osip_uri_parse osip_uri_init t = Done (OSIP_SUCCESS, visible full_uri).
Proof.
  split; [vm_compute; reflexivity|].
  apply (sip_uri_round_trip full_uri). vm_compute. reflexivity.
Defined.
