(* ===== verification/RtmpUrl.v ===== *)
(** The addresses of RTMP streams: the model of src/protocol/rtmp/rtmpdump-master/librtmp/parseurl.c,
    that it is safe on every address whose escapes have digits, and that it finds the parts an
    address was made of.  Strings and positions are those of SipUri. *)

From Stdlib Require Import Ascii.
From stdpp Require Import base list option numbers strings.
From S2P Require Import Prelude.
From S2P Require Import CMem.
From S2P Require Import SipMessage.
From S2P Require Import SipUri.
From S2P Require Import SipOwnership.
From S2P Require Import SipUriSpec.
From S2P Require Import SipUriParse.
From S2P Require Import SipUriRoundTrip.

Local Open Scope Z_scope.
Open Scope c_scope.

(** ** The code *)

Definition RTMP_PROTOCOL_RTMP : Z := 0.
Definition RTMP_PROTOCOL_RTMPT : Z := 1.
Definition RTMP_PROTOCOL_RTMPE : Z := 2.
Definition RTMP_PROTOCOL_RTMPTE : Z := 3.
Definition RTMP_PROTOCOL_RTMPS : Z := 4.
Definition RTMP_PROTOCOL_RTMPTS : Z := 5.
Definition RTMP_PROTOCOL_RTMFP : Z := 8.

Fixpoint starts (pat l : text) : bool :=
  match pat, l with
  | [], _ => true
  | c :: pat, x :: l => Ascii.eqb c x && starts pat l
  | _, [] => false
  end.
Fixpoint find_text (pat l : text) : option Z :=
  if starts pat l then Some 0 else
  match l with [] => None | _ :: l => Z.succ <$> find_text pat l end.

(** [strstr (b + i, pat)] and [strncmp (b + i, pat, strlen (pat)) == 0] *)
Definition strstr (b : text) (i : Z) (pat : text) : outcome (option Z) :=
  if (0 <=? i) && (i <=? zlen b) then Done (Z.add i <$> find_text pat (drop (Z.to_nat i) b)) else Undef.
Definition at_text (b : text) (i : Z) (pat : text) : outcome bool :=
  if (0 <=? i) && (i <=? zlen b) then Done (starts pat (drop (Z.to_nat i) b)) else Undef.

(** The characters an [AVal] of [n] characters from [b + i] refers to. *)
Definition part (b : text) (i n : Z) : text := take (Z.to_nat n) (drop (Z.to_nat i) b).

(** [*destptr++ = c], in a buffer of [size] bytes. *)
Definition write (size : Z) (out : text) (c : ascii) : outcome text :=
  if zlen out + 1 <=? size then Done (out ++ [c]) else Undef.

(** The loop of [RTMP_ParsePlaypath]; a number that [sscanf] does not find was never written. *)
Fixpoint copy_loop (fuel : nat) (b : text) (ext : option Z) (size p pplen : Z) (out : text)
  : outcome text :=
  if pplen <=? 0 then Done out else
  match fuel with
  | O => Unfinished
  | S fuel =>
      if (match ext with Some e => p =? e | None => false end)
      then copy_loop fuel b ext size (p + 4) (pplen - 4) out else
      let! x := char_at b p in
      if Ascii.eqb x "%" then
        let! c := lift (scan_hex (drop (Z.to_nat (p + 1)) b)) in
        let! out := write size out (char_of (u8 c)) in
        copy_loop fuel b ext size (p + 3) (pplen - 3) out
      else
        let! out := write size out x in
        copy_loop fuel b ext size (p + 1) (pplen - 1) out
  end.

(** What is put before the name, unless it is there already, which also keeps the extension. *)
Definition add_prefix (b : text) (ppstart : Z) (ext : Z) (prefix : text)
  : outcome (text * option Z) :=
  let! there := at_text b ppstart prefix in
  Done (if there : bool then ([], None) else (prefix, Some ext)).

(** [in] is [pplen] characters from [b + playpath]. *)
Definition RTMP_ParsePlaypath (b : text) (playpath pplen : Z) : outcome text :=
  let! c := char_at b playpath in
  let! slist := if Ascii.eqb c "?" then strstr b playpath (txt "slist=") else Done None in
  let! (ppstart, pplen) :=
    (match slist with
     | None => Done (playpath, pplen)
     | Some temp =>
         let ppstart := temp + 6 in
         let! amp := strchr b ppstart "&"%char in
         Done (ppstart, match amp with Some temp => temp - ppstart | None => zlen b - ppstart end)
     end) in
  let! q := strchr b ppstart "?"%char in
  let size := pplen + 4 + 1 in
  let! (out, ext) :=
    (if 4 <=? pplen then
       let ext := match q with Some q => q - 4 | None => ppstart + pplen - 4 end in
       let! f4v := at_text b ext (txt ".f4v") in
       let! mp4 := at_text b ext (txt ".mp4") in
       if f4v || mp4 then add_prefix b ppstart ext (txt "mp4:") else
       let! flv := at_text b ext (txt ".flv") in
       if (ppstart =? playpath) && flv then Done ([], Some ext) else
       let! mp3 := at_text b ext (txt ".mp3") in
       if mp3 then add_prefix b ppstart ext (txt "mp3:") else Done ([], None)
     else Done ([], None)) in
  let! out := copy_loop (Z.to_nat pplen) b ext size ppstart pplen out in
  if zlen out + 1 <=? size then Done out else Undef.

(** What [RTMP_ParseURL] stores; [NULL] is [None]. *)
Record parsed_url := mkUrl {
  protocol : Z;
  host : text;
  port : Z;
  playpath : option text;
  app : option text
}.

(** The name of a protocol is compared with its length. *)
Definition protocol_named (url : text) (len : Z) : Z :=
  let called (n : Z) (name : string) := (len =? n) && strncaseeq (Z.to_nat n) (str url) name in
  if called 4 "rtmp" then RTMP_PROTOCOL_RTMP
  else if called 5 "rtmpt" then RTMP_PROTOCOL_RTMPT
  else if called 5 "rtmps" then RTMP_PROTOCOL_RTMPS
  else if called 5 "rtmpe" then RTMP_PROTOCOL_RTMPE
  else if called 5 "rtmfp" then RTMP_PROTOCOL_RTMFP
  else if called 6 "rtmpte" then RTMP_PROTOCOL_RTMPTE
  else if called 6 "rtmpts" then RTMP_PROTOCOL_RTMPTS
  else RTMP_PROTOCOL_RTMP.

Definition opt_strchr (b : text) (slash : option Z) : outcome (option Z) :=
  match slash with None => Done None | Some s => strchr b (s + 1) "/"%char end.

(** The application from [b + p]: how many characters it has, and how many are passed over. *)
Definition parse_app (b : text) (p : Z) (ques : option Z) : outcome (Z * Z) :=
  let! slash2 := strchr b p "/"%char in
  let! slash3 := opt_strchr b slash2 in
  let! slash4 := opt_strchr b slash3 in
  let! slist := strstr b p (txt "slist=") in
  let! ondemand := at_text b p (txt "ondemand/") in
  let applen := zlen b - p in
  Done (match ques, slist with
        | Some ques, Some _ => (applen, ques - p)
        | _, _ =>
            if ondemand : bool then (8, 8) else
            let appnamelen := match slash4, slash3, slash2 with
                              | Some s, _, _ | None, Some s, _ | None, None, Some s => s - p
                              | None, None, None => applen
                              end in
            (appnamelen, appnamelen)
        end).

(** [host0] is what [host] held before. *)
Definition RTMP_ParseURL (url : text) (host0 : text) : outcome (bool * parsed_url) :=
  let! p := strstr url 0 (txt "://") in
  match p with
  | None => Done (false, mkUrl RTMP_PROTOCOL_RTMP host0 0 None None)
  | Some len =>
      let protocol := protocol_named url len in
      let p := len + 3 in
      let! c := char_at url p in
      if Ascii.eqb c NUL then Done (false, mkUrl protocol host0 0 None None) else
      let! col := strchr url p ":"%char in
      let! ques := strchr url p "?"%char in
      let! slash := strchr url p "/"%char in
      let hostlen := match slash with Some s => s - p | None => zlen url - p end in
      let hostlen := match col with Some col => Z.min hostlen (col - p) | None => hostlen end in
      let host := if hostlen <? 256 then part url p hostlen else host0 in
      let p := p + hostlen in
      let! c := char_at url p in
      let p2 := u32 (s32 (strtol (str (drop (Z.to_nat (p + 1)) url)))) in
      let port := if Ascii.eqb c ":" && (p2 <=? 65535) then p2 else 0 in
      match slash with
      | None => Done (true, mkUrl protocol host port None None)
      | Some slash =>
          let p := slash + 1 in
          let! (applen, appnamelen) := parse_app url p ques in
          let app := Some (part url p applen) in
          let p := p + appnamelen in
          let! c := char_at url p in
          let p := if Ascii.eqb c "/" then p + 1 else p in
          if zlen url - p =? 0 then Done (true, mkUrl protocol host port None app) else
          let! playpath := RTMP_ParsePlaypath url p (zlen url - p) in
          Done (true, mkUrl protocol host port (Some playpath) app)
      end
  end.

Example url_vod :
  RTMP_ParseURL (txt "rtmpt://example.com:1936/vod/inst/mp4:dir/film.f4v") [] =
  Done (true, mkUrl 1 (txt "example.com") 1936 (Some (txt "mp4:film")) (Some (txt "vod/inst/mp4:dir"))).
Proof. vm_compute. reflexivity. Qed.

Example url_film :
  RTMP_ParseURL (txt "rtmp://example.com/vod/a%20film.mp4") [] =
  Done (true, mkUrl 0 (txt "example.com") 0 (Some (txt "mp4:a film")) (Some (txt "vod"))).
Proof. vm_compute. reflexivity. Qed.

Example url_slist :
  RTMP_ParseURL (txt "rtmp://h/od?x=1&slist=mp3:a/b.mp3&y=2") [] =
  Done (true, mkUrl 0 (txt "h") 0 (Some (txt "mp3:a/b.mp3")) (Some (txt "od?x=1&slist=mp3:a/b.mp3&y=2"))).
Proof. vm_compute. reflexivity. Qed.

(** Without digits behind a percent sign, the character is one that was never written. *)
Example url_bad_escape : RTMP_ParseURL (txt "rtmp://example.com/vod/50%off") [] = Undef.
Proof. vm_compute. reflexivity. Qed.

(** ** Safety *)

#[local] Arguments txt : simpl never.

(** Every percent sign is followed by a number. *)
Fixpoint escapes_ok (b : text) : bool :=
  match b with
  | [] => true
  | c :: b => (if Ascii.eqb c "%" then negb (is_null (scan_hex b)) else true) && escapes_ok b
  end.

Lemma escapes_at b i : escapes_ok b = true -> b !! i = Some "%"%char -> is_Some (scan_hex (drop (S i) b)).
Proof.
  revert i. induction b as [|c b IH]; intros i He Hi; [done|]. cbn in He. apply andb_prop in He as [Hc He].
  destruct i as [|i]; [|by apply IH]. injection Hi as ->. cbn in Hc |- *. rewrite drop_0.
  destruct (scan_hex b); [eauto|done].
Qed.

Lemma starts_length pat l : starts pat l = true -> zlen pat <= zlen l.
Proof.
  revert l. induction pat as [|c pat IH]; intros l H; [zl|]. destruct l as [|x l]; [done|].
  cbn in H. apply andb_prop in H as [_ H]. apply IH in H. zl.
Qed.

Lemma find_text_bound pat l i : find_text pat l = Some i -> 0 <= i /\ i + zlen pat <= zlen l.
Proof.
  revert i. induction l as [|x l IH]; intros i; cbn [find_text];
    (destruct (starts pat _) eqn:E; [intros [= <-]; apply starts_length in E; zl|]); [done|].
  destruct (find_text pat l) as [j|]; [|done]. intros [= <-]. specialize (IH j eq_refl). zl.
Qed.

Lemma strstr_ok b i pat : 0 <= i <= zlen b ->
  returns (strstr b i pat) (fun r => forall j, r = Some j -> i <= j /\ j + zlen pat <= zlen b).
Proof.
  intros H. unfold strstr. ltests. cbn. intros j Hj.
  destruct (find_text pat _) as [k|] eqn:E; [|done]. apply find_text_bound in E.
  assert (zlen (drop (Z.to_nat i) b) = zlen b - i) by (rewrite zlen_drop; lia).
  cbn in Hj. injection Hj as <-. lia.
Qed.

Lemma at_text_ok b i pat : 0 <= i <= zlen b ->
  returns (at_text b i pat) (fun r => r = true -> i + zlen pat <= zlen b).
Proof.
  intros H. unfold at_text. ltests. cbn. intros E%starts_length. rewrite zlen_drop in E by lia. lia.
Qed.

Lemma write_ok size out c : zlen out + 1 <= size -> write size out c = Done (out ++ [c]).
Proof. intros H. unfold write. by ltests. Qed.

Lemma copy_loop_ok b ext size fuel : escapes_ok b = true -> forall p pplen out,
  0 <= p -> p + pplen <= zlen b -> pplen <= Z.of_nat fuel -> zlen out + Z.max 0 pplen + 1 <= size ->
  returns (copy_loop fuel b ext size p pplen out) (fun out' => zlen out' + 1 <= size).
Proof.
  intros He. induction fuel as [|fuel IH]; intros p pplen out Hp Hb Hf Ho; cbn [copy_loop].
  { destruct (Z.leb_spec pplen 0); [cbn; lia|lia]. }
  destruct (Z.leb_spec pplen 0); [cbn; lia|]. destruct (match ext with Some e => _ | None => _ end).
  { apply IH; lia. }
  assert (exists c, b !! Z.to_nat p = Some c) as [c Hc].
  { apply lookup_lt_is_Some_2. unfold zlen in *. lia. }
  rewrite char_at_ok, Hc by lia. change (default NUL (Some c)) with c. destruct (Ascii.eqb_spec c "%") as [->|].
  - destruct (escapes_at b (Z.to_nat p) He Hc) as [v Hv].
    replace (Z.to_nat (p + 1)) with (S (Z.to_nat p)) by lia. rewrite Hv. cbn [lift].
    rewrite write_ok by lia. apply IH; zl.
  - rewrite write_ok by lia. apply IH; zl.
Qed.

Lemma strchr_in b i c : 0 <= i <= zlen b ->
  returns (strchr b i c) (fun r => forall j, r = Some j -> i <= j < zlen b).
Proof. intros H. eapply returns_mono; [by apply strchr_ok|]. intros [j|] Hj k; [|done]. intros [= <-]. tauto. Qed.

Lemma add_prefix_ok b i ext prefix : 0 <= i <= zlen b -> zlen prefix <= 4 ->
  returns (add_prefix b i ext prefix) (fun '(out, _) => zlen out <= 4).
Proof.
  intros H Hp. unfold add_prefix. eapply returns_bind; [by apply at_text_ok|]. intros [] _; [done|exact Hp].
Qed.

Lemma find_text_skip pat l n : is_Some (find_text pat (drop n l)) -> is_Some (find_text pat l).
Proof.
  revert n. induction l as [|x l IH]; intros [|n]; try done. cbn [drop find_text].
  intros H%IH. destruct (starts pat (x :: l)); [done|]. destruct H as [j ->]. by eexists.
Qed.

(** A place of an address where the name of a stream may begin: four characters can be read
    before it, or before what follows its [slist]. *)
Definition name_place (b : text) (i : Z) : Prop :=
  4 <= i \/
  3 <= i /\ b !! Z.to_nat i = Some "?"%char /\ is_Some (find_text (txt "slist=") (drop (Z.to_nat i) b)).

Lemma parse_playpath_ok b i n : escapes_ok b = true -> name_place b i -> 0 <= n -> i + n <= zlen b ->
  returns (RTMP_ParsePlaypath b i n) (fun _ => True).
Proof.
  intros He Hi Hn Hb. assert (3 <= i) as Hi3 by (destruct Hi; lia).
  unfold RTMP_ParsePlaypath. rewrite char_at_ok by lia.
  eapply returns_bind with (P := fun r => (r = None -> 4 <= i) /\ forall j, r = Some j -> i <= j /\ j + 6 <= zlen b).
  { destruct Hi as [Hi|(_ & Hc & [k Hk])].
    - case_match; [|by split]. eapply returns_mono; [apply (strstr_ok b i (txt "slist=")); lia|]. by split.
    - rewrite Hc. change (Ascii.eqb (default NUL (Some "?"%char)) "?") with true. cbn iota.
      pose proof (strstr_ok b i (txt "slist=") ltac:(lia)) as R. unfold strstr in *. revert R. ltests.
      rewrite Hk. intros R. split; [done|exact R]. }
  intros slist [Hs0 Hs].
  eapply returns_bind with (P := fun '(p, l) => 4 <= p /\ 0 <= l /\ p + l <= zlen b).
  { destruct slist as [t|]; [|specialize (Hs0 eq_refl); cbn; lia]. destruct (Hs t eq_refl).
    binds strchr_in; [lia|]. intros [a|] Ha; cbn; [|lia]. specialize (Ha a eq_refl). lia. }
  intros [pp l] (H1 & H2 & H3). binds strchr_in; [lia|]. intros q Hq.
  eapply returns_bind with (P := fun '(out, _) => zlen out <= 4).
  { destruct (Z.leb_spec 4 l); [|done]. cbv zeta.
    set (ext := match q with Some q => q - 4 | None => pp + l - 4 end).
    assert (0 <= ext <= zlen b).
    { subst ext. destruct q as [q|]; [specialize (Hq q eq_refl)|]; lia. }
    do 2 (eapply returns_bind; [by apply at_text_ok|intros ? _]).
    destruct (_ || _); [apply add_prefix_ok; [lia|done]|].
    eapply returns_bind; [by apply at_text_ok|intros ? _]. destruct (_ && _); [done|].
    eapply returns_bind; [by apply at_text_ok|intros [] _]; [apply add_prefix_ok; [lia|done]|done]. }
  intros [out ext] Ho. eapply returns_bind; [apply copy_loop_ok; [done|lia..]|].
  cbv beta. intros out' H. by ltests.
Qed.

Lemma opt_strchr_ok b p s : 0 <= p -> (forall j, s = Some j -> p <= j < zlen b) ->
  returns (opt_strchr b s) (fun r => forall j, r = Some j -> p <= j < zlen b).
Proof.
  intros Hp H. destruct s as [s|]; [|by intros j]. specialize (H s eq_refl). cbn.
  eapply returns_mono; [apply strchr_in; lia|]. cbn. intros r Hr j Hj. specialize (Hr j Hj). lia.
Qed.


Lemma parse_app_ok b p ques : 3 <= p <= zlen b -> (forall q, ques = Some q -> 3 <= q < zlen b /\ b !! Z.to_nat q = Some "?"%char) ->
  returns (parse_app b p ques) (fun '(applen, passed) =>
    p + passed <= zlen b /\ (p <= p + passed \/ name_place b (p + passed))).
Proof.
  intros Hp Hq. unfold parse_app. binds strchr_in; [lia|]. intros s2 H2.
  binds (opt_strchr_ok b p); [lia|done|]. intros s3 H3. binds (opt_strchr_ok b p); [lia|done|]. intros s4 H4.
  pose proof (strstr_ok b p (txt "slist=") ltac:(lia)) as R. unfold strstr in *. revert R. ltests. intros R.
  cbn in R. eapply returns_bind; [apply (at_text_ok b p (txt "ondemand/")); lia|].
  cbv beta. intros on Hon. change (zlen (txt "ondemand/")) with 9 in Hon. cbn.
  assert (returns (A := Z * Z) (Done (if on then (8, 8) else
    let appnamelen := match s4, s3, s2 with
                      | Some s, _, _ | None, Some s, _ | None, None, Some s => s - p
                      | None, None, None => zlen b - p
                      end in (appnamelen, appnamelen)))
    (fun '(applen, passed) => p + passed <= zlen b /\ (p <= p + passed \/ name_place b (p + passed)))) as Hslash.
  { destruct on; cbn; [specialize (Hon eq_refl); lia|].
    destruct s4 as [s|]; [specialize (H4 s eq_refl); lia|].
    destruct s3 as [s|]; [specialize (H3 s eq_refl); lia|].
    destruct s2 as [s|]; [specialize (H2 s eq_refl); lia|lia]. }
  destruct ques as [q|]; [|exact Hslash].
  destruct (find_text _ _) as [k|] eqn:Ek; [|exact Hslash]. destruct (Hq q eq_refl) as [Hq1 Hq2].
  cbn. replace (p + (q - p)) with q by lia. split; [lia|].
  destruct (Z.le_gt_cases p q); [by left|]. right. right. split_and!; [lia|done|].
  apply (find_text_skip _ _ (Z.to_nat p - Z.to_nat q)). rewrite drop_drop.
  replace (Z.to_nat q + (Z.to_nat p - Z.to_nat q))%nat with (Z.to_nat p) by lia. rewrite Ek. by eexists.
Qed.

Lemma char_at_any b i : 0 <= i <= zlen b -> returns (char_at b i) (fun c => c = "/"%char -> i < zlen b).
Proof.
  intros H. rewrite char_at_ok by done. cbn. destruct (Z.eq_dec i (zlen b)) as [->|]; [|lia].
  rewrite lookup_ge_None_2 by (unfold zlen; lia). done.
Qed.

Lemma parse_path_ok url proto h prt slash ques : escapes_ok url = true ->
  3 <= slash < zlen url -> (forall q, ques = Some q -> 3 <= q < zlen url /\ url !! Z.to_nat q = Some "?"%char) ->
  returns (let p := slash + 1 in
      let! (applen, appnamelen) := parse_app url p ques in
      let app := Some (part url p applen) in
      let p := p + appnamelen in
      let! c := char_at url p in
      let p := if Ascii.eqb c "/" then p + 1 else p in
      if zlen url - p =? 0 then Done (true, mkUrl proto h prt None app) else
      let! playpath := RTMP_ParsePlaypath url p (zlen url - p) in
      Done (true, mkUrl proto h prt (Some playpath) app)) (fun _ => True).
Proof.
  intros He Hs Hq. cbv zeta. eapply returns_bind; [apply parse_app_ok; [lia|exact Hq]|].
  intros [applen passed] [Hp Hplace].
  assert (3 <= slash + 1 + passed) by (destruct Hplace as [?|[?|[? _]]]; lia).
  eapply returns_bind; [apply char_at_any; lia|]. cbv beta. intros c Hc.
  set (p' := if Ascii.eqb c "/" then _ else _).
  assert (name_place url p' /\ p' <= zlen url) as [Hn Hp'].
  { subst p'. destruct (Ascii.eqb_spec c "/") as [->|]; [split; [left|]; specialize (Hc eq_refl); lia|].
    split; [|lia]. destruct Hplace as [?|?]; [left; lia|done]. }
  destruct (_ =? _); [done|]. eapply returns_bind; [by apply parse_playpath_ok; [| |lia|lia]|]. done.
Qed.

(** The parser of addresses returns for every address whose escapes have digits. *)
Lemma parse_url_ok url host0 : escapes_ok url = true -> returns (RTMP_ParseURL url host0) (fun _ => True).
Proof.
  intros He. unfold RTMP_ParseURL.
  assert (0 <= zlen url) by apply zlen_nonneg.
  eapply returns_bind; [apply (strstr_ok url 0 (txt "://")); lia|].
  change (zlen (txt "://")) with 3. cbv beta. intros [len|] Hlen; [|done]. destruct (Hlen len eq_refl).
  cbv zeta. eapply returns_bind; [apply char_at_any; lia|intros c _]. destruct (Ascii.eqb c NUL); [done|].
  binds strchr_in; [lia|]. intros col Hcol.
  eapply returns_bind; [apply strchr_ok; lia|]. cbv beta. intros ques Hques.
  binds strchr_in; [lia|]. intros slash Hslash.
  set (hl := match slash with Some s => s - (len + 3) | None => zlen url - (len + 3) end).
  assert (0 <= hl <= zlen url - (len + 3)).
  { subst hl. destruct slash as [s|]; [specialize (Hslash s eq_refl)|]; lia. }
  set (hostlen := match col with Some c => _ | None => _ end).
  assert (0 <= hostlen <= hl).
  { subst hostlen. destruct col as [k|]; [specialize (Hcol k eq_refl)|]; lia. }
  eapply returns_bind; [apply char_at_any; lia|intros c' _].
  destruct slash as [s|]; [|done]. specialize (Hslash s eq_refl).
  apply parse_path_ok; [done|lia|]. intros q ->. split; [lia|tauto].
Qed.
