(* ===== verification/RtmpUrlSpec.v ===== *)
(** The addresses of RTMP streams: the parser finds the parts that an address was made of, and
    gives the name of the stream as the server wants it. *)

From Stdlib Require Import Ascii.
From stdpp Require Import base list option numbers strings.
From S2P Require Import Prelude.
From S2P Require Import CMem.
From S2P Require Import SipMessage.
From S2P Require Import SipUri.
From S2P Require Import SipOwnership.
From S2P Require Import SipUriSpec.
From S2P Require Import SipUriParse.
From S2P Require Import SipUriRoundTrip.
From S2P Require Import RtmpUrl.

Local Open Scope Z_scope.
Open Scope c_scope.

(** ** Addresses *)

(** [protocol://host:port/application/stream]; the application has up to three levels. *)
Record address := mkAddress {
  a_protocol : string;
  a_host : text;
  a_port : option text;
  a_app : list text;
  a_stream : text
}.

Fixpoint path_text (l : list text) : text :=
  match l with [] => [] | [s] => s | s :: l => s ++ "/"%char :: path_text l end.

Definition port_text (port : option text) : text :=
  match port with None => [] | Some pt => ":"%char :: pt end.
Definition port_value (port : option text) : Z :=
  match port with None => 0 | Some pt => digits (str pt) 0 end.

Definition address_text (a : address) : text :=
  txt (a_protocol a) ++ txt "://" ++ a_host a ++ port_text (a_port a) ++
  "/"%char :: path_text (a_app a) ++ "/"%char :: a_stream a.

Definition protocols : list (string * Z) :=
  [("rtmp", RTMP_PROTOCOL_RTMP); ("rtmpt", RTMP_PROTOCOL_RTMPT); ("rtmps", RTMP_PROTOCOL_RTMPS);
   ("rtmpe", RTMP_PROTOCOL_RTMPE); ("rtmfp", RTMP_PROTOCOL_RTMFP); ("rtmpte", RTMP_PROTOCOL_RTMPTE);
   ("rtmpts", RTMP_PROTOCOL_RTMPTS)]%string.

Definition is_empty (s : text) : bool := match s with [] => true | _ => false end.

Definition port_ok (port : option text) : bool :=
  match port with
  | None => true
  | Some pt => negb (is_empty pt) && forallb is_digit pt && (digits (str pt) 0 <=? 65535)
  end.

Definition level_ok (s : text) : bool := free "/"%char s && free "?"%char s.

(** The stream has no directories unless the application has three levels: the parser takes as
    many as there are. *)
Definition app_ok (l : list text) (stream : text) : bool :=
  match l with
  | [s1] => free "/"%char stream
  | [s1; s2] => free "/"%char stream
  | [s1; s2; s3] => true
  | _ => false
  end && negb (starts (txt "ondemand/") (path_text l ++ "/"%char :: stream)) && forallb level_ok l.

Definition address_ok (a : address) : bool :=
  existsb (fun p => String.eqb p.1 (a_protocol a)) protocols &&
  (negb (is_empty (a_host a)) && (zlen (a_host a) <? 256) && lacks [":"; "/"; "?"; NUL]%char (a_host a)) &&
  port_ok (a_port a) && app_ok (a_app a) (a_stream a) &&
  (negb (is_empty (a_stream a)) && free "?"%char (a_stream a) && free "%"%char (a_stream a)).

Definition protocol_number (name : string) : Z :=
  match List.find (fun p => String.eqb p.1 name) protocols with Some p => p.2 | None => RTMP_PROTOCOL_RTMP end.

(** The name of a stream: the extensions of videos and of music go, and are announced in
    front, unless this has been done already. *)
Definition has_extension (e : text) (stream : text) : bool :=
  (4 <=? zlen stream) && starts e (drop (length stream - 4) stream).
Definition without_extension (stream : text) : text := take (length stream - 4) stream.
Definition announced (prefix stream : text) : text :=
  if starts prefix stream then stream else prefix ++ without_extension stream.
Definition stream_name (stream : text) : text :=
  if has_extension (txt ".f4v") stream || has_extension (txt ".mp4") stream then announced (txt "mp4:") stream
  else if has_extension (txt ".flv") stream then without_extension stream
  else if has_extension (txt ".mp3") stream then announced (txt "mp3:") stream
  else stream.

(** ** The name of the stream *)

#[local] Arguments txt : simpl never.

(** Characters that are copied as they are. *)
Lemma copy_plain s : forall pre r b ext size p pplen fuel out,
  b = pre ++ s ++ r -> p = zlen pre -> free "%"%char s = true -> zlen s <= pplen ->
  (forall e, ext = Some e -> p + zlen s <= e) -> zlen out + zlen s <= size ->
  copy_loop (length s + fuel) b ext size p pplen out =
  copy_loop fuel b ext size (p + zlen s) (pplen - zlen s) (out ++ s).
Proof.
  induction s as [|c s IH]; intros pre r b ext size p pplen fuel out Eb Ep Hs Hl He Ho.
  { rewrite zlen_nil, app_nil_r, Z.add_0_r, Z.sub_0_r. done. }
  rewrite free_cons in Hs. apply andb_prop in Hs as [Hc Hs].
  assert (0 < pplen) by zl. cbn [length Nat.add copy_loop]. ltests.
  assert ((match ext with Some e => p =? e | None => false end) = false) as ->.
  { destruct ext as [e|]; [|done]. specialize (He e eq_refl). apply Z.eqb_neq. zl. }
  rewrite (char_at_mid pre c (s ++ r)) by done. rewrite Ascii.eqb_sym.
  destruct (Ascii.eqb "%" c); [done|]. rewrite write_ok by zl.
  rewrite (IH (pre ++ [c]) r b ext size (p + 1) (pplen - 1) fuel (out ++ [c])).
  - rewrite <- app_assoc, zlen_cons. cbn [app]. f_equal; lia.
  - rewrite Eb. lists.
  - zl.
  - done.
  - zl.
  - intros e E. specialize (He e E). zl.
  - zl.
Qed.

Lemma copy_whole pre s b size out :
  b = pre ++ s -> free "%"%char s = true -> zlen out + zlen s <= size ->
  copy_loop (Z.to_nat (zlen s)) b None size (zlen pre) (zlen s) out = Done (out ++ s).
Proof.
  intros Eb Hs Ho. unfold zlen at 1. rewrite Nat2Z.id. replace (length s) with (length s + 0)%nat by lia.
  rewrite (copy_plain s pre [] b) by (try done; by rewrite ?app_nil_r).
  cbn [copy_loop]. by ltests.
Qed.

Lemma copy_but_extension pre s e b size out :
  b = pre ++ s ++ e -> zlen e = 4 -> free "%"%char s = true -> zlen out + zlen s <= size ->
  copy_loop (Z.to_nat (zlen (s ++ e))) b (Some (zlen pre + zlen s)) size (zlen pre) (zlen (s ++ e)) out =
  Done (out ++ s).
Proof.
  intros Eb He Hs Ho. replace (Z.to_nat (zlen (s ++ e))) with (length s + 4)%nat by (unfold zlen in *; rewrite length_app; lia).
  rewrite (copy_plain s pre e b); [|done..|zl|intros ? [= <-]; lia|done].
  cbn [copy_loop]. do 2 ltest. all: try (exfalso; zl). rewrite Z.eqb_refl.
  destruct (Z.leb_spec (zlen (s ++ e) - zlen s - 4) 0); [done|exfalso; zl].
Qed.

Lemma at_text_eq pre r b i pat : b = pre ++ r -> i = zlen pre -> at_text b i pat = Done (starts pat r).
Proof. intros -> Ei. unfold at_text. ltests. by rewrite drop_mid. Qed.

Lemma take_mid {A} (p s r : list A) i n : i = zlen p -> n = zlen s ->
  take (Z.to_nat n) (drop (Z.to_nat i) (p ++ s ++ r)) = s.
Proof. intros Ei ->. rewrite drop_mid by done. unfold zlen. rewrite Nat2Z.id. apply take_app_length. Qed.

Lemma extension_split (s : text) : 4 <= zlen s ->
  s = without_extension s ++ drop (length s - 4) s /\ zlen (drop (length s - 4) s) = 4.
Proof.
  intros H. split; [symmetry; apply take_drop|]. unfold zlen in *. rewrite length_drop. lia.
Qed.

Lemma parse_playpath_eq pre s :
  s <> [] -> free "?"%char s = true -> free "%"%char s = true ->
  RTMP_ParsePlaypath (pre ++ s) (zlen pre) (zlen s) = Done (stream_name s).
Proof.
  intros Hs Hq Hp. set (b := pre ++ s). unfold RTMP_ParsePlaypath.
  assert (exists c s0, s = c :: s0) as (c & s0 & Es) by (destruct s; [done|eauto]).
  assert (0 <= zlen pre) by apply zlen_nonneg.
  rewrite (char_at_mid pre c s0) by (try done; by rewrite <- Es).
  assert (Ascii.eqb c "?" = false) as ->.
  { rewrite Es, free_cons in Hq. apply andb_prop in Hq as [Hc _]. rewrite Ascii.eqb_sym. by destruct (Ascii.eqb "?" c). }
  cbn [strchr]. rewrite (strchr_none pre s) by done.
  assert (forall out, zlen out <= 4 ->
    (let! out := copy_loop (Z.to_nat (zlen s)) b None (zlen s + 4 + 1) (zlen pre) (zlen s) out in
     if zlen out + 1 <=? zlen s + 4 + 1 then Done out else Undef) = Done (out ++ s)) as Hall.
  { intros out Ho. rewrite (copy_whole pre) by (done || lia). by ltests. }
  unfold stream_name, has_extension. destruct (Z.leb_spec 4 (zlen s)) as [H4|H4]; [|by apply (Hall [])].
  cbn [andb]. destruct (extension_split s H4) as [E He]. set (e := drop (length s - 4) s) in *.
  assert (b = (pre ++ without_extension s) ++ e) as Eb by (subst b; by rewrite <- app_assoc, <- E).
  assert (zlen pre + zlen s - 4 = zlen (pre ++ without_extension s)) as Ei by (rewrite E at 1; zl).
  assert (free "%"%char (without_extension s) = true) as Hw.
  { rewrite E, free_app in Hp. by apply andb_prop in Hp as [? _]. }
  assert (forall out, zlen out <= 4 ->
    (let! out := copy_loop (Z.to_nat (zlen s)) b (Some (zlen pre + zlen s - 4)) (zlen s + 4 + 1) (zlen pre) (zlen s) out in
     if zlen out + 1 <=? zlen s + 4 + 1 then Done out else Undef) = Done (out ++ without_extension s)) as Hext.
  { intros out Ho. assert (zlen s = zlen (without_extension s ++ e)) as -> by (by rewrite <- E).
    replace (zlen pre + zlen (without_extension s ++ e) - 4) with (zlen pre + zlen (without_extension s)) by zl.
    rewrite (copy_but_extension pre) by first [done | zl | subst b; by rewrite app_assoc]. by ltests. }
  rewrite !(at_text_eq (pre ++ without_extension s) e b) by done.
  assert (forall prefix, zlen prefix <= 4 ->
    (let! (out, ext) := add_prefix b (zlen pre) (zlen pre + zlen s - 4) prefix in
     let! out := copy_loop (Z.to_nat (zlen s)) b ext (zlen s + 4 + 1) (zlen pre) (zlen s) out in
     if zlen out + 1 <=? zlen s + 4 + 1 then Done out else Undef) = Done (announced prefix s)) as Hpre.
  { intros prefix Hl. unfold add_prefix, announced. rewrite (at_text_eq pre s b) by done.
    destruct (starts prefix s); [apply (Hall [])|by apply Hext]. zl. }
  destruct (starts (txt ".f4v") e || starts (txt ".mp4") e); [by apply Hpre|].
  rewrite Z.eqb_refl. cbn [andb]. destruct (starts (txt ".flv") e); [by apply (Hext [])|].
  destruct (starts (txt ".mp3") e); [by apply Hpre|by apply (Hall [])].
Qed.

(** ** The parts of an address *)

Lemma protocol_cases name :
  existsb (fun p => String.eqb p.1 name) protocols = true -> name ∈ map fst protocols.
Proof.
  intros H. apply existsb_exists in H as (p & Hp & E). apply String.eqb_eq in E as <-.
  apply list_elem_of_fmap_2. by apply list_elem_of_In.
Qed.

Lemma protocol_found name r : name ∈ map fst protocols ->
  find_text (txt "://") (txt name ++ txt "://" ++ r) = Some (zlen (txt name)) /\
  protocol_named (txt name ++ txt "://" ++ r) (zlen (txt name)) = protocol_number name.
Proof.
  intros H. cbn in H. repeat (apply elem_of_cons in H as [->|H]; [split; reflexivity|]).
  by apply not_elem_of_nil in H.
Qed.

Lemma digit_char c : is_digit c = true -> 48 <= code c <= 57.
Proof. unfold is_digit. rewrite andb_true_iff, !Z.leb_le. done. Qed.

Lemma digits_before pt : forall acc r, forallb is_digit pt = true -> 0 <= acc ->
  digits (str (pt ++ "/"%char :: r)) acc = digits (str pt) acc /\ acc <= digits (str pt) acc.
Proof.
  induction pt as [|c pt IH]; intros acc r Hd Ha; [split; [reflexivity|cbn; lia]|].
  cbn [forallb] in Hd. apply andb_prop in Hd as [Hc Hd]. pose proof (digit_char c Hc).
  change (str ((c :: pt) ++ "/"%char :: r)) with (String c (str (pt ++ "/"%char :: r))).
  change (str (c :: pt)) with (String c (str pt)). cbn [digits]. rewrite Hc.
  destruct (IH (acc * 10 + (code c - 48)) r Hd) as [-> ?]; [lia|]. split; [done|lia].
Qed.

Lemma port_read pt r :
  pt <> [] -> forallb is_digit pt = true -> digits (str pt) 0 <= 65535 ->
  u32 (s32 (strtol (str (pt ++ "/"%char :: r)))) = digits (str pt) 0.
Proof.
  intros Hn Hd Hv. destruct (digits_before pt 0 r Hd ltac:(lia)) as [E H0].
  destruct pt as [|c pt]; [done|]. pose proof Hd as Hc. cbn [forallb] in Hc. apply andb_prop in Hc as [Hc _].
  apply digit_char in Hc. assert (strtol (str ((c :: pt) ++ "/"%char :: r)) = digits (str (c :: pt)) 0) as ->.
  { rewrite <- E at 1. change (str ((c :: pt) ++ "/"%char :: r)) with (String c (str (pt ++ "/"%char :: r))) in *.
    cbn [strtol]. unfold is_space. ltests. rewrite E. lia. }
  rewrite swrap_small, uwrap_id by (unfold is_u; lia). done.
Qed.

Lemma opt_strchr_at p a r b i :
  b = p ++ "/"%char :: a ++ "/"%char :: r -> i = zlen p -> free "/"%char a = true ->
  opt_strchr b (Some i) = Done (Some (i + 1 + zlen a)).
Proof.
  intros Eb Ei Ha. cbn [opt_strchr]. apply (strchr_at (p ++ ["/"%char]) a r); [|zl|done|done].
  rewrite Eb. lists.
Qed.

Lemma opt_strchr_none p a b i :
  b = p ++ "/"%char :: a -> i = zlen p -> free "/"%char a = true -> opt_strchr b (Some i) = Done None.
Proof.
  intros Eb Ei Ha. cbn [opt_strchr]. apply (strchr_none (p ++ ["/"%char]) a); [|zl|done]. rewrite Eb. lists.
Qed.

(** Where the parser takes the application to end: one slash for each of its levels. *)
Lemma slashes_found pre l stream b :
  app_ok l stream = true -> b = pre ++ path_text l ++ "/"%char :: stream ->
  exists s2 s3 s4,
    strchr b (zlen pre) "/"%char = Done (Some s2) /\ opt_strchr b (Some s2) = Done s3 /\
    opt_strchr b s3 = Done s4 /\
    match s4, s3 with Some s, _ | None, Some s => s | None, None => s2 end = zlen pre + zlen (path_text l).
Proof.
  unfold app_ok. intros [[Hl _]%andb_prop Hf]%andb_prop Eb.
  destruct l as [|s1 [|s2 [|s3 [|]]]]; try done; cbn [forallb path_text] in *;
    unfold level_ok in Hf; rewrite !andb_true_iff in Hf.
  - exists (zlen pre + zlen s1), None, None. split_and!; [| |done|done].
    + apply (strchr_at pre s1 stream); [done|done|tauto|done].
    + apply (opt_strchr_none (pre ++ s1) stream); [subst b; lists|zl|done].
  - exists (zlen pre + zlen s1), (Some (zlen pre + zlen s1 + 1 + zlen s2)), None. split_and!; [| | |zl].
    + apply (strchr_at pre s1 (s2 ++ "/"%char :: stream)); [subst b; lists|done|tauto|done].
    + apply (opt_strchr_at (pre ++ s1) s2 stream); [subst b; lists|zl|tauto].
    + apply (opt_strchr_none (pre ++ s1 ++ "/"%char :: s2) stream); [subst b; lists|zl|done].
  - exists (zlen pre + zlen s1), (Some (zlen pre + zlen s1 + 1 + zlen s2)),
      (Some (zlen pre + zlen s1 + 1 + zlen s2 + 1 + zlen s3)). split_and!; [| | |zl].
    + apply (strchr_at pre s1 (s2 ++ "/"%char :: s3 ++ "/"%char :: stream)); [subst b; lists|done|tauto|done].
    + apply (opt_strchr_at (pre ++ s1) s2 (s3 ++ "/"%char :: stream)); [subst b; lists|zl|tauto].
    + apply (opt_strchr_at (pre ++ s1 ++ "/"%char :: s2) s3 stream); [subst b; lists|zl|tauto].
Qed.

Lemma parse_app_eq pre l stream b :
  app_ok l stream = true -> b = pre ++ path_text l ++ "/"%char :: stream ->
  parse_app b (zlen pre) None = Done (zlen (path_text l), zlen (path_text l)).
Proof.
  intros Ha Eb. destruct (slashes_found pre l stream b Ha Eb) as (s2 & s3 & s4 & E2 & E3 & E4 & E).
  unfold parse_app. rewrite E2, E3, E4. unfold strstr.
  assert (zlen pre <= zlen b) by (subst b; zl). assert (0 <= zlen pre) by apply zlen_nonneg. ltests.
  rewrite (at_text_eq pre (path_text l ++ "/"%char :: stream)) by done.
  unfold app_ok in Ha. apply andb_prop in Ha as [[_ Ho]%andb_prop _]. apply negb_true_iff in Ho. rewrite Ho.
  destruct s4 as [s|]; [|destruct s3 as [s|]]; do 2 f_equal; lia.
Qed.

Lemma path_question l : forallb level_ok l = true -> free "?"%char (path_text l) = true.
Proof.
  induction l as [|s l IH]; [done|]. cbn [forallb path_text]. unfold level_ok at 1.
  rewrite !andb_true_iff. intros [[_ Hs] Hl]. destruct l as [|s' l]; [done|].
  rewrite free_app, free_cons, Hs, IH by done. done.
Qed.

Lemma digits_free c pt : forallb is_digit pt = true -> is_digit c = false -> free c pt = true.
Proof.
  intros Hd Hc. unfold free. apply negb_true_iff. apply not_true_is_false. intros H.
  apply existsb_exists in H as (x & Hx & E). apply Ascii.eqb_eq in E as <-.
  rewrite forallb_forall in Hd. rewrite (Hd _ Hx) in Hc. done.
Qed.

Lemma port_text_free c port : port_ok port = true -> is_digit c = false -> Ascii.eqb c ":" = false ->
  free c (port_text port) = true.
Proof.
  destruct port as [pt|]; [|done]. cbn. rewrite !andb_true_iff. intros [[_ Hd] _] Hc Hn.
  rewrite free_cons, (digits_free c pt) by done. by rewrite Hn.
Qed.

(** Behind the first slash. *)
Lemma path_read pre l stream url proto h prt :
  app_ok l stream = true -> stream <> [] -> free "?"%char stream = true -> free "%"%char stream = true ->
  url = pre ++ path_text l ++ "/"%char :: stream ->
  (let! (applen, appnamelen) := parse_app url (zlen pre) None in
   let app := Some (part url (zlen pre) applen) in
   let p := zlen pre + appnamelen in
   let! c := char_at url p in
   let p := if Ascii.eqb c "/" then p + 1 else p in
   if zlen url - p =? 0 then Done (true, mkUrl proto h prt None app) else
   let! playpath := RTMP_ParsePlaypath url p (zlen url - p) in
   Done (true, mkUrl proto h prt (Some playpath) app)) =
  Done (true, mkUrl proto h prt (Some (stream_name stream)) (Some (path_text l))).
Proof.
  intros Ha Hn Hq Hp Eu. rewrite (parse_app_eq pre l stream url) by done. cbv zeta.
  rewrite (char_at_mid (pre ++ path_text l) "/"%char stream) by (subst url; first [lists | zl]).
  rewrite Ascii.eqb_refl. assert (0 < zlen stream) by (destruct stream; [done|zl]).
  assert (zlen url - (zlen pre + zlen (path_text l) + 1) = zlen stream) as -> by (subst url; zl).
  destruct (Z.eqb_spec (zlen stream) 0); [lia|].
  replace (part url (zlen pre) (zlen (path_text l))) with (path_text l)
    by (unfold part; rewrite Eu; by rewrite take_mid).
  assert (url = (pre ++ path_text l ++ ["/"%char]) ++ stream) as -> by (subst url; lists).
  replace (zlen pre + zlen (path_text l) + 1) with (zlen (pre ++ path_text l ++ ["/"%char])) by zl.
  by rewrite parse_playpath_eq.
Qed.

Lemma index_of_nonneg c l j : index_of c l = Some j -> 0 <= j.
Proof. pose proof (index_of_spec c l) as S. intros E. rewrite E in S. lia. Qed.

(** The host ends at the colon, or at the slash. *)
Lemma host_length pre h port r b :
  b = pre ++ h ++ port_text port ++ "/"%char :: r -> free ":"%char h = true ->
  exists col, strchr b (zlen pre) ":"%char = Done col /\
    match col with
    | Some col => Z.min (zlen h + zlen (port_text port)) (col - zlen pre)
    | None => zlen h + zlen (port_text port)
    end = zlen h.
Proof.
  intros Eb Hh. rewrite (strchr_skip pre h _ ":"%char b (zlen pre) Eb eq_refl Hh). eexists. split; [done|].
  pose proof (zlen_nonneg h). destruct port as [pt|]; cbn [port_text app].
  - cbn. pose proof (zlen_nonneg pt). rewrite zlen_cons. lia.
  - rewrite zlen_nil. cbn. destruct (index_of ":"%char r) as [j|] eqn:E; cbn; [|lia].
    apply index_of_nonneg in E. lia.
Qed.

(** The character behind the host, and the port that is read from there. *)
Lemma port_found pre port r b :
  b = pre ++ port_text port ++ "/"%char :: r -> port_ok port = true ->
  exists c, char_at b (zlen pre) = Done c /\
    (let p2 := u32 (s32 (strtol (str (drop (Z.to_nat (zlen pre + 1)) b)))) in
     if Ascii.eqb c ":" && (p2 <=? 65535) then p2 else 0) = port_value port.
Proof.
  intros Eb Hp. destruct port as [pt|]; cbn [port_text app port_ok port_value] in *.
  - exists ":"%char. split; [by apply (char_at_mid pre ":"%char (pt ++ "/"%char :: r))|].
    rewrite !andb_true_iff, Z.leb_le in Hp. destruct Hp as [[Hn Hd] Hv].
    assert (drop (Z.to_nat (zlen pre + 1)) b = pt ++ "/"%char :: r) as ->.
    { replace b with ((pre ++ [":"%char]) ++ pt ++ "/"%char :: r) by (subst b; lists). apply drop_mid. zl. }
    cbv zeta. rewrite port_read by (try done; by destruct pt). rewrite Ascii.eqb_refl. cbn [andb]. by ltests.
  - exists "/"%char. split; [by apply (char_at_mid pre "/"%char r)|done].
Qed.

(** C24: an address is read as the parts it was made of: the protocol by its name, the host, the
    port if there is one, an application of up to three levels, and the name of the stream
    without the extension of a video or of music, which is announced in front.  As many levels
    as there are, up to three, are taken for the application, although the comments in the code
    say app[/appinstance], two: so a stream with directories is only read back when the application
    has three levels.  The host has less than 256 characters; nothing has a question
    mark, the stream no percent sign, and the path does not begin with ondemand/, which the
    parser treats otherwise. *)
Theorem rtmp_url_round_trip a host0 :
  address_ok a = true ->
  RTMP_ParseURL (address_text a) host0 =
  Done (true, mkUrl (protocol_number (a_protocol a)) (a_host a) (port_value (a_port a))
    (Some (stream_name (a_stream a))) (Some (path_text (a_app a)))).
Proof.
  destruct a as [name h port l stream]. unfold address_ok, address_text. cbn [a_protocol a_host a_port a_app a_stream].
  intros [[[[Hname%protocol_cases [[Hh Hlen%Z.ltb_lt]%andb_prop Hlacks]%andb_prop]%andb_prop Hport]%andb_prop Happ]%andb_prop
    [[Hs Hsq]%andb_prop Hsp]%andb_prop]%andb_prop.
  unfold lacks in Hlacks. cbn [forallb] in Hlacks. rewrite !andb_true_iff in Hlacks.
  set (rest := h ++ port_text port ++ "/"%char :: path_text l ++ "/"%char :: stream).
  destruct (protocol_found name rest Hname) as [Ef Ep].
  set (pre := txt name ++ txt "://"). set (url := txt name ++ txt "://" ++ rest) in *.
  assert (url = pre ++ rest) as Eu by (subst url pre; lists).
  assert (zlen pre = zlen (txt name) + 3) as Epre by (subst pre; by rewrite zlen_app).
  unfold RTMP_ParseURL. assert (0 <= zlen url) by apply zlen_nonneg.
  unfold strstr at 1. ltests. change (drop (Z.to_nat 0) url) with url. rewrite Ef. cbn [fmap option_fmap option_map].
  rewrite Z.add_0_l, Ep, <- Epre.
  assert (exists c h', h = c :: h') as (c & h' & Eh) by (destruct h; [done|eauto]).
  assert (Ascii.eqb c NUL = false) as Hc.
  { destruct Hlacks as (_ & _ & _ & Hn & _). rewrite Eh, free_cons, Ascii.eqb_sym in Hn. by destruct (Ascii.eqb c NUL). }
  rewrite (char_at_mid pre c (h' ++ port_text port ++ "/"%char :: path_text l ++ "/"%char :: stream) url);
    [|rewrite Eu; subst rest; by rewrite Eh|done].
  rewrite Hc. clear c h' Eh Hc.
  destruct (host_length pre h port _ url Eu ltac:(tauto)) as (col & -> & Ecol).
  rewrite (strchr_none pre rest "?"%char url (zlen pre) Eu eq_refl).
  2: { subst rest. rewrite !free_app, free_cons, free_app, free_cons, (port_text_free "?"%char) by done.
       unfold app_ok in Happ. rewrite !andb_true_iff in Happ. rewrite path_question, Hsq by tauto.
       destruct Hlacks as (_ & _ & -> & _). done. }
  rewrite (strchr_at pre (h ++ port_text port) (path_text l ++ "/"%char :: stream) "/"%char url (zlen pre)
    (zlen pre + zlen h + zlen (port_text port))); [|rewrite Eu; subst rest; lists|done| |zl].
  2: { rewrite free_app, (port_text_free "/"%char) by done. destruct Hlacks as (_ & -> & _). done. }
  cbv zeta. replace (zlen pre + zlen h + zlen (port_text port) - zlen pre) with (zlen h + zlen (port_text port)) by lia.
  rewrite Ecol. destruct (Z.ltb_spec (zlen h) 256); [|lia].
  replace (part url (zlen pre) (zlen h)) with h by (unfold part; rewrite Eu; subst rest; by rewrite take_mid).
  destruct (port_found (pre ++ h) port (path_text l ++ "/"%char :: stream) url) as (c & Ec & Eport);
    [rewrite Eu; subst rest; lists|done|].
  rewrite zlen_app in Ec, Eport. rewrite Ec. cbv zeta in Eport. rewrite Eport.
  replace (zlen pre + zlen h + zlen (port_text port) + 1)
    with (zlen (pre ++ h ++ port_text port ++ ["/"%char])) by zl.
  apply path_read; try done; [by destruct stream|]. rewrite Eu. subst rest. lists.
Qed.

Lemma rtmp_url_round_trip_witness :
  RTMP_ParseURL (txt "rtmpe://media.example.com:1936/vod/films/dir/a.f4v") [] =
  Done (true, mkUrl RTMP_PROTOCOL_RTMPE (txt "media.example.com") 1936 (Some (txt "mp4:a")) (Some (txt "vod/films/dir"))).
Proof.
  exact (rtmp_url_round_trip (mkAddress "rtmpe" (txt "media.example.com") (Some (txt "1936"))
    [txt "vod"; txt "films"; txt "dir"] (txt "a.f4v")) [] ltac:(vm_compute; reflexivity)).
Defined.
