(* ===== verification/SipHeaders.v ===== *)
(** The headers of SIP that transactions and dialogs are made of: the model of the parsers and
    printers of From and To (also Contact, Route and Record-Route), Via, Call-ID and CSeq, from
    src/osipparser2/osip_from.c, osip_contact.c, osip_via.c, osip_call_id.c, osip_cseq.c and
    osip_port.c of libosip2.  Strings and positions are those of SipUri. *)

From Stdlib Require Import Ascii.
From stdpp Require Import base list option numbers strings.
From S2P Require Import Prelude.
From S2P Require Import CMem.
From S2P Require Import SipTypes.
From S2P Require Import SipMessage.
From S2P Require Import SipUri.

Local Open Scope Z_scope.
Open Scope c_scope.

Definition quote : ascii := char_of 34.
Definition backslash : ascii := char_of 92.

(** ** Quoted strings *)

(** The loop of [__osip_quote_find]; [i - 1] backslashes were seen before the quote at
    [qpos]. *)
Fixpoint quote_loop (fuel : nat) (b : text) (qstring qpos i : Z) : outcome (option Z) :=
  match fuel with
  | O => Unfinished
  | S fuel =>
      let at_start (i qpos : Z) :=
        if qpos - i =? qstring - 1 then
          let! c := char_at b qstring in
          let i := if Ascii.eqb c backslash then i + 1 else i in
          if i mod 2 =? 0 then Done (Some qpos) else
          let! q := strchr b (qpos + 1) quote in
          match q with None => Done None | Some q => quote_loop fuel b (qpos + 1) q 1 end
        else quote_loop fuel b qstring qpos i in
      let! c := char_at b (qpos - i) in
      if Ascii.eqb c backslash then at_start (i + 1) qpos
      else if i mod 2 =? 1 then Done (Some qpos) else
        let! q := strchr b (qpos + 1) quote in
        match q with None => Done None | Some q => at_start 1 q end
  end.
Definition osip_quote_find (b : text) (qstring : Z) : outcome (option Z) :=
  let! q := strchr b qstring quote in
  match q with
  | None => Done None
  | Some qpos => if qpos =? qstring then Done (Some qpos) else quote_loop (length b) b qstring qpos 1
  end.

(** ** Parameters that are not escaped *)

(** The first index from [i] on where [f] does not hold. *)
Fixpoint skip_while (fuel : nat) (f : ascii -> bool) (b : text) (i : Z) : outcome Z :=
  let! c := char_at b i in
  if f c then match fuel with O => Unfinished | S fuel => skip_while fuel f b (i + 1) end else Done i.
Definition is_sp (c : ascii) : bool := Ascii.eqb c " "%char.
Definition is_sp_tab (c : ascii) : bool := Ascii.eqb c " "%char || (code c =? 9).

(** Where the name of the parameter behind [params] ends, and the parameter. *)
Definition param_ends (b : text) (params : Z) : outcome (option Z * option Z) :=
  let! equal := next_separator b (params + 1) "="%char ";"%char in
  let! comma := strchr b (params + 1) ";"%char in
  match equal with
  | None => Done (None, comma)
  | Some e =>
      let! tmp := skip_while (length b) is_sp b (e + 1) in
      let! c := char_at b tmp in
      if Ascii.eqb c quote && (match comma with Some k => tmp <? k | None => false end) then
        let! endquote := osip_quote_find b (tmp + 1) in
        match endquote with
        | None => Done (Some e, None)
        | Some q => let! comma := strchr b q ";"%char in Done (Some e, comma)
        end
      else Done (Some e, comma)
  end.

Definition parse_generic_param (l : list osip_uri_param) (b : text) (params : Z) (equal : option Z) (comma : Z)
  : outcome (Z * list osip_uri_param) :=
  let! value :=
    (match equal with
     | None => Done (Ok (comma, None))
     | Some e =>
         let! tmp := skip_while (length b) is_sp_tab b (e + 1) in
         let! c := char_at b tmp in
         if negb (Ascii.eqb c ","%char) && negb (Ascii.eqb c NUL) then
           if comma - e <? 2 then Done (Err OSIP_SYNTAXERROR) else
           let! pvalue := osip_strncpy (comma - e) b (e + 1) (comma - e - 1) in
           Done (Ok (e, Some pvalue))
         else Done (Ok (e, None))
     end) in
  match value with
  | Err i => Done (i, l)
  | Ok (e, pvalue) =>
      if e - params <? 2 then Done (OSIP_SYNTAXERROR, l) else
      let! pname := osip_strncpy (e - params) b (params + 1) (e - params - 1) in
      let! l := osip_uri_param_add l pname pvalue in
      Done (OSIP_SUCCESS, l)
  end.

Fixpoint generic_params_loop (fuel : nat) (l : list osip_uri_param) (b : text) (params : Z)
  : outcome (Z * list osip_uri_param) :=
  let! (equal, comma) := param_ends b params in
  match comma with
  | Some comma =>
      let! (i, l) := parse_generic_param l b params equal comma in
      if negb (i =? OSIP_SUCCESS) then Done (i, l) else
      match fuel with O => Unfinished | S fuel => generic_params_loop fuel l b comma end
  | None =>
      if is_null equal && (zlen b - params <? 2) then Done (OSIP_SUCCESS, l)
      else parse_generic_param l b params equal (zlen b)
  end.
Definition osip_generic_param_parseall (l : list osip_uri_param) (b : text) (params : Z)
  : outcome (Z * list osip_uri_param) :=
  generic_params_loop (length b) l b params.

(** ** From, To, Contact, Route *)

Definition set_displayname v (f : osip_from) := mkFrom v (f_url f) (gen_params f).
Definition set_url v (f : osip_from) := mkFrom (displayname f) v (gen_params f).
Definition set_gen_params v (f : osip_from) := mkFrom (displayname f) (f_url f) v.

Definition osip_from_init : osip_from := mkFrom None None [].

(** The characters before a URI that stands in angle brackets, or of its scheme. *)
Definition is_token (c : ascii) : bool :=
  Ascii.eqb c " "%char || osip_is_alphanum c || existsb (Ascii.eqb c) (txt "-.!%*_+`'~").

(** Where the URI begins: at an opening bracket or at its first character; and the display
    name. *)
Definition find_url (from : osip_from) (b : text) (ptr : Z) : outcome (ret Z * osip_from) :=
  let! c := char_at b ptr in
  if Ascii.eqb c quote then
    let! second := osip_quote_find b (ptr + 1) in
    match second with
    | None => Done (Err OSIP_SYNTAXERROR, from)
    | Some second =>
        let! name := osip_strncpy (second - ptr + 2) b ptr (second - ptr + 1) in
        let from := set_displayname (Some (str name)) from in
        let! url := skip_while (length b) is_sp b (second + 1) in
        let! c := char_at b url in
        if negb (Ascii.eqb c "<"%char) then Done (Err OSIP_SYNTAXERROR, from) else
        let! c := char_at b (url + 1) in
        if Ascii.eqb c NUL then Done (Err OSIP_SYNTAXERROR, from) else Done (Ok url, from)
    end
  else
    let! url := skip_while (length b) is_token b ptr in
    let! c := char_at b url in
    if Ascii.eqb c NUL then Done (Err OSIP_SYNTAXERROR, from) else
    if Ascii.eqb c "<"%char then
      let! c := char_at b (url + 1) in
      if Ascii.eqb c NUL then Done (Err OSIP_SYNTAXERROR, from) else
      if 0 <? url - ptr then
        let! name := osip_clrncpy (url - ptr + 1) b 0 (url - ptr) in
        Done (Ok url, set_displayname (Some (str name)) from)
      else Done (Ok url, from)
    else Done (Ok ptr, from).

(** The URI from its first to its last character, or the NUL, and where the parameters
    begin. *)
Definition url_ends (b : text) (url : Z) : outcome (ret (Z * Z * option Z)) :=
  let! c := char_at b url in
  if Ascii.eqb c "<"%char then
    let! url_end := strchr b (url + 1) ">"%char in
    match url_end with
    | None => Done (Err OSIP_SYNTAXERROR)
    | Some e =>
        let! gen_params := strchr b (e - 1) ";"%char in
        Done (Ok (url + 1, e - 1, gen_params))
    end
  else
    let! gen_params := strchr b url ";"%char in
    match gen_params with
    | Some g => Done (Ok (url, g - 1, gen_params))
    | None => Done (Ok (url, zlen b, None))
    end.

Definition osip_from_parse (from : osip_from) (b : text) : outcome (Z * osip_from) :=
  let! ptr := skip_while (length b) is_sp b 0 in
  let! c := char_at b ptr in
  if Ascii.eqb c NUL then Done (OSIP_SUCCESS, from) else
  let! (r, from) := find_url from b ptr in
  match r with
  | Err i => Done (i, from)
  | Ok url =>
      let! ends := url_ends b url in
      match ends with
      | Err i => Done (i, from)
      | Ok (url, url_end, params) =>
          let! (i, l) :=
            (match params with
             | None => Done (OSIP_SUCCESS, gen_params from)
             | Some g => osip_generic_param_parseall (gen_params from) b g
             end) in
          let from := set_gen_params l from in
          if negb (i =? OSIP_SUCCESS) then Done (i, from) else
          if url_end - url + 2 <? 7 then Done (OSIP_SYNTAXERROR, from) else
          let! tmp := osip_strncpy (url_end - url + 2) b url (url_end - url + 1) in
          let! (i, u) := osip_uri_parse osip_uri_init tmp in
          Done (i, set_url (Some u) from)
      end
  end.

(** The parameters behind a header, in a buffer of [len] bytes that grows. *)
Fixpoint print_generic_params (l : list osip_uri_param) (len : Z) (buf : text) : outcome (Z * text) :=
  match l with
  | [] => Done (len, buf)
  | u_param :: l =>
      let! name := lift (gname u_param) in
      match gvalue u_param with
      | None =>
          let len := len + (zlen (txt name) + 2) in
          let! buf := snprintf len buf (";"%char :: txt name) in
          print_generic_params l len buf
      | Some value =>
          let len := len + (zlen (txt name) + zlen (txt value) + 3) in
          let! buf := snprintf len buf ((";"%char :: txt name) ++ "="%char :: txt value) in
          print_generic_params l len buf
      end
  end.

Definition osip_from_to_str (from : osip_from) : outcome (ret text) :=
  match f_url from with
  | None => Done (Err OSIP_BADPARAMETER)
  | Some url =>
      let! u := osip_uri_to_str url in
      match u with
      | Err i => Done (Err i)
      | Ok u =>
          let len := match displayname from with None => zlen u + 5 | Some n => zlen u + zlen (txt n) + 5 end in
          let! buf :=
            (match displayname from with
             | Some n => sprintf len [] (txt n ++ [" "; "<"]%char ++ u ++ [">"%char])
             | None => sprintf len [] ("<"%char :: u ++ [">"%char])
             end) in
          let! (_, buf) := print_generic_params (gen_params from) len buf in
          Done (Ok buf)
      end
  end.

Definition is_star (b : text) : bool := match b with c :: _ => Ascii.eqb c "*"%char | [] => false end.
Definition osip_contact_parse (contact : osip_from) (b : text) : outcome (Z * osip_from) :=
  if is_star b then Done (OSIP_SUCCESS, set_displayname (Some (str b)) contact)
  else osip_from_parse contact b.
Definition osip_contact_to_str (contact : osip_from) : outcome (ret text) :=
  match displayname contact with
  | Some n => if is_star (txt n) then Done (Ok ["*"%char]) else osip_from_to_str contact
  | None => osip_from_to_str contact
  end.

(** ** Call-ID and CSeq *)

Definition osip_call_id_parse (b : text) : outcome (Z * osip_call_id) :=
  let! host := strchr b 0 "@"%char in
  let! r :=
    (match host with
     | None => Done (Ok (zlen b, None))
     | Some host =>
         if zlen b - host + 1 <? 2 then Done (Err OSIP_SYNTAXERROR) else
         let! s := osip_clrncpy (zlen b - host) b (host + 1) (zlen b - host - 1) in
         Done (Ok (host, Some (str s)))
     end) in
  match r with
  | Err i => Done (i, mkCallId None None)
  | Ok (host, name) =>
      if host + 1 <? 2 then Done (OSIP_SYNTAXERROR, mkCallId None name) else
      let! s := osip_clrncpy (host + 1) b 0 host in
      Done (OSIP_SUCCESS, mkCallId (Some (str s)) name)
  end.

Definition osip_call_id_to_str (callid : option osip_call_id) : outcome (ret text) :=
  match callid with
  | None => Done (Err OSIP_BADPARAMETER)
  | Some c =>
      match ci_number c, ci_host c with
      | None, _ => Done (Err OSIP_BADPARAMETER)
      | Some number, None =>
          let! buf := sprintf (zlen (txt number) + 1) [] (txt number) in Done (Ok buf)
      | Some number, Some host =>
          let! buf := sprintf (zlen (txt number) + zlen (txt host) + 2) [] (txt number ++ "@"%char :: txt host) in
          Done (Ok buf)
      end
  end.

Definition osip_cseq_parse (b : text) : outcome (Z * osip_cseq) :=
  let! method := strchr b 0 " "%char in
  match method with
  | None => Done (OSIP_SYNTAXERROR, mkCSeq None None)
  | Some method =>
      if method + 1 <? 2 then Done (OSIP_SYNTAXERROR, mkCSeq None None) else
      let! number := osip_clrncpy (method + 1) b 0 method in
      if zlen b - method + 1 <? 2 then Done (OSIP_SYNTAXERROR, mkCSeq None (Some (str number))) else
      let! m := osip_clrncpy (zlen b - method + 1) b (method + 1) (zlen b - method) in
      Done (OSIP_SUCCESS, mkCSeq (Some (str m)) (Some (str number)))
  end.

Definition osip_cseq_to_str (cseq : osip_cseq) : outcome (ret text) :=
  match cs_number cseq, cs_method cseq with
  | Some number, Some method =>
      let len := zlen (txt method) + zlen (txt number) + 2 in
      let! buf := snprintf len [] (txt number ++ " "%char :: txt method) in
      Done (Ok buf)
  | _, _ => Done (Err OSIP_BADPARAMETER)
  end.

(** ** Via *)

Definition set_v_version x v := mkVia x (v_protocol v) (v_host v) (v_port v) (v_comment v) (via_params v).
Definition set_v_protocol x v := mkVia (v_version v) x (v_host v) (v_port v) (v_comment v) (via_params v).
Definition set_v_host x v := mkVia (v_version v) (v_protocol v) x (v_port v) (v_comment v) (via_params v).
Definition set_v_port x v := mkVia (v_version v) (v_protocol v) (v_host v) x (v_comment v) (via_params v).
Definition set_v_comment x v := mkVia (v_version v) (v_protocol v) (v_host v) (v_port v) x (via_params v).
Definition set_via_params x v := mkVia (v_version v) (v_protocol v) (v_host v) (v_port v) (v_comment v) x.

Definition osip_via_init : osip_via := mkVia None None None None None [].

(** Over the blanks from [host] on; [None] when one character is left. *)
Fixpoint skip_blanks (fuel : nat) (b : text) (host : Z) : outcome (option Z) :=
  let! c := char_at b host in
  if Ascii.eqb c " "%char then
    if zlen b - (host + 1) =? 1 then Done None else
    match fuel with O => Unfinished | S fuel => skip_blanks fuel b (host + 1) end
  else Done (Some host).

(** Version and transport; the index of the blank before the host. *)
Definition parse_sent_protocol (via : osip_via) (b : text) : outcome (ret Z * osip_via) :=
  let! version := strchr b 0 "/"%char in
  match version with
  | None => Done (Err OSIP_SYNTAXERROR, via)
  | Some version =>
      let! protocol := strchr b (version + 1) "/"%char in
      match protocol with
      | None => Done (Err OSIP_SYNTAXERROR, via)
      | Some protocol =>
          if protocol - version <? 2 then Done (Err OSIP_SYNTAXERROR, via) else
          let! s := osip_clrncpy (protocol - version) b (version + 1) (protocol - version - 1) in
          let via := set_v_version (Some (str s)) via in
          let! host := strchr b (protocol + 1) " "%char in
          match host with
          | None => Done (Err OSIP_SYNTAXERROR, via)
          | Some host =>
              let! host :=
                (if host =? protocol + 1 then
                   let! h := skip_blanks (length b) b host in
                   match h with None => Done None | Some h => strchr b (h + 1) " "%char end
                 else Done (Some host)) in
              match host with
              | None => Done (Err OSIP_SYNTAXERROR, via)
              | Some host =>
                  if host - protocol <? 2 then Done (Err OSIP_SYNTAXERROR, via) else
                  let! s := osip_clrncpy (host - protocol) b (protocol + 1) (host - protocol - 1) in
                  Done (Ok host, set_v_protocol (Some (str s)) via)
              end
          end
      end
  end.

(** The comment; where it begins, but for one character, or the index of the NUL. *)
Definition parse_comment (via : osip_via) (b : text) (host : Z) : outcome (ret Z * osip_via) :=
  let! comment := strchr b host "("%char in
  match comment with
  | None => Done (Ok (zlen b), via)
  | Some comment =>
      let! end_comment := strchr b host ")"%char in
      match end_comment with
      | None => Done (Err OSIP_SYNTAXERROR, via)
      | Some e =>
          if e - comment <? 2 then Done (Err OSIP_SYNTAXERROR, via) else
          let! s := osip_strncpy (e - comment) b (comment + 1) (e - comment - 1) in
          Done (Ok (comment - 1), set_v_comment (Some (str s)) via)
      end
  end.

(** The parameters; where they begin, or the comment. *)
Definition parse_via_params (via : osip_via) (b : text) (host comment : Z) : outcome (ret Z * osip_via) :=
  let! params := strchr b host ";"%char in
  match params with
  | None => Done (Ok comment, via)
  | Some params =>
      if params <? comment then
        if comment - params + 1 <? 2 then Done (Err OSIP_SYNTAXERROR, via) else
        let! tmp := osip_strncpy (comment - params + 1) b params (comment - params) in
        let! (i, l) := osip_generic_param_parseall (via_params via) tmp 0 in
        let via := set_via_params l via in
        if negb (i =? OSIP_SUCCESS) then Done (Err i, via) else Done (Ok params, via)
      else Done (Ok params, via)
  end.

(** The host when it is in brackets, and the colon of the port. *)
Definition parse_via_ipv6 (via : osip_via) (b : text) (host params : Z)
  : outcome (ret (bool * option Z) * osip_via) :=
  let! ipv6host := strchr b host "["%char in
  match ipv6host with
  | Some ip =>
      if ip <? params then
        let! port := strchr b ip "]"%char in
        match port with
        | None => Done (Err OSIP_SYNTAXERROR, via)
        | Some port =>
            if params <? port then Done (Err OSIP_SYNTAXERROR, via) else
            if port - ip <? 2 then Done (Err OSIP_SYNTAXERROR, via) else
            let! s := osip_clrncpy (port - ip) b (ip + 1) (port - ip - 1) in
            let! port := strchr b port ":"%char in
            Done (Ok (true, port), set_v_host (Some (str s)) via)
        end
      else let! port := strchr b host ":"%char in Done (Ok (false, port), via)
  | None => let! port := strchr b host ":"%char in Done (Ok (false, port), via)
  end.

(** The port behind its colon; where the host ends. *)
Definition parse_via_port (via : osip_via) (b : text) (port : option Z) (params : Z) : outcome (ret Z * osip_via) :=
  match port with
  | Some port =>
      if port <? params then
        if params - port <? 2 then Done (Err OSIP_SYNTAXERROR, via) else
        let! s := osip_clrncpy (params - port) b (port + 1) (params - port - 1) in
        let via := set_v_port (Some (str s)) via in
        if osip_atoi (Some (str s)) <? 0 then Done (Err OSIP_SYNTAXERROR, via) else Done (Ok port, via)
      else Done (Ok params, via)
  | None => Done (Ok params, via)
  end.

Definition parse_sent_by (via : osip_via) (b : text) (host params : Z) : outcome (Z * osip_via) :=
  let! (r, via) := parse_via_ipv6 via b host params in
  match r with
  | Err i => Done (i, via)
  | Ok (ipv6, port) =>
      let! (r, via) := parse_via_port via b port params in
      match r with
      | Err i => Done (i, via)
      | Ok port =>
          if ipv6 then Done (OSIP_SUCCESS, via) else
          if port - host <? 2 then Done (OSIP_SYNTAXERROR, via) else
          let! s := osip_clrncpy (port - host) b (host + 1) (port - host - 1) in
          Done (OSIP_SUCCESS, set_v_host (Some (str s)) via)
      end
  end.

Definition osip_via_parse (via : osip_via) (b : text) : outcome (Z * osip_via) :=
  let! (r, via) := parse_sent_protocol via b in
  match r with
  | Err i => Done (i, via)
  | Ok host =>
      let! (r, via) := parse_comment via b host in
      match r with
      | Err i => Done (i, via)
      | Ok comment =>
          let! (r, via) := parse_via_params via b host comment in
          match r with
          | Err i => Done (i, via)
          | Ok params => parse_sent_by via b host params
          end
      end
  end.
