(* ===== verification/SipHeadersParse.v ===== *)
(** The headers of SIP: quoted strings end where a scan from the left says, and the parsers
    return on every text but for one over-read in the one of Via. *)

From Stdlib Require Import Ascii ZArith Lia.
From stdpp Require Import base list option numbers strings.
From S2P Require Import Prelude.
From S2P Require Import CMem.
From S2P Require Import SipTypes.
From S2P Require Import SipMessage.
From S2P Require Import SipOwnership.
From S2P Require Import SipUri.
From S2P Require Import SipUriSpec.
From S2P Require Import SipUriParse.
From S2P Require Import SipUriRoundTrip.
From S2P Require Import SipHeaders.

Local Open Scope Z_scope.
Open Scope c_scope.

(** ** The end of a quoted string

    From the left: a backslash takes the next character with it. *)

Fixpoint scan (l : text) (i : Z) : option Z :=
  match l with
  | [] => None
  | c :: l =>
      if Ascii.eqb c quote then Some i
      else if Ascii.eqb c backslash then match l with [] => None | _ :: l => scan l (i + 2) end
      else scan l (i + 1)
  end.

Definition run (n : nat) : text := replicate n backslash.

Lemma scan_skip n : forall u r i,
  (length u <= n)%nat -> free quote u = true -> List.last u NUL <> backslash ->
  scan (u ++ r) i = scan r (i + zlen u).
Proof.
  induction n as [|n IH]; intros u r i Hn Hq Hl.
  { destruct u; [|simpl in Hn; lia]. by rewrite zlen_nil, Z.add_0_r. }
  destruct u as [|c u]; [by rewrite zlen_nil, Z.add_0_r|].
  rewrite free_cons in Hq. apply andb_prop in Hq as [Hc Hq]. cbn [app scan].
  rewrite Ascii.eqb_sym. destruct (Ascii.eqb quote c); [done|]. simpl in Hn.
  destruct (Ascii.eqb_spec c backslash) as [->|_].
  - destruct u as [|x u]; [done|]. rewrite free_cons in Hq. apply andb_prop in Hq as [_ Hq].
    cbn [app]. simpl in Hn. rewrite IH; [f_equal; zl|lia|done|].
    destruct u; [done|exact Hl].
  - rewrite IH; [f_equal; zl|lia|done|]. destruct u; [done|exact Hl].
Qed.

Lemma scan_run n : forall r i,
  scan (run n ++ quote :: r) i = if Nat.even n then Some (i + Z.of_nat n) else scan r (i + Z.of_nat n + 1).
Proof.
  induction n as [n IH] using lt_wf_ind. intros r i. destruct n as [|[|n]].
  - cbn. f_equal. lia.
  - cbn. f_equal. lia.
  - cbn [run replicate app scan]. change (Ascii.eqb backslash quote) with false.
    change (Ascii.eqb backslash backslash) with true. cbn iota. fold (run n).
    rewrite IH by lia. cbn [Nat.even]. destruct (Nat.even n); f_equal; lia.
Qed.

Lemma scan_free l : free quote l = true -> forall i, scan l i = None.
Proof.
  remember (length l) as n eqn:En. revert l En. induction n as [n IH] using lt_wf_ind.
  intros l -> Hq i. destruct l as [|c l]; [done|]. rewrite free_cons in Hq. apply andb_prop in Hq as [Hc Hq].
  cbn [scan]. rewrite Ascii.eqb_sym. destruct (Ascii.eqb quote c); [done|].
  destruct (Ascii.eqb c backslash); [|eapply IH; [|done|done]; simpl; lia].
  destruct l as [|x l]; [done|]. rewrite free_cons in Hq. apply andb_prop in Hq as [_ Hq].
  eapply IH; [|done|done]. simpl. lia.
Qed.

Lemma scan_in l : forall i j, scan l i = Some j -> i <= j < i + zlen l.
Proof.
  remember (length l) as n eqn:En. revert l En. induction n as [n IH] using lt_wf_ind.
  intros l -> i j. destruct l as [|c l]; [done|]. cbn [scan].
  destruct (Ascii.eqb c quote); [intros [= ->]; zl|].
  destruct (Ascii.eqb c backslash).
  - destruct l as [|x l]; [done|]. intros H. apply (IH (length l)) in H; [zl|simpl; lia|done].
  - intros H. apply (IH (length l)) in H; [zl|simpl; lia|done].
Qed.

(** Where the first quote is. *)
Lemma strchr_split p r b i c :
  b = p ++ r -> i = zlen p ->
  (free c r = true /\ strchr b i c = Done None) \/
  (exists u r', r = u ++ c :: r' /\ free c u = true /\ strchr b i c = Done (Some (zlen p + zlen u))).
Proof.
  intros -> ->. pose proof (index_of_spec c r) as S. destruct (index_of c r) as [j|] eqn:E.
  - right. assert (exists u r', r = u ++ c :: r' /\ free c u = true) as (u & r' & -> & Hu).
    { clear S. revert j E. induction r as [|x r IH]; intros j; [done|]. cbn [index_of].
      destruct (Ascii.eqb_spec x c) as [->|Hx]; [by exists [], r|].
      destruct (index_of c r) as [k|]; [|done]. intros _. destruct (IH k eq_refl) as (u & r' & -> & Hu).
      exists (x :: u), r'. split; [done|]. rewrite free_cons, Hu, Ascii.eqb_sym.
      by destruct (Ascii.eqb_spec x c). }
    exists u, r'. split; [done|]. split; [done|]. by apply (strchr_at p u r').
  - left. split; [done|]. by apply (strchr_none p r).
Qed.

Lemma even_mod i : (i mod 2 =? 0) = Z.even i.
Proof. rewrite Zmod_even. by destruct (Z.even i). Qed.
Lemma odd_mod i : (i mod 2 =? 1) = negb (Z.even i).
Proof. rewrite Zmod_even. by destruct (Z.even i). Qed.
Lemma even_of_nat n : Z.even (Z.of_nat n) = Nat.even n.
Proof.
  induction n as [|n IH]; [done|]. rewrite Nat2Z.inj_succ, Z.even_succ, Nat.even_succ.
  by rewrite <- Z.negb_even, <- Nat.negb_even, IH.
Qed.

(** Before the quote there are [u] and a run of backslashes, and before them a quote or the
    beginning. *)
Lemma quote_loop_eq fuel : forall b pre u n r qstring qpos i,
  b = pre ++ u ++ run n ++ quote :: r -> qpos = zlen pre + zlen u + Z.of_nat n -> i = Z.of_nat n + 1 ->
  free quote u = true -> 0 <= qstring <= zlen pre ->
  (exists p, pre = p ++ [quote]) \/ (qstring = zlen pre /\ u <> []) ->
  zlen u + 1 + zlen r <= Z.of_nat fuel ->
  quote_loop fuel b qstring qpos i = Done (scan (u ++ run n ++ quote :: r) (zlen pre)).
Proof.
  induction fuel as [|fuel IH]; intros b pre u n r qstring qpos i Eb Eq Ei Hu Hs Hpre Hf; [zl|].
  assert (forall u n' r, b = pre ++ u ++ run n' ++ quote :: r -> zlen u + 1 + zlen r <= Z.of_nat fuel + 1 ->
    forall qs, 0 <= qs <= zlen pre + zlen u + Z.of_nat n' + 1 ->
    forall k, (forall q, q = zlen pre + zlen u + Z.of_nat n' + 1 -> forall u' r', r = u' ++ quote :: r' ->
                free quote u' = true -> k (q + zlen u') = quote_loop fuel b qs (q + zlen u') 1) ->
    match strchr b (zlen pre + zlen u + Z.of_nat n' + 1) quote with
    | Done (Some q) => k q
    | Done None => Done None
    | Undef => Undef
    | Unfinished => Unfinished
    end = Done (scan r (zlen pre + zlen u + Z.of_nat n' + 1))) as Next.
  { intros u0 n0 r0 E0 Hf0 qs Hqs k Hk.
    set (p := pre ++ u0 ++ run n0 ++ [quote]).
    assert (b = p ++ r0) as Ep by (subst p; rewrite E0; lists).
    assert (zlen p = zlen pre + zlen u0 + Z.of_nat n0 + 1) as Lp.
    { subst p. unfold run. rewrite !zlen_app, zlen_replicate. zl. }
    rewrite <- Lp. destruct (strchr_split p r0 b (zlen p) quote Ep eq_refl) as [[Hr ->]|(u' & r' & -> & Hu' & ->)].
    - by rewrite scan_free.
    - rewrite (Hk (zlen p) Lp u' r' eq_refl Hu').
      rewrite (IH b p u' O r' qs); [done|done|lia|done|done|lia| |].
      + left. exists (pre ++ u0 ++ run n0). subst p. lists.
      + rewrite zlen_app, zlen_cons in Hf0. pose proof (zlen_nonneg u0). lia. }
  cbn [quote_loop].
  destruct (decide (List.last u NUL = backslash)) as [Hb|Hb].
  - (* one more backslash *)
    assert (u <> []) as Hne by (by intros ->).
    pose proof (last_mid u Hne) as El. rewrite Hb in El. set (u1 := removelast u) in *. clearbody u1. subst u.
    rewrite (char_at_mid (pre ++ u1) backslash (run n ++ quote :: r)) by first [subst b; lists | subst; zl].
    change (Ascii.eqb backslash backslash) with true. cbn iota.
    assert (u1 ++ [backslash] ++ run n ++ quote :: r = u1 ++ run (S n) ++ quote :: r) as Er by done.
    rewrite <- (app_assoc u1), Er in *. rewrite free_app in Hu. apply andb_prop in Hu as [Hu1 _].
    destruct (Z.eqb_spec (qpos - (i + 1)) (qstring - 1)) as [Hst|Hst].
    + assert (u1 = [] /\ qstring = zlen pre) as [-> ->] by (destruct u1; [split; [done|]|]; zl).
      rewrite (char_at_mid pre backslash (run n ++ quote :: r)) by first [subst b; lists | done].
      change (Ascii.eqb backslash backslash) with true. cbn iota. cbn [app]. rewrite scan_run.
      rewrite even_mod. replace (i + 1 + 1) with (Z.of_nat (S n) + 2) by lia.
      rewrite Z.even_add, even_of_nat. replace (Bool.eqb (Nat.even (S n)) (Z.even 2)) with (Nat.even (S n))
        by (by destruct (Nat.even (S n))).
      destruct (Nat.even (S n)); [do 2 f_equal; zl|].
      pose proof (Next [] (S n) r Eb ltac:(zl) (qpos + 1) ltac:(zl)) as N.
      replace (zlen pre + zlen [] + Z.of_nat (S n) + 1) with (qpos + 1) in N by zl.
      replace (zlen pre + Z.of_nat (S n) + 1) with (qpos + 1) by zl.
      apply N. intros q -> u' r' -> Hu'. done.
    + apply IH; try done; try zl.
      destruct Hpre as [?|[? _]]; [by left|right]. split; [done|]. intros ->. apply Hst. zl.
  - (* the run is complete *)
    assert (exists c, char_at b (qpos - i) = Done c /\ Ascii.eqb c backslash = false) as (c & -> & ->).
    { destruct (decide (u = [])) as [->|Hne].
      - destruct Hpre as [[p ->]|[_ ?]]; [|done]. exists quote. split; [|done].
        apply (char_at_mid p quote (run n ++ quote :: r)); [subst b; lists|zl].
      - pose proof (last_mid u Hne) as El. exists (List.last u NUL).
        split; [|by destruct (Ascii.eqb_spec (List.last u NUL) backslash)].
        apply (char_at_mid (pre ++ removelast u) _ (run n ++ quote :: r)); [|].
        + rewrite Eb, El at 1. lists.
        + apply (f_equal zlen) in El. zl. }
    rewrite (scan_skip (length u)) by done. rewrite scan_run.
    rewrite odd_mod. subst i. rewrite Z.add_1_r, Z.even_succ, <- Z.negb_even, even_of_nat, negb_involutive.
    destruct (Nat.even n); [do 2 f_equal; lia|].
    pose proof (Next u n r Eb ltac:(lia) qstring ltac:(zl)) as N. rewrite Eq. apply N.
    intros q -> u' r' -> Hu'. ltest. done.
Qed.

Lemma quote_find_eq p l : osip_quote_find (p ++ l) (zlen p) = Done (scan l (zlen p)).
Proof.
  unfold osip_quote_find.
  destruct (strchr_split p l (p ++ l) (zlen p) quote eq_refl eq_refl) as [[Hl ->]|(u & r & -> & Hu & ->)].
  { by rewrite scan_free. }
  destruct (Z.eqb_spec (zlen p + zlen u) (zlen p)) as [E|E].
  - destruct u; [|zl]. cbn. rewrite zlen_nil, Z.add_0_r. done.
  - apply (quote_loop_eq _ _ p u O r); try done; [zl|zl| |].
    + right. split; [done|]. intros ->. apply E. zl.
    + unfold zlen. rewrite !length_app. simpl. lia.
Qed.

(** ** Steps of the parsers *)

Lemma skip_while_ok f b fuel : forall i,
  f NUL = false -> 0 <= i <= zlen b -> zlen b - i <= Z.of_nat fuel ->
  returns (skip_while fuel f b i) (fun j => i <= j <= zlen b).
Proof.
  induction fuel as [|fuel IH]; intros i Hf Hi Hl; cbn [skip_while]; rewrite char_at_ok by done;
    destruct (f (default _ _)) eqn:E; try (cbn; lia).
  - rewrite lookup_ge_None_2 in E by (unfold zlen in *; lia). cbn in E. congruence.
  - destruct (Z.eq_dec i (zlen b)) as [->|].
    + rewrite lookup_ge_None_2 in E by (unfold zlen in *; lia). cbn in E. congruence.
    + eapply returns_mono; [apply IH; (done || lia)|]. cbn. lia.
Qed.

Lemma quote_find_ok b i :
  0 <= i <= zlen b ->
  returns (osip_quote_find b i) (fun r => match r with None => True | Some j => i <= j < zlen b end).
Proof.
  intros Hi. assert (b = take (Z.to_nat i) b ++ drop (Z.to_nat i) b) as Eb by (by rewrite take_drop).
  assert (zlen (take (Z.to_nat i) b) = i) as El by (by apply zlen_take).
  pose proof (quote_find_eq (take (Z.to_nat i) b) (drop (Z.to_nat i) b)) as Q.
  rewrite El, <- Eb in Q. rewrite Q. cbn.
  destruct (scan _ i) as [j|] eqn:E; [|done]. apply scan_in in E. rewrite zlen_drop in E by done. lia.
Qed.

Definition index_after (b : text) (i : Z) (r : option Z) : Prop :=
  match r with None => True | Some j => i < j < zlen b end.

Lemma param_ends_ok b params :
  0 <= params < zlen b ->
  returns (param_ends b params) (fun '(e, k) => index_after b params e /\ index_after b params k).
Proof.
  intros Hp. unfold param_ends. binds next_separator_ok; [lia|]. intros equal He.
  binds strchr_ok; [lia|]. intros comma Hc.
  destruct equal as [e|]; [|destruct comma; cbn; lia]. destruct He as [He _].
  binds skip_while_ok; [done|lia|unfold zlen in *; lia|]. intros tmp Ht.
  rewrite char_at_ok by lia. destruct (_ && _) eqn:E.
  - destruct comma as [k|]; [|by rewrite andb_false_r in E].
    apply andb_prop in E as [_ E%Z.ltb_lt]. destruct Hc as [Hc _].
    binds quote_find_ok; [lia|]. intros [q|] Hq; [|cbn; lia].
    binds strchr_ok; [lia|]. intros [k'|] Hk; cbn; lia.
  - destruct comma; cbn; lia.
Qed.

Lemma parse_generic_param_ok l b params equal comma :
  0 <= params -> params < comma <= zlen b -> index_after b params equal ->
  returns (parse_generic_param l b params equal comma)
    (fun '(i, l') => parse_code i /\ (named l = true -> named l' = true)).
Proof.
  intros H0 Hc He. unfold parse_generic_param, parse_code.
  eapply returns_bind with
    (P := fun r => match r with Err i => i = OSIP_SYNTAXERROR | Ok (e, _) => params < e <= zlen b end).
  - destruct equal as [e|]; [|cbn; lia]. cbn in He.
    binds skip_while_ok; [done|lia|unfold zlen in *; lia|]. intros tmp Ht.
    rewrite char_at_ok by lia. destruct (_ && _); [|cbn; lia]. ltests; [done|]. copies. cbn. lia.
  - intros [[e v]|i]; [|intros ->; split; [by right|done]]. intros He'. ltests; [split; [by right|done]|].
    copies. binds param_add_ok. intros l' [Hl _]. split; [by left|done].
Qed.

Lemma generic_params_ok b fuel : forall l params,
  0 <= params < zlen b -> zlen b - params <= Z.of_nat fuel ->
  returns (generic_params_loop fuel l b params)
    (fun '(i, l') => parse_code i /\ (named l = true -> named l' = true)).
Proof.
  induction fuel as [|fuel IH]; intros l params Hp Hf; [lia|]. cbn [generic_params_loop].
  binds param_ends_ok; [lia|]. intros [equal comma] [He Hc]. destruct comma as [k|].
  - cbn in Hc. eapply returns_bind; [apply parse_generic_param_ok; (done || lia)|].
    intros [i l'] [Hi Hl]. destruct (Z.eqb_spec i OSIP_SUCCESS); cbn [negb]; [|by split].
    eapply returns_mono; [apply IH; lia|]. intros [i' l''] [? ?]. tauto.
  - destruct (_ && _); [split; [by left|done]|]. apply parse_generic_param_ok; (done || lia).
Qed.

Lemma parseall_ok l b params :
  0 <= params < zlen b ->
  returns (osip_generic_param_parseall l b params)
    (fun '(i, l') => parse_code i /\ (named l = true -> named l' = true)).
Proof. intros. apply generic_params_ok; [done|unfold zlen; lia]. Qed.

(** ** From *)

Lemma not_nul b i : 0 <= i <= zlen b -> Ascii.eqb (default NUL (b !! Z.to_nat i)) NUL = false -> i < zlen b.
Proof.
  intros Hi E. destruct (Z.eq_dec i (zlen b)) as [->|]; [|lia].
  rewrite lookup_ge_None_2 in E by (unfold zlen in *; lia). done.
Qed.

Lemma is_char b i c : 0 <= i <= zlen b -> c <> NUL ->
  Ascii.eqb (default NUL (b !! Z.to_nat i)) c = true -> i < zlen b.
Proof.
  intros Hi Hc E%Ascii.eqb_eq. apply char_found in E; [lia|lia|done].
Qed.

Lemma find_url_ok from b ptr :
  0 <= ptr < zlen b ->
  returns (find_url from b ptr)
    (fun r => gen_params (snd r) = gen_params from /\ f_url (snd r) = f_url from /\
              match fst r with Ok url => 0 <= url < zlen b | Err i => i = OSIP_SYNTAXERROR end).
Proof.
  intros Hp. unfold find_url. rewrite char_at_ok by lia. destruct (Ascii.eqb _ quote).
  - binds quote_find_ok; [lia|]. intros [s|] Hs; [|done]. copies.
    binds skip_while_ok; [done|lia|unfold zlen in *; lia|]. intros url Hu.
    rewrite char_at_ok by lia. destruct (Ascii.eqb _ "<"%char) eqn:E; cbn [negb]; [|done].
    apply is_char in E; [|lia|done]. rewrite char_at_ok by lia. destruct (Ascii.eqb _ NUL); [done|].
    cbn. split; [done|]. split; [done|lia].
  - binds skip_while_ok; [done|lia|unfold zlen in *; lia|]. intros url Hu.
    rewrite char_at_ok by lia. destruct (Ascii.eqb _ NUL) eqn:En; [done|]. apply not_nul in En; [|lia].
    destruct (Ascii.eqb _ "<"%char) eqn:E; [|done].
    rewrite char_at_ok by lia. destruct (Ascii.eqb _ NUL); [done|].
    ltest; [|cbn; split; [done|]; split; [done|lia]]. binds clrncpy_ok; [lia..|]. intros s _. cbn.
    split; [done|]. split; [done|lia].
Qed.

Lemma url_ends_ok b url :
  0 <= url < zlen b ->
  returns (url_ends b url)
    (fun r => match r with
              | Ok (u, e, g) => 0 <= u <= zlen b /\ e <= zlen b /\ index_after b (-1) g
              | Err i => i = OSIP_SYNTAXERROR
              end).
Proof.
  intros Hu. unfold url_ends. rewrite char_at_ok by lia. destruct (Ascii.eqb _ _).
  - binds strchr_ok; [lia|]. intros [e|] He; [|done]. binds strchr_ok; [lia|].
    intros [g|] Hg; cbn; lia.
  - binds strchr_ok; [lia|]. intros [g|] Hg; cbn; lia.
Qed.

(** What the transactions assume of the header. *)
Lemma from_parse_ok b :
  returns (osip_from_parse osip_from_init b)
    (fun '(i, from) => (parse_code i \/ i = OSIP_BADPARAMETER) /\ (i = OSIP_SUCCESS -> from_ok from = true)).
Proof.
  unfold osip_from_parse. pose proof (zlen_nonneg b).
  binds skip_while_ok; [done|lia|unfold zlen in *; lia|]. intros ptr Hp.
  rewrite char_at_ok by lia. destruct (Ascii.eqb _ NUL) eqn:En; [by split; [left; left|]|].
  apply not_nul in En; [|lia]. binds find_url_ok; [lia|]. intros [[url|i] from] (Hg & Hf & Hu); cbn [fst snd] in *.
  2:{ subst i. split; [left; by right|done]. }
  binds url_ends_ok; [lia|]. intros [[[u e] g]|i] He; [|subst i; split; [left; by right|done]].
  destruct He as (H1 & H2 & H3).
  eapply returns_bind with (P := fun '(i, l) => parse_code i /\ named l = true).
  - rewrite Hg. destruct g as [g|]; [|split; [by left|done]]. cbn in H3.
    eapply returns_mono; [apply parseall_ok; lia|]. intros [i l] [Hi Hl]. split; [done|by apply Hl].
  - intros [i l] [Hi Hl]. destruct (Z.eqb_spec i OSIP_SUCCESS); cbn [negb].
    2:{ split; [by left|done]. }
    ltest; [split; [left; by right|done]|]. copies.
    eapply returns_bind; [apply uri_parse_ok|]. intros [i' u'] [Hi' Hc].
    split; [unfold parse_code in *; tauto|]. intros [_ Hok]%Hc. unfold from_ok, set_url, set_gen_params. cbn [gen_params f_url].
    by rewrite Hl, Hok.
Qed.

(** ** Call-ID and CSeq *)

Lemma call_id_parse_ok b : returns (osip_call_id_parse b) (fun '(i, c) => parse_code i /\ (i = OSIP_SUCCESS -> ci_number c <> None)).
Proof.
  unfold osip_call_id_parse. pose proof (zlen_nonneg b). binds strchr_ok; [lia|]. intros host Hh.
  eapply returns_bind with (P := fun r : ret (Z * option string) => match r with Ok (h, _) => 0 <= h <= zlen b | Err i => i = OSIP_SYNTAXERROR end).
  - destruct host as [h|]; [|cbn; lia]. ltest. binds clrncpy_ok; [lia..|]. intros s _. cbn. lia.
  - intros [[h n]|i] Hh'; [|subst i; split; [by right|done]]. ltest; [split; [by right|done]|]. binds clrncpy_ok; [lia..|]. intros s _. split; [by left|done].
Qed.

Lemma cseq_parse_ok b : returns (osip_cseq_parse b) (fun '(i, c) => parse_code i /\ (i = OSIP_SUCCESS -> cs_method c <> None)).
Proof.
  unfold osip_cseq_parse. pose proof (zlen_nonneg b). binds strchr_ok; [lia|]. intros [m|] Hm; [|split; [by right|done]].
  ltest; [split; [by right|done]|]. binds clrncpy_ok; [lia..|]. intros s _. ltest.
  unfold osip_clrncpy. destruct (Z.eqb_spec (zlen b - m) 0); [lia|].
  eapply returns_bind; [|intros ? _; split; [by left|done]].
  binds first_text_ok; [lia|unfold zlen in *; lia|]. intros pbeg [Hp _].
  assert (forall f, last_text f b pbeg (m + 1 + (zlen b - m) - 1) = Done (Some (zlen b))) as E.
  { intros f. replace (m + 1 + (zlen b - m) - 1) with (zlen b) by lia.
    destruct f; cbn [last_text]; rewrite char_at_ok by lia; by rewrite at_end by lia. }
  rewrite E. apply strncpy_ok; lia.
Qed.

(** ** Via *)

(** The transport is missing and one blank ends the text. *)
Definition via_overreads (b : text) : bool :=
  match index_of "/"%char b with
  | None => false
  | Some v =>
      match index_of "/"%char (drop (Z.to_nat (v + 1)) b) with
      | None => false
      | Some w => (1 <=? w) && (zlen b =? v + 1 + w + 2) && Ascii.eqb (List.last b NUL) " "%char
      end
  end.

Definition via_step (b : text) (r : ret Z * osip_via) : Prop :=
  named (via_params (snd r)) = true /\
  match fst r with Ok i => 0 <= i < zlen b | Err i => parse_code i end.

Lemma strchr_code b i c : 0 <= i <= zlen b -> strchr b i c = Done (Z.add i <$> index_of c (drop (Z.to_nat i) b)).
Proof. intros. unfold strchr. by ltests. Qed.

Lemma skip_blanks_ok b fuel : forall host,
  0 <= host -> host + 1 < zlen b -> zlen b - host <= Z.of_nat fuel ->
  returns (skip_blanks fuel b host) (fun r => match r with None => True | Some h => host <= h < zlen b end).
Proof.
  induction fuel as [|fuel IH]; intros host H0 Hh Hf; [lia|]. cbn [skip_blanks].
  rewrite char_at_ok by lia. destruct (Ascii.eqb _ _); [|cbn; lia].
  destruct (Z.eqb_spec (zlen b - (host + 1)) 1); [done|].
  eapply returns_mono; [apply IH; lia|]. intros [h|]; [lia|done].
Qed.

Lemma skip_blanks_end b host fuel :
  0 <= host -> host + 1 = zlen b -> b !! Z.to_nat host = Some " "%char ->
  skip_blanks (S fuel) b host = Done (Some (zlen b)).
Proof.
  intros H0 Hh E. cbn [skip_blanks]. rewrite char_at_ok by lia. rewrite E. cbn [default].
  change (Ascii.eqb " " " ") with true. cbn iota. destruct (Z.eqb_spec (zlen b - (host + 1)) 1); [lia|].
  rewrite Hh. destruct fuel; cbn [skip_blanks]; rewrite char_at_ok by lia;
    by rewrite lookup_ge_None_2 by (unfold zlen; lia).
Qed.

Lemma parse_sent_protocol_ok via b :
  named (via_params via) = true ->
  if via_overreads b then parse_sent_protocol via b = Undef
  else returns (parse_sent_protocol via b)
         (fun r => via_step b r /\ match fst r with Ok h => b !! Z.to_nat h = Some " "%char | Err _ => True end).
Proof.
  intros Hv. unfold parse_sent_protocol, via_overreads. rewrite (strchr_code b 0) by zl.
  change (drop (Z.to_nat 0) b) with b. pose proof (index_of_spec "/"%char b) as S1.
  destruct (index_of "/" b) as [v|]; [|split; [split; [done|by right]|done]]. cbn [fmap option_fmap option_map].
  destruct S1 as [S1 _]. rewrite Z.add_0_l, strchr_code by lia.
  pose proof (index_of_spec "/"%char (drop (Z.to_nat (v + 1)) b)) as S2. rewrite zlen_drop in S2 by lia.
  destruct (index_of "/" (drop _ b)) as [w|]; [|split; [split; [done|by right]|done]]. cbn [fmap option_fmap option_map].
  destruct S2 as [S2 _]. destruct (Z.leb_spec 1 w); cbn [andb].
  2:{ destruct (Z.ltb_spec (v + 1 + w - v) 2); [|lia]. split; [split; [done|by right]|done]. }
  destruct (Z.ltb_spec (v + 1 + w - v) 2); [lia|].
  assert (exists s, osip_clrncpy (v + 1 + w - v) b (v + 1) (v + 1 + w - v - 1) = Done s) as [s ->].
  { pose proof (clrncpy_ok (v + 1 + w - v) b (v + 1) (v + 1 + w - v - 1) ltac:(lia) ltac:(lia) ltac:(lia) ltac:(lia)) as R.
    apply returns_done in R as (s & E & _). eauto. }
  set (p := v + 1 + w) in *.
  rewrite (strchr_code b (p + 1)) by lia.
  pose proof (index_of_spec " "%char (drop (Z.to_nat (p + 1)) b)) as S3. rewrite zlen_drop in S3 by lia.
  destruct (Z.eqb_spec (zlen b) (p + 2)) as [Hend|Hend]; cbn [andb].
  - (* one character behind the slash *)
    assert (b <> []) as Hne by (intros ->; rewrite zlen_nil in *; lia).
    pose proof (last_mid b Hne) as El. set (x := List.last b NUL) in *.
    assert (drop (Z.to_nat (p + 1)) b = [x]) as Ed.
    { rewrite El at 1. apply drop_mid. apply (f_equal zlen) in El. zl. }
    assert (b !! Z.to_nat (p + 1) = Some x) as Ex.
    { rewrite El at 1. apply lookup_mid. apply (f_equal zlen) in El. zl. }
    clearbody x. rewrite Ed. cbn [index_of]. destruct (Ascii.eqb_spec x " "%char) as [->|Hx].
    + cbn [fmap option_fmap option_map]. rewrite Z.add_0_r, Z.eqb_refl.
      destruct (length b) as [|f] eqn:Eb; [unfold zlen in *; lia|].
      rewrite (skip_blanks_end b (p + 1) f) by (lia || done).
      unfold strchr. destruct (Z.leb_spec (zlen b + 1) (zlen b)); [lia|]. by rewrite andb_false_r.
    + split; [split; [done|by right]|done].
  - destruct (index_of " "%char (drop (Z.to_nat (p + 1)) b)) as [k|];
      [|split; [split; [done|by right]|done]]. cbn [fmap option_fmap option_map].
    destruct S3 as [S3 E3]. rewrite lookup_drop, <- Z2Nat.inj_add in E3 by lia.
    eapply returns_bind with (P := fun r => match r with None => True
      | Some j => p + 1 <= j < zlen b /\ b !! Z.to_nat j = Some " "%char end).
    + destruct (Z.eqb_spec (p + 1 + k) (p + 1)); [|cbn; split; [lia|done]].
      binds skip_blanks_ok; [lia|lia|unfold zlen; lia|]. intros [h|] Hh; [|done].
      eapply returns_mono; [apply strchr_ok; lia|]. intros [j|] Hj; [|done]. split; [lia|tauto].
    + intros [j|] Hj; [|split; [split; [done|by right]|done]]. destruct Hj as [Hj Ej].
      ltest; [split; [split; [done|by right]|done]|]. binds clrncpy_ok; [lia..|]. intros s' _.
      split; [|done]. split; [done|]. cbn. lia.
Qed.

(** The steps behind the transport: the blank is before the comment, the parameters and the
    colons. *)
Definition via_result (lo hi : Z) (r : ret Z * osip_via) : Prop :=
  named (via_params (snd r)) = true /\
  match fst r with Ok i => lo <= i <= hi | Err i => parse_code i end.

Lemma via_error (via : osip_via) lo hi :
  named (via_params via) = true -> via_result lo hi (Err OSIP_SYNTAXERROR, via).
Proof. intros. split; [done|by right]. Qed.

Lemma strchr_behind b host c : 0 <= host < zlen b -> b !! Z.to_nat host = Some " "%char -> c <> " "%char ->
  returns (strchr b host c) (fun r => match r with None => True | Some j => host < j < zlen b end).
Proof.
  intros Hh E Hc. eapply returns_mono; [apply strchr_ok; lia|]. intros [j|]; [|done]. intros [Hj Ej].
  destruct (Z.eq_dec j host) as [->|]; [congruence|lia].
Qed.

Lemma parse_comment_ok via b host :
  named (via_params via) = true -> 0 <= host < zlen b -> b !! Z.to_nat host = Some " "%char ->
  returns (parse_comment via b host) (via_result host (zlen b)).
Proof.
  intros Hv Hh E. unfold parse_comment. binds strchr_behind; [done..|]. intros [c|] Hc; [|split; cbn; [done|lia]].
  binds strchr_behind; [done..|]. intros [e|] He; [|by apply via_error].
  ltest; [by apply via_error|]. copies. split; cbn; [done|lia].
Qed.

Lemma parse_via_params_ok via b host comment :
  named (via_params via) = true -> 0 <= host < zlen b -> b !! Z.to_nat host = Some " "%char ->
  host <= comment <= zlen b ->
  returns (parse_via_params via b host comment) (via_result host (zlen b)).
Proof.
  intros Hv Hh E Hc. unfold parse_via_params. binds strchr_behind; [done..|].
  intros [p|] Hp; [|split; cbn; [done|lia]].
  destruct (Z.ltb_spec p comment); [|split; cbn; [done|lia]]. ltest.
  assert (osip_strncpy (comment - p + 1) b p (comment - p) = Done (take (Z.to_nat (comment - p)) (drop (Z.to_nat p) b))) as ->.
  { unfold osip_strncpy. by ltests. }
  eapply returns_bind; [apply parseall_ok|].
  - unfold zlen in *. rewrite length_take, length_drop. lia.
  - intros [i l] [Hi Hl]. destruct (Z.eqb_spec i OSIP_SUCCESS); cbn [negb]; split; cbn; auto. lia.
Qed.

Lemma parse_via_ipv6_ok via b host params :
  named (via_params via) = true -> 0 <= host < zlen b -> b !! Z.to_nat host = Some " "%char ->
  params <= zlen b ->
  returns (parse_via_ipv6 via b host params)
    (fun r => named (via_params (snd r)) = true /\
       match fst r with Ok (_, port) => index_after b host port | Err i => parse_code i end).
Proof.
  intros Hv Hh E Hp. unfold parse_via_ipv6.
  assert (returns (let! port := strchr b host ":"%char in Done (Ok (false, port), via))
    (fun r => named (via_params (snd r)) = true /\
       match fst r with Ok (_, port) => index_after b host port | Err i => parse_code i end)) as Plain.
  { binds strchr_behind; [done..|]. intros port Hpo. split; [done|]. destruct port; cbn; lia. }
  binds strchr_behind; [done..|]. intros [ip|] Hi; [|exact Plain].
  destruct (Z.ltb_spec ip params); [|exact Plain].
  binds strchr_ok; [lia|]. intros [port|] Hpo; [|split; [done|by right]].
  ltest; [split; [done|by right]|]. ltest; [split; [done|by right]|].
  binds clrncpy_ok; [lia..|]. intros s _. binds strchr_ok; [lia|]. intros p2 Hp2.
  split; [done|]. destruct p2; cbn; lia.
Qed.

Lemma parse_sent_by_ok via b host params :
  named (via_params via) = true -> 0 <= host < zlen b -> b !! Z.to_nat host = Some " "%char ->
  host <= params <= zlen b ->
  returns (parse_sent_by via b host params) (fun '(i, v) => parse_code i /\ named (via_params v) = true).
Proof.
  intros Hv Hh E Hp. unfold parse_sent_by. binds parse_via_ipv6_ok; [done|done|done|lia|].
  intros [[[ipv6 port]|i] v] [Hn Hpo]; cbn [fst snd] in *; [|done].
  eapply returns_bind with (P := via_result host (zlen b)).
  - unfold parse_via_port. destruct port as [p|]; [|split; cbn; [done|lia]]. cbn in Hpo. ltest; [|split; cbn; [done|lia]].
    ltest; [by apply via_error|]. binds clrncpy_ok; [lia..|]. intros s _.
    destruct (_ <? 0); [by apply via_error|]. split; cbn; [done|lia].
  - intros [[p|i] v'] [Hn' Hp']; cbn [fst snd] in *; [|done].
    destruct ipv6; [split; [by left|done]|]. ltest; [split; [by right|done]|].
    binds clrncpy_ok; [lia..|]. intros s _. split; [by left|done].
Qed.

Lemma via_parse_ok b :
  if via_overreads b then osip_via_parse osip_via_init b = Undef
  else returns (osip_via_parse osip_via_init b)
         (fun '(i, v) => parse_code i /\ named (via_params v) = true).
Proof.
  unfold osip_via_parse. pose proof (parse_sent_protocol_ok osip_via_init b eq_refl) as H.
  destruct (via_overreads b); [by rewrite H|].
  eapply returns_bind; [exact H|]. intros [[host|i] v] [[Hv Hh] E]; cbn [fst snd] in *; [|done].
  binds parse_comment_ok; [done..|]. intros [[c|i] v1] [Hv1 Hc]; cbn [fst snd] in *; [|done].
  binds parse_via_params_ok; [done|exact Hh|done|done|].
  intros [[p|i] v2] [Hv2 Hp]; cbn [fst snd] in *; [|done]. by apply parse_sent_by_ok.
Qed.

(** C15: the parsers of From and To, Call-ID, CSeq and Via return on every text with success
    or an error, and what they accept is what the transactions assume of a message
    ([msg_ok]): parameters with names, URIs likewise, a method in CSeq; but for Via on a
    text that ends with one blank where the transport should be, behind which the parser
    reads. *)
Theorem sip_header_parsers_safe b :
  (exists i from, osip_from_parse osip_from_init b = Done (i, from) /\ (i = OSIP_SUCCESS -> from_ok from = true)) /\
  (exists i c, osip_call_id_parse b = Done (i, c) /\ (i = OSIP_SUCCESS -> ci_number c <> None)) /\
  (exists i c, osip_cseq_parse b = Done (i, c) /\ (i = OSIP_SUCCESS -> cs_method c <> None)) /\
  (if via_overreads b then osip_via_parse osip_via_init b = Undef
   else exists i v, osip_via_parse osip_via_init b = Done (i, v) /\ named (via_params v) = true).
Proof.
  split; [|split; [|split]].
  - pose proof (from_parse_ok b) as H. apply returns_done in H as ([i f] & E & _ & H). eauto.
  - pose proof (call_id_parse_ok b) as H. apply returns_done in H as ([i c] & E & _ & H). eauto.
  - pose proof (cseq_parse_ok b) as H. apply returns_done in H as ([i c] & E & _ & H). eauto.
  - pose proof (via_parse_ok b) as H. destruct (via_overreads b); [done|].
    apply returns_done in H as ([i v] & E & _ & H). eauto.
Qed.

(** The end of a quoted string that [__osip_quote_find] finds by counting the
    backslashes before each quote, from right to left, is the one that a scan from left to
    right finds in which a backslash takes the next character with it. *)
Theorem sip_quote_find_scan p l :
  osip_quote_find (p ++ l) (zlen p) = Done (scan l (zlen p)).
Proof. apply quote_find_eq. Qed.

(** The over-read. *)
Lemma via_overread_example : osip_via_parse osip_via_init (txt "SIP/2.0/ ") = Undef.
Proof. vm_compute. reflexivity. Qed.

(** Blanks before a display name cut its last characters. *)
Lemma from_display_name_cut :
  exists from, osip_from_parse osip_from_init (txt "  jack <sip:a@antisip.com>") = Done (OSIP_SUCCESS, from) /\
    displayname from = Some "jac"%string.
Proof. eexists. split; [vm_compute; reflexivity|done]. Qed.

(** A semicolon before the closing bracket makes the bracket a parameter of the header. *)
Lemma from_bracket_parameter :
  exists from, osip_from_parse osip_from_init (txt "<sip:a@antisip.com;>") = Done (OSIP_SUCCESS, from) /\
    gen_params from = [mkParam (Some ">"%string) None].
Proof. eexists. split; [vm_compute; reflexivity|done]. Qed.

(** A blank behind the method stays a part of it. *)
Lemma cseq_trailing_blank :
  osip_cseq_parse (txt "1 INVITE ") = Done (OSIP_SUCCESS, mkCSeq (Some "INVITE "%string) (Some "1"%string)).
Proof. vm_compute. reflexivity. Qed.
