(* ===== verification/SipHeadersRoundTrip.v ===== *)
(** The headers of SIP: the parsers read back what the printers write. *)

From Stdlib Require Import Ascii ZArith Lia.
From stdpp Require Import base list option numbers strings.
From S2P Require Import Prelude.
From S2P Require Import CMem.
From S2P Require Import SipTypes.
From S2P Require Import SipMessage.
From S2P Require Import SipOwnership.
From S2P Require Import SipUri.
From S2P Require Import SipUriSpec.
From S2P Require Import SipUriParse.
From S2P Require Import SipUriRoundTrip.
From S2P Require Import SipHeaders.
From S2P Require Import SipHeadersParse.

Local Open Scope Z_scope.
Open Scope c_scope.

(** ** Parameters that are not escaped *)

(** A string in quotes, with the escaped characters in it. *)
Definition quoted (l : text) : bool :=
  match l with
  | c :: q => Ascii.eqb c quote && match scan q 0 with Some j => j =? zlen q - 1 | None => false end
  | [] => false
  end.
Definition begins_with (c : ascii) (l : text) : bool :=
  match l with x :: _ => Ascii.eqb x c | [] => false end.

Definition pname_ok (s : string) : bool := raw_ok [";"; "="]%char (txt s).
Definition pvalue_ok (s : string) : bool :=
  raw_ok [] (txt s) &&
  (quoted (txt s) || free ";"%char (txt s) && negb (begins_with quote (txt s)) && negb (begins_with ","%char (txt s))).
Definition gparam_ok (p : osip_uri_param) : bool := some_ok pname_ok (gname p) && opt_ok pvalue_ok (gvalue p).

Definition gvalue_text (v : option string) : text := match v with None => [] | Some v => "="%char :: txt v end.
Definition gparam_text (p : osip_uri_param) : text :=
  ";"%char :: txt (default ""%string (gname p)) ++ gvalue_text (gvalue p).
Definition gparams_text (l : list osip_uri_param) : text := flat_map gparam_text l.

Lemma gparams_head l : (l = [] /\ gparams_text l = []) \/ exists r, gparams_text l = ";"%char :: r.
Proof. destruct l as [|p l]; [by left|right]. by eexists. Qed.

Lemma next_separator_first p a r c d b i j :
  b = p ++ a ++ c :: r -> i = zlen p -> free c a = true -> free d a = true -> Ascii.eqb d c = false ->
  Ascii.eqb d NUL = false -> j = i + zlen a -> next_separator b i c d = Done (Some j).
Proof.
  intros Eb Ei Ha Hd Hdc Hn ->. unfold next_separator. rewrite (strchr_at p a r c b i (i + zlen a)) by done. rewrite Hn.
  rewrite (strchr_skip p (a ++ [c]) r d b i) by first [subst; lists | done | (autorewrite with frees; by rewrite Hd, Hdc)].
  pose proof (index_of_spec d r) as S. destruct (index_of d r) as [k|]; cbn; [|done]. ltests. done.
Qed.

(** Nothing to skip. *)
Lemma skip_none f b fuel p x r i :
  b = p ++ x :: r -> i = zlen p -> f x = false -> skip_while fuel f b i = Done i.
Proof.
  intros Eb Ei Hf. destruct fuel; cbn [skip_while]; rewrite (char_at_mid p x r) by done; by rewrite Hf.
Qed.

(** The first character of a piece without blanks around it. *)
Lemma trimmed_head s : nonempty s = true -> trimmed s = true -> exists x r, s = x :: r /\ is_blank x = false.
Proof.
  intros Hn Ht. destruct s as [|x r]; [done|]. exists x, r. split; [done|].
  cbn [trimmed] in Ht. apply andb_prop in Ht as [Ht _]. by apply negb_true_iff in Ht.
Qed.

Lemma not_blank x : is_blank x = false -> is_sp x = false /\ is_sp_tab x = false.
Proof.
  unfold is_blank, is_sp, is_sp_tab. rewrite !orb_false_iff. intros [[[H1 _] _] H2].
  destruct (Ascii.eqb_spec x " "%char) as [->|_]; [done|]. by rewrite H2.
Qed.

Definition gequal_at (i : Z) (p : osip_uri_param) : option Z :=
  match gvalue p with None => None | Some _ => Some (i + zlen (txt (default ""%string (gname p)))) end.
Definition comma_at (i : Z) (p : osip_uri_param) (l : list osip_uri_param) : option Z :=
  match l with [] => None | _ => Some (i + zlen (gparam_text p)) end.

Lemma scan_shift n : forall l i j r k,
  (length l <= n)%nat -> scan l i = Some j -> scan (l ++ r) (i + k) = Some (j + k).
Proof.
  induction n as [|n IH]; intros l i j r k Hn E; [destruct l; [done|simpl in Hn; lia]|].
  destruct l as [|c l]; [done|]. cbn [app scan] in *. simpl in Hn.
  destruct (Ascii.eqb c quote); [by injection E as ->|].
  destruct (Ascii.eqb c backslash).
  - destruct l as [|x l]; [done|]. cbn [app]. simpl in Hn. replace (i + k + 2) with (i + 2 + k) by lia.
    apply IH; [lia|done].
  - replace (i + k + 1) with (i + 1 + k) by lia. apply IH; [lia|done].
Qed.

Lemma scan_at n : forall l i j, (length l <= n)%nat -> scan l i = Some j -> l !! Z.to_nat (j - i) = Some quote.
Proof.
  induction n as [|n IH]; intros l i j Hn E; [destruct l; [done|simpl in Hn; lia]|].
  destruct l as [|c l]; [done|]. cbn [scan] in E. simpl in Hn.
  destruct (Ascii.eqb_spec c quote) as [->|]; [injection E as ->; by rewrite Z.sub_diag|].
  destruct (Ascii.eqb c backslash).
  - destruct l as [|x l]; [done|]. simpl in Hn. pose proof (scan_in _ _ _ E) as B.
    apply IH in E; [|lia]. replace (Z.to_nat (j - i)) with (S (S (Z.to_nat (j - (i + 2))))) by lia. exact E.
  - pose proof (scan_in _ _ _ E) as B. apply IH in E; [|lia].
    replace (Z.to_nat (j - i)) with (S (Z.to_nat (j - (i + 1)))) by lia. exact E.
Qed.

(** A quoted string ends with the quote that is found. *)
Lemma quoted_spec v : quoted v = true ->
  exists q, v = quote :: q ++ [quote] /\
    forall b p r i, b = p ++ v ++ r -> i = zlen p -> osip_quote_find b (i + 1) = Done (Some (i + 1 + zlen q)).
Proof.
  intros H. destruct v as [|c q1]; [done|]. cbn [quoted] in H. apply andb_prop in H as [H1%Ascii.eqb_eq H2]. subst c.
  destruct (scan q1 0) as [j|] eqn:E; [|done]. apply Z.eqb_eq in H2. subst j.
  pose proof (scan_at (length q1) q1 0 _ ltac:(lia) E) as A. rewrite Z.sub_0_r in A.
  assert (q1 <> []) as Hne by (by intros ->).
  pose proof (last_mid q1 Hne) as El. set (q := removelast q1) in *. clearbody q.
  assert (List.last q1 NUL = quote) as Hl.
  { rewrite El in A at 2. rewrite lookup_mid in A; [by injection A|]. apply (f_equal zlen) in El. zl. }
  rewrite Hl in El. clear Hl A Hne. subst q1. exists q. split; [done|]. intros b p r i -> ->.
  replace (p ++ (quote :: q ++ [quote]) ++ r) with ((p ++ [quote]) ++ (q ++ [quote]) ++ r) by lists.
  replace (zlen p + 1) with (zlen (p ++ [quote])) by zl. rewrite quote_find_eq.
  rewrite <- (Z.add_0_l (zlen (p ++ [quote]))). rewrite (scan_shift _ _ _ _ r _ (le_n _) E).
  do 2 f_equal. zl.
Qed.

(** The first semicolon from the name on: the one behind the parameter if the value has
    none, and in any case behind the beginning of a quoted value. *)
Lemma first_comma pre n v l b i :
  b = pre ++ (";"%char :: n ++ "="%char :: v) ++ gparams_text l -> i = zlen pre -> free ";"%char n = true ->
  exists k, strchr b (i + 1) ";"%char = Done k /\
    (free ";"%char v = true -> k = match l with [] => None | _ => Some (i + zlen (";"%char :: n ++ "="%char :: v)) end) /\
    (begins_with quote v = true -> match k with None => l = [] | Some k => i + 1 + zlen n + 1 < k end).
Proof.
  intros Eb Ei Fn. rewrite (strchr_skip (pre ++ [";"%char]) (n ++ ["="%char]) (v ++ gparams_text l))
    by first [subst b; lists | zl | frees].
  eexists. split; [done|]. split.
  - intros Fv. rewrite index_of_free by done. destruct (gparams_head l) as [[-> ->]|[r Er]]; [done|].
    rewrite Er. destruct l; [done|]. cbn. f_equal. zl.
  - intros Hv. destruct v as [|x v]; [done|]. cbn [begins_with] in Hv. apply Ascii.eqb_eq in Hv. subst x.
    cbn [app index_of]. change (Ascii.eqb quote ";") with false. cbn iota.
    pose proof (index_of_spec ";"%char (v ++ gparams_text l)) as S.
    destruct (index_of ";" (v ++ gparams_text l)) as [j|]; cbn; [zl|].
    rewrite free_app in S. apply andb_prop in S as [_ S].
    destruct (gparams_head l) as [[? _]|[r Er]]; [done|]. by rewrite Er in S.
Qed.

Lemma param_ends_eq pre p l b i :
  b = pre ++ gparam_text p ++ gparams_text l -> i = zlen pre -> gparam_ok p = true ->
  param_ends b i = Done (gequal_at (i + 1) p, comma_at i p l).
Proof.
  intros Eb Ei [Hn Hv]%andb_prop. destruct p as [n v]. cbn [gname gvalue] in *. destruct n as [n|]; [|done].
  unfold gequal_at, comma_at, gparam_text in *. cbn [gname gvalue] in *. change (default ""%string (Some n)) with n in *.
  apply raw_spec in Hn as (_ & _ & _ & Ln).
  assert (free ";"%char (txt n) = true) as Fn1 by (by apply (lacks_free _ _ _ Ln)).
  assert (free "="%char (txt n) = true) as Fn2 by (by apply (lacks_free _ _ _ Ln)).
  set (pre1 := pre ++ [";"%char]).
  unfold param_ends. destruct v as [v|]; cbn [gvalue_text] in *.
  - cbn [opt_ok] in Hv. apply andb_prop in Hv as [Hr Hv]. apply raw_spec in Hr as (Nv & Lv & Tv & _).
    destruct (trimmed_head _ Nv Tv) as (x & vr & Ev & Hx). destruct (not_blank x Hx) as [Hx1 _].
    rewrite (next_separator_first pre1 (txt n) (txt v ++ gparams_text l) _ _ b _ (i + 1 + zlen (txt n)))
      by first [done | subst b pre1; lists | subst pre1; zl].
    destruct (first_comma pre (txt n) (txt v) l b i Eb Ei Fn1) as (k & -> & K1 & K2).
    set (pre2 := pre1 ++ txt n ++ ["="%char]).
    assert (b = pre2 ++ txt v ++ gparams_text l) as Eb2 by (subst b pre2 pre1; lists).
    assert (zlen pre2 = i + 1 + zlen (txt n) + 1) as L2 by (subst pre2 pre1; zl).
    rewrite (skip_none is_sp b (length b) pre2 x (vr ++ gparams_text l)) by first [done | rewrite Eb2, Ev; lists].
    rewrite (char_at_mid pre2 x (vr ++ gparams_text l)) by first [done | rewrite Eb2, Ev; lists].
    destruct (quoted (txt v)) eqn:Q; cbn [orb] in Hv.
    + destruct (quoted_spec _ Q) as (q & Eq & Hq). rewrite Eq in Ev. injection Ev as <- _.
      change (Ascii.eqb quote quote) with true. cbn [andb].
      rewrite Eq in K2. specialize (K2 eq_refl). destruct k as [k|]; [ltest|by subst l].
      rewrite (Hq b pre2 (gparams_text l) _ Eb2) by lia.
      destruct (gparams_head l) as [[-> E0]|[r Er]].
      * rewrite (strchr_none (pre2 ++ quote :: q) [quote]) by first [done | rewrite Eb2, Eq, E0; lists | zl]. done.
      * rewrite (strchr_at (pre2 ++ quote :: q) [quote] r _ _ _ (i + zlen (";"%char :: txt n ++ "="%char :: txt v)))
          by first [done | rewrite Eb2, Eq, Er; lists | rewrite Eq; zl | zl].
        by destruct l.
    + rewrite !andb_true_iff in Hv. destruct Hv as [[Fv Hq] _]. rewrite Ev in Hq. cbn [begins_with] in Hq.
      apply negb_true_iff in Hq. rewrite Hq. cbn [andb]. by rewrite (K1 Fv).
  - rewrite !app_nil_r in *. rewrite (next_separator_none pre1 (txt n) (gparams_text l));
      [|subst b pre1; lists|subst pre1; zl|done..|destruct (gparams_head l) as [[_ ->]|]; [by left|by right]].
    destruct (gparams_head l) as [[-> E0]|[r Er]].
    + rewrite (strchr_none pre1 (txt n)); [done|subst b pre1; rewrite E0, app_nil_r; lists|subst pre1; zl|done].
    + rewrite (strchr_at pre1 (txt n) r _ _ _ (i + zlen (";"%char :: txt n)));
        [by destruct l|subst b pre1; rewrite Er; lists|subst pre1; zl|done|zl].
Qed.

Lemma raw_param_add l n v :
  trimmed (txt n) = true -> match v with Some v => trimmed (txt v) = true | None => True end ->
  osip_uri_param_add l (txt n) (match v with Some v => Some (txt v) | None => None end) =
    Done (l ++ [mkParam (Some n) v]).
Proof.
  intros Hn Hv. unfold osip_uri_param_add, osip_uri_param_set. rewrite clrspace_id by done.
  destruct v as [v|]; [rewrite clrspace_id by done|]; by rewrite !str_txt.
Qed.

Lemma parse_generic_param_eq l0 pre p r b i comma :
  b = pre ++ gparam_text p ++ r -> i = zlen pre -> comma = i + zlen (gparam_text p) -> gparam_ok p = true ->
  parse_generic_param l0 b i (gequal_at (i + 1) p) comma = Done (OSIP_SUCCESS, l0 ++ [p]).
Proof.
  intros Eb Ei Ec [Hn Hv]%andb_prop. destruct p as [n v]. cbn [gname gvalue] in *. destruct n as [n|]; [|done].
  unfold gequal_at, gparam_text in *. cbn [gname gvalue] in *. change (default ""%string (Some n)) with n in *.
  apply raw_spec in Hn as (_ & Ln & Tn & _). unfold parse_generic_param. cbn [gvalue].
  set (pre1 := pre ++ [";"%char]).
  destruct v as [v|]; cbn [gvalue_text] in *.
  - cbn [opt_ok] in Hv. apply andb_prop in Hv as [Hr Hv]. apply raw_spec in Hr as (Nv & Lv & Tv & Fv).
    destruct (trimmed_head _ Nv Tv) as (x & vr & Ev & Hx). destruct (not_blank x Hx) as [_ Hx2].
    set (pre2 := pre1 ++ txt n ++ ["="%char]).
    assert (b = pre2 ++ txt v ++ r) as Eb2 by (subst b pre2 pre1; lists).
    assert (zlen pre2 = i + 1 + zlen (txt n) + 1) as L2 by (subst pre2 pre1; zl).
    rewrite (skip_none is_sp_tab b (length b) pre2 x (vr ++ r)) by first [done | rewrite Eb2, Ev; lists].
    rewrite (char_at_mid pre2 x (vr ++ r)) by first [done | rewrite Eb2, Ev; lists].
    assert (Ascii.eqb x ","%char = false) as ->.
    { rewrite Ev in Hv. destruct (Ascii.eqb_spec x ","%char) as [->|]; [|done].
      change (quoted (","%char :: vr)) with false in Hv. cbn [begins_with orb] in Hv.
      change (Ascii.eqb "," ",") with true in Hv. by rewrite andb_false_r in Hv. }
    assert (Ascii.eqb x NUL = false) as ->.
    { pose proof (lacks_free _ NUL _ Fv eq_refl) as F. rewrite Ev, free_cons in F.
      rewrite Ascii.eqb_sym. by destruct (Ascii.eqb NUL x). }
    cbn [negb andb]. ltests. rewrite (strncpy_at pre2 (txt v) r) by first [done | zl]. ltests.
    rewrite (strncpy_at pre1 (txt n) ("="%char :: txt v ++ r)) by first [subst b pre1; lists | subst pre1; zl].
    by rewrite (raw_param_add l0 n (Some v)).
  - rewrite app_nil_r in *. ltests.
    rewrite (strncpy_at pre1 (txt n) r) by first [subst b pre1; lists | subst pre1; zl].
    by rewrite (raw_param_add l0 n None).
Qed.

Lemma gparam_length p : gparam_ok p = true -> 2 <= zlen (gparam_text p).
Proof.
  intros [Hn _]%andb_prop. destruct p as [n v]. cbn [gname] in Hn. destruct n as [n|]; [|done].
  apply raw_spec in Hn as (_ & L & _). unfold gparam_text. cbn [gname]. change (default ""%string (Some n)) with n. zl.
Qed.

Lemma generic_params_eq l : forall pre l0 b i fuel,
  b = pre ++ gparams_text l -> i = zlen pre -> l <> [] -> forallb gparam_ok l = true -> (length l <= fuel)%nat ->
  generic_params_loop fuel l0 b i = Done (OSIP_SUCCESS, l0 ++ l).
Proof.
  induction l as [|p l IH]; intros pre l0 b i fuel Eb Ei Hne Hok Hf; [done|]. clear Hne.
  cbn [forallb] in Hok. apply andb_prop in Hok as [Hp Hl]. pose proof (gparam_length p Hp) as Lp.
  cbn [gparams_text flat_map] in Eb. fold (gparams_text l) in Eb.
  destruct fuel as [|fuel]; [simpl in Hf; lia|]. cbn [generic_params_loop].
  rewrite (param_ends_eq pre p l b i) by done. unfold comma_at. destruct l as [|p' l'].
  - change (gparams_text []) with (@nil ascii) in Eb.
    assert (zlen b = i + zlen (gparam_text p)) as Lb by (subst b; zl).
    destruct (Z.ltb_spec (zlen b - i) 2); [lia|]. rewrite andb_false_r.
    by rewrite (parse_generic_param_eq l0 pre p []).
  - rewrite (parse_generic_param_eq l0 pre p (gparams_text (p' :: l'))) by done. cbn [negb Z.eqb].
    rewrite (IH (pre ++ gparam_text p)); [|subst b; lists|zl|done|done|simpl in *; lia].
    f_equal. f_equal. by rewrite <- app_assoc.
Qed.

Lemma gparams_length l : forallb gparam_ok l = true -> Z.of_nat (length l) <= zlen (gparams_text l).
Proof.
  induction l as [|p l IH]; [done|]. cbn [forallb]. intros [Hp Hl]%andb_prop. pose proof (gparam_length p Hp).
  specialize (IH Hl). cbn [gparams_text flat_map length]. fold (gparams_text l). zl.
Qed.

Lemma parseall_eq l pre b i :
  b = pre ++ gparams_text l -> i = zlen pre -> l <> [] -> forallb gparam_ok l = true ->
  osip_generic_param_parseall [] b i = Done (OSIP_SUCCESS, l).
Proof.
  intros Eb Ei Hne Hok. unfold osip_generic_param_parseall. pose proof (gparams_length l Hok).
  rewrite (generic_params_eq l pre) by (try done; subst b; unfold zlen in *; rewrite length_app; lia). done.
Qed.

(** ** From *)

Lemma gparam_named p : gparam_ok p = true -> exists n, gname p = Some n.
Proof. intros [H _]%andb_prop. destruct (gname p) as [n|]; [eauto|done]. Qed.

Lemma print_generic_eq l : forall len buf,
  forallb gparam_ok l = true -> zlen buf + 1 <= len ->
  exists len', print_generic_params l len buf = Done (len', buf ++ gparams_text l).
Proof.
  induction l as [|p l IH]; intros len buf Hok Hl; cbn [print_generic_params].
  { exists len. cbn. by rewrite app_nil_r. }
  cbn [forallb] in Hok. apply andb_prop in Hok as [Hp Hok]. destruct (gparam_named p Hp) as [n En].
  destruct p as [n' v]. cbn [gname gvalue] in *. subst n'. cbn [lift gparams_text flat_map].
  fold (gparams_text l). unfold gparam_text. cbn [gname gvalue]. change (default ""%string (Some n)) with n.
  destruct v as [v|]; cbn [gvalue_text]; rewrite snprintf_ok by zl;
    (edestruct IH as [len' ->]; [done| |exists len'; do 2 f_equal; rewrite ?app_nil_r; lists]); zl.
Qed.

(** A display name: a quoted string, or words of characters that need no quotes. *)
Definition display_ok (s : string) : bool :=
  quoted (txt s) || nonempty (txt s) && trimmed (txt s) && forallb is_token (txt s).
Definition url_ok (u : osip_uri) : bool :=
  well_formed u && free ">"%char (uri_text u) && negb (Ascii.eqb (List.last (uri_text u) NUL) ";"%char)
  && free NUL (uri_text u) && (6 <=? zlen (uri_text u)).
Definition from_well_formed (f : osip_from) : bool :=
  opt_ok display_ok (displayname f)
  && match f_url f with None => false | Some u => url_ok u end
  && forallb gparam_ok (gen_params f).

Definition name_text (name : option string) : text :=
  match name with None => [] | Some n => txt n ++ [" "%char] end.
Definition from_text (f : osip_from) (u : osip_uri) : text :=
  name_text (displayname f) ++ ("<"%char :: uri_text u ++ [">"%char]) ++ gparams_text (gen_params f).

Lemma from_print_eq f u :
  f_url f = Some u -> well_formed u = true -> forallb gparam_ok (gen_params f) = true ->
  osip_from_to_str f = Done (Ok (from_text f u)).
Proof.
  intros Ef Hu Hl. unfold osip_from_to_str, from_text. rewrite Ef. destruct (round_trip u Hu) as [-> _].
  destruct (displayname f) as [n|]; cbn [name_text];
    rewrite sprintf_ok by zl; (edestruct (print_generic_eq (gen_params f)) as [len' ->]; [done|zl|]);
    do 2 f_equal; lists.
Qed.

(** Over the characters of a token. *)
Lemma skip_token f s : forall fuel b p x r i,
  b = p ++ s ++ x :: r -> i = zlen p -> forallb f s = true -> f x = false -> zlen s <= Z.of_nat fuel ->
  skip_while fuel f b i = Done (i + zlen s).
Proof.
  induction s as [|c s IH]; intros fuel b p x r i Eb Ei Hs Hx Hf.
  - rewrite zlen_nil, Z.add_0_r. by apply (skip_none f b fuel p x r).
  - cbn [forallb] in Hs. apply andb_prop in Hs as [Hc Hs]. destruct fuel as [|fuel]; [zl|].
    cbn [skip_while]. rewrite (char_at_mid p c (s ++ x :: r)) by first [done | subst b; lists]. rewrite Hc.
    rewrite (IH fuel b (p ++ [c]) x r); [f_equal; zl|subst b; lists|zl|done|done|zl].
Qed.

Lemma skip_before fuel b p s f x r i :
  b = p ++ s ++ x :: r -> i = zlen p -> forallb f s = true -> f x = false -> fuel = length b ->
  skip_while fuel f b i = Done (i + zlen s).
Proof.
  intros Eb Ei Hs Hx ->. apply (skip_token f s _ b p x r); try done. rewrite Eb. unfold zlen.
  rewrite !length_app. lia.
Qed.

(** A copy of a piece and of the blank behind it. *)
Lemma clrncpy_blank s r b size n :
  b = s ++ " "%char :: r -> nonempty s = true -> trimmed s = true -> n = zlen s + 1 -> zlen s + 1 <= size ->
  osip_clrncpy size b 0 n = Done s.
Proof.
  intros Eb Hn Ht -> Hs. apply Z.ltb_lt in Hn. unfold osip_clrncpy. ltests.
  assert (length b = S (length s + length r)) as Lb by (subst b; rewrite length_app; simpl; lia).
  destruct (clear_at [] s (" "%char :: r) size (length s + length r) b 0 (zlen s - 1)) as (_ & E2 & E3);
    [done|done|by intros ->|done|done|lia|].
  destruct (clear_at [] s (" "%char :: r) size (length b) b 0 (zlen s - 1)) as (-> & _ & _);
    [done|done|by intros ->|done|done|lia|].
  rewrite Lb. cbn [last_text]. rewrite (char_at_mid s " "%char r) by (done || lia).
  change (is_blank " ") with true. cbn iota. ltests.
  replace (0 + (zlen s + 1) - 1 - 1) with (zlen s - 1) by lia. by rewrite E2.
Qed.

(** The display name and the opening bracket. *)
Lemma find_url_eq name b y r :
  b = name_text name ++ "<"%char :: y :: r -> opt_ok display_ok name = true -> y <> NUL ->
  (exists x b', b = x :: b' /\ is_sp x = false /\ x <> NUL) /\
  find_url osip_from_init b 0 = Done (Ok (zlen (name_text name)), mkFrom name None []).
Proof.
  intros Eb Hn Hy. unfold find_url.
  assert (forall k, k = zlen (name_text name) -> char_at b k = Done "<"%char /\ char_at b (k + 1) = Done y) as At.
  { intros k ->. split.
    - by apply (char_at_mid (name_text name) _ (y :: r)).
    - apply (char_at_mid (name_text name ++ ["<"%char]) y r); [subst b; lists|zl]. }
  assert (Ascii.eqb y NUL = false) as Hy' by (by destruct (Ascii.eqb_spec y NUL)).
  destruct name as [n|]; cbn [name_text opt_ok] in *.
  2:{ split; [by exists "<"%char, (y :: r)|]. destruct (At 0 eq_refl) as [A1 A2]. rewrite A1. cbn iota.
      change (Ascii.eqb "<" quote) with false. cbn iota.
      rewrite (skip_none is_token b _ [] "<"%char (y :: r)) by done. rewrite A1.
      change (Ascii.eqb "<" NUL) with false. change (Ascii.eqb "<" "<") with true. cbn iota. by rewrite A2, Hy'. }
  rewrite <- app_assoc in Eb. cbn [app] in Eb. destruct (quoted (txt n)) eqn:Q; cbn [display_ok orb] in Hn.
  - destruct (quoted_spec _ Q) as (q & En & Hq). split.
    { exists quote, (q ++ [quote] ++ " "%char :: "<"%char :: y :: r). split; [|done]. rewrite Eb, En. lists. }
    rewrite (char_at_mid [] quote (q ++ [quote] ++ " "%char :: "<"%char :: y :: r)) by (rewrite ?Eb, ?En; done || lists).
    change (Ascii.eqb quote quote) with true. cbn iota.
    rewrite (Hq b [] (" "%char :: "<"%char :: y :: r) 0 Eb eq_refl).
    assert (zlen (txt n) = zlen q + 2) as Ln by (rewrite En; zl).
    rewrite (strncpy_at [] (txt n) (" "%char :: "<"%char :: y :: r)) by first [done | zl]. rewrite str_txt.
    rewrite (skip_before _ b (txt n) [" "%char] _ "<"%char (y :: r)) by first [done | zl].
    destruct (At (0 + 1 + zlen q + 1 + zlen [" "%char])) as [A1 A2]; [zl|]. rewrite A1, A2, Hy'.
    change (Ascii.eqb "<" "<") with true. cbn [negb]. do 3 f_equal. zl.
  - unfold display_ok in Hn. rewrite Q in Hn. cbn [orb] in Hn.
    apply andb_prop in Hn as [[Nn Tn]%andb_prop Hn].
    destruct (trimmed_head _ Nn Tn) as (x & nr & En & Hx). destruct (not_blank x Hx) as [Hx1 _].
    assert (is_token x = true) as Tx by (rewrite En in Hn; cbn [forallb] in Hn; by apply andb_prop in Hn as [? _]).
    split.
    { exists x, (nr ++ " "%char :: "<"%char :: y :: r). split; [rewrite Eb, En; lists|]. split; [done|]. by intros ->. }
    rewrite (char_at_mid [] x (nr ++ " "%char :: "<"%char :: y :: r)) by (rewrite ?Eb, ?En; done || lists).
    destruct (Ascii.eqb_spec x quote) as [->|_]; [done|].
    rewrite (skip_before _ b [] (txt n ++ [" "%char]) _ "<"%char (y :: r));
      [|subst b; lists|done|by rewrite forallb_app, Hn|done|done].
    destruct (At (0 + zlen (txt n ++ [" "%char]))) as [A1 A2]; [lia|]. rewrite A1.
    change (Ascii.eqb "<" NUL) with false. change (Ascii.eqb "<" "<") with true. cbn iota. rewrite A2, Hy'.
    apply Z.ltb_lt in Nn. lens. ltests.
    rewrite (clrncpy_blank (txt n) ("<"%char :: y :: r)); [|done|by apply Z.ltb_lt|done|lia|lia].
    rewrite str_txt. do 3 f_equal; try zl.
Qed.

(** The URI in its brackets, and the parameters behind them. *)
Lemma url_ends_eq p u l b i :
  b = p ++ ("<"%char :: txt u ++ [">"%char]) ++ gparams_text l -> i = zlen p -> 0 < zlen (txt u) ->
  free ">"%char (txt u) = true -> Ascii.eqb (List.last (txt u) NUL) ";"%char = false ->
  url_ends b i = Done (Ok (i + 1, i + zlen (txt u),
                           match l with [] => None | _ => Some (i + zlen (txt u) + 2) end)).
Proof.
  intros Eb Ei Lu Fu Hl. unfold url_ends.
  rewrite (char_at_mid p "<"%char (txt u ++ [">"%char] ++ gparams_text l)) by first [done | subst b; lists].
  change (Ascii.eqb "<" "<") with true. cbn iota.
  rewrite (strchr_at (p ++ ["<"%char]) (txt u) (gparams_text l) _ b _ (i + 1 + zlen (txt u)))
    by first [done | subst b; lists | zl].
  assert (txt u <> []) as Hne by (intros E; rewrite E in Lu; done).
  pose proof (last_mid _ Hne) as El. set (x := List.last (txt u) NUL) in *. set (q := removelast (txt u)) in *.
  assert (zlen (txt u) = zlen q + 1) as Lq by (rewrite El; zl).
  assert (b = (p ++ "<"%char :: q) ++ [x; ">"%char] ++ gparams_text l) as Eq by (rewrite Eb, El; lists).
  assert (free ";"%char [x; ">"%char] = true) as Fx by (rewrite !free_cons, Ascii.eqb_sym, Hl; done).
  destruct (gparams_head l) as [[-> E0]|[r Er]].
  - rewrite (strchr_none (p ++ "<"%char :: q) [x; ">"%char]) by first [done | rewrite Eq, E0; lists | zl].
    do 3 f_equal. f_equal. lia.
  - rewrite (strchr_at (p ++ "<"%char :: q) [x; ">"%char] r _ _ _ (i + zlen (txt u) + 2))
      by first [done | rewrite Eq, Er; lists | zl].
    destruct l; [done|]. do 3 f_equal. f_equal. lia.
Qed.

Lemma from_parse_eq f u :
  f_url f = Some u -> from_well_formed f = true ->
  osip_from_parse osip_from_init (from_text f u) =
    Done (OSIP_SUCCESS, mkFrom (displayname f) (Some (visible u)) (gen_params f)).
Proof.
  intros Ef Hf. unfold from_well_formed in Hf. rewrite Ef in Hf.
  apply andb_prop in Hf as [[Hn Hu]%andb_prop Hl].
  unfold url_ok in Hu. rewrite !andb_true_iff in Hu. destruct Hu as [[[[Hu Fg] Fl%negb_true_iff] Fn] L6%Z.leb_le].
  set (b := from_text f u) in *.
  destruct (uri_text u) as [|y ur] eqn:Eu; [done|]. rewrite <- Eu in *.
  assert (y <> NUL) as Hy by (intros ->; rewrite Eu in Fn; done).
  destruct (find_url_eq (displayname f) b y (ur ++ [">"%char] ++ gparams_text (gen_params f)))
    as [(x & b' & Ebx & Hx & Hx0) Hfind]; [subst b; unfold from_text; rewrite Eu; lists|done|done|].
  unfold osip_from_parse.
  rewrite (skip_none is_sp b _ [] x b') by done. rewrite (char_at_mid [] x b') by done.
  destruct (Ascii.eqb_spec x NUL); [done|]. rewrite Hfind.
  rewrite (url_ends_eq (name_text (displayname f)) (str (uri_text u)) (gen_params f) b)
    by (rewrite ?txt_str; first [done | lia]).
  rewrite txt_str. cbn [gen_params]. set (k := zlen (name_text (displayname f))).
  assert (match match gen_params f with [] => None | _ => Some (k + zlen (uri_text u) + 2) end with
          | None => Done (OSIP_SUCCESS, [])
          | Some g => osip_generic_param_parseall [] b g
          end = Done (OSIP_SUCCESS, gen_params f)) as ->.
  { destruct (gen_params f) as [|p l] eqn:El; [done|]. rewrite <- El in *.
    apply (parseall_eq _ (name_text (displayname f) ++ "<"%char :: uri_text u ++ [">"%char]));
      [subst b; unfold from_text; lists|subst k; zl|by rewrite El|done]. }
  change (negb (OSIP_SUCCESS =? OSIP_SUCCESS)) with false. cbn iota. ltests.
  rewrite (strncpy_at (name_text (displayname f) ++ ["<"%char]) (uri_text u) ([">"%char] ++ gparams_text (gen_params f)))
    by first [subst b; unfold from_text; lists | subst k; zl].
  destruct (round_trip u Hu) as [_ ->]. done.
Qed.

(** C13: what [osip_from_to_str] writes of a From, a To, a Route or a Contact, [osip_from_parse]
    reads back: the display name, quoted with escaped quotes in it or not, the URI (but for
    its internal parameters) and the parameters in their order, those that are quoted and
    have semicolons in them too.  The URI must not have a closing bracket, nor end with a
    semicolon, nor be shorter than six characters. *)
Theorem sip_from_round_trip f u :
  f_url f = Some u -> from_well_formed f = true ->
  exists t, osip_from_to_str f = Done (Ok t) /\
    osip_from_parse osip_from_init t = Done (OSIP_SUCCESS, mkFrom (displayname f) (Some (visible u)) (gen_params f)).
Proof.
  intros Ef Hf. exists (from_text f u). split; [|by apply from_parse_eq].
  unfold from_well_formed in Hf. rewrite Ef in Hf. apply andb_prop in Hf as [[Hn Hu]%andb_prop Hl].
  unfold url_ok in Hu. rewrite !andb_true_iff in Hu. apply from_print_eq; tauto.
Qed.

Definition full_from : osip_from :=
  mkFrom (Some (str (quote :: txt "J. " ++ [backslash; quote] ++ txt "Doe" ++ [backslash; backslash; quote])))
    (Some (mkUri None (Some "jdoe"%string) None (Some "sip.org"%string) (Some "5070"%string)
             [mkParam (Some "lr"%string) None] [] None))
    [mkParam (Some "tag"%string) (Some "a73k"%string); mkParam (Some "x"%string) None;
     mkParam (Some "q"%string) (Some (str (quote :: txt "1;=2" ++ [quote])))].
Lemma sip_from_round_trip_witness :
  osip_from_to_str full_from =
    Done (Ok (quote :: txt "J. " ++ [backslash; quote] ++ txt "Doe" ++ [backslash; backslash; quote]
              ++ txt " <sip:jdoe@sip.org:5070;lr>;tag=a73k;x;q=" ++ quote :: txt "1;=2" ++ [quote])) /\
  exists t, osip_from_to_str full_from = Done (Ok t) /\
    exists u, osip_from_parse osip_from_init t = Done (OSIP_SUCCESS, mkFrom (displayname full_from) (Some u) (gen_params full_from)).
Proof.
  split; [vm_compute; reflexivity|].
  edestruct (sip_from_round_trip full_from) as (t & Ht & Hp); [reflexivity|vm_compute; reflexivity|].
  exists t. split; [exact Ht|]. eexists. exact Hp.
Defined.
