(* ===== verification/SipViaRoundTrip.v ===== *)
(** The headers of SIP, continued: the parsers of Via, Call-ID and CSeq read back what the
    printers write. *)

From Stdlib Require Import Ascii ZArith Lia.
From stdpp Require Import base list option numbers strings.
From S2P Require Import Prelude.
From S2P Require Import CMem.
From S2P Require Import SipTypes.
From S2P Require Import SipMessage.
From S2P Require Import SipOwnership.
From S2P Require Import SipUri.
From S2P Require Import SipUriSpec.
From S2P Require Import SipUriParse.
From S2P Require Import SipUriRoundTrip.
From S2P Require Import SipHeaders.
From S2P Require Import SipHeadersParse.
From S2P Require Import SipHeadersRoundTrip.

Local Open Scope Z_scope.
Open Scope c_scope.

(** ** The text of a Via *)

Definition comment_text (c : option string) : text :=
  match c with None => [] | Some c => " "%char :: "("%char :: txt c ++ [")"%char] end.
Definition protocol_text (version protocol : string) : text :=
  txt "SIP/" ++ txt version ++ "/"%char :: txt protocol.
Definition sent_by_text (v : osip_via) (host : string) : text :=
  host_text (txt host) ++ port_text (v_port v).
Definition via_text (v : osip_via) (version protocol host : string) : text :=
  protocol_text version protocol ++ " "%char :: sent_by_text v host ++ gparams_text (via_params v)
    ++ comment_text (v_comment v).

Lemma txt_app a b : txt (a +:+ b) = txt a ++ txt b.
Proof. induction a as [|c a IH]; [done|]. change (c :: txt (a +:+ b) = c :: txt a ++ txt b). by rewrite IH. Qed.

Lemma has_colon_index h : has_colon h = match index_of ":"%char (txt h) with Some _ => true | None => false end.
Proof.
  induction h as [|c h IH]; [done|]. cbn [has_colon]. change (txt (String c h)) with (c :: txt h).
  cbn [index_of]. rewrite IH. destruct (Ascii.eqb_spec c ":"%char) as [->|N]; [done|].
  destruct (Z.eqb_spec (code c) 58) as [E|_]; [|by destruct (index_of _ _)].
  exfalso. apply N. rewrite <- (ascii_nat_embedding c). unfold code in E.
  by replace (nat_of_ascii c) with 58%nat by lia.
Qed.

Lemma bracketed_host h : txt (if has_colon h then "[" +:+ h +:+ "]" else h) = host_text (txt h).
Proof.
  rewrite has_colon_index. unfold host_text. destruct (index_of ":" (txt h)); [|done]. by rewrite !txt_app.
Qed.

Lemma via_params_print l :
  forallb gparam_ok l = true -> exists s, via_params_to_str l = Done s /\ txt s = gparams_text l.
Proof.
  induction l as [|p l IH]; [by exists ""%string|]. cbn [forallb]. intros [Hp Hl]%andb_prop.
  destruct (IH Hl) as (s & Es & Et). destruct (gparam_named p Hp) as [n En].
  cbn [via_params_to_str]. rewrite En. cbn [lift]. rewrite Es. eexists. split; [done|].
  cbn [gparams_text flat_map]. fold (gparams_text l). unfold gparam_text. rewrite En.
  change (default ""%string (Some n)) with n.
  destruct (gvalue p) as [v|]; rewrite !txt_app, Et; cbn [gvalue_text]; [|by rewrite app_nil_r; lists]. lists.
Qed.

Lemma via_print_eq v version protocol host :
  v_version v = Some version -> v_protocol v = Some protocol -> v_host v = Some host ->
  forallb gparam_ok (via_params v) = true ->
  exists s, osip_via_to_str (Some v) = Done (Ok s) /\ txt s = via_text v version protocol host.
Proof.
  intros Ev Ep Eh Hl. unfold osip_via_to_str. rewrite Ev, Ep, Eh.
  destruct (via_params_print _ Hl) as (s & -> & Es). eexists. split; [done|].
  rewrite !txt_app, bracketed_host, Es. unfold via_text, protocol_text, sent_by_text.
  destruct (v_port v), (v_comment v); cbn [port_text comment_text]; rewrite ?txt_app; lists.
Qed.

(** ** The parser on that text *)

Definition via_host_ok (s : string) : bool := raw_ok [";"; "("; ")"; "["; "]"]%char (txt s).
Definition via_port_ok (s : string) : bool :=
  raw_ok [";"; "("; ")"; "["]%char (txt s) && (0 <=? osip_atoi (Some s)).
Definition comment_ok (params : list osip_uri_param) (c : string) : bool :=
  nonempty (txt c) && lacks [NUL; ")"%char] (txt c)
  && match params with [] => free ";"%char (txt c) | _ => true end.
Definition via_well_formed (v : osip_via) : bool :=
  some_ok (fun s => raw_ok ["/"]%char (txt s)) (v_version v)
  && some_ok (fun s => raw_ok [" "]%char (txt s)) (v_protocol v)
  && some_ok via_host_ok (v_host v) && opt_ok via_port_ok (v_port v)
  && forallb gparam_ok (via_params v) && lacks ["("; ")"]%char (gparams_text (via_params v))
  && opt_ok (comment_ok (via_params v)) (v_comment v).

Lemma sent_protocol_eq version protocol r b :
  b = protocol_text version protocol ++ " "%char :: r ->
  raw_ok ["/"]%char (txt version) = true -> raw_ok [" "]%char (txt protocol) = true ->
  parse_sent_protocol osip_via_init b =
    Done (Ok (zlen (protocol_text version protocol)), mkVia (Some version) (Some protocol) None None None []).
Proof.
  intros Eb (Nv & Lv & Tv & Fv)%raw_spec (Np & Lp & Tp & Fp)%raw_spec. unfold parse_sent_protocol.
  unfold protocol_text in *.
  rewrite (strchr_at [] (txt "SIP") (txt version ++ "/"%char :: txt protocol ++ " "%char :: r) _ b 0 3)
    by first [done | rewrite Eb; lists].
  rewrite (strchr_at (txt "SIP/") (txt version) (txt protocol ++ " "%char :: r) _ b _ (4 + zlen (txt version)))
    by first [done | rewrite Eb; lists | by apply (lacks_free _ _ _ Fv)]. ltests.
  rewrite (clrncpy_at (txt "SIP/") (txt version) ("/"%char :: txt protocol ++ " "%char :: r))
    by first [done | rewrite Eb; lists | zl].
  rewrite (strchr_at (txt "SIP/" ++ txt version ++ ["/"%char]) (txt protocol) r _ b _ (5 + zlen (txt version) + zlen (txt protocol)))
    by first [done | rewrite Eb; lists | by apply (lacks_free _ _ _ Fp) | lens; change (zlen (txt "SIP/")) with 4; lia].
  ltests.
  rewrite (clrncpy_at (txt "SIP/" ++ txt version ++ ["/"%char]) (txt protocol) (" "%char :: r))
    by first [done | rewrite Eb; lists | lens; change (zlen (txt "SIP/")) with 4; lia].
  rewrite !str_txt. do 3 f_equal. lens. change (zlen (txt "SIP/")) with 4. lia.
Qed.

(** Behind the version and the transport, which are [a], is the blank before [s], the host
    and the port, and before the parameters. *)
Lemma parse_comment_eq via a s l c b i :
  b = a ++ " "%char :: s ++ gparams_text l ++ comment_text c -> i = zlen a ->
  lacks ["("; ")"]%char s = true -> lacks ["("; ")"]%char (gparams_text l) = true ->
  opt_ok (comment_ok l) c = true -> v_comment via = None ->
  parse_comment via b i = Done (Ok (i + 1 + zlen s + zlen (gparams_text l)), set_v_comment c via).
Proof.
  intros Eb Ei Hs Hg Hc Hv. unfold parse_comment. set (t := " "%char :: s ++ gparams_text l).
  assert (lacks ["("; ")"]%char t = true) as Ht.
  { subst t. change (" "%char :: s ++ gparams_text l) with ([" "%char] ++ s ++ gparams_text l).
    by rewrite !lacks_app, Hs, Hg. }
  assert (free "("%char t = true /\ free ")"%char t = true) as [F1 F2].
  { split; by apply (lacks_free _ _ _ Ht). }
  assert (zlen t = 1 + zlen s + zlen (gparams_text l)) as Lt by (subst t; zl).
  destruct c as [c|]; cbn [comment_text opt_ok] in *.
  - unfold comment_ok in Hc. apply andb_prop in Hc as [[Hn%Z.ltb_lt Fc]%andb_prop _].
    assert (free ")"%char (txt c) = true) as Fc2 by (by apply (lacks_free _ _ _ Fc)).
    assert (free "("%char (t ++ [" "%char]) = true) as F1' by frees.
    assert (free ")"%char (t ++ " "%char :: "("%char :: txt c) = true) as F2' by frees.
    rewrite (strchr_at a (t ++ [" "%char]) (txt c ++ [")"%char]) _ b i (i + zlen t + 1))
      by first [done | subst b t; lists | zl].
    rewrite (strchr_at a (t ++ " "%char :: "("%char :: txt c) [] _ b i (i + zlen t + 2 + zlen (txt c)))
      by first [done | subst b t; lists | zl].
    ltests.
    rewrite (strncpy_at (a ++ t ++ [" "; "("]%char) (txt c) [")"%char]) by first [subst b t; lists | zl].
    rewrite str_txt. do 3 f_equal. lia.
  - rewrite app_nil_r in Eb.
    rewrite (strchr_none a t) by first [done | subst b t; lists].
    replace (set_v_comment None via) with via by (destruct via; cbn in *; by subst).
    do 3 f_equal. subst b. zl.
Qed.

Lemma parse_params_eq via a s l c b i k :
  b = a ++ " "%char :: s ++ gparams_text l ++ comment_text c -> i = zlen a ->
  k = i + 1 + zlen s + zlen (gparams_text l) -> free ";"%char s = true -> forallb gparam_ok l = true ->
  opt_ok (comment_ok l) c = true -> via_params via = [] ->
  parse_via_params via b i k = Done (Ok (i + 1 + zlen s), set_via_params l via).
Proof.
  intros Eb Ei -> Fs Hl Hc Hv. unfold parse_via_params.
  destruct (gparams_head l) as [[-> E]|[r Er]].
  - rewrite (strchr_none a (" "%char :: s ++ comment_text c)); [|rewrite Eb, E; lists|done|].
    + rewrite E, zlen_nil, Z.add_0_r. by replace (set_via_params [] via) with via by (destruct via; cbn in *; by subst).
    + destruct c as [c|]; cbn [comment_text]; [|frees]. cbn [opt_ok] in Hc. unfold comment_ok in Hc.
      apply andb_prop in Hc as [_ Hc]. frees.
  - assert (free ";"%char (" "%char :: s) = true) as Fs' by frees.
    rewrite (strchr_at a (" "%char :: s) (r ++ comment_text c) _ b i (i + 1 + zlen s))
      by first [done | rewrite Eb, Er; lists | zl].
    assert (1 <= zlen (gparams_text l)) by (rewrite Er; zl). ltests.
    rewrite (strncpy_at (a ++ " "%char :: s) (gparams_text l) (comment_text c)) by first [subst b; lists | zl].
    rewrite Hv. rewrite (parseall_eq l [] (gparams_text l) 0); [done|done|done| |done].
    intros ->. done.
Qed.

(** What is found behind a piece that does not have it. *)
Lemma strchr_beyond p u r c b i :
  b = p ++ u ++ r -> i = zlen p -> free c u = true ->
  exists k, strchr b i c = Done k /\ match k with None => True | Some k => i + zlen u <= k end.
Proof.
  intros Eb Ei Fu. rewrite (strchr_skip p u r) by done. eexists. split; [done|].
  pose proof (index_of_spec c r) as S. destruct (index_of c r) as [j|]; cbn; [|done]. lia.
Qed.

(** The colon of the port, looked for from [j] on. *)
Definition port_colon (i : Z) (h : text) (port : option string) (k : option Z) : Prop :=
  match port with
  | Some _ => k = Some (i + 1 + zlen h)
  | None => match k with None => True | Some k => i + 1 + zlen h <= k end
  end.

Lemma port_colon_at p u r h b i j port :
  b = p ++ u ++ port_text port ++ r -> j = zlen p -> free ":"%char u = true -> j + zlen u = i + 1 + zlen h ->
  exists k, strchr b j ":"%char = Done k /\ port_colon i h port k.
Proof.
  intros Eb Ej Fu E. destruct port as [pt|]; cbn [port_text port_colon] in *.
  - exists (Some (i + 1 + zlen h)). split; [|done].
    by apply (strchr_at p u (txt pt ++ r)).
  - destruct (strchr_beyond p u r ":"%char b j Eb Ej Fu) as (k & -> & Hk). exists k. split; [done|].
    destruct k; [lia|done].
Qed.

Lemma parse_ipv6_eq via a host port r b i params :
  b = a ++ " "%char :: host_text (txt host) ++ port_text port ++ r -> i = zlen a ->
  params = i + 1 + zlen (host_text (txt host)) + zlen (port_text port) ->
  via_host_ok host = true -> opt_ok via_port_ok port = true ->
  exists (bracketed : bool) (k : option Z),
    parse_via_ipv6 via b i params =
      Done (Ok (bracketed, k), if bracketed then set_v_host (Some host) via else via) /\
    (bracketed = false -> host_text (txt host) = txt host) /\
    port_colon i (host_text (txt host)) port k.
Proof.
  intros Eb Ei -> (Nh & Lh & Th & Fh)%raw_spec Hp. unfold parse_via_ipv6.
  assert (free "["%char (txt host) = true /\ free "]"%char (txt host) = true) as [Fo Fc].
  { split; by apply (lacks_free _ _ _ Fh). }
  assert (free "["%char (port_text port) = true) as Fp.
  { destruct port as [pt|]; [|done]. cbn [opt_ok] in Hp. apply andb_prop in Hp as [(_ & _ & _ & Fp)%raw_spec _].
    cbn [port_text]. rewrite free_cons. by apply (lacks_free _ "["%char _ Fp). }
  destruct (host_text_cases (txt host)) as [[E Hc]|E].
  - exists false. destruct (port_colon_at a (" "%char :: txt host) r (txt host) b i i port) as (k & Ek & Hk);
      [rewrite Eb, E; lists|done|frees|zl|].
    exists k. rewrite E. split; [|done].
    destruct (strchr_beyond a (" "%char :: txt host ++ port_text port) r "["%char b i) as (o & -> & Ho);
      [rewrite Eb, E; lists|done|frees|].
    destruct o as [o|]; [|by rewrite Ek]. ltest. by rewrite Ek.
  - exists true. set (p1 := a ++ " "%char :: "["%char :: txt host).
    destruct (port_colon_at p1 ["]"%char] r (host_text (txt host)) b i (zlen p1) port) as (k & Ek & Hk);
      [rewrite Eb, E; subst p1; lists|done|done|rewrite E; subst p1; zl|].
    exists k. split; [|done].
    rewrite (strchr_at a [" "%char] (txt host ++ "]"%char :: port_text port ++ r) _ b i (i + 1))
      by first [done | rewrite Eb, E; lists].
    rewrite E. ltest.
    rewrite (strchr_at (a ++ [" "%char]) ("["%char :: txt host) (port_text port ++ r) _ b (i + 1) (zlen p1))
      by first [done | rewrite Eb, E; lists | frees | subst p1; zl].
    assert (zlen p1 = i + 2 + zlen (txt host)) as L1 by (subst p1; zl). ltests.
    rewrite (clrncpy_at (a ++ [" "; "["]%char) (txt host) ("]"%char :: port_text port ++ r))
      by first [done | rewrite Eb, E; lists | zl]. by rewrite Ek, str_txt.
Qed.

Lemma sent_by_eq via a host port r b i params :
  b = a ++ " "%char :: host_text (txt host) ++ port_text port ++ r -> i = zlen a ->
  params = i + 1 + zlen (host_text (txt host)) + zlen (port_text port) ->
  via_host_ok host = true -> opt_ok via_port_ok port = true -> v_port via = None ->
  parse_sent_by via b i params = Done (OSIP_SUCCESS, set_v_port port (set_v_host (Some host) via)).
Proof.
  intros Eb Ei Ep Hh Hp Hv. unfold parse_sent_by.
  destruct (parse_ipv6_eq via a host port r b i params) as (br & k & -> & Hbr & Hk); [done..|].
  cbv beta iota.
  set (via1 := if br then set_v_host (Some host) via else via).
  assert (v_port via1 = None) as Hv1 by (subst via1; by destruct br).
  pose proof (raw_spec _ _ Hh) as (Nh & Lh & Th & Fh).
  set (h := host_text (txt host)) in *.
  assert (parse_via_port via1 b k params = Done (Ok (i + 1 + zlen h), set_v_port port via1)) as ->.
  { unfold parse_via_port. destruct port as [pt|]; cbn [port_colon port_text opt_ok] in *.
    - subst k. apply andb_prop in Hp as [(Np & Lp & Tp & _)%raw_spec Ha%Z.leb_le]. ltests.
      rewrite (clrncpy_at (a ++ " "%char :: h ++ [":"%char]) (txt pt) r) by first [done | subst b; lists | subst params; zl].
      rewrite str_txt. destruct (Z.ltb_spec (osip_atoi (Some pt)) 0); [lia|done].
    - rewrite zlen_nil, Z.add_0_r in Ep. replace (set_v_port None via1) with via1 by (clear -Hv1; destruct via1; cbn in *; by subst).
      destruct k as [k|]; [|by subst params]. ltest. by subst params. }
  destruct br; [by subst via1|]. specialize (Hbr eq_refl). rewrite Hbr in *. ltests.
  rewrite (clrncpy_at (a ++ [" "%char]) (txt host) (port_text port ++ r)) by first [done | subst b; lists | zl].
  by rewrite str_txt.
Qed.

Lemma via_parse_eq v version protocol host :
  v_version v = Some version -> v_protocol v = Some protocol -> v_host v = Some host -> via_well_formed v = true ->
  osip_via_parse osip_via_init (via_text v version protocol host) = Done (OSIP_SUCCESS, v).
Proof.
  intros Ev Ep Eh H. unfold via_well_formed in H. rewrite Ev, Ep, Eh in H. cbn [some_ok] in H.
  rewrite !andb_true_iff in H. destruct H as [[[[[[Hv Hp] Hh] Hpt] Hl] Fg] Hc].
  set (b := via_text v version protocol host). set (a := protocol_text version protocol).
  set (s := sent_by_text v host).
  assert (b = a ++ " "%char :: s ++ gparams_text (via_params v) ++ comment_text (v_comment v)) as Eb by done.
  assert (lacks [";"; "("; ")"]%char s = true) as Fs.
  { subst s. unfold sent_by_text. rewrite lacks_app. apply andb_true_intro. split.
    - pose proof (raw_spec _ _ Hh) as (_ & _ & _ & F). cbn [lacks forallb] in F |- *.
      rewrite !andb_true_iff in F. destruct F as (_ & F1 & F2 & F3 & _).
      unfold host_text. destruct (index_of _ _); frees.
    - destruct (v_port v) as [pt|]; [|done]. cbn [opt_ok] in Hpt. apply andb_prop in Hpt as [(_ & _ & _ & F)%raw_spec _].
      cbn [lacks forallb port_text] in F |- *. rewrite !andb_true_iff in F. destruct F as (_ & F1 & F2 & F3 & _). frees. }
  cbn [lacks forallb] in Fs. rewrite !andb_true_iff in Fs. destruct Fs as (F1 & F2 & F3 & _).
  unfold osip_via_parse.
  rewrite (sent_protocol_eq version protocol (s ++ gparams_text (via_params v) ++ comment_text (v_comment v)) b) by done.
  fold a. rewrite (parse_comment_eq _ a s (via_params v) (v_comment v) b (zlen a)); [|done|done| |done|done|done].
  2:{ cbn [lacks forallb]. by rewrite F2, F3. }
  rewrite (parse_params_eq _ a s (via_params v) (v_comment v) b (zlen a)) by done.
  rewrite (sent_by_eq _ a host (v_port v) (gparams_text (via_params v) ++ comment_text (v_comment v)) b (zlen a));
    [|rewrite Eb; subst s; unfold sent_by_text; lists|done|subst s; unfold sent_by_text; zl|done..].
  do 2 f_equal. destruct v. cbn in *. by subst.
Qed.

(** C14: what [osip_via_to_str] writes of a Via, [osip_via_parse] reads back: version,
    transport, the host, in brackets when it has a colon, the port, the parameters in their
    order and the comment.  The parameters must not have parentheses, and the comment no
    semicolon unless there are parameters: the first semicolon begins the parameters. *)
Theorem sip_via_round_trip v :
  via_well_formed v = true ->
  exists s, osip_via_to_str (Some v) = Done (Ok s) /\ osip_via_parse osip_via_init (txt s) = Done (OSIP_SUCCESS, v).
Proof.
  intros H. pose proof H as Hw. unfold via_well_formed in H. rewrite !andb_true_iff in H.
  destruct H as [[[[[[Hv Hp] Hh] _] Hl] _] _].
  destruct (v_version v) as [version|] eqn:Ev; [|done]. destruct (v_protocol v) as [protocol|] eqn:Ep; [|done].
  destruct (v_host v) as [host|] eqn:Eh; [|done].
  destruct (via_print_eq v version protocol host Ev Ep Eh Hl) as (s & Es & Et).
  exists s. split; [done|]. rewrite Et. by apply via_parse_eq.
Qed.

Definition full_via : osip_via :=
  mkVia (Some "2.0"%string) (Some "UDP"%string) (Some "fe80::1"%string) (Some "5062"%string)
    (Some "the [first]; hop"%string)
    [mkParam (Some "rport"%string) None; mkParam (Some "branch"%string) (Some "z9hG4bK776"%string)].
Lemma sip_via_round_trip_witness :
  osip_via_to_str (Some full_via) =
    Done (Ok "SIP/2.0/UDP [fe80::1]:5062;rport;branch=z9hG4bK776 (the [first]; hop)"%string) /\
  exists s, osip_via_to_str (Some full_via) = Done (Ok s) /\
    osip_via_parse osip_via_init (txt s) = Done (OSIP_SUCCESS, full_via).
Proof. split; [vm_compute; reflexivity|]. apply (sip_via_round_trip full_via). vm_compute. reflexivity. Defined.

(** Without parameters the semicolon in the comment ends the host. *)
Lemma via_comment_in_host :
  exists v, osip_via_parse osip_via_init (txt "SIP/2.0/UDP h (x;y)") = Done (OSIP_SUCCESS, v) /\
    v_host v = Some "h (x"%string.
Proof. eexists. split; [vm_compute; reflexivity|done]. Qed.

(** ** Call-ID and CSeq *)

Definition call_id_well_formed (c : osip_call_id) : bool :=
  some_ok (fun s => raw_ok ["@"]%char (txt s)) (ci_number c) && opt_ok (fun s => raw_ok [] (txt s)) (ci_host c).
Definition cseq_well_formed (c : osip_cseq) : bool :=
  some_ok (fun s => raw_ok [" "]%char (txt s)) (cs_number c) && some_ok (fun s => raw_ok [] (txt s)) (cs_method c).

(** A copy up to and with the NUL. *)
Lemma clrncpy_end p s b size i n :
  b = p ++ s -> i = zlen p -> nonempty s = true -> trimmed s = true -> n = zlen s + 1 -> n + 1 <= size ->
  osip_clrncpy size b i n = Done s.
Proof.
  intros -> Ei Hn Ht -> Hs. apply Z.ltb_lt in Hn. unfold osip_clrncpy. ltests.
  destruct (clear_at p s [] size (length (p ++ s)) (p ++ s) i (i + zlen s - 1)) as (-> & _ & _);
    [by rewrite app_nil_r|done|by intros ->|done|lia|done|].
  assert (forall fuel, last_text fuel (p ++ s) i (i + (zlen s + 1) - 1) = Done (Some (i + zlen s))) as ->.
  { intros fuel. assert (i + (zlen s + 1) - 1 = zlen (p ++ s)) as -> by zl.
    destruct fuel; cbn [last_text]; rewrite char_at_ok by zl; rewrite at_end by lia; do 2 f_equal; zl. }
  unfold osip_strncpy. ltests. f_equal. rewrite drop_mid by done. apply take_ge. unfold zlen in *. lia.
Qed.

Lemma call_id_round_trip c :
  call_id_well_formed c = true ->
  exists t, osip_call_id_to_str (Some c) = Done (Ok t) /\ osip_call_id_parse t = Done (OSIP_SUCCESS, c).
Proof.
  destruct c as [number host]. unfold call_id_well_formed. cbn [ci_number ci_host].
  intros [Hn Hh]%andb_prop. destruct number as [n|]; [|done]. cbn [some_ok] in Hn.
  apply raw_spec in Hn as (Nn & Ln & Tn & Fn). unfold osip_call_id_to_str. cbn [ci_number ci_host].
  assert (free "@"%char (txt n) = true) as F by (by apply (lacks_free _ _ _ Fn)).
  destruct host as [h|].
  - cbn [opt_ok] in Hh. apply raw_spec in Hh as (Nh & Lh & Th & _). rewrite sprintf_ok by zl.
    eexists. split; [done|]. cbn [app]. set (b := txt n ++ "@"%char :: txt h). unfold osip_call_id_parse.
    rewrite (strchr_at [] (txt n) (txt h) _ b 0 (zlen (txt n))) by done.
    assert (zlen b = zlen (txt n) + 1 + zlen (txt h)) as Lb by (subst b; zl).
    rewrite (clrncpy_at (txt n ++ ["@"%char]) (txt h) []) by first [done | subst b; rewrite app_nil_r; lists | zl].
    ltests. rewrite (clrncpy_at [] (txt n) ("@"%char :: txt h)) by first [done | lia]. by rewrite !str_txt.
  - rewrite sprintf_ok by zl. eexists. split; [done|]. cbn [app]. unfold osip_call_id_parse.
    rewrite (strchr_none [] (txt n)) by done. ltests.
    rewrite (clrncpy_at [] (txt n) []) by first [done | lia | by rewrite app_nil_r]. by rewrite !str_txt.
Qed.

Lemma cseq_round_trip c :
  cseq_well_formed c = true ->
  exists t, osip_cseq_to_str c = Done (Ok t) /\ osip_cseq_parse t = Done (OSIP_SUCCESS, c).
Proof.
  destruct c as [method number]. unfold cseq_well_formed. cbn [cs_method cs_number].
  intros [Hn Hm]%andb_prop. destruct number as [n|]; [|done]. destruct method as [m|]; [|done]. cbn [some_ok] in *.
  apply raw_spec in Hn as (Nn & Ln & Tn & Fn). apply raw_spec in Hm as (Nm & Lm & Tm & Fm).
  unfold osip_cseq_to_str. cbn [cs_method cs_number]. rewrite snprintf_ok by zl.
  eexists. split; [done|]. cbn [app]. set (b := txt n ++ " "%char :: txt m). unfold osip_cseq_parse.
  rewrite (strchr_at [] (txt n) (txt m) _ b 0 (zlen (txt n))) by first [done | by apply (lacks_free _ _ _ Fn)].
  assert (zlen b = zlen (txt n) + 1 + zlen (txt m)) as Lb by (subst b; zl). ltests.
  rewrite (clrncpy_at [] (txt n) (" "%char :: txt m)) by first [done | lia].
  rewrite (clrncpy_end (txt n ++ [" "%char]) (txt m)) by first [done | subst b; lists | zl]. by rewrite !str_txt.
Qed.

(** What is written of a Call-ID, with a host or without, and of a CSeq is read back;
    the number of a Call-ID has no at sign, and neither part has blanks around it. *)
Theorem sip_call_id_cseq_round_trip c q :
  call_id_well_formed c = true -> cseq_well_formed q = true ->
  (exists t, osip_call_id_to_str (Some c) = Done (Ok t) /\ osip_call_id_parse t = Done (OSIP_SUCCESS, c)) /\
  (exists t, osip_cseq_to_str q = Done (Ok t) /\ osip_cseq_parse t = Done (OSIP_SUCCESS, q)).
Proof. split; [by apply call_id_round_trip|by apply cseq_round_trip]. Qed.

Lemma sip_call_id_cseq_round_trip_witness :
  (exists t, osip_call_id_to_str (Some (mkCallId (Some "843817637684230"%string) (Some "998sdasdh09"%string))) = Done (Ok t) /\
    osip_call_id_parse t = Done (OSIP_SUCCESS, mkCallId (Some "843817637684230"%string) (Some "998sdasdh09"%string))) /\
  (exists t, osip_cseq_to_str (mkCSeq (Some "REGISTER"%string) (Some "1826"%string)) = Done (Ok t) /\
    osip_cseq_parse t = Done (OSIP_SUCCESS, mkCSeq (Some "REGISTER"%string) (Some "1826"%string))).
Proof. apply sip_call_id_cseq_round_trip; vm_compute; reflexivity. Defined.
