(* ===== verification/Md5.v ===== *)
(** MD5: the model of src/osipparser2/osip_md5c.c of libosip2, with words of 32 bits as [Z]
    and checked accesses to the buffers. *)

From stdpp Require Import base list option numbers.
From S2P Require Import Prelude.
From S2P Require Import CMem.

Local Open Scope Z_scope.
Open Scope c_scope.

(** ** The basic functions *)

Definition bnot (x : Z) : Z := u32 (Z.lnot x).
Definition F (x y z : Z) : Z := Z.lor (Z.land x y) (Z.land (bnot x) z).
Definition G (x y z : Z) : Z := Z.lor (Z.land x z) (Z.land y (bnot z)).
Definition H (x y z : Z) : Z := Z.lxor (Z.lxor x y) z.
Definition I (x y z : Z) : Z := Z.lxor y (Z.lor x (bnot z)).

Definition ROTATE_LEFT (x n : Z) : Z := Z.lor (u32 (Z.shiftl x n)) (Z.shiftr x (32 - n)).

(** The four words of the state, and the variables of [osip_MD5Transform]. *)
Record words := mkWords { w_a : Z; w_b : Z; w_c : Z; w_d : Z }.
Inductive reg := ra | rb | rc | rd'.
Definition get (r : reg) (w : words) : Z :=
  match r with ra => w_a w | rb => w_b w | rc => w_c w | rd' => w_d w end.
Definition set (r : reg) (v : Z) (w : words) : words :=
  match r with
  | ra => mkWords v (w_b w) (w_c w) (w_d w)
  | rb => mkWords (w_a w) v (w_c w) (w_d w)
  | rc => mkWords (w_a w) (w_b w) v (w_d w)
  | rd' => mkWords (w_a w) (w_b w) (w_c w) v
  end.

(** The macros FF, GG, HH and II, for one of the basic functions, on the variables
    [r1] to [r4] and the word [xk] of the block. *)
Definition XX (f : Z -> Z -> Z -> Z) (r1 r2 r3 r4 : reg) (xk s ac : Z) (w : words) : words :=
  let w := set r1 (u32 (get r1 w + u32 (u32 (f (get r2 w) (get r3 w) (get r4 w) + xk) + ac))) w in
  let w := set r1 (ROTATE_LEFT (get r1 w) s) w in
  set r1 (u32 (get r1 w + get r2 w)) w.
Definition FF := XX F.
Definition GG := XX G.
Definition HH := XX H.
Definition II := XX I.

Definition S11 : Z := 7.
Definition S12 : Z := 12.
Definition S13 : Z := 17.
Definition S14 : Z := 22.
Definition S21 : Z := 5.
Definition S22 : Z := 9.
Definition S23 : Z := 14.
Definition S24 : Z := 20.
Definition S31 : Z := 4.
Definition S32 : Z := 11.
Definition S33 : Z := 16.
Definition S34 : Z := 23.
Definition S41 : Z := 6.
Definition S42 : Z := 10.
Definition S43 : Z := 15.
Definition S44 : Z := 21.

(** ** Words and bytes *)

(** The words of [input] as bytes, least significant first. *)
Fixpoint osip_Encode (input : list Z) : buf :=
  match input with
  | [] => []
  | x :: input =>
      [Z.land x 0xff; Z.land (Z.shiftr x 8) 0xff; Z.land (Z.shiftr x 16) 0xff; Z.land (Z.shiftr x 24) 0xff]
      ++ osip_Encode input
  end.

Fixpoint osip_Decode (n : nat) (input : buf) (j : Z) : option (list Z) :=
  match n with
  | O => Some []
  | S n =>
      let* b0 := rd input j in
      let* b1 := rd input (j + 1) in
      let* b2 := rd input (j + 2) in
      let* b3 := rd input (j + 3) in
      let* output := osip_Decode n input (j + 4) in
      Some (Z.lor (Z.lor (Z.lor b0 (Z.shiftl b1 8)) (Z.shiftl b2 16)) (Z.shiftl b3 24) :: output)
  end.

(** ** The transformation of the state by a block *)

(** The sixty-four steps, in the order of the code; [x] is the block. *)
Definition steps (x : nat -> Z) : list (words -> words) := [
  FF ra rb rc rd' (x 0%nat) S11 0xd76aa478;
  FF rd' ra rb rc (x 1%nat) S12 0xe8c7b756;
  FF rc rd' ra rb (x 2%nat) S13 0x242070db;
  FF rb rc rd' ra (x 3%nat) S14 0xc1bdceee;
  FF ra rb rc rd' (x 4%nat) S11 0xf57c0faf;
  FF rd' ra rb rc (x 5%nat) S12 0x4787c62a;
  FF rc rd' ra rb (x 6%nat) S13 0xa8304613;
  FF rb rc rd' ra (x 7%nat) S14 0xfd469501;
  FF ra rb rc rd' (x 8%nat) S11 0x698098d8;
  FF rd' ra rb rc (x 9%nat) S12 0x8b44f7af;
  FF rc rd' ra rb (x 10%nat) S13 0xffff5bb1;
  FF rb rc rd' ra (x 11%nat) S14 0x895cd7be;
  FF ra rb rc rd' (x 12%nat) S11 0x6b901122;
  FF rd' ra rb rc (x 13%nat) S12 0xfd987193;
  FF rc rd' ra rb (x 14%nat) S13 0xa679438e;
  FF rb rc rd' ra (x 15%nat) S14 0x49b40821;
  GG ra rb rc rd' (x 1%nat) S21 0xf61e2562;
  GG rd' ra rb rc (x 6%nat) S22 0xc040b340;
  GG rc rd' ra rb (x 11%nat) S23 0x265e5a51;
  GG rb rc rd' ra (x 0%nat) S24 0xe9b6c7aa;
  GG ra rb rc rd' (x 5%nat) S21 0xd62f105d;
  GG rd' ra rb rc (x 10%nat) S22 0x2441453;
  GG rc rd' ra rb (x 15%nat) S23 0xd8a1e681;
  GG rb rc rd' ra (x 4%nat) S24 0xe7d3fbc8;
  GG ra rb rc rd' (x 9%nat) S21 0x21e1cde6;
  GG rd' ra rb rc (x 14%nat) S22 0xc33707d6;
  GG rc rd' ra rb (x 3%nat) S23 0xf4d50d87;
  GG rb rc rd' ra (x 8%nat) S24 0x455a14ed;
  GG ra rb rc rd' (x 13%nat) S21 0xa9e3e905;
  GG rd' ra rb rc (x 2%nat) S22 0xfcefa3f8;
  GG rc rd' ra rb (x 7%nat) S23 0x676f02d9;
  GG rb rc rd' ra (x 12%nat) S24 0x8d2a4c8a;
  HH ra rb rc rd' (x 5%nat) S31 0xfffa3942;
  HH rd' ra rb rc (x 8%nat) S32 0x8771f681;
  HH rc rd' ra rb (x 11%nat) S33 0x6d9d6122;
  HH rb rc rd' ra (x 14%nat) S34 0xfde5380c;
  HH ra rb rc rd' (x 1%nat) S31 0xa4beea44;
  HH rd' ra rb rc (x 4%nat) S32 0x4bdecfa9;
  HH rc rd' ra rb (x 7%nat) S33 0xf6bb4b60;
  HH rb rc rd' ra (x 10%nat) S34 0xbebfbc70;
  HH ra rb rc rd' (x 13%nat) S31 0x289b7ec6;
  HH rd' ra rb rc (x 0%nat) S32 0xeaa127fa;
  HH rc rd' ra rb (x 3%nat) S33 0xd4ef3085;
  HH rb rc rd' ra (x 6%nat) S34 0x4881d05;
  HH ra rb rc rd' (x 9%nat) S31 0xd9d4d039;
  HH rd' ra rb rc (x 12%nat) S32 0xe6db99e5;
  HH rc rd' ra rb (x 15%nat) S33 0x1fa27cf8;
  HH rb rc rd' ra (x 2%nat) S34 0xc4ac5665;
  II ra rb rc rd' (x 0%nat) S41 0xf4292244;
  II rd' ra rb rc (x 7%nat) S42 0x432aff97;
  II rc rd' ra rb (x 14%nat) S43 0xab9423a7;
  II rb rc rd' ra (x 5%nat) S44 0xfc93a039;
  II ra rb rc rd' (x 12%nat) S41 0x655b59c3;
  II rd' ra rb rc (x 3%nat) S42 0x8f0ccc92;
  II rc rd' ra rb (x 10%nat) S43 0xffeff47d;
  II rb rc rd' ra (x 1%nat) S44 0x85845dd1;
  II ra rb rc rd' (x 8%nat) S41 0x6fa87e4f;
  II rd' ra rb rc (x 15%nat) S42 0xfe2ce6e0;
  II rc rd' ra rb (x 6%nat) S43 0xa3014314;
  II rb rc rd' ra (x 13%nat) S44 0x4e0811a1;
  II ra rb rc rd' (x 4%nat) S41 0xf7537e82;
  II rd' ra rb rc (x 11%nat) S42 0xbd3af235;
  II rc rd' ra rb (x 2%nat) S43 0x2ad7d2bb;
  II rb rc rd' ra (x 9%nat) S44 0xeb86d391
].

(** [osip_MD5Transform] on the 64 bytes from [block + i]. *)
Definition osip_MD5Transform (state : words) (block : buf) (i : Z) : option words :=
  let* x := osip_Decode 16 block i in
  let w := fold_left (fun w step => step w) (steps (fun k => nth k x 0)) state in
  Some (mkWords (u32 (w_a state + w_a w)) (u32 (w_b state + w_b w))
          (u32 (w_c state + w_c w)) (u32 (w_d state + w_d w))).

(** ** The context *)

Record osip_MD5_CTX := mkMD5 { state : words; count0 : Z; count1 : Z; buffer : buf }.

(** The buffer is left as it was. *)
Definition osip_MD5Init (context : osip_MD5_CTX) : osip_MD5_CTX :=
  mkMD5 (mkWords 0x67452301 0xefcdab89 0x98badcfe 0x10325476) 0 0 (buffer context).

Definition osip_MD5_memcpy (output : buf) (o : Z) (input : buf) (i len : Z) : option buf :=
  let* vs := rdn input i len in
  wrn output o vs.

(** [for (i = partLen; i + 63 < inputLen; i += 64)], on unsigned integers. *)
Fixpoint blocks_loop (fuel : nat) (state : words) (input : buf) (inputLen i : Z) : outcome (words * Z) :=
  if u32 (i + 63) <? inputLen then
    match fuel with
    | O => Unfinished
    | S fuel =>
        let! state := lift (osip_MD5Transform state input i) in
        blocks_loop fuel state input inputLen (u32 (i + 64))
    end
  else Done (state, i).

Definition osip_MD5Update (context : osip_MD5_CTX) (input : buf) (inputLen : Z) : outcome osip_MD5_CTX :=
  let index := Z.land (Z.shiftr (count0 context) 3) 0x3f in
  let bits := u32 (Z.shiftl inputLen 3) in
  let count0' := u32 (count0 context + bits) in
  let count1' := if count0' <? bits then u32 (count1 context + 1) else count1 context in
  let count1' := u32 (count1' + Z.shiftr inputLen 29) in
  let partLen := u32 (64 - index) in
  let! (state', buffer', index, i) :=
    (if partLen <=? inputLen then
       let! buffer' := lift (osip_MD5_memcpy (buffer context) index input 0 partLen) in
       let! state' := lift (osip_MD5Transform (state context) buffer' 0) in
       let! (state', i) := blocks_loop (S (Z.to_nat (inputLen / 64))) state' input inputLen partLen in
       Done (state', buffer', 0, i)
     else Done (state context, buffer context, index, 0)) in
  let! buffer' := lift (osip_MD5_memcpy buffer' index input i (u32 (inputLen - i))) in
  Done (mkMD5 state' count0' count1' buffer').

Definition PADDING : buf := 0x80 :: replicate 63 0.

(** The digest, and the context with all its bytes zero. *)
Definition osip_MD5Final (context : osip_MD5_CTX) : outcome (buf * osip_MD5_CTX) :=
  let bits := osip_Encode [count0 context; count1 context] in
  let index := Z.land (Z.shiftr (count0 context) 3) 0x3f in
  let padLen := if index <? 56 then 56 - index else 120 - index in
  let! context := osip_MD5Update context PADDING padLen in
  let! context := osip_MD5Update context bits 8 in
  let digest := osip_Encode [w_a (state context); w_b (state context); w_c (state context); w_d (state context)] in
  Done (digest, mkMD5 (mkWords 0 0 0 0) 0 0 (replicate 64 0)).
