(* ===== verification/Md5Spec.v ===== *)
(** MD5: the algorithm of RFC 1321 on whole messages, and that the code computes it, whatever
    the pieces in which a message is given. *)

From Stdlib Require Import ZArith Lia.
From stdpp Require Import base list option numbers.
From S2P Require Import Prelude.
From S2P Require Import CMem.
From S2P Require Import Md5.

Local Open Scope Z_scope.
Open Scope c_scope.

(** ** The algorithm *)

Definition word (x : Z) : Prop := 0 <= x < 2 ^ 32.

Definition rotl (x s : Z) : Z := (x * 2 ^ s) mod 2 ^ 32 + x / 2 ^ (32 - s).

Definition round_fn (i : nat) : Z -> Z -> Z -> Z :=
  match (i / 16)%nat with O => F | 1%nat => G | 2%nat => H | _ => I end.
Definition round_index (i : nat) : nat :=
  ((match i / 16 with O => i | 1 => 5 * i + 1 | 2 => 3 * i + 5 | _ => 7 * i end) mod 16)%nat.
Definition round_shift (i : nat) : Z :=
  nth (4 * (i / 16) + i mod 4)%nat [7; 12; 17; 22; 5; 9; 14; 20; 4; 11; 16; 23; 6; 10; 15; 21] 0.

(** The integer parts of 2^32 * |sin i|, for i from 1 to 64, as RFC 1321 lists them. *)
Definition T : list Z :=
  [0xd76aa478; 0xe8c7b756; 0x242070db; 0xc1bdceee; 0xf57c0faf; 0x4787c62a; 0xa8304613; 0xfd469501;
   0x698098d8; 0x8b44f7af; 0xffff5bb1; 0x895cd7be; 0x6b901122; 0xfd987193; 0xa679438e; 0x49b40821;
   0xf61e2562; 0xc040b340; 0x265e5a51; 0xe9b6c7aa; 0xd62f105d; 0x02441453; 0xd8a1e681; 0xe7d3fbc8;
   0x21e1cde6; 0xc33707d6; 0xf4d50d87; 0x455a14ed; 0xa9e3e905; 0xfcefa3f8; 0x676f02d9; 0x8d2a4c8a;
   0xfffa3942; 0x8771f681; 0x6d9d6122; 0xfde5380c; 0xa4beea44; 0x4bdecfa9; 0xf6bb4b60; 0xbebfbc70;
   0x289b7ec6; 0xeaa127fa; 0xd4ef3085; 0x04881d05; 0xd9d4d039; 0xe6db99e5; 0x1fa27cf8; 0xc4ac5665;
   0xf4292244; 0x432aff97; 0xab9423a7; 0xfc93a039; 0x655b59c3; 0x8f0ccc92; 0xffeff47d; 0x85845dd1;
   0x6fa87e4f; 0xfe2ce6e0; 0xa3014314; 0x4e0811a1; 0xf7537e82; 0xbd3af235; 0x2ad7d2bb; 0xeb86d391].

(** One step on the four words, which change their places. *)
Definition md5_step (x : nat -> Z) (w : words) (i : nat) : words :=
  let '(mkWords A B C D) := w in
  let sum := (A + round_fn i B C D + x (round_index i) + nth i T 0) mod 2 ^ 32 in
  mkWords D ((B + rotl sum (round_shift i)) mod 2 ^ 32) B C.

(** Bytes as little-endian words, and back. *)
Fixpoint words_of (l : list Z) : list Z :=
  match l with
  | b0 :: b1 :: b2 :: b3 :: l => b0 + 2 ^ 8 * b1 + 2 ^ 16 * b2 + 2 ^ 24 * b3 :: words_of l
  | _ => []
  end.
Fixpoint bytes_of (n : nat) (x : Z) : list Z :=
  match n with O => [] | S n => x mod 256 :: bytes_of n (x / 256) end.

Definition md5_block (w : words) (block : list Z) : words :=
  let r := fold_left (md5_step (fun k => nth k (words_of block) 0)) (seq 0 64) w in
  mkWords ((w_a w + w_a r) mod 2 ^ 32) ((w_b w + w_b r) mod 2 ^ 32)
    ((w_c w + w_c r) mod 2 ^ 32) ((w_d w + w_d r) mod 2 ^ 32).

Fixpoint chunks (n : nat) (l : list Z) : list (list Z) :=
  match n with O => [] | S n => take 64 l :: chunks n (drop 64 l) end.
(** The blocks of [l]; what is left is ignored. *)
Definition absorb (w : words) (l : list Z) : words := fold_left md5_block (chunks (length l / 64)%nat l) w.

(** A bit 1, as many bits 0 as lead to a length of 448 modulo 512 bits, and the number of
    bits of the message modulo 2^64. *)
Definition padded (msg : list Z) : list Z :=
  msg ++ 0x80 :: replicate ((119 - length msg mod 64) mod 64)%nat 0
  ++ bytes_of 8 ((8 * zlen msg) mod 2 ^ 64).

Definition initial : words := mkWords 0x67452301 0xefcdab89 0x98badcfe 0x10325476.
Definition md5 (msg : list Z) : list Z :=
  let w := absorb initial (padded msg) in
  bytes_of 4 (w_a w) ++ bytes_of 4 (w_b w) ++ bytes_of 4 (w_c w) ++ bytes_of 4 (w_d w).

(** ** A step of the code *)

Definition good (w : words) : Prop := word (w_a w) /\ word (w_b w) /\ word (w_c w) /\ word (w_d w).

Lemma word_u32 x : word (u32 x).
Proof. apply (is_u_uwrap 32). lia. Qed.
#[local] Hint Resolve word_u32 : core.

Lemma rotate_left_eq x s : word x -> 0 < s < 32 -> ROTATE_LEFT x s = rotl x s /\ word (rotl x s).
Proof.
  intros Hx Hs. unfold ROTATE_LEFT, rotl.
  assert (2 ^ 32 = 2 ^ (32 - s) * 2 ^ s) as E by (rewrite <- Z.pow_add_r by lia; f_equal; lia).
  assert (0 < 2 ^ s /\ 0 < 2 ^ (32 - s)) as [P1 P2] by (split; apply Z.pow_pos_nonneg; lia).
  assert (u32 (Z.shiftl x s) = Z.shiftl (x mod 2 ^ (32 - s)) s) as ->.
  { unfold uwrap. rewrite !Z.shiftl_mul_pow2, E by lia. by rewrite Z.mul_mod_distr_r by lia. }
  rewrite Z.shiftr_div_pow2 by lia.
  assert (0 <= x / 2 ^ (32 - s) < 2 ^ s) as Hq.
  { split; [apply Z.div_pos; [apply Hx|lia]|]. apply Z.div_lt_upper_bound; [lia|]. rewrite <- E. apply Hx. }
  rewrite lor_shiftl_add by (done || lia). rewrite Z.shiftl_mul_pow2 by lia.
  rewrite E at 1. rewrite Z.mul_mod_distr_r by lia. split; [done|].
  assert ((x * 2 ^ s) mod 2 ^ 32 = x mod 2 ^ (32 - s) * 2 ^ s) as ->.
  { rewrite E. by rewrite Z.mul_mod_distr_r by lia. }
  pose proof (Z.mod_pos_bound x (2 ^ (32 - s)) P2) as Hm. unfold word. rewrite E. nia.
Qed.

Lemma u32_sum x y z t : u32 (x + u32 (u32 (y + z) + t)) = (x + y + z + t) mod 2 ^ 32.
Proof. unfold uwrap. rewrite Zplus_mod_idemp_l, Zplus_mod_idemp_r. f_equal. lia. Qed.

(** What one of the macros does to its variables. *)
Lemma XX_eq f r1 r2 r3 r4 xk s ac w :
  0 < s < 32 -> r1 <> r2 ->
  XX f r1 r2 r3 r4 xk s ac w =
    set r1 ((get r2 w + rotl ((get r1 w + f (get r2 w) (get r3 w) (get r4 w) + xk + ac) mod 2 ^ 32) s) mod 2 ^ 32) w.
Proof.
  intros Hs Hr. unfold XX. rewrite u32_sum. set (sum := _ mod _).
  assert (word sum) as Hw by (apply Z.mod_pos_bound; done).
  destruct (rotate_left_eq sum s Hw Hs) as [E _].
  assert (forall v, get r1 (set r1 v w) = v) as G1 by (by destruct r1).
  assert (forall v w, get r2 (set r1 v w) = get r2 w) as G2 by (by destruct r1, r2).
  assert (forall v v' w, set r1 v (set r1 v' w) = set r1 v w) as S1 by (by destruct r1).
  rewrite G1, E, S1, S1, !G2. f_equal. unfold uwrap. rewrite Z.add_comm.
  destruct r1; done.
Qed.

(** The four variables in the places that the algorithm gives them before step [i]. *)
Definition placed (i : nat) (w : words) : words :=
  match (i mod 4)%nat with
  | O => w
  | 1%nat => mkWords (w_d w) (w_a w) (w_b w) (w_c w)
  | 2%nat => mkWords (w_c w) (w_d w) (w_a w) (w_b w)
  | _ => mkWords (w_b w) (w_c w) (w_d w) (w_a w)
  end.

Lemma step_eq x w i :
  (i < 64)%nat -> placed (S i) (nth i (steps x) id w) = md5_step x (placed i w) i.
Proof.
  intros Hi. destruct w as [A B C D].
  do 64 (destruct i as [|i];
    [cbn [nth steps]; unfold FF, GG, HH, II; rewrite XX_eq by done; reflexivity|]).
  lia.
Qed.

Lemma steps_eq x n w :
  (n <= 64)%nat ->
  placed n (fold_left (fun w step => step w) (take n (steps x)) w) = fold_left (md5_step x) (seq 0 n) w.
Proof.
  induction n as [|n IH]; intros Hn; [done|].
  assert (steps x !! n = Some (nth n (steps x) id)) as Hl.
  { destruct (lookup_lt_is_Some_2 (steps x) n) as [y Hy]; [simpl; lia|].
    rewrite Hy. f_equal. symmetry. apply nth_lookup_Some. done. }
  rewrite (take_S_r _ _ _ Hl), seq_S, !fold_left_app, <- IH by lia. cbn [fold_left].
  exact (step_eq x _ n ltac:(lia)).
Qed.

(** ** Words and bytes *)

Lemma decode_eq bs : forall n pre post i,
  bytes bs -> length bs = (4 * n)%nat -> i = zlen pre ->
  osip_Decode n (pre ++ bs ++ post) i = Some (words_of bs).
Proof.
  intros n. revert bs. induction n as [|n IH]; intros bs pre post i Hb Hl ->.
  { by destruct bs. }
  destruct bs as [|b0 [|b1 [|b2 [|b3 bs]]]]; simpl in Hl; try lia. cbn [osip_Decode words_of].
  assert (forall k v, nth_error [b0; b1; b2; b3] (Z.to_nat k) = Some v -> 0 <= k < 4 ->
            rd (pre ++ (b0 :: b1 :: b2 :: b3 :: bs) ++ post) (zlen pre + k) = Some v) as R.
  { intros k v E Hk. rewrite (rd_app_r pre _ (zlen pre)) by lia. unfold rd.
    rewrite (proj2 (Z.leb_le 0 k)) by lia.
    assert (k = 0 \/ k = 1 \/ k = 2 \/ k = 3) as [->|[->|[->| ->]]] by lia; exact E. }
  rewrite <- (Z.add_0_r (zlen pre)) at 1.
  rewrite (R 0 b0), (R 1 b1), (R 2 b2), (R 3 b3) by (done || lia).
  replace (pre ++ (b0 :: b1 :: b2 :: b3 :: bs) ++ post) with ((pre ++ [b0; b1; b2; b3]) ++ bs ++ post)
    by (by rewrite <- app_assoc).
  apply Forall_cons_1 in Hb as [H0 Hb]. apply Forall_cons_1 in Hb as [H1 Hb].
  apply Forall_cons_1 in Hb as [H2 Hb]. apply Forall_cons_1 in Hb as [H3 Hb].
  rewrite IH; [|done|lia|rewrite zlen_app; done]. do 2 f_equal.
  assert (is_u 16 (Z.lor b0 (Z.shiftl b1 8))) as L1.
  { apply is_u_lor; [lia|apply (is_u_weaken 8); (done || lia)|apply (is_u_shiftl 16 8); (done || lia)]. }
  assert (is_u 24 (Z.lor (Z.lor b0 (Z.shiftl b1 8)) (Z.shiftl b2 16))) as L2.
  { apply is_u_lor; [lia| |].
    - apply (is_u_weaken 16); [lia|done].
    - apply (is_u_shiftl 24 8); (done || lia). }
  rewrite (Z.lor_comm _ (Z.shiftl b3 24)), lor_shiftl_add by (done || lia).
  rewrite (Z.lor_comm _ (Z.shiftl b2 16)), lor_shiftl_add by (done || lia).
  rewrite (Z.lor_comm _ (Z.shiftl b1 8)), lor_shiftl_add by (done || lia).
  rewrite !Z.shiftl_mul_pow2 by lia. lia.
Qed.

Lemma encode_word x : osip_Encode [x] = bytes_of 4 x.
Proof.
  cbn [osip_Encode bytes_of app].
  change 0xff with (Z.ones 8). rewrite !Z.land_ones, !Z.shiftr_div_pow2 by lia.
  change (2 ^ 8) with 256. change (2 ^ 16) with (256 * 256). change (2 ^ 24) with (256 * 256 * 256).
  by rewrite !Z.div_div by lia.
Qed.

Lemma encode_words l : osip_Encode l = concat (map (bytes_of 4) l).
Proof. induction l as [|x l IH]; [done|]. cbn [map concat]. by rewrite <- IH, <- encode_word. Qed.

Lemma bytes_of_add n m x : bytes_of (n + m) x = bytes_of n x ++ bytes_of m (x / 256 ^ Z.of_nat n).
Proof.
  revert x. induction n as [|n IH]; intros x; [by rewrite Z.div_1_r|].
  cbn [bytes_of Nat.add app]. rewrite IH. do 3 f_equal.
  rewrite Nat2Z.inj_succ, Z.pow_succ_r, Z.div_div by lia. done.
Qed.

Lemma bytes_of_mod n x : bytes_of n (x mod 256 ^ Z.of_nat n) = bytes_of n x.
Proof.
  revert x. induction n as [|n IH]; intros x; [done|]. cbn [bytes_of].
  rewrite Nat2Z.inj_succ, Z.pow_succ_r by lia.
  assert (0 < 256 ^ Z.of_nat n) as P by (apply Z.pow_pos_nonneg; lia).
  rewrite Z.rem_mul_r by lia. f_equal.
  - rewrite Z.add_mod, Z.mul_comm, Z.mod_mul, Z.add_0_r, !Z.mod_mod by lia. done.
  - rewrite <- (IH (x / 256)). f_equal.
    rewrite Z.mul_comm, Z.div_add by lia. rewrite (Z.div_small (x mod 256)); [lia|].
    apply Z.mod_pos_bound. lia.
Qed.

Lemma encode_count c0 c1 : word c0 -> osip_Encode [c0; c1] = bytes_of 8 (c0 + 2 ^ 32 * c1).
Proof.
  intros Hc. rewrite encode_words. cbn [map concat]. rewrite app_nil_r.
  change 8%nat with (4 + 4)%nat. rewrite bytes_of_add. change (256 ^ Z.of_nat 4) with (2 ^ 32).
  rewrite <- (bytes_of_mod 4 (c0 + _)). change (256 ^ Z.of_nat 4) with (2 ^ 32).
  unfold word in Hc. rewrite (Z.mul_comm _ c1), Z.mod_add, Z.div_add, Z.mod_small, Z.div_small by lia. done.
Qed.

Lemma bytes_of_bytes n x : bytes (bytes_of n x).
Proof.
  revert x. induction n as [|n IH]; intros x; constructor; [|apply IH]. apply Z.mod_pos_bound. lia.
Qed.

(** ** Blocks *)

Lemma transform_eq st pre blk post i :
  bytes blk -> length blk = 64%nat -> i = zlen pre ->
  osip_MD5Transform st (pre ++ blk ++ post) i = Some (md5_block st blk).
Proof.
  intros Hb Hl ->. unfold osip_MD5Transform. rewrite decode_eq by done.
  pose proof (steps_eq (fun k => nth k (words_of blk) 0) 64 st ltac:(lia)) as E.
  rewrite take_ge in E by (simpl; lia). change (placed 64 ?w) with w in E. by rewrite E.
Qed.

Lemma chunks_app n m l k : length l = (64 * n)%nat -> chunks (n + m) (l ++ k) = chunks n l ++ chunks m k.
Proof.
  revert l. induction n as [|n IH]; intros l Hl; [by destruct l|].
  cbn [chunks Nat.add app]. rewrite take_app_le, drop_app_le by lia. f_equal.
  apply IH. rewrite length_drop. lia.
Qed.

Lemma chunks_prefix n l k : length l = (64 * n)%nat -> chunks n (l ++ k) = chunks n l.
Proof. intros H. rewrite <- (Nat.add_0_r n) at 1. by rewrite chunks_app, app_nil_r. Qed.

Lemma absorb_app w l k :
  (length l mod 64 = 0)%nat -> absorb w (l ++ k) = absorb (absorb w l) k.
Proof.
  intros H. unfold absorb. apply Nat.Div0.mod_divides in H as [n Hn].
  rewrite length_app, Hn. replace (64 * n + length k)%nat with (n * 64 + length k)%nat by lia.
  rewrite Nat.div_add_l by lia. rewrite chunks_app, fold_left_app by done.
  by rewrite Nat.mul_comm, Nat.div_mul by lia.
Qed.

Lemma absorb_short w l : (length l < 64)%nat -> absorb w l = w.
Proof. intros H. unfold absorb. by rewrite Nat.div_small by done. Qed.

Lemma absorb_one w l : length l = 64%nat -> absorb w l = md5_block w l.
Proof. intros H. unfold absorb. rewrite H. cbn. by rewrite take_ge by lia. Qed.

(** ** The context

    It holds the state after the whole blocks of the message, the bytes behind them, and the
    number of bits. *)

Definition rest (m : list Z) : list Z := drop (64 * (length m / 64)) m.

Record holds (ctx : osip_MD5_CTX) (m : list Z) : Prop := {
  ho_state : state ctx = absorb initial m;
  ho_words : word (count0 ctx) /\ word (count1 ctx);
  ho_count : count0 ctx + 2 ^ 32 * count1 ctx = (8 * zlen m) mod 2 ^ 64;
  ho_buffer : exists free, buffer ctx = rest m ++ free /\ zlen (buffer ctx) = 64;
  ho_bytes : bytes m
}.

Lemma rest_length m : zlen (rest m) = zlen m mod 64.
Proof.
  unfold rest, zlen. rewrite length_drop. change (Z.of_nat (length m) mod 64) with (Z.of_nat (length m) mod Z.of_nat 64).
  rewrite <- Nat2Z.inj_mod.
  pose proof (Nat.div_mod_eq (length m) 64). lia.
Qed.

Lemma absorb_rest m k : absorb initial (m ++ k) = absorb (absorb initial m) (rest m ++ k).
Proof.
  rewrite <- (take_drop (64 * (length m / 64)) m) at 1. rewrite <- app_assoc. fold (rest m).
  pose proof (Nat.div_mod_eq (length m) 64) as E.
  assert (length (take (64 * (length m / 64)) m) = (64 * (length m / 64))%nat) as L by (rewrite length_take; lia).
  rewrite absorb_app.
  2:{ rewrite L, Nat.mul_comm. apply Nat.Div0.mod_mul. }
  f_equal. unfold absorb. rewrite L. set (q := (length m / 64)%nat) in *.
  replace (64 * q / 64)%nat with q by (rewrite Nat.mul_comm, Nat.div_mul; lia). f_equal.
  transitivity (chunks q (take (64 * q) m ++ drop (64 * q) m)); [by rewrite chunks_prefix|].
  by rewrite take_drop.
Qed.

Lemma rest_app m k : rest (m ++ k) = rest (rest m ++ k).
Proof.
  unfold rest. set (q := (length m / 64)%nat). pose proof (Nat.div_mod_eq (length m) 64) as E. fold q in E.
  assert (64 * q <= length m)%nat as Hq by lia.
  replace (drop (64 * q) m ++ k) with (drop (64 * q) (m ++ k)) by (by rewrite drop_app_le).
  rewrite drop_drop. f_equal. rewrite length_drop, length_app.
  assert ((length m + length k) / 64 = q + (length m + length k - 64 * q) / 64)%nat as ->; [|lia].
  replace (length m + length k)%nat with (q * 64 + (length m + length k - 64 * q))%nat at 1 by lia.
  by rewrite Nat.div_add_l.
Qed.

Lemma index_eq ctx m : holds ctx m -> Z.land (Z.shiftr (count0 ctx) 3) 0x3f = zlen (rest m).
Proof.
  intros [_ [H0 H1] Hc _ _]. rewrite rest_length. change 0x3f with (Z.ones 6).
  rewrite Z.land_ones, Z.shiftr_div_pow2 by lia. unfold word in *.
  change (2 ^ 6) with 64. change (2 ^ 3) with 8. change (2 ^ 32) with 4294967296 in *.
  change (2 ^ 64) with 18446744073709551616 in *. Z.to_euclidean_division_equations. lia.
Qed.

Lemma count_eq c0 c1 L n :
  word c0 -> word c1 -> 0 <= n < 2 ^ 32 -> c0 + 2 ^ 32 * c1 = (8 * L) mod 2 ^ 64 ->
  let bits := u32 (Z.shiftl n 3) in
  let c0' := u32 (c0 + bits) in
  let c1' := u32 ((if c0' <? bits then u32 (c1 + 1) else c1) + Z.shiftr n 29) in
  c0' + 2 ^ 32 * c1' = (8 * (L + n)) mod 2 ^ 64.
Proof.
  intros H0 H1 Hn Hc. cbv zeta. rewrite Z.shiftl_mul_pow2, Z.shiftr_div_pow2 by lia.
  replace (8 * (L + n)) with (8 * L + n * 8) by lia. rewrite Zplus_mod, <- Hc. clear Hc L.
  unfold uwrap, word in *. change (2 ^ 3) with 8. change (2 ^ 29) with 536870912.
  change (2 ^ 32) with 4294967296 in *. change (2 ^ 64) with 18446744073709551616.
  destruct (Z.ltb_spec ((c0 + (n * 8) mod 4294967296) mod 4294967296) ((n * 8) mod 4294967296));
    Z.to_euclidean_division_equations; lia.
Qed.

(** ** Whole blocks *)

Lemma blocks_loop_app k : forall st pre bs post fuel i len,
  length bs = (64 * k)%nat -> bytes bs -> i = zlen pre ->
  zlen pre + zlen bs <= len -> len < 2 ^ 32 ->
  blocks_loop (k + fuel) st (pre ++ bs ++ post) len i =
    blocks_loop fuel (absorb st bs) (pre ++ bs ++ post) len (i + zlen bs).
Proof.
  induction k as [|k IH]; intros st pre bs post fuel i len Hk Hb Ei El Hl; pose proof (zlen_nonneg pre).
  - destruct bs; [|done]. by rewrite zlen_nil, Z.add_0_r.
  - cbn [blocks_loop Nat.add].
    assert (zlen bs = 64 * Z.of_nat (S k)) as Lb by (unfold zlen; lia).
    rewrite !uwrap_id by (unfold is_u; lia). destruct (Z.ltb_spec (i + 63) len); [|lia].
    set (b1 := take 64 bs). set (b2 := drop 64 bs).
    assert (bs = b1 ++ b2) as Eb by (symmetry; apply take_drop).
    assert (length b1 = 64%nat) as L1 by (unfold b1; rewrite length_take; lia).
    assert (length b2 = (64 * k)%nat) as L2 by (unfold b2; rewrite length_drop; lia).
    clearbody b1 b2. subst bs. apply Forall_app in Hb as [Hb1 Hb2].
    rewrite <- app_assoc. rewrite transform_eq by done. cbn [lift].
    replace (pre ++ b1 ++ b2 ++ post) with ((pre ++ b1) ++ b2 ++ post) by (by rewrite <- app_assoc).
    rewrite zlen_app in *. rewrite (IH (md5_block st b1)); try done; try lia;
      rewrite ?zlen_app in *; [|unfold zlen in *; lia..].
    rewrite absorb_app, (absorb_one st b1) by (done || by rewrite L1). f_equal. unfold zlen in *. lia.
Qed.

Lemma blocks_loop_eq k st pre bs post fuel i len :
  length bs = (64 * k)%nat -> bytes bs -> i = zlen pre ->
  zlen pre + zlen bs <= len < zlen pre + zlen bs + 64 -> zlen pre + zlen bs + 63 < 2 ^ 32 ->
  len < 2 ^ 32 -> (k <= fuel)%nat ->
  blocks_loop fuel st (pre ++ bs ++ post) len i = Done (absorb st bs, i + 64 * Z.of_nat k).
Proof.
  intros Hk Hb Ei El Hl Hl' Hf. replace fuel with (k + (fuel - k))%nat by lia.
  rewrite blocks_loop_app by (done || lia). pose proof (zlen_nonneg pre). pose proof (zlen_nonneg bs).
  destruct (fuel - k)%nat; cbn [blocks_loop]; (rewrite uwrap_id by (unfold is_u; lia));
    (destruct (Z.ltb_spec (i + zlen bs + 63) len); [lia|]); do 2 f_equal; unfold zlen; lia.
Qed.

Lemma memcpy_eq pre old post inp vs more buf input o i n :
  buf = pre ++ old ++ post -> input = inp ++ vs ++ more ->
  o = zlen pre -> i = zlen inp -> n = zlen vs -> zlen vs = zlen old ->
  osip_MD5_memcpy buf o input i n = Some (pre ++ vs ++ post).
Proof.
  intros -> -> -> -> -> E. unfold osip_MD5_memcpy. rewrite rdn_app. by apply wrn_app.
Qed.

(** A list cut at [n]. *)
Lemma cut (l : list Z) n : 0 <= n <= zlen l -> exists l1 l2, l = l1 ++ l2 /\ zlen l1 = n /\ zlen l2 = zlen l - n.
Proof.
  intros H. exists (take (Z.to_nat n) l), (drop (Z.to_nat n) l).
  by rewrite take_drop, zlen_take, zlen_drop by lia.
Qed.

(** [osip_MD5Update] adds the first bytes of a buffer to the message. *)
Lemma update_eq ctx m input more :
  holds ctx m -> bytes input -> zlen (rest m) + zlen input < 2 ^ 32 ->
  exists ctx', osip_MD5Update ctx (input ++ more) (zlen input) = Done ctx' /\ holds ctx' (m ++ input).
Proof.
  intros Hh Hb Hn. pose proof (zlen_nonneg input) as Pn. unfold osip_MD5Update. rewrite (index_eq _ _ Hh).
  destruct Hh as [Hs [H0 H1] Hc (free & Ef & Lf) Hm].
  pose proof (rest_length m) as Lr. pose proof (Z.mod_pos_bound (zlen m) 64 ltac:(lia)) as Br.
  rewrite Ef, zlen_app in Lf. rewrite (uwrap_id 32 (64 - _)) by (unfold is_u; lia).
  pose proof (count_eq _ _ _ (zlen input) H0 H1 ltac:(lia) Hc) as Hc'. cbv zeta in Hc'.
  rewrite <- zlen_app in Hc'. set (r := zlen (rest m)) in *.
  assert (bytes (m ++ input)) as Hmi by (by apply Forall_app).
  destruct (Z.leb_spec (64 - r) (zlen input)) as [Hge|Hlt].
  - destruct (cut input (64 - r)) as (i1 & i23 & Ei & L1 & L23); [lia|].
    set (k := Z.to_nat ((zlen input - (64 - r)) / 64)).
    assert (64 * Z.of_nat k <= zlen input - (64 - r) < 64 * Z.of_nat k + 64) as Hk.
    { unfold k. Z.to_euclidean_division_equations. lia. }
    destruct (cut i23 (64 * Z.of_nat k)) as (i2 & i3 & Ei2 & L2 & L3); [lia|].
    assert (bytes (rest m)) as Hbr by (by apply Forall_drop).
    assert (bytes (rest m ++ i1)) as Hb1.
    { apply Forall_app. split; [done|]. subst input. by apply Forall_app in Hb as [? _]. }
    assert (bytes i2) as Hb2.
    { subst input i23. apply Forall_app in Hb as [_ Hb]. by apply Forall_app in Hb as [? _]. }
    assert (length (rest m ++ i1) = 64%nat) as Lb1 by (rewrite length_app; unfold r, zlen in *; lia).
    assert (input ++ more = i1 ++ i2 ++ i3 ++ more) as Ea by (subst input i23; by rewrite <- !app_assoc).
    rewrite (memcpy_eq (rest m) free [] [] i1 (i2 ++ i3 ++ more)) by (try done; rewrite ?app_nil_r; done || lia).
    cbn [lift]. rewrite app_nil_r.
    pose proof (transform_eq (state ctx) [] (rest m ++ i1) [] 0 Hb1 Lb1 eq_refl) as Et.
    rewrite app_nil_r, app_nil_l in Et. rewrite Et. cbn [lift].
    rewrite Ea, (blocks_loop_eq k _ i1 i2); [|unfold zlen in *; lia|done|lia|lia|lia|lia|].
    2:{ apply Nat.le_le_succ_r. unfold k. apply Z2Nat.inj_le; Z.to_euclidean_division_equations; lia. }
    rewrite (uwrap_id 32 (zlen input - _)) by (unfold is_u; lia).
    rewrite (memcpy_eq [] (take (length i3) (rest m ++ i1)) (drop (length i3) (rest m ++ i1)) (i1 ++ i2) i3 more);
      [|by rewrite take_drop|by rewrite <- app_assoc|done|rewrite zlen_app; lia|lia|].
    2:{ unfold zlen in *. rewrite length_take. lia. }
    cbn [lift app]. eexists. split; [done|].
    assert (rest m ++ input = ((rest m ++ i1) ++ i2) ++ i3) as Er by (subst input i23; by rewrite <- !app_assoc).
    assert (length ((rest m ++ i1) ++ i2) = (64 * (1 + k))%nat) as L12.
    { rewrite length_app, Lb1. unfold zlen in *. lia. }
    split; cbn [state count0 count1 buffer]; try done.
    + rewrite absorb_rest, Er, absorb_app by (rewrite L12, Nat.mul_comm; apply Nat.Div0.mod_mul).
      rewrite absorb_app by (by rewrite Lb1). rewrite (absorb_one _ (rest m ++ i1)), Hs by done.
      symmetry. apply absorb_short. unfold zlen in *. lia.
    + exists (drop (length i3) (rest m ++ i1)).
      assert (rest (m ++ input) = i3) as ->.
      { rewrite rest_app, Er. revert L12. generalize ((rest m ++ i1) ++ i2). intros l12 L12.
        unfold rest. rewrite length_app, L12.
        replace (64 * (1 + k) + length i3)%nat with ((1 + k) * 64 + length i3)%nat by lia.
        rewrite Nat.div_add_l, (Nat.div_small (length i3)) by (unfold zlen in *; lia).
        replace (64 * (1 + k + 0))%nat with (length l12) by lia. apply drop_app_length. }
      split; [done|]. rewrite zlen_app. unfold zlen in *. rewrite length_drop. lia.
  - destruct (cut free (zlen input)) as (f1 & f2 & Ff & L1 & L2); [lia|].
    rewrite (uwrap_id 32 (zlen input - 0)) by (unfold is_u; lia).
    rewrite (memcpy_eq (rest m) f1 f2 [] input more) by (subst free; done || lia).
    cbn [lift]. eexists. split; [done|].
    split; cbn [state count0 count1 buffer]; try done.
    + rewrite absorb_rest, absorb_short, Hs; [done|]. rewrite length_app. unfold r, zlen in *. lia.
    + exists f2. assert (rest (m ++ input) = rest m ++ input) as ->.
      { rewrite rest_app. unfold rest at 1. rewrite Nat.div_small; [by rewrite Nat.mul_0_r|].
        rewrite length_app. unfold r, zlen in *. lia. }
      rewrite <- app_assoc. split; [done|]. rewrite !zlen_app. fold r. lia.
Qed.

Lemma decode_out n input j : (0 < n)%nat -> 0 <= j -> zlen input < j + 4 * Z.of_nat n -> osip_Decode n input j = None.
Proof.
  revert j. induction n as [|n IH]; intros j Hn Hj Hl; [lia|]. cbn [osip_Decode].
  destruct (rd input j); [|done]. destruct (rd input (j + 1)); [|done]. destruct (rd input (j + 2)); [|done].
  destruct (rd input (j + 3)) eqn:E; [|done]. destruct n as [|n].
  - rewrite rd_out in E by lia. done.
  - by rewrite IH by lia.
Qed.

(** With a length too close to 2^32, the counter of the loop wraps and a block behind the
    input is read. *)
Lemma update_wraps ctx m input :
  holds ctx m -> bytes input -> 0 < zlen (rest m) -> zlen input < 2 ^ 32 -> 2 ^ 32 <= zlen (rest m) + zlen input ->
  osip_MD5Update ctx input (zlen input) = Undef.
Proof.
  intros Hh Hb Hr Hn Hw. unfold osip_MD5Update. rewrite (index_eq _ _ Hh).
  destruct Hh as [Hs [H0 H1] Hc (free & Ef & Lf) Hm].
  pose proof (rest_length m) as Lr. pose proof (Z.mod_pos_bound (zlen m) 64 ltac:(lia)) as Br.
  rewrite Ef, zlen_app in Lf. rewrite (uwrap_id 32 (64 - _)) by (unfold is_u; lia).
  destruct (Z.leb_spec (64 - zlen (rest m)) (zlen input)); [|lia].
  destruct (cut input (64 - zlen (rest m))) as (i1 & i23 & Ei & L1 & L23); [lia|].
  assert (exists k, Z.of_nat k = 2 ^ 26 - 1) as [k Ek] by (exists (Z.to_nat (2 ^ 26 - 1)); by apply Z2Nat.id).
  destruct (cut i23 (64 * Z.of_nat k)) as (i2 & i3 & Ei2 & L2 & L3); [lia|].
  assert (bytes (rest m)) as Hbr by (by apply Forall_drop).
  subst i23 input. apply Forall_app in Hb as [Hb1 Hb]. apply Forall_app in Hb as [Hb2 Hb3].
  assert (bytes (rest m ++ i1)) as Hb0 by (by apply Forall_app).
  assert (length (rest m ++ i1) = 64%nat) as Lb1 by (rewrite length_app; unfold zlen in *; lia).
  rewrite (memcpy_eq (rest m) free [] [] i1 (i2 ++ i3)) by (try done; rewrite ?app_nil_r; done || lia).
  cbn [lift]. rewrite app_nil_r.
  pose proof (transform_eq (state ctx) [] (rest m ++ i1) [] 0 Hb0 Lb1 eq_refl) as Et.
  rewrite app_nil_r, app_nil_l in Et. rewrite Et. cbn [lift].
  assert (Z.to_nat (zlen (i1 ++ i2 ++ i3) / 64) = k) as ->.
  { rewrite <- (Nat2Z.id k), Ek. f_equal. Z.to_euclidean_division_equations. lia. }
  replace (S k) with (k + 1)%nat by lia.
  rewrite blocks_loop_app; [|unfold zlen in *; lia|done|lia|rewrite !zlen_app in *; lia|lia].
  cbn [blocks_loop]. assert (u32 (64 - zlen (rest m) + zlen i2 + 63) = 63 - zlen (rest m)) as ->.
  { unfold uwrap. rewrite L2, Ek.
    replace (64 - zlen (rest m) + 64 * (2 ^ 26 - 1) + 63) with (63 - zlen (rest m) + 1 * 2 ^ 32) by lia.
    rewrite Z.mod_add by lia. apply Z.mod_small. lia. }
  destruct (Z.ltb_spec (63 - zlen (rest m)) (zlen (i1 ++ i2 ++ i3))); [|lia].
  unfold osip_MD5Transform. rewrite decode_out; [done|lia| |].
  - pose proof (zlen_nonneg i2). lia.
  - rewrite !zlen_app in *. lia.
Qed.

(** One call of [osip_MD5Update], with the exact bound: as long as the input and the
    bytes that wait in the buffer are together less than 2^32, it adds the input to the
    message; from there on, where bytes wait, the counter of its loop wraps and it reads
    behind the input. *)
Theorem md5_update_exact ctx m input :
  holds ctx m -> bytes input -> zlen input < 2 ^ 32 ->
  if zlen m mod 64 + zlen input <? 2 ^ 32
  then exists ctx', osip_MD5Update ctx input (zlen input) = Done ctx' /\ holds ctx' (m ++ input)
  else osip_MD5Update ctx input (zlen input) = Undef.
Proof.
  intros Hh Hb Hn. rewrite <- rest_length. pose proof (zlen_nonneg (rest m)).
  destruct (Z.ltb_spec (zlen (rest m) + zlen input) (2 ^ 32)).
  - destruct (update_eq ctx m input [] Hh Hb ltac:(done)) as (ctx' & E & Hh'). rewrite app_nil_r in E. eauto.
  - apply (update_wraps ctx m); (done || lia).
Qed.

(** ** The digest *)

Definition zeroed : osip_MD5_CTX := mkMD5 (mkWords 0 0 0 0) 0 0 (replicate 64 0).

Lemma final_eq ctx m : holds ctx m -> osip_MD5Final ctx = Done (md5 m, zeroed).
Proof.
  intros Hh. unfold osip_MD5Final. rewrite (index_eq _ _ Hh).
  pose proof (ho_words _ _ Hh) as [Hw _]. rewrite (encode_count _ _ Hw), (ho_count _ _ Hh).
  pose proof (rest_length m) as Lr. pose proof (Z.mod_pos_bound (zlen m) 64 ltac:(lia)) as Br.
  set (padLen := if zlen (rest m) <? 56 then 56 - zlen (rest m) else 120 - zlen (rest m)).
  set (zeros := ((119 - length m mod 64) mod 64)%nat).
  assert (padLen = 1 + Z.of_nat zeros) as Ep.
  { unfold padLen, zeros. rewrite Lr. unfold zlen. change 64 with (Z.of_nat 64) at 1 2 3. rewrite <- Nat2Z.inj_mod.
    pose proof (Nat.mod_upper_bound (length m) 64 ltac:(lia)) as Hr. revert Hr.
    generalize (length m mod 64)%nat. intros r Hr. destruct (Z.ltb_spec (Z.of_nat r) 56).
    - replace (119 - r)%nat with (55 - r + 1 * 64)%nat by lia.
      rewrite Nat.Div0.mod_add, Nat.mod_small by lia. lia.
    - rewrite Nat.mod_small by lia. lia. }
  assert (zeros < 64)%nat as Hz by (apply Nat.mod_upper_bound; lia).
  assert (PADDING = (0x80 :: replicate zeros 0) ++ replicate (63 - zeros) 0) as ->.
  { unfold PADDING. cbn [app]. f_equal. rewrite <- replicate_add. f_equal. lia. }
  assert (zlen (0x80 :: replicate zeros 0) = padLen) as <- by (rewrite zlen_cons, zlen_replicate; lia).
  destruct (update_eq ctx m (0x80 :: replicate zeros 0) (replicate (63 - zeros) 0) Hh) as (ctx1 & -> & H1).
  { constructor; [done|]. by apply Forall_replicate. }
  { rewrite zlen_cons, zlen_replicate. lia. }
  set (len := bytes_of 8 ((8 * zlen m) mod 2 ^ 64)).
  destruct (update_eq ctx1 _ len [] H1) as (ctx2 & E2 & H2).
  { apply bytes_of_bytes. }
  { pose proof (rest_length (m ++ 0x80 :: replicate zeros 0)) as L.
    pose proof (Z.mod_pos_bound (zlen (m ++ 0x80 :: replicate zeros 0)) 64 ltac:(lia)). change (zlen len) with 8. lia. }
  rewrite app_nil_r in E2. change (zlen len) with 8 in E2. rewrite E2. do 2 f_equal.
  rewrite encode_words. cbn [map concat]. rewrite app_nil_r, (ho_state _ _ H2).
  unfold md5, padded. fold zeros len. by rewrite <- app_assoc.
Qed.

(** An application digests a message in pieces. *)
Fixpoint updates (ctx : osip_MD5_CTX) (pieces : list buf) : outcome osip_MD5_CTX :=
  match pieces with
  | [] => Done ctx
  | p :: pieces => let! ctx := osip_MD5Update ctx p (zlen p) in updates ctx pieces
  end.
Definition digest (ctx : osip_MD5_CTX) (pieces : list buf) : outcome (buf * osip_MD5_CTX) :=
  let! ctx := updates (osip_MD5Init ctx) pieces in osip_MD5Final ctx.

Lemma holds_init ctx : zlen (buffer ctx) = 64 -> holds (osip_MD5Init ctx) [].
Proof.
  intros Hl. split; try done. by exists (buffer ctx).
Qed.

Lemma updates_eq pieces : forall ctx m,
  holds ctx m -> Forall (fun p => bytes p /\ zlen p <= 2 ^ 32 - 64) pieces ->
  exists ctx', updates ctx pieces = Done ctx' /\ holds ctx' (m ++ concat pieces).
Proof.
  induction pieces as [|p pieces IH]; intros ctx m Hh Hp.
  { exists ctx. by rewrite app_nil_r. }
  apply Forall_cons_1 in Hp as [[Hb Hl] Hp]. cbn [updates concat].
  destruct (update_eq ctx m p [] Hh Hb) as (ctx1 & E & H1).
  { rewrite rest_length. pose proof (Z.mod_pos_bound (zlen m) 64 ltac:(lia)). lia. }
  rewrite app_nil_r in E. rewrite E. rewrite app_assoc. by apply IH.
Qed.

(** C9: the digest of a message that is given in any pieces, of any lengths up to
    2^32 - 64, is the one of the algorithm of RFC 1321 for the whole message: the buffering
    of incomplete blocks, the unrolled rounds, the padding and the counting of bits over two
    words compute it; the context is zero afterwards. *)
Theorem md5_refines ctx pieces :
  zlen (buffer ctx) = 64 -> Forall (fun p => bytes p /\ zlen p <= 2 ^ 32 - 64) pieces ->
  digest ctx pieces = Done (md5 (concat pieces), zeroed).
Proof.
  intros Hl Hp. unfold digest. destruct (updates_eq pieces _ [] (holds_init ctx Hl) Hp) as (ctx' & -> & Hh).
  by apply final_eq.
Qed.

(** ** At concrete messages *)

(** A part of the test suite of RFC 1321. *)
Lemma md5_tests :
  md5 [] = [0xd4; 0x1d; 0x8c; 0xd9; 0x8f; 0x00; 0xb2; 0x04; 0xe9; 0x80; 0x09; 0x98; 0xec; 0xf8; 0x42; 0x7e] /\
  md5 [97; 98; 99] = [0x90; 0x01; 0x50; 0x98; 0x3c; 0xd2; 0x4f; 0xb0; 0xd6; 0x96; 0x3f; 0x7d; 0x28; 0xe1; 0x7f; 0x72] /\
  md5 (concat (replicate 8 [49; 50; 51; 52; 53; 54; 55; 56; 57; 48])) =
    [0x57; 0xed; 0xf4; 0xa2; 0x2b; 0xe3; 0xc9; 0x55; 0xac; 0x49; 0xda; 0x2e; 0x21; 0x07; 0xb6; 0x7a].
Proof. vm_compute. repeat split; reflexivity. Qed.

Lemma md5_refines_witness :
  let pieces := [replicate 70 7; []; [1; 2; 3]; replicate 130 255] in
  digest zeroed pieces = Done (md5 (concat pieces), zeroed).
Proof.
  apply md5_refines; [reflexivity|].
  repeat (constructor; [split; [apply bytes_check; reflexivity|vm_compute; discriminate]|]). constructor.
Defined.

Lemma md5_update_exact_witness :
  exists ctx', osip_MD5Update (osip_MD5Init zeroed) [1; 2; 3] 3 = Done ctx' /\ holds ctx' [1; 2; 3].
Proof.
  apply (md5_update_exact (osip_MD5Init zeroed) [] [1; 2; 3]);
    [by apply holds_init|by apply bytes_check|done].
Defined.
