(* ===== verification/Rijndael.v ===== *)
(** AES with a key of 128 bits, and the functions of 3GPP that are built on it: the model of
    src/rijndael.c and src/milenage.c of libeXosip2.  Words have 32 bits, the first byte of
    a column of the state lowest; arrays of a fixed size are lists of that length, and every
    index into a table is a byte. *)

From stdpp Require Import base list numbers.
From S2P Require Import Prelude.
From S2P Require Import CMem.
From S2P Require Import AesTables.

Local Open Scope Z_scope.
Open Scope c_scope.

(** ** Words *)

Definition rot3 (x : Z) : Z := Z.lor (u32 (Z.shiftl x 24)) (Z.shiftr x 8).

Definition byte0 (x : Z) : Z := u8 x.
Definition byte1 (x : Z) : Z := u8 (Z.shiftr x 8).
Definition byte2 (x : Z) : Z := u8 (Z.shiftr x 16).
Definition byte3 (x : Z) : Z := u8 (Z.shiftr x 24).

(** The element of an array or a table. *)
Definition at_ (x : list Z) (i : Z) : Z := nth (Z.to_nat i) x 0.

(** A word in the order of the machine, low byte first. *)
Definition u32_in (x : list Z) (i : Z) : Z :=
  at_ x i + 256 * (at_ x (i + 1) + 256 * (at_ x (i + 2) + 256 * at_ x (i + 3))).
Definition u32_out (x : Z) : list Z := [byte0 x; byte1 x; byte2 x; byte3 x].

(** ** Rounds *)

Definition f_rnd (x : list Z) (n : Z) : Z :=
  Z.lxor (Z.lxor (Z.lxor (at_ ft_tab0 (byte0 (at_ x n)))
    (at_ ft_tab1 (byte1 (at_ x (Z.land (n + 1) 3)))))
    (at_ ft_tab2 (byte2 (at_ x (Z.land (n + 2) 3)))))
    (at_ ft_tab3 (byte3 (at_ x (Z.land (n + 3) 3)))).

(** The columns after a round with the four words of the key from [k] on. *)
Definition f_round (bi : list Z) (Ekey : list Z) (k : Z) : list Z :=
  [Z.lxor (f_rnd bi 0) (at_ Ekey k); Z.lxor (f_rnd bi 1) (at_ Ekey (k + 1));
   Z.lxor (f_rnd bi 2) (at_ Ekey (k + 2)); Z.lxor (f_rnd bi 3) (at_ Ekey (k + 3))].

Definition ls_box (x : Z) : Z :=
  Z.lxor (Z.lxor (Z.lxor (at_ fl_tab0 (byte0 x)) (at_ fl_tab1 (byte1 x))) (at_ fl_tab2 (byte2 x)))
    (at_ fl_tab3 (byte3 x)).

Definition lf_rnd (x : list Z) (n : Z) : Z :=
  Z.lxor (Z.lxor (Z.lxor (at_ fl_tab0 (byte0 (at_ x n)))
    (at_ fl_tab1 (byte1 (at_ x (Z.land (n + 1) 3)))))
    (at_ fl_tab2 (byte2 (at_ x (Z.land (n + 2) 3)))))
    (at_ fl_tab3 (byte3 (at_ x (Z.land (n + 3) 3)))).

(** ** Key schedule and encryption *)

(** The words behind [ek\[0\]] to [ek\[3\]], with the round constants from [rc] on. *)
Fixpoint schedule_loop (rc : list Z) (ek0 ek1 ek2 ek3 : Z) : list Z :=
  match rc with
  | [] => []
  | c :: rc =>
      let t := rot3 ek3 in
      let ek4 := Z.lxor (Z.lxor ek0 (ls_box t)) c in
      let ek5 := Z.lxor ek1 ek4 in
      let ek6 := Z.lxor ek2 ek5 in
      let ek7 := Z.lxor ek3 ek6 in
      ek4 :: ek5 :: ek6 :: ek7 :: schedule_loop rc ek4 ek5 ek6 ek7
  end.
(** The 44 words that [Ekey] holds then. *)
Definition RijndaelKeySchedule (key : list Z) : list Z :=
  let k0 := u32_in key 0 in
  let k1 := u32_in key 4 in
  let k2 := u32_in key 8 in
  let k3 := u32_in key 12 in
  k0 :: k1 :: k2 :: k3 :: schedule_loop rnd_con k0 k1 k2 k3.

Definition RijndaelEncrypt (Ekey : list Z) (input : list Z) : list Z :=
  let b0 := [Z.lxor (u32_in input 0) (at_ Ekey 0); Z.lxor (u32_in input 4) (at_ Ekey 1);
             Z.lxor (u32_in input 8) (at_ Ekey 2); Z.lxor (u32_in input 12) (at_ Ekey 3)] in
  let b1 := f_round b0 Ekey 4 in
  let b0 := f_round b1 Ekey 8 in
  let b1 := f_round b0 Ekey 12 in
  let b0 := f_round b1 Ekey 16 in
  let b1 := f_round b0 Ekey 20 in
  let b0 := f_round b1 Ekey 24 in
  let b1 := f_round b0 Ekey 28 in
  let b0 := f_round b1 Ekey 32 in
  let b1 := f_round b0 Ekey 36 in
  u32_out (Z.lxor (lf_rnd b1 0) (at_ Ekey 40)) ++ u32_out (Z.lxor (lf_rnd b1 1) (at_ Ekey 41))
  ++ u32_out (Z.lxor (lf_rnd b1 2) (at_ Ekey 42)) ++ u32_out (Z.lxor (lf_rnd b1 3) (at_ Ekey 43)).

(** ** The functions of 3GPP *)

Definition OP : list Z := replicate 16 0.

(** [for (i = 0; i < n; i++) x\[i\] = f (i)]: the first [n] elements. *)
Definition for_to (n : nat) (f : Z -> Z) : list Z := map (fun i => f (Z.of_nat i)) (seq 0 n).
(** [for (i = 0; i < 16; i++) x\[(i + r) % 16\] = f (i)] *)
Definition for_rotated (r : Z) (f : Z -> Z) (x : list Z) : list Z :=
  fold_left (fun x i => <[Z.to_nat ((Z.of_nat i + r) mod 16) := f (Z.of_nat i)]> x) (seq 0 16) x.
(** [x\[i\] ^= v] *)
Definition xor_at (i v : Z) (x : list Z) : list Z := <[Z.to_nat i := Z.lxor (at_ x i) v]> x.

Definition ComputeOPc (Ekey : list Z) : list Z :=
  let op_c := RijndaelEncrypt Ekey OP in
  for_to 16 (fun i => Z.lxor (at_ op_c i) (at_ OP i)).

(** What f1 and f1* have in common: the sixteen bytes of which they return one half. *)
Definition f1_out (k rand sqn amf : list Z) : list Z :=
  let Ekey := RijndaelKeySchedule k in
  let op_c := ComputeOPc Ekey in
  let rijndaelInput := for_to 16 (fun i => Z.lxor (at_ rand i) (at_ op_c i)) in
  let temp := RijndaelEncrypt Ekey rijndaelInput in
  let in1 := take 6 sqn ++ take 2 amf ++ take 6 sqn ++ take 2 amf in
  let rijndaelInput := for_rotated 8 (fun i => Z.lxor (at_ in1 i) (at_ op_c i)) rijndaelInput in
  let rijndaelInput := for_to 16 (fun i => Z.lxor (at_ rijndaelInput i) (at_ temp i)) in
  let out1 := RijndaelEncrypt Ekey rijndaelInput in
  for_to 16 (fun i => Z.lxor (at_ out1 i) (at_ op_c i)).
Definition f1 (k rand sqn amf : list Z) : list Z :=
  let out1 := f1_out k rand sqn amf in for_to 8 (fun i => at_ out1 i).
Definition f1star (k rand sqn amf : list Z) : list Z :=
  let out1 := f1_out k rand sqn amf in for_to 8 (fun i => at_ out1 (i + 8)).

Record f2345_out := mkOut { o_res : list Z; o_ck : list Z; o_ik : list Z; o_ak : list Z }.

Definition f2345 (k rand : list Z) : f2345_out :=
  let Ekey := RijndaelKeySchedule k in
  let op_c := ComputeOPc Ekey in
  let rijndaelInput := for_to 16 (fun i => Z.lxor (at_ rand i) (at_ op_c i)) in
  let temp := RijndaelEncrypt Ekey rijndaelInput in
  let rijndaelInput := for_to 16 (fun i => Z.lxor (at_ temp i) (at_ op_c i)) in
  let rijndaelInput := xor_at 15 1 rijndaelInput in
  let out := RijndaelEncrypt Ekey rijndaelInput in
  let out := for_to 16 (fun i => Z.lxor (at_ out i) (at_ op_c i)) in
  let res := for_to 8 (fun i => at_ out (i + 8)) in
  let ak := for_to 6 (fun i => at_ out i) in
  let rijndaelInput := for_rotated 12 (fun i => Z.lxor (at_ temp i) (at_ op_c i)) rijndaelInput in
  let rijndaelInput := xor_at 15 2 rijndaelInput in
  let out := RijndaelEncrypt Ekey rijndaelInput in
  let ck := for_to 16 (fun i => Z.lxor (at_ out i) (at_ op_c i)) in
  let rijndaelInput := for_rotated 8 (fun i => Z.lxor (at_ temp i) (at_ op_c i)) rijndaelInput in
  let rijndaelInput := xor_at 15 4 rijndaelInput in
  let out := RijndaelEncrypt Ekey rijndaelInput in
  let ik := for_to 16 (fun i => Z.lxor (at_ out i) (at_ op_c i)) in
  mkOut res ck ik ak.

Definition f5star (k rand : list Z) : list Z :=
  let Ekey := RijndaelKeySchedule k in
  let op_c := ComputeOPc Ekey in
  let rijndaelInput := for_to 16 (fun i => Z.lxor (at_ rand i) (at_ op_c i)) in
  let temp := RijndaelEncrypt Ekey rijndaelInput in
  let rijndaelInput := for_rotated 4 (fun i => Z.lxor (at_ temp i) (at_ op_c i)) rijndaelInput in
  let rijndaelInput := xor_at 15 8 rijndaelInput in
  let out := RijndaelEncrypt Ekey rijndaelInput in
  let out := for_to 16 (fun i => Z.lxor (at_ out i) (at_ op_c i)) in
  for_to 6 (fun i => at_ out i).

(** FIPS 197, appendix B. *)
Example rijndael_test :
  RijndaelEncrypt (RijndaelKeySchedule [0x2b; 0x7e; 0x15; 0x16; 0x28; 0xae; 0xd2; 0xa6; 0xab; 0xf7; 0x15; 0x88; 0x09; 0xcf; 0x4f; 0x3c])
    [0x32; 0x43; 0xf6; 0xa8; 0x88; 0x5a; 0x30; 0x8d; 0x31; 0x31; 0x98; 0xa2; 0xe0; 0x37; 0x07; 0x34] =
  [0x39; 0x25; 0x84; 0x1d; 0x02; 0xdc; 0x09; 0xfb; 0xdc; 0x11; 0x85; 0x97; 0x19; 0x6a; 0x0b; 0x32].
Proof. vm_compute. reflexivity. Qed.
