(* ===== verification/AesSpec.v ===== *)
(** AES and the functions of 3GPP as FIPS 197 and TS 35.206 define them, and that the code
    with its tables computes them. *)

From Stdlib Require Import ZArith Lia.
From stdpp Require Import base list option numbers.
From S2P Require Import Prelude.
From S2P Require Import CMem.
From S2P Require Import AesTables.
From S2P Require Import Rijndael.

Local Open Scope Z_scope.
Open Scope c_scope.

(** ** The field of 256 elements

    Modulo x^8 + x^4 + x^3 + x + 1. *)

Definition xtime (a : Z) : Z := if a <? 128 then 2 * a else Z.lxor (2 * a) 0x11b.
Fixpoint gmul_bits (n : nat) (a b : Z) : Z :=
  match n with
  | O => 0
  | S n => Z.lxor (if Z.odd b then a else 0) (gmul_bits n (xtime a) (b / 2))
  end.
Definition gmul (a b : Z) : Z := gmul_bits 8 a b.

(** The inverse, and 0 for 0: the power 254, as every other element has the order 255. *)
Definition ginv (a : Z) : Z := Pos.iter (gmul a) 1 254.

Definition rotl8 (a k : Z) : Z := (a * 2 ^ k) mod 256 + a / 2 ^ (8 - k).
Definition sbox (a : Z) : Z :=
  let b := ginv a in
  Z.lxor (Z.lxor (Z.lxor (Z.lxor (Z.lxor b (rotl8 b 1)) (rotl8 b 2)) (rotl8 b 3)) (rotl8 b 4)) 0x63.

(** ** The cipher

    The state as its columns. *)

Definition xor_bytes (a b : list Z) : list Z := zip_with Z.lxor a b.

Definition sub_bytes (st : list (list Z)) : list (list Z) := map (map sbox) st.
(** Row [r] is rotated by [r] columns. *)
Definition shift_rows (st : list (list Z)) : list (list Z) :=
  map (fun c => map (fun r => nth r (nth ((c + r) mod 4) st []) 0) (seq 0 4)) (seq 0 4).
(** The column as a polynomial times 3x^3 + x^2 + x + 2, modulo x^4 + 1. *)
Definition mix_column (c : list Z) : list Z :=
  match c with
  | [a0; a1; a2; a3] =>
      [Z.lxor (Z.lxor (Z.lxor (gmul 2 a0) (gmul 3 a1)) a2) a3; Z.lxor (Z.lxor (Z.lxor a0 (gmul 2 a1)) (gmul 3 a2)) a3;
       Z.lxor (Z.lxor (Z.lxor a0 a1) (gmul 2 a2)) (gmul 3 a3); Z.lxor (Z.lxor (Z.lxor (gmul 3 a0) a1) a2) (gmul 2 a3)]
  | _ => []
  end.
Definition add_round_key (st rk : list (list Z)) : list (list Z) := zip_with xor_bytes st rk.

(** The key as columns, four for each round. *)
Definition rot_word (c : list Z) : list Z := match c with b :: l => l ++ [b] | [] => [] end.
Fixpoint rcon (i : nat) : Z := match i with O => 1 | S i => xtime (rcon i) end.
Definition next_word (w : list (list Z)) : list (list Z) :=
  let i := length w in
  let temp := List.last w [] in
  let temp := if Nat.eqb (i mod 4) 0
              then xor_bytes (map sbox (rot_word temp)) [rcon (i / 4 - 1); 0; 0; 0] else temp in
  w ++ [xor_bytes (nth (i - 4) w []) temp].
Definition key_expansion (key : list (list Z)) : list (list Z) := Nat.iter 40 next_word key.

Definition round_key (w : list (list Z)) (i : nat) : list (list Z) := take 4 (drop (4 * i) w).
Definition aes_round (w st : list (list Z)) (i : nat) : list (list Z) :=
  add_round_key (map mix_column (shift_rows (sub_bytes st))) (round_key w i).
Definition cipher (w st : list (list Z)) : list (list Z) :=
  let st := add_round_key st (round_key w 0) in
  let st := fold_left (aes_round w) (seq 1 9) st in
  add_round_key (shift_rows (sub_bytes st)) (round_key w 10).

Fixpoint columns (n : nat) (l : list Z) : list (list Z) :=
  match n with O => [] | S n => take 4 l :: columns n (drop 4 l) end.
Definition aes128 (key block : list Z) : list Z :=
  concat (cipher (key_expansion (columns 4 key)) (columns 4 block)).

(** ** Words and bytes *)

Fixpoint word_of (l : list Z) : Z := match l with [] => 0 | b :: l => b + 256 * word_of l end.

Lemma byte_lxor a b : byte a -> byte b -> byte (Z.lxor a b).
Proof.
  intros Ha Hb. apply is_u_bits; [lia|apply Z.lxor_nonneg; unfold is_u in *; lia|].
  intros i Hi. by rewrite Z.lxor_spec, (testbit_high 8 a), (testbit_high 8 b).
Qed.

(** Bit by bit, the low byte and the rest are apart. *)
Lemma lxor_low a b x y : byte a -> byte b -> Z.lxor (a + 256 * x) (b + 256 * y) = Z.lxor a b + 256 * Z.lxor x y.
Proof.
  intros Ha Hb.
  assert (forall a x, byte a -> a + 256 * x = Z.lor a (Z.shiftl x 8)) as E.
  { intros a0 x0 H0. rewrite Z.lor_comm, lor_shiftl_add by done. rewrite Z.shiftl_mul_pow2 by lia. lia. }
  rewrite !E by auto using byte_lxor. apply Z.bits_inj'. intros i Hi.
  rewrite Z.lxor_spec, !Z.lor_spec, !Z.shiftl_spec, !Z.lxor_spec by lia.
  destruct (Z.lt_ge_cases i 8).
  - rewrite !(Z.testbit_neg_r _ (i - 8)) by lia. by rewrite !orb_false_r.
  - by rewrite (testbit_high 8 a), (testbit_high 8 b).
Qed.

Lemma word_xor a b :
  length a = length b -> bytes a -> bytes b -> Z.lxor (word_of a) (word_of b) = word_of (xor_bytes a b).
Proof.
  revert b. induction a as [|x a IH]; intros [|y b] Hl Ha Hb; try done.
  apply Forall_cons_1 in Ha as [Hx Ha]. apply Forall_cons_1 in Hb as [Hy Hb].
  cbn [word_of xor_bytes zip_with]. fold (xor_bytes a b). rewrite lxor_low by done. by rewrite IH by (done || by injection Hl).
Qed.

Lemma byte_of_word a x : byte a -> u8 (a + 256 * x) = a /\ Z.shiftr (a + 256 * x) 8 = x.
Proof.
  intros Ha. rewrite Z.shiftr_div_pow2 by lia. change (2 ^ 8) with 256. unfold is_u in Ha. change (2 ^ 8) with 256 in Ha.
  split.
  - unfold uwrap. change (2 ^ 8) with 256. rewrite Z.mul_comm, Z_mod_plus_full. by apply Z.mod_small.
  - rewrite Z.mul_comm, Z.div_add by lia. rewrite Z.div_small by lia. lia.
Qed.

Lemma word_bytes b0 b1 b2 b3 :
  bytes [b0; b1; b2; b3] ->
  byte0 (word_of [b0; b1; b2; b3]) = b0 /\ byte1 (word_of [b0; b1; b2; b3]) = b1 /\
  byte2 (word_of [b0; b1; b2; b3]) = b2 /\ byte3 (word_of [b0; b1; b2; b3]) = b3.
Proof.
  rewrite !Forall_cons_iff. intros (H0 & H1 & H2 & H3 & _). unfold byte0, byte1, byte2, byte3. cbn [word_of].
  change 16 with (8 + 8). change 24 with (8 + 8 + 8). rewrite <- !Z.shiftr_shiftr by lia.
  repeat match goal with |- context [Z.shiftr (?a + 256 * ?x) 8] =>
    rewrite (proj2 (byte_of_word a x ltac:(assumption))) end.
  repeat split; by apply byte_of_word.
Qed.

(** ** The tables *)

Lemma every_byte (f : Z -> bool) :
  forallb f (map Z.of_nat (seq 0 256)) = true -> forall b, byte b -> f b = true.
Proof.
  intros H b Hb. unfold is_u in Hb. change (2 ^ 8) with 256 in Hb. apply (proj1 (forallb_forall _ _) H).
  apply in_map_iff. exists (Z.to_nat b). split; [lia|]. apply in_seq. lia.
Qed.

Definition table_ok (b : Z) : bool :=
  let s := sbox b in let s2 := gmul 2 s in let s3 := gmul 3 s in
  (at_ ft_tab0 b =? word_of [s2; s; s; s3]) && (at_ ft_tab1 b =? word_of [s3; s2; s; s])
  && (at_ ft_tab2 b =? word_of [s; s3; s2; s]) && (at_ ft_tab3 b =? word_of [s; s; s3; s2])
  && (at_ fl_tab0 b =? word_of [s; 0; 0; 0]) && (at_ fl_tab1 b =? word_of [0; s; 0; 0])
  && (at_ fl_tab2 b =? word_of [0; 0; s; 0]) && (at_ fl_tab3 b =? word_of [0; 0; 0; s])
  && forallb (fun x => (0 <=? x) && (x <? 256)) [s; s2; s3].

Lemma tables b : byte b ->
  let s := sbox b in let s2 := gmul 2 s in let s3 := gmul 3 s in
  bytes [s; s2; s3] /\
  at_ ft_tab0 b = word_of [s2; s; s; s3] /\ at_ ft_tab1 b = word_of [s3; s2; s; s] /\
  at_ ft_tab2 b = word_of [s; s3; s2; s] /\ at_ ft_tab3 b = word_of [s; s; s3; s2] /\
  at_ fl_tab0 b = word_of [s; 0; 0; 0] /\ at_ fl_tab1 b = word_of [0; s; 0; 0] /\
  at_ fl_tab2 b = word_of [0; 0; s; 0] /\ at_ fl_tab3 b = word_of [0; 0; 0; s].
Proof.
  intros Hb. assert (forallb table_ok (map Z.of_nat (seq 0 256)) = true) as H by (vm_compute; reflexivity).
  pose proof (every_byte _ H b Hb) as E. unfold table_ok in E. rewrite !andb_true_iff in E.
  destruct E as [[[[[[[[E0 E1] E2] E3] E4] E5] E6] E7] Hs]. apply Z.eqb_eq in E0, E1, E2, E3, E4, E5, E6, E7.
  split; [apply bytes_check; exact Hs|]. repeat split; assumption.
Qed.
#[local] Opaque sbox gmul.

(** Each of some bytes is one. *)
Ltac all_bytes :=
  cbn [xor_bytes zip_with]; rewrite ?Z.lxor_0_l, ?Z.lxor_0_r;
  repeat match goal with
  | |- Forall _ _ => constructor
  | |- is_u 8 (Z.lxor _ _) => apply byte_lxor
  end; try done; tauto.

Lemma ft_column b0 b1 b2 b3 :
  bytes [b0; b1; b2; b3] ->
  Z.lxor (Z.lxor (Z.lxor (at_ ft_tab0 b0) (at_ ft_tab1 b1)) (at_ ft_tab2 b2)) (at_ ft_tab3 b3) =
    word_of (mix_column [sbox b0; sbox b1; sbox b2; sbox b3]) /\
  bytes (mix_column [sbox b0; sbox b1; sbox b2; sbox b3]).
Proof.
  intros H. rewrite !Forall_cons_iff in H. destruct H as (H0 & H1 & H2 & H3 & _).
  destruct (tables b0 H0) as (B0 & -> & _). destruct (tables b1 H1) as (B1 & _ & -> & _).
  destruct (tables b2 H2) as (B2 & _ & _ & -> & _). destruct (tables b3 H3) as (B3 & _ & _ & _ & -> & _).
  rewrite !Forall_cons_iff in B0, B1, B2, B3.
  assert (bytes (mix_column [sbox b0; sbox b1; sbox b2; sbox b3])) as B.
  { cbn [mix_column]. all_bytes. }
  split; [|done]. rewrite !word_xor; try done; all_bytes.
Qed.

Lemma fl_column b0 b1 b2 b3 :
  bytes [b0; b1; b2; b3] ->
  Z.lxor (Z.lxor (Z.lxor (at_ fl_tab0 b0) (at_ fl_tab1 b1)) (at_ fl_tab2 b2)) (at_ fl_tab3 b3) =
    word_of [sbox b0; sbox b1; sbox b2; sbox b3] /\ bytes [sbox b0; sbox b1; sbox b2; sbox b3].
Proof.
  intros H. rewrite !Forall_cons_iff in H. destruct H as (H0 & H1 & H2 & H3 & _).
  destruct (tables b0 H0) as (B0 & _ & _ & _ & _ & -> & _). destruct (tables b1 H1) as (B1 & _ & _ & _ & _ & _ & -> & _).
  destruct (tables b2 H2) as (B2 & _ & _ & _ & _ & _ & _ & -> & _).
  destruct (tables b3 H3) as (B3 & _ & _ & _ & _ & _ & _ & _ & ->).
  rewrite !Forall_cons_iff in B0, B1, B2, B3. assert (byte 0) as Hz by done.
  assert (bytes [sbox b0; sbox b1; sbox b2; sbox b3]) as B by all_bytes.
  split; [|done]. rewrite !word_xor; try done; all_bytes.
Qed.

(** ** A round *)

Definition column (c : list Z) : Prop := exists b0 b1 b2 b3, c = [b0; b1; b2; b3] /\ bytes c.
Definition square (st : list (list Z)) : Prop :=
  exists c0 c1 c2 c3, st = [c0; c1; c2; c3] /\ column c0 /\ column c1 /\ column c2 /\ column c3.

Lemma column_xor a b : column a -> column b ->
  Z.lxor (word_of a) (word_of b) = word_of (xor_bytes a b) /\ column (xor_bytes a b).
Proof.
  intros (a0 & a1 & a2 & a3 & -> & Ha) (b0 & b1 & b2 & b3 & -> & Hb). split; [by apply word_xor|].
  do 4 eexists. split; [done|]. rewrite !Forall_cons_iff in Ha, Hb.
  all_bytes.
Qed.

(** One byte of each of four words, through four tables. *)
Definition lookup4 (t0 t1 t2 t3 : list Z) (w0 w1 w2 w3 : Z) : Z :=
  Z.lxor (Z.lxor (Z.lxor (at_ t0 (byte0 w0)) (at_ t1 (byte1 w1))) (at_ t2 (byte2 w2))) (at_ t3 (byte3 w3)).

Lemma rnd_lookup w0 w1 w2 w3 n :
  (n < 4)%nat ->
  let w i := nth ((n + i) mod 4) [w0; w1; w2; w3] 0 in
  f_rnd [w0; w1; w2; w3] (Z.of_nat n) =
    lookup4 ft_tab0 ft_tab1 ft_tab2 ft_tab3 (w 0%nat) (w 1%nat) (w 2%nat) (w 3%nat) /\
  lf_rnd [w0; w1; w2; w3] (Z.of_nat n) =
    lookup4 fl_tab0 fl_tab1 fl_tab2 fl_tab3 (w 0%nat) (w 1%nat) (w 2%nat) (w 3%nat).
Proof. intros Hn. do 4 (destruct n as [|n]; [split; reflexivity|]). lia. Qed.

(** The columns that a round selects its bytes of. *)
Lemma lookup4_eq a b c d :
  column a -> column b -> column c -> column d ->
  let s := [sbox (nth 0 a 0); sbox (nth 1 b 0); sbox (nth 2 c 0); sbox (nth 3 d 0)] in
  lookup4 ft_tab0 ft_tab1 ft_tab2 ft_tab3 (word_of a) (word_of b) (word_of c) (word_of d) = word_of (mix_column s) /\
  lookup4 fl_tab0 fl_tab1 fl_tab2 fl_tab3 (word_of a) (word_of b) (word_of c) (word_of d) = word_of s /\
  column (mix_column s) /\ column s.
Proof.
  intros (a0 & a1 & a2 & a3 & -> & Ha) (b0 & b1 & b2 & b3 & -> & Hb)
    (c0 & c1 & c2 & c3 & -> & Hc) (d0 & d1 & d2 & d3 & -> & Hd) s. cbn [nth] in s. unfold lookup4.
  destruct (word_bytes _ _ _ _ Ha) as (-> & _). destruct (word_bytes _ _ _ _ Hb) as (_ & -> & _).
  destruct (word_bytes _ _ _ _ Hc) as (_ & _ & -> & _). destruct (word_bytes _ _ _ _ Hd) as (_ & _ & _ & ->).
  rewrite !Forall_cons_iff in Ha, Hb, Hc, Hd.
  assert (bytes [a0; b1; c2; d3]) as H by all_bytes.
  destruct (ft_column _ _ _ _ H) as [-> Hm]. destruct (fl_column _ _ _ _ H) as [-> Hs].
  do 2 (split; [done|]). split; by do 4 eexists.
Qed.

Lemma selected c0 c1 c2 c3 n :
  square [c0; c1; c2; c3] -> (n < 4)%nat ->
  let w i := nth ((n + i) mod 4) [c0; c1; c2; c3] [] in
  nth n (shift_rows (sub_bytes [c0; c1; c2; c3])) [] =
    [sbox (nth 0 (w 0%nat) 0); sbox (nth 1 (w 1%nat) 0); sbox (nth 2 (w 2%nat) 0); sbox (nth 3 (w 3%nat) 0)] /\
  (forall i, column (w i)) /\ (forall i, word_of (w i) = nth ((n + i) mod 4) (map word_of [c0; c1; c2; c3]) 0).
Proof.
  intros (? & ? & ? & ? & [= <- <- <- <-] & H0 & H1 & H2 & H3) Hn w. split; [|split].
  - destruct H0 as (a0 & a1 & a2 & a3 & -> & _), H1 as (b0 & b1 & b2 & b3 & -> & _),
      H2 as (d0 & d1 & d2 & d3 & -> & _), H3 as (e0 & e1 & e2 & e3 & -> & _).
    do 4 (destruct n as [|n]; [reflexivity|]). lia.
  - intros i. subst w. cbn beta. pose proof (Nat.mod_upper_bound (n + i) 4 ltac:(lia)) as B.
    destruct ((n + i) mod 4)%nat as [|[|[|[|k]]]]; [done..|lia].
  - intros i. subst w. cbn beta. exact (eq_sym (map_nth word_of _ [] _)).
Qed.

Lemma rnd_eq st n :
  square st -> (n < 4)%nat ->
  let c := nth n (shift_rows (sub_bytes st)) [] in
  f_rnd (map word_of st) (Z.of_nat n) = word_of (mix_column c) /\
  lf_rnd (map word_of st) (Z.of_nat n) = word_of c /\ column (mix_column c) /\ column c.
Proof.
  intros Hst Hn. destruct Hst as (c0 & c1 & c2 & c3 & -> & H0 & H1 & H2 & H3).
  destruct (rnd_lookup (word_of c0) (word_of c1) (word_of c2) (word_of c3) n Hn) as [Ef El].
  destruct (selected c0 c1 c2 c3 n) as (-> & Hc & Hw); [by do 4 eexists|done|].
  change (map word_of [c0; c1; c2; c3]) with [word_of c0; word_of c1; word_of c2; word_of c3] in *.
  rewrite Ef, El, <- !Hw. by apply lookup4_eq.
Qed.

Lemma square_cons c0 c1 c2 c3 : column c0 -> column c1 -> column c2 -> column c3 -> square [c0; c1; c2; c3].
Proof. intros. by do 4 eexists. Qed.

Lemma shift_rows_nth st :
  let r := shift_rows st in r = [nth 0 r []; nth 1 r []; nth 2 r []; nth 3 r []].
Proof. reflexivity. Qed.

Lemma at_word w k : at_ (map word_of w) (Z.of_nat k) = word_of (nth k w []).
Proof. unfold at_. rewrite Nat2Z.id. exact (map_nth word_of w [] k). Qed.

(** The words of a round key. *)
Lemma round_key_at w i k0 k1 k2 k3 :
  round_key w i = [k0; k1; k2; k3] ->
  let e j := at_ (map word_of w) (Z.of_nat (4 * i) + j) in
  e 0 = word_of k0 /\ e 1 = word_of k1 /\ e 2 = word_of k2 /\ e 3 = word_of k3.
Proof.
  intros E e. assert (forall j, (j < 4)%nat -> nth (4 * i + j) w [] = nth j (round_key w i) []) as N.
  { intros j Hj. unfold round_key. rewrite nth_firstn. destruct (Nat.ltb_spec j 4); [|lia]. by rewrite nth_skipn. }
  subst e. cbn beta.
  pose proof (N 0%nat ltac:(lia)) as N0. pose proof (N 1%nat ltac:(lia)) as N1.
  pose proof (N 2%nat ltac:(lia)) as N2. pose proof (N 3%nat ltac:(lia)) as N3. rewrite E in *. cbn [nth] in *.
  rewrite <- N0, <- N1, <- N2, <- N3, <- !at_word. repeat split; f_equal; lia.
Qed.

(** The four columns of a round, before the key is added. *)
Lemma columns_xor c0 c1 c2 c3 k0 k1 k2 k3 :
  column c0 -> column c1 -> column c2 -> column c3 -> square [k0; k1; k2; k3] ->
  [Z.lxor (word_of c0) (word_of k0); Z.lxor (word_of c1) (word_of k1);
   Z.lxor (word_of c2) (word_of k2); Z.lxor (word_of c3) (word_of k3)] =
    map word_of (add_round_key [c0; c1; c2; c3] [k0; k1; k2; k3]) /\
  square (add_round_key [c0; c1; c2; c3] [k0; k1; k2; k3]).
Proof.
  intros H0 H1 H2 H3 (? & ? & ? & ? & [= <- <- <- <-] & K0 & K1 & K2 & K3).
  destruct (column_xor _ _ H0 K0) as [-> ?]. destruct (column_xor _ _ H1 K1) as [-> ?].
  destruct (column_xor _ _ H2 K2) as [-> ?]. destruct (column_xor _ _ H3 K3) as [-> ?].
  split; [done|by apply square_cons].
Qed.

(** A round of the code is one of the cipher, on words. *)
Lemma round_eq st w i :
  square st -> square (round_key w i) ->
  f_round (map word_of st) (map word_of w) (Z.of_nat (4 * i)) = map word_of (aes_round w st i) /\
  square (aes_round w st i).
Proof.
  intros Hst Hk. pose proof Hk as (k0 & k1 & k2 & k3 & Ek & _). rewrite Ek in Hk.
  destruct (round_key_at _ _ _ _ _ _ Ek) as (E0 & E1 & E2 & E3). rewrite Z.add_0_r in E0.
  pose proof (rnd_eq st 0 Hst ltac:(lia)) as (F0 & _ & C0 & _). pose proof (rnd_eq st 1 Hst ltac:(lia)) as (F1 & _ & C1 & _).
  pose proof (rnd_eq st 2 Hst ltac:(lia)) as (F2 & _ & C2 & _). pose proof (rnd_eq st 3 Hst ltac:(lia)) as (F3 & _ & C3 & _).
  unfold aes_round. rewrite Ek, (shift_rows_nth (sub_bytes st)). cbn [map].
  destruct (columns_xor _ _ _ _ _ _ _ _ C0 C1 C2 C3 Hk) as [EM Sq]. split; [|exact Sq].
  unfold f_round. change 0 with (Z.of_nat 0) at 1. change 1 with (Z.of_nat 1) at 1.
  rewrite E0, E1, E2, E3. rewrite <- EM, <- F0, <- F1, <- F2, <- F3. reflexivity.
Qed.

Lemma last_round_eq st w i :
  square st -> square (round_key w i) ->
  let k := Z.of_nat (4 * i) in let x := map word_of st in let Ekey := map word_of w in
  [Z.lxor (lf_rnd x 0) (at_ Ekey k); Z.lxor (lf_rnd x 1) (at_ Ekey (k + 1));
   Z.lxor (lf_rnd x 2) (at_ Ekey (k + 2)); Z.lxor (lf_rnd x 3) (at_ Ekey (k + 3))] =
    map word_of (add_round_key (shift_rows (sub_bytes st)) (round_key w i)) /\
  square (add_round_key (shift_rows (sub_bytes st)) (round_key w i)).
Proof.
  intros Hst Hk k x Ekey. pose proof Hk as (k0 & k1 & k2 & k3 & Ek & _). rewrite Ek in *.
  destruct (round_key_at _ _ _ _ _ _ Ek) as (E0 & E1 & E2 & E3). rewrite Z.add_0_r in E0.
  pose proof (rnd_eq st 0 Hst ltac:(lia)) as (_ & F0 & _ & C0). pose proof (rnd_eq st 1 Hst ltac:(lia)) as (_ & F1 & _ & C1).
  pose proof (rnd_eq st 2 Hst ltac:(lia)) as (_ & F2 & _ & C2). pose proof (rnd_eq st 3 Hst ltac:(lia)) as (_ & F3 & _ & C3).
  rewrite (shift_rows_nth (sub_bytes st)).
  destruct (columns_xor _ _ _ _ _ _ _ _ C0 C1 C2 C3 Hk) as [EM Sq]. split; [|exact Sq].
  subst k Ekey x. rewrite E0, E1, E2, E3. rewrite <- EM, <- F0, <- F1, <- F2, <- F3. reflexivity.
Qed.

(** ** The key schedule *)

Lemma rot3_eq d : column d -> rot3 (word_of d) = word_of (rot_word d).
Proof.
  intros (b0 & b1 & b2 & b3 & -> & H). rewrite !Forall_cons_iff in H. unfold is_u in H.
  cbn [rot_word app word_of]. set (y := b1 + 256 * (b2 + 256 * (b3 + 256 * 0))).
  change (2 ^ 8) with 256 in H.
  assert (0 <= y < 2 ^ 24) as Hy by (subst y; change (2 ^ 24) with 16777216; lia).
  unfold rot3.
  assert (Z.shiftr (b0 + 256 * y) 8 = y) as ->.
  { rewrite Z.shiftr_div_pow2 by lia. change (2 ^ 8) with 256. rewrite (Z.mul_comm 256), Z.div_add by lia.
    rewrite Z.div_small by lia. lia. }
  assert (u32 (Z.shiftl (b0 + 256 * y) 24) = Z.shiftl b0 24) as ->.
  { unfold uwrap. rewrite !Z.shiftl_mul_pow2 by lia. change (2 ^ 24) with 16777216. change (2 ^ 32) with (256 * 16777216).
    rewrite Z.mul_mod_distr_r by lia. f_equal. rewrite (Z.mul_comm 256), Z_mod_plus_full. apply Z.mod_small. lia. }
  rewrite lor_shiftl_add by (done || lia). rewrite Z.shiftl_mul_pow2 by lia. change (2 ^ 24) with 16777216.
  subst y. lia.
Qed.

Lemma rot_column d : column d -> column (rot_word d).
Proof.
  intros (b0 & b1 & b2 & b3 & -> & H). do 4 eexists. split; [done|]. rewrite !Forall_cons_iff in H.
  cbn [rot_word app]. all_bytes.
Qed.

Lemma ls_box_eq d : column d -> ls_box (word_of d) = word_of (map sbox d) /\ column (map sbox d).
Proof.
  intros Hd. destruct (lookup4_eq d d d d Hd Hd Hd Hd) as (_ & E & _ & C).
  destruct Hd as (b0 & b1 & b2 & b3 & -> & H). split; [exact E|exact C].
Qed.

Lemma rcon_column i : (i < 10)%nat -> column [rcon i; 0; 0; 0] /\ word_of [rcon i; 0; 0; 0] = rcon i.
Proof.
  intros Hi. split; [|cbn [word_of]; lia]. do 4 eexists. split; [done|].
  apply bytes_check. do 10 (destruct i as [|i]; [reflexivity|]). lia.
Qed.

(** The four words that are derived from the last four. *)
Definition key_step (a b c d : list Z) (i : nat) : list (list Z) :=
  let e := xor_bytes a (xor_bytes (map sbox (rot_word d)) [rcon i; 0; 0; 0]) in
  let f := xor_bytes b e in
  let g := xor_bytes c f in
  [e; f; g; xor_bytes d g].

Lemma next_four p a b c d i :
  length p = (4 * i)%nat ->
  Nat.iter 4 next_word (p ++ [a; b; c; d]) = (p ++ [a; b; c; d]) ++ key_step a b c d i.
Proof.
  intros Hl. unfold key_step. cbn zeta.
  set (e := xor_bytes a (xor_bytes (map sbox (rot_word d)) [rcon i; 0; 0; 0])).
  set (f := xor_bytes b e). set (g := xor_bytes c f).
  assert (forall w x y q j temp, w = p ++ q -> length q = (j + 4)%nat -> nth j q [] = x -> List.last w [] = temp ->
    y = xor_bytes x (if Nat.eqb (j mod 4) 0 then xor_bytes (map sbox (rot_word temp)) [rcon (i + j / 4); 0; 0; 0] else temp) ->
    next_word w = w ++ [y]) as N.
  { intros w x y q j temp -> Hq Hx <- ->. unfold next_word. rewrite length_app, Hl, Hq.
    replace ((4 * i + (j + 4)) mod 4)%nat with (j mod 4)%nat
      by (replace (4 * i + (j + 4))%nat with (j + (i + 1) * 4)%nat by lia; by rewrite Nat.Div0.mod_add).
    replace ((4 * i + (j + 4)) / 4 - 1)%nat with (i + j / 4)%nat
      by (replace (4 * i + (j + 4))%nat with (j + (i + 1) * 4)%nat by lia; rewrite Nat.div_add; lia).
    do 3 f_equal. rewrite app_nth2 by lia. rewrite Hl. replace (4 * i + (j + 4) - 4 - 4 * i)%nat with j by lia. by rewrite Hx. }
  change (Nat.iter 4 next_word (p ++ [a; b; c; d])) with (next_word (next_word (next_word (next_word (p ++ [a; b; c; d]))))).
  assert (forall l x, List.last (p ++ l ++ [x]) [] = x) as L.
  { intros l x. rewrite app_assoc. by apply List.last_last. }
  rewrite (N (p ++ [a; b; c; d]) a e [a; b; c; d] 0%nat d);
    [|done|done|done|exact (L [a; b; c] d)|by rewrite Nat.add_0_r].
  rewrite <- app_assoc. cbn [app].
  rewrite (N (p ++ [a; b; c; d; e]) b f [a; b; c; d; e] 1%nat e); [|done|done|done|exact (L [a; b; c; d] e)|done].
  rewrite <- app_assoc. cbn [app].
  rewrite (N (p ++ [a; b; c; d; e; f]) c g [a; b; c; d; e; f] 2%nat f); [|done|done|done|exact (L [a; b; c; d; e] f)|done].
  rewrite <- app_assoc. cbn [app].
  rewrite (N (p ++ [a; b; c; d; e; f; g]) d (xor_bytes d g) [a; b; c; d; e; f; g] 3%nat g);
    [|done|done|done|exact (L [a; b; c; d; e; f] g)|done].
  rewrite <- !app_assoc. reflexivity.
Qed.

Lemma key_step_columns a b c d i :
  column a -> column b -> column c -> column d -> (i < 10)%nat ->
  let e := Z.lxor (Z.lxor (word_of a) (ls_box (rot3 (word_of d)))) (rcon i) in
  let f := Z.lxor (word_of b) e in
  let g := Z.lxor (word_of c) f in
  map word_of (key_step a b c d i) = [e; f; g; Z.lxor (word_of d) g] /\ square (key_step a b c d i).
Proof.
  intros Ha Hb Hc Hd Hi. cbn zeta. unfold key_step.
  rewrite rot3_eq by done. destruct (ls_box_eq _ (rot_column _ Hd)) as [-> Cs].
  destruct (rcon_column i Hi) as [Cr Er]. set (r := [rcon i; 0; 0; 0]) in *. clearbody r. rewrite Z.lxor_assoc, <- Er.
  destruct (column_xor _ _ Cs Cr) as [-> C1]. destruct (column_xor _ _ Ha C1) as [-> C2].
  destruct (column_xor _ _ Hb C2) as [-> C3]. destruct (column_xor _ _ Hc C3) as [-> C4].
  destruct (column_xor _ _ Hd C4) as [-> C5]. split; [done|by apply square_cons].
Qed.

Lemma schedule_eq m : forall p a b c d i,
  length p = (4 * i)%nat -> column a -> column b -> column c -> column d -> (i + m <= 10)%nat ->
  exists l, Nat.iter (4 * m) next_word (p ++ [a; b; c; d]) = p ++ [a; b; c; d] ++ l /\
    schedule_loop (map rcon (seq i m)) (word_of a) (word_of b) (word_of c) (word_of d) = map word_of l /\
    Forall column l /\ length l = (4 * m)%nat.
Proof.
  induction m as [|m IH]; intros p a b c d i Hl Ha Hb Hc Hd Hi.
  { exists []. rewrite app_nil_r. by repeat split. }
  destruct (key_step_columns a b c d i) as [Es Sq]; [done..|lia|].
  destruct Sq as (e & f & g & h & Ek & He & Hf & Hg & Hh). rewrite Ek in Es. cbn [map] in Es.
  injection Es as E1 E2 E3 E4.
  destruct (IH (p ++ [a; b; c; d]) e f g h (S i)) as (l & En & El & Cl & Ll);
    [rewrite length_app, Hl; simpl; lia|done..|lia|].
  exists (e :: f :: g :: h :: l). split; [|split; [|split]].
  - replace (4 * S m)%nat with (4 * m + 4)%nat by lia. rewrite Nat.iter_add, (next_four p a b c d i Hl), Ek, En.
    by rewrite <- !app_assoc.
  - cbn [seq map schedule_loop]. rewrite <- E1 in *. rewrite <- E2 in *. rewrite <- E3 in *. rewrite <- E4, El. reflexivity.
  - repeat (apply List.Forall_cons; [done|]). done.
  - simpl. lia.
Qed.
