(* ===== verification/AesRefines.v ===== *)
(** AES and the functions of 3GPP: the whole cipher, and the functions of TS 35.206. *)

From Stdlib Require Import ZArith Lia.
From stdpp Require Import base list option numbers.
From S2P Require Import Prelude.
From S2P Require Import CMem.
From S2P Require Import AesTables.
From S2P Require Import Rijndael.
From S2P Require Import AesSpec.

Local Open Scope Z_scope.
Open Scope c_scope.

#[local] Opaque sbox gmul.

(** ** The cipher *)

Definition block16 (l : list Z) : Prop := length l = 16%nat /\ bytes l.

Lemma four_columns l :
  block16 l -> square (columns 4 l) /\
  [u32_in l 0; u32_in l 4; u32_in l 8; u32_in l 12] = map word_of (columns 4 l) /\ concat (columns 4 l) = l.
Proof.
  intros [Hl Hb]. do 16 (destruct l as [|? l]; [done|]). destruct l; [|done].
  rewrite !Forall_cons_iff in Hb.
  split; [|split; [|done]].
  - apply square_cons; do 4 eexists; (split; [reflexivity|]); all_bytes.
  - unfold u32_in, at_. cbn [map columns take drop word_of]. repeat f_equal; rewrite Z.mul_0_r, Z.add_0_r; reflexivity.
Qed.

Lemma out_word c : column c -> u32_out (word_of c) = c.
Proof.
  intros (b0 & b1 & b2 & b3 & -> & H). destruct (word_bytes _ _ _ _ H) as (E0 & E1 & E2 & E3).
  unfold u32_out. by rewrite E0, E1, E2, E3.
Qed.

Lemma square_block st : square st -> block16 (concat st).
Proof.
  intros (c0 & c1 & c2 & c3 & -> & (? & ? & ? & ? & -> & H0) & (? & ? & ? & ? & -> & H1)
    & (? & ? & ? & ? & -> & H2) & (? & ? & ? & ? & -> & H3)).
  split; [done|]. cbn [concat]. repeat apply Forall_app_2; done.
Qed.

(** The key schedule, and each of its round keys. *)
Lemma key_schedule_eq key :
  block16 key ->
  RijndaelKeySchedule key = map word_of (key_expansion (columns 4 key)) /\
  forall i, (i <= 10)%nat -> square (round_key (key_expansion (columns 4 key)) i).
Proof.
  intros Hk. destruct (four_columns key Hk) as ((a & b & c & d & Ec & Ha & Hb & Hc & Hd) & Eu & _).
  rewrite Ec in *. cbn [map] in Eu. injection Eu as U0 U1 U2 U3.
  destruct (schedule_eq 10 [] a b c d 0%nat) as (l & En & El & Cl & Ll); [done..|lia|].
  unfold key_expansion. change 40%nat with (4 * 10)%nat. cbn [app] in En. rewrite En. split.
  - unfold RijndaelKeySchedule. rewrite U0, U1, U2, U3. change rnd_con with (map rcon (seq 0 10)). by rewrite El.
  - intros i Hi. set (w := a :: b :: c :: d :: l).
    assert (Forall column w) as Cw by (repeat (apply List.Forall_cons; [done|]); done).
    assert (length w = 44%nat) as Lw by (subst w; simpl; lia).
    unfold round_key. assert (Forall column (take 4 (drop (4 * i) w))) as C4 by (by apply Forall_take, Forall_drop).
    assert (length (take 4 (drop (4 * i) w)) = 4%nat) as L4 by (rewrite length_take, length_drop; lia).
    destruct (take 4 (drop (4 * i) w)) as [|c0 [|c1 [|c2 [|c3 [|]]]]]; try done.
    rewrite !Forall_cons_iff in C4. apply square_cons; tauto.
Qed.

Lemma rounds_eq w l : forall st,
  square st -> (forall i, In i l -> square (round_key w i)) ->
  fold_left (fun x i => f_round x (map word_of w) (Z.of_nat (4 * i))) l (map word_of st) =
    map word_of (fold_left (aes_round w) l st) /\ square (fold_left (aes_round w) l st).
Proof.
  induction l as [|i l IH]; intros st S Hr; [done|]. cbn [fold_left].
  destruct (round_eq st w i S) as [-> S']; [apply Hr; by left|]. apply IH; [done|]. intros j Hj. apply Hr. by right.
Qed.

Lemma nine_rounds w st :
  square st -> (forall i, (i <= 10)%nat -> square (round_key w i)) ->
  let E := map word_of w in
  f_round (f_round (f_round (f_round (f_round (f_round (f_round (f_round (f_round
    (map word_of st) E 4) E 8) E 12) E 16) E 20) E 24) E 28) E 32) E 36 =
    map word_of (fold_left (aes_round w) (seq 1 9) st) /\ square (fold_left (aes_round w) (seq 1 9) st).
Proof. intros S Hr. apply (rounds_eq w (seq 1 9) st S). intros i Hi%in_seq. apply Hr. lia. Qed.

Lemma encrypt_eq key block :
  block16 key -> block16 block ->
  RijndaelEncrypt (RijndaelKeySchedule key) block = aes128 key block /\ block16 (aes128 key block).
Proof.
  intros Hk Hb. destruct (key_schedule_eq key Hk) as [-> Hr].
  destruct (four_columns block Hb) as (Sb & Eb & _). unfold aes128, cipher.
  set (w := key_expansion (columns 4 key)) in *. clearbody w.
  destruct Sb as (c0 & c1 & c2 & c3 & Ec & C0 & C1 & C2 & C3). rewrite Ec in *.
  cbn [map] in Eb. injection Eb as E0 E1 E2 E3.
  pose proof (Hr 0%nat ltac:(lia)) as (k0 & k1 & k2 & k3 & Ek & K).
  destruct (round_key_at _ _ _ _ _ _ Ek) as (W0 & W1 & W2 & W3).
  unfold RijndaelEncrypt. rewrite E0, E1, E2, E3.
  destruct K as (K0 & K1 & K2 & K3).
  rewrite Ek. change (Z.of_nat (4 * 0) + 0) with 0 in W0. change (Z.of_nat (4 * 0) + 1) with 1 in W1.
  change (Z.of_nat (4 * 0) + 2) with 2 in W2. change (Z.of_nat (4 * 0) + 3) with 3 in W3. rewrite W0, W1, W2, W3.
  destruct (columns_xor c0 c1 c2 c3 k0 k1 k2 k3) as [-> S0]; [done..|by apply square_cons|].
  set (st0 := add_round_key [c0; c1; c2; c3] [k0; k1; k2; k3]) in *. clearbody st0.
  destruct (nine_rounds w st0 S0 Hr) as [-> S9]. set (st9 := fold_left (aes_round w) (seq 1 9) st0) in *. clearbody st9.
  destruct (last_round_eq _ w 10 S9 (Hr 10%nat ltac:(lia))) as [El (d0 & d1 & d2 & d3 & Ed & D0 & D1 & D2 & D3)].
  cbn zeta in El. rewrite Ed in El. cbn [map] in El. injection El as L0 L1 L2 L3.
  rewrite Ed. split.
  - change (Z.of_nat 40) with 40 in *. change (40 + 1) with 41 in L1. change (40 + 2) with 42 in L2.
    change (40 + 3) with 43 in L3. rewrite L0, L1, L2, L3, !out_word by done. cbn [concat]. by rewrite app_nil_r.
  - by apply square_block, square_cons.
Qed.

#[local] Opaque aes128 RijndaelEncrypt RijndaelKeySchedule.

(** ** TS 35.206

    [E] is the cipher under the key of the subscriber, whose operator's constant is zero. *)

Section milenage.
Variables key rand sqn amf : list Z.
Let E (x : list Z) : list Z := aes128 key x.

Definition rot_bytes (r : nat) (x : list Z) : list Z := drop r x ++ take r x.
Definition op_c : list Z := xor_bytes (E OP) OP.
Definition temp : list Z := E (xor_bytes rand op_c).
(** The constants c1 to c5 have at most one bit set, in their last byte. *)
Definition const (c : Z) : list Z := replicate 15 0 ++ [c].
Definition in1 : list Z := sqn ++ amf ++ sqn ++ amf.
(** The rotations by 64, 0, 32, 64 and 96 bits. *)
Definition out_1 : list Z := xor_bytes (E (xor_bytes temp (rot_bytes 8 (xor_bytes in1 op_c)))) op_c.
Definition out_n (r : nat) (c : Z) : list Z :=
  xor_bytes (E (xor_bytes (rot_bytes r (xor_bytes temp op_c)) (const c))) op_c.

Definition mac_a : list Z := take 8 out_1.
Definition mac_s : list Z := drop 8 out_1.
Definition res : list Z := drop 8 (out_n 0 1).
Definition ak : list Z := take 6 (out_n 0 1).
Definition ck : list Z := out_n 4 2.
Definition ik : list Z := out_n 8 4.
Definition ak_s : list Z := take 6 (out_n 12 8).
End milenage.

(** Loops over sixteen bytes. *)
Lemma xor_loop a b : block16 a -> block16 b ->
  for_to 16 (fun i => Z.lxor (at_ a i) (at_ b i)) = xor_bytes a b /\ block16 (xor_bytes a b).
Proof.
  intros [La Ha] [Lb Hb]. do 16 (destruct a as [|? a]; [done|]). destruct a; [|done].
  do 16 (destruct b as [|? b]; [done|]). destruct b; [|done]. rewrite !Forall_cons_iff in Ha, Hb.
  split; [reflexivity|]. split; [reflexivity|]. all_bytes.
Qed.

Lemma rotated_loop r k a b x : block16 a -> block16 b -> length x = 16%nat -> In r [4; 8; 12]%nat ->
  k = 16 - Z.of_nat r ->
  for_rotated k (fun i => Z.lxor (at_ a i) (at_ b i)) x = rot_bytes r (xor_bytes a b) /\
  block16 (rot_bytes r (xor_bytes a b)).
Proof.
  intros Ha Hb Lx Hr ->. split.
  - destruct Ha as [La _], Hb as [Lb _]. do 16 (destruct a as [|? a]; [done|]). destruct a; [|done].
    do 16 (destruct b as [|? b]; [done|]). destruct b; [|done].
    do 16 (destruct x as [|? x]; [done|]). destruct x; [|done].
    repeat (destruct Hr as [<-|Hr]; [reflexivity|]). done.
  - destruct (xor_loop a b Ha Hb) as [_ [L H]]. split.
    + unfold rot_bytes. rewrite length_app, length_take, length_drop, L. repeat (destruct Hr as [<-|Hr]; [done|]). done.
    + apply Forall_app_2; [by apply Forall_drop|by apply Forall_take].
Qed.

Lemma xor_last c x : block16 x -> byte c -> xor_at 15 c x = xor_bytes x (const c) /\ block16 (xor_bytes x (const c)).
Proof.
  intros Hx Hc. assert (block16 (const c)) as B.
  { split; [done|]. unfold const. apply Forall_app_2; [by apply bytes_check|].
    by apply List.Forall_cons. }
  split; [|by apply xor_loop]. destruct Hx as [Lx _]. do 16 (destruct x as [|? x]; [done|]). destruct x; [|done].
  unfold xor_at, const, xor_bytes. cbn. rewrite !Z.lxor_0_r. done.
Qed.

Lemma xor_bytes_comm a b : xor_bytes a b = xor_bytes b a.
Proof.
  unfold xor_bytes. revert b. induction a as [|x a IH]; intros [|y b]; try done.
  cbn [zip_with]. by rewrite IH, Z.lxor_comm.
Qed.

Lemma first_loop n x : (n <= 16)%nat -> block16 x -> for_to n (fun i => at_ x i) = take n x.
Proof.
  intros Hn [Lx _]. do 16 (destruct x as [|? x]; [done|]). destruct x; [|done].
  do 17 (destruct n as [|n]; [done|]). lia.
Qed.
Lemma second_loop x : block16 x -> for_to 8 (fun i => at_ x (i + 8)) = drop 8 x.
Proof. intros [Lx _]. do 16 (destruct x as [|? x]; [done|]). by destruct x. Qed.

Section milenage_blocks.
Variables key rand sqn amf : list Z.
Hypothesis Hkey : block16 key.
Hypothesis Hrand : block16 rand.
Hypothesis Hsqn : length sqn = 6%nat /\ bytes sqn.
Hypothesis Hamf : length amf = 2%nat /\ bytes amf.
Let Ekey := RijndaelKeySchedule key.

Lemma enc_eq x : block16 x -> RijndaelEncrypt Ekey x = aes128 key x /\ block16 (aes128 key x).
Proof. intros Hx. by apply encrypt_eq. Qed.

Lemma op_c_eq : ComputeOPc Ekey = op_c key /\ block16 (op_c key).
Proof.
  assert (block16 OP) as HO by (split; [done|by apply bytes_check]).
  unfold ComputeOPc. destruct (enc_eq OP HO) as [-> B]. by apply xor_loop.
Qed.

Lemma temp_eq :
  RijndaelEncrypt Ekey (for_to 16 (fun i => Z.lxor (at_ rand i) (at_ (op_c key) i))) = temp key rand /\
  block16 (temp key rand) /\ length (for_to 16 (fun i => Z.lxor (at_ rand i) (at_ (op_c key) i))) = 16%nat.
Proof.
  destruct (xor_loop rand (op_c key) Hrand (proj2 op_c_eq)) as [-> B]. destruct (enc_eq _ B) as [-> B'].
  by destruct B.
Qed.

(** One of the outputs, from the loop that rotates, or does not. *)
Lemma out_eq r c y :
  byte c -> y = rot_bytes r (xor_bytes (temp key rand) (op_c key)) -> block16 y ->
  for_to 16 (fun i => Z.lxor (at_ (RijndaelEncrypt Ekey (xor_at 15 c y)) i) (at_ (op_c key) i)) = out_n key rand r c /\
  block16 (out_n key rand r c) /\ length (xor_at 15 c y) = 16%nat.
Proof.
  intros Hc -> Hy. destruct (xor_last c _ Hy Hc) as [-> B]. destruct (enc_eq _ B) as [-> B'].
  destruct (xor_loop _ _ B' (proj2 op_c_eq)) as [-> B'']. by destruct B.
Qed.

Lemma rotated_eq r k x : length x = 16%nat -> In r [4; 8; 12]%nat -> k = 16 - Z.of_nat r ->
  for_rotated k (fun i => Z.lxor (at_ (temp key rand) i) (at_ (op_c key) i)) x =
    rot_bytes r (xor_bytes (temp key rand) (op_c key)) /\
  block16 (rot_bytes r (xor_bytes (temp key rand) (op_c key))).
Proof. intros Lx Hr Hk. apply rotated_loop; [apply temp_eq|apply op_c_eq|done..]. Qed.

Lemma out_block r c : In r [0; 4; 8; 12]%nat -> byte c -> block16 (out_n key rand r c).
Proof.
  intros Hr Hc. destruct Hr as [<-|Hr].
  - refine (proj1 (proj2 (out_eq 0 c _ Hc _ (proj2 (xor_loop _ _ (proj1 (proj2 temp_eq)) (proj2 op_c_eq)))))).
    unfold rot_bytes. by rewrite app_nil_r.
  - destruct (rotated_eq r _ (replicate 16 0) eq_refl Hr eq_refl) as [_ B].
    exact (proj1 (proj2 (out_eq r c _ Hc eq_refl B))).
Qed.

Lemma keys_eq :
  (length (res key rand) = 8%nat /\ bytes (res key rand)) /\ block16 (ck key rand) /\ block16 (ik key rand).
Proof.
  assert (byte 1) as H1 by done. assert (byte 2) as H2 by done. assert (byte 4) as H4 by done.
  destruct (out_block 0 1 (or_introl eq_refl) H1) as [L0 B0].
  split; [|split; [exact (out_block 4 2 (or_intror (or_introl eq_refl)) H2)
                  |exact (out_block 8 4 (or_intror (or_intror (or_introl eq_refl))) H4)]].
  unfold res. split; [rewrite length_drop, L0; reflexivity|]. apply Forall_drop. exact B0.
Qed.

Lemma f1_eq : f1_out key rand sqn amf = out_1 key rand sqn amf /\ block16 (out_1 key rand sqn amf).
Proof.
  unfold f1_out. fold Ekey. destruct op_c_eq as [-> Bo]. destruct temp_eq as (-> & Bt & Lx).
  assert (block16 (in1 sqn amf)) as Bi.
  { destruct Hsqn as [Ls Bs], Hamf as [La Ba]. split; [unfold in1; rewrite !length_app; lia|by repeat apply Forall_app_2]. }
  assert (take 6 sqn ++ take 2 amf ++ take 6 sqn ++ take 2 amf = in1 sqn amf) as ->
    by (by rewrite !take_ge by lia).
  destruct (rotated_loop 8 8 _ _ _ Bi Bo Lx ltac:(by right; left) eq_refl) as [-> Br].
  destruct (xor_loop _ _ Br Bt) as [-> Bx]. destruct (enc_eq _ Bx) as [-> Be]. rewrite xor_bytes_comm in *.
  unfold out_1. by apply xor_loop.
Qed.

Lemma f2345_eq :
  f2345 key rand = mkOut (res key rand) (ck key rand) (ik key rand) (ak key rand) /\
  f5star key rand = ak_s key rand.
Proof.
  unfold f2345, f5star. fold Ekey. destruct op_c_eq as [-> Bo]. destruct temp_eq as (-> & Bt & Lx).
  destruct (xor_loop _ _ Bt Bo) as [-> Bx].
  destruct (out_eq 0 1 (xor_bytes (temp key rand) (op_c key)) ltac:(done) ltac:(unfold rot_bytes; by rewrite app_nil_r) Bx) as (-> & B0 & L0).
  destruct (rotated_eq 4 12 _ L0 ltac:(by left) eq_refl) as [-> R4]. destruct (out_eq 4 2 _ ltac:(done) eq_refl R4) as (-> & B4 & L4).
  destruct (rotated_eq 8 8 _ L4 ltac:(by right; left) eq_refl) as [-> R8]. destruct (out_eq 8 4 _ ltac:(done) eq_refl R8) as (-> & B8 & L8).
  destruct (rotated_eq 12 4 _ Lx ltac:(by right; right; left) eq_refl) as [-> R12].
  destruct (out_eq 12 8 _ ltac:(done) eq_refl R12) as (-> & B12 & _).
  rewrite (second_loop _ B0), (first_loop 6 _ ltac:(lia) B0), (first_loop 6 _ ltac:(lia) B12). split; reflexivity.
Qed.
End milenage_blocks.

(** C11: AES-128 of rijndael.c, with eight tables of 256 words, is the cipher of FIPS 197 for
    every key and every block of 16 bytes: the S-box as the inverse in the field of 256
    elements and an affine map, shifted rows, mixed columns as products of polynomials, the
    expansion of the key. *)
Theorem aes_refines_fips197 key block :
  block16 key -> block16 block ->
  RijndaelEncrypt (RijndaelKeySchedule key) block = aes128 key block.
Proof. apply encrypt_eq. Qed.

(** C37: the functions f1 to f5, f1* and f5* of milenage.c are those of TS 35.206 over AES, with
    the operator's constant zero. *)
Theorem milenage_refines key rand sqn amf :
  block16 key -> block16 rand -> length sqn = 6%nat /\ bytes sqn -> length amf = 2%nat /\ bytes amf ->
  f1 key rand sqn amf = mac_a key rand sqn amf /\ f1star key rand sqn amf = mac_s key rand sqn amf /\
  f2345 key rand = mkOut (res key rand) (ck key rand) (ik key rand) (ak key rand) /\
  f5star key rand = ak_s key rand.
Proof.
  intros Hk Hr Hs Ha. destruct (f1_eq key rand sqn amf Hk Hr Hs Ha) as [E B]. unfold f1, f1star. rewrite E.
  split; [exact (first_loop 8 _ ltac:(lia) B)|]. split; [exact (second_loop _ B)|]. exact (f2345_eq key rand sqn amf Hk Hr Hs Ha).
Qed.

Definition fips_key : list Z :=
  [0x2b; 0x7e; 0x15; 0x16; 0x28; 0xae; 0xd2; 0xa6; 0xab; 0xf7; 0x15; 0x88; 0x09; 0xcf; 0x4f; 0x3c].
Definition fips_block : list Z :=
  [0x32; 0x43; 0xf6; 0xa8; 0x88; 0x5a; 0x30; 0x8d; 0x31; 0x31; 0x98; 0xa2; 0xe0; 0x37; 0x07; 0x34].

Lemma aes_refines_fips197_witness :
  RijndaelEncrypt (RijndaelKeySchedule fips_key) fips_block = aes128 fips_key fips_block /\
  aes128 fips_key fips_block =
    [0x39; 0x25; 0x84; 0x1d; 0x02; 0xdc; 0x09; 0xfb; 0xdc; 0x11; 0x85; 0x97; 0x19; 0x6a; 0x0b; 0x32].
Proof.
  split; [|vm_compute; reflexivity].
  apply aes_refines_fips197; (split; [reflexivity|apply bytes_check; reflexivity]).
Defined.

Lemma milenage_refines_witness :
  f1 fips_key fips_block [1; 2; 3; 4; 5; 6] [7; 8] = mac_a fips_key fips_block [1; 2; 3; 4; 5; 6] [7; 8] /\
  f1star fips_key fips_block [1; 2; 3; 4; 5; 6] [7; 8] = mac_s fips_key fips_block [1; 2; 3; 4; 5; 6] [7; 8] /\
  f2345 fips_key fips_block =
    mkOut (res fips_key fips_block) (ck fips_key fips_block) (ik fips_key fips_block) (ak fips_key fips_block) /\
  f5star fips_key fips_block = ak_s fips_key fips_block.
Proof.
  apply milenage_refines; (split; [reflexivity|apply bytes_check; reflexivity]).
Defined.
