(* ===== verification/Digest.v ===== *)
(** Digest authentication of SIP: the model of src/jauth.c of libeXosip2 but for its list of
    nonces, on MD5 and on the functions of 3GPP.  Strings are those of SipUri; what is read of
    memory that nobody has written is an argument. *)

From Stdlib Require Import Ascii.
From stdpp Require Import base list option numbers strings.
From S2P Require Import Prelude.
From S2P Require Import CMem.
From S2P Require Import SipTypes.
From S2P Require Import SipMessage.
From S2P Require Import SipUri.
From S2P Require Import SipHeaders.
From S2P Require Import Md5.
From S2P Require Import Rijndael.

Local Open Scope Z_scope.
Open Scope c_scope.

(** ** Hexadecimal digits *)

Definition HASHLEN : Z := 16.
Definition HASHHEXLEN : Z := 32.

Definition hex_nibble (j : Z) : ascii := if j <=? 9 then char_of (j + 48) else char_of (j + 97 - 10).
(** [CvtHex], for the bytes of [Bin]. *)
Definition CvtHex (Bin : buf) : text :=
  flat_map (fun b => [hex_nibble (Z.land (Z.shiftr b 4) 0xf); hex_nibble (Z.land b 0xf)]) Bin.

(** A string in memory, with its NUL. *)
Definition codes (s : text) : buf := map code s.
Definition c_mem (s : text) : buf := codes s ++ [0].

(** [osip_MD5Update (&Md5Ctx, s, strlen (s))] *)
Definition update_str (ctx : osip_MD5_CTX) (s : text) : outcome osip_MD5_CTX :=
  osip_MD5Update ctx (c_mem s) (u32 (zlen s)).
Definition colon : text := [":"%char].

(** ** The digests of RFC 2617 *)

Definition DigestCalcHA1 (Md5Ctx : osip_MD5_CTX) (pszAlg : option text) (pszUserName pszRealm pszPassword : text)
    (pszNonce pszCNonce : option text) : outcome text :=
  let Md5Ctx := osip_MD5Init Md5Ctx in
  let! Md5Ctx := update_str Md5Ctx pszUserName in
  let! Md5Ctx := update_str Md5Ctx colon in
  let! Md5Ctx := update_str Md5Ctx pszRealm in
  let! Md5Ctx := update_str Md5Ctx colon in
  let! Md5Ctx := update_str Md5Ctx pszPassword in
  let! (HA1, Md5Ctx) := osip_MD5Final Md5Ctx in
  let! HA1 :=
    (if match pszAlg with Some alg => strcaseeq (str alg) "md5-sess" | None => false end then
       let Md5Ctx := osip_MD5Init Md5Ctx in
       let! Md5Ctx := osip_MD5Update Md5Ctx HA1 HASHLEN in
       let! Md5Ctx := update_str Md5Ctx colon in
       let! pszNonce := lift pszNonce in
       let! Md5Ctx := update_str Md5Ctx pszNonce in
       let! Md5Ctx := update_str Md5Ctx colon in
       let! pszCNonce := lift pszCNonce in
       let! Md5Ctx := update_str Md5Ctx pszCNonce in
       let! (HA1, _) := osip_MD5Final Md5Ctx in
       Done HA1
     else Done HA1) in
  Done (CvtHex HA1).

Inductive qop_kind := auth_withoutqop | auth_withauth_int | auth_withauth.
Definition qop_of (pszQop : option text) : qop_kind :=
  match pszQop with
  | None => auth_withoutqop
  | Some q => if strcaseeq (str q) "auth-int" then auth_withauth_int
              else if strcaseeq (str q) "auth" then auth_withauth else auth_withoutqop
  end.

(** [HA1] and [HEntity] are the memory they point to. *)
Definition DigestCalcResponse (Md5Ctx : osip_MD5_CTX) (HA1 : buf) (pszNonce : text)
    (pszNonceCount pszCNonce pszQop : option text) (Aka : Z) (pszMethod pszDigestUri : text) (HEntity : buf)
  : outcome text :=
  let Md5Ctx := osip_MD5Init Md5Ctx in
  let! Md5Ctx := update_str Md5Ctx pszMethod in
  let! Md5Ctx := update_str Md5Ctx colon in
  let! Md5Ctx := update_str Md5Ctx pszDigestUri in
  let! Md5Ctx :=
    (match qop_of pszQop with
     | auth_withauth_int =>
         let! Md5Ctx := update_str Md5Ctx colon in
         osip_MD5Update Md5Ctx HEntity HASHHEXLEN
     | _ => Done Md5Ctx
     end) in
  let! (HA2, Md5Ctx) := osip_MD5Final Md5Ctx in
  let HA2Hex := CvtHex HA2 in
  let Md5Ctx := osip_MD5Init Md5Ctx in
  let! Md5Ctx := osip_MD5Update Md5Ctx HA1 HASHHEXLEN in
  let! Md5Ctx := update_str Md5Ctx colon in
  let! Md5Ctx := update_str Md5Ctx pszNonce in
  let! Md5Ctx := update_str Md5Ctx colon in
  let! Md5Ctx :=
    (match qop_of pszQop with
     | auth_withoutqop => Done Md5Ctx
     | _ =>
         if Aka =? 0 then
           let! pszNonceCount := lift pszNonceCount in
           let! Md5Ctx := update_str Md5Ctx pszNonceCount in
           let! Md5Ctx := update_str Md5Ctx colon in
           let! pszCNonce := lift pszCNonce in
           let! Md5Ctx := update_str Md5Ctx pszCNonce in
           let! Md5Ctx := update_str Md5Ctx colon in
           let! pszQop := lift pszQop in
           let! Md5Ctx := update_str Md5Ctx pszQop in
           update_str Md5Ctx colon
         else Done Md5Ctx
     end) in
  let! Md5Ctx := osip_MD5Update Md5Ctx (c_mem HA2Hex) HASHHEXLEN in
  let! (RespHash, _) := osip_MD5Final Md5Ctx in
  Done (CvtHex RespHash).

(** ** Base 64 *)

Definition alphabet : text := txt "ABCDEFGHIJKLMNOPQRSTUVWXYZabcdefghijklmnopqrstuvwxyz0123456789+/".
Definition base64_val (x : ascii) : Z :=
  if Ascii.eqb x "="%char then -1 else match index_of x alphabet with Some i => i | None => 0 end.

(** [out\[j++\] = v], in a buffer of [size] bytes. *)
Definition put (size : Z) (out : buf) (v : Z) : outcome buf :=
  if zlen out <? size then Done (out ++ [u8 v]) else Undef.
(** A negative number cannot be shifted to the left. *)
Definition shl (x n : Z) : outcome Z := if x <? 0 then Undef else Done (Z.shiftl x n).

(** The three bytes of a group. *)
Definition first_byte64 (x1 x2 : Z) : outcome Z :=
  let! h := shl x1 2 in Done (Z.lor h (Z.shiftr (Z.land x2 0x30) 4)).
Definition second_byte64 (x2 x3 : Z) : Z := Z.lor (Z.shiftl (Z.land x2 0x0F) 4) (Z.shiftr (Z.land x3 0x3C) 2).
Definition third_byte64 (x3 x4 : Z) : Z := Z.lor (Z.shiftl (Z.land x3 0x03) 6) (Z.land x4 0x3F).

(** The groups before the last one; the index behind them. *)
Fixpoint groups_loop (fuel : nat) (size : Z) (b : text) (len i : Z) (out : buf) : outcome (Z * buf) :=
  if u32 (i + 4) <? len then
    match fuel with
    | O => Unfinished
    | S fuel =>
        let! c1 := char_at b i in
        let! c2 := char_at b (i + 1) in
        let! c3 := char_at b (i + 2) in
        let! c4 := char_at b (i + 3) in
        let '(x1, x2, x3, x4) := (base64_val c1, base64_val c2, base64_val c3, base64_val c4) in
        let! v := first_byte64 x1 x2 in
        let! out := put size out v in
        let! out := put size out (second_byte64 x2 x3) in
        let! out := put size out (third_byte64 x3 x4) in
        groups_loop fuel size b len (u32 (i + 4)) out
    end
  else Done (i, out).

(** The bytes that are decoded; [*newlen] is their number. *)
Definition base64_decode_string (b : text) (len : Z) : outcome buf :=
  let size := u32 (u32 (len * 3) / 4 + 8) in
  let! (i, out) := groups_loop (length b) size b len 0 [] in
  let! out :=
    (if i <=? len then
       let value (j : Z) := if u32 (i + j) <? len then let! c := char_at b (i + j) in Done (base64_val c) else Done (-1) in
       let! c1 := char_at b i in
       let x1 := base64_val c1 in
       let! x2 := value 1 in
       let! x3 := value 2 in
       let! x4 := value 3 in
       if negb (x2 =? -1) then
         let! v := first_byte64 x1 x2 in
         let! out := put size out v in
         if negb (x3 =? -1) then
           let! out := put size out (second_byte64 x2 x3) in
           if negb (x4 =? -1) then put size out (third_byte64 x3 x4) else Done out
         else Done out
       else Done out
     else Done out) in
  let! _ := put size out 0 in
  Done out.

(** ** AKA *)

Definition MAX_HEADER_LEN : Z := 2049.
Definition KLEN : Z := 16.
Definition amf : list Z := [0; 0].

(** [hexa\[\]] *)
Definition hexa (v : list Z) : text :=
  flat_map (fun b => [hex_nibble (Z.shiftr (Z.land b 0xF0) 4); hex_nibble (Z.land b 0x0F)]) v.
(** Characters written into an array from the index [i] on. *)
Definition write_chars (i : Z) (s arr : text) : text :=
  take (Z.to_nat i) arr ++ s ++ drop (Z.to_nat i + length s) arr.

(** What the arrays of the stack hold before they are written: the context of MD5, the 81
    characters of the response, and the two keys. *)
Record garbage := mkGarbage { g_md5 : osip_MD5_CTX; g_resp : text; g_ck : list Z; g_ik : list Z }.

(** [memcpy (k, pszPassword, strlen (pszPassword))] into the sixteen bytes of [k], and zeros
    behind it. *)
Definition aka_key (pszPassword : text) : outcome (list Z) :=
  let j := zlen pszPassword in
  if KLEN <? j then Undef else Done (codes pszPassword ++ replicate (Z.to_nat (KLEN - j)) 0).

(** The response, the two keys, and the array with the response; [None] for a nonce that is
    too short. *)
Definition aka_response (pszPassword pszNonce : text) (resp_hex : text) : outcome (option f2345_out * text) :=
  let resp_hex := write_chars 0 [NUL] resp_hex in
  let tmp := take (Z.to_nat (MAX_HEADER_LEN - 2)) pszNonce in
  let! nonce := base64_decode_string tmp (zlen tmp) in
  if zlen nonce <? 16 + 16 then Done (None, resp_hex) else
  let rnd := take 16 nonce in
  let sqn_he := take 6 (drop 16 nonce) in
  let mac := take 8 (drop 24 nonce) in
  let! k := aka_key pszPassword in
  let xmac := f1 k rnd sqn_he amf in
  (* nothing is done when the two codes differ *)
  let _ := bool_decide (mac = xmac) in
  let out := f2345 k rnd in
  Done (Some out, write_chars 16 [NUL] (write_chars 0 (hexa (o_res out)) resp_hex)).

(** The string that is in [resp_hex] then. *)
Definition DigestCalcResponseAka (g : garbage) (pszPassword pszNonce : text) (version : Z) : outcome text :=
  let! (out, resp_hex) := aka_response pszPassword pszNonce (g_resp g) in
  let '(ik, ck) := match out with Some o => (o_ik o, o_ck o) | None => (g_ik g, g_ck g) end in
  let resp_hex :=
    if version =? 2
    then write_chars 48 (hexa ck) (write_chars 16 (hexa ik) (write_chars 80 [NUL] resp_hex))
    else resp_hex in
  Done (c_string resp_hex).

(** ** The header *)

Definition OSIP_NOMEM : Z := -4.

Record osip_www_authenticate := mkWww {
  w_auth_type : option string;
  w_realm : option string;
  w_domain : option string;
  w_nonce : option string;
  w_opaque : option string;
  w_stale : option string;
  w_algorithm : option string;
  qop_options : option string
}.

Definition quoted_text (s : text) : string := str (quote :: s ++ [quote]).

(** A string without a quote at its beginning and its last character; of a lone quote the
    character before the copy would be overwritten. *)
Definition osip_strdup_without_quote (ch : text) : outcome text :=
  match ch with
  | c :: r => if Ascii.eqb c quote then match r with [] => Undef | _ => Done (removelast r) end else Done ch
  | [] => Done []
  end.

(** [snprintf (s, 9, "%.8i", n)] *)
Fixpoint decimal (fuel : nat) (n : Z) (s : text) : text :=
  match fuel with O => s | S fuel => decimal fuel (n / 10) (char_of (48 + n mod 10) :: s) end.
Definition nonce_count_text (n : Z) : text :=
  let digits := if Z.abs n <? 10 ^ 8 then 8%nat else if Z.abs n <? 10 ^ 9 then 9%nat else 10%nat in
  take 8 ((if n <? 0 then ["-"%char] else []) ++ decimal digits (Z.abs n) []).

Inductive aka_alg := MD5 | AKAv1 | AKAv2.
Definition alg_text (a : aka_alg) : string :=
  match a with MD5 => "MD5" | AKAv1 => "AKAv1-MD5" | AKAv2 => "AKAv2-MD5" end.
Definition algorithm_of (algorithm : option string) : option aka_alg :=
  match algorithm with
  | None => Some MD5
  | Some a =>
      let same (s : string) := strcaseeq s a || strcaseeq (quoted_text (txt s)) a in
      if same "MD5"%string then Some MD5 else if same "AKAv1-MD5"%string then Some AKAv1
      else if same "AKAv2-MD5"%string then Some AKAv2 else None
  end.

(** The qop options that are answered at all. *)
Definition qop_given (qop : option string) : bool :=
  match qop with None => false | Some q => 4 <=? zlen (txt q) end.

(** [pha1]: the digest that is configured, or the one that is computed, in memory. *)
Definition ha1_mem (g : garbage) (ha1 : option text) (user realm pass nonce : text) (cnonce : option text) : outcome buf :=
  match ha1 with
  | Some (c :: r) => Done (c_mem (c :: r))
  | _ => let! h := DigestCalcHA1 (g_md5 g) (Some (txt "MD5")) user realm pass (Some nonce) cnonce in Done (c_mem h)
  end.

(** [Response], for one of the algorithms. *)
Definition digest_response (g : garbage) (alg : aka_alg) (ha1 : option text) (user realm pass nonce : text)
    (nc cnonce qop : option text) (method uri : text) : outcome text :=
  let HA2 := replicate 33 0 in
  match alg with
  | MD5 =>
      let! pha1 := ha1_mem g ha1 user realm pass nonce cnonce in
      DigestCalcResponse (g_md5 g) pha1 nonce nc cnonce qop 0 method uri HA2
  | _ =>
      let version := match alg with AKAv1 => 1 | _ => 2 end in
      let! Response2 := DigestCalcResponseAka g pass nonce version in
      let! pha1 := ha1_mem g ha1 user realm Response2 nonce cnonce in
      DigestCalcResponse (g_md5 g) pha1 nonce nc cnonce qop version method uri HA2
  end.

Definition eXosip_create_proxy_authorization_header (g : garbage) (wa : option osip_www_authenticate)
    (rquri username : text) (passwd ha1 : option text) (method : text) (pCNonce : option text) (iNonceCount : Z)
  : outcome (ret osip_authorization) :=
  match passwd, wa with
  | None, _ | _, None => Done (Err OSIP_BADPARAMETER)
  | Some passwd, Some wa =>
      match w_auth_type wa, w_nonce wa with
      | None, _ | _, None => Done (Err OSIP_SYNTAXERROR)
      | Some auth_type, Some nonce =>
          if negb (strcaseeq "Digest" auth_type) then Done (Err OSIP_UNDEFINED_ERROR) else
          match algorithm_of (w_algorithm wa) with
          | None => Done (Err OSIP_UNDEFINED_ERROR)
          | Some alg =>
              let realm := match w_realm wa with Some r => r | None => quoted_text [] end in
              let! pszRealm := osip_strdup_without_quote (txt realm) in
              let! pszNonce := osip_strdup_without_quote (txt nonce) in
              let! qop :=
                (if qop_given (qop_options wa) then
                   match pCNonce with
                   | None => Done (Err OSIP_NOMEM)
                   | Some cnonce => Done (Ok (Some (nonce_count_text iNonceCount, cnonce)))
                   end
                 else Done (Ok None)) in
              match qop with
              | Err i => Done (Err i)
              | Ok qop =>
                  let pszQop := match qop with Some _ => Some (txt "auth") | None => None end in
                  let! Response := digest_response g alg ha1 username pszRealm passwd pszNonce
                                     (fst <$> qop) (snd <$> qop) pszQop method rquri in
                  Done (Ok (mkAuth (Some "Digest"%string) (Some (quoted_text username)) (Some realm) (Some nonce)
                              (Some (quoted_text rquri)) (Some (str (take 34 (quote :: Response ++ [quote])))) None
                              (Some (alg_text alg)) ((fun q => quoted_text (snd q)) <$> qop) (w_opaque wa)
                              (str <$> pszQop) ((fun q => str (fst q)) <$> qop) None None None None None))
              end
          end
      end
  end.

(** The example of RFC 2617, 3.5. *)
Definition zero_garbage : garbage :=
  mkGarbage (mkMD5 (mkWords 0 0 0 0) 0 0 (replicate 64 0)) (replicate 81 NUL) (replicate 16 0) (replicate 16 0).
Example rfc2617_example :
  digest_response zero_garbage MD5 None (txt "Mufasa") (txt "testrealm@host.com") (txt "Circle Of Life")
    (txt "dcd98b7102dd2f0e8b11d0f600bfb0c093") (Some (txt "00000001")) (Some (txt "0a4f113b")) (Some (txt "auth"))
    (txt "GET") (txt "/dir/index.html") = Done (txt "6629fae49393a05397450978507c4ef1").
Proof. vm_compute. reflexivity. Qed.
