(* ===== verification/Base64Spec.v ===== *)
(** Base 64: the encoding of RFC 4648, and that the decoder gives back what was encoded. *)

From Stdlib Require Import Ascii ZArith Lia.
From stdpp Require Import base list option numbers strings.
From S2P Require Import Prelude.
From S2P Require Import CMem.
From S2P Require Import SipMessage.
From S2P Require Import SipUri.
From S2P Require Import SipUriSpec.
From S2P Require Import SipUriParse.
From S2P Require Import SipUriRoundTrip.
From S2P Require Import Digest.

Local Open Scope Z_scope.
Open Scope c_scope.

(** ** The encoding *)

Definition enc6 (n : Z) : ascii := nth (Z.to_nat n) alphabet NUL.

(** Six bits for each character; two or three characters and padding for what is left. *)
Fixpoint base64 (l : list Z) : text :=
  match l with
  | a :: b :: c :: l =>
      [enc6 (a / 4); enc6 (a mod 4 * 16 + b / 16); enc6 (b mod 16 * 4 + c / 64); enc6 (c mod 64)] ++ base64 l
  | [a; b] => [enc6 (a / 4); enc6 (a mod 4 * 16 + b / 16); enc6 (b mod 16 * 4); "="%char]
  | [a] => [enc6 (a / 4); enc6 (a mod 4 * 16); "="%char; "="%char]
  | [] => []
  end.

Lemma up_to (k : nat) (f : Z -> bool) :
  forallb f (map Z.of_nat (seq 0 k)) = true -> forall b, 0 <= b < Z.of_nat k -> f b = true.
Proof.
  intros H b Hb. apply (proj1 (forallb_forall _ _) H). apply in_map_iff.
  exists (Z.to_nat b). split; [lia|]. apply in_seq. lia.
Qed.

Lemma val_enc n : 0 <= n < 64 -> base64_val (enc6 n) = n.
Proof.
  intros H. apply Z.eqb_eq. revert n H. apply (up_to 64 (fun n => base64_val (enc6 n) =? n)). vm_compute. reflexivity.
Qed.

(** The three bytes of a group, from the pieces they were cut into. *)
Lemma first_group a h : byte a -> 0 <= h < 16 ->
  exists v, first_byte64 (a / 4) (a mod 4 * 16 + h) = Done v /\ u8 v = a.
Proof.
  intros Ha Hh. unfold first_byte64, shl.
  assert (0 <= a / 4) by (apply Z.div_pos; unfold is_u in *; lia). ltest. eexists. split; [done|]. apply Z.eqb_eq.
  assert (forallb (fun a => forallb (fun h => u8 (Z.lor (Z.shiftl (a / 4) 2) (Z.shiftr (Z.land (a mod 4 * 16 + h) 0x30) 4)) =? a)
    (map Z.of_nat (seq 0 16))) (map Z.of_nat (seq 0 256)) = true) as T by (vm_compute; reflexivity).
  exact (up_to 16 _ (up_to 256 _ T a Ha) h Hh).
Qed.

Lemma second_group l b h : byte b -> 0 <= l < 4 -> 0 <= h < 4 ->
  u8 (second_byte64 (l * 16 + b / 16) (b mod 16 * 4 + h)) = b.
Proof.
  intros Hb Hl Hh. apply Z.eqb_eq.
  assert (forallb (fun b => forallb (fun l => forallb (fun h => u8 (second_byte64 (l * 16 + b / 16) (b mod 16 * 4 + h)) =? b)
    (map Z.of_nat (seq 0 4))) (map Z.of_nat (seq 0 4))) (map Z.of_nat (seq 0 256)) = true) as T by (vm_compute; reflexivity).
  exact (up_to 4 _ (up_to 4 _ (up_to 256 _ T b Hb) l Hl) h Hh).
Qed.

Lemma third_group l c : byte c -> 0 <= l < 16 -> u8 (third_byte64 (l * 4 + c / 64) (c mod 64)) = c.
Proof.
  intros Hc Hl. apply Z.eqb_eq.
  assert (forallb (fun c => forallb (fun l => u8 (third_byte64 (l * 4 + c / 64) (c mod 64)) =? c)
    (map Z.of_nat (seq 0 16))) (map Z.of_nat (seq 0 256)) = true) as T by (vm_compute; reflexivity).
  exact (up_to 16 _ (up_to 256 _ T c Hc) l Hl).
Qed.

(** The pieces are numbers of six bits. *)
Lemma pieces a b c : byte a -> byte b -> byte c ->
  0 <= a / 4 < 64 /\ 0 <= a mod 4 < 4 /\ 0 <= b / 16 < 16 /\ 0 <= b mod 16 < 16 /\ 0 <= c / 64 < 4 /\ 0 <= c mod 64 < 64.
Proof.
  unfold is_u. change (2 ^ 8) with 256. intros Ha Hb Hc.
  Z.to_euclidean_division_equations. lia.
Qed.

Lemma put_ok size out v x : zlen out < size -> u8 v = x -> put size out v = Done (out ++ [x]).
Proof. intros H <-. unfold put. by ltest. Qed.

(** ** The decoder *)

Lemma char4 pre c1 c2 c3 c4 r b i :
  b = pre ++ [c1; c2; c3; c4] ++ r -> i = zlen pre ->
  char_at b i = Done c1 /\ char_at b (i + 1) = Done c2 /\ char_at b (i + 2) = Done c3 /\ char_at b (i + 3) = Done c4.
Proof.
  intros -> ->. repeat split.
  - apply (char_at_mid pre c1 (c2 :: c3 :: c4 :: r)); [done|done].
  - apply (char_at_mid (pre ++ [c1]) c2 (c3 :: c4 :: r)); [lists|zl].
  - apply (char_at_mid (pre ++ [c1; c2]) c3 (c4 :: r)); [lists|zl].
  - apply (char_at_mid (pre ++ [c1; c2; c3]) c4 r); [lists|zl].
Qed.

Lemma base64_length l : l <> [] -> 4 <= zlen (base64 l).
Proof. destruct l as [|a [|b [|c l]]]; intros; try done; cbn [base64]; zl. Qed.

(** The groups before the last one. *)
Lemma groups_eq size fuel : forall l pre b len i out,
  b = pre ++ base64 l -> i = zlen pre -> len = zlen b -> l <> [] -> bytes l -> len + 4 < 2 ^ 32 ->
  zlen out + zlen l <= size -> zlen (base64 l) <= 4 * Z.of_nat fuel ->
  exists l1 l2, l = l1 ++ l2 /\ base64 l = base64 l1 ++ base64 l2 /\ (1 <= length l2 <= 3)%nat /\
    groups_loop fuel size b len i out = Done (i + zlen (base64 l1), out ++ l1).
Proof.
  induction fuel as [|fuel IH]; intros l pre b len i out Eb Ei El Hne Hb Hlen Hs Hf.
  { pose proof (base64_length l Hne). lia. }
  assert (0 <= zlen pre) by apply zlen_nonneg. cbn [groups_loop].
  assert (forall x, 4 <= x -> zlen (base64 l) = x -> u32 (i + 4) = i + 4 /\ len = i + x) as U.
  { intros x Hx E. assert (len = i + x) by (subst b; subst len; rewrite zlen_app, E; lia).
    split; [|done]. apply uwrap_id. split; lia. }
  destruct l as [|a [|b1 [|c [|d l]]]]; [done|..].
  1-3: eexists [], _; (split; [reflexivity|]); (split; [reflexivity|]); (split; [simpl; lia|]);
       destruct (U 4 ltac:(lia) eq_refl) as [-> ->]; ltest; change (zlen (base64 [])) with 0; rewrite Z.add_0_r, app_nil_r; reflexivity.
  set (r := d :: l) in *. assert (r <> []) as Hr by done. pose proof (base64_length r Hr) as Lr.
  rewrite !Forall_cons_iff in Hb. destruct Hb as (Ha & Hb1 & Hc & Hbr). fold r in Hbr. clearbody r. clear l d.
  destruct (pieces a b1 c Ha Hb1 Hc) as (P1 & P2 & P3 & P4 & P5 & P6).
  cbn [base64] in *.
  destruct (U (4 + zlen (base64 r)) ltac:(lia) ltac:(rewrite zlen_app; reflexivity)) as [-> El2]. ltest.
  destruct (char4 pre (enc6 (a / 4)) (enc6 (a mod 4 * 16 + b1 / 16)) (enc6 (b1 mod 16 * 4 + c / 64)) (enc6 (c mod 64))
    (base64 r) b i Eb Ei) as (-> & -> & -> & ->).
  rewrite !val_enc by lia.
  destruct (first_group a (b1 / 16) Ha P3) as (v & -> & Ev).
  pose proof (zlen_nonneg out). pose proof (zlen_nonneg r). rewrite !zlen_cons in Hs.
  rewrite (put_ok size out v a) by (done || lia).
  rewrite (put_ok size _ _ b1) by (rewrite ?zlen_app, ?zlen_cons, ?zlen_nil; first [lia | by apply second_group]).
  rewrite (put_ok size _ _ c) by (rewrite ?zlen_app, ?zlen_cons, ?zlen_nil; first [lia | by apply third_group]).
  set (g := [enc6 (a / 4); enc6 (a mod 4 * 16 + b1 / 16); enc6 (b1 mod 16 * 4 + c / 64); enc6 (c mod 64)]) in *.
  destruct (IH r (pre ++ g) b len (i + 4) (((out ++ [a]) ++ [b1]) ++ [c])) as (l1 & l2 & -> & E2 & L2 & ->);
    [subst b; by rewrite app_assoc|subst i; rewrite zlen_app; done|done|done|done|done
    |rewrite !zlen_app; change (zlen [a]) with 1; change (zlen [b1]) with 1; change (zlen [c]) with 1; lia
    |rewrite zlen_app in Hf; change (zlen g) with 4 in Hf; lia|].
  exists (a :: b1 :: c :: l1), l2. split; [done|]. split; [cbn [base64]; fold g; by rewrite E2, app_assoc|].
  split; [done|]. cbn [base64]. fold g. rewrite zlen_app. change (zlen g) with 4.
  rewrite <- !app_assoc. cbn [app]. do 2 f_equal. lia.
Qed.

Lemma base64_bound l : 3 * zlen (base64 l) <= 4 * zlen l + 8 /\ 3 * zlen (base64 l) >= 4 * zlen l.
Proof.
  remember (length l) as n eqn:En. revert l En. induction n as [n IH] using lt_wf_ind. intros l ->.
  destruct l as [|a [|b [|c l]]]; cbn [base64]; rewrite ?zlen_app, ?zlen_cons; try (change (zlen (@nil Z)) with 0; change (zlen (@nil ascii)) with 0; lia).
  destruct (IH (length l) ltac:(simpl; lia) l eq_refl). change (zlen (@nil ascii)) with 0. lia.
Qed.

(** The last group; what is missing is padding, or behind the end. *)
Lemma last_group_eq size out l2 : forall pre b i len,
  b = pre ++ base64 l2 -> i = zlen pre -> len = zlen b -> (1 <= length l2 <= 3)%nat -> bytes l2 ->
  len + 4 < 2 ^ 32 -> zlen out + zlen l2 < size ->
  (if i <=? len then
     let value (j : Z) := if u32 (i + j) <? len then let! c := char_at b (i + j) in Done (base64_val c) else Done (-1) in
     let! c1 := char_at b i in
     let x1 := base64_val c1 in
     let! x2 := value 1 in
     let! x3 := value 2 in
     let! x4 := value 3 in
     if negb (x2 =? -1) then
       let! v := first_byte64 x1 x2 in
       let! out := put size out v in
       if negb (x3 =? -1) then
         let! out := put size out (second_byte64 x2 x3) in
         if negb (x4 =? -1) then put size out (third_byte64 x3 x4) else Done out
       else Done out
     else Done out
   else Done out) = Done (out ++ l2).
Proof.
  intros pre b i len Eb Ei El Hl Hb Hlen Hs. pose proof (zlen_nonneg pre). pose proof (zlen_nonneg out).
  assert (exists c1 c2 c3 c4, base64 l2 = [c1; c2; c3; c4]) as (c1 & c2 & c3 & c4 & E).
  { destruct l2 as [|? [|? [|? [|]]]]; simpl in Hl; try lia; cbn [base64 app]; by do 4 eexists. }
  rewrite E in Eb. destruct (char4 pre c1 c2 c3 c4 [] b i) as (E1 & E2 & E3 & E4); [by rewrite app_nil_r|done|].
  assert (len = i + 4) as El4 by (subst len b i; zl). ltest.
  assert (forall j, 0 <= j < 4 -> u32 (i + j) = i + j) as U by (intros j Hj; apply uwrap_id; split; lia).
  cbn zeta. rewrite !U by lia. ltests. rewrite E1, E2, E3, E4. clear E1 E2 E3 E4 U.
  destruct l2 as [|a [|b' [|c [|]]]]; simpl in Hl; try lia; cbn [base64 app] in E; injection E as <- <- <- <-;
    rewrite !Forall_cons_iff in Hb; cbn [length] in *; rewrite ?zlen_cons in Hs; change (zlen (@nil Z)) with 0 in Hs.
  - destruct Hb as [Ha _]. destruct (pieces a 0 0 Ha ltac:(done) ltac:(done)) as (P1 & P2 & _).
    rewrite !val_enc by lia. change (base64_val "=") with (-1). ltests.
    destruct (first_group a 0 Ha ltac:(lia)) as (v & Ev & Eu). rewrite Z.add_0_r in Ev. rewrite Ev.
    rewrite (put_ok size out v a) by (done || lia). done.
  - destruct Hb as (Ha & Hb & _). destruct (pieces a b' 0 Ha Hb ltac:(done)) as (P1 & P2 & P3 & P4 & _).
    rewrite !val_enc by lia. change (base64_val "=") with (-1). ltests.
    destruct (first_group a (b' / 16) Ha P3) as (v & -> & Ev). rewrite (put_ok size out v a) by (done || lia).
    pose proof (second_group (a mod 4) b' 0 Hb P2 ltac:(lia)) as Es. rewrite Z.add_0_r in Es.
    rewrite (put_ok size (out ++ [a]) _ b' ltac:(zl) Es). by rewrite <- app_assoc.
  - destruct Hb as (Ha & Hb & Hc & _). destruct (pieces a b' c Ha Hb Hc) as (P1 & P2 & P3 & P4 & P5 & P6).
    rewrite !val_enc by lia. ltests.
    destruct (first_group a (b' / 16) Ha P3) as (v & -> & Ev). rewrite (put_ok size out v a) by (done || lia).
    rewrite (put_ok size (out ++ [a]) _ b' ltac:(zl) (second_group (a mod 4) b' (c / 64) Hb P2 P5)).
    rewrite (put_ok size ((out ++ [a]) ++ [b']) _ c ltac:(zl) (third_group (b' mod 16) c Hc P4)). by rewrite <- !app_assoc.
Qed.

Lemma base64_decode_eq l :
  bytes l -> zlen (base64 l) < 2 ^ 30 -> base64_decode_string (base64 l) (zlen (base64 l)) = Done l.
Proof.
  intros Hb Hl. unfold base64_decode_string. pose proof (zlen_nonneg (base64 l)) as L0.
  destruct (base64_bound l) as [B1 B2]. set (n := zlen (base64 l)) in *.
  assert (u32 (u32 (n * 3) / 4 + 8) = n * 3 / 4 + 8) as ->.
  { rewrite (uwrap_id 32 (n * 3)) by (split; lia). apply uwrap_id.
    pose proof (Z.div_pos (n * 3) 4 ltac:(lia) ltac:(lia)). pose proof (Z.div_le_upper_bound (n * 3) 4 n ltac:(lia) ltac:(lia)).
    split; lia. }
  pose proof (Z.div_mod (n * 3) 4 ltac:(lia)) as D. pose proof (Z.mod_pos_bound (n * 3) 4 ltac:(lia)) as M.
  destruct (decide (l = [])) as [->|Hne]; [reflexivity|].
  destruct (groups_eq (n * 3 / 4 + 8) (length (base64 l)) l [] (base64 l) n 0 []) as (l1 & l2 & E & E2 & L2 & Eg);
    try done; try lia; [change (zlen (@nil Z)) with 0; lia|unfold n, zlen; lia|].
  rewrite Eg. cbn [app] in *.
  rewrite E in Hb. apply Forall_app in Hb as [_ Hb2].
  assert (zlen (l1 ++ l2) = zlen l1 + zlen l2) as La by zl. rewrite <- E in La. pose proof (zlen_nonneg l1).
  rewrite (last_group_eq _ l1 l2 (base64 l1)) by (done || lia). rewrite <- E.
  rewrite (put_ok _ _ 0 0) by (done || lia). done.
Qed.
