(* ===== verification/DigestSpec.v ===== *)
(** Digest authentication of SIP: the response of RFC 2617 over MD5, and the response of AKA
    over the functions of 3GPP, are what the code computes. *)

From Stdlib Require Import Ascii ZArith Lia.
From stdpp Require Import base list option numbers strings.
From S2P Require Import Prelude.
From S2P Require Import CMem.
From S2P Require Import SipTypes.
From S2P Require Import SipMessage.
From S2P Require Import SipUri.
From S2P Require Import SipUriSpec.
From S2P Require Import SipUriParse.
From S2P Require Import SipUriRoundTrip.
From S2P Require Import SipHeaders.
From S2P Require Import Md5.
From S2P Require Import Md5Spec.
From S2P Require Import Rijndael.
From S2P Require Import AesSpec.
From S2P Require Import AesRefines.
From S2P Require Import Digest.
From S2P Require Import Base64Spec.

Local Open Scope Z_scope.
Open Scope c_scope.

(** ** The specification *)

(** LHEX of RFC 2617, section 3.1.3, and a number in [k] such digits. *)
Definition LHEX (d : Z) : ascii := nth (Z.to_nat d) (txt "0123456789abcdef") NUL.
Fixpoint hex_numeral (k : nat) (n : Z) : text :=
  match k with O => [] | S k => hex_numeral k (n / 16) ++ [LHEX (n mod 16)] end.
(** H of RFC 2617: the digest of a string, in hexadecimal digits. *)
Definition H_spec (s : text) : text := flat_map (hex_numeral 2) (md5 (codes s)).
(** Two strings with a colon between them. *)
Definition with_colon (a b : text) : text := a ++ colon ++ b.

Definition ha1_spec (user realm pass : text) : text := H_spec (with_colon user (with_colon realm pass)).
(** The nonce count and the nonce of the client, when a quality of protection was offered. *)
Definition response_spec (ha1 nonce : text) (qop : option (text * text)) (method uri : text) : text :=
  let ha2 := H_spec (with_colon method uri) in
  H_spec (with_colon ha1 (with_colon nonce
    match qop with
    | None => ha2
    | Some (nc, cnonce) => with_colon nc (with_colon cnonce (with_colon (txt "auth") ha2))
    end)).

(** ** The code *)

Definition small (s : text) : Prop := zlen s <= 2 ^ 32 - 64.

Lemma codes_bytes s : bytes (codes s).
Proof.
  induction s as [|c s IH]; [constructor|]. constructor; [|done]. unfold code. pose proof (nat_ascii_bounded c).
  split; [lia|]. change (2 ^ 8) with 256. lia.
Qed.
Lemma codes_app a b : codes (a ++ b) = codes a ++ codes b.
Proof. apply map_app. Qed.
Lemma codes_zlen s : zlen (codes s) = zlen s.
Proof. unfold zlen, codes. by rewrite length_map. Qed.
#[local] Hint Rewrite codes_zlen : lens.

Lemma rest_bound m : 0 <= zlen (rest m) < 64.
Proof. rewrite rest_length. apply Z.mod_pos_bound. lia. Qed.

Lemma update_str_ok ctx m s : holds ctx m -> small s ->
  exists ctx', update_str ctx s = Done ctx' /\ holds ctx' (m ++ codes s).
Proof.
  intros Hh Hs. unfold update_str, c_mem, small in *. pose proof (rest_bound m). pose proof (zlen_nonneg s).
  rewrite uwrap_id by (split; lia). rewrite <- (codes_zlen s).
  apply (update_eq ctx m (codes s) [0] Hh (codes_bytes s)). rewrite codes_zlen. lia.
Qed.

(** The first 32 characters of a string in memory. *)
Lemma update_hex_ok ctx m s : holds ctx m -> 32 <= zlen s ->
  exists ctx', osip_MD5Update ctx (c_mem s) HASHHEXLEN = Done ctx' /\ holds ctx' (m ++ codes (take 32 s)).
Proof.
  intros Hh Hs. unfold c_mem.
  assert (codes s ++ [0] = codes (take 32 s) ++ codes (drop 32 s) ++ [0]) as ->
    by (by rewrite app_assoc, <- codes_app, take_drop).
  assert (zlen (take 32 s) = 32) as L by (apply (zlen_take 32 s); lia).
  replace HASHHEXLEN with (zlen (codes (take 32 s))) by (by rewrite codes_zlen).
  pose proof (rest_bound m). apply update_eq; [done|apply codes_bytes|rewrite codes_zlen; lia].
Qed.

Lemma hex_length l : zlen (CvtHex l) = 2 * zlen l.
Proof.
  induction l as [|x l IH]; [done|]. cbn [CvtHex flat_map]. fold (CvtHex l). zl.
Qed.
Lemma bytes_of_length n x : zlen (bytes_of n x) = Z.of_nat n.
Proof. revert x. induction n as [|n IH]; intros x; [done|]. cbn [bytes_of]. rewrite zlen_cons, IH. lia. Qed.
Lemma hex_md5 m : zlen (CvtHex (md5 m)) = 32.
Proof. rewrite hex_length. unfold md5. rewrite !zlen_app, !bytes_of_length. lia. Qed.

Lemma bytes_of_are_bytes n x : bytes (bytes_of n x).
Proof. revert x. induction n as [|n IH]; intros x; constructor; [apply Z.mod_pos_bound; lia|apply IH]. Qed.
Lemma CvtHex_numeral l : bytes l -> CvtHex l = flat_map (hex_numeral 2) l.
Proof.
  induction 1 as [|b l Hb _ IH]; [done|]. unfold CvtHex in *. cbn [flat_map]. rewrite IH. f_equal.
  apply (byte_case (fun b => bool_decide
    ([hex_nibble (Z.land (Z.shiftr b 4) 0xf); hex_nibble (Z.land b 0xf)] = hex_numeral 2 b))) in Hb;
    [by apply bool_decide_eq_true in Hb|by vm_compute].
Qed.
Lemma H_eq s : CvtHex (md5 (codes s)) = H_spec s.
Proof. apply CvtHex_numeral. unfold md5. repeat apply Forall_app_2; apply bytes_of_are_bytes. Qed.
Lemma H_length s : zlen (H_spec s) = 32.
Proof. by rewrite <- H_eq, hex_md5. Qed.

Section digest.
Variable ctx0 : osip_MD5_CTX.
Hypothesis Hctx : zlen (buffer ctx0) = 64.

(** One more string. *)
Ltac feed :=
  match goal with
  | Hold : holds ?c ?m |- context [update_str ?c ?s] =>
      let c' := fresh "c" in
      destruct (update_str_ok c m s Hold) as (c' & -> & ?); [assumption || done|]; clear Hold
  | Hold : holds ?c ?m |- context [osip_MD5Update ?c (c_mem ?s) HASHHEXLEN] =>
      let c' := fresh "c" in
      destruct (update_hex_ok c m s Hold) as (c' & -> & ?); [rewrite ?hex_md5; (done || lia)|]; clear Hold
  | Hold : holds ?c ?m |- context [osip_MD5Final ?c] => rewrite (final_eq c m Hold); clear Hold
  | |- context [osip_MD5Init ?c] =>
      pose proof (holds_init c ltac:(assumption || reflexivity)); generalize dependent (osip_MD5Init c); intros
  end.

Lemma HA1_eq user realm pass nonce cnonce :
  small user -> small realm -> small pass ->
  DigestCalcHA1 ctx0 (Some (txt "MD5")) user realm pass nonce cnonce = Done (ha1_spec user realm pass).
Proof.
  intros Hu Hr Hp. unfold DigestCalcHA1. assert (small colon) as Hc by done. repeat feed.
  change (strcaseeq (str (txt "MD5")) "md5-sess") with false. cbn iota. unfold ha1_spec. rewrite <- H_eq.
  unfold with_colon. rewrite !codes_app. by rewrite <- !app_assoc.
Qed.

Lemma response_eq h nonce qop method uri HEntity :
  32 <= zlen h -> small nonce -> small method -> small uri ->
  match qop with Some (nc, cnonce) => small nc /\ small cnonce | None => True end ->
  DigestCalcResponse ctx0 (c_mem h) nonce (fst <$> qop) (snd <$> qop) ((fun _ => txt "auth") <$> qop) 0 method uri HEntity =
    Done (response_spec (take 32 h) nonce qop method uri).
Proof.
  intros Hh Hn Hm Hu Hq. unfold DigestCalcResponse. assert (small colon) as Hc by done.
  assert (small (txt "auth")) as Hau by done.
  assert (forall m, take 32 (CvtHex (md5 m)) = CvtHex (md5 m)) as T.
  { intros m. apply take_ge. pose proof (hex_md5 m) as L. unfold zlen in L. lia. }
  unfold response_spec. rewrite <- !H_eq. unfold with_colon.
  destruct qop as [[nc cnonce]|]; cbn [fmap option_fmap option_map fst snd].
  - change (qop_of (Some (txt "auth"))) with auth_withauth. change (0 =? 0) with true. cbn [lift].
    destruct Hq as [Hnc Hcn]. repeat feed. rewrite T, !codes_app. by rewrite <- !app_assoc.
  - change (qop_of None) with auth_withoutqop. cbn iota. repeat feed.
    rewrite T, !codes_app. by rewrite <- !app_assoc.
Qed.
End digest.

(** ** The header *)

(** What stands between quotes. *)
Definition unquoted (s : text) : text :=
  match s with c :: r => if Ascii.eqb c quote then removelast r else s | [] => [] end.

Lemma without_quote_eq s : s <> [quote] -> osip_strdup_without_quote s = Done (unquoted s).
Proof.
  intros H. destruct s as [|c r]; [done|]. cbn. destruct (Ascii.eqb_spec c quote) as [->|]; [|done].
  by destruct r.
Qed.

(** The digest that is used: the one that is configured, of at least 32 characters, or the
    one of user, realm and password. *)
Definition ha1_of (ha1 : option text) (user realm pass : text) : text :=
  match ha1 with Some (c :: r) => take 32 (c :: r) | _ => ha1_spec user realm pass end.
Definition ha1_ok (ha1 : option text) : Prop :=
  match ha1 with Some (c :: r) => 32 <= zlen (c :: r) | _ => True end.

Lemma digest_response_eq g ha1 user realm pass nonce qop method uri :
  zlen (buffer (g_md5 g)) = 64 -> ha1_ok ha1 ->
  small user -> small realm -> small pass -> small nonce -> small method -> small uri ->
  match qop with Some (nc, cnonce) => small nc /\ small cnonce | None => True end ->
  digest_response g MD5 ha1 user realm pass nonce (fst <$> qop) (snd <$> qop) ((fun _ => txt "auth") <$> qop) method uri =
    Done (response_spec (ha1_of ha1 user realm pass) nonce qop method uri).
Proof.
  intros Hg Ha Hu Hr Hp Hn Hm Huri Hq. unfold digest_response, ha1_mem, ha1_of.
  assert (forall m, take 32 (CvtHex (md5 m)) = CvtHex (md5 m)) as T.
  { intros m. apply take_ge. pose proof (hex_md5 m) as L. unfold zlen in L. lia. }
  destruct ha1 as [[|c r]|]; [|by apply response_eq|];
    rewrite HA1_eq by done; (rewrite response_eq; [|done|unfold ha1_spec; rewrite H_length; lia|done..]);
    unfold ha1_spec; rewrite <- H_eq; by rewrite T.
Qed.

(** The nonce count: as long as it has one digit it is the same in hexadecimal digits. *)
Lemma nonce_count_hex n : 0 <= n < 10 -> nonce_count_text n = hex_numeral 8 n.
Proof.
  intros Hn.
  apply (forall_range (fun n => bool_decide (nonce_count_text n = hex_numeral 8 n)) 0 10) in Hn; [|by vm_compute].
  by apply bool_decide_eq_true in Hn.
Qed.
Lemma hex_numeral_small n : small (hex_numeral 8 n).
Proof. done. Qed.

(** C10: the credentials that libeXosip2 answers a challenge with, for the scheme Digest and the
    algorithm MD5 (or none): realm, nonce and opaque are copied, user name and URI are put
    in quotes, and the response is the one of RFC 2617, over the realm and the nonce
    without their quotes, and with the nonce count in eight hexadecimal digits and the nonce
    of the client when the challenge offers a quality of protection of at least four characters,
    which is then taken for [auth] whatever it is.  The count is below ten: from ten on the code
    writes decimal digits, and the response is not that of RFC 2617.  H(A1) is that of user,
    realm and password, or, when a digest is configured, the first 32 characters of it, which
    it is assumed to have. *)
Theorem sip_digest_authorization g wa rquri user passwd ha1 method cnonce n scheme nonce realm :
  zlen (buffer (g_md5 g)) = 64 -> ha1_ok ha1 ->
  w_auth_type wa = Some scheme -> strcaseeq "Digest" scheme = true -> algorithm_of (w_algorithm wa) = Some MD5 ->
  w_nonce wa = Some nonce -> default (quoted_text []) (w_realm wa) = realm ->
  txt nonce <> [quote] -> txt realm <> [quote] ->
  small user -> small (txt realm) -> small passwd -> small (txt nonce) -> small method -> small rquri -> small cnonce ->
  0 <= n < 10 ->
  let qop := if qop_given (qop_options wa) then Some (hex_numeral 8 n, cnonce) else None in
  let response := response_spec (ha1_of ha1 user (unquoted (txt realm)) passwd) (unquoted (txt nonce)) qop method rquri in
  eXosip_create_proxy_authorization_header g (Some wa) rquri user (Some passwd) ha1 method (Some cnonce) n =
    Done (Ok (mkAuth (Some "Digest"%string) (Some (quoted_text user)) (Some realm) (Some nonce) (Some (quoted_text rquri))
                (Some (quoted_text response)) None (Some "MD5"%string)
                ((fun q => quoted_text (snd q)) <$> qop) (w_opaque wa) ((fun _ => "auth"%string) <$> qop)
                ((fun q => str (fst q)) <$> qop) None None None None None)).
Proof.
  intros Hg Ha Es Hs Eal En Er Hn Hr S1 S2 S3 S4 S5 S6 S7 Hcount qop response.
  assert (forall s, small s -> small (unquoted s)) as Su.
  { intros s Hs'. destruct s as [|c r]; [done|]. cbn. destruct (Ascii.eqb c quote); [|done]. unfold small in *.
    revert Hs'. rewrite zlen_cons. unfold zlen. rewrite removelast_firstn_len, length_firstn. lia. }
  unfold eXosip_create_proxy_authorization_header. rewrite Es, En, Hs, Eal. cbn [negb].
  assert (match w_realm wa with Some r => r | None => quoted_text [] end = realm) as -> by (subst realm; by destruct (w_realm wa)).
  rewrite !without_quote_eq by done.
  assert ((if qop_given (qop_options wa) then Done (Ok (Some (nonce_count_text n, cnonce))) else Done (Ok None)) =
          Done (Ok (A := option (text * text)) qop)) as ->
    by (subst qop; rewrite nonce_count_hex by done; by destruct (qop_given _)).
  assert (match qop with Some _ => Some (txt "auth") | None => None end = (fun _ => txt "auth") <$> qop) as ->
    by (by destruct qop).
  rewrite digest_response_eq; try done; try by apply Su.
  2:{ subst qop. destruct (qop_given _); [|done]. split; [apply hex_numeral_small|done]. }
  fold response. assert (zlen response = 32) as Lr by apply H_length.
  rewrite take_ge by (unfold zlen in Lr; rewrite !length_cons, length_app; simpl; lia).
  by destruct qop.
Qed.

#[local] Opaque aes128 RijndaelEncrypt RijndaelKeySchedule f1 f2345.

(** ** AKA *)

Definition hex (l : list Z) : text := CvtHex l.

Lemma hex_length_nat l : length (CvtHex l) = (2 * length l)%nat.
Proof. pose proof (hex_length l) as H. unfold zlen in H. lia. Qed.

Lemma byte_hex b : byte b ->
  [hex_nibble (Z.shiftr (Z.land b 0xF0) 4); hex_nibble (Z.land b 0x0F)] =
    [hex_nibble (Z.land (Z.shiftr b 4) 0xf); hex_nibble (Z.land b 0xf)] /\
  free NUL [hex_nibble (Z.land (Z.shiftr b 4) 0xf); hex_nibble (Z.land b 0xf)] = true.
Proof.
  intros Hb.
  assert (forallb (fun b => (Z.shiftr (Z.land b 0xF0) 4 =? Z.land (Z.shiftr b 4) 0xf) &&
    free NUL [hex_nibble (Z.land (Z.shiftr b 4) 0xf); hex_nibble (Z.land b 0xf)]) (map Z.of_nat (seq 0 256)) = true) as T
    by (vm_compute; reflexivity).
  pose proof (up_to 256 _ T b Hb) as E. apply andb_prop in E as [E%Z.eqb_eq F]. by rewrite E.
Qed.

Lemma hexa_hex l : bytes l -> hexa l = hex l /\ free NUL (hex l) = true.
Proof.
  induction 1 as [|b l Hb _ [IH1 IH2]]; [done|]. destruct (byte_hex b Hb) as [E F].
  unfold hex, hexa, CvtHex in *. cbn [flat_map]. rewrite E, IH1, free_app, F. by rewrite IH2.
Qed.

Lemma write_at i s a old b arr :
  arr = a ++ old ++ b -> i = zlen a -> length old = length s -> write_chars i s arr = a ++ s ++ b.
Proof.
  intros -> -> Hl. unfold write_chars, zlen. rewrite Nat2Z.id, take_app_length. do 2 f_equal.
  rewrite app_assoc, <- Hl, <- length_app. apply drop_app_length.
Qed.

Lemma c_string_at s r : free NUL s = true -> c_string (s ++ NUL :: r) = s.
Proof.
  induction s as [|c s IH]; [done|]. rewrite free_cons. intros [Hc Hs]%andb_prop. cbn [app c_string].
  rewrite Ascii.eqb_sym. destruct (Ascii.eqb NUL c); [done|]. by rewrite IH.
Qed.

Lemma cut_text (n : nat) (l : text) : (n <= length l)%nat -> exists a b, l = a ++ b /\ length a = n /\ length b = (length l - n)%nat.
Proof. intros H. exists (take n l), (drop n l). rewrite take_drop, length_take, length_drop. split; [done|lia]. Qed.

(** The array after the response, and the two keys of the second version, are written. *)
Lemma response_array arr res ik ck :
  length arr = 81%nat -> length res = 16%nat -> length ik = 32%nat -> length ck = 32%nat ->
  free NUL res = true -> free NUL ik = true -> free NUL ck = true ->
  let arr := write_chars 16 [NUL] (write_chars 0 res (write_chars 0 [NUL] arr)) in
  c_string arr = res /\ c_string (write_chars 48 ck (write_chars 16 ik (write_chars 80 [NUL] arr))) = res ++ ik ++ ck.
Proof.
  intros La Lr Li Lc Fr Fi Fc.
  destruct (cut_text 16 arr) as (p & s & -> & Lp & Ls); [lia|]. destruct (cut_text 32 s) as (q & s' & -> & Lq & Ls'); [lia|].
  destruct (cut_text 32 s') as (r & t & -> & Lr' & Lt); [lia|].
  destruct p as [|p0 p]; [done|]. destruct q as [|q0 q]; [done|]. destruct t as [|t0 [|]]; [simpl in *; lia| |simpl in *; lia].
  set (tail := (q0 :: q) ++ r ++ [t0]).
  rewrite (write_at 0 [NUL] [] [p0] (p ++ tail)) by (subst tail; done).
  rewrite (write_at 0 res [] (NUL :: p) tail) by (first [done | rewrite Lr; simpl in *; lia]). cbn [app].
  rewrite (write_at 16 [NUL] res [q0] (q ++ r ++ [t0])) by (subst tail; first [done | unfold zlen; lia]).
  split; [by apply c_string_at|].
  rewrite (write_at 80 [NUL] (res ++ NUL :: q ++ r) [t0] []);
    [|cbn [app]; by rewrite <- !app_assoc, <- app_comm_cons, <- app_assoc
     |unfold zlen; rewrite length_app, length_cons, length_app; simpl in *; lia|done].
  rewrite (write_at 16 ik res (NUL :: q) (r ++ [NUL]));
    [|rewrite <- !app_assoc; cbn [app]; by rewrite <- !app_assoc|unfold zlen; lia|simpl in *; lia].
  rewrite (write_at 48 ck (res ++ ik) r [NUL]);
    [|by rewrite <- !app_assoc|unfold zlen; rewrite length_app; lia|lia].
  rewrite <- app_assoc. rewrite !app_assoc. rewrite <- (app_assoc (res ++ ik) ck).
  rewrite <- !app_assoc, app_assoc, (app_assoc (res ++ ik)). rewrite c_string_at; [by rewrite <- app_assoc|].
  by rewrite !free_app, Fr, Fi, Fc.
Qed.

(** The key of the subscriber: the password, filled up with zeros. *)
Definition subscriber_key (pass : text) : list Z := codes pass ++ replicate (16 - length pass) 0.

Lemma key_block pass : zlen pass <= 16 -> block16 (subscriber_key pass).
Proof.
  unfold zlen, subscriber_key. intros H. split.
  - rewrite length_app, length_replicate. unfold codes. rewrite length_map. lia.
  - apply Forall_app_2; [apply codes_bytes|]. by apply Forall_replicate.
Qed.

(** C12: the response of AKA to a nonce that is the base 64 encoding of a challenge of 16 bytes,
    an authentication token of 16 bytes and more data: for a password of at most 16
    characters it is RES of TS 35.206 over AES in hexadecimal digits, and in the second
    version IK and CK behind it, whatever the memory held before; a longer password is
    copied over the end of the key.  The token is decoded and has no effect: whether the
    network knows the key is not verified. *)
Theorem sip_aka_response g rand autn data pass v :
  block16 rand -> block16 autn -> bytes data -> length (g_resp g) = 81%nat -> v = 1 \/ v = 2 ->
  zlen (base64 (rand ++ autn ++ data)) <= 2047 ->
  DigestCalcResponseAka g pass (base64 (rand ++ autn ++ data)) v =
    if 16 <? zlen pass then Undef
    else let key := subscriber_key pass in
         Done (hex (res key rand) ++ if v =? 2 then hex (ik key rand) ++ hex (ck key rand) else []).
Proof.
  intros Hr Ha Hd Lg Hv Hn. set (nonce := rand ++ autn ++ data).
  assert (bytes nonce) as Hb by (apply Forall_app_2; [apply Hr|apply Forall_app_2; [apply Ha|done]]).
  unfold DigestCalcResponseAka, aka_response.
  rewrite (take_ge (base64 nonce)) by (unfold zlen in Hn; unfold nonce, MAX_HEADER_LEN; lia).
  rewrite base64_decode_eq by (done || (unfold nonce; lia)).
  destruct Hr as [Lr Br]. assert (block16 rand) as Hr by done.
  assert (take 16 nonce = rand) as ->.
  { unfold nonce. rewrite <- Lr. apply take_app_length. }
  destruct (Z.ltb_spec (zlen nonce) (16 + 16)) as [L|_].
  { exfalso. unfold nonce, zlen in L. destruct Ha as [La _]. rewrite !length_app in L. lia. }
  unfold aka_key, KLEN. destruct (Z.ltb_spec 16 (zlen pass)) as [|Lp]; [done|].
  replace (Z.to_nat (16 - zlen pass)) with (16 - length pass)%nat by (unfold zlen; lia). fold (subscriber_key pass).
  set (key := subscriber_key pass). assert (block16 key) as Hk by by apply key_block.
  assert (length (replicate 6 0) = 6%nat /\ bytes (replicate 6 0)) as Z6 by (split; [done|by apply Forall_replicate]).
  assert (length (replicate 2 0) = 2%nat /\ bytes (replicate 2 0)) as Z2 by (split; [done|by apply Forall_replicate]).
  rewrite (proj1 (f2345_eq key rand _ _ Hk Hr Z6 Z2)). cbn [o_res o_ck o_ik].
  destruct (keys_eq key rand Hk Hr) as ([Ls Bs] & [Lc Bc] & [Li Bi]).
  generalize dependent (res key rand). generalize dependent (ck key rand). generalize dependent (ik key rand).
  intros i Li Bi c Lc Bc r Ls Bs. destruct (hexa_hex r Bs) as [-> F0]. destruct (hexa_hex c Bc) as [-> F4].
  destruct (hexa_hex i Bi) as [-> F8].
  destruct (response_array (g_resp g) (hex r) (hex i) (hex c)) as [R1 R2]; try done;
    [unfold hex; rewrite hex_length_nat; lia..|].
  destruct Hv as [-> | ->]; [change (1 =? 2) with false|change (2 =? 2) with true]; cbn iota; [rewrite R1, app_nil_r|rewrite R2]; done.
Qed.

(** ** At concrete credentials *)

(** The example of RFC 2617. *)
Definition example_challenge : osip_www_authenticate :=
  mkWww (Some "Digest"%string) (Some (quoted_text (txt "testrealm@host.com"))) None
    (Some (quoted_text (txt "dcd98b7102dd2f0e8b11d0f600bfb0c093")))
    (Some (quoted_text (txt "5ccc069c403ebaf9f0171e9517f40e41"))) None None (Some (quoted_text (txt "auth,auth-int"))).

Lemma sip_digest_authorization_witness :
  exists a, eXosip_create_proxy_authorization_header zero_garbage (Some example_challenge) (txt "/dir/index.html") (txt "Mufasa")
      (Some (txt "Circle Of Life")) None (txt "GET") (Some (txt "0a4f113b")) 1 = Done (Ok a) /\
    a_response a = Some (quoted_text (txt "6629fae49393a05397450978507c4ef1")) /\
    nonce_count a = Some "00000001"%string.
Proof.
  eexists. split; [|split].
  - apply (sip_digest_authorization zero_garbage example_challenge (txt "/dir/index.html") (txt "Mufasa")
      (txt "Circle Of Life") None (txt "GET") (txt "0a4f113b") 1 "Digest"
      (quoted_text (txt "dcd98b7102dd2f0e8b11d0f600bfb0c093")) (quoted_text (txt "testrealm@host.com")));
      first [reflexivity | exact I | lia | vm_compute; congruence].
  - vm_compute. reflexivity.
  - vm_compute. reflexivity.
Defined.

Lemma sip_aka_response_witness :
  let nonce := base64 (fips_block ++ fips_key ++ []) in
  let key := subscriber_key (txt "secret") in
  nonce = txt "MkP2qIhaMI0xMZii4DcHNCt+FRYortKmq/cViAnPTzw=" /\
  DigestCalcResponseAka zero_garbage (txt "secret") nonce 2 =
    Done (hex (res key fips_block) ++ hex (ik key fips_block) ++ hex (ck key fips_block)).
Proof.
  split; [vm_compute; reflexivity|].
  apply (sip_aka_response zero_garbage fips_block fips_key [] (txt "secret") 2);
    [split; [reflexivity|apply bytes_check; reflexivity]..|constructor|reflexivity|by right|vm_compute; congruence].
Defined.

(** The count of a nonce is written in decimal digits, while RFC 2617 wants hexadecimal ones:
    the tenth request and those behind it have the wrong one. *)
Lemma nonce_count_decimal : nonce_count_text 10 = txt "00000010" /\ nonce_count_text 15 = txt "00000015".
Proof. split; vm_compute; reflexivity. Qed.

(** A password of seventeen characters. *)
Lemma aka_long_password :
  DigestCalcResponseAka zero_garbage (txt "12345678901234567") (base64 (fips_block ++ fips_key)) 1 = Undef.
Proof. vm_compute. reflexivity. Qed.

(** The code of the token is not compared: a token of zeros gives the same response. *)
Lemma aka_token_ignored :
  DigestCalcResponseAka zero_garbage (txt "secret") (base64 (fips_block ++ replicate 16 0)) 1 =
  DigestCalcResponseAka zero_garbage (txt "secret") (base64 (fips_block ++ fips_key)) 1.
Proof. vm_compute. reflexivity. Qed.

(** A realm of one quote. *)
Lemma lone_quote_realm : osip_strdup_without_quote [quote] = Undef.
Proof. reflexivity. Qed.
