(* ===== verification/SipSpec.v ===== *)
(** The transactions of RFC 3261, section 17, as an abstract machine, and the invariant of
    the transactions of the library. *)

From stdpp Require Import base list option numbers strings gmap.
From S2P Require Import Prelude.
From S2P Require Import SipTypes.
From S2P Require Import SipMessage.
From S2P Require Import SipFsm.
From S2P Require Import SipStack.
From S2P Require Import SipOwnership.

Local Open Scope Z_scope.
Open Scope c_scope.

(** ** The machines of RFC 3261 (figures 5 to 8) *)

Inductive phase : Set := Start | Calling | Trying | Proceeding | Completed | Confirmed | Terminated.

#[export] Instance phase_eq_dec : EqDecision phase.
Proof. solve_decision. Defined.

(** The message of a transaction that is sent. *)
Inductive role : Set := Request | Response | Ack.

(** What a transaction makes happen: one of its messages is sent; a message is passed to the
    transaction user, who is told of a timeout or of an error of the transport; the
    transaction ends. *)
Inductive output : Set :=
| Sent (r : role)
| Pass (msg : option Z)
| TellTimeout
| TellError
| Ended.

(** [rfc_ok k a p e m outs p']: when nothing fails, a transaction of kind [k] in phase [p] does
    [outs] and goes to [p'] for the event [e], with the message [m]; [a] says whether its user
    has given it a response.  The 100 that answers an INVITE when the user takes more than
    200 ms is the user's: it is a response like others. *)
Inductive rfc_ok : osip_fsm_type_t -> bool -> phase -> type_t -> option Z -> list output -> phase -> Prop :=
(* INVITE client: figure 5 *)
| ict_start a m : rfc_ok ICT a Start SND_REQINVITE m [Sent Request] Calling
| ict_timer_a a m : rfc_ok ICT a Calling TIMEOUT_A m [Sent Request] Calling
| ict_timer_b a m : rfc_ok ICT a Calling TIMEOUT_B m [TellTimeout; Ended] Terminated
| ict_1xx a p m : p = Calling \/ p = Proceeding -> rfc_ok ICT a p RCV_STATUS_1XX m [Pass m] Proceeding
| ict_2xx a p m : p = Calling \/ p = Proceeding -> rfc_ok ICT a p RCV_STATUS_2XX m [Pass m; Ended] Terminated
| ict_300_699 a p m : p = Calling \/ p = Proceeding ->
    rfc_ok ICT a p RCV_STATUS_3456XX m [Sent Ack; Pass m] Completed
| ict_again a m : rfc_ok ICT a Completed RCV_STATUS_3456XX m [Sent Ack] Completed
| ict_timer_d a m : rfc_ok ICT a Completed TIMEOUT_D m [Ended] Terminated
(* other clients: figure 6 *)
| nict_start a m : rfc_ok NICT a Start SND_REQUEST m [Sent Request] Trying
| nict_timer_e a p m : p = Trying \/ p = Proceeding -> rfc_ok NICT a p TIMEOUT_E m [Sent Request] p
| nict_timer_f a p m : p = Trying \/ p = Proceeding ->
    rfc_ok NICT a p TIMEOUT_F m [TellTimeout; Ended] Terminated
| nict_1xx a p m : p = Trying \/ p = Proceeding -> rfc_ok NICT a p RCV_STATUS_1XX m [Pass m] Proceeding
| nict_200_699 a p e m : p = Trying \/ p = Proceeding -> e = RCV_STATUS_2XX \/ e = RCV_STATUS_3456XX ->
    rfc_ok NICT a p e m [Pass m] Completed
| nict_timer_k a m : rfc_ok NICT a Completed TIMEOUT_K m [Ended] Terminated
(* INVITE server: figure 7 *)
| ist_start a m : rfc_ok IST a Start RCV_REQINVITE m [Pass m] Proceeding
| ist_again p m : p = Proceeding \/ p = Completed -> rfc_ok IST true p RCV_REQINVITE m [Sent Response] p
| ist_again_early m : rfc_ok IST false Proceeding RCV_REQINVITE m [] Proceeding
| ist_1xx a m : rfc_ok IST a Proceeding SND_STATUS_1XX m [Sent Response] Proceeding
| ist_2xx a m : rfc_ok IST a Proceeding SND_STATUS_2XX m [Sent Response; Ended] Terminated
| ist_300_699 a m : rfc_ok IST a Proceeding SND_STATUS_3456XX m [Sent Response] Completed
| ist_timer_g a m : rfc_ok IST a Completed TIMEOUT_G m [Sent Response] Completed
| ist_timer_h a m : rfc_ok IST a Completed TIMEOUT_H m [TellTimeout; Ended] Terminated
| ist_ack a p m : p = Completed \/ p = Confirmed -> rfc_ok IST a p RCV_REQACK m [] Confirmed
| ist_timer_i a m : rfc_ok IST a Confirmed TIMEOUT_I m [Ended] Terminated
(* other servers: figure 8 *)
| nist_start a m : rfc_ok NIST a Start RCV_REQUEST m [Pass m] Trying
| nist_again a p m : p = Proceeding \/ p = Completed -> rfc_ok NIST a p RCV_REQUEST m [Sent Response] p
| nist_1xx a p m : p = Trying \/ p = Proceeding -> rfc_ok NIST a p SND_STATUS_1XX m [Sent Response] Proceeding
| nist_200_699 a p e m : p = Trying \/ p = Proceeding -> e = SND_STATUS_2XX \/ e = SND_STATUS_3456XX ->
    rfc_ok NIST a p e m [Sent Response] Completed
| nist_timer_j a m : rfc_ok NIST a Completed TIMEOUT_J m [Ended] Terminated.

(** The transport may fail where something is sent: what was to be passed to the transaction
    user is passed, the user is told, and the transaction ends there. *)
Definition is_pass (o : output) : bool := match o with Pass _ => true | _ => false end.

Inductive rfc (k : osip_fsm_type_t) (a : bool) (p : phase) (e : type_t) (m : option Z)
  : list output -> phase -> Prop :=
| rfc_done outs p' : rfc_ok k a p e m outs p' -> rfc k a p e m outs p'
| rfc_fails pre r post p' outs :
    rfc_ok k a p e m (pre ++ Sent r :: post) p' ->
    outs = pre ++ List.filter is_pass post ++ [TellError; Ended] -> rfc k a p e m outs Terminated.

(** Events that have no place in the figures are of no effect. *)
Definition rfc_ignores (k : osip_fsm_type_t) (a : bool) (p : phase) (e : type_t) : Prop :=
  forall m outs p', ~ rfc k a p e m outs p'.

(** ** The transactions of the library as such machines *)

Definition phase_of (s : state_t) : phase :=
  match s with
  | ICT_PRE_CALLING | IST_PRE_PROCEEDING | NICT_PRE_TRYING | NIST_PRE_TRYING => Start
  | ICT_CALLING => Calling
  | NICT_TRYING | NIST_TRYING => Trying
  | ICT_PROCEEDING | IST_PROCEEDING | NICT_PROCEEDING | NIST_PROCEEDING => Proceeding
  | ICT_COMPLETED | IST_COMPLETED | NICT_COMPLETED | NIST_COMPLETED => Completed
  | IST_CONFIRMED => Confirmed
  | ICT_TERMINATED | IST_TERMINATED | NICT_TERMINATED | NIST_TERMINATED => Terminated
  end.

(** The callbacks that pass a message to the transaction user, or tell of a timeout.  The
    others, for messages sent, sent again and received again, and for the ACK of an INVITE
    server transaction, are the library's own. *)
Definition output_of_callback (type : osip_message_callback_type) (m : option Z) : list output :=
  match type with
  | OSIP_ICT_STATUS_1XX_RECEIVED | OSIP_ICT_STATUS_2XX_RECEIVED | OSIP_ICT_STATUS_3XX_RECEIVED
  | OSIP_ICT_STATUS_4XX_RECEIVED | OSIP_ICT_STATUS_5XX_RECEIVED | OSIP_ICT_STATUS_6XX_RECEIVED
  | OSIP_IST_INVITE_RECEIVED
  | OSIP_NICT_STATUS_1XX_RECEIVED | OSIP_NICT_STATUS_2XX_RECEIVED | OSIP_NICT_STATUS_3XX_RECEIVED
  | OSIP_NICT_STATUS_4XX_RECEIVED | OSIP_NICT_STATUS_5XX_RECEIVED | OSIP_NICT_STATUS_6XX_RECEIVED
  | OSIP_NIST_REGISTER_RECEIVED | OSIP_NIST_BYE_RECEIVED | OSIP_NIST_OPTIONS_RECEIVED
  | OSIP_NIST_INFO_RECEIVED | OSIP_NIST_CANCEL_RECEIVED | OSIP_NIST_NOTIFY_RECEIVED
  | OSIP_NIST_SUBSCRIBE_RECEIVED | OSIP_NIST_UNKNOWN_REQUEST_RECEIVED => [Pass m]
  | OSIP_ICT_STATUS_TIMEOUT | OSIP_NICT_STATUS_TIMEOUT => [TellTimeout]
  | _ => []
  end.

(** A request is on its way when the result of [cb_send_message] is not negative; an ACK and
    a response only when it is 0. *)
Definition output_of_send (t : osip_transaction) (i r : Z) : list output :=
  if decide (orig_request t = Some i) then (if 0 <=? r then [Sent Request] else [])
  else if decide (last_response t = Some i) then (if r =? 0 then [Sent Response] else [])
  else if decide (t_ack t = Some i) then (if r =? 0 then [Sent Ack] else [])
  else [].

Definition output_of (t : osip_transaction) (a : action) : list output :=
  match a with
  | Send _ i _ _ r => output_of_send t i r
  | Inform type _ m => output_of_callback type m
  | Kill _ _ => [Ended]
  | TransportError _ _ _ => [TellError]
  end.

Definition outputs (t : osip_transaction) (out : list action) : list output :=
  flat_map (output_of t) out.

(** ** The invariant of a transaction *)

Definition some {A} (p : option A) : bool := negb (is_null p).

(** The context of its kind, a state of its kind, and the messages that go with it. *)
Definition shape (t : osip_transaction) : bool :=
  let orig := some (orig_request t) in
  let last := some (last_response t) in
  let ack := some (t_ack t) in
  match ctx_type t with
  | ICT => some (ict_context t) &&
      match t_state t with
      | ICT_PRE_CALLING => negb orig && negb last && negb ack
      | ICT_CALLING | ICT_PROCEEDING => orig && negb ack
      | ICT_COMPLETED => orig && last && ack
      | ICT_TERMINATED => true
      | _ => false
      end
  | IST => some (ist_context t) &&
      match t_state t with
      | IST_PRE_PROCEEDING => negb orig && negb last && negb ack
      | IST_PROCEEDING => orig
      | IST_COMPLETED | IST_CONFIRMED => orig && last
      | IST_TERMINATED => true
      | _ => false
      end
  | NICT => some (nict_context t) &&
      match t_state t with
      | NICT_PRE_TRYING => negb orig && negb last && negb ack
      | NICT_TRYING | NICT_PROCEEDING | NICT_COMPLETED => orig
      | NICT_TERMINATED => true
      | _ => false
      end
  | NIST => some (nist_context t) &&
      match t_state t with
      | NIST_PRE_TRYING => negb orig && negb last && negb ack
      | NIST_TRYING => orig
      | NIST_PROCEEDING | NIST_COMPLETED => orig && last
      | NIST_TERMINATED => true
      | _ => false
      end
  end.

(** The request of a client transaction names the transport in its first Via. *)
Definition names_transport (m : osip_message) : bool :=
  match via_protocol 0 m with Ok _ => true | Err _ => false end.

Definition is_client (k : osip_fsm_type_t) : bool := match k with ICT | NICT => true | _ => false end.

Definition transport_named (p : option Z) (w : SipWorld) : Prop :=
  forall i m, p = Some i -> msgs w !! i = Some m -> names_transport m = true.

(** A transaction and the messages it holds, with others that have the owners [rest]. *)
Record transaction_ok (t : osip_transaction) (rest : list (option Z)) (w : SipWorld) : Prop := {
  to_shape : shape t = true;
  to_heap : heap_ok (owners (held t ++ rest)) w;
  to_transport : is_client (ctx_type t) = true -> transport_named (orig_request t) w
}.

(** An event that is not yet the transaction's: it brings its message along. *)
Definition brings_transport (evt : osip_event) (w : SipWorld) : Prop :=
  (e_type evt = SND_REQINVITE \/ e_type evt = SND_REQUEST) -> transport_named (e_sip evt) w.

Record event_ok (evt : osip_event) (w : SipWorld) : Prop := {
  eo_message : EVT_IS_MSG (e_type evt) = some (e_sip evt);
  eo_transport : brings_transport evt w
}.

(** What a step does not touch. *)
Record same_transaction (t t' : osip_transaction) : Prop := {
  st_id : transactionid t' = transactionid t;
  st_type : ctx_type t' = ctx_type t;
  st_fifo : transactionff t' = transactionff t;
  st_via : topvia t' = topvia t;
  st_from : t_from t' = t_from t;
  st_to : t_to t' = t_to t;
  st_cseq : t_cseq t' = t_cseq t
}.

Lemma same_transaction_refl t : same_transaction t t.
Proof. by split. Qed.

(** Whether the user has given the transaction a response. *)
Definition answered (t : osip_transaction) : bool := some (last_response t).

(** The step of the machine, or one of the three ways in which the library leaves it: a
    response to an INVITE that cannot be acknowledged ends the transaction without a word;
    the response is not passed on when the transport fails for its ACK; and nobody is told
    that the ACK of a response has not come before timer H. *)
Inductive machine_step (t t' : osip_transaction) (evt : osip_event) (w : SipWorld) (out : list action)
  : Prop :=
| step_rfc :
    rfc (ctx_type t) (answered t) (phase_of (t_state t)) (e_type evt) (e_sip evt) (outputs t' out)
      (phase_of (t_state t')) -> machine_step t t' evt w out
| step_unacknowledged orig response i :
    ctx_type t = ICT -> e_type evt = RCV_STATUS_3456XX ->
    phase_of (t_state t) = Calling \/ phase_of (t_state t) = Proceeding ->
    deref (orig_request t) w = Done orig -> deref (e_sip evt) w = Done response ->
    ict_create_ack orig response = Err i ->
    outputs t' out = [Ended] -> phase_of (t_state t') = Terminated -> machine_step t t' evt w out
| step_not_passed :
    ctx_type t = ICT -> e_type evt = RCV_STATUS_3456XX ->
    phase_of (t_state t) = Calling \/ phase_of (t_state t) = Proceeding ->
    outputs t' out = [TellError; Ended] -> phase_of (t_state t') = Terminated ->
    machine_step t t' evt w out
| step_silent_timer_h :
    ctx_type t = IST -> e_type evt = TIMEOUT_H -> phase_of (t_state t) = Completed ->
    outputs t' out = [Ended] -> phase_of (t_state t') = Terminated -> machine_step t t' evt w out.

(** The transaction an action is of. *)
Definition about (id : Z) (a : action) : bool :=
  match a with
  | Send tr _ _ _ _ => bool_decide (tr = Some id)
  | Inform _ tr _ | Kill _ tr | TransportError _ tr _ => tr =? id
  end.

(** What a handler does: the invariant is kept, and the step is one of the machine. *)
Record stepped (rest : list (option Z)) (t : osip_transaction) (evt : osip_event) (w : SipWorld)
    (t' : osip_transaction) (w' : SipWorld) (out : list action) : Prop := {
  sp_ok : transaction_ok t' rest w';
  sp_same : same_transaction t t';
  sp_does : does w w' out;
  sp_about : Forall (fun a => about (transactionid t) a = true) out;
  sp_step : machine_step t t' evt w out
}.

Definition good_handler (k : osip_fsm_type_t) (s : state_t) (ty : type_t) (h : handler) : Prop :=
  forall rest t evt w,
    ctx_type t = k -> t_state t = s -> e_type evt = ty -> shape t = true ->
    heap_ok (owners (e_sip evt :: held t ++ rest)) w -> event_ok evt w ->
    (is_client k = true -> transport_named (orig_request t) w) ->
    returns (h t evt w) (fun '(t', w') => exists out, stepped rest t evt w t' w' out).
