(* ===== verification/SipRefine.v ===== *)
(** The handlers of the transactions do the steps of the machines of RFC 3261, and account
    for every message. *)

From stdpp Require Import base list option numbers strings gmap.
From S2P Require Import Prelude.
From S2P Require Import SipTypes.
From S2P Require Import SipMessage.
From S2P Require Import SipFsm.
From S2P Require Import SipStack.
From S2P Require Import SipOwnership.
From S2P Require Import SipSpec.

Local Open Scope Z_scope.
Open Scope c_scope.

Local Arguments record_action : simpl never.
Local Arguments cb_send_message : simpl never.
Local Arguments message_callback : simpl never.
Local Arguments osip_message_free : simpl never.
Local Arguments deref : simpl never.
Local Arguments allocate : simpl never.
Local Arguments timer_from_now : simpl never.
Local Arguments sent_reliably : simpl never.
Local Arguments owners : simpl never.
Local Arguments output_of_send : simpl never.
Local Arguments stop : simpl never.
Local Arguments output_of_callback : simpl never.

(** ** Counting pointers *)

Lemma owners_cons p l i : owners (p :: l) i = ((if decide (p = Some i) then 1 else 0) + owners l i)%nat.
Proof. done. Qed.
Lemma owners_nil i : owners [] i = 0%nat.
Proof. done. Qed.

(** Two counts of pointers, made of the same lists, are compared. *)
Ltac count :=
  unfold more, less, held in *; cbn [transactionff orig_request last_response t_ack app map] in *;
  rewrite ?owners_cons, ?owners_app, ?owners_nil in *; rewrite ?owners_cons, ?owners_nil in *;
  repeat (case_decide; simplify_eq/=); try lia.

Lemma transport_named_does f p w w' out :
  heap_ok f w -> (forall i, p = Some i -> (0 < f i)%nat) -> does w w' out ->
  transport_named p w -> transport_named p w'.
Proof.
  intros H Hp [_ _ _ S] Ht i m Hi Hm. apply (Ht i m Hi). apply S; [done|].
  apply H, (heap_ok_live _ _ _ H). auto.
Qed.

(** What a handler sends: the role of a message is found by its owner. *)
Lemma send_request t i r :
  orig_request t = Some i -> output_of_send t i r = if 0 <=? r then [Sent Request] else [].
Proof. intros E. unfold output_of_send. by rewrite decide_True. Qed.

Lemma send_response t i r :
  orig_request t <> Some i -> last_response t = Some i ->
  output_of_send t i r = if r =? 0 then [Sent Response] else [].
Proof. intros H E. unfold output_of_send. rewrite decide_False by done. by rewrite decide_True. Qed.

Lemma send_ack t i r :
  orig_request t <> Some i -> last_response t <> Some i -> t_ack t = Some i ->
  output_of_send t i r = if r =? 0 then [Sent Ack] else [].
Proof. intros H H' E. unfold output_of_send. rewrite decide_False by done. rewrite decide_False by done. by rewrite decide_True. Qed.

Lemma output_status_class s3 s4 s5 s6 m z o :
  output_of_callback s3 z = o -> output_of_callback s4 z = o -> output_of_callback s5 z = o ->
  output_of_callback s6 z = o -> output_of_callback (status_class s3 s4 s5 s6 m) z = o.
Proof. unfold status_class. by repeat case_match. Qed.

(** ** The steps of a proof about a handler *)

Lemma finish rest t evt w t' w' out :
  shape t' = true -> heap_ok (owners (held t' ++ rest)) w' ->
  (is_client (ctx_type t') = true -> transport_named (orig_request t') w') ->
  same_transaction t t' -> does w w' out ->
  Forall (fun a => about (transactionid t) a = true) out -> machine_step t t' evt w out ->
  returns (Done (t', w')) (fun '(t', w') => exists out, stepped rest t evt w t' w' out).
Proof. intros. exists out. split; [by split|done..]. Qed.

Ltac merge D D1 :=
  apply (does_trans _ _ _ _ _ D) in D1; clear D; rename D1 into D; cbn [app] in D.

(** The next primitive of the handler, in the heap [H] that [D] has led to. *)
Ltac prim H D :=
  let H1 := fresh in let D1 := fresh in let w1 := fresh "w" in let r := fresh "r" in
  match goal with
  | |- context [cb_send_message ?tr (Some ?i) ?h ?p ?w] =>
      destruct (send_ok tr i h p _ w H) as (r & w1 & -> & H1 & D1); [count|]
  | |- context [message_callback ?ty ?t ?p ?w] =>
      destruct (inform_ok ty t p _ w H) as (w1 & -> & H1 & D1); [intros ? ?; count|]
  | |- context [osip_message_free ?p ?w] =>
      destruct (free_ok p _ w H) as (w1 & -> & H1 & D1); [intros ? ?; count|]
  end; clear H; rename H1 into H; merge D D1.

(** The transport of the request, which is known to be named. *)
Lemma sent_reliably_ok n t i f w :
  heap_ok f w -> orig_request t = Some i -> (0 < f i)%nat -> transport_named (Some i) w ->
  exists b, sent_reliably n t w = Done (Ok b).
Proof.
  intros H Ho Hi Ht. destruct (deref_ok _ _ _ H Hi) as (m & E & Em & _).
  unfold sent_reliably. rewrite Ho, E. specialize (Ht i m eq_refl Em). unfold names_transport in Ht.
  unfold via_protocol in *. destruct (osip_message_get_via m) as [v|]; [|done].
  destruct (v_protocol v); [eauto|done].
Qed.

(** The transaction taken apart, and the facts of its shape. *)
Ltac begin t evt :=
  intros rest t evt w Hk Hs Hty Hsh H [Hm Hb] Htr;
  pose proof (does_nil w) as D; pose proof H as H0;
  destruct t as [id ff via from to cid cseq orig last ack st birth ct insk outsk k ict ist nict nist];
  destruct evt as [ty eid sip];
  unfold shape in Hsh; cbn in *; subst; cbn in *;
  repeat match goal with
  | H : _ && _ = true |- _ => apply andb_true_iff in H as []
  | H : negb (some ?x) = true |- _ => destruct x; [done|]; clear H
  | H : some ?x = true |- _ => destruct x; [|done]; clear H
  | H : true = some ?x |- _ => destruct x; [|done]; clear H
  | H : false = some ?x |- _ => destruct x; [done|]; clear H
  end; cbn.

(** The setters, applied. *)
Ltac flat :=
  cbv beta iota delta [set_transactionff set_orig_request set_last_response set_t_ack set_t_state
    set_completed_time set_ict_context set_ist_context set_nict_context set_nist_context terminated];
  cbn [transactionid transactionff topvia t_from t_to callid t_cseq orig_request last_response t_ack
    t_state birth_time completed_time in_socket out_socket ctx_type ict_context ist_context
    nict_context nist_context e_type e_transactionid e_sip lift].

(** The messages that are sent get their roles. *)
Ltac distinct H :=
  let E := fresh in intros E;
  match type of E with
  | Some ?x = Some _ =>
      let O := fresh in pose proof (heap_ok_once _ _ x H) as O; injection E as E; subst; count
  | _ => discriminate E
  end.
Ltac roles H :=
  unfold ict_status_received;
  repeat erewrite output_status_class by reflexivity;
  repeat match goal with Hout : forall z, output_of_callback ?type z = _ |- _ => rewrite Hout end;
  unfold output_of_callback;
  repeat first
    [ rewrite send_request by reflexivity
    | rewrite send_response by (first [reflexivity | cbn; distinct H])
    | rewrite send_ack by (first [reflexivity | cbn; distinct H]) ];
  repeat match goal with
  | |- context [0 <=? ?r] => destruct (Z.leb_spec 0 r); try lia
  | |- context [?r =? 0] => destruct (Z.eqb_spec r 0); try lia
  end; cbn [app].

(** The step of the machine: all is well, or what is sent fails. *)
Ltac machine :=
  first
    [ apply rfc_done; solve [econstructor; auto]
    | eapply (rfc_fails _ _ _ _ _ []); cbn [app]; [solve [econstructor; auto]|reflexivity] ].

(** The end: the transaction that is left, its heap, and the step. *)
Ltac leave_by H H0 D step :=
  unfold handle_transport_error, terminate, kill_transaction_callback, transport_error_callback;
  flat;
  repeat match goal with
  | |- context [record_action ?a ?w] =>
      first [ is_var w | fail 1 ];
      let w1 := fresh "w" in let E := fresh "E" in
      apply (heap_ok_record a) in H; apply (does_record a) in D; cbn [app] in D;
      remember (record_action a w) as w1 eqn:E; clear E
  end;
  eapply finish; flat;
  [ reflexivity
  | eapply heap_ok_eq; [exact H|intros ?; count]
  | first [ discriminate
          | intros _; eapply transport_named_does; [exact H0|intros ? ?; simplify_eq; count|exact D|]; auto ]
  | by split
  | exact D
  | repeat (apply List.Forall_cons;
      [cbn; first [apply Z.eqb_refl | by apply bool_decide_eq_true_2]|]); apply List.Forall_nil
  | step ].
Ltac leave H H0 D := leave_by H H0 D ltac:(apply step_rfc; cbn; roles H; machine).

(** [prim] for the question whether the request was sent over a reliable transport, which has
    an answer since the request names the transport. *)
Ltac named_before H0 D :=
  eapply transport_named_does; [exact H0|intros ? ?; simplify_eq; count|exact D|]; auto.
Ltac reliable H H0 D :=
  match goal with
  | |- context [sent_reliably ?n ?t ?w] =>
      let b := fresh "b" in
      destruct (sent_reliably_ok n t _ _ w H ltac:(reflexivity)) as (b & ->);
      [count|named_before H0 D|]; destruct b
  end; flat.

(** ** INVITE client transactions *)

Lemma ict_snd_invite_good : good_handler ICT ICT_PRE_CALLING SND_REQINVITE ict_snd_invite.
Proof.
  begin t evt. unfold ict_snd_invite, ict_send, with_ict. flat. prim H D.
  assert (transport_named (Some z) w) as Hz by (apply Hb; auto).
  destruct (Z.ltb_spec r 0); [leave H H0 D|].
  destruct (Z.eqb_spec r 0); [reliable H H0 D|]; flat; prim H D; leave H H0 D.
Qed.

Lemma osip_ict_timeout_a_good : good_handler ICT ICT_CALLING TIMEOUT_A osip_ict_timeout_a_event.
Proof.
  begin t evt. unfold osip_ict_timeout_a_event, ict_send, with_ict. flat. prim H D.
  destruct (Z.ltb_spec r 0); [leave H H0 D|].
  destruct (Z.eqb_spec r 0); [reliable H H0 D; prim H D|]; leave H H0 D.
Qed.

Lemma osip_ict_timeout_b_good : good_handler ICT ICT_CALLING TIMEOUT_B osip_ict_timeout_b_event.
Proof. begin t evt. unfold osip_ict_timeout_b_event, with_ict. flat. prim H D. leave H H0 D. Qed.

Lemma ict_rcv_1xx_good s : s = ICT_CALLING \/ s = ICT_PROCEEDING ->
  good_handler ICT s RCV_STATUS_1XX ict_rcv_1xx.
Proof.
  intros [-> | ->]; begin t evt; unfold ict_rcv_1xx, replace_last_response; flat;
    prim H D; flat; prim H D; leave H H0 D.
Qed.

Lemma ict_rcv_2xx_good s : s = ICT_CALLING \/ s = ICT_PROCEEDING ->
  good_handler ICT s RCV_STATUS_2XX ict_rcv_2xx.
Proof.
  intros [-> | ->]; begin t evt; unfold ict_rcv_2xx, replace_last_response; flat;
    prim H D; flat; prim H D; leave H H0 D.
Qed.

Lemma osip_ict_timeout_d_good : good_handler ICT ICT_COMPLETED TIMEOUT_D osip_ict_timeout_d_event.
Proof. begin t evt. unfold osip_ict_timeout_d_event, with_ict. flat. leave H H0 D. Qed.

Lemma ict_retransmit_ack_good : good_handler ICT ICT_COMPLETED RCV_STATUS_3456XX ict_retransmit_ack.
Proof.
  begin t evt. unfold ict_retransmit_ack, ict_send. flat. prim H D. prim H D. flat. prim H D.
  destruct (Z.eqb_spec r 0); [prim H D|]; leave H H0 D.
Qed.

(** *** Responses that are not a success *)

Ltac clones H :=
  repeat match type of H with
  | context [match ?c with Ok _ => _ | Err _ => _ end] =>
      let E := fresh "E" in destruct c eqn:E; [|discriminate H]
  end.

Lemma ict_create_ack_ok orig response ack :
  ict_create_ack orig response = Ok ack -> msg_ok ack = true /\ is_Some (req_uri ack).
Proof.
  unfold ict_create_ack. intros H. clones H. case_match; [done|]. clones H.
  simplify_eq. split; [|cbn; eauto].
  match goal with E : osip_list_clone (fun route => osip_from_clone (Some route)) _ = Ok ?l |- _ =>
    assert (forallb from_ok l = true) as Hr end.
  { eapply osip_list_clone_all; [|done]. intros f f'. apply from_clone_ok. }
  unfold msg_ok. cbn [MSG_IS_REQUEST status_code req_uri m_from m_to routes vias m_cseq sip_method forallb if_any].
  rewrite Hr. repeat match goal with
  | E : osip_uri_clone _ = Ok _ |- _ => rewrite (uri_clone_ok _ _ E); clear E
  | E : osip_from_clone _ = Ok _ |- _ => rewrite (from_clone_ok _ _ E); clear E
  | E : osip_via_clone _ = Ok _ |- _ => destruct (via_clone_ok _ _ E) as (-> & _); clear E
  end. done.
Qed.

Lemma deref_does f p w w1 out m :
  heap_ok f w -> (forall i, p = Some i -> (0 < f i)%nat) -> does w w1 out ->
  deref p w1 = Done m -> deref p w = Done m.
Proof.
  intros H Hp [_ _ _ S]. destruct p as [i|]; [|done]. unfold deref. cbn.
  destruct (msgs w1 !! i) as [m'|] eqn:E; [|done]. intros [= ->].
  rewrite (S i m); [done|done|]. apply H, (heap_ok_live _ _ _ H). auto.
Qed.

Lemma ict_default_destination_ok ack t c :
  msg_ok ack = true -> is_Some (req_uri ack) -> ict_context t = Some c ->
  exists c', ict_default_destination ack t = Done (set_ict_context (Some c') t).
Proof.
  intros Hm Hu Hc. unfold ict_default_destination, with_ict. rewrite Hc. cbn [lift].
  destruct (ict_destination c).
  - exists c. destruct t. cbn in *. by rewrite Hc.
  - destruct (returns_done _ _ (request_destination_ok ack Hm Hu)) as (d & -> & _). eauto.
Qed.

(** The step in which the ACK could not be made. *)
Ltac unacknowledged H H0 D :=
  eapply step_unacknowledged; [reflexivity|reflexivity|by auto
  | eapply deref_does; [exact H0|intros ? ?; simplify_eq; count|exact D|eassumption]
  | eapply deref_does; [exact H0|intros ? ?; simplify_eq; count|exact D|eassumption]
  | eassumption | reflexivity | reflexivity ].

(** The step in which the ACK could not be sent. *)
Ltac not_passed H :=
  apply step_not_passed; [reflexivity|reflexivity|by auto|cbn; roles H; reflexivity|reflexivity].

Lemma ict_rcv_3456xx_good s : s = ICT_CALLING \/ s = ICT_PROCEEDING ->
  good_handler ICT s RCV_STATUS_3456XX ict_rcv_3456xx.
Proof.
  intros [-> | ->]; begin t evt; unfold ict_rcv_3456xx, replace_last_response; flat; prim H D; flat;
    (rewrite decide_False by done); unfold ict_acknowledge; flat;
    (destruct (deref_ok _ w0 z0 H) as (response & E & _ & _); [count|]; rewrite E);
    (destruct (deref_ok _ w0 z H) as (orig & E' & _ & _); [count|]; rewrite E');
    pose proof D as D';
    (destruct (ict_create_ack orig response) as [ack|i] eqn:Ea;
    [destruct (ict_create_ack_ok _ _ _ Ea) as [Hack Huri];
     destruct (allocate_ok ack _ _ H Hack) as (a & w1 & -> & Ha & Hm & H1 & D1);
     merge D D1; clear H; rename H1 into H; flat;
     edestruct (ict_default_destination_ok ack) as [c' ->]; [done|done|reflexivity|];
     unfold ict_send; flat; prim H D; destruct (Z.eqb_spec r 0); cbn [negb];
     [prim H D; prim H D; unfold with_ict; flat|]|]).
  all: unfold handle_transport_error, terminate, kill_transaction_callback, transport_error_callback; flat.
  all: lazymatch goal with
       | _ : ict_create_ack _ _ = Err _ |- _ => leave_by H H0 D ltac:(unacknowledged H H0 D')
       | _ => first [leave H H0 D | leave_by H H0 D ltac:(not_passed H)]
       end.
Qed.

(** ** Other client transactions *)

Lemma nict_request_sent_ok m : msg_ok m = true ->
  exists type, nict_request_sent m = Done type /\ forall z, output_of_callback type z = [].
Proof.
  intros Hm. unfold nict_request_sent.
  match goal with |- context [by_method ?l ?d m] =>
    destruct (returns_done _ _ (by_method_ok l d m Hm)) as (type & -> & Hin) end.
  exists type. split; [done|]. intros z. cbn in Hin. rewrite !list_elem_of_In in Hin. cbn in Hin.
  by destruct_or! Hin; subst.
Qed.

Lemma nict_snd_request_good : good_handler NICT NICT_PRE_TRYING SND_REQUEST nict_snd_request.
Proof.
  begin t evt. unfold nict_snd_request, nict_send, with_nict. flat. prim H D.
  assert (transport_named (Some z) w) as Hz by (apply Hb; auto).
  destruct (Z.leb_spec 0 r); [|leave H H0 D].
  destruct (deref_ok _ w0 z H) as (m & -> & _ & Hm'); [count|].
  destruct (nict_request_sent_ok m Hm') as (type & -> & Hout). prim H D.
  reliable H H0 D; leave H H0 D.
Qed.

Lemma osip_nict_timeout_e_good s : s = NICT_TRYING \/ s = NICT_PROCEEDING ->
  good_handler NICT s TIMEOUT_E osip_nict_timeout_e_event.
Proof.
  intros [-> | ->]; begin t evt; unfold osip_nict_timeout_e_event, nict_send, with_nict; flat; prim H D;
    (destruct (Z.ltb_spec r 0); [leave H H0 D|]);
    (destruct (Z.eqb_spec r 0); [reliable H H0 D; prim H D|]); leave H H0 D.
Qed.

Lemma osip_nict_timeout_f_good s : s = NICT_TRYING \/ s = NICT_PROCEEDING ->
  good_handler NICT s TIMEOUT_F osip_nict_timeout_f_event.
Proof.
  intros [-> | ->]; begin t evt; unfold osip_nict_timeout_f_event, with_nict; flat; prim H D; leave H H0 D.
Qed.

Lemma osip_nict_timeout_k_good : good_handler NICT NICT_COMPLETED TIMEOUT_K osip_nict_timeout_k_event.
Proof. begin t evt. unfold osip_nict_timeout_k_event, with_nict. flat. leave H H0 D. Qed.

Lemma nict_rcv_1xx_good s : s = NICT_TRYING \/ s = NICT_PROCEEDING ->
  good_handler NICT s RCV_STATUS_1XX nict_rcv_1xx.
Proof.
  intros [-> | ->]; begin t evt; unfold nict_rcv_1xx, replace_last_response, with_nict; flat;
    prim H D; flat; prim H D; leave H H0 D.
Qed.

Lemma nict_rcv_2xx_good s : s = NICT_TRYING \/ s = NICT_PROCEEDING ->
  good_handler NICT s RCV_STATUS_2XX nict_rcv_23456xx.
Proof.
  intros [-> | ->]; begin t evt; unfold nict_rcv_23456xx, replace_last_response, with_nict; flat;
    prim H D; flat; unfold nict_status_received; (rewrite decide_True by done);
    prim H D; flat; (rewrite decide_False by done); leave H H0 D.
Qed.

Lemma nict_rcv_3456xx_good s : s = NICT_TRYING \/ s = NICT_PROCEEDING ->
  good_handler NICT s RCV_STATUS_3456XX nict_rcv_23456xx.
Proof.
  intros [-> | ->]; begin t evt; unfold nict_rcv_23456xx, replace_last_response, with_nict; flat;
    prim H D; flat; unfold nict_status_received; (rewrite decide_False by done);
    (destruct (deref_ok _ w0 z0 H) as (m & -> & _ & _); [count|]);
    prim H D; flat; (rewrite decide_False by done); leave H H0 D.
Qed.

(** ** Server transactions *)

Local Arguments transaction_snd_xxx : simpl never.

(** A response without a Via cannot be sent. *)
Lemma snd_xxx_ok t i f w : heap_ok f w -> (0 < f i)%nat ->
  exists r w' out, transaction_snd_xxx t (Some i) w = Done (r, w') /\ heap_ok f w' /\ does w w' out /\
    ((exists host port, out = [Send (Some (transactionid t)) i host port r]) \/
     (out = [] /\ r = OSIP_SYNTAXERROR)).
Proof.
  intros H Hi. destruct (deref_ok _ _ _ H Hi) as (m & E & _ & Hm). unfold transaction_snd_xxx. rewrite E.
  destruct (vias m) as [|via l] eqn:Ev.
  { exists OSIP_SYNTAXERROR, w, []. split_and!; [done|done|apply does_nil|by right]. }
  apply msg_ok_good in Hm. assert (named (via_params via) = true) as Hn.
  { apply (mg_vias _ Hm). rewrite Ev. left. }
  destruct (returns_done _ _ (response_destination_ok via Hn)) as ([host port] & -> & _).
  destruct (send_ok (Some (transactionid t)) i host port f w H Hi) as (r & w' & -> & H' & D).
  exists r, w', [Send (Some (transactionid t)) i host port r]. eauto 10.
Qed.

(** [prim] for the sending of a response; the case of a failure is left by [leave]. *)
Ltac respond H H0 D :=
  let H1 := fresh in let D1 := fresh in let w1 := fresh "w" in let r := fresh "r" in
  match goal with
  | |- context [transaction_snd_xxx ?t (Some ?i) ?w] =>
      destruct (snd_xxx_ok t i _ w H) as (r & w1 & ? & -> & H1 & D1 & [(? & ? & ->)|[-> ->]]);
      [count|clear H; rename H1 into H; merge D D1; flat
      |clear H; rename H1 into H; merge D D1; flat; cbn [OSIP_SYNTAXERROR Z.eqb negb]; leave H H0 D]
  end;
  destruct (Z.eqb_spec r 0); cbn [negb]; [|leave H H0 D].

Lemma osip_ist_timeout_g_good : good_handler IST IST_COMPLETED TIMEOUT_G osip_ist_timeout_g_event.
Proof.
  begin t evt. unfold osip_ist_timeout_g_event, with_ist. flat. respond H H0 D. prim H D. leave H H0 D.
Qed.

Lemma osip_ist_timeout_h_good : good_handler IST IST_COMPLETED TIMEOUT_H osip_ist_timeout_h_event.
Proof.
  begin t evt. unfold osip_ist_timeout_h_event, with_ist. flat.
  leave_by H H0 D ltac:(by apply step_silent_timer_h).
Qed.

Lemma osip_ist_timeout_i_good : good_handler IST IST_CONFIRMED TIMEOUT_I osip_ist_timeout_i_event.
Proof. begin t evt. unfold osip_ist_timeout_i_event, with_ist. flat. leave H H0 D. Qed.

Lemma ist_rcv_invite_first : good_handler IST IST_PRE_PROCEEDING RCV_REQINVITE ist_rcv_invite.
Proof.
  begin t evt. unfold ist_rcv_invite. flat. rewrite decide_True by done. flat. prim H D. leave H H0 D.
Qed.

(** The callback for a response that is sent again is the library's own. *)
Ltac resend H H0 D :=
  unfold snd_last_response_again; flat; respond H H0 D;
  match goal with
  | |- context [deref (Some ?i) ?w] =>
      let m := fresh "m" in
      destruct (deref_ok _ w i H) as (m & -> & _ & _); [count|]; prim H D;
      destruct (MSG_IS_STATUS 1 m), (MSG_IS_STATUS 2 m); leave H H0 D
  end.

Lemma ist_rcv_invite_again s : s = IST_PROCEEDING \/ s = IST_COMPLETED ->
  good_handler IST s RCV_REQINVITE ist_rcv_invite.
Proof.
  intros [-> | ->]; begin t evt; unfold ist_rcv_invite; flat; (rewrite decide_False by done);
    prim H D; prim H D.
  - destruct last as [j|]; [resend H H0 D|]. unfold snd_last_response_again. flat. leave H H0 D.
  - resend H H0 D.
Qed.

Lemma ist_snd_1xx_good : good_handler IST IST_PROCEEDING SND_STATUS_1XX ist_snd_1xx.
Proof.
  begin t evt. unfold ist_snd_1xx, replace_last_response. flat. prim H D. flat.
  respond H H0 D. prim H D. leave H H0 D.
Qed.

Lemma ist_snd_2xx_good : good_handler IST IST_PROCEEDING SND_STATUS_2XX ist_snd_2xx.
Proof.
  begin t evt. unfold ist_snd_2xx, replace_last_response. flat. prim H D. flat.
  respond H H0 D. prim H D. leave H H0 D.
Qed.

Lemma ist_snd_3456xx_good : good_handler IST IST_PROCEEDING SND_STATUS_3456XX ist_snd_3456xx.
Proof.
  begin t evt. unfold ist_snd_3456xx, replace_last_response, with_ist. flat. prim H D. flat.
  respond H H0 D. destruct (deref_ok _ w1 z0 H) as (m & -> & _ & _); [count|]. prim H D. flat. leave H H0 D.
Qed.

Lemma ist_rcv_ack_good s : s = IST_COMPLETED \/ s = IST_CONFIRMED ->
  good_handler IST s RCV_REQACK ist_rcv_ack.
Proof.
  intros [-> | ->]; begin t evt; unfold ist_rcv_ack, with_ist; flat; prim H D; flat.
  - rewrite decide_True by done. prim H D. flat. leave H H0 D.
  - rewrite decide_False by done. prim H D. flat. leave H H0 D.
Qed.

Lemma nist_request_received_ok m : msg_ok m = true ->
  exists type, nist_request_received m = Done type /\ forall z, output_of_callback type z = [Pass z].
Proof.
  intros Hm. unfold nist_request_received.
  match goal with |- context [by_method ?l ?d m] =>
    destruct (returns_done _ _ (by_method_ok l d m Hm)) as (type & -> & Hin) end.
  exists type. split; [done|]. intros z. cbn in Hin. rewrite !list_elem_of_In in Hin. cbn in Hin.
  by destruct_or! Hin; subst.
Qed.

Lemma nist_rcv_request_first : good_handler NIST NIST_PRE_TRYING RCV_REQUEST nist_rcv_request.
Proof.
  begin t evt. unfold nist_rcv_request. flat. rewrite decide_True by done. flat.
  destruct (deref_ok _ w z H) as (m & -> & _ & Hm'); [count|].
  destruct (nist_request_received_ok m Hm') as (type & -> & Hout). prim H D. leave H H0 D.
Qed.

Lemma nist_rcv_request_again s : s = NIST_PROCEEDING \/ s = NIST_COMPLETED ->
  good_handler NIST s RCV_REQUEST nist_rcv_request.
Proof.
  intros [-> | ->]; begin t evt; unfold nist_rcv_request; flat; (rewrite decide_False by done);
    prim H D; prim H D; resend H H0 D.
Qed.

Lemma nist_snd_1xx_good s : s = NIST_TRYING \/ s = NIST_PROCEEDING ->
  good_handler NIST s SND_STATUS_1XX nist_snd_1xx.
Proof.
  intros [-> | ->]; begin t evt; unfold nist_snd_1xx, replace_last_response; flat; prim H D; flat;
    respond H H0 D; prim H D; leave H H0 D.
Qed.

Lemma nist_snd_23456xx_good s ty : s = NIST_TRYING \/ s = NIST_PROCEEDING ->
  ty = SND_STATUS_2XX \/ ty = SND_STATUS_3456XX -> good_handler NIST s ty nist_snd_23456xx.
Proof.
  intros [-> | ->] [-> | ->]; begin t evt; unfold nist_snd_23456xx, replace_last_response, with_nist;
    flat; prim H D; flat; respond H H0 D;
    (match goal with |- context [deref (Some ?i) ?w] =>
       destruct (deref_ok _ w i H) as (m & -> & _ & _); [count|] end);
    (first [rewrite decide_True by done | rewrite (decide_False (P := SND_STATUS_3456XX = _)) by done]);
    prim H D; flat; (rewrite decide_False by done); leave H H0 D.
Qed.

Lemma osip_nist_timeout_j_good : good_handler NIST NIST_COMPLETED TIMEOUT_J osip_nist_timeout_j_event.
Proof. begin t evt. unfold osip_nist_timeout_j_event, with_nist. flat. leave H H0 D. Qed.
