(* ===== verification/SipSafety.v ===== *)
(** One event of a SIP transaction: the step of RFC 3261 that it is, and the messages that
    are accounted for. *)

From stdpp Require Import base list option numbers strings gmap.
From S2P Require Import Prelude.
From S2P Require Import SipTypes.
From S2P Require Import SipMessage.
From S2P Require Import SipFsm.
From S2P Require Import SipStack.
From S2P Require Import SipOwnership.
From S2P Require Import SipSpec.
From S2P Require Import SipRefine.

Local Open Scope Z_scope.
Open Scope c_scope.

(** ** Every transition of the tables *)

Definition good_transition (k : osip_fsm_type_t) (tr : transition) : Prop :=
  let '(s, ty, h) := tr in good_handler k s ty h.

Lemma transitions_good k : Forall (good_transition k) (statemachine_of k).
Proof.
  destruct k; cbn; repeat apply List.Forall_cons; try apply List.Forall_nil; cbn;
    eauto using ict_snd_invite_good, osip_ict_timeout_a_good, osip_ict_timeout_b_good, ict_rcv_1xx_good,
      ict_rcv_2xx_good, ict_rcv_3456xx_good, ict_retransmit_ack_good, osip_ict_timeout_d_good,
      ist_rcv_invite_first, ist_rcv_invite_again, osip_ist_timeout_g_good, osip_ist_timeout_h_good,
      ist_snd_1xx_good, ist_snd_2xx_good, ist_snd_3456xx_good, ist_rcv_ack_good, osip_ist_timeout_i_good,
      nict_snd_request_good, osip_nict_timeout_f_good, osip_nict_timeout_e_good, nict_rcv_1xx_good,
      nict_rcv_2xx_good, nict_rcv_3456xx_good, osip_nict_timeout_k_good,
      nist_rcv_request_first, nist_rcv_request_again, nist_snd_1xx_good, nist_snd_23456xx_good,
      osip_nist_timeout_j_good.
Qed.

Lemma findmethod_in ty s l h : fsm_findmethod ty s l = Some h -> (s, ty, h) ∈ l.
Proof.
  induction l as [|[[s' ty'] h'] l IH]; cbn; [done|].
  case_decide as Et; [case_decide as Es|]; [|intros H; right; by apply IH..].
  intros [= <-]. subst. left.
Qed.

Lemma findmethod_good k ty s h :
  fsm_findmethod ty s (statemachine_of k) = Some h -> good_handler k s ty h.
Proof.
  intros H%findmethod_in. exact (proj1 (Forall_forall _ _) (transitions_good k) _ H).
Qed.

(** The state of a kind of transaction for a phase. *)
Definition state_of (k : osip_fsm_type_t) (p : phase) : state_t :=
  match k, p with
  | ICT, Calling => ICT_CALLING | ICT, Proceeding => ICT_PROCEEDING | ICT, Completed => ICT_COMPLETED
  | IST, Proceeding => IST_PROCEEDING | IST, Completed => IST_COMPLETED | IST, Confirmed => IST_CONFIRMED
  | NICT, Trying => NICT_TRYING | NICT, Proceeding => NICT_PROCEEDING | NICT, Completed => NICT_COMPLETED
  | NIST, Trying => NIST_TRYING | NIST, Proceeding => NIST_PROCEEDING | NIST, Completed => NIST_COMPLETED
  | k, Start => initial_state k
  | k, _ => terminated k
  end.

Lemma shape_state t : shape t = true -> t_state t = state_of (ctx_type t) (phase_of (t_state t)).
Proof.
  unfold shape. intros H. destruct (ctx_type t); apply andb_true_iff in H as [_ H];
    destruct (t_state t); (discriminate H || reflexivity).
Qed.

(** An event without a transition has no place in the figures. *)
Lemma findmethod_complete k a p e m outs p' :
  rfc_ok k a p e m outs p' -> fsm_findmethod e (state_of k p) (statemachine_of k) <> None.
Proof. intros H. destruct H; destruct_or?; subst; discriminate. Qed.

Lemma findmethod_ignores t e :
  shape t = true -> fsm_findmethod e (t_state t) (statemachine_of (ctx_type t)) = None ->
  rfc_ignores (ctx_type t) (answered t) (phase_of (t_state t)) e.
Proof.
  intros Hs E m outs p' H. assert (exists outs p', rfc_ok (ctx_type t) (answered t) (phase_of (t_state t)) e m outs p')
    as (outs' & p'' & H') by (destruct H; eauto).
  rewrite (shape_state _ Hs) in E. by eapply findmethod_complete.
Qed.

Lemma kill_ignored k a p : rfc_ignores k a p KILL_TRANSACTION.
Proof.
  intros m outs p' H. assert (exists outs p', rfc_ok k a p KILL_TRANSACTION m outs p')
    as (outs' & p'' & H') by (destruct H; eauto).
  inversion H'; subst; destruct_or?; discriminate.
Qed.

(** ** The execution of an event *)

Inductive execution (t t' : osip_transaction) (evt : osip_event) (w : SipWorld) (out : list action)
  : Prop :=
| executed : machine_step t t' evt w out -> execution t t' evt w out
| ignored :
    rfc_ignores (ctx_type t) (answered t) (phase_of (t_state t)) (e_type evt) -> t' = t -> out = [] ->
    execution t t' evt w out.

Lemma execute_ok rest t evt w :
  transaction_ok t (e_sip evt :: rest) w -> event_ok evt w ->
  returns (osip_transaction_execute t evt w) (fun '(_, t', w') => exists out,
    transaction_ok t' rest w' /\ same_transaction t t' /\ does w w' out /\
    Forall (fun a => about (transactionid t) a = true) out /\ execution t t' evt w out).
Proof.
  intros [Hsh Hh Htr] He. assert (heap_ok (owners (e_sip evt :: held t ++ rest)) w) as Hh'.
  { eapply heap_ok_eq; [exact Hh|]. intros i. cbn. rewrite !owners_app. cbn. lia. }
  unfold osip_transaction_execute. case_decide as Hk.
  - exists []. split; [|split; [apply same_transaction_refl|split; [apply does_nil|split; [constructor|]]]].
    + split; [done| |done]. eapply heap_ok_eq; [exact Hh'|]. intros i.
      destruct He as [Hm _]. rewrite Hk in Hm. by destruct (e_sip evt).
    + apply ignored; [|done..]. rewrite Hk. apply kill_ignored.
  - destruct (fsm_findmethod _ _ _) as [h|] eqn:Ef.
    + eapply returns_bind; [by apply (findmethod_good _ _ _ _ Ef rest)|].
      intros [t' w'] (out & [Hok Hsame Hd Hab Hst]). exists out. eauto 10 using executed.
    + assert (exists w', (if EVT_IS_MSG (e_type evt) then osip_message_free (e_sip evt) w else Done w) = Done w'
        /\ heap_ok (owners (held t ++ rest)) w' /\ does w w' []) as (w' & -> & H & D).
      { rewrite (eo_message _ _ He). destruct (e_sip evt) as [i|] eqn:Ei; cbn [some is_null negb].
        - destruct (free_ok (Some i) _ w Hh') as (w' & -> & H & D).
          { intros ? [= <-]. cbn. rewrite decide_True by done. lia. }
          exists w'. split; [done|]. split; [|done]. eapply heap_ok_eq; [exact H|].
          intros j. unfold less. cbn. case_decide; lia.
        - exists w. split; [done|]. split; [|apply does_nil]. exact Hh'. }
      exists []. split; [split; [done|done|]|split; [apply same_transaction_refl|split; [done|split; [constructor|]]]].
      * intros Hc. eapply transport_named_does; [exact Hh| |exact D|auto].
        intros i Hi. unfold held. rewrite !owners_app. cbn. rewrite decide_True by done. lia.
      * apply ignored; [by apply findmethod_ignores|done..].
Qed.

(** ** Sequences of events *)

Fixpoint run_events (t : osip_transaction) (evts : list osip_event) (w : SipWorld)
  : outcome (osip_transaction * SipWorld) :=
  match evts with
  | [] => Done (t, w)
  | evt :: evts =>
      let! (_, t, w) := osip_transaction_execute t evt w in run_events t evts w
  end.

(** How often the application is told that a transaction has ended. *)
Fixpoint kills (out : list action) : nat :=
  match out with
  | [] => 0
  | Kill _ _ :: out => S (kills out)
  | _ :: out => kills out
  end.

Fixpoint ends (outs : list output) : nat :=
  match outs with
  | [] => 0
  | Ended :: outs => S (ends outs)
  | _ :: outs => ends outs
  end.

Definition is_terminated (t : osip_transaction) : bool := bool_decide (phase_of (t_state t) = Terminated).

Lemma kills_app out out' : kills (out ++ out') = (kills out + kills out')%nat.
Proof. induction out as [|[] out IH]; cbn; auto. Qed.

Lemma ends_app outs outs' : ends (outs ++ outs') = (ends outs + ends outs')%nat.
Proof. induction outs as [|[] outs IH]; cbn; auto. Qed.

Lemma kills_ends t out : kills out = ends (outputs t out).
Proof.
  induction out as [|a out IH]; [done|]. unfold outputs. cbn. rewrite ends_app. fold (outputs t out).
  rewrite <- IH. destruct a as [tr msg h p r|ty tr m| |]; cbn; [|by destruct ty|done|done].
  unfold output_of_send. by repeat case_match.
Qed.

Lemma passes_end_nothing outs : ends (List.filter is_pass outs) = 0%nat.
Proof. by induction outs as [|[] outs IH]. Qed.

Lemma rfc_ends k a p e m outs p' : rfc k a p e m outs p' ->
  p <> Terminated /\ ends outs = if bool_decide (p' = Terminated) then 1%nat else 0%nat.
Proof.
  intros [outs' p'' H|pre r post p'' outs' H ->].
  - destruct H; destruct_or?; subst; split; done.
  - assert (ends pre = 0%nat) as E.
    { remember (pre ++ Sent r :: post) as l eqn:El.
      destruct H; destruct pre as [|? [|? [|? ?]]]; try done; try (by destruct pre); simplify_eq/=; done. }
    rewrite !ends_app, E, passes_end_nothing. split; [|done]. destruct H; destruct_or?; subst; done.
Qed.

Lemma execution_ends t t' evt w out :
  execution t t' evt w out ->
  (is_terminated t = true -> t' = t /\ out = []) /\
  (kills out + (if is_terminated t then 1 else 0) = if is_terminated t' then 1 else 0)%nat.
Proof.
  unfold is_terminated.
  intros [[H|orig resp i Hk Hty Hp Ho Hr Ha Hout Hp'|Hk Hty Hp Hout Hp'|Hk Hty Hp Hout Hp']|Hig -> ->].
  - destruct (rfc_ends _ _ _ _ _ _ _ H) as [Hn E]. rewrite (kills_ends t'), E.
    rewrite (bool_decide_false (phase_of (t_state t) = Terminated)) by done. split; [done|lia].
  - rewrite (kills_ends t'), Hout, Hp'. by destruct Hp as [-> | ->].
  - rewrite (kills_ends t'), Hout, Hp'. by destruct Hp as [-> | ->].
  - by rewrite (kills_ends t'), Hout, Hp', Hp.
  - split; [done|]. cbn. lia.
Qed.

Lemma event_ok_does f e w w' out :
  heap_ok f w -> (forall i, e_sip e = Some i -> (0 < f i)%nat) -> does w w' out ->
  event_ok e w -> event_ok e w'.
Proof.
  intros H Hp D [Hm Hb]. split; [done|]. intros Hty. eapply transport_named_does; eauto.
Qed.

Lemma owners_elem p l i : p ∈ l -> p = Some i -> (0 < owners l i)%nat.
Proof.
  intros Hin ->. induction l as [|q l IH]; [by apply not_elem_of_nil in Hin|].
  apply elem_of_cons in Hin as [<-|Hin]; cbn; [rewrite decide_True by done; lia|]. specialize (IH Hin). lia.
Qed.

Lemma run_events_ok rest evts : forall t w,
  transaction_ok t (map e_sip evts ++ rest) w -> Forall (fun evt => event_ok evt w) evts ->
  returns (run_events t evts w) (fun '(t', w') => exists out,
    transaction_ok t' rest w' /\ same_transaction t t' /\ does w w' out /\
    (is_terminated t = true -> t' = t /\ out = []) /\
    (kills out + (if is_terminated t then 1 else 0) = if is_terminated t' then 1 else 0)%nat).
Proof.
  induction evts as [|evt evts IH]; intros t w Hok Hev; cbn [run_events].
  { exists []. split_and!; [done|apply same_transaction_refl|apply does_nil|done|cbn; lia]. }
  apply Forall_cons in Hev as [He Hev].
  eapply returns_bind; [by apply (execute_ok (map e_sip evts ++ rest))|].
  intros [[r t1] w1] (out1 & Hok1 & S1 & D1 & _ & X1).
  eapply returns_mono; [apply IH; [done|]|].
  - rewrite Forall_forall in *. intros e Hin.
    eapply event_ok_does; [exact (to_heap _ _ _ Hok)| |exact D1|by apply Hev].
    intros i Hi. eapply owners_elem; [|exact Hi]. apply elem_of_app. right. right.
    apply elem_of_app. left. by apply list_elem_of_fmap_2.
  - intros [t' w'] (out2 & Hok2 & S2 & D2 & T2 & K2). exists (out1 ++ out2).
    destruct (execution_ends _ _ _ _ _ X1) as [T1 K1]. split_and!; [done| |by eapply does_trans| |].
    + destruct S1, S2. split; congruence.
    + intros Ht. destruct (T1 Ht) as [-> ->]. by apply T2.
    + rewrite kills_app. lia.
Qed.
