(* ===== verification/SipStackSafety.v ===== *)
(** The stack of SIP transactions as a whole: whatever the application does with it, within
    the rules of the library, no message leaks, none is freed twice, and nothing that has
    been freed is used. *)

From stdpp Require Import base list option numbers strings gmap.
From S2P Require Import Prelude.
From S2P Require Import SipTypes.
From S2P Require Import SipMessage.
From S2P Require Import SipFsm.
From S2P Require Import SipStack.
From S2P Require Import SipOwnership.
From S2P Require Import SipSpec.
From S2P Require Import SipRefine.
From S2P Require Import SipSafety.

Local Open Scope Z_scope.
Open Scope c_scope.

(** ** The invariant of the stack *)

Definition ixt_pointers (x : ixt) : list (option Z) := [ixt_ack x; msg2xx x].

Definition transaction_pointers (m : gmap Z osip_transaction) : list (option Z) :=
  flat_map (fun p => held (snd p)) (map_to_list m).

(** The pointers to messages: of the transactions, of the retransmissions for dialogs, and
    of the application. *)
Definition pointers (o : osip) (app : list Z) : list (option Z) :=
  transaction_pointers (transactions o) ++ flat_map ixt_pointers (ixt_retransmissions o) ++ map Some app.

(** The headers a transaction keeps are there, and their parameters have names. *)
Record headers_ok (t : osip_transaction) : Prop := {
  hd_via : exists v, topvia t = Some v /\ named (via_params v) = true;
  hd_from : exists f, t_from t = Some f /\ from_ok f = true;
  hd_to : exists f, t_to t = Some f /\ from_ok f = true;
  hd_cseq : exists c, t_cseq t = Some c /\ is_Some (cs_method c)
}.

Record tr_wf (id : Z) (t : osip_transaction) (w : SipWorld) : Prop := {
  tw_id : transactionid t = id;
  tw_shape : shape t = true;
  tw_transport : is_client (ctx_type t) = true -> transport_named (orig_request t) w;
  tw_headers : headers_ok t;
  tw_fifo : Forall (fun evt => event_ok evt w) (transactionff t)
}.

Record stack_ok (o : osip) (app : list Z) : Prop := {
  so_heap : heap_ok (owners (pointers o app)) (sip_world o);
  so_transactions : forall id t, transactions o !! id = Some t ->
    tr_wf id t (sip_world o) /\ id < next_transactionid o;
  so_lists : forall k, NoDup (transactions_of k o) /\
    forall id, id ∈ transactions_of k o -> exists t, transactions o !! id = Some t /\ ctx_type t = k
}.

(** ** Counting *)

Lemma owners_perm l l' i : l ≡ₚ l' -> owners l i = owners l' i.
Proof. induction 1; cbn; lia. Qed.

Lemma owners_delete m id t i : m !! id = Some t ->
  owners (transaction_pointers m) i = (owners (held t) i + owners (transaction_pointers (delete id m)) i)%nat.
Proof.
  intros H. unfold transaction_pointers.
  rewrite (owners_perm _ (flat_map (fun p => held (snd p)) ((id, t) :: map_to_list (delete id m)))).
  - cbn. by rewrite owners_app.
  - apply Permutation_flat_map. symmetry. by apply map_to_list_delete.
Qed.

Lemma owners_insert m id t t' i : m !! id = Some t ->
  (owners (transaction_pointers (<[id := t']> m)) i + owners (held t) i =
   owners (transaction_pointers m) i + owners (held t') i)%nat.
Proof.
  intros H. rewrite (owners_delete (<[id := t']> m) id t') by apply lookup_insert_eq.
  rewrite (owners_delete m id t) by done. rewrite delete_insert_eq. lia.
Qed.

Lemma owners_new m id t i : m !! id = None -> held t = [None; None; None] ->
  owners (transaction_pointers (<[id := t]> m)) i = owners (transaction_pointers m) i.
Proof.
  intros H Ht. rewrite (owners_delete (<[id := t]> m) id t) by apply lookup_insert_eq.
  rewrite delete_insert_id by done. by rewrite Ht.
Qed.

Ltac pcount := unfold pointers in *; rewrite ?owners_app in *.

(** ** The invariant is kept while messages do not change *)

Lemma live_pointer o app p i : stack_ok o app -> p ∈ pointers o app -> p = Some i ->
  (0 < owners (pointers o app) i)%nat.
Proof. intros _. apply owners_elem. Qed.

Lemma held_pointer o app id t p : transactions o !! id = Some t -> p ∈ held t -> p ∈ pointers o app.
Proof.
  intros H Hp. unfold pointers, transaction_pointers. apply elem_of_app. left.
  apply list_elem_of_In, in_flat_map. exists (id, t). split; apply list_elem_of_In; [|done].
  by apply elem_of_map_to_list.
Qed.

Lemma tr_wf_does o app id t w' out :
  stack_ok o app -> transactions o !! id = Some t -> does (sip_world o) w' out -> tr_wf id t w'.
Proof.
  intros Hok Ht D. destruct (so_transactions _ _ Hok id t Ht) as [[H1 H2 H3 H4 H5] _]. split; [done|done| |done|].
  - intros Hc. eapply transport_named_does; [by apply Hok| |exact D|by apply H3].
    intros i Hi. eapply live_pointer; [done| |exact Hi]. eapply held_pointer; [exact Ht|].
    unfold held. apply elem_of_app. right. left.
  - rewrite Forall_forall in *. intros e He. eapply event_ok_does; [by apply Hok| |exact D|by apply H5].
    intros i Hi. eapply live_pointer; [done| |exact Hi]. eapply held_pointer; [exact Ht|].
    unfold held. apply elem_of_app. left. by apply list_elem_of_fmap_2.
Qed.

(** ** Execution *)

Lemma set_fifo_same t ff : set_transactionff ff t = t <-> transactionff t = ff.
Proof. destruct t; cbn. split; [by intros [= ->]|by intros ->]. Qed.

(** The state after one transaction has changed. *)
Definition with_transaction (t : osip_transaction) (w : SipWorld) (o : osip) : osip :=
  set_sip_world w (put_transaction t o).

Lemma transactions_of_with k t w o : transactions_of k (with_transaction t w o) = transactions_of k o.
Proof. by destruct k. Qed.

Lemma with_transaction_ok o app app' id t t' w' out :
  stack_ok o app -> transactions o !! id = Some t -> tr_wf id t' w' -> ctx_type t' = ctx_type t ->
  does (sip_world o) w' out ->
  heap_ok (owners (held t' ++ transaction_pointers (delete id (transactions o)) ++
                   flat_map ixt_pointers (ixt_retransmissions o) ++ map Some app')) w' ->
  stack_ok (with_transaction t' w' o) app'.
Proof.
  intros Hok Ht Hwf Hk D H. pose proof (tw_id _ _ _ Hwf) as Hid. split.
  - eapply heap_ok_eq; [exact H|]. intros i. pcount. cbn. rewrite Hid.
    pose proof (owners_insert (transactions o) id t t' i Ht). pose proof (owners_delete _ _ _ i Ht). lia.
  - intros id' t'' H'. cbn in *. rewrite Hid in H'.
    apply lookup_insert_Some in H' as [[<- <-]|[Hne H']].
    + split; [done|]. by eapply (so_transactions _ _ Hok).
    + split; [by eapply tr_wf_does|]. by eapply (so_transactions _ _ Hok).
  - intros k. rewrite transactions_of_with. destruct (so_lists _ _ Hok k) as [Hn Hl]. split; [done|].
    intros id' (t'' & H' & Hk')%Hl. cbn. rewrite Hid. destruct (decide (id' = id)) as [->|].
    + rewrite lookup_insert_eq. exists t'. split; [done|]. congruence.
    + rewrite lookup_insert_ne by done. eauto.
Qed.

Lemma headers_ok_same t t' : same_transaction t t' -> headers_ok t -> headers_ok t'.
Proof. intros [? ? ? Hv Hf Ht Hc] [? ? ? ?]. split; rewrite ?Hv, ?Hc, ?Hf, ?Ht; done. Qed.

Definition others (id : Z) (o : osip) (app : list Z) : list (option Z) :=
  transaction_pointers (delete id (transactions o)) ++
  flat_map ixt_pointers (ixt_retransmissions o) ++ map Some app.

Lemma execute_in_stack o app id t se rest :
  stack_ok o app -> transactions o !! id = Some t -> transactionff t = se :: rest ->
  returns (osip_transaction_execute (set_transactionff rest t) se (sip_world o))
    (fun '(_, t', w') => exists out,
      stack_ok (with_transaction t' w' o) app /\ same_transaction (set_transactionff rest t) t' /\
      does (sip_world o) w' out /\ Forall (fun a => about id a = true) out /\
      execution (set_transactionff rest t) t' se (sip_world o) out).
Proof.
  intros Hok Ht Hff. destruct (so_transactions _ _ Hok id t Ht) as [Hwf _].
  pose proof (tw_fifo _ _ _ Hwf) as Hev. rewrite Hff in Hev. apply Forall_cons in Hev as [He Hev].
  assert (transaction_ok (set_transactionff rest t) (e_sip se :: others id o app) (sip_world o)) as Htr.
  { split; [by apply Hwf| |by apply Hwf].
    eapply heap_ok_eq; [by apply Hok|]. intros i. unfold others. pcount.
    rewrite (owners_delete _ _ _ i Ht). cbn. rewrite !owners_app. unfold held. rewrite Hff. cbn.
    rewrite !owners_app. cbn. lia. }
  eapply returns_mono; [by apply (execute_ok (others id o app))|].
  intros [[r t'] w'] (out & [Hsh Hh Htp] & Hs & D & Hab & X).
  cbn in Hab. rewrite (tw_id _ _ _ Hwf) in Hab. exists out. split_and!; [|done..].
  eapply with_transaction_ok; [done|exact Ht| |by apply Hs|exact D|exact Hh].
  split; [by rewrite (st_id _ _ Hs); apply Hwf|done|done| |].
  - eapply headers_ok_same; [exact Hs|]. destruct (tw_headers _ _ _ Hwf). by split.
  - rewrite (st_fifo _ _ Hs). cbn. rewrite Forall_forall in *. intros e Hin.
    eapply event_ok_does; [by apply Hok| |exact D|by apply Hev].
    intros i Hi. eapply live_pointer; [done| |exact Hi]. eapply held_pointer; [exact Ht|].
    unfold held. apply elem_of_app. left. rewrite Hff. right. by apply list_elem_of_fmap_2.
Qed.

(** What the execution of a transaction leaves alone: the other transactions and the lists. *)
Record frame (id : Z) (o o' : osip) : Prop := {
  fr_next : next_transactionid o' = next_transactionid o;
  fr_lists : forall k, transactions_of k o' = transactions_of k o;
  fr_others : forall id', id' <> id -> transactions o' !! id' = transactions o !! id';
  fr_ixt : ixt_retransmissions o' = ixt_retransmissions o
}.

Lemma stack_frame_refl id o : frame id o o.
Proof. by split. Qed.

Lemma frame_with id t w o : transactionid t = id -> frame id o (with_transaction t w o).
Proof.
  intros <-. split; [done|intros; apply transactions_of_with| |done].
  intros id' Hne. cbn. by rewrite lookup_insert_ne.
Qed.

Lemma stack_frame_trans id o o1 o2 : frame id o o1 -> frame id o1 o2 -> frame id o o2.
Proof.
  intros [N1 L1 T1 X1] [N2 L2 T2 X2]. split; [congruence| | |congruence].
  - intros k. by rewrite L2, L1.
  - intros id' Hne. rewrite T2, T1; done.
Qed.

(** The end of the loop: no events are left. *)
Lemma drain_ok app id n : forall o t,
  stack_ok o app -> transactions o !! id = Some t -> (List.length (transactionff t) <= n)%nat ->
  returns (drain n id o) (fun o' => exists t' out,
    stack_ok o' app /\ frame id o o' /\ does (sip_world o) (sip_world o') out /\
    Forall (fun a => about id a = true) out /\
    transactions o' !! id = Some t' /\ transactionff t' = [] /\ ctx_type t' = ctx_type t).
Proof.
  induction n as [|n IH]; intros o t Hok Ht Hn; cbn [drain];
    unfold get_transaction; rewrite Ht; cbn [lift];
    (destruct (transactionff t) as [|se rest] eqn:Hff;
     [exists t, []; split_and!; auto using stack_frame_refl, does_nil|]); [cbn in Hn; lia|].
  eapply returns_bind; [by apply (execute_in_stack o app id)|].
  intros [[r t'] w'] (out & Hok' & Hs & D & Hab & X).
  assert (transactionid t' = id) as Hid.
  { rewrite (st_id _ _ Hs). by destruct (so_transactions _ _ Hok id t Ht) as [[? ? ? ? ?] _]. }
  fold (with_transaction t' w' o).
  eapply returns_mono; [apply (IH _ t' Hok')|].
  - cbn. by rewrite Hid, lookup_insert_eq.
  - rewrite (st_fifo _ _ Hs). cbn in *. lia.
  - intros o' (t'' & out' & Hok'' & F & D' & Hab' & Ht'' & Hff'' & Hk''). exists t'', (out ++ out').
    split_and!; [done|eapply stack_frame_trans; [by apply frame_with|done]| | |done|done|].
    + by eapply does_trans.
    + by apply Forall_app.
    + rewrite Hk''. apply Hs.
Qed.

(** A single event. *)
Lemma drain_single app id o t se :
  stack_ok o app -> transactions o !! id = Some t -> transactionff t = [se] ->
  returns (drain (pending id o) id o) (fun o' => exists r t' out,
    stack_ok o' app /\ frame id o o' /\
    osip_transaction_execute (set_transactionff [] t) se (sip_world o) = Done (r, t', sip_world o') /\
    transactions o' !! id = Some t' /\ same_transaction (set_transactionff [] t) t' /\
    does (sip_world o) (sip_world o') out /\ Forall (fun a => about id a = true) out /\
    execution (set_transactionff [] t) t' se (sip_world o) out).
Proof.
  intros Hok Ht Hff. unfold pending. rewrite Ht, Hff. cbn [List.length drain].
  unfold get_transaction at 1. rewrite Ht. cbn [lift]. rewrite Hff.
  destruct (returns_done _ _ (execute_in_stack o app id t se [] Hok Ht Hff))
    as ([[r t'] w'] & E & out & Hok' & Hs & D & Hab & X).
  rewrite E. fold (with_transaction t' w' o).
  assert (transactionid t' = id) as Hid.
  { rewrite (st_id _ _ Hs). by destruct (so_transactions _ _ Hok id t Ht) as [[? ? ? ? ?] _]. }
  assert (transactions (with_transaction t' w' o) !! id = Some t') as Ht'.
  { cbn. by rewrite Hid, lookup_insert_eq. }
  unfold get_transaction. rewrite Ht'. cbn [lift]. rewrite (st_fifo _ _ Hs). cbn [transactionff set_transactionff].
  exists r, t', out. split_and!; [done|by apply frame_with|done..].
Qed.

(** No event. *)
Lemma drain_none id o t : transactions o !! id = Some t -> transactionff t = [] ->
  drain (pending id o) id o = Done o.
Proof.
  intros Ht Hff. unfold pending. rewrite Ht, Hff. cbn. unfold get_transaction. rewrite Ht. cbn. by rewrite Hff.
Qed.

(** The part of an execution that is one transaction's, from the stack [o1] to [o2]; the
    others do nothing in its name. *)
Record turn (app : list Z) (id : Z) (o o1 o2 o' : osip) : Prop := {
  tn_before : stack_ok o1 app;
  tn_same : transactions o1 !! id = transactions o !! id;
  tn_drain : drain (pending id o1) id o1 = Done o2;
  tn_after : transactions o' !! id = transactions o2 !! id;
  tn_clock : clock (sip_world o1) = clock (sip_world o);
  tn_actions : exists out1 out3,
    actions (sip_world o1) = actions (sip_world o) ++ out1 /\
    actions (sip_world o') = actions (sip_world o2) ++ out3 /\
    Forall (fun a => about id a = false) (out1 ++ out3)
}.

Lemma about_other id id' a : id' <> id -> about id' a = true -> about id a = false.
Proof.
  destruct a as [tr| | |]; cbn; intros Hne H; try (apply Z.eqb_neq; apply Z.eqb_eq in H; lia).
  apply bool_decide_eq_true in H. apply bool_decide_eq_false. congruence.
Qed.

Lemma execute_all_ok app l : forall o,
  stack_ok o app -> NoDup l -> (forall id, id ∈ l -> is_Some (transactions o !! id)) ->
  returns (execute_all l o) (fun o' => exists out,
    stack_ok o' app /\ does (sip_world o) (sip_world o') out /\
    (forall k, transactions_of k o' = transactions_of k o) /\
    (forall id, id ∈ l -> exists o1 o2, turn app id o o1 o2 o') /\
    (forall id, id ∉ l -> transactions o' !! id = transactions o !! id /\
                         Forall (fun a => about id a = false) out)).
Proof.
  induction l as [|id l IH]; intros o Hok Hnd Hl; cbn [execute_all].
  { exists []. split_and!; auto using does_nil. intros id Hid. by apply not_elem_of_nil in Hid. }
  apply NoDup_cons in Hnd as [Hnin Hnd]. destruct (Hl id) as [t Ht]; [left|].
  destruct (returns_done _ _ (drain_ok app id (pending id o) o t Hok Ht ltac:(unfold pending; by rewrite Ht)))
    as (o1 & E1 & t1 & out1 & Hok1 & F1 & D1 & Ha1 & Ht1 & Hff1 & _). rewrite E1.
  eapply returns_mono; [apply IH; [done|done|]|].
  - intros id' Hid'. destruct (decide (id' = id)) as [->|Hne]; [eauto|].
    rewrite (fr_others _ _ _ F1) by done. apply Hl. by right.
  - intros o2 (out2 & Hok2 & D2 & Hk2 & Hin2 & Hout2). exists (out1 ++ out2).
    assert (forall id', id' <> id -> Forall (fun a => about id' a = false) out1) as Hab1.
    { intros id' Hne. eapply Forall_impl; [exact Ha1|]. intros a. by apply about_other. }
    split_and!; [done|by eapply does_trans|intros k; by rewrite Hk2, (fr_lists _ _ _ F1)| |].
    + intros id' Hid'. destruct (decide (id' = id)) as [->|Hne].
      * exists o, o1. destruct (Hout2 id Hnin) as [Hs2 Hab2]. split; [done|done|done|done|done|].
        exists [], out2. split_and!; [by rewrite app_nil_r|apply D2|done].
      * apply elem_of_cons in Hid' as [->|Hid']; [done|].
        destruct (Hin2 id' Hid') as (oa & ob & [B1 B2 B3 B4 B5 (p1 & p3 & A1 & A3 & Ap)]).
        exists oa, ob. split; [done|by rewrite B2, (fr_others _ _ _ F1)|done|done| |].
        -- rewrite B5. apply D1.
        -- exists (out1 ++ p1), p3. split_and!; [|done|].
           ++ by rewrite A1, (do_actions _ _ _ D1), app_assoc.
           ++ rewrite <- app_assoc. apply Forall_app. auto.
    + intros id' [Hne Hn]%not_elem_of_cons. destruct (Hout2 id' Hn) as [Hs2 Hab2].
      rewrite Hs2, (fr_others _ _ _ F1) by done. split; [done|]. apply Forall_app. auto.
Qed.

Lemma osip_execute_ok k o app : stack_ok o app ->
  returns (osip_execute k o) (fun o' => exists out,
    stack_ok o' app /\ does (sip_world o) (sip_world o') out /\
    (forall k', transactions_of k' o' = transactions_of k' o) /\
    (forall id, id ∈ transactions_of k o -> exists o1 o2, turn app id o o1 o2 o') /\
    (forall id, id ∉ transactions_of k o -> transactions o' !! id = transactions o !! id /\
                Forall (fun a => about id a = false) out)).
Proof.
  intros Hok. destruct (so_lists _ _ Hok k) as [Hn Hl]. apply execute_all_ok; [done|done|].
  intros id Hid. destruct (Hl id Hid) as (t & Ht & _). eauto.
Qed.

(** ** Timers *)

Lemma put_with t o : put_transaction t o = with_transaction t (sip_world o) o.
Proof. by destruct o. Qed.

Lemma need_timer_ok timer cond id type w evt :
  need_timer_x_event timer cond id type w = Some evt -> e_sip evt = None /\ e_type evt = type.
Proof.
  unfold need_timer_x_event. destruct timer; [|done]. case_match; [|done]. by intros [= <-].
Qed.

Definition is_timeout (ty : type_t) : bool := type_number ty <=? 9.

Lemma timer_event_ok k t w evt : timer_event k t w = Some evt ->
  e_sip evt = None /\ is_timeout (e_type evt) = true.
Proof.
  intros H. assert (exists timer cond id type, need_timer_x_event timer cond id type w = Some evt /\
    is_timeout type = true) as (timer & cond & id & type & E & Hty).
  { destruct k; cbn in H; unfold or_else in H; repeat case_match; simplify_eq;
      repeat match goal with E : _ = Some evt |- _ => do 4 eexists; split; [exact E|done] end. }
  destruct (need_timer_ok _ _ _ _ _ _ E) as [Hs Ht]. rewrite Ht. done.
Qed.

Lemma timeout_event_ok evt w : e_sip evt = None -> is_timeout (e_type evt) = true -> event_ok evt w.
Proof.
  intros Hs Ht. split.
  - rewrite Hs. by destruct (e_type evt).
  - intros [E|E]; by rewrite E in Ht.
Qed.

(** One more event for a transaction, whose message the application gives up. *)
Lemma enqueue_ok o app app' id t evt :
  stack_ok o app -> transactions o !! id = Some t -> event_ok evt (sip_world o) ->
  (forall i, owners (map Some app) i = owners (e_sip evt :: map Some app') i) ->
  stack_ok (put_transaction (set_transactionff (transactionff t ++ [evt]) t) o) app'.
Proof.
  intros Hok Ht He Happ. rewrite put_with. destruct (so_transactions _ _ Hok id t Ht) as [Hwf _].
  eapply with_transaction_ok; [exact Hok|exact Ht| |done|apply does_nil|].
  - destruct Hwf as [H1 H3 H4 [] H6]. split; [done|done|done|by split|].
    cbn. apply Forall_app. split; [done|]. constructor; [done|constructor].
  - eapply heap_ok_eq; [by apply Hok|]. intros i. pcount. rewrite (owners_delete _ _ _ i Ht), (Happ i).
    unfold held. cbn. rewrite map_app, !owners_app. cbn. lia.
Qed.

Lemma timer_step_ok o app k id t :
  stack_ok o app -> transactions o !! id = Some t ->
  stack_ok (put_transaction (timer_step k t (sip_world o)) o) app.
Proof.
  intros Hok Ht. assert (stack_ok (put_transaction t o) app) as Hsame.
  { destruct (so_transactions _ _ Hok id t Ht) as [Hwf _]. unfold put_transaction.
    rewrite (tw_id _ _ _ Hwf), insert_id by done. by destruct o. }
  unfold timer_step. case_match; [done|]. destruct (timer_event k t (sip_world o)) as [evt|] eqn:E; [|done].
  destruct (timer_event_ok _ _ _ _ E) as [Hs Hty]. eapply enqueue_ok; [done|done|by apply timeout_event_ok|].
  intros i. rewrite Hs. done.
Qed.

Lemma timer_step_fields k t w : exists ff, timer_step k t w = set_transactionff ff t /\
  transactionid (timer_step k t w) = transactionid t /\ ctx_type (timer_step k t w) = ctx_type t.
Proof.
  unfold timer_step. repeat case_match; eauto; exists (transactionff t); by destruct t.
Qed.

Lemma timers_all_ok app k l : forall o,
  stack_ok o app -> NoDup l -> (forall id, id ∈ l -> is_Some (transactions o !! id)) ->
  returns (timers_all k l o) (fun o' =>
    stack_ok o' app /\ sip_world o' = sip_world o /\
    (forall k', transactions_of k' o' = transactions_of k' o) /\
    (forall id t, id ∈ l -> transactions o !! id = Some t ->
       transactions o' !! id = Some (timer_step k t (sip_world o))) /\
    (forall id, id ∉ l -> transactions o' !! id = transactions o !! id)).
Proof.
  induction l as [|id l IH]; intros o Hok Hnd Hl; cbn [timers_all].
  { split_and!; [done|done|done| |done]. intros id t Hid. by apply not_elem_of_nil in Hid. }
  apply NoDup_cons in Hnd as [Hnin Hnd]. destruct (Hl id) as [t Ht]; [left|].
  unfold get_transaction. rewrite Ht. cbn [lift].
  assert (transactionid (timer_step k t (sip_world o)) = id) as Hid.
  { destruct (timer_step_fields k t (sip_world o)) as (_ & _ & -> & _).
    by destruct (so_transactions _ _ Hok id t Ht) as [[? ? ? ? ?] _]. }
  eapply returns_mono; [apply IH; [by eapply timer_step_ok|done|]|].
  - intros id' Hid'. cbn. rewrite Hid. destruct (decide (id' = id)) as [->|].
    + rewrite lookup_insert_eq. eauto.
    + rewrite lookup_insert_ne by done. apply Hl. by right.
  - intros o' (Hok' & Hw & Hk & Hin & Hout). split_and!; [done|done| | |].
    + intros k'. rewrite Hk. by destruct k'.
    + intros id' t' Hid' Ht'. apply elem_of_cons in Hid' as [->|Hid'].
      * rewrite Hout by done. cbn. rewrite Hid, lookup_insert_eq. congruence.
      * apply Hin; [done|]. cbn. rewrite Hid, lookup_insert_ne; [done|]. intros ->. done.
    + intros id' Hid'. apply not_elem_of_cons in Hid' as [Hne Hn]. rewrite Hout by done. cbn.
      by rewrite Hid, lookup_insert_ne.
Qed.

Lemma osip_timers_execute_ok k o app : stack_ok o app ->
  returns (osip_timers_execute k o) (fun o' =>
    stack_ok o' app /\ sip_world o' = sip_world o /\
    (forall k', transactions_of k' o' = transactions_of k' o) /\
    (forall id t, id ∈ transactions_of k o -> transactions o !! id = Some t ->
       transactions o' !! id = Some (timer_step k t (sip_world o))) /\
    (forall id, id ∉ transactions_of k o -> transactions o' !! id = transactions o !! id)).
Proof.
  intros Hok. destruct (so_lists _ _ Hok k) as [Hn Hl]. apply timers_all_ok; [done|done|].
  intros id (t & Ht & _)%Hl. eauto.
Qed.

(** ** New transactions *)

(** The type of the event is the one of its message: [osip_parse] makes incoming events so,
    [osip_new_outgoing_sipmessage] outgoing ones. *)
Definition typed (evt : osip_event) (m : osip_message) : Prop :=
  evt_set_type_incoming_sipmessage m = Done (e_type evt) \/
  evt_set_type_outgoing_sipmessage m = Done (e_type evt).

Lemma streq_some a b : is_Some a -> is_Some b -> exists r, streq a b = Done r.
Proof. intros [x ->] [y ->]. cbn. eauto. Qed.

Lemma typed_request evt m : typed evt m -> msg_ok m = true ->
  EVT_IS_INCOMINGREQ (e_type evt) || EVT_IS_OUTGOINGREQ (e_type evt) = MSG_IS_REQUEST m.
Proof.
  intros Ht Hm%msg_ok_good. destruct (MSG_IS_REQUEST m) eqn:E.
  - destruct (mg_request _ Hm E) as [[s Hs] _].
    destruct Ht as [Ht|Ht]; unfold evt_set_type_incoming_sipmessage, evt_set_type_outgoing_sipmessage,
      MSG_IS in Ht; rewrite E, Hs in Ht; cbn in Ht; repeat case_match; simplify_eq; by rewrite <- Ht.
  - destruct Ht as [Ht|Ht]; unfold evt_set_type_incoming_sipmessage, evt_set_type_outgoing_sipmessage in Ht;
      rewrite E in Ht; repeat case_match; simplify_eq; by rewrite <- Ht.
Qed.

Lemma init_headers_ok k id now m t : init_headers k id now m = Ok t ->
  exists via from to cid cseq,
    t = mkTransaction id [] (Some via) (Some from) (Some to) (Some cid) (Some cseq)
          None None None (initial_state k) now 0 0 0 k None None None None /\
    headers_ok t /\ names_transport m = true.
Proof.
  unfold init_headers. destruct (vias m) as [|v l] eqn:Ev; [done|].
  destruct (osip_via_clone (Some v)) as [via|] eqn:E1; [|done].
  destruct (osip_from_clone (m_from m)) as [from|] eqn:E2; [|done].
  destruct (osip_from_clone (m_to m)) as [to|] eqn:E3; [|done].
  destruct (osip_call_id_clone (call_id m)) as [cid|] eqn:E4; [|done].
  destruct (osip_cseq_clone (m_cseq m)) as [cseq|] eqn:E5; [|done]. intros [= <-].
  destruct (via_clone_ok _ _ E1) as (Hn & [p Hp] & Hp' & _).
  do 5 eexists. split; [done|]. split; [split; cbn|].
  - eauto.
  - eexists. split; [done|]. by eapply from_clone_ok.
  - eexists. split; [done|]. by eapply from_clone_ok.
  - eexists. split; [done|]. apply not_null. by eapply cseq_clone_ok.
  - unfold names_transport, via_protocol, osip_message_get_via. rewrite Ev. cbn in Hp'.
    by rewrite <- Hp', Hp.
Qed.

Lemma names_transport_protocol m n : names_transport m = true -> exists p, via_protocol n m = Ok p.
Proof.
  unfold names_transport, via_protocol. destruct (osip_message_get_via m) as [v|]; [|done].
  destruct (v_protocol v); [eauto|done].
Qed.

Lemma init_context_ok k m w t : msg_ok m = true -> is_Some (req_uri m) -> names_transport m = true ->
  exists t', init_context k m w t = Done (Ok t') /\
    match k with
    | ICT => exists c, t' = set_ict_context (Some c) t
    | IST => exists c, t' = set_ist_context (Some c) t
    | NICT => exists c, t' = set_nict_context (Some c) t
    | NIST => exists c, t' = set_nist_context (Some c) t
    end.
Proof.
  intros Hm Hu Hn. destruct (returns_done _ _ (request_destination_ok m Hm Hu)) as ([host port] & Hd & _).
  destruct k; cbn; unfold osip_ict_init, osip_nict_init, osip_ist_init, osip_nist_init.
  - destruct (names_transport_protocol m OSIP_SYNTAXERROR Hn) as [p ->]. rewrite Hd. eauto.
  - destruct (names_transport_protocol m OSIP_UNDEFINED_ERROR Hn) as [p ->].
    destruct (is_reliable p); eauto.
  - destruct (names_transport_protocol m OSIP_UNDEFINED_ERROR Hn) as [p ->]. rewrite Hd. eauto.
  - destruct (names_transport_protocol m OSIP_UNDEFINED_ERROR Hn) as [p ->]. eauto.
Qed.

Lemma lookup_next o app : stack_ok o app -> transactions o !! next_transactionid o = None.
Proof.
  intros Hok. destruct (transactions o !! next_transactionid o) as [t|] eqn:E; [|done].
  destruct (so_transactions _ _ Hok _ _ E). lia.
Qed.

(** A transaction in its initial state, with its context. *)
Record fresh_transaction (k : osip_fsm_type_t) (id : Z) (t : osip_transaction) : Prop := {
  ft_id : transactionid t = id;
  ft_type : ctx_type t = k;
  ft_state : t_state t = initial_state k;
  ft_fifo : transactionff t = [];
  ft_messages : orig_request t = None /\ last_response t = None /\ t_ack t = None;
  ft_shape : shape t = true;
  ft_headers : headers_ok t
}.

Lemma add_transaction_ok k o app t :
  stack_ok o app -> fresh_transaction k (next_transactionid o) t ->
  stack_ok (osip_add k (next_transactionid o)
             (put_transaction t (set_next_transactionid (next_transactionid o + 1) o))) app.
Proof.
  intros Hok [Hid Hk Hst Hff (Ho & Hl & Ha) Hsh Hhd]. pose proof (lookup_next _ _ Hok) as Hnew.
  split.
  - eapply heap_ok_eq; [by destruct k; apply Hok|]. intros i. pcount.
    assert (forall o', transactions (osip_add k (next_transactionid o) o') = transactions o') as ->
      by (intros; by destruct k).
    assert (forall o', ixt_retransmissions (osip_add k (next_transactionid o) o') = ixt_retransmissions o')
      as -> by (intros; by destruct k).
    cbn. rewrite Hid, owners_new; [done|done|]. unfold held. by rewrite Hff, Ho, Hl, Ha.
  - intros id t' H'. assert (transactions (put_transaction t o) !! id = Some t') as H2 by (by destruct k).
    assert (sip_world (osip_add k (next_transactionid o) (put_transaction t
      (set_next_transactionid (next_transactionid o + 1) o))) = sip_world o) as -> by (by destruct k).
    assert (next_transactionid (osip_add k (next_transactionid o) (put_transaction t
      (set_next_transactionid (next_transactionid o + 1) o))) = next_transactionid o + 1) as -> by (by destruct k).
    cbn in H2. rewrite Hid in H2. apply lookup_insert_Some in H2 as [[<- <-]|[_ H2]].
    + split; [|lia]. split; [done|done| |done|by rewrite Hff]. intros _ i m Hi. by rewrite Ho in Hi.
    + destruct (so_transactions _ _ Hok id t' H2). split; [done|lia].
  - intros k'. destruct (so_lists _ _ Hok k') as [Hn Hl'].
    assert (transactions (osip_add k (next_transactionid o) (put_transaction t
      (set_next_transactionid (next_transactionid o + 1) o))) = <[next_transactionid o := t]> (transactions o))
      as E by (destruct k; cbn; by rewrite Hid).
    rewrite E. assert (forall id, id ∈ transactions_of k' o ->
      exists t', <[next_transactionid o := t]> (transactions o) !! id = Some t' /\ ctx_type t' = k') as Hl2.
    { intros id (t' & H' & Hk')%Hl'. exists t'. split; [|done]. rewrite lookup_insert_ne; [done|].
      intros <-. by rewrite Hnew in H'. }
    destruct (decide (k' = k)) as [->|Hne].
    + assert (transactions_of k (osip_add k (next_transactionid o) (put_transaction t
        (set_next_transactionid (next_transactionid o + 1) o))) =
        transactions_of k o ++ [next_transactionid o]) as -> by (by destruct k).
      split.
      * apply NoDup_app. split; [done|]. split; [|apply NoDup_singleton].
        intros id (t' & H' & _)%Hl' ->%list_elem_of_singleton. by rewrite Hnew in H'.
      * intros id [Hid'| ->%list_elem_of_singleton]%elem_of_app; [by apply Hl2|].
        exists t. by rewrite lookup_insert_eq.
    + assert (transactions_of k' (osip_add k (next_transactionid o) (put_transaction t
        (set_next_transactionid (next_transactionid o + 1) o))) = transactions_of k' o) as ->
        by (destruct k, k'; done).
      done.
Qed.

Lemma osip_transaction_init_ok k o app i m :
  stack_ok o app -> msgs (sip_world o) !! i = Some m -> msg_ok m = true -> is_Some (req_uri m) ->
  next_transactionid o < 2 ^ 31 - 1 ->
  returns (osip_transaction_init k (Some i) o) (fun '(r, o') =>
    stack_ok o' app /\ sip_world o' = sip_world o /\
    match r with
    | Ok id => id = next_transactionid o /\
        exists t, transactions o' = <[id := t]> (transactions o) /\ fresh_transaction k id t
    | Err _ => transactions o' = transactions o
    end).
Proof.
  intros Hok Hi Hm Hu Hlt. unfold osip_transaction_init. cbn [deref lift]. rewrite Hi. cbn [lift].
  destruct (is_null _); [done|]. destruct (Z.eqb_spec (next_transactionid o) (2 ^ 31 - 1)); [lia|].
  destruct (init_headers _ _ _ m) as [t|e] eqn:Et.
  - destruct (init_headers_ok _ _ _ _ _ Et) as (via & from & to & cid & cseq & -> & Hh & Hn).
    match goal with |- context [init_context k m ?w ?t] =>
      destruct (init_context_ok k m w t Hm Hu Hn) as (t' & -> & Hctx) end. cbn [returns].
    assert (fresh_transaction k (next_transactionid o) t') as Hf.
    { destruct Hh. destruct k, Hctx as [c ->]; split; cbn; auto; by split. }
    split_and!; [by apply add_transaction_ok|by destruct k|done|].
    exists t'. split; [|done]. destruct k; cbn; by rewrite (ft_id _ _ _ Hf).
  - cbn. split_and!; [|done|done]. destruct Hok as [H1 H2 H3]. split; [done| |done].
    intros id t Ht. destruct (H2 id t Ht). split; [done|]. cbn. lia.
Qed.

Lemma osip_create_transaction_ok o app evt i m :
  stack_ok o app -> e_sip evt = Some i -> msgs (sip_world o) !! i = Some m -> msg_ok m = true ->
  typed evt m -> next_transactionid o < 2 ^ 31 - 1 ->
  returns (osip_create_transaction evt o) (fun '(r, evt', o') =>
    stack_ok o' app /\ sip_world o' = sip_world o /\
    match r with
    | Some id => id = next_transactionid o /\ evt' = set_e_transactionid id evt /\
        exists t, transactions o' = <[id := t]> (transactions o) /\ fresh_transaction (ctx_type t) id t /\
          ctx_type t = (if bool_decide (m_cseq m ≫= cs_method = Some "INVITE")
                        then if EVT_IS_INCOMINGREQ (e_type evt) then IST else ICT
                        else if EVT_IS_INCOMINGREQ (e_type evt) then NIST else NICT)
    | None => transactions o' = transactions o
    end).
Proof.
  intros Hok Hs Hi Hm Hty Hlt. unfold osip_create_transaction. rewrite Hs. cbn [deref lift]. rewrite Hi. cbn [lift].
  pose proof (typed_request _ _ Hty Hm) as Hr. pose proof (msg_ok_good _ Hm) as Hg.
  destruct (MSG_IS_REQUEST m) eqn:E.
  - destruct (mg_request _ Hg E) as [[s Hsm] Hu]. unfold MSG_IS. rewrite E, Hsm.
    destruct (m_cseq m ≫= cs_method) as [method|]; [|done]. cbn [is_null orb streq lift].
    destruct (String.eqb_spec method s) as [->|]; [|done]. cbn [negb].
    destruct (String.eqb s "ACK"); [done|]. rewrite Hr.
    match goal with |- context [osip_transaction_init ?k _ _] =>
      eapply returns_bind; [by apply (osip_transaction_init_ok k o app i m)|] end.
    intros [[id|e] o'] (Hok' & Hw & Ho'); [|done].
    destruct Ho' as [-> (t & Ht & Hf)]. split_and!; [done|done|done|done|].
    exists t. pose proof (ft_type _ _ _ Hf) as Hk. split_and!; [done|by rewrite Hk|]. rewrite Hk.
    destruct (String.eqb_spec s "INVITE") as [->|Hne].
    + rewrite bool_decide_true by done. done.
    + rewrite bool_decide_false by congruence. done.
  - cbn [negb]. unfold MSG_IS. rewrite E, Hr. done.
Qed.

(** ** Matching *)

Lemma from_tag_match_ok f1 f2 : if_any from_ok f1 = true -> if_any from_ok f2 = true ->
  returns (osip_from_tag_match f1 f2) (fun _ => True).
Proof.
  intros H1 H2. unfold osip_from_tag_match. destruct f1 as [f1|], f2 as [f2|]; try done.
  cbn in H1, H2. unfold from_ok in H1, H2. apply andb_true_iff in H1 as [H1 _], H2 as [H2 _].
  do 2 (asks get_byname_ok). by repeat case_match.
Qed.

Lemma via_to_str_ok v : if_any (fun v => named (via_params v)) v = true ->
  returns (osip_via_to_str v) (fun _ => True).
Proof.
  intros H. unfold osip_via_to_str. destruct v as [v|]; [|done]. cbn in H.
  destruct (v_host v), (v_version v), (v_protocol v); try done.
  eapply returns_bind with (P := fun _ => True); [|done].
  unfold named in H. induction (via_params v) as [|p l IH]; [done|]. cbn in *.
  apply andb_true_iff in H as [Hp Hl]. destruct (gname p); [|done]. cbn.
  by eapply returns_bind; [apply IH|].
Qed.

Lemma via_match_ok v1 v2 : if_any (fun v => named (via_params v)) v1 = true ->
  if_any (fun v => named (via_params v)) v2 = true -> returns (osip_via_match v1 v2) (fun _ => True).
Proof.
  intros H1 H2. unfold osip_via_match. case_match; [done|].
  eapply returns_bind; [by apply via_to_str_ok|]. intros [s1|] _; [|done].
  eapply returns_bind; [by apply via_to_str_ok|]. intros [s2|] _; done.
Qed.

Lemma matching_response_ok tr m : headers_ok tr -> msg_ok m = true ->
  returns (matching_response_17_1_3 tr m) (fun _ => True).
Proof.
  intros [(v & Hv & Hn) _ _ (c & Hc & Hcm)] Hm%msg_ok_good. unfold matching_response_17_1_3.
  destruct (m_cseq m ≫= cs_method) as [method|] eqn:Em; [|by rewrite orb_true_r].
  case_match; [done|]. destruct (vias m) as [|via l] eqn:Evia; [done|]. rewrite Hv. cbn [lift].
  eapply returns_bind; [by apply get_byname_ok|]. intros [b|] _; [|done].
  eapply returns_bind; [apply get_byname_ok; apply (mg_vias _ Hm); rewrite Evia; left|].
  intros b' _. destruct (b' ≫= gvalue), (gvalue b); try done. case_match; [done|].
  rewrite Hc. cbn. destruct Hcm as [cm ->]. done.
Qed.

(** A request has a To, which the parser does not ask for. *)
Definition complete (m : osip_message) : Prop := MSG_IS_REQUEST m = true -> is_Some (m_to m).

Lemma matching_request_2543_ok f tr m via w :
  heap_ok f w -> (forall i, orig_request tr = Some i -> (0 < f i)%nat) ->
  headers_ok tr -> msg_ok m = true -> complete m -> named (via_params via) = true ->
  returns (matching_request_2543 tr m via w) (fun _ => True).
Proof.
  intros Hh Ho [(v & Hv & Hn) (from & Hf & Hfok) (to & Ht & Htok) _] Hm Hc Hvia. pose proof (msg_ok_good _ Hm) as Hg.
  unfold matching_request_2543. case_match; [done|].
  assert (exists b, MSG_IS "ACK" m = Done b /\ (b = true -> MSG_IS_REQUEST m = true)) as (ack & -> & Hack).
  { unfold MSG_IS. destruct (MSG_IS_REQUEST m) eqn:E; [|by exists false].
    destruct (mg_request _ Hg E) as [[s ->] _]. cbn. eauto. }
  assert (if_any from_ok (m_to m) = true /\ if_any from_ok (m_from m) = true) as [Hto Hfrom].
  { destruct (m_to m) eqn:E1, (m_from m) eqn:E2; cbn; eauto using mg_to, mg_from. }
  eapply returns_bind with (P := fun _ => True).
  - destruct ack.
    + destruct (Hc (Hack eq_refl)) as [to2 Hto2]. rewrite Ht, Hto2 in *. cbn [lift].
      cbn in Hto. pose proof Htok as N1. pose proof Hto as N2. unfold from_ok in N1, N2.
      apply andb_true_iff in N1 as [N1 _], N2 as [N2 _].
      eapply returns_bind; [by apply get_byname_ok|]. intros p1 _.
      eapply returns_bind; [by apply get_byname_ok|]. intros p2 _.
      destruct p1, p2; try done; (eapply returns_bind; [by apply from_tag_match_ok|done]).
    + destruct (orig_request tr) as [i|] eqn:Eo; [|done].
      destruct (deref_ok _ _ _ Hh (Ho i eq_refl)) as (orig & -> & _ & Horig).
      destruct (m_to orig) as [to2|] eqn:E; [|done].
      eapply returns_bind; [apply from_tag_match_ok; [|done]|done].
      apply msg_ok_good in Horig. cbn. by eapply mg_to.
  - intros [] _; [|done]. cbn [negb]. rewrite Hf.
    eapply returns_bind; [by apply from_tag_match_ok|]. intros r _. case_match; [done|]. case_match; [done|].
    rewrite Hv. eapply returns_bind; [by apply via_match_ok|done].
Qed.

Lemma matching_request_ok f tr m w :
  heap_ok f w -> (forall i, orig_request tr = Some i -> (0 < f i)%nat) ->
  headers_ok tr -> msg_ok m = true -> complete m ->
  returns (matching_request_17_2_3 tr m w) (fun _ => True).
Proof.
  intros Hh Ho Hhd Hm Hc. pose proof (msg_ok_good _ Hm) as Hg.
  destruct Hhd as [(v & Hv & Hn) ? ? (c & Hcs & [cm Hcm])] eqn:E. clear E.
  unfold matching_request_17_2_3.
  destruct (m_cseq m ≫= cs_method) as [method|] eqn:Em; [|by rewrite orb_true_r].
  case_match; [done|]. destruct (vias m) as [|via l] eqn:Evia; [done|]. rewrite Hv. cbn [lift].
  assert (named (via_params via) = true) as Hvn by (apply (mg_vias _ Hg); rewrite Evia; left).
  eapply returns_bind; [by apply get_byname_ok|]. intros b1 _.
  eapply returns_bind; [by apply get_byname_ok|]. intros b2 _.
  assert (returns (matching_request_2543 tr m via w) (fun _ => True)) as H2543
    by (by eapply matching_request_2543_ok).
  destruct b2 as [b2|], b1 as [b1|]; try done.
  destruct (gvalue b2), (gvalue b1); try done. case_match; [done|]. case_match; [|done].
  case_match; [done|]. case_match; [done|]. rewrite Hcs. cbn. rewrite Hcm. done.
Qed.

Lemma find_first_ok matches l o :
  (forall id, id ∈ l -> exists t, transactions o !! id = Some t /\ returns (matches t) (fun _ => True)) ->
  returns (find_first matches l o) (fun r => forall id, r = Some id -> id ∈ l).
Proof.
  induction l as [|id l IH]; intros Hl; cbn [find_first]; [done|].
  destruct (Hl id) as (t & Ht & Hm); [left|]. unfold get_transaction. rewrite Ht. cbn [lift].
  eapply returns_bind; [exact Hm|]. intros i _. case_match; [by intros ? [= <-]; left|].
  eapply returns_mono; [apply IH|].
  - intros id' Hid'. apply Hl. by right.
  - intros r Hr id' Hid'. right. by apply Hr.
Qed.

Lemma osip_transaction_find_ok k o app evt i m :
  stack_ok o app -> e_sip evt = Some i -> msgs (sip_world o) !! i = Some m -> msg_ok m = true -> complete m ->
  returns (osip_transaction_find (transactions_of k o) evt o)
    (fun r => forall id, r = Some id -> id ∈ transactions_of k o).
Proof.
  intros Hok Hs Hi Hm Hc. destruct (so_lists _ _ Hok k) as [_ Hl]. unfold osip_transaction_find.
  assert (forall id, id ∈ transactions_of k o -> exists t, transactions o !! id = Some t /\
    headers_ok t /\ forall j, orig_request t = Some j -> (0 < owners (pointers o app) j)%nat) as Hl'.
  { intros id (t & Ht & _)%Hl. exists t. destruct (so_transactions _ _ Hok id t Ht) as [Hwf _].
    split_and!; [done|by apply Hwf|]. intros j Hj. eapply live_pointer; [done| |exact Hj].
    eapply held_pointer; [done|]. apply elem_of_app. right. left. }
  rewrite Hs. cbn [deref lift]. rewrite Hi. cbn [lift].
  destruct (transactions_of k o) as [|id0 l] eqn:El; [done|]. rewrite <- El in *.
  repeat case_match; apply find_first_ok; intros id Hid; destruct (Hl' id Hid) as (t & Ht & Hhd & Ho);
    exists t; split; auto.
  - eapply matching_request_ok; [by apply Hok|done..].
  - by apply matching_response_ok.
  - done.
Qed.

Lemma transactions_for_ok evt m c : msg_ok m = true -> m_cseq m = Some c ->
  returns (transactions_for evt m (cs_method c)) (fun _ => True).
Proof.
  intros Hm%msg_ok_good Hc. unfold transactions_for. case_match; [|done].
  destruct (mg_cseq _ Hm _ Hc) as [s ->]. done.
Qed.

(** A message is given to a transaction of the stack, or the application keeps it. *)
Lemma osip_find_transaction_and_add_event_ok o app i app' evt m :
  stack_ok o app -> (forall j, owners (map Some app) j = owners (Some i :: map Some app') j) ->
  e_sip evt = Some i -> msgs (sip_world o) !! i = Some m ->
  msg_ok m = true -> complete m -> EVT_IS_MSG (e_type evt) = true -> brings_transport evt (sip_world o) ->
  returns (osip_find_transaction_and_add_event evt o) (fun '(r, o') =>
    sip_world o' = sip_world o /\
    if r =? 0 then stack_ok o' app' else o' = o /\ r = OSIP_UNDEFINED_ERROR).
Proof.
  intros Hok Happ Hs Hi Hm Hc Hty Hb. unfold osip_find_transaction_and_add_event, osip_find_transaction_aux.
  rewrite Hs. cbn [deref lift]. rewrite Hi. cbn [lift].
  destruct (m_cseq m) as [cseq|] eqn:Ecs; [|done].
  destruct (returns_done _ _ (transactions_for_ok evt m cseq Hm Ecs)) as (k & -> & _).
  destruct k as [k|]; [|done].
  destruct (returns_done _ _ (osip_transaction_find_ok k o _ evt i m Hok Hs Hi Hm Hc)) as (r & -> & Hr).
  destruct r as [id|]; [|done]. specialize (Hr id eq_refl).
  destruct (so_lists _ _ Hok k) as [_ Hl]. destruct (Hl id Hr) as (t & Ht & _).
  unfold osip_transaction_add_event, get_transaction. rewrite Ht. cbn.
  split; [done|]. eapply enqueue_ok; [exact Hok|done| |].
  - split; [cbn; by rewrite Hs, Hty|done].
  - intros j. cbn [e_sip set_e_transactionid]. rewrite Hs. apply Happ.
Qed.

(** ** The end of a transaction *)

Lemma remove_id_ok id o : forall l, (forall id', id' ∈ l -> exists t, transactions o !! id' = Some t /\ transactionid t = id') ->
  NoDup l ->
  returns (remove_id id l o) (fun r => match r with
    | Some l' => exists l1 l2, l = l1 ++ id :: l2 /\ l' = l1 ++ l2
    | None => id ∉ l
    end).
Proof.
  induction l as [|tmp l IH]; intros Hl Hn; cbn [remove_id]; [apply not_elem_of_nil|].
  apply NoDup_cons in Hn as [Hnin Hn]. destruct (Hl tmp) as (t & Ht & Hid); [left|].
  unfold get_transaction. rewrite Ht. cbn [lift]. rewrite Hid.
  destruct (Z.eqb_spec tmp id) as [->|Hne]; [by exists [], l|].
  eapply returns_bind; [apply IH; [|done]; intros; apply Hl; by right|].
  intros [l'|] H; cbn.
  - destruct H as (l1 & l2 & -> & ->). by exists (tmp :: l1), l2.
  - by apply not_elem_of_cons.
Qed.

Lemma set_transactions_of_ok k l o app :
  stack_ok o app -> NoDup l -> (forall id, id ∈ l -> id ∈ transactions_of k o) ->
  stack_ok (set_transactions_of k l o) app.
Proof.
  intros [H1 H2 H3] Hn Hl. split; [by destruct k|by destruct k|].
  intros k'. assert (transactions (set_transactions_of k l o) = transactions o) as -> by (by destruct k).
  destruct (decide (k' = k)) as [->|Hne].
  - assert (transactions_of k (set_transactions_of k l o) = l) as -> by (by destruct k).
    split; [done|]. intros id Hid. by apply H3, Hl.
  - assert (transactions_of k' (set_transactions_of k l o) = transactions_of k' o) as -> by (by destruct k, k').
    apply H3.
Qed.

Lemma osip_remove_transaction_ok id t o app : stack_ok o app -> transactions o !! id = Some t ->
  returns (osip_remove_transaction id o) (fun '(_, o') =>
    stack_ok o' app /\ sip_world o' = sip_world o /\ transactions o' = transactions o /\
    ixt_retransmissions o' = ixt_retransmissions o /\ forall k, id ∉ transactions_of k o').
Proof.
  intros Hok Ht. destruct (so_transactions _ _ Hok id t Ht) as [Hwf _].
  unfold osip_remove_transaction, get_transaction. rewrite Ht. cbn [lift]. rewrite (tw_id _ _ _ Hwf).
  destruct (so_lists _ _ Hok (ctx_type t)) as [Hn Hl].
  eapply returns_bind; [apply remove_id_ok; [|done]|].
  { intros id' (t' & Ht' & _)%Hl. exists t'. split; [done|]. by destruct (so_transactions _ _ Hok id' t' Ht') as [[] _]. }
  intros r Hr. assert (forall k, k <> ctx_type t -> id ∉ transactions_of k o) as Hother.
  { intros k Hk Hin. destruct (so_lists _ _ Hok k) as [_ Hl2]. destruct (Hl2 id Hin) as (t2 & Ht2 & Hk2).
    congruence. }
  destruct r as [l'|].
  - destruct Hr as (l1 & l2 & E & ->). cbn. rewrite E in Hn.
    assert (NoDup (l1 ++ l2) /\ id ∉ l1 ++ l2) as [Hn' Hnin].
    { apply NoDup_app in Hn as (N1 & N2 & N3). apply NoDup_cons in N3 as [N3 N4].
      split; [apply NoDup_app; split_and!; [done| |done]|].
      - intros x Hx Hx2. apply (N2 x Hx). by right.
      - intros [Hx|Hx]%elem_of_app; [|done]. apply (N2 id Hx). left. }
    split_and!; [|by destruct (ctx_type t)..|].
    + apply set_transactions_of_ok; [done|done|]. intros x Hx. rewrite E.
      apply elem_of_app in Hx as [Hx|Hx]; apply elem_of_app; [by left|right; by right].
    + intros k. destruct (decide (k = ctx_type t)) as [->|Hk].
      * by destruct (ctx_type t).
      * assert (transactions_of k (set_transactions_of (ctx_type t) (l1 ++ l2) o) = transactions_of k o) as ->
          by (by destruct (ctx_type t), k). by apply Hother.
  - split_and!; [done..|]. intros k. destruct (decide (k = ctx_type t)) as [->|Hk]; [done|by apply Hother].
Qed.

Lemma free_messages_ok l : forall f w, heap_ok f w -> (forall i, (owners l i <= f i)%nat) ->
  returns (free_messages l w) (fun w' => heap_ok (fun i => (f i - owners l i)%nat) w' /\ does w w' []).
Proof.
  induction l as [|p l IH]; intros f w H Hl; cbn [free_messages].
  { split; [|apply does_nil]. eapply heap_ok_eq; [exact H|]. intros i. cbn. lia. }
  destruct (free_ok p f w H) as (w1 & -> & H1 & D1).
  { intros i ->. specialize (Hl i). cbn in Hl. rewrite decide_True in Hl by done. lia. }
  eapply returns_mono; [apply (IH _ _ H1)|].
  - intros i. specialize (Hl i). unfold less. cbn in Hl. lia.
  - intros w' [H2 D2]. split; [|exact (does_trans _ _ _ _ _ D1 D2)].
    eapply heap_ok_eq; [exact H2|]. intros i. unfold less. cbn. lia.
Qed.

Lemma osip_transaction_free_ok id o app : stack_ok o app -> is_Some (transactions o !! id) ->
  returns (osip_transaction_free id o) (fun o' =>
    stack_ok o' app /\ transactions o' = delete id (transactions o) /\ does (sip_world o) (sip_world o') []).
Proof.
  intros Hok [t Ht]. unfold osip_transaction_free.
  eapply returns_bind; [by eapply osip_remove_transaction_ok|].
  intros [r o1] (Hok1 & Hw & Htr & Hx & Hnin). unfold osip_transaction_free2, get_transaction.
  rewrite Htr, Ht. cbn [lift].
  assert (alive (orig_request t) (sip_world o1) = true) as ->.
  { destruct (orig_request t) as [i|] eqn:Eo; [|done]. cbn. destruct (heap_ok_live _ _ i (so_heap _ _ Hok1)) as [m ->]; [|done].
    eapply live_pointer; [exact Hok1| |reflexivity]. eapply held_pointer; [by rewrite Htr|].
    unfold held. rewrite Eo. apply elem_of_app. right. left. }
  cbn [negb].
  eapply returns_bind; [apply (free_messages_ok (held t) _ _ (so_heap _ _ Hok1))|].
  { intros i. pcount. rewrite Htr, (owners_delete _ _ _ i Ht). lia. }
  intros w' [H' D']. cbn. split_and!; [|done|by rewrite <- Hw].
  split.
  - eapply heap_ok_eq; [exact H'|]. intros i. pcount. rewrite Htr, (owners_delete _ _ _ i Ht). cbn. lia.
  - intros id' t' H. cbn in *. apply lookup_delete_Some in H as [Hne H]. rewrite <- Htr in H.
    split; [by eapply tr_wf_does|]. by eapply (so_transactions _ _ Hok1).
  - intros k. destruct (so_lists _ _ Hok1 k) as [Hn Hl].
    assert (transactions_of k (set_sip_world w' (set_transactions (delete id (transactions o)) o1)) =
      transactions_of k o1) as -> by (by destruct k).
    split; [done|]. intros id' Hid'. destruct (Hl id' Hid') as (t' & H & Hk). cbn. exists t'.
    rewrite Htr in H. rewrite lookup_delete_ne; [done|]. intros ->. by eapply Hnin.
Qed.

(** ** Retransmissions for dialogs *)

Lemma stack_ok_world o app app' l w' out :
  stack_ok o app -> does (sip_world o) w' out ->
  heap_ok (owners (transaction_pointers (transactions o) ++ flat_map ixt_pointers l ++ map Some app')) w' ->
  stack_ok (set_sip_world w' (set_ixt_retransmissions l o)) app'.
Proof.
  intros Hok D H. split; [exact H| |].
  - intros id t Ht. split; [by eapply tr_wf_does|]. by eapply (so_transactions _ _ Hok).
  - intros k. destruct (so_lists _ _ Hok k) as [Hn Hl].
    assert (transactions_of k (set_sip_world w' (set_ixt_retransmissions l o)) = transactions_of k o) as ->
      by (by destruct k). done.
Qed.

Lemma clone_option_ok {A} (clone : option A -> ret A) (P : A -> bool) p p' :
  (forall a b, clone a = Ok b -> P b = true) -> clone_option clone p = Ok p' ->
  if_any P p' = true /\ (is_Some p -> is_Some p').
Proof.
  intros Hc. unfold clone_option. destruct p as [a|]; [|intros [= <-]; split; [done|by intros []]].
  destruct (clone (Some a)) eqn:E; [|done]. intros [= <-]. split; [by eapply Hc|eauto].
Qed.

Lemma clone_message_ok m m' : msg_ok m = true -> clone_message m = Ok m' -> msg_ok m' = true.
Proof.
  intros Hm%msg_ok_good. unfold clone_message. intros H. clones H. simplify_eq.
  destruct (clone_option_ok _ uri_ok _ _ uri_clone_ok E) as [Hu Hsome].
  destruct (clone_option_ok _ from_ok _ _ from_clone_ok E3) as [Hf _].
  destruct (clone_option_ok _ from_ok _ _ from_clone_ok E6) as [Ht _].
  destruct (clone_option_ok _ (fun c => negb (is_null (cs_method c))) _ _ cseq_clone_ok E2) as [Hc _].
  pose proof (osip_list_clone_all _ from_ok _ (fun a b => from_clone_ok (Some a) b) _ E5) as Hr.
  assert (forallb (fun v => named (via_params v)) a7 = true) as Hv.
  { eapply osip_list_clone_all; [|exact E7]. intros v v' H. by apply (via_clone_ok _ _ H). }
  unfold msg_ok. cbn [MSG_IS_REQUEST status_code req_uri m_from m_to routes vias m_cseq sip_method].
  rewrite Hu, Hf, Ht, Hr, Hv, Hc, !andb_true_r. case_match eqn:Er; [|done].
  destruct (mg_request _ Hm Er) as [[s ->] Hs]. destruct (Hsome Hs) as [u ->]. done.
Qed.

Lemma osip_message_clone_ok f i m w : heap_ok f w -> msgs w !! i = Some m -> msg_ok m = true ->
  exists p w', osip_message_clone (Some i) w = Done (p, w') /\ heap_ok (more p f) w' /\
    does w w' [] /\ msgs w' !! i = Some m.
Proof.
  intros H Hi Hm. unfold osip_message_clone, deref. cbn. rewrite Hi. cbn.
  destruct (clone_message m) as [m'|] eqn:E.
  - destruct (allocate_ok m' f w H (clone_message_ok _ _ Hm E)) as (j & w' & Ea & Hj & Hm' & H' & D).
    unfold allocate in Ea. injection Ea as <- <-.
    do 2 eexists. split; [done|]. split_and!; [done|done|]. cbn. rewrite lookup_insert_ne; [done|].
    intros <-. destruct H as [A _ _]. specialize (A (next_msg w)). rewrite Hi, Hj in A. done.
  - exists None, w. split_and!; [done| |apply does_nil|done].
    eapply heap_ok_eq; [exact H|]. intros j. unfold more. case_decide; [done|lia].
Qed.

Lemma osip_start_200ok_ok dialog i m sock o app :
  stack_ok o app -> msgs (sip_world o) !! i = Some m ->
  returns (osip_start_200ok_retransmissions dialog (Some i) sock o) (fun o' => stack_ok o' app).
Proof.
  intros Hok Hi. assert (msg_ok m = true) as Hm by (by eapply ho_good; [by apply Hok|]).
  unfold osip_start_200ok_retransmissions.
  destruct (osip_message_clone_ok _ i m _ (so_heap _ _ Hok) Hi Hm) as (p & w' & -> & H & D & Hi').
  cbn [deref lift]. rewrite Hi'. cbn [lift].
  eapply returns_bind with (P := fun _ => True).
  { unfold osip_response_get_destination. destruct (vias m) as [|v l] eqn:Ev; [done|].
    apply response_destination_ok. apply (mg_vias _ (msg_ok_good _ Hm)). rewrite Ev. left. }
  intros [dest port] _. cbn. eapply stack_ok_world; [exact Hok|exact D|].
  eapply heap_ok_eq; [exact H|]. intros j. unfold more. pcount. cbn. repeat case_decide; simplify_eq; lia.
Qed.

Lemma osip_start_ack_ok dialog i m dest port sock o app :
  stack_ok o app -> msgs (sip_world o) !! i = Some m ->
  returns (osip_start_ack_retransmissions dialog (Some i) dest port sock o) (fun o' => stack_ok o' app).
Proof.
  intros Hok Hi. assert (msg_ok m = true) as Hm by (by eapply ho_good; [by apply Hok|]).
  unfold osip_start_ack_retransmissions.
  destruct (osip_message_clone_ok _ i m _ (so_heap _ _ Hok) Hi Hm) as (p & w' & -> & H & D & Hi').
  cbn. eapply stack_ok_world; [exact Hok|exact D|].
  eapply heap_ok_eq; [exact H|]. intros j. unfold more. pcount. cbn. repeat case_decide; simplify_eq; lia.
Qed.

Lemma ixt_free_ok x f w : heap_ok f w -> (forall i, (owners (ixt_pointers x) i <= f i)%nat) ->
  returns (ixt_free x w) (fun w' =>
    heap_ok (fun i => (f i - owners (ixt_pointers x) i)%nat) w' /\ does w w' []).
Proof.
  intros H Hl. pose proof (free_messages_ok (ixt_pointers x) f w H Hl) as R.
  unfold ixt_free. cbn [ixt_pointers free_messages] in R.
  destruct (osip_message_free (ixt_ack x) w) as [w1| |]; [|done..].
  by destruct (osip_message_free (msg2xx x) w1).
Qed.

Lemma stop_from_dialog_ok dialog l : forall g w,
  heap_ok (fun i => (owners (flat_map ixt_pointers l) i + g i)%nat) w ->
  returns (stop_from_dialog dialog l w) (fun '(l', w') =>
    heap_ok (fun i => (owners (flat_map ixt_pointers l') i + g i)%nat) w' /\ does w w' []).
Proof.
  induction l as [|x l IH]; intros g w H; cbn [stop_from_dialog]; [split; [done|apply does_nil]|].
  case_match.
  - eapply returns_bind; [apply (ixt_free_ok x _ _ H)|].
    { intros i. cbn [flat_map]. rewrite owners_app. lia. }
    intros w1 [H1 D1]. eapply returns_mono; [apply (IH g)|].
    + eapply heap_ok_eq; [exact H1|]. intros i. cbn [flat_map]. rewrite owners_app. lia.
    + intros [l' w'] [H2 D2]. split; [done|exact (does_trans _ _ _ _ _ D1 D2)].
  - eapply returns_bind; [apply (IH (fun i => (owners (ixt_pointers x) i + g i)%nat))|].
    + eapply heap_ok_eq; [exact H|]. intros i. cbn [flat_map]. rewrite owners_app. lia.
    + intros [l' w'] [H2 D2]. split; [|done]. eapply heap_ok_eq; [exact H2|]. intros i.
      cbn [flat_map]. rewrite owners_app. lia.
Qed.

Lemma osip_stop_from_dialog_ok dialog o app : stack_ok o app ->
  returns (osip_stop_retransmissions_from_dialog dialog o) (fun o' => stack_ok o' app).
Proof.
  intros Hok. unfold osip_stop_retransmissions_from_dialog.
  eapply returns_bind; [apply (stop_from_dialog_ok dialog _ (fun i =>
    (owners (transaction_pointers (transactions o)) i + owners (map Some app) i)%nat))|].
  - eapply heap_ok_eq; [by apply Hok|]. intros i. pcount. lia.
  - intros [l' w'] [H D]. cbn. eapply stack_ok_world; [exact Hok|exact D|].
    eapply heap_ok_eq; [exact H|]. intros i. rewrite !owners_app. lia.
Qed.

Lemma ixt_retransmit_ok x current f w :
  heap_ok f w -> (forall i, (owners (ixt_pointers x) i <= f i)%nat) ->
  returns (ixt_retransmit x current w) (fun '(x', w') => exists out,
    ixt_pointers x' = ixt_pointers x /\ heap_ok f w' /\ does w w' out).
Proof.
  intros H Hl. unfold ixt_retransmit. case_match; [|exists []; auto using does_nil].
  assert (forall i tr host port, Some i ∈ ixt_pointers x -> exists r w', cb_send_message tr (Some i) host port w = Done (r, w')
    /\ heap_ok f w' /\ does w w' [Send tr i host port r]) as Hsend.
  { intros i tr host port Hin. apply send_ok; [done|]. specialize (Hl i).
    pose proof (owners_elem _ _ i Hin eq_refl). lia. }
  cbn. destruct (ixt_ack x) as [i|] eqn:Ea.
  - destruct (Hsend i None (ixt_dest x) (ixt_port x)) as (r & w' & E & H' & D).
    { unfold ixt_pointers. rewrite Ea. left. }
    rewrite E. cbn. eexists. split_and!; [|done|done]. unfold ixt_pointers. cbn. by rewrite Ea.
  - destruct (msg2xx x) as [i|] eqn:E2.
    + destruct (Hsend i None (ixt_dest x) (ixt_port x)) as (r & w' & E & H' & D).
      { unfold ixt_pointers. rewrite E2. right. left. }
      rewrite E. cbn. eexists. split_and!; [|done|done]. unfold ixt_pointers. cbn. by rewrite Ea, E2.
    + cbn. exists []. split_and!; [|done|apply does_nil]. unfold ixt_pointers. cbn. by rewrite Ea, E2.
Qed.

Lemma retransmissions_all_ok current l : forall g w,
  heap_ok (fun i => (owners (flat_map ixt_pointers l) i + g i)%nat) w ->
  returns (retransmissions_all l current w) (fun '(l', w') => exists out,
    heap_ok (fun i => (owners (flat_map ixt_pointers l') i + g i)%nat) w' /\ does w w' out).
Proof.
  induction l as [|x l IH]; intros g w H; cbn [retransmissions_all]; [exists []; split; [done|apply does_nil]|].
  eapply returns_bind; [apply (ixt_retransmit_ok x current _ _ H)|].
  { intros i. cbn [flat_map]. rewrite owners_app. lia. }
  intros [x' w1] (out1 & Hx & H1 & D1). case_match.
  - eapply returns_bind; [apply (ixt_free_ok x' _ _ H1)|].
    { intros i. rewrite Hx. cbn [flat_map]. rewrite owners_app. lia. }
    intros w2 [H2 D2]. eapply returns_mono; [apply (IH g)|].
    + eapply heap_ok_eq; [exact H2|]. intros i. rewrite Hx. cbn [flat_map]. rewrite owners_app. lia.
    + intros [l' w'] (out3 & H3 & D3). eexists. split; [done|].
      eapply does_trans; [exact D1|]. eapply does_trans; [exact D2|exact D3].
  - eapply returns_bind; [apply (IH (fun i => (owners (ixt_pointers x) i + g i)%nat))|].
    + eapply heap_ok_eq; [exact H1|]. intros i. cbn [flat_map]. rewrite owners_app. lia.
    + intros [l' w'] (out2 & H2 & D2). eexists. split; [|by eapply does_trans].
      eapply heap_ok_eq; [exact H2|]. intros i. cbn [flat_map]. rewrite owners_app, Hx. lia.
Qed.

Lemma osip_retransmissions_execute_ok o app : stack_ok o app ->
  returns (osip_retransmissions_execute o) (fun o' => stack_ok o' app).
Proof.
  intros Hok. unfold osip_retransmissions_execute.
  eapply returns_bind; [apply (retransmissions_all_ok _ _ (fun i =>
    (owners (transaction_pointers (transactions o)) i + owners (map Some app) i)%nat))|].
  - eapply heap_ok_eq; [by apply Hok|]. intros i. pcount. lia.
  - intros [l' w'] (out & H & D). cbn. eapply stack_ok_world; [exact Hok|exact D|].
    eapply heap_ok_eq; [exact H|]. intros i. rewrite !owners_app. lia.
Qed.
