(* ===== verification/SipDialog.v ===== *)
(** The dialogs of SIP: the model of src/osip2/osip_dialog.c of libosip2, and of the end of the
    retransmissions of a 2xx in src/osip2/osip.c, which looks for the dialog of an ACK. *)

From stdpp Require Import base list option numbers strings gmap.
From S2P Require Import Prelude.
From S2P Require Import SipTypes.
From S2P Require Import SipMessage.
From S2P Require Import SipUri.
From S2P Require Import SipFsm.
From S2P Require Import SipStack.
From S2P Require Import SipHeaders.

Local Open Scope Z_scope.
Open Scope c_scope.

(** ** Data *)

Definition OSIP_WRONG_STATE : Z := -3.

(** The states of a dialog, of the enumeration [state_t]. *)
Inductive dialog_state : Set := DIALOG_EARLY | DIALOG_CONFIRMED | DIALOG_CLOSE.

#[export] Instance dialog_state_eq_dec : EqDecision dialog_state.
Proof. solve_decision. Defined.

Inductive osip_dialog_type_t : Set := CALLER | CALLEE.

(** Without [your_instance], which belongs to the application. *)
Record osip_dialog := mkDialog {
  d_call_id : option string;
  local_tag : option string;
  remote_tag : option string;
  line_param : option string;
  route_set : list osip_from;
  local_cseq : Z;
  remote_cseq : Z;
  remote_uri : option osip_from;
  local_uri : option osip_from;
  remote_contact_uri : option osip_from;
  secure : Z;
  d_type : osip_dialog_type_t;
  d_state : dialog_state
}.

Definition set_remote_tag v d : osip_dialog := mkDialog
  (d_call_id d) (local_tag d) v (line_param d) (route_set d) (local_cseq d) (remote_cseq d)
  (remote_uri d) (local_uri d) (remote_contact_uri d) (secure d) (d_type d) (d_state d).
Definition set_route_set v d : osip_dialog := mkDialog
  (d_call_id d) (local_tag d) (remote_tag d) (line_param d) v (local_cseq d) (remote_cseq d)
  (remote_uri d) (local_uri d) (remote_contact_uri d) (secure d) (d_type d) (d_state d).
Definition set_local_cseq v d : osip_dialog := mkDialog
  (d_call_id d) (local_tag d) (remote_tag d) (line_param d) (route_set d) v (remote_cseq d)
  (remote_uri d) (local_uri d) (remote_contact_uri d) (secure d) (d_type d) (d_state d).
Definition set_remote_cseq v d : osip_dialog := mkDialog
  (d_call_id d) (local_tag d) (remote_tag d) (line_param d) (route_set d) (local_cseq d) v
  (remote_uri d) (local_uri d) (remote_contact_uri d) (secure d) (d_type d) (d_state d).
Definition set_remote_contact_uri v d : osip_dialog := mkDialog
  (d_call_id d) (local_tag d) (remote_tag d) (line_param d) (route_set d) (local_cseq d)
  (remote_cseq d) (remote_uri d) (local_uri d) v (secure d) (d_type d) (d_state d).
Definition set_d_type v d : osip_dialog := mkDialog
  (d_call_id d) (local_tag d) (remote_tag d) (line_param d) (route_set d) (local_cseq d)
  (remote_cseq d) (remote_uri d) (local_uri d) (remote_contact_uri d) (secure d) v (d_state d).
Definition set_d_state v d : osip_dialog := mkDialog
  (d_call_id d) (local_tag d) (remote_tag d) (line_param d) (route_set d) (local_cseq d)
  (remote_cseq d) (remote_uri d) (local_uri d) (remote_contact_uri d) (secure d) (d_type d) v.

(** A message with the two lists of headers that only dialogs look at. *)
Record dialog_message := mkDialogMessage {
  d_msg :> osip_message;
  contacts : list osip_from;
  record_routes : list osip_from
}.

(** ** Lists and addresses *)

(** [osip_list_add]: a position of -1, or one past the end, is the end. *)
Definition osip_list_add {A} (li : list A) (el : A) (pos : Z) : list A :=
  let size := Z.of_nat (length li) in
  if size =? 0 then [el] else
  let pos := if (pos =? -1) || (size <=? pos) then size else pos in
  if pos =? 0 then el :: li else
  let i := Z.to_nat (Z.max 1 pos) in take i li ++ el :: drop i li.

(** The loops over Record-Route: the code of the first failure, and the list so far. *)
Fixpoint add_record_routes (pos : Z) (rrs : list osip_from) (routes : list osip_from)
  : Z * list osip_from :=
  match rrs with
  | [] => (OSIP_SUCCESS, routes)
  | rr :: rrs =>
      match osip_from_clone (Some rr) with
      | Err i => (i, routes)
      | Ok rr2 => add_record_routes pos rrs (osip_list_add routes rr2 pos)
      end
  end.

(** [osip_from_get_tag] and [osip_to_get_tag]. *)
Definition osip_from_get_tag (from : osip_from) : outcome (option osip_uri_param) :=
  osip_uri_param_get_byname (gen_params from) "tag".

(** The loops of [osip_from_compare]: the value of the first parameter whose name begins
    with "tag". *)
Fixpoint first_tag (params : list osip_uri_param) : outcome (option string) :=
  match params with
  | [] => Done None
  | u_param :: params =>
      let! name := lift (gname u_param) in
      if String.prefix "tag" name then Done (gvalue u_param) else first_tag params
  end.

Definition differ (a b : option string) : bool :=
  match a, b with Some a, Some b => negb (String.eqb a b) | _, _ => false end.

Definition osip_from_compare (from1 from2 : option osip_from) : outcome Z :=
  match from1, from2 with
  | Some from1, Some from2 =>
      match f_url from1, f_url from2 with
      | Some url1, Some url2 =>
          match u_host url1, u_host url2 with
          | None, None =>
              Done (match u_string url1, u_string url2 with
                    | Some s1, Some s2 => if String.eqb s1 s2 then OSIP_SUCCESS else OSIP_UNDEFINED_ERROR
                    | _, _ => OSIP_UNDEFINED_ERROR
                    end)
          | Some host1, Some host2 =>
              if negb (String.eqb host1 host2) then Done OSIP_UNDEFINED_ERROR else
              if differ (u_username url1) (u_username url2) then Done OSIP_UNDEFINED_ERROR else
              let! tag1 := first_tag (gen_params from1) in
              let! tag2 := first_tag (gen_params from2) in
              Done (if differ tag1 tag2 then OSIP_UNDEFINED_ERROR else OSIP_SUCCESS)
          | _, _ => Done OSIP_UNDEFINED_ERROR
          end
      | _, _ => Done OSIP_BADPARAMETER
      end
  | _, _ => Done OSIP_BADPARAMETER
  end.

(** ** Changes *)

Definition osip_dialog_set_state (dialog : option osip_dialog) (state : dialog_state)
  : option osip_dialog :=
  match dialog with None => None | Some d => Some (set_d_state state d) end.

(** The remote target is the first Contact of a message: the common part of the functions
    that update the route set. *)
Definition update_target (d : osip_dialog) (m : dialog_message) : Z * osip_dialog :=
  match contacts m with
  | [] => (OSIP_SUCCESS, d)
  | contact :: _ =>
      match osip_from_clone (Some contact) with
      | Err i => (i, set_remote_contact_uri None d)
      | Ok c => (OSIP_SUCCESS, set_remote_contact_uri (Some c) d)
      end
  end.

Definition osip_dialog_update_route_set_as_uas (dialog : option osip_dialog)
    (invite : option dialog_message) : Z * option osip_dialog :=
  match dialog, invite with
  | Some d, Some invite => let (i, d) := update_target d invite in (i, Some d)
  | _, _ => (OSIP_BADPARAMETER, dialog)
  end.

Definition osip_dialog_update_osip_cseq_as_uas (dialog : option osip_dialog)
    (invite : option dialog_message) : Z * option osip_dialog :=
  match dialog, invite with
  | Some d, Some invite =>
      match m_cseq invite with
      | Some cseq =>
          if is_null (cs_number cseq) then (OSIP_BADPARAMETER, dialog)
          else (OSIP_SUCCESS, Some (set_remote_cseq (osip_atoi (cs_number cseq)) d))
      | None => (OSIP_BADPARAMETER, dialog)
      end
  | _, _ => (OSIP_BADPARAMETER, dialog)
  end.

Definition osip_dialog_update_route_set_as_uac (dialog : option osip_dialog)
    (response : option dialog_message) : Z * option osip_dialog :=
  match dialog, response with
  | Some d, Some response =>
      let (i, d) := update_target d response in
      if negb (i =? 0) then (i, Some d) else
      let (i, d) :=
        (match d_state d with
         | DIALOG_EARLY =>
             let (i, routes) := add_record_routes 0 (record_routes response) [] in
             (i, set_route_set routes d)
         | _ => (OSIP_SUCCESS, d)
         end) in
      if negb (i =? 0) then (i, Some d) else
      (OSIP_SUCCESS, Some (if MSG_IS_STATUS 2 response then set_d_state DIALOG_CONFIRMED d else d))
  | _, _ => (OSIP_BADPARAMETER, dialog)
  end.

Definition osip_dialog_update_tag_as_uac (dialog : option osip_dialog)
    (response : option dialog_message) : outcome (Z * option osip_dialog) :=
  match dialog, response with
  | Some d, Some response =>
      match m_to response with
      | None => Done (OSIP_BADPARAMETER, dialog)
      | Some to =>
          if negb (is_null (remote_tag d)) then Done (OSIP_WRONG_STATE, dialog) else
          let! tag := osip_from_get_tag to in
          Done (OSIP_SUCCESS,
            Some (set_remote_tag (match tag with None => None | Some tag => gvalue tag end) d))
      end
  | _, _ => Done (OSIP_BADPARAMETER, dialog)
  end.

(** ** Matching *)

Definition same_addresses (a b c d : option osip_from) : outcome Z :=
  let! i := osip_from_compare a b in
  if negb (i =? 0) then Done OSIP_UNDEFINED_ERROR else
  let! j := osip_from_compare c d in
  Done (if j =? 0 then OSIP_SUCCESS else OSIP_UNDEFINED_ERROR).

Definition osip_dialog_match_as_uac (dlg : option osip_dialog) (answer : option osip_message)
  : outcome Z :=
  match dlg, answer with
  | Some dlg, Some answer =>
      match d_call_id dlg, call_id answer, m_from answer, m_to answer with
      | Some id, Some callid, Some from, Some to =>
          let! tmp := osip_call_id_to_str (Some callid) in
          match tmp with
          | Err i => Done i
          | Ok tmp =>
              if negb (String.eqb id (str tmp)) then Done OSIP_UNDEFINED_ERROR else
              let! tag_param_local := osip_from_get_tag from in
              match tag_param_local with
              | None => Done OSIP_SYNTAXERROR
              | Some tag_param_local =>
                  if is_null (local_tag dlg) then Done OSIP_SYNTAXERROR else
                  let! same := streq (gvalue tag_param_local) (local_tag dlg) in
                  if negb same then Done OSIP_UNDEFINED_ERROR else
                  let! tag_param_remote := osip_from_get_tag to in
                  match tag_param_remote, remote_tag dlg with
                  | None, Some _ => Done OSIP_SYNTAXERROR
                  | _, None => same_addresses (local_uri dlg) (Some from) (remote_uri dlg) (Some to)
                  | Some tag_param_remote, Some _ =>
                      let! same := streq (gvalue tag_param_remote) (remote_tag dlg) in
                      Done (if same then OSIP_SUCCESS else OSIP_UNDEFINED_ERROR)
                  end
              end
          end
      | _, _, _, _ => Done OSIP_BADPARAMETER
      end
  | _, _ => Done OSIP_BADPARAMETER
  end.

Definition osip_dialog_match_as_uas (dlg : option osip_dialog) (request : option osip_message)
  : outcome Z :=
  match dlg, request with
  | Some dlg, Some request =>
      match d_call_id dlg, call_id request, m_from request, m_to request with
      | Some id, Some callid, Some from, Some to =>
          let! tmp := osip_call_id_to_str (Some callid) in
          match tmp with
          | Err i => Done i
          | Ok tmp =>
              if negb (String.eqb id (str tmp)) then Done OSIP_UNDEFINED_ERROR else
              if is_null (local_tag dlg) then Done OSIP_SYNTAXERROR else
              let! tag_param_remote := osip_from_get_tag from in
              match tag_param_remote, remote_tag dlg with
              | None, Some _ => Done OSIP_SYNTAXERROR
              | _, None => same_addresses (remote_uri dlg) (Some from) (local_uri dlg) (Some to)
              | Some tag_param_remote, Some _ =>
                  let! same := streq (gvalue tag_param_remote) (remote_tag dlg) in
                  Done (if same then OSIP_SUCCESS else OSIP_UNDEFINED_ERROR)
              end
          end
      | _, _, _, _ => Done OSIP_BADPARAMETER
      end
  | _, _ => Done OSIP_BADPARAMETER
  end.

(** ** Creation *)

(** [__osip_dialog_init]; its callers have read [response] and [remote_msg], so these are not
    [NULL].  A dialog that is not completed is released. *)
Definition osip_dialog_init (invite : option dialog_message) (response : dialog_message)
    (local remote : option osip_from) (remote_msg : dialog_message) : outcome (ret osip_dialog) :=
  match m_cseq response, local, remote with
  | Some cseq, Some local, Some remote =>
      let state := if MSG_IS_STATUS 2 response then DIALOG_CONFIRMED else DIALOG_EARLY in
      let! id := osip_call_id_to_str (call_id response) in
      match id with
      | Err i => Done (Err i)
      | Ok id =>
          let! tag := osip_from_get_tag local in
          match tag with
          | None => Done (Err OSIP_UNDEFINED_ERROR)
          | Some tag =>
              let! rtag := osip_from_get_tag remote in
              let rtag := match rtag with None => None | Some tag => gvalue tag end in
              let! line :=
                (match invite with
                 | None => Done None
                 | Some invite =>
                     let! uri := lift (req_uri invite) in
                     param_value (url_params uri) "line"
                 end) in
              let (i, routes) := add_record_routes (if is_null invite then 0 else -1)
                                   (record_routes response) [] in
              if negb (i =? 0) then Done (Err i) else
              Done (let? remote_uri := osip_from_clone (Some remote) in
                    let? local_uri := osip_from_clone (Some local) in
                    let? contact := (match contacts remote_msg with
                                     | [] => Ok None
                                     | c :: _ => let? c := osip_from_clone (Some c) in Ok (Some c)
                                     end) in
                    Ok (mkDialog (Some (str id)) (gvalue tag) rtag line routes
                          (osip_atoi (cs_number cseq)) 0 (Some remote_uri) (Some local_uri) contact
                          (-1) CALLER state))
          end
      end
  | _, _, _ => Done (Err OSIP_SYNTAXERROR)
  end.

Definition osip_dialog_init_as_uac (response : dialog_message) : outcome (ret osip_dialog) :=
  let! d := osip_dialog_init None response (m_from response) (m_to response) response in
  Done (let? d := d in Ok (set_remote_cseq (-1) (set_d_type CALLER d))).

Definition osip_dialog_init_as_uac_with_remote_request (next_request : dialog_message)
    (local_cseq : Z) : outcome (ret osip_dialog) :=
  match m_cseq next_request with
  | None => Done (Err OSIP_BADPARAMETER)
  | Some cseq =>
      let! d := osip_dialog_init (Some next_request) next_request (m_to next_request)
                  (m_from next_request) next_request in
      Done (let? d := d in
            Ok (set_remote_cseq (osip_atoi (cs_number cseq)) (set_local_cseq local_cseq
                  (set_d_state DIALOG_CONFIRMED (set_d_type CALLER d)))))
  end.

Definition osip_dialog_init_as_uas (invite response : dialog_message) : outcome (ret osip_dialog) :=
  match m_cseq response with
  | None => Done (Err OSIP_SYNTAXERROR)
  | Some cseq =>
      let! d := osip_dialog_init (Some invite) response (m_to response) (m_from response) invite in
      Done (let? d := d in
            Ok (set_remote_cseq (osip_atoi (cs_number cseq)) (set_d_type CALLEE d)))
  end.

(** A dialog at an address; its strings and lists belong to it alone and go with it. *)
Definition osip_dialog_free (dialog : option Z) (dialogs : gmap Z osip_dialog)
  : outcome (gmap Z osip_dialog) :=
  match dialog with
  | None => Done dialogs
  | Some p => let! _ := lift (dialogs !! p) in Done (delete p dialogs)
  end.

(** ** The end of the retransmissions of a 2xx (osip.c) *)

Section retransmissions.

(** The dialogs of the application, by their address. *)
Variable dialogs : gmap Z osip_dialog.

(** The loop: the dialog of the first entry that the ACK answers, and what is left. *)
Fixpoint stop_200ok (ack : osip_message) (number : string) (l : list ixt) (w : SipWorld)
  : outcome (option Z * list ixt * SipWorld) :=
  match l with
  | [] => Done (None, [], w)
  | x :: l =>
      let next := let! (r, w) := stop_200ok ack number l w in Done (r.1, x :: r.2, w) in
      match msg2xx x with
      | None => next
      | Some p =>
          let! m := deref (Some p) w in
          match m_cseq m with
          | Some (mkCSeq _ (Some n)) =>
              let! d := lift (dialogs !! ixt_dialog x) in
              let! i := osip_dialog_match_as_uas (Some d) (Some ack) in
              if (i =? 0) && String.eqb n number then
                let! w := ixt_free x w in Done (Some (ixt_dialog x), l, w)
              else next
          | _ => next
          end
      end
  end.

Definition osip_stop_200ok_retransmissions (ack : option Z) (o : osip) : outcome (option Z * osip) :=
  match ack with
  | None => Done (None, o)
  | Some _ =>
      let! m := deref ack (sip_world o) in
      match m_cseq m with
      | Some (mkCSeq _ (Some number)) =>
          let! (r, w) := stop_200ok m number (ixt_retransmissions o) (sip_world o) in
          Done (r.1, set_sip_world w (set_ixt_retransmissions r.2 o))
      | _ => Done (None, o)
      end
  end.

End retransmissions.
