(* ===== verification/SipDialogSafety.v ===== *)
(** The dialogs of SIP: that looking for the dialog of a request goes well, and that an ACK
    ends the retransmissions of one 2xx and keeps the invariant of the stack. *)

From Stdlib Require Import Ascii.
From stdpp Require Import base list option numbers strings gmap.
From S2P Require Import Prelude.
From S2P Require Import SipTypes.
From S2P Require Import SipMessage.
From S2P Require Import SipUri.
From S2P Require Import SipFsm.
From S2P Require Import SipStack.
From S2P Require Import SipOwnership.
From S2P Require Import SipUriSpec.
From S2P Require Import SipHeaders.
From S2P Require Import SipDialog.
From S2P Require Import SipSafety.
From S2P Require Import SipStackSafety.

Local Open Scope Z_scope.
Open Scope c_scope.

(** The text of a Call-ID. *)
Definition call_id_text (c : osip_call_id) : option string :=
  match ci_number c, ci_host c with
  | Some n, Some h => Some (str (txt n ++ "@"%char :: txt h))
  | n, _ => n
  end.

(** The addresses of a dialog come from the parser. *)
Definition dialog_ok (d : osip_dialog) : bool :=
  if_any from_ok (local_uri d) && if_any from_ok (remote_uri d).

(** A tag, when there is one, has a value. *)
Definition tag_valued (f : osip_from) : Prop :=
  forall p, osip_from_get_tag f = Done (Some p) -> is_Some (gvalue p).
Definition from_tag_valued (m : osip_message) : Prop :=
  forall f, m_from m = Some f -> tag_valued f.

(** The ACK answers the 2xx of an entry: it is within its dialog, and has its number. *)
Definition answers (dialogs : gmap Z osip_dialog) (ack : osip_message) (number : string)
    (w : SipWorld) (x : ixt) : Prop :=
  exists p m q d,
    msg2xx x = Some p /\ msgs w !! p = Some m /\ m_cseq m = Some (mkCSeq q (Some number)) /\
    dialogs !! ixt_dialog x = Some d /\
    osip_dialog_match_as_uas (Some d) (Some ack) = Done OSIP_SUCCESS.

(** The dialogs of the entries that carry a 2xx are there. *)
Definition known (dialogs : gmap Z osip_dialog) (x : ixt) : Prop :=
  is_Some (msg2xx x) -> exists d, dialogs !! ixt_dialog x = Some d /\ dialog_ok d = true.

(** What the loop does to the entries: the first that is answered goes. *)
Definition stopped (dialogs : gmap Z osip_dialog) (ack : osip_message) (number : string)
    (l : list ixt) (w : SipWorld) (r : option Z) (l' : list ixt) (w' : SipWorld) : Prop :=
  (Forall (fun x => ~ answers dialogs ack number w x) l /\ r = None /\ l' = l /\ w' = w) \/
  (exists l1 x l2, l = l1 ++ x :: l2 /\
     Forall (fun x => ~ answers dialogs ack number w x) l1 /\ answers dialogs ack number w x /\
     r = Some (ixt_dialog x) /\ l' = l1 ++ l2 /\ ixt_free x w = Done w').

(** ** Matching *)

#[local] Arguments osip_call_id_to_str : simpl never.
#[local] Arguments osip_from_get_tag : simpl never.

Lemma call_id_to_str_eq c :
  osip_call_id_to_str (Some c) =
  Done (match call_id_text c with Some s => Ok (txt s) | None => Err OSIP_BADPARAMETER end).
Proof.
  unfold osip_call_id_to_str, call_id_text. destruct (ci_number c) as [n|]; [|by destruct (ci_host c)].
  destruct (ci_host c) as [h|]; (rewrite sprintf_ok by zl); cbn [app]; [by rewrite txt_str|done].
Qed.

Lemma first_tag_ok params : named params = true -> returns (first_tag params) (fun _ => True).
Proof.
  unfold named. induction params as [|p params IH]; [done|]. cbn. rewrite andb_true_iff. intros [Hp Hl].
  destruct (gname p); [|done]. cbn. case_match; [done|]. by apply IH.
Qed.

Lemma from_ok_named f : from_ok f = true -> named (gen_params f) = true.
Proof. unfold from_ok. rewrite andb_true_iff. tauto. Qed.

Lemma from_compare_ok f1 f2 :
  if_any from_ok f1 = true -> if_any from_ok f2 = true ->
  returns (osip_from_compare f1 f2) (fun _ => True).
Proof.
  destruct f1 as [f1|], f2 as [f2|]; cbn; try done. intros H1%from_ok_named H2%from_ok_named.
  destruct (f_url f1) as [u1|], (f_url f2) as [u2|]; try done.
  destruct (u_host u1), (u_host u2); try done. do 2 (case_match; [done|]).
  do 2 (asks first_tag_ok). done.
Qed.

Lemma same_addresses_ok a b c d :
  if_any from_ok a = true -> if_any from_ok b = true -> if_any from_ok c = true -> if_any from_ok d = true ->
  returns (same_addresses a b c d) (fun _ => True).
Proof. intros. unfold same_addresses. asks from_compare_ok. case_match; [done|]. by asks from_compare_ok. Qed.

Lemma match_as_uas_ok d m :
  dialog_ok d = true -> msg_ok m = true -> from_tag_valued m ->
  returns (osip_dialog_match_as_uas (Some d) (Some m)) (fun _ => True).
Proof.
  unfold dialog_ok. rewrite andb_true_iff. intros [Hl Hr] Hm%msg_ok_good Ht. cbn.
  destruct (d_call_id d) as [id|]; [|done]. destruct (call_id m) as [c|]; [|done].
  destruct (m_from m) as [f|] eqn:Ef; [|done]. destruct (m_to m) as [t|] eqn:Et; [|done].
  pose proof (mg_from _ Hm _ Ef) as Hf. pose proof (mg_to _ Hm _ Et) as Hto.
  rewrite call_id_to_str_eq. destruct (call_id_text c); [|done]. case_match; [done|]. case_match; [done|].
  pose proof (get_byname_ok _ "tag" (from_ok_named _ Hf)) as G.
  destruct (osip_from_get_tag f) as [tag| |] eqn:Eg; [|by unfold osip_from_get_tag in Eg; rewrite Eg in G..].
  assert (returns (same_addresses (remote_uri d) (Some f) (local_uri d) (Some t)) (fun _ => True))
    by (by apply same_addresses_ok).
  destruct tag as [p|], (remote_tag d) as [rt|]; try done.
  destruct (Ht _ Ef p Eg) as [v ->]. done.
Qed.

(** ** Retransmissions of a 2xx *)

Lemma stopped_cons dialogs ack number x l w r l' w' :
  ~ answers dialogs ack number w x -> stopped dialogs ack number l w r l' w' ->
  stopped dialogs ack number (x :: l) w r (x :: l') w'.
Proof.
  intros Hx [(Hl & -> & -> & ->)|(l1 & y & l2 & -> & H1 & Hy & -> & -> & Hf)].
  - left. split; [by constructor|done].
  - right. exists (x :: l1), y, l2. split_and!; try done. by constructor.
Qed.

Section stop.

Variable dialogs : gmap Z osip_dialog.
Variable ack : osip_message.
Variable number : string.
Hypothesis Hack : msg_ok ack = true.
Hypothesis Htag : from_tag_valued ack.

(** What the loop gives for the entries [l], whose messages [g] leaves out. *)
Definition stop_result (l : list ixt) (g : Z -> nat) (w : SipWorld)
    (a : option Z * list ixt * SipWorld) : Prop :=
  let '(r, l', w') := a in
  heap_ok (fun i => (owners (flat_map ixt_pointers l') i + g i)%nat) w' /\ does w w' [] /\
  stopped dialogs ack number l w r l' w'.

Lemma stop_next x l g w :
  heap_ok (fun i => (owners (flat_map ixt_pointers (x :: l)) i + g i)%nat) w ->
  ~ answers dialogs ack number w x ->
  (forall g, heap_ok (fun i => (owners (flat_map ixt_pointers l) i + g i)%nat) w ->
     returns (stop_200ok dialogs ack number l w) (stop_result l g w)) ->
  returns (let! (r, w) := stop_200ok dialogs ack number l w in Done (r.1, x :: r.2, w))
    (stop_result (x :: l) g w).
Proof.
  intros H Hx IH. eapply returns_bind; [apply (IH (fun i => (owners (ixt_pointers x) i + g i)%nat))|].
  - eapply heap_ok_eq; [exact H|]. intros i. cbn [flat_map]. rewrite owners_app. lia.
  - intros [[r l'] w'] (H2 & D2 & S2). split_and!; [|done|by apply stopped_cons].
    eapply heap_ok_eq; [exact H2|]. intros i. cbn [flat_map snd]. rewrite owners_app. lia.
Qed.

Lemma stop_200ok_ok l : forall g w,
  heap_ok (fun i => (owners (flat_map ixt_pointers l) i + g i)%nat) w ->
  Forall (known dialogs) l ->
  returns (stop_200ok dialogs ack number l w) (stop_result l g w).
Proof.
  induction l as [|x l IH]; intros g w H Hk.
  { cbn. split_and!; [done|apply does_nil|left; by split_and!]. }
  apply Forall_cons in Hk as [Hx Hk]. cbn [stop_200ok].
  assert (~ answers dialogs ack number w x ->
    returns (let! (r, w) := stop_200ok dialogs ack number l w in Done (r.1, x :: r.2, w))
      (stop_result (x :: l) g w)) as Hnext.
  { intros Hn. apply stop_next; [done..|]. intros g'. intros. by apply IH. }
  destruct (msg2xx x) as [p|] eqn:E2; [|apply Hnext; intros (p & m & q & d & E & _); congruence].
  destruct (deref_ok _ _ p H) as (m & Ed & Em & _).
  { assert (0 < owners (flat_map ixt_pointers (x :: l)) p)%nat; [|cbv beta; lia].
    eapply (owners_elem (Some p)); [|done]. cbn. unfold ixt_pointers. rewrite E2. right. left. }
  rewrite Ed. destruct (m_cseq m) as [[q [n|]]|] eqn:Ec;
    try (apply Hnext; intros (p' & m' & q' & d' & ? & ? & ? & _); simplify_eq; congruence).
  destruct (Hx ltac:(rewrite E2; eauto)) as (d & Hd & Hok). rewrite Hd. cbn [lift].
  pose proof (match_as_uas_ok d ack Hok Hack Htag) as Hm.
  destruct (osip_dialog_match_as_uas (Some d) (Some ack)) as [i| |] eqn:Ei; [|done..].
  destruct ((i =? 0) && String.eqb n number) eqn:Eb.
  - apply andb_true_iff in Eb as [->%Z.eqb_eq ->%String.eqb_eq].
    pose proof (ixt_free_ok x _ w H) as Hf.
    destruct (ixt_free x w) as [w1| |] eqn:Efr; [|exfalso; apply Hf; intros j; cbn [flat_map]; rewrite owners_app; lia..].
    destruct Hf as [H1 D1]; [intros j; cbn [flat_map]; rewrite owners_app; lia|].
    split_and!; [|done|].
    + eapply heap_ok_eq; [exact H1|]. intros j. cbn [flat_map]. rewrite owners_app. lia.
    + right. exists [], x, l. split_and!; try done. exists p, m, q, d. by split_and!.
  - apply Hnext. intros (p' & m' & q' & d' & ? & ? & Ec' & ? & Ei'). simplify_eq.
    rewrite Ei in Ei'. injection Ei' as ->. by rewrite String.eqb_refl in Eb.
Qed.

End stop.

Lemma osip_stop_200ok_ok dialogs i ack o app :
  stack_ok o app -> msgs (sip_world o) !! i = Some ack -> from_tag_valued ack ->
  Forall (known dialogs) (ixt_retransmissions o) ->
  returns (osip_stop_200ok_retransmissions dialogs (Some i) o) (fun '(r, o') =>
    stack_ok o' app /\ transactions o' = transactions o /\
    match m_cseq ack with
    | Some (mkCSeq _ (Some number)) =>
        stopped dialogs ack number (ixt_retransmissions o) (sip_world o) r
          (ixt_retransmissions o') (sip_world o')
    | _ => r = None /\ o' = o
    end).
Proof.
  intros Hok Hi Ht Hk. assert (msg_ok ack = true) as Hm by (by eapply ho_good; [apply Hok|]).
  unfold osip_stop_200ok_retransmissions. cbn. rewrite Hi. cbn.
  destruct (m_cseq ack) as [[q [n|]]|]; [|done..].
  eapply returns_bind; [apply (stop_200ok_ok dialogs ack n Hm Ht _ (fun i =>
    (owners (transaction_pointers (transactions o)) i + owners (map Some app) i)%nat)); [|done]|].
  - eapply heap_ok_eq; [by apply Hok|]. intros j. pcount. lia.
  - intros [[r l'] w'] (H & D & S). split_and!; [|done..]. eapply stack_ok_world; [exact Hok|exact D|].
    eapply heap_ok_eq; [exact H|]. intros j. cbn [snd]; rewrite !owners_app. lia.
Qed.
