(* ===== verification/SipReachable.v ===== *)
(** Every run of the SIP stack: the operations an application may do, the states they lead
    to, and that none of them goes wrong. *)

From stdpp Require Import base list option numbers strings gmap.
From S2P Require Import Prelude.
From S2P Require Import SipTypes.
From S2P Require Import SipMessage.
From S2P Require Import SipFsm.
From S2P Require Import SipStack.
From S2P Require Import SipOwnership.
From S2P Require Import SipSpec.
From S2P Require Import SipRefine.
From S2P Require Import SipSafety.
From S2P Require Import SipStackSafety.
From S2P Require Import SipDialog.
From S2P Require Import SipDialogSafety.

Local Open Scope Z_scope.
Open Scope c_scope.

(** What the application does: a message comes into being (parsed, or written by the
    application), is discarded; time passes; the transport answers; and the calls of the
    library. *)
Inductive op :=
| Receive (m : osip_message)
| Discard (i : Z)
| Advance (now : timeval)
| Answers (results : list Z)
| Create (evt : osip_event)
| Add (id : Z) (evt : osip_event)
| Dispatch (evt : osip_event)
| Timers (k : osip_fsm_type_t)
| Execute (k : osip_fsm_type_t)
| Remove (id : Z)
| Free (id : Z)
| Start200 (dialog i sock : Z)
| StartAck (dialog i : Z) (dest : option string) (port sock : Z)
| StopDialog (dialog : Z)
| StopAck (dialogs : gmap Z osip_dialog) (i : Z)
| Retransmit.

(** The messages of the application, when it has given one up. *)
Definition given_up (p : option Z) (app : list Z) : list Z :=
  match p with Some i => List.remove Z.eq_dec i app | None => app end.

Definition run_op (x : op) (o : osip) (app : list Z) : outcome (osip * list Z) :=
  match x with
  | Receive m => let (i, w) := allocate m (sip_world o) in Done (set_sip_world w o, i :: app)
  | Discard i =>
      let! w := osip_message_free (Some i) (sip_world o) in
      Done (set_sip_world w o, given_up (Some i) app)
  | Advance now => Done (set_sip_world (set_clock now (sip_world o)) o, app)
  | Answers rs => Done (set_sip_world (set_transport rs (sip_world o)) o, app)
  | Create evt => let! (_, _, o) := osip_create_transaction evt o in Done (o, app)
  | Add id evt => let! o := osip_transaction_add_event id evt o in Done (o, given_up (e_sip evt) app)
  | Dispatch evt =>
      let! (r, o) := osip_find_transaction_and_add_event evt o in
      Done (o, if r =? OSIP_SUCCESS then given_up (e_sip evt) app else app)
  | Timers k => let! o := osip_timers_execute k o in Done (o, app)
  | Execute k => let! o := osip_execute k o in Done (o, app)
  | Remove id => let! (_, o) := osip_remove_transaction id o in Done (o, app)
  | Free id => let! o := osip_transaction_free id o in Done (o, app)
  | Start200 dialog i sock =>
      let! o := osip_start_200ok_retransmissions dialog (Some i) sock o in Done (o, app)
  | StartAck dialog i dest port sock =>
      let! o := osip_start_ack_retransmissions dialog (Some i) dest port sock o in Done (o, app)
  | StopDialog dialog => let! o := osip_stop_retransmissions_from_dialog dialog o in Done (o, app)
  | StopAck dialogs i =>
      let! (_, o) := osip_stop_200ok_retransmissions dialogs (Some i) o in Done (o, app)
  | Retransmit => let! o := osip_retransmissions_execute o in Done (o, app)
  end.

(** The event carries a message of the application, and has its type. *)
Definition carries (evt : osip_event) (o : osip) (app : list Z) (m : osip_message) : Prop :=
  exists i, e_sip evt = Some i /\ i ∈ app /\ msgs (sip_world o) !! i = Some m /\ typed evt m.

(** The rules of the library. *)
Definition legal (x : op) (o : osip) (app : list Z) : Prop :=
  match x with
  | Receive m => msg_ok m = true
  | Discard i => i ∈ app
  | Create evt => next_transactionid o < 2 ^ 31 - 1 /\ exists m, carries evt o app m
  | Add id evt =>
      is_Some (transactions o !! id) /\ event_ok evt (sip_world o) /\
      forall i, e_sip evt = Some i -> i ∈ app
  | Dispatch evt => exists m, carries evt o app m /\ complete m /\ brings_transport evt (sip_world o)
  | Remove id | Free id => is_Some (transactions o !! id)
  | StopAck dialogs i => exists ack, msgs (sip_world o) !! i = Some ack /\ from_tag_valued ack /\
      Forall (known dialogs) (ixt_retransmissions o)
  | Start200 _ i _ | StartAck _ i _ _ _ => is_Some (msgs (sip_world o) !! i)
  | _ => True
  end.

(** The states of a stack that has been initialised. *)
Inductive reachable : osip -> list Z -> Prop :=
| reach_init w : msgs w = ∅ -> reachable (osip_init w) []
| reach_op x o app o' app' :
    reachable o app -> legal x o app -> run_op x o app = Done (o', app') -> reachable o' app'.

(** ** Proofs *)

Lemma init_ok w : msgs w = ∅ -> stack_ok (osip_init w) [].
Proof.
  intros Hw. split; cbn.
  - split; cbn; intros i; rewrite ?Hw.
    + done.
    + intros []. done.
    + intros m. done.
  - intros id t H. done.
  - intros k. assert (transactions_of k (osip_init w) = []) as -> by (by destruct k).
    split; [constructor|]. intros id H. by apply not_elem_of_nil in H.
Qed.

Lemma owners_remove f w i app j :
  heap_ok f w -> (forall j, (owners (map Some app) j <= f j)%nat) -> i ∈ app ->
  owners (map Some app) j = owners (Some i :: map Some (List.remove Z.eq_dec i app)) j.
Proof.
  intros H Hle Hin. assert (forall j, (owners (map Some app) j <= 1)%nat) as H1.
  { intros j'. specialize (Hle j'). pose proof (heap_ok_once _ _ j' H). lia. }
  clear H Hle. induction app as [|a app IH]; [by apply not_elem_of_nil in Hin|]. cbn.
  destruct (Z.eq_dec i a) as [->|Hne].
  - f_equal. assert (forall b, b ∈ app -> b <> a) as Hb.
    { intros b Hb ->. specialize (H1 a). cbn in H1. rewrite decide_True in H1 by done.
      pose proof (owners_elem (Some a) (map Some app) a ltac:(by apply list_elem_of_fmap_2) eq_refl). lia. }
    rewrite notin_remove; [done|]. intros Hin'%list_elem_of_In. by apply (Hb a).
  - apply elem_of_cons in Hin as [->|Hin]; [done|]. cbn in IH |- *. rewrite (IH Hin).
    + lia.
    + intros j'. specialize (H1 j'). cbn in H1. lia.
Qed.

Lemma app_owners o app j : (owners (map Some app) j <= owners (pointers o app) j)%nat.
Proof. pcount. lia. Qed.

Lemma world_ok o app app' w' out :
  stack_ok o app -> does (sip_world o) w' out ->
  heap_ok (owners (pointers o app')) w' -> stack_ok (set_sip_world w' o) app'.
Proof.
  intros Hok D H. assert (set_sip_world w' o = set_sip_world w' (set_ixt_retransmissions (ixt_retransmissions o) o))
    as -> by done. by eapply stack_ok_world.
Qed.

Lemma step_ok x o app : stack_ok o app -> legal x o app ->
  returns (run_op x o app) (fun '(o', app') => stack_ok o' app').
Proof.
  intros Hok Hl. destruct x as [m|i|now|rs|evt|id evt|evt|k|k|id|id|dialog i sock|dialog i dest port sock|dialog|dialogs i|];
    cbn [run_op legal] in *.
  - destruct (allocate_ok m _ _ (so_heap _ _ Hok) Hl) as (i & w' & -> & _ & _ & H & D). cbn.
    eapply world_ok; [exact Hok|exact D|]. eapply heap_ok_eq; [exact H|]. intros j. unfold more. pcount. cbn. lia.
  - destruct (free_ok (Some i) _ _ (so_heap _ _ Hok)) as (w' & -> & H & D).
    { intros ? [= <-]. pose proof (app_owners o app i).
      pose proof (owners_elem (Some i) (map Some app) i ltac:(by apply list_elem_of_fmap_2) eq_refl). lia. }
    cbn. eapply world_ok; [exact Hok|exact D|]. eapply heap_ok_eq; [exact H|]. intros j. unfold less.
    pose proof (owners_remove _ _ i app j (so_heap _ _ Hok) (app_owners o app) Hl) as E. pcount. rewrite E. cbn. lia.
  - cbn. destruct Hok as [[A F G] H2 H3]. split; [by split| |intros k; specialize (H3 k); by destruct k].
    intros id t Ht. destruct (H2 id t Ht) as [[W1 W2 W3 W4 W5] Hlt]. split; [|done]. split; [done..|].
    eapply Forall_impl; [exact W5|]. intros e [Hm Hb]. by split.
  - cbn. destruct Hok as [[A F G] H2 H3]. split; [by split| |intros k; specialize (H3 k); by destruct k].
    intros id t Ht. destruct (H2 id t Ht) as [[W1 W2 W3 W4 W5] Hlt]. split; [|done]. split; [done..|].
    eapply Forall_impl; [exact W5|]. intros e [Hm Hb]. by split.
  - destruct Hl as (Hn & m & i & Hs & Hin & Hi & Hty).
    eapply returns_bind; [apply (osip_create_transaction_ok o app evt i m); try done|].
    { by eapply ho_good; [apply Hok|]. }
    intros [[r evt'] o'] (Hok' & _). done.
  - destruct Hl as ([t Ht] & He & Hin). unfold osip_transaction_add_event, get_transaction. rewrite Ht. cbn.
    eapply enqueue_ok; [exact Hok|done| |].
    + destruct He as [Hm Hb]. by split.
    + intros j. cbn [e_sip set_e_transactionid]. destruct (e_sip evt) as [i|] eqn:Es; [|done].
      eapply owners_remove; [by apply Hok|intros; apply app_owners|by apply Hin].
  - destruct Hl as (m & (i & Hs & Hin & Hi & Hty) & Hc & Hb).
    eapply returns_bind; [apply (osip_find_transaction_and_add_event_ok o app i (given_up (e_sip evt) app) evt m);
      try done|].
    + intros j. rewrite Hs. eapply owners_remove; [by apply Hok|intros; apply app_owners|done].
    + by eapply ho_good; [apply Hok|].
    + assert (msg_ok m = true) as Hm by (by eapply ho_good; [apply Hok|]).
      destruct Hty as [Hty|Hty]; unfold evt_set_type_incoming_sipmessage, evt_set_type_outgoing_sipmessage,
        MSG_IS in Hty; apply msg_ok_good in Hm; destruct (MSG_IS_REQUEST m) eqn:E;
        [destruct (mg_request _ Hm E) as [[s Hsm] _]; rewrite Hsm in Hty| |
         destruct (mg_request _ Hm E) as [[s Hsm] _]; rewrite Hsm in Hty|];
        cbn in Hty; repeat case_match; simplify_eq; by rewrite <- Hty.
    + intros [r o'] (_ & H). unfold OSIP_SUCCESS. destruct (r =? 0); [done|]. by destruct H as [-> _].
  - eapply returns_bind; [by apply (osip_timers_execute_ok k o app)|]. intros o' (H & _). done.
  - eapply returns_bind; [by apply (osip_execute_ok k o app)|]. intros o' (out & H & _). done.
  - destruct Hl as [t Ht]. eapply returns_bind; [by eapply osip_remove_transaction_ok|].
    intros [r o'] (H & _). done.
  - eapply returns_bind; [by apply (osip_transaction_free_ok id o app)|]. intros o' (H & _). done.
  - destruct Hl as [m Hm]. eapply returns_bind; [by apply (osip_start_200ok_ok dialog i m sock o app)|]. done.
  - destruct Hl as [m Hm]. eapply returns_bind; [by apply (osip_start_ack_ok dialog i m dest port sock o app)|]. done.
  - eapply returns_bind; [by apply (osip_stop_from_dialog_ok dialog o app)|]. done.
  - destruct Hl as (ack & Hi & Ht & Hk). eapply returns_bind; [by apply osip_stop_200ok_ok|].
    intros [r o'] (H & _). done.
  - eapply returns_bind; [by apply (osip_retransmissions_execute_ok o app)|]. done.
Qed.

Lemma reachable_ok o app : reachable o app -> stack_ok o app.
Proof.
  induction 1 as [w Hw|x o app o' app' _ IH Hl E]; [by apply init_ok|].
  pose proof (step_ok x o app IH Hl) as H. by rewrite E in H.
Qed.

(** C2: whatever sequence of operations an application does within the rules of the library,
    each operation returns: no message is freed twice or read after it was freed, no
    transaction is used after it was freed; and afterwards every live message has exactly one
    owner among the transactions, the retransmissions and the application. *)
Theorem sip_stack_safe o app x :
  reachable o app -> legal x o app ->
  returns (run_op x o app) (fun '(o', app') =>
    reachable o' app' /\ accounted (owners (pointers o' app')) (sip_world o')).
Proof.
  intros Hr Hl. pose proof (step_ok x o app (reachable_ok _ _ Hr) Hl) as H.
  destruct (run_op x o app) as [[o' app']| |] eqn:E; [|done..]. split; [|by apply H].
  by eapply reach_op.
Qed.
