(* ===== verification/SipTimers.v ===== *)
(** The timers of SIP transactions: how often an INVITE is sent again, and when an
    unanswered one ends. *)

From stdpp Require Import base list option numbers strings gmap.
From S2P Require Import Prelude.
From S2P Require Import SipTypes.
From S2P Require Import SipMessage.
From S2P Require Import SipFsm.
From S2P Require Import SipStack.
From S2P Require Import SipOwnership.
From S2P Require Import SipSpec.
From S2P Require Import SipRefine.
From S2P Require Import SipSafety.
From S2P Require Import SipStackSafety.
From S2P Require Import SipReachable.

Local Open Scope Z_scope.
Open Scope c_scope.

(** ** Time in microseconds *)

Definition micros (t : timeval) : Z := tv_sec t * 1000000 + tv_usec t.

(** A time of the clock, which starts at 0. *)
Definition is_time (t : timeval) : Prop := 0 <= tv_sec t /\ 0 <= tv_usec t < 1000000.

Definition running (t : timeval) : bool := negb (tv_sec t =? -1).

Lemma later_micros a b : is_time a -> is_time b -> later a b = (micros b <? micros a).
Proof.
  intros [Ha Ha'] [Hb Hb']. unfold later, micros.
  destruct (Z.eqb_spec (tv_sec a) (tv_sec b)).
  - destruct (Z.ltb_spec (tv_usec b) (tv_usec a)), (Z.ltb_spec (tv_sec b * 1000000 + tv_usec b) (tv_sec a * 1000000 + tv_usec a)); lia.
  - destruct (Z.ltb_spec (tv_sec b) (tv_sec a)), (Z.ltb_spec (tv_sec b * 1000000 + tv_usec b) (tv_sec a * 1000000 + tv_usec a)); lia.
Qed.

(** Adding milliseconds is exact below 1000 seconds. *)
Lemma add_gettimeofday_micros t ms : is_time t -> 0 <= ms < 1000000 ->
  is_time (add_gettimeofday t ms) /\ micros (add_gettimeofday t ms) = micros t + ms * 1000.
Proof.
  intros [Hs Hu] Hms. unfold add_gettimeofday, is_time, micros. rewrite (proj2 (Z.leb_gt _ _)) by lia. cbn.
  pose proof (Z.quot_rem (tv_usec t + ms * 1000) 1000000 ltac:(lia)) as E.
  pose proof (Z.rem_bound_pos (tv_usec t + ms * 1000) 1000000 ltac:(lia) ltac:(lia)).
  pose proof (Z.quot_pos (tv_usec t + ms * 1000) 1000000 ltac:(lia) ltac:(lia)). lia.
Qed.

Lemma is_time_running t : is_time t -> running t = true.
Proof. intros [H _]. unfold running. by rewrite (proj2 (Z.eqb_neq _ _)) by lia. Qed.

(** ** Retransmissions of an INVITE *)

(** The application lets the stack work at time [now]. *)
Definition poll (k : osip_fsm_type_t) (now : timeval) (o : osip) : outcome osip :=
  let o := set_sip_world (set_clock now (sip_world o)) o in
  let! o := osip_timers_execute k o in
  osip_execute k o.

Fixpoint polls (k : osip_fsm_type_t) (times : list timeval) (o : osip) : outcome osip :=
  match times with
  | [] => Done o
  | now :: times => let! o := poll k now o in polls k times o
  end.

(** The sendings of a transaction among the actions. *)
Definition sendings (id : Z) (out : list action) : list action :=
  List.filter (fun a => match a with Send tr _ _ _ _ => bool_decide (tr = Some id) | _ => false end) out.

Lemma sendings_app id out out' : sendings id (out ++ out') = sendings id out ++ sendings id out'.
Proof. apply List.filter_app. Qed.

Lemma sendings_other id out : Forall (fun a => about id a = false) out -> sendings id out = [].
Proof. induction 1 as [|[] out Ha _ IH]; cbn in *; rewrite ?Ha; done. Qed.

(** An INVITE whose timer A has fired [n] times since its first sending at [start]; timer A
    may have been stopped. *)
Record retransmitting (start : Z) (n : Z) (t : osip_transaction) : Prop := {
  rt_count : 0 <= n <= 6;
  rt_type : ctx_type t = ICT;
  rt_state : t_state t = ICT_CALLING;
  rt_fifo : transactionff t = [];
  rt_context : exists c, ict_context t = Some c /\
    is_time (timer_b_start c) /\ micros (timer_b_start c) = start + 32000 * 1000 /\
    (tv_sec (timer_a_start c) = -1 \/
     timer_a_length c = 500 * 2 ^ n /\ is_time (timer_a_start c) /\
     start + 500 * (2 ^ (n + 1) - 1) * 1000 <= micros (timer_a_start c))
}.

(** The bound: timer A fires for the [n + 1]st time only if [n < 6]. *)
Lemma retransmission_bound start n now c :
  is_time now -> micros now <= start + 32000 * 1000 ->
  0 <= n <= 6 -> start + 500 * (2 ^ (n + 1) - 1) * 1000 <= micros (timer_a_start c) ->
  micros (timer_a_start c) < micros now -> n <= 5.
Proof.
  intros _ Hb [Hn Hn6] Ha Hlt. destruct (Z.eq_dec n 6) as [->|]; [|lia].
  change (2 ^ (6 + 1)) with 128 in Ha. lia.
Qed.

(** What the handlers of timers A and B do. *)
Lemma send_effect tr p host port w r w' : cb_send_message tr p host port w = Done (r, w') ->
  exists i, actions w' = actions w ++ [Send tr i host port r].
Proof.
  unfold cb_send_message. destruct p as [i|]; [|done]. cbn. destruct (msgs w !! i); [|done]. cbn.
  intros [= <- <-]. eauto.
Qed.

Lemma callback_effect type t p w w' : message_callback type t p w = Done w' ->
  actions w' = actions w ++ [Inform type (transactionid t) p].
Proof. unfold message_callback. case_match; [|done]. by intros [= <-]. Qed.

Lemma timeout_a_effect t evt w t' w' c :
  osip_ict_timeout_a_event t evt w = Done (t', w') -> ict_context t = Some c -> ctx_type t = ICT ->
  (exists out, actions w' = actions w ++ out /\ (List.length (sendings (transactionid t) out) <= 1)%nat) /\
  (is_terminated t' = true \/
  (t_state t' = t_state t /\ exists c', ict_context t' = Some c' /\ timer_b_start c' = timer_b_start c /\
   (tv_sec (timer_a_start c') = -1 \/
    timer_a_length c' = timer_a_length c * 2 /\
    timer_a_start c' = add_gettimeofday (clock w) (timer_a_length c * 2)))).
Proof.
  unfold osip_ict_timeout_a_event, with_ict, ict_send, handle_transport_error, terminate. intros H Hc Hk.
  rewrite Hc in H. cbn in H.
  destruct (cb_send_message _ _ _ _ w) as [[r w1]| |] eqn:Es; [|done..]. cbn in H.
  destruct (send_effect _ _ _ _ _ _ _ Es) as [i Ew1].
  assert (forall a b, (List.length (sendings (transactionid t)
      ([Send (Some (transactionid t)) i (ict_destination c) (ict_port c) r] ++
       [TransportError ICT a r; Kill ICT b])) <= 1)%nat) as Hfail.
  { intros. cbn. rewrite bool_decide_true by done. done. }
  destruct (r <? 0).
  { simplify_eq. split; [|by left]. cbn. rewrite Ew1. eexists. rewrite <- !app_assoc. split; [done|]. apply Hfail. }
  destruct (r =? 0).
  - destruct (sent_reliably 0 _ w1) as [[b|e]| |] eqn:Er; [| |done..].
    + destruct b; cbn in H; (destruct (message_callback _ _ _ w1) as [w2| |] eqn:Ec; [|done..]);
        apply callback_effect in Ec; simplify_eq; cbn;
        (split; [rewrite Ec, Ew1, <- app_assoc; eexists; split; [done|]; cbn; by rewrite bool_decide_true by done|]);
        right; (split; [done|]); eexists; (split; [done|]); (split; [done|]); [by left|by right].
    + simplify_eq. split; [|by left]. cbn. rewrite Ew1. eexists. rewrite <- !app_assoc. split; [done|].
      cbn. rewrite bool_decide_true by done. done.
  - simplify_eq. split.
    + rewrite Ew1. eexists. split; [done|]. cbn. by rewrite bool_decide_true by done.
    + right. cbn. split; [done|]. eexists. split; [done|]. split; [done|]. by right.
Qed.

Lemma timeout_b_effect t evt w t' w' :
  osip_ict_timeout_b_event t evt w = Done (t', w') ->
  t_state t' = ICT_TERMINATED /\
  actions w' = actions w ++ [Inform OSIP_ICT_STATUS_TIMEOUT (transactionid t) (e_sip evt);
                             Kill ICT (transactionid t)].
Proof.
  unfold osip_ict_timeout_b_event, with_ict, terminate. intros H.
  destruct (ict_context t) as [c|]; [|done]. cbn in H.
  destruct (message_callback _ _ _ w) as [w1| |] eqn:Ec; [|done..]. apply callback_effect in Ec.
  simplify_eq. cbn. split; [done|]. by rewrite Ec, <- app_assoc.
Qed.

(** ** The work of the stack for one transaction *)

(** The transaction [t] of the stack [o] gets its timer event, and its events are executed
    between [o1] and [o2]. *)
Record served (app : list Z) (k : osip_fsm_type_t) (id : Z) (now : timeval) (t : osip_transaction)
    (o o1 o2 o' : osip) : Prop := {
  sv_ok : stack_ok o' app;
  sv_lists : forall k', transactions_of k' o' = transactions_of k' o;
  sv_before : stack_ok o1 app;
  sv_timer : transactions o1 !! id = Some (timer_step k t (set_clock now (sip_world o)));
  sv_clock : clock (sip_world o1) = now;
  sv_drain : drain (pending id o1) id o1 = Done o2;
  sv_after : transactions o' !! id = transactions o2 !! id;
  sv_actions : exists out1 out3,
    actions (sip_world o1) = actions (sip_world o) ++ out1 /\
    actions (sip_world o') = actions (sip_world o2) ++ out3 /\
    Forall (fun a => about id a = false) out1 /\ Forall (fun a => about id a = false) out3
}.

Lemma poll_serves k now o app id t :
  stack_ok o app -> id ∈ transactions_of k o -> transactions o !! id = Some t ->
  returns (poll k now o) (fun o' => exists o1 o2, served app k id now t o o1 o2 o').
Proof.
  intros Hok Hin Ht. unfold poll.
  pose proof (step_ok (Advance now) o app Hok I) as Hok0. cbn in Hok0.
  set (o0 := set_sip_world (set_clock now (sip_world o)) o) in *.
  assert (forall k', transactions_of k' o0 = transactions_of k' o) as Hl0 by (intros k'; by destruct k').
  destruct (returns_done _ _ (osip_timers_execute_ok k o0 app Hok0)) as (ot & -> & Hokt & Hwt & Hlt & Hint & _).
  eapply returns_mono; [apply (osip_execute_ok k ot app Hokt)|].
  intros o' (out & Hok' & D & Hl' & Hturn & _). destruct (Hturn id) as (o1 & o2 & T).
  { by rewrite Hlt, Hl0. }
  destruct T as [T1 T2 T3 T4 T5 (out1 & out3 & A1 & A3 & Ap)]. apply Forall_app in Ap as [P1 P3].
  exists o1, o2. split; [done| |done| | |done|done|].
  - intros k'. by rewrite Hl', Hlt, Hl0.
  - rewrite T2. apply (Hint id t); [by rewrite Hl0|done].
  - by rewrite T5, Hwt.
  - exists out1, out3. rewrite A1, A3, Hwt. done.
Qed.

Lemma need_timer_spec timer cond id type w :
  need_timer_x_event (Some timer) cond id type w =
  if cond && running timer && later (clock w) timer then Some (osip_event_new type id) else None.
Proof. done. Qed.

(** The timers of an INVITE that waits for an answer. *)
Lemma timer_event_calling t w c : t_state t = ICT_CALLING -> ict_context t = Some c ->
  timer_event ICT t w =
  if running (timer_b_start c) && later (clock w) (timer_b_start c)
  then Some (osip_event_new TIMEOUT_B (transactionid t))
  else if running (timer_a_start c) && later (clock w) (timer_a_start c)
  then Some (osip_event_new TIMEOUT_A (transactionid t)) else None.
Proof.
  intros Hs Hc. unfold timer_event, ict_need_timer_b_event, ict_need_timer_a_event, ict_need_timer_d_event.
  rewrite Hs, Hc. cbn [fmap option_fmap option_map]. rewrite !need_timer_spec. cbn [bool_decide].
  rewrite !bool_decide_true, bool_decide_false by done. cbn [andb].
  by destruct (running (timer_b_start c) && _), (running (timer_a_start c) && _).
Qed.

Lemma timer_step_empty k t w : transactionff t = [] ->
  timer_step k t w = match timer_event k t w with
                     | Some evt => set_transactionff [evt] t
                     | None => t
                     end.
Proof.
  intros Hff. unfold timer_step. rewrite Hff. rewrite (bool_decide_true ([] = [])) by done. cbn [negb].
  by rewrite andb_false_r.
Qed.

Lemma execute_method t evt w h r t' w' :
  e_type evt <> KILL_TRANSACTION ->
  fsm_findmethod (e_type evt) (t_state t) (statemachine_of (ctx_type t)) = Some h ->
  osip_transaction_execute t evt w = Done (r, t', w') -> h t evt w = Done (t', w').
Proof.
  intros Hk Hf. unfold osip_transaction_execute. rewrite decide_False by done. rewrite Hf.
  destruct (h t evt w) as [[t1 w1]| |]; [|done..]. by intros [= _ <- <-].
Qed.

(** ** Timers A and B *)

(** The execution of the event of a timer. *)
Lemma drain_timer app id o1 o2 t evt :
  stack_ok o1 app -> transactions o1 !! id = Some (set_transactionff [evt] t) -> transactionff t = [] ->
  drain (pending id o1) id o1 = Done o2 ->
  exists r t', osip_transaction_execute t evt (sip_world o1) = Done (r, t', sip_world o2) /\
    transactions o2 !! id = Some t' /\ same_transaction t t'.
Proof.
  intros Hok Ht Hff E. pose proof (drain_single app id o1 _ evt Hok Ht eq_refl) as H. rewrite E in H.
  destruct H as (r & t' & out & _ & _ & X & Ht' & Hs & _).
  assert (set_transactionff [] (set_transactionff [evt] t) = t) as Et.
  { change (set_transactionff [] t = t). by apply set_fifo_same. }
  rewrite Et in *. eauto.
Qed.

(** What a poll does to an INVITE that is being sent again: it ends, or it is sent at most
    once more. *)
Definition invite_poll (start n now : Z) (id : Z) (t' : osip_transaction) (out : list action) : Prop :=
  (t_state t' = ICT_TERMINATED /\ Z.of_nat (List.length (sendings id out)) <= 6 - n) \/
  (exists n', retransmitting start n' t' /\ now <= start + 32000 * 1000 /\ n <= n' /\
     Z.of_nat (List.length (sendings id out)) <= n' - n).

Lemma terminated_ict t : ctx_type t = ICT -> shape t = true -> is_terminated t = true ->
  t_state t = ICT_TERMINATED.
Proof.
  intros Hk Hs%shape_state Ht. apply bool_decide_eq_true in Ht. by rewrite Hs, Hk, Ht.
Qed.

Lemma pow_step start n now c :
  0 <= n <= 6 -> micros now <= start + 32000 * 1000 -> micros (timer_a_start c) < micros now ->
  is_time now -> timer_a_length c = 500 * 2 ^ n ->
  start + 500 * (2 ^ (n + 1) - 1) * 1000 <= micros (timer_a_start c) ->
  n <= 5 /\ is_time (add_gettimeofday now (timer_a_length c * 2)) /\ timer_a_length c * 2 = 500 * 2 ^ (n + 1) /\
  start + 500 * (2 ^ (n + 1 + 1) - 1) * 1000 <= micros (add_gettimeofday now (timer_a_length c * 2)).
Proof.
  intros Hn HB Hlt Hnow Hlen Hs. assert (n <= 5) as H5.
  { destruct (Z.eq_dec n 6) as [->|]; [|lia]. change (2 ^ (6 + 1)) with 128 in Hs. lia. }
  assert (timer_a_length c * 2 = 500 * 2 ^ (n + 1)) as E.
  { rewrite Hlen, Z.pow_add_r by lia. lia. }
  assert (0 < 2 ^ (n + 1) <= 2 ^ 6) as Hp.
  { split; [apply Z.pow_pos_nonneg; lia|]. apply Z.pow_le_mono_r; lia. }
  change (2 ^ 6) with 64 in Hp.
  destruct (add_gettimeofday_micros now (timer_a_length c * 2) Hnow) as [Ht Hm]; [lia|].
  split; [done|]. split; [done|]. split; [done|]. rewrite Hm, E, (Z.pow_add_r 2 (n + 1) 1) by lia. lia.
Qed.

Lemma poll_invite start n now o app id t :
  stack_ok o app -> id ∈ transactions_of ICT o -> transactions o !! id = Some t ->
  retransmitting start n t -> is_time now ->
  returns (poll ICT now o) (fun o' => exists t' out,
    stack_ok o' app /\ id ∈ transactions_of ICT o' /\ transactions o' !! id = Some t' /\
    actions (sip_world o') = actions (sip_world o) ++ out /\
    transactionff t' = [] /\ invite_poll start n (micros now) id t' out).
Proof.
  intros Hok Hin Ht Hrt Hnow. eapply returns_mono; [by apply (poll_serves ICT now o app id t)|].
  intros o' (o1 & o2 & [S1 S2 S3 S4 S5 S6 S7 (out1 & out3 & A1 & A3 & P1 & P3)]).
  pose proof Hrt as [Hn Hk Hst Hff (c & Hc & HBt & HB & HA)].
  rewrite (timer_step_empty _ _ _ Hff), (timer_event_calling _ _ c Hst Hc), (is_time_running _ HBt) in S4.
  cbn [andb set_clock clock] in S4. rewrite (later_micros _ _ Hnow HBt) in S4.
  destruct (so_transactions _ _ Hok id t Ht) as [Hwf _]. pose proof (tw_id _ _ _ Hwf) as Hid.
  rewrite Hid in S4. rewrite S2.
  destruct (Z.ltb_spec (micros (timer_b_start c)) (micros now)) as [HlB|HlB].
  - destruct (drain_timer app id o1 o2 t _ S3 S4 Hff S6) as (r & t' & X & Ht' & Hs).
    eapply execute_method in X; [|done|by rewrite Hk, Hst].
    destruct (timeout_b_effect _ _ _ _ _ X) as [Hst' Ha].
    exists t', (out1 ++ [Inform OSIP_ICT_STATUS_TIMEOUT id None; Kill ICT id] ++ out3).
    split_and!; [done|done|by rewrite S7| |by rewrite (st_fifo _ _ Hs)|].
    + rewrite A3, Ha, A1, Hid. cbn. by rewrite <- !app_assoc.
    + left. split; [done|]. rewrite !sendings_app, (sendings_other _ out1), (sendings_other _ out3) by done.
      cbn. lia.
  - destruct (running (timer_a_start c) && later now (timer_a_start c)) eqn:EA.
    + apply andb_true_iff in EA as [EA1 EA2]. destruct HA as [HA|(Hlen & HAt & HAs)].
      { unfold running in EA1. by rewrite HA in EA1. }
      rewrite (later_micros _ _ Hnow HAt) in EA2. apply Z.ltb_lt in EA2.
      destruct (pow_step start n now c) as (H5 & Ht2 & Hlen2 & Hst2); try done; [by rewrite <- HB|].
      destruct (drain_timer app id o1 o2 t _ S3 S4 Hff S6) as (r & t' & X & Ht' & Hs).
      eapply execute_method in X; [|done|by rewrite Hk, Hst].
      destruct (timeout_a_effect _ _ _ _ _ c X Hc Hk) as ((out & Ha & Hlo) & Hend). rewrite S5 in Hend.
      exists t', (out1 ++ out ++ out3). rewrite Hid in Hlo.
      assert (sendings id (out1 ++ out ++ out3) = sendings id out) as Eout.
      { rewrite !sendings_app, (sendings_other _ out1), (sendings_other _ out3) by done. by rewrite app_nil_r. }
      split_and!; [done|done|by rewrite S7| |by rewrite (st_fifo _ _ Hs)|].
      * rewrite A3, Ha, A1. by rewrite <- !app_assoc.
      * unfold invite_poll. rewrite Eout. destruct Hend as [Hterm|(Hst' & c' & Hc' & HB' & HA')].
        -- left. split; [|lia]. apply terminated_ict; [by rewrite (st_type _ _ Hs)| |done].
           rewrite <- S7 in Ht'. destruct (so_transactions _ _ S1 id t' Ht') as [W _]. by apply W.
        -- right. exists (n + 1). split_and!; [|by rewrite <- HB|lia|lia].
           split; [lia|by rewrite (st_type _ _ Hs)|by rewrite Hst'|by rewrite (st_fifo _ _ Hs)|].
           exists c'. rewrite HB'. split_and!; [done|done|done|].
           destruct HA' as [HA'|[HA1 HA2]]; [by left|right]. rewrite HA1, HA2. done.
    + assert (drain (pending id o1) id o1 = Done o1) as Ed by (by eapply drain_none).
      rewrite Ed in S6. injection S6 as <-. exists t, (out1 ++ out3).
      split_and!; [done|done|by rewrite S7| |done|].
      * by rewrite A3, A1, app_assoc.
      * right. exists n. rewrite sendings_app, (sendings_other _ out1), (sendings_other _ out3) by done.
        split_and!; [done|by rewrite <- HB|lia|cbn; lia].
Qed.

(** A transaction that has ended does nothing. *)
Lemma poll_ended k now o app id t :
  stack_ok o app -> id ∈ transactions_of k o -> transactions o !! id = Some t ->
  ctx_type t = k -> is_terminated t = true -> transactionff t = [] ->
  returns (poll k now o) (fun o' => exists out,
    stack_ok o' app /\ id ∈ transactions_of k o' /\ transactions o' !! id = Some t /\
    actions (sip_world o') = actions (sip_world o) ++ out /\ sendings id out = []).
Proof.
  intros Hok Hin Ht Hk Hend Hff. eapply returns_mono; [by apply (poll_serves k now o app id t)|].
  intros o' (o1 & o2 & [S1 S2 S3 S4 S5 S6 S7 (out1 & out3 & A1 & A3 & P1 & P3)]).
  destruct (so_transactions _ _ Hok id t Ht) as [Hwf _].
  assert (timer_event k t (set_clock now (sip_world o)) = None) as En.
  { pose proof (shape_state _ (tw_shape _ _ _ Hwf)) as Hst. apply bool_decide_eq_true in Hend.
    rewrite Hend, Hk in Hst. destruct k; cbn in *; rewrite Hst; unfold ict_need_timer_b_event,
      ict_need_timer_a_event, ict_need_timer_d_event, ist_need_timer_g_event, ist_need_timer_h_event,
      ist_need_timer_i_event, nict_need_timer_e_event, nict_need_timer_f_event, nict_need_timer_k_event,
      nist_need_timer_j_event, need_timer_x_event; repeat (destruct (_ <$> _)); done. }
  rewrite (timer_step_empty _ _ _ Hff), En in S4.
  assert (drain (pending id o1) id o1 = Done o1) as Ed by (by eapply drain_none).
  rewrite Ed in S6. injection S6 as <-. exists (out1 ++ out3).
  split_and!; [done|by rewrite S2|by rewrite S7| |].
  - by rewrite A3, A1, app_assoc.
  - by rewrite sendings_app, (sendings_other _ out1), (sendings_other _ out3).
Qed.

Definition overdue (start : Z) (times : list timeval) : Prop :=
  Exists (fun now => start + 32000 * 1000 < micros now) times.

Lemma polls_ended app id times : forall o t,
  stack_ok o app -> id ∈ transactions_of ICT o -> transactions o !! id = Some t ->
  t_state t = ICT_TERMINATED -> ctx_type t = ICT -> transactionff t = [] ->
  returns (polls ICT times o) (fun o' => exists out,
    transactions o' !! id = Some t /\
    actions (sip_world o') = actions (sip_world o) ++ out /\ sendings id out = []).
Proof.
  induction times as [|now times IH]; intros o t Hok Hin Ht Hst Hk Hff; cbn [polls].
  { exists []. by rewrite app_nil_r. }
  eapply returns_bind; [apply (poll_ended ICT now o app id t); try done|].
  { unfold is_terminated. by rewrite Hst. }
  intros o1 (out1 & Hok1 & Hin1 & Ht1 & A1 & P1).
  eapply returns_mono; [by apply (IH o1 t)|]. intros o' (out2 & Ht2 & A2 & P2).
  exists (out1 ++ out2). split_and!; [done|by rewrite A2, A1, app_assoc|]. by rewrite sendings_app, P1, P2.
Qed.

Lemma polls_invite app id start times : forall n o t,
  stack_ok o app -> id ∈ transactions_of ICT o -> transactions o !! id = Some t ->
  retransmitting start n t -> Forall is_time times ->
  returns (polls ICT times o) (fun o' => exists t' out,
    transactions o' !! id = Some t' /\
    actions (sip_world o') = actions (sip_world o) ++ out /\
    Z.of_nat (List.length (sendings id out)) <= 6 - n /\
    (overdue start times -> t_state t' = ICT_TERMINATED)).
Proof.
  induction times as [|now times IH]; intros n o t Hok Hin Ht Hrt Htimes; cbn [polls].
  { exists t, []. rewrite app_nil_r. destruct Hrt. split_and!; [done|done|cbn; lia|].
    intros H. by apply Exists_nil in H. }
  apply Forall_cons in Htimes as [Hnow Htimes].
  eapply returns_bind; [by apply (poll_invite start n now o app id t)|].
  intros o1 (t1 & out1 & Hok1 & Hin1 & Ht1 & A1 & Hff1 & [[Hst1 L1]|(n' & Hrt1 & Hb & Hn & L1)]).
  - destruct (so_lists _ _ Hok1 ICT) as [_ Hl]. destruct (Hl id Hin1) as (t1' & Ht1' & Hk1).
    rewrite Ht1 in Ht1'. injection Ht1' as <-.
    eapply returns_mono; [by apply (polls_ended app id times o1 t1)|].
    intros o' (out2 & Ht2 & A2 & P2). exists t1, (out1 ++ out2).
    rewrite sendings_app, P2, app_nil_r. split_and!; [done|by rewrite A2, A1, app_assoc|done|done].
  - eapply returns_mono; [by apply (IH n' o1 t1)|].
    intros o' (t' & out2 & Ht2 & A2 & L2 & Hend). exists t', (out1 ++ out2).
    rewrite sendings_app, length_app. split_and!; [done|by rewrite A2, A1, app_assoc|lia|].
    intros Hov. apply Exists_cons in Hov as [Hov|Hov]; [lia|by apply Hend].
Qed.

(** ** The first sending *)

(** A new INVITE client transaction whose context was made at time [t0], and that has been
    given its request. *)
Record new_invite (t0 : timeval) (t : osip_transaction) (evt : osip_event) : Prop := {
  ni_type : ctx_type t = ICT;
  ni_state : t_state t = ICT_PRE_CALLING;
  ni_fifo : transactionff t = [evt];
  ni_event : e_type evt = SND_REQINVITE;
  ni_context : exists m w c, osip_ict_init m w = Done (Ok c) /\ clock w = t0 /\ ict_context t = Some c
}.

Lemma ict_init_timers m w c : is_time (clock w) -> osip_ict_init m w = Done (Ok c) ->
  timer_a_length c = 500 * 2 ^ 0 /\ is_time (timer_a_start c) /\
  micros (timer_a_start c) = micros (clock w) + 500 * 1000 /\
  is_time (timer_b_start c) /\ micros (timer_b_start c) = micros (clock w) + 32000 * 1000.
Proof.
  intros Hw. unfold osip_ict_init. destruct (via_protocol _ m) as [p|]; [|done].
  destruct (request_destination m) as [[host port]| |]; [|done..]. intros [= <-]. cbn.
  unfold timer_from_now.
  destruct (add_gettimeofday_micros (clock w) 500 Hw) as [H1 H2]; [lia|].
  destruct (add_gettimeofday_micros (clock w) 32000 Hw) as [H3 H4]; [lia|].
  change DEFAULT_T1 with 500. change (64 * 500) with 32000. done.
Qed.

Lemma snd_invite_effect t evt w t' w' c :
  ict_snd_invite t evt w = Done (t', w') -> ict_context t = Some c -> ctx_type t = ICT ->
  (exists out, actions w' = actions w ++ out /\ (List.length (sendings (transactionid t) out) <= 1)%nat) /\
  (t_state t' = ICT_TERMINATED \/
   (t_state t' = ICT_CALLING /\ exists c', ict_context t' = Some c' /\ timer_b_start c' = timer_b_start c /\
    (tv_sec (timer_a_start c') = -1 \/
     timer_a_length c' = timer_a_length c /\ timer_a_start c' = timer_a_start c))).
Proof.
  unfold ict_snd_invite, with_ict, ict_send, handle_transport_error, terminate. intros H Hc Hk.
  cbn [ict_context set_orig_request] in H. rewrite Hc in H. cbn in H.
  destruct (cb_send_message _ _ _ _ w) as [[r w1]| |] eqn:Es; [|done..]. cbn in H.
  destruct (send_effect _ _ _ _ _ _ _ Es) as [i Ew1].
  destruct (r <? 0).
  { simplify_eq. split; [|by left]. cbn. rewrite Ew1. eexists. rewrite <- !app_assoc. split; [done|].
    cbn. rewrite bool_decide_true by done. done. }
  destruct (if r =? 0 then _ else _) as [[b|e]| |] eqn:Er; [| |done..].
  - destruct b; cbn in H; rewrite ?Hc in H; cbn in H;
      (destruct (message_callback _ _ _ w1) as [w2| |] eqn:Ec; [|done..]);
      apply callback_effect in Ec; simplify_eq; cbn;
      (split; [rewrite Ec, Ew1, <- app_assoc; eexists; split; [done|]; cbn; by rewrite bool_decide_true by done|]);
      right; (split; [done|]); eexists; (split; [done|]); (split; [done|]); [by left|by right].
  - simplify_eq. split; [|by left]. cbn. rewrite Ew1. eexists. rewrite <- !app_assoc. split; [done|].
    cbn. rewrite bool_decide_true by done. done.
Qed.

Lemma first_sending t0 o app id t evt :
  stack_ok o app -> id ∈ transactions_of ICT o -> transactions o !! id = Some t ->
  new_invite t0 t evt -> is_time t0 ->
  returns (osip_execute ICT o) (fun o' => exists t' out,
    stack_ok o' app /\ id ∈ transactions_of ICT o' /\ transactions o' !! id = Some t' /\
    ctx_type t' = ICT /\ transactionff t' = [] /\
    actions (sip_world o') = actions (sip_world o) ++ out /\ (List.length (sendings id out) <= 1)%nat /\
    (t_state t' = ICT_TERMINATED \/ retransmitting (micros t0) 0 t')).
Proof.
  intros Hok Hin Ht [Hk Hst Hff Hty (m & w & c & Hinit & <- & Hc)] Ht0.
  eapply returns_mono; [apply (osip_execute_ok ICT o app Hok)|].
  intros o' (out & Hok' & D & Hl & Hturn & _).
  destruct (Hturn id Hin) as (o1 & o2 & [T1 T2 T3 T4 T5 (out1 & out3 & A1 & A3 & Ap)]).
  apply Forall_app in Ap as [P1 P3]. destruct (so_transactions _ _ Hok id t Ht) as [Hwf _].
  pose proof (tw_id _ _ _ Hwf) as Hid.
  pose proof (drain_single app id o1 t evt T1 ltac:(by rewrite T2) Hff) as Hd. rewrite T3 in Hd.
  destruct Hd as (r & t' & out' & _ & _ & X & Ht' & Hs & _).
  eapply execute_method in X; [|by rewrite Hty|cbn [t_state ctx_type set_transactionff]; by rewrite Hty, Hst, Hk].
  destruct (snd_invite_effect _ _ _ _ _ c X Hc Hk) as ((out2 & A2 & L2) & Hend). cbn in L2. rewrite Hid in L2.
  destruct (ict_init_timers m w c Ht0 Hinit) as (I1 & I2 & I3 & I4 & I5).
  exists t', (out1 ++ out2 ++ out3).
  split_and!; [done|by rewrite Hl|by rewrite T4|by rewrite (st_type _ _ Hs)|by rewrite (st_fifo _ _ Hs)| | |].
  - rewrite A3, A2, A1. by rewrite <- !app_assoc.
  - rewrite !sendings_app, (sendings_other _ out1), (sendings_other _ out3), app_nil_r by done. done.
  - destruct Hend as [Hterm|(Hst' & c' & Hc' & HB' & HA')]; [by left|right].
    split; [lia|by rewrite (st_type _ _ Hs)|done|by rewrite (st_fifo _ _ Hs)|].
    exists c'. rewrite HB'. split_and!; [done|done|done|].
    destruct HA' as [HA'|[HA1 HA2]]; [by left|right]. rewrite HA1, HA2, I3.
    split_and!; [done|done|]. change (2 ^ (0 + 1)) with 2. lia.
Qed.

(** C19: an INVITE that nobody answers is sent at most seven times, whatever the transport
    answers, whatever else the stack has to do and whenever the application calls it; and
    once the application has called the stack more than 64 T1, 32 seconds, after the
    transaction was made, the transaction has ended (RFC 3261, 17.1.1.2). *)
Theorem sip_invite_attempts t0 o app id t evt times :
  reachable o app -> id ∈ transactions_of ICT o -> transactions o !! id = Some t ->
  new_invite t0 t evt -> is_time t0 -> Forall is_time times ->
  returns (let! o := osip_execute ICT o in polls ICT times o) (fun o' => exists t' out,
    transactions o' !! id = Some t' /\
    actions (sip_world o') = actions (sip_world o) ++ out /\
    (List.length (sendings id out) <= 7)%nat /\
    (overdue (micros t0) times -> t_state t' = ICT_TERMINATED)).
Proof.
  intros Hr Hin Ht Hnew Ht0 Htimes. apply reachable_ok in Hr as Hok.
  eapply returns_bind; [by apply (first_sending t0 o app id t evt)|].
  intros o1 (t1 & out1 & Hok1 & Hin1 & Ht1 & Hk1 & Hff1 & A1 & L1 & Hend).
  destruct Hend as [Hend|Hrt].
  - eapply returns_mono; [by apply (polls_ended app id times o1 t1)|].
    intros o' (out2 & Ht2 & A2 & P2). exists t1, (out1 ++ out2).
    rewrite sendings_app, P2, app_nil_r. split_and!; [done|by rewrite A2, A1, app_assoc|lia|done].
  - eapply returns_mono; [by apply (polls_invite app id (micros t0) times 0 o1 t1)|].
    intros o' (t2 & out2 & Ht2 & A2 & L2 & Hov). exists t2, (out1 ++ out2).
    rewrite sendings_app, length_app. split_and!; [done|by rewrite A2, A1, app_assoc|lia|done].
Qed.
