(* ===== verification/SipTimeout.v ===== *)
(** How long the SIP stack may sleep: [osip_timers_gettimeout] is exact. *)

From stdpp Require Import base list option numbers strings gmap.
From S2P Require Import Prelude.
From S2P Require Import SipTypes.
From S2P Require Import SipMessage.
From S2P Require Import SipFsm.
From S2P Require Import SipStack.
From S2P Require Import SipOwnership.
From S2P Require Import SipSpec.
From S2P Require Import SipRefine.
From S2P Require Import SipSafety.
From S2P Require Import SipStackSafety.
From S2P Require Import SipReachable.
From S2P Require Import SipTimers.

Local Open Scope Z_scope.
Open Scope c_scope.

(** ** The timers that run *)

Definition usec_ok (t : timeval) : Prop := 0 <= tv_usec t < 1000000.

(** The timers of a transaction that matter in its state. *)
Definition timers_of (t : osip_transaction) : list timeval :=
  match t_state t with
  | ICT_CALLING => match ict_context t with Some c => [timer_b_start c; timer_a_start c] | None => [] end
  | ICT_COMPLETED => match ict_context t with Some c => [timer_d_start c] | None => [] end
  | IST_CONFIRMED => match ist_context t with Some c => [timer_i_start c] | None => [] end
  | IST_COMPLETED => match ist_context t with Some c => [timer_h_start c; timer_g_start c] | None => [] end
  | NICT_COMPLETED => match nict_context t with Some c => [timer_k_start c] | None => [] end
  | NICT_PROCEEDING | NICT_TRYING =>
      match nict_context t with Some c => [timer_f_start c; timer_e_start c] | None => [] end
  | NIST_COMPLETED => match nist_context t with Some c => [timer_j_start c] | None => [] end
  | _ => []
  end.

Definition armed (t : osip_transaction) : list timeval := List.filter running (timers_of t).

Definition stack_timers (k : osip_fsm_type_t) (o : osip) : list timeval :=
  flat_map (fun id => match transactions o !! id with Some t => armed t | None => [] end)
    (transactions_of k o).

Definition in_a_year (now : timeval) : timeval := mkTimeval (tv_sec now + 3600 * 24 * 365) (tv_usec now).

(** What the stack may have to wake up for. *)
Definition wakeups (o : osip) : list timeval :=
  in_a_year (clock (sip_world o)) ::
  stack_timers ICT o ++ stack_timers IST o ++ stack_timers NICT o ++ stack_timers NIST o ++
  List.filter running (map ixt_start (ixt_retransmissions o)).

(** There is something to do at once: an event for an INVITE client transaction, or a time
    that has passed. *)
Definition due (o : osip) : Prop :=
  (exists id t, id ∈ transactions_of ICT o /\ transactions o !! id = Some t /\ transactionff t <> []) \/
  (exists s, s ∈ wakeups o /\ micros s < micros (clock (sip_world o))).

(** ** Minima *)

Definition is_min (m : timeval) (l : list timeval) : Prop :=
  m ∈ l /\ forall s, s ∈ l -> micros m <= micros s.

Lemma is_min_one m : is_min m [m].
Proof. split; [left|]. intros s ->%list_elem_of_singleton. lia. Qed.

Lemma is_min_app m m' l l' : is_min m l -> is_min m' (m :: l') -> is_min m' (l ++ l').
Proof.
  intros [H1 H2] [H3 H4]. split.
  - apply elem_of_cons in H3 as [->|H3]; apply elem_of_app; auto.
  - intros s [Hs|Hs]%elem_of_app.
    + specialize (H2 s Hs). specialize (H4 m ltac:(left)). lia.
    + apply H4. by right.
Qed.

Lemma later_usec a b : usec_ok a -> usec_ok b -> later a b = (micros b <? micros a).
Proof.
  unfold usec_ok, later, micros. intros Ha Hb. destruct (Z.eqb_spec (tv_sec a) (tv_sec b)) as [->|].
  - destruct (Z.ltb_spec (tv_usec b) (tv_usec a)); symmetry; [apply Z.ltb_lt|apply Z.ltb_ge]; lia.
  - destruct (Z.ltb_spec (tv_sec b) (tv_sec a)); symmetry; [apply Z.ltb_lt|apply Z.ltb_ge]; lia.
Qed.

Lemma min_timercmp_min a b : usec_ok a -> (running b = true -> usec_ok b) ->
  usec_ok (min_timercmp a b) /\ is_min (min_timercmp a b) (a :: List.filter running [b]).
Proof.
  intros Ha Hb. unfold min_timercmp. cbn. unfold running in *. destruct (tv_sec b =? -1); cbn in *.
  - split; [done|apply is_min_one].
  - specialize (Hb eq_refl). rewrite (later_usec _ _ Ha Hb).
    destruct (Z.ltb_spec (micros b) (micros a)); (split; [done|]); split.
    + right. left.
    + intros s [->|[->|H']%elem_of_cons]%elem_of_cons; [lia|lia|]. by apply not_elem_of_nil in H'.
    + left.
    + intros s [->|[->|H']%elem_of_cons]%elem_of_cons; [lia|lia|]. by apply not_elem_of_nil in H'.
Qed.

(** A step of a loop: nothing to wait for, or the earliest of what there was and [l]. *)
Definition narrows (l : list timeval) (lower : timeval) (r : option timeval) : Prop :=
  forall m, r = Some m -> usec_ok m /\ is_min m (lower :: l).

(** What is left to wait for is not over; or else there is something to do. *)
Definition ahead (now : timeval) (D : Prop) (r : option timeval) : Prop :=
  match r with Some m => micros now <= micros m | None => D end.

Lemma narrows_nil lower : usec_ok lower -> narrows [] lower (Some lower).
Proof. intros H m [= <-]. split; [done|apply is_min_one]. Qed.

Lemma narrows_app l l' lower m r : narrows l lower (Some m) -> narrows l' m r -> narrows (l ++ l') lower r.
Proof.
  intros H H' m' E. destruct (H m eq_refl) as [_ H2]. destruct (H' m' E) as [H3 H4].
  split; [done|]. exact (is_min_app _ _ _ _ H2 H4).
Qed.

Lemma earliest_spec {A} (f : A -> timeval -> outcome (option timeval)) (cands : A -> list timeval) now D :
  usec_ok now -> forall l lower,
  (forall s, s ∈ flat_map cands l -> micros s < micros now -> D) ->
  (forall x lower, x ∈ l -> usec_ok lower ->
     returns (f x lower) (fun r => narrows (cands x) lower r /\ (r = None -> D))) ->
  usec_ok lower -> micros now <= micros lower ->
  returns (earliest f now l lower) (fun r => narrows (flat_map cands l) lower r /\ ahead now D r).
Proof.
  intros Hnow. induction l as [|x l IH]; intros lower HD Hf Hl Hle; cbn [earliest flat_map].
  { split; [by apply narrows_nil|done]. }
  eapply returns_bind; [apply Hf; [left|done]|]. intros [m|] [Hm HN]; [|split; [done|by apply HN]].
  destruct (Hm m eq_refl) as [Hmu [Hin _]]. rewrite (later_usec _ _ Hnow Hmu).
  destruct (Z.ltb_spec (micros m) (micros now)).
  { split; [done|]. apply elem_of_cons in Hin as [->|Hin]; [lia|]. apply (HD m); [|done].
    cbn. apply elem_of_app. by left. }
  eapply returns_mono; [apply (IH m); [| |done|done]|].
  - intros s Hs. apply HD. cbn. apply elem_of_app. by right.
  - intros y lower' Hy. apply Hf. by right.
  - intros r [Hr Hge]. split; [|done]. by eapply narrows_app.
Qed.

Lemma usec_narrows l lower m : narrows l lower (Some m) -> usec_ok m.
Proof. intros H. by destruct (H m eq_refl). Qed.

Lemma narrows_one a lower : usec_ok lower -> (running a = true -> usec_ok a) ->
  narrows (List.filter running [a]) lower (Some (min_timercmp lower a)).
Proof. intros Hl Ha m [= <-]. by apply min_timercmp_min. Qed.

Lemma narrows_two a b lower :
  usec_ok lower -> (running a = true -> usec_ok a) -> (running b = true -> usec_ok b) ->
  narrows (List.filter running [a; b]) lower (Some (min_timercmp (min_timercmp lower a) b)).
Proof.
  intros Hl Ha Hb. rewrite (List.filter_app running [a] [b] : List.filter running [a; b] = _).
  eapply narrows_app; [by apply narrows_one|]. apply narrows_one; [|done]. by apply min_timercmp_min.
Qed.

Lemma armed_one a : Forall usec_ok (List.filter running [a]) -> running a = true -> usec_ok a.
Proof. intros H Ha. cbn in H. rewrite Ha in H. by inversion H. Qed.

Lemma armed_two a b : Forall usec_ok (List.filter running [a; b]) ->
  (running a = true -> usec_ok a) /\ (running b = true -> usec_ok b).
Proof.
  rewrite (List.filter_app running [a] [b] : List.filter running [a; b] = _), Forall_app.
  intros [Ha Hb]. auto using armed_one.
Qed.

(** The timers of one transaction. *)
Lemma earliest_timer_spec k t lower :
  shape t = true -> ctx_type t = k -> Forall usec_ok (armed t) -> usec_ok lower ->
  returns (earliest_timer k t lower) (fun r =>
    narrows (armed t) lower r /\ (r = None -> k = ICT /\ transactionff t <> [])).
Proof.
  intros Hs Hk Hu Hl. unfold armed, timers_of, shape in *. rewrite Hk in Hs.
  destruct k; apply andb_true_iff in Hs as [Hc Hs]; unfold earliest_timer;
    try (case_bool_decide; cbn [negb]; [|done]);
    destruct (t_state t); try discriminate;
    repeat match goal with
    | H : some ?x = true |- _ => destruct x; [|done]; clear H
    end; unfold min_timer, nict_running;
    repeat match goal with
    | |- context [@bool_decide (?a = ?b) ?d] =>
        let v := eval vm_compute in (@bool_decide (a = b) d) in change (@bool_decide (a = b) d) with v
    end; cbn [orb lift returns]; (split; [|done]);
    first [ by apply narrows_nil
          | apply narrows_one; [done|by apply armed_one]
          | apply narrows_two; [done|by apply (armed_two _ _ Hu)..] ].
Qed.

(** The timers of the transactions of one kind. *)
Lemma earliest_of_spec k o app lower :
  stack_ok o app -> usec_ok (clock (sip_world o)) -> Forall usec_ok (stack_timers k o) -> usec_ok lower ->
  micros (clock (sip_world o)) <= micros lower ->
  (forall s, s ∈ stack_timers k o -> s ∈ wakeups o) ->
  returns (earliest_of k o lower) (fun r =>
    narrows (stack_timers k o) lower r /\ ahead (clock (sip_world o)) (due o) r).
Proof.
  intros Hok Hnow Hu Hl Hle Hw. unfold earliest_of, stack_timers in *. apply earliest_spec; [done| | |done|done].
  { intros s Hs Hlt. right. exists s. auto. }
  intros id lower' Hin Hl'. destruct (so_lists _ _ Hok k) as [_ Hlist].
  destruct (Hlist id Hin) as (t & Ht & Hk). unfold get_transaction. rewrite Ht. cbn [lift].
  destruct (so_transactions _ _ Hok id t Ht) as [Hwf _].
  eapply returns_mono; [apply earliest_timer_spec; [by apply Hwf|done| |done]|].
  2:{ intros r [Hr HN]. split; [done|]. intros [-> Hff]%HN. left. eauto. }
  rewrite Forall_forall in *. intros s Hs. apply Hu. apply list_elem_of_In, in_flat_map.
  exists id. split; apply list_elem_of_In; [done|]. by rewrite Ht.
Qed.

Lemma and_then_spec {now : timeval} {D : Prop} (r : outcome (option timeval)) k l l' lower :
  returns r (fun r => narrows l lower r /\ ahead now D r) ->
  (forall m, usec_ok m -> micros now <= micros m ->
     returns (k m) (fun r => narrows l' m r /\ ahead now D r)) ->
  returns (and_then r k) (fun r => narrows (l ++ l') lower r /\ ahead now D r).
Proof.
  intros Hr Hk. unfold and_then. eapply returns_bind; [exact Hr|]. intros [m|] [Hm Hge]; [|done].
  eapply returns_mono; [apply Hk; [by eapply usec_narrows|by apply Hge]|].
  intros r' [H1 H2]. split; [|done]. by eapply narrows_app.
Qed.

(** The loop over the retransmissions of dialogs takes every timer: they always run. *)
Lemma ixt_earliest_spec now D l lower :
  usec_ok now -> Forall usec_ok (List.filter running (map ixt_start l)) -> usec_ok lower ->
  micros now <= micros lower ->
  (forall s, s ∈ List.filter running (map ixt_start l) -> micros s < micros now -> D) ->
  returns (earliest (fun x lower => Done (Some (min_timercmp lower (ixt_start x)))) now l lower)
    (fun r => narrows (List.filter running (map ixt_start l)) lower r /\ ahead now D r).
Proof.
  intros Hnow Hu Hl Hle HD.
  assert (List.filter running (map ixt_start l) = flat_map (fun x => List.filter running [ixt_start x]) l) as E.
  { clear. induction l as [|x l IH]; [done|]. cbn. rewrite IH. by destruct (running (ixt_start x)). }
  rewrite E in *. apply earliest_spec; [done|done| |done|done].
  intros x lower' Hx Hl'. cbn [returns]. split; [|done]. apply narrows_one; [done|]. apply armed_one.
  rewrite Forall_forall in *. intros s Hs. apply Hu. apply list_elem_of_In, in_flat_map.
  exists x. split; by apply list_elem_of_In.
Qed.

(** The difference of two times, as the code computes it. *)
Lemma difference_spec now m : is_time now -> usec_ok m -> micros now <= micros m ->
  let sec := tv_sec m - tv_sec now in
  let usec := tv_usec m - tv_usec now in
  let (sec, usec) := if usec <? 0 then (sec - 1, usec + 1000000) else (sec, usec) in
  let (sec, usec) := if sec <? 0 then (0, 0) else (sec, usec) in
  let d := if 1000000 <? usec then mkTimeval (sec + 1) (usec - 1000000) else mkTimeval sec usec in
  is_time d /\ micros now + micros d = micros m.
Proof.
  unfold is_time, usec_ok, micros. intros [H1 H2] H3 H4.
  destruct (Z.ltb_spec (tv_usec m - tv_usec now) 0).
  - destruct (Z.ltb_spec (tv_sec m - tv_sec now - 1) 0); [lia|].
    destruct (Z.ltb_spec 1000000 (tv_usec m - tv_usec now + 1000000)); [lia|]. cbn. lia.
  - destruct (Z.ltb_spec (tv_sec m - tv_sec now) 0); [lia|].
    destruct (Z.ltb_spec 1000000 (tv_usec m - tv_usec now)); [lia|]. cbn. lia.
Qed.

(** A result means that no INVITE client transaction has an event. *)
Lemma earliest_some {A} (f : A -> timeval -> outcome (option timeval)) now l : forall lower m,
  earliest f now l lower = Done (Some m) -> forall x, x ∈ l -> exists lower' m', f x lower' = Done (Some m').
Proof.
  induction l as [|y l IH]; intros lower m E x Hx; [by apply not_elem_of_nil in Hx|]. cbn [earliest] in E.
  destruct (f y lower) as [[m'|]| |] eqn:Ef; [|done..]. destruct (later now m'); [done|].
  apply elem_of_cons in Hx as [->|Hx]; [by exists lower, m'|by eapply IH].
Qed.

Lemma earliest_no_event o lower m id t :
  earliest_of ICT o lower = Done (Some m) -> id ∈ transactions_of ICT o -> transactions o !! id = Some t ->
  transactionff t = [].
Proof.
  intros E Hid Ht. destruct (earliest_some _ _ _ _ _ E id Hid) as (lower' & m' & E').
  unfold get_transaction in E'. rewrite Ht in E'. cbn [lift earliest_timer] in E'. unfold earliest_timer in E'.
  by case_bool_decide.
Qed.

(** The end of the sleep, before it is made relative to the present; or nothing to wait for. *)
Definition next_wakeup (o : osip) : outcome (option timeval) :=
  and_then (earliest_of ICT o (in_a_year (clock (sip_world o)))) (fun lower =>
  and_then (earliest_of IST o lower) (fun lower =>
  and_then (earliest_of NICT o lower) (fun lower =>
  and_then (earliest_of NIST o lower) (fun lower =>
  earliest (fun x lower => Done (Some (min_timercmp lower (ixt_start x)))) (clock (sip_world o))
    (ixt_retransmissions o) lower)))).

Lemma next_wakeup_spec o app :
  stack_ok o app -> is_time (clock (sip_world o)) -> Forall usec_ok (wakeups o) ->
  returns (next_wakeup o) (fun r =>
    (forall m, r = Some m -> usec_ok m /\ is_min m (wakeups o)) /\ ahead (clock (sip_world o)) (due o) r).
Proof.
  intros Hok Hnow Hu. pose proof (proj2 Hnow : usec_ok _) as Hnu.
  assert (forall k s, s ∈ stack_timers k o -> s ∈ wakeups o) as Hk.
  { intros k s Hs. unfold wakeups. right. rewrite !elem_of_app. destruct k; auto. }
  assert (Forall usec_ok (wakeups o)) as Hu' by done.
  unfold wakeups in Hu'. apply Forall_cons in Hu' as [Hy Hu']. rewrite !Forall_app in Hu'.
  destruct Hu' as (U1 & U2 & U3 & U4 & U5). unfold next_wakeup. set (now := clock (sip_world o)) in *.
  assert (micros now <= micros (in_a_year now)) as Hle by (unfold micros, in_a_year; cbn; lia).
  apply (and_then_spec (now := now) (D := due o)); [by apply (earliest_of_spec ICT o app); eauto|]. intros m1 M1 L1.
  apply (and_then_spec (now := now)); [by apply (earliest_of_spec IST o app); eauto|]. intros m2 M2 L2.
  apply (and_then_spec (now := now)); [by apply (earliest_of_spec NICT o app); eauto|]. intros m3 M3 L3.
  apply (and_then_spec (now := now)); [by apply (earliest_of_spec NIST o app); eauto|]. intros m4 M4 L4.
  apply ixt_earliest_spec; [done..|]. intros s Hs Hlt. right. exists s. split; [|done].
  unfold wakeups. right. rewrite !elem_of_app. auto.
Qed.

(** There is something to wait for only if nothing is due. *)
Lemma next_wakeup_not_due o app m :
  stack_ok o app -> is_time (clock (sip_world o)) -> Forall usec_ok (wakeups o) ->
  next_wakeup o = Done (Some m) -> ~ due o.
Proof.
  intros Hok Hnow Hu E. pose proof (next_wakeup_spec o app Hok Hnow Hu) as H. rewrite E in H.
  destruct H as [Hm Hge]. destruct (Hm m eq_refl) as [_ [_ Hmin]]. cbn in Hge.
  intros [(id & t & Hid & Ht & Hff)|(s & Hs & Hlt)]; [|specialize (Hmin s Hs); lia].
  apply Hff. unfold next_wakeup, and_then in E.
  destruct (earliest_of ICT o _) as [[m1|]| |] eqn:E1; [|done..]. by eapply earliest_no_event.
Qed.

(** C35: the time the stack may sleep is exact.  It is 0 when there is something to do at once:
    an INVITE client transaction has an event, or one of the timers that run, or of the
    retransmissions for dialogs, has passed.  Otherwise it ends at the earliest of these
    timers and of a year.  (Events of other transactions are not looked at.)  This is for a
    state that the stack can reach, and times whose microseconds are below a million. *)
Theorem sip_timeout_exact o app :
  reachable o app -> is_time (clock (sip_world o)) -> Forall usec_ok (wakeups o) ->
  returns (osip_timers_gettimeout o) (fun d =>
    is_time d /\
    (due o -> micros d = 0) /\
    (~ due o ->
     (exists s, s ∈ wakeups o /\ micros (clock (sip_world o)) + micros d = micros s) /\
     (forall s, s ∈ wakeups o -> micros (clock (sip_world o)) + micros d <= micros s))).
Proof.
  intros Hr Hnow Hu. apply reachable_ok in Hr as Hok.
  pose proof (next_wakeup_spec o app Hok Hnow Hu) as H.
  change (osip_timers_gettimeout o) with (let! r := next_wakeup o in
    match r with
    | None => Done (mkTimeval 0 0)
    | Some lower =>
        let sec := tv_sec lower - tv_sec (clock (sip_world o)) in
        let usec := tv_usec lower - tv_usec (clock (sip_world o)) in
        let (sec, usec) := if usec <? 0 then (sec - 1, usec + 1000000) else (sec, usec) in
        let (sec, usec) := if sec <? 0 then (0, 0) else (sec, usec) in
        Done (if 1000000 <? usec then mkTimeval (sec + 1) (usec - 1000000) else mkTimeval sec usec)
    end).
  destruct (next_wakeup o) as [[m|]| |] eqn:E; [|cbn in H|done..]; cbv beta iota zeta.
  - destruct H as [Hm Hge]. destruct (Hm m eq_refl) as [Hmu [Hin Hmin]].
    pose proof (next_wakeup_not_due o app m Hok Hnow Hu E) as Hdue.
    pose proof (difference_spec _ m Hnow Hmu Hge) as Hd. cbn zeta in Hd.
    repeat case_match; simplify_eq; (split; [apply Hd|]); destruct Hd as [_ ->];
      (split; [intros Hn; by destruct (Hdue Hn)|intros _; split; [by exists m|done]]).
  - destruct H as [_ H]. split; [by unfold is_time; cbn; lia|]. split; [done|]. intros Hn. by destruct (Hn H).
Qed.
