(* ===== verification/SipTheorems.v ===== *)
(** Properties of SIP transactions: the refinement of RFC 3261, the end of a transaction, the
    ACK, and the dispatch of responses and requests. *)

From stdpp Require Import base list option numbers strings gmap.
From S2P Require Import Prelude.
From S2P Require Import SipTypes.
From S2P Require Import SipMessage.
From S2P Require Import SipFsm.
From S2P Require Import SipStack.
From S2P Require Import SipOwnership.
From S2P Require Import SipSpec.
From S2P Require Import SipRefine.
From S2P Require Import SipSafety.
From S2P Require Import SipStackSafety.
From S2P Require Import SipReachable.
From S2P Require Import SipTimers.
From S2P Require Import SipTimeout.

Local Open Scope Z_scope.
Open Scope c_scope.

(** ** Transactions *)

(** C3: the execution of an event by a transaction is the step of the machine of RFC 3261,
    figures 5 to 8, for its kind and phase, with the failures of the transport; an event that
    has no place there does nothing.  There are three other steps, which deviate from the RFC:
    a response to an INVITE that cannot be acknowledged ends the transaction and is not
    passed on; a response whose ACK the transport refuses is not passed on either (the
    user is told of the error); and when no ACK has come for timer H the transaction of an INVITE server ends
    without the user being told of the failure.  The 100 that answers an INVITE after 200 ms is
    left to the user. *)
Theorem sip_transaction_refines_rfc3261 rest t evt w :
  transaction_ok t (e_sip evt :: rest) w -> event_ok evt w ->
  returns (osip_transaction_execute t evt w) (fun '(_, t', w') => exists out,
    transaction_ok t' rest w' /\ does w w' out /\ execution t t' evt w out).
Proof.
  intros Hok He. eapply returns_mono; [by apply (execute_ok rest)|].
  intros [[r t'] w'] (out & H1 & _ & H2 & _ & H3). eauto.
Qed.

(** C34: over any sequence of events the application is told once that the transaction has
    ended, when it is in its last state, and never before; after that the transaction does
    nothing, whatever comes. *)
Theorem sip_transaction_ends_once rest evts t w :
  transaction_ok t (map e_sip evts ++ rest) w -> Forall (fun evt => event_ok evt w) evts ->
  returns (run_events t evts w) (fun '(t', w') => exists out,
    actions w' = actions w ++ out /\
    (is_terminated t = true -> t' = t /\ out = []) /\
    (is_terminated t = false -> kills out = if is_terminated t' then 1%nat else 0%nat)).
Proof.
  intros Hok He. eapply returns_mono; [by apply (run_events_ok rest)|].
  intros [t' w'] (out & _ & _ & D & H1 & H2). exists out. split; [by apply D|]. split; [done|].
  intros Hn. rewrite Hn in H2. lia.
Qed.

(** ** The ACK *)

Lemma clone_id {A} (clone : A -> ret A) l :
  (forall a b, clone a = Ok b -> b = a) -> forall l', osip_list_clone clone l = Ok l' -> l' = l.
Proof.
  intros H. induction l as [|a l IH]; cbn; intros l'; [by intros [= <-]|].
  destruct (clone a) as [b|] eqn:Eb; [|done].
  destruct (osip_list_clone clone l) as [l2|] eqn:El; [|done]. intros [= <-].
  by rewrite (H _ _ Eb), (IH l2).
Qed.

Lemma param_clone_id p p' : osip_uri_param_clone p = Ok p' -> p' = p.
Proof. unfold osip_uri_param_clone. case_match; [done|]. intros [= <-]. by destruct p. Qed.

Lemma uri_clone_id u u' : osip_uri_clone u = Ok u' -> Some u' = u.
Proof.
  destruct u as [u|]; [|done]. unfold osip_uri_clone. case_match; [done|].
  destruct (osip_list_clone _ (url_params u)) eqn:E1; [|done].
  destruct (osip_list_clone _ (url_headers u)) eqn:E2; [|done]. intros [= <-].
  rewrite (clone_id _ _ param_clone_id _ E1), (clone_id _ _ param_clone_id _ E2). by destruct u.
Qed.

Lemma from_clone_id f f' : osip_from_clone f = Ok f' -> Some f' = f.
Proof.
  destruct f as [f|]; [|done]. unfold osip_from_clone. destruct (f_url f) as [u|] eqn:Eu.
  - destruct (osip_uri_clone (Some u)) as [u'|] eqn:E; [|done]. apply uri_clone_id in E.
    destruct (osip_list_clone _ (gen_params f)) eqn:E1; [|done]. intros [= <-].
    rewrite (clone_id _ _ param_clone_id _ E1), E, <- Eu. by destruct f.
  - destruct (osip_list_clone _ (gen_params f)) eqn:E1; [|done]. intros [= <-].
    rewrite (clone_id _ _ param_clone_id _ E1), <- Eu. by destruct f.
Qed.

Lemma call_id_clone_id c c' : osip_call_id_clone c = Ok c' -> Some c' = c.
Proof.
  destruct c as [c|]; [|done]. unfold osip_call_id_clone. case_match; [done|]. intros [= <-]. by destruct c.
Qed.

Lemma cseq_clone_id c c' : osip_cseq_clone c = Ok c' -> Some c' = c.
Proof.
  destruct c as [c|]; [|done]. unfold osip_cseq_clone. case_match; [done|]. intros [= <-]. by destruct c.
Qed.

Lemma via_clone_id v v' : osip_via_clone v = Ok v' -> Some v' = v.
Proof.
  destruct v as [v|]; [|done]. unfold osip_via_clone. case_match; [done|].
  destruct (osip_list_clone _ (via_params v)) eqn:E1; [|done]. intros [= <-].
  rewrite (clone_id _ _ param_clone_id _ E1). by destruct v.
Qed.

Lemma authorization_clone_id a a' : osip_authorization_clone a = Ok a' -> a' = a.
Proof. unfold osip_authorization_clone. intros [= <-]. by destruct a. Qed.

(** The ACK for a response to [invite]; From, Call-ID and the number of the CSeq are those of
    [source].  The credentials are left out when the response asks for new ones. *)
Definition ack_with (source invite response : osip_message) : osip_message :=
  let credentials l := if decide (status_code response = 401 \/ status_code response = 407) then [] else l in
  mkMessage (sip_version invite) (req_uri invite) (Some "ACK") 0 None (credentials (authorizations invite))
    (call_id source) (Some (mkCSeq (Some "ACK") (m_cseq source ≫= cs_number))) (m_from source)
    (credentials (proxy_authorizations invite)) (routes invite) (m_to response) (take 1 (vias invite)).

(** RFC 3261, 17.1.1.3: all but the To header comes from the request. *)
Definition rfc_ack (invite response : osip_message) : osip_message := ack_with invite invite response.

(** RFC 3261, 8.2.6.2: a response has these fields of its request. *)
Definition responds_to (request response : osip_message) : Prop :=
  m_from response = m_from request /\ call_id response = call_id request /\
  m_cseq response ≫= cs_number = m_cseq request ≫= cs_number.

(** C23: the ACK that is made of a request and a response to it has the URI, the version, the
    first Via alone, the routes and, unless the response is a 401 or 407, the credentials of the
    request, and To, From, Call-ID and the number of the CSeq of the response.  It is the ACK of
    RFC 3261, 17.1.1.3, which takes From, Call-ID and number from the request, when those of the response are the
    same, as the RFC requires of a response; the code does not check it (17.1.3 does not ask
    for it), so a response with others gets another ACK.  The URI is the one of the
    request, as in the RFC: the comment in the code, that it must be copied from the
    Contact header, is not followed. *)
Theorem sip_ack_of_response orig response ack :
  ict_create_ack orig response = Ok ack ->
  vias orig <> [] /\ ack = ack_with response orig response /\
  (responds_to orig response -> ack = rfc_ack orig response).
Proof.
  intros H. assert (vias orig <> [] /\ ack = ack_with response orig response) as [Hv ->].
  2:{ split_and!; [done..|]. intros (E1 & E2 & E3). unfold rfc_ack, ack_with. by rewrite E1, E2, E3. }
  revert H. unfold ict_create_ack, ack_with. intros H.
  destruct (osip_from_clone (m_from response)) as [from|] eqn:E1; [|done].
  destruct (osip_from_clone (m_to response)) as [to|] eqn:E2; [|done].
  destruct (osip_call_id_clone (call_id response)) as [cid|] eqn:E3; [|done].
  destruct (osip_cseq_clone (m_cseq response)) as [cseq|] eqn:E4; [|done].
  destruct (is_null (sip_version orig)); [done|].
  destruct (osip_uri_clone (req_uri orig)) as [uri|] eqn:E5; [|done].
  unfold osip_message_get_via in H. destruct (vias orig) as [|v rest] eqn:Ev; [done|]. split; [done|].
  destruct (osip_via_clone (Some v)) as [via|] eqn:E6; [|done]. apply via_clone_id in E6 as [= ->].
  destruct (osip_list_clone _ (routes orig)) as [rs|] eqn:E7; [|done].
  apply clone_id in E7 as ->; [|by intros a b [= ->]%from_clone_id].
  apply from_clone_id in E1, E2. apply call_id_clone_id in E3. apply cseq_clone_id in E4.
  apply uri_clone_id in E5. rewrite <- E1, <- E2, <- E3, <- E4, <- E5. cbn [mbind option_bind take].
  destruct (Z.eqb_spec (status_code response) 401), (Z.eqb_spec (status_code response) 407);
    case_decide; try tauto; cbn [orb] in H; try (by injection H as <-).
  destruct (osip_list_clone _ (authorizations orig)) as [a1|] eqn:A1; [|done].
  destruct (osip_list_clone _ (proxy_authorizations orig)) as [a2|] eqn:A2; [|done].
  apply (clone_id _ _ authorization_clone_id) in A1 as ->, A2 as ->. by injection H as <-.
Qed.

(** ** The transaction of a message *)

(** The branch of a Via. *)
Definition branch_of (v : osip_via) : option string :=
  match param_value (via_params v) "branch" with Done b => b | _ => None end.

(** RFC 3261, 17.1.3: a response belongs to the client transaction whose request had the same
    branch in its first Via and the same method in its CSeq. *)
Definition response_matches (t : osip_transaction) (m : osip_message) : Prop :=
  exists v_request v_response rest branch method,
    topvia t = Some v_request /\ vias m = v_response :: rest /\
    branch_of v_request = Some branch /\ branch_of v_response = Some branch /\
    t_cseq t ≫= cs_method = Some method /\ m_cseq m ≫= cs_method = Some method.

(** The sent-by of a Via: host and port, which is 5060 when none is given. *)
Definition sent_from (v : osip_via) : option (string * string) :=
  match v_host v with Some host => Some (host, default "5060"%string (v_port v)) | None => None end.

(** RFC 3261, 17.2.3: a request belongs to the server transaction whose request had the same
    branch and the same sent-by in its first Via and the same method, or INVITE when it is an
    ACK. *)
Definition request_matches (t : osip_transaction) (m : osip_message) : Prop :=
  exists v_orig v rest branch source orig_method method,
    topvia t = Some v_orig /\ vias m = v :: rest /\
    branch_of v_orig = Some branch /\ branch_of v = Some branch /\
    sent_from v_orig = Some source /\ sent_from v = Some source /\
    t_cseq t ≫= cs_method = Some orig_method /\ m_cseq m ≫= cs_method = Some method /\
    (orig_method = method \/ orig_method = "INVITE" /\ method = "ACK").

Lemma same_sent_by_spec v1 v2 :
  same_sent_by v1 v2 = true <-> exists source, sent_from v1 = Some source /\ sent_from v2 = Some source.
Proof.
  unfold same_sent_by, sent_from.
  destruct (v_host v1) as [h1|], (v_host v2) as [h2|]; try (split; [done|intros (? & ? & ?); congruence]).
  destruct (String.eqb_spec h1 h2) as [->|]; cbn [andb]; [|split; [done|intros (? & ? & ?); congruence]].
  destruct (v_port v2) as [p2|], (v_port v1) as [p1|]; unfold default, from_option, id; rewrite ?String.eqb_eq;
    (split; [intros H; eexists; split; [done|congruence]|intros (? & ? & ?); congruence]).
Qed.

(** The branch of a Via starts with the magic cookie of RFC 3261. *)
Definition compliant (v : osip_via) : Prop := exists rest, branch_of v = Some ("z9hG4bK" ++ rest)%string.

Lemma compliant_is v : compliant v -> exists b, branch_of v = Some b /\ is_compliant b = true.
Proof. intros [rest H]. eexists. split; [exact H|by destruct rest]. Qed.

Lemma branch_get v : named (via_params v) = true -> exists p,
  osip_uri_param_get_byname (via_params v) "branch" = Done p /\ branch_of v = p ≫= gvalue.
Proof.
  intros H. destruct (returns_done _ _ (get_byname_ok (via_params v) "branch" H)) as (p & E & _).
  exists p. split; [done|]. unfold branch_of, param_value. rewrite E. by destruct p.
Qed.

Lemma shape_contexts t : shape t = true ->
  if is_client (ctx_type t) then is_null (ict_context t) && is_null (nict_context t) = false
  else is_null (ist_context t) && is_null (nist_context t) = false.
Proof.
  unfold shape, some. intros H. destruct (ctx_type t); apply andb_true_iff in H as [H _]; cbn;
    apply negb_true_iff in H; rewrite H; by rewrite ?andb_false_r.
Qed.

(** A case in which the function finds no match and there is none. *)
Ltac no_match := by split; [done|naive_solver].

Lemma matching_response_spec t m :
  shape t = true -> is_client (ctx_type t) = true -> headers_ok t -> msg_ok m = true ->
  returns (matching_response_17_1_3 t m) (fun i => i = OSIP_SUCCESS <-> response_matches t m).
Proof.
  intros Hs Hk [(v & Hv & Hn) _ _ (c & Hc & [cm Hcm])] Hm%msg_ok_good.
  apply shape_contexts in Hs. rewrite Hk in Hs. unfold matching_response_17_1_3, response_matches.
  rewrite Hs, Hv, Hc. cbn [mbind option_bind orb lift]. rewrite Hcm.
  destruct (m_cseq m ≫= cs_method) as [method|] eqn:Em; cbn [is_null]; [|no_match].
  destruct (vias m) as [|via l] eqn:Evia; [no_match|].
  destruct (branch_get v Hn) as (p & -> & B).
  destruct (branch_get via) as (p' & E' & B'); [apply (mg_vias _ Hm); rewrite Evia; left|].
  destruct p as [p|]; cbn in B; [rewrite E'|no_match].
  destruct (p' ≫= gvalue) as [b'|] eqn:Ep'; [|cbn; no_match].
  destruct (gvalue p) as [b|]; cbn; [|no_match].
  destruct (String.eqb_spec b b') as [<-|]; cbn; [|no_match].
  destruct (String.eqb_spec method cm) as [<-|]; cbn; [|no_match].
  split; [|done]. intros _. by exists v, via, l, b, method.
Qed.

Lemma matching_request_spec t m w :
  shape t = true -> is_client (ctx_type t) = false -> headers_ok t -> msg_ok m = true ->
  (forall v, topvia t = Some v -> compliant v) -> (forall v l, vias m = v :: l -> compliant v) ->
  returns (matching_request_17_2_3 t m w) (fun i => i = OSIP_SUCCESS <-> request_matches t m).
Proof.
  intros Hs Hk [(v & Hv & Hn) _ _ (c & Hc & [cm Hcm])] Hm%msg_ok_good Cv Cm.
  apply shape_contexts in Hs. rewrite Hk in Hs. unfold matching_request_17_2_3, request_matches.
  rewrite Hs, Hv, Hc. cbn [mbind option_bind orb lift]. rewrite Hcm.
  destruct (m_cseq m ≫= cs_method) as [method|] eqn:Em; cbn [is_null lift]; [|no_match].
  destruct (vias m) as [|via l] eqn:Evia; [no_match|].
  destruct (compliant_is v (Cv v Hv)) as (b & B & C). destruct (compliant_is via (Cm via l eq_refl)) as (b' & B' & C').
  destruct (branch_get v Hn) as (p & -> & E).
  destruct (branch_get via) as (p' & -> & E'); [apply (mg_vias _ Hm); rewrite Evia; left|].
  destruct p as [p|], p' as [p'|]; cbn in E, E'; try congruence. rewrite <- E, <- E', B, B', C, C'. cbn [andb].
  destruct (Nat.eqb_spec (String.length b) (String.length b')); cbn [negb]; [|no_match].
  destruct (String.eqb_spec b b') as [<-|]; cbn [negb]; [|no_match].
  destruct (same_sent_by v via) eqn:Esb; cbn [negb].
  2:{ split; [done|]. intros (v1 & v2 & l' & b1 & src & m1 & m2 & [= <-] & [= <- <-] & _ & _ & S1 & S2 & _).
      rewrite (proj2 (same_sent_by_spec v via)) in Esb; [done|eauto]. }
  apply same_sent_by_spec in Esb as (src & S1 & S2).
  cbn [lift returns].
  assert (success_if ((cm =? "INVITE")%string && (method =? "ACK")%string || (cm =? method)%string) = OSIP_SUCCESS
    <-> cm = method \/ cm = "INVITE"%string /\ method = "ACK"%string) as ->.
  { unfold success_if. destruct (String.eqb_spec cm "INVITE"), (String.eqb_spec method "ACK"),
      (String.eqb_spec cm method); cbn; naive_solver. }
  split; [intros H; by exists v, via, l, b, src, cm, method|naive_solver].
Qed.

(** No transaction of the list has the property; the first that has it. *)
Definition nobody (P : osip_transaction -> Prop) (l : list Z) (o : osip) : Prop :=
  forall id t, id ∈ l -> transactions o !! id = Some t -> ~ P t.

Definition first_with (P : osip_transaction -> Prop) (l : list Z) (o : osip) (id : Z) (t : osip_transaction)
  : Prop :=
  transactions o !! id = Some t /\ P t /\ exists before after, l = before ++ id :: after /\ nobody P before o.

Lemma find_first_spec P matches l o :
  (forall id, id ∈ l -> exists t, transactions o !! id = Some t /\
     returns (matches t) (fun i => i = OSIP_SUCCESS <-> P t)) ->
  returns (find_first matches l o) (fun r =>
    match r with Some id => exists t, first_with P l o id t | None => nobody P l o end).
Proof.
  induction l as [|id l IH]; intros Hl; cbn [find_first]; [by intros ? ? ?%not_elem_of_nil|].
  destruct (Hl id) as (t & Ht & Hm); [left|]. unfold get_transaction. rewrite Ht. cbn [lift].
  eapply returns_bind; [exact Hm|]. intros i Hi. cbn in Hi. destruct (Z.eqb_spec i 0) as [->|Hne].
  - exists t. split; [done|]. split; [by apply Hi|]. exists [], l. split; [done|]. by intros ? ? ?%not_elem_of_nil.
  - assert (forall l', nobody P l' o -> nobody P (id :: l') o) as Hnb.
    { intros l' H id' t' [->|Hin]%elem_of_cons Ht'; [|by eapply H].
      rewrite Ht in Ht'. injection Ht' as <-. intros HP. apply Hne. by apply Hi. }
    eapply returns_mono; [apply IH; intros id' Hid'; apply Hl; by right|].
    intros [id'|] Hr; [|by apply Hnb]. destruct Hr as (t' & Ht' & HP & before & after & -> & Hb).
    exists t'. split; [done|]. split; [done|]. exists (id :: before), after. split; [done|]. by apply Hnb.
Qed.

Lemma typed_response evt m : typed evt m -> msg_ok m = true -> EVT_IS_INCOMINGRESP (e_type evt) = true ->
  MSG_IS_REQUEST m = false /\ EVT_IS_INCOMINGREQ (e_type evt) = false /\
  EVT_IS_MSG (e_type evt) = true /\ EVT_IS_INCOMINGMSG (e_type evt) = true.
Proof.
  intros Ht Hm He. rewrite <- (typed_request _ _ Ht Hm). by destruct (e_type evt).
Qed.

Lemma typed_incoming evt m : typed evt m -> msg_ok m = true -> EVT_IS_INCOMINGREQ (e_type evt) = true ->
  MSG_IS_REQUEST m = true /\ EVT_IS_MSG (e_type evt) = true /\ EVT_IS_INCOMINGMSG (e_type evt) = true.
Proof.
  intros Ht Hm He. rewrite <- (typed_request _ _ Ht Hm). by destruct (e_type evt).
Qed.

(** What a dispatched message does: the first transaction that it belongs to gets the event,
    and nothing happens when there is none. *)
Definition dispatched (P : osip_transaction -> Prop) (k : osip_fsm_type_t) (evt : osip_event) (o : osip)
    (r : option Z) (o' : osip) : Prop :=
  match r with
  | Some id => exists t, first_with P (transactions_of k o) o id t /\
      o' = put_transaction (set_transactionff (transactionff t ++ [set_e_transactionid id evt]) t) o
  | None => nobody P (transactions_of k o) o /\ o' = o
  end.

(** The list of transactions for a message: the ones of INVITE, with its ACK, are apart. *)
Definition response_list (m : osip_message) : osip_fsm_type_t :=
  if decide (m_cseq m ≫= cs_method = Some "INVITE") then ICT else NICT.
Definition request_list (m : osip_message) : osip_fsm_type_t :=
  if decide (m_cseq m ≫= cs_method = Some "INVITE" \/ m_cseq m ≫= cs_method = Some "ACK") then IST else NIST.

Lemma add_found P k o app evt id t :
  stack_ok o app -> first_with P (transactions_of k o) o id t ->
  returns (osip_transaction_add_event id evt o) (fun o' => dispatched P k evt o (Some id) o').
Proof.
  intros Hok Hf. pose proof Hf as (Ht & _). unfold osip_transaction_add_event, get_transaction. rewrite Ht.
  destruct (so_transactions _ _ Hok id t Ht) as [Hwf _]. cbn. rewrite (tw_id _ _ _ Hwf). by exists t.
Qed.

Lemma in_list k o app id : stack_ok o app -> id ∈ transactions_of k o -> exists t,
  transactions o !! id = Some t /\ ctx_type t = k /\ shape t = true /\ headers_ok t.
Proof.
  intros Hok Hin. destruct (so_lists _ _ Hok k) as [_ Hl]. destruct (Hl id Hin) as (t & Ht & Hk).
  destruct (so_transactions _ _ Hok id t Ht) as [Hwf _]. exists t. split_and!; auto; apply Hwf.
Qed.

(** The search for the transaction of a message, as [find_first] with what the match means. *)
Lemma aux_spec P matches k o app evt i m cseq :
  reachable o app -> e_sip evt = Some i -> msgs (sip_world o) !! i = Some m -> m_cseq m = Some cseq ->
  transactions_for evt m (cs_method cseq) = Done (Some k) ->
  osip_transaction_find (transactions_of k o) evt o = find_first matches (transactions_of k o) o ->
  (forall t, ctx_type t = k -> shape t = true -> headers_ok t ->
     (exists id, id ∈ transactions_of k o /\ transactions o !! id = Some t) ->
     returns (matches t) (fun i => i = OSIP_SUCCESS <-> P t)) ->
  returns (osip_find_transaction_aux evt true o) (fun '(r, o') => dispatched P k evt o r o').
Proof.
  intros Hr%reachable_ok Hs Hi Hc Hk Hf Hm. unfold osip_find_transaction_aux. rewrite Hs. cbn [deref lift].
  rewrite Hi. cbn [lift]. rewrite Hc, Hk, Hf.
  eapply returns_bind; [apply (find_first_spec P)|].
  - intros id Hid. destruct (in_list _ _ _ _ Hr Hid) as (t & Ht & H1 & H2 & H3). exists t. eauto.
  - intros [id|] H; [|done]. destruct H as (t & Hfirst).
    destruct (returns_done _ _ (add_found _ _ _ _ evt _ _ Hr Hfirst)) as (o' & -> & H). done.
Qed.

(** C22: a response goes to the first client transaction of its list, INVITE or not, that has
    its branch and its method, as RFC 3261, 17.1.3 says, and to none when there is none;
    nothing else changes. *)
Theorem sip_response_dispatched o app evt m :
  reachable o app -> carries evt o app m -> EVT_IS_INCOMINGRESP (e_type evt) = true ->
  returns (osip_find_transaction_aux evt true o) (fun '(r, o') =>
    dispatched (fun t => response_matches t m) (response_list m) evt o r o').
Proof.
  intros Hr (i & Hs & Hin & Hi & Hty) He.
  pose proof (ho_good _ _ (so_heap _ _ (reachable_ok _ _ Hr)) _ _ Hi) as Hm.
  destruct (typed_response _ _ Hty Hm He) as (H1 & H2 & H3 & H4).
  destruct (m_cseq m) as [cseq|] eqn:Ec.
  - destruct (mg_cseq _ (msg_ok_good _ Hm) _ Ec) as [method Hmt].
    apply (aux_spec _ (fun t => matching_response_17_1_3 t m) _ _ app _ i m cseq); auto.
    + unfold transactions_for, response_list. rewrite H3, H4, H1, Ec. cbn. rewrite Hmt. cbn.
      destruct (String.eqb_spec method "INVITE"); case_decide; congruence.
    + unfold osip_transaction_find. rewrite H2, He, Hs. cbn [deref lift]. rewrite Hi.
      by destruct (transactions_of _ _).
    + intros t Hk Hsh Hh _. apply matching_response_spec; auto. rewrite Hk.
      unfold response_list. by case_decide.
  - unfold osip_find_transaction_aux. rewrite Hs. cbn [deref lift]. rewrite Hi. cbn [lift]. rewrite Ec.
    split; [|done]. intros id t _ _ (? & ? & ? & ? & ? & _ & _ & _ & _ & _ & E). by rewrite Ec in E.
Qed.

(** C36: a request goes to the first server transaction of its list, INVITE and ACK or not,
    that has its branch, its sent-by (host and port, compared as text, with 5060 for a port
    that is not given) and its method, or INVITE when it is an ACK, as RFC
    3261, 17.2.3 says, and to none when there is none; this holds where all branches start with the
    magic cookie z9hG4bK. *)
Theorem sip_request_dispatched o app evt m :
  reachable o app -> carries evt o app m -> EVT_IS_INCOMINGREQ (e_type evt) = true ->
  (forall v l, vias m = v :: l -> compliant v) ->
  (forall id t v, id ∈ transactions_of (request_list m) o -> transactions o !! id = Some t ->
     topvia t = Some v -> compliant v) ->
  returns (osip_find_transaction_aux evt true o) (fun '(r, o') =>
    dispatched (fun t => request_matches t m) (request_list m) evt o r o').
Proof.
  intros Hr (i & Hs & Hin & Hi & Hty) He Cm Cv.
  pose proof (ho_good _ _ (so_heap _ _ (reachable_ok _ _ Hr)) _ _ Hi) as Hm.
  destruct (typed_incoming _ _ Hty Hm He) as (H1 & H2 & H3).
  destruct (m_cseq m) as [cseq|] eqn:Ec.
  - destruct (mg_cseq _ (msg_ok_good _ Hm) _ Ec) as [method Hmt].
    apply (aux_spec _ (fun t => matching_request_17_2_3 t m (sip_world o)) _ _ app _ i m cseq); auto.
    + unfold transactions_for, request_list. rewrite H3, H2, H1, Ec. cbn. rewrite Hmt. cbn.
      destruct (String.eqb_spec method "INVITE"), (String.eqb_spec method "ACK"); cbn; case_decide;
        naive_solver.
    + unfold osip_transaction_find. rewrite He, Hs. cbn [deref lift]. rewrite Hi.
      by destruct (transactions_of _ _).
    + intros t Hk Hsh Hh (id & Hid & Ht). apply matching_request_spec; eauto. rewrite Hk.
      unfold request_list. by case_decide.
  - unfold osip_find_transaction_aux. rewrite Hs. cbn [deref lift]. rewrite Hi. cbn [lift]. rewrite Ec.
    split; [|done]. intros id t _ _ (? & ? & ? & ? & ? & ? & ? & _ & _ & _ & _ & _ & _ & _ & E & _). by rewrite Ec in E.
Qed.

(** The comparison of RFC 2543 of an ACK without a To with a transaction that has its
    Call-ID reads the parameters of the To through [NULL]. *)
Lemma ack_without_to_undefined t m via w :
  headers_ok t -> osip_call_id_match (callid t) (call_id m) = OSIP_SUCCESS ->
  MSG_IS "ACK" m = Done true -> m_to m = None -> matching_request_2543 t m via w = Undef.
Proof.
  intros [_ _ (to & Ht & Hto) _] Hc Ha Hm. unfold matching_request_2543. rewrite Hc, Ha, Hm, Ht.
  unfold from_ok in Hto. apply andb_true_iff in Hto as [Hto _]. cbn [OSIP_SUCCESS Z.eqb negb lift].
  by destruct (returns_done _ _ (get_byname_ok (gen_params to) "tag" Hto)) as (p & -> & _).
Qed.
