(* ===== verification/SipDialogTheorems.v ===== *)
(** The dialogs of SIP: what both ends make of the response to an INVITE, which messages belong
    to a dialog, how a dialog develops, and which retransmissions an ACK ends. *)

From Stdlib Require Import Ascii.
From stdpp Require Import base list option numbers strings gmap relations.
From S2P Require Import Prelude.
From S2P Require Import SipTypes.
From S2P Require Import SipMessage.
From S2P Require Import SipUri.
From S2P Require Import SipFsm.
From S2P Require Import SipStack.
From S2P Require Import SipOwnership.
From S2P Require Import SipUriSpec.
From S2P Require Import SipHeaders.
From S2P Require Import SipDialog.
From S2P Require Import SipDialogSafety.
From S2P Require Import SipStackSafety.
From S2P Require Import SipTheorems.

Local Open Scope Z_scope.
Open Scope c_scope.

(** ** The identity of a dialog (RFC 3261, 12) *)

Definition has_tag (f : osip_from) (v : string) : Prop :=
  exists p, osip_from_get_tag f = Done (Some p) /\ gvalue p = Some v.

(** The message has this Call-ID and these tags. *)
Definition identified (m : osip_message) (id from_tag to_tag : string) : Prop :=
  exists c f t,
    call_id m = Some c /\ call_id_text c = Some id /\
    m_from m = Some f /\ has_tag f from_tag /\ m_to m = Some t /\ has_tag t to_tag.

(** The dialog has this Call-ID and these tags. *)
Definition identity (d : osip_dialog) (id local remote : string) : Prop :=
  d_call_id d = Some id /\ local_tag d = Some local /\ remote_tag d = Some remote.

(** A message that the owner of [d] sends within it. *)
Definition sent_in (d : osip_dialog) (m : osip_message) : Prop :=
  exists id local remote, identity d id local remote /\ identified m id local remote.

(** The two ends of a dialog. *)
Record mirrors (c s : osip_dialog) : Prop := {
  mi_call_id : d_call_id c = d_call_id s;
  mi_caller_tag : local_tag c = remote_tag s;
  mi_callee_tag : remote_tag c = local_tag s;
  mi_caller : local_uri c = remote_uri s;
  mi_callee : remote_uri c = local_uri s;
  mi_routes : route_set c = rev (route_set s);
  mi_cseq : local_cseq c = remote_cseq s;
  mi_state : d_state c = d_state s
}.

(** ** Copies and lists *)

Definition copied (f : osip_from) : bool :=
  match osip_from_clone (Some f) with Ok _ => true | Err _ => false end.

Lemma copied_id f : copied f = true -> osip_from_clone (Some f) = Ok f.
Proof.
  unfold copied. destruct (osip_from_clone (Some f)) as [f'|] eqn:E; [|done].
  by apply from_clone_id in E as [= ->].
Qed.

Lemma osip_list_add_front {A} (l : list A) x : osip_list_add l x 0 = x :: l.
Proof. unfold osip_list_add. destruct l; [done|]. cbn. by case_match. Qed.

Lemma osip_list_add_back {A} (l : list A) x : osip_list_add l x (-1) = l ++ [x].
Proof.
  unfold osip_list_add. destruct l as [|y l]; [done|]. cbn [orb Z.eqb Pos.eqb].
  assert ((Z.of_nat (length (y :: l)) =? 0) = false) as -> by (apply Z.eqb_neq; cbn; lia).
  rewrite take_ge, drop_ge by (cbn; lia). done.
Qed.

Lemma routes_front rrs : forall l,
  forallb copied rrs = true -> add_record_routes 0 rrs l = (OSIP_SUCCESS, rev rrs ++ l).
Proof.
  induction rrs as [|rr rrs IH]; intros l; [done|]. cbn [forallb add_record_routes rev].
  intros [H Hl]%andb_prop. rewrite (copied_id _ H), osip_list_add_front, IH by done. by rewrite <- app_assoc.
Qed.

Lemma routes_back rrs : forall l,
  forallb copied rrs = true -> add_record_routes (-1) rrs l = (OSIP_SUCCESS, l ++ rrs).
Proof.
  induction rrs as [|rr rrs IH]; intros l; cbn [forallb add_record_routes]; [by rewrite app_nil_r|].
  intros [H Hl]%andb_prop. rewrite (copied_id _ H), osip_list_add_back, IH by done. by rewrite <- app_assoc.
Qed.

(** ** Matching *)

#[local] Arguments osip_call_id_to_str : simpl never.
#[local] Arguments osip_from_get_tag : simpl never.

Section matching.

Variables (d : osip_dialog) (m : osip_message) (id local remote mid from_tag to_tag : string).
Hypothesis Hd : identity d id local remote.
Hypothesis Hm : identified m mid from_tag to_tag.

Lemma match_as_uac_eq : osip_dialog_match_as_uac (Some d) (Some m) =
  Done (if String.eqb id mid && String.eqb from_tag local && String.eqb to_tag remote
        then OSIP_SUCCESS else OSIP_UNDEFINED_ERROR).
Proof.
  destruct Hd as (E1 & E2 & E3).
  destruct Hm as (c & f & t & C & Ct & F & (p & Gp & Vp) & T & (q & Gq & Vq)).
  unfold osip_dialog_match_as_uac. rewrite E1, C, F, T, call_id_to_str_eq, Ct, str_txt.
  destruct (String.eqb id mid); [|done]. cbn [negb andb]. rewrite Gp, E2, Vp. cbn.
  destruct (String.eqb from_tag local); [|done]. cbn. rewrite Gq, E3, Vq. cbn. by case_match.
Qed.

Lemma match_as_uas_eq : osip_dialog_match_as_uas (Some d) (Some m) =
  Done (if String.eqb id mid && String.eqb from_tag remote
        then OSIP_SUCCESS else OSIP_UNDEFINED_ERROR).
Proof.
  destruct Hd as (E1 & E2 & E3).
  destruct Hm as (c & f & t & C & Ct & F & (p & Gp & Vp) & T & _).
  unfold osip_dialog_match_as_uas. rewrite E1, C, F, T, call_id_to_str_eq, Ct, str_txt.
  destruct (String.eqb id mid); [|done]. cbn [negb andb]. rewrite E2. cbn.
  rewrite Gp, E3, Vp. cbn. by case_match.
Qed.

End matching.

Lemma mirrors_match c s m :
  mirrors c s -> sent_in c m ->
  osip_dialog_match_as_uas (Some s) (Some m) = Done OSIP_SUCCESS /\
  osip_dialog_match_as_uac (Some c) (Some m) = Done OSIP_SUCCESS.
Proof.
  intros M (id & lt & rt & (E1 & E2 & E3) & Hm). destruct M as [M1 M2 M3].
  rewrite (match_as_uas_eq s m id rt lt id lt rt), (match_as_uac_eq c m id lt rt id lt rt);
    [by rewrite !String.eqb_refl|done|done| |done].
  split_and!; congruence.
Qed.

Lemma mirrors_match_back c s m :
  mirrors c s -> sent_in s m ->
  osip_dialog_match_as_uas (Some c) (Some m) = Done OSIP_SUCCESS /\
  osip_dialog_match_as_uac (Some s) (Some m) = Done OSIP_SUCCESS.
Proof.
  intros M (id & lt & rt & (E1 & E2 & E3) & Hm). destruct M as [M1 M2 M3].
  rewrite (match_as_uas_eq c m id rt lt id lt rt), (match_as_uac_eq s m id lt rt id lt rt);
    [by rewrite !String.eqb_refl|done|done| |done].
  split_and!; congruence.
Qed.

(** ** Creation *)

Definition first {A} (l : list A) : option A := match l with [] => None | a :: _ => Some a end.

(** The response that establishes a dialog for the INVITE: it has the headers that name the
    dialog, and all headers are as the parser makes them. *)
Record establishes (invite r : dialog_message) (id from_tag to_tag : string) (q : osip_cseq)
  : Prop := {
  es_identified : identified r id from_tag to_tag;
  es_cseq : m_cseq r = Some q;
  es_from : if_any copied (m_from r) = true;
  es_to : if_any copied (m_to r) = true;
  es_routes : forallb copied (record_routes r) = true;
  es_contact : if_any copied (first (contacts r)) = true;
  es_invite_contact : if_any copied (first (contacts invite)) = true;
  es_uri : exists u, req_uri invite = Some u /\ named (url_params u) = true
}.

Lemma target_copied l :
  if_any copied (first l) = true ->
  match l with [] => Ok None | c :: _ => let? c := osip_from_clone (Some c) in Ok (Some c) end =
  Ok (first l).
Proof. destruct l as [|c l]; [done|]. cbn [first if_any]. intros H. by rewrite (copied_id _ H). Qed.

Lemma dialog_init_eq (inv : option dialog_message) (r : dialog_message) l rm rmsg q id lv rv line :
  m_cseq r = Some q ->
  (exists c, call_id r = Some c /\ call_id_text c = Some id) ->
  has_tag l lv -> has_tag rm rv -> copied l = true -> copied rm = true ->
  forallb copied (record_routes r) = true -> if_any copied (first (contacts rmsg)) = true ->
  match inv with
  | None => line = None
  | Some i => exists u, req_uri i = Some u /\ param_value (url_params u) "line" = Done line
  end ->
  osip_dialog_init inv r (Some l) (Some rm) rmsg =
  Done (Ok (mkDialog (Some id) (Some lv) (Some rv) line
    (if is_null inv then rev (record_routes r) else record_routes r) (osip_atoi (cs_number q)) 0
    (Some rm) (Some l) (first (contacts rmsg)) (-1) CALLER
    (if MSG_IS_STATUS 2 r then DIALOG_CONFIRMED else DIALOG_EARLY))).
Proof.
  intros Hq (c & C & Ct) (p & Gp & Vp) (p' & Gp' & Vp') Hl Hr Hrr Hc Hline.
  unfold osip_dialog_init. rewrite Hq, C, call_id_to_str_eq, Ct, Gp, Gp', Vp, Vp', str_txt.
  destruct inv as [i|].
  - destruct Hline as (u & Hu & E). rewrite Hu. cbn [lift is_null]. rewrite E, routes_back by done.
    cbn [negb Z.eqb app]. by rewrite (copied_id _ Hl), (copied_id _ Hr), target_copied.
  - subst line. cbn [is_null]. rewrite routes_front, app_nil_r by done.
    cbn [negb Z.eqb app]. by rewrite (copied_id _ Hl), (copied_id _ Hr), target_copied.
Qed.

(** C16: the caller and the callee that make their dialogs of the same response make the two
    ends of one dialog (RFC 3261, 12.1): the tags and the addresses are exchanged, the route
    set of the caller is the Record-Route of the response in reverse order and that of the
    callee is in order, each remote target is the first Contact of the other side, the
    sequence number of the caller is the one the callee expects, and a 2xx confirms both.
    Every message that one of them sends within its dialog is found to belong to the dialog
    of the other, and so are the responses to it. *)
Theorem sip_dialog_ends invite r id from_tag to_tag q :
  establishes invite r id from_tag to_tag q ->
  exists c s,
    osip_dialog_init_as_uac r = Done (Ok c) /\ osip_dialog_init_as_uas invite r = Done (Ok s) /\
    mirrors c s /\ identity c id from_tag to_tag /\
    local_uri c = m_from r /\ remote_uri c = m_to r /\ route_set s = record_routes r /\
    remote_contact_uri c = first (contacts r) /\ remote_contact_uri s = first (contacts invite) /\
    local_cseq c = osip_atoi (cs_number q) /\ remote_cseq c = -1 /\
    d_type c = CALLER /\ d_type s = CALLEE /\
    d_state c = (if MSG_IS_STATUS 2 r then DIALOG_CONFIRMED else DIALOG_EARLY) /\
    forall m,
      (sent_in c m -> osip_dialog_match_as_uas (Some s) (Some m) = Done OSIP_SUCCESS /\
                      osip_dialog_match_as_uac (Some c) (Some m) = Done OSIP_SUCCESS) /\
      (sent_in s m -> osip_dialog_match_as_uas (Some c) (Some m) = Done OSIP_SUCCESS /\
                      osip_dialog_match_as_uac (Some s) (Some m) = Done OSIP_SUCCESS).
Proof.
  intros [(c & f & t & C & Ct & F & Tf & T & Tt) Hq Hf Ht Hrr Hc Hi (u & Hu & Hn)].
  rewrite F in Hf. rewrite T in Ht. cbn in Hf, Ht.
  destruct (returns_done _ _ (param_value_ok _ "line" Hn)) as (line & El & _).
  pose proof (dialog_init_eq None r f t r q id from_tag to_tag None Hq ltac:(eauto) Tf Tt Hf Ht Hrr Hc eq_refl) as E1.
  pose proof (dialog_init_eq (Some invite) r t f invite q id to_tag from_tag line Hq ltac:(eauto) Tt Tf Ht Hf Hrr Hi
    (ex_intro _ u (conj Hu El))) as E2.
  eexists _, _. unfold osip_dialog_init_as_uac, osip_dialog_init_as_uas.
  rewrite F, T, Hq, E1, E2. split; [done|]. split; [done|].
  match goal with |- mirrors ?x ?y /\ _ => assert (mirrors x y) as M by (by split) end.
  split; [exact M|]. split_and!; try done.
  intros m. split; intros H; [by eapply mirrors_match|by eapply mirrors_match_back].
Qed.

(** ** Development *)

(** What the calls for later messages do to a dialog. *)
Inductive dialog_step : osip_dialog -> osip_dialog -> Prop :=
| step_response r i d d' :
    osip_dialog_update_route_set_as_uac (Some d) r = (i, Some d') -> dialog_step d d'
| step_tag r i d d' :
    osip_dialog_update_tag_as_uac (Some d) r = Done (i, Some d') -> dialog_step d d'
| step_request m i d d' :
    osip_dialog_update_route_set_as_uas (Some d) m = (i, Some d') -> dialog_step d d'
| step_cseq m i d d' :
    osip_dialog_update_osip_cseq_as_uas (Some d) m = (i, Some d') -> dialog_step d d'.

(** What never changes, and what does not change any more. *)
Record stable (d d' : osip_dialog) : Prop := {
  sa_call_id : d_call_id d' = d_call_id d;
  sa_local_tag : local_tag d' = local_tag d;
  sa_line : line_param d' = line_param d;
  sa_local_uri : local_uri d' = local_uri d;
  sa_remote_uri : remote_uri d' = remote_uri d;
  sa_local_cseq : local_cseq d' = local_cseq d;
  sa_type : d_type d' = d_type d;
  sa_remote_tag : is_Some (remote_tag d) -> remote_tag d' = remote_tag d;
  sa_routes : d_state d <> DIALOG_EARLY -> route_set d' = route_set d /\ d_state d' <> DIALOG_EARLY;
  sa_confirmed : d_state d = DIALOG_CONFIRMED -> d_state d' = DIALOG_CONFIRMED
}.

#[export] Instance stable_preorder : PreOrder stable.
Proof.
  split; [by split|]. intros a b c [] []. split; try congruence.
  - intros H. rewrite <- sa_remote_tag0 in H |- * by done. auto.
  - intros H. destruct (sa_routes0 H) as [E H']. destruct (sa_routes1 H'). split; congruence.
  - auto.
Qed.

Lemma update_target_spec d m : exists u,
  (update_target d m).2 = set_remote_contact_uri u d.
Proof.
  unfold update_target. destruct (contacts m) as [|c l]; [exists (remote_contact_uri d); by destruct d|].
  destruct (osip_from_clone (Some c)); eexists; done.
Qed.

Lemma update_target_stable d m : stable d (update_target d m).2.
Proof. destruct (update_target_spec d m) as [u ->]. by split. Qed.

Lemma early_routes_stable d rs : d_state d = DIALOG_EARLY -> stable d (set_route_set rs d).
Proof. intros E. split; cbn; try done; rewrite E; done. Qed.

Lemma confirmed_stable d : stable d (set_d_state DIALOG_CONFIRMED d).
Proof. by split. Qed.

Lemma dialog_step_stable d d' : dialog_step d d' -> stable d d'.
Proof.
  destruct 1 as [r i d d' E|r i d d' E|r i d d' E|r i d d' E].
  - destruct r as [r|]; [|by injection E as <- <-]. unfold osip_dialog_update_route_set_as_uac in E.
    pose proof (update_target_stable d r) as S. destruct (update_target d r) as [j d1]. cbn in S.
    case_match; [by injection E as <- <-|]. etrans; [exact S|]. clear S.
    assert (forall d2, stable d1 d2 ->
      stable d1 (if MSG_IS_STATUS 2 r then set_d_state DIALOG_CONFIRMED d2 else d2)) as Hc.
    { intros d2 S. destruct (MSG_IS_STATUS 2 r); [|done]. etrans; [exact S|apply confirmed_stable]. }
    destruct (d_state d1) eqn:Es; [|injection E as <- <-; by apply Hc..].
    destruct (add_record_routes _ _ _) as [k rs]. pose proof (early_routes_stable d1 rs Es).
    destruct (negb (k =? 0)); injection E as <- <-; [done|by apply Hc].
  - destruct r as [r|]; [|by injection E as <- <-]. unfold osip_dialog_update_tag_as_uac in E.
    destruct (m_to r) as [t|]; [|by injection E as <- <-].
    destruct (remote_tag d) eqn:Et; [by injection E as <- <-|]. cbn [is_null negb] in E.
    destruct (osip_from_get_tag t) as [tag| |]; [|done..]. injection E as <- <-.
    split; cbn; try done. rewrite Et. by intros [].
  - destruct r as [r|]; [|by injection E as <- <-]. cbn in E.
    pose proof (update_target_stable d r) as S. destruct (update_target d r). by injection E as <- <-.
  - destruct r as [r|]; [|by injection E as <- <-]. cbn in E.
    repeat case_match; simplify_eq; by split.
Qed.

Lemma dialog_steps_stable d d' : rtc dialog_step d d' -> stable d d'.
Proof. induction 1; [done|]. etrans; [by apply dialog_step_stable|done]. Qed.

(** A dialog whose tags are known keeps its identity. *)
Lemma stable_identity d d' id local remote :
  stable d d' -> identity d id local remote -> identity d' id local remote.
Proof.
  intros [] (E1 & E2 & E3). split_and!; [congruence..|]. rewrite sa_remote_tag0; [done|]. by rewrite E3.
Qed.

(** C17: however a dialog develops with the messages that arrive, it stays the same dialog: its
    Call-ID, its tags once they are known, its addresses and its local sequence number do
    not change, so the same messages belong to it; once it is confirmed it stays so, and its
    route set does not change.  A 2xx gives the dialog its remote target if it has a Contact,
    and an early dialog, which it confirms, its route set, as RFC 3261, 13.2.2.4, demands.  The
    declaration of the function (osip_dialog.h:169, following an older draft) and the comment in its
    body say otherwise: that only the contact, the remote target, is updated. *)
Theorem sip_dialog_development d d' id local remote :
  rtc dialog_step d d' -> identity d id local remote ->
  stable d d' /\
  (forall m mid from_tag to_tag, identified m mid from_tag to_tag ->
     osip_dialog_match_as_uac (Some d') (Some m) = osip_dialog_match_as_uac (Some d) (Some m) /\
     osip_dialog_match_as_uas (Some d') (Some m) = osip_dialog_match_as_uas (Some d) (Some m)) /\
  (forall r : dialog_message,
     MSG_IS_STATUS 2 r = true -> forallb copied (record_routes r) = true ->
     if_any copied (first (contacts r)) = true ->
     osip_dialog_update_route_set_as_uac (Some d') (Some r) =
     (OSIP_SUCCESS, Some (set_d_state DIALOG_CONFIRMED (set_route_set
        (if decide (d_state d' = DIALOG_EARLY) then rev (record_routes r) else route_set d')
        (set_remote_contact_uri
          (match first (contacts r) with Some c => Some c | None => remote_contact_uri d' end) d'))))).
Proof.
  intros S%dialog_steps_stable Hd. split; [done|]. split.
  - intros m mid ft tt Hm. pose proof (stable_identity _ _ _ _ _ S Hd) as Hd'.
    by rewrite !(match_as_uac_eq _ m id local remote mid ft tt), !(match_as_uas_eq _ m id local remote mid ft tt).
  - intros r H2 Hr Hc. unfold osip_dialog_update_route_set_as_uac, update_target. rewrite H2.
    destruct (contacts r) as [|c l]; cbn [first if_any] in *.
    + cbn [negb Z.eqb OSIP_SUCCESS]. destruct (d_state d') eqn:Es;
        rewrite ?routes_front, ?app_nil_r by done; cbn; destruct d'; done.
    + rewrite (copied_id _ Hc). cbn. destruct (d_state d') eqn:Es;
        rewrite ?routes_front, ?app_nil_r by done; cbn; destruct d'; done.
Qed.

(** ** What a matcher leaves out *)

(** The dialog of a request is found without its To tag: a request that another dialog of
    the same Call-ID and remote tag was meant to get is taken for this one. *)
Theorem sip_dialog_other_to_tag d id local remote m to_tag :
  identity d id local remote -> identified m id remote to_tag ->
  osip_dialog_match_as_uas (Some d) (Some m) = Done OSIP_SUCCESS.
Proof. intros Hd Hm. rewrite (match_as_uas_eq d m id local remote id remote to_tag) by done. by rewrite !String.eqb_refl. Qed.

(** A From tag without a value is compared all the same. *)
Theorem sip_dialog_empty_tag d m id local remote c f t p :
  identity d id local remote ->
  call_id m = Some c -> call_id_text c = Some id -> m_from m = Some f -> m_to m = Some t ->
  osip_from_get_tag f = Done (Some p) -> gvalue p = None ->
  osip_dialog_match_as_uac (Some d) (Some m) = Undef /\
  osip_dialog_match_as_uas (Some d) (Some m) = Undef.
Proof.
  intros (E1 & E2 & E3) C Ct F T G V. unfold osip_dialog_match_as_uac, osip_dialog_match_as_uas.
  rewrite E1, C, F, T, call_id_to_str_eq, Ct, str_txt, String.eqb_refl. cbn.
  by rewrite G, E2, E3, V.
Qed.

(** ** Retransmissions of a 2xx *)

Lemma ixt_free_gone x w w' p :
  ixt_free x w = Done w' -> msg2xx x = Some p -> msgs w' !! p = None.
Proof.
  unfold ixt_free. intros E E2. rewrite E2 in E.
  destruct (osip_message_free (ixt_ack x) w) as [w1| |]; [|done..]. unfold osip_message_free in E.
  case_match; [|done]. injection E as <-. apply lookup_delete_eq.
Qed.

(** The dialog of an entry with a 2xx is there, and both its tags are known. *)
Definition tagged (dialogs : gmap Z osip_dialog) (x : ixt) : Prop :=
  is_Some (msg2xx x) -> exists d id local remote,
    dialogs !! ixt_dialog x = Some d /\ dialog_ok d = true /\ identity d id local remote.

(** An ACK with this Call-ID, tag of the From header and number is for the 2xx of an entry: the
    dialog of the 2xx has the Call-ID and this remote tag, and the 2xx has the number. *)
Definition acknowledges (dialogs : gmap Z osip_dialog) (id from_tag number : string)
    (w : SipWorld) (x : ixt) : Prop :=
  exists p m d,
    msg2xx x = Some p /\ msgs w !! p = Some m /\ cs_number <$> m_cseq m = Some (Some number) /\
    dialogs !! ixt_dialog x = Some d /\ d_call_id d = Some id /\ remote_tag d = Some from_tag.

Lemma answers_acknowledges dialogs ack id from_tag to_tag number w x :
  identified ack id from_tag to_tag -> tagged dialogs x ->
  answers dialogs ack number w x <-> acknowledges dialogs id from_tag number w x.
Proof.
  intros Ha Hx. split.
  - intros (p & m & q & d & E & Em & Ec & Ed & Em').
    destruct (Hx ltac:(eauto)) as (d' & id' & local & remote & Ed' & _ & Hd). simplify_eq.
    rewrite (match_as_uas_eq d ack id' local remote id from_tag to_tag Hd Ha) in Em'.
    destruct (String.eqb_spec id' id) as [->|]; [|done]. destruct (String.eqb_spec from_tag remote) as [->|]; [|done].
    exists p, m, d. rewrite Ec. by destruct Hd as (? & _ & ?).
  - intros (p & m & d & E & Em & Ec & Ed & E1 & E3).
    destruct (Hx ltac:(eauto)) as (d' & id' & local & remote & Ed' & _ & Hd). simplify_eq.
    destruct (m_cseq m) as [[q n]|] eqn:Ecs; [|done]. cbn in Ec. injection Ec as ->.
    exists p, m, q, d. split_and!; try done.
    rewrite (match_as_uas_eq d ack id' local remote id from_tag to_tag Hd Ha).
    destruct Hd as (E1' & _ & E3'). rewrite E1 in E1'. rewrite E3 in E3'. injection E1' as ->. injection E3' as ->.
    by rewrite !String.eqb_refl.
Qed.

Lemma identified_valued m id from_tag to_tag : identified m id from_tag to_tag -> from_tag_valued m.
Proof.
  intros (c & f & t & _ & _ & F & (p & Gp & Vp) & _) f' F' p' Gp'.
  rewrite F in F'. injection F' as <-. rewrite Gp in Gp'. injection Gp' as <-. eauto.
Qed.

(** C18: an ACK ends the retransmissions of the first 2xx it acknowledges, whose copy is released:
    the number of the 2xx is that of the ACK, and its dialog has the Call-ID of the ACK and the
    tag of its From header as the remote tag.  The ACK leaves all others and the transactions as they are;
    if it acknowledges none it changes nothing.  The invariant of the stack holds before and after.
    This is for an ACK with tags, in the From and the To header, that have values, and for
    dialogs whose tags are both known.  The To tag is not looked at: also the ACK of another
    dialog with the same Call-ID, remote tag and number ends the retransmissions (RFC 3261,
    12.2.2, and a comment in the code want both tags to be recognized). *)
Theorem sip_ack_ends_retransmissions dialogs i ack q number id from_tag to_tag o app :
  stack_ok o app -> msgs (sip_world o) !! i = Some ack ->
  m_cseq ack = Some (mkCSeq q (Some number)) -> identified ack id from_tag to_tag ->
  Forall (tagged dialogs) (ixt_retransmissions o) ->
  let for_it := acknowledges dialogs id from_tag number (sip_world o) in
  returns (osip_stop_200ok_retransmissions dialogs (Some i) o) (fun '(r, o') =>
    stack_ok o' app /\ transactions o' = transactions o /\
    ((r = None /\ ixt_retransmissions o' = ixt_retransmissions o /\
      Forall (fun x => ~ for_it x) (ixt_retransmissions o)) \/
     (exists l1 x l2 p,
        ixt_retransmissions o = l1 ++ x :: l2 /\ ixt_retransmissions o' = l1 ++ l2 /\
        r = Some (ixt_dialog x) /\ for_it x /\ Forall (fun x => ~ for_it x) l1 /\
        msg2xx x = Some p /\ msgs (sip_world o') !! p = None))).
Proof.
  intros Hok Hi Hq Ha Hk for_it.
  assert (forall l, Forall (tagged dialogs) l -> Forall (fun x => ~ answers dialogs ack number (sip_world o) x) l ->
    Forall (fun x => ~ for_it x) l) as Hnot.
  { intros l Hl Hn. rewrite Forall_forall in Hl, Hn |- *. intros x Hx.
    unfold for_it. rewrite <- (answers_acknowledges dialogs ack id from_tag to_tag) by auto. auto. }
  eapply returns_mono; [apply (osip_stop_200ok_ok dialogs i ack o app); try done; [by eapply identified_valued|]|].
  { eapply Forall_impl; [exact Hk|]. intros x Hx H2. destruct (Hx H2) as (d & ? & ? & ? & ? & ? & _); eauto. }
  intros [r o'] (Hok' & Htr & H). rewrite Hq in H. split; [done|]. split; [done|].
  destruct H as [(Hl & -> & -> & _)|(l1 & x & l2 & E & H1 & Hx & -> & -> & Hf)]; [left; auto|].
  right. assert (exists p, msg2xx x = Some p) as [p Hp] by (destruct Hx as (p & _ & _ & _ & ? & _); eauto).
  rewrite E in Hk. apply Forall_app in Hk as [Hk1 [Hkx _]%Forall_cons].
  exists l1, x, l2, p. split_and!; auto; [by apply (answers_acknowledges dialogs ack id from_tag to_tag)|by eapply ixt_free_gone].
Qed.

Lemma stop_from_dialog_rest p l : forall w l' w',
  stop_from_dialog p l w = Done (l', w') -> forall x, x ∈ l' -> x ∈ l /\ ixt_dialog x <> p.
Proof.
  induction l as [|y l IH]; intros w l' w'; cbn [stop_from_dialog].
  - intros [= <- _] x Hx. by apply not_elem_of_nil in Hx.
  - destruct (Z.eqb_spec (ixt_dialog y) p).
    + destruct (ixt_free y w) as [w1| |]; [|done..]. intros E x Hx.
      destruct (IH _ _ _ E x Hx). split; [by right|done].
    + destruct (stop_from_dialog p l w) as [[l2 w2]| |] eqn:E; [|done..]. intros [= <- _] x Hx.
      apply elem_of_cons in Hx as [->|Hx]; [split; [left|done]|].
      destruct (IH _ _ _ E x Hx). split; [by right|done].
Qed.

(** A dialog is released safely once its retransmissions have been stopped: the stack does not
    need it any more. *)
Theorem sip_dialog_release p dialogs o app :
  stack_ok o app -> is_Some (dialogs !! p) -> Forall (known dialogs) (ixt_retransmissions o) ->
  returns (osip_stop_retransmissions_from_dialog p o) (fun o' => stack_ok o' app /\
    returns (osip_dialog_free (Some p) dialogs) (fun dialogs' =>
      Forall (known dialogs') (ixt_retransmissions o'))).
Proof.
  intros Hok [d Hd] Hk. pose proof (osip_stop_from_dialog_ok p o app Hok) as H.
  unfold osip_stop_retransmissions_from_dialog in *.
  destruct (stop_from_dialog p _ _) as [[l' w']| |] eqn:E; [|done..]. split; [exact H|].
  cbn. rewrite Hd. cbn. rewrite Forall_forall in Hk |- *. intros x Hx H2.
  destruct (stop_from_dialog_rest _ _ _ _ _ E x Hx) as [Hin Hne].
  destruct (Hk x Hin H2) as (d' & Hd' & Hdok). exists d'. by rewrite lookup_delete_ne by congruence.
Qed.
