(* ===== verification/SipExamples.v ===== *)
(** A client and a server that exchange an INVITE and a response: the properties of the SIP
    stack at these states. *)

From stdpp Require Import base list option numbers strings gmap.
From S2P Require Import Prelude.
From S2P Require Import SipTypes.
From S2P Require Import SipMessage.
From S2P Require Import SipFsm.
From S2P Require Import SipStack.
From S2P Require Import SipOwnership.
From S2P Require Import SipSpec.
From S2P Require Import SipRefine.
From S2P Require Import SipSafety.
From S2P Require Import SipStackSafety.
From S2P Require Import SipReachable.
From S2P Require Import SipTimers.
From S2P Require Import SipTimeout.
From S2P Require Import SipTheorems.

Local Open Scope Z_scope.
Open Scope c_scope.

(** ** Messages *)

Definition uri_of (user host : string) : osip_uri :=
  mkUri (Some "sip") (Some user) None (Some host) None [] [] None.
Definition address (user host : string) (tag : option string) : osip_from :=
  mkFrom None (Some (uri_of user host))
    (match tag with Some tag => [mkParam (Some "tag") (Some tag)] | None => [] end).
Definition via_of (branch : string) : osip_via :=
  mkVia (Some "2.0") (Some "UDP") (Some "192.0.2.1") (Some "5062") None
    [mkParam (Some "rport") None; mkParam (Some "branch") (Some branch)].

Definition invite (branch : string) : osip_message :=
  mkMessage (Some "SIP/2.0") (Some (uri_of "bob" "192.0.2.4")) (Some "INVITE") 0 None []
    (Some (mkCallId (Some "a84b4c76e66710") (Some "192.0.2.1"))) (Some (mkCSeq (Some "INVITE") (Some "1")))
    (Some (address "alice" "192.0.2.1" (Some "1928301774"))) [] []
    (Some (address "bob" "192.0.2.4" None)) [via_of branch].

Definition answer (status : Z) (branch : string) : osip_message :=
  mkMessage (Some "SIP/2.0") None None status (Some "Answer") []
    (Some (mkCallId (Some "a84b4c76e66710") (Some "192.0.2.1"))) (Some (mkCSeq (Some "INVITE") (Some "1")))
    (Some (address "alice" "192.0.2.1" (Some "1928301774"))) [] []
    (Some (address "bob" "192.0.2.4" (Some "8321234356"))) [via_of branch].

Definition branch1 : string := "z9hG4bK776asdhds".
Definition branch2 : string := "z9hG4bK887bteiet".

(** ** Runs *)

Fixpoint runs (xs : list op) (o : osip) (app : list Z) : outcome (osip * list Z) :=
  match xs with
  | [] => Done (o, app)
  | x :: xs => let! (o, app) := run_op x o app in runs xs o app
  end.

Lemma runs_app xs ys o app : runs (xs ++ ys) o app = let! (o, app) := runs xs o app in runs ys o app.
Proof.
  revert o app. induction xs as [|x xs IH]; intros o app; cbn; [done|].
  destruct (run_op x o app) as [[o' app']| |]; auto.
Qed.

Definition start : timeval := mkTimeval 100 0.
Definition empty_world : SipWorld := mkSipWorld ∅ 0 start [] [].

(** Where a run ends. *)
Definition after (xs : list op) : osip * list Z :=
  match runs xs (osip_init empty_world) [] with Done r => r | _ => (osip_init empty_world, []) end.

Definition stack (xs : list op) : osip := fst (after xs).
Definition kept (xs : list op) : list Z := snd (after xs).

Lemma init_reachable : reachable (stack []) (kept []).
Proof. by constructor. Qed.

Lemma next_reachable xs x : reachable (stack xs) (kept xs) -> legal x (stack xs) (kept xs) ->
  reachable (stack (xs ++ [x])) (kept (xs ++ [x])).
Proof.
  unfold stack, kept, after. rewrite runs_app. intros Hr Hl.
  destruct (runs xs _ _) as [[o app]| |]; cbn in *; [|by constructor..].
  destruct (run_op x o app) as [[o' app']| |] eqn:E; cbn; [|by constructor..].
  by eapply reach_op.
Qed.

Definition outgoing : osip_event := mkEvent SND_REQINVITE 0 (Some 0).
Definition incoming : osip_event := mkEvent RCV_REQINVITE 0 (Some 0).

(** The client has made a transaction for its INVITE, has sent it, and has got a response. *)
Definition client_ops : list op := [Receive (invite branch1); Create outgoing; Add 1 outgoing].
Definition sent_ops : list op := client_ops ++ [Execute ICT; Receive (answer 180 branch1)].
(** The server has got an INVITE, and gets it again. *)
Definition server_ops : list op :=
  [Receive (invite branch1); Create incoming; Add 1 incoming; Execute IST; Receive (invite branch1)].

(** A message of the application at a place of the heap. *)
Lemma carries_at evt i m xs :
  e_sip evt = Some i -> (if decide (i ∈ kept xs) then true else false) = true ->
  msgs (sip_world (stack xs)) !! i = Some m -> typed evt m -> carries evt (stack xs) (kept xs) m.
Proof. intros Hs Hi Hm Ht. exists i. destruct (decide (i ∈ kept xs)); [done|discriminate]. Qed.

Ltac carried j := apply (carries_at _ j); [reflexivity|vm_compute; reflexivity..|].

(** The run of the first two operations, and the event that starts the transaction. *)
Lemma created_reachable evt :
  typed evt (invite branch1) -> e_sip evt = Some 0 ->
  reachable (stack [Receive (invite branch1); Create evt]) (kept [Receive (invite branch1); Create evt]).
Proof.
  intros Ht Hs. apply (next_reachable [Receive (invite branch1)]).
  - apply (next_reachable []); [apply init_reachable|reflexivity].
  - split; [reflexivity|]. exists (invite branch1). apply carries_at with (i := 0); [done|vm_compute; reflexivity..|done].
Qed.

Lemma own_message p xs : (if decide (p ∈ map Some (kept xs)) then true else false) = true ->
  forall i, p = Some i -> i ∈ kept xs.
Proof.
  intros H i ->. destruct (decide (Some i ∈ map Some (kept xs))) as [Hin|]; [|discriminate].
  apply list_elem_of_fmap in Hin as (j & [= ->] & Hj). done.
Qed.

Lemma invite_named xs : msgs (sip_world (stack xs)) !! 0 = Some (invite branch1) ->
  transport_named (Some 0) (sip_world (stack xs)).
Proof. intros H i m [= <-]. rewrite H. intros [= <-]. reflexivity. Qed.

Lemma client_reachable : reachable (stack client_ops) (kept client_ops).
Proof.
  apply (next_reachable [Receive (invite branch1); Create outgoing]).
  - apply created_reachable; [by right|done].
  - split; [by eexists; vm_compute|]. split; [|by apply own_message; vm_compute].
    split; [reflexivity|]. intros _. apply invite_named. by vm_compute.
Qed.

Lemma sent_reachable : reachable (stack sent_ops) (kept sent_ops).
Proof.
  apply (next_reachable (client_ops ++ [Execute ICT])); [|reflexivity].
  apply (next_reachable client_ops); [apply client_reachable|done].
Qed.

Lemma server_reachable : reachable (stack server_ops) (kept server_ops).
Proof.
  apply (next_reachable [Receive (invite branch1); Create incoming; Add 1 incoming; Execute IST]); [|reflexivity].
  apply (next_reachable [Receive (invite branch1); Create incoming; Add 1 incoming]); [|done].
  apply (next_reachable [Receive (invite branch1); Create incoming]).
  - apply created_reachable; [by left|done].
  - split; [by eexists; vm_compute|]. split; [|by apply own_message; vm_compute].
    split; [reflexivity|]. by intros [?|?].
Qed.

(** ** The properties at these states *)

Lemma sip_stack_safe_witness :
  reachable (stack client_ops) (kept client_ops) /\ legal (Execute ICT) (stack client_ops) (kept client_ops) /\
  returns (run_op (Execute ICT) (stack client_ops) (kept client_ops)) (fun '(o', app') =>
    reachable o' app' /\ accounted (owners (pointers o' app')) (sip_world o')).
Proof.
  split; [exact client_reachable|]. split; [exact I|].
  exact (sip_stack_safe (stack client_ops) (kept client_ops) (Execute ICT) client_reachable I).
Defined.

(** The transaction of the INVITE of the client. *)
Definition transaction_in (o : osip) (id : Z) : osip_transaction :=
  match transactions o !! id with
  | Some t => t
  | None => mkTransaction id [] None None None None None None None None ICT_PRE_CALLING 0 0 0 0 ICT None None None None
  end.
Definition client : osip_transaction := transaction_in (stack client_ops) 1.

Lemma in_stack o id : is_Some (transactions o !! id) -> transactions o !! id = Some (transaction_in o id).
Proof. unfold transaction_in. by intros [t ->]. Qed.

Lemma sip_invite_attempts_witness :
  returns (let! o := osip_execute ICT (stack client_ops) in polls ICT [mkTimeval 101 0; mkTimeval 140 0] o)
    (fun o' => exists t' out,
      transactions o' !! 1 = Some t' /\
      actions (sip_world o') = actions (sip_world (stack client_ops)) ++ out /\
      (List.length (sendings 1 out) <= 7)%nat /\
      (overdue (micros start) [mkTimeval 101 0; mkTimeval 140 0] -> t_state t' = ICT_TERMINATED)).
Proof.
  apply (sip_invite_attempts start (stack client_ops) (kept client_ops) 1 client (set_e_transactionid 1 outgoing)).
  - exact client_reachable.
  - vm_compute. left.
  - apply in_stack. by eexists; vm_compute.
  - split; [vm_compute; reflexivity..|].
    exists (invite branch1), empty_world.
    eexists. split; [vm_compute; reflexivity|]. split; vm_compute; reflexivity.
  - by vm_compute.
  - repeat constructor; by vm_compute.
Defined.

Lemma usec_all l : forallb (fun t => (0 <=? tv_usec t) && (tv_usec t <? 1000000)) l = true -> Forall usec_ok l.
Proof.
  rewrite List.forallb_forall, Forall_forall. intros H t Ht. specialize (H t).
  rewrite andb_true_iff, Z.leb_le, Z.ltb_lt in H. apply H. by apply list_elem_of_In.
Qed.

Lemma sip_timeout_exact_witness :
  returns (osip_timers_gettimeout (stack sent_ops)) (fun d =>
    is_time d /\
    (due (stack sent_ops) -> micros d = 0) /\
    (~ due (stack sent_ops) ->
     (exists s, s ∈ wakeups (stack sent_ops) /\ micros (clock (sip_world (stack sent_ops))) + micros d = micros s) /\
     (forall s, s ∈ wakeups (stack sent_ops) ->
        micros (clock (sip_world (stack sent_ops))) + micros d <= micros s))).
Proof.
  apply (sip_timeout_exact (stack sent_ops) (kept sent_ops)).
  - exact sent_reachable.
  - by vm_compute.
  - apply usec_all. vm_compute. reflexivity.
Defined.

(** The INVITE alone in the heap, and a transaction that has got it. *)
Definition invite_world : SipWorld := mkSipWorld {[0 := invite branch1]} 1 start [] [].

Lemma client_ok rest : (forall j, owners rest j = 0%nat) ->
  transaction_ok (set_transactionff [] client) (Some 0 :: rest) invite_world.
Proof.
  intros Hrest. split; [vm_compute; reflexivity| |intros _ i m Hi; vm_compute in Hi; discriminate].
  split.
  - intros j. assert (held (set_transactionff [] client) = [None; None; None]) as -> by (vm_compute; reflexivity).
    cbn. rewrite Hrest. destruct (decide (j = 0)) as [->|Hne].
    + by rewrite lookup_singleton_eq.
    + rewrite lookup_singleton_ne by done. by rewrite !decide_False by congruence.
  - intros j [m Hj]. cbn in Hj. apply lookup_singleton_Some in Hj as [<- _]. done.
  - intros j m Hj. cbn in Hj. apply lookup_singleton_Some in Hj as [_ <-]. reflexivity.
Qed.

Lemma outgoing_ok : event_ok outgoing invite_world.
Proof. split; [reflexivity|]. intros _ i m [= <-]. cbn. rewrite lookup_singleton_eq. by intros [= <-]. Qed.

Lemma sip_transaction_refines_rfc3261_witness :
  returns (osip_transaction_execute (set_transactionff [] client) outgoing invite_world)
    (fun '(_, t', w') => exists out,
      transaction_ok t' [] w' /\ does invite_world w' out /\
      execution (set_transactionff [] client) t' outgoing invite_world out).
Proof.
  apply (sip_transaction_refines_rfc3261 []); [by apply client_ok|exact outgoing_ok].
Defined.

Lemma timeout_ok w ty : is_timeout ty = true -> event_ok (mkEvent ty 1 None) w.
Proof. intros H. by apply timeout_event_ok. Qed.

(** The INVITE is sent, sent again when timer A fires, and given up when timer B does; a late
    timer does nothing. *)
Lemma sip_transaction_ends_once_witness :
  let t := set_transactionff [] client in
  let evts := [outgoing; mkEvent TIMEOUT_A 1 None; mkEvent TIMEOUT_B 1 None; mkEvent TIMEOUT_A 1 None] in
  returns (run_events t evts invite_world) (fun '(t', w') => exists out,
    actions w' = actions invite_world ++ out /\
    (is_terminated t = true -> t' = t /\ out = []) /\
    (is_terminated t = false -> kills out = if is_terminated t' then 1%nat else 0%nat)).
Proof.
  intros t evts. apply (sip_transaction_ends_once []).
  - apply (client_ok [None; None; None]). by intros j.
  - repeat apply List.Forall_cons; try apply List.Forall_nil; [exact outgoing_ok|by apply timeout_ok..].
Defined.

Lemma sip_ack_of_response_witness : exists ack,
  ict_create_ack (invite branch1) (answer 486 branch1) = Ok ack /\
  sip_method ack = Some "ACK" /\ ack = rfc_ack (invite branch1) (answer 486 branch1).
Proof.
  eexists. split; [vm_compute; reflexivity|].
  match goal with |- sip_method ?a = _ /\ _ =>
    pose proof (sip_ack_of_response (invite branch1) (answer 486 branch1) a eq_refl) as H end.
  destruct H as (_ & _ & H). split; [reflexivity|]. apply H. vm_compute. done.
Defined.

Definition ringing : osip_event := mkEvent RCV_STATUS_1XX 0 (Some 1).

Lemma sip_response_dispatched_witness :
  returns (osip_find_transaction_aux ringing true (stack sent_ops)) (fun '(r, o') =>
    dispatched (fun t => response_matches t (answer 180 branch1)) (response_list (answer 180 branch1))
      ringing (stack sent_ops) r o').
Proof.
  apply (sip_response_dispatched (stack sent_ops) (kept sent_ops) ringing (answer 180 branch1)).
  - exact sent_reachable.
  - carried 1. left. reflexivity.
  - reflexivity.
Defined.

Definition again : osip_event := mkEvent RCV_REQINVITE 0 (Some 1).

Lemma prefix_rest p s : String.prefix p s = true -> exists rest, s = (p ++ rest)%string.
Proof.
  revert s. induction p as [|c p IH]; intros s H; [by exists s|]. destruct s as [|d s]; [done|]. cbn in H.
  destruct (Ascii.ascii_dec c d) as [->|]; [|done]. destruct (IH s H) as [rest ->]. by exists rest.
Qed.

Lemma compliant_branch v : match branch_of v with Some b => is_compliant b | None => false end = true -> compliant v.
Proof.
  destruct (branch_of v) as [b|] eqn:E; [|done]. intros [rest ->]%prefix_rest. by exists rest.
Qed.

Lemma compliant_all l o :
  forallb (fun id => match topvia (transaction_in o id) with
                     | Some v => match branch_of v with Some b => is_compliant b | None => false end
                     | None => true
                     end) l = true ->
  forall id t v, id ∈ l -> transactions o !! id = Some t -> topvia t = Some v -> compliant v.
Proof.
  rewrite List.forallb_forall. intros H id t v Hid Ht Hv. apply compliant_branch.
  specialize (H id). unfold transaction_in in H. rewrite Ht, Hv in H. apply H. by apply list_elem_of_In.
Qed.

Lemma sip_request_dispatched_witness :
  returns (osip_find_transaction_aux again true (stack server_ops)) (fun '(r, o') =>
    dispatched (fun t => request_matches t (invite branch1)) (request_list (invite branch1))
      again (stack server_ops) r o').
Proof.
  apply (sip_request_dispatched (stack server_ops) (kept server_ops) again (invite branch1)).
  - exact server_reachable.
  - carried 1. left. reflexivity.
  - reflexivity.
  - intros v l [= <- _]. apply compliant_branch. reflexivity.
  - apply compliant_all. vm_compute. reflexivity.
Defined.

(** What these runs do: the response reaches the transaction, which passes it on; the INVITE
    that comes again finds its transaction too. *)
Example ringing_finds : fst <$> (match osip_find_transaction_aux ringing true (stack sent_ops) with
                                 | Done r => Some r | _ => None end) = Some (Some 1).
Proof. vm_compute. reflexivity. Qed.

Example again_finds : fst <$> (match osip_find_transaction_aux again true (stack server_ops) with
                               | Done r => Some r | _ => None end) = Some (Some 1).
Proof. vm_compute. reflexivity. Qed.
