(* ===== verification/SipDialogExamples.v ===== *)
(** A caller and a callee that make a dialog of an INVITE and its response, and the ACK that
    ends the retransmissions of the 2xx: the properties of dialogs at these states. *)

From stdpp Require Import base list option numbers strings gmap relations.
From S2P Require Import Prelude.
From S2P Require Import SipTypes.
From S2P Require Import SipMessage.
From S2P Require Import SipUri.
From S2P Require Import SipStack.
From S2P Require Import SipOwnership.
From S2P Require Import SipStackSafety.
From S2P Require Import SipHeaders.
From S2P Require Import SipDialog.
From S2P Require Import SipDialogSafety.
From S2P Require Import SipReachable.
From S2P Require Import SipDialogTheorems.
From S2P Require Import SipExamples.

Local Open Scope Z_scope.
Open Scope c_scope.

Definition proxy (name : string) : osip_from :=
  mkFrom None (Some (mkUri (Some "sip") None None (Some name) None [mkParam (Some "lr") None] [] None)) [].

Definition invited : dialog_message :=
  mkDialogMessage (invite branch1) [address "alice" "pc33.example.com" None] [proxy "p2"; proxy "p1"].
Definition answered (status : Z) : dialog_message :=
  mkDialogMessage (answer status branch1) [address "bob" "192.0.2.4" None] [proxy "p2"; proxy "p1"].

Definition dialog_id : string := "a84b4c76e66710@192.0.2.1".
Definition number_1 : osip_cseq := mkCSeq (Some "INVITE") (Some "1").

(** The dialogs that the two ends make. *)
Definition made (d : outcome (ret osip_dialog)) : osip_dialog :=
  match d with
  | Done (Ok d) => d
  | _ => mkDialog None None None None [] 0 0 None None None 0 CALLER DIALOG_CLOSE
  end.
Definition caller (status : Z) : osip_dialog := made (osip_dialog_init_as_uac (answered status)).
Definition callee : osip_dialog := made (osip_dialog_init_as_uas invited (answered 200)).

Definition the_ack : osip_message :=
  set_m_cseq (Some (mkCSeq (Some "ACK") (Some "1"))) (set_sip_method (Some "ACK")
    (set_m_to (Some (address "bob" "192.0.2.4" (Some "8321234356"))) (invite branch2))).

Lemma answer_identified status : identified (answer status branch1) dialog_id "1928301774" "8321234356".
Proof. do 3 eexists. repeat split; [eexists; vm_compute; done|eexists; vm_compute; done]. Qed.

Lemma response_establishes : establishes invited (answered 200) dialog_id "1928301774" "8321234356" number_1.
Proof. split; try (vm_compute; reflexivity); [apply answer_identified|]. eexists. split; reflexivity. Qed.

Lemma sip_dialog_ends_witness :
  exists c s,
    osip_dialog_init_as_uac (answered 200) = Done (Ok c) /\
    osip_dialog_init_as_uas invited (answered 200) = Done (Ok s) /\ mirrors c s.
Proof.
  destruct (sip_dialog_ends invited (answered 200) dialog_id "1928301774" "8321234356" number_1
    response_establishes) as (c & s & H1 & H2 & H3 & _).
  exists c, s. split; [exact H1|]. split; [exact H2|exact H3].
Defined.

(** A dialog that a 180 has made, and a 200 confirms. *)
Definition confirmed : osip_dialog :=
  match osip_dialog_update_route_set_as_uac (Some (caller 180)) (Some (answered 200)) with
  | (_, Some d) => d
  | _ => caller 180
  end.

Example confirmed_routes :
  d_state (caller 180) = DIALOG_EARLY /\ d_state confirmed = DIALOG_CONFIRMED /\
  route_set confirmed = [proxy "p1"; proxy "p2"] /\ route_set callee = [proxy "p2"; proxy "p1"].
Proof. vm_compute. done. Qed.

Lemma confirmed_developed : rtc dialog_step (caller 180) confirmed.
Proof. apply rtc_once. by apply (step_response (Some (answered 200)) 0). Qed.

Lemma caller_identity : identity (caller 180) dialog_id "1928301774" "8321234356".
Proof. vm_compute. repeat split. Qed.

Lemma sip_dialog_development_witness :
  stable (caller 180) confirmed /\
  osip_dialog_match_as_uac (Some confirmed) (Some (answer 200 branch1)) =
  osip_dialog_match_as_uac (Some (caller 180)) (Some (answer 200 branch1)).
Proof.
  destruct (sip_dialog_development (caller 180) confirmed dialog_id "1928301774" "8321234356"
    confirmed_developed caller_identity) as (S & M & _).
  split; [exact S|]. exact (proj1 (M _ _ _ _ (answer_identified 200))).
Defined.

(** ** The ACK *)

Definition callee_ops : list op := [Receive (answer 200 branch1); Start200 7 0 5; Receive the_ack].
Definition the_dialogs : gmap Z osip_dialog := {[ 7 := callee ]}.

Lemma callee_reachable : reachable (stack callee_ops) (kept callee_ops).
Proof.
  apply (next_reachable [Receive (answer 200 branch1); Start200 7 0 5]); [|reflexivity].
  apply (next_reachable [Receive (answer 200 branch1)]).
  - apply (next_reachable []); [apply init_reachable|reflexivity].
  - vm_compute. eauto.
Qed.

Lemma ack_identified : identified the_ack dialog_id "1928301774" "8321234356".
Proof. vm_compute. do 3 eexists. repeat split; eexists; done. Qed.

Lemma callee_tagged : Forall (tagged the_dialogs) (ixt_retransmissions (stack callee_ops)).
Proof. vm_compute. constructor; [|constructor]. intros _. do 4 eexists. repeat split; reflexivity. Qed.

Example ack_stops :
  match osip_stop_200ok_retransmissions the_dialogs (Some 2) (stack callee_ops) with
  | Done (Some 7, o) => ixt_retransmissions o = [] /\ msgs (sip_world o) !! 1 = None
  | _ => False
  end.
Proof. vm_compute. done. Qed.

Lemma sip_ack_ends_retransmissions_witness :
  returns (osip_stop_200ok_retransmissions the_dialogs (Some 2) (stack callee_ops)) (fun '(r, o') =>
    stack_ok o' (kept callee_ops) /\ transactions o' = transactions (stack callee_ops)).
Proof.
  apply (returns_mono _ _ _ (sip_ack_ends_retransmissions the_dialogs 2 the_ack (Some "ACK") "1"
    dialog_id "1928301774" "8321234356"
    (stack callee_ops) (kept callee_ops) (reachable_ok _ _ callee_reachable) ltac:(vm_compute; reflexivity)
    eq_refl ack_identified callee_tagged)).
  intros [r o'] (H1 & H2 & _). split; [exact H1|exact H2].
Defined.

(** The parser gives a tag without a value. *)
Example empty_tag_parsed :
  match osip_from_parse osip_from_init (txt "<sip:alice@192.0.2.1>;tag") with
  | Done (0, f) => gen_params f = [mkParam (Some "tag") None]
  | _ => False
  end.
Proof. vm_compute. done. Qed.
